(* ===== verification/_CoqProject ===== *)
-Q . S2P
Prelude.v
Params.v
Bytes.v
State.v
Spinlock.v
Mem.v
Cstring.v
Mp.v
Bootmain.v
Kalloc.v
PageTable.v
Uaccess.v
Procs.v
Sched.v
SchedSpec.v
Bio.v
BioSpec.v
CacheSpec.v
BlockSpec.v
Log.v
LogSpec.v
CommitSpec.v
CrashSpec.v
Inode.v
BallocSpec.v
DiskSpec.v
BmapSpec.v
DinodeSpec.v
Console.v
Fs.v
WriteSpec.v
ReadSpec.v
File.v
FsSpec.v
DirSpec.v
IcacheSpec.v
TruncSpec.v
DirThms.v
DirLink.v
Sample.v
LockThms.v
PipeSpec.v
User.v
Grep.v
GrepSpec.v
Printf.v
Tools.v
ToolsSpec.v
Umalloc.v
UmallocSpec.v
Mkfs.v
MkfsSpec.v
MkfsThms.v
Sh.v
ShSpec.v
ShRun.v
SampleFs.v
SampleDir.v
ConsoleSpec.v
Kbd.v
FsThms.v
KallocSpec.v
Queue.v
QueueSpec.v
Sysfile.v
CreateSpec.v
Swap.v
Vm.v
VmSpec.v
Proc.v
SchedThms.v
Exec.v
Trap.v
Apic.v
SwapSpec.v
FaultSpec.v
SwapFile.v
SamplePaged.v
PagingThms.v
VmThms.v
