(* ===== verification/Prelude.v ===== *)
(** * xv6 with paging to a swap file: a verification development

    The program is a small Unix kernel for the x86 with its user programs, extended by paging:
    a process keeps at most sixteen pages in memory, and the others in a swap file of its own in
    the root directory.  The development translates the C code into Rocq functions over an
    explicit state and proves what the parts promise to each other.

    ** How the code is represented

    - Integers are [Z]; the places where the C type wraps around apply [u8], [u16], [u32] or
      [s32] (Prelude).  Pointers are addresses.  Physical memory is a finite map of bytes (Mem).
    - Kernel code is a computation [K A] of the state and error monad [M] (Prelude): it ends in
      [Ok a k], or in [Err e k] with [Panic] for a call of [panic], [UB] for an access outside an
      array or a missing object, and [OutOfFuel].
    - The state [kernel] (State) has five parts: the machine (CPUs, control registers, memory,
      spinlocks), the memory of the allocator, the process table, the file system (buffers, log,
      inodes, files, pipes, disk), and the console.
    - A process that sleeps lets the rest of the system run.  What the others do meanwhile is an
      argument of the model, the class [world] (Sched); the theorems on the file system ask of it
      that the disk interrupt comes and that nobody else takes the locks ([DiskWorld], BioSpec).
    - User programs are computations over the memory of the process and an interface of system
      calls (the class [uenv], User); the shell's [runcmd] is a program of system calls (ShRun).
    - [mkfs.c] runs on the host; the calls of the host it makes are arguments (Mkfs).
    - Code that runs before the kernel is up, or talks to devices only, has a small state of its
      own: the tables of the firmware in memory (Mp), the ports of the boot disk (Bootmain), the
      registers of the interrupt controllers and the clock (Apic).  What the hardware shows at each
      read is an argument.

    ** The files

    - Prelude, Params, Bytes, State: the monad, integers and arrays; the constants of the
      headers; little-endian words in blocks; the records of [proc.h], [fs.h], [file.h], [buf.h].
    - Spinlock, LockThms: [spinlock.c].  Mem, Cstring: [string.c].
    - Kalloc, KallocSpec: [kalloc.c].  PageTable, Uaccess, Vm, VmSpec, VmThms: [vm.c].
    - Procs, Sched, SchedSpec, Proc: [proc.c] and [sleeplock.c].  SchedThms: the scheduler, and the
      first process, which mounts the file system; [wait] is in VmThms.
    - Queue, QueueSpec: the page queues and replacement policies in [proc.c].
    - Swap, SwapSpec, SwapFile, FaultSpec, PagingThms: [swapToFile], the page fault of [trap.c],
      and the swap file of [fs.c].
    - Bio, BioSpec, CacheSpec, BlockSpec: [bio.c], [ide.c] and [memide.c].
    - Log, LogSpec, CommitSpec, CrashSpec: [log.c].
    - Inode, Fs, BallocSpec, DiskSpec, BmapSpec, DinodeSpec, WriteSpec, ReadSpec, IcacheSpec,
      TruncSpec: [fs.c]; DirSpec, DirThms, DirLink: its directories and paths; CreateSpec: [create]
      of [sysfile.c].
    - File, PipeSpec, FsSpec, FsThms: [file.c] and [pipe.c].
    - Console, ConsoleSpec: [console.c] and the output of [uart.c].  Kbd: [kbd.c], [kbd.h] and the
      input of [uart.c].
    - Mp: [mp.c].  Apic: [lapic.c], [ioapic.c], [picirq.c].  Bootmain: [bootmain.c].
    - Sysfile, Exec, Trap: [sysfile.c], [exec.c], [syscall.c], [sysproc.c], [trap.c].
    - User, Printf, Umalloc, UmallocSpec: [ulib.c], [printf.c], [umalloc.c].
    - Tools, ToolsSpec: [cat.c], [wc.c], [echo.c], [rm.c], [mkdir.c], [ln.c], [kill.c].
    - Grep, GrepSpec: [grep.c].  Sh, ShSpec, ShRun: [sh.c].  Mkfs, MkfsSpec, MkfsThms: [mkfs.c].
    - Sample, SampleFs, SampleDir, SamplePaged: concrete kernels on which the theorems are instantiated.

    ** What the theorems show

    - Paging: a page fault and [swapToFile] do not change what the process sees of its memory,
      through the swap file as the file system stores it; the replacement policies choose the page
      their definition names; the swap file returns what was written to it.
    - Crash safety: whatever disk write of [end_op] or of recovery is the last before the machine
      stops, the next boot finds the transaction done or not begun.
    - Files: [filewrite], [fileread], [bmap], [balloc], [bfree], [iupdate], [bread] do what their
      specification over the contents of the blocks says, and keep the invariant of the disk;
      [mkfs] establishes that invariant, and [forkret] mounts the disk.  Closing a file that no
      directory names gives back its inode and exactly its blocks.
    - Names: [namex] follows a path through the directories to the inode they name and gives every
      reference but one back; [dirlink] adds a name and changes no other; [create] makes an empty file
      under a path, or returns the one that is there.
    - Processes: a round of the scheduler gives every process that can run its turn, in order, and
      only a process that does not come back can hold it up; [wait] gives back all memory of a child
      that has ended.
    - Memory: the allocator is a stack of pages; address spaces are copied and freed exactly; locks
      nest and restore the interrupt flag.
    - Bounded buffers: a pipe refines a queue of 512 bytes, the console a line editor; the scan
      codes of a line typed on the keyboard deliver that line.
    - Start: the boot loader puts every segment of the kernel in its place; [mpinit] records the
      processors of the firmware's tables; interrupts go to the processors they were sent to; the
      clock's date is one it showed.
    - User level: [malloc] and [free] keep the ring of free blocks and never touch memory in use;
      the shell reads back every command of its grammar into nodes that [malloc] gives, and starts
      every program with its files;
      [grep] prints the lines that match, [cat] the texts of its files, [wc] their counts; [printf],
      [atoi] and the string functions.

    ** Bounds and fuel

    Loops whose bound is an array or a count of the code recurse on it.  The other loops take fuel;
    the theorems show that the fuel the model gives is enough: [patience] bounds the number of
    times a process goes back to sleep, and the theorems on operations that wait show that they
    wait at most once; [strlen] and the loops over strings take fuel from the length of the string.
    A loop that waits for a device takes its fuel as an argument, and its theorem asks that the device
    gets ready within it.  The loop of [mpinit] has no such bound: an entry of unknown type keeps it
    going with any fuel, which is a theorem.

    ** Not modelled

    - Segment registers, the interrupt table and the probing of devices ([seginit], [tvinit],
      [ideinit], [uartinit]): instructions that load hardware tables, with no result in the program.
    - [swtch] and the assembly files: switching to another process is a step of [world].
    - [init.c], [ls.c], and the tests [usertests.c], [stressfs.c], [forktest.c], [zombie.c] and
      [myMemTest.c]: they exercise the kernel through system calls and print what they find; what
      they rely on is stated of the kernel itself.
*)

From stdpp Require Export base tactics decidable numbers list list_numbers gmap sets strings.
From Stdlib Require Export ZArith Lia.

#[export] Set Default Goal Selector "!".
Global Open Scope Z_scope.

(** Keep [cbn] and [simpl] from exposing the definitions of bit operations. *)
#[global] Arguments Z.land : simpl never.
#[global] Arguments Z.lor : simpl never.
#[global] Arguments Z.lxor : simpl never.
#[global] Arguments Z.lnot : simpl never.
#[global] Arguments Z.ldiff : simpl never.
#[global] Arguments Z.shiftl : simpl never.
#[global] Arguments Z.shiftr : simpl never.
#[global] Arguments Z.testbit : simpl never.
#[global] Arguments Z.ones : simpl never.
#[global] Arguments Z.pow : simpl never.

Ltac Zify.zify_post_hook ::= Z.div_mod_to_equations.

(** ** Outcomes of kernel code

    A C function either returns ([Ok]), or stops: it panics, it switches to
    another thread and does not come back, it spins on a lock that another CPU
    holds, it takes a page fault on a user address, it does something C leaves
    undefined (an access outside an array, a null dereference), or the bound on
    a loop that the model runs with fuel is reached. *)
Inductive err (L : Type) : Type :=
  | Panic (msg : string)
  | Switched
  | Spinning (l : L)
  | Fault (va : Z)
  | UB (what : string)
  | OutOfFuel.
Arguments Panic {L}.
Arguments Switched {L}.
Arguments Spinning {L}.
Arguments Fault {L}.
Arguments UB {L}.
Arguments OutOfFuel {L}.

Inductive outcome (E S A : Type) : Type :=
  | Ok (a : A) (s : S)
  | Err (e : E) (s : S).
Arguments Ok {E S A}.
Arguments Err {E S A}.

(** State passing with errors: the state at the point of the error is kept. *)
Definition M (E S A : Type) : Type := S → outcome E S A.

Section monad.
Context {E S : Type}.

Definition ret {A} (a : A) : M E S A := λ s, Ok a s.
Definition bind {A B} (m : M E S A) (f : A → M E S B) : M E S B := λ s,
  match m s with
  | Ok a s' => f a s'
  | Err e s' => Err e s'
  end.

Definition get : M E S S := λ s, Ok s s.
Definition gets {A} (f : S → A) : M E S A := λ s, Ok (f s) s.
Definition modify (f : S → S) : M E S unit := λ s, Ok tt (f s).
Definition fail {A} (e : E) : M E S A := λ s, Err e s.

End monad.

Declare Scope kernel_scope.
Delimit Scope kernel_scope with kernel.
Notation "x ← m ; k" := (bind m (λ x, k))
  (at level 20, m at level 100, k at level 200, only parsing) : kernel_scope.
Notation "' p ← m ; k" := (bind m (λ x, let 'p := x in k))
  (at level 20, p pattern, m at level 100, k at level 200, only parsing) : kernel_scope.
Notation "m ;; k" := (bind m (λ _, k))
  (at level 100, k at level 200, right associativity) : kernel_scope.
Global Open Scope kernel_scope.

Section loops.
Context {E S : Type}.

(** [when b m] is [if (b) m;]. *)
Definition when (b : bool) (m : M E S unit) : M E S unit :=
  if b then m else ret tt.

(** [forM l f] is a [for] loop whose index runs through [l]. *)
Fixpoint forM {A} (l : list A) (f : A → M E S unit) : M E S unit :=
  match l with
  | [] => ret tt
  | x :: l => f x ;; forM l f
  end.

Lemma bind_ok {A B} (m : M E S A) (f : A → M E S B) s a s' :
  m s = Ok a s' → bind m f s = f a s'.
Proof. intros H. unfold bind. by rewrite H. Qed.

Lemma bind_err {A B} (m : M E S A) (f : A → M E S B) s e s' :
  m s = Err e s' → bind m f s = Err e s'.
Proof. intros H. unfold bind. by rewrite H. Qed.

Lemma bind_ok_inv {A B} (m : M E S A) (f : A → M E S B) s b s' :
  bind m f s = Ok b s' → ∃ a s1, m s = Ok a s1 ∧ f a s1 = Ok b s'.
Proof. unfold bind. destruct (m s); naive_solver. Qed.

Lemma bind_assoc {A B C} (m : M E S A) (f : A → M E S B) (g : B → M E S C) s :
  bind (bind m f) g s = bind m (λ x, bind (f x) g) s.
Proof. unfold bind. by destruct (m s). Qed.

Lemma bind_ret {A B} (a : A) (f : A → M E S B) s : bind (ret a) f s = f a s.
Proof. done. Qed.

Lemma bind_when_false {B} m (f : unit → M E S B) s : bind (when false m) f s = f tt s.
Proof. done. Qed.

Lemma bind_when_true {B} m (f : unit → M E S B) s : bind (when true m) f s = bind m f s.
Proof. done. Qed.

Lemma bind_gets {A B} (h : S → A) (f : A → M E S B) s : bind (gets h) f s = f (h s) s.
Proof. done. Qed.

Lemma bind_modify {B} (h : S → S) (f : unit → M E S B) s : bind (modify h) f s = f tt (h s).
Proof. done. Qed.

(** A prefix of two commands that was run as one. *)
Lemma seq2_ok {A1 A B} (a : M E S A1) (b : M E S A) (f : A → M E S B) s x s' :
  (a ;; b) s = Ok x s' → (a ;; x ← b; f x) s = f x s'.
Proof. unfold bind. destruct (a s) as [? s1|]; [|done]. by intros ->. Qed.

Lemma forM_app {A} (l1 l2 : list A) (f : A → M E S unit) s s' :
  forM l1 f s = Ok tt s' → forM (l1 ++ l2) f s = forM l2 f s'.
Proof.
  revert s. induction l1 as [|x l1 IH]; intros s; simpl.
  - by intros [= ->].
  - intros H. apply bind_ok_inv in H as (? & s1 & Hx & H).
    erewrite bind_ok by done. by apply IH.
Qed.
End loops.

Arguments ret _ _ _ _ _ /.
Arguments bind _ _ _ _ _ _ _ /.
Arguments get _ _ _ /.
Arguments gets _ _ _ _ _ /.
Arguments modify _ _ _ _ /.
Arguments fail _ _ _ _ _ /.

(** ** Integers at their C width *)

Definition u32 (x : Z) : Z := x mod 2 ^ 32.
Definition s32 (x : Z) : Z := (x + 2 ^ 31) mod 2 ^ 32 - 2 ^ 31.
Definition s16 (x : Z) : Z := (x + 2 ^ 15) mod 2 ^ 16 - 2 ^ 15.
Definition u16 (x : Z) : Z := x mod 2 ^ 16.
Definition u8 (x : Z) : Z := x mod 2 ^ 8.

Lemma u32_range x : 0 ≤ u32 x < 2 ^ 32.
Proof. unfold u32. lia. Qed.

Lemma u32_small x : 0 ≤ x < 2 ^ 32 → u32 x = x.
Proof. unfold u32. lia. Qed.

Lemma s32_small x : - 2 ^ 31 ≤ x < 2 ^ 31 → s32 x = x.
Proof. unfold s32. lia. Qed.

Lemma s32_range x : - 2 ^ 31 ≤ s32 x < 2 ^ 31.
Proof. unfold s32. lia. Qed.

(** The C truth value of an [int] or a pointer. *)
Definition truthy (x : Z) : bool := negb (x =? 0).

#[global] Arguments truthy : simpl never.
#[global] Arguments u32 : simpl never.
#[global] Arguments s32 : simpl never.
#[global] Arguments u16 : simpl never.
#[global] Arguments s16 : simpl never.
#[global] Arguments u8 : simpl never.

Lemma truthy_0 : truthy 0 = false.
Proof. done. Qed.

Lemma truthy_1 : truthy 1 = true.
Proof. done. Qed.

Lemma truthy_false x : truthy x = false ↔ x = 0.
Proof. unfold truthy. destruct (Z.eqb_spec x 0); naive_solver. Qed.

Lemma truthy_true x : truthy x = true ↔ x ≠ 0.
Proof. unfold truthy. destruct (Z.eqb_spec x 0); naive_solver. Qed.

(** ** C arrays

    An array is a list; reading or writing outside it is undefined
    behaviour.  Indices are [Z], since the code computes with [int]. *)
Section array.
Context {A : Type}.
Implicit Types (l : list A) (i : Z).

Definition aget (l : list A) (i : Z) : option A :=
  if 0 <=? i then l !! Z.to_nat i else None.
Definition aset (l : list A) (i : Z) (x : A) : option (list A) :=
  if (0 <=? i) && (i <? Z.of_nat (length l)) then Some (<[Z.to_nat i := x]> l) else None.

Lemma aget_nat l (n : nat) : aget l (Z.of_nat n) = l !! n.
Proof. unfold aget. rewrite (proj2 (Z.leb_le _ _)) by lia. by rewrite Nat2Z.id. Qed.

Lemma aget_Some_range l i x : aget l i = Some x → 0 ≤ i < Z.of_nat (length l).
Proof.
  unfold aget. case_match eqn:Hi; [|done]. intros H%lookup_lt_Some. lia.
Qed.

Lemma aget_is_Some l i : 0 ≤ i < Z.of_nat (length l) → is_Some (aget l i).
Proof.
  intros ?. unfold aget. rewrite (proj2 (Z.leb_le _ _)) by lia.
  apply lookup_lt_is_Some. lia.
Qed.

Lemma aset_in l i x : 0 ≤ i < Z.of_nat (length l) → aset l i x = Some (<[Z.to_nat i := x]> l).
Proof. intros ?. unfold aset. by rewrite (proj2 (Z.leb_le _ _)), (proj2 (Z.ltb_lt _ _)) by lia. Qed.

Lemma aset_nat l (n : nat) x : (n < length l)%nat → aset l (Z.of_nat n) x = Some (<[n := x]> l).
Proof. intros ?. rewrite aset_in by lia. by rewrite Nat2Z.id. Qed.

Lemma aget_out l i : i < 0 ∨ Z.of_nat (length l) ≤ i → aget l i = None.
Proof.
  intros H. unfold aget. case_match eqn:Hi; [|done].
  apply lookup_ge_None. lia.
Qed.

Lemma aset_out l i x : i < 0 ∨ Z.of_nat (length l) ≤ i → aset l i x = None.
Proof.
  intros H. unfold aset. case_match eqn:Hi; [|done]. lia.
Qed.
End array.

Section checked.
Context {L S : Type}.

(** A read or write that is undefined when it fails. *)
Definition or_ub {A} (what : string) (o : option A) : M (err L) S A :=
  match o with
  | Some x => ret x
  | None => fail (UB what)
  end.

Lemma bind_or_ub {A B} what (x : A) (f : A → M (err L) S B) s :
  bind (or_ub what (Some x)) f s = f x s.
Proof. done. Qed.
End checked.
Arguments or_ub _ _ _ _ _ _ /.

(** Run code of a component whose state is a part of a larger one. *)
Section zoom.
Context {L T S : Type} (part : T → option S) (put : S → T → T).

Definition zoom {A} (m : M (err L) S A) : M (err L) T A := λ t,
  match part t with
  | None => Err (UB "no such object") t
  | Some s =>
      match m s with
      | Ok a s' => Ok a (put s' t)
      | Err e s' => Err e (put s' t)
      end
  end.

Lemma zoom_ok {A} (m : M (err L) S A) t s a s' :
  part t = Some s → m s = Ok a s' → zoom m t = Ok a (put s' t).
Proof. intros Hp Hm. unfold zoom. by rewrite Hp, Hm. Qed.

Lemma zoom_err {A} (m : M (err L) S A) t s e s' :
  part t = Some s → m s = Err e s' → zoom m t = Err e (put s' t).
Proof. intros Hp Hm. unfold zoom. by rewrite Hp, Hm. Qed.
End zoom.
#[global] Arguments zoom : simpl never.

(** ** Automation *)

Create HintDb xv6 discriminated.
#[export] Hint Resolve u32_range : xv6.

(** Take the next step of a computation whose first command is known. *)
Ltac mstep :=
  match goal with
  | H : ?m ?s = Ok _ _ |- context [ bind ?m ?f ?s ] => rewrite (bind_ok m f s _ _ H)
  end.

(** Split a successful run [(x ← m; k) s = Ok a s'] into its steps. *)
Ltac minv :=
  repeat match goal with
  | H : bind _ _ _ = Ok _ _ |- _ =>
      apply bind_ok_inv in H as (? & ? & ? & H)
  | H : ret _ _ = Ok _ _ |- _ => cbn in H; simplify_eq
  | H : Ok _ _ = Ok _ _ |- _ => simplify_eq
  | H : gets _ _ = Ok _ _ |- _ => cbn in H; simplify_eq
  | H : modify _ _ = Ok _ _ |- _ => cbn in H; simplify_eq
  end.

(** Case on every comparison of [Z] in the goal, dropping impossible cases. *)
Ltac zcases :=
  repeat match goal with
  | |- context [ ?a =? ?b ] => destruct (Z.eqb_spec a b); try lia
  | |- context [ ?a <? ?b ] => destruct (Z.ltb_spec a b); try lia
  | |- context [ ?a <=? ?b ] => destruct (Z.leb_spec a b); try lia
  end.

(** Prove a decidable closed statement by evaluating its decision. *)
Ltac vm_decide := apply (bool_decide_unpack _); vm_compute; exact I.

(** Decide the boolean comparisons of [Z] in the goal by [lia]. *)
Ltac zbool :=
  repeat match goal with
  | |- context [ ?a <? ?b ] =>
      first [ rewrite (proj2 (Z.ltb_lt a b)) by lia | rewrite (proj2 (Z.ltb_ge a b)) by lia ]
  | |- context [ ?a <=? ?b ] =>
      first [ rewrite (proj2 (Z.leb_le a b)) by lia | rewrite (proj2 (Z.leb_gt a b)) by lia ]
  | |- context [ ?a =? ?b ] =>
      first [ rewrite (proj2 (Z.eqb_eq a b)) by lia | rewrite (proj2 (Z.eqb_neq a b)) by lia ]
  end.
