(* ===== verification/Params.v ===== *)
(** Constants and macros of the headers: [param.h], [mmu.h], [memlayout.h],
    [proc.h] and [fs.h], with the arithmetic of addresses and page-table
    entries that the other files use. *)

From S2P Require Import Prelude.

(** ** [param.h] *)
Definition NPROC : Z := 64.
Definition KSTACKSIZE : Z := 4096.
Definition NCPU : Z := 8.
Definition NOFILE : Z := 16.
Definition NFILE : Z := 100.
Definition NINODE : Z := 50.
Definition NDEV : Z := 10.
Definition ROOTDEV : Z := 1.
Definition MAXARG : Z := 32.
Definition MAXOPBLOCKS : Z := 10.
Definition LOGSIZE : Z := MAXOPBLOCKS * 3.
Definition NBUF : Z := MAXOPBLOCKS * 3.
Definition FSSIZE : Z := 1000.
Definition MAX_PSYC_PAGES : Z := 16.
Definition MAX_TOTAL_PAGES : Z := 32.

(** ** [proc.h] *)
Definition DEFAULT_PROCESSES : Z := 2.

(** ** [memlayout.h] *)
Definition EXTMEM : Z := 0x100000.
Definition PHYSTOP : Z := 0xE000000.
Definition DEVSPACE : Z := 0xFE000000.
Definition KERNBASE : Z := 0x80000000.
Definition KERNLINK : Z := KERNBASE + EXTMEM.
Definition V2P (a : Z) : Z := u32 (a - KERNBASE).
Definition P2V (a : Z) : Z := u32 (a + KERNBASE).

(** ** [mmu.h] *)
Definition NPDENTRIES : Z := 1024.
Definition NPTENTRIES : Z := 1024.
Definition PGSIZE : Z := 4096.
Definition PGSHIFT : Z := 12.
Definition PTXSHIFT : Z := 12.
Definition PDXSHIFT : Z := 22.

Definition FL_IF : Z := 0x200.
Definition SEG_KCODE : Z := 1.
Definition SEG_KDATA : Z := 2.
Definition SEG_UCODE : Z := 3.
Definition SEG_UDATA : Z := 4.
Definition SEG_TSS : Z := 5.
Definition DPL_USER : Z := 3.

Definition PDX (va : Z) : Z := Z.land (Z.shiftr (u32 va) PDXSHIFT) 0x3FF.
Definition PTX (va : Z) : Z := Z.land (Z.shiftr (u32 va) PTXSHIFT) 0x3FF.
Definition PGADDR (d t o : Z) : Z :=
  u32 (Z.lor (Z.lor (Z.shiftl d PDXSHIFT) (Z.shiftl t PTXSHIFT)) o).

(** [PGROUNDUP] of an unsigned size, and of a signed one ([growproc]). *)
Definition PGROUNDUP (sz : Z) : Z := Z.land (u32 (sz + PGSIZE - 1)) (Z.lnot (PGSIZE - 1)).
Definition PGROUNDUP_int (n : Z) : Z := Z.land (s32 (n + PGSIZE - 1)) (Z.lnot (PGSIZE - 1)).
Definition PGROUNDDOWN (a : Z) : Z := Z.land (u32 a) (Z.lnot (PGSIZE - 1)).

Definition PTE_P : Z := 0x001.
Definition PTE_W : Z := 0x002.
Definition PTE_U : Z := 0x004.
Definition PTE_A : Z := 0x020.
Definition PTE_PG : Z := 0x200.

Definition PTE_PG_ON (pte : Z) : Z := Z.lor (u32 pte) PTE_PG.
Definition PTE_P_ON (pte : Z) : Z := Z.lor (u32 pte) PTE_P.
Definition PTE_PG_OFF (pte : Z) : Z := Z.land (u32 pte) (Z.lnot PTE_PG).
Definition PTE_P_OFF (pte : Z) : Z := Z.land (u32 pte) (Z.lnot PTE_P).
Definition PTE_A_OFF (pte : Z) : Z := Z.land (u32 pte) (Z.lnot PTE_A).
Definition PTE_ADDR (pte : Z) : Z := Z.land (u32 pte) (Z.lnot 0xFFF).
Definition PTE_FLAGS (pte : Z) : Z := Z.land (u32 pte) 0xFFF.

(** ** [fs.h] *)
Definition ROOTINO : Z := 1.
Definition BSIZE : Z := 512.
Definition NDIRECT : Z := 12.
Definition NINDIRECT : Z := BSIZE / 4.
Definition MAXFILE : Z := NDIRECT + NINDIRECT.
Definition IPB : Z := BSIZE / 64.
Definition BPB : Z := BSIZE * 8.
Definition DIRSIZ : Z := 14.

(** ** [buf.h], [ide.c], [stat.h] and [fcntl.h] *)
Definition B_VALID : Z := 2.
Definition B_DIRTY : Z := 4.
Definition IDE_BSY : Z := 0x80.
Definition IDE_DRDY : Z := 0x40.
Definition IDE_DF : Z := 0x20.
Definition IDE_ERR : Z := 0x01.
Definition T_DIR : Z := 1.
Definition T_FILE : Z := 2.
Definition T_DEV : Z := 3.
Definition O_RDONLY : Z := 0.
Definition O_WRONLY : Z := 1.
Definition O_RDWR : Z := 2.
Definition O_CREATE : Z := 0x200.

Create HintDb consts.
#[export] Hint Unfold NPROC KSTACKSIZE NCPU NOFILE NFILE NINODE NDEV ROOTDEV MAXARG
  MAXOPBLOCKS LOGSIZE NBUF FSSIZE MAX_PSYC_PAGES MAX_TOTAL_PAGES DEFAULT_PROCESSES
  EXTMEM PHYSTOP DEVSPACE KERNBASE KERNLINK NPDENTRIES NPTENTRIES PGSIZE PGSHIFT
  PTXSHIFT PDXSHIFT ROOTINO BSIZE NDIRECT NINDIRECT MAXFILE DIRSIZ IPB BPB : consts.

(** [lia] with the constants unfolded. *)
Ltac clia := autounfold with consts in *; lia.

(** ** Bits below and above the page offset

    A page-table entry is a page-aligned address plus twelve flag bits, so
    every macro reduces to arithmetic on the quotient and the remainder. *)

Lemma land_lnot_fff x : Z.land x (Z.lnot 0xFFF) = x - x mod 4096.
Proof.
  change (Z.lnot 0xFFF) with (Z.lnot (Z.ones 12)).
  rewrite <- Z.ldiff_land, Z.ldiff_ones_r, Z.shiftl_mul_pow2, Z.shiftr_div_pow2 by lia. lia.
Qed.

Lemma land_low x c : 0 ≤ c < 4096 → Z.land x c = Z.land (x mod 4096) c.
Proof.
  intros Hc. change 4096 with (2 ^ 12). rewrite <- Z.land_ones by lia.
  rewrite <- Z.land_assoc. f_equal. rewrite Z.land_comm, Z.land_ones by lia.
  symmetry. apply Z.mod_small. lia.
Qed.

Lemma add_low q z : 0 ≤ z < 4096 → 4096 * q + z = Z.lor (Z.shiftl q 12) z.
Proof.
  intros Hz.
  assert (Hl : Z.land (Z.shiftl q 12) z = 0).
  { rewrite <- (Z.mod_small z (2 ^ 12)), <- Z.land_ones by lia.
    apply Z.bits_inj'. intros n Hn. rewrite !Z.land_spec, Z.bits_0.
    destruct (Z.ltb_spec n 12); [rewrite Z.shiftl_spec_low by lia; done|].
    rewrite (Z.ones_spec_high 12 n) by lia. by rewrite !andb_false_r. }
  rewrite <- Z.lxor_lor, <- Z.add_nocarry_lxor, Z.shiftl_mul_pow2 by done. lia.
Qed.

Lemma lor_low f c : 0 ≤ f < 4096 → 0 ≤ c < 4096 → 0 ≤ Z.lor f c < 4096.
Proof.
  intros Hf Hc. assert (Hn : 0 ≤ Z.lor f c) by (apply Z.lor_nonneg; lia).
  split; [done|]. destruct (Z.eq_dec (Z.lor f c) 0) as [->|]; [lia|].
  change 4096 with (2 ^ 12). apply Z.log2_lt_pow2; [lia|].
  rewrite Z.log2_lor by lia.
  assert (∀ z, 0 ≤ z < 4096 → Z.log2 z < 12).
  { intros z Hz. destruct (Z.eq_dec z 0) as [->|]; [done|]. apply Z.log2_lt_pow2; lia. }
  apply Z.max_lub_lt; auto.
Qed.

Lemma lor_aligned q f c :
  0 ≤ f < 4096 → 0 ≤ c < 4096 → Z.lor (4096 * q + f) c = 4096 * q + Z.lor f c.
Proof.
  intros Hf Hc. rewrite (add_low q f), (add_low q (Z.lor f c)) by auto using lor_low.
  by rewrite Z.lor_assoc.
Qed.

Lemma PTE_ADDR_eq x : 0 ≤ x < 2 ^ 32 → PTE_ADDR x = x - x mod 4096.
Proof. intros ?. unfold PTE_ADDR. by rewrite u32_small, land_lnot_fff. Qed.

Lemma PTE_FLAGS_eq x : 0 ≤ x < 2 ^ 32 → PTE_FLAGS x = x mod 4096.
Proof.
  intros ?. unfold PTE_FLAGS. rewrite u32_small by done.
  change 0xFFF with (Z.ones 12). by rewrite Z.land_ones.
Qed.

Lemma PGROUNDDOWN_eq x : 0 ≤ x < 2 ^ 32 → PGROUNDDOWN x = x - x mod PGSIZE.
Proof.
  intros ?. unfold PGROUNDDOWN. rewrite u32_small by done.
  change (Z.lnot (PGSIZE - 1)) with (Z.lnot 0xFFF). apply land_lnot_fff.
Qed.

Lemma PGROUNDUP_eq x :
  0 ≤ x ≤ 2 ^ 32 - PGSIZE → PGROUNDUP x = PGSIZE * ((x + PGSIZE - 1) / PGSIZE).
Proof.
  intros ?. unfold PGROUNDUP. rewrite u32_small by clia.
  change (Z.lnot (PGSIZE - 1)) with (Z.lnot 0xFFF). rewrite land_lnot_fff. clia.
Qed.

Lemma PDX_eq va : 0 ≤ va < 2 ^ 32 → PDX va = va / 2 ^ 22.
Proof.
  intros ?. unfold PDX, PDXSHIFT. rewrite u32_small, Z.shiftr_div_pow2 by lia.
  change 0x3FF with (Z.ones 10). rewrite Z.land_ones by lia. lia.
Qed.

Lemma PTX_eq va : 0 ≤ va < 2 ^ 32 → PTX va = (va / 4096) mod 1024.
Proof.
  intros ?. unfold PTX, PTXSHIFT. rewrite u32_small, Z.shiftr_div_pow2 by lia.
  change 0x3FF with (Z.ones 10). by rewrite Z.land_ones.
Qed.

Lemma V2P_P2V a : 0 ≤ a < PHYSTOP → V2P (P2V a) = a.
Proof. unfold V2P, P2V, u32. clia. Qed.

Lemma P2V_V2P a : KERNBASE ≤ a < KERNBASE + PHYSTOP → P2V (V2P a) = a.
Proof. unfold V2P, P2V, u32. clia. Qed.

(** ** Flags as bits *)
Lemma truthy_land_pow2 x n : 0 ≤ n → truthy (Z.land x (2 ^ n)) = Z.testbit x n.
Proof.
  intros Hn. assert (H : Z.land x (2 ^ n) = if Z.testbit x n then 2 ^ n else 0).
  { apply Z.bits_inj'. intros j Hj. rewrite Z.land_spec, Z.pow2_bits_eqb by done.
    destruct (Z.eqb_spec n j) as [->|].
    - destruct (Z.testbit x j); rewrite ?Z.pow2_bits_true, ?Z.bits_0 by done; done.
    - rewrite andb_false_r. destruct (Z.testbit x n); rewrite ?Z.pow2_bits_false, ?Z.bits_0; done. }
  rewrite H. destruct (Z.testbit x n); [|done]. apply truthy_true. lia.
Qed.

Definition has_P (e : Z) : bool := truthy (Z.land e PTE_P).
Definition has_U (e : Z) : bool := truthy (Z.land e PTE_U).
Definition has_A (e : Z) : bool := truthy (Z.land e PTE_A).
Definition has_PG (e : Z) : bool := truthy (Z.land e PTE_PG).

Lemma has_P_bit e : has_P e = Z.testbit e 0.
Proof. by apply (truthy_land_pow2 e 0). Qed.
Lemma has_U_bit e : has_U e = Z.testbit e 2.
Proof. by apply (truthy_land_pow2 e 2). Qed.
Lemma has_A_bit e : has_A e = Z.testbit e 5.
Proof. by apply (truthy_land_pow2 e 5). Qed.
Lemma has_PG_bit e : has_PG e = Z.testbit e 9.
Proof. by apply (truthy_land_pow2 e 9). Qed.

Lemma u32_bit x n : 0 ≤ n < 32 → Z.testbit (u32 x) n = Z.testbit x n.
Proof.
  intros ?. unfold u32. rewrite <- Z.land_ones by lia. rewrite Z.land_spec.
  rewrite Z.ones_spec_low by lia. by rewrite andb_true_r.
Qed.

Lemma PTE_ADDR_bit e n : 0 ≤ n < 32 → Z.testbit (PTE_ADDR e) n = (12 <=? n) && Z.testbit e n.
Proof.
  intros ?. unfold PTE_ADDR. rewrite Z.land_spec, u32_bit, Z.lnot_spec by lia.
  change 0xFFF with (Z.ones 12). destruct (Z.leb_spec 12 n).
  - rewrite Z.ones_spec_high by lia. by rewrite andb_true_r.
  - rewrite Z.ones_spec_low by lia. by rewrite andb_false_r.
Qed.

(** A value below [2 ^ 32] has no bit from 32 on. *)
Lemma bits_above x n : 0 ≤ x < 2 ^ 32 → 32 ≤ n → Z.testbit x n = false.
Proof. intros ??. rewrite <- (Z.mod_small x (2 ^ 32)) by done. apply Z.mod_pow2_bits_high. lia. Qed.

Lemma lor_range x y : 0 ≤ x < 2 ^ 32 → 0 ≤ y < 2 ^ 32 → 0 ≤ Z.lor x y < 2 ^ 32.
Proof.
  intros Hx Hy. assert (Hn : 0 ≤ Z.lor x y) by (apply Z.lor_nonneg; lia).
  assert (H : u32 (Z.lor x y) = Z.lor x y).
  { unfold u32. rewrite <- Z.land_ones by lia. rewrite Z.land_lor_distr_l.
    rewrite !Z.land_ones, !Z.mod_small by lia. done. }
  rewrite <- H. apply u32_range.
Qed.

Lemma land_range x y : 0 ≤ x < 2 ^ 32 → 0 ≤ Z.land x y < 2 ^ 32.
Proof.
  intros Hx.
  assert (H : u32 (Z.land x y) = Z.land x y).
  { unfold u32. rewrite <- Z.land_ones by lia. rewrite <- Z.land_assoc, (Z.land_comm y), Z.land_assoc.
    by rewrite Z.land_ones, Z.mod_small by lia. }
  rewrite <- H. apply u32_range.
Qed.

(** Setting and clearing a flag keeps the address. *)
Lemma PTE_ADDR_lor_low e c : 0 ≤ c < 4096 → PTE_ADDR (Z.lor e c) = PTE_ADDR e.
Proof.
  intros Hc. assert (Hl : Z.land c (Z.lnot 0xFFF) = 0) by (rewrite land_lnot_fff; lia).
  unfold PTE_ADDR, u32. rewrite <- !Z.land_ones by lia.
  rewrite !Z.land_lor_distr_l. rewrite <- (Z.land_assoc c), (Z.land_comm (Z.ones 32)), Z.land_assoc.
  by rewrite Hl, Z.land_0_l, Z.lor_0_r.
Qed.

Lemma PTE_ADDR_clear_low e c : 0 ≤ c < 4096 → PTE_ADDR (Z.land e (Z.lnot c)) = PTE_ADDR e.
Proof.
  intros Hc.
  assert (Hl : Z.land (Z.lnot c) (Z.lnot 0xFFF) = Z.lnot 0xFFF).
  { rewrite <- Z.lnot_lor. f_equal. apply Z.bits_inj'. intros n Hn.
    change 0xFFF with (Z.ones 12). rewrite Z.lor_spec. destruct (Z.ltb_spec n 12).
    - rewrite (Z.ones_spec_low 12 n) by lia. apply orb_true_r.
    - rewrite <- (Z.mod_small c (2 ^ 12)), Z.mod_pow2_bits_high by lia. done. }
  unfold PTE_ADDR, u32. rewrite <- !Z.land_ones by lia.
  rewrite <- !(Z.land_assoc e). f_equal.
  rewrite (Z.land_comm (Z.lnot c)), <- Z.land_assoc. by rewrite Hl.
Qed.

Lemma PTE_ADDR_aligned a : 0 ≤ a < 2 ^ 32 → a mod 4096 = 0 → PTE_ADDR a = a.
Proof. intros. rewrite PTE_ADDR_eq by done. lia. Qed.

(** What each flag macro does to an entry. *)
Lemma PTE_A_OFF_ok e : 0 ≤ e < 2 ^ 32 →
  0 ≤ PTE_A_OFF e < 2 ^ 32 ∧ PTE_ADDR (PTE_A_OFF e) = PTE_ADDR e ∧ has_P (PTE_A_OFF e) = has_P e ∧
  has_PG (PTE_A_OFF e) = has_PG e ∧ has_A (PTE_A_OFF e) = false.
Proof.
  intros He. unfold PTE_A_OFF. rewrite u32_small by done. split_and!.
  1-2: by apply land_range.
  - by apply PTE_ADDR_clear_low.
  - rewrite !has_P_bit, Z.land_spec. apply andb_true_r.
  - rewrite !has_PG_bit, Z.land_spec. apply andb_true_r.
  - rewrite has_A_bit, Z.land_spec. apply andb_false_r.
Qed.

Lemma PTE_P_OFF_ok e : 0 ≤ e < 2 ^ 32 →
  0 ≤ PTE_P_OFF e < 2 ^ 32 ∧ PTE_ADDR (PTE_P_OFF e) = PTE_ADDR e ∧ has_P (PTE_P_OFF e) = false ∧
  has_PG (PTE_P_OFF e) = has_PG e.
Proof.
  intros He. unfold PTE_P_OFF. rewrite u32_small by done. split_and!.
  1-2: by apply land_range.
  - by apply PTE_ADDR_clear_low.
  - rewrite has_P_bit, Z.land_spec. apply andb_false_r.
  - rewrite !has_PG_bit, Z.land_spec. apply andb_true_r.
Qed.

Lemma PTE_PG_OFF_ok e : 0 ≤ e < 2 ^ 32 →
  0 ≤ PTE_PG_OFF e < 2 ^ 32 ∧ PTE_ADDR (PTE_PG_OFF e) = PTE_ADDR e ∧ has_P (PTE_PG_OFF e) = has_P e ∧
  has_PG (PTE_PG_OFF e) = false.
Proof.
  intros He. unfold PTE_PG_OFF. rewrite u32_small by done. split_and!.
  1-2: by apply land_range.
  - by apply PTE_ADDR_clear_low.
  - rewrite !has_P_bit, Z.land_spec. apply andb_true_r.
  - rewrite has_PG_bit, Z.land_spec. apply andb_false_r.
Qed.

Lemma PTE_P_ON_ok e : 0 ≤ e < 2 ^ 32 →
  0 ≤ PTE_P_ON e < 2 ^ 32 ∧ PTE_ADDR (PTE_P_ON e) = PTE_ADDR e ∧ has_P (PTE_P_ON e) = true ∧
  has_PG (PTE_P_ON e) = has_PG e.
Proof.
  intros He. unfold PTE_P_ON. rewrite u32_small by done. split_and!.
  1-2: by apply lor_range.
  - by apply PTE_ADDR_lor_low.
  - rewrite has_P_bit, Z.lor_spec. apply orb_true_r.
  - rewrite !has_PG_bit, Z.lor_spec. apply orb_false_r.
Qed.

Lemma PTE_PG_ON_ok e : 0 ≤ e < 2 ^ 32 →
  0 ≤ PTE_PG_ON e < 2 ^ 32 ∧ PTE_ADDR (PTE_PG_ON e) = PTE_ADDR e ∧ has_P (PTE_PG_ON e) = has_P e ∧
  has_PG (PTE_PG_ON e) = true.
Proof.
  intros He. unfold PTE_PG_ON. rewrite u32_small by done. split_and!.
  1-2: by apply lor_range.
  - by apply PTE_ADDR_lor_low.
  - rewrite !has_P_bit, Z.lor_spec. apply orb_false_r.
  - rewrite has_PG_bit, Z.lor_spec. apply orb_true_r.
Qed.
