(* ===== verification/Bytes.v ===== *)
(** Blocks of bytes: ranges of a list read and replaced in place, and the
    little-endian integers stored in them. *)

From S2P Require Import Prelude Params.

(** The bytes [bs] written over [data] from [off] on. *)
Definition splice (data : list Z) (off : nat) (bs : list Z) : list Z :=
  take off data ++ bs ++ drop (off + length bs) data.

(** The [n] bytes from [off] on. *)
Definition sub (data : list Z) (off n : nat) : list Z := take n (drop off data).

Fixpoint le_val (l : list Z) : Z :=
  match l with
  | [] => 0
  | b :: l => b + 256 * le_val l
  end.
Fixpoint le_bytes (n : nat) (v : Z) : list Z :=
  match n with
  | O => []
  | S n => u8 v :: le_bytes n (v / 256)
  end.

Definition get16 (l : list Z) (off : nat) : Z := le_val (sub l off 2).
Definition get32 (l : list Z) (off : nat) : Z := le_val (sub l off 4).
Definition put16 (l : list Z) (off : nat) (v : Z) : list Z := splice l off (le_bytes 2 v).
Definition put32 (l : list Z) (off : nat) (v : Z) : list Z := splice l off (le_bytes 4 v).

(** The string in a [char] array. *)
Fixpoint until_zero (l : list Z) : list Z :=
  match l with
  | [] => []
  | c :: l => if c =? 0 then [] else c :: until_zero l
  end.

Definition bytes_ok (l : list Z) : Prop := Forall (λ b, 0 ≤ b < 256) l.

Section bytes.
Implicit Types (data bs l : list Z) (off n i j : nat).

Lemma length_splice data off bs :
  (off ≤ length data)%nat → length (splice data off bs) = Nat.max (length data) (off + length bs).
Proof. intros. unfold splice. rewrite !length_app, length_take, length_drop. lia. Qed.

Lemma length_splice_in data off bs :
  (off + length bs ≤ length data)%nat → length (splice data off bs) = length data.
Proof. intros. rewrite length_splice; lia. Qed.

Lemma splice_lookup data off bs j : (off ≤ length data)%nat →
  splice data off bs !! j = if decide (off ≤ j < off + length bs)%nat then bs !! (j - off)%nat else data !! j.
Proof.
  intros Hl. unfold splice. assert (Ht : length (take off data) = off) by (rewrite length_take; lia).
  destruct (decide (j < off)%nat).
  - rewrite decide_False by lia. rewrite lookup_app_l by lia. by rewrite lookup_take_lt.
  - rewrite lookup_app_r, Ht by lia. case_decide.
    + by rewrite lookup_app_l by lia.
    + rewrite lookup_app_r by lia. rewrite lookup_drop. f_equal. lia.
Qed.

Lemma length_sub data off n : (off + n ≤ length data)%nat → length (sub data off n) = n.
Proof. intros. unfold sub. rewrite length_take, length_drop. lia. Qed.

Lemma sub_lookup data off n j :
  sub data off n !! j = if decide (j < n)%nat then data !! (off + j)%nat else None.
Proof.
  unfold sub. case_decide.
  - by rewrite lookup_take_lt, lookup_drop.
  - apply lookup_take_None. lia.
Qed.

Lemma sub_splice_eq data off bs :
  (off ≤ length data)%nat → sub (splice data off bs) off (length bs) = bs.
Proof.
  intros Hl. apply list_eq. intros j. rewrite sub_lookup. case_decide as Hj.
  - rewrite splice_lookup, decide_True by lia. f_equal. lia.
  - symmetry. apply lookup_ge_None. lia.
Qed.

Lemma sub_splice_ne data off bs o n :
  (off ≤ length data)%nat → (o + n ≤ off ∨ off + length bs ≤ o)%nat →
  sub (splice data off bs) o n = sub data o n.
Proof.
  intros Hl Hd. apply list_eq. intros j. rewrite !sub_lookup. case_decide; [|done].
  rewrite splice_lookup by done. rewrite decide_False; [done|lia].
Qed.

Lemma length_le_bytes n v : length (le_bytes n v) = n.
Proof. revert v. induction n as [|n IH]; intros; cbn; [done|by rewrite IH]. Qed.

Lemma le_bytes_ok n v : bytes_ok (le_bytes n v).
Proof. revert v. induction n as [|n IH]; intros v; constructor; [unfold u8; lia|apply IH]. Qed.

Lemma le_val_bytes n v : le_val (le_bytes n v) = v mod 256 ^ Z.of_nat n.
Proof.
  revert v. induction n as [|n IH]; intros v; [cbn; lia|].
  cbn [le_bytes le_val]. rewrite IH. replace (Z.of_nat (S n)) with (1 + Z.of_nat n) by lia.
  rewrite Z.pow_add_r, Z.pow_1_r by lia. rewrite Z.rem_mul_r by lia. unfold u8. done.
Qed.

Lemma le_val_range l : bytes_ok l → 0 ≤ le_val l < 256 ^ Z.of_nat (length l).
Proof.
  induction 1 as [|b l Hb _ IH]; [cbn; lia|]. cbn [le_val length].
  replace (Z.of_nat (S (length l))) with (1 + Z.of_nat (length l)) by lia.
  rewrite Z.pow_add_r, Z.pow_1_r by lia. nia.
Qed.

Lemma bytes_splice data off bs : bytes_ok data → bytes_ok bs → bytes_ok (splice data off bs).
Proof. intros. unfold splice, bytes_ok. rewrite !Forall_app. split_and!; [by apply Forall_take|done|by apply Forall_drop]. Qed.

Lemma bytes_sub data off n : bytes_ok data → bytes_ok (sub data off n).
Proof. intros. by apply Forall_take, Forall_drop. Qed.

Lemma get32_put32_eq l off v : (off ≤ length l)%nat → get32 (put32 l off v) off = u32 v.
Proof.
  intros. unfold get32, put32. change 4%nat with (length (le_bytes 4 v)) at 2.
  rewrite sub_splice_eq by done. by rewrite le_val_bytes.
Qed.

Lemma get32_put32_ne l off v o : (off ≤ length l)%nat → (o + 4 ≤ off ∨ off + 4 ≤ o)%nat →
  get32 (put32 l off v) o = get32 l o.
Proof. intros. unfold get32, put32. by rewrite sub_splice_ne. Qed.

Lemma length_put32 l off v : (off + 4 ≤ length l)%nat → length (put32 l off v) = length l.
Proof. intros. unfold put32. apply length_splice_in. by rewrite length_le_bytes. Qed.

Lemma get32_range l off : bytes_ok l → 0 ≤ get32 l off < 2 ^ 32.
Proof.
  intros Hl. unfold get32. pose proof (le_val_range _ (bytes_sub l off 4 Hl)) as Hr.
  assert (length (sub l off 4) ≤ 4)%nat by (unfold sub; rewrite length_take; lia).
  assert (256 ^ Z.of_nat (length (sub l off 4)) ≤ 256 ^ 4) by (apply Z.pow_le_mono_r; lia). lia.
Qed.
End bytes.
