(* ===== verification/State.v ===== *)
(** The data of the kernel: the structs of [spinlock.h], [proc.h], [x86.h],
    [buf.h], [file.h], [fs.h], [log.c], [pipe.c] and [console.c], the global variables of the
    kernel, and one record [kernel] that holds all of them.  Pointers to elements of a static
    array are indices of that array; kernel addresses are [Z]. *)

From S2P Require Import Prelude Params.

(** ** Identities of locks and sleep channels

    The code identifies a lock or a channel by the address of a C object;
    here each object has a constructor. *)
Inductive lockid :=
  | Lptable | Lkmem | Lftable | Licache | Lbcache | Llog | Lide | Ltickslock | Lcons
  | Lpipe (p : Z)
  | Linode (i : nat)
  | Lbuf (b : nat).

Inductive chan :=
  | Cproc (p : nat)
  | Cticks
  | Clog
  | Cinput
  | Cbuf (b : nat)
  | Csleep (l : lockid)
  | Cpipe_nread (p : Z)
  | Cpipe_nwrite (p : Z).

#[global] Instance lockid_eq_dec : EqDecision lockid.
Proof. solve_decision. Defined.

#[global] Instance chan_eq_dec : EqDecision chan.
Proof. solve_decision. Defined.

#[global] Instance lockid_countable : Countable lockid.
Proof.
  refine (inj_countable'
    (λ l, match l with
     | Lptable => inl 0%nat | Lkmem => inl 1%nat | Lftable => inl 2%nat
     | Licache => inl 3%nat | Lbcache => inl 4%nat | Llog => inl 5%nat
     | Lide => inl 6%nat | Ltickslock => inl 7%nat | Lcons => inl 8%nat
     | Lpipe p => inr (inl p) | Linode i => inr (inr (inl i)) | Lbuf b => inr (inr (inr b))
     end)
    (λ x, match x with
     | inl 0%nat => Lptable | inl 1%nat => Lkmem | inl 2%nat => Lftable
     | inl 3%nat => Licache | inl 4%nat => Lbcache | inl 5%nat => Llog
     | inl 6%nat => Lide | inl 7%nat => Ltickslock | inl _ => Lcons
     | inr (inl p) => Lpipe p | inr (inr (inl i)) => Linode i | inr (inr (inr b)) => Lbuf b
     end) _).
  by intros [].
Defined.

Abbreviation kerr := (err lockid).

(** [struct spinlock]; the call stack in [pcs] is for debugging only and left out. *)
Record spinlock := mkSpinlock {
  locked : Z;  (* is the lock held? *)
  lk_name : string;
  lk_cpu : option nat;  (* the cpu holding the lock *)
}.
Definition set_locked (v : Z) (r : spinlock) : spinlock :=
  mkSpinlock v (lk_name r) (lk_cpu r).
Definition set_lk_name (v : string) (r : spinlock) : spinlock :=
  mkSpinlock (locked r) v (lk_cpu r).
Definition set_lk_cpu (v : option nat) (r : spinlock) : spinlock :=
  mkSpinlock (locked r) (lk_name r) v.
(** [struct cpu], less the descriptor tables and the saved scheduler context. *)
Record cpu := mkCpu {
  apicid : Z;
  ncli : Z;  (* depth of pushcli nesting *)
  intena : Z;  (* were interrupts enabled before pushcli? *)
  cpu_proc : option nat;  (* the process running on this cpu *)
  started : Z;
  esp0 : Z;  (* ts.esp0: the kernel stack for interrupts from user mode *)
}.
Definition set_apicid (v : Z) (r : cpu) : cpu :=
  mkCpu v (ncli r) (intena r) (cpu_proc r) (started r) (esp0 r).
Definition set_ncli (v : Z) (r : cpu) : cpu :=
  mkCpu (apicid r) v (intena r) (cpu_proc r) (started r) (esp0 r).
Definition set_intena (v : Z) (r : cpu) : cpu :=
  mkCpu (apicid r) (ncli r) v (cpu_proc r) (started r) (esp0 r).
Definition set_cpu_proc (v : option nat) (r : cpu) : cpu :=
  mkCpu (apicid r) (ncli r) (intena r) v (started r) (esp0 r).
Definition set_started (v : Z) (r : cpu) : cpu :=
  mkCpu (apicid r) (ncli r) (intena r) (cpu_proc r) v (esp0 r).
Definition set_esp0 (v : Z) (r : cpu) : cpu :=
  mkCpu (apicid r) (ncli r) (intena r) (cpu_proc r) (started r) v.
(** The processors as the running CPU sees them, and every spinlock. *)
Record mach := mkMach {
  cpus : list cpu;  (* cpus[0..ncpu) *)
  lapicid : Z;  (* the APIC id of the CPU that runs the code *)
  eflags : Z;  (* its eflags register *)
  cr3 : Z;  (* its page-table base register *)
  cr2 : Z;  (* its page-fault address register *)
  locks : gmap lockid spinlock;
}.
Definition set_cpus (v : list cpu) (r : mach) : mach :=
  mkMach v (lapicid r) (eflags r) (cr3 r) (cr2 r) (locks r).
Definition set_lapicid (v : Z) (r : mach) : mach :=
  mkMach (cpus r) v (eflags r) (cr3 r) (cr2 r) (locks r).
Definition set_eflags (v : Z) (r : mach) : mach :=
  mkMach (cpus r) (lapicid r) v (cr3 r) (cr2 r) (locks r).
Definition set_cr3 (v : Z) (r : mach) : mach :=
  mkMach (cpus r) (lapicid r) (eflags r) v (cr2 r) (locks r).
Definition set_cr2 (v : Z) (r : mach) : mach :=
  mkMach (cpus r) (lapicid r) (eflags r) (cr3 r) v (locks r).
Definition set_locks (v : gmap lockid spinlock) (r : mach) : mach :=
  mkMach (cpus r) (lapicid r) (eflags r) (cr3 r) (cr2 r) v.
(** [enum procstate]. *)
Inductive procstate := UNUSED | EMBRYO | SLEEPING | RUNNABLE | RUNNING | ZOMBIE.

#[global] Instance procstate_eq_dec : EqDecision procstate.
Proof. solve_decision. Defined.

(** [struct page]: one entry of a process's table of pages. *)
Record page := mkPage {
  v_address : Z;
  file_offset : Z;  (* int: offset in the swap file, -1 when in RAM *)
  in_RAM : Z;
  isAllocated : Z;
  age : Z;  (* uint *)
}.
Definition set_v_address (v : Z) (r : page) : page :=
  mkPage v (file_offset r) (in_RAM r) (isAllocated r) (age r).
Definition set_file_offset (v : Z) (r : page) : page :=
  mkPage (v_address r) v (in_RAM r) (isAllocated r) (age r).
Definition set_in_RAM (v : Z) (r : page) : page :=
  mkPage (v_address r) (file_offset r) v (isAllocated r) (age r).
Definition set_isAllocated (v : Z) (r : page) : page :=
  mkPage (v_address r) (file_offset r) (in_RAM r) v (age r).
Definition set_age (v : Z) (r : page) : page :=
  mkPage (v_address r) (file_offset r) (in_RAM r) (isAllocated r) v.
(** [struct trapframe], less its padding. *)
Record trapframe := mkTrapframe {
  tf_edi : Z;
  tf_esi : Z;
  tf_ebp : Z;
  tf_oesp : Z;
  tf_ebx : Z;
  tf_edx : Z;
  tf_ecx : Z;
  tf_eax : Z;
  tf_gs : Z;
  tf_fs : Z;
  tf_es : Z;
  tf_ds : Z;
  tf_trapno : Z;
  tf_err : Z;
  tf_eip : Z;
  tf_cs : Z;
  tf_eflags : Z;
  tf_esp : Z;
  tf_ss : Z;
}.
Definition set_tf_edi (v : Z) (r : trapframe) : trapframe :=
  mkTrapframe v (tf_esi r) (tf_ebp r) (tf_oesp r) (tf_ebx r) (tf_edx r) (tf_ecx r) (tf_eax r)
    (tf_gs r) (tf_fs r) (tf_es r) (tf_ds r) (tf_trapno r) (tf_err r) (tf_eip r) (tf_cs r)
    (tf_eflags r) (tf_esp r) (tf_ss r).
Definition set_tf_esi (v : Z) (r : trapframe) : trapframe :=
  mkTrapframe (tf_edi r) v (tf_ebp r) (tf_oesp r) (tf_ebx r) (tf_edx r) (tf_ecx r) (tf_eax r)
    (tf_gs r) (tf_fs r) (tf_es r) (tf_ds r) (tf_trapno r) (tf_err r) (tf_eip r) (tf_cs r)
    (tf_eflags r) (tf_esp r) (tf_ss r).
Definition set_tf_ebp (v : Z) (r : trapframe) : trapframe :=
  mkTrapframe (tf_edi r) (tf_esi r) v (tf_oesp r) (tf_ebx r) (tf_edx r) (tf_ecx r) (tf_eax r)
    (tf_gs r) (tf_fs r) (tf_es r) (tf_ds r) (tf_trapno r) (tf_err r) (tf_eip r) (tf_cs r)
    (tf_eflags r) (tf_esp r) (tf_ss r).
Definition set_tf_oesp (v : Z) (r : trapframe) : trapframe :=
  mkTrapframe (tf_edi r) (tf_esi r) (tf_ebp r) v (tf_ebx r) (tf_edx r) (tf_ecx r) (tf_eax r)
    (tf_gs r) (tf_fs r) (tf_es r) (tf_ds r) (tf_trapno r) (tf_err r) (tf_eip r) (tf_cs r)
    (tf_eflags r) (tf_esp r) (tf_ss r).
Definition set_tf_ebx (v : Z) (r : trapframe) : trapframe :=
  mkTrapframe (tf_edi r) (tf_esi r) (tf_ebp r) (tf_oesp r) v (tf_edx r) (tf_ecx r) (tf_eax r)
    (tf_gs r) (tf_fs r) (tf_es r) (tf_ds r) (tf_trapno r) (tf_err r) (tf_eip r) (tf_cs r)
    (tf_eflags r) (tf_esp r) (tf_ss r).
Definition set_tf_edx (v : Z) (r : trapframe) : trapframe :=
  mkTrapframe (tf_edi r) (tf_esi r) (tf_ebp r) (tf_oesp r) (tf_ebx r) v (tf_ecx r) (tf_eax r)
    (tf_gs r) (tf_fs r) (tf_es r) (tf_ds r) (tf_trapno r) (tf_err r) (tf_eip r) (tf_cs r)
    (tf_eflags r) (tf_esp r) (tf_ss r).
Definition set_tf_ecx (v : Z) (r : trapframe) : trapframe :=
  mkTrapframe (tf_edi r) (tf_esi r) (tf_ebp r) (tf_oesp r) (tf_ebx r) (tf_edx r) v (tf_eax r)
    (tf_gs r) (tf_fs r) (tf_es r) (tf_ds r) (tf_trapno r) (tf_err r) (tf_eip r) (tf_cs r)
    (tf_eflags r) (tf_esp r) (tf_ss r).
Definition set_tf_eax (v : Z) (r : trapframe) : trapframe :=
  mkTrapframe (tf_edi r) (tf_esi r) (tf_ebp r) (tf_oesp r) (tf_ebx r) (tf_edx r) (tf_ecx r) v
    (tf_gs r) (tf_fs r) (tf_es r) (tf_ds r) (tf_trapno r) (tf_err r) (tf_eip r) (tf_cs r)
    (tf_eflags r) (tf_esp r) (tf_ss r).
Definition set_tf_gs (v : Z) (r : trapframe) : trapframe :=
  mkTrapframe (tf_edi r) (tf_esi r) (tf_ebp r) (tf_oesp r) (tf_ebx r) (tf_edx r) (tf_ecx r)
    (tf_eax r) v (tf_fs r) (tf_es r) (tf_ds r) (tf_trapno r) (tf_err r) (tf_eip r) (tf_cs r)
    (tf_eflags r) (tf_esp r) (tf_ss r).
Definition set_tf_fs (v : Z) (r : trapframe) : trapframe :=
  mkTrapframe (tf_edi r) (tf_esi r) (tf_ebp r) (tf_oesp r) (tf_ebx r) (tf_edx r) (tf_ecx r)
    (tf_eax r) (tf_gs r) v (tf_es r) (tf_ds r) (tf_trapno r) (tf_err r) (tf_eip r) (tf_cs r)
    (tf_eflags r) (tf_esp r) (tf_ss r).
Definition set_tf_es (v : Z) (r : trapframe) : trapframe :=
  mkTrapframe (tf_edi r) (tf_esi r) (tf_ebp r) (tf_oesp r) (tf_ebx r) (tf_edx r) (tf_ecx r)
    (tf_eax r) (tf_gs r) (tf_fs r) v (tf_ds r) (tf_trapno r) (tf_err r) (tf_eip r) (tf_cs r)
    (tf_eflags r) (tf_esp r) (tf_ss r).
Definition set_tf_ds (v : Z) (r : trapframe) : trapframe :=
  mkTrapframe (tf_edi r) (tf_esi r) (tf_ebp r) (tf_oesp r) (tf_ebx r) (tf_edx r) (tf_ecx r)
    (tf_eax r) (tf_gs r) (tf_fs r) (tf_es r) v (tf_trapno r) (tf_err r) (tf_eip r) (tf_cs r)
    (tf_eflags r) (tf_esp r) (tf_ss r).
Definition set_tf_trapno (v : Z) (r : trapframe) : trapframe :=
  mkTrapframe (tf_edi r) (tf_esi r) (tf_ebp r) (tf_oesp r) (tf_ebx r) (tf_edx r) (tf_ecx r)
    (tf_eax r) (tf_gs r) (tf_fs r) (tf_es r) (tf_ds r) v (tf_err r) (tf_eip r) (tf_cs r)
    (tf_eflags r) (tf_esp r) (tf_ss r).
Definition set_tf_err (v : Z) (r : trapframe) : trapframe :=
  mkTrapframe (tf_edi r) (tf_esi r) (tf_ebp r) (tf_oesp r) (tf_ebx r) (tf_edx r) (tf_ecx r)
    (tf_eax r) (tf_gs r) (tf_fs r) (tf_es r) (tf_ds r) (tf_trapno r) v (tf_eip r) (tf_cs r)
    (tf_eflags r) (tf_esp r) (tf_ss r).
Definition set_tf_eip (v : Z) (r : trapframe) : trapframe :=
  mkTrapframe (tf_edi r) (tf_esi r) (tf_ebp r) (tf_oesp r) (tf_ebx r) (tf_edx r) (tf_ecx r)
    (tf_eax r) (tf_gs r) (tf_fs r) (tf_es r) (tf_ds r) (tf_trapno r) (tf_err r) v (tf_cs r)
    (tf_eflags r) (tf_esp r) (tf_ss r).
Definition set_tf_cs (v : Z) (r : trapframe) : trapframe :=
  mkTrapframe (tf_edi r) (tf_esi r) (tf_ebp r) (tf_oesp r) (tf_ebx r) (tf_edx r) (tf_ecx r)
    (tf_eax r) (tf_gs r) (tf_fs r) (tf_es r) (tf_ds r) (tf_trapno r) (tf_err r) (tf_eip r) v
    (tf_eflags r) (tf_esp r) (tf_ss r).
Definition set_tf_eflags (v : Z) (r : trapframe) : trapframe :=
  mkTrapframe (tf_edi r) (tf_esi r) (tf_ebp r) (tf_oesp r) (tf_ebx r) (tf_edx r) (tf_ecx r)
    (tf_eax r) (tf_gs r) (tf_fs r) (tf_es r) (tf_ds r) (tf_trapno r) (tf_err r) (tf_eip r)
    (tf_cs r) v (tf_esp r) (tf_ss r).
Definition set_tf_esp (v : Z) (r : trapframe) : trapframe :=
  mkTrapframe (tf_edi r) (tf_esi r) (tf_ebp r) (tf_oesp r) (tf_ebx r) (tf_edx r) (tf_ecx r)
    (tf_eax r) (tf_gs r) (tf_fs r) (tf_es r) (tf_ds r) (tf_trapno r) (tf_err r) (tf_eip r)
    (tf_cs r) (tf_eflags r) v (tf_ss r).
Definition set_tf_ss (v : Z) (r : trapframe) : trapframe :=
  mkTrapframe (tf_edi r) (tf_esi r) (tf_ebp r) (tf_oesp r) (tf_ebx r) (tf_edx r) (tf_ecx r)
    (tf_eax r) (tf_gs r) (tf_fs r) (tf_es r) (tf_ds r) (tf_trapno r) (tf_err r) (tf_eip r)
    (tf_cs r) (tf_eflags r) (tf_esp r) v.
(** [struct context]. *)
Record context := mkContext {
  ctx_edi : Z;
  ctx_esi : Z;
  ctx_ebx : Z;
  ctx_ebp : Z;
  ctx_eip : Z;
}.
Definition set_ctx_edi (v : Z) (r : context) : context :=
  mkContext v (ctx_esi r) (ctx_ebx r) (ctx_ebp r) (ctx_eip r).
Definition set_ctx_esi (v : Z) (r : context) : context :=
  mkContext (ctx_edi r) v (ctx_ebx r) (ctx_ebp r) (ctx_eip r).
Definition set_ctx_ebx (v : Z) (r : context) : context :=
  mkContext (ctx_edi r) (ctx_esi r) v (ctx_ebp r) (ctx_eip r).
Definition set_ctx_ebp (v : Z) (r : context) : context :=
  mkContext (ctx_edi r) (ctx_esi r) (ctx_ebx r) v (ctx_eip r).
Definition set_ctx_eip (v : Z) (r : context) : context :=
  mkContext (ctx_edi r) (ctx_esi r) (ctx_ebx r) (ctx_ebp r) v.
(** The fields of [struct proc] that describe paging ([proc.h], lines 67 to 75). *)
Record paging := mkPaging {
  pagesDS : list page;  (* MAX_TOTAL_PAGES entries *)
  fileOffset : Z;  (* uint: next place to write in the file *)
  numberOfAllocatedPages : Z;
  numberOfPagedOut : Z;  (* uint *)
  numberOfPageFaults : Z;
  totalNumberOfPagedOut : Z;
  inRAMQueue : list Z;  (* MAX_PSYC_PAGES ints *)
  availableOffsetQueue : list Z;  (* MAX_PSYC_PAGES ints *)
}.
Definition set_pagesDS (v : list page) (r : paging) : paging :=
  mkPaging v (fileOffset r) (numberOfAllocatedPages r) (numberOfPagedOut r) (numberOfPageFaults
    r) (totalNumberOfPagedOut r) (inRAMQueue r) (availableOffsetQueue r).
Definition set_fileOffset (v : Z) (r : paging) : paging :=
  mkPaging (pagesDS r) v (numberOfAllocatedPages r) (numberOfPagedOut r) (numberOfPageFaults r)
    (totalNumberOfPagedOut r) (inRAMQueue r) (availableOffsetQueue r).
Definition set_numberOfAllocatedPages (v : Z) (r : paging) : paging :=
  mkPaging (pagesDS r) (fileOffset r) v (numberOfPagedOut r) (numberOfPageFaults r)
    (totalNumberOfPagedOut r) (inRAMQueue r) (availableOffsetQueue r).
Definition set_numberOfPagedOut (v : Z) (r : paging) : paging :=
  mkPaging (pagesDS r) (fileOffset r) (numberOfAllocatedPages r) v (numberOfPageFaults r)
    (totalNumberOfPagedOut r) (inRAMQueue r) (availableOffsetQueue r).
Definition set_numberOfPageFaults (v : Z) (r : paging) : paging :=
  mkPaging (pagesDS r) (fileOffset r) (numberOfAllocatedPages r) (numberOfPagedOut r) v
    (totalNumberOfPagedOut r) (inRAMQueue r) (availableOffsetQueue r).
Definition set_totalNumberOfPagedOut (v : Z) (r : paging) : paging :=
  mkPaging (pagesDS r) (fileOffset r) (numberOfAllocatedPages r) (numberOfPagedOut r)
    (numberOfPageFaults r) v (inRAMQueue r) (availableOffsetQueue r).
Definition set_inRAMQueue (v : list Z) (r : paging) : paging :=
  mkPaging (pagesDS r) (fileOffset r) (numberOfAllocatedPages r) (numberOfPagedOut r)
    (numberOfPageFaults r) (totalNumberOfPagedOut r) v (availableOffsetQueue r).
Definition set_availableOffsetQueue (v : list Z) (r : paging) : paging :=
  mkPaging (pagesDS r) (fileOffset r) (numberOfAllocatedPages r) (numberOfPagedOut r)
    (numberOfPageFaults r) (totalNumberOfPagedOut r) (inRAMQueue r) v.
(** [struct proc].  The trap frame and the context, which the code keeps on the
    kernel stack, are held by value. *)
Record proc := mkProc {
  sz : Z;  (* uint *)
  pgdir : Z;  (* page directory, a kernel address *)
  kstack : Z;
  state : procstate;
  pid : Z;
  parent : option nat;
  tf : trapframe;
  ctx : context;
  pchan : option chan;
  killed : Z;
  ofile : list (option nat);  (* NOFILE entries *)
  cwd : option nat;
  pname : list Z;  (* 16 bytes *)
  swapFile : option nat;
  pg : paging;
}.
Definition set_sz (v : Z) (r : proc) : proc :=
  mkProc v (pgdir r) (kstack r) (state r) (pid r) (parent r) (tf r) (ctx r) (pchan r) (killed r)
    (ofile r) (cwd r) (pname r) (swapFile r) (pg r).
Definition set_pgdir (v : Z) (r : proc) : proc :=
  mkProc (sz r) v (kstack r) (state r) (pid r) (parent r) (tf r) (ctx r) (pchan r) (killed r)
    (ofile r) (cwd r) (pname r) (swapFile r) (pg r).
Definition set_kstack (v : Z) (r : proc) : proc :=
  mkProc (sz r) (pgdir r) v (state r) (pid r) (parent r) (tf r) (ctx r) (pchan r) (killed r)
    (ofile r) (cwd r) (pname r) (swapFile r) (pg r).
Definition set_state (v : procstate) (r : proc) : proc :=
  mkProc (sz r) (pgdir r) (kstack r) v (pid r) (parent r) (tf r) (ctx r) (pchan r) (killed r)
    (ofile r) (cwd r) (pname r) (swapFile r) (pg r).
Definition set_pid (v : Z) (r : proc) : proc :=
  mkProc (sz r) (pgdir r) (kstack r) (state r) v (parent r) (tf r) (ctx r) (pchan r) (killed r)
    (ofile r) (cwd r) (pname r) (swapFile r) (pg r).
Definition set_parent (v : option nat) (r : proc) : proc :=
  mkProc (sz r) (pgdir r) (kstack r) (state r) (pid r) v (tf r) (ctx r) (pchan r) (killed r)
    (ofile r) (cwd r) (pname r) (swapFile r) (pg r).
Definition set_tf (v : trapframe) (r : proc) : proc :=
  mkProc (sz r) (pgdir r) (kstack r) (state r) (pid r) (parent r) v (ctx r) (pchan r) (killed r)
    (ofile r) (cwd r) (pname r) (swapFile r) (pg r).
Definition set_ctx (v : context) (r : proc) : proc :=
  mkProc (sz r) (pgdir r) (kstack r) (state r) (pid r) (parent r) (tf r) v (pchan r) (killed r)
    (ofile r) (cwd r) (pname r) (swapFile r) (pg r).
Definition set_pchan (v : option chan) (r : proc) : proc :=
  mkProc (sz r) (pgdir r) (kstack r) (state r) (pid r) (parent r) (tf r) (ctx r) v (killed r)
    (ofile r) (cwd r) (pname r) (swapFile r) (pg r).
Definition set_killed (v : Z) (r : proc) : proc :=
  mkProc (sz r) (pgdir r) (kstack r) (state r) (pid r) (parent r) (tf r) (ctx r) (pchan r) v
    (ofile r) (cwd r) (pname r) (swapFile r) (pg r).
Definition set_ofile (v : list (option nat)) (r : proc) : proc :=
  mkProc (sz r) (pgdir r) (kstack r) (state r) (pid r) (parent r) (tf r) (ctx r) (pchan r)
    (killed r) v (cwd r) (pname r) (swapFile r) (pg r).
Definition set_cwd (v : option nat) (r : proc) : proc :=
  mkProc (sz r) (pgdir r) (kstack r) (state r) (pid r) (parent r) (tf r) (ctx r) (pchan r)
    (killed r) (ofile r) v (pname r) (swapFile r) (pg r).
Definition set_pname (v : list Z) (r : proc) : proc :=
  mkProc (sz r) (pgdir r) (kstack r) (state r) (pid r) (parent r) (tf r) (ctx r) (pchan r)
    (killed r) (ofile r) (cwd r) v (swapFile r) (pg r).
Definition set_swapFile (v : option nat) (r : proc) : proc :=
  mkProc (sz r) (pgdir r) (kstack r) (state r) (pid r) (parent r) (tf r) (ctx r) (pchan r)
    (killed r) (ofile r) (cwd r) (pname r) v (pg r).
Definition set_pg (v : paging) (r : proc) : proc :=
  mkProc (sz r) (pgdir r) (kstack r) (state r) (pid r) (parent r) (tf r) (ctx r) (pchan r)
    (killed r) (ofile r) (cwd r) (pname r) (swapFile r) v.
(** Physical memory and the globals of [kalloc.c] and [vm.c]. *)
Record vmem := mkVmem {
  mem : gmap Z Z;  (* bytes of physical memory, at their kernel address *)
  freelist : Z;  (* kmem.freelist *)
  use_lock : Z;  (* kmem.use_lock *)
  kpgdir : Z;
}.
Definition set_mem (v : gmap Z Z) (r : vmem) : vmem :=
  mkVmem v (freelist r) (use_lock r) (kpgdir r).
Definition set_freelist (v : Z) (r : vmem) : vmem :=
  mkVmem (mem r) v (use_lock r) (kpgdir r).
Definition set_use_lock (v : Z) (r : vmem) : vmem :=
  mkVmem (mem r) (freelist r) v (kpgdir r).
Definition set_kpgdir (v : Z) (r : vmem) : vmem :=
  mkVmem (mem r) (freelist r) (use_lock r) v.
(** The process table and the globals of [proc.c] and [trap.c]. *)
Record ptab := mkPtab {
  procs : list proc;  (* ptable.proc *)
  initproc : option nat;
  nextpid : Z;
  initial_size : Z;
  ticks : Z;  (* uint *)
  first : Z;  (* the static variable of forkret *)
}.
Definition set_procs (v : list proc) (r : ptab) : ptab :=
  mkPtab v (initproc r) (nextpid r) (initial_size r) (ticks r) (first r).
Definition set_initproc (v : option nat) (r : ptab) : ptab :=
  mkPtab (procs r) v (nextpid r) (initial_size r) (ticks r) (first r).
Definition set_nextpid (v : Z) (r : ptab) : ptab :=
  mkPtab (procs r) (initproc r) v (initial_size r) (ticks r) (first r).
Definition set_initial_size (v : Z) (r : ptab) : ptab :=
  mkPtab (procs r) (initproc r) (nextpid r) v (ticks r) (first r).
Definition set_ticks (v : Z) (r : ptab) : ptab :=
  mkPtab (procs r) (initproc r) (nextpid r) (initial_size r) v (first r).
Definition set_first (v : Z) (r : ptab) : ptab :=
  mkPtab (procs r) (initproc r) (nextpid r) (initial_size r) (ticks r) v.
(** [struct sleeplock]; its spinlock is one of [locks]. *)
Record sleeplock := mkSleeplock {
  sl_locked : Z;  (* is the lock held? *)
  sl_pid : Z;  (* process holding lock *)
}.
Definition set_sl_locked (v : Z) (r : sleeplock) : sleeplock :=
  mkSleeplock v (sl_pid r).
Definition set_sl_pid (v : Z) (r : sleeplock) : sleeplock :=
  mkSleeplock (sl_locked r) v.
(** [struct buf]; the list links are the lists [lru] and [idequeue]. *)
Record buf := mkBuf {
  b_flags : Z;
  b_dev : Z;
  b_blockno : Z;
  b_lock : sleeplock;
  b_refcnt : Z;  (* uint *)
  b_data : list Z;  (* BSIZE bytes *)
}.
Definition set_b_flags (v : Z) (r : buf) : buf :=
  mkBuf v (b_dev r) (b_blockno r) (b_lock r) (b_refcnt r) (b_data r).
Definition set_b_dev (v : Z) (r : buf) : buf :=
  mkBuf (b_flags r) v (b_blockno r) (b_lock r) (b_refcnt r) (b_data r).
Definition set_b_blockno (v : Z) (r : buf) : buf :=
  mkBuf (b_flags r) (b_dev r) v (b_lock r) (b_refcnt r) (b_data r).
Definition set_b_lock (v : sleeplock) (r : buf) : buf :=
  mkBuf (b_flags r) (b_dev r) (b_blockno r) v (b_refcnt r) (b_data r).
Definition set_b_refcnt (v : Z) (r : buf) : buf :=
  mkBuf (b_flags r) (b_dev r) (b_blockno r) (b_lock r) v (b_data r).
Definition set_b_data (v : list Z) (r : buf) : buf :=
  mkBuf (b_flags r) (b_dev r) (b_blockno r) (b_lock r) (b_refcnt r) v.
(** [struct logheader]. *)
Record logheader := mkLogheader {
  lh_n : Z;
  lh_block : list Z;  (* LOGSIZE ints *)
}.
Definition set_lh_n (v : Z) (r : logheader) : logheader :=
  mkLogheader v (lh_block r).
Definition set_lh_block (v : list Z) (r : logheader) : logheader :=
  mkLogheader (lh_n r) v.
(** [struct log]. *)
Record logst := mkLogst {
  log_start : Z;
  log_size : Z;
  outstanding : Z;  (* how many FS sys calls are executing *)
  committing : Z;
  log_dev : Z;
  lh : logheader;
}.
Definition set_log_start (v : Z) (r : logst) : logst :=
  mkLogst v (log_size r) (outstanding r) (committing r) (log_dev r) (lh r).
Definition set_log_size (v : Z) (r : logst) : logst :=
  mkLogst (log_start r) v (outstanding r) (committing r) (log_dev r) (lh r).
Definition set_outstanding (v : Z) (r : logst) : logst :=
  mkLogst (log_start r) (log_size r) v (committing r) (log_dev r) (lh r).
Definition set_committing (v : Z) (r : logst) : logst :=
  mkLogst (log_start r) (log_size r) (outstanding r) v (log_dev r) (lh r).
Definition set_log_dev (v : Z) (r : logst) : logst :=
  mkLogst (log_start r) (log_size r) (outstanding r) (committing r) v (lh r).
Definition set_lh (v : logheader) (r : logst) : logst :=
  mkLogst (log_start r) (log_size r) (outstanding r) (committing r) (log_dev r) v.
(** [struct superblock]. *)
Record superblock := mkSuperblock {
  sb_size : Z;  (* size of file system image (blocks) *)
  sb_nblocks : Z;
  sb_ninodes : Z;
  sb_nlog : Z;
  sb_logstart : Z;
  sb_inodestart : Z;
  sb_bmapstart : Z;
}.
Definition set_sb_size (v : Z) (r : superblock) : superblock :=
  mkSuperblock v (sb_nblocks r) (sb_ninodes r) (sb_nlog r) (sb_logstart r) (sb_inodestart r)
    (sb_bmapstart r).
Definition set_sb_nblocks (v : Z) (r : superblock) : superblock :=
  mkSuperblock (sb_size r) v (sb_ninodes r) (sb_nlog r) (sb_logstart r) (sb_inodestart r)
    (sb_bmapstart r).
Definition set_sb_ninodes (v : Z) (r : superblock) : superblock :=
  mkSuperblock (sb_size r) (sb_nblocks r) v (sb_nlog r) (sb_logstart r) (sb_inodestart r)
    (sb_bmapstart r).
Definition set_sb_nlog (v : Z) (r : superblock) : superblock :=
  mkSuperblock (sb_size r) (sb_nblocks r) (sb_ninodes r) v (sb_logstart r) (sb_inodestart r)
    (sb_bmapstart r).
Definition set_sb_logstart (v : Z) (r : superblock) : superblock :=
  mkSuperblock (sb_size r) (sb_nblocks r) (sb_ninodes r) (sb_nlog r) v (sb_inodestart r)
    (sb_bmapstart r).
Definition set_sb_inodestart (v : Z) (r : superblock) : superblock :=
  mkSuperblock (sb_size r) (sb_nblocks r) (sb_ninodes r) (sb_nlog r) (sb_logstart r) v
    (sb_bmapstart r).
Definition set_sb_bmapstart (v : Z) (r : superblock) : superblock :=
  mkSuperblock (sb_size r) (sb_nblocks r) (sb_ninodes r) (sb_nlog r) (sb_logstart r)
    (sb_inodestart r) v.
(** [struct inode]. *)
Record inode := mkInode {
  i_dev : Z;
  i_inum : Z;
  i_ref : Z;
  i_lock : sleeplock;
  i_valid : Z;
  i_type : Z;  (* short *)
  i_major : Z;  (* short *)
  i_minor : Z;  (* short *)
  i_nlink : Z;  (* short *)
  i_size : Z;  (* uint *)
  i_addrs : list Z;  (* NDIRECT+1 block numbers *)
}.
Definition set_i_dev (v : Z) (r : inode) : inode :=
  mkInode v (i_inum r) (i_ref r) (i_lock r) (i_valid r) (i_type r) (i_major r) (i_minor r)
    (i_nlink r) (i_size r) (i_addrs r).
Definition set_i_inum (v : Z) (r : inode) : inode :=
  mkInode (i_dev r) v (i_ref r) (i_lock r) (i_valid r) (i_type r) (i_major r) (i_minor r)
    (i_nlink r) (i_size r) (i_addrs r).
Definition set_i_ref (v : Z) (r : inode) : inode :=
  mkInode (i_dev r) (i_inum r) v (i_lock r) (i_valid r) (i_type r) (i_major r) (i_minor r)
    (i_nlink r) (i_size r) (i_addrs r).
Definition set_i_lock (v : sleeplock) (r : inode) : inode :=
  mkInode (i_dev r) (i_inum r) (i_ref r) v (i_valid r) (i_type r) (i_major r) (i_minor r)
    (i_nlink r) (i_size r) (i_addrs r).
Definition set_i_valid (v : Z) (r : inode) : inode :=
  mkInode (i_dev r) (i_inum r) (i_ref r) (i_lock r) v (i_type r) (i_major r) (i_minor r)
    (i_nlink r) (i_size r) (i_addrs r).
Definition set_i_type (v : Z) (r : inode) : inode :=
  mkInode (i_dev r) (i_inum r) (i_ref r) (i_lock r) (i_valid r) v (i_major r) (i_minor r)
    (i_nlink r) (i_size r) (i_addrs r).
Definition set_i_major (v : Z) (r : inode) : inode :=
  mkInode (i_dev r) (i_inum r) (i_ref r) (i_lock r) (i_valid r) (i_type r) v (i_minor r)
    (i_nlink r) (i_size r) (i_addrs r).
Definition set_i_minor (v : Z) (r : inode) : inode :=
  mkInode (i_dev r) (i_inum r) (i_ref r) (i_lock r) (i_valid r) (i_type r) (i_major r) v
    (i_nlink r) (i_size r) (i_addrs r).
Definition set_i_nlink (v : Z) (r : inode) : inode :=
  mkInode (i_dev r) (i_inum r) (i_ref r) (i_lock r) (i_valid r) (i_type r) (i_major r) (i_minor
    r) v (i_size r) (i_addrs r).
Definition set_i_size (v : Z) (r : inode) : inode :=
  mkInode (i_dev r) (i_inum r) (i_ref r) (i_lock r) (i_valid r) (i_type r) (i_major r) (i_minor
    r) (i_nlink r) v (i_addrs r).
Definition set_i_addrs (v : list Z) (r : inode) : inode :=
  mkInode (i_dev r) (i_inum r) (i_ref r) (i_lock r) (i_valid r) (i_type r) (i_major r) (i_minor
    r) (i_nlink r) (i_size r) v.
(** The kinds of [struct file]. *)
Inductive filetype := FD_NONE | FD_PIPE | FD_INODE.

#[global] Instance filetype_eq_dec : EqDecision filetype.
Proof. solve_decision. Defined.

(** [struct file]. *)
Record file := mkFile {
  f_type : filetype;
  f_ref : Z;
  f_readable : Z;
  f_writable : Z;
  f_pipe : Z;  (* address of the pipe *)
  f_ip : option nat;  (* index in the inode cache *)
  f_off : Z;  (* uint *)
}.
Definition set_f_type (v : filetype) (r : file) : file :=
  mkFile v (f_ref r) (f_readable r) (f_writable r) (f_pipe r) (f_ip r) (f_off r).
Definition set_f_ref (v : Z) (r : file) : file :=
  mkFile (f_type r) v (f_readable r) (f_writable r) (f_pipe r) (f_ip r) (f_off r).
Definition set_f_readable (v : Z) (r : file) : file :=
  mkFile (f_type r) (f_ref r) v (f_writable r) (f_pipe r) (f_ip r) (f_off r).
Definition set_f_writable (v : Z) (r : file) : file :=
  mkFile (f_type r) (f_ref r) (f_readable r) v (f_pipe r) (f_ip r) (f_off r).
Definition set_f_pipe (v : Z) (r : file) : file :=
  mkFile (f_type r) (f_ref r) (f_readable r) (f_writable r) v (f_ip r) (f_off r).
Definition set_f_ip (v : option nat) (r : file) : file :=
  mkFile (f_type r) (f_ref r) (f_readable r) (f_writable r) (f_pipe r) v (f_off r).
Definition set_f_off (v : Z) (r : file) : file :=
  mkFile (f_type r) (f_ref r) (f_readable r) (f_writable r) (f_pipe r) (f_ip r) v.
(** [struct pipe]; its spinlock is one of [locks]. *)
Record pipe := mkPipe {
  p_data : list Z;  (* PIPESIZE bytes *)
  nread : Z;  (* uint *)
  nwrite : Z;  (* uint *)
  readopen : Z;
  writeopen : Z;
}.
Definition set_p_data (v : list Z) (r : pipe) : pipe :=
  mkPipe v (nread r) (nwrite r) (readopen r) (writeopen r).
Definition set_nread (v : Z) (r : pipe) : pipe :=
  mkPipe (p_data r) v (nwrite r) (readopen r) (writeopen r).
Definition set_nwrite (v : Z) (r : pipe) : pipe :=
  mkPipe (p_data r) (nread r) v (readopen r) (writeopen r).
Definition set_readopen (v : Z) (r : pipe) : pipe :=
  mkPipe (p_data r) (nread r) (nwrite r) v (writeopen r).
Definition set_writeopen (v : Z) (r : pipe) : pipe :=
  mkPipe (p_data r) (nread r) (nwrite r) (readopen r) v.
(** The globals of [ide.c], [bio.c], [log.c], [fs.c], [file.c] and the pipes. *)
Record fsys := mkFsys {
  disk : gmap (Z * Z) (list Z);  (* the sectors of the two disks *)
  dwrites : list (Z * Z * list Z);  (* history: the sectors written so far, in order *)
  ide_cmd : option (Z * Z * option (list Z));  (* the command the controller works on: disk, sector, and what it writes *)
  ide_data : list Z;  (* the sector the controller has read *)
  ide_status : Z;  (* the status register of the controller *)
  havedisk1 : Z;
  bufs : list buf;  (* bcache.buf *)
  lru : list nat;  (* the list through bcache.head, most recently used first *)
  idequeue : list nat;  (* the disk queue *)
  log : logst;
  sb : superblock;
  inodes : list inode;  (* icache.inode *)
  files : list file;  (* ftable.file *)
  pipes : gmap Z pipe;  (* the pipes, at the page they are in *)
}.
Definition set_disk (v : gmap (Z * Z) (list Z)) (r : fsys) : fsys :=
  mkFsys v (dwrites r) (ide_cmd r) (ide_data r) (ide_status r) (havedisk1 r) (bufs r) (lru r)
    (idequeue r) (log r) (sb r) (inodes r) (files r) (pipes r).
Definition set_dwrites (v : list (Z * Z * list Z)) (r : fsys) : fsys :=
  mkFsys (disk r) v (ide_cmd r) (ide_data r) (ide_status r) (havedisk1 r) (bufs r) (lru r)
    (idequeue r) (log r) (sb r) (inodes r) (files r) (pipes r).
Definition set_ide_cmd (v : option (Z * Z * option (list Z))) (r : fsys) : fsys :=
  mkFsys (disk r) (dwrites r) v (ide_data r) (ide_status r) (havedisk1 r) (bufs r) (lru r)
    (idequeue r) (log r) (sb r) (inodes r) (files r) (pipes r).
Definition set_ide_data (v : list Z) (r : fsys) : fsys :=
  mkFsys (disk r) (dwrites r) (ide_cmd r) v (ide_status r) (havedisk1 r) (bufs r) (lru r)
    (idequeue r) (log r) (sb r) (inodes r) (files r) (pipes r).
Definition set_ide_status (v : Z) (r : fsys) : fsys :=
  mkFsys (disk r) (dwrites r) (ide_cmd r) (ide_data r) v (havedisk1 r) (bufs r) (lru r)
    (idequeue r) (log r) (sb r) (inodes r) (files r) (pipes r).
Definition set_havedisk1 (v : Z) (r : fsys) : fsys :=
  mkFsys (disk r) (dwrites r) (ide_cmd r) (ide_data r) (ide_status r) v (bufs r) (lru r)
    (idequeue r) (log r) (sb r) (inodes r) (files r) (pipes r).
Definition set_bufs (v : list buf) (r : fsys) : fsys :=
  mkFsys (disk r) (dwrites r) (ide_cmd r) (ide_data r) (ide_status r) (havedisk1 r) v (lru r)
    (idequeue r) (log r) (sb r) (inodes r) (files r) (pipes r).
Definition set_lru (v : list nat) (r : fsys) : fsys :=
  mkFsys (disk r) (dwrites r) (ide_cmd r) (ide_data r) (ide_status r) (havedisk1 r) (bufs r) v
    (idequeue r) (log r) (sb r) (inodes r) (files r) (pipes r).
Definition set_idequeue (v : list nat) (r : fsys) : fsys :=
  mkFsys (disk r) (dwrites r) (ide_cmd r) (ide_data r) (ide_status r) (havedisk1 r) (bufs r)
    (lru r) v (log r) (sb r) (inodes r) (files r) (pipes r).
Definition set_log (v : logst) (r : fsys) : fsys :=
  mkFsys (disk r) (dwrites r) (ide_cmd r) (ide_data r) (ide_status r) (havedisk1 r) (bufs r)
    (lru r) (idequeue r) v (sb r) (inodes r) (files r) (pipes r).
Definition set_sb (v : superblock) (r : fsys) : fsys :=
  mkFsys (disk r) (dwrites r) (ide_cmd r) (ide_data r) (ide_status r) (havedisk1 r) (bufs r)
    (lru r) (idequeue r) (log r) v (inodes r) (files r) (pipes r).
Definition set_inodes (v : list inode) (r : fsys) : fsys :=
  mkFsys (disk r) (dwrites r) (ide_cmd r) (ide_data r) (ide_status r) (havedisk1 r) (bufs r)
    (lru r) (idequeue r) (log r) (sb r) v (files r) (pipes r).
Definition set_files (v : list file) (r : fsys) : fsys :=
  mkFsys (disk r) (dwrites r) (ide_cmd r) (ide_data r) (ide_status r) (havedisk1 r) (bufs r)
    (lru r) (idequeue r) (log r) (sb r) (inodes r) v (pipes r).
Definition set_pipes (v : gmap Z pipe) (r : fsys) : fsys :=
  mkFsys (disk r) (dwrites r) (ide_cmd r) (ide_data r) (ide_status r) (havedisk1 r) (bufs r)
    (lru r) (idequeue r) (log r) (sb r) (inodes r) (files r) v.
(** The globals of [console.c] and the two output devices. *)
Record consst := mkConsst {
  cons_locking : Z;
  input_buf : list Z;  (* INPUT_BUF bytes *)
  input_r : Z;  (* uint: read index *)
  input_w : Z;  (* uint: write index *)
  input_e : Z;  (* uint: edit index *)
  crt : list Z;  (* CGA memory, 80 * 25 cells *)
  crt_pos : Z;  (* the cursor register *)
  panicked : Z;
  uart : Z;  (* is there a uart? *)
  uart_out : list Z;  (* the bytes sent to the serial line *)
}.
Definition set_cons_locking (v : Z) (r : consst) : consst :=
  mkConsst v (input_buf r) (input_r r) (input_w r) (input_e r) (crt r) (crt_pos r) (panicked r)
    (uart r) (uart_out r).
Definition set_input_buf (v : list Z) (r : consst) : consst :=
  mkConsst (cons_locking r) v (input_r r) (input_w r) (input_e r) (crt r) (crt_pos r) (panicked
    r) (uart r) (uart_out r).
Definition set_input_r (v : Z) (r : consst) : consst :=
  mkConsst (cons_locking r) (input_buf r) v (input_w r) (input_e r) (crt r) (crt_pos r)
    (panicked r) (uart r) (uart_out r).
Definition set_input_w (v : Z) (r : consst) : consst :=
  mkConsst (cons_locking r) (input_buf r) (input_r r) v (input_e r) (crt r) (crt_pos r)
    (panicked r) (uart r) (uart_out r).
Definition set_input_e (v : Z) (r : consst) : consst :=
  mkConsst (cons_locking r) (input_buf r) (input_r r) (input_w r) v (crt r) (crt_pos r)
    (panicked r) (uart r) (uart_out r).
Definition set_crt (v : list Z) (r : consst) : consst :=
  mkConsst (cons_locking r) (input_buf r) (input_r r) (input_w r) (input_e r) v (crt_pos r)
    (panicked r) (uart r) (uart_out r).
Definition set_crt_pos (v : Z) (r : consst) : consst :=
  mkConsst (cons_locking r) (input_buf r) (input_r r) (input_w r) (input_e r) (crt r) v
    (panicked r) (uart r) (uart_out r).
Definition set_panicked (v : Z) (r : consst) : consst :=
  mkConsst (cons_locking r) (input_buf r) (input_r r) (input_w r) (input_e r) (crt r) (crt_pos
    r) v (uart r) (uart_out r).
Definition set_uart (v : Z) (r : consst) : consst :=
  mkConsst (cons_locking r) (input_buf r) (input_r r) (input_w r) (input_e r) (crt r) (crt_pos
    r) (panicked r) v (uart_out r).
Definition set_uart_out (v : list Z) (r : consst) : consst :=
  mkConsst (cons_locking r) (input_buf r) (input_r r) (input_w r) (input_e r) (crt r) (crt_pos
    r) (panicked r) (uart r) v.
(** The whole kernel. *)
Record kernel := mkKernel {
  k_mach : mach;
  k_vm : vmem;
  k_pt : ptab;
  k_fs : fsys;
  k_cons : consst;
}.
Definition set_k_mach (v : mach) (r : kernel) : kernel :=
  mkKernel v (k_vm r) (k_pt r) (k_fs r) (k_cons r).
Definition set_k_vm (v : vmem) (r : kernel) : kernel :=
  mkKernel (k_mach r) v (k_pt r) (k_fs r) (k_cons r).
Definition set_k_pt (v : ptab) (r : kernel) : kernel :=
  mkKernel (k_mach r) (k_vm r) v (k_fs r) (k_cons r).
Definition set_k_fs (v : fsys) (r : kernel) : kernel :=
  mkKernel (k_mach r) (k_vm r) (k_pt r) v (k_cons r).
Definition set_k_cons (v : consst) (r : kernel) : kernel :=
  mkKernel (k_mach r) (k_vm r) (k_pt r) (k_fs r) v.
(** Kernel code. *)
Abbreviation K := (M kerr kernel).

Definition panic {A} (msg : string) : K A := fail (Panic msg).
Arguments panic _ _ _ /.

(** Updates of the parts. *)
Definition mod_mach (f : mach → mach) (k : kernel) : kernel := set_k_mach (f (k_mach k)) k.
Definition mod_vm (f : vmem → vmem) (k : kernel) : kernel := set_k_vm (f (k_vm k)) k.
Definition mod_pt (f : ptab → ptab) (k : kernel) : kernel := set_k_pt (f (k_pt k)) k.
Definition mod_fs (f : fsys → fsys) (k : kernel) : kernel := set_k_fs (f (k_fs k)) k.
Definition mod_cons (f : consst → consst) (k : kernel) : kernel := set_k_cons (f (k_cons k)) k.
