(* ===== verification/Spinlock.v ===== *)
(** [spinlock.c], and [mycpu], [cpuid] and [myproc] of [proc.c]: interrupt
    nesting per CPU, and spin locks.

    The model runs the code of one CPU.  A lock that another CPU holds makes
    [acquire] spin, which is the error [Spinning]; interrupts and the other
    CPUs act between calls, not inside one. *)

From S2P Require Import Prelude Params State.

(** ** x86 instructions *)
Definition readeflags : K Z := gets (λ k, eflags (k_mach k)).
Definition cli : K unit :=
  modify (mod_mach (λ m, set_eflags (Z.land (eflags m) (Z.lnot FL_IF)) m)).
Definition sti : K unit :=
  modify (mod_mach (λ m, set_eflags (Z.lor (eflags m) FL_IF) m)).

(** ** The current CPU *)
Definition find_cpu (m : mach) : option nat :=
  fst <$> list_find (λ c, apicid c = lapicid m) (cpus m).

#[global] Arguments find_cpu : simpl never.

Definition mycpu : K nat :=
  fl ← readeflags;
  if truthy (Z.land fl FL_IF) then panic "mycpu called with interrupts enabled"
  else
    m ← gets k_mach;
    match find_cpu m with
    | Some i => ret i
    | None => panic "unknown apicid"
    end.

Definition cpuid : K nat := mycpu.

Definition get_cpu (i : nat) : K cpu :=
  m ← gets k_mach; or_ub "cpus" (cpus m !! i).

Definition mod_cpu (i : nat) (f : cpu → cpu) (m : mach) : mach := set_cpus (alter f i (cpus m)) m.

Definition pushcli : K unit :=
  fl ← readeflags;
  cli;;
  i ← mycpu;
  c ← get_cpu i;
  when (ncli c =? 0) (modify (mod_mach (mod_cpu i (set_intena (Z.land fl FL_IF)))));;
  modify (mod_mach (mod_cpu i (λ c, set_ncli (ncli c + 1) c))).

Definition popcli : K unit :=
  fl ← readeflags;
  if truthy (Z.land fl FL_IF) then panic "popcli - interruptible"
  else
    i ← mycpu;
    modify (mod_mach (mod_cpu i (λ c, set_ncli (ncli c - 1) c)));;
    c ← get_cpu i;
    if ncli c <? 0 then panic "popcli"
    else when ((ncli c =? 0) && truthy (intena c)) sti.

(** ** Locks *)
Definition get_lock (l : lockid) : K spinlock :=
  m ← gets k_mach; or_ub "lock" (locks m !! l).
Definition set_lock (l : lockid) (s : spinlock) : K unit :=
  modify (mod_mach (λ m, set_locks (<[l := s]> (locks m)) m)).

Definition initlock (l : lockid) (name : string) : K unit :=
  set_lock l (mkSpinlock 0 name None).

Definition holding (l : lockid) : K bool :=
  s ← get_lock l;
  if truthy (locked s) then
    i ← mycpu; ret (bool_decide (lk_cpu s = Some i))
  else ret false.

Definition acquire (l : lockid) : K unit :=
  pushcli;;
  h ← holding l;
  if h : bool then panic "acquire"
  else
    s ← get_lock l;
    (* while(xchg(&lk->locked, 1) != 0) *)
    if truthy (locked s) then fail (Spinning l)
    else
      set_lock l (set_locked 1 s);;
      i ← mycpu;
      s ← get_lock l;
      set_lock l (set_lk_cpu (Some i) s).

Definition release (l : lockid) : K unit :=
  h ← holding l;
  if h : bool then
    s ← get_lock l;
    set_lock l (set_lk_cpu None s);;
    s ← get_lock l;
    set_lock l (set_locked 0 s);;
    popcli
  else panic "release".

(** [myproc] reads [cpu->proc] with interrupts off. *)
Definition myproc : K (option nat) :=
  pushcli;;
  i ← mycpu;
  c ← get_cpu i;
  let p := cpu_proc c in
  popcli;;
  ret p.

#[global] Arguments mycpu : simpl never.
#[global] Arguments pushcli : simpl never.
#[global] Arguments popcli : simpl never.
#[global] Arguments holding : simpl never.
#[global] Arguments acquire : simpl never.
#[global] Arguments release : simpl never.
#[global] Arguments myproc : simpl never.

(** ** Nesting

    [cpu_ok m i c]: the code runs on CPU [i]; inside [pushcli] interrupts are
    off, and outside it [intena] is what the next [pushcli] will save. *)
Record cpu_ok (m : mach) (i : nat) (c : cpu) : Prop := mkCpuOk {
  ok_find : find_cpu m = Some i;
  ok_cpu : cpus m !! i = Some c;
  ok_ncli : 0 ≤ ncli c;
  ok_out : ncli c = 0 → intena c = Z.land (eflags m) FL_IF;
  ok_in : ncli c ≠ 0 → Z.land (eflags m) FL_IF = 0
}.

Definition mach_ok (m : mach) : Prop := ∃ i c, cpu_ok m i c.

(** The machine after [pushcli]. *)
Definition pushed (m : mach) : mach :=
  mod_cpu (default 0%nat (find_cpu m)) (λ c, set_ncli (ncli c + 1) c)
    (set_eflags (Z.land (eflags m) (Z.lnot FL_IF)) m).

(** A lock that [acquire] can take at once. *)
Definition avail (l : lockid) (m : mach) : Prop :=
  mach_ok m ∧ ∃ nm, locks m !! l = Some (mkSpinlock 0 nm None).

(** The machine after [acquire l]. *)
Definition hold (l : lockid) (m : mach) : mach :=
  set_locks (alter (λ s, mkSpinlock 1 (lk_name s) (find_cpu m)) l (locks m)) (pushed m).

Lemma list_find_alter {A} (P : A → Prop) `{∀ x, Decision (P x)} (f : A → A) i (l : list A) :
  (∀ x, P (f x) ↔ P x) → fst <$> list_find P (alter f i l) = fst <$> list_find P l.
Proof.
  intros Hf. revert i. induction l as [|x l IH]; intros [|i]; simpl; [done..| |].
  - specialize (Hf x). repeat case_decide; try done; tauto.
  - case_decide; [done|]. specialize (IH i).
    change (list_alter f i l) with (alter f i l).
    destruct (list_find P (alter f i l)) as [[]|], (list_find P l) as [[]|];
      simpl in *; congruence.
Qed.

Lemma eflags_off e : Z.land (Z.land e (Z.lnot FL_IF)) FL_IF = 0.
Proof.
  rewrite <- Z.land_assoc. change (Z.land (Z.lnot FL_IF) FL_IF) with 0. apply Z.land_0_r.
Qed.

Lemma eflags_restore e :
  (if truthy (Z.land e FL_IF) then Z.lor (Z.land e (Z.lnot FL_IF)) FL_IF
   else Z.land e (Z.lnot FL_IF)) = e.
Proof.
  assert (Hb : Z.land e FL_IF = if Z.testbit e 9 then FL_IF else 0).
  { change FL_IF with (2 ^ 9). apply Z.bits_inj'. intros n Hn.
    rewrite Z.land_spec, Z.pow2_bits_eqb by lia.
    destruct (Z.eqb_spec 9 n) as [<-|].
    - destruct (Z.testbit e 9); [by rewrite Z.pow2_bits_true|done].
    - rewrite andb_false_r. destruct (Z.testbit e 9); [by rewrite Z.pow2_bits_false|by rewrite Z.bits_0]. }
  rewrite Hb. destruct (Z.testbit e 9) eqn:H9;
    [change (truthy FL_IF) with true|change (truthy 0) with false]; cbv iota;
    change FL_IF with (2 ^ 9); apply Z.bits_inj'; intros n Hn;
    rewrite ?Z.lor_spec, Z.land_spec, Z.lnot_spec, ?Z.pow2_bits_eqb by lia;
    destruct (Z.eqb_spec 9 n) as [<-|]; cbn [negb];
    rewrite ?H9, ?andb_true_r, ?orb_false_r; done.
Qed.

Section specs.
Implicit Types (k : kernel) (m : mach) (l : lockid).

Lemma find_cpu_pushed m : find_cpu (pushed m) = find_cpu m.
Proof. unfold find_cpu, pushed, mod_cpu. cbn. by apply list_find_alter. Qed.

Lemma cpu_ok_pushed m i c : cpu_ok m i c → cpu_ok (pushed m) i (set_ncli (ncli c + 1) c).
Proof.
  intros [Hf Hc Hn Ho Hi].
  split; [by rewrite find_cpu_pushed| | cbn; lia | cbn; lia |].
  - unfold pushed, mod_cpu. cbn. rewrite Hf. cbn. by rewrite list_lookup_alter_eq, Hc.
  - intros _. apply eflags_off.
Qed.

Lemma mycpu_ok k i :
  find_cpu (k_mach k) = Some i → Z.land (eflags (k_mach k)) FL_IF = 0 → mycpu k = Ok i k.
Proof.
  intros Hf He. unfold mycpu, readeflags. cbn. rewrite He, truthy_0. cbn. by rewrite Hf.
Qed.

Lemma get_cpu_ok k i c : cpus (k_mach k) !! i = Some c → get_cpu i k = Ok c k.
Proof. intros Hc. unfold get_cpu. cbn. by rewrite Hc. Qed.

Lemma pushcli_ok k : mach_ok (k_mach k) → pushcli k = Ok tt (mod_mach pushed k).
Proof.
  intros (i & c & Hok). pose proof Hok as [Hf Hc Hn Ho Hi].
  unfold pushcli, mod_mach, readeflags. cbn.
  match goal with |- context [mycpu ?k'] => assert (Hmy : mycpu k' = Ok i k') end.
  { apply mycpu_ok; [exact Hf|apply eflags_off]. }
  rewrite Hmy. cbn. rewrite Hc. cbn. unfold pushed, mod_cpu. rewrite Hf. cbn.
  destruct (Z.eqb_spec (ncli c) 0) as [Hz|Hz]; cbn; [|done].
  unfold set_k_mach, set_cpus. cbn. rewrite list_alter_alter_eq.
  do 3 f_equal. apply list_alter_ext; [|done]. intros c' [= <-]%(eq_trans (eq_sym Hc)).
  cbn. unfold set_ncli, set_intena. cbn. by rewrite (Ho Hz).
Qed.

Lemma popcli_ok k m :
  mach_ok m → k_mach k = pushed m → popcli k = Ok tt (set_k_mach m k).
Proof.
  intros (i & c & Hok) Hk. pose proof (cpu_ok_pushed _ _ _ Hok) as Hok'.
  pose proof Hok as [Hf Hc Hn Ho Hi]. unfold popcli, readeflags. cbn.
  rewrite Hk. cbn. rewrite eflags_off, truthy_0. cbn.
  rewrite (mycpu_ok k i) by (rewrite Hk; first [exact (ok_find _ _ _ Hok') | apply eflags_off]). cbn.
  unfold mod_mach, mod_cpu. rewrite Hk. unfold pushed, mod_cpu. cbn.
  rewrite Hf. cbn. rewrite list_alter_alter_eq, list_lookup_alter_eq, Hc. cbn.
  replace (ncli c + 1 - 1) with (ncli c) by lia.
  rewrite list_alter_id by (intros []; unfold set_ncli; cbn; f_equal; lia).
  rewrite (proj2 (Z.ltb_ge _ _)) by done.
  pose proof (eflags_restore (eflags m)) as He.
  destruct (Z.eqb_spec (ncli c) 0) as [Hz|Hz]; cbn.
  - rewrite (Ho Hz). unfold when, sti, mod_mach. destruct (truthy _); cbn in *; rewrite He; by destruct m.
  - rewrite (Hi Hz), truthy_0 in He. rewrite He. by destruct m.
Qed.

Lemma mach_ok_hold l m : mach_ok m → mach_ok (hold l m).
Proof.
  intros (i & c & [?????]%cpu_ok_pushed). exists i, (set_ncli (ncli c + 1) c). by split.
Qed.

Lemma avail_ok l m : avail l m → mach_ok m.
Proof. by intros []. Qed.

Lemma avail_hold l l' m : l ≠ l' → avail l m → avail l (hold l' m).
Proof.
  intros Hne [Hm [nm Hl]]. split; [by apply mach_ok_hold|]. exists nm. cbn.
  by rewrite lookup_alter_ne.
Qed.

(** [acquire] takes an available lock and changes nothing else. *)
Lemma acquire_ok l k : avail l (k_mach k) → acquire l k = Ok tt (mod_mach (hold l) k).
Proof.
  intros [Hm [nm Hl]]. pose proof Hm as (i & c & Hok).
  pose proof (cpu_ok_pushed _ _ _ Hok) as [Hf' Hc' _ _ _].
  unfold acquire. rewrite (bind_ok _ _ _ _ _ (pushcli_ok k Hm)).
  unfold holding, get_lock. cbn. rewrite Hl. cbn. rewrite truthy_0. cbn. rewrite Hl. cbn. rewrite truthy_0. cbn.
  rewrite (mycpu_ok _ i) by first [exact Hf' | apply eflags_off]. cbn.
  rewrite lookup_insert_eq. cbn. unfold set_lock, hold, pushed. cbn. rewrite find_cpu_pushed in Hf'.
  unfold mod_mach, set_k_mach, set_locks, set_lk_cpu, set_locked. cbn.
  by rewrite insert_insert_eq, alter_alt, Hl, Hf'.
Qed.

(** [release] by the CPU that took the lock restores the machine. *)
Lemma release_ok l k m :
  avail l m → k_mach k = hold l m → release l k = Ok tt (set_k_mach m k).
Proof.
  intros [Hm [nm Hl]] Hk. pose proof Hm as (i & c & Hok).
  pose proof (cpu_ok_pushed _ _ _ Hok) as [Hf' Hc' _ _ _].
  assert (Hh : locks (hold l m) !! l = Some (mkSpinlock 1 nm (Some i))).
  { cbn. rewrite lookup_alter_eq, Hl. cbn. by rewrite <- find_cpu_pushed, Hf'. }
  assert (Hpop : ∀ k', k_mach k' = set_locks (locks m) (hold l m) →
    popcli k' = Ok tt (set_k_mach m k')) by (intros k' Hk'; by apply popcli_ok).
  unfold release, holding, get_lock. cbn. rewrite Hk, Hh. cbn. rewrite truthy_1. cbn.
  rewrite (mycpu_ok k i) by (rewrite Hk; first [exact Hf' | apply eflags_off]). cbn.
  rewrite bool_decide_true by done. cbn. rewrite Hk, Hh. cbn. rewrite lookup_insert_eq. cbn.
  unfold set_lock. cbn. rewrite Hpop; [done|]. unfold mod_mach. cbn. rewrite Hk. unfold set_locks, set_lk_cpu, set_locked.
  cbn. f_equal. apply map_eq. intros l'. destruct (decide (l = l')) as [<-|].
  - by rewrite lookup_insert_eq.
  - rewrite !lookup_insert_ne, lookup_alter_ne by done. done.
Qed.

(** A second [acquire] by the same CPU panics, and one by another CPU spins. *)
Lemma acquire_held l k m :
  avail l m → k_mach k = hold l m →
  acquire l k = Err (Panic "acquire") (mod_mach pushed k).
Proof.
  intros Ha Hk. pose proof Ha as [Hm [nm Hl]]. pose proof Hm as (i & c & Hok).
  pose proof (cpu_ok_pushed _ _ _ Hok) as Hok1.
  pose proof (mach_ok_hold l m Hm) as Hmh. rewrite <- Hk in Hmh.
  unfold acquire. rewrite (bind_ok _ _ _ _ _ (pushcli_ok k Hmh)).
  unfold holding, get_lock. cbn. rewrite Hk. cbn. rewrite lookup_alter_eq, Hl. cbn. rewrite truthy_1. cbn.
  destruct Hok as [Hf _ _ _ _]. destruct Hok1 as [Hf1 _ _ _ _].
  rewrite (mycpu_ok _ i).
  - cbn. by rewrite Hf, bool_decide_true.
  - cbn. rewrite find_cpu_pushed, Hk. exact Hf1.
  - apply eflags_off.
Qed.

(** [myproc] returns [cpu->proc] and leaves the machine as it was. *)
Lemma myproc_ok k i c : cpu_ok (k_mach k) i c → myproc k = Ok (cpu_proc c) k.
Proof.
  intros Hok. pose proof (cpu_ok_pushed _ _ _ Hok) as Hok1.
  assert (Hm : mach_ok (k_mach k)) by (by exists i, c).
  unfold myproc. rewrite (bind_ok _ _ _ _ _ (pushcli_ok k Hm)).
  erewrite bind_ok by (apply mycpu_ok; [apply Hok1|apply eflags_off]).
  rewrite (bind_ok _ _ _ _ _ (get_cpu_ok (mod_mach pushed k) _ _ (ok_cpu _ _ _ Hok1))). cbn.
  rewrite (popcli_ok _ _ Hm) by done. by destruct k.
Qed.
(** ** [intena] between critical sections

    While [ncli] is zero the code never reads [intena]; the specifications
    above ask for the value the next [pushcli] gives it.  [sync] puts it there,
    and nothing that starts with [pushcli] can tell the difference. *)
Definition sync (m : mach) : mach :=
  match find_cpu m with
  | Some i => mod_cpu i (λ c, if ncli c =? 0 then set_intena (Z.land (eflags m) FL_IF) c else c) m
  | None => m
  end.

(** [cpu_ok] without the condition on [intena]. *)
Definition cpu_weak (m : mach) (i : nat) (c : cpu) : Prop :=
  find_cpu m = Some i ∧ cpus m !! i = Some c ∧ 0 ≤ ncli c ∧ (ncli c ≠ 0 → Z.land (eflags m) FL_IF = 0).

Lemma find_cpu_sync m : find_cpu (sync m) = find_cpu m.
Proof.
  unfold sync. destruct (find_cpu m) as [i|] eqn:Hf; [|done]. rewrite <- Hf.
  unfold find_cpu, mod_cpu. cbn. apply list_find_alter. intros c. by destruct (ncli c =? 0).
Qed.

Lemma sync_ok m i c : cpu_weak m i c → mach_ok (sync m).
Proof.
  intros (Hf & Hc & Hn & Hi). eexists i, _.
  split; [by rewrite find_cpu_sync|unfold sync; rewrite Hf; cbn; by rewrite list_lookup_alter_eq, Hc|..];
    cbn; destruct (Z.eqb_spec (ncli c) 0); unfold sync; rewrite ?Hf; cbn; lia || done.
Qed.

Lemma pushcli_sync k i c : cpu_weak (k_mach k) i c → pushcli (mod_mach sync k) = pushcli k.
Proof.
  intros Hw. pose proof Hw as (Hf & Hc & Hn & Hi).
  rewrite (pushcli_ok (mod_mach sync k)) by (by eapply sync_ok).
  unfold pushcli, mod_mach, readeflags. cbn.
  match goal with |- context [mycpu ?k'] => assert (Hmy : mycpu k' = Ok i k') end.
  { apply mycpu_ok; [exact Hf|apply eflags_off]. }
  rewrite Hmy. cbn. rewrite Hc. cbn. unfold pushed, mod_cpu. rewrite find_cpu_sync, Hf.
  unfold sync. rewrite Hf. cbn. unfold set_k_mach, set_cpus. cbn. rewrite list_alter_alter_eq.
  destruct (Z.eqb_spec (ncli c) 0) as [Hz|Hz]; cbn; rewrite ?list_alter_alter_eq; do 3 f_equal;
    (apply list_alter_ext; [|done]); intros c' [= <-]%(eq_trans (eq_sym Hc)); cbn.
  - by rewrite (proj2 (Z.eqb_eq _ _)) by done.
  - by rewrite (proj2 (Z.eqb_neq _ _)) by done.
Qed.

(** So does what starts by taking a lock or asking for the current process. *)
Lemma acquire_sync l k i c : cpu_weak (k_mach k) i c → acquire l (mod_mach sync k) = acquire l k.
Proof. intros Hw. unfold acquire, bind. by rewrite (pushcli_sync k i c). Qed.

Lemma myproc_sync k i c : cpu_weak (k_mach k) i c → myproc (mod_mach sync k) = myproc k.
Proof. intros Hw. unfold myproc, bind. by rewrite (pushcli_sync k i c). Qed.
End specs.

#[export] Hint Resolve avail_ok avail_hold mach_ok_hold : xv6.
