(* ===== verification/Mem.v ===== *)
(** Byte memory, and the routines of [string.c] over it.

    Memory maps an address to a byte; a byte that was never written reads as
    zero.  Words are little endian, as on x86. *)

From S2P Require Import Prelude Params.

Abbreviation memory := (gmap Z Z).

(** ** Loads and stores *)
Definition rd8 (m : memory) (a : Z) : Z := u8 (default 0 (m !! a)).
Definition wr8 (m : memory) (a b : Z) : memory := <[a := u8 b]> m.

Definition rd32 (m : memory) (a : Z) : Z :=
  rd8 m a + 2 ^ 8 * rd8 m (a + 1) + 2 ^ 16 * rd8 m (a + 2) + 2 ^ 24 * rd8 m (a + 3).
Definition wr32 (m : memory) (a v : Z) : memory :=
  wr8 (wr8 (wr8 (wr8 m a v) (a + 1) (Z.shiftr v 8)) (a + 2) (Z.shiftr v 16)) (a + 3) (Z.shiftr v 24).

#[global] Arguments rd8 : simpl never.
#[global] Arguments wr8 : simpl never.
#[global] Arguments rd32 : simpl never.
#[global] Arguments wr32 : simpl never.

(** The [n] bytes at [a], and storing a list of bytes at [a]. *)
Fixpoint read_bytes (m : memory) (a : Z) (n : nat) : list Z :=
  match n with
  | O => []
  | S n => rd8 m a :: read_bytes m (a + 1) n
  end.
Fixpoint write_bytes (m : memory) (a : Z) (l : list Z) : memory :=
  match l with
  | [] => m
  | b :: l => write_bytes (wr8 m a b) (a + 1) l
  end.

(** ** String instructions ([x86.h]) *)
Fixpoint stosb (m : memory) (addr data : Z) (cnt : nat) : memory :=
  match cnt with
  | O => m
  | S cnt => stosb (wr8 m addr data) (addr + 1) data cnt
  end.
Fixpoint stosl (m : memory) (addr data : Z) (cnt : nat) : memory :=
  match cnt with
  | O => m
  | S cnt => stosl (wr32 m addr data) (addr + 4) data cnt
  end.

(** ** [string.c] *)
Definition memset (m : memory) (dst c n : Z) : memory :=
  if (dst mod 4 =? 0) && (n mod 4 =? 0) then
    let c := Z.land c 0xFF in
    stosl m dst (Z.lor (Z.lor (Z.lor (Z.shiftl c 24) (Z.shiftl c 16)) (Z.shiftl c 8)) c)
      (Z.to_nat (n / 4))
  else stosb m dst c (Z.to_nat n).

Fixpoint memcmp_go (m : memory) (s1 s2 : Z) (n : nat) : Z :=
  match n with
  | O => 0
  | S n =>
      if negb (rd8 m s1 =? rd8 m s2) then rd8 m s1 - rd8 m s2
      else memcmp_go m (s1 + 1) (s2 + 1) n
  end.
Definition memcmp (m : memory) (v1 v2 n : Z) : Z := memcmp_go m v1 v2 (Z.to_nat n).

(** Copy downwards: [d] and [s] point one past the bytes still to copy. *)
Fixpoint copy_down (m : memory) (d s : Z) (n : nat) : memory :=
  match n with
  | O => m
  | S n => copy_down (wr8 m (d - 1) (rd8 m (s - 1))) (d - 1) (s - 1) n
  end.
Fixpoint copy_up (m : memory) (d s : Z) (n : nat) : memory :=
  match n with
  | O => m
  | S n => copy_up (wr8 m d (rd8 m s)) (d + 1) (s + 1) n
  end.
Definition memmove (m : memory) (dst src n : Z) : memory :=
  if (src <? dst) && (dst <? src + n) then copy_down m (dst + n) (src + n) (Z.to_nat n)
  else copy_up m dst src (Z.to_nat n).

Definition memcpy (m : memory) (dst src n : Z) : memory := memmove m dst src n.

Fixpoint strncmp_go (m : memory) (p q : Z) (n : nat) : Z :=
  match n with
  | O => 0
  | S n =>
      if truthy (rd8 m p) && (rd8 m p =? rd8 m q) then strncmp_go m (p + 1) (q + 1) n
      else rd8 m p - rd8 m q
  end.
Definition strncmp (m : memory) (p q n : Z) : Z := strncmp_go m p q (Z.to_nat n).

Fixpoint strncpy_go (m : memory) (s t : Z) (n : nat) : memory :=
  match n with
  | O => m
  | S n =>
      let c := rd8 m t in
      let m := wr8 m s c in
      if truthy c then strncpy_go m (s + 1) (t + 1) n
      else stosb m (s + 1) 0 n
  end.
Definition strncpy (m : memory) (s t n : Z) : memory := strncpy_go m s t (Z.to_nat n).

Fixpoint safestrcpy_go (m : memory) (s t : Z) (n : nat) : memory :=
  match n with
  | O => wr8 m s 0
  | S n =>
      let c := rd8 m t in
      let m := wr8 m s c in
      if truthy c then safestrcpy_go m (s + 1) (t + 1) n
      else wr8 m (s + 1) 0
  end.
Definition safestrcpy (m : memory) (s t n : Z) : memory :=
  if n <=? 0 then m else safestrcpy_go m s t (Z.to_nat (n - 1)).

(** [strlen] scans until a NUL; [fuel] bounds the scan. *)
Fixpoint strlen_go (m : memory) (s n : Z) (fuel : nat) : option Z :=
  match fuel with
  | O => None
  | S fuel => if truthy (rd8 m (s + n)) then strlen_go m s (n + 1) fuel else Some n
  end.
Definition strlen (m : memory) (s : Z) (fuel : nat) : option Z := strlen_go m s 0 fuel.

(** [a] is one of the [n] addresses from [d]. *)
Definition within (d n a : Z) : bool := (d <=? a) && (a <? d + n).

Lemma within_spec d n a : BoolSpec (d ≤ a < d + n) (a < d ∨ d + n ≤ a) (within d n a).
Proof.
  unfold within. destruct (Z.leb_spec d a), (Z.ltb_spec a (d + n)); constructor; lia.
Qed.

(** Decide every [within] of the goal, by [lia] or by cases. *)
Ltac within_cases :=
  repeat match goal with
  | |- context [ within ?d ?n ?a ] => destruct (within_spec d n a); try clia
  end.

(** ** Bytes *)
Section bytes.
Implicit Types (m : memory) (a b d s v c : Z).

Lemma u8_range x : 0 ≤ u8 x < 256.
Proof. unfold u8. lia. Qed.

Lemma u8_u8 x : u8 (u8 x) = u8 x.
Proof. unfold u8. lia. Qed.

Lemma u8_small x : 0 ≤ x < 256 → u8 x = x.
Proof. unfold u8. lia. Qed.

Lemma rd8_range m a : 0 ≤ rd8 m a < 256.
Proof. apply u8_range. Qed.

Lemma u8_rd8 m a : u8 (rd8 m a) = rd8 m a.
Proof. apply u8_u8. Qed.

Lemma rd8_wr8 m a b c : rd8 (wr8 m a b) c = if a =? c then u8 b else rd8 m c.
Proof.
  unfold rd8, wr8. destruct (Z.eqb_spec a c) as [->|].
  - rewrite lookup_insert_eq. apply u8_u8.
  - by rewrite lookup_insert_ne.
Qed.

Lemma rd8_wr8_eq m a b : rd8 (wr8 m a b) a = u8 b.
Proof. by rewrite rd8_wr8, Z.eqb_refl. Qed.

Lemma rd8_wr8_ne m a b c : a ≠ c → rd8 (wr8 m a b) c = rd8 m c.
Proof. intros. rewrite rd8_wr8. by zbool. Qed.

Lemma rd32_range m a : 0 ≤ rd32 m a < 2 ^ 32.
Proof.
  unfold rd32. pose proof (rd8_range m a). pose proof (rd8_range m (a + 1)).
  pose proof (rd8_range m (a + 2)). pose proof (rd8_range m (a + 3)). lia.
Qed.

(** A word depends on its four bytes only. *)
Lemma rd32_ext m m' a :
  (∀ i, 0 ≤ i < 4 → rd8 m (a + i) = rd8 m' (a + i)) → rd32 m a = rd32 m' a.
Proof.
  intros H. unfold rd32. rewrite <- (Z.add_0_r a) at 1 5.
  by rewrite !H by lia.
Qed.

Lemma rd8_wr32_ne m a v c : c < a ∨ a + 4 ≤ c → rd8 (wr32 m a v) c = rd8 m c.
Proof. intros. unfold wr32. by rewrite !rd8_wr8_ne by lia. Qed.

Lemma rd32_wr32_eq m a v : rd32 (wr32 m a v) a = u32 v.
Proof.
  unfold rd32, wr32. rewrite !rd8_wr8. zbool.
  unfold u8, u32. rewrite !Z.shiftr_div_pow2 by lia. lia.
Qed.

Lemma rd32_wr32_ne m a v c : c + 4 ≤ a ∨ a + 4 ≤ c → rd32 (wr32 m a v) c = rd32 m c.
Proof. intros. apply rd32_ext. intros. apply rd8_wr32_ne. lia. Qed.

Lemma rd8_stosb m d c n a :
  rd8 (stosb m d c n) a = if within d (Z.of_nat n) a then u8 c else rd8 m a.
Proof.
  revert m d. induction n as [|n IH]; intros m d; cbn [stosb].
  - by within_cases.
  - rewrite IH, rd8_wr8. destruct (Z.eqb_spec d a); by within_cases.
Qed.

Lemma rd8_wr32_byte m a c v :
  0 ≤ c < 256 → v = c + 2 ^ 8 * c + 2 ^ 16 * c + 2 ^ 24 * c →
  ∀ x, rd8 (wr32 m a v) x = if within a 4 x then c else rd8 m x.
Proof.
  intros Hc -> x. unfold wr32. rewrite !rd8_wr8.
  within_cases; zcases; try done; unfold u8; rewrite ?Z.shiftr_div_pow2 by lia; lia.
Qed.

Lemma rd8_stosl m d c v n a :
  0 ≤ c < 256 → v = c + 2 ^ 8 * c + 2 ^ 16 * c + 2 ^ 24 * c →
  rd8 (stosl m d v n) a = if within d (4 * Z.of_nat n) a then c else rd8 m a.
Proof.
  intros Hc Hv. revert m d. induction n as [|n IH]; intros m d; cbn [stosl].
  - by within_cases.
  - rewrite IH, (rd8_wr32_byte _ _ c) by done. by within_cases.
Qed.

Lemma splat c : 0 ≤ c < 256 →
  Z.lor (Z.lor (Z.lor (Z.shiftl c 24) (Z.shiftl c 16)) (Z.shiftl c 8)) c
  = c + 2 ^ 8 * c + 2 ^ 16 * c + 2 ^ 24 * c.
Proof.
  intros Hc.
  assert (H : Forall (λ c, Z.lor (Z.lor (Z.lor (Z.shiftl c 24) (Z.shiftl c 16)) (Z.shiftl c 8)) c
    = c + 2 ^ 8 * c + 2 ^ 16 * c + 2 ^ 24 * c) (seqZ 0 256)) by (vm_decide).
  rewrite Forall_forall in H. apply H, elem_of_seqZ. lia.
Qed.

(** Both branches of [memset] fill the range with the low byte of [c]. *)
Lemma rd8_memset m d c n a :
  0 ≤ n → rd8 (memset m d c n) a = if within d n a then u8 c else rd8 m a.
Proof.
  intros Hn. unfold memset. destruct ((d mod 4 =? 0) && (n mod 4 =? 0)) eqn:Ha.
  - assert (Hc : Z.land c 0xFF = u8 c) by (change 0xFF with (Z.ones 8); by rewrite Z.land_ones).
    rewrite Hc. rewrite (rd8_stosl _ _ (u8 c)) by (try apply splat; apply u8_range).
    replace (4 * Z.of_nat (Z.to_nat (n / 4))) with n by lia. done.
  - rewrite rd8_stosb. by rewrite Z2Nat.id.
Qed.

Lemma rd8_copy_up m d s n a :
  d ≤ s ∨ s + Z.of_nat n ≤ d →
  rd8 (copy_up m d s n) a = if within d (Z.of_nat n) a then rd8 m (s + (a - d)) else rd8 m a.
Proof.
  revert m d s. induction n as [|n IH]; intros m d s H; cbn [copy_up].
  - by within_cases.
  - rewrite IH by lia. rewrite !rd8_wr8, u8_rd8.
    within_cases; zcases; f_equal; lia.
Qed.

Lemma rd8_copy_down m d s n a :
  s ≤ d ∨ d + Z.of_nat n ≤ s →
  rd8 (copy_down m (d + Z.of_nat n) (s + Z.of_nat n) n) a
  = if within d (Z.of_nat n) a then rd8 m (s + (a - d)) else rd8 m a.
Proof.
  revert m. induction n as [|n IH]; intros m H; cbn [copy_down].
  - by within_cases.
  - replace (d + Z.of_nat (S n) - 1) with (d + Z.of_nat n) by lia.
    replace (s + Z.of_nat (S n) - 1) with (s + Z.of_nat n) by lia.
    rewrite IH by lia. rewrite !rd8_wr8, u8_rd8.
    within_cases; zcases; f_equal; lia.
Qed.

(** [memmove] moves the old bytes, whatever the overlap. *)
Lemma rd8_memmove m d s n a :
  0 ≤ n → rd8 (memmove m d s n) a = if within d n a then rd8 m (s + (a - d)) else rd8 m a.
Proof.
  intros Hn. unfold memmove.
  pose proof (rd8_copy_up m d s (Z.to_nat n) a) as Hup.
  pose proof (rd8_copy_down m d s (Z.to_nat n) a) as Hdown.
  rewrite Z2Nat.id in Hup, Hdown by done.
  destruct (Z.ltb_spec s d), (Z.ltb_spec d (s + n)); cbn; rewrite ?Hup, ?Hdown by lia; done.
Qed.

Lemma rd8_write_bytes m d l a :
  rd8 (write_bytes m d l) a
  = if within d (Z.of_nat (length l)) a then u8 (default 0 (l !! Z.to_nat (a - d))) else rd8 m a.
Proof.
  revert m d. induction l as [|b l IH]; intros m d; cbn [write_bytes length].
  - by within_cases.
  - rewrite IH, rd8_wr8. destruct (Z.eqb_spec d a) as [->|].
    + within_cases. by replace (Z.to_nat (a - a)) with 0%nat by lia.
    + within_cases; try done.
      by replace (Z.to_nat (a - d)) with (S (Z.to_nat (a - (d + 1)))) by lia.
Qed.

Lemma length_read_bytes m a n : length (read_bytes m a n) = n.
Proof. revert a. induction n; intros; cbn; auto. Qed.

Lemma lookup_read_bytes m a n (i : nat) :
  (i < n)%nat → read_bytes m a n !! i = Some (rd8 m (a + Z.of_nat i)).
Proof.
  revert a i. induction n as [|n IH]; intros a i Hi; [lia|]. destruct i as [|i]; cbn.
  - by rewrite Z.add_0_r.
  - rewrite IH by lia. do 2 f_equal. lia.
Qed.

Lemma read_bytes_app m a n k : read_bytes m a (n + k) = read_bytes m a n ++ read_bytes m (a + Z.of_nat n) k.
Proof.
  revert a. induction n as [|n IH]; intros a; cbn [read_bytes plus app]; [by rewrite Z.add_0_r|].
  rewrite IH. do 2 f_equal. f_equal. lia.
Qed.

Lemma read_bytes_ext m m' a n :
  (∀ i, a ≤ i < a + Z.of_nat n → rd8 m i = rd8 m' i) → read_bytes m a n = read_bytes m' a n.
Proof.
  revert a. induction n as [|n IH]; intros a H; cbn; [done|].
  rewrite H by lia. f_equal. apply IH. intros. apply H. lia.
Qed.

(** Storing bytes and loading them back. *)
Lemma read_write_bytes m a l :
  Forall (λ b, 0 ≤ b < 256) l → read_bytes (write_bytes m a l) a (length l) = l.
Proof.
  intros Hl. apply list_eq. intros i. destruct (decide (i < length l)%nat) as [Hi|Hi].
  - rewrite lookup_read_bytes by done. rewrite rd8_write_bytes. within_cases.
    replace (Z.to_nat (a + Z.of_nat i - a)) with i by lia.
    destruct (lookup_lt_is_Some_2 l i Hi) as [b Hb]. rewrite Hb. cbn. f_equal.
    apply u8_small. by eapply (Forall_lookup_1 _ _ _ _ Hl).
  - rewrite !lookup_ge_None_2; rewrite ?length_read_bytes; [done|lia..].
Qed.
End bytes.

#[export] Hint Resolve u8_range rd8_range rd32_range : xv6.
