(* ===== verification/Cstring.v ===== *)
(** NUL-terminated strings in memory: what [strlen], [strncmp], [strncpy] and
    [safestrcpy] of [string.c] compute on them. *)

From S2P Require Import Prelude Params Mem.

(** [cstr m p l]: the string with the nonzero bytes [l] starts at [p]. *)
Fixpoint cstr (m : memory) (p : Z) (l : list Z) : Prop :=
  match l with
  | [] => rd8 m p = 0
  | b :: l => rd8 m p = b ∧ b ≠ 0 ∧ cstr m (p + 1) l
  end.

#[global] Instance cstr_dec m p l : Decision (cstr m p l).
Proof. revert p. induction l; intros p; simpl; apply _. Defined.

(** [d], [n] and [s], [k]: two address ranges without a common byte. *)
Definition disjoint_ranges (d n s k : Z) : Prop := d + n ≤ s ∨ s + k ≤ d.

Section strings.
Implicit Types (m : memory) (p q s t : Z) (l : list Z).

(** A string depends on its bytes and its terminator only. *)
Lemma cstr_ext m m' p l :
  (∀ a, p ≤ a ≤ p + Z.of_nat (length l) → rd8 m a = rd8 m' a) → cstr m p l → cstr m' p l.
Proof.
  revert p. induction l as [|b l IH]; intros p H; simpl in *.
  - rewrite H by lia. done.
  - rewrite H by lia. intros (? & ? & Hl). split_and!; [done..|].
    apply IH; [|done]. intros. apply H. lia.
Qed.

Lemma strlen_go_cstr m p n l fuel :
  cstr m (p + n) l → (length l < fuel)%nat → strlen_go m p n fuel = Some (n + Z.of_nat (length l)).
Proof.
  revert n fuel. induction l as [|b l IH]; intros n [|fuel] Hl Hf; simpl in *; try lia.
  - rewrite Hl. f_equal. lia.
  - destruct Hl as (-> & Hb & Hl). rewrite (proj2 (truthy_true b)) by done.
    rewrite IH; [f_equal; lia| |lia]. by rewrite Z.add_assoc.
Qed.

Lemma strncmp_go_cstr m p q l1 l2 n :
  cstr m p l1 → cstr m q l2 → strncmp_go m p q n = 0 ↔ take n l1 = take n l2.
Proof.
  revert p q l1 l2. induction n as [|n IH]; intros p q l1 l2 H1 H2; [done|].
  destruct l1 as [|b1 l1], l2 as [|b2 l2]; simpl in *.
  - by rewrite H1, H2.
  - destruct H2 as (Hq & Hb & _). rewrite H1, Hq, truthy_0. simpl. split; [lia|done].
  - destruct H1 as (Hp & Hb & _). rewrite Hp, H2, (proj2 (truthy_true b1)) by done. simpl.
    zbool. split; [lia|done].
  - destruct H1 as (-> & Hb1 & H1), H2 as (-> & Hb2 & H2).
    rewrite (proj2 (truthy_true b1)) by done. simpl.
    destruct (Z.eqb_spec b1 b2) as [->|Hne].
    + rewrite (IH _ _ l1 l2) by done. split; [by intros ->|by intros [=]].
    + split; [lia|by intros [=]].
Qed.

(** Copying one byte of a string to a place outside it keeps the rest. *)
Lemma cstr_step m s t b l :
  cstr m t (b :: l) → s < t ∨ t + Z.of_nat (length l) + 1 < s →
  cstr (wr8 m s b) (t + 1) l.
Proof.
  intros (_ & _ & Hl) Hs. eapply cstr_ext; [|done]. intros a Ha. by rewrite rd8_wr8_ne by lia.
Qed.

Lemma rd8_strncpy_go m s t l n a :
  cstr m t l → disjoint_ranges s (Z.of_nat n) t (Z.of_nat (length l) + 1) →
  rd8 (strncpy_go m s t n) a
  = if within s (Z.of_nat n) a then default 0 (l !! Z.to_nat (a - s)) else rd8 m a.
Proof.
  unfold disjoint_ranges. revert m s t l.
  induction n as [|n IH]; intros m s t l Hl Hd; cbn [strncpy_go].
  - by within_cases.
  - destruct l as [|b l].
    + simpl in Hl. rewrite Hl, truthy_0, rd8_stosb, rd8_wr8. simpl in *.
      within_cases; zcases; done.
    + pose proof Hl as (Hb & Hnz & Ht). simpl in Hd.
      rewrite Hb, (proj2 (truthy_true b)) by done.
      rewrite (IH _ _ _ l); [|apply (cstr_step _ _ _ _ _ Hl)|]; [|simpl in *; lia..].
      rewrite rd8_wr8. within_cases; zcases; try done.
      * by replace (Z.to_nat (a - s)) with (S (Z.to_nat (a - (s + 1)))) by lia.
      * subst a. replace (Z.to_nat (s - s)) with 0%nat by lia. simpl.
        rewrite <- Hb. apply u8_rd8.
Qed.

Lemma safestrcpy_go_spec m s t l n :
  cstr m t l → disjoint_ranges s (Z.of_nat n + 1) t (Z.of_nat (length l) + 1) →
  cstr (safestrcpy_go m s t n) s (take n l) ∧
  ∀ a, within s (Z.of_nat n + 1) a = false → rd8 (safestrcpy_go m s t n) a = rd8 m a.
Proof.
  unfold disjoint_ranges. revert m s t l.
  induction n as [|n IH]; intros m s t l Hl Hd; cbn [safestrcpy_go].
  - rewrite take_0. simpl. rewrite rd8_wr8_eq. split; [done|].
    intros a. rewrite rd8_wr8. within_cases; by zcases.
  - destruct l as [|b l].
    + simpl in Hl. rewrite Hl, truthy_0. simpl. rewrite rd8_wr8_ne, rd8_wr8_eq by lia.
      split; [done|]. intros a. rewrite !rd8_wr8. within_cases; by zcases.
    + pose proof Hl as (Hb & Hnz & Ht). simpl in Hd.
      rewrite Hb, (proj2 (truthy_true b)) by done.
      destruct (IH (wr8 m s b) (s + 1) (t + 1) l) as [IHs IHf];
        [apply (cstr_step _ _ _ _ _ Hl); simpl in *; lia|simpl in *; lia|].
      split; [simpl; split_and!; [|done..]|].
      * rewrite IHf by (by within_cases). rewrite rd8_wr8_eq, <- Hb. apply u8_rd8.
      * intros a. within_cases. intros _. rewrite IHf by (by within_cases).
        apply rd8_wr8_ne. lia.
Qed.

(** The first difference of two strings, in the first [n] bytes: the reference
    for [strncmp]. *)
Fixpoint str_diff (l1 l2 : list Z) (n : nat) : Z :=
  match n, l1, l2 with
  | O, _, _ | _, [], [] => 0
  | _, b :: _, [] => b
  | _, [], b :: _ => - b
  | S n, a :: l1, b :: l2 => if a =? b then str_diff l1 l2 n else a - b
  end.

Lemma strncmp_go_diff m p q l1 l2 n : cstr m p l1 → cstr m q l2 → strncmp_go m p q n = str_diff l1 l2 n.
Proof.
  revert p q l1 l2. induction n as [|n IH]; intros p q l1 l2; [by destruct l1, l2|].
  destruct l1 as [|a l1], l2 as [|b l2]; cbn [cstr strncmp_go str_diff].
  - intros -> ->. done.
  - intros -> (-> & _ & _). done.
  - intros (-> & Ha & _) ->. rewrite (proj2 (Z.eqb_neq a 0) Ha), andb_false_r. lia.
  - intros (-> & Ha & Hl1) (-> & _ & Hl2). rewrite (proj2 (truthy_true a) Ha). cbn [andb].
    destruct (a =? b); [by apply IH|done].
Qed.

(** [strlen] stops at the terminator and returns the length of the string, as
    soon as its loop may make one step more than that. *)
Theorem strlen_length m p l fuel :
  cstr m p l → (length l < fuel)%nat → strlen m p fuel = Some (Z.of_nat (length l)).
Proof. intros. unfold strlen. by rewrite strlen_go_cstr with (l := l); rewrite ?Z.add_0_r. Qed.

(** [strncmp] is the comparison of the first [n] bytes: the difference of the
    first bytes that differ, with the terminator as byte 0, and 0 exactly when
    the first [n] bytes agree. *)
Theorem strncmp_compares m p q l1 l2 n :
  cstr m p l1 → cstr m q l2 →
  strncmp m p q n = str_diff l1 l2 (Z.to_nat n) ∧
  (strncmp m p q n = 0 ↔ take (Z.to_nat n) l1 = take (Z.to_nat n) l2).
Proof. intros H1 H2. split; [by apply strncmp_go_diff|by apply strncmp_go_cstr]. Qed.

(** [strncpy] writes exactly [n] bytes: the string, cut after [n] bytes or padded
    with zeros; it may leave the destination without a terminator. *)
Theorem strncpy_pads m s t l n :
  0 ≤ n → cstr m t l → disjoint_ranges s n t (Z.of_nat (length l) + 1) → ∀ a,
  rd8 (strncpy m s t n) a
  = if within s n a then default 0 (l !! Z.to_nat (a - s)) else rd8 m a.
Proof.
  intros Hn Hl Hd a. unfold strncpy.
  rewrite (rd8_strncpy_go _ _ _ l) by (rewrite ?Z2Nat.id; done). by rewrite Z2Nat.id.
Qed.

(** [safestrcpy] leaves a terminated string of at most [n - 1] bytes, the prefix
    of the source, and writes nothing outside the [n] bytes of the destination. *)
Theorem safestrcpy_terminates m s t l n :
  0 < n → cstr m t l → disjoint_ranges s n t (Z.of_nat (length l) + 1) →
  cstr (safestrcpy m s t n) s (take (Z.to_nat (n - 1)) l) ∧
  ∀ a, within s n a = false → rd8 (safestrcpy m s t n) a = rd8 m a.
Proof.
  intros Hn Hl Hd. unfold safestrcpy. zbool.
  pose proof (safestrcpy_go_spec m s t l (Z.to_nat (n - 1)) Hl) as H.
  rewrite Z2Nat.id, Z.sub_add in H by lia. auto.
Qed.

(** [memmove] moves the old bytes whatever the overlap, and leaves every other
    byte alone. *)
Theorem memmove_overlap m d s n :
  0 ≤ n → read_bytes (memmove m d s n) d (Z.to_nat n) = read_bytes m s (Z.to_nat n) ∧
  ∀ a, within d n a = false → rd8 (memmove m d s n) a = rd8 m a.
Proof.
  intros Hn. split.
  - apply list_eq. intros i. destruct (decide (i < Z.to_nat n)%nat) as [Hi|Hi].
    + rewrite !lookup_read_bytes by done. rewrite rd8_memmove by done. within_cases. do 2 f_equal. lia.
    + rewrite !lookup_ge_None_2 by (rewrite length_read_bytes; lia). done.
  - intros a Ha. rewrite rd8_memmove by done. by rewrite Ha.
Qed.
End strings.

(** ** Instances *)
(** "hi" at 100, "high" at 200. *)
Definition two_strings : memory := write_bytes (write_bytes ∅ 100 [104; 105; 0]) 200 [104; 105; 103; 104; 0].

Lemma hi_string : cstr two_strings 100 [104; 105].
Proof. vm_compute. repeat split; discriminate. Qed.
Lemma high_string : cstr two_strings 200 [104; 105; 103; 104].
Proof. vm_compute. repeat split; discriminate. Qed.

Lemma strlen_length_witness : strlen two_strings 200 10 = Some 4.
Proof. exact (strlen_length two_strings 200 _ 10 high_string ltac:(cbn; lia)). Defined.

Lemma strncmp_compares_witness : strncmp two_strings 100 200 2 = 0 ∧ strncmp two_strings 100 200 5 = -103.
Proof.
  split.
  - apply (strncmp_compares two_strings 100 200 _ _ 2 hi_string high_string). reflexivity.
  - exact (proj1 (strncmp_compares two_strings 100 200 _ _ 5 hi_string high_string)).
Defined.

Lemma strncpy_pads_witness : rd8 (strncpy two_strings 300 100 5) 304 = 0 ∧ rd8 (strncpy two_strings 300 100 5) 301 = 105.
Proof.
  assert (Hd : disjoint_ranges 300 5 100 (Z.of_nat (length [104; 105]) + 1)) by (right; discriminate).
  split.
  - exact (strncpy_pads two_strings 300 100 _ 5 ltac:(lia) hi_string Hd 304).
  - exact (strncpy_pads two_strings 300 100 _ 5 ltac:(lia) hi_string Hd 301).
Defined.

Lemma safestrcpy_terminates_witness : cstr (safestrcpy two_strings 300 200 3) 300 [104; 105].
Proof.
  refine (proj1 (safestrcpy_terminates two_strings 300 200 _ 3 ltac:(lia) high_string _)). right. discriminate.
Defined.

Lemma memmove_overlap_witness : read_bytes (memmove two_strings 201 200 4) 201 4 = [104; 105; 103; 104].
Proof. exact (proj1 (memmove_overlap two_strings 201 200 4 ltac:(lia))). Defined.
