(* ===== verification/Mp.v ===== *)
(** The tables of the firmware that name the processors ([mp.c], [mp.h]).

    The bytes of memory are at the addresses the kernel uses ([P2V] of the physical ones); pointers
    wrap around at 32 bits.  The second half states [mpinit] against the tables the firmware describes. *)

From S2P Require Import Prelude Params Mem.

(** ** The structures of [mp.h], at an address of memory *)
Section tables.
Variable m : memory.

Definition rd16 (a : Z) : Z := rd8 m a + 2 ^ 8 * rd8 m (a + 1).

(** [struct mp], sixteen bytes *)
Definition SIZEOF_MP : Z := 16.
Definition mp_physaddr (p : Z) : Z := rd32 m (p + 4).
Definition mp_imcrp (p : Z) : Z := rd8 m (p + 12).

(** [struct mpconf], forty-four bytes *)
Definition SIZEOF_MPCONF : Z := 44.
Definition conf_length (p : Z) : Z := rd16 (p + 4).
Definition conf_version (p : Z) : Z := rd8 m (p + 6).
Definition conf_lapicaddr (p : Z) : Z := rd32 m (p + 36).

Definition SIZEOF_MPPROC : Z := 20.
Definition SIZEOF_MPIOAPIC : Z := 8.

Definition MPPROC : Z := 0x00.
Definition MPBUS : Z := 0x01.
Definition MPIOAPIC : Z := 0x02.
Definition MPIOINTR : Z := 0x03.
Definition MPLINTR : Z := 0x04.

(** ** Looking for the configuration *)
Definition sum (addr : Z) (len : nat) : Z := u8 (foldl Z.add 0 (read_bytes m addr len)).

Definition MP_SIGNATURE : list Z := [95; 77; 80; 95].
Definition PCMP_SIGNATURE : list Z := [80; 67; 77; 80].

(** [for(p = addr; p < e; p += sizeof(struct mp))]; [len] is a multiple of the step. *)
Fixpoint mpsearch_loop (fuel : nat) (p e : Z) : option Z :=
  match fuel with
  | O => None
  | S fuel =>
      if p <? e then
        if bool_decide (read_bytes m p 4 = MP_SIGNATURE) && (sum p (Z.to_nat SIZEOF_MP) =? 0) then Some p
        else mpsearch_loop fuel (u32 (p + SIZEOF_MP)) e
      else None
  end.
Definition mpsearch1 (a len : Z) : option Z :=
  let addr := P2V a in mpsearch_loop (S (Z.to_nat (len / SIZEOF_MP))) addr (u32 (addr + len)).

(** The extended BIOS data area, or the last kilobyte of base memory, then the BIOS. *)
Definition mpsearch : option Z :=
  let bda := P2V 0x400 in
  let p := Z.shiftl (Z.lor (Z.shiftl (rd8 m (bda + 0x0F)) 8) (rd8 m (bda + 0x0E))) 4 in
  let first :=
    if truthy p then mpsearch1 p 1024
    else
      let p := Z.lor (Z.shiftl (rd8 m (bda + 0x14)) 8) (rd8 m (bda + 0x13)) * 1024 in
      mpsearch1 (u32 (p - 1024)) 1024 in
  match first with
  | Some mp => Some mp
  | None => mpsearch1 0xF0000 0x10000
  end.

(** The configuration and the floating pointer. *)
Definition mpconfig : option (Z * Z) :=
  match mpsearch with
  | None => None
  | Some mp =>
      if mp_physaddr mp =? 0 then None
      else
        let conf := P2V (mp_physaddr mp) in
        if negb (bool_decide (read_bytes m conf 4 = PCMP_SIGNATURE)) then None
        else if negb (conf_version conf =? 1) && negb (conf_version conf =? 4) then None
        else if negb (sum conf (Z.to_nat (conf_length conf)) =? 0) then None
        else Some (conf, mp)
  end.
End tables.

(** ** What [mpinit] sets *)
Record mpst := mkMpst {
  mp_lapic : Z;
  mp_apicids : list Z;  (* cpus[i].apicid, NCPU of them *)
  mp_ncpu : Z;
  mp_ioapicid : Z;
  mp_out : list (Z * Z)  (* writes to the ports *)
}.
Definition set_lapic (v : Z) (s : mpst) : mpst := mkMpst v (mp_apicids s) (mp_ncpu s) (mp_ioapicid s) (mp_out s).
Definition add_cpu (l : list Z) (s : mpst) : mpst := mkMpst (mp_lapic s) l (mp_ncpu s + 1) (mp_ioapicid s) (mp_out s).
Definition set_ioapicid (v : Z) (s : mpst) : mpst := mkMpst (mp_lapic s) (mp_apicids s) (mp_ncpu s) v (mp_out s).
Definition outb (port v : Z) (s : mpst) : mpst :=
  mkMpst (mp_lapic s) (mp_apicids s) (mp_ncpu s) (mp_ioapicid s) (mp_out s ++ [(port, v)]).

Abbreviation MP := (M (err unit) mpst).

(** One processor. *)
Definition mp_proc (m : memory) (p : Z) : MP unit :=
  s ← get;
  when (mp_ncpu s <? NCPU) (
    l ← or_ub "cpus" (aset (mp_apicids s) (mp_ncpu s) (rd8 m (p + 1)));
    modify (add_cpu l)).

(** The loop over the entries.  An entry of unknown type leaves the [switch], not the loop, and [p]
    where it is. *)
Fixpoint mp_entries (m : memory) (fuel : nat) (p e : Z) (ismp : bool) : MP bool :=
  if p <? e then
    match fuel with
    | O => fail OutOfFuel
    | S fuel =>
        let t := rd8 m p in
        if t =? MPPROC then mp_proc m p;; mp_entries m fuel (u32 (p + SIZEOF_MPPROC)) e ismp
        else if t =? MPIOAPIC then
          modify (set_ioapicid (rd8 m (p + 1)));; mp_entries m fuel (u32 (p + SIZEOF_MPIOAPIC)) e ismp
        else if (t =? MPBUS) || (t =? MPIOINTR) || (t =? MPLINTR) then mp_entries m fuel (u32 (p + 8)) e ismp
        else mp_entries m fuel p e false
    end
  else ret ismp.

(** [mpinit]; [imcr] is what [inb(0x23)] returns. *)
Definition mpinit (m : memory) (imcr : Z) (fuel : nat) : MP unit :=
  match mpconfig m with
  | None => fail (Panic "Expect to run on an SMP")
  | Some (conf, mp) =>
      modify (set_lapic (conf_lapicaddr m conf));;
      ismp ← mp_entries m fuel (u32 (conf + SIZEOF_MPCONF)) (u32 (conf + conf_length m conf)) true;
      if negb ismp then fail (Panic "Didn't find a suitable machine")
      else when (truthy (mp_imcrp m mp)) (modify (outb 0x22 0x70);; modify (outb 0x23 (Z.lor imcr 1)))
  end.

(** ** The entries of a configuration table and their bytes *)
Inductive entry :=
  | ProcEntry (apicid : Z) (rest : list Z)
  | IoapicEntry (apicno : Z) (rest : list Z)
  | OtherEntry (type : Z) (rest : list Z).

Definition entry_bytes (e : entry) : list Z :=
  match e with
  | ProcEntry id rest => MPPROC :: id :: rest
  | IoapicEntry id rest => MPIOAPIC :: id :: rest
  | OtherEntry t rest => t :: rest
  end.
Definition entry_ok (e : entry) : bool :=
  match e with
  | ProcEntry _ rest => bool_decide (length rest = 18%nat)
  | IoapicEntry _ rest => bool_decide (length rest = 6%nat)
  | OtherEntry t rest => bool_decide (t ∈ [MPBUS; MPIOINTR; MPLINTR]) && bool_decide (length rest = 7%nat)
  end.
Definition table_bytes (es : list entry) : list Z := es ≫= entry_bytes.

Definition apicid_of (e : entry) : option Z := if e is ProcEntry id _ then Some id else None.
Definition apicno_of (e : entry) : option Z := if e is IoapicEntry id _ then Some id else None.
Definition processors (es : list entry) : list Z := omap apicid_of es.
Definition ioapics (es : list entry) : list Z := omap apicno_of es.

(** What a machine has recorded once it has seen the entries: the first [NCPU] processors it has a
    place for, and the last I/O APIC. *)
Definition record_proc (id : Z) (s : mpst) : mpst :=
  if mp_ncpu s <? NCPU then add_cpu (<[Z.to_nat (mp_ncpu s) := id]> (mp_apicids s)) s else s.
Definition record (s : mpst) (e : entry) : mpst :=
  match e with
  | ProcEntry id _ => record_proc id s
  | IoapicEntry id _ => set_ioapicid id s
  | OtherEntry _ _ => s
  end.

Definition cpus_ok (s : mpst) : Prop := length (mp_apicids s) = Z.to_nat NCPU ∧ 0 ≤ mp_ncpu s ≤ NCPU.

(** ** Walking over the entries *)
Lemma mp_proc_ok m p s : cpus_ok s → mp_proc m p s = Ok tt (record_proc (rd8 m (p + 1)) s).
Proof.
  intros [Hl Hn]. unfold mp_proc, record_proc. cbn. unfold when. destruct (Z.ltb_spec (mp_ncpu s) NCPU); [|done].
  rewrite aset_in by (rewrite Hl; lia). done.
Qed.

Lemma cpus_ok_record s e : cpus_ok s → cpus_ok (record s e).
Proof.
  intros [Hl Hn]. destruct e; cbn; try done. unfold record_proc. destruct (Z.ltb_spec (mp_ncpu s) NCPU); [|done].
  split; cbn; [by rewrite length_insert|lia].
Qed.

Lemma mp_entries_step m fuel p n b s e :
  cpus_ok s → entry_ok e = true → read_bytes m p (length (entry_bytes e)) = entry_bytes e →
  0 ≤ p → Z.of_nat (length (entry_bytes e)) ≤ n → p + n < 2 ^ 32 →
  mp_entries m (S fuel) p (p + n) b s =
    mp_entries m fuel (p + Z.of_nat (length (entry_bytes e))) (p + n) b (record s e).
Proof.
  intros Hs Hok Hb Hp Hn Hm. cbn [mp_entries].
  destruct e as [id rest|id rest|t rest]; cbn in Hok, Hb, Hn.
  - apply bool_decide_eq_true in Hok. rewrite Hok in *. injection Hb as Ht Hid _.
    rewrite Ht. rewrite (proj2 (Z.ltb_lt _ _)) by lia. cbn [record entry_bytes length]. change (MPPROC =? MPPROC) with true. cbv iota.
    rewrite (bind_ok _ _ _ _ _ (mp_proc_ok m p s Hs)), Hid, Hok. unfold u32.
    by rewrite Z.mod_small by (unfold SIZEOF_MPPROC; lia).
  - apply bool_decide_eq_true in Hok. rewrite Hok in *. injection Hb as Ht Hid _.
    rewrite Ht, (proj2 (Z.ltb_lt _ _)) by lia. cbn [record entry_bytes length].
    change (MPIOAPIC =? MPPROC) with false. change (MPIOAPIC =? MPIOAPIC) with true. cbv iota.
    rewrite bind_modify, Hid, Hok. unfold u32. by rewrite Z.mod_small by (unfold SIZEOF_MPIOAPIC; lia).
  - apply andb_true_iff in Hok as [Ht%bool_decide_eq_true Hok%bool_decide_eq_true].
    rewrite Hok in *. injection Hb as Ht' _. rewrite Ht', (proj2 (Z.ltb_lt _ _)) by lia.
    cbn [entry_bytes length record]. rewrite Hok.
    rewrite <- (Z.mod_small (p + Z.of_nat 8) (2 ^ 32)) by lia.
    rewrite !elem_of_cons in Ht. destruct Ht as [-> | [-> | [-> | []%elem_of_nil]]]; reflexivity.
Qed.

Lemma mp_entries_ok m es fuel p n b s :
  cpus_ok s → Forall (λ e, entry_ok e = true) es → read_bytes m p (length (table_bytes es)) = table_bytes es →
  0 ≤ p → Z.of_nat (length (table_bytes es)) ≤ n → p + n < 2 ^ 32 →
  mp_entries m (length es + fuel) p (p + n) b s =
    mp_entries m fuel (p + Z.of_nat (length (table_bytes es))) (p + n) b (foldl record s es).
Proof.
  revert p n s. induction es as [|e es IH]; intros p n s Hs Hes Hb Hp Hn Hm.
  - cbn. by rewrite Z.add_0_r.
  - inversion Hes as [|? ? He Hes']; subst. change (table_bytes (e :: es)) with (entry_bytes e ++ table_bytes es) in *.
    rewrite length_app, read_bytes_app in Hb. rewrite length_app in Hn |- *.
    apply app_inj_1 in Hb as [Hb1 Hb2]; [|apply length_read_bytes].
    cbn [length Nat.add foldl]. rewrite (mp_entries_step _ _ _ _ _ _ e) by (done || lia).
    set (k := length (entry_bytes e)) in *.
    replace (p + n) with (p + Z.of_nat k + (n - Z.of_nat k)) by lia.
    rewrite IH; [|by apply cpus_ok_record|done|done|lia..]. f_equal. lia.
Qed.

Lemma mp_entries_end m fuel p b s : mp_entries m fuel p p b s = Ok b s.
Proof. destruct fuel; cbn; by rewrite Z.ltb_irrefl. Qed.

(** An entry of any other type holds the loop. *)
Lemma mp_entries_stuck m fuel p e b s :
  p < e → MPLINTR < rd8 m p → mp_entries m fuel p e b s = Err OutOfFuel s.
Proof.
  unfold MPLINTR. intros Hp Ht. revert b. induction fuel as [|fuel IH]; intros b; cbn [mp_entries];
    rewrite (proj2 (Z.ltb_lt _ _) Hp); [done|].
  unfold MPPROC, MPIOAPIC, MPBUS, MPIOINTR, MPLINTR.
  rewrite !(proj2 (Z.eqb_neq _ _)) by lia. apply IH.
Qed.

(** ** What is recorded *)
Lemma record_ioapic s es :
  mp_ioapicid (foldl record s es) = default (mp_ioapicid s) (last (ioapics es)) ∧
  mp_lapic (foldl record s es) = mp_lapic s ∧ mp_out (foldl record s es) = mp_out s.
Proof.
  revert s. induction es as [|e es IH]; intros s; [done|]. cbn [foldl].
  destruct (IH (record s e)) as (-> & -> & ->). unfold ioapics. destruct e; cbn; unfold record_proc.
  - by destruct (_ <? _).
  - change (list_omap _ _ _ es) with (omap apicno_of es). rewrite last_cons. by destruct (last _).
  - done.
Qed.

Lemma record_procs s es :
  cpus_ok s →
  mp_ncpu (foldl record s es) = Z.min NCPU (mp_ncpu s + Z.of_nat (length (processors es))) ∧
  take (Z.to_nat (mp_ncpu (foldl record s es))) (mp_apicids (foldl record s es)) =
    take (Z.to_nat NCPU) (take (Z.to_nat (mp_ncpu s)) (mp_apicids s) ++ processors es).
Proof.
  revert s. induction es as [|e es IH]; intros s Hs; pose proof Hs as [Hl Hn].
  - cbn [foldl processors omap list_omap length]. rewrite app_nil_r, take_take, Nat.min_r by lia. split; [lia|done].
  - cbn [foldl]. destruct (IH (record s e)) as [-> ->]; [by apply cpus_ok_record|].
    destruct e as [id rest| |]; try done. cbn [record]. unfold record_proc.
    change (processors (ProcEntry id rest :: es)) with (id :: processors es). cbn [length].
    destruct (Z.ltb_spec (mp_ncpu s) NCPU); cbn [mp_ncpu mp_apicids add_cpu].
    + split; [lia|]. f_equal. replace (Z.to_nat (mp_ncpu s + 1)) with (S (Z.to_nat (mp_ncpu s))) by lia.
      rewrite (take_S_r _ _ id) by (apply list_lookup_insert_eq; lia).
      rewrite take_insert_ge by lia. by rewrite <- app_assoc.
    + split; [lia|]. assert (mp_ncpu s = NCPU) as -> by lia.
      rewrite !take_app_le by (rewrite length_take; lia). done.
Qed.

(** ** Where the floating pointer is *)
Definition is_mp (m : memory) (p : Z) : bool :=
  bool_decide (read_bytes m p 4 = MP_SIGNATURE) && (sum m p (Z.to_nat SIZEOF_MP) =? 0).

(** The paragraphs of an area, the first area [mpsearch] looks at, and all it looks at. *)
Definition paragraphs (a : Z) (n : nat) : list Z := (λ i : nat, P2V a + SIZEOF_MP * Z.of_nat i) <$> seq 0 n.
Definition first_area (m : memory) : Z :=
  let word i := rd8 m (P2V 0x400 + i) + 2 ^ 8 * rd8 m (P2V 0x400 + i + 1) in
  if word 0x0E =? 0 then u32 (word 0x13 * 1024 - 1024) else word 0x0E * 16.
Definition candidates (m : memory) : list Z := paragraphs (first_area m) 64 ++ paragraphs 0xF0000 4096.

Lemma mpsearch_loop_first m p n fuel :
  0 ≤ p → p + SIZEOF_MP * Z.of_nat n < 2 ^ 32 → (n < fuel)%nat →
  mpsearch_loop m fuel p (p + SIZEOF_MP * Z.of_nat n) =
    head (filter (λ q, is_mp m q) ((λ i : nat, p + SIZEOF_MP * Z.of_nat i) <$> seq 0 n)).
Proof.
  revert p fuel. unfold SIZEOF_MP. induction n as [|n IH]; intros p fuel Hp Hm Hf; (destruct fuel as [|fuel]; [lia|]); cbn [mpsearch_loop].
  - by rewrite Z.add_0_r, Z.ltb_irrefl.
  - rewrite (proj2 (Z.ltb_lt _ _)) by lia. cbn [seq fmap list_fmap]. rewrite Z.mul_0_r, Z.add_0_r, filter_cons.
    fold (is_mp m p). destruct (is_mp m p) eqn:E.
    { by rewrite decide_True by done. }
    rewrite decide_False by (by intros []). unfold u32, SIZEOF_MP. rewrite Z.mod_small by lia.
    replace (p + 16 * Z.of_nat (S n)) with (p + 16 + 16 * Z.of_nat n) by lia.
    rewrite IH by lia. f_equal. f_equal. rewrite <- fmap_S_seq, <- list_fmap_compose.
    apply list_fmap_ext. intros i x _. cbn. lia.
Qed.

Lemma mpsearch1_first m a n :
  P2V a + SIZEOF_MP * Z.of_nat n < 2 ^ 32 →
  mpsearch1 m a (SIZEOF_MP * Z.of_nat n) = head (filter (λ q, is_mp m q) (paragraphs a n)).
Proof.
  intros Hm. unfold mpsearch1. assert (0 ≤ P2V a) by (unfold P2V, u32; lia).
  unfold u32. rewrite Z.mod_small by (unfold SIZEOF_MP in *; lia).
  apply mpsearch_loop_first; [done..|]. rewrite Z.mul_comm, Z.div_mul by done. lia.
Qed.

Lemma lor_bytes a b : 0 ≤ a < 256 → 0 ≤ b < 256 → Z.lor (Z.shiftl b 8) a = a + 2 ^ 8 * b.
Proof.
  intros Ha Hb. pose proof (Z.add_lor_land (Z.shiftl b 8) a) as H.
  assert (Z.land (Z.shiftl b 8) a = 0) as E.
  { apply Z.bits_inj'. intros i Hi. rewrite Z.land_spec, Z.bits_0, Z.shiftl_spec by done.
    destruct (Z.ltb_spec i 8); [by rewrite Z.testbit_neg_r by lia|].
    rewrite (Z.bits_above_log2 a i), andb_false_r; [done|lia|].
    destruct (Z.eqb_spec a 0) as [->|]; [cbn; lia|]. apply Z.log2_lt_pow2; [lia|].
    pose proof (Z.pow_le_mono_r 2 8 i). lia. }
  rewrite E, Z.shiftl_mul_pow2 in H by done. rewrite Z.shiftl_mul_pow2 by done. lia.
Qed.

Lemma head_app {A} (l k : list A) : head (l ++ k) = match head l with Some x => Some x | None => head k end.
Proof. by destruct l. Qed.

(** [mpsearch] finds the first of the candidates. *)
Lemma mpsearch_first m :
  P2V (first_area m) + 1024 < 2 ^ 32 → mpsearch m = head (filter (λ q, is_mp m q) (candidates m)).
Proof.
  intros Hm. unfold candidates. rewrite filter_app, head_app.
  rewrite <- !mpsearch1_first by (exact Hm || done). unfold mpsearch, first_area.
  rewrite !lor_bytes by apply rd8_range.
  change (P2V 1024 + 14 + 1) with (P2V 1024 + 15). change (P2V 1024 + 19 + 1) with (P2V 1024 + 20).
  set (w := rd8 m (P2V 1024 + 14) + _). rewrite Z.shiftl_mul_pow2 by done.
  destruct (Z.eqb_spec w 0) as [->|Hw]; [done|].
  rewrite (proj2 (truthy_true _)) by lia. done.
Qed.

(** A table the firmware may hand over, of [n] bytes after its header. *)
Record conf_ok (m : memory) (mp conf n : Z) : Prop := {
  co_area : P2V (first_area m) + 1024 < 2 ^ 32;
  co_found : head (filter (λ q, is_mp m q) (candidates m)) = Some mp;
  co_addr : mp_physaddr m mp ≠ 0;
  co_conf : conf = P2V (mp_physaddr m mp);
  co_sig : read_bytes m conf 4 = PCMP_SIGNATURE;
  co_version : conf_version m conf = 1 ∨ conf_version m conf = 4;
  co_sum : sum m conf (Z.to_nat (conf_length m conf)) = 0;
  co_length : conf_length m conf = SIZEOF_MPCONF + n;
  co_below : conf + SIZEOF_MPCONF + n < 2 ^ 32
}.

Lemma mpconfig_ok m mp conf n : conf_ok m mp conf n → mpconfig m = Some (conf, mp).
Proof.
  intros [H0 H1 H2 H3 H4 H5 H6 _ _]. unfold mpconfig. rewrite (mpsearch_first _ H0), H1, (proj2 (Z.eqb_neq _ _)) by done.
  rewrite <- H3, H4, H6. rewrite bool_decide_true by done. cbn [negb].
  destruct H5 as [-> | ->]; reflexivity.
Qed.

(** ** [mpinit] *)
(** C33: on a table the firmware hands over, of entries of the known types, [mpinit] returns: it has
    recorded the address of the local APIC, the first eight processors in the order of the table, and
    the last I/O APIC, and has switched the interrupt mode when the machine has the register for it. *)
Theorem mpinit_records m imcr fuel mp conf es s :
  conf_ok m mp conf (Z.of_nat (length (table_bytes es))) →
  read_bytes m (conf + SIZEOF_MPCONF) (length (table_bytes es)) = table_bytes es →
  Forall (λ e, entry_ok e = true) es → (length es ≤ fuel)%nat →
  length (mp_apicids s) = Z.to_nat NCPU → mp_ncpu s = 0 →
  ∃ s', mpinit m imcr fuel s = Ok tt s' ∧
    mp_lapic s' = conf_lapicaddr m conf ∧
    mp_ncpu s' = Z.min NCPU (Z.of_nat (length (processors es))) ∧
    take (Z.to_nat (mp_ncpu s')) (mp_apicids s') = take (Z.to_nat NCPU) (processors es) ∧
    mp_ioapicid s' = default (mp_ioapicid s) (last (ioapics es)) ∧
    mp_out s' = mp_out s ++ (if mp_imcrp m mp =? 0 then [] else [(0x22, 0x70); (0x23, Z.lor imcr 1)]).
Proof.
  intros Hc Hb Hes Hf Hl Hn. unfold mpinit. rewrite (mpconfig_ok _ _ _ _ Hc), bind_modify.
  pose proof (co_below _ _ _ _ Hc) as Hm. assert (0 ≤ conf) by (rewrite (co_conf _ _ _ _ Hc); unfold P2V, u32; lia).
  rewrite (co_length _ _ _ _ Hc), Z.add_assoc. unfold u32. rewrite !Z.mod_small by (unfold SIZEOF_MPCONF in *; lia).
  set (s1 := set_lapic _ s). assert (cpus_ok s1) as Hs1 by (split; cbn; [done|rewrite Hn; unfold NCPU; lia]).
  assert (mp_entries m fuel (conf + SIZEOF_MPCONF)
    (conf + SIZEOF_MPCONF + Z.of_nat (length (table_bytes es))) true s1 = Ok true (foldl record s1 es)) as E.
  { replace fuel with (length es + (fuel - length es))%nat by lia.
    rewrite mp_entries_ok by (done || unfold SIZEOF_MPCONF in *; lia). apply mp_entries_end. }
  rewrite (bind_ok _ _ _ _ _ E). cbn [negb].
  destruct (record_procs s1 es Hs1) as [Hcpu Hids]. destruct (record_ioapic s1 es) as (Hio & Hla & Hout).
  change (mp_ncpu s1) with (mp_ncpu s) in Hcpu, Hids. rewrite Hn in Hcpu, Hids.
  unfold when, truthy. destruct (mp_imcrp m mp =? 0); cbn [negb]; eexists; (split; [reflexivity|]);
    cbn [mp_lapic mp_ncpu mp_apicids mp_ioapicid mp_out outb]; rewrite ?app_nil_r, ?Hout, <- ?app_assoc; done.
Qed.

(** C34: an entry of any other type, after any number of known ones, holds [mpinit] in its loop for
    ever: it never reaches the panic that the loop sets [ismp] for. *)
Theorem mpinit_unknown_entry_hangs m imcr mp conf es n s :
  conf_ok m mp conf n → Z.of_nat (length (table_bytes es)) < n →
  read_bytes m (conf + SIZEOF_MPCONF) (length (table_bytes es)) = table_bytes es →
  Forall (λ e, entry_ok e = true) es →
  MPLINTR < rd8 m (conf + SIZEOF_MPCONF + Z.of_nat (length (table_bytes es))) →
  cpus_ok s →
  ∀ fuel, (length es ≤ fuel)%nat → ∃ s', mpinit m imcr fuel s = Err OutOfFuel s'.
Proof.
  intros Hc Hlt Hb Hes Ht Hs fuel Hf. unfold mpinit. rewrite (mpconfig_ok _ _ _ _ Hc), bind_modify.
  pose proof (co_below _ _ _ _ Hc) as Hm. assert (0 ≤ conf) by (rewrite (co_conf _ _ _ _ Hc); unfold P2V, u32; lia).
  rewrite (co_length _ _ _ _ Hc), Z.add_assoc. unfold u32. rewrite !Z.mod_small by (unfold SIZEOF_MPCONF in *; lia).
  eexists. eapply bind_err. replace fuel with (length es + (fuel - length es))%nat by lia.
  rewrite mp_entries_ok by (done || unfold SIZEOF_MPCONF in *; lia). by apply mp_entries_stuck; [lia|].
Qed.

(** ** A machine with two processors *)
Definition seal (l k : list Z) : list Z := l ++ u8 (- foldl Z.add 0 (l ++ k)) :: k.
Definition sample_mp : list Z := seal (MP_SIGNATURE ++ [0x00; 0x10; 0x0F; 0x00; 1; 4]) [0; 0x80; 0; 0; 0].
Definition sample_entries : list entry :=
  [ProcEntry 0 (replicate 18 1); ProcEntry 3 (replicate 18 2); OtherEntry MPBUS (replicate 7 0);
   IoapicEntry 2 (replicate 6 0); OtherEntry MPIOINTR (replicate 7 9)].
Definition sample_conf (body : list Z) : list Z :=
  seal (PCMP_SIGNATURE ++ [44 + Z.of_nat (length body); 0; 4])
    (replicate 28 0 ++ [0x00; 0x00; 0xE0; 0xFE] ++ replicate 4 0 ++ body).
Definition sample_mem (body : list Z) : memory :=
  write_bytes (write_bytes (write_bytes ∅ (P2V 0x413) [0x7F; 0x02]) (P2V 0xF0000) sample_mp)
    (P2V 0xF1000) (sample_conf body).
Definition mp_boot : mpst := mkMpst 0 (replicate (Z.to_nat NCPU) 0) 0 0 [].

Lemma sample_conf_ok body :
  body ∈ [table_bytes sample_entries; table_bytes sample_entries ++ replicate 8 5] →
  conf_ok (sample_mem body) (P2V 0xF0000) (P2V 0xF1000) (Z.of_nat (length body)).
Proof.
  rewrite !elem_of_cons. intros [-> | [-> | []%elem_of_nil]]; split; try (vm_compute; reflexivity);
    try (right; vm_compute; reflexivity); vm_compute; discriminate.
Qed.

Lemma mpinit_records_witness :
  ∃ s', mpinit (sample_mem (table_bytes sample_entries)) 0 5 mp_boot = Ok tt s' ∧
    mp_ncpu s' = 2 ∧ take 2 (mp_apicids s') = [0; 3] ∧ mp_ioapicid s' = 2.
Proof.
  destruct (mpinit_records (sample_mem (table_bytes sample_entries)) 0 5 (P2V 0xF0000) (P2V 0xF1000) sample_entries mp_boot)
    as (s' & H & _ & Hn & Hids & Hio & _).
  - apply sample_conf_ok. apply list_elem_of_here.
  - vm_compute. reflexivity.
  - repeat constructor.
  - cbn. lia.
  - reflexivity.
  - reflexivity.
  - exists s'. rewrite Hn in Hids. exact (conj H (conj Hn (conj Hids Hio))).
Defined.

Lemma mpinit_unknown_entry_hangs_witness :
  ∃ s', mpinit (sample_mem (table_bytes sample_entries ++ replicate 8 5)) 0 1000 mp_boot = Err OutOfFuel s'.
Proof.
  apply (mpinit_unknown_entry_hangs (sample_mem (table_bytes sample_entries ++ replicate 8 5)) 0 (P2V 0xF0000)
    (P2V 0xF1000) sample_entries (Z.of_nat (length (table_bytes sample_entries ++ replicate 8 5)))).
  - apply sample_conf_ok. apply list_elem_of_further, list_elem_of_here.
  - vm_compute. reflexivity.
  - vm_compute. reflexivity.
  - repeat constructor.
  - vm_compute. reflexivity.
  - split; [reflexivity|vm_compute; split; discriminate].
  - cbn. lia.
Defined.
