(* ===== verification/Bootmain.v ===== *)
(** The boot loader ([bootmain.c]): it reads the kernel, an ELF file from sector 1 of the boot disk on,
    into physical memory and jumps to its entry.

    The disk is the hardware behind the ports: the numbers written to the ports select a sector, and
    the data port delivers it.  Each read of the status port may give another value; [patience] bounds
    how long the loader is watched while it waits. *)

From S2P Require Import Prelude Params Mem.

(** The boot disk: its sectors, and what the status port gives at each of its reads. *)
Class bootdisk := {
  bsector : Z → list Z;
  status : nat → Z;
  patience : nat
}.

Record bstate := mkBstate {
  b_mem : memory;  (* physical memory *)
  b_port : gmap Z Z;  (* the last byte written to each port *)
  b_reads : nat  (* how often the status port was read *)
}.

Abbreviation B := (M (err unit) bstate).

Section bootmain.
Context `{bootdisk}.

Definition SECTSIZE : Z := 512.

(** ** The ports *)
Definition boot_outb (port data : Z) : B unit :=
  modify (λ s, mkBstate (b_mem s) (<[port := u8 data]> (b_port s)) (b_reads s)).
Definition boot_inb_status : B Z := λ s,
  Ok (status (b_reads s)) (mkBstate (b_mem s) (b_port s) (S (b_reads s))).

(** The sector that the registers of the controller select. *)
Definition port (s : bstate) (p : Z) : Z := default 0 (b_port s !! p).
Definition selected (s : bstate) : Z :=
  port s 0x1F3 + 2 ^ 8 * port s 0x1F4 + 2 ^ 16 * port s 0x1F5 + 2 ^ 24 * Z.land (port s 0x1F6) 0xF.

(** [insl(0x1F0, dst, cnt)]: the words of the sector, once a read of one sector was commanded. *)
Definition boot_insl (dst cnt : Z) : B unit :=
  s ← get;
  if (port s 0x1F2 =? 1) && (port s 0x1F7 =? 0x20) then
    modify (λ s, mkBstate (write_bytes (b_mem s) dst (take (Z.to_nat (4 * cnt)) (bsector (selected s)))) (b_port s) (b_reads s))
  else fail (UB "insl").

(** ** The loader *)
Fixpoint waitdisk (n : nat) : B unit :=
  match n with
  | O => fail OutOfFuel
  | S n => r ← boot_inb_status; if Z.land r 0xC0 =? 0x40 then ret tt else waitdisk n
  end.

Definition readsect (dst offset : Z) : B unit :=
  waitdisk patience;;
  boot_outb 0x1F2 1;;
  boot_outb 0x1F3 offset;;
  boot_outb 0x1F4 (Z.shiftr offset 8);;
  boot_outb 0x1F5 (Z.shiftr offset 16);;
  boot_outb 0x1F6 (Z.lor (Z.shiftr offset 24) 0xE0);;
  boot_outb 0x1F7 0x20;;
  waitdisk patience;;
  boot_insl dst (SECTSIZE / 4).

(** [for(; pa < epa; pa += SECTSIZE, offset++)]; without wrapping the loop has at most [count / 512 + 2]
    rounds. *)
Fixpoint readseg_loop (n : nat) (pa epa offset : Z) : B unit :=
  if pa <? epa then
    match n with
    | O => fail OutOfFuel
    | S n => readsect pa offset;; readseg_loop n (u32 (pa + SECTSIZE)) epa (u32 (offset + 1))
    end
  else ret tt.
Definition readseg (pa count offset : Z) : B unit :=
  let epa := u32 (pa + count) in
  let pa := u32 (pa - offset mod SECTSIZE) in
  let offset := offset / SECTSIZE + 1 in
  readseg_loop (Z.to_nat (count / SECTSIZE + 2)) pa epa offset.

(** The fields of the headers, in memory. *)
Definition load (f : memory → Z) : B Z := gets (λ s, f (b_mem s)).
Definition elf : Z := 0x10000.
Definition KMAGIC : Z := 0x464C457F.
Definition e_magic (m : memory) : Z := rd32 m elf.
Definition e_entry (m : memory) : Z := rd32 m (elf + 24).
Definition e_phoff (m : memory) : Z := rd32 m (elf + 28).
Definition e_phnum (m : memory) : Z := rd8 m (elf + 44) + 2 ^ 8 * rd8 m (elf + 45).
Definition p_off (ph : Z) (m : memory) : Z := rd32 m (ph + 4).
Definition p_paddr (ph : Z) (m : memory) : Z := rd32 m (ph + 12).
Definition p_filesz (ph : Z) (m : memory) : Z := rd32 m (ph + 16).
Definition p_memsz (ph : Z) (m : memory) : Z := rd32 m (ph + 20).

(** One segment.  Its header is read again after the load, which may have overwritten it. *)
Definition boot_segment (ph : Z) : B unit :=
  pa ← load (p_paddr ph);
  filesz ← load (p_filesz ph);
  off ← load (p_off ph);
  readseg pa filesz off;;
  memsz ← load (p_memsz ph);
  filesz ← load (p_filesz ph);
  when (filesz <? memsz)
    (modify (λ s, mkBstate (stosb (b_mem s) (u32 (pa + filesz)) 0 (Z.to_nat (memsz - filesz))) (b_port s) (b_reads s))).

Fixpoint boot_segments (n : nat) (ph eph : Z) : B unit :=
  if ph <? eph then
    match n with
    | O => fail OutOfFuel
    | S n => boot_segment ph;; boot_segments n (u32 (ph + 32)) eph
    end
  else ret tt.

(** The address that is called; [None] when the loader returns to [bootasm.S]. *)
Definition bootmain : B (option Z) :=
  readseg elf 4096 0;;
  magic ← load e_magic;
  if negb (magic =? KMAGIC) then ret None
  else
    phoff ← load e_phoff;
    phnum ← load e_phnum;
    let ph := u32 (elf + phoff) in
    boot_segments (Z.to_nat phnum) ph (u32 (ph + 32 * phnum));;
    entry ← load e_entry;
    ret (Some entry).
End bootmain.

(** ** What the disk holds *)
Section kernel_file.
Context `{bootdisk}.

(** Byte [i] of the kernel, which begins in sector 1, and its words. *)
Definition kbyte (i : Z) : Z := u8 (default 0 (bsector (1 + i / SECTSIZE) !! Z.to_nat (i mod SECTSIZE))).
Definition kword (i : Z) : Z := kbyte i + 2 ^ 8 * kbyte (i + 1) + 2 ^ 16 * kbyte (i + 2) + 2 ^ 24 * kbyte (i + 3).

Record segment := mkSegment { s_off : Z; s_paddr : Z; s_filesz : Z; s_memsz : Z }.
Definition kphoff : Z := kword 28.
Definition kphnum : Z := kbyte 44 + 2 ^ 8 * kbyte 45.
Definition ksegment (i : nat) : segment :=
  let ph := kphoff + 32 * Z.of_nat i in
  mkSegment (kword (ph + 4)) (kword (ph + 12)) (kword (ph + 16)) (kword (ph + 20)).

(** Where the first sector of a segment goes, which may begin before the segment. *)
Definition s_first (g : segment) : Z := s_paddr g - s_off g mod SECTSIZE.

(** The bytes of the segment are in memory, followed by zeros. *)
Definition loaded (m : memory) (g : segment) : Prop :=
  (∀ i, 0 ≤ i < s_filesz g → rd8 m (s_paddr g + i) = kbyte (s_off g + i)) ∧
  (∀ i, s_filesz g ≤ i < s_memsz g → rd8 m (s_paddr g + i) = 0).

(** A segment that fits: above the page the headers are in, below the end of the address space. *)
Definition fits (g : segment) : Prop :=
  elf + 4096 ≤ s_first g ∧ s_filesz g ≤ s_memsz g ∧ s_paddr g + s_memsz g + SECTSIZE ≤ 2 ^ 32.

(** A segment that takes no memory and for which no sector is read, wherever it says it is: a header such
    as the one linkers write for the stack. *)
Definition void (g : segment) : Prop :=
  s_filesz g = 0 ∧ s_memsz g = 0 ∧ (s_off g mod SECTSIZE = 0 ∨ s_paddr g < s_off g mod SECTSIZE).

(** Every sector of the disk has 512 bytes. *)
Definition whole_sectors : Prop := ∀ n, length (bsector n) = 512%nat.

(** An ELF file the loader can load: the headers in its first page, each segment void or one that fits,
    the latter in increasing order, far enough apart that the sectors of one do not reach back into
    another. *)
Record bootable : Prop := {
  bt_headers : kphoff + 32 * kphnum ≤ 4096;
  bt_fits : ∀ i, Z.of_nat i < kphnum → void (ksegment i) ∨ fits (ksegment i);
  bt_order : ∀ i j, (i < j)%nat → Z.of_nat j < kphnum → ¬ void (ksegment i) → ¬ void (ksegment j) →
    s_paddr (ksegment i) + s_memsz (ksegment i) ≤ s_first (ksegment j)
}.

#[global] Instance void_dec g : Decision (void g).
Proof. apply _. Defined.

(** The controller gets ready while the loader waits. *)
Definition responsive : Prop := ∀ t, ∃ j, (j < patience)%nat ∧ Z.land (status (t + j)) 0xC0 = 0x40.

(** The first page of the kernel is in the scratch space. *)
Definition headers (m : memory) : Prop := ∀ i, 0 ≤ i < 4096 → rd8 m (elf + i) = kbyte i.

(** ** Proofs *)
Lemma kword_range i : 0 ≤ kword i < 2 ^ 32.
Proof. unfold kword, kbyte, u8. lia. Qed.

Lemma headers_word m i : headers m → 0 ≤ i → i + 4 ≤ 4096 → rd32 m (elf + i) = kword i.
Proof. intros Hm ??. unfold rd32, kword. rewrite <- !Z.add_assoc, !Hm by lia. done. Qed.

Lemma headers_phnum m : headers m → e_phnum m = kphnum.
Proof. intros Hm. unfold e_phnum, kphnum. by rewrite !Hm by lia. Qed.

Lemma headers_below m m' b : headers m → elf + 4096 ≤ b → (∀ a, a < b → rd8 m' a = rd8 m a) → headers m'.
Proof. intros Hm Hb Hs i Hi. rewrite Hs by lia. by apply Hm. Qed.

Lemma waitdisk_ok s : responsive →
  ∃ r, waitdisk patience s = Ok tt (mkBstate (b_mem s) (b_port s) r).
Proof.
  intros Hr. destruct (Hr (b_reads s)) as (j & Hj & Hs). revert s j Hj Hs. induction patience as [|n IH]; intros s j Hj Hs; [lia|].
  cbn [waitdisk]. unfold bind, boot_inb_status. destruct (Z.eqb_spec (Z.land (status (b_reads s)) 0xC0) 0x40); [by eexists|].
  destruct j as [|j]; [by rewrite Nat.add_0_r in Hs|]. apply (IH (mkBstate (b_mem s) (b_port s) (S (b_reads s))) j); [lia|].
  cbn. by rewrite Nat.add_succ_r in Hs.
Qed.

(** The four bytes select the sector. *)
Lemma lba_bytes n : 0 ≤ n < 2 ^ 28 →
  u8 n + 2 ^ 8 * u8 (Z.shiftr n 8) + 2 ^ 16 * u8 (Z.shiftr n 16) + 2 ^ 24 * Z.land (u8 (Z.lor (Z.shiftr n 24) 0xE0)) 0xF = n.
Proof.
  intros Hn. assert (Hl : Z.land (u8 (Z.lor (Z.shiftr n 24) 0xE0)) 0xF = Z.shiftr n 24 mod 16).
  { unfold u8. change 256 with (2 ^ 8). rewrite <- Z.land_ones, <- Z.land_assoc by lia. change (Z.land (Z.ones 8) 0xF) with 0xF.
    rewrite Z.land_lor_distr_l. change (Z.land 0xE0 0xF) with 0. rewrite Z.lor_0_r. change 0xF with (Z.ones 4).
    by rewrite Z.land_ones by lia. }
  rewrite Hl, !Z.shiftr_div_pow2 by lia. unfold u8. lia.
Qed.

Lemma readsect_ok s dst n : responsive → length (bsector n) = 512%nat → 0 ≤ n < 2 ^ 28 →
  ∃ p r, readsect dst n s = Ok tt (mkBstate (write_bytes (b_mem s) dst (bsector n)) p r).
Proof.
  intros Hr Hl Hn. unfold readsect. destruct (waitdisk_ok s Hr) as [r Hw]. rewrite (bind_ok _ _ _ _ _ Hw). unfold boot_outb.
  rewrite !bind_modify. set (s1 := mkBstate _ _ _). destruct (waitdisk_ok s1 Hr) as [r' Hw']. rewrite (bind_ok _ _ _ _ _ Hw').
  eexists _, _. unfold boot_insl, bind, get, modify. cbn. unfold selected, port. cbn. simplify_map_eq. cbn.
  rewrite lba_bytes by done. change (Z.to_nat _) with 512%nat. by rewrite take_ge by (by rewrite Hl).
Qed.

(** A sector in memory, in terms of the bytes of the kernel. *)
Lemma sector_bytes m dst n a : length (bsector n) = 512%nat →
  rd8 (write_bytes m dst (bsector n)) a = if within dst 512 a then kbyte (512 * (n - 1) + (a - dst)) else rd8 m a.
Proof.
  intros Hl. rewrite rd8_write_bytes, Hl. change (Z.of_nat 512) with 512. destruct (within_spec dst 512 a); [|done].
  unfold kbyte, SECTSIZE. replace (1 + (512 * (n - 1) + (a - dst)) / 512) with n by lia.
  by replace ((512 * (n - 1) + (a - dst)) mod 512) with (a - dst) by lia.
Qed.

Lemma readseg_loop_ok k n pa epa off s : responsive → whole_sectors →
  (k ≤ n)%nat → 512 * (Z.of_nat k - 1) < epa - pa ≤ 512 * Z.of_nat k → 0 ≤ pa → epa + 512 ≤ 2 ^ 32 →
  0 ≤ off → off + Z.of_nat k < 2 ^ 28 →
  ∃ m p r, readseg_loop n pa epa off s = Ok tt (mkBstate m p r) ∧
    ∀ a, rd8 m a = if within pa (512 * Z.of_nat k) a then kbyte (512 * (off - 1) + (a - pa)) else rd8 (b_mem s) a.
Proof.
  intros Hr Hb. revert n pa off s. induction k as [|k IH]; intros n pa off s Hk He Hpa Hepa Ho Hok.
  - exists (b_mem s), (b_port s), (b_reads s). split; [destruct n, s; cbn; by zbool|]. intros a. by within_cases.
  - destruct n as [|n]; [lia|]. cbn [readseg_loop]. rewrite (proj2 (Z.ltb_lt _ _)) by lia. unfold SECTSIZE.
    destruct (readsect_ok s pa off Hr (Hb off)) as (p & r & Hs); [lia|]. rewrite (bind_ok _ _ _ _ _ Hs).
    set (s1 := mkBstate _ _ _). replace (u32 (pa + 512)) with (pa + 512) by (unfold u32; lia).
    replace (u32 (off + 1)) with (off + 1) by (unfold u32; lia).
    destruct (IH n (pa + 512) (off + 1) s1) as (m & p' & r' & -> & Hm); [lia..|].
    exists m, p', r'. split; [done|]. intros a. rewrite Hm. cbn [b_mem s1]. rewrite sector_bytes by apply Hb.
    within_cases; try done. f_equal. lia.
Qed.

(** [readseg] puts the bytes of the kernel where they are wanted, and more of them around. *)
Lemma readseg_ok pa count off s : responsive → whole_sectors →
  0 ≤ pa - off mod 512 → 0 ≤ count → pa + count + 512 ≤ 2 ^ 32 → 0 ≤ off < 2 ^ 32 →
  ∃ m p r len, readseg pa count off s = Ok tt (mkBstate m p r) ∧ count + off mod 512 ≤ len ∧
    ∀ a, rd8 m a = if within (pa - off mod 512) len a then kbyte (off + (a - pa)) else rd8 (b_mem s) a.
Proof.
  intros Hr Hb Hpa Hc He Ho. unfold readseg, SECTSIZE. set (k := Z.to_nat ((count + off mod 512 + 511) / 512)).
  assert (Hk : Z.of_nat k = (count + off mod 512 + 511) / 512) by (unfold k; lia).
  replace (u32 (pa + count)) with (pa + count) by (unfold u32; lia).
  replace (u32 (pa - off mod 512)) with (pa - off mod 512) by (unfold u32; lia).
  destruct (readseg_loop_ok k (Z.to_nat (count / 512 + 2)) (pa - off mod 512) (pa + count) (off / 512 + 1) s) as (m & p & r & -> & Hm);
    [done|done|lia..|].
  exists m, p, r, (512 * Z.of_nat k). split; [done|]. split; [lia|]. intros a. rewrite Hm.
  destruct (within _ _ a); [|done]. f_equal. lia.
Qed.

Lemma readseg_headers s : responsive → whole_sectors →
  ∃ m p r, readseg elf 4096 0 s = Ok tt (mkBstate m p r) ∧ headers m.
Proof.
  intros Hr Hb. destruct (readseg_ok elf 4096 0 s Hr Hb) as (m & p & r & len & -> & Hl & Hm); [unfold elf; lia..|].
  exists m, p, r. split; [done|]. intros i Hi. rewrite Hm. change (0 mod 512) with 0 in *. within_cases. f_equal. lia.
Qed.

(** The header of segment [i] in memory. *)
Lemma headers_segment m i ph : headers m → bootable → Z.of_nat i < kphnum → ph = elf + (kphoff + 32 * Z.of_nat i) →
  p_off ph m = s_off (ksegment i) ∧ p_paddr ph m = s_paddr (ksegment i) ∧
  p_filesz ph m = s_filesz (ksegment i) ∧ p_memsz ph m = s_memsz (ksegment i).
Proof.
  intros Hm Hb Hi ->. pose proof (bt_headers Hb) as Hh. pose proof (kword_range 28) as Hp. change (kword 28) with kphoff in Hp.
  unfold p_off, p_paddr, p_filesz, p_memsz, ksegment. cbn -[kword]. rewrite <- !(Z.add_assoc elf).
  by rewrite !headers_word by (done || lia).
Qed.

Lemma boot_segment_ok s i ph : responsive → whole_sectors → bootable → headers (b_mem s) → Z.of_nat i < kphnum →
  ph = elf + (kphoff + 32 * Z.of_nat i) → fits (ksegment i) →
  ∃ m p r, boot_segment ph s = Ok tt (mkBstate m p r) ∧ headers m ∧ loaded m (ksegment i) ∧
    ∀ a, a < s_first (ksegment i) → rd8 m a = rd8 (b_mem s) a.
Proof.
  intros Hr Hw Hb Hm Hi Hph (F1 & F2 & F3). set (g := ksegment i) in *.
  destruct (headers_segment _ i ph Hm Hb Hi Hph) as (Ho & Hpa & Hf & _). fold g in Ho, Hpa, Hf.
  assert (Hrg : 0 ≤ s_off g < 2 ^ 32 ∧ 0 ≤ s_filesz g) by (split; apply kword_range). destruct Hrg as [Hro Hrf].
  unfold s_first, SECTSIZE in *. unfold boot_segment, load. rewrite !bind_gets, Ho, Hpa, Hf.
  destruct (readseg_ok (s_paddr g) (s_filesz g) (s_off g) s Hr Hw) as (m & p & r & len & Hrs & Hl & Hm1); [unfold elf in F1; lia..|].
  rewrite (bind_ok _ _ _ _ _ Hrs). set (s1 := mkBstate _ _ _).
  assert (Hlow : ∀ a, a < s_paddr g - s_off g mod 512 → rd8 m a = rd8 (b_mem s) a) by (intros a Ha; rewrite Hm1; by within_cases).
  assert (Hm' : headers m) by (by eapply (headers_below (b_mem s))).
  destruct (headers_segment m i ph Hm' Hb Hi Hph) as (_ & _ & Hf' & Hz). fold g in Hf', Hz.
  rewrite !bind_gets. cbn [b_mem s1]. rewrite Hf', Hz. unfold when, modify.
  assert (Hin : ∀ j, 0 ≤ j < s_filesz g → rd8 m (s_paddr g + j) = kbyte (s_off g + j)).
  { intros j Hj. rewrite Hm1. within_cases. f_equal. lia. }
  destruct (Z.ltb_spec (s_filesz g) (s_memsz g)) as [Hlt|Hge].
  - replace (u32 (s_paddr g + s_filesz g)) with (s_paddr g + s_filesz g) by (unfold u32, elf in *; lia).
    eexists _, _, _. split; [reflexivity|]. cbn [b_mem s1].
    assert (Hlow2 : ∀ a, a < s_paddr g - s_off g mod 512 →
      rd8 (stosb m (s_paddr g + s_filesz g) 0 (Z.to_nat (s_memsz g - s_filesz g))) a = rd8 (b_mem s) a).
    { intros a Ha. rewrite rd8_stosb. within_cases. by apply Hlow. }
    split; [by eapply (headers_below (b_mem s))|]. split; [split; intros j Hj; rewrite rd8_stosb; within_cases; try done; by apply Hin|done].
  - eexists _, _, _. split; [reflexivity|]. split; [done|]. split; [split; [done|intros; lia]|done].
Qed.

(** A void segment leaves everything as it is. *)
Lemma boot_segment_void s i ph : bootable → headers (b_mem s) → Z.of_nat i < kphnum →
  ph = elf + (kphoff + 32 * Z.of_nat i) → void (ksegment i) → boot_segment ph s = Ok tt s.
Proof.
  intros Hb Hm Hi Hph (V1 & V2 & V3). set (g := ksegment i) in *.
  destruct (headers_segment _ i ph Hm Hb Hi Hph) as (Ho & Hpa & Hf & Hz). fold g in Ho, Hpa, Hf, Hz.
  assert (Hrg : 0 ≤ s_paddr g < 2 ^ 32) by apply kword_range. assert (Hro : 0 ≤ s_off g mod SECTSIZE < 512) by (unfold SECTSIZE; lia).
  assert (Hrs : readseg (s_paddr g) 0 (s_off g) s = Ok tt s).
  { unfold readseg. cbn [Z.div Z.add Z.to_nat]. change (Z.to_nat (0 / SECTSIZE + 2)) with 2%nat. cbn [readseg_loop].
    rewrite (proj2 (Z.ltb_ge _ _)); [by destruct s|]. unfold u32. destruct V3 as [->|Hlt].
    - by rewrite Z.sub_0_r, Z.add_0_r.
    - rewrite Z.add_0_r, (Z.mod_small (s_paddr g)) by lia. rewrite <- (Z_mod_plus_full _ 1), Z.mod_small by lia. lia. }
  unfold boot_segment, load. rewrite !bind_gets, Ho, Hpa, Hf, V1. rewrite (bind_ok _ _ _ _ _ Hrs), !bind_gets, Hz, Hf, V1, V2. by destruct s.
Qed.

(** What stays below a segment stays loaded. *)
Lemma loaded_below m m' g b : loaded m g → s_filesz g ≤ s_memsz g → s_paddr g + s_memsz g ≤ b →
  (∀ a, a < b → rd8 m' a = rd8 m a) → loaded m' g.
Proof. intros [H1 H2] Hle Hb Hs. split; intros i Hi; rewrite Hs by lia; auto. Qed.

Lemma boot_segments_ok n i s : responsive → whole_sectors → bootable → headers (b_mem s) → Z.of_nat (i + n) = kphnum →
  (∀ j, (j < i)%nat → loaded (b_mem s) (ksegment j)) →
  ∃ m p r, boot_segments n (elf + (kphoff + 32 * Z.of_nat i)) (elf + (kphoff + 32 * kphnum)) s = Ok tt (mkBstate m p r) ∧
    headers m ∧ ∀ j, Z.of_nat j < kphnum → loaded m (ksegment j).
Proof.
  intros Hr Hw Hb. revert i s. induction n as [|n IH]; intros i s Hm Hi Hl; cbn [boot_segments].
  - rewrite (proj2 (Z.ltb_ge _ _)) by lia. exists (b_mem s), (b_port s), (b_reads s). destruct s. split; [done|].
    split; [done|]. intros j Hj. apply Hl. lia.
  - rewrite (proj2 (Z.ltb_lt _ _)) by lia. pose proof (bt_headers Hb) as Hh. pose proof (kword_range 28) as Hp. change (kword 28) with kphoff in Hp.
    assert (Hnext : u32 (elf + (kphoff + 32 * Z.of_nat i) + 32) = elf + (kphoff + 32 * Z.of_nat (S i))) by (unfold u32, elf; lia).
    destruct (decide (void (ksegment i))) as [Hv|Hnv].
    + rewrite (bind_ok _ _ _ _ _ (boot_segment_void s i _ Hb Hm ltac:(lia) eq_refl Hv)), Hnext. apply IH; [done|lia|].
      intros j Hj. destruct (decide (j = i)) as [->|Hne]; [|apply Hl; lia]. destruct Hv as (V1 & V2 & _). by split; intros; lia.
    + destruct (bt_fits Hb i) as [?|Hfit]; [lia|done|].
      destruct (boot_segment_ok s i _ Hr Hw Hb Hm ltac:(lia) eq_refl Hfit) as (m & p & r & Hs & Hm' & Hg & Hlow).
      rewrite (bind_ok _ _ _ _ _ Hs), Hnext. apply IH; [done|lia|]. intros j Hj. cbn [b_mem]. destruct (decide (j = i)) as [->|Hne]; [done|].
      destruct (decide (void (ksegment j))) as [(V1 & V2 & _)|Hnv']; [by split; intros; lia|].
      eapply (loaded_below (b_mem s) m _ (s_first (ksegment i))); [apply Hl; lia| |apply (bt_order Hb); [lia|lia|done|done]|done].
      destruct (bt_fits Hb j) as [?|(_ & ? & _)]; [lia|done|done].
Qed.

(** C7: The boot loader loads the kernel.  From a disk that gets ready whenever it is waited for and whose
    file begins with the ELF magic number and can be loaded ([bootable]: its headers are in its first
    page; each segment either takes no memory and no sector, or lies above the page the headers are
    read to and ends below 4 GB with a sector to spare, and these segments lie apart in increasing
    order), [bootmain] jumps to the entry of the file with every segment in memory: its bytes at its
    physical address, and zeros up to its size there.  Whole sectors are read, so more is stored around
    a segment; no other segment is hit.  A file that does not begin with the magic number, whatever it
    holds, makes it return. *)
Theorem bootmain_loads s : responsive → whole_sectors → (kword 0 = KMAGIC → bootable) →
  ∃ s', bootmain s = Ok (if kword 0 =? KMAGIC then Some (kword 24) else None) s' ∧
    (kword 0 = KMAGIC → ∀ i, Z.of_nat i < kphnum → loaded (b_mem s') (ksegment i)).
Proof.
  intros Hr Hw Hbt. unfold bootmain. destruct (readseg_headers s Hr Hw) as (m & p & r & Hs & Hm).
  rewrite (bind_ok _ _ _ _ _ Hs). set (s1 := mkBstate m p r). unfold load. rewrite bind_gets.
  assert (Hk : e_magic (b_mem s1) = kword 0) by (by apply (headers_word m 0)). rewrite Hk.
  destruct (Z.eqb_spec (kword 0) KMAGIC) as [He|Hne]; [|by exists s1]. pose proof (Hbt He) as Hb. cbn [negb]. rewrite !bind_gets.
  assert (Hph : e_phoff (b_mem s1) = kphoff) by (by apply (headers_word m 28)). rewrite Hph, headers_phnum by done.
  pose proof (bt_headers Hb) as Hh. pose proof (kword_range 28) as Hp. change (kword 28) with kphoff in Hp.
  assert (Hn : 0 ≤ kphnum) by (unfold kphnum, kbyte, u8; lia).
  destruct (boot_segments_ok (Z.to_nat kphnum) 0 s1 Hr Hw Hb Hm) as (m' & p' & r' & Hs' & Hm' & Hl); [lia|intros; lia|].
  replace (u32 (u32 (elf + kphoff) + 32 * kphnum)) with (elf + (kphoff + 32 * kphnum)) by (unfold u32, elf; lia).
  replace (u32 (elf + kphoff)) with (elf + (kphoff + 32 * Z.of_nat 0)) by (unfold u32, elf; lia).
  rewrite (bind_ok _ _ _ _ _ Hs'), bind_gets. assert (Hen : e_entry m' = kword 24) by (by apply (headers_word m' 24)).
  cbn [b_mem]. rewrite Hen. by eexists.
Qed.
End kernel_file.

(** ** An instance: two segments, the second with its first byte inside a sector, and the header of a stack,
    on a slow disk *)
Definition word_bytes (v : Z) : list Z := [u8 v; u8 (v / 2 ^ 8); u8 (v / 2 ^ 16); u8 (v / 2 ^ 24)].
Definition sample_headers : list Z :=
  concat (word_bytes <$> [KMAGIC; 0; 0; 0; 0; 0; 0x10000C; 52; 0; 0; 0; 3; 0]) ++
  concat (word_bytes <$> [1; 512; 0; 0x100000; 600; 600; 0; 0; 1; 1112; 0; 0x101058; 100; 900; 0; 0; 0x6474E551; 0; 0; 0; 0; 0; 7; 16]).
Definition sample_sectors (n : Z) : list Z :=
  if n =? 1 then sample_headers ++ replicate (512 - length sample_headers) 0 else replicate 512 (u8 n).
Definition sample_bootdisk : bootdisk :=
  {| bsector := sample_sectors; status := λ t, if Nat.even t then 0x80 else 0x50; patience := 2 |}.

Lemma sample_responsive : responsive (H := sample_bootdisk).
Proof.
  intros t. cbn. destruct (Nat.even t) eqn:E.
  - exists 1%nat. split; [lia|]. by rewrite Nat.add_1_r, Nat.even_succ, <- Nat.negb_even, E.
  - exists 0%nat. split; [lia|]. by rewrite Nat.add_0_r, E.
Qed.

Lemma sample_whole : whole_sectors (H := sample_bootdisk).
Proof. intros n. cbn. unfold sample_sectors. by destruct (n =? 1). Qed.

Lemma sample_bootable : bootable (H := sample_bootdisk).
Proof.
  assert (Hn : kphnum (H := sample_bootdisk) = 3) by (vm_compute; reflexivity).
  split.
  - by vm_compute.
  - rewrite Hn. intros [|[|[|i]]] Hi; [right; vm_compute; by split_and!..|left; split_and!; [by vm_compute..|left; by vm_compute]|lia].
  - rewrite Hn. intros i [|[|[|j]]] Hj Hi Hv Hv'; [lia| | |lia].
    + assert (i = 0%nat) as -> by lia. by vm_compute.
    + destruct Hv'. split_and!; [by vm_compute..|left; by vm_compute].
Qed.

Lemma bootmain_loads_witness :
  ∃ s', bootmain (H := sample_bootdisk) (mkBstate ∅ ∅ 0) = Ok (Some 0x10000C) s' ∧
    rd8 (b_mem s') 0x100000 = 2 ∧ rd8 (b_mem s') (0x101058 + 99) = 3 ∧ rd8 (b_mem s') (0x101058 + 100) = 0.
Proof.
  destruct (bootmain_loads (H := sample_bootdisk) (mkBstate ∅ ∅ 0) sample_responsive sample_whole (λ _, sample_bootable)) as (s' & Hr & Hl).
  assert (Hn : kphnum (H := sample_bootdisk) = 3) by (vm_compute; reflexivity). rewrite Hn in Hl.
  exists s'. split; [exact Hr|]. assert (Hm : kword (H := sample_bootdisk) 0 = KMAGIC) by (vm_compute; reflexivity).
  destruct (Hl Hm 0%nat ltac:(lia)) as [H0 _]. destruct (Hl Hm 1%nat ltac:(lia)) as [H1 H2].
  split; [exact (H0 0 (conj (Z.le_refl 0) eq_refl))|].
  assert (H99 : 0 ≤ 99 < s_filesz (ksegment (H := sample_bootdisk) 1)) by (vm_compute; split; congruence).
  assert (H100 : s_filesz (ksegment (H := sample_bootdisk) 1) ≤ 100 < s_memsz (ksegment (H := sample_bootdisk) 1))
    by (vm_compute; split; congruence).
  split; [exact (H1 99 H99)|exact (H2 100 H100)].
Defined.
