(* ===== verification/Kalloc.v ===== *)
(** [kalloc.c]: the allocator of 4096-byte pages of physical memory.

    The free pages form a linked list threaded through the pages themselves:
    the first word of a free page is the address of the next one. *)

From S2P Require Import Prelude Params State Spinlock Mem.

(** Symbols that [kernel.ld] defines: [end], the first address after the
    kernel image, and [data], the start of its writable part;
    and the addresses of two functions. *)
Class link := {
  kend : Z;
  kdata : Z;
  forkret_addr : Z;
  trapret_addr : Z;
  link_data : KERNLINK < kdata ≤ kend;
  link_end : kend ≤ KERNBASE + 4 * 1024 * 1024;
  link_align : kdata mod PGSIZE = 0
}.

(** ** Access to memory *)
Definition getm {A} (f : memory → A) : K A := gets (λ k, f (mem (k_vm k))).
Definition mod_mem (f : memory → memory) : K unit :=
  modify (mod_vm (λ v, set_mem (f (mem v)) v)).
Arguments getm _ _ _ /.
Arguments mod_mem _ _ /.

(** ** Operations *)
Definition lock_kmem : K unit :=
  ul ← gets (λ k, use_lock (k_vm k)); when (truthy ul) (acquire Lkmem).
Definition unlock_kmem : K unit :=
  ul ← gets (λ k, use_lock (k_vm k)); when (truthy ul) (release Lkmem).

#[global] Arguments lock_kmem : simpl never.
#[global] Arguments unlock_kmem : simpl never.

Section kalloc.
Context `{link}.

Definition kfree (v : Z) : K unit :=
  if truthy (v mod PGSIZE) || (v <? kend) || (PHYSTOP <=? V2P v) then panic "kfree"
  else
    mod_mem (λ m, memset m v 1 PGSIZE);;
    lock_kmem;;
    fl ← gets (λ k, freelist (k_vm k));
    mod_mem (λ m, wr32 m v fl);;
    modify (mod_vm (set_freelist v));;
    unlock_kmem.

Definition kalloc : K Z :=
  lock_kmem;;
  r ← gets (λ k, freelist (k_vm k));
  when (truthy r)
    (next ← getm (λ m, rd32 m r); modify (mod_vm (set_freelist next)));;
  unlock_kmem;;
  ret r.

(** One iteration per page that fits below [vend]. *)
Fixpoint freerange_loop (fuel : nat) (p vend : Z) : K unit :=
  match fuel with
  | O => fail OutOfFuel
  | S fuel =>
      if p + PGSIZE <=? vend then kfree p ;; freerange_loop fuel (p + PGSIZE) vend
      else ret tt
  end.
Definition freerange (vstart vend : Z) : K unit :=
  let p := PGROUNDUP vstart in
  freerange_loop (S (Z.to_nat ((vend - p) / PGSIZE))) p vend.

Definition kinit1 (vstart vend : Z) : K unit :=
  initlock Lkmem "kmem";;
  modify (mod_vm (set_use_lock 0));;
  freerange vstart vend.

Definition kinit2 (vstart vend : Z) : K unit :=
  freerange vstart vend;;
  modify (mod_vm (set_use_lock 1)).

(** The walk of the list visits a page at most once, so the number of
    physical pages bounds it. *)
Fixpoint count_free (fuel : nat) (temp counter : Z) : K Z :=
  match fuel with
  | O => fail OutOfFuel
  | S fuel =>
      if truthy temp then
        next ← getm (λ m, rd32 m temp); count_free fuel next (s32 (counter + 1))
      else ret counter
  end.
Definition getCurrentCapacity : K Z :=
  lock_kmem;;
  temp ← gets (λ k, freelist (k_vm k));
  counter ← count_free (S (Z.to_nat (PHYSTOP / PGSIZE))) temp 0;
  unlock_kmem;;
  ret counter.

(** ** The free list as a list of pages *)
Definition page_ok (p : Z) : Prop := p mod PGSIZE = 0 ∧ kend ≤ p < KERNBASE + PHYSTOP.

Fixpoint free_list (m : memory) (head : Z) (l : list Z) : Prop :=
  match l with
  | [] => head = 0
  | p :: l => head = p ∧ free_list m (rd32 m p) l
  end.

Record kmem_ok (v : vmem) (l : list Z) : Prop := mkKmemOk {
  kmem_list : free_list (mem v) (freelist v) l;
  kmem_nodup : NoDup l;
  kmem_pages : Forall page_ok l
}.

(** The allocator's lock can be taken, or is not in use yet. *)
Definition kmem_ready (k : kernel) : Prop := use_lock (k_vm k) = 0 ∨ avail Lkmem (k_mach k).

(** The effect of [kalloc] and [kfree] on memory and the list. *)
Definition kalloc_vm (v : vmem) : vmem :=
  if truthy (freelist v) then set_freelist (rd32 (mem v) (freelist v)) v else v.
Definition kfree_vm (p : Z) (v : vmem) : vmem :=
  set_freelist p (set_mem (wr32 (memset (mem v) p 1 PGSIZE) p (freelist v)) v).

Lemma page_ok_range p : page_ok p → KERNBASE + EXTMEM < p < KERNBASE + PHYSTOP ∧ p + PGSIZE ≤ KERNBASE + PHYSTOP.
Proof. unfold page_ok. pose proof link_data. pose proof link_end. clia. Qed.

Lemma page_ok_aligned p : page_ok p → p mod 4096 = 0.
Proof. by intros []. Qed.

Lemma page_ok_disjoint p q : page_ok p → page_ok q → p ≠ q → p + PGSIZE ≤ q ∨ q + PGSIZE ≤ p.
Proof. unfold page_ok. clia. Qed.

Lemma lock_kmem_ok k : kmem_ready k →
  ∃ m, lock_kmem k = Ok tt (set_k_mach m k) ∧
  ∀ v, use_lock v = use_lock (k_vm k) →
    unlock_kmem (set_k_vm v (set_k_mach m k)) = Ok tt (set_k_vm v k).
Proof.
  intros [Hz|Ha]; unfold lock_kmem, unlock_kmem; cbn.
  - rewrite Hz, truthy_0. exists (k_mach k). cbn. split; [by destruct k|].
    intros v Hv. cbn. by rewrite Hv, truthy_0.
  - destruct (truthy (use_lock (k_vm k))) eqn:Hu; cbn.
    + exists (hold Lkmem (k_mach k)). rewrite acquire_ok by done. split; [done|].
      intros v Hv. cbn. rewrite Hv, Hu. cbn. by rewrite (release_ok _ _ (k_mach k)) by done.
    + exists (k_mach k). split; [by destruct k|]. intros v Hv. cbn. by rewrite Hv, Hu.
Qed.

Lemma kfree_run p k : page_ok p → kmem_ready k → kfree p k = Ok tt (mod_vm (kfree_vm p) k).
Proof.
  intros Hp Hk. unfold kfree. pose proof (page_ok_range p Hp). destruct Hp as [Hp1 Hp2].
  rewrite Hp1, truthy_0. replace (V2P p) with (p - KERNBASE) by (unfold V2P, u32; clia).
  zbool. cbn.
  destruct (lock_kmem_ok (mod_vm (λ v, set_mem (memset (mem v) p 1 PGSIZE) v) k)) as (m & Hl & Hu).
  { destruct Hk as [?|?]; [left|right]; done. }
  rewrite Hl. cbn. specialize (Hu (kfree_vm p (k_vm k))). cbn in Hu.
  etransitivity; [|by apply Hu]. done.
Qed.

Lemma kalloc_run k : kmem_ready k → kalloc k = Ok (freelist (k_vm k)) (mod_vm kalloc_vm k).
Proof.
  intros Hk. unfold kalloc.
  destruct (lock_kmem_ok k Hk) as (m & Hl & Hu). rewrite (bind_ok _ _ _ _ _ Hl). cbn.
  unfold when, kalloc_vm, mod_vm. destruct (truthy (freelist (k_vm k))); cbn.
  - rewrite Hu; done.
  - specialize (Hu (k_vm k) eq_refl). cbn in Hu. unfold set_k_mach, set_k_vm in *. cbn in *.
    by rewrite Hu.
Qed.

Lemma kmem_ready_vm k f :
  kmem_ready k → use_lock (f (k_vm k)) = use_lock (k_vm k) → kmem_ready (mod_vm f k).
Proof. intros [?|?] ?; [left|right]; cbn; congruence. Qed.

(** ** The list under [kalloc] and [kfree] *)
Lemma free_list_ext m m' h l :
  (∀ p, p ∈ l → rd32 m p = rd32 m' p) → free_list m h l → free_list m' h l.
Proof.
  revert h. induction l as [|p l IH]; intros h Hm; simpl; [done|].
  intros [-> Hl]. split; [done|]. rewrite <- Hm by set_solver. apply IH; [set_solver|done].
Qed.

Lemma free_list_nil m h : free_list m h [] ↔ h = 0.
Proof. done. Qed.

Lemma page_ok_nonzero p : page_ok p → truthy p = true.
Proof. intros Hp%page_ok_range. apply truthy_true. clia. Qed.

Lemma kmem_ok_nil v : kmem_ok v [] → freelist v = 0 ∧ kalloc_vm v = v.
Proof.
  intros [Hl _ _]. simpl in Hl. unfold kalloc_vm. by rewrite Hl, truthy_0.
Qed.

Lemma kmem_ok_cons v p l :
  kmem_ok v (p :: l) →
  freelist v = p ∧ page_ok p ∧ p ∉ l ∧ kalloc_vm v = set_freelist (rd32 (mem v) p) v ∧
  kmem_ok (kalloc_vm v) l.
Proof.
  intros [[Hf Hl] [Hp Hnd]%NoDup_cons [Hok Hall]%Forall_cons].
  assert (Hk : kalloc_vm v = set_freelist (rd32 (mem v) p) v).
  { unfold kalloc_vm. by rewrite Hf, page_ok_nonzero. }
  rewrite Hk. split_and!; done.
Qed.

Lemma rd8_kfree_vm p v a : page_ok p → within p PGSIZE a = false →
  rd8 (mem (kfree_vm p v)) a = rd8 (mem v) a.
Proof.
  intros Hp. unfold kfree_vm. cbn. within_cases. intros _.
  rewrite rd8_wr32_ne by clia. rewrite rd8_memset by clia. by within_cases.
Qed.

Lemma rd32_kfree_vm p v a : page_ok p → a + 4 ≤ p ∨ p + PGSIZE ≤ a →
  rd32 (mem (kfree_vm p v)) a = rd32 (mem v) a.
Proof.
  intros Hp Ha. apply rd32_ext. intros i Hi. apply rd8_kfree_vm; [done|]. by within_cases.
Qed.

Lemma kfree_vm_ok v l p :
  page_ok p → p ∉ l → kmem_ok v l → kmem_ok (kfree_vm p v) (p :: l).
Proof.
  intros Hp Hnp [Hl Hnd Hok].
  assert (Hu : 0 ≤ freelist v < 2 ^ 32).
  { destruct l as [|q l]; simpl in Hl; [lia|]. destruct Hl as [-> _].
    apply Forall_cons in Hok as [Hq%page_ok_range _]. clia. }
  split; [|by constructor|by constructor]. simpl. split; [done|].
  rewrite rd32_wr32_eq, u32_small by done.
  eapply free_list_ext; [|done]. intros q Hq. symmetry. apply rd32_kfree_vm; [done|].
  rewrite Forall_forall in Hok. pose proof (Hok q Hq) as Hqo.
  destruct (page_ok_disjoint p q Hp Hqo); [set_solver|clia..].
Qed.

(** Freeing a page and allocating again gives the same page back and the
    same list. *)
Lemma kfree_kalloc k l p :
  page_ok p → p ∉ l → kmem_ready k → kmem_ok (k_vm k) l →
  ∃ k', (kfree p ;; kalloc) k = Ok p k' ∧ kmem_ok (k_vm k') l ∧
  k_mach k' = k_mach k ∧ k_pt k' = k_pt k ∧
  ∀ a, within p PGSIZE a = false → rd8 (mem (k_vm k')) a = rd8 (mem (k_vm k)) a.
Proof.
  intros Hp Hnp Hr Hl. pose proof (kfree_vm_ok _ _ _ Hp Hnp Hl) as Hl'.
  destruct (kmem_ok_cons _ _ _ Hl') as (Hf & _ & _ & Hk & Hok).
  exists (mod_vm kalloc_vm (mod_vm (kfree_vm p) k)).
  rewrite (bind_ok _ _ _ _ _ (kfree_run p k Hp Hr)).
  rewrite kalloc_run by (by apply kmem_ready_vm). split_and!; [done..|].
  intros a Ha. cbn [k_vm mod_vm set_k_vm]. rewrite Hk. exact (rd8_kfree_vm p (k_vm k) a Hp Ha).
Qed.

(** [kfree] refuses an address that is not a page the allocator manages. *)
Lemma kfree_bad p k :
  0 ≤ p < 2 ^ 32 → ¬ page_ok p → kfree p k = Err (Panic "kfree") k.
Proof.
  intros Hr Hp. unfold kfree. pose proof link_data. pose proof link_end.
  destruct (truthy (p mod PGSIZE)) eqn:Ht; [done|]. apply truthy_false in Ht. cbn.
  destruct (Z.ltb_spec p kend); [done|]. cbn.
  destruct (Z.leb_spec PHYSTOP (V2P p)) as [|Hv]; [done|].
  exfalso. apply Hp. split; [done|]. unfold V2P, u32 in Hv. clia.
Qed.

(** ** Initialisation *)
(** [n] consecutive pages from [p]. *)
Fixpoint pages_from (p : Z) (n : nat) : list Z :=
  match n with
  | O => []
  | S n => p :: pages_from (p + PGSIZE) n
  end.

Lemma elem_of_pages_from p n q :
  q ∈ pages_from p n ↔ ∃ i : nat, (i < n)%nat ∧ q = p + Z.of_nat i * PGSIZE.
Proof.
  revert p. induction n as [|n IH]; intros p; cbn.
  - split; [by intros ?%not_elem_of_nil|by intros (i & ? & _); lia].
  - rewrite elem_of_cons, IH. split.
    + intros [->|(i & Hi & ->)]; [exists 0%nat|exists (S i)]; split; clia.
    + intros ([|i] & Hi & ->); [left; lia|right; exists i; split; clia].
Qed.

Lemma freerange_loop_ok n fuel k l p vend :
  (n < fuel)%nat → p + Z.of_nat n * PGSIZE ≤ vend < p + Z.of_nat n * PGSIZE + PGSIZE →
  kmem_ready k → kmem_ok (k_vm k) l →
  (∀ q, q ∈ pages_from p n → page_ok q ∧ (q ∉ l)) →
  ∃ v, freerange_loop fuel p vend k = Ok tt (set_k_vm v k) ∧
  use_lock v = use_lock (k_vm k) ∧ kmem_ok v (reverse (pages_from p n) ++ l).
Proof.
  revert fuel k l p. induction n as [|n IH]; intros [|fuel] k l p Hfu Hn Hr Hl Hall; try lia.
  - cbn [freerange_loop]. rewrite (proj2 (Z.leb_gt _ _)) by clia.
    exists (k_vm k). split_and!; [by destruct k|done|done].
  - cbn [freerange_loop]. rewrite (proj2 (Z.leb_le _ _)) by clia.
    destruct (Hall p) as [Hok Hnl]; [cbn; set_solver|].
    rewrite (bind_ok _ _ _ _ _ (kfree_run p k Hok Hr)).
    destruct (IH fuel (mod_vm (kfree_vm p) k) (p :: l) (p + PGSIZE)) as (v & Hv & Hu & Hlv).
    + lia.
    + clia.
    + by apply kmem_ready_vm.
    + by apply kfree_vm_ok.
    + intros q Hq. destruct (Hall q) as [? ?]; [cbn; set_solver|].
      split; [done|]. apply elem_of_pages_from in Hq as (i & _ & ->).
      apply not_elem_of_cons. split; [clia|done].
    + exists v. split_and!; [done|done|]. cbn [pages_from].
      by rewrite reverse_cons, <- app_assoc.
Qed.

(** [freerange] frees every whole page between the rounded start and the
    end, and nothing else; the loop bound is never reached. *)
Lemma freerange_ok k l vstart vend n :
  0 ≤ vstart ≤ 2 ^ 32 - PGSIZE → n = Z.to_nat ((vend - PGROUNDUP vstart) / PGSIZE) →
  PGROUNDUP vstart ≤ vend →
  kmem_ready k → kmem_ok (k_vm k) l →
  (∀ q, q ∈ pages_from (PGROUNDUP vstart) n → page_ok q ∧ (q ∉ l)) →
  ∃ v, freerange vstart vend k = Ok tt (set_k_vm v k) ∧
  use_lock v = use_lock (k_vm k) ∧ kmem_ok v (reverse (pages_from (PGROUNDUP vstart) n) ++ l).
Proof.
  intros Hv -> Hle Hr Hl Hall. unfold freerange. apply freerange_loop_ok; [lia|clia|done..].
Qed.

(** ** Counting *)
Lemma kmem_ok_length v l : kmem_ok v l → Z.of_nat (length l) ≤ PHYSTOP / PGSIZE.
Proof.
  intros [_ Hnd Hok]. rewrite Forall_forall in Hok.
  set (f := λ p, (p - KERNBASE) / PGSIZE).
  assert (Hn : NoDup (f <$> l)).
  { apply NoDup_fmap_2_strong; [|done]. intros p q Hp%Hok Hq%Hok Hf.
    pose proof (page_ok_range p Hp). pose proof (page_ok_range q Hq).
    destruct Hp as [Hp _], Hq as [Hq _]. unfold f in Hf. clia. }
  assert (Hs : f <$> l ⊆ seqZ 0 (PHYSTOP / PGSIZE)).
  { intros x (p & -> & Hp%Hok)%list_elem_of_fmap. apply elem_of_seqZ.
    pose proof (page_ok_range p Hp). unfold f. clia. }
  apply (NoDup_submseteq _ _ Hn) in Hs. apply submseteq_length in Hs.
  rewrite length_fmap, length_seqZ in Hs. clia.
Qed.

Lemma count_free_ok l fuel k temp c :
  free_list (mem (k_vm k)) temp l → Forall page_ok l → (length l < fuel)%nat →
  0 ≤ c → c + Z.of_nat (length l) < 2 ^ 31 →
  count_free fuel temp c k = Ok (c + Z.of_nat (length l)) k.
Proof.
  revert fuel temp c. induction l as [|p l IH]; intros [|fuel] temp c Hl Hok Hf Hc Hb; try lia.
  - simpl in Hl. subst temp. cbn. rewrite truthy_0. by rewrite Z.add_0_r.
  - destruct Hl as [-> Hl]. apply Forall_cons in Hok as [Hp Hok].
    cbn [count_free]. rewrite (page_ok_nonzero p Hp). cbn. cbn in Hf, Hb.
    rewrite s32_small by lia. rewrite IH; [f_equal; lia|done|done|lia..].
Qed.

(** [getCurrentCapacity] counts the free pages and changes nothing. *)
Lemma getCurrentCapacity_ok k l :
  kmem_ready k → kmem_ok (k_vm k) l → getCurrentCapacity k = Ok (Z.of_nat (length l)) k.
Proof.
  intros Hr Hl. pose proof (kmem_ok_length _ _ Hl) as Hlen. destruct Hl as [Hl _ Hok].
  unfold getCurrentCapacity. destruct (lock_kmem_ok k Hr) as (m & Hlk & Hu).
  rewrite (bind_ok _ _ _ _ _ Hlk). cbn [bind gets k_vm set_k_mach].
  rewrite (count_free_ok l) by (done || clia). cbn.
  specialize (Hu (k_vm k) eq_refl). unfold set_k_mach, set_k_vm in *. cbn in *.
  rewrite Hu. by destruct k.
Qed.
End kalloc.

#[global] Arguments kfree : simpl never.
#[global] Arguments kalloc : simpl never.
