(* ===== verification/PageTable.v ===== *)
(** [vm.c]: two-level page tables in memory, and the operations that read and
    edit one table: [walkpgdir], [mappages], [clearpteu], [uva2ka], [copyout].

    A page directory is abstracted to the function from virtual addresses to
    page-table entries that it implements ([pte]), and to the pages it owns
    ([role_page]): the directory, the second-level tables, the user frames. *)

From S2P Require Import Prelude Params State Spinlock Mem Kalloc.

(** ** Operations *)
Definition load32 (a : Z) : K Z := getm (λ m, rd32 m a).
Definition store32 (a v : Z) : K unit := mod_mem (λ m, wr32 m a v).
Arguments load32 _ _ /.
Arguments store32 _ _ _ /.

(** [*pte] for the result of [walkpgdir]: a null pointer is not dereferenced
    in a defined way. *)
Definition deref (pte : Z) : K Z :=
  if pte =? 0 then fail (UB "null pte") else load32 pte.

Section pagetable.
Context `{link}.

Definition walkpgdir (pgdir va alloc : Z) : K Z :=
  let pde := pgdir + 4 * PDX va in
  e ← load32 pde;
  if truthy (Z.land e PTE_P) then ret (P2V (PTE_ADDR e) + 4 * PTX va)
  else if negb (truthy alloc) then ret 0
  else
    pgtab ← kalloc;
    if pgtab =? 0 then ret 0
    else
      mod_mem (λ m, memset m pgtab 0 PGSIZE);;
      store32 pde (Z.lor (Z.lor (Z.lor (V2P pgtab) PTE_P) PTE_W) PTE_U);;
      ret (pgtab + 4 * PTX va).

(** [n] more pages follow the one at [a]. *)
Fixpoint mappages_loop (n : nat) (pgdir a last pa perm : Z) : K Z :=
  pte ← walkpgdir pgdir a 1;
  if pte =? 0 then ret (-1)
  else
    e ← load32 pte;
    if truthy (Z.land e PTE_P) then panic "remap"
    else
      store32 pte (Z.lor (Z.lor pa perm) PTE_P);;
      if a =? last then ret 0
      else
        match n with
        | O => fail OutOfFuel
        | S n => mappages_loop n pgdir (u32 (a + PGSIZE)) last (u32 (pa + PGSIZE)) perm
        end.
Definition mappages (pgdir va size pa perm : Z) : K Z :=
  let a := PGROUNDDOWN va in
  let last := PGROUNDDOWN (u32 (va + size - 1)) in
  mappages_loop (Z.to_nat (u32 (last - a) / PGSIZE)) pgdir a last pa perm.

Definition mappages_global (pgdir va size pa perm : Z) : K Z := mappages pgdir va size pa perm.
Definition walkpgdir_global (pgdir va alloc : Z) : K Z := walkpgdir pgdir va alloc.

Definition clearpteu (pgdir uva : Z) : K unit :=
  pte ← walkpgdir pgdir uva 0;
  if pte =? 0 then panic "clearpteu"
  else e ← load32 pte; store32 pte (Z.land e (Z.lnot PTE_U)).

Definition uva2ka (pgdir uva : Z) : K Z :=
  pte ← walkpgdir pgdir uva 0;
  e ← deref pte;
  if Z.land e PTE_P =? 0 then ret 0
  else if Z.land e PTE_U =? 0 then ret 0
  else ret (P2V (PTE_ADDR e)).
End pagetable.

#[global] Arguments deref : simpl never.
#[global] Arguments walkpgdir : simpl never.
#[global] Arguments mappages : simpl never.
#[global] Arguments clearpteu : simpl never.
#[global] Arguments uva2ka : simpl never.

(** ** What a page directory means *)
Section abstraction.
Implicit Types (m : memory) (pd va : Z).

(** The second-level table that directory slot [i] points to. *)
Definition table m pd (i : Z) : option Z :=
  let e := rd32 m (pd + 4 * i) in
  if has_P e then Some (P2V (PTE_ADDR e)) else None.

(** The address of the entry for [va], and the entry itself ([0] if there is none). *)
Definition entry_addr m pd va : option Z :=
  (λ t, t + 4 * PTX va) <$> table m pd (PDX va).
Definition pte m pd va : Z :=
  match entry_addr m pd va with
  | Some a => rd32 m a
  | None => 0
  end.

(** The pages a directory owns, each under the role it plays. *)
Inductive role :=
  | RDir
  | RTab (i : Z)
  | RUser (n : Z).

Definition UPAGES : Z := KERNBASE / PGSIZE.

Definition role_page m pd (r : role) : option Z :=
  match r with
  | RDir => Some pd
  | RTab i => if (0 <=? i) && (i <? NPDENTRIES) then table m pd i else None
  | RUser n =>
      if (0 <=? n) && (n <? UPAGES) then
        let e := pte m pd (n * PGSIZE) in
        if has_P e then Some (P2V (PTE_ADDR e)) else None
      else None
  end.

(** The user page of a virtual address: its entry is present and [PTE_U] is
    not looked at, as the kernel does not. *)
Definition frame_of m pd va : option Z := role_page m pd (RUser (va / PGSIZE)).
End abstraction.

#[global] Arguments table : simpl never.
#[global] Arguments entry_addr : simpl never.
#[global] Arguments pte : simpl never.
#[global] Arguments UPAGES : simpl never.
#[export] Hint Unfold UPAGES : consts.

#[global] Instance role_eq_dec : EqDecision role.
Proof. solve_decision. Defined.

(** ** Reading a table *)
Section reading.
Implicit Types (m : memory) (pd va : Z).

Lemma PDX_range va : 0 ≤ PDX va < 1024.
Proof.
  unfold PDX. change 0x3FF with (Z.ones 10). rewrite Z.land_ones by lia. lia.
Qed.

Lemma PTX_range va : 0 ≤ PTX va < 1024.
Proof.
  unfold PTX. change 0x3FF with (Z.ones 10). rewrite Z.land_ones by lia. lia.
Qed.

(** Two addresses have the same entry exactly when they are in the same page. *)
Lemma same_entry va va' :
  0 ≤ va < 2 ^ 32 → 0 ≤ va' < 2 ^ 32 →
  PDX va = PDX va' ∧ PTX va = PTX va' ↔ va / PGSIZE = va' / PGSIZE.
Proof. intros. rewrite !PDX_eq, !PTX_eq by done. clia. Qed.

Lemma pte_same_page m pd va va' :
  0 ≤ va < 2 ^ 32 → 0 ≤ va' < 2 ^ 32 → va / PGSIZE = va' / PGSIZE → pte m pd va = pte m pd va'.
Proof.
  intros Hva Hva' [Hd Ht]%same_entry; [|done..]. unfold pte, entry_addr. by rewrite Hd, Ht.
Qed.

(** The memories [m] and [m'] hold the same bytes in page [p]. *)
Definition agree (m m' : memory) (p : Z) : Prop := ∀ a, p ≤ a < p + PGSIZE → rd8 m' a = rd8 m a.

Lemma agree_rd32 m m' p o : agree m m' p → 0 ≤ o ≤ PGSIZE - 4 → rd32 m' (p + o) = rd32 m (p + o).
Proof. intros Ha Ho. apply rd32_ext. intros i Hi. apply Ha. clia. Qed.

Lemma table_agree m m' pd i : agree m m' pd → 0 ≤ i < 1024 → table m' pd i = table m pd i.
Proof. intros Ha Hi. unfold table. by rewrite (agree_rd32 m) by (done || clia). Qed.

Lemma pte_agree m m' pd va :
  agree m m' pd → (∀ t, table m pd (PDX va) = Some t → agree m m' t) →
  pte m' pd va = pte m pd va.
Proof.
  intros Hd Ht. unfold pte, entry_addr. rewrite (table_agree m) by (done || apply PDX_range).
  destruct (table m pd (PDX va)) as [t|]; [|done]. cbn. apply agree_rd32; [auto|].
  pose proof (PTX_range va). clia.
Qed.

Lemma has_P_0 : has_P 0 = false.
Proof. done. Qed.

Lemma pte_none m pd va : table m pd (PDX va) = None → pte m pd va = 0.
Proof. intros Ht. unfold pte, entry_addr. by rewrite Ht. Qed.

Lemma pte_some m pd va t : table m pd (PDX va) = Some t → pte m pd va = rd32 m (t + 4 * PTX va).
Proof. intros Ht. unfold pte, entry_addr. by rewrite Ht. Qed.

Lemma pte_range m pd va : 0 ≤ pte m pd va < 2 ^ 32.
Proof. unfold pte. destruct (entry_addr m pd va); [apply rd32_range|lia]. Qed.
End reading.

(** ** Ownership *)
Section ownership.
Context `{link}.
Implicit Types (m : memory) (pd va : Z) (l : list Z).

(** The pages of an address space are pages of the allocator, none of them is
    free, and no page has two roles. *)
Record aspace m pd l : Prop := mkAspace {
  as_page : ∀ r p, role_page m pd r = Some p → page_ok p ∧ (p ∉ l);
  as_inj : ∀ r r' p, role_page m pd r = Some p → role_page m pd r' = Some p → r = r'
}.

Lemma aspace_dir m pd l : aspace m pd l → page_ok pd.
Proof. intros [Hp _]. by apply (Hp RDir). Qed.

Lemma role_table m pd i t : 0 ≤ i < 1024 → table m pd i = Some t → role_page m pd (RTab i) = Some t.
Proof. intros Hi Ht. unfold role_page, NPDENTRIES. by zbool. Qed.

Lemma aspace_table m pd l i t :
  aspace m pd l → 0 ≤ i < 1024 → table m pd i = Some t → page_ok t ∧ t ∉ l ∧ t ≠ pd.
Proof.
  intros [Hp Hi] Hr Ht%role_table; [|done]. destruct (Hp _ _ Ht). split_and!; [done..|].
  intros ->. by discriminate (Hi (RTab i) RDir pd).
Qed.

Lemma aspace_tables m pd l i j t :
  aspace m pd l → 0 ≤ i < 1024 → 0 ≤ j < 1024 →
  table m pd i = Some t → table m pd j = Some t → i = j.
Proof.
  intros [_ Hinj] Hi Hj Hti%role_table Htj%role_table; [|done..].
  by specialize (Hinj _ _ _ Hti Htj) as [= ->].
Qed.

Lemma aspace_sub m pd l l' : l' ⊆ l → aspace m pd l → aspace m pd l'.
Proof.
  intros Hs [Hp Hi]. split; [|done]. intros r p Hr. destruct (Hp r p Hr). split; [done|set_solver].
Qed.

Lemma page_agree_wr32 m p a v :
  page_ok p → a + 4 ≤ p ∨ p + PGSIZE ≤ a → agree m (wr32 m a v) p.
Proof. intros Hp Ha b Hb. apply rd8_wr32_ne. clia. Qed.

Lemma page_agree_memset m p q c :
  page_ok p → page_ok q → p ≠ q → agree m (memset m q c PGSIZE) p.
Proof.
  intros Hp Hq Hne b Hb. rewrite rd8_memset by clia.
  destruct (page_ok_disjoint p q Hp Hq Hne); by within_cases.
Qed.

(** An entry written through [entry_addr]. *)
Lemma table_set m pd l va t e i :
  aspace m pd l → table m pd (PDX va) = Some t → 0 ≤ i < 1024 →
  table (wr32 m (t + 4 * PTX va) e) pd i = table m pd i.
Proof.
  intros Has Ht Hi. pose proof (PTX_range va). pose proof (aspace_dir _ _ _ Has) as Hd.
  destruct (aspace_table _ _ _ _ _ Has (PDX_range va) Ht) as (Htp & _ & Hne).
  apply table_agree; [|done]. apply page_agree_wr32; [done|].
  destruct (page_ok_disjoint t pd Htp Hd Hne); clia.
Qed.

Lemma pte_set m pd l va va' t e :
  aspace m pd l → 0 ≤ va < 2 ^ 32 → 0 ≤ va' < 2 ^ 32 → table m pd (PDX va) = Some t →
  pte (wr32 m (t + 4 * PTX va) e) pd va'
  = if va / PGSIZE =? va' / PGSIZE then u32 e else pte m pd va'.
Proof.
  intros Has Hva Hva' Ht. destruct (Z.eqb_spec (va / PGSIZE) (va' / PGSIZE)) as [Heq|Hne].
  - apply same_entry in Heq as [H1 H2]; [|done..].
    erewrite pte_some by (rewrite <- H1, (table_set _ _ l) by (done || apply PDX_range); done).
    rewrite <- H2. apply rd32_wr32_eq.
  - destruct (table m pd (PDX va')) as [t'|] eqn:Ht'.
    + erewrite pte_some by (rewrite (table_set _ _ l) by (done || apply PDX_range); done).
      rewrite (pte_some _ _ _ _ Ht'). pose proof (PTX_range va). pose proof (PTX_range va').
      destruct (aspace_table _ _ _ _ _ Has (PDX_range va) Ht) as (Htp & _).
      destruct (aspace_table _ _ _ _ _ Has (PDX_range va') Ht') as (Htp' & _).
      apply rd32_wr32_ne. destruct (decide (t = t')) as [<-|Hd].
      * pose proof (aspace_tables _ _ _ _ _ _ Has (PDX_range va) (PDX_range va') Ht Ht') as Hx.
        assert (PTX va ≠ PTX va') by (intros ?; by apply Hne, same_entry). lia.
      * destruct (page_ok_disjoint t t' Htp Htp' Hd); clia.
    + rewrite !pte_none; [done|done|]. by rewrite (table_set _ _ l) by (done || apply PDX_range).
Qed.
(** The roles after an entry was written: only the user page changes. *)
Lemma role_set_ne m pd l va t e r :
  aspace m pd l → 0 ≤ va < 2 ^ 32 → table m pd (PDX va) = Some t → r ≠ RUser (va / PGSIZE) →
  role_page (wr32 m (t + 4 * PTX va) e) pd r = role_page m pd r.
Proof.
  intros Has Hva Ht Hr. destruct r as [|i|n]; cbn; [done| |].
  - unfold NPDENTRIES. destruct (Z.leb_spec 0 i), (Z.ltb_spec i 1024); try done. cbn.
    by apply (table_set _ _ l).
  - destruct (Z.leb_spec 0 n), (Z.ltb_spec n UPAGES); try done. cbn.
    rewrite (pte_set _ _ l) by (done || clia). rewrite Z_div_mult by clia.
    destruct (Z.eqb_spec (va / PGSIZE) n); [naive_solver|done].
Qed.

Lemma role_set_eq m pd l va t e :
  aspace m pd l → 0 ≤ va < KERNBASE → table m pd (PDX va) = Some t →
  role_page (wr32 m (t + 4 * PTX va) e) pd (RUser (va / PGSIZE))
  = if has_P (u32 e) then Some (P2V (PTE_ADDR (u32 e))) else None.
Proof.
  intros Has Hva Ht. unfold role_page.
  rewrite (proj2 (Z.leb_le _ _)), (proj2 (Z.ltb_lt _ _)) by clia. cbn.
  rewrite (pte_set _ _ l) by (done || clia). rewrite Z_div_mult by clia.
  by rewrite Z.eqb_refl.
Qed.

Lemma aspace_set m pd l va t e :
  aspace m pd l → 0 ≤ va < 2 ^ 32 → table m pd (PDX va) = Some t →
  (has_P (u32 e) = true → va < KERNBASE →
    let p := P2V (PTE_ADDR (u32 e)) in
    page_ok p ∧ (p ∉ l) ∧ ∀ r, r ≠ RUser (va / PGSIZE) → role_page m pd r ≠ Some p) →
  aspace (wr32 m (t + 4 * PTX va) e) pd l.
Proof.
  intros Has Hva Ht He. pose proof Has as [Hp Hi].
  assert (Hset : ∀ r q, role_page (wr32 m (t + 4 * PTX va) e) pd r = Some q →
    (r ≠ RUser (va / PGSIZE) ∧ role_page m pd r = Some q) ∨
    (r = RUser (va / PGSIZE) ∧ va < KERNBASE ∧ has_P (u32 e) = true ∧ q = P2V (PTE_ADDR (u32 e)))).
  { intros r q Hr. destruct (decide (r = RUser (va / PGSIZE))) as [->|Hne].
    - right. destruct (Z.ltb_spec va KERNBASE).
      + rewrite (role_set_eq _ _ l) in Hr by (done || lia). case_match; naive_solver.
      + exfalso. unfold role_page in Hr. rewrite (proj2 (Z.ltb_ge (va / PGSIZE) UPAGES)) in Hr by clia.
        by rewrite andb_false_r in Hr.
    - left. by rewrite (role_set_ne _ _ l) in Hr. }
  split.
  - intros r q [[? Hr]|(-> & Hk & HP & ->)]%Hset; [by apply (Hp r)|].
    by destruct (He HP Hk) as (? & ? & ?).
  - intros r r' q [[Hn Hr]|(-> & Hk & HP & ->)]%Hset [[Hn' Hr']|(-> & Hk' & HP' & Hq)]%Hset.
    + by apply (Hi _ _ q).
    + subst q. by destruct (He HP' Hk') as (_ & _ & []%(λ f, f r Hn)).
    + by destruct (He HP Hk) as (_ & _ & []%(λ f, f r' Hn')).
    + done.
Qed.

(** A second-level table taken from the allocator, cleared and entered in the
    directory. *)
Definition new_table m pd va p : memory :=
  wr32 (memset m p 0 PGSIZE) (pd + 4 * PDX va)
    (Z.lor (Z.lor (Z.lor (V2P p) PTE_P) PTE_W) PTE_U).

Lemma V2P_page p : page_ok p → V2P p = p - KERNBASE ∧ 0 ≤ V2P p < 2 ^ 32 ∧ V2P p mod 4096 = 0.
Proof.
  intros Hp. pose proof (page_ok_range p Hp). destruct Hp as [Hp _].
  unfold V2P, u32. clia.
Qed.

(** The entry for page [p] with flags [f]. *)
Lemma entry_page p f :
  page_ok p → 0 ≤ f < 4096 →
  u32 (Z.lor (V2P p) f) = Z.lor (V2P p) f ∧ P2V (PTE_ADDR (Z.lor (V2P p) f)) = p.
Proof.
  intros Hp Hf. destruct (V2P_page p Hp) as (_ & ? & ?). split.
  - apply u32_small, lor_range; lia.
  - rewrite PTE_ADDR_lor_low, PTE_ADDR_aligned by done. apply P2V_V2P.
    pose proof (page_ok_range p Hp). clia.
Qed.

Lemma has_P_lor a b : has_P (Z.lor a b) = has_P a || has_P b.
Proof. rewrite !has_P_bit. apply Z.lor_spec. Qed.

Lemma table_new m pd l va p i :
  aspace m pd l → page_ok p → p ≠ pd → 0 ≤ i < 1024 →
  table (new_table m pd va p) pd i = if i =? PDX va then Some p else table m pd i.
Proof.
  intros Has Hp Hne Hi. pose proof (PDX_range va). pose proof (aspace_dir _ _ _ Has) as Hd.
  unfold table, new_table. destruct (Z.eqb_spec i (PDX va)) as [->|Hi'].
  - rewrite rd32_wr32_eq, <- !Z.lor_assoc.
    change (Z.lor PTE_P (Z.lor PTE_W PTE_U)) with 7.
    destruct (entry_page p 7) as [-> ->]; [done|lia|]. rewrite has_P_lor. by rewrite orb_true_r.
  - rewrite rd32_wr32_ne by lia.
    rewrite (agree_rd32 m _ pd) by (first [by apply page_agree_memset|clia]). done.
Qed.
Lemma pte_new m pd l va p va' :
  aspace m pd (p :: l) → page_ok p → table m pd (PDX va) = None →
  pte (new_table m pd va p) pd va' = pte m pd va'.
Proof.
  intros Has Hp Ht. pose proof (PDX_range va). pose proof (PDX_range va'). pose proof (PTX_range va').
  pose proof (aspace_dir _ _ _ Has) as Hd.
  assert (Hne : p ≠ pd).
  { intros ->. destruct (as_page _ _ _ Has RDir pd) as [_ Hn]; [done|]. set_solver. }
  pose proof (table_new _ _ _ va p (PDX va') Has Hp Hne (PDX_range va')) as Htn.
  destruct (Z.eqb_spec (PDX va') (PDX va)) as [Heq|Hd'].
  - rewrite (pte_some _ _ _ _ Htn), (pte_none m pd va') by congruence.
    unfold new_table. rewrite rd32_wr32_ne by (destruct (page_ok_disjoint p pd Hp Hd Hne); clia).
    unfold rd32. rewrite !rd8_memset by clia. within_cases. done.
  - destruct (table m pd (PDX va')) as [t|] eqn:Ht'; [|by rewrite !pte_none].
    rewrite (pte_some _ _ _ _ Htn), (pte_some _ _ _ _ Ht').
    destruct (aspace_table _ _ _ _ _ Has (PDX_range va') Ht') as (Htp & Htl & Htd).
    assert (t ≠ p) by set_solver. unfold new_table.
    rewrite rd32_wr32_ne by (destruct (page_ok_disjoint t pd Htp Hd Htd); clia).
    apply (agree_rd32 m _ t); [by apply page_agree_memset|clia].
Qed.

Lemma role_new m pd l va p r :
  aspace m pd (p :: l) → page_ok p → table m pd (PDX va) = None →
  role_page (new_table m pd va p) pd r
  = if decide (r = RTab (PDX va)) then Some p else role_page m pd r.
Proof.
  intros Has Hp Ht. pose proof (PDX_range va).
  assert (Hne : p ≠ pd).
  { intros ->. destruct (as_page _ _ _ Has RDir pd) as [_ Hn]; [done|]. set_solver. }
  destruct r as [|i|n]; cbn; [by rewrite decide_False| |].
  - unfold NPDENTRIES. destruct (Z.leb_spec 0 i), (Z.ltb_spec i 1024); cbn.
    2-4: by rewrite decide_False by (intros [= ->]; lia).
    rewrite (table_new _ _ _ _ _ _ Has) by done.
    destruct (Z.eqb_spec i (PDX va)) as [->|]; [by rewrite decide_True|].
    by rewrite decide_False by congruence.
  - rewrite decide_False by done. by rewrite (pte_new _ _ l).
Qed.

Lemma aspace_new m pd l va p :
  aspace m pd (p :: l) → page_ok p → p ∉ l → table m pd (PDX va) = None →
  aspace (new_table m pd va p) pd l.
Proof.
  intros Has Hp Hpl Ht. pose proof Has as [Hpg Hi].
  split.
  - intros r q. rewrite (role_new _ _ l) by done. case_decide; [naive_solver|].
    intros Hq. destruct (Hpg r q Hq). split; [done|set_solver].
  - intros r r' q. rewrite !(role_new _ _ l) by done. repeat case_decide; subst; try done.
    + intros [= ->] Hq. destruct (Hpg r' q Hq). set_solver.
    + intros Hq [= ->]. destruct (Hpg r q Hq). set_solver.
    + apply Hi.
Qed.

Lemma rd8_new_table m pd va p a :
  page_ok p → page_ok pd → within p PGSIZE a = false → within pd PGSIZE a = false →
  rd8 (new_table m pd va p) a = rd8 m a.
Proof.
  intros Hp Hd. pose proof (PDX_range va). unfold new_table. within_cases. intros _ _.
  rewrite rd8_wr32_ne by clia. rewrite rd8_memset by clia. by within_cases.
Qed.

(** Memory may change outside the free pages without the allocator noticing. *)
Lemma kmem_ok_mem v l m' :
  kmem_ok v l → (∀ q, q ∈ l → agree (mem v) m' q) → kmem_ok (set_mem m' v) l.
Proof.
  intros [Hl Hnd Hok] Ha. split; [|done..]. cbn. eapply free_list_ext; [|done].
  intros q Hq. rewrite <- (Z.add_0_r q). symmetry. apply agree_rd32; [auto|clia].
Qed.
End ownership.

(** ** [walkpgdir] *)
Section walk.
Context `{link}.
Implicit Types (m : memory) (pd va : Z) (l : list Z) (k : kernel).

Lemma walkpgdir_found k pd va alloc t :
  table (mem (k_vm k)) pd (PDX va) = Some t → walkpgdir pd va alloc k = Ok (t + 4 * PTX va) k.
Proof.
  unfold table, walkpgdir. cbn. fold (has_P (rd32 (mem (k_vm k)) (pd + 4 * PDX va))).
  case_match; [|done]. by intros [= <-].
Qed.

Lemma walkpgdir_absent k pd va :
  table (mem (k_vm k)) pd (PDX va) = None → walkpgdir pd va 0 k = Ok 0 k.
Proof.
  unfold table, walkpgdir. cbn. fold (has_P (rd32 (mem (k_vm k)) (pd + 4 * PDX va))).
  by case_match.
Qed.

Lemma walkpgdir_full k pd va :
  kmem_ready k → kmem_ok (k_vm k) [] → table (mem (k_vm k)) pd (PDX va) = None →
  walkpgdir pd va 1 k = Ok 0 k.
Proof.
  intros Hr [Hf Hk]%kmem_ok_nil. unfold table, walkpgdir. cbn.
  fold (has_P (rd32 (mem (k_vm k)) (pd + 4 * PDX va))).
  destruct (has_P _); [by intros|]. intros _. rewrite truthy_1. cbn.
  rewrite kalloc_run by done. cbn.
  rewrite Hf. cbn. unfold mod_vm. rewrite Hk. by destruct k.
Qed.

Lemma walkpgdir_new k pd va p l :
  kmem_ready k → kmem_ok (k_vm k) (p :: l) → table (mem (k_vm k)) pd (PDX va) = None →
  walkpgdir pd va 1 k
  = Ok (p + 4 * PTX va)
      (set_k_vm (set_mem (new_table (mem (k_vm k)) pd va p) (kalloc_vm (k_vm k))) k).
Proof.
  intros Hr (Hf & Hp & _ & Hk & _)%kmem_ok_cons. unfold table, walkpgdir. cbn.
  fold (has_P (rd32 (mem (k_vm k)) (pd + 4 * PDX va))).
  destruct (has_P _); [by intros|]. intros _. rewrite truthy_1. cbn.
  rewrite kalloc_run by done. cbn.
  rewrite Hf. pose proof (page_ok_range p Hp). rewrite (proj2 (Z.eqb_neq _ _)) by clia.
  cbn. unfold mod_vm, new_table. cbn. by rewrite Hk.
Qed.
(** ** Steps that edit one page table

    [tabs m pd q]: page [q] is the directory or a second-level table. *)
Definition tabs m pd (q : Z) : Prop := ∃ r, (∀ n, r ≠ RUser n) ∧ role_page m pd r = Some q.

(** What an operation on the table [pd] may do to memory and to the free list:
    take pages from the head of the list for new tables, and write entries.
    Everything else, user frames and other address spaces included, stays. *)
Record pt_step pd (v : vmem) l (v' : vmem) l' : Prop := mkPtStep {
  ps_kmem : kmem_ok v' l';
  ps_aspace : aspace (mem v') pd l';
  ps_taken : l' `suffix_of` l;
  ps_tabs : ∀ q, tabs (mem v') pd q → tabs (mem v) pd q ∨ q ∈ l;
  ps_kept : ∀ q, tabs (mem v) pd q ∨ q ∈ l → tabs (mem v') pd q ∨ q ∈ l';
  ps_frame : ∀ a, (∀ q, tabs (mem v) pd q ∨ q ∈ l → within q PGSIZE a = false) →
    rd8 (mem v') a = rd8 (mem v) a;
  ps_lock : use_lock v' = use_lock v;
  ps_kpgdir : kpgdir v' = kpgdir v
}.

(** The tables that a step adds are those of the directory entries from [lo] to [hi]. *)
Definition gains pd m m' (lo hi : Z) : Prop :=
  ∀ i, 0 ≤ i < 1024 → is_Some (table m' pd i) → is_Some (table m pd i) ∨ lo ≤ i ≤ hi.

Lemma gains_trans pd m m1 m2 lo1 hi1 lo2 hi2 lo hi :
  gains pd m m1 lo1 hi1 → gains pd m1 m2 lo2 hi2 → lo ≤ lo1 → lo ≤ lo2 → hi1 ≤ hi → hi2 ≤ hi → gains pd m m2 lo hi.
Proof.
  intros G1 G2 ???? i Hi Hm. destruct (G2 i Hi Hm) as [Hm1|?]; [|right; lia]. destruct (G1 i Hi Hm1); [by left|right; lia].
Qed.

Lemma suffix_of_elem (l l' : list Z) q : l' `suffix_of` l → q ∈ l' → q ∈ l.
Proof. intros [l1 ->] Hq. set_solver. Qed.

Lemma pt_step_refl pd v l : kmem_ok v l → aspace (mem v) pd l → pt_step pd v l v l.
Proof. intros. split; auto. Qed.

Lemma pt_step_trans pd v l v1 l1 v2 l2 :
  pt_step pd v l v1 l1 → pt_step pd v1 l1 v2 l2 → pt_step pd v l v2 l2.
Proof.
  intros [K1 A1 T1 B1 N1 F1 L1 G1] [K2 A2 T2 B2 N2 F2 L2 G2].
  assert (Hsub : ∀ q, tabs (mem v1) pd q ∨ q ∈ l1 → tabs (mem v) pd q ∨ q ∈ l).
  { intros q [?|?]; [by apply B1|right; by eapply suffix_of_elem]. }
  split; [done|done|by etrans| |by auto| |congruence..].
  - intros q Hq%B2. by apply Hsub.
  - intros a Ha. rewrite F2, F1; auto.
Qed.

Lemma tabs_table m pd i t : 0 ≤ i < 1024 → table m pd i = Some t → tabs m pd t.
Proof. intros ? ?. exists (RTab i). split; [done|]. by apply role_table. Qed.

Lemma agree_outside m m' p P :
  page_ok p → (∀ q, P q → page_ok q ∧ p ≠ q) →
  (∀ a, (∀ q, P q → within q PGSIZE a = false) → rd8 m' a = rd8 m a) → agree m m' p.
Proof.
  intros Hp HP Hm a Ha. apply Hm. intros q Hq. destruct (HP q Hq) as [Hq' Hne].
  destruct (page_ok_disjoint p q Hp Hq' Hne); by within_cases.
Qed.

(** Writing the entry of [va] in a table that exists. *)
Lemma pt_step_set pd v l va t e :
  kmem_ok v l → aspace (mem v) pd l → 0 ≤ va < 2 ^ 32 → table (mem v) pd (PDX va) = Some t →
  (has_P (u32 e) = true → va < KERNBASE →
    let p := P2V (PTE_ADDR (u32 e)) in
    page_ok p ∧ (p ∉ l) ∧ ∀ r, r ≠ RUser (va / PGSIZE) → role_page (mem v) pd r ≠ Some p) →
  pt_step pd v l (set_mem (wr32 (mem v) (t + 4 * PTX va) e) v) l.
Proof.
  intros Hk Has Hva Ht He. pose proof (PTX_range va).
  destruct (aspace_table _ _ _ _ _ Has (PDX_range va) Ht) as (Htp & Htl & _).
  split; cbn; [| |done| | | |done|done].
  - apply kmem_ok_mem; [done|]. intros q Hq. apply page_agree_wr32.
    + destruct Hk as [_ _ Hall]. rewrite Forall_forall in Hall. auto.
    + destruct Hk as [_ _ Hall]. rewrite Forall_forall in Hall.
      destruct (page_ok_disjoint t q Htp (Hall q Hq)); [set_solver|clia..].
  - by apply aspace_set.
  - intros q (r & Hr & Hq). left. exists r. split; [done|]. by rewrite (role_set_ne _ _ l) in Hq.
  - intros q [(r & Hr & Hq)|Hq]; [left|by right]. exists r. split; [done|]. by rewrite (role_set_ne _ _ l).
  - intros a Ha. apply rd8_wr32_ne. specialize (Ha t (or_introl (tabs_table _ _ _ _ (PDX_range va) Ht))).
    revert Ha. by within_cases.
Qed.

(** Adding a table. *)
Lemma pt_step_new pd v l va p :
  kmem_ok v (p :: l) → aspace (mem v) pd (p :: l) → table (mem v) pd (PDX va) = None →
  pt_step pd v (p :: l) (set_mem (new_table (mem v) pd va p) (kalloc_vm v)) l.
Proof.
  intros Hk Has Ht. destruct (kmem_ok_cons _ _ _ Hk) as (Hf & Hp & Hpl & Hv & Hk').
  pose proof (aspace_dir _ _ _ Has) as Hd. pose proof (PDX_range va).
  assert (Hne : pd ∉ p :: l) by (by destruct (as_page _ _ _ Has RDir pd)).
  assert (Hm : mem (kalloc_vm v) = mem v) by (by rewrite Hv).
  split; cbn; [| |by exists [p]| | | |by rewrite Hv..].
  - apply kmem_ok_mem; [done|]. rewrite Hm. intros q Hq a Ha.
    assert (page_ok q) by (destruct Hk' as [_ _ Hall]; rewrite Forall_forall in Hall; auto).
    destruct (page_ok_disjoint p q Hp), (page_ok_disjoint pd q Hd); try done; try set_solver;
      apply rd8_new_table; try done; by within_cases.
  - by apply aspace_new.
  - intros q (r & Hr & Hq). rewrite (role_new _ _ l) in Hq by done. case_decide.
    + simplify_eq. right. set_solver.
    + left. by exists r.
  - intros q [(r & Hr & Hq)|Hq].
    + left. exists r. split; [done|]. rewrite (role_new _ _ l) by done. case_decide as Hd'; [|done]. subst r.
      exfalso. cbn in Hq. case_match; [congruence|done].
    + apply elem_of_cons in Hq as [->|Hq]; [left|by right]. exists (RTab (PDX va)). split; [done|].
      rewrite (role_new _ _ l) by done. by rewrite decide_True.
  - intros a Ha. apply rd8_new_table; [done|done| |]; apply Ha; [right; set_solver|].
    left. by exists RDir.
Qed.
Lemma set_k_vm_id k : set_k_vm (k_vm k) k = k.
Proof. by destruct k. Qed.

(** [walkpgdir] with [alloc]: it fails only when a table is missing and the
    allocator is empty; otherwise the entry exists afterwards, and no entry
    has changed its value. *)
Lemma walkpgdir_alloc k pd va l :
  kmem_ready k → kmem_ok (k_vm k) l → aspace (mem (k_vm k)) pd l →
  (l = [] ∧ table (mem (k_vm k)) pd (PDX va) = None ∧ walkpgdir pd va 1 k = Ok 0 k) ∨
  ∃ t v l', walkpgdir pd va 1 k = Ok (t + 4 * PTX va) (set_k_vm v k) ∧
    table (mem v) pd (PDX va) = Some t ∧ page_ok t ∧ pt_step pd (k_vm k) l v l' ∧
    (∀ va', pte (mem v) pd va' = pte (mem (k_vm k)) pd va') ∧
    (∀ r q, role_page (mem v) pd r = Some q → role_page (mem (k_vm k)) pd r = Some q ∨ q ∈ l) ∧
    gains pd (mem (k_vm k)) (mem v) (PDX va) (PDX va).
Proof.
  intros Hr Hk Has. destruct (table (mem (k_vm k)) pd (PDX va)) as [t|] eqn:Ht.
  - right. exists t, (k_vm k), l. rewrite set_k_vm_id. split_and!.
    + by apply walkpgdir_found.
    + done.
    + by destruct (aspace_table _ _ _ _ _ Has (PDX_range va) Ht).
    + by apply pt_step_refl.
    + done.
    + by left.
    + by left.
  - destruct l as [|p l]; [left; split_and!; [done..|by apply walkpgdir_full]|].
    right. destruct (kmem_ok_cons _ _ _ Hk) as (Hf & Hp & Hpl & Hv & Hk').
    eexists p, _, l. split_and!.
    + by eapply walkpgdir_new.
    + cbn. rewrite (table_new _ _ _ _ _ _ Has); [by rewrite Z.eqb_refl|done| |apply PDX_range].
      destruct (as_page _ _ _ Has RDir pd) as [_ Hn]; [done|set_solver].
    + done.
    + by apply pt_step_new.
    + intros va'. by apply (pte_new _ _ l).
    + intros r q. cbn. rewrite (role_new _ _ l) by done. case_decide; [|by left].
      intros [= <-]. right. set_solver.
    + intros i Hi. cbn. rewrite (table_new _ _ _ _ _ _ Has); [|done| |done].
      * destruct (Z.eqb_spec i (PDX va)); [right; lia|by left].
      * destruct (as_page _ _ _ Has RDir pd) as [_ Hn]; [done|set_solver].
Qed.

(** The frame behind a user entry has to be a page of the allocator that is in
    use nowhere else. *)
Definition fresh m pd l (p : Z) : Prop := page_ok p ∧ (p ∉ l) ∧ ∀ r, role_page m pd r ≠ Some p.

Lemma flags_entry pa perm : 0 ≤ perm < 4096 → Z.lor (Z.lor pa perm) PTE_P = Z.lor pa (Z.lor perm PTE_P) ∧
  0 ≤ Z.lor perm PTE_P < 4096.
Proof. intros. split; [by rewrite Z.lor_assoc|by apply lor_low]. Qed.

(** One round of the loop of [mappages]. *)
Lemma map_step k pd va pa perm l :
  kmem_ready k → kmem_ok (k_vm k) l → aspace (mem (k_vm k)) pd l → 0 ≤ va < 2 ^ 32 →
  0 ≤ perm < 4096 → 0 ≤ pa < 2 ^ 32 → pa mod 4096 = 0 →
  (va < KERNBASE → fresh (mem (k_vm k)) pd l (P2V pa)) →
  let e := Z.lor (Z.lor pa perm) PTE_P in
  (l = [] ∧ table (mem (k_vm k)) pd (PDX va) = None ∧ walkpgdir pd va 1 k = Ok 0 k) ∨
  ∃ a v1 l', walkpgdir pd va 1 k = Ok a (set_k_vm v1 k) ∧ a ≠ 0 ∧
    rd32 (mem v1) a = pte (mem (k_vm k)) pd va ∧
    pt_step pd (k_vm k) l (set_mem (wr32 (mem v1) a e) v1) l' ∧
    (∀ va', 0 ≤ va' < 2 ^ 32 →
      pte (wr32 (mem v1) a e) pd va'
      = if va / PGSIZE =? va' / PGSIZE then e else pte (mem (k_vm k)) pd va') ∧
    gains pd (mem (k_vm k)) (wr32 (mem v1) a e) (PDX va) (PDX va).
Proof.
  intros Hr Hk Has Hva Hperm Hpa Hal Hfr e.
  destruct (flags_entry pa perm Hperm) as [He Hf].
  assert (Hu : u32 e = e).
  { apply u32_small. unfold e. rewrite He. apply lor_range; lia. }
  assert (Hpe : PTE_ADDR e = pa).
  { unfold e. rewrite He, PTE_ADDR_lor_low, PTE_ADDR_aligned; done. }
  destruct (walkpgdir_alloc k pd va l Hr Hk Has)
    as [?|(t & v1 & l' & Hw & Ht & Htp & Hs & Hpte & Hrol & Hg)]; [by left|right].
  exists (t + 4 * PTX va), v1, l'. pose proof (PTX_range va). pose proof (page_ok_range t Htp).
  split_and!; [done|clia| | | |].
  - by rewrite <- (pte_some _ _ _ _ Ht), Hpte.
  - eapply pt_step_trans; [done|]. apply pt_step_set; [apply Hs|apply Hs|done|done|].
    intros _ Hlow. rewrite Hu, Hpe. destruct (Hfr Hlow) as (Hp & Hnl & Hnr). split_and!; [done| |].
    + intros Hin. apply Hnl. eapply suffix_of_elem; [apply Hs|done].
    + intros r _ Hq. destruct (Hrol r _ Hq); [by eapply Hnr|done].
  - intros va' Hva'. rewrite (pte_set _ _ l') by (done || apply Hs). by rewrite Hu, Hpte.
  - intros i Hi. rewrite (table_set _ _ l') by (done || apply Hs). by apply Hg.
Qed.
Lemma pt_step_ready k pd l v l' :
  kmem_ready k → pt_step pd (k_vm k) l v l' → kmem_ready (set_k_vm v k).
Proof.
  intros [Hr|Hr] Hs; [left|by right]. cbn. by rewrite (ps_lock _ _ _ _ _ Hs).
Qed.

(** The entry [mappages] writes for [va] when it maps [a] to [pa]. *)
Definition map_entry (a pa perm va : Z) : Z :=
  Z.lor (Z.lor (pa + (va - va mod PGSIZE - a)) perm) PTE_P.

Lemma PDX_upto a n : 0 ≤ a → 0 ≤ n → a + n < 2 ^ 32 → PDX a ≤ PDX a ≤ PDX (a + n).
Proof. intros. rewrite !PDX_eq by lia. lia. Qed.

Lemma mappages_loop_ok n k pd a pa perm l :
  kmem_ready k → kmem_ok (k_vm k) l → aspace (mem (k_vm k)) pd l →
  0 ≤ a → a mod 4096 = 0 → a + Z.of_nat n * PGSIZE < 2 ^ 32 →
  0 ≤ pa → pa mod 4096 = 0 → pa + Z.of_nat n * PGSIZE < 2 ^ 32 → 0 ≤ perm < 4096 →
  (a < KERNBASE → n = 0%nat ∧ fresh (mem (k_vm k)) pd l (P2V pa)) →
  (∀ va, a ≤ va < a + (Z.of_nat n + 1) * PGSIZE → has_P (pte (mem (k_vm k)) pd va) = false) →
  ∃ r v l', mappages_loop n pd a (a + Z.of_nat n * PGSIZE) pa perm k = Ok r (set_k_vm v k) ∧
    pt_step pd (k_vm k) l v l' ∧
    (∀ va, 0 ≤ va < a ∨ a + (Z.of_nat n + 1) * PGSIZE ≤ va < 2 ^ 32 →
      pte (mem v) pd va = pte (mem (k_vm k)) pd va) ∧
    gains pd (mem (k_vm k)) (mem v) (PDX a) (PDX (a + Z.of_nat n * PGSIZE)) ∧
    ((r = 0 ∧ ∀ va, a ≤ va < a + (Z.of_nat n + 1) * PGSIZE → pte (mem v) pd va = map_entry a pa perm va) ∨
     (r = -1 ∧ l' = [] ∧ ∃ i, PDX a ≤ i ≤ PDX (a + Z.of_nat n * PGSIZE) ∧ table (mem v) pd i = None)).
Proof.
  revert k a pa l. induction n as [|n IH];
    intros k a pa l Hr Hk Has Ha Hal Hn Hpa Hpal Hpn Hperm Hfr Hnp; cbn [mappages_loop];
    (destruct (map_step k pd a pa perm l Hr Hk Has)
       as [(-> & Ht & Hw)|(ad & v1 & l1 & Hw & Had & Hrd & Hs & Hpte & Hg)];
     [clia|done|clia|done|intros Hlt; by destruct (Hfr Hlt)| |]; rewrite (bind_ok _ _ _ _ _ Hw);
     [exists (-1), (k_vm k), []; rewrite set_k_vm_id; split_and!;
        [done|by apply pt_step_refl|done|by left|right; split_and!; [done..|exists (PDX a); split; [apply PDX_upto; clia|done]]]|]);
    (rewrite (proj2 (Z.eqb_neq _ _)) by done; cbn [bind load32 getm gets k_vm set_k_vm];
     rewrite Hrd; fold (has_P (pte (mem (k_vm k)) pd a)); rewrite Hnp by clia; cbn).
  - rewrite Z.add_0_r, Z.eqb_refl. eexists 0, _, l1. split_and!; [done|done| |done|].
    + intros va Hva. cbn. rewrite Hpte by clia. zcases; first [done|clia].
    + left. split; [done|]. intros va Hva. cbn. rewrite Hpte by clia. zcases; try clia.
      unfold map_entry. do 2 f_equal. clia.
  - rewrite (proj2 (Z.eqb_neq _ _)) by clia.
    rewrite !u32_small by clia. set (v2 := set_mem _ v1) in *.
    destruct (IH (set_k_vm v2 k) (a + PGSIZE) (pa + PGSIZE) l1) as (r & v & l2 & Hl & Hs2 & Hout & Hg2 & Hres).
    all: try clia.
    + by eapply pt_step_ready.
    + apply Hs.
    + apply Hs.
    + intros va Hva. cbn. rewrite Hpte by clia. zcases; try clia; apply Hnp; clia.
    + exists r, v, l2. split_and!.
      * replace (a + Z.of_nat (S n) * PGSIZE) with (a + PGSIZE + Z.of_nat n * PGSIZE) by lia. exact Hl.
      * by eapply pt_step_trans.
      * intros va Hva. rewrite Hout by clia. cbn. rewrite Hpte by clia. zcases; first [done|clia].
      * eapply gains_trans; [exact Hg|exact Hg2|lia|..]; rewrite !PDX_eq by clia; clia.
      * destruct Hres as [[-> Hres]|(-> & -> & i & Hi & Hti)]; [left|right; split_and!; [done..|exists i; split; [|done]; rewrite !PDX_eq in * by clia; clia]].
        split; [done|]. intros va Hva.
        destruct (Z.ltb_spec va (a + PGSIZE)).
        -- rewrite Hout by clia. cbn. rewrite Hpte by clia. zcases; try clia.
           unfold map_entry. do 2 f_equal. clia.
        -- rewrite Hres by clia. unfold map_entry. do 2 f_equal. lia.
Qed.
(** [mappages] over whole pages: every entry of the range, or [-1] once the
    allocator is empty; entries outside the range keep their value. *)
Lemma mappages_ok n k pd a pa perm l :
  kmem_ready k → kmem_ok (k_vm k) l → aspace (mem (k_vm k)) pd l →
  0 ≤ a → a mod 4096 = 0 → a + Z.of_nat n * PGSIZE < 2 ^ 32 →
  0 ≤ pa → pa mod 4096 = 0 → pa + Z.of_nat n * PGSIZE < 2 ^ 32 → 0 ≤ perm < 4096 →
  (a < KERNBASE → n = 0%nat ∧ fresh (mem (k_vm k)) pd l (P2V pa)) →
  (∀ va, a ≤ va < a + (Z.of_nat n + 1) * PGSIZE → has_P (pte (mem (k_vm k)) pd va) = false) →
  ∃ r v l', mappages pd a ((Z.of_nat n + 1) * PGSIZE) pa perm k = Ok r (set_k_vm v k) ∧
    pt_step pd (k_vm k) l v l' ∧
    (∀ va, 0 ≤ va < a ∨ a + (Z.of_nat n + 1) * PGSIZE ≤ va < 2 ^ 32 →
      pte (mem v) pd va = pte (mem (k_vm k)) pd va) ∧
    gains pd (mem (k_vm k)) (mem v) (PDX a) (PDX (a + Z.of_nat n * PGSIZE)) ∧
    ((r = 0 ∧ ∀ va, a ≤ va < a + (Z.of_nat n + 1) * PGSIZE → pte (mem v) pd va = map_entry a pa perm va) ∨
     (r = -1 ∧ l' = [] ∧ ∃ i, PDX a ≤ i ≤ PDX (a + Z.of_nat n * PGSIZE) ∧ table (mem v) pd i = None)).
Proof.
  intros. unfold mappages.
  assert (Hb : PGROUNDDOWN a = a) by (rewrite PGROUNDDOWN_eq; clia).
  assert (Hl : PGROUNDDOWN (u32 (a + (Z.of_nat n + 1) * PGSIZE - 1)) = a + Z.of_nat n * PGSIZE).
  { rewrite u32_small, PGROUNDDOWN_eq by clia. clia. }
  rewrite Hb, Hl. rewrite u32_small by clia.
  replace (Z.to_nat ((a + Z.of_nat n * PGSIZE - a) / PGSIZE)) with n by clia.
  by apply mappages_loop_ok.
Qed.

(** C36: Mapping one user page to a fresh frame: all addresses of the page get the
    entry, no entry outside it changes, page tables come from the allocator and
    every page keeps one role; or [mappages] returns -1, and then the allocator
    is empty. *)
Theorem mappages_maps_page k pd a p perm l :
  kmem_ready k → kmem_ok (k_vm k) l → aspace (mem (k_vm k)) pd l →
  0 ≤ a < KERNBASE → a mod 4096 = 0 → 0 ≤ perm < 4096 → fresh (mem (k_vm k)) pd l p →
  has_P (pte (mem (k_vm k)) pd a) = false →
  ∃ r v l', mappages pd a PGSIZE (V2P p) perm k = Ok r (set_k_vm v k) ∧
    pt_step pd (k_vm k) l v l' ∧
    (∀ va, 0 ≤ va < a ∨ a + PGSIZE ≤ va < 2 ^ 32 → pte (mem v) pd va = pte (mem (k_vm k)) pd va) ∧
    ((r = 0 ∧ ∀ va, a ≤ va < a + PGSIZE → pte (mem v) pd va = Z.lor (Z.lor (V2P p) perm) PTE_P) ∨
     (r = -1 ∧ l' = [])).
Proof.
  intros Hr Hk Has Ha Hal Hperm Hfr Hnp. pose proof Hfr as (Hp & _).
  destruct (V2P_page p Hp) as (_ & ? & ?).
  destruct (mappages_ok 0 k pd a (V2P p) perm l) as (r & v & l' & Hrun & Hs & Hout & _ & Hres);
    try done; try clia.
  - intros _. split; [done|]. rewrite P2V_V2P; [done|]. pose proof (page_ok_range p Hp). clia.
  - intros va Hva. rewrite (pte_same_page _ _ va a); [done|clia..].
  - exists r, v, l'. split_and!; [done|done| |].
    + intros va Hva. apply Hout. clia.
    + destruct Hres as [[-> Hres]|(? & ? & _)]; [left|by right]. split; [done|]. intros va Hva.
      rewrite Hres by clia. unfold map_entry. do 2 f_equal. clia.
Qed.

(** ** [clearpteu] and [uva2ka] *)
Lemma table_of_pte m pd va : has_P (pte m pd va) = true → ∃ t, table m pd (PDX va) = Some t.
Proof.
  intros HP. destruct (table m pd (PDX va)) as [t|] eqn:Ht; [by exists t|].
  by rewrite (pte_none _ _ _ Ht) in HP.
Qed.

Lemma clear_bits e c : 0 ≤ e < 2 ^ 32 → 0 ≤ c < 4096 →
  u32 (Z.land e (Z.lnot c)) = Z.land e (Z.lnot c) ∧ PTE_ADDR (Z.land e (Z.lnot c)) = PTE_ADDR e.
Proof.
  intros He Hc. split; [apply u32_small; by apply land_range|by apply PTE_ADDR_clear_low].
Qed.

Lemma role_user m pd va : 0 ≤ va < KERNBASE → has_P (pte m pd va) = true →
  role_page m pd (RUser (va / PGSIZE)) = Some (P2V (PTE_ADDR (pte m pd va))).
Proof.
  intros Hva HP. unfold role_page. rewrite (proj2 (Z.leb_le _ _)), (proj2 (Z.ltb_lt _ _)) by clia. cbn.
  rewrite (pte_same_page _ _ (va / PGSIZE * PGSIZE) va) by clia. by rewrite HP.
Qed.

(** Changing the flags of a user entry, or clearing [PTE_P] in it. *)
Lemma pt_step_flags pd v l va t e' :
  kmem_ok v l → aspace (mem v) pd l → 0 ≤ va < KERNBASE → table (mem v) pd (PDX va) = Some t →
  0 ≤ e' < 2 ^ 32 →
  (has_P e' = true → has_P (pte (mem v) pd va) = true ∧ PTE_ADDR e' = PTE_ADDR (pte (mem v) pd va)) →
  pt_step pd v l (set_mem (wr32 (mem v) (t + 4 * PTX va) e') v) l ∧
  ∀ va', 0 ≤ va' < 2 ^ 32 →
    pte (wr32 (mem v) (t + 4 * PTX va) e') pd va'
    = if va / PGSIZE =? va' / PGSIZE then e' else pte (mem v) pd va'.
Proof.
  intros Hk Has Hva Ht He Hf. split.
  - apply pt_step_set; [done|done|clia|done|]. rewrite (u32_small e') by done. intros HP _.
    destruct (Hf HP) as [HP0 ->]. pose proof (role_user _ _ _ Hva HP0) as Hrole.
    destruct (as_page _ _ _ Has _ _ Hrole). split_and!; [done..|]. intros r Hne Hr.
    by apply Hne, (as_inj _ _ _ Has _ _ _ Hr).
  - intros va' Hva'. rewrite (pte_set _ _ l) by (done || clia). by rewrite u32_small.
Qed.

Lemma entry_nonzero m pd l va t :
  aspace m pd l → table m pd (PDX va) = Some t → t + 4 * PTX va ≠ 0.
Proof.
  intros Has Ht. destruct (aspace_table _ _ _ _ _ Has (PDX_range va) Ht) as (Htp & _).
  pose proof (PTX_range va). pose proof (page_ok_range t Htp). clia.
Qed.

(** [*pte] for the entry of [va]. *)
Lemma deref_entry k pd l va t :
  aspace (mem (k_vm k)) pd l → table (mem (k_vm k)) pd (PDX va) = Some t →
  deref (t + 4 * PTX va) k = Ok (pte (mem (k_vm k)) pd va) k.
Proof.
  intros Has Ht. unfold deref. rewrite (proj2 (Z.eqb_neq _ _)) by (by eapply entry_nonzero).
  cbn. by rewrite <- (pte_some _ _ _ _ Ht).
Qed.

(** [clearpteu] takes the user bit from the entry of one page, and changes no
    other entry. *)
Theorem clearpteu_clears k pd va l :
  kmem_ok (k_vm k) l → aspace (mem (k_vm k)) pd l → 0 ≤ va < KERNBASE →
  has_P (pte (mem (k_vm k)) pd va) = true →
  ∃ v, clearpteu pd va k = Ok tt (set_k_vm v k) ∧ pt_step pd (k_vm k) l v l ∧
    ∀ va', 0 ≤ va' < 2 ^ 32 →
      pte (mem v) pd va'
      = if va / PGSIZE =? va' / PGSIZE then Z.land (pte (mem (k_vm k)) pd va) (Z.lnot PTE_U)
        else pte (mem (k_vm k)) pd va'.
Proof.
  intros Hk Has Hva HP. destruct (table_of_pte _ _ _ HP) as [t Ht].
  destruct (clear_bits (pte (mem (k_vm k)) pd va) PTE_U) as [Hu Ha]; [apply pte_range|done|].
  destruct (pt_step_flags pd (k_vm k) l va t (Z.land (pte (mem (k_vm k)) pd va) (Z.lnot PTE_U)))
    as [Hs Hp]; try done.
  { rewrite <- Hu. apply u32_range. }
  unfold clearpteu. rewrite (bind_ok _ _ _ _ _ (walkpgdir_found k pd va 0 t Ht)).
  rewrite (proj2 (Z.eqb_neq _ _)) by (by eapply entry_nonzero). cbn.
  rewrite <- (pte_some _ _ _ _ Ht). by eexists.
Qed.

Lemma has_P_eqb e : (Z.land e PTE_P =? 0) = negb (has_P e).
Proof. unfold has_P, truthy. by rewrite negb_involutive. Qed.
Lemma has_U_eqb e : (Z.land e PTE_U =? 0) = negb (has_U e).
Proof. unfold has_U, truthy. by rewrite negb_involutive. Qed.

(** [uva2ka] finds the kernel address of a user page that is present and
    accessible to the user, and 0 for any other entry of an existing table. *)
Theorem uva2ka_translates k pd va l t :
  aspace (mem (k_vm k)) pd l → table (mem (k_vm k)) pd (PDX va) = Some t →
  uva2ka pd va k
  = Ok (let e := pte (mem (k_vm k)) pd va in
        if has_P e && has_U e then P2V (PTE_ADDR e) else 0) k.
Proof.
  intros Has Ht. unfold uva2ka. rewrite (bind_ok _ _ _ _ _ (walkpgdir_found k pd va 0 t Ht)).
  rewrite (bind_ok _ _ _ _ _ (deref_entry k pd l va t Has Ht)). rewrite has_P_eqb, has_U_eqb.
  destruct (has_P _); [|done]. by destruct (has_U _).
Qed.
(** ** Memory that changes outside the tables *)
Lemma tabs_dir m pd : tabs m pd pd.
Proof. by exists RDir. Qed.

Lemma pte_tabs m m' pd va : (∀ q, tabs m pd q → agree m m' q) → pte m' pd va = pte m pd va.
Proof.
  intros Ha. apply pte_agree; [apply Ha, tabs_dir|]. intros t Ht. apply Ha.
  eapply tabs_table; [apply PDX_range|done].
Qed.

Lemma role_tabs m m' pd r : (∀ q, tabs m pd q → agree m m' q) → role_page m' pd r = role_page m pd r.
Proof.
  intros Ha. destruct r as [|i|n]; cbn; [done| |].
  - unfold NPDENTRIES. destruct (Z.leb_spec 0 i), (Z.ltb_spec i 1024); try done. cbn.
    apply table_agree; [apply Ha, tabs_dir|done].
  - by rewrite (pte_tabs m) by done.
Qed.

Lemma aspace_tabs m m' pd l : (∀ q, tabs m pd q → agree m m' q) → aspace m pd l → aspace m' pd l.
Proof.
  intros Ha [Hp Hi]. split.
  - intros r p. rewrite (role_tabs m) by done. apply Hp.
  - intros r r' p. rewrite (role_tabs m m' pd r), (role_tabs m m' pd r') by done. apply Hi.
Qed.

(** Freeing a page that has no role in the address space. *)
Lemma kfree_agree v pd l p q :
  aspace (mem v) pd l → page_ok p → (∀ r, role_page (mem v) pd r ≠ Some p) →
  (∃ r, role_page (mem v) pd r = Some q) → agree (mem v) (mem (kfree_vm p v)) q.
Proof.
  intros Has Hp Hn (r & Hr). destruct (as_page _ _ _ Has _ _ Hr) as [Hq _].
  intros a Ha. apply rd8_kfree_vm; [done|].
  destruct (page_ok_disjoint p q Hp Hq); [|by within_cases..]. intros ->. by apply (Hn r).
Qed.

Lemma aspace_kfree v pd l p :
  aspace (mem v) pd l → page_ok p → (∀ r, role_page (mem v) pd r ≠ Some p) →
  aspace (mem (kfree_vm p v)) pd (p :: l) ∧
  (∀ va, pte (mem (kfree_vm p v)) pd va = pte (mem v) pd va) ∧
  (∀ r, role_page (mem (kfree_vm p v)) pd r = role_page (mem v) pd r).
Proof.
  intros Has Hp Hn.
  assert (Ha : ∀ q, tabs (mem v) pd q → agree (mem v) (mem (kfree_vm p v)) q).
  { intros q (r & _ & Hr). eapply kfree_agree; [done..|]. by exists r. }
  split_and!.
  - apply (aspace_tabs (mem v)); [done|]. destruct Has as [Hpg Hi]. split; [|done].
    intros r q Hr. destruct (Hpg r q Hr). split; [done|]. apply not_elem_of_cons. split; [|done].
    intros ->. by apply (Hn r).
  - intros va. by apply pte_tabs.
  - intros r. by apply role_tabs.
Qed.

(** A user frame is left alone by a step that edits the table. *)
Lemma pt_step_user pd v l v' l' n f :
  pt_step pd v l v' l' → aspace (mem v) pd l → kmem_ok v l → role_page (mem v) pd (RUser n) = Some f →
  agree (mem v) (mem v') f.
Proof.
  intros Hs Has Hk Hf. destruct (as_page _ _ _ Has _ _ Hf) as [Hp Hnl].
  eapply agree_outside; [done| |apply Hs]. intros q [(r & Hr & Hq)|Hq].
  - split; [by apply (as_page _ _ _ Has r)|]. intros ->. by apply (Hr n), (as_inj _ _ _ Has _ _ q).
  - destruct Hk as [_ _ Hall]. rewrite Forall_forall in Hall. split; [auto|]. by intros ->.
Qed.
(** ** A page taken from the allocator *)
Lemma alloc_page v pd p l m' :
  kmem_ok v (p :: l) → aspace (mem v) pd (p :: l) →
  (∀ a, within p PGSIZE a = false → rd8 m' a = rd8 (mem v) a) →
  let v' := set_mem m' (kalloc_vm v) in
  kmem_ok v' l ∧ aspace m' pd l ∧ fresh m' pd l p ∧
  (∀ va, pte m' pd va = pte (mem v) pd va) ∧
  (∀ r, role_page m' pd r = role_page (mem v) pd r) ∧
  (∀ r q, role_page (mem v) pd r = Some q → agree (mem v) m' q).
Proof.
  intros Hk Has Hm v'. destruct (kmem_ok_cons _ _ _ Hk) as (Hf & Hp & Hpl & Hv & Hk').
  assert (Hag : ∀ q, page_ok q → q ≠ p → agree (mem v) m' q).
  { intros q Hq Hne a Ha. apply Hm. destruct (page_ok_disjoint q p Hq Hp Hne); by within_cases. }
  assert (Hrole : ∀ r q, role_page (mem v) pd r = Some q → agree (mem v) m' q).
  { intros r q Hr. destruct (as_page _ _ _ Has _ _ Hr) as [Hq Hn]. apply Hag; [done|set_solver]. }
  assert (Htab : ∀ q, tabs (mem v) pd q → agree (mem v) m' q) by (intros q (r & _ & Hr); by eapply Hrole).
  assert (Has' : aspace m' pd l).
  { apply (aspace_tabs (mem v)); [done|]. eapply aspace_sub; [|done]. set_solver. }
  split_and!; [|done| | | |done].
  - apply kmem_ok_mem; [done|]. rewrite Hv. cbn. intros q Hq. apply Hag; [|set_solver].
    destruct Hk as [_ _ Hall]. rewrite Forall_forall in Hall. apply Hall. set_solver.
  - split_and!; [done..|]. intros r. rewrite (role_tabs (mem v)) by done. intros Hr.
    destruct (as_page _ _ _ Has _ _ Hr). set_solver.
  - intros va. by apply pte_tabs.
  - intros r. by apply role_tabs.
Qed.

(** Mapping a page in a table that exists cannot fail. *)
Lemma mappages_table k pd a p perm l t :
  aspace (mem (k_vm k)) pd l → 0 ≤ a < KERNBASE → a mod PGSIZE = 0 →
  table (mem (k_vm k)) pd (PDX a) = Some t → has_P (pte (mem (k_vm k)) pd a) = false →
  mappages pd a PGSIZE (V2P p) perm k
  = Ok 0 (set_k_vm (set_mem (wr32 (mem (k_vm k)) (t + 4 * PTX a) (Z.lor (Z.lor (V2P p) perm) PTE_P)) (k_vm k)) k).
Proof.
  intros Has Ha Hal Ht HP. unfold mappages.
  assert (Hb : PGROUNDDOWN a = a) by (rewrite PGROUNDDOWN_eq; clia).
  assert (Hl : PGROUNDDOWN (u32 (a + PGSIZE - 1)) = a) by (rewrite u32_small, PGROUNDDOWN_eq; clia).
  rewrite Hb, Hl, Z.sub_diag. change (Z.to_nat (u32 0 / PGSIZE)) with 0%nat. cbn [mappages_loop].
  rewrite (bind_ok _ _ _ _ _ (walkpgdir_found k pd a 1 t Ht)).
  rewrite (proj2 (Z.eqb_neq _ _)) by (by eapply entry_nonzero). cbn.
  rewrite <- (pte_some _ _ _ _ Ht). fold (has_P (pte (mem (k_vm k)) pd a)). rewrite HP. cbn.
  by rewrite Z.eqb_refl.
Qed.
End walk.
