(* ===== verification/Uaccess.v ===== *)
(** Loads and stores at virtual addresses, as the kernel makes them: kernel
    addresses are mapped directly, user addresses go through the page table
    that the CPU uses. *)

From S2P Require Import Prelude Params State Spinlock Mem Kalloc PageTable.

(** ** Reading

    An address whose page is not present faults. *)
Definition vaddr (k : kernel) (va : Z) : option Z :=
  if KERNBASE <=? va then Some va
  else (λ f, f + va mod PGSIZE) <$> frame_of (mem (k_vm k)) (P2V (cr3 (k_mach k))) va.

Definition vload8 (k : kernel) (va : Z) : option Z := rd8 (mem (k_vm k)) <$> vaddr k va.

(** The [n] bytes from [va]. *)
Definition vbytes (k : kernel) (va n : Z) : option (list Z) :=
  mapM (λ i, vload8 k (u32 (va + i))) (seqZ 0 n).

Definition load8 (va : Z) : K Z :=
  k ← get; match vload8 k va with Some b => ret b | None => fail (Fault va) end.
Fixpoint load_bytes (n : nat) (va : Z) : K (list Z) :=
  match n with
  | O => ret []
  | S n => b ← load8 va; l ← load_bytes n (u32 (va + 1)); ret (b :: l)
  end.

(** ** Writing

    The page must be writable too. *)
Definition vaddr_w (k : kernel) (va : Z) : option Z :=
  if KERNBASE <=? va then Some va
  else if truthy (Z.land (pte (mem (k_vm k)) (P2V (cr3 (k_mach k))) va) PTE_W) then vaddr k va
  else None.
Definition store8 (va b : Z) : K unit :=
  k ← get; match vaddr_w k va with Some a => mod_mem (λ m, wr8 m a b) | None => fail (Fault va) end.
Fixpoint store_bytes (va : Z) (l : list Z) : K unit :=
  match l with
  | [] => ret tt
  | b :: l => store8 va b;; store_bytes (u32 (va + 1)) l
  end.

(** The string at [va]: its bytes up to the zero, if there is one within [n] bytes. *)
Fixpoint load_str (n : nat) (va : Z) : K (option (list Z)) :=
  match n with
  | O => ret None
  | S n =>
      b ← load8 va;
      if b =? 0 then ret (Some [])
      else l ← load_str n (u32 (va + 1)); ret (cons b <$> l)
  end.

(** ** Sources and destinations of copies

    A [char *] of the file layers is user or kernel memory, or a local variable. *)
Record source (A : Type) := mkSource { src_take : A → Z → K (list Z * A) }.
Record sink (A : Type) := mkSink { snk_put : A → list Z → K A }.
Arguments src_take {A}.
Arguments snk_put {A}.

Definition mem_source : source Z :=
  mkSource Z (λ a n, l ← load_bytes (Z.to_nat n) a; ret (l, u32 (a + n))).
Definition mem_sink : sink Z :=
  mkSink Z (λ a l, store_bytes a l;; ret (u32 (a + Z.of_nat (length l)))).
(** A local array: what has been filled so far, and what is left to be read. *)
Definition local_source : source (list Z) :=
  mkSource (list Z) (λ l n, ret (take (Z.to_nat n) l, drop (Z.to_nat n) l)).
Definition local_sink : sink (list Z) := mkSink (list Z) (λ acc l, ret (acc ++ l)).
