(* ===== verification/Procs.v ===== *)
(** Access to the process table: [myproc()->f], [curproc->f = v] and the like,
    and the state in which a process runs on this CPU. *)

From S2P Require Import Prelude Params State Spinlock.

(** [curproc] is [myproc()] where the code uses the result without a test. *)
Definition curproc : K nat :=
  o ← myproc; or_ub "no current process" o.

Definition get_proc (p : nat) : K proc :=
  t ← gets k_pt; or_ub "proc" (procs t !! p).
Definition upd_proc (p : nat) (f : proc → proc) (k : kernel) : kernel :=
  mod_pt (λ t, set_procs (alter f p (procs t)) t) k.
Definition mod_proc (p : nat) (f : proc → proc) : K unit := modify (upd_proc p f).

(** Run code on the paging fields of process [p]. *)
Definition on_pg {A} (p : nat) (m : M kerr paging A) : K A :=
  zoom (λ k, pg <$> procs (k_pt k) !! p) (λ g, upd_proc p (set_pg g)) m.
Definition get_pg {A} (p : nat) (f : paging → A) : K A :=
  q ← get_proc p; ret (f (pg q)).

#[global] Arguments curproc : simpl never.
#[global] Arguments get_proc : simpl never.
#[global] Arguments mod_proc : simpl never.
#[global] Arguments on_pg : simpl never.
#[global] Arguments get_pg : simpl never.

(** Process [p] runs on this CPU. *)
Definition runs (m : mach) (p : nat) : Prop := ∃ i c, cpu_ok m i c ∧ cpu_proc c = Some p.

Section procs.
Implicit Types (k : kernel) (p : nat) (q : proc).

Lemma myproc_runs k p : runs (k_mach k) p → myproc k = Ok (Some p) k.
Proof. intros (i & c & Hc & Hp). by rewrite (myproc_ok k i c Hc), Hp. Qed.

Lemma curproc_runs k p : runs (k_mach k) p → curproc k = Ok p k.
Proof. intros Hp. unfold curproc. by rewrite (bind_ok _ _ _ _ _ (myproc_runs k p Hp)). Qed.

Lemma get_proc_ok k p q : procs (k_pt k) !! p = Some q → get_proc p k = Ok q k.
Proof. intros Hq. unfold get_proc. cbn. by rewrite Hq. Qed.

Lemma get_pg_ok {A} (f : paging → A) k p q :
  procs (k_pt k) !! p = Some q → get_pg p f k = Ok (f (pg q)) k.
Proof. intros Hq. unfold get_pg. by rewrite (bind_ok _ _ _ _ _ (get_proc_ok k p q Hq)). Qed.

Lemma upd_proc_lookup k p f q :
  procs (k_pt k) !! p = Some q → procs (k_pt (upd_proc p f k)) !! p = Some (f q).
Proof. intros Hq. cbn. by rewrite list_lookup_alter_eq, Hq. Qed.

Lemma upd_proc_ne k p p' f :
  p ≠ p' → procs (k_pt (upd_proc p f k)) !! p' = procs (k_pt k) !! p'.
Proof. intros Hne. cbn. by rewrite list_lookup_alter_ne. Qed.

Lemma upd_proc_compose k p f g : upd_proc p f (upd_proc p g k) = upd_proc p (f ∘ g) k.
Proof.
  unfold upd_proc, mod_pt. cbn. by rewrite list_alter_alter_eq.
Qed.

Lemma on_pg_ok {A} (m : M kerr paging A) k p q a g :
  procs (k_pt k) !! p = Some q → m (pg q) = Ok a g →
  on_pg p m k = Ok a (upd_proc p (set_pg g) k).
Proof. intros Hq Hm. unfold on_pg. rewrite (zoom_ok _ _ m k (pg q) a g); [done|by rewrite Hq|done]. Qed.

Lemma alter_insert {A} (l : list A) (i : nat) (f : A → A) x :
  l !! i = Some x → alter f i l = <[i := f x]> l.
Proof.
  intros Hx. apply list_eq. intros j. destruct (decide (i = j)) as [->|].
  - rewrite list_lookup_alter_eq, list_lookup_insert_eq by (by eapply lookup_lt_Some). by rewrite Hx.
  - by rewrite list_lookup_alter_ne, list_lookup_insert_ne.
Qed.

Lemma alter_same {A} (l : list A) (i : nat) (f : A → A) x :
  l !! i = Some x → f x = x → alter f i l = l.
Proof.
  intros Hx Hf. apply list_eq. intros j. destruct (decide (i = j)) as [->|].
  - by rewrite list_lookup_alter_eq, Hx; cbn; rewrite Hf.
  - by rewrite list_lookup_alter_ne.
Qed.

Lemma upd_proc_same k p q f : procs (k_pt k) !! p = Some q → f q = q → upd_proc p f k = k.
Proof.
  intros Hq Hf. unfold upd_proc, mod_pt. rewrite (alter_same _ _ _ _ Hq Hf). by destruct k as [? ? [] ?].
Qed.

(** Reading leaves the kernel as it is. *)
Lemma on_pg_read {A} (m : M kerr paging A) k p q a :
  procs (k_pt k) !! p = Some q → m (pg q) = Ok a (pg q) → on_pg p m k = Ok a k.
Proof.
  intros Hq Hm. rewrite (on_pg_ok m k p q a (pg q)) by done. f_equal.
  eapply upd_proc_same; [done|]. by destruct q.
Qed.

Lemma on_pg_err {A} (m : M kerr paging A) k p q e g :
  procs (k_pt k) !! p = Some q → m (pg q) = Err e g →
  on_pg p m k = Err e (upd_proc p (set_pg g) k).
Proof. intros Hq Hm. unfold on_pg. rewrite (zoom_err _ _ m k (pg q) e g); [done|by rewrite Hq|done]. Qed.
End procs.
