(* ===== verification/Sched.v ===== *)
(** Switching between threads: [sched], [sleep], [wakeup], [yield] and [kill] of
    [proc.c], and the sleep locks of [sleeplock.c].

    A thread that calls [swtch] stops until the scheduler runs it again.  What
    happens meanwhile, on this CPU and the others, is the parameter [others]:
    the code goes on with whatever state [others] leaves. *)

From S2P Require Import Prelude Params State Spinlock Procs.

Class world := {
  (* from [swtch] to the scheduler until the scheduler resumes the thread *)
  others : K unit;
  (* from the scheduler's [swtch] to process [p] until [p] switches back *)
  run_proc : nat → K unit;
  (* how often a loop that waits for others may go round *)
  patience : nat
}.

Section sched.
Context `{world}.

Definition sched : K unit :=
  o ← myproc;
  h ← holding Lptable;
  if negb h then panic "sched ptable.lock" else
  i ← mycpu;
  c ← get_cpu i;
  if negb (ncli c =? 1) then panic "sched locks" else
  p ← or_ub "sched" o;
  q ← get_proc p;
  if bool_decide (state q = RUNNING) then panic "sched running" else
  fl ← readeflags;
  if truthy (Z.land fl FL_IF) then panic "sched interruptible" else
  i ← mycpu;
  c ← get_cpu i;
  others;;
  i ← mycpu;
  modify (mod_mach (mod_cpu i (set_intena (intena c)))).

Definition yield : K unit :=
  acquire Lptable;;
  p ← curproc;
  mod_proc p (set_state RUNNABLE);;
  sched;;
  release Lptable.

Definition sleep (c : chan) (lk : lockid) : K unit :=
  o ← myproc;
  match o with
  | None => panic "sleep"
  | Some p =>
      let other := negb (bool_decide (lk = Lptable)) in
      when other (acquire Lptable;; release lk);;
      mod_proc p (set_pchan (Some c));;
      mod_proc p (set_state SLEEPING);;
      sched;;
      mod_proc p (set_pchan None);;
      when other (release Lptable;; acquire lk)
  end.

Definition wake (c : option chan) (q : proc) : proc :=
  if bool_decide (state q = SLEEPING) && bool_decide (pchan q = c) then set_state RUNNABLE q else q.

Definition wakeup1 (c : option chan) : K unit :=
  modify (mod_pt (λ t, set_procs (wake c <$> procs t) t)).

Definition wakeup (c : option chan) : K unit :=
  acquire Lptable;; wakeup1 c;; release Lptable.

(** The first process of the table with this pid. *)
Definition find_pid (pid' : Z) (l : list proc) : option nat :=
  fst <$> list_find (λ q, pid q = pid') l.

Definition kill (pid' : Z) : K Z :=
  acquire Lptable;;
  t ← gets k_pt;
  match find_pid pid' (procs t) with
  | Some p =>
      mod_proc p (set_killed 1);;
      q ← get_proc p;
      when (bool_decide (state q = SLEEPING)) (mod_proc p (set_state RUNNABLE));;
      release Lptable;;
      ret 0
  | None => release Lptable;; ret (-1)
  end.

(** ** Sleep locks

    A sleep lock is a field of a buffer or an inode: [sl_look] reads it, [sl_upd]
    writes it, and [sl_lk] is the spinlock inside it, which is also the channel that
    waiters use. *)
Record sleeplock_at := mkSleeplockAt {
  sl_look : fsys → option sleeplock;
  sl_upd : (sleeplock → sleeplock) → fsys → fsys;
  sl_lk : lockid
}.

Implicit Type sl : sleeplock_at.

Definition sl_get sl : K sleeplock := s ← gets k_fs; or_ub "sleeplock" (sl_look sl s).
Definition sl_mod sl (f : sleeplock → sleeplock) : K unit := modify (mod_fs (sl_upd sl f)).

Definition initsleeplock sl : K unit :=
  initlock (sl_lk sl) "sleep lock";;
  sl_mod sl (set_sl_locked 0);;
  sl_mod sl (set_sl_pid 0).

(** [while (lk->locked) sleep(lk, &lk->lk);] may go round any number of times. *)
Fixpoint sleep_while_locked (fuel : nat) sl : K unit :=
  s ← sl_get sl;
  if truthy (sl_locked s) then
    match fuel with
    | O => fail OutOfFuel
    | S fuel => sleep (Csleep (sl_lk sl)) (sl_lk sl);; sleep_while_locked fuel sl
    end
  else ret tt.

Definition acquiresleep sl : K unit :=
  acquire (sl_lk sl);;
  sleep_while_locked patience sl;;
  sl_mod sl (set_sl_locked 1);;
  p ← curproc;
  q ← get_proc p;
  sl_mod sl (set_sl_pid (pid q));;
  release (sl_lk sl).

Definition releasesleep sl : K unit :=
  acquire (sl_lk sl);;
  sl_mod sl (set_sl_locked 0);;
  sl_mod sl (set_sl_pid 0);;
  wakeup (Some (Csleep (sl_lk sl)));;
  release (sl_lk sl).

Definition holdingsleep sl : K Z :=
  acquire (sl_lk sl);;
  s ← sl_get sl;
  release (sl_lk sl);;
  ret (sl_locked s).
End sched.

#[global] Arguments sched : simpl never.
#[global] Arguments yield : simpl never.
#[global] Arguments sleep : simpl never.
#[global] Arguments wakeup : simpl never.
#[global] Arguments kill : simpl never.
#[global] Arguments acquiresleep : simpl never.
#[global] Arguments releasesleep : simpl never.
#[global] Arguments holdingsleep : simpl never.
