(* ===== verification/SchedSpec.v ===== *)
(** Sleeping and waking: what [sleep], [wakeup] and the sleep locks do to the
    kernel, for a process that runs with no spinlock held. *)

From S2P Require Import Prelude Params State Spinlock Procs Sched.

Section sched_specs.
Context `{world}.
Implicit Types (k : kernel) (m : mach) (p : nat) (q : proc).

(** Process [p] runs on this CPU, with no interrupt nesting. *)
Definition in_proc k p q : Prop :=
  (∃ i c, cpu_ok (k_mach k) i c ∧ ncli c = 0 ∧ cpu_proc c = Some p) ∧
  procs (k_pt k) !! p = Some q ∧ state q = RUNNING ∧ pchan q = None.

(** Nobody sleeps on [ch]. *)
Definition quiet k (ch : chan) : Prop :=
  ∀ q, q ∈ procs (k_pt k) → state q = SLEEPING → pchan q ≠ Some ch.

Lemma in_proc_runs k p q : in_proc k p q → runs (k_mach k) p.
Proof. intros ((i & c & Hc & _ & Hp) & _). by exists i, c. Qed.

Lemma hold_comm l l' m : l ≠ l' → hold l (hold l' m) = hold l' (hold l m).
Proof.
  intros Hne. unfold hold. cbn.
  assert (Hf : ∀ x, find_cpu (set_locks x (pushed m)) = find_cpu m) by (intros; apply (find_cpu_pushed m)).
  rewrite !Hf. destruct m as [cs lid e c3 c2 ls]. unfold pushed, mod_cpu. cbn.
  rewrite alter_alter_ne by done. done.
Qed.

Lemma cpu_ok_hold l m i c : cpu_ok m i c → cpu_ok (hold l m) i (set_ncli (ncli c + 1) c).
Proof. intros [?????]%cpu_ok_pushed. by split. Qed.

Lemma curproc_hold l k m p q :
  in_proc (set_k_mach m k) p q → k_mach k = hold l m → curproc k = Ok p k.
Proof.
  intros ((i & c & Hc & _ & Hp) & _) Hk. apply curproc_runs. rewrite Hk.
  exists i, (set_ncli (ncli c + 1) c). split; [by apply cpu_ok_hold|done].
Qed.

(** ** [wakeup] *)
Definition woken (c : option chan) k : kernel :=
  mod_pt (λ t, set_procs (wake c <$> procs t) t) k.

Lemma wakeup_ok c k : avail Lptable (k_mach k) → wakeup c k = Ok tt (woken c k).
Proof.
  intros Ha. unfold wakeup. rewrite (bind_ok _ _ _ _ _ (acquire_ok _ _ Ha)).
  unfold wakeup1. rewrite bind_modify. rewrite (release_ok _ _ _ Ha) by done.
  by destruct k.
Qed.

Lemma woken_quiet ch k : quiet k ch → woken (Some ch) k = k.
Proof.
  intros Hq. unfold woken, mod_pt. destruct k as [m v t s o]. destruct t as [ps]. unfold set_k_pt, set_procs. cbn in *. do 2 f_equal.
  apply list_eq. intros i. rewrite list_lookup_fmap. destruct (ps !! i) as [q|] eqn:Hi; [|done].
  cbn. f_equal. unfold wake. destruct (bool_decide _ && _) eqn:Hb; [|done].
  apply andb_true_iff in Hb as [Hs Hc]. apply bool_decide_eq_true in Hs, Hc.
  exfalso. by eapply (Hq q); [by eapply list_elem_of_lookup_2| |].
Qed.

Lemma wakeup_quiet ch k : avail Lptable (k_mach k) → quiet k ch → wakeup (Some ch) k = Ok tt k.
Proof. intros Ha Hq. rewrite (wakeup_ok _ _ Ha). by rewrite woken_quiet. Qed.

(** ** [sleep] *)

(** What [others] starts with when [p] goes to sleep on [ch], having held [lk]. *)
Definition asleep p (ch : chan) m k : kernel :=
  upd_proc p (set_state SLEEPING ∘ set_pchan (Some ch)) (set_k_mach (hold Lptable m) k).

Lemma sched_ok k m p q k' :
  (∃ i c, cpu_ok m i c ∧ ncli c = 0 ∧ cpu_proc c = Some p) → avail Lptable m →
  k_mach k = hold Lptable m → procs (k_pt k) !! p = Some q → state q ≠ RUNNING →
  others k = Ok tt k' → k_mach k' = hold Lptable m → sched k = Ok tt k'.
Proof.
  intros (i & c & Hc & Hn & Hp) [_ [nm Hl]] Hk Hq Hs Ho Hk'.
  pose proof (cpu_ok_hold Lptable m i c Hc) as Hc1. destruct Hc1 as [Hf Hcpu _ _ Hin].
  assert (He : Z.land (eflags (hold Lptable m)) FL_IF = 0) by (apply Hin; cbn; lia).
  assert (Hmy : ∀ k0, k_mach k0 = hold Lptable m → mycpu k0 = Ok i k0).
  { intros k0 Hk0. apply mycpu_ok; by rewrite Hk0. }
  assert (Hgc : ∀ k0, k_mach k0 = hold Lptable m → get_cpu i k0 = Ok (set_ncli (ncli c + 1) c) k0).
  { intros k0 Hk0. apply get_cpu_ok. by rewrite Hk0. }
  unfold sched. rewrite (bind_ok _ _ _ (Some p) k).
  2:{ rewrite <- Hp. change (cpu_proc c) with (cpu_proc (set_ncli (ncli c + 1) c)).
      apply myproc_ok with i. rewrite Hk. by apply cpu_ok_hold. }
  rewrite (bind_ok _ _ _ true k).
  2:{ unfold holding, get_lock. cbn. rewrite Hk. cbn. rewrite lookup_alter_eq, Hl. cbn.
      rewrite truthy_1, (bind_ok _ _ _ _ _ (Hmy k Hk)). cbn. rewrite bool_decide_true; [done|].
      f_equal. apply (ok_find _ _ _ Hc). }
  cbn [negb]. rewrite (bind_ok _ _ _ _ _ (Hmy k Hk)), (bind_ok _ _ _ _ _ (Hgc k Hk)).
  cbn [ncli set_ncli]. rewrite Hn. change (negb (0 + 1 =? 1)) with false. cbv iota. rewrite bind_or_ub.
  rewrite (bind_ok _ _ _ _ _ (get_proc_ok k p q Hq)). rewrite bool_decide_false by done.
  unfold readeflags. rewrite bind_gets. rewrite Hk, He, truthy_0.
  rewrite (bind_ok _ _ _ _ _ (Hmy k Hk)), (bind_ok _ _ _ _ _ (Hgc k Hk)).
  rewrite (bind_ok _ _ _ _ _ Ho), (bind_ok _ _ _ _ _ (Hmy k' Hk')).
  unfold modify, mod_mach. f_equal. rewrite Hk'. unfold mod_cpu.
  rewrite (alter_same _ _ _ (set_ncli (ncli c + 1) c)); [|by rewrite Hcpu|by destruct c].
  rewrite <- Hk'. by destruct k' as [[] ? ? ? ?].
Qed.

Lemma sleep_ok k m p q ch lk k' :
  (∃ i c, cpu_ok m i c ∧ ncli c = 0 ∧ cpu_proc c = Some p) → avail Lptable m → avail lk m →
  lk ≠ Lptable → k_mach k = hold lk m → procs (k_pt k) !! p = Some q →
  others (asleep p ch m k) = Ok tt k' → k_mach k' = hold Lptable m →
  sleep ch lk k = Ok tt (upd_proc p (set_pchan None) (set_k_mach (hold lk m) k')).
Proof.
  intros Hin Ha Hlk Hne Hk Hq Ho Hk'. pose proof Hin as (i & c & Hc & Hn & Hp).
  unfold sleep. rewrite (bind_ok _ _ _ (Some p) k).
  2:{ rewrite <- Hp. change (cpu_proc c) with (cpu_proc (set_ncli (ncli c + 1) c)).
      apply myproc_ok with i. rewrite Hk. by apply cpu_ok_hold. }
  cbn zeta iota. rewrite bool_decide_false by done. cbn [negb when].
  rewrite bind_assoc. rewrite (bind_ok _ _ _ _ _ (acquire_ok Lptable k ltac:(rewrite Hk; auto with xv6))).
  rewrite (bind_ok _ _ _ tt (set_k_mach (hold Lptable m) k)).
  2:{ rewrite (release_ok lk _ (hold Lptable m)); [by destruct k|by auto with xv6|].
      cbn. rewrite Hk. by apply hold_comm. }
  set (k1 := asleep p ch m k).
  assert (E : ∀ (f : unit → K unit), bind (mod_proc p (set_pchan (Some ch)))
    (λ _, bind (mod_proc p (set_state SLEEPING)) f) (set_k_mach (hold Lptable m) k) = f tt k1).
  { intros f. unfold mod_proc. rewrite !bind_modify. by rewrite upd_proc_compose. }
  rewrite E. clear E.
  rewrite (bind_ok _ _ _ tt k').
  2:{ eapply sched_ok; [done|done|done|by apply upd_proc_lookup|done|done|done]. }
  unfold mod_proc. rewrite bind_modify. unfold when.
  rewrite (bind_ok _ _ _ tt (upd_proc p (set_pchan None) (set_k_mach m k'))).
  2:{ rewrite (release_ok Lptable _ m); [done|done|]. by cbn. }
  rewrite acquire_ok by done. done.
Qed.

(** ** Sleep locks *)
Implicit Types (sl : sleeplock_at) (s : fsys).

Lemma sl_get_ok sl k x : sl_look sl (k_fs k) = Some x → sl_get sl k = Ok x k.
Proof. intros Hx. unfold sl_get. cbn. by rewrite Hx. Qed.

Definition sl_taken (pid' : Z) (_ : sleeplock) : sleeplock := mkSleeplock 1 pid'.
Definition sl_free (_ : sleeplock) : sleeplock := mkSleeplock 0 0.

Lemma acquiresleep_ok sl k p q x :
  in_proc k p q → avail (sl_lk sl) (k_mach k) →
  (∀ f g s, sl_upd sl f (sl_upd sl g s) = sl_upd sl (f ∘ g) s) →
  (∀ f g s, (∀ y, f y = g y) → sl_upd sl f s = sl_upd sl g s) →
  sl_look sl (k_fs k) = Some x → sl_locked x = 0 →
  acquiresleep sl k = Ok tt (mod_fs (sl_upd sl (sl_taken (pid q))) k).
Proof.
  intros Hin Ha Hcomp Hext Hx Hl. pose proof Hin as (_ & Hq & _).
  unfold acquiresleep. rewrite (bind_ok _ _ _ _ _ (acquire_ok _ _ Ha)).
  rewrite (bind_ok _ _ _ tt (mod_mach (hold (sl_lk sl)) k)).
  2:{ destruct patience; cbn [sleep_while_locked]; rewrite (bind_ok _ _ _ x (mod_mach (hold (sl_lk sl)) k))
        by (by apply sl_get_ok); by rewrite Hl. }
  unfold sl_mod at 1. rewrite bind_modify.
  rewrite (bind_ok _ _ _ p (mod_fs (sl_upd sl (set_sl_locked 1)) (mod_mach (hold (sl_lk sl)) k))).
  2:{ eapply (curproc_hold (sl_lk sl)) with (m := k_mach k); [|done]. destruct k. by apply Hin. }
  erewrite bind_ok by (by apply get_proc_ok).
  unfold sl_mod. rewrite bind_modify. rewrite (release_ok _ _ _ Ha) by done.
  f_equal. destruct k as [mm v t s o]. unfold mod_fs, mod_mach, set_k_fs, set_k_mach. cbn. f_equal.
  rewrite Hcomp. by apply Hext.
Qed.

Lemma releasesleep_ok sl k :
  avail (sl_lk sl) (k_mach k) → avail Lptable (k_mach k) → sl_lk sl ≠ Lptable →
  quiet k (Csleep (sl_lk sl)) →
  (∀ f g s, sl_upd sl f (sl_upd sl g s) = sl_upd sl (f ∘ g) s) →
  (∀ f g s, (∀ y, f y = g y) → sl_upd sl f s = sl_upd sl g s) →
  releasesleep sl k = Ok tt (mod_fs (sl_upd sl sl_free) k).
Proof.
  intros Ha Hp Hne Hqu Hcomp Hext. unfold releasesleep.
  rewrite (bind_ok _ _ _ _ _ (acquire_ok _ _ Ha)). unfold sl_mod. rewrite !bind_modify.
  erewrite bind_ok by (apply wakeup_quiet; [by apply avail_hold|exact Hqu]).
  rewrite (release_ok _ _ _ Ha) by done.
  f_equal. destruct k as [mm v t s o]. unfold mod_fs, mod_mach, set_k_fs, set_k_mach. cbn. f_equal.
  rewrite Hcomp. by apply Hext.
Qed.

Lemma holdingsleep_ok sl k x :
  avail (sl_lk sl) (k_mach k) → sl_look sl (k_fs k) = Some x → holdingsleep sl k = Ok (sl_locked x) k.
Proof.
  intros Ha Hx. unfold holdingsleep. rewrite (bind_ok _ _ _ _ _ (acquire_ok _ _ Ha)).
  erewrite bind_ok by (by apply sl_get_ok).
  erewrite bind_ok by (by apply (release_ok _ _ _ Ha)).
  by destruct k.
Qed.
End sched_specs.
