(* ===== verification/Bio.v ===== *)
(** The disk driver [ide.c] and the buffer cache [bio.c].

    A buffer is its index in [bcache.buf].  The list through [bcache.head] is
    [lru], most recently used first.  The controller is the registers [ide_cmd],
    [ide_data] and [ide_status]: [idestart] gives it a command, and when it has
    carried the command out ([ide_complete]) it interrupts. *)

From S2P Require Import Prelude Params Bytes State Spinlock Procs Sched.

(** ** Access to the file system's state *)
Definition getf {A} (f : fsys → A) : K A := gets (λ k, f (k_fs k)).
Definition modf (f : fsys → fsys) : K unit := modify (mod_fs f).
Definition get_buf (b : nat) : K buf := bs ← getf bufs; or_ub "buf" (bs !! b).
Definition mod_buf (b : nat) (f : buf → buf) : K unit :=
  modf (λ s, set_bufs (alter f b (bufs s)) s).
Arguments getf _ _ _ /.
Arguments modf _ _ /.

Definition buf_lock (b : nat) : sleeplock_at := {|
  sl_look s := b_lock <$> bufs s !! b;
  sl_upd f s := set_bufs (alter (λ x, set_b_lock (f (b_lock x)) x) b (bufs s)) s;
  sl_lk := Lbuf b
|}.

(** ** What the controller does *)
Definition zero_block : list Z := replicate 512 0.
Definition sector (s : fsys) (d n : Z) : list Z := default zero_block (disk s !! (d, n)).

Definition ide_complete (s : fsys) : fsys :=
  match ide_cmd s with
  | None => s
  | Some (d, n, Some data) =>
      set_ide_cmd None (set_dwrites (dwrites s ++ [(d, n, data)]) (set_disk (<[(d, n) := data]> (disk s)) s))
  | Some (d, n, None) => set_ide_cmd None (set_ide_data (sector s d n) s)
  end.

Section bio.
Context `{world}.

(** ** [ide.c] *)

(** The status does not change while the loop reads it, so that the first look decides: the wait for a
    controller that is not ready does not end, which is [OutOfFuel]. *)
Definition idewait (checkerr : Z) : K Z :=
  r ← getf ide_status;
  if negb (Z.land r (Z.lor IDE_BSY IDE_DRDY) =? IDE_DRDY) then fail OutOfFuel
  else if truthy checkerr && truthy (Z.land r (Z.lor IDE_DF IDE_ERR)) then ret (-1)
  else ret 0.

Definition idestart (b : option nat) : K unit :=
  match b with
  | None => panic "idestart"
  | Some b =>
      x ← get_buf b;
      if FSSIZE <=? b_blockno x then panic "incorrect blockno"
      else
        idewait 0;;
        let n := Z.land (b_blockno x * (BSIZE / 512)) 0xfffffff in
        modf (set_ide_cmd (Some (Z.land (b_dev x) 1, n,
          if truthy (Z.land (b_flags x) B_DIRTY) then Some (b_data x) else None)))
  end.

Definition ideintr : K unit :=
  acquire Lide;;
  q ← getf idequeue;
  match q with
  | [] => release Lide
  | b :: q =>
      modf (set_idequeue q);;
      x ← get_buf b;
      when (negb (truthy (Z.land (b_flags x) B_DIRTY)))
        (r ← idewait 1; when (0 <=? r) (d ← getf ide_data; mod_buf b (set_b_data d)));;
      mod_buf b (λ x, set_b_flags (Z.lor (b_flags x) B_VALID) x);;
      mod_buf b (λ x, set_b_flags (Z.land (b_flags x) (Z.lnot B_DIRTY)) x);;
      wakeup (Some (Cbuf b));;
      q ← getf idequeue;
      when (negb (bool_decide (q = []))) (idestart (head q));;
      release Lide
  end.

(** [while((b->flags & (B_VALID|B_DIRTY)) != B_VALID) sleep(b, &idelock);] *)
Fixpoint iderw_wait (fuel : nat) (b : nat) : K unit :=
  x ← get_buf b;
  if Z.land (b_flags x) (Z.lor B_VALID B_DIRTY) =? B_VALID then ret tt
  else
    match fuel with
    | O => fail OutOfFuel
    | S fuel => sleep (Cbuf b) Lide;; iderw_wait fuel b
    end.

Definition iderw (b : nat) : K unit :=
  h ← holdingsleep (buf_lock b);
  if negb (truthy h) then panic "iderw: buf not locked" else
  x ← get_buf b;
  if Z.land (b_flags x) (Z.lor B_VALID B_DIRTY) =? B_VALID then panic "iderw: nothing to do" else
  have ← getf havedisk1;
  if truthy (b_dev x) && negb (truthy have) then panic "iderw: ide disk 1 not present" else
  acquire Lide;;
  modf (λ s, set_idequeue (idequeue s ++ [b]) s);;
  q ← getf idequeue;
  when (bool_decide (head q = Some b)) (idestart (Some b));;
  iderw_wait patience b;;
  release Lide.

(** ** [memide.c]

    The image that is linked into the kernel is the array of the blocks of disk 1; [disksize] is their
    number. *)
Definition memide_iderw (disksize : Z) (b : nat) : K unit :=
  h ← holdingsleep (buf_lock b);
  if negb (truthy h) then panic "iderw: buf not locked" else
  x ← get_buf b;
  if Z.land (b_flags x) (Z.lor B_VALID B_DIRTY) =? B_VALID then panic "iderw: nothing to do" else
  if negb (b_dev x =? 1) then panic "iderw: request not for disk 1" else
  if disksize <=? b_blockno x then panic "iderw: block out of range" else
  (if truthy (Z.land (b_flags x) B_DIRTY) then
     mod_buf b (λ x, set_b_flags (Z.land (b_flags x) (Z.lnot B_DIRTY)) x);;
     modf (λ s, set_dwrites (dwrites s ++ [(1, b_blockno x, b_data x)]) (set_disk (<[(1, b_blockno x) := b_data x]> (disk s)) s))
   else
     d ← getf (λ s, sector s 1 (b_blockno x));
     mod_buf b (set_b_data d));;
  mod_buf b (λ x, set_b_flags (Z.lor (b_flags x) B_VALID) x).

(** ** [bio.c] *)
Definition binit : K unit :=
  initlock Lbcache "bcache";;
  modf (set_lru []);;
  forM (seq 0 (Z.to_nat NBUF)) (λ b,
    initsleeplock (buf_lock b);;
    modf (λ s, set_lru (b :: lru s) s)).

(** The first buffer of [l] that satisfies [P]. *)
Fixpoint find_buf (P : buf → bool) (bs : list buf) (l : list nat) : option nat :=
  match l with
  | [] => None
  | b :: l =>
      match bs !! b with
      | Some x => if P x then Some b else find_buf P bs l
      | None => find_buf P bs l
      end
  end.

Definition caches (dev blockno : Z) (x : buf) : bool :=
  (b_dev x =? dev) && (b_blockno x =? blockno).
Definition recyclable (x : buf) : bool :=
  (b_refcnt x =? 0) && negb (truthy (Z.land (b_flags x) B_DIRTY)).

Definition bget (dev blockno : Z) : K nat :=
  acquire Lbcache;;
  s ← gets k_fs;
  match find_buf (caches dev blockno) (bufs s) (lru s) with
  | Some b =>
      mod_buf b (λ x, set_b_refcnt (u32 (b_refcnt x + 1)) x);;
      release Lbcache;;
      acquiresleep (buf_lock b);;
      ret b
  | None =>
      match find_buf recyclable (bufs s) (reverse (lru s)) with
      | Some b =>
          mod_buf b (λ x, set_b_refcnt 1 (set_b_flags 0 (set_b_blockno blockno (set_b_dev dev x))));;
          release Lbcache;;
          acquiresleep (buf_lock b);;
          ret b
      | None => panic "bget: no buffers"
      end
  end.

Definition bread (dev blockno : Z) : K nat :=
  b ← bget dev blockno;
  x ← get_buf b;
  when (negb (truthy (Z.land (b_flags x) B_VALID))) (iderw b);;
  ret b.

Definition bwrite (b : nat) : K unit :=
  h ← holdingsleep (buf_lock b);
  if negb (truthy h) then panic "bwrite" else
  mod_buf b (λ x, set_b_flags (Z.lor (b_flags x) B_DIRTY) x);;
  iderw b.

(** Unlink [b] from the list and put it at the head. *)
Definition to_front (b : nat) (l : list nat) : list nat := b :: filter (λ c, c ≠ b) l.

Definition brelse (b : nat) : K unit :=
  h ← holdingsleep (buf_lock b);
  if negb (truthy h) then panic "brelse" else
  releasesleep (buf_lock b);;
  acquire Lbcache;;
  mod_buf b (λ x, set_b_refcnt (u32 (b_refcnt x - 1)) x);;
  x ← get_buf b;
  when (b_refcnt x =? 0) (modf (λ s, set_lru (to_front b (lru s)) s));;
  release Lbcache.

(** [b->data], and stores into it. *)
Definition bdata (b : nat) : K (list Z) := x ← get_buf b; ret (b_data x).
Definition mod_data (b : nat) (f : list Z → list Z) : K unit :=
  mod_buf b (λ x, set_b_data (f (b_data x)) x).
End bio.

#[global] Arguments idewait : simpl never.
#[global] Arguments idestart : simpl never.
#[global] Arguments ideintr : simpl never.
#[global] Arguments iderw : simpl never.
#[global] Arguments bget : simpl never.
#[global] Arguments bread : simpl never.
#[global] Arguments bwrite : simpl never.
#[global] Arguments brelse : simpl never.
#[global] Arguments get_buf : simpl never.
#[global] Arguments mod_buf : simpl never.
