(* ===== verification/BioSpec.v ===== *)
(** The disk driver and the buffer cache: every block has one contents, which
    [bread] returns wherever the latest copy is, and [bwrite] puts on the disk. *)

From S2P Require Import Prelude Params Bytes State Spinlock Procs Sched SchedSpec Bio.

(** ** When the file layers can run *)

Definition fs_lock (l : lockid) : bool :=
  match l with
  | Lptable | Licache | Lbcache | Llog | Lide => true
  | Linode i => (i <? 50)%nat
  | Lbuf b => (b <? 30)%nat
  | _ => false
  end.
Definition fs_chan (c : chan) : bool :=
  match c with
  | Clog | Cbuf _ | Csleep _ => true
  | _ => false
  end.

(** A process runs, the locks of the file layers are free, and nobody waits for them. *)
Record fs_ready (k : kernel) : Prop := mkFsReady {
  fr_proc : ∃ p q, in_proc k p q;
  fr_lock : ∀ l, fs_lock l = true → avail l (k_mach k);
  fr_quiet : ∀ c, fs_chan c = true → quiet k c
}.

Lemma fs_ready_fs k s : fs_ready k → fs_ready (set_k_fs s k).
Proof. intros [(p & q & Hp) Hl Hq]. split; [by exists p, q|done|done]. Qed.

#[export] Hint Resolve fs_ready_fs : xv6.

(** The locks of the buffers and the inodes. *)
Lemma buf_avail k b : fs_ready k → (b < 30)%nat → avail (Lbuf b) (k_mach k).
Proof. intros Hr Hb. apply (fr_lock k Hr). by apply Nat.ltb_lt. Qed.
Lemma inode_avail k i : fs_ready k → (i < 50)%nat → avail (Linode i) (k_mach k).
Proof. intros Hr Hi. apply (fr_lock k Hr). by apply Nat.ltb_lt. Qed.

(** ** The disk, while a process waits for it *)

Definition upd_buf (b : nat) (f : buf → buf) (s : fsys) : fsys := set_bufs (alter f b (bufs s)) s.

Definition is_dirty (x : buf) : bool := truthy (Z.land (b_flags x) B_DIRTY).

(** The controller has carried out the request of buffer [b], and [ideintr] has run. *)
Definition disk_done (b : nat) (s : fsys) : fsys :=
  let s1 := ide_complete s in
  upd_buf b (λ x,
    set_b_flags (Z.land (Z.lor (b_flags x) B_VALID) (Z.lnot B_DIRTY))
      (if is_dirty x then x else set_b_data (ide_data s1) x)) (set_idequeue [] s1).

(** Process [p] waits for buffer [b], the only request of the disk. *)
Record disk_wait (k : kernel) (p b : nat) : Prop := mkDiskWait {
  dw_mach : ∃ m i c, k_mach k = hold Lptable m ∧ cpu_ok m i c ∧ ncli c = 0 ∧ cpu_proc c = Some p ∧
    ∀ l, fs_lock l = true → avail l m;
  dw_proc : ∃ q, procs (k_pt k) !! p = Some q ∧ state q = SLEEPING ∧ pchan q = Some (Cbuf b);
  dw_quiet : ∀ p' q, p' ≠ p → procs (k_pt k) !! p' = Some q → state q = SLEEPING → pchan q ≠ Some (Cbuf b);
  dw_queue : idequeue (k_fs k) = [b];
  dw_ready : ide_status (k_fs k) = IDE_DRDY;
  dw_cmd : ∃ x d n, bufs (k_fs k) !! b = Some x ∧
    ide_cmd (k_fs k) = Some (d, n, if is_dirty x then Some (b_data x) else None)
}.

(** While the process waits for the disk nothing else touches the file layers: the
    disk finishes, its interrupt is handled, and the process runs again. *)
Class DiskWorld `{world} : Prop := {
  disk_patience : (0 < patience)%nat;
  disk_turn k p b : disk_wait k p b →
    others k = Ok tt (upd_proc p (set_state RUNNING) (mod_fs (disk_done b) k))
}.

(** ** Such a world: the machine is otherwise idle *)
Section idle.
Context `{world}.

(** The disk finishes; the scheduler lets go of the table, so that the interrupt can
    be handled; then it runs the process, which the interrupt has woken up. *)
Definition idle_others : K unit :=
  modify (mod_fs ide_complete);;
  release Lptable;;
  ideintr;;
  acquire Lptable;;
  p ← curproc;
  mod_proc p (set_state RUNNING).

Lemma woken_one k p q ch :
  procs (k_pt k) !! p = Some q → state q = SLEEPING → pchan q = Some ch →
  (∀ p' q, p' ≠ p → procs (k_pt k) !! p' = Some q → state q = SLEEPING → pchan q ≠ Some ch) →
  woken (Some ch) k = upd_proc p (set_state RUNNABLE) k.
Proof.
  intros Hq Hs Hc Ho. unfold woken, upd_proc, mod_pt. do 2 f_equal. apply list_eq. intros j.
  rewrite list_lookup_fmap. destruct (decide (j = p)) as [->|Hne].
  - rewrite list_lookup_alter_eq, Hq. cbn. unfold wake. by rewrite !bool_decide_true.
  - rewrite list_lookup_alter_ne by done. destruct (procs (k_pt k) !! j) as [r|] eqn:Hj; [|done].
    cbn. f_equal. unfold wake. destruct (bool_decide (state r = SLEEPING)) eqn:Hb; [|done].
    apply bool_decide_eq_true in Hb. by rewrite bool_decide_false by (by eapply Ho).
Qed.

Lemma upd_buf_lookup b f s : bufs (upd_buf b f s) !! b = f <$> bufs s !! b.
Proof. unfold upd_buf. cbn. apply list_lookup_alter_eq. Qed.

Lemma upd_buf_ne b c f s : b ≠ c → bufs (upd_buf b f s) !! c = bufs s !! c.
Proof. intros. unfold upd_buf. cbn. by apply list_lookup_alter_ne. Qed.

Lemma upd_buf_upd b f g s : upd_buf b f (upd_buf b g s) = upd_buf b (f ∘ g) s.
Proof. unfold upd_buf. cbn. by rewrite list_alter_alter_eq. Qed.

Lemma upd_buf_ext b f g s : (∀ x, bufs s !! b = Some x → f x = g x) → upd_buf b f s = upd_buf b g s.
Proof. intros Hfg. unfold upd_buf. f_equal. by apply list_alter_ext. Qed.

Lemma get_buf_ok b k x : bufs (k_fs k) !! b = Some x → get_buf b k = Ok x k.
Proof. intros Hx. unfold get_buf. cbn. by rewrite Hx. Qed.

Lemma mod_buf_ok b f k : mod_buf b f k = Ok tt (mod_fs (upd_buf b f) k).
Proof. done. Qed.

Lemma idewait_ok c k : ide_status (k_fs k) = IDE_DRDY → idewait c k = Ok 0 k.
Proof.
  intros Hr. unfold idewait, getf. rewrite bind_gets, Hr.
  change (negb _) with false. cbv iota. change (truthy (Z.land _ _)) with false. by rewrite andb_false_r.
Qed.

(** The handler, when the queue holds the finished request and nothing else. *)
Lemma ideintr_run k b x m :
  k_mach k = m → avail Lide m → avail Lptable m → idequeue (k_fs k) = [b] →
  ide_status (k_fs k) = IDE_DRDY → bufs (k_fs k) !! b = Some x →
  ideintr k = Ok tt (woken (Some (Cbuf b)) (mod_fs (λ s,
    upd_buf b (λ x, set_b_flags (Z.land (Z.lor (b_flags x) B_VALID) (Z.lnot B_DIRTY))
      (if is_dirty x then x else set_b_data (ide_data s) x)) (set_idequeue [] s)) k)).
Proof.
  intros <- Ha Hp Hq Hr Hx. unfold ideintr. rewrite (bind_ok _ _ _ _ _ (acquire_ok _ _ Ha)).
  unfold getf at 1, modf at 1. rewrite bind_gets. cbn [k_fs mod_mach set_k_mach]. rewrite Hq. rewrite bind_modify.
  erewrite bind_ok by (by apply get_buf_ok).
  assert (Hm : ∀ (f : unit → K unit) k0, bufs (k_fs k0) !! b = Some x → ide_status (k_fs k0) = IDE_DRDY →
    bind (when (negb (truthy (Z.land (b_flags x) B_DIRTY)))
      (r ← idewait 1; when (0 <=? r) (d ← getf ide_data; mod_buf b (set_b_data d)))) f k0
    = f tt (mod_fs (λ s, upd_buf b (λ y, if is_dirty x then y else set_b_data (ide_data s) y) s) k0)).
  { intros f k0 Hx0 Hr0. unfold is_dirty. destruct (truthy _); cbn [negb].
    - rewrite bind_when_false. f_equal. unfold mod_fs, upd_buf. rewrite list_alter_id by done.
      by destruct k0 as [? ? ? [] ?].
    - rewrite bind_when_true, bind_assoc. rewrite (bind_ok _ _ _ _ _ (idewait_ok 1 k0 Hr0)). done. }
  rewrite Hm by done. clear Hm.
  rewrite !(bind_ok _ _ _ _ _ (mod_buf_ok _ _ _)).
  erewrite bind_ok by (apply wakeup_ok; by apply avail_hold).
  unfold getf. rewrite bind_gets. rewrite bool_decide_true by done. cbn [negb]. rewrite bind_when_false.
  rewrite (release_ok _ _ _ Ha) by done.
  f_equal. unfold woken, mod_fs, mod_pt, mod_mach, set_k_fs, set_k_pt, set_k_mach. cbn -[upd_buf]. f_equal.
  rewrite !upd_buf_upd. apply upd_buf_ext. cbn. intros y Hy. rewrite Hx in Hy. injection Hy as <-.
  by destruct (is_dirty x), x.
Qed.
End idle.

Definition idle_world : world := {| others := idle_others; run_proc _ := ret tt; patience := 1 |}.

Lemma idle_disk : @DiskWorld idle_world.
Proof.
  split; [cbn; lia|]. intros k p b [(m & i & c & Hk & Hc & Hn & Hp & Ha) (q & Hq & Hs & Hch) Hqu Hqe Hr (x & d & n & Hx & Hcmd)].
  cbn [others idle_world]. unfold idle_others. rewrite bind_modify.
  erewrite bind_ok by (apply (release_ok Lptable _ m); [by apply Ha|done]).
  set (k1 := set_k_mach m (mod_fs ide_complete k)).
  assert (Hcb : bufs (k_fs k1) = bufs (k_fs k) ∧ idequeue (k_fs k1) = [b] ∧ ide_status (k_fs k1) = IDE_DRDY).
  { unfold k1. cbn. unfold ide_complete. rewrite Hcmd. by destruct (is_dirty x). }
  destruct Hcb as (Hb1 & Hb2 & Hb3).
  erewrite bind_ok.
  2:{ eapply (ideintr_run k1 b x m); [done|by apply Ha|by apply Ha|done|done|by rewrite Hb1]. }
  rewrite (woken_one _ p q (Cbuf b)) by done.
  erewrite bind_ok by (apply acquire_ok; by apply Ha).
  erewrite bind_ok.
  2:{ apply curproc_runs. exists i, (set_ncli (ncli c + 1) c). split; [by apply cpu_ok_hold|done]. }
  unfold mod_proc, modify. f_equal.
  unfold upd_proc, mod_pt, mod_mach, mod_fs, k1, set_k_pt, set_k_mach, set_k_fs. cbn -[upd_buf]. rewrite Hk.
  f_equal. unfold set_procs. cbn. f_equal. by rewrite list_alter_alter_eq.
Qed.

Lemma ide_complete_bufs s : bufs (ide_complete s) = bufs s.
Proof. unfold ide_complete. by destruct (ide_cmd s) as [[[d n] [w|]]|]. Qed.

Lemma disk_done_lookup b s x : bufs s !! b = Some x →
  bufs (disk_done b s) !! b = Some (set_b_flags (Z.land (Z.lor (b_flags x) B_VALID) (Z.lnot B_DIRTY))
    (if is_dirty x then x else set_b_data (ide_data (ide_complete s)) x)).
Proof.
  intros Hx. unfold disk_done. rewrite upd_buf_lookup. cbn. by rewrite ide_complete_bufs, Hx; cbn; destruct (is_dirty x), x.
Qed.

(** ** One request *)
Definition ide_idle (s : fsys) : Prop :=
  idequeue s = [] ∧ ide_cmd s = None ∧ ide_status s = IDE_DRDY ∧ havedisk1 s ≠ 0.

(** What reading and writing block [n] of disk 1 with buffer [b] does. *)
Definition io_read (b : nat) (n : Z) (s : fsys) : fsys :=
  upd_buf b (λ x, set_b_flags B_VALID (set_b_data (sector s 1 n) x)) (set_ide_data (sector s 1 n) s).
Definition io_write (b : nat) (n : Z) (d : list Z) (s : fsys) : fsys :=
  upd_buf b (set_b_flags B_VALID)
    (set_dwrites (dwrites s ++ [(1, n, d)]) (set_disk (<[(1, n) := d]> (disk s)) s)).

Section request.
Context `{DiskWorld}.
Implicit Types (k : kernel) (s : fsys) (b : nat) (x : buf).

Lemma in_proc_hold l k p q : in_proc k p q → avail l (k_mach k) →
  ∃ i c, cpu_ok (k_mach k) i c ∧ ncli c = 0 ∧ cpu_proc c = Some p.
Proof. by intros (Hp & _) _. Qed.

Lemma iderw_ok k b x :
  fs_ready k → (b < 30)%nat → ide_idle (k_fs k) → bufs (k_fs k) !! b = Some x →
  sl_locked (b_lock x) ≠ 0 → b_dev x = 1 → 0 ≤ b_blockno x < FSSIZE →
  Z.land (b_flags x) (Z.lor B_VALID B_DIRTY) ≠ B_VALID →
  Z.land (Z.land (Z.lor (b_flags x) B_VALID) (Z.lnot B_DIRTY)) (Z.lor B_VALID B_DIRTY) = B_VALID →
  iderw b k = Ok tt (mod_fs (λ s, disk_done b (set_ide_cmd
    (Some (1, b_blockno x, if is_dirty x then Some (b_data x) else None)) (set_idequeue [b] s))) k).
Proof.
  intros Hrdy Hb30 (Hi1 & Hi2 & Hi3 & Hi4) Hx Hl Hdev Hn Hfl Hfl'. pose proof Hrdy as [(p & q & Hin) Hlk Hqu].
  pose proof Hin as (Hcpu & Hpq & Hst & Hpc). unfold iderw.
  rewrite (bind_ok _ _ _ _ _ (holdingsleep_ok (buf_lock b) k (b_lock x) ltac:(by apply buf_avail)
    ltac:(cbn; by rewrite Hx))).
  rewrite (proj2 (truthy_true _) Hl). cbn [negb]. rewrite (bind_ok _ _ _ _ _ (get_buf_ok _ _ _ Hx)).
  rewrite (proj2 (Z.eqb_neq _ _) Hfl). unfold getf at 1. rewrite bind_gets.
  rewrite (proj2 (truthy_true _) Hi4), andb_false_r.
  rewrite (bind_ok _ _ _ _ _ (acquire_ok Lide k ltac:(by apply Hlk))).
  unfold modf. rewrite bind_modify.
  replace (mod_fs (λ s, set_idequeue (idequeue s ++ [b]) s) (mod_mach (hold Lide) k))
    with (mod_fs (set_idequeue [b]) (mod_mach (hold Lide) k)) by (unfold mod_fs; cbn; by rewrite Hi1).
  unfold getf at 1. rewrite bind_gets. rewrite bool_decide_true by done. rewrite bind_when_true.
  set (k1 := mod_fs (set_ide_cmd (Some (1, b_blockno x, if is_dirty x then Some (b_data x) else None)))
    (mod_fs (set_idequeue [b]) (mod_mach (hold Lide) k))).
  erewrite (bind_ok _ _ _ tt k1).
  2:{ unfold idestart. erewrite bind_ok by (by apply get_buf_ok).
      rewrite (proj2 (Z.leb_gt _ _)) by lia. erewrite bind_ok by (by apply idewait_ok).
      rewrite Hdev. change (BSIZE / 512) with 1. rewrite Z.mul_1_r.
      change 0xfffffff with (Z.ones 28). rewrite Z.land_ones by lia.
      rewrite Z.mod_small by (unfold FSSIZE in Hn; lia). reflexivity. }
  assert (Hin' : disk_wait (asleep p (Cbuf b) (k_mach k) k1) p b).
  { destruct Hcpu as (i & c & Hc & Hnc & Hcp). split.
    - exists (k_mach k), i, c. done.
    - eexists. split; [by apply upd_proc_lookup|done].
    - intros p' r Hne Hr. cbn in Hr. rewrite list_lookup_alter_ne in Hr by done.
      intros Hs. apply (Hqu (Cbuf b) eq_refl r); [by eapply list_elem_of_lookup_2|done].
    - done.
    - done.
    - by exists x, 1, (b_blockno x). }
  assert (Hw : iderw_wait patience b k1 = Ok tt (mod_fs (disk_done b) k1)).
  { pose proof disk_patience as Hpat. destruct patience as [|n']; [lia|]. cbn [iderw_wait].
    erewrite bind_ok by (by apply get_buf_ok). rewrite (proj2 (Z.eqb_neq _ _) Hfl).
    erewrite bind_ok by (eapply (sleep_ok k1 (k_mach k) p q);
      [done|by apply Hlk|by apply Hlk|done|done|done|by apply disk_turn|done]).
    set (k2 := upd_proc _ _ _).
    assert (Hk2 : k2 = mod_fs (disk_done b) k1).
    { unfold k2, asleep, upd_proc, mod_pt, mod_fs, set_k_pt, set_k_fs, set_k_mach. cbn -[disk_done]. f_equal.
      unfold set_procs. cbn. rewrite !list_alter_alter_eq.
      rewrite (alter_same _ _ _ q); [by destruct (k_pt k)|done|]. destruct q; cbn in *; by subst. }
    rewrite Hk2. destruct n'; cbn [iderw_wait].
    all: erewrite bind_ok by (apply get_buf_ok, disk_done_lookup; exact Hx).
    all: cbn [b_flags set_b_flags]; rewrite Hfl'; done. }
  rewrite (bind_ok _ _ _ _ _ Hw). rewrite (release_ok Lide _ (k_mach k)); [|by apply Hlk|done].
  by destruct k.
Qed.

Lemma iderw_read k b x :
  fs_ready k → (b < 30)%nat → ide_idle (k_fs k) → bufs (k_fs k) !! b = Some x →
  sl_locked (b_lock x) ≠ 0 → b_dev x = 1 → 0 ≤ b_blockno x < FSSIZE → b_flags x = 0 →
  iderw b k = Ok tt (mod_fs (io_read b (b_blockno x)) k).
Proof.
  intros Hr Hb Hi Hx Hl Hd Hn Hf. rewrite (iderw_ok k b x) by (rewrite ?Hf; done).
  destruct Hi as (Hi1 & Hi2 & _). f_equal. unfold mod_fs. f_equal.
  unfold disk_done, io_read, ide_complete. replace (is_dirty x) with false by (unfold is_dirty; by rewrite Hf).
  cbn [ide_cmd set_ide_cmd]. destruct (k_fs k) as [dk dw ic idt ist hd bs]. cbn in *. subst.
  unfold upd_buf, set_bufs. cbn. f_equal. eapply list_alter_ext; [|done]. intros y Hy.
  rewrite Hx in Hy. injection Hy as <-. unfold is_dirty. by rewrite Hf.
Qed.

Lemma iderw_write k b x :
  fs_ready k → (b < 30)%nat → ide_idle (k_fs k) → bufs (k_fs k) !! b = Some x →
  sl_locked (b_lock x) ≠ 0 → b_dev x = 1 → 0 ≤ b_blockno x < FSSIZE →
  b_flags x = Z.lor B_VALID B_DIRTY →
  iderw b k = Ok tt (mod_fs (io_write b (b_blockno x) (b_data x)) k).
Proof.
  intros Hr Hb Hi Hx Hl Hd Hn Hf. rewrite (iderw_ok k b x) by (rewrite ?Hf; done).
  destruct Hi as (Hi1 & Hi2 & _). f_equal. unfold mod_fs. f_equal.
  unfold disk_done, io_write, ide_complete. replace (is_dirty x) with true by (unfold is_dirty; by rewrite Hf).
  cbn [ide_cmd set_ide_cmd]. destruct (k_fs k) as [dk dw ic idt ist hd bs]. cbn in *. subst.
  unfold upd_buf, set_bufs. cbn. f_equal. eapply list_alter_ext; [|done]. intros y Hy.
  rewrite Hx in Hy. injection Hy as <-. unfold is_dirty. by rewrite Hf.
Qed.

(** The disk in memory stands in for the drive: on the requests of the buffer cache [iderw] of
    [memide.c] has the effect of [iderw] of [ide.c], but for the data left in the controller. *)
Theorem memide_replaces_ide k b x :
  fs_ready k → (b < 30)%nat → ide_idle (k_fs k) → bufs (k_fs k) !! b = Some x →
  sl_locked (b_lock x) ≠ 0 → b_dev x = 1 → 0 ≤ b_blockno x < FSSIZE →
  b_flags x = 0 ∨ b_flags x = Z.lor B_VALID B_DIRTY →
  ∃ k' d, memide_iderw FSSIZE b k = Ok tt k' ∧ iderw b k = Ok tt (mod_fs (set_ide_data d) k').
Proof.
  intros Hr Hb Hi Hx Hl Hd Hn Hf. unfold memide_iderw. pose proof Hr as [_ Hlk _].
  rewrite (bind_ok _ _ _ _ _ (holdingsleep_ok (buf_lock b) k (b_lock x) ltac:(by apply buf_avail) ltac:(cbn; by rewrite Hx))).
  rewrite (proj2 (truthy_true _) Hl). cbn [negb]. rewrite (bind_ok _ _ _ _ _ (get_buf_ok _ _ _ Hx)).
  rewrite (proj2 (Z.eqb_eq _ _) Hd), (proj2 (Z.leb_gt _ _) (proj2 Hn)). destruct Hf as [Hf|Hf].
  - eexists _, (sector (k_fs k) 1 (b_blockno x)). split.
    { rewrite Hf. cbn -[Z.land Z.lor sector]. reflexivity. }
    rewrite (iderw_read k b x) by done. f_equal. unfold mod_fs, io_read, upd_buf. destruct k as [km kv kp [] kc]. cbn in *.
    unfold set_k_fs, set_bufs, set_ide_data. cbn. do 2 f_equal. rewrite list_alter_alter_eq. apply list_alter_ext; [|done].
    intros y Hy. rewrite Hx in Hy. injection Hy as <-. cbn. by rewrite Hf.
  - eexists _, (ide_data (k_fs k)). split.
    { rewrite Hf. cbn -[Z.land Z.lor]. reflexivity. }
    rewrite (iderw_write k b x) by done. f_equal. unfold mod_fs, io_write, upd_buf. destruct k as [km kv kp [] kc]. cbn in *.
    unfold set_k_fs, set_bufs, set_ide_data. cbn. do 2 f_equal. rewrite list_alter_alter_eq. apply list_alter_ext; [|done].
    intros y Hy. rewrite Hx in Hy. injection Hy as <-. cbn. by rewrite Hf.
Qed.
End request.
