(* ===== verification/CacheSpec.v ===== *)
(** The buffer cache holds the latest contents of every block of disk 1: the
    invariant of [bio.c], and what [bread], [bwrite] and [brelse] do under it. *)

From S2P Require Import Prelude Params Bytes State Spinlock Procs Sched SchedSpec Bio BioSpec.

(** ** The invariant *)
Definition logged (s : fsys) : list Z := take (Z.to_nat (lh_n (lh (log s)))) (lh_block (lh (log s))).
Definition block_ok (d : list Z) : Prop := length d = 512%nat ∧ bytes_ok d.

Definition CLEAN : Z := B_VALID.
Definition DIRTY : Z := Z.lor B_VALID B_DIRTY.

(** A buffer; [held] says that the code between [bread] and [brelse] has it. *)
Record buf_ok (s : fsys) (held : Prop) (x : buf) : Prop := mkBufOk {
  bo_data : block_ok (b_data x);
  bo_flags : b_flags x = 0 ∨ b_flags x = CLEAN ∨ b_flags x = DIRTY;
  bo_dev : b_dev x = 1 → b_flags x ≠ 0 ∧ 0 ≤ b_blockno x < FSSIZE;
  bo_dirty : b_flags x = DIRTY → b_dev x = 1 ∧ b_blockno x ∈ logged s;
  bo_held : held → b_dev x = 1 ∧ b_refcnt x = 1 ∧ sl_locked (b_lock x) = 1;
  bo_free : ¬ held → b_refcnt x = 0 ∧ sl_locked (b_lock x) = 0 ∧
    (b_dev x = 1 → b_flags x = CLEAN → b_data x = sector s 1 (b_blockno x))
}.

Record cache_inv (H : list nat) (s : fsys) : Prop := mkCacheInv {
  ci_len : length (bufs s) = 30%nat;
  ci_lru : lru s ≡ₚ seq 0 30;
  ci_nodup : NoDup H;
  ci_lt : Forall (λ b, b < 30)%nat H;
  ci_buf : ∀ b x, bufs s !! b = Some x → buf_ok s (b ∈ H) x;
  ci_uniq : ∀ b c x y, bufs s !! b = Some x → bufs s !! c = Some y →
    b_dev x = 1 → b_dev y = 1 → b_blockno x = b_blockno y → b = c;
  ci_idle : ide_idle s;
  ci_disk : ∀ n, block_ok (sector s 1 n)
}.

(** The latest contents of block [n]. *)
Definition content (s : fsys) (n : Z) : list Z :=
  match list_find (λ x, b_dev x = 1 ∧ b_blockno x = n) (bufs s) with
  | Some (_, x) => b_data x
  | None => sector s 1 n
  end.

(** Block [n] is in the cache and waits for a commit. *)
Definition dirty_block (s : fsys) (n : Z) : Prop :=
  ∃ b x, bufs s !! b = Some x ∧ b_dev x = 1 ∧ b_blockno x = n ∧ b_flags x = DIRTY.

(** The layers above the cache are the same. *)
Record frame (s s' : fsys) : Prop := mkFrame {
  fm_sb : sb s' = sb s;
  fm_inodes : inodes s' = inodes s;
  fm_files : files s' = files s;
  fm_pipes : pipes s' = pipes s
}.

(** Only the cache has changed, not what it says. *)
Record cstep (s s' : fsys) : Prop := mkCstep {
  cs_frame : frame s s';
  cs_log : log s' = log s;
  cs_disk : disk s' = disk s;
  cs_writes : dwrites s' = dwrites s;
  cs_content : ∀ n, content s' n = content s n;
  cs_dirty : ∀ n, dirty_block s' n ↔ dirty_block s n
}.

Section cache.
Implicit Types (k : kernel) (s : fsys) (b c : nat) (x y : buf) (H : list nat) (n : Z).

Lemma buf_lt H s b x : cache_inv H s → bufs s !! b = Some x → (b < 30)%nat.
Proof. intros Hc Hx. rewrite <- (ci_len _ _ Hc). by eapply lookup_lt_Some. Qed.

Lemma frame_refl s : frame s s.
Proof. done. Qed.

Lemma frame_trans s1 s2 s3 : frame s1 s2 → frame s2 s3 → frame s1 s3.
Proof. intros [] []. split; congruence. Qed.

Lemma cstep_refl s : cstep s s.
Proof. split; done || apply frame_refl. Qed.

Lemma cstep_trans s1 s2 s3 : cstep s1 s2 → cstep s2 s3 → cstep s1 s3.
Proof.
  intros [] []. split; [by eapply frame_trans|congruence..| |]; intros n; [congruence|].
  rewrite cs_dirty1. apply cs_dirty0.
Qed.

Lemma content_cached H s b x : cache_inv H s → bufs s !! b = Some x → b_dev x = 1 →
  content s (b_blockno x) = b_data x.
Proof.
  intros Hc Hx Hd. unfold content.
  destruct (list_find _ _) as [[c y]|] eqn:Hf.
  - apply list_find_Some in Hf as (Hy & [Hyd Hyn] & _).
    assert (b = c) as <- by (by eapply (ci_uniq _ _ Hc)). congruence.
  - apply list_find_None in Hf. rewrite Forall_forall in Hf.
    exfalso. apply (Hf x); [by eapply list_elem_of_lookup_2|done].
Qed.

Lemma content_uncached s n :
  (∀ b x, bufs s !! b = Some x → b_dev x = 1 → b_blockno x ≠ n) → content s n = sector s 1 n.
Proof.
  intros Hn. unfold content. destruct (list_find _ _) as [[c y]|] eqn:Hf; [|done].
  apply list_find_Some in Hf as (Hy & [Hyd Hyn] & _). by destruct (Hn c y).
Qed.

(** Either a buffer has block [n], or none does. *)
Lemma cached_dec s n :
  (∃ b x, bufs s !! b = Some x ∧ b_dev x = 1 ∧ b_blockno x = n) ∨
  (∀ b x, bufs s !! b = Some x → b_dev x = 1 → b_blockno x ≠ n).
Proof.
  destruct (list_find (λ x, b_dev x = 1 ∧ b_blockno x = n) (bufs s)) as [[c y]|] eqn:Hf.
  - apply list_find_Some in Hf as (Hy & [Hyd Hyn] & _). left. eauto.
  - right. intros b x Hx Hd Hn. apply list_find_None in Hf. rewrite Forall_forall in Hf.
    apply (Hf x); [by eapply list_elem_of_lookup_2|done].
Qed.

Lemma content_block_ok H s n : cache_inv H s → block_ok (content s n).
Proof.
  intros Hc. destruct (cached_dec s n) as [(b & x & Hx & Hd & <-)|Hn].
  - rewrite (content_cached H s b x) by done. apply (bo_data _ _ _ (ci_buf _ _ Hc b x Hx)).
  - rewrite content_uncached by done. apply (ci_disk _ _ Hc).
Qed.

(** ** Looking for a buffer *)
Lemma find_buf_Some P (bs : list buf) l b :
  find_buf P bs l = Some b → b ∈ l ∧ ∃ x, bs !! b = Some x ∧ P x = true.
Proof.
  induction l as [|c l IH]; cbn; [done|]. destruct (bs !! c) as [x|] eqn:Hx; [destruct (P x) eqn:HP|].
  - intros [= <-]. split; [left|eauto].
  - intros Hf. destruct (IH Hf) as [? ?]. split; [by right|done].
  - intros Hf. destruct (IH Hf) as [? ?]. split; [by right|done].
Qed.

Lemma find_buf_None P (bs : list buf) l b x :
  find_buf P bs l = None → b ∈ l → bs !! b = Some x → P x = false.
Proof.
  induction l as [|c l IH]; cbn; [by intros _ ?%not_elem_of_nil|].
  intros Hf [->|Hb]%elem_of_cons Hx.
  - rewrite Hx in Hf. by destruct (P x).
  - destruct (bs !! c) as [y|]; [destruct (P y)|]; [done|by apply IH..].
Qed.

Lemma in_lru H s b x : cache_inv H s → bufs s !! b = Some x → b ∈ lru s.
Proof.
  intros Hc Hx. rewrite (ci_lru _ _ Hc). apply elem_of_seq.
  apply lookup_lt_Some in Hx. rewrite (ci_len _ _ Hc) in Hx. lia.
Qed.

(** There is a buffer to recycle: every other one is held, or waits for a commit. *)
Lemma recyclable_exists H L s :
  cache_inv H s → (∀ n, dirty_block s n → n ∈ L) → (length H + length L < 30)%nat →
  ∃ b x, bufs s !! b = Some x ∧ recyclable x = true.
Proof.
  intros Hc HL Hlen.
  destruct (find_buf recyclable (bufs s) (seq 0 30)) as [b|] eqn:Hf.
  { apply find_buf_Some in Hf as (_ & x & Hx & Hr). eauto. }
  exfalso. set (D := filter (λ b, b ∉ H) (seq 0 30)).
  assert (HD : ∀ b, b ∈ D → ∃ x, bufs s !! b = Some x ∧ b_flags x = DIRTY).
  { intros b [Hb Hseq]%list_elem_of_filter. pose proof Hseq as Hlt. apply elem_of_seq in Hlt.
    destruct (lookup_lt_is_Some_2 (bufs s) b) as [x Hx]; [rewrite (ci_len _ _ Hc); lia|].
    exists x. split; [done|]. pose proof (find_buf_None _ _ _ _ _ Hf Hseq Hx) as Hr.
    destruct (ci_buf _ _ Hc b x Hx) as [_ Hfl _ _ _ Hfree]. destruct (Hfree Hb) as [Hrc _].
    unfold recyclable in Hr. rewrite Hrc in Hr. destruct Hfl as [E|[E|E]]; [by rewrite E in Hr..|done]. }
  set (no := λ b, match bufs s !! b with Some x => b_blockno x | None => 0 end).
  assert (Hnd : NoDup D) by (apply NoDup_filter, NoDup_seq).
  assert (H1 : (length D ≤ length L)%nat).
  { rewrite <- (length_fmap no). apply submseteq_length, NoDup_submseteq.
    - apply NoDup_fmap_2_strong; [|done]. intros a b Ha Hb. unfold no.
      destruct (HD a Ha) as (x & Hx & Hfx), (HD b Hb) as (y & Hy & Hfy). rewrite Hx, Hy.
      destruct (ci_buf _ _ Hc a x Hx) as [_ _ _ Hdx _ _], (ci_buf _ _ Hc b y Hy) as [_ _ _ Hdy _ _].
      apply (ci_uniq _ _ Hc); [done..|by apply Hdx|by apply Hdy].
    - intros m (b & -> & Hb)%list_elem_of_fmap. destruct (HD b Hb) as (x & Hx & Hfx).
      unfold no. rewrite Hx. apply HL. exists b, x. split_and!; try done.
      by apply (bo_dirty _ _ _ (ci_buf _ _ Hc b x Hx)). }
  assert (H2 : (30 ≤ length H + length D)%nat).
  { rewrite <- length_app. change 30%nat with (length (seq 0 30)).
    apply submseteq_length, NoDup_submseteq; [apply NoDup_seq|]. intros b Hb.
    apply elem_of_app. destruct (decide (b ∈ H)); [by left|]. right. by apply list_elem_of_filter. }
  lia.
Qed.

(** ** Changing one buffer *)
Lemma buf_ok_ext s s' (P P' : Prop) x :
  (b_flags x = DIRTY → b_blockno x ∈ logged s → b_blockno x ∈ logged s') →
  (b_dev x = 1 → sector s' 1 (b_blockno x) = sector s 1 (b_blockno x)) →
  (P ↔ P') → buf_ok s P x → buf_ok s' P' x.
Proof.
  intros Hl Hs HP [? ? ? Hd Hh Hf]. split; [done|done|done|naive_solver|by rewrite <- HP|].
  rewrite <- HP. intros Hn. destruct (Hf Hn) as (? & ? & Hdat). split_and!; [done..|].
  intros Hd1. rewrite Hs by done. by apply Hdat.
Qed.

Lemma cache_upd H H' s s' b x' :
  cache_inv H s → bufs s' = <[b := x']> (bufs s) → lru s' ≡ₚ seq 0 30 → ide_idle s' →
  (∀ n, block_ok (sector s' 1 n)) → NoDup H' → (b < 30)%nat → (∀ c, c ≠ b → c ∈ H' ↔ c ∈ H) →
  buf_ok s' (b ∈ H') x' → (∀ c y, c ≠ b → bufs s !! c = Some y → buf_ok s' (c ∈ H') y) →
  (b_dev x' = 1 → ∀ c y, c ≠ b → bufs s !! c = Some y → b_dev y = 1 → b_blockno y ≠ b_blockno x') →
  cache_inv H' s'.
Proof.
  intros Hc Hb Hl Hi Hd Hnd Hlt Hm Hx Ho Hu.
  assert (Hlook : ∀ c y, bufs s' !! c = Some y → (c = b ∧ y = x') ∨ (c ≠ b ∧ bufs s !! c = Some y)).
  { intros c y. rewrite Hb. intros [(-> & <- & _)|[? ?]]%list_lookup_insert_Some; auto. }
  split; [by rewrite Hb, length_insert, (ci_len _ _ Hc)|done|done| | | |done|done].
  - apply Forall_forall. intros c Hc'. destruct (decide (c = b)) as [->|Hne]; [done|].
    apply Hm in Hc'; [|done]. pose proof (ci_lt _ _ Hc) as HF. rewrite Forall_forall in HF. by apply HF.
  - intros c y [[-> ->]|[Hne Hy]]%Hlook; [done|by apply Ho].
  - intros c1 c2 y1 y2 [[-> ->]|[Hne1 Hy1]]%Hlook [[-> ->]|[Hne2 Hy2]]%Hlook Hd1 Hd2 Hbn; [done| | |].
    + by destruct (Hu Hd1 c2 y2).
    + by destruct (Hu Hd2 c1 y1).
    + by eapply (ci_uniq _ _ Hc).
Qed.

Lemma upd_buf_insert b f s x : bufs s !! b = Some x → bufs (upd_buf b f s) = <[b := f x]> (bufs s).
Proof. intros Hx. unfold upd_buf. cbn. by apply alter_insert. Qed.

(** The contents of every block, when buffer [b] becomes [x'] and the disk stays. *)
Lemma content_same H H' s s' b x' :
  cache_inv H s → cache_inv H' s' → bufs s' = <[b := x']> (bufs s) → (b < 30)%nat →
  (∀ n, sector s' 1 n = sector s 1 n) →
  (b_dev x' = 1 → b_data x' = content s (b_blockno x')) →
  (∀ x, bufs s !! b = Some x → b_dev x = 1 →
     (b_dev x' = 1 ∧ b_blockno x' = b_blockno x) ∨ b_data x = sector s 1 (b_blockno x)) →
  ∀ n, content s' n = content s n.
Proof.
  intros Hc Hc' Hb Hlt Hs Hx' Hold n.
  assert (Hbb : bufs s' !! b = Some x').
  { rewrite Hb. apply list_lookup_insert_eq. by rewrite (ci_len _ _ Hc). }
  destruct (cached_dec s' n) as [(c & y & Hy & Hd & Hn)|Hno].
  - rewrite <- Hn. rewrite (content_cached H' s' c y) by done.
    destruct (decide (c = b)) as [->|Hne].
    + rewrite Hbb in Hy. injection Hy as <-. by apply Hx'.
    + rewrite Hb, list_lookup_insert_ne in Hy by done. by rewrite (content_cached H s c y).
  - rewrite (content_uncached s') by done. rewrite Hs.
    destruct (cached_dec s n) as [(c & y & Hy & Hd & Hn)|Hno'].
    + destruct (decide (c = b)) as [->|Hne].
      * destruct (Hold y Hy Hd) as [[Hd' Hn']|Hdata].
        -- exfalso. apply (Hno b x'); [done|done|congruence].
        -- rewrite <- Hn, (content_cached H s b y) by done. done.
      * exfalso. apply (Hno c y); [|done|done]. by rewrite Hb, list_lookup_insert_ne.
    + by rewrite content_uncached.
Qed.
End cache.

(** ** [bget] and [bread] *)
Definition taken (pid' : Z) (x : buf) : buf := set_b_lock (mkSleeplock 1 pid') (set_b_refcnt 1 x).
Definition recycled (pid' n : Z) (x : buf) : buf := mkBuf 0 1 n (mkSleeplock 1 pid') 1 (b_data x).

Section bread.
Context {W : world} {DW : DiskWorld}.
Implicit Types (k : kernel) (s : fsys) (b c : nat) (x y : buf) (n : Z).

Lemma acquiresleep_buf k p q b x :
  in_proc k p q → avail (Lbuf b) (k_mach k) → bufs (k_fs k) !! b = Some x → sl_locked (b_lock x) = 0 →
  acquiresleep (buf_lock b) k = Ok tt (mod_fs (upd_buf b (set_b_lock (mkSleeplock 1 (pid q)))) k).
Proof.
  intros Hin Ha Hx Hl. rewrite (acquiresleep_ok (buf_lock b) k p q (b_lock x)); try done.
  - intros f g s. cbn. by rewrite list_alter_alter_eq.
  - intros f g s Hfg. cbn. f_equal. apply list_alter_ext; [|done]. intros y _. by rewrite Hfg.
  - cbn. by rewrite Hx.
Qed.

Lemma bget_hit k p q b x n :
  fs_ready k → (b < 30)%nat → in_proc k p q → find_buf (caches 1 n) (bufs (k_fs k)) (lru (k_fs k)) = Some b →
  bufs (k_fs k) !! b = Some x → b_refcnt x = 0 → sl_locked (b_lock x) = 0 →
  bget 1 n k = Ok b (mod_fs (upd_buf b (taken (pid q))) k).
Proof.
  intros Hr Hb Hin Hf Hx Hrc Hl. unfold bget.
  rewrite (bind_ok _ _ _ _ _ (acquire_ok Lbcache k ltac:(by apply fr_lock))).
  rewrite bind_gets. cbn [k_fs mod_mach set_k_mach]. rewrite Hf.
  rewrite (bind_ok _ _ _ _ _ (mod_buf_ok _ _ _)).
  erewrite bind_ok by (apply (release_ok Lbcache _ (k_mach k)); [by apply fr_lock|done]).
  erewrite bind_ok.
  2:{ eapply acquiresleep_buf; [|by apply (buf_avail k b)| |].
      - exact Hin.
      - cbn -[upd_buf]. rewrite upd_buf_lookup, Hx. reflexivity.
      - done. }
  cbn -[upd_buf]. f_equal. unfold mod_fs, set_k_mach, set_k_fs. cbn -[upd_buf]. f_equal.
  rewrite upd_buf_upd. apply upd_buf_ext. intros y Hy. rewrite Hx in Hy. injection Hy as <-.
  unfold taken. cbn. rewrite Hrc. by destruct x.
Qed.

Lemma bget_miss k p q b x n :
  fs_ready k → (b < 30)%nat → in_proc k p q → find_buf (caches 1 n) (bufs (k_fs k)) (lru (k_fs k)) = None →
  find_buf recyclable (bufs (k_fs k)) (reverse (lru (k_fs k))) = Some b →
  bufs (k_fs k) !! b = Some x → sl_locked (b_lock x) = 0 →
  bget 1 n k = Ok b (mod_fs (upd_buf b (recycled (pid q) n)) k).
Proof.
  intros Hr Hb Hin Hf Hf2 Hx Hl. unfold bget.
  rewrite (bind_ok _ _ _ _ _ (acquire_ok Lbcache k ltac:(by apply fr_lock))).
  rewrite bind_gets. cbn [k_fs mod_mach set_k_mach]. rewrite Hf, Hf2.
  rewrite (bind_ok _ _ _ _ _ (mod_buf_ok _ _ _)).
  erewrite bind_ok by (apply (release_ok Lbcache _ (k_mach k)); [by apply fr_lock|done]).
  erewrite bind_ok.
  2:{ eapply acquiresleep_buf; [|by apply (buf_avail k b)| |].
      - exact Hin.
      - cbn -[upd_buf]. rewrite upd_buf_lookup, Hx. reflexivity.
      - done. }
  cbn -[upd_buf]. f_equal. unfold mod_fs, set_k_mach, set_k_fs. cbn -[upd_buf]. f_equal.
  rewrite upd_buf_upd. apply upd_buf_ext. intros y Hy. by destruct y.
Qed.

(** What [bread] promises. *)
Record bread_post (H : list nat) s n b s' : Prop := mkBreadPost {
  bp_inv : cache_inv (b :: H) s';
  bp_step : cstep s s';
  bp_new : b ∉ H;
  bp_buf : ∃ x, bufs s' !! b = Some x ∧ b_dev x = 1 ∧ b_blockno x = n ∧
    (b_flags x = DIRTY ∨ content s n = sector s 1 n);
  bp_held : ∀ c, c ∈ H → bufs s' !! c = bufs s !! c
}.

(** Buffer [b] of [s] becomes [x'], which caches block [n] and is held. *)
Lemma bread_post_intro H s s' b n x' :
  cache_inv H s → b ∉ H → (b < 30)%nat → bufs s' = <[b := x']> (bufs s) → lru s' = lru s →
  ide_idle s' → disk s' = disk s → dwrites s' = dwrites s → log s' = log s → frame s s' →
  b_dev x' = 1 → b_blockno x' = n → 0 ≤ n < FSSIZE → b_refcnt x' = 1 → sl_locked (b_lock x') = 1 →
  b_data x' = content s n →
  (b_flags x' = CLEAN ∧ content s n = sector s 1 n ∨ b_flags x' = DIRTY) →
  (∀ x, bufs s !! b = Some x → b_flags x' = DIRTY ∨ b_flags x = DIRTY →
     b_flags x' = b_flags x ∧ b_dev x = 1 ∧ b_blockno x = n) →
  (∀ c y, c ≠ b → bufs s !! c = Some y → b_dev y = 1 → b_blockno y ≠ n) →
  bread_post H s n b s'.
Proof.
  intros Hc Hb Hlt Hbs Hlru Hi Hdk Hdw Hlog Hfr Hd Hn Hr Hrc Hsl Hdata Hfl Hdirty Hu.
  assert (Hsec : ∀ m, sector s' 1 m = sector s 1 m) by (intros; unfold sector; by rewrite Hdk).
  assert (Hlg : logged s' = logged s) by (unfold logged; by rewrite Hlog).
  destruct (lookup_lt_is_Some_2 (bufs s) b) as [x Hx]; [by rewrite (ci_len _ _ Hc)|].
  assert (Hbb : bufs s' !! b = Some x').
  { rewrite Hbs. apply list_lookup_insert_eq. by rewrite (ci_len _ _ Hc). }
  assert (Hinv : cache_inv (b :: H) s').
  { eapply (cache_upd H); [done|done|by rewrite Hlru; apply (ci_lru _ _ Hc)|done| | |done| | | |].
    - intros m. rewrite Hsec. apply (ci_disk _ _ Hc).
    - constructor; [done|apply (ci_nodup _ _ Hc)].
    - intros c Hne. rewrite elem_of_cons. naive_solver.
    - split; [rewrite Hdata; by eapply content_block_ok|naive_solver| | |done|].
      + intros _. rewrite Hn. split; [destruct Hfl as [[-> _]| ->]; done|done].
      + intros E. destruct (Hdirty x Hx (or_introl E)) as (Ef & Ed & En). split; [done|].
        rewrite Hlg, Hn, <- En. apply (bo_dirty _ _ _ (ci_buf _ _ Hc b x Hx)). congruence.
      + intros Hnin. exfalso. apply Hnin. left.
    - intros c y Hne Hy. apply (buf_ok_ext s _ (c ∈ H)); [by rewrite Hlg|done| |by apply (ci_buf _ _ Hc)].
      rewrite elem_of_cons. naive_solver.
    - intros _ c y Hne Hy Hdy. rewrite Hn. by eapply Hu. }
  split; [done| |done|exists x'; naive_solver|].
  - split; [done..| |].
    + eapply (content_same H (b :: H) s s' b x'); [done|done|done|done|done|by rewrite Hn|].
      intros z Hz Hdz. rewrite Hx in Hz. injection Hz as <-.
      destruct (ci_buf _ _ Hc b x Hx) as [_ Hfx Hdx _ _ Hfree]. destruct (Hfree Hb) as (_ & _ & Hcl).
      destruct Hfx as [E|[E|E]]; [by destruct (Hdx Hdz)|right; by apply Hcl|].
      left. split; [done|]. destruct (Hdirty x Hx (or_intror E)) as (_ & _ & E'). congruence.
    + intros m. split.
      * intros (c & y & Hy & Hdy & Hny & Hfy). destruct (decide (c = b)) as [->|Hne].
        -- rewrite Hbb in Hy. injection Hy as <-.
           destruct (Hdirty x Hx (or_introl Hfy)) as (Ef & Ed & En). exists b, x. naive_solver congruence.
        -- rewrite Hbs, list_lookup_insert_ne in Hy by done. by exists c, y.
      * intros (c & y & Hy & Hdy & Hny & Hfy). destruct (decide (c = b)) as [->|Hne].
        -- rewrite Hx in Hy. injection Hy as <-.
           destruct (Hdirty x Hx (or_intror Hfy)) as (Ef & Ed & En). exists b, x'. naive_solver congruence.
        -- exists c, y. by rewrite Hbs, list_lookup_insert_ne.
  - intros c Hcin. rewrite Hbs, list_lookup_insert_ne; [done|]. intros ->. done.
Qed.

(** No held buffer has block [n]. *)
Definition unheld (H : list nat) s n : Prop :=
  ∀ b x, b ∈ H → bufs s !! b = Some x → b_blockno x ≠ n.

Lemma bread_hit k H p q b x n :
  fs_ready k → in_proc k p q → cache_inv H (k_fs k) → unheld H (k_fs k) n →
  find_buf (caches 1 n) (bufs (k_fs k)) (lru (k_fs k)) = Some b → bufs (k_fs k) !! b = Some x →
  caches 1 n x = true →
  bread 1 n k = Ok b (mod_fs (upd_buf b (taken (pid q))) k) ∧
  bread_post H (k_fs k) n b (upd_buf b (taken (pid q)) (k_fs k)).
Proof.
  intros Hr Hin Hc Hu Hf Hx Hca. unfold caches in Hca.
  apply andb_true_iff in Hca as [Hd%Z.eqb_eq Hn%Z.eqb_eq].
  assert (HbH : b ∉ H) by (intros Hb; by apply (Hu b x Hb Hx)).
  destruct (ci_buf _ _ Hc b x Hx) as [Hdt Hfl Hdev Hdirty _ Hfree].
  destruct (Hfree HbH) as (Hrc & Hsl & Hcl). destruct (Hdev Hd) as [Hf0 Hrange].
  assert (Hlt : (b < 30)%nat) by (apply lookup_lt_Some in Hx; by rewrite (ci_len _ _ Hc) in Hx).
  split.
  - unfold bread. rewrite (bind_ok _ _ _ _ _ (bget_hit k p q b x n Hr (buf_lt _ _ _ _ Hc Hx) Hin Hf Hx Hrc Hsl)).
    erewrite bind_ok by (apply get_buf_ok; cbn -[upd_buf]; rewrite upd_buf_lookup, Hx; reflexivity).
    cbn [b_flags taken set_b_lock set_b_refcnt].
    replace (truthy (Z.land (b_flags x) B_VALID)) with true; [done|].
    destruct Hfl as [E|[E|E]]; [done|by rewrite E..].
  - eapply (bread_post_intro H _ _ b n (taken (pid q) x)); try done.
    + by apply upd_buf_insert.
    + apply (ci_idle _ _ Hc).
    + by rewrite <- Hn.
    + cbn. rewrite <- Hn. by rewrite (content_cached H _ b x).
    + rewrite <- Hn, (content_cached H _ b x) by done.
      cbn. destruct Hfl as [E|[E|E]]; [done|left; split; [done|by apply Hcl]|by right].
    + intros z Hz _. rewrite Hx in Hz. injection Hz as <-. done.
    + intros c y Hne Hy Hdy Hny. apply Hne. eapply (ci_uniq _ _ Hc); [done|done|done|done|congruence].
Qed.

Lemma bread_miss k H p q b x n :
  fs_ready k → in_proc k p q → cache_inv H (k_fs k) → 0 ≤ n < FSSIZE →
  find_buf (caches 1 n) (bufs (k_fs k)) (lru (k_fs k)) = None →
  find_buf recyclable (bufs (k_fs k)) (reverse (lru (k_fs k))) = Some b →
  bufs (k_fs k) !! b = Some x → recyclable x = true →
  let s' := io_read b n (upd_buf b (recycled (pid q) n) (k_fs k)) in
  bread 1 n k = Ok b (mod_fs (λ _, s') k) ∧ bread_post H (k_fs k) n b s'.
Proof.
  intros Hr Hin Hc Hn Hf Hf2 Hx Hrec s'. unfold recyclable in Hrec.
  apply andb_true_iff in Hrec as [Hrc%Z.eqb_eq Hnd%negb_true_iff].
  destruct (ci_buf _ _ Hc b x Hx) as [Hdt Hfl Hdev Hdirty Hheld Hfree].
  assert (HbH : b ∉ H) by (intros Hb; destruct (Hheld Hb) as (_ & E & _); lia).
  destruct (Hfree HbH) as (_ & Hsl & Hcl).
  assert (Hlt : (b < 30)%nat) by (apply lookup_lt_Some in Hx; by rewrite (ci_len _ _ Hc) in Hx).
  assert (Hno : ∀ c y, bufs (k_fs k) !! c = Some y → b_dev y = 1 → b_blockno y ≠ n).
  { intros c y Hy Hdy Hny.
    pose proof (find_buf_None _ _ _ _ _ Hf (in_lru _ _ _ _ Hc Hy) Hy) as E.
    unfold caches in E. by rewrite (proj2 (Z.eqb_eq _ _) Hdy), (proj2 (Z.eqb_eq _ _) Hny) in E. }
  set (k1 := mod_fs (upd_buf b (recycled (pid q) n)) k).
  assert (Hb1 : bufs (k_fs k1) !! b = Some (recycled (pid q) n x)).
  { cbn -[upd_buf]. by rewrite upd_buf_lookup, Hx. }
  split.
  - unfold bread. rewrite (bind_ok _ _ _ _ _ (bget_miss k p q b x n Hr (buf_lt _ _ _ _ Hc Hx) Hin Hf Hf2 Hx Hsl)). fold k1.
    rewrite (bind_ok _ _ _ _ _ (get_buf_ok _ _ _ Hb1)). cbn [b_flags recycled].
    change (negb (truthy (Z.land 0 B_VALID))) with true. rewrite bind_when_true.
    rewrite (bind_ok _ _ _ _ _ (iderw_read k1 b _ (fs_ready_fs _ _ Hr) (buf_lt _ _ _ _ Hc Hx) (ci_idle _ _ Hc) Hb1 ltac:(done) eq_refl Hn eq_refl)).
    done.
  - eapply (bread_post_intro H _ _ b n (mkBuf CLEAN 1 n (mkSleeplock 1 (pid q)) 1 (sector (k_fs k) 1 n))); try done.
    + unfold s', io_read. rewrite (upd_buf_insert _ _ _ (recycled (pid q) n x)) by done.
      cbn -[upd_buf]. rewrite (upd_buf_insert _ _ _ x) by done. by rewrite list_insert_insert_eq.
    + apply (ci_idle _ _ Hc).
    + cbn. symmetry. by apply content_uncached.
    + left. split; [done|]. by apply content_uncached.
    + intros z Hz Hz'. rewrite Hx in Hz. injection Hz as <-. exfalso. destruct Hz' as [E|E]; [done|].
      by rewrite E in Hnd.
    + intros c y _. apply Hno.
Qed.

Lemma bread_ok k H L n :
  fs_ready k → cache_inv H (k_fs k) → 0 ≤ n < FSSIZE → unheld H (k_fs k) n →
  (∀ n, dirty_block (k_fs k) n → n ∈ L) → dirty_block (k_fs k) n ∨ (length H + length L < 30)%nat →
  ∃ b s', bread 1 n k = Ok b (set_k_fs s' k) ∧ bread_post H (k_fs k) n b s'.
Proof.
  intros Hr Hc Hn Hu HL Hlen. pose proof Hr as [(p & q & Hin) _ _].
  destruct (find_buf (caches 1 n) (bufs (k_fs k)) (lru (k_fs k))) as [b|] eqn:Hf.
  - destruct (find_buf_Some _ _ _ _ Hf) as (_ & x & Hx & Hca).
    destruct (bread_hit k H p q b x n) as [Hrun Hpost]; [done..|]. eauto.
  - destruct Hlen as [(c & y & Hy & Hdy & Hny & _)|Hlen].
    { pose proof (find_buf_None _ _ _ _ _ Hf (in_lru _ _ _ _ Hc Hy) Hy) as E.
      unfold caches in E. by rewrite (proj2 (Z.eqb_eq _ _) Hdy), (proj2 (Z.eqb_eq _ _) Hny) in E. }
    destruct (recyclable_exists H L _ Hc HL Hlen) as (c & y & Hy & Hrec).
    destruct (find_buf recyclable (bufs (k_fs k)) (reverse (lru (k_fs k)))) as [b|] eqn:Hf2.
    + destruct (find_buf_Some _ _ _ _ Hf2) as (_ & x & Hx & Hre).
      destruct (bread_miss k H p q b x n) as [Hrun Hpost]; [done..|]. eauto.
    + exfalso. rewrite (find_buf_None _ _ _ c y Hf2) in Hrec; [done| |done].
      apply elem_of_reverse. by eapply in_lru.
Qed.

(** ** [brelse] *)
Definition dropped (x : buf) : buf := set_b_refcnt 0 (set_b_lock (mkSleeplock 0 0) x).

Lemma brelse_run k b x :
  fs_ready k → (b < 30)%nat → bufs (k_fs k) !! b = Some x → b_refcnt x = 1 → sl_locked (b_lock x) = 1 →
  brelse b k = Ok tt (mod_fs (λ s, set_lru (to_front b (lru s)) (upd_buf b dropped s)) k).
Proof.
  intros Hr Hb Hx Hrc Hl. unfold brelse.
  rewrite (bind_ok _ _ _ _ _ (holdingsleep_ok (buf_lock b) k (b_lock x) ltac:(by apply buf_avail) ltac:(cbn; by rewrite Hx))).
  rewrite Hl. change (negb (truthy 1)) with false. cbv iota.
  erewrite bind_ok.
  2:{ apply releasesleep_ok; [by apply (buf_avail k b)|by apply (fr_lock k Hr)|done|by apply (fr_quiet k Hr)|..].
      - intros f g s. cbn. by rewrite list_alter_alter_eq.
      - intros f g s Hfg. cbn. f_equal. apply list_alter_ext; [|done]. intros y _. by rewrite Hfg. }
  erewrite bind_ok by (apply acquire_ok; by apply (fr_lock k Hr)).
  rewrite (bind_ok _ _ _ _ _ (mod_buf_ok _ _ _)).
  erewrite bind_ok.
  2:{ apply get_buf_ok. cbn -[upd_buf]. rewrite upd_buf_lookup. cbn. rewrite list_lookup_alter_eq, Hx. reflexivity. }
  cbn [b_refcnt set_b_refcnt set_b_lock]. rewrite Hrc. change (u32 (1 - 1) =? 0) with true.
  rewrite bind_when_true. unfold modf. rewrite bind_modify.
  rewrite (release_ok Lbcache _ (k_mach k)); [|by apply (fr_lock k Hr)|done].
  f_equal. unfold mod_fs, mod_mach, set_k_mach, set_k_fs. cbn -[upd_buf]. f_equal.
  change (set_bufs (alter ?f b ?l) ?s) with (upd_buf b f s).
  rewrite upd_buf_upd. unfold upd_buf, set_lru. cbn. f_equal. apply list_alter_ext; [|done].
  intros y Hy. rewrite Hx in Hy. injection Hy as <-. cbn. rewrite Hrc. by destruct x.
Qed.
End bread.
