(* ===== verification/BlockSpec.v ===== *)
(** The buffer cache as the file layers see it: for every block of disk 1 its
    latest contents, its contents on the disk, and whether it waits for a commit. *)

From S2P Require Import Prelude Params Bytes State Spinlock Procs Sched SchedSpec Bio BioSpec CacheSpec.

(** [C] with [d] at [n]. *)
Definition upd (C : Z → list Z) (n : Z) (d : list Z) : Z → list Z := λ m, if m =? n then d else C m.

Lemma upd_eq C n d : upd C n d n = d.
Proof. unfold upd. by rewrite Z.eqb_refl. Qed.

Lemma upd_ne C n d m : m ≠ n → upd C n d m = C m.
Proof. intros Hne. unfold upd. by rewrite (proj2 (Z.eqb_neq _ _)). Qed.

(** Buffer [b] caches block [n]. *)
Definition has (s : fsys) (b : nat) (n : Z) : Prop :=
  ∃ x, bufs s !! b = Some x ∧ b_dev x = 1 ∧ b_blockno x = n.

(** [h] are the buffers between [bread] and [brelse], with their blocks; [C] the
    contents of the blocks, [D] what the disk has, [Q] the blocks that wait. *)
Record cview (h : list (nat * Z)) (s : fsys) (C D : Z → list Z) (Q : gset Z) : Prop := mkCview {
  cv_inv : cache_inv h.*1 s;
  cv_held : ∀ b n, (b, n) ∈ h → has s b n;
  cv_content : ∀ n, content s n = C n;
  cv_disk : ∀ n, sector s 1 n = D n;
  cv_dirty : ∀ n, dirty_block s n ↔ n ∈ Q
}.

(** Nothing has changed but the cache. *)
Record still (s s' : fsys) : Prop := mkStill {
  st_frame : frame s s';
  st_log : log s' = log s;
  st_writes : dwrites s' = dwrites s
}.

Section blocks.
Implicit Types (k : kernel) (s : fsys) (b c : nat) (x y : buf) (h : list (nat * Z)) (n : Z) (C D : Z → list Z) (Q : gset Z).

Lemma still_refl s : still s s.
Proof. done. Qed.

Lemma still_trans s1 s2 s3 : still s1 s2 → still s2 s3 → still s1 s3.
Proof. intros [] []. split; [by eapply frame_trans|congruence..]. Qed.

Lemma has_buf h s C D Q b n : cview h s C D Q → (b, n) ∈ h →
  ∃ x, bufs s !! b = Some x ∧ b_dev x = 1 ∧ b_blockno x = n ∧ b_data x = C n ∧ 0 ≤ n < FSSIZE ∧
    b_refcnt x = 1 ∧ sl_locked (b_lock x) = 1 ∧ (b_flags x = CLEAN ∧ n ∉ Q ∨ b_flags x = DIRTY ∧ n ∈ Q).
Proof.
  intros Hc Hb. destruct (cv_held _ _ _ _ _ Hc b n Hb) as (x & Hx & Hd & Hn). exists x.
  pose proof (cv_inv _ _ _ _ _ Hc) as Hi.
  destruct (ci_buf _ _ Hi b x Hx) as [_ Hfl Hdev Hdirty Hheld _].
  destruct (Hheld) as (_ & Hr & Hl); [apply list_elem_of_fmap; by exists (b, n)|].
  destruct (Hdev Hd) as [Hf Hrange]. rewrite Hn in Hrange. split_and!; try done; try lia.
  - rewrite <- (cv_content _ _ _ _ _ Hc), <- Hn. by rewrite (content_cached _ _ _ _ Hi Hx Hd).
  - destruct Hfl as [E|[E|E]]; [done|left|right]; split; try done; rewrite <- (cv_dirty _ _ _ _ _ Hc).
    + intros (c & y & Hy & Hdy & Hny & Hfy).
      assert (b = c) as <- by (eapply (ci_uniq _ _ Hi); try done; congruence). rewrite Hx in Hy. injection Hy as <-. by rewrite E in Hfy.
    + by exists b, x.
Qed.

Lemma has_inj h s C D Q b c n : cview h s C D Q → (b, n) ∈ h → (c, n) ∈ h → b = c.
Proof.
  intros Hc Hb Hc'. destruct (cv_held _ _ _ _ _ Hc b n Hb) as (x & Hx & Hd & Hn).
  destruct (cv_held _ _ _ _ _ Hc c n Hc') as (y & Hy & Hdy & Hny).
  eapply (ci_uniq _ _ (cv_inv _ _ _ _ _ Hc)); try done. congruence.
Qed.

Lemma cview_block_ok h s C D Q n : cview h s C D Q → block_ok (C n).
Proof. intros Hc. rewrite <- (cv_content _ _ _ _ _ Hc). eapply content_block_ok, Hc. Qed.

Lemma cache_inv_perm H H' s : H ≡ₚ H' → cache_inv H s → cache_inv H' s.
Proof.
  intros Hp Hc. destruct Hc. split; try done; try (by rewrite <- Hp).
  intros b x Hx. apply (buf_ok_ext s s (b ∈ H)); [done|done|by rewrite Hp|by apply ci_buf].
Qed.

Lemma cview_perm h h' s C D Q : h ≡ₚ h' → cview h s C D Q → cview h' s C D Q.
Proof.
  intros Hp Hc. destruct Hc. split; try done.
  - eapply cache_inv_perm; [|done]. by rewrite Hp.
  - intros b n Hb. apply cv_held0. by rewrite Hp.
Qed.

Lemma cview_range h s C D Q b n : cview h s C D Q → (b, n) ∈ h → 0 ≤ n < FSSIZE.
Proof. intros Hc Hb. destruct (has_buf _ _ _ _ _ _ _ Hc Hb) as (x & _ & _ & _ & _ & Hr & _). done. Qed.

(** A held buffer changes: [x'] takes its place. *)
Lemma cview_upd h s s' C D Q D' Q' b n x x' :
  cview h s C D Q → (b, n) ∈ h → bufs s !! b = Some x →
  bufs s' = <[b := x']> (bufs s) → lru s' = lru s → ide_idle s' →
  (∀ m, sector s' 1 m = D' m) → (∀ m, m ≠ n → D' m = D m) → block_ok (D' n) →
  (∀ m, m ≠ n → m ∈ logged s → m ∈ logged s') → (∀ m, m ≠ n → m ∈ Q' ↔ m ∈ Q) →
  b_dev x' = 1 → b_blockno x' = n → b_refcnt x' = 1 → sl_locked (b_lock x') = 1 → block_ok (b_data x') →
  (b_flags x' = CLEAN ∧ n ∉ Q' ∨ b_flags x' = DIRTY ∧ n ∈ Q' ∧ n ∈ logged s') →
  cview h s' (upd C n (b_data x')) D' Q'.
Proof.
  intros Hc Hb Hx Hbs Hlru Hi HD' HD Hok Hlg HQ Hd Hn Hr Hl Hdok Hfl.
  pose proof (cv_inv _ _ _ _ _ Hc) as Hinv. pose proof (cview_range _ _ _ _ _ _ _ Hc Hb) as Hrange.
  destruct (has_buf _ _ _ _ _ _ _ Hc Hb) as (x0 & Hx0 & Hdx & Hnx & _). rewrite Hx in Hx0. injection Hx0 as <-.
  assert (HbH : b ∈ h.*1) by (apply list_elem_of_fmap; by exists (b, n)).
  assert (Hlt : (b < 30)%nat) by (apply lookup_lt_Some in Hx; by rewrite (ci_len _ _ Hinv) in Hx).
  assert (Hbb : bufs s' !! b = Some x').
  { rewrite Hbs. apply list_lookup_insert_eq. by rewrite (ci_len _ _ Hinv). }
  assert (Hoth : ∀ c y, c ≠ b → bufs s !! c = Some y → b_dev y = 1 → b_blockno y ≠ n).
  { intros c y Hne Hy Hdy Hny. apply Hne. eapply (ci_uniq _ _ Hinv); try done. congruence. }
  assert (Hinv' : cache_inv h.*1 s').
  { eapply (cache_upd h.*1); [done|done|by rewrite Hlru; apply (ci_lru _ _ Hinv)|done| |apply (ci_nodup _ _ Hinv)|done|done| | |].
    - intros m. rewrite HD'. destruct (decide (m = n)) as [->|Hm]; [done|].
      rewrite HD, <- (cv_disk _ _ _ _ _ Hc) by done. apply (ci_disk _ _ Hinv).
    - split; [done|destruct Hfl as [[? _]|[? _]]; auto| | |done|done].
      2:{ intros E. rewrite Hn. destruct Hfl as [[E' _]|(_ & _ & ?)]; [by rewrite E' in E|done]. }
      intros _. rewrite Hn. split; [|done]. by destruct Hfl as [[-> _]|[-> _]].
    - intros c y Hne Hy. pose proof (ci_buf _ _ Hinv c y Hy) as Hcy.
      apply (buf_ok_ext s _ (c ∈ h.*1)); [| |done|done].
      + intros Hf. apply Hlg. apply (Hoth c y); try done. by apply (bo_dirty _ _ _ Hcy).
      + intros Hdy. rewrite HD', HD by (by apply (Hoth c y)). symmetry. apply (cv_disk _ _ _ _ _ Hc).
    - intros _ c y Hne Hy Hdy. rewrite Hn. by apply (Hoth c y). }
  split; [done| | |done|].
  - intros c m Hcm. destruct (cv_held _ _ _ _ _ Hc c m Hcm) as (y & Hy & Hdy & Hny).
    destruct (decide (c = b)) as [->|Hne].
    + exists x'. rewrite Hx in Hy. injection Hy as <-. split_and!; [done..|congruence].
    + exists y. by rewrite Hbs, list_lookup_insert_ne.
  - intros m. destruct (decide (m = n)) as [->|Hm].
    + rewrite upd_eq, <- Hn. by apply (content_cached _ _ b x' Hinv').
    + rewrite upd_ne by done. rewrite <- (cv_content _ _ _ _ _ Hc).
      destruct (cached_dec s m) as [(c & y & Hy & Hdy & <-)|Hno].
      * rewrite (content_cached _ _ _ _ Hinv Hy Hdy). apply (content_cached _ _ c y Hinv'); [|done].
        rewrite Hbs, list_lookup_insert_ne; [done|]. intros <-. rewrite Hx in Hy. by injection Hy as <-.
      * rewrite (content_uncached s) by done. rewrite (content_uncached s').
        { rewrite HD', HD by done. symmetry. apply (cv_disk _ _ _ _ _ Hc). }
        intros c y. rewrite Hbs. intros [(<- & <- & _)|[? Hy]]%list_lookup_insert_Some; [congruence|by eapply Hno].
  - intros m. destruct (decide (m = n)) as [->|Hm].
    + split.
      * intros (c & y & Hy & Hdy & Hny & Hfy). destruct (decide (c = b)) as [->|Hne].
        { rewrite Hbb in Hy. injection Hy as <-. destruct Hfl as [[E _]|[_ [? _]]]; [by rewrite E in Hfy|done]. }
        rewrite Hbs, list_lookup_insert_ne in Hy by done. by destruct (Hoth c y).
      * intros Hq. destruct Hfl as [[_ Hnq]|[Hf _]]; [done|]. by exists b, x'.
    + rewrite HQ, <- (cv_dirty _ _ _ _ _ Hc) by done. split; intros (c & y & Hy & Hdy & Hny & Hfy).
      * rewrite Hbs in Hy. apply list_lookup_insert_Some in Hy as [(<- & <- & _)|[? Hy]]; [congruence|].
        by exists c, y.
      * exists c, y. rewrite Hbs, list_lookup_insert_ne; [done|]. intros <-. congruence.
Qed.
End blocks.

(** ** The operations *)
Section operations.
Context {W : world} {DW : DiskWorld}.
Implicit Types (k : kernel) (s : fsys) (b c : nat) (x y : buf) (h : list (nat * Z)) (n : Z) (C D : Z → list Z) (Q : gset Z).

Lemma cv_bread k h C D Q n :
  fs_ready k → cview h (k_fs k) C D Q → 0 ≤ n < FSSIZE → n ∉ h.*2 →
  n ∈ Q ∨ (length h + size Q < 30)%nat →
  ∃ b s', bread 1 n k = Ok b (set_k_fs s' k) ∧ cview ((b, n) :: h) s' C D Q ∧
    still (k_fs k) s' ∧ (n ∈ Q ∨ C n = D n).
Proof.
  intros Hr Hc Hn Hu Hlen.
  destruct (bread_ok k h.*1 (elements Q) n Hr (cv_inv _ _ _ _ _ Hc) Hn) as (b & s' & Hrun & Hp).
  - intros c x (p & -> & Hp)%list_elem_of_fmap Hx Hnx. destruct p as [c m]. cbn in Hx.
    destruct (cv_held _ _ _ _ _ Hc c m Hp) as (y & Hy & _ & Hm). apply Hu.
    apply list_elem_of_fmap. exists (c, m). split; [|done]. cbn. congruence.
  - intros m Hm. apply elem_of_elements. by apply (cv_dirty _ _ _ _ _ Hc).
  - rewrite (cv_dirty _ _ _ _ _ Hc), length_fmap. done.
  - exists b, s'. destruct Hp as [Hi [Hf Hl Hd Hw Hcs Hds] Hnew (x & Hx & Hdx & Hnx & Hset) Hkeep].
    split_and!; [done| |done|].
    + split; [done| | | |].
      * intros c m [[= -> ->]|Hcm]%elem_of_cons; [by exists x|].
        destruct (cv_held _ _ _ _ _ Hc c m Hcm) as (y & Hy & Hdy & Hny). exists y.
        rewrite Hkeep; [done|]. apply list_elem_of_fmap. by exists (c, m).
      * intros m. rewrite Hcs. apply Hc.
      * intros m. unfold sector. rewrite Hd. apply (cv_disk _ _ _ _ _ Hc).
      * intros m. rewrite Hds. apply Hc.
    + rewrite <- (cv_content _ _ _ _ _ Hc), <- (cv_disk _ _ _ _ _ Hc).
      destruct Hset as [Hf'|?]; [left|by right]. rewrite <- (cv_dirty _ _ _ _ _ Hc), <- Hds. by exists b, x.
Qed.

Lemma cv_bdata k h C D Q b n :
  cview h (k_fs k) C D Q → (b, n) ∈ h → bdata b k = Ok (C n) k.
Proof.
  intros Hc Hb. destruct (has_buf _ _ _ _ _ _ _ Hc Hb) as (x & Hx & _ & _ & <- & _).
  unfold bdata. by rewrite (bind_ok _ _ _ _ _ (get_buf_ok _ _ _ Hx)).
Qed.

Lemma cv_mod_data k h C D Q b n (f : list Z → list Z) :
  cview h (k_fs k) C D Q → (b, n) ∈ h → block_ok (f (C n)) →
  ∃ s', mod_data b f k = Ok tt (set_k_fs s' k) ∧ cview h s' (upd C n (f (C n))) D Q ∧ still (k_fs k) s'.
Proof.
  intros Hc Hb Hok. pose proof (cv_inv _ _ _ _ _ Hc) as Hi.
  destruct (has_buf _ _ _ _ _ _ _ Hc Hb) as (x & Hx & Hd & Hn & Hdat & _ & Hr & Hl & Hfl).
  exists (upd_buf b (λ x, set_b_data (f (b_data x)) x) (k_fs k)). split_and!; [done| |done].
  rewrite <- Hdat. eapply (cview_upd h _ _ C D Q D Q b n x (set_b_data (f (b_data x)) x)); try done.
  - by rewrite (upd_buf_insert _ _ _ x).
  - apply Hi.
  - apply (cv_disk _ _ _ _ _ Hc).
  - rewrite <- (cv_disk _ _ _ _ _ Hc). apply (ci_disk _ _ Hi).
  - cbn. by rewrite Hdat.
  - destruct Hfl as [?|[? ?]]; [by left|right]. split_and!; [done..|]. rewrite <- Hn.
    by apply (bo_dirty _ _ _ (ci_buf _ _ Hi b x Hx)).
Qed.

Lemma upd_same C n : ∀ m, upd C n (C n) m = C m.
Proof. intros m. unfold upd. by destruct (Z.eqb_spec m n) as [->|]. Qed.

Lemma cview_ext h s C C' D D' Q : (∀ n, C n = C' n) → (∀ n, D n = D' n) → cview h s C D Q → cview h s C' D' Q.
Proof. intros HC HD []. split; try done; intros n; [rewrite <- HC|rewrite <- HD]; done. Qed.

Lemma sector_io s b n d m : sector (io_write b n d s) 1 m = upd (sector s 1) n d m.
Proof.
  unfold sector, upd. cbn. destruct (Z.eqb_spec m n) as [->|Hne].
  - by rewrite lookup_insert_eq.
  - rewrite lookup_insert_ne; [done|]. intros [= E]. done.
Qed.

Lemma cv_bwrite k h C D Q b n :
  fs_ready k → cview h (k_fs k) C D Q → (b, n) ∈ h →
  ∃ s', bwrite b k = Ok tt (set_k_fs s' k) ∧ cview h s' C (upd D n (C n)) (Q ∖ {[n]}) ∧
    frame (k_fs k) s' ∧ log s' = log (k_fs k) ∧ dwrites s' = dwrites (k_fs k) ++ [(1, n, C n)].
Proof.
  intros Hrd Hc Hb. pose proof (cv_inv _ _ _ _ _ Hc) as Hi.
  destruct (has_buf _ _ _ _ _ _ _ Hc Hb) as (x & Hx & Hd & Hn & Hdat & Hrange & Hr & Hl & Hfl).
  set (x1 := set_b_flags (Z.lor (b_flags x) B_DIRTY) x).
  set (s1 := upd_buf b (λ x, set_b_flags (Z.lor (b_flags x) B_DIRTY) x) (k_fs k)).
  assert (Hx1 : bufs s1 !! b = Some x1) by (unfold s1; by rewrite upd_buf_lookup, Hx).
  exists (io_write b n (C n) s1). split_and!; [| |done|done|done].
  - unfold bwrite.
    rewrite (bind_ok _ _ _ _ _ (holdingsleep_ok (buf_lock b) k (b_lock x) ltac:(by eapply buf_avail, buf_lt) ltac:(cbn; by rewrite Hx))).
    rewrite Hl. change (negb (truthy 1)) with false. cbv iota.
    rewrite (bind_ok _ _ _ _ _ (mod_buf_ok _ _ _)).
    change (mod_fs _ k) with (set_k_fs s1 k).
    rewrite (iderw_write (set_k_fs s1 k) b x1); cbn -[s1 io_write]; try done.
    + by rewrite Hn, Hdat.
    + by apply fs_ready_fs.
    + by eapply buf_lt.
    + apply (ci_idle _ _ Hi).
    + by rewrite Hl.
    + by rewrite Hn.
    + by destruct Hfl as [[-> _]|[-> _]].
  - apply (cview_ext _ _ (upd C n (b_data (set_b_flags CLEAN x1))) _ (upd D n (C n)) _).
    { intros m. cbn. rewrite Hdat. apply upd_same. }
    { done. }
    eapply (cview_upd h (k_fs k) _ C D Q _ _ b n x); try done.
    + unfold io_write. rewrite (upd_buf_insert _ _ _ x1) by done. cbn -[s1]. unfold s1.
      rewrite (upd_buf_insert _ _ _ x) by done. by rewrite list_insert_insert_eq.
    + apply (ci_idle _ _ Hi).
    + intros m. rewrite sector_io. unfold upd. destruct (m =? n); [done|]. apply (cv_disk _ _ _ _ _ Hc).
    + intros m Hm. by apply upd_ne.
    + rewrite upd_eq. by eapply cview_block_ok.
    + intros m Hm. set_solver.
    + cbn. rewrite Hdat. by eapply cview_block_ok.
    + left. split; [done|set_solver].
Qed.

Lemma to_front_perm b (l : list nat) : NoDup l → b ∈ l → to_front b l ≡ₚ l.
Proof.
  intros Hnd Hb. unfold to_front. apply NoDup_Permutation; [|done|].
  - constructor; [rewrite list_elem_of_filter; naive_solver|by apply NoDup_filter].
  - intros c. rewrite elem_of_cons, list_elem_of_filter. destruct (decide (c = b)); naive_solver.
Qed.

Lemma cv_brelse k h C D Q b n :
  fs_ready k → cview ((b, n) :: h) (k_fs k) C D Q → n ∈ Q ∨ C n = D n →
  ∃ s', brelse b k = Ok tt (set_k_fs s' k) ∧ cview h s' C D Q ∧ still (k_fs k) s'.
Proof.
  intros Hrd Hc Hset. pose proof (cv_inv _ _ _ _ _ Hc) as Hi.
  assert (Hb : (b, n) ∈ (b, n) :: h) by left.
  destruct (has_buf _ _ _ _ _ _ _ Hc Hb) as (x & Hx & Hd & Hn & Hdat & Hrange & Hr & Hl & Hfl).
  assert (Hlt : (b < 30)%nat) by (apply lookup_lt_Some in Hx; by rewrite (ci_len _ _ Hi) in Hx).
  pose proof (ci_nodup _ _ Hi) as [Hnb Hnd]%NoDup_cons.
  set (s' := set_lru (to_front b (lru (k_fs k))) (upd_buf b dropped (k_fs k))).
  assert (Hbs : bufs s' = <[b := dropped x]> (bufs (k_fs k))) by (by apply (upd_buf_insert _ _ _ x)).
  assert (Hinv : cache_inv h.*1 s').
  { eapply (cache_upd (b :: h.*1)); [exact Hi|exact Hbs| |apply (ci_idle _ _ Hi)|apply (ci_disk _ _ Hi)|done|done| | | |].
    - change (to_front b (lru (k_fs k)) ≡ₚ seq 0 30). rewrite to_front_perm; [apply (ci_lru _ _ Hi)| |by eapply in_lru].
      rewrite (ci_lru _ _ Hi). apply NoDup_seq.
    - intros c Hne. rewrite elem_of_cons. naive_solver.
    - destruct (ci_buf _ _ Hi b x Hx) as [H1 H2 H3 H4 _ _]. split; [done..|]. intros _. split_and!; [done..|].
      intros _ Hcl. cbn in Hcl |- *. change (sector s' 1 (b_blockno x)) with (sector (k_fs k) 1 (b_blockno x)).
      rewrite Hn, Hdat, (cv_disk _ _ _ _ _ Hc). destruct Hset as [HQ|?]; [|done].
      destruct Hfl as [[_ ?]|[E _]]; [done|]. by rewrite E in Hcl.
    - intros c y Hne Hy. apply (buf_ok_ext (k_fs k) _ (c ∈ b :: h.*1)); [done|done| |by apply (ci_buf _ _ Hi)].
      rewrite elem_of_cons. naive_solver.
    - intros _ c y Hne Hy Hdy Hny. apply Hne. eapply (ci_uniq _ _ Hi); try done. }
  exists s'. split_and!; [rewrite (brelse_run k b x); try done; by eapply buf_lt, Hx| |done]. split; [done| | |apply Hc|].
  - intros c m Hcm. destruct (cv_held _ _ _ _ _ Hc c m) as (y & Hy & Hdy & Hny); [by right|].
    exists y. rewrite Hbs, list_lookup_insert_ne; [done|]. intros <-. apply Hnb.
    apply list_elem_of_fmap. by exists (b, m).
  - intros m. rewrite <- (cv_content _ _ _ _ _ Hc).
    eapply (content_same (b :: h.*1) h.*1 (k_fs k) s' b (dropped x)); try done.
    + intros _. cbn. by rewrite (content_cached _ _ _ _ Hi Hx Hd).
    + intros z Hz _. rewrite Hx in Hz. injection Hz as <-. by left.
  - intros m. rewrite <- (cv_dirty _ _ _ _ _ Hc). split; intros (c & y & Hy & Hrest).
    + rewrite Hbs in Hy. apply list_lookup_insert_Some in Hy as [(<- & <- & _)|[? Hy]]; [by exists b, x|by exists c, y].
    + destruct (decide (c = b)) as [->|Hne].
      * exists b, (dropped x). rewrite Hx in Hy. injection Hy as <-. split; [|done].
        rewrite Hbs. apply list_lookup_insert_eq. by rewrite (ci_len _ _ Hi).
      * exists c, y. by rewrite Hbs, list_lookup_insert_ne.
Qed.
End operations.
