(* ===== verification/Log.v ===== *)
(** The log, [log.c], and [readsb] of [fs.c].

    A transaction's blocks are copied to the log area, the header block is
    written (this commits the transaction), the blocks are copied to their home
    locations, and the header is cleared. *)

From S2P Require Import Prelude Params Bytes State Spinlock Procs Sched Bio.

Definition getl {A} (f : logst → A) : K A := getf (λ s, f (log s)).
Definition modl (f : logst → logst) : K unit := modf (λ s, set_log (f (log s)) s).
Definition mod_lh (f : logheader → logheader) : K unit := modl (λ l, set_lh (f (lh l)) l).
Arguments getl _ _ _ /.
Arguments modl _ _ /.
Arguments mod_lh _ _ /.

(** [log.lh.block[i]] *)
Definition get_lh_block (i : Z) : K Z := l ← getl lh; or_ub "lh.block" (aget (lh_block l) i).
Definition set_lh_block_at (i v : Z) : K unit :=
  l ← getl lh; bs ← or_ub "lh.block" (aset (lh_block l) i v); mod_lh (set_lh_block bs).

(** [struct superblock] and [struct logheader] in a block. *)
Definition sb_of_block (d : list Z) : superblock :=
  mkSuperblock (get32 d 0) (get32 d 4) (get32 d 8) (get32 d 12) (get32 d 16) (get32 d 20) (get32 d 24).
Definition hb_n (d : list Z) : Z := s32 (get32 d 0).
Definition hb_block (d : list Z) (i : Z) : Z := s32 (get32 d (Z.to_nat (4 + 4 * i))).

Section log.
Context `{world}.

Definition readsb (dev : Z) : K superblock :=
  bp ← bread dev 1;
  d ← bdata bp;
  brelse bp;;
  ret (sb_of_block d).

(** [for (tail = 0; tail < log.lh.n; tail++)] *)
Fixpoint log_loop (fuel : nat) (tail : Z) (body : Z → K unit) : K unit :=
  n ← getl (lh_n ∘ lh);
  if tail <? n then
    match fuel with
    | O => fail OutOfFuel
    | S fuel => body tail;; log_loop fuel (tail + 1) body
    end
  else ret tt.
Definition for_log (body : Z → K unit) : K unit :=
  n ← getl (lh_n ∘ lh); log_loop (Z.to_nat n) 0 body.

Definition install_one (tail : Z) : K unit :=
  l ← gets (λ k, log (k_fs k));
  lbuf ← bread (log_dev l) (log_start l + tail + 1);
  blk ← get_lh_block tail;
  dbuf ← bread (log_dev l) blk;
  d ← bdata lbuf;
  mod_data dbuf (λ _, d);;
  bwrite dbuf;;
  brelse lbuf;;
  brelse dbuf.
Definition install_trans : K unit := for_log install_one.

Definition read_head : K unit :=
  l ← gets (λ k, log (k_fs k));
  buf ← bread (log_dev l) (log_start l);
  d ← bdata buf;
  mod_lh (set_lh_n (hb_n d));;
  for_log (λ i, set_lh_block_at i (hb_block d i));;
  brelse buf.

Definition write_head : K unit :=
  l ← gets (λ k, log (k_fs k));
  buf ← bread (log_dev l) (log_start l);
  n ← getl (lh_n ∘ lh);
  mod_data buf (λ d, put32 d 0 n);;
  for_log (λ i, v ← get_lh_block i; mod_data buf (λ d, put32 d (Z.to_nat (4 + 4 * i)) v));;
  bwrite buf;;
  brelse buf.

Definition recover_from_log : K unit :=
  read_head;;
  install_trans;;
  mod_lh (set_lh_n 0);;
  write_head.

(** [sizeof(struct logheader)] is [4 + 4 * LOGSIZE]. *)
Definition initlog (dev : Z) : K unit :=
  if BSIZE <=? 4 + 4 * LOGSIZE then panic "initlog: too big logheader" else
  initlock Llog "log";;
  s ← readsb dev;
  modl (set_log_start (sb_logstart s));;
  modl (set_log_size (sb_nlog s));;
  modl (set_log_dev dev);;
  recover_from_log.

Fixpoint begin_wait (fuel : nat) : K unit :=
  l ← gets (λ k, log (k_fs k));
  if truthy (committing l) || (LOGSIZE <? lh_n (lh l) + (outstanding l + 1) * MAXOPBLOCKS) then
    match fuel with
    | O => fail OutOfFuel
    | S fuel => sleep Clog Llog;; begin_wait fuel
    end
  else
    modl (set_outstanding (outstanding l + 1));;
    release Llog.
Definition begin_op : K unit := acquire Llog;; begin_wait patience.

Definition write_one (tail : Z) : K unit :=
  l ← gets (λ k, log (k_fs k));
  to ← bread (log_dev l) (log_start l + tail + 1);
  blk ← get_lh_block tail;
  from ← bread (log_dev l) blk;
  d ← bdata from;
  mod_data to (λ _, d);;
  bwrite to;;
  brelse from;;
  brelse to.
Definition write_log : K unit := for_log write_one.

Definition commit : K unit :=
  n ← getl (lh_n ∘ lh);
  when (0 <? n) (
    write_log;;
    write_head;;
    install_trans;;
    mod_lh (set_lh_n 0);;
    write_head).

Definition end_op : K unit :=
  acquire Llog;;
  modl (λ l, set_outstanding (outstanding l - 1) l);;
  l ← gets (λ k, log (k_fs k));
  if truthy (committing l) then panic "log.committing" else
  do_commit ← (
    if outstanding l =? 0 then modl (set_committing 1);; ret true
    else wakeup (Some Clog);; ret false);
  release Llog;;
  when do_commit (
    commit;;
    acquire Llog;;
    modl (set_committing 0);;
    wakeup (Some Clog);;
    release Llog).

(** The place of [blockno] in the header, or the first free place. *)
Fixpoint absorb (fuel : nat) (i blockno : Z) : K Z :=
  n ← getl (lh_n ∘ lh);
  if i <? n then
    v ← get_lh_block i;
    if v =? blockno then ret i
    else
      match fuel with
      | O => fail OutOfFuel
      | S fuel => absorb fuel (i + 1) blockno
      end
  else ret i.

Definition log_write (b : nat) : K unit :=
  l ← gets (λ k, log (k_fs k));
  let n := lh_n (lh l) in
  if (LOGSIZE <=? n) || (log_size l - 1 <=? n) then panic "too big a transaction" else
  if outstanding l <? 1 then panic "log_write outside of trans" else
  acquire Llog;;
  x ← get_buf b;
  i ← absorb (Z.to_nat n) 0 (b_blockno x);
  set_lh_block_at i (b_blockno x);;
  when (i =? n) (mod_lh (set_lh_n (n + 1)));;
  mod_buf b (λ x, set_b_flags (Z.lor (b_flags x) B_DIRTY) x);;
  release Llog.
End log.

#[global] Arguments readsb : simpl never.
#[global] Arguments install_one : simpl never.
#[global] Arguments write_one : simpl never.
#[global] Arguments read_head : simpl never.
#[global] Arguments write_head : simpl never.
#[global] Arguments begin_op : simpl never.
#[global] Arguments end_op : simpl never.
#[global] Arguments commit : simpl never.
#[global] Arguments log_write : simpl never.
