(* ===== verification/LogSpec.v ===== *)
(** Transactions: what [log_write] records, and what the blocks read as until
    [end_op]. *)

From S2P Require Import Prelude Params Bytes State Spinlock Procs Sched SchedSpec Bio BioSpec CacheSpec BlockSpec Log.

(** The log's place on the disk, as [mkfs] lays it out. *)
Record log_ok (l : logst) : Prop := mkLogOk {
  lo_dev : log_dev l = 1;
  lo_size : log_size l = LOGSIZE;
  lo_start : 0 ≤ log_start l ∧ log_start l + LOGSIZE ≤ FSSIZE;
  lo_len : length (lh_block (lh l)) = 30%nat;
  lo_n : 0 ≤ lh_n (lh l) < LOGSIZE
}.

(** A block outside the log. *)
Definition home (start n : Z) : Prop := 0 ≤ n < FSSIZE ∧ (n < start ∨ start + LOGSIZE ≤ n).

(** Inside a transaction: [C] the contents of the blocks, [D] the disk, at most
    [m] blocks logged. *)
Record tx (h : list (nat * Z)) (s : fsys) (C D : Z → list Z) (m : nat) : Prop := mkTx {
  tx_view : cview h s C D (list_to_set (logged s));
  tx_log : log_ok (log s);
  tx_out : 1 ≤ outstanding (log s);
  tx_nodup : NoDup (logged s);
  tx_home : Forall (home (log_start (log s))) (logged s);
  tx_len : (length (logged s) ≤ m)%nat
}.

(** Within a transaction only the header of the log and the cache change. *)
Record tstep (s s' : fsys) : Prop := mkTstep {
  ts_frame : frame s s';
  ts_log : ∃ x, log s' = set_lh x (log s);
  ts_writes : dwrites s' = dwrites s
}.

Lemma size_list_to_set_le (l : list Z) : (size (list_to_set l : gset Z) ≤ length l)%nat.
Proof.
  induction l as [|x l IH]; [done|]. rewrite list_to_set_cons.
  pose proof (size_union_alt {[x]} (list_to_set l : gset Z)) as E. rewrite E, size_singleton. cbn.
  pose proof (subseteq_size (list_to_set l ∖ {[x]}) (list_to_set l : gset Z) ltac:(set_solver)). lia.
Qed.

Section log_specs.
Context {W : world} {DW : DiskWorld}.
Implicit Types (k : kernel) (s : fsys) (b : nat) (h : list (nat * Z)) (n : Z) (C D : Z → list Z) (Q : gset Z).

Lemma tstep_still s s' : still s s' → tstep s s'.
Proof. intros [Hf Hl Hw]. split; [done| |done]. exists (lh (log s)). rewrite Hl. by destruct (log s). Qed.

Lemma tstep_refl s : tstep s s.
Proof. by apply tstep_still. Qed.

Lemma tstep_trans s1 s2 s3 : tstep s1 s2 → tstep s2 s3 → tstep s1 s3.
Proof.
  intros [Hf [x Hl] Hw] [Hf' [y Hl'] Hw']. split; [by eapply frame_trans| |congruence].
  exists y. by rewrite Hl', Hl.
Qed.

Lemma logged_length s : log_ok (log s) → length (logged s) = Z.to_nat (lh_n (lh (log s))).
Proof.
  intros [_ _ _ Hl Hn]. unfold logged. rewrite length_take, Hl. unfold LOGSIZE, MAXOPBLOCKS in Hn. lia.
Qed.

Lemma tx_still h h' s s' C C' D m :
  tx h s C D m → still s s' → cview h' s' C' D (list_to_set (logged s)) → tx h' s' C' D m.
Proof.
  intros [] [_ Hl _] Hc. split; unfold logged in *; by rewrite ?Hl.
Qed.

(** ** [absorb] *)
Lemma get_lh_block_ok k (i : nat) v :
  lh_block (lh (log (k_fs k))) !! i = Some v → get_lh_block (Z.of_nat i) k = Ok v k.
Proof. intros Hv. unfold get_lh_block. cbn. by rewrite aget_nat, Hv. Qed.

Lemma absorb_ok k n (i f : nat) :
  log_ok (log (k_fs k)) → (i + f = length (logged (k_fs k)))%nat → n ∉ take i (logged (k_fs k)) →
  ∃ j : nat, absorb f (Z.of_nat i) n k = Ok (Z.of_nat j) k ∧
    (logged (k_fs k) !! j = Some n ∨ n ∉ logged (k_fs k) ∧ j = length (logged (k_fs k))).
Proof.
  intros Hlo. pose proof (logged_length _ Hlo) as Hlen. set (L := logged (k_fs k)) in *.
  revert i. induction f as [|f IH]; intros i Hi Hni; cbn [absorb].
  - unfold getl, getf. rewrite bind_gets. cbn -[absorb]. rewrite (proj2 (Z.ltb_ge _ _)) by lia.
    exists i. split; [done|]. right. split; [|lia]. rewrite take_ge in Hni by lia. done.
  - unfold getl, getf. rewrite bind_gets. cbn -[absorb bind]. rewrite (proj2 (Z.ltb_lt _ _)) by lia.
    destruct (lookup_lt_is_Some_2 L i) as [v Hv]; [lia|].
    rewrite (bind_ok _ _ _ v k).
    2:{ apply get_lh_block_ok. unfold L, logged in Hv. by apply lookup_take_Some in Hv as [? _]. }
    destruct (Z.eqb_spec v n) as [->|Hne]; [exists i; by auto|].
    replace (Z.of_nat i + 1) with (Z.of_nat (S i)) by lia. apply IH; [lia|].
    rewrite (take_S_r _ _ v) by done. rewrite elem_of_app, list_elem_of_singleton. naive_solver.
Qed.

(** ** [log_write] *)

(** A block that is in the log already takes no further place. *)
Definition absorbed (n : Z) (s s' : fsys) : Prop :=
  n ∈ logged s ∧ logged s' = logged s ∨ n ∉ logged s ∧ logged s' = logged s ++ [n].

Lemma absorbed_in n s s' : absorbed n s s' → n ∈ logged s'.
Proof. intros [[? ->]|[_ ->]]; [done|]. rewrite elem_of_app, list_elem_of_singleton. by right. Qed.

Lemma log_write_absorbs k h C D m b n :
  fs_ready k → tx h (k_fs k) C D m → (m < 29)%nat → (b, n) ∈ h → home (log_start (log (k_fs k))) n →
  ∃ s', log_write b k = Ok tt (set_k_fs s' k) ∧ tx h s' C D (S m) ∧ tstep (k_fs k) s' ∧ absorbed n (k_fs k) s'.
Proof.
  intros Hr Htx Hm Hb Hhome. pose proof Htx as [Hc Hlo Hout Hnd Hh Hlm].
  destruct (has_buf _ _ _ _ _ _ _ Hc Hb) as (x & Hx & Hd & Hn & Hdat & Hrange & Hrc & Hl & Hfl).
  pose proof (logged_length _ Hlo) as Hlen. set (s := k_fs k) in *. set (L := logged s) in *.
  pose proof (lo_n _ Hlo) as Hn0. set (nn := lh_n (lh (log s))) in *.
  destruct (absorb_ok (mod_mach (hold Llog) k) n 0 (length L)) as (j & Hj & Hjl); [done|done|apply not_elem_of_nil|].
  change (logged (k_fs (mod_mach (hold Llog) k))) with L in Hjl.
  assert (HjL : (j ≤ length L)%nat) by (destruct Hjl as [E%lookup_lt_Some|[_ ->]]; lia).
  set (lb := <[j := n]> (lh_block (lh (log s)))).
  set (lh' := mkLogheader (if Z.of_nat j =? nn then nn + 1 else nn) lb).
  set (s' := upd_buf b (λ x, set_b_flags (Z.lor (b_flags x) B_DIRTY) x) (set_log (set_lh lh' (log s)) s)).
  assert (Hlb : length lb = 30%nat) by (unfold lb; rewrite length_insert; apply Hlo).
  assert (HL' : (n ∈ L ∧ logged s' = L) ∨ (n ∉ L ∧ logged s' = L ++ [n])).
  { unfold logged. change (log s') with (set_lh lh' (log s)). cbn [lh set_lh lh_n lh_block lh'].
    destruct Hjl as [Hj1|[Hj1 ->]].
    - left. split; [by eapply list_elem_of_lookup_2|]. pose proof Hj1 as Hjlt%lookup_lt_Some.
      rewrite (proj2 (Z.eqb_neq _ _)) by lia. unfold lb. rewrite list_insert_id; [done|].
      unfold L, logged in Hj1. by apply lookup_take_Some in Hj1 as [? _].
    - right. split; [done|]. rewrite (proj2 (Z.eqb_eq _ _)) by lia.
      replace (Z.to_nat (nn + 1)) with (S (Z.to_nat nn)) by lia. rewrite (take_S_r _ _ n).
      + f_equal. unfold lb. rewrite Hlen, take_insert_ge by lia. done.
      + unfold lb. rewrite Hlen. apply list_lookup_insert_eq. rewrite (lo_len _ Hlo). unfold LOGSIZE, MAXOPBLOCKS in Hn0. lia. }
  exists s'. split_and!.
  - unfold log_write. rewrite bind_gets. fold s nn. cbv zeta. rewrite (lo_size _ Hlo).
    rewrite (proj2 (Z.leb_gt _ _)) by lia. rewrite (proj2 (Z.leb_gt _ _)) by (unfold LOGSIZE, MAXOPBLOCKS in *; lia).
    cbn [orb]. rewrite (proj2 (Z.ltb_ge _ _)) by lia.
    rewrite (bind_ok _ _ _ _ _ (acquire_ok Llog k ltac:(by apply (fr_lock k Hr)))).
    erewrite bind_ok by (apply get_buf_ok; exact Hx). rewrite Hn, <- Hlen.
    change 0 with (Z.of_nat 0). rewrite (bind_ok _ _ _ _ _ Hj).
    unfold set_lh_block_at. rewrite bind_assoc. unfold getl, getf. rewrite bind_gets.
    cbn [k_fs mod_mach set_k_mach]. fold s. rewrite aset_nat by (rewrite (lo_len _ Hlo); unfold LOGSIZE, MAXOPBLOCKS in Hn0; lia).
    rewrite bind_assoc, bind_or_ub. fold lb. unfold mod_lh, modl, modf. rewrite bind_modify.
    set (k2 := mod_fs (λ s0, set_log (set_lh (set_lh_block lb (lh (log s0))) (log s0)) s0) (mod_mach (hold Llog) k)).
    rewrite (bind_ok _ _ _ tt (mod_fs (λ s0, set_log (set_lh lh' (log s0)) s0) (mod_mach (hold Llog) k))).
    2:{ unfold when, lh'. destruct (Z.of_nat j =? nn); [done|]. unfold k2, ret. f_equal. }
    rewrite (bind_ok _ _ _ _ _ (mod_buf_ok _ _ _)).
    rewrite (release_ok Llog _ (k_mach k)); [|by apply (fr_lock k Hr)|done]. done.
  - assert (Hc' : cview h s' (upd C n (b_data (set_b_flags DIRTY x))) D (list_to_set (logged s'))).
    { eapply (cview_upd h s s' C D _ D _ b n x (set_b_flags DIRTY x)); try done.
      - unfold s'. rewrite (upd_buf_insert _ _ _ x) by done. cbn. f_equal.
        by destruct Hfl as [[-> _]|[-> _]].
      - apply (ci_idle _ _ (cv_inv _ _ _ _ _ Hc)).
      - apply (cv_disk _ _ _ _ _ Hc).
      - rewrite <- (cv_disk _ _ _ _ _ Hc). apply (ci_disk _ _ (cv_inv _ _ _ _ _ Hc)).
      - intros mm _ Hmm. destruct HL' as [[_ ->]|[_ ->]]; [done|]. apply elem_of_app. by left.
      - intros mm Hmm. rewrite !elem_of_list_to_set. destruct HL' as [[_ ->]|[_ ->]]; [done|].
        rewrite elem_of_app, list_elem_of_singleton. naive_solver.
      - cbn. rewrite Hdat. by eapply cview_block_ok.
      - right. split; [done|]. rewrite elem_of_list_to_set.
        destruct HL' as [[? ->]|[_ ->]]; [done|]. rewrite elem_of_app, list_elem_of_singleton. naive_solver. }
    split.
    + eapply cview_ext; [|done|exact Hc']. intros q. cbn. rewrite Hdat. apply upd_same.
    + destruct Hlo. split; cbn; try done.
      destruct (Z.of_nat j =? nn); unfold LOGSIZE, MAXOPBLOCKS in *; lia.
    + done.
    + destruct HL' as [[_ ->]|[? ->]]; [done|]. apply NoDup_app. split_and!; [done| |apply NoDup_singleton].
      intros y Hy ->%list_elem_of_singleton. done.
    + cbn. destruct HL' as [[_ ->]|[? ->]]; [done|]. by apply Forall_app_2, Forall_singleton.
    + destruct HL' as [[_ ->]|[? ->]]; [lia|]. rewrite length_app. cbn. lia.
  - split; [done| |done]. by exists lh'.
  - exact HL'.
Qed.

(** ** Blocks in a transaction *)
Lemma tx_bread k h C D m n :
  fs_ready k → tx h (k_fs k) C D m → 0 ≤ n < FSSIZE → n ∉ h.*2 → (length h + m < 30)%nat →
  ∃ b s', bread 1 n k = Ok b (set_k_fs s' k) ∧ tx ((b, n) :: h) s' C D m ∧ still (k_fs k) s' ∧
    (n ∈ logged s' ∨ C n = D n).
Proof.
  intros Hr Htx Hn Hu Hlen. destruct (cv_bread k h C D _ n Hr (tx_view _ _ _ _ _ Htx) Hn Hu)
    as (b & s' & Hrun & Hc & Hst & Hset).
  { right. pose proof (tx_len _ _ _ _ _ Htx). pose proof (size_list_to_set_le (logged (k_fs k))). lia. }
  exists b, s'. split_and!; [done|by eapply tx_still|done|].
  rewrite elem_of_list_to_set in Hset. unfold logged in *. by rewrite (st_log _ _ Hst).
Qed.

Lemma tx_bdata k h C D m b n : tx h (k_fs k) C D m → (b, n) ∈ h → bdata b k = Ok (C n) k.
Proof. intros Htx. eapply cv_bdata, Htx. Qed.

Lemma tx_brelse k h C D m b n :
  fs_ready k → tx ((b, n) :: h) (k_fs k) C D m → n ∈ logged (k_fs k) ∨ C n = D n →
  ∃ s', brelse b k = Ok tt (set_k_fs s' k) ∧ tx h s' C D m ∧ still (k_fs k) s'.
Proof.
  intros Hr Htx Hset. destruct (cv_brelse k h C D _ b n Hr (tx_view _ _ _ _ _ Htx)) as (s' & Hrun & Hc & Hst).
  { by rewrite elem_of_list_to_set. }
  exists s'. split_and!; [done|by eapply tx_still|done].
Qed.

(** A change of a block, and its record in the log. *)
Lemma tx_write_absorbs k h C D m b n f :
  fs_ready k → tx h (k_fs k) C D m → (m < 29)%nat → (b, n) ∈ h → home (log_start (log (k_fs k))) n →
  block_ok (f (C n)) →
  ∃ s', (mod_data b f;; log_write b) k = Ok tt (set_k_fs s' k) ∧ tx h s' (upd C n (f (C n))) D (S m) ∧
    tstep (k_fs k) s' ∧ absorbed n (k_fs k) s'.
Proof.
  intros Hr Htx Hm Hb Hh Hok.
  destruct (cv_mod_data k h C D _ b n f (tx_view _ _ _ _ _ Htx) Hb Hok) as (s1 & Hrun1 & Hc1 & Hst1).
  pose proof (tx_still _ _ _ _ _ _ _ _ Htx Hst1 Hc1) as Htx1.
  destruct (log_write_absorbs (set_k_fs s1 k) h _ D m b n (fs_ready_fs _ _ Hr) Htx1 Hm Hb) as (s' & Hrun & Htx' & Hts & Hin).
  { cbn. by rewrite (st_log _ _ Hst1). }
  exists s'. split_and!; [|done| |].
  - by rewrite (bind_ok _ _ _ _ _ Hrun1).
  - eapply tstep_trans; [by apply tstep_still|done].
  - unfold absorbed, logged in *. cbn in Hin. by rewrite (st_log _ _ Hst1) in Hin.
Qed.

Lemma tx_write k h C D m b n f :
  fs_ready k → tx h (k_fs k) C D m → (m < 29)%nat → (b, n) ∈ h → home (log_start (log (k_fs k))) n →
  block_ok (f (C n)) →
  ∃ s', (mod_data b f;; log_write b) k = Ok tt (set_k_fs s' k) ∧ tx h s' (upd C n (f (C n))) D (S m) ∧
    tstep (k_fs k) s' ∧ n ∈ logged s'.
Proof.
  intros Hr Htx Hm Hb Hh Hok. destruct (tx_write_absorbs k h C D m b n f Hr Htx Hm Hb Hh Hok) as (s' & ? & ? & ? & ?%absorbed_in).
  by exists s'.
Qed.

(** Reading block [n] leaves everything as it is. *)
Lemma tx_read {A} k h C D m n (f : list Z → A) :
  fs_ready k → tx h (k_fs k) C D m → 0 ≤ n < FSSIZE → n ∉ h.*2 → (length h + m < 30)%nat →
  ∃ s', (b ← bread 1 n; d ← bdata b; brelse b;; ret (f d)) k = Ok (f (C n)) (set_k_fs s' k) ∧
    tx h s' C D m ∧ still (k_fs k) s'.
Proof.
  intros Hr Htx Hn Hu Hlen.
  destruct (tx_bread k h C D m n Hr Htx Hn Hu Hlen) as (b & s1 & Hrun1 & Htx1 & Hst1 & Hset).
  destruct (tx_brelse (set_k_fs s1 k) h C D m b n (fs_ready_fs _ _ Hr) Htx1 Hset) as (s' & Hrun & Htx' & Hst).
  exists s'. split_and!; [|done|by eapply still_trans].
  rewrite (bind_ok _ _ _ _ _ Hrun1). erewrite bind_ok by (eapply (tx_bdata (set_k_fs s1 k)); [done|left]).
  by rewrite (bind_ok _ _ _ _ _ Hrun).
Qed.

(** Changing block [n], from [bread] to [brelse]. *)
Lemma tx_change k h C D m n f :
  fs_ready k → tx h (k_fs k) C D m → home (log_start (log (k_fs k))) n → n ∉ h.*2 →
  (length h + m < 30)%nat → (m < 29)%nat → block_ok (f (C n)) →
  ∃ s', (b ← bread 1 n; mod_data b f;; log_write b;; brelse b) k = Ok tt (set_k_fs s' k) ∧
    tx h s' (upd C n (f (C n))) D (S m) ∧ tstep (k_fs k) s'.
Proof.
  intros Hr Htx Hh Hu Hlen Hm Hok. pose proof Hh as [Hn _].
  destruct (tx_bread k h C D m n Hr Htx Hn Hu Hlen) as (b & s1 & Hrun1 & Htx1 & Hst1 & Hset).
  destruct (tx_write (set_k_fs s1 k) _ C D m b n f (fs_ready_fs _ _ Hr) Htx1 Hm) as (s2 & Hrun2 & Htx2 & Hst2 & Hin);
    [left|cbn; by rewrite (st_log _ _ Hst1)|done|].
  destruct (tx_brelse (set_k_fs s2 k) h _ D (S m) b n (fs_ready_fs _ _ Hr) Htx2) as (s' & Hrun & Htx' & Hst); [by left|].
  exists s'. split_and!; [|done|].
  - rewrite (bind_ok _ _ _ _ _ Hrun1). rewrite (seq2_ok _ _ _ _ _ _ Hrun2). exact Hrun.
  - eapply tstep_trans; [by apply tstep_still|]. eapply tstep_trans; [done|by apply tstep_still].
Qed.
End log_specs.
