(* ===== verification/CommitSpec.v ===== *)
(** Committing and recovering: [commit], [end_op] and [recover_from_log] ([log.c]). *)

From S2P Require Import Prelude Params Bytes State Spinlock Procs Sched SchedSpec Bio BioSpec CacheSpec BlockSpec Log LogSpec.

(** ** The header block *)
Fixpoint put_blocks (d : list Z) (i : nat) (L : list Z) : list Z :=
  match L with
  | [] => d
  | v :: L => put_blocks (put32 d (4 + 4 * i) v) (S i) L
  end.
(** What [write_head] makes of the header block [d]. *)
Definition header (d : list Z) (L : list Z) : list Z := put_blocks (put32 d 0 (Z.of_nat (length L))) 0 L.
(** The block numbers in header block [d]. *)
Definition hb_blocks (d : list Z) : list Z := (λ i, hb_block d (Z.of_nat i)) <$> seq 0 (Z.to_nat (hb_n d)).

Section header.
Implicit Types (d L : list Z).

Lemma block_ok_put32 d o v : block_ok d → (o + 4 ≤ 512)%nat → block_ok (put32 d o v).
Proof.
  intros [Hl Hb] Ho. split; [by rewrite length_put32 by lia|]. apply bytes_splice; [done|apply le_bytes_ok].
Qed.

Lemma put_blocks_ok d i L : block_ok d → (i + length L ≤ 30)%nat → block_ok (put_blocks d i L).
Proof.
  revert d i. induction L as [|v L IH]; intros d i Hd Hl; [done|]. cbn [put_blocks length] in *.
  apply IH; [|lia]. apply block_ok_put32; [done|lia].
Qed.

Lemma put_blocks_low d i L o : block_ok d → (i + length L ≤ 30)%nat → (o + 4 ≤ 4 + 4 * i)%nat →
  get32 (put_blocks d i L) o = get32 d o.
Proof.
  revert d i. induction L as [|v L IH]; intros d i Hd Hl Ho; [done|]. cbn [put_blocks length] in *.
  rewrite IH; [|apply block_ok_put32; [done|lia]|lia|lia].
  apply get32_put32_ne; [rewrite (proj1 Hd); lia|lia].
Qed.

Lemma put_blocks_at d i L j v : block_ok d → (i + length L ≤ 30)%nat → L !! j = Some v →
  get32 (put_blocks d i L) (4 + 4 * (i + j)) = u32 v.
Proof.
  revert d i j. induction L as [|w L IH]; intros d i j Hd Hl Hj; [done|]. cbn [put_blocks length] in *.
  assert (Hok : block_ok (put32 d (4 + 4 * i) w)) by (apply block_ok_put32; [done|lia]).
  destruct j as [|j].
  - injection Hj as ->. rewrite put_blocks_low; [|done|lia|lia]. rewrite Nat.add_0_r.
    apply get32_put32_eq. rewrite (proj1 Hd). lia.
  - replace (i + S j)%nat with (S i + j)%nat by lia. by apply IH; [|lia|].
Qed.

Lemma header_ok d L : block_ok d → (length L ≤ 30)%nat → block_ok (header d L).
Proof. intros Hd Hl. apply put_blocks_ok; [|lia]. apply block_ok_put32; [done|lia]. Qed.

Lemma header_n d L : block_ok d → (length L ≤ 30)%nat → hb_n (header d L) = Z.of_nat (length L).
Proof.
  intros Hd Hl. unfold hb_n, header. rewrite put_blocks_low; [|apply block_ok_put32; [done|lia]|lia|lia].
  rewrite get32_put32_eq by lia. rewrite u32_small by lia. apply s32_small. lia.
Qed.

Lemma header_blocks d L : block_ok d → (length L ≤ 30)%nat → Forall (λ n, 0 ≤ n < FSSIZE) L →
  hb_blocks (header d L) = L.
Proof.
  intros Hd Hl HL. unfold hb_blocks. rewrite header_n by done. rewrite Nat2Z.id.
  apply list_eq. intros j. rewrite list_lookup_fmap. destruct (decide (j < length L)%nat) as [Hj|Hj].
  - rewrite lookup_seq_lt by done. cbn. destruct (lookup_lt_is_Some_2 L j Hj) as [v Hv]. rewrite Hv. f_equal.
    unfold hb_block, header. replace (Z.to_nat (4 + 4 * Z.of_nat j)) with (4 + 4 * (0 + j))%nat by lia.
    erewrite put_blocks_at; [|apply block_ok_put32; [done|lia]|lia|exact Hv].
    rewrite Forall_lookup in HL. specialize (HL j v Hv). unfold FSSIZE in HL.
    rewrite u32_small by lia. apply s32_small. lia.
  - rewrite lookup_seq_ge by lia. cbn. symmetry. apply lookup_ge_None. lia.
Qed.
End header.

(** ** Writes to the disk *)
Definition apply_write (D : Z → list Z) (w : Z * Z * list Z) : Z → list Z :=
  match w with (dev, n, d) => if dev =? 1 then upd D n d else D end.
Definition apply_writes (ws : list (Z * Z * list Z)) (D : Z → list Z) : Z → list Z := fold_left apply_write ws D.

(** The copies of the blocks [L], with contents [C], in the log. *)
Definition log_writes (C : Z → list Z) (start : Z) (L : list Z) : list (Z * Z * list Z) :=
  imap (λ i n, (1, start + 1 + Z.of_nat i, C n)) L.
(** The log copied to the blocks [L]. *)
Definition install_writes (C : Z → list Z) (start : Z) (L : list Z) : list (Z * Z * list Z) :=
  imap (λ i n, (1, n, C (start + 1 + Z.of_nat i))) L.

Section writes.
Implicit Types (C D : Z → list Z) (L : list Z) (n start : Z) (ws : list (Z * Z * list Z)).

Lemma apply_writes_snoc ws dev n d D :
  apply_writes (ws ++ [(dev, n, d)]) D = if dev =? 1 then upd (apply_writes ws D) n d else apply_writes ws D.
Proof. unfold apply_writes. by rewrite fold_left_app. Qed.

Lemma apply_writes_app ws ws' D : apply_writes (ws ++ ws') D = apply_writes ws' (apply_writes ws D).
Proof. unfold apply_writes. by rewrite fold_left_app. Qed.

Lemma apply_writes_ne ws D m : (∀ n d, (1, n, d) ∈ ws → n ≠ m) → apply_writes ws D m = D m.
Proof.
  revert D. induction ws as [|[[dev n] d] ws IH]; intros D Hne; [done|].
  change (apply_writes ws (apply_write D (dev, n, d)) m = D m). rewrite IH.
  - cbn. destruct (Z.eqb_spec dev 1) as [->|]; [|done]. apply upd_ne. symmetry. eapply Hne. left.
  - intros n' d' Hin. apply (Hne n' d'). by right.
Qed.

Lemma log_writes_snoc C start L n :
  log_writes C start (L ++ [n]) = log_writes C start L ++ [(1, start + 1 + Z.of_nat (length L), C n)].
Proof. unfold log_writes. rewrite imap_app. cbn. by rewrite Nat.add_0_r. Qed.

Lemma install_writes_snoc C start L n :
  install_writes C start (L ++ [n])
  = install_writes C start L ++ [(1, n, C (start + 1 + Z.of_nat (length L)))].
Proof. unfold install_writes. rewrite imap_app. cbn. by rewrite Nat.add_0_r. Qed.

Lemma elem_of_imap' {A B} (f : nat → A → B) l y : y ∈ imap f l ↔ ∃ i x, l !! i = Some x ∧ y = f i x.
Proof.
  rewrite list_elem_of_lookup. split.
  - intros [i Hi]. rewrite list_lookup_imap in Hi. destruct (l !! i) eqn:E; [|done]. injection Hi as <-. eauto.
  - intros (i & x & Hi & ->). exists i. by rewrite list_lookup_imap, Hi.
Qed.

Lemma log_writes_ne C start L D m :
  m ≤ start ∨ start + 1 + Z.of_nat (length L) ≤ m → apply_writes (log_writes C start L) D m = D m.
Proof.
  intros Hm. apply apply_writes_ne. intros n d (i & x & Hi & [= -> ->])%elem_of_imap'.
  apply lookup_lt_Some in Hi. lia.
Qed.

Lemma install_writes_ne C start L D m : m ∉ L → apply_writes (install_writes C start L) D m = D m.
Proof.
  intros Hm. apply apply_writes_ne. intros n d (i & x & Hi & [= -> ->])%elem_of_imap'.
  intros ->. apply Hm. by eapply list_elem_of_lookup_2.
Qed.

Lemma log_writes_at C start L D (i : nat) n :
  L !! i = Some n → apply_writes (log_writes C start L) D (start + 1 + Z.of_nat i) = C n.
Proof.
  revert i n. induction L as [|v L IH] using rev_ind; intros i n Hi; [done|].
  rewrite log_writes_snoc, apply_writes_snoc. change (1 =? 1) with true. cbv iota.
  apply lookup_app_Some in Hi as [Hi|[Hge Hi]].
  - rewrite upd_ne; [by apply IH|]. apply lookup_lt_Some in Hi. lia.
  - apply list_lookup_singleton_Some in Hi as [Hz ->].
    replace (start + 1 + Z.of_nat i) with (start + 1 + Z.of_nat (length L)) by lia. apply upd_eq.
Qed.

(** When the log has the blocks' contents, they all get them. *)
Lemma install_writes_at C X start L D n :
  (∀ i n, L !! i = Some n → X (start + 1 + Z.of_nat i) = C n) → n ∈ L →
  apply_writes (install_writes X start L) D n = C n.
Proof.
  induction L as [|v L IH] using rev_ind; intros HX Hn; [by apply not_elem_of_nil in Hn|].
  rewrite install_writes_snoc, apply_writes_snoc. change (1 =? 1) with true. cbv iota.
  rewrite (HX (length L) v) by (by rewrite lookup_app_r, Nat.sub_diag by lia).
  destruct (decide (n = v)) as [->|Hne]; [apply upd_eq|]. rewrite upd_ne by done. apply IH.
  - intros i m Hi. apply HX. by apply lookup_app_l_Some.
  - apply elem_of_app in Hn as [?|Hn%list_elem_of_singleton]; done.
Qed.
End writes.

(** ** The loops *)
Section loops.
Context {W : world}.

(** A loop over the log whose body keeps the rest of the kernel and the count. *)
Lemma for_log_ok (P : nat → fsys → Prop) body k (N : nat) :
  lh_n (lh (log (k_fs k))) = Z.of_nat N → (∀ i s, P i s → lh_n (lh (log s)) = Z.of_nat N) → P O (k_fs k) →
  (∀ i s, (i < N)%nat → P i s →
     ∃ s', body (Z.of_nat i) (set_k_fs s k) = Ok tt (set_k_fs s' k) ∧ P (S i) s') →
  ∃ s', for_log body k = Ok tt (set_k_fs s' k) ∧ P N s'.
Proof.
  intros HN Hn H0 Hstep. unfold for_log, getl, getf. rewrite bind_gets. cbn -[log_loop]. rewrite HN, Nat2Z.id.
  cut (∀ f i s, (i + f = N)%nat → P i s → ∃ s', log_loop f (Z.of_nat i) body (set_k_fs s k) = Ok tt (set_k_fs s' k) ∧ P N s').
  { intros Hcut. destruct (Hcut N O (k_fs k)) as (s' & Hrun & HP); [lia|done|]. exists s'.
    replace (set_k_fs (k_fs k) k) with k in Hrun by (by destruct k). done. }
  induction f as [|f IH]; intros i s Hi HP; cbn [log_loop]; unfold getl, getf; rewrite bind_gets;
    cbn -[log_loop bind]; rewrite (Hn i s HP).
  - rewrite (proj2 (Z.ltb_ge _ _)) by lia. exists s. split; [done|]. by replace N with i by lia.
  - rewrite (proj2 (Z.ltb_lt _ _)) by lia. destruct (Hstep i s) as (s1 & Hrun & HP1); [lia|done|].
    rewrite (bind_ok _ _ _ _ _ Hrun). replace (Z.of_nat i + 1) with (Z.of_nat (S i)) by lia. apply IH; [lia|done].
Qed.
End loops.

(** The cache and the disk have changed, with the writes [ws]. *)
Record wstep (s s' : fsys) (ws : list (Z * Z * list Z)) : Prop := mkWstep {
  ws_frame : frame s s';
  ws_log : log s' = log s;
  ws_writes : dwrites s' = dwrites s ++ ws
}.

Section commit.
Context {W : world} {DW : DiskWorld}.
Implicit Types (k : kernel) (s : fsys) (b : nat) (h : list (nat * Z)) (n : Z) (C D : Z → list Z) (Q : gset Z) (L : list Z).

Lemma wstep_still s s' : still s s' → wstep s s' [].
Proof. intros [? ? ?]. split; [done..|]. by rewrite app_nil_r. Qed.

Lemma wstep_trans s1 s2 s3 ws ws' : wstep s1 s2 ws → wstep s2 s3 ws' → wstep s1 s3 (ws ++ ws').
Proof. intros [? ? H1] [? ? H2]. split; [by eapply frame_trans|congruence|]. by rewrite H2, H1, app_assoc. Qed.

Lemma cview_settled s C D Q n : cview [] s C D Q → n ∈ Q ∨ C n = D n.
Proof.
  intros Hc. pose proof (cv_inv _ _ _ _ _ Hc) as Hi.
  destruct (cached_dec s n) as [(b & x & Hx & Hd & Hn)|Hno].
  - destruct (ci_buf _ _ Hi b x Hx) as [_ Hfl Hdev _ _ Hfree]. destruct (Hdev Hd) as [Hf _].
    destruct Hfl as [?|[Hcl|Hdi]]; [done|right|left].
    + destruct Hfree as (_ & _ & Hs); [apply not_elem_of_nil|].
      rewrite <- (cv_content _ _ _ _ _ Hc), <- (cv_disk _ _ _ _ _ Hc), <- Hn, <- Hs by done.
      by apply (content_cached _ _ b x Hi).
    + apply (cv_dirty _ _ _ _ _ Hc). by exists b, x.
  - right. rewrite <- (cv_content _ _ _ _ _ Hc), <- (cv_disk _ _ _ _ _ Hc). by apply content_uncached.
Qed.

(** The layout that the loops rely on. *)
Definition slot_of (l : logst) (i : nat) (n : Z) : Prop :=
  log_dev l = 1 ∧ 0 ≤ log_start l ∧ log_start l + LOGSIZE ≤ FSSIZE ∧ lh_block (lh l) !! i = Some n ∧
  (i < 29)%nat ∧ home (log_start l) n.

(** Copy block [n] to block [t] through the cache: [bread], [bread], copy, [bwrite]. *)
Lemma write_one_ok k C D Q (i : nat) n :
  fs_ready k → cview [] (k_fs k) C D Q → slot_of (log (k_fs k)) i n → n ∈ Q → (size Q < 30)%nat →
  let t := log_start (log (k_fs k)) + 1 + Z.of_nat i in
  ∃ s', write_one (Z.of_nat i) k = Ok tt (set_k_fs s' k) ∧
    cview [] s' (upd C t (C n)) (upd D t (C n)) (Q ∖ {[t]}) ∧ wstep (k_fs k) s' [(1, t, C n)].
Proof.
  intros Hr Hc (Hdev & Hs0 & Hs1 & Hblk & Hi & Hn & Hho) HnQ HQ t.
  assert (Ht : 0 ≤ t < FSSIZE) by (unfold t; clia).
  assert (Hne : t ≠ n) by (unfold t; clia).
  destruct (cv_bread k [] C D Q t Hr Hc Ht) as (b1 & s1 & Hr1 & Hc1 & Hst1 & _); [apply not_elem_of_nil|right; cbn; lia|].
  assert (Hl1 : log s1 = log (k_fs k)) by apply Hst1.
  destruct (cv_bread (set_k_fs s1 k) _ C D Q n (fs_ready_fs _ _ Hr) Hc1 Hn) as (b2 & s2 & Hr2 & Hc2 & Hst2 & Hset2);
    [cbn; rewrite list_elem_of_singleton; congruence|by left|].
  destruct (cv_mod_data (set_k_fs s2 k) _ C D Q b1 t (λ _, C n) Hc2) as (s3 & Hr3 & Hc3 & Hst3);
    [right; left|by eapply cview_block_ok|].
  destruct (cv_bwrite (set_k_fs s3 k) _ _ D Q b1 t (fs_ready_fs _ _ Hr) Hc3) as (s4 & Hr4 & Hc4 & Hf4 & Hl4 & Hw4);
    [right; left|]. rewrite upd_eq in Hc4, Hw4.
  destruct (cv_brelse (set_k_fs s4 k) _ _ _ _ b2 n (fs_ready_fs _ _ Hr) Hc4) as (s5 & Hr5 & Hc5 & Hst5).
  { left. apply elem_of_difference. split; [done|]. by rewrite elem_of_singleton. }
  destruct (cv_brelse (set_k_fs s5 k) _ _ _ _ b1 t (fs_ready_fs _ _ Hr) Hc5) as (s6 & Hr6 & Hc6 & Hst6).
  { right. by rewrite !upd_eq. }
  exists s6. split_and!; [|done|].
  - unfold write_one. rewrite bind_gets, Hdev.
    replace (log_start (log (k_fs k)) + Z.of_nat i + 1) with t by (unfold t; lia).
    rewrite (bind_ok _ _ _ _ _ Hr1). erewrite bind_ok by (apply get_lh_block_ok; cbn; rewrite Hl1; exact Hblk).
    rewrite (bind_ok _ _ _ _ _ Hr2). erewrite bind_ok by (eapply (cv_bdata (set_k_fs s2 k)); [done|left]).
    rewrite (bind_ok _ _ _ _ _ Hr3), (bind_ok _ _ _ _ _ Hr4), (bind_ok _ _ _ _ _ Hr5). done.
  - apply wstep_still in Hst1, Hst2, Hst3, Hst5, Hst6.
    change [(1, t, C n)] with ([] ++ [] ++ [] ++ [(1, t, C n)] ++ [] ++ [] : list (Z * Z * list Z)).
    repeat (eapply wstep_trans; [eassumption || (split; [exact Hf4|exact Hl4|exact Hw4])|]). done.
Qed.

Lemma install_one_ok k C D Q (i : nat) n :
  fs_ready k → cview [] (k_fs k) C D Q → slot_of (log (k_fs k)) i n → n ∈ Q ∨ (size Q < 29)%nat → (size Q < 30)%nat →
  let t := log_start (log (k_fs k)) + 1 + Z.of_nat i in
  ∃ s', install_one (Z.of_nat i) k = Ok tt (set_k_fs s' k) ∧
    cview [] s' (upd C n (C t)) (upd D n (C t)) (Q ∖ {[n]}) ∧ wstep (k_fs k) s' [(1, n, C t)].
Proof.
  intros Hr Hc (Hdev & Hs0 & Hs1 & Hblk & Hi & Hn & Hho) HnQ HQ t.
  assert (Ht : 0 ≤ t < FSSIZE) by (unfold t; clia).
  assert (Hne : t ≠ n) by (unfold t; clia).
  destruct (cv_bread k [] C D Q t Hr Hc Ht) as (b1 & s1 & Hr1 & Hc1 & Hst1 & Hset1); [apply not_elem_of_nil|right; cbn; lia|].
  assert (Hl1 : log s1 = log (k_fs k)) by apply Hst1.
  destruct (cv_bread (set_k_fs s1 k) _ C D Q n (fs_ready_fs _ _ Hr) Hc1 Hn) as (b2 & s2 & Hr2 & Hc2 & Hst2 & _);
    [cbn; rewrite list_elem_of_singleton; congruence|destruct HnQ; [by left|right; cbn; lia]|].
  destruct (cv_mod_data (set_k_fs s2 k) _ C D Q b2 n (λ _, C t) Hc2) as (s3 & Hr3 & Hc3 & Hst3);
    [left|by eapply cview_block_ok|].
  destruct (cv_bwrite (set_k_fs s3 k) _ _ D Q b2 n (fs_ready_fs _ _ Hr) Hc3) as (s4 & Hr4 & Hc4 & Hf4 & Hl4 & Hw4);
    [left|]. rewrite upd_eq in Hc4, Hw4.
  apply (cview_perm _ [(b1, t); (b2, n)]) in Hc4; [|constructor].
  destruct (cv_brelse (set_k_fs s4 k) _ _ _ _ b1 t (fs_ready_fs _ _ Hr) Hc4) as (s5 & Hr5 & Hc5 & Hst5).
  { rewrite !upd_ne by done. rewrite elem_of_difference, elem_of_singleton. naive_solver. }
  destruct (cv_brelse (set_k_fs s5 k) _ _ _ _ b2 n (fs_ready_fs _ _ Hr) Hc5) as (s6 & Hr6 & Hc6 & Hst6).
  { right. by rewrite !upd_eq. }
  exists s6. split_and!; [|done|].
  - unfold install_one. rewrite bind_gets, Hdev.
    replace (log_start (log (k_fs k)) + Z.of_nat i + 1) with t by (unfold t; lia).
    rewrite (bind_ok _ _ _ _ _ Hr1). erewrite bind_ok by (apply get_lh_block_ok; cbn; rewrite Hl1; exact Hblk).
    rewrite (bind_ok _ _ _ _ _ Hr2). erewrite bind_ok by (eapply (cv_bdata (set_k_fs s2 k)); [done|right; left]).
    rewrite (bind_ok _ _ _ _ _ Hr3), (bind_ok _ _ _ _ _ Hr4), (bind_ok _ _ _ _ _ Hr5). done.
  - apply wstep_still in Hst1, Hst2, Hst3, Hst5, Hst6.
    change [(1, n, C t)] with ([] ++ [] ++ [] ++ [(1, n, C t)] ++ [] ++ [] : list (Z * Z * list Z)).
    repeat (eapply wstep_trans; [eassumption || (split; [exact Hf4|exact Hl4|exact Hw4])|]). done.
Qed.

(** The loop of [write_head] over the held header block. *)
Lemma fill_header k C D Q b start d :
  cview [(b, start)] (k_fs k) (upd C start d) D Q → block_ok d → log_ok (log (k_fs k)) →
  ∃ s', for_log (λ i, v ← get_lh_block i; mod_data b (λ d, put32 d (Z.to_nat (4 + 4 * i)) v)) k
      = Ok tt (set_k_fs s' k) ∧
    cview [(b, start)] s' (upd C start (put_blocks d 0 (logged (k_fs k)))) D Q ∧ still (k_fs k) s'.
Proof.
  intros Hc Hd Hlo. pose proof (logged_length _ Hlo) as Hlen. set (L := logged (k_fs k)) in *.
  pose proof (lo_n _ Hlo) as HN. set (N := lh_n (lh (log (k_fs k)))) in *.
  destruct (for_log_ok (λ i s, still (k_fs k) s ∧ cview [(b, start)] s (upd C start (put_blocks d 0 (take i L))) D Q)
    (λ i, v ← get_lh_block i; mod_data b (λ d, put32 d (Z.to_nat (4 + 4 * i)) v)) k (Z.to_nat N))
    as (s' & Hrun & Hst & Hc').
  - fold N. lia.
  - intros i s [[_ Hl _] _]. rewrite Hl. fold N. lia.
  - split; [done|]. done.
  - intros i s Hi [Hst Hci].
    destruct (lookup_lt_is_Some_2 L i) as [v Hv]; [lia|].
    assert (Hok : block_ok (put_blocks d 0 (take i L))) by (apply put_blocks_ok; [done|rewrite length_take; clia]).
    destruct (cv_mod_data (set_k_fs s k) _ _ D Q b start (λ d, put32 d (Z.to_nat (4 + 4 * Z.of_nat i)) v) Hci)
      as (s1 & Hr1 & Hc1 & Hst1); [left|rewrite upd_eq; apply block_ok_put32; [done|clia]|].
    exists s1. split_and!.
    + erewrite bind_ok; [exact Hr1|]. apply get_lh_block_ok. cbn. rewrite (st_log _ _ Hst).
      unfold L, logged in Hv. by apply lookup_take_Some in Hv as [? _].
    + by eapply still_trans.
    + eapply cview_ext; [|done|exact Hc1]. intros m. rewrite upd_eq. rewrite (take_S_r _ _ v) by done.
      unfold upd. destruct (m =? start); [|done].
      assert (E : ∀ l j d, put_blocks d j (l ++ [v]) = put32 (put_blocks d j l) (4 + 4 * (j + length l)) v).
      { induction l as [|w l IH]; intros j d0; cbn [put_blocks app length]; [by rewrite Nat.add_0_r|].
        rewrite IH. do 2 f_equal. lia. }
      rewrite E. f_equal. rewrite length_take. lia.
  - exists s'. split_and!; [done| |done]. by rewrite take_ge in Hc' by lia.
Qed.

Lemma write_head_ok k C D Q :
  fs_ready k → cview [] (k_fs k) C D Q → log_ok (log (k_fs k)) → (size Q < 30)%nat →
  log_start (log (k_fs k)) ∉ Q →
  let start := log_start (log (k_fs k)) in
  let d := header (C start) (logged (k_fs k)) in
  ∃ s', write_head k = Ok tt (set_k_fs s' k) ∧
    cview [] s' (upd C start d) (upd D start d) Q ∧ wstep (k_fs k) s' [(1, start, d)].
Proof.
  intros Hr Hc Hlo HQ Hnq start d. pose proof (lo_start _ Hlo) as Hs. fold start in Hs, Hnq.
  pose proof (logged_length _ Hlo) as Hlen. pose proof (lo_n _ Hlo) as HN.
  assert (HCs : block_ok (C start)) by (by eapply cview_block_ok).
  destruct (cv_bread k [] C D Q start Hr Hc) as (b & s1 & Hr1 & Hc1 & Hst1 & _); [clia|apply not_elem_of_nil|right; cbn; lia|].
  assert (Hl1 : log s1 = log (k_fs k)) by apply Hst1.
  set (d0 := put32 (C start) 0 (lh_n (lh (log (k_fs k))))).
  assert (Hd0 : block_ok d0) by (apply block_ok_put32; [done|lia]).
  destruct (cv_mod_data (set_k_fs s1 k) _ C D Q b start (λ d, put32 d 0 (lh_n (lh (log (k_fs k))))) Hc1) as (s2 & Hr2 & Hc2 & Hst2);
    [left|done|].
  assert (Hl2 : log s2 = log (k_fs k)) by (rewrite (st_log _ _ Hst2); done).
  destruct (fill_header (set_k_fs s2 k) C D Q b start d0) as (s3 & Hr3 & Hc3 & Hst3);
    [done|done|cbn; by rewrite Hl2|].
  destruct (cv_bwrite (set_k_fs s3 k) _ _ D Q b start (fs_ready_fs _ _ Hr) Hc3) as (s4 & Hr4 & Hc4 & Hf4 & Hl4 & Hw4); [left|].
  assert (Hd : put_blocks d0 0 (logged s2) = d).
  { unfold d, header, d0, logged in *. rewrite Hl2. do 2 f_equal. rewrite Hlen. lia. }
  cbn [k_fs set_k_fs] in *. rewrite upd_eq, Hd in *.
  destruct (cv_brelse (set_k_fs s4 k) _ _ _ _ b start (fs_ready_fs _ _ Hr) Hc4) as (s5 & Hr5 & Hc5 & Hst5).
  { right. by rewrite !upd_eq. }
  exists s5. split_and!.
  - unfold write_head. rewrite bind_gets. rewrite (lo_dev _ Hlo). fold start. rewrite (bind_ok _ _ _ _ _ Hr1).
    unfold getl, getf. rewrite bind_gets. cbn [k_fs set_k_fs]. unfold compose. rewrite Hl1.
    rewrite (bind_ok _ _ _ _ _ Hr2), (bind_ok _ _ _ _ _ Hr3), (bind_ok _ _ _ _ _ Hr4). done.
  - replace (Q ∖ {[start]}) with Q in Hc5 by set_solver. done.
  - apply wstep_still in Hst1, Hst2, Hst3, Hst5.
    change [(1, start, d)] with ([] ++ [] ++ [] ++ [(1, start, d)] ++ [] : list (Z * Z * list Z)).
    repeat (eapply wstep_trans; [eassumption || (split; [exact Hf4|exact Hl4|exact Hw4])|]). done.
Qed.

Lemma logged_slot l s (i : nat) n :
  log s = l → log_ok l → Forall (home (log_start l)) (logged s) → logged s !! i = Some n → slot_of l i n.
Proof.
  intros <- Hlo Hh Hi. pose proof (logged_length _ Hlo) as Hlen. destruct Hlo as [Hd _ [? ?] _ Hn].
  pose proof (lookup_lt_Some _ _ _ Hi) as Hlt. split_and!; try done.
  - unfold logged in Hi. by apply lookup_take_Some in Hi as [? _].
  - clia.
  - rewrite Forall_lookup in Hh. by eapply Hh.
Qed.

Lemma write_log_ok k C D :
  let L := logged (k_fs k) in let start := log_start (log (k_fs k)) in
  let ws := log_writes C start L in
  fs_ready k → cview [] (k_fs k) C D (list_to_set L) → log_ok (log (k_fs k)) → Forall (home start) L →
  ∃ s', write_log k = Ok tt (set_k_fs s' k) ∧
    cview [] s' (apply_writes ws C) (apply_writes ws D) (list_to_set L) ∧ wstep (k_fs k) s' ws.
Proof.
  intros L start ws Hr Hc Hlo Hh. pose proof (logged_length _ Hlo) as Hlen. pose proof (lo_n _ Hlo) as HN.
  pose proof (size_list_to_set_le L) as Hsz. set (Q := list_to_set L : gset Z) in *. fold L in Hlen.
  destruct (for_log_ok (λ i s, let w := log_writes C start (take i L) in
    cview [] s (apply_writes w C) (apply_writes w D) Q ∧ wstep (k_fs k) s w) write_one k (length L))
    as (s' & Hrun & Hc' & Hw); cbv zeta.
  - rewrite Hlen. lia.
  - intros i s [_ [_ Hl _]]. rewrite Hl, Hlen. lia.
  - split; [done|]. by apply wstep_still.
  - intros i s Hi [Hci Hwi]. destruct (lookup_lt_is_Some_2 L i) as [n Hn]; [done|].
    assert (Hslot : slot_of (log s) i n) by (rewrite (ws_log _ _ _ Hwi); by eapply logged_slot).
    assert (Hst : log_start (log s) = start) by (by rewrite (ws_log _ _ _ Hwi)).
    destruct (write_one_ok (set_k_fs s k) _ _ Q i n (fs_ready_fs _ _ Hr) Hci Hslot) as (s1 & Hr1 & Hc1 & Hw1).
    { apply elem_of_list_to_set. by eapply list_elem_of_lookup_2. }
    { clia. }
    cbn [k_fs set_k_fs] in *. rewrite Hst in *.
    assert (HCn : apply_writes (log_writes C start (take i L)) C n = C n).
    { apply log_writes_ne. destruct Hslot as (_ & _ & _ & _ & _ & _ & Hho). rewrite Hst in Hho.
      rewrite length_take. clia. }
    rewrite HCn in *. exists s1. split; [done|].
    rewrite (take_S_r _ _ n), log_writes_snoc, !apply_writes_snoc by done.
    rewrite length_take, Nat.min_l by lia. change (1 =? 1) with true. cbv iota. split; [|by eapply wstep_trans].
    replace (Q ∖ {[start + 1 + Z.of_nat i]}) with Q in Hc1; [done|].
    apply leibniz_equiv. intros m. rewrite elem_of_difference, elem_of_singleton.
    split; [|tauto]. intros Hm. split; [done|]. intros ->. apply elem_of_list_to_set in Hm.
    rewrite Forall_forall in Hh. destruct (Hh _ Hm). clia.
  - exists s'. rewrite take_ge in Hc', Hw by done. done.
Qed.

Lemma install_trans_ok k C D Q :
  let L := logged (k_fs k) in let start := log_start (log (k_fs k)) in
  let ws := install_writes C start L in
  fs_ready k → cview [] (k_fs k) C D Q → log_ok (log (k_fs k)) → Forall (home start) L → (size Q < 30)%nat →
  (NoDup L ∧ Q = list_to_set L) ∨ Q = ∅ →
  ∃ s', install_trans k = Ok tt (set_k_fs s' k) ∧
    cview [] s' (apply_writes ws C) (apply_writes ws D) ∅ ∧ wstep (k_fs k) s' ws.
Proof.
  intros L start ws Hr Hc Hlo Hh HQ HQL. pose proof (logged_length _ Hlo) as Hlen. pose proof (lo_n _ Hlo) as HN.
  fold L in Hlen.
  destruct (for_log_ok (λ i s, let w := install_writes C start (take i L) in
    cview [] s (apply_writes w C) (apply_writes w D) (Q ∖ list_to_set (take i L)) ∧ wstep (k_fs k) s w)
    install_one k (length L)) as (s' & Hrun & Hc' & Hw); cbv zeta.
  - rewrite Hlen. lia.
  - intros i s [_ [_ Hl _]]. rewrite Hl, Hlen. lia.
  - split; [|by apply wstep_still]. replace (Q ∖ list_to_set (take 0 L)) with Q by set_solver. done.
  - intros i s Hi [Hci Hwi]. destruct (lookup_lt_is_Some_2 L i) as [n Hn]; [done|].
    assert (Hslot : slot_of (log s) i n) by (rewrite (ws_log _ _ _ Hwi); by eapply logged_slot).
    assert (Hst : log_start (log s) = start) by (by rewrite (ws_log _ _ _ Hwi)).
    set (Qi := Q ∖ list_to_set (take i L)) in *.
    assert (HQi : (size Qi ≤ size Q)%nat) by (apply subseteq_size; set_solver).
    destruct (install_one_ok (set_k_fs s k) _ _ Qi i n (fs_ready_fs _ _ Hr) Hci Hslot) as (s1 & Hr1 & Hc1 & Hw1); [|lia|].
    { destruct HQL as [[Hnd ->]|HQ0].
      - left. apply elem_of_difference. rewrite !elem_of_list_to_set. split; [by eapply list_elem_of_lookup_2|].
        intros Hin. apply list_elem_of_lookup in Hin as [j Hj]. apply lookup_take_Some in Hj as [Hj Hlt].
        pose proof (NoDup_lookup _ _ _ _ Hnd Hj Hn). lia.
      - right. assert (size Q = 0)%nat by (by rewrite HQ0, size_empty). lia. }
    cbn [k_fs set_k_fs] in *. rewrite Hst in *.
    assert (HCt : apply_writes (install_writes C start (take i L)) C (start + 1 + Z.of_nat i) = C (start + 1 + Z.of_nat i)).
    { apply install_writes_ne. intros Hin. assert (HinL : start + 1 + Z.of_nat i ∈ L).
      { apply list_elem_of_lookup in Hin as [j Hj]. apply lookup_take_Some in Hj as [Hj _]. by eapply list_elem_of_lookup_2. }
      rewrite Forall_forall in Hh. destruct (Hh _ HinL). clia. }
    rewrite HCt in *. exists s1. split; [done|].
    rewrite (take_S_r _ _ n), install_writes_snoc, !apply_writes_snoc by done.
    rewrite length_take, Nat.min_l by lia. change (1 =? 1) with true. cbv iota. split; [|by eapply wstep_trans].
    replace (Q ∖ list_to_set (take i L ++ [n])) with (Qi ∖ {[n]}); [done|]. unfold Qi. rewrite list_to_set_app_L. set_solver.
  - exists s'. rewrite take_ge in Hc', Hw by done. replace (Q ∖ list_to_set L) with (∅ : gset Z) in Hc'; [done|].
    destruct HQL as [[_ ->]|HQ0]; set_solver.
Qed.

(** ** [commit] *)
(** The view depends on the cache, the disk and the log only. *)
Lemma cview_same h s s' C D Q :
  bufs s' = bufs s → lru s' = lru s → disk s' = disk s → (ide_idle s → ide_idle s') →
  cview h s C D Q → (∀ n, n ∈ Q → n ∈ logged s') → cview h s' C D Q.
Proof.
  intros Hb Hl Hd Hi [Hinv Hh Hc Hs Hq] HQ.
  assert (Hsec : ∀ n, sector s' 1 n = sector s 1 n) by (intros; unfold sector; by rewrite Hd).
  assert (Hdb : ∀ n, dirty_block s' n ↔ dirty_block s n) by (intros; unfold dirty_block; by rewrite Hb).
  split.
  - destruct Hinv as [H1 H2 H3 H4 Hbuf H6 H7 H8].
    split; rewrite ?Hb, ?Hl; try done; [|by apply Hi|intros n; by rewrite Hsec].
    intros b x Hx. apply (buf_ok_ext s _ (b ∈ h.*1)); [|by rewrite Hsec|done|by apply Hbuf].
    intros Hf Hin. apply HQ, Hq. exists b, x. split_and!; try done. by apply (bo_dirty _ _ _ (Hbuf b x Hx)).
  - intros b n Hbn. unfold has. rewrite Hb. by apply Hh.
  - intros n. unfold content. rewrite Hb, Hsec. apply Hc.
  - intros n. rewrite Hsec. apply Hs.
  - intros n. rewrite Hdb. apply Hq.
Qed.

Lemma cview_log h s C D Q l :
  cview h s C D Q → (∀ n, n ∈ Q → n ∈ logged (set_log l s)) → cview h (set_log l s) C D Q.
Proof. intros Hc HQ. by apply (cview_same h s). Qed.

(** The writes of a commit: the log, the header, the blocks, the empty header. *)
Definition commit_writes C (start : Z) L : list (Z * Z * list Z) :=
  let hd := header (C start) L in
  log_writes C start L ++ (1, start, hd) :: ((λ n, (1, n, C n)) <$> L) ++ [(1, start, header hd [])].

Lemma install_writes_home C X start L :
  (∀ i n, L !! i = Some n → X (start + 1 + Z.of_nat i) = C n) →
  install_writes X start L = (λ n, (1, n, C n)) <$> L.
Proof.
  intros HX. apply list_eq. intros i. unfold install_writes. rewrite list_lookup_imap, list_lookup_fmap.
  destruct (L !! i) as [n|] eqn:Hn; [|done]. cbn. by rewrite (HX i n Hn).
Qed.

Lemma home_writes_ne C L D m : m ∉ L → apply_writes ((λ n, (1, n, C n)) <$> L) D m = D m.
Proof.
  intros Hm. apply apply_writes_ne. intros n d (x & [= -> ->] & Hx)%list_elem_of_fmap. by intros ->.
Qed.

Lemma home_not_start start L : Forall (home start) L → start ∉ L.
Proof. intros Hh Hin. rewrite Forall_forall in Hh. destruct (Hh _ Hin). clia. Qed.

Definition no_lh (l : logst) : logst := set_lh (set_lh_n 0 (lh l)) l.

Lemma commit_ok k C D :
  let L := logged (k_fs k) in let start := log_start (log (k_fs k)) in
  let ws := commit_writes C start L in
  fs_ready k → cview [] (k_fs k) C D (list_to_set L) → log_ok (log (k_fs k)) → NoDup L →
  Forall (home start) L → L ≠ [] →
  ∃ s', commit k = Ok tt (set_k_fs s' k) ∧ cview [] s' (apply_writes ws C) (apply_writes ws D) ∅ ∧
    frame (k_fs k) s' ∧ log s' = no_lh (log (k_fs k)) ∧ dwrites s' = dwrites (k_fs k) ++ ws.
Proof.
  intros L start ws Hr Hc Hlo Hnd Hh Hne. pose proof (logged_length _ Hlo) as Hlen. pose proof (lo_n _ Hlo) as HN.
  fold L in Hlen. pose proof (size_list_to_set_le L) as Hsz. pose proof (home_not_start _ _ Hh) as Hns.
  destruct (write_log_ok k C D Hr Hc Hlo Hh) as (s1 & Hr1 & Hc1 & Hw1). fold L start in Hc1, Hw1.
  assert (Hl1 : log s1 = log (k_fs k)) by apply Hw1.
  assert (HL1 : logged s1 = L) by (unfold L, logged; by rewrite Hl1).
  destruct (write_head_ok (set_k_fs s1 k) _ _ _ (fs_ready_fs _ _ Hr) Hc1) as (s2 & Hr2 & Hc2 & Hw2);
    [cbn; by rewrite Hl1|clia|cbn; rewrite Hl1, elem_of_list_to_set; done|].
  cbn [k_fs set_k_fs] in *. rewrite Hl1, HL1 in *. fold start in Hc2, Hw2.
  rewrite log_writes_ne in Hc2, Hw2 by lia. set (hd := header (C start) L) in *.
  assert (Hl2 : log s2 = log (k_fs k)) by (rewrite (ws_log _ _ _ Hw2); done).
  assert (HL2 : logged s2 = L) by (unfold L, logged; by rewrite Hl2).
  destruct (install_trans_ok (set_k_fs s2 k) _ _ _ (fs_ready_fs _ _ Hr) Hc2) as (s3 & Hr3 & Hc3 & Hw3);
    [cbn; by rewrite Hl2|cbn; by rewrite Hl2, HL2|clia|left; cbn; by rewrite HL2|].
  cbn [k_fs set_k_fs] in *. rewrite HL2, Hl2 in *. fold start in Hc3, Hw3.
  rewrite (install_writes_home C) in Hc3, Hw3.
  2-3: intros i n Hi; rewrite upd_ne by lia; by apply log_writes_at.
  assert (Hl3 : log s3 = log (k_fs k)) by (rewrite (ws_log _ _ _ Hw3); done).
  set (s4 := set_log (no_lh (log s3)) s3).
  assert (Hc4 : cview [] s4 _ _ ∅) by (eapply cview_log; [exact Hc3|set_solver]).
  destruct (write_head_ok (set_k_fs s4 k) _ _ _ (fs_ready_fs _ _ Hr) Hc4) as (s5 & Hr5 & Hc5 & Hw5);
    [cbn; rewrite Hl3; by destruct Hlo; split; cbn; try done; clia|vm_compute; lia|set_solver|].
  cbn [k_fs set_k_fs] in *. change (log s4) with (no_lh (log s3)) in *. rewrite Hl3 in *.
  change (logged s4) with (@nil Z) in *. change (log_start (no_lh (log (k_fs k)))) with start in *.
  rewrite home_writes_ne, upd_eq in Hc5, Hw5 by done.
  exists s5. split_and!.
  - unfold commit, getl, getf. rewrite bind_gets. cbn [compose]. unfold compose.
    rewrite (proj2 (Z.ltb_lt _ _)) by (destruct L; [done|cbn in Hlen; lia]). unfold when.
    rewrite (bind_ok _ _ _ _ _ Hr1), (bind_ok _ _ _ _ _ Hr2), (bind_ok _ _ _ _ _ Hr3).
    unfold mod_lh, modl, modf. rewrite bind_modify. exact Hr5.
  - unfold ws, commit_writes. cbv zeta. fold hd. rewrite !apply_writes_app. cbn [apply_writes fold_left apply_write].
    change (1 =? 1) with true. cbv iota. fold (apply_writes ((λ n, (1, n, C n)) <$> L ++ [])). 
    change (fold_left apply_write ?l ?x) with (apply_writes l x).
    rewrite !apply_writes_snoc. exact Hc5.
  - eapply frame_trans; [apply Hw1|]. eapply frame_trans; [apply Hw2|]. eapply frame_trans; [apply Hw3|].
    destruct Hw5 as [[? ? ? ?] _ _]. done.
  - rewrite (ws_log _ _ _ Hw5). change (log s4) with (no_lh (log s3)). by rewrite Hl3.
  - rewrite (ws_writes _ _ _ Hw5). change (dwrites s4) with (dwrites s3).
    rewrite (ws_writes _ _ _ Hw3), (ws_writes _ _ _ Hw2), (ws_writes _ _ _ Hw1). unfold ws, commit_writes.
    rewrite <- !app_assoc. done.
Qed.
End commit.
