(* ===== verification/CrashSpec.v ===== *)
(** Transactions are atomic: [begin_op] and [end_op], and what [initlog] finds after
    a crash at any point of a commit. *)

From S2P Require Import Prelude Params Bytes State Spinlock Procs Sched SchedSpec Bio BioSpec CacheSpec BlockSpec Log LogSpec CommitSpec.

(** No transaction is open; the blocks have contents [C], which the disk has too. *)
Record fs_idle (s : fsys) (C : Z → list Z) : Prop := mkFsIdle {
  fi_view : cview [] s C C ∅;
  fi_log : log_ok (log s);
  fi_n : lh_n (lh (log s)) = 0;
  fi_out : outstanding (log s) = 0;
  fi_com : committing (log s) = 0;
  fi_head : hb_n (C (log_start (log s))) = 0
}.

(** What [end_op] writes to the disk. *)
Definition end_writes (C : Z → list Z) (start : Z) (L : list Z) : list (Z * Z * list Z) :=
  match L with [] => [] | _ => commit_writes C start L end.

Section transactions.
Context {W : world} {DW : DiskWorld}.
Implicit Types (k : kernel) (s : fsys) (n : Z) (C D : Z → list Z) (L : list Z).

Lemma begin_op_ok k C :
  fs_ready k → fs_idle (k_fs k) C →
  let s' := set_log (set_outstanding 1 (log (k_fs k))) (k_fs k) in
  begin_op k = Ok tt (set_k_fs s' k) ∧ tx [] s' C C 0.
Proof.
  intros Hr [Hc Hlo Hn Ho Hcm _] s'. split.
  - unfold begin_op. rewrite (bind_ok _ _ _ _ _ (acquire_ok Llog k ltac:(by apply (fr_lock k Hr)))).
    assert (Hb : ∀ f, begin_wait f (mod_mach (hold Llog) k) = Ok tt (set_k_fs s' k)).
    { intros f. destruct f; cbn [begin_wait]; rewrite bind_gets; cbn [k_fs mod_mach set_k_mach];
        rewrite Hcm, truthy_0, Hn, Ho; cbn [orb]; rewrite (proj2 (Z.ltb_ge _ _)) by clia;
        unfold modl, modf; rewrite bind_modify;
        (rewrite (release_ok Llog _ (k_mach k)); [done|by apply (fr_lock k Hr)|done]). }
    apply Hb.
  - assert (HL : logged s' = []) by (unfold logged; cbn; by rewrite Hn).
    split; rewrite ?HL; try done.
    + apply cview_log; [done|set_solver].
    + by destruct Hlo.
    + constructor.
Qed.

Lemma commit_home C start L D n :
  Forall (home start) L → home start n → (length L ≤ 29)%nat → (n ∈ L ∨ C n = D n) →
  apply_writes (end_writes C start L) D n = C n.
Proof.
  intros Hh Hn Hlen HD. destruct L as [|v L0]; [by destruct HD as [?%not_elem_of_nil|]|].
  set (L := v :: L0) in *. change (end_writes C start L) with (commit_writes C start L).
  unfold commit_writes. destruct Hn as [Hr Ho].
  rewrite apply_writes_app. cbn [apply_writes fold_left apply_write]. change (1 =? 1) with true. cbv iota.
  change (fold_left apply_write ?l ?x) with (apply_writes l x). rewrite apply_writes_snoc. change (1 =? 1) with true. cbv iota.
  rewrite upd_ne by clia. destruct (decide (n ∈ L)) as [HL|HL].
  - rewrite <- (install_writes_home C (apply_writes (log_writes C start L) D) start) by (intros; by apply log_writes_at).
    apply install_writes_at; [|done]. intros. by apply log_writes_at.
  - rewrite home_writes_ne by done. rewrite upd_ne by clia. rewrite log_writes_ne by clia.
    destruct HD; [done|congruence].
Qed.

Lemma commit_head C start L D : L ≠ [] → block_ok (C start) → (length L ≤ 29)%nat →
  hb_n (apply_writes (commit_writes C start L) D start) = 0.
Proof.
  intros HL Hok Hlen. unfold commit_writes. rewrite app_comm_cons, app_assoc, apply_writes_snoc.
  change (1 =? 1) with true. cbv iota. rewrite upd_eq, header_n; [done| |cbn; lia]. apply header_ok; [done|lia].
Qed.

Lemma end_op_ok k C D m :
  fs_ready k → tx [] (k_fs k) C D m → outstanding (log (k_fs k)) = 1 → committing (log (k_fs k)) = 0 →
  hb_n (D (log_start (log (k_fs k)))) = 0 →
  let start := log_start (log (k_fs k)) in
  let ws := end_writes C start (logged (k_fs k)) in
  ∃ s', end_op k = Ok tt (set_k_fs s' k) ∧ fs_idle s' (apply_writes ws D) ∧ frame (k_fs k) s' ∧
    log_start (log s') = start ∧ dwrites s' = dwrites (k_fs k) ++ ws.
Proof.
  intros Hr [Hc Hlo Hout Hnd Hh Hm] Ho Hcm Hhd start ws. set (s := k_fs k) in *. set (L := logged s) in *.
  pose proof (logged_length _ Hlo) as Hlen. fold L in Hlen. pose proof (lo_n _ Hlo) as HN.
  assert (Hle : (length L ≤ 29)%nat) by clia.
  set (l1 := set_committing 1 (set_outstanding 0 (log s))). set (s1 := set_log l1 s).
  assert (HL1 : logged s1 = L) by done.
  assert (Hcommit : ∃ s2, commit (set_k_fs s1 k) = Ok tt (set_k_fs s2 k) ∧
    cview [] s2 (apply_writes ws C) (apply_writes ws D) ∅ ∧ frame s s2 ∧ log s2 = no_lh l1 ∧ dwrites s2 = dwrites s ++ ws).
  { assert (Hc1 : cview [] s1 C D (list_to_set L)).
    { apply cview_log; [done|]. intros n. rewrite elem_of_list_to_set. done. }
    destruct L as [|v L0] eqn:EL.
    - exists s1. split_and!; try done.
      + unfold commit, getl, getf. rewrite bind_gets. unfold compose. cbn [k_fs set_k_fs].
        change (lh_n (lh (log s1))) with (lh_n (lh (log s))). cbn in Hlen.
        rewrite (proj2 (Z.ltb_ge _ _)) by lia. done.
      + unfold no_lh. change (lh l1) with (lh (log s)). replace (set_lh_n 0 (lh (log s))) with (lh (log s)); [done|].
        unfold set_lh_n. cbn in Hlen. assert (lh_n (lh (log s)) = 0) as E by lia. rewrite <- E. by destruct (lh (log s)).
      + by rewrite app_nil_r.
    - destruct (commit_ok (set_k_fs s1 k) C D (fs_ready_fs _ _ Hr)) as (s2 & Hrun & Hc2 & Hf & Hl & Hw).
      + cbn. fold s1. by rewrite HL1.
      + by destruct Hlo.
      + cbn. by rewrite HL1.
      + cbn. by rewrite HL1.
      + cbn. by rewrite HL1.
      + cbn [k_fs set_k_fs] in *. rewrite HL1 in *. exists s2. split_and!; try done. by destruct Hf. }
  destruct Hcommit as (s2 & Hrun & Hc2 & Hf2 & Hl2 & Hw2).
  exists (set_log (set_committing 0 (log s2)) s2). split_and!; [|split| |by cbn; rewrite Hl2|done].
  - unfold end_op. rewrite (bind_ok _ _ _ _ _ (acquire_ok Llog k ltac:(by apply (fr_lock k Hr)))).
    unfold modl, modf. rewrite bind_modify, bind_gets. cbn [k_fs mod_fs set_k_fs mod_mach set_k_mach log set_log committing outstanding set_outstanding].
    fold s. rewrite Hcm, truthy_0, Ho. change (1 - 1 =? 0) with true. cbv iota.
    rewrite bind_assoc, bind_modify, bind_ret.
    erewrite bind_ok by (apply (release_ok Llog _ (k_mach k)); [by apply (fr_lock k Hr)|done]).
    rewrite <- (bind_ret tt (λ _, _)), bind_ret. unfold when.
    match goal with |- bind commit _ ?x = _ => replace x with (set_k_fs s1 k) end.
    2:{ unfold s1, l1, s in *. unfold mod_fs, mod_mach, set_k_fs, set_k_mach. cbn. by rewrite Ho. }
    rewrite (bind_ok _ _ _ _ _ Hrun).
    rewrite (bind_ok _ _ _ _ _ (acquire_ok Llog (set_k_fs s2 k) ltac:(by apply (fr_lock k Hr)))).
    rewrite bind_modify.
    erewrite bind_ok by (apply wakeup_quiet; [apply avail_hold; [done|by apply (fr_lock k Hr)]|by apply (fr_quiet k Hr)]).
    rewrite (release_ok Llog _ (k_mach k)); [|by apply (fr_lock k Hr)|done]. done.
  - apply cview_log; [|set_solver]. eapply cview_ext; [|done|exact Hc2].
    intros n. by destruct (cview_settled _ _ _ _ n Hc2) as [?%elem_of_empty|?].
  - cbn. rewrite Hl2. destruct Hlo. split; try done.
  - cbn. by rewrite Hl2.
  - cbn. by rewrite Hl2.
  - done.
  - cbn. rewrite Hl2. change (log_start (no_lh l1)) with start. unfold ws, end_writes.
    destruct L as [|v L0] eqn:EL; [done|]. rewrite <- EL. apply commit_head; [by rewrite EL|by eapply cview_block_ok|by rewrite EL].
  - by destruct Hf2.
Qed.
End transactions.

(** ** Recovery *)

(** A header that a commit can have left on the disk. *)
Definition header_wf (start : Z) (d : list Z) : Prop := 0 ≤ hb_n d < LOGSIZE ∧ Forall (home start) (hb_blocks d).

(** What the blocks become: those of the header get what the log has for them. *)
Definition recovered (start : Z) (D : Z → list Z) : Z → list Z :=
  apply_writes (install_writes D start (hb_blocks (D start))) D.

(** What recovery writes to the disk. *)
Definition recover_writes (start : Z) (D : Z → list Z) : list (Z * Z * list Z) :=
  install_writes D start (hb_blocks (D start)) ++ [(1, start, header (recovered start D start) [])].

Section recovery.
Context {W : world} {DW : DiskWorld}.
Implicit Types (k : kernel) (s : fsys) (n : Z) (C D : Z → list Z) (L : list Z).

Lemma length_hb_blocks d : length (hb_blocks d) = Z.to_nat (hb_n d).
Proof. unfold hb_blocks. by rewrite length_fmap, length_seq. Qed.

(** The loop of [read_head] copies the block numbers. *)
Lemma load_header k d :
  0 ≤ hb_n d < LOGSIZE → lh_n (lh (log (k_fs k))) = hb_n d → length (lh_block (lh (log (k_fs k)))) = 30%nat →
  ∃ B, for_log (λ i, set_lh_block_at i (hb_block d i)) k
      = Ok tt (set_k_fs (set_log (set_lh (mkLogheader (hb_n d) B) (log (k_fs k))) (k_fs k)) k) ∧
    length B = 30%nat ∧ take (Z.to_nat (hb_n d)) B = hb_blocks d.
Proof.
  intros Hn Hlh Hlen. set (s := k_fs k) in *.
  destruct (for_log_ok (λ i s', ∃ B, s' = set_log (set_lh (mkLogheader (hb_n d) B) (log s)) s ∧
    length B = 30%nat ∧ take i B = take i (hb_blocks d)) (λ i, set_lh_block_at i (hb_block d i)) k (Z.to_nat (hb_n d)))
    as (s' & Hrun & B & -> & HB & HtB).
  - fold s. lia.
  - intros i s' (B & -> & _). cbn. lia.
  - exists (lh_block (lh (log s))). split_and!; [|done|done]. fold s. rewrite <- Hlh. by destruct s as [? ? ? ? ? ? ? ? ? [? ? ? ? ? []]].
  - intros i s' Hi (B & -> & HB & HtB). eexists. split.
    + unfold set_lh_block_at, getl, getf. rewrite bind_gets. cbn [k_fs set_k_fs log set_log lh set_lh lh_block].
      rewrite aset_nat by clia. rewrite bind_or_ub. reflexivity.
    + exists (<[i := hb_block d (Z.of_nat i)]> B). split_and!; [done|by rewrite length_insert|].
      rewrite (take_S_r _ _ (hb_block d (Z.of_nat i))) by (apply list_lookup_insert_eq; clia).
      rewrite take_insert_ge by done. rewrite HtB. symmetry. apply take_S_r.
      unfold hb_blocks. rewrite list_lookup_fmap, lookup_seq_lt by done. done.
  - exists B. split_and!; [done|done|]. rewrite HtB. apply take_ge. by rewrite length_hb_blocks.
Qed.

Lemma read_head_ok k C :
  fs_ready k → cview [] (k_fs k) C C ∅ → log_ok (log (k_fs k)) →
  let start := log_start (log (k_fs k)) in
  header_wf start (C start) →
  ∃ s', read_head k = Ok tt (set_k_fs s' k) ∧ cview [] s' C C ∅ ∧ frame (k_fs k) s' ∧
    (∃ x, log s' = set_lh x (log (k_fs k))) ∧ log_ok (log s') ∧ logged s' = hb_blocks (C start) ∧
    dwrites s' = dwrites (k_fs k).
Proof.
  intros Hr Hc Hlo start [Hn Hh]. pose proof (lo_start _ Hlo) as Hs. fold start in Hs.
  destruct (cv_bread k [] C C ∅ start Hr Hc) as (b & s1 & Hr1 & Hc1 & Hst1 & _);
    [clia|apply not_elem_of_nil|right; vm_compute; lia|].
  assert (Hl1 : log s1 = log (k_fs k)) by apply Hst1. set (d := C start) in *.
  set (s2 := set_log (set_lh (set_lh_n (hb_n d) (lh (log s1))) (log s1)) s1).
  destruct (load_header (set_k_fs s2 k) d) as (B & Hr3 & HB & HtB); [done|done|cbn; rewrite Hl1; apply Hlo|].
  cbn [k_fs set_k_fs] in Hr3. set (s3 := set_log _ s2) in Hr3.
  assert (Hc3 : cview [(b, start)] s3 C C ∅).
  { apply cview_log; [|set_solver]. apply cview_log; [done|set_solver]. }
  destruct (cv_brelse (set_k_fs s3 k) [] C C ∅ b start (fs_ready_fs _ _ Hr) Hc3) as (s4 & Hr4 & Hc4 & Hst4); [by right|].
  assert (Hl4 : log s4 = set_lh (mkLogheader (hb_n d) B) (log (k_fs k))).
  { rewrite (st_log _ _ Hst4). cbn. by rewrite Hl1. }
  exists s4. split_and!; try done.
  - unfold read_head. rewrite bind_gets, (lo_dev _ Hlo). fold start. rewrite (bind_ok _ _ _ _ _ Hr1).
    erewrite bind_ok by (eapply (cv_bdata (set_k_fs s1 k)); [done|left]).
    unfold mod_lh, modl, modf. rewrite bind_modify. fold d.
    change (mod_fs _ (set_k_fs s1 k)) with (set_k_fs s2 k). rewrite (bind_ok _ _ _ _ _ Hr3). exact Hr4.
  - destruct Hst1 as [[] _ _], Hst4 as [[] _ _]. split; cbn in *; congruence.
  - by eexists.
  - rewrite Hl4. destruct Hlo. split; cbn; try done.
  - unfold logged. rewrite Hl4. exact HtB.
  - rewrite (st_writes _ _ Hst4). cbn. apply Hst1.
Qed.

Lemma recovered_start start D : header_wf start (D start) → recovered start D start = D start.
Proof. intros [_ Hh]. apply install_writes_ne. by apply home_not_start. Qed.

(** [recover_from_log] finishes the commit that the header tells of. *)
Lemma recover_ok k C :
  fs_ready k → cview [] (k_fs k) C C ∅ → log_ok (log (k_fs k)) → outstanding (log (k_fs k)) = 0 →
  committing (log (k_fs k)) = 0 →
  let start := log_start (log (k_fs k)) in
  header_wf start (C start) →
  ∃ s' C', recover_from_log k = Ok tt (set_k_fs s' k) ∧ fs_idle s' C' ∧ frame (k_fs k) s' ∧
    log_start (log s') = start ∧ (∀ n, n ≠ start → C' n = recovered start C n) ∧
    dwrites s' = dwrites (k_fs k) ++ recover_writes start C.
Proof.
  intros Hr Hc Hlo Hout Hcm start Hwf. pose proof Hwf as [Hn Hh].
  destruct (read_head_ok k C Hr Hc Hlo Hwf) as (s1 & Hr1 & Hc1 & Hf1 & [x Hl1] & Hlo1 & HL1 & Hd1).
  assert (Hs1 : log_start (log s1) = start) by (by rewrite Hl1).
  destruct (install_trans_ok (set_k_fs s1 k) C C ∅ (fs_ready_fs _ _ Hr) Hc1 Hlo1) as (s2 & Hr2 & Hc2 & Hw2);
    [cbn; rewrite Hs1; by rewrite HL1|vm_compute; lia|by right|].
  cbn [k_fs set_k_fs] in *. rewrite HL1, Hs1 in *. fold (recovered start C) in Hc2.
  assert (Hl2 : log s2 = log s1) by apply Hw2.
  set (s3 := set_log (no_lh (log s2)) s2).
  assert (Hc3 : cview [] s3 (recovered start C) (recovered start C) ∅) by (apply cview_log; [done|set_solver]).
  destruct (write_head_ok (set_k_fs s3 k) _ _ _ (fs_ready_fs _ _ Hr) Hc3) as (s4 & Hr4 & Hc4 & Hw4);
    [cbn; rewrite Hl2; by destruct Hlo1; split; cbn; try done; clia|vm_compute; lia|set_solver|].
  cbn [k_fs set_k_fs] in *. change (logged s3) with (@nil Z) in *. change (log s3) with (no_lh (log s2)) in *.
  change (log_start (no_lh (log s2))) with (log_start (log s2)) in *. rewrite Hl2, Hs1 in *.
  set (C' := upd (recovered start C) start (header (recovered start C start) [])) in *.
  assert (Hl4 : log s4 = no_lh (log s1)) by (rewrite (ws_log _ _ _ Hw4); cbn; by rewrite Hl2).
  exists s4, C'. split_and!.
  - unfold recover_from_log. rewrite (bind_ok _ _ _ _ _ Hr1), (bind_ok _ _ _ _ _ Hr2).
    unfold mod_lh, modl, modf. rewrite bind_modify. exact Hr4.
  - split; rewrite ?Hl4; try done.
    + destruct Hlo1. split; cbn; try done.
    + cbn. by rewrite Hl1.
    + cbn. by rewrite Hl1.
    + change (log_start (no_lh (log s1))) with (log_start (log s1)). rewrite Hs1. unfold C'. rewrite upd_eq.
      rewrite header_n; [done| |cbn; lia]. by eapply cview_block_ok.
  - destruct Hf1, Hw2 as [[] _ _], Hw4 as [[] _ _]. split; cbn in *; congruence.
  - by rewrite Hl4.
  - intros n Hne. unfold C'. by rewrite upd_ne.
  - rewrite (ws_writes _ _ _ Hw4). change (dwrites s3) with (dwrites s2). rewrite (ws_writes _ _ _ Hw2), Hd1.
    by rewrite <- app_assoc.
Qed.
End recovery.

(** ** A crash during a commit *)
Section crash.
Implicit Types (C D : Z → list Z) (L : list Z) (n start : Z) (ws : list (Z * Z * list Z)).

Lemma split_at {A} (l1 l2 a b : list A) x : l1 ++ l2 = a ++ x :: b →
  (∃ a2, a = l1 ++ a2) ∨ ∃ b1, l1 = a ++ x :: b1 ∧ b = b1 ++ l2.
Proof.
  revert l1. induction a as [|y a IH]; intros l1 Heq.
  - destruct l1 as [|z l1]; [left; by exists []|]. right. injection Heq as -> <-. by exists l1.
  - destruct l1 as [|z l1]; [left; by exists (y :: a)|]. injection Heq as -> Heq.
    destruct (IH l1 Heq) as [[a2 ->]|(b1 & -> & ->)]; [left; by exists a2|right; by exists b1].
Qed.

(** No commit on the disk: nothing happens. *)
Lemma recovered_none start D : hb_n (D start) = 0 →
  header_wf start (D start) ∧ ∀ n, recovered start D n = D n.
Proof.
  intros H0. assert (hb_blocks (D start) = []) as E by (unfold hb_blocks; by rewrite H0).
  split; [split; [rewrite H0; clia|by rewrite E]|]. intros n. unfold recovered. by rewrite E.
Qed.

(** A complete log: the blocks get their new contents, whatever they had. *)
Lemma recovered_all start D C L :
  hb_n (D start) = Z.of_nat (length L) → hb_blocks (D start) = L → (length L ≤ 29)%nat → Forall (home start) L →
  (∀ i n, L !! i = Some n → D (start + 1 + Z.of_nat i) = C n) → (∀ n, home start n → n ∉ L → D n = C n) →
  header_wf start (D start) ∧ ∀ n, home start n → recovered start D n = C n.
Proof.
  intros Hn HL Hlen Hh Hlog Hoth. split; [split; [rewrite Hn; clia|by rewrite HL]|].
  intros n Hhn. unfold recovered. rewrite HL. destruct (decide (n ∈ L)) as [HnL|HnL].
  - by apply install_writes_at.
  - rewrite install_writes_ne by done. by apply Hoth.
Qed.

(** Writing the same again, after a part of it, makes no difference. *)
Lemma apply_writes_same ws X Y n : (∃ d, (1, n, d) ∈ ws) → apply_writes ws X n = apply_writes ws Y n.
Proof.
  induction ws as [|[[dev m] d] ws IH] using rev_ind; intros [e He]; [by apply not_elem_of_nil in He|].
  rewrite !apply_writes_snoc. apply elem_of_app in He as [He|[= <- <- <-]%list_elem_of_singleton].
  - destruct (dev =? 1); [|by eauto]. unfold upd. destruct (n =? m); [done|by eauto].
  - change (1 =? 1) with true. cbv iota. by rewrite !upd_eq.
Qed.

Lemma apply_writes_again ws ws1 ws2 D n : ws = ws1 ++ ws2 → apply_writes ws (apply_writes ws1 D) n = apply_writes ws D n.
Proof.
  intros Hws. destruct (decide (n ∈ (λ w, w.1.2) <$> filter (λ w, w.1.1 = 1) ws)) as [Hin|Hin].
  - apply list_elem_of_fmap in Hin as ([[dev m] d] & -> & [Hdev Hin]%list_elem_of_filter). cbn in *. subst dev.
    apply apply_writes_same. eauto.
  - assert (Hne : ∀ m d, (1, m, d) ∈ ws → m ≠ n).
    { intros m d Hm ->. apply Hin. apply list_elem_of_fmap. exists (1, n, d). split; [done|]. by apply list_elem_of_filter. }
    rewrite !apply_writes_ne; try done. intros m d Hm. apply (Hne m d). rewrite Hws. apply elem_of_app. by left.
Qed.

(** A crash during recovery: recovering again gives the same. *)
Lemma recovered_again start D ws1 ws2 :
  header_wf start (D start) → block_ok (D start) → recover_writes start D = ws1 ++ ws2 →
  let D1 := apply_writes ws1 D in
  header_wf start (D1 start) ∧ ∀ n, home start n → recovered start D1 n = recovered start D n.
Proof.
  intros Hwf Hok Hws D1. pose proof Hwf as [Hn Hh]. set (L := hb_blocks (D start)) in *.
  pose proof (home_not_start _ _ Hh) as Hns. unfold recover_writes in Hws. fold L in Hws.
  symmetry in Hws. apply split_at in Hws as [[a2 Ha]|(b1 & -> & Hb)].
  - assert (Hsame : ∀ n, n ∉ L → D1 n = D n).
    { intros n HnL. apply apply_writes_ne. intros m d Hin ->. apply HnL.
      assert (Hin' : (1, n, d) ∈ install_writes D start L) by (rewrite Ha; apply elem_of_app; by left).
      apply elem_of_imap' in Hin' as (i & y & Hi & [= -> ->]). by eapply list_elem_of_lookup_2. }
    assert (Hst : D1 start = D start) by (by apply Hsame).
    split; [by rewrite Hst|]. intros n _. unfold recovered. rewrite Hst. fold L.
    replace (install_writes D1 start L) with (install_writes D start L); [by eapply apply_writes_again|].
    apply imap_ext. intros i x Hi. f_equal. symmetry. apply Hsame. intros Hin. rewrite Forall_forall in Hh.
    destruct (Hh _ Hin) as [_ Hlog]. apply lookup_lt_Some in Hi. unfold L in Hi. rewrite length_hb_blocks in Hi. clia.
  - symmetry in Hb. apply app_eq_nil in Hb as [-> ->].
    assert (HD1 : D1 = upd (recovered start D) start (header (recovered start D start) [])).
    { unfold D1. by rewrite apply_writes_snoc. }
    destruct (recovered_none start D1) as [Hwf1 Hrec].
    { rewrite HD1, upd_eq, (recovered_start start D Hwf). rewrite header_n; [done|done|cbn; lia]. }
    split; [done|]. intros n [_ Hlog]. rewrite Hrec, HD1. apply upd_ne. clia.
Qed.

(** A commit writes the logged blocks and the log, nothing else. *)
Lemma end_writes_elem C start L n d : (length L ≤ 29)%nat → (1, n, d) ∈ end_writes C start L →
  n ∈ L ∨ start ≤ n < start + LOGSIZE.
Proof.
  intros Hlen Hin. destruct L as [|v L0]; [by apply not_elem_of_nil in Hin|]. set (L := v :: L0) in *.
  change (end_writes C start L) with (commit_writes C start L) in Hin. unfold commit_writes in Hin.
  rewrite elem_of_app, elem_of_cons, elem_of_app, list_elem_of_singleton in Hin.
  destruct Hin as [Hin|[Hin|[Hin|Hin]]].
  - apply elem_of_imap' in Hin as (i & y & Hi & [= -> ->]). apply lookup_lt_Some in Hi. right. clia.
  - injection Hin as -> _. right. clia.
  - apply list_elem_of_fmap in Hin as (y & [= -> ->] & Hy). by left.
  - injection Hin as -> _. right. clia.
Qed.

Lemma crash_cases C D start L ws1 ws2 :
  end_writes C start L = ws1 ++ ws2 → Forall (home start) L → (length L ≤ 29)%nat →
  hb_n (D start) = 0 → block_ok (C start) → (∀ n, n ∈ L ∨ C n = D n) →
  let D1 := apply_writes ws1 D in
  header_wf start (D1 start) ∧
  ((∀ n, home start n → recovered start D1 n = D n) ∧ ws2 ≠ [] ∨ (∀ n, home start n → recovered start D1 n = C n)).
Proof.
  intros Hws Hh Hlen H0 Hok HCD D1. destruct L as [|v L0].
  { destruct ws1, ws2; try done. destruct (recovered_none start D H0) as [Hwf Hrec]. split; [done|right].
    intros n Hn. unfold D1. cbn [apply_writes fold_left]. rewrite Hrec. by destruct (HCD n) as [?%not_elem_of_nil|]. }
  set (L := v :: L0) in *. change (end_writes C start L) with (commit_writes C start L) in Hws.
  unfold commit_writes in Hws. cbv zeta in Hws. set (hd := header (C start) L) in *.
  assert (Hhn : hb_n hd = Z.of_nat (length L)) by (apply header_n; [done|lia]).
  assert (HhL : hb_blocks hd = L).
  { apply header_blocks; [done|lia|]. eapply Forall_impl; [exact Hh|]. by intros n [? _]. }
  symmetry in Hws. pose proof (f_equal length Hws) as Hwl. apply split_at in Hws as [[a2 Ha]|(b1 & -> & Hb)].
  - assert (Hlow : ∀ n, n ≤ start ∨ start + LOGSIZE ≤ n → D1 n = D n).
    { intros n Hn. apply apply_writes_ne. intros m d Hin. assert (Hin' : (1, m, d) ∈ log_writes C start L).
      { rewrite Ha. apply elem_of_app. by left. }
      apply elem_of_imap' in Hin' as (i & y & Hi & [= -> ->]). apply lookup_lt_Some in Hi. clia. }
    assert (HD1 : D1 start = D start) by (apply Hlow; lia).
    destruct (recovered_none start D1) as [Hwf Hrec]; [by rewrite HD1|]. split; [done|left]. split.
    + intros n [_ Hn]. rewrite Hrec. apply Hlow. clia.
    + intros ->. rewrite Ha in Hwl. rewrite !length_app in Hwl. cbn in Hwl. lia.
  - set (E := upd (apply_writes (log_writes C start L) D) start hd).
    assert (HD1 : D1 = apply_writes b1 E).
    { unfold D1. by rewrite apply_writes_app. }
    assert (HE : ∀ i n, L !! i = Some n → E (start + 1 + Z.of_nat i) = C n).
    { intros i n Hi. unfold E. rewrite upd_ne by lia. by apply log_writes_at. }
    assert (HEh : ∀ n, home start n → n ∉ L → E n = C n).
    { intros n [_ Hn] HnL. unfold E. rewrite upd_ne by clia. rewrite log_writes_ne by clia. by destruct (HCD n). }
    pose proof (home_not_start _ _ Hh) as Hns. symmetry in Hb. apply split_at in Hb as [[a2 Ha]|(b2 & -> & Hb)].
    + assert (Hb1 : ∀ n, n ∉ L → D1 n = E n).
      { intros n Hn. rewrite HD1. apply apply_writes_ne. intros m d Hin.
        assert (Hin' : (1, m, d) ∈ ((λ n, (1, n, C n)) <$> L)) by (rewrite Ha; apply elem_of_app; by left).
        apply list_elem_of_fmap in Hin' as (y & [= -> ->] & Hy). intros ->. done. }
      assert (Hst : D1 start = hd) by (rewrite Hb1 by done; apply upd_eq).
      destruct (recovered_all start D1 C L) as [Hwf Hrec]; rewrite ?Hst; try done; [| |rewrite Hst in Hwf; by split; [|right]].
      * intros i n Hi. rewrite Hb1; [by apply HE|]. intros Hin. rewrite Forall_forall in Hh. destruct (Hh _ Hin).
        apply lookup_lt_Some in Hi. clia.
      * intros n Hn HnL. rewrite Hb1 by done. by apply HEh.
    + symmetry in Hb. apply app_eq_nil in Hb as [-> ->].
      assert (HD2 : D1 = apply_writes (commit_writes C start L) D).
      { unfold D1, commit_writes. cbv zeta. fold hd. done. }
      destruct (recovered_none start D1) as [Hwf Hrec]; [rewrite HD2; by apply commit_head|]. split; [done|right].
      intros n Hn. rewrite Hrec, HD2. by apply (commit_home C start L).
Qed.
End crash.

(** ** Booting *)

(** The static variable [log] of the kernel image. *)
Definition boot_log : logst := mkLogst 0 0 0 0 0 (mkLogheader 0 (replicate 30 0)).

(** The superblock says where the log is. *)
Definition log_at (start : Z) (d : list Z) : Prop :=
  sb_logstart (sb_of_block d) = start ∧ sb_nlog (sb_of_block d) = LOGSIZE.

(** The kernel has just started on a machine whose disk is [D]. *)
Record booted (k : kernel) (D : Z → list Z) : Prop := mkBooted {
  bt_ready : fs_ready k;
  bt_view : cview [] (k_fs k) D D ∅;
  bt_log : log (k_fs k) = boot_log
}.

Section boot.
Context {W : world} {DW : DiskWorld}.
Implicit Types (k : kernel) (s : fsys) (n start : Z) (C D : Z → list Z).

Definition with_lock (l : lockid) (name : string) k : kernel :=
  mod_mach (λ m, set_locks (<[l := mkSpinlock 0 name None]> (locks m)) m) k.

Lemma fs_ready_lock l name k : fs_ready k → fs_ready (with_lock l name k).
Proof.
  intros [(p & q & (i & c & Hc & Hrest) & Hq) Hl Hqu].
  assert (Hc' : cpu_ok (k_mach (with_lock l name k)) i c) by (destruct Hc; by split).
  split; [|intros l' Hl'|done].
  - exists p, q. split; [|done]. exists i, c. done.
  - destruct (Hl l' Hl') as [_ [nm Hnm]]. split; [by exists i, c|]. cbn.
    destruct (decide (l = l')) as [<-|Hne]; [rewrite lookup_insert_eq|rewrite lookup_insert_ne by done]; eauto.
Qed.

Lemma readsb_ok k C D Q :
  fs_ready k → cview [] (k_fs k) C D Q → (size Q < 30)%nat →
  ∃ s', readsb 1 k = Ok (sb_of_block (C 1)) (set_k_fs s' k) ∧ cview [] s' C D Q ∧ still (k_fs k) s'.
Proof.
  intros Hr Hc HQ. destruct (cv_bread k [] C D Q 1 Hr Hc) as (b & s1 & Hr1 & Hc1 & Hst1 & Hset);
    [clia|apply not_elem_of_nil|right; cbn; lia|].
  destruct (cv_brelse (set_k_fs s1 k) [] C D Q b 1 (fs_ready_fs _ _ Hr) Hc1 Hset) as (s2 & Hr2 & Hc2 & Hst2).
  exists s2. split_and!; [|done|by eapply still_trans].
  unfold readsb. rewrite (bind_ok _ _ _ _ _ Hr1).
  erewrite bind_ok by (eapply (cv_bdata (set_k_fs s1 k)); [done|left]).
  by rewrite (bind_ok _ _ _ _ _ Hr2).
Qed.

Lemma initlog_ok k D start :
  booted k D → log_at start (D 1) → 0 ≤ start ∧ start + LOGSIZE ≤ FSSIZE → header_wf start (D start) →
  ∃ s' C', initlog 1 k = Ok tt (set_k_fs s' (with_lock Llog "log" k)) ∧ fs_idle s' C' ∧ frame (k_fs k) s' ∧
    log_start (log s') = start ∧ (∀ n, n ≠ start → C' n = recovered start D n) ∧
    dwrites s' = dwrites (k_fs k) ++ recover_writes start D.
Proof.
  intros [Hr Hc Hl] [Hst Hnl] Hrange Hwf. set (k0 := with_lock Llog "log" k).
  assert (Hr0 : fs_ready k0) by (by apply fs_ready_lock).
  destruct (readsb_ok k0 D D ∅ Hr0 Hc) as (s1 & Hr1 & Hc1 & Hst1); [vm_compute; lia|].
  set (l2 := mkLogst start LOGSIZE 0 0 1 (mkLogheader 0 (replicate 30 0))).
  assert (Hl1 : log s1 = boot_log) by (rewrite (st_log _ _ Hst1); exact Hl).
  set (s2 := set_log l2 s1).
  assert (Hc2 : cview [] s2 D D ∅) by (apply cview_log; [done|set_solver]).
  destruct (recover_ok (set_k_fs s2 k0) D (fs_ready_fs _ _ Hr0) Hc2) as (s3 & C' & Hr3 & Hid & Hf & Hs & HC' & Hdw);
    [split; try done; cbn; clia|done|done|done|].
  exists s3, C'. split_and!; try done.
  - unfold initlog. change (BSIZE <=? 4 + 4 * LOGSIZE) with false. cbv iota.
    unfold initlock, set_lock. rewrite bind_modify. change (mod_mach _ k) with k0.
    rewrite (bind_ok _ _ _ _ _ Hr1). unfold modl, modf. rewrite !bind_modify.
    change (mod_fs _ (mod_fs _ (mod_fs _ (set_k_fs s1 k0)))) with
      (set_k_fs (set_log (set_log_dev 1 (set_log_size (sb_nlog (sb_of_block (D 1)))
        (set_log_start (sb_logstart (sb_of_block (D 1))) (log s1)))) s1) k0).
    rewrite Hl1, Hst, Hnl. exact Hr3.
  - destruct Hst1 as [[] _ _], Hf. split; cbn in *; congruence.
  - rewrite Hdw. change (dwrites (k_fs (set_k_fs s2 k0))) with (dwrites s1). by rewrite (st_writes _ _ Hst1).
Qed.

(** C2: [end_op] is atomic with respect to a crash.  Its writes reach the disk one
    after the other; when the machine stops after any number of them and boots
    again, [initlog] leaves every block outside the log as it was before the
    transaction, or every one as the transaction left it; and when [end_op] had
    returned, the latter. *)
Theorem end_op_crash_safe k C D m start :
  fs_ready k → tx [] (k_fs k) C D m → outstanding (log (k_fs k)) = 1 → committing (log (k_fs k)) = 0 →
  log_start (log (k_fs k)) = start → hb_n (D start) = 0 → log_at start (D 1) → home start 1 → 1 ∉ logged (k_fs k) →
  ∃ s' ws, end_op k = Ok tt (set_k_fs s' k) ∧ dwrites s' = dwrites (k_fs k) ++ ws ∧
    (∀ n, home start n → content s' n = C n) ∧
    ∀ ws1 ws2 k1, ws = ws1 ++ ws2 → booted k1 (apply_writes ws1 D) →
    ∃ s1, initlog 1 k1 = Ok tt (set_k_fs s1 (with_lock Llog "log" k1)) ∧
      ((∀ n, home start n → content s1 n = D n) ∧ ws2 ≠ [] ∨ (∀ n, home start n → content s1 n = C n)).
Proof.
  intros Hr Htx Ho Hcm Hs H0 HD H1 HnL. pose proof Htx as [Hc Hlo _ _ Hh _]. rewrite Hs in Hh.
  destruct (end_op_ok k C D m Hr Htx Ho Hcm) as (s' & Hrun & Hid & Hf & Hs' & Hw); [by rewrite Hs|].
  rewrite Hs in *. set (L := logged (k_fs k)) in *.
  assert (Hlen : (length L ≤ 29)%nat).
  { pose proof (logged_length _ Hlo) as E. fold L in E. pose proof (lo_n _ Hlo). clia. }
  assert (HCD : ∀ n, n ∈ L ∨ C n = D n).
  { intros n. destruct (cview_settled _ _ _ _ n Hc) as [Hq|]; [left|by right]. by apply elem_of_list_to_set in Hq. }
  exists s', (end_writes C start L). split_and!; [done|done| |].
  { intros n Hn. rewrite (cv_content _ _ _ _ _ (fi_view _ _ Hid)). by apply commit_home. }
  intros ws1 ws2 k1 Hws Hb. assert (Hok : block_ok (C start)) by (by eapply cview_block_ok).
  destruct (crash_cases C D start L ws1 ws2 Hws Hh Hlen H0 Hok HCD) as [Hwf Hcases].
  set (D1 := apply_writes ws1 D) in *.
  assert (HD1 : D1 1 = D 1).
  { apply apply_writes_ne. intros n d Hin ->. destruct (end_writes_elem C start L 1 d Hlen) as [?|?]; [|done|].
    - rewrite Hws. apply elem_of_app. by left.
    - destruct H1. clia. }
  destruct (initlog_ok k1 D1 start Hb) as (s1 & C' & Hr1 & Hid1 & _ & _ & HC' & _); [by rewrite HD1| |done|].
  { rewrite <- Hs. apply Hlo. }
  assert (Hcont : ∀ n, home start n → content s1 n = recovered start D1 n).
  { intros n [Hn Hn']. rewrite (cv_content _ _ _ _ _ (fi_view _ _ Hid1)). apply HC'. clia. }
  exists s1. split; [done|]. destruct Hcases as [[Hold ?]|Hnew]; [left; split; [|done]|right]; intros n Hn.
  - by rewrite Hcont, Hold.
  - by rewrite Hcont, Hnew.
Qed.

(** C4: Recovery survives a crash of its own.  When the machine stops while [initlog]
    replays the log, after any number of its writes, the next [initlog] leaves
    every block outside the log with the contents the first one was about to
    give it. *)
Theorem recovery_crash_safe k D start :
  booted k D → log_at start (D 1) → 0 ≤ start ∧ start + LOGSIZE ≤ FSSIZE → header_wf start (D start) →
  home start 1 → 1 ∉ hb_blocks (D start) →
  ∃ s' ws, initlog 1 k = Ok tt (set_k_fs s' (with_lock Llog "log" k)) ∧ dwrites s' = dwrites (k_fs k) ++ ws ∧
    (∀ n, home start n → content s' n = recovered start D n) ∧
    ∀ ws1 ws2 k1, ws = ws1 ++ ws2 → booted k1 (apply_writes ws1 D) →
    ∃ s1, initlog 1 k1 = Ok tt (set_k_fs s1 (with_lock Llog "log" k1)) ∧
      ∀ n, home start n → content s1 n = content s' n.
Proof.
  intros Hb Hat Hrange Hwf H1 HnL.
  destruct (initlog_ok k D start Hb Hat Hrange Hwf) as (s' & C' & Hr & Hid & _ & _ & HC' & Hdw).
  assert (Hcont : ∀ n, home start n → content s' n = recovered start D n).
  { intros n [Hn Hn']. rewrite (cv_content _ _ _ _ _ (fi_view _ _ Hid)). apply HC'. clia. }
  exists s', (recover_writes start D). split_and!; try done. intros ws1 ws2 k1 Hws Hb1.
  assert (Hok : block_ok (D start)) by (eapply cview_block_ok, (bt_view _ _ Hb)).
  destruct (recovered_again start D ws1 ws2 Hwf Hok Hws) as [Hwf1 Hrec]. set (D1 := apply_writes ws1 D) in *.
  assert (HD1 : D1 1 = D 1).
  { apply apply_writes_ne. intros n d Hin ->. assert (Hin' : (1, 1, d) ∈ recover_writes start D).
    { rewrite Hws. apply elem_of_app. by left. }
    apply elem_of_app in Hin' as [(i & y & Hi & [= E ->])%elem_of_imap'|[= E _]%list_elem_of_singleton].
    - apply HnL. rewrite E. by eapply list_elem_of_lookup_2.
    - destruct H1. clia. }
  destruct (initlog_ok k1 D1 start Hb1) as (s1 & C1 & Hr1 & Hid1 & _ & _ & HC1 & _); [by rewrite HD1|done|done|].
  exists s1. split; [done|]. intros n Hhn. rewrite Hcont, <- Hrec by done.
  rewrite (cv_content _ _ _ _ _ (fi_view _ _ Hid1)). apply HC1. destruct Hhn. clia.
Qed.
End boot.
