(* ===== verification/Inode.v ===== *)
(** Blocks and inodes, the first half of [fs.c]: the block allocator, the inode
    cache, and the map from a file's blocks to disk blocks. *)

From S2P Require Import Prelude Params Bytes State Spinlock Procs Sched Bio Log.

Definition IBLOCK (i : Z) (s : superblock) : Z := i / IPB + sb_inodestart s.
Definition BBLOCK (b : Z) (s : superblock) : Z := b / BPB + sb_bmapstart s.

(** ** Access to the inode cache *)
Definition get_inode (i : nat) : K inode := l ← getf inodes; or_ub "inode" (l !! i).
Definition mod_inode (i : nat) (f : inode → inode) : K unit :=
  modf (λ s, set_inodes (alter f i (inodes s)) s).

Definition inode_lock (i : nat) : sleeplock_at := {|
  sl_look s := i_lock <$> inodes s !! i;
  sl_upd f s := set_inodes (alter (λ x, set_i_lock (f (i_lock x)) x) i (inodes s)) s;
  sl_lk := Linode i
|}.

(** ** [struct dinode]

    Sixty-four bytes: four shorts, the size, and [NDIRECT+1] block numbers. *)
Record dinode := mkDinode {
  d_type : Z;
  d_major : Z;
  d_minor : Z;
  d_nlink : Z;
  d_size : Z;
  d_addrs : list Z;
}.

Definition dinode_at (d : list Z) (off : nat) : dinode :=
  mkDinode (s16 (get16 d off)) (s16 (get16 d (off + 2))) (s16 (get16 d (off + 4)))
    (s16 (get16 d (off + 6))) (get32 d (off + 8))
    ((λ i, get32 d (off + 12 + 4 * i)) <$> seq 0 13).
Definition dinode_bytes (x : dinode) : list Z :=
  le_bytes 2 (d_type x) ++ le_bytes 2 (d_major x) ++ le_bytes 2 (d_minor x) ++
  le_bytes 2 (d_nlink x) ++ le_bytes 4 (d_size x) ++ concat (le_bytes 4 <$> d_addrs x).

(** The offset of inode [inum] in its block. *)
Definition ioff (inum : Z) : nat := Z.to_nat (inum mod IPB * 64).

Section inode.
Context `{world}.

Definition bzero (dev bno : Z) : K unit :=
  bp ← bread dev bno;
  mod_data bp (λ _, zero_block);;
  log_write bp;;
  brelse bp.

(** ** The block allocator *)
Definition bit_of (d : list Z) (bi : Z) : Z :=
  Z.land (default 0 (d !! Z.to_nat (bi / 8))) (Z.shiftl 1 (bi mod 8)).
Definition set_bit (d : list Z) (bi : Z) : list Z :=
  alter (λ x, Z.lor x (Z.shiftl 1 (bi mod 8))) (Z.to_nat (bi / 8)) d.
Definition clear_bit (d : list Z) (bi : Z) : list Z :=
  alter (λ x, Z.land x (Z.lnot (Z.shiftl 1 (bi mod 8)))) (Z.to_nat (bi / 8)) d.

(** [for(bi = 0; bi < BPB && b + bi < sb.size; bi++)], up to a clear bit. *)
Fixpoint scan_bits (fuel : nat) (d : list Z) (b bi size : Z) : option Z :=
  match fuel with
  | O => None
  | S fuel =>
      if (bi <? BPB) && (b + bi <? size) then
        if bit_of d bi =? 0 then Some bi else scan_bits fuel d b (bi + 1) size
      else None
  end.

Fixpoint balloc_loop (fuel : nat) (dev b : Z) : K Z :=
  s ← getf sb;
  if b <? sb_size s then
    match fuel with
    | O => fail OutOfFuel
    | S fuel =>
        bp ← bread dev (BBLOCK b s);
        d ← bdata bp;
        match scan_bits (Z.to_nat BPB) d b 0 (sb_size s) with
        | Some bi =>
            mod_data bp (λ d, set_bit d bi);;
            log_write bp;;
            brelse bp;;
            bzero dev (b + bi);;
            ret (b + bi)
        | None => brelse bp;; balloc_loop fuel dev (b + BPB)
        end
    end
  else panic "balloc: out of blocks".
Definition balloc (dev : Z) : K Z :=
  s ← getf sb; balloc_loop (S (Z.to_nat (sb_size s / BPB))) dev 0.

Definition bfree (dev b : Z) : K unit :=
  s ← readsb dev;
  modf (set_sb s);;
  bp ← bread dev (BBLOCK b s);
  d ← bdata bp;
  if bit_of d (b mod BPB) =? 0 then panic "freeing free block" else
  mod_data bp (λ d, clear_bit d (b mod BPB));;
  log_write bp;;
  brelse bp.

(** ** Inodes *)
(** The scan of [iget]: the entry that caches the inode, and else the first empty one. *)
Fixpoint iget_scan (l : list inode) (i : nat) (dev inum : Z) (empty : option nat) : bool * option nat :=
  match l with
  | [] => (false, empty)
  | x :: l =>
      if (0 <? i_ref x) && (i_dev x =? dev) && (i_inum x =? inum) then (true, Some i)
      else
        let empty := if bool_decide (empty = None) && (i_ref x =? 0) then Some i else empty in
        iget_scan l (S i) dev inum empty
  end.

Definition iget (dev inum : Z) : K nat :=
  acquire Licache;;
  l ← getf inodes;
  match iget_scan l 0 dev inum None with
  | (true, Some i) =>
      mod_inode i (λ x, set_i_ref (i_ref x + 1) x);;
      release Licache;;
      ret i
  | (_, None) => panic "iget: no inodes"
  | (false, Some i) =>
      mod_inode i (λ x, set_i_valid 0 (set_i_ref 1 (set_i_inum inum (set_i_dev dev x))));;
      release Licache;;
      ret i
  end.

Definition idup (i : nat) : K nat :=
  acquire Licache;;
  mod_inode i (λ x, set_i_ref (i_ref x + 1) x);;
  release Licache;;
  ret i.

Fixpoint ialloc_loop (fuel : nat) (dev type inum : Z) : K nat :=
  s ← getf sb;
  if inum <? sb_ninodes s then
    match fuel with
    | O => fail OutOfFuel
    | S fuel =>
        bp ← bread dev (IBLOCK inum s);
        d ← bdata bp;
        if d_type (dinode_at d (ioff inum)) =? 0 then
          mod_data bp (λ d, splice d (ioff inum) (dinode_bytes (mkDinode type 0 0 0 0 (replicate 13 0))));;
          log_write bp;;
          brelse bp;;
          iget dev inum
        else
          brelse bp;; ialloc_loop fuel dev type (inum + 1)
    end
  else panic "ialloc: no inodes".
Definition ialloc (dev type : Z) : K nat :=
  s ← getf sb; ialloc_loop (Z.to_nat (sb_ninodes s)) dev type 1.

Definition iupdate (i : nat) : K unit :=
  x ← get_inode i;
  s ← getf sb;
  bp ← bread (i_dev x) (IBLOCK (i_inum x) s);
  x ← get_inode i;
  mod_data bp (λ d, splice d (ioff (i_inum x)) (dinode_bytes
    (mkDinode (i_type x) (i_major x) (i_minor x) (i_nlink x) (i_size x) (i_addrs x))));;
  log_write bp;;
  brelse bp.

Definition load_dinode (y : dinode) (x : inode) : inode :=
  mkInode (i_dev x) (i_inum x) (i_ref x) (i_lock x) (i_valid x)
    (d_type y) (d_major y) (d_minor y) (d_nlink y) (d_size y) (d_addrs y).

(** A null [ip] is the case [None]. *)
Definition ilock (ip : option nat) : K unit :=
  match ip with
  | None => panic "ilock"
  | Some i =>
      x ← get_inode i;
      if i_ref x <? 1 then panic "ilock" else
      acquiresleep (inode_lock i);;
      x ← get_inode i;
      when (i_valid x =? 0) (
        s ← getf sb;
        bp ← bread (i_dev x) (IBLOCK (i_inum x) s);
        d ← bdata bp;
        mod_inode i (load_dinode (dinode_at d (ioff (i_inum x))));;
        brelse bp;;
        mod_inode i (set_i_valid 1);;
        x ← get_inode i;
        if i_type x =? 0 then panic "ilock: no type" else ret tt)
  end.

Definition iunlock (ip : option nat) : K unit :=
  match ip with
  | None => panic "iunlock"
  | Some i =>
      h ← holdingsleep (inode_lock i);
      x ← get_inode i;
      if negb (truthy h) || (i_ref x <? 1) then panic "iunlock"
      else releasesleep (inode_lock i)
  end.

(** ** The blocks of a file *)
Definition get_addr (i : nat) (n : Z) : K Z := x ← get_inode i; or_ub "addrs" (aget (i_addrs x) n).
Definition set_addr (i : nat) (n v : Z) : K unit :=
  x ← get_inode i; l ← or_ub "addrs" (aset (i_addrs x) n v); mod_inode i (set_i_addrs l).

Definition bmap (i : nat) (bn : Z) : K Z :=
  x ← get_inode i;
  if bn <? NDIRECT then
    addr ← get_addr i bn;
    if addr =? 0 then addr ← balloc (i_dev x); set_addr i bn addr;; ret addr
    else ret addr
  else
    let bn := bn - NDIRECT in
    if bn <? NINDIRECT then
      addr ← get_addr i NDIRECT;
      addr ← (if addr =? 0 then addr ← balloc (i_dev x); set_addr i NDIRECT addr;; ret addr
              else ret addr);
      bp ← bread (i_dev x) addr;
      d ← bdata bp;
      let addr := get32 d (Z.to_nat (4 * bn)) in
      addr ← (if addr =? 0 then
                addr ← balloc (i_dev x);
                mod_data bp (λ d, put32 d (Z.to_nat (4 * bn)) addr);;
                log_write bp;;
                ret addr
              else ret addr);
      brelse bp;;
      ret addr
    else panic "bmap: out of range".

Definition itrunc (i : nat) : K unit :=
  forM (seqZ 0 NDIRECT) (λ j,
    x ← get_inode i;
    addr ← get_addr i j;
    when (truthy addr) (bfree (i_dev x) addr;; set_addr i j 0));;
  x ← get_inode i;
  addr ← get_addr i NDIRECT;
  when (truthy addr) (
    bp ← bread (i_dev x) addr;
    forM (seqZ 0 NINDIRECT) (λ j,
      d ← bdata bp;
      let a := get32 d (Z.to_nat (4 * j)) in
      when (truthy a) (bfree (i_dev x) a));;
    brelse bp;;
    bfree (i_dev x) addr;;
    set_addr i NDIRECT 0);;
  mod_inode i (set_i_size 0);;
  iupdate i.

Definition iput (i : nat) : K unit :=
  acquiresleep (inode_lock i);;
  x ← get_inode i;
  when (truthy (i_valid x) && (i_nlink x =? 0)) (
    acquire Licache;;
    x ← get_inode i;
    release Licache;;
    when (i_ref x =? 1) (
      itrunc i;;
      mod_inode i (set_i_type 0);;
      iupdate i;;
      mod_inode i (set_i_valid 0)));;
  releasesleep (inode_lock i);;
  acquire Licache;;
  mod_inode i (λ x, set_i_ref (i_ref x - 1) x);;
  release Licache.

Definition iunlockput (i : nat) : K unit := iunlock (Some i);; iput i.
End inode.

#[global] Arguments get_inode : simpl never.
#[global] Arguments mod_inode : simpl never.
#[global] Arguments bzero : simpl never.
#[global] Arguments balloc : simpl never.
#[global] Arguments bfree : simpl never.
#[global] Arguments iget : simpl never.
#[global] Arguments ialloc : simpl never.
#[global] Arguments iupdate : simpl never.
#[global] Arguments ilock : simpl never.
#[global] Arguments iunlock : simpl never.
#[global] Arguments iput : simpl never.
#[global] Arguments itrunc : simpl never.
#[global] Arguments bmap : simpl never.
