(* ===== verification/BallocSpec.v ===== *)
(** The block allocator: [balloc] and [bfree] ([fs.c]) on the disk that [mkfs] lays out. *)

From S2P Require Import Prelude Params Bytes State Spinlock Procs Sched SchedSpec Bio BioSpec CacheSpec BlockSpec Log LogSpec CommitSpec Inode.

(** ** The layout of [mkfs.c]: boot block, superblock, log, inodes, bitmap, data *)
Definition NINODES : Z := 200.
Definition nbitmap : Z := FSSIZE / (BSIZE * 8) + 1.
Definition ninodeblocks : Z := NINODES / IPB + 1.
Definition nlog : Z := LOGSIZE.
Definition nmeta : Z := 2 + nlog + ninodeblocks + nbitmap.
Definition mkfs_sb : superblock :=
  mkSuperblock FSSIZE (FSSIZE - nmeta) NINODES nlog 2 (2 + nlog) (2 + nlog + ninodeblocks).

(** The only bitmap block. *)
Definition BMAP : Z := 58.
#[export] Hint Unfold NINODES BMAP : consts.
(** [clia], knowing where the data starts. *)
Ltac dlia := change nmeta with 59 in *; clia.

(** ** Bits *)
Definition bitset (d : list Z) (b : Z) : bool := Z.testbit (default 0 (d !! Z.to_nat (b / 8))) (b mod 8).

(** The data blocks that the bitmap says are free. *)
Definition free_blocks (C : Z → list Z) : list Z :=
  filter (λ b, bitset (C BMAP) b = false) (seqZ nmeta (FSSIZE - nmeta)).

(** The blocks before the data are marked as used. *)
Definition bitmap_ok (C : Z → list Z) : Prop := ∀ b, 0 ≤ b < nmeta → bitset (C BMAP) b = true.

Section bits.
Implicit Types (d : list Z) (b : Z).

Lemma bit_of_eqb d b : 0 ≤ b → (bit_of d b =? 0) = negb (bitset d b).
Proof.
  intros Hb. unfold bit_of, bitset. set (x := default 0 _). set (i := b mod 8).
  assert (Hi : 0 ≤ i) by (unfold i; lia).
  destruct (Z.testbit x i) eqn:Ht; cbn.
  - apply Z.eqb_neq. intros E. assert (Z.testbit (Z.land x (Z.shiftl 1 i)) i = false) as E2 by (by rewrite E, Z.bits_0).
    rewrite Z.land_spec, Z.shiftl_spec, Z.sub_diag, Ht in E2 by lia. done.
  - apply Z.eqb_eq. apply Z.bits_inj'. intros n Hn. rewrite Z.bits_0, Z.land_spec, Z.shiftl_spec by lia.
    destruct (Z.eq_dec n i) as [->|Hne]; [by rewrite Ht|].
    replace (Z.testbit 1 (n - i)) with false; [by rewrite andb_false_r|].
    destruct (Z.ltb_spec n i); [by rewrite Z.testbit_neg_r by lia|].
    symmetry. apply (Z.bits_above_log2 1); [lia|cbn; lia].
Qed.

Lemma byte_at d b : 0 ≤ b < 4096 → length d = 512%nat → ∃ x, d !! Z.to_nat (b / 8) = Some x.
Proof. intros Hb Hl. apply lookup_lt_is_Some_2. lia. Qed.

Lemma testbit_one i j : 0 ≤ i → 0 ≤ j → Z.testbit (Z.shiftl 1 i) j = (j =? i).
Proof.
  intros Hi Hj. rewrite Z.shiftl_spec by lia. destruct (Z.eqb_spec j i) as [->|Hne]; [by rewrite Z.sub_diag|].
  destruct (Z.ltb_spec j i); [by rewrite Z.testbit_neg_r by lia|].
  apply (Z.bits_above_log2 1); [lia|cbn; lia].
Qed.

Lemma bit_place b c : 0 ≤ b → 0 ≤ c → b ≠ c → b / 8 = c / 8 → b mod 8 ≠ c mod 8.
Proof. lia. Qed.

Lemma bitset_alter d b c f :
  0 ≤ b < 4096 → 0 ≤ c → length d = 512%nat →
  bitset (alter f (Z.to_nat (b / 8)) d) c
  = if b / 8 =? c / 8 then Z.testbit (f (default 0 (d !! Z.to_nat (b / 8)))) (c mod 8) else bitset d c.
Proof.
  intros Hb Hc Hl. unfold bitset. destruct (byte_at d b Hb Hl) as [x Hx]. destruct (Z.eqb_spec (b / 8) (c / 8)) as [E|E].
  - rewrite <- E, list_lookup_alter_eq, Hx. done.
  - rewrite list_lookup_alter_ne; [done|]. intros E2. apply E. lia.
Qed.

Lemma bitset_set d b c : 0 ≤ b < 4096 → 0 ≤ c → length d = 512%nat →
  bitset (set_bit d b) c = (c =? b) || bitset d c.
Proof.
  intros Hb Hc Hl. unfold set_bit. rewrite bitset_alter by done.
  destruct (Z.eqb_spec c b) as [->|Hne]; cbn [orb].
  - rewrite Z.eqb_refl, Z.lor_spec, testbit_one, Z.eqb_refl by lia. by rewrite orb_true_r.
  - destruct (Z.eqb_spec (b / 8) (c / 8)) as [E|]; [|done]. rewrite Z.lor_spec, testbit_one by lia.
    rewrite (proj2 (Z.eqb_neq _ _)) by lia. unfold bitset. rewrite E. by rewrite orb_false_r.
Qed.

Lemma bitset_clear d b c : 0 ≤ b < 4096 → 0 ≤ c → length d = 512%nat →
  bitset (clear_bit d b) c = negb (c =? b) && bitset d c.
Proof.
  intros Hb Hc Hl. unfold clear_bit. rewrite bitset_alter by done.
  destruct (Z.eqb_spec c b) as [->|Hne]; cbn [negb andb].
  - rewrite Z.eqb_refl, Z.land_spec, Z.lnot_spec, testbit_one, Z.eqb_refl by lia. by rewrite andb_false_r.
  - destruct (Z.eqb_spec (b / 8) (c / 8)) as [E|]; [|done].
    rewrite Z.land_spec, Z.lnot_spec, testbit_one by lia.
    rewrite (proj2 (Z.eqb_neq _ _)) by lia. unfold bitset. rewrite E. by rewrite andb_true_r.
Qed.

Lemma byte_ok_testbit x : 0 ≤ x < 256 ↔ 0 ≤ x ∧ ∀ i, 8 ≤ i → Z.testbit x i = false.
Proof.
  split.
  - intros [H0 H1]. split; [done|]. intros i Hi. destruct (Z.eq_dec x 0) as [->|]; [apply Z.bits_0|].
    apply Z.bits_above_log2; [done|]. assert (Z.log2 x < 8) by (apply Z.log2_lt_pow2; lia). lia.
  - intros [H0 H1]. split; [done|]. destruct (Z.eq_dec x 0); [lia|].
    change 256 with (2 ^ 8). apply Z.log2_lt_pow2; [lia|]. destruct (Z.ltb_spec (Z.log2 x) 8); [done|].
    pose proof (Z.bit_log2 x). rewrite H1 in *; [|lia]. exfalso. assert (false = true) by (apply H2; lia). done.
Qed.

Lemma block_ok_set_bit d b : 0 ≤ b → block_ok d → block_ok (set_bit d b).
Proof.
  intros Hb [Hl Hby]. split; [unfold set_bit; by rewrite length_alter|]. apply Forall_alter; [done|].
  intros x Hx Hxb. apply byte_ok_testbit in Hxb as [H0 H1]. apply byte_ok_testbit. split.
  - apply Z.lor_nonneg. split; [done|]. apply Z.shiftl_nonneg. lia.
  - intros i Hi. rewrite Z.lor_spec, H1, testbit_one by lia. rewrite (proj2 (Z.eqb_neq _ _)) by lia. done.
Qed.

Lemma block_ok_clear_bit d b : 0 ≤ b → block_ok d → block_ok (clear_bit d b).
Proof.
  intros Hb [Hl Hby]. split; [unfold clear_bit; by rewrite length_alter|]. apply Forall_alter; [done|].
  intros x Hx Hxb. apply byte_ok_testbit in Hxb as [H0 H1]. apply byte_ok_testbit. split.
  - apply Z.land_nonneg. by left.
  - intros i Hi. by rewrite Z.land_spec, H1 by lia.
Qed.

(** The scan finds the first clear bit. *)
Lemma scan_bits_ok (fuel : nat) d bi size b : 0 ≤ bi ≤ b → b < size → size ≤ BPB → b < bi + Z.of_nat fuel →
  bitset d b = false → (∀ c, bi ≤ c < b → bitset d c = true) → scan_bits fuel d 0 bi size = Some b.
Proof.
  revert bi. induction fuel as [|f IH]; intros bi Hb Hs Hbp Hf Hc Hlow; [lia|]. cbn [scan_bits].
  rewrite (proj2 (Z.ltb_lt _ _)) by lia. rewrite Z.add_0_l, (proj2 (Z.ltb_lt _ _)) by lia. cbn [andb].
  rewrite bit_of_eqb by lia. destruct (Z.eq_dec bi b) as [->|Hne]; [by rewrite Hc|].
  rewrite Hlow by lia. cbn [negb]. apply IH; [lia|done|done|lia|done|]. intros c Hcb. apply Hlow. lia.
Qed.
End bits.

(** ** [balloc] *)
Lemma filter_ext_in {A} (P Q : A → Prop) `{∀ x, Decision (P x)} `{∀ x, Decision (Q x)} (l : list A) :
  (∀ x, x ∈ l → P x ↔ Q x) → filter P l = filter Q l.
Proof.
  induction l as [|x l IH]; intros HPQ; [done|]. rewrite !filter_cons, IH by (intros y Hy; apply HPQ; by right).
  pose proof (HPQ x ltac:(left)). do 2 case_decide; tauto.
Qed.

Lemma filter_all {A} (P : A → Prop) `{∀ x, Decision (P x)} (l : list A) : (∀ x, x ∈ l → P x) → filter P l = l.
Proof.
  induction l as [|x l IH]; intros HP; [done|].
  rewrite filter_cons_True by (apply HP; left). f_equal. apply IH. intros y Hy. apply HP. by right.
Qed.

Lemma filter_seqZ_cons (P : Z → Prop) `{∀ x, Decision (P x)} lo n b rest :
  filter P (seqZ lo n) = b :: rest → lo ≤ b < lo + n ∧ P b ∧ ∀ c, lo ≤ c < b → ¬ P c.
Proof.
  remember (Z.to_nat n) as N eqn:HN. revert lo n HN. induction N as [|N IH]; intros lo n HN Hf.
  { by rewrite seqZ_nil in Hf by lia. }
  rewrite seqZ_cons in Hf by lia. destruct (decide (P lo)) as [HP|HP].
  - rewrite filter_cons_True in Hf by done. injection Hf as -> _. split_and!; [lia|lia|done|]. intros c Hc. lia.
  - rewrite filter_cons_False in Hf by done. destruct (IH (Z.succ lo) (Z.pred n)) as (Hr & HPb & Hlow); [lia|done|].
    split_and!; [lia|lia|done|]. intros c Hc. destruct (Z.eq_dec c lo) as [->|]; [done|]. apply Hlow. lia.
Qed.

(** Block [b] is taken: its bit is set and its contents are zero. *)
Definition taken_block (C : Z → list Z) (b : Z) : Z → list Z := upd (upd C BMAP (set_bit (C BMAP) b)) b zero_block.

Lemma zero_block_ok : block_ok zero_block.
Proof. split; [done|]. apply Forall_replicate. lia. Qed.

Section balloc.
Context {W : world} {DW : DiskWorld}.
Implicit Types (k : kernel) (s : fsys) (h : list (nat * Z)) (b n : Z) (C D : Z → list Z) (m : nat).

Lemma free_blocks_taken C b rest :
  block_ok (C BMAP) → free_blocks C = b :: rest → free_blocks (taken_block C b) = rest.
Proof.
  intros [Hl _] Hf. pose proof Hf as (Hb & _ & _)%filter_seqZ_cons.
  assert (Hnm : BMAP < nmeta) by done. change FSSIZE with 1000 in *. change nmeta with 59 in *.
  unfold free_blocks, taken_block in *. rewrite upd_ne by (unfold BMAP; lia). rewrite upd_eq.
  assert (E : filter (λ c, bitset (set_bit (C BMAP) b) c = false) (seqZ 59 (1000 - 59))
    = filter (λ c, c ≠ b) (filter (λ b, bitset (C BMAP) b = false) (seqZ 59 (1000 - 59)))).
  { rewrite list_filter_filter. apply filter_ext_in. intros c Hc%elem_of_seqZ.
    rewrite bitset_set by (done || lia). rewrite orb_false_iff, Z.eqb_neq. done. }
  change nmeta with 59 in E. etransitivity; [exact E|]. change nmeta with 59 in Hf. etransitivity; [apply (f_equal (filter (λ c, c ≠ b)) Hf)|].
  assert (Hnd : NoDup (b :: rest)) by (rewrite <- Hf; apply NoDup_filter, NoDup_seqZ).
  apply NoDup_cons in Hnd as [Hnb _]. rewrite filter_cons_False by naive_solver.
  apply filter_all. intros c Hc ->. done.
Qed.

Lemma balloc_ok k h C D m b rest :
  fs_ready k → tx h (k_fs k) C D m → sb (k_fs k) = mkfs_sb → log_start (log (k_fs k)) = 2 → bitmap_ok C →
  free_blocks C = b :: rest → BMAP ∉ h.*2 → b ∉ h.*2 → (length h + m < 29)%nat → (m < 28)%nat →
  ∃ s', balloc 1 k = Ok b (set_k_fs s' k) ∧ tx h s' (taken_block C b) D (S (S m)) ∧ tstep (k_fs k) s'.
Proof.
  intros Hr Htx Hsb Hls Hbm Hf Hh1 Hh2 Hlen Hm.
  pose proof Hf as (Hb & Hclear & Hlow)%filter_seqZ_cons. change nmeta with 59 in *. change FSSIZE with 1000 in *.
  assert (HokB : block_ok (C BMAP)) by (eapply cview_block_ok, Htx).
  assert (Hscan : scan_bits (Z.to_nat BPB) (C BMAP) 0 0 (sb_size mkfs_sb) = Some b).
  { apply scan_bits_ok; try done; try (cbn; lia).
    - change (sb_size mkfs_sb) with 1000. lia.
    - rewrite Z2Nat.id by done. change BPB with 4096. lia.
    - intros c Hc. destruct (Z.ltb_spec c 59) as [Hc59|Hc59]; [apply Hbm; change nmeta with 59; lia|].
      apply not_false_iff_true. apply Hlow. lia. }
  destruct (tx_bread k h C D m BMAP Hr Htx) as (bp & s1 & Hr1 & Htx1 & Hst1 & Hset); [done|done|lia|].
  assert (Hl1 : log s1 = log (k_fs k)) by apply Hst1.
  destruct (tx_write (set_k_fs s1 k) _ C D m bp BMAP (λ d, set_bit d b) (fs_ready_fs _ _ Hr) Htx1) as (s2 & Hr2 & Htx2 & Hts2 & Hin2);
    [lia|left|cbn; rewrite Hl1, Hls; unfold home, BMAP; clia|apply block_ok_set_bit; [lia|done]|].
  destruct (tx_brelse (set_k_fs s2 k) h _ D (S m) bp BMAP (fs_ready_fs _ _ Hr) Htx2) as (s3 & Hr3 & Htx3 & Hst3); [by left|].
  assert (Hl3 : log_start (log s3) = 2).
  { rewrite (st_log _ _ Hst3). destruct (ts_log _ _ Hts2) as [x E]. cbn in E |- *. rewrite E. cbn. by rewrite Hl1. }
  destruct (tx_change (set_k_fs s3 k) h _ D (S m) b (λ _, zero_block) (fs_ready_fs _ _ Hr) Htx3) as (s4 & Hr4 & Htx4 & Hts4);
    [cbn; rewrite Hl3; unfold home; clia|done|lia|lia|apply zero_block_ok|].
  exists s4. split_and!.
  - unfold balloc, getf. rewrite bind_gets, Hsb. cbn [balloc_loop]. unfold getf. rewrite bind_gets, Hsb.
    change (0 <? sb_size mkfs_sb) with true. cbv iota. change (BBLOCK 0 mkfs_sb) with BMAP.
    rewrite (bind_ok _ _ _ _ _ Hr1). erewrite bind_ok by (eapply (tx_bdata (set_k_fs s1 k)); [done|left]).
    rewrite Hscan. rewrite (seq2_ok _ _ _ _ _ _ Hr2), (bind_ok _ _ _ _ _ Hr3). rewrite Z.add_0_l.
    unfold bzero. by rewrite (bind_ok _ _ _ _ _ Hr4).
  - done.
  - eapply tstep_trans; [by apply tstep_still|]. eapply tstep_trans; [done|].
    eapply tstep_trans; [by apply tstep_still|]. done.
Qed.

(** ** [bfree] *)
Definition freed_block (C : Z → list Z) (b : Z) : Z → list Z := upd C BMAP (clear_bit (C BMAP) b).

Lemma bfree_absorbs k h C D m b :
  fs_ready k → tx h (k_fs k) C D m → sb_of_block (C 1) = mkfs_sb → log_start (log (k_fs k)) = 2 →
  nmeta ≤ b < FSSIZE → bitset (C BMAP) b = true → BMAP ∉ h.*2 → 1 ∉ h.*2 → (length h + m < 30)%nat → (m < 29)%nat →
  ∃ s', bfree 1 b k = Ok tt (set_k_fs s' k) ∧ tx h s' (freed_block C b) D (S m) ∧
    tstep (set_sb mkfs_sb (k_fs k)) s' ∧ absorbed BMAP (k_fs k) s'.
Proof.
  intros Hr Htx Hsb Hls Hb Hset Hh1 Hh2 Hlen Hm. change nmeta with 59 in *. change FSSIZE with 1000 in *.
  destruct (tx_read k h C D m 1 sb_of_block Hr Htx) as (s1 & Hr1 & Htx1 & Hst1); [done|done|lia|].
  set (s2 := set_sb mkfs_sb s1).
  assert (Htx2 : tx h s2 C D m).
  { destruct Htx1 as [Hc]. split; try done. apply (cview_same h s1); try done.
    intros n. by rewrite elem_of_list_to_set. }
  destruct (tx_bread (set_k_fs s2 k) h C D m BMAP (fs_ready_fs _ _ Hr) Htx2) as (bp & s3 & Hr3 & Htx3 & Hst3 & _);
    [done|done|lia|].
  assert (Hl3 : log s3 = log (k_fs k)) by (rewrite (st_log _ _ Hst3); apply Hst1).
  destruct (tx_write_absorbs (set_k_fs s3 k) _ C D m bp BMAP (λ d, clear_bit d b) (fs_ready_fs _ _ Hr) Htx3) as (s4 & Hr4 & Htx4 & Hts4 & Habs);
    [done|left|cbn; rewrite Hl3, Hls; unfold home, BMAP; clia|apply block_ok_clear_bit; [lia|eapply cview_block_ok, Htx]|].
  destruct (tx_brelse (set_k_fs s4 k) h _ D (S m) bp BMAP (fs_ready_fs _ _ Hr) Htx4) as (s5 & Hr5 & Htx5 & Hst5); [left; by eapply absorbed_in|].
  exists s5. split_and!.
  - unfold bfree. unfold readsb. rewrite (bind_ok _ _ _ _ _ Hr1), Hsb. unfold modf. rewrite bind_modify.
    change (mod_fs (set_sb mkfs_sb) (set_k_fs s1 k)) with (set_k_fs s2 k).
    replace (BBLOCK b mkfs_sb) with BMAP.
    2:{ unfold BBLOCK. rewrite Z.div_small by (change BPB with 4096; lia). done. }
    rewrite (bind_ok _ _ _ _ _ Hr3). erewrite bind_ok by (eapply (tx_bdata (set_k_fs s3 k)); [done|left]).
    rewrite Z.mod_small by (change BPB with 4096; lia). rewrite bit_of_eqb, Hset by lia. cbn [negb].
    rewrite (seq2_ok _ _ _ _ _ _ Hr4). exact Hr5.
  - done.
  - destruct Hst1 as [[] ? ?], Hst3 as [[] ? ?], Hts4 as [[] [x Hx] ?], Hst5 as [[] ? ?].
    split; [split|exists x|]; cbn in *; congruence.
  - unfold absorbed, logged in *. cbn [k_fs set_k_fs] in *. rewrite (st_log _ _ Hst5). rewrite Hl3 in Habs. done.
Qed.

Lemma bfree_ok k h C D m b :
  fs_ready k → tx h (k_fs k) C D m → sb_of_block (C 1) = mkfs_sb → log_start (log (k_fs k)) = 2 →
  nmeta ≤ b < FSSIZE → bitset (C BMAP) b = true → BMAP ∉ h.*2 → 1 ∉ h.*2 → (length h + m < 30)%nat → (m < 29)%nat →
  ∃ s', bfree 1 b k = Ok tt (set_k_fs s' k) ∧ tx h s' (freed_block C b) D (S m) ∧
    tstep (set_sb mkfs_sb (k_fs k)) s'.
Proof.
  intros Hr Htx Hsb Hls Hb Hset Hh1 Hh2 Hlen Hm.
  destruct (bfree_absorbs k h C D m b) as (s' & ? & ? & ? & _); [done..|]. by exists s'.
Qed.
End balloc.
