(* ===== verification/DiskSpec.v ===== *)
(** Files on the disk: the blocks of an inode, the contents of a file, and the
    invariant that no block belongs to two files or is free. *)

From S2P Require Import Prelude Params Bytes State Bio CacheSpec BlockSpec Inode BallocSpec.

(** ** The blocks of a file *)
Definition nblk (size : Z) : Z := (size + 511) / 512.
Definition addr (d : dinode) (j : Z) : Z := default 0 (d_addrs d !! Z.to_nat j).
(** The [bn]th block of the file. *)
Definition blk (C : Z → list Z) (d : dinode) (bn : Z) : Z :=
  if bn <? 12 then addr d bn else get32 (C (addr d 12)) (Z.to_nat (4 * (bn - 12))).
(** All blocks of the file, the indirect block included. *)
Definition used_blocks (C : Z → list Z) (d : dinode) : list Z :=
  (blk C d <$> seqZ 0 (nblk (d_size d))) ++ (if 12 <? nblk (d_size d) then [addr d 12] else []).

(** The contents of a file. *)
Definition fbyte (C : Z → list Z) (d : dinode) (o : Z) : Z :=
  default 0 (C (blk C d (o / 512)) !! Z.to_nat (o mod 512)).
Definition file_data (C : Z → list Z) (d : dinode) : list Z := fbyte C d <$> seqZ 0 (d_size d).

Record wf_inode (C : Z → list Z) (d : dinode) : Prop := mkWfInode {
  wi_size : 0 ≤ d_size d ≤ MAXFILE * BSIZE;
  wi_len : length (d_addrs d) = 13%nat;
  wi_blk : ∀ bn, 0 ≤ bn < nblk (d_size d) → nmeta ≤ blk C d bn < FSSIZE;
  wi_ind : 12 < nblk (d_size d) → nmeta ≤ addr d 12 < FSSIZE;
  wi_zero : ∀ bn, nblk (d_size d) ≤ bn < 12 → addr d bn = 0;
  wi_zero_ind : nblk (d_size d) ≤ 12 → addr d 12 = 0;
  wi_zero_blk : 12 < nblk (d_size d) → ∀ bn, nblk (d_size d) ≤ bn < MAXFILE → blk C d bn = 0
}.

(** The inodes [I] and the blocks [C] fit together. *)
Definition live (I : Z → dinode) (n : Z) : Prop := 1 ≤ n < NINODES ∧ d_type (I n) ≠ 0.
Record fsinv (C : Z → list Z) (I : Z → dinode) : Prop := mkFsinv {
  fsi_wf : ∀ n, live I n → wf_inode C (I n);
  fsi_nodup : ∀ n, live I n → NoDup (used_blocks C (I n));
  fsi_disj : ∀ n n' b, live I n → live I n' → n ≠ n' → b ∈ used_blocks C (I n) → b ∉ used_blocks C (I n');
  fsi_bits : ∀ n b, live I n → b ∈ used_blocks C (I n) → bitset (C BMAP) b = true;
  fsi_bmap : bitmap_ok C
}.

Definition updI (I : Z → dinode) (n : Z) (d : dinode) : Z → dinode := λ m, if m =? n then d else I m.

Lemma updI_eq I n d : updI I n d n = d.
Proof. unfold updI. by rewrite Z.eqb_refl. Qed.
Lemma updI_ne I n d m : m ≠ n → updI I n d m = I m.
Proof. intros Hne. unfold updI. by rewrite (proj2 (Z.eqb_neq _ _)). Qed.

Section disk.
Implicit Types (C : Z → list Z) (I : Z → dinode) (d : dinode) (n b bn : Z).

Lemma used_range C d b : wf_inode C d → b ∈ used_blocks C d → nmeta ≤ b < FSSIZE.
Proof.
  intros Hw [Hb|Hb]%elem_of_app.
  - apply list_elem_of_fmap in Hb as (bn & -> & Hbn%elem_of_seqZ). apply (wi_blk _ _ Hw). lia.
  - destruct (12 <? nblk (d_size d)) eqn:E; [|by apply not_elem_of_nil in Hb].
    apply list_elem_of_singleton in Hb as ->. apply (wi_ind _ _ Hw). lia.
Qed.

Lemma blk_used C d bn : 0 ≤ bn < nblk (d_size d) → blk C d bn ∈ used_blocks C d.
Proof. intros Hbn. apply elem_of_app. left. apply list_elem_of_fmap. exists bn. split; [done|]. apply elem_of_seqZ. lia. Qed.

Lemma ind_used C d : 12 < nblk (d_size d) → addr d 12 ∈ used_blocks C d.
Proof. intros Hbn. apply elem_of_app. right. rewrite (proj2 (Z.ltb_lt _ _)) by lia. by apply list_elem_of_singleton. Qed.

Lemma blk_inj C d bn bn' : NoDup (used_blocks C d) → 0 ≤ bn < nblk (d_size d) → 0 ≤ bn' < nblk (d_size d) →
  blk C d bn = blk C d bn' → bn = bn'.
Proof.
  intros Hnd Hb Hb' Heq. apply NoDup_app in Hnd as (Hnd & _ & _).
  assert (L : ∀ x, 0 ≤ x < nblk (d_size d) → (blk C d <$> seqZ 0 (nblk (d_size d))) !! Z.to_nat x = Some (blk C d x)).
  { intros x Hx. rewrite list_lookup_fmap, lookup_seqZ_lt by lia. cbn. do 2 f_equal. lia. }
  pose proof (NoDup_lookup _ _ _ _ Hnd (L _ Hb) ltac:(rewrite Heq; by apply L)). lia.
Qed.

Lemma blk_not_ind C d bn : NoDup (used_blocks C d) → 12 < nblk (d_size d) → 0 ≤ bn < nblk (d_size d) →
  blk C d bn ≠ addr d 12.
Proof.
  intros Hnd H12 Hb Heq. apply NoDup_app in Hnd as (_ & Hd & _). apply (Hd (addr d 12)).
  - apply list_elem_of_fmap. exists bn. split; [done|]. apply elem_of_seqZ. lia.
  - rewrite (proj2 (Z.ltb_lt _ _)) by lia. by apply list_elem_of_singleton.
Qed.

(** The blocks depend on the indirect block only. *)
Lemma blk_ext C C' d bn : (12 ≤ bn → C' (addr d 12) = C (addr d 12)) → blk C' d bn = blk C d bn.
Proof. intros HC. unfold blk. destruct (Z.ltb_spec bn 12); [done|]. by rewrite HC. Qed.

Lemma nblk_range size : 0 ≤ size → 0 ≤ nblk size ∧ size ≤ 512 * nblk size ∧ 512 * (nblk size - 1) < size.
Proof. unfold nblk. lia. Qed.

Lemma nblk_cover size o : 0 ≤ o < size → 0 ≤ o / 512 < nblk size.
Proof. unfold nblk. lia. Qed.

(** When the blocks of a file keep their contents, so does the file. *)
Section unchanged.
Context (C C' : Z → list Z) (d : dinode) (Hsame : ∀ b, b ∈ used_blocks C d → C' b = C b).

Lemma blk_unchanged bn : (bn < 12 ∨ 12 < nblk (d_size d)) → blk C' d bn = blk C d bn.
Proof. intros Hbn. apply blk_ext. intros H12. apply Hsame, ind_used. lia. Qed.

Lemma used_unchanged : used_blocks C' d = used_blocks C d.
Proof.
  unfold used_blocks. f_equal. apply list_fmap_ext. intros i bn Hbn. apply lookup_seqZ in Hbn as [-> Hlt].
  apply blk_unchanged. lia.
Qed.

Lemma wf_unchanged : wf_inode C d → wf_inode C' d.
Proof.
  intros []. split; try done.
  - intros bn Hbn. rewrite blk_unchanged by lia. by apply wi_blk0.
  - intros H12 bn Hbn. rewrite blk_unchanged by lia. by apply wi_zero_blk0.
Qed.

Lemma data_unchanged : 0 ≤ d_size d → file_data C' d = file_data C d.
Proof.
  intros Hs. apply list_fmap_ext. intros i o Ho. apply lookup_seqZ in Ho as [-> Hlt].
  pose proof (nblk_cover (d_size d) (0 + Z.of_nat i) ltac:(lia)).
  unfold fbyte. rewrite blk_unchanged by lia. rewrite Hsame; [done|]. apply blk_used. lia.
Qed.
End unchanged.

(** Inode [n] becomes [d'], whose new blocks were free; the blocks of other files keep
    their contents. *)
Lemma fsinv_step C C' I n d' :
  fsinv C I → live I n →
  (∀ b, nmeta ≤ b < FSSIZE → bitset (C BMAP) b = true → b ∉ used_blocks C (I n) → C' b = C b) →
  (∀ b, 0 ≤ b < FSSIZE → bitset (C BMAP) b = true → bitset (C' BMAP) b = true) →
  wf_inode C' d' → NoDup (used_blocks C' d') → (∀ b, b ∈ used_blocks C' d' → bitset (C' BMAP) b = true) →
  (∀ b, b ∈ used_blocks C' d' → b ∈ used_blocks C (I n) ∨ bitset (C BMAP) b = false) →
  fsinv C' (updI I n d') ∧
  ∀ n', live I n' → n' ≠ n → file_data C' (I n') = file_data C (I n').
Proof.
  intros Hi Hn Hoth Hmono Hwf Hnd Hbits Hnew.
  assert (Hsame : ∀ n', live I n' → n' ≠ n → ∀ b, b ∈ used_blocks C (I n') → C' b = C b).
  { intros n' Hn' Hne b Hb. apply Hoth; [by eapply used_range; [by apply (fsi_wf _ _ Hi n')|]|by eapply (fsi_bits _ _ Hi n')|].
    by apply (fsi_disj _ _ Hi n' n). }
  assert (Hlive : ∀ n', live (updI I n d') n' → n' ≠ n → live I n').
  { intros n' [? Ht] Hne. by rewrite updI_ne in Ht. }
  assert (Hused : ∀ n', live I n' → n' ≠ n → used_blocks C' (I n') = used_blocks C (I n')).
  { intros n' Hn' Hne. by apply used_unchanged, Hsame. }
  assert (Hcross : ∀ n' b, live I n' → n' ≠ n → b ∈ used_blocks C (I n') → b ∉ used_blocks C' d').
  { intros n' b Hn' Hne Hb Hb'. destruct (Hnew b Hb') as [Hold|Hfree].
    - by apply (fsi_disj _ _ Hi n' n b).
    - by rewrite (fsi_bits _ _ Hi n' b) in Hfree. }
  split; [split|].
  - intros n' Hl. destruct (decide (n' = n)) as [->|Hne]; [by rewrite updI_eq|]. rewrite updI_ne by done.
    pose proof (Hlive _ Hl Hne). by apply (wf_unchanged C C'), (fsi_wf _ _ Hi); [apply Hsame|].
  - intros n' Hl. destruct (decide (n' = n)) as [->|Hne]; [by rewrite updI_eq|]. rewrite updI_ne by done.
    pose proof (Hlive _ Hl Hne). rewrite Hused by done. by apply (fsi_nodup _ _ Hi).
  - intros n1 n2 b Hl1 Hl2 Hne. destruct (decide (n1 = n)) as [->|H1].
    + rewrite updI_eq, updI_ne, Hused by auto. intros Hb Hb'. by eapply (Hcross n2); [apply Hlive|..].
    + destruct (decide (n2 = n)) as [->|H2].
      * rewrite updI_eq, updI_ne, Hused by auto. by apply Hcross; [apply Hlive|].
      * rewrite !updI_ne, !Hused by auto. apply (fsi_disj _ _ Hi n1 n2 b); auto.
  - intros n' b Hl. destruct (decide (n' = n)) as [->|Hne]; [rewrite updI_eq; apply Hbits|]. rewrite updI_ne by done.
    pose proof (Hlive _ Hl Hne) as Hl'. rewrite Hused by done. intros Hb.
    pose proof (used_range _ _ _ (fsi_wf _ _ Hi n' Hl') Hb). apply Hmono; [dlia|]. by eapply (fsi_bits _ _ Hi n').
  - intros b Hb. apply Hmono; [dlia|]. by apply (fsi_bmap _ _ Hi).
  - intros n' Hl Hne. apply data_unchanged; [by apply Hsame|]. apply (fsi_wf _ _ Hi n' Hl).
Qed.
End disk.

(** ** The size *)
Definition resize (d : dinode) (size : Z) : dinode :=
  mkDinode (d_type d) (d_major d) (d_minor d) (d_nlink d) size (d_addrs d).

Section sizes.
Implicit Types (C : Z → list Z) (I : Z → dinode) (d : dinode) (n b bn : Z).

Lemma used_resize C d size : nblk size = nblk (d_size d) → used_blocks C (resize d size) = used_blocks C d.
Proof. intros Hn. unfold used_blocks. cbn [d_size resize]. rewrite Hn. done. Qed.

Lemma wf_resize C d size :
  0 ≤ size ≤ MAXFILE * BSIZE → nblk size = nblk (d_size d) → wf_inode C d → wf_inode C (resize d size).
Proof. intros Hs Hn []. split; cbn [d_size resize]; rewrite ?Hn; done. Qed.

(** Resizing within the last block changes no block. *)
Lemma fsinv_resize C I n size :
  fsinv C I → live I n → 0 ≤ size ≤ MAXFILE * BSIZE → nblk size = nblk (d_size (I n)) →
  fsinv C (updI I n (resize (I n) size)).
Proof.
  intros Hi Hn Hs Hb. apply (fsinv_step C C I n); try done.
  - apply wf_resize; [done|done|by apply (fsi_wf _ _ Hi)].
  - rewrite used_resize by done. by apply (fsi_nodup _ _ Hi).
  - intros b. rewrite used_resize by done. by apply (fsi_bits _ _ Hi).
  - intros b. rewrite used_resize by done. by left.
Qed.

Lemma length_file_data C d : length (file_data C d) = Z.to_nat (d_size d).
Proof. unfold file_data. by rewrite length_fmap, length_seqZ. Qed.

Lemma file_data_bytes C d : (∀ b, block_ok (C b)) → bytes_ok (file_data C d).
Proof.
  intros Hb. apply Forall_fmap, Forall_forall. intros o _. cbn. unfold fbyte. destruct (Hb (blk C d (o / 512))) as [_ Hby].
  destruct (_ !! _) as [b|] eqn:E; cbn; [|lia]. by apply (Forall_lookup_1 _ _ _ _ Hby E).
Qed.

Lemma file_data_lookup C d (i : nat) : Z.of_nat i < d_size d → file_data C d !! i = Some (fbyte C d (Z.of_nat i)).
Proof. intros Hi. unfold file_data. by rewrite list_lookup_fmap, lookup_seqZ_lt. Qed.

Lemma file_data_resize C d size : 0 ≤ size ≤ d_size d →
  file_data C (resize d size) = take (Z.to_nat size) (file_data C d).
Proof.
  intros Hs. apply list_eq. intros i. destruct (decide (Z.of_nat i < size)).
  - rewrite lookup_take_lt by lia. by rewrite !file_data_lookup by (cbn; lia).
  - rewrite lookup_take_ge by lia. apply lookup_ge_None. rewrite length_file_data. cbn. lia.
Qed.

(** Shortening what was written over the end. *)
Lemma take_splice (data junk l : list Z) (off : nat) :
  (off ≤ length data)%nat → (off + length l ≤ length (data ++ junk))%nat →
  take (Nat.max (length data) (off + length l)) (splice (data ++ junk) off l) = splice data off l.
Proof.
  intros Ho Hl. rewrite length_app in Hl. apply list_eq. intros i.
  destruct (decide (i < Nat.max (length data) (off + length l))%nat).
  - rewrite lookup_take_lt by done. rewrite !splice_lookup by (rewrite ?length_app; lia).
    case_decide; [done|]. by rewrite lookup_app_l by lia.
  - rewrite lookup_take_ge by lia. symmetry. apply lookup_ge_None. rewrite length_splice by done. lia.
Qed.

(** ** Writing into a block of the file *)
Lemma upd_used_same C I n bn x :
  fsinv C I → live I n → 0 ≤ bn < nblk (d_size (I n)) → let b := blk C (I n) bn in
  ∀ j, (j < 12 ∨ 12 < nblk (d_size (I n))) → blk (upd C b x) (I n) j = blk C (I n) j.
Proof.
  intros Hi Hn Hbn b j Hj. apply blk_ext. intros H12. apply upd_ne.
  intros E. symmetry in E. revert E. apply blk_not_ind; [by apply (fsi_nodup _ _ Hi)|lia|done].
Qed.

Lemma fsinv_write C I n bn x :
  fsinv C I → live I n → 0 ≤ bn < nblk (d_size (I n)) →
  let C' := upd C (blk C (I n) bn) x in
  fsinv C' I ∧ (∀ j, (j < 12 ∨ 12 < nblk (d_size (I n))) → blk C' (I n) j = blk C (I n) j) ∧
  ∀ n', live I n' → n' ≠ n → file_data C' (I n') = file_data C (I n').
Proof.
  intros Hi Hn Hbn C'. set (d := I n) in *. set (b := blk C d bn) in *.
  pose proof (fsi_wf _ _ Hi n Hn) as Hwf. fold d in Hwf. pose proof (wi_blk _ _ Hwf bn Hbn) as Hrange. fold b in Hrange.
  pose proof (upd_used_same C I n bn x Hi Hn Hbn) as Hblk. cbv zeta in Hblk. fold d b C' in Hblk.
  assert (Hused : used_blocks C' d = used_blocks C d).
  { unfold used_blocks. f_equal. apply list_fmap_ext. intros i j Hj. apply lookup_seqZ in Hj as [-> Hlt].
    apply Hblk. lia. }
  assert (HB : C' BMAP = C BMAP) by (apply upd_ne; dlia).
  assert (Hext : ∀ m, updI I n d m = I m) by (intros m; unfold updI; by destruct (Z.eqb_spec m n) as [->|]).
  destruct (fsinv_step C C' I n d Hi Hn) as [Hi' Hoth].
  - intros b' _ _ Hb'. apply upd_ne. intros ->. apply Hb'. by apply blk_used.
  - intros b' _. by rewrite HB.
  - destruct Hwf. split; try done.
    + intros j Hj. rewrite Hblk by lia. by apply wi_blk0.
    + intros H12 j Hj. rewrite Hblk by lia. by apply wi_zero_blk0.
  - rewrite Hused. by apply (fsi_nodup _ _ Hi).
  - intros b'. rewrite Hused, HB. by apply (fsi_bits _ _ Hi).
  - intros b'. rewrite Hused. by left.
  - split_and!; [|done|done].
    destruct Hi' as [H1 H2 H3 H4 H5]. split; try done; unfold live in *.
    + intros m. specialize (H1 m). by rewrite Hext in H1.
    + intros m. specialize (H2 m). by rewrite Hext in H2.
    + intros m m' b'. specialize (H3 m m' b'). by rewrite !Hext in H3.
    + intros m b'. specialize (H4 m b'). by rewrite !Hext in H4.
Qed.

Lemma file_data_write C I n bn (o : nat) l :
  fsinv C I → live I n → 0 ≤ bn < nblk (d_size (I n)) → length (C (blk C (I n) bn)) = 512%nat →
  (o + length l ≤ 512)%nat → 512 * bn + Z.of_nat (o + length l) ≤ d_size (I n) →
  let b := blk C (I n) bn in
  file_data (upd C b (splice (C b) o l)) (I n) = splice (file_data C (I n)) (Z.to_nat (512 * bn) + o) l.
Proof.
  intros Hi Hn Hbn Hlen Ho Hend b. set (d := I n) in *.
  pose proof (upd_used_same C I n bn (splice (C b) o l) Hi Hn Hbn) as Hblk. cbv zeta in Hblk. fold d b in Hblk.
  fold b in Hlen. set (C' := upd C b _) in *. apply list_eq. intros i.
  rewrite splice_lookup by (rewrite length_file_data; lia).
  destruct (decide (Z.of_nat i < d_size d)) as [Hi1|Hi1].
  2:{ rewrite decide_False by lia. rewrite !lookup_ge_None_2 by (rewrite length_file_data; lia). done. }
  pose proof (nblk_cover (d_size d) (Z.of_nat i) ltac:(lia)) as Hcov.
  rewrite !file_data_lookup by done. unfold fbyte. rewrite Hblk by lia.
  destruct (decide (Z.of_nat i / 512 = bn)) as [E|E].
  - rewrite E. fold b. unfold C'. rewrite upd_eq. rewrite splice_lookup by lia.
    destruct (decide (o ≤ Z.to_nat (Z.of_nat i mod 512) < o + length l)%nat) as [Hin|Hin].
    + rewrite decide_True by lia. replace (Z.to_nat (Z.of_nat i mod 512) - o)%nat with (i - (Z.to_nat (512 * bn) + o))%nat by lia.
      destruct (lookup_lt_is_Some_2 l (i - (Z.to_nat (512 * bn) + o))%nat) as [y Hy]; [lia|]. by rewrite Hy.
    + rewrite decide_False by lia. done.
  - rewrite decide_False by lia. unfold C'. rewrite upd_ne; [done|]. intros E2. apply E.
    eapply (blk_inj C d); [by apply (fsi_nodup _ _ Hi)|lia|done|done].
Qed.
End sizes.

(** ** Appending a block *)
Definition grown (d : dinode) (A : list Z) (bn : Z) : dinode :=
  mkDinode (d_type d) (d_major d) (d_minor d) (d_nlink d) (512 * (bn + 1)) A.

Section grow.
Implicit Types (C : Z → list Z) (I : Z → dinode) (d : dinode) (n b bn : Z) (F : list Z).

(** The file gets the blocks [F], which were free. *)
Lemma fsinv_grow C C' I n d' F :
  fsinv C I → live I n → wf_inode C' d' → used_blocks C' d' ≡ₚ used_blocks C (I n) ++ F → NoDup F →
  (∀ b, b ∈ F → nmeta ≤ b < FSSIZE ∧ bitset (C BMAP) b = false) →
  (∀ b, 0 ≤ b < FSSIZE → bitset (C' BMAP) b = bool_decide (b ∈ F) || bitset (C BMAP) b) →
  (∀ b, nmeta ≤ b < FSSIZE → b ∉ F → b ∉ used_blocks C (I n) → C' b = C b) →
  fsinv C' (updI I n d') ∧ ∀ n', live I n' → n' ≠ n → file_data C' (I n') = file_data C (I n').
Proof.
  intros Hi Hn Hwf Hused Hnd HF Hbits Hoth. apply (fsinv_step C C' I n d' Hi Hn); try done.
  - intros b Hb Hset Hnu. apply Hoth; [done| |done]. intros Hin. destruct (HF b Hin) as [_ E]. by rewrite E in Hset.
  - intros b Hb Hset. rewrite Hbits, Hset by done. by rewrite orb_true_r.
  - rewrite Hused. apply NoDup_app. split_and!; [by apply (fsi_nodup _ _ Hi)| |done].
    intros b Hb Hin. destruct (HF b Hin) as [_ E]. by rewrite (fsi_bits _ _ Hi n b) in E.
  - intros b. rewrite Hused, elem_of_app. intros [Hb|Hb].
    + pose proof (used_range _ _ _ (fsi_wf _ _ Hi n Hn) Hb). rewrite Hbits by dlia.
      rewrite (fsi_bits _ _ Hi n b) by done. by rewrite orb_true_r.
    + destruct (HF b Hb). rewrite Hbits by dlia. by rewrite bool_decide_true.
  - intros b. rewrite Hused, elem_of_app. intros [Hb|Hb]; [by left|right]. by apply HF.
Qed.

(** Its contents are followed by a block of zeros. *)
Lemma data_grow C C' d d' bn b :
  0 ≤ bn → d_size d = 512 * bn → d_size d' = 512 * (bn + 1) →
  (∀ j, 0 ≤ j < bn → blk C' d' j = blk C d j ∧ C' (blk C d j) = C (blk C d j)) →
  blk C' d' bn = b → C' b = zero_block → file_data C' d' = file_data C d ++ replicate 512 0.
Proof.
  intros Hb Hs Hs' Hold Hnew Hz. apply list_eq. intros i.
  destruct (decide (Z.of_nat i < 512 * bn)) as [H1|H1].
  - rewrite lookup_app_l by (rewrite length_file_data; lia). rewrite !file_data_lookup by lia.
    unfold fbyte. destruct (Hold (Z.of_nat i / 512)) as [-> ->]; [lia|done].
  - rewrite lookup_app_r by (rewrite length_file_data; lia). rewrite length_file_data, Hs.
    destruct (decide (Z.of_nat i < 512 * (bn + 1))) as [H2|H2].
    + rewrite file_data_lookup by lia. rewrite lookup_replicate_2 by lia. unfold fbyte.
      replace (Z.of_nat i / 512) with bn by lia. rewrite Hnew, Hz. unfold zero_block. rewrite lookup_replicate_2 by lia. done.
    + rewrite !lookup_ge_None_2; [done| |rewrite length_file_data; lia]. rewrite length_replicate. lia.
Qed.

Lemma taken_bits C b c :
  length (C BMAP) = 512%nat → nmeta ≤ b < FSSIZE → 0 ≤ c →
  bitset (taken_block C b BMAP) c = (c =? b) || bitset (C BMAP) c.
Proof.
  intros Hl Hb Hc. unfold taken_block. rewrite upd_ne by dlia. rewrite upd_eq. apply bitset_set; [dlia|done|done].
Qed.

Lemma taken_ne C b c : c ≠ b → c ≠ BMAP → taken_block C b c = C c.
Proof. intros. unfold taken_block. by rewrite !upd_ne. Qed.

Lemma taken_eq C b : taken_block C b b = zero_block.
Proof. apply upd_eq. Qed.

Lemma nblk_mul bn : nblk (512 * bn) = bn.
Proof. unfold nblk. lia. Qed.

Lemma seqZ_snoc bn : 0 ≤ bn → seqZ 0 (bn + 1) = seqZ 0 bn ++ [bn].
Proof. intros Hb. rewrite seqZ_app by lia. f_equal. Qed.

(** A direct block. *)
Lemma grow_direct C I n bn b :
  fsinv C I → live I n → d_size (I n) = 512 * bn → 0 ≤ bn < 12 → length (C BMAP) = 512%nat →
  nmeta ≤ b < FSSIZE → bitset (C BMAP) b = false →
  let C' := taken_block C b in let d' := grown (I n) (<[Z.to_nat bn := b]> (d_addrs (I n))) bn in
  fsinv C' (updI I n d') ∧ file_data C' d' = file_data C (I n) ++ replicate 512 0 ∧ blk C' d' bn = b ∧
  ∀ n', live I n' → n' ≠ n → file_data C' (I n') = file_data C (I n').
Proof.
  intros Hi Hn Hsz Hbn Hlen Hb Hfree C' d'. set (d := I n) in *.
  pose proof (fsi_wf _ _ Hi n Hn) as Hwf. fold d in Hwf.
  assert (Hnb : nblk (d_size d) = bn) by (rewrite Hsz; apply nblk_mul).
  assert (Hnb' : nblk (d_size d') = bn + 1) by apply nblk_mul.
  assert (Haddr : ∀ j, 0 ≤ j → addr d' j = if j =? bn then b else addr d j).
  { intros j Hj. unfold addr. cbn [d_addrs d' grown]. destruct (Z.eqb_spec j bn) as [->|Hne].
    - rewrite list_lookup_insert_eq; [done|]. rewrite (wi_len _ _ Hwf). lia.
    - rewrite list_lookup_insert_ne by lia. done. }
  assert (Hblk : ∀ j, 0 ≤ j < bn → blk C' d' j = blk C d j).
  { intros j Hj. unfold blk. rewrite (proj2 (Z.ltb_lt _ _)) by lia. rewrite Haddr by lia.
    by rewrite (proj2 (Z.eqb_neq _ _)) by lia. }
  assert (Hnew : blk C' d' bn = b).
  { unfold blk. rewrite (proj2 (Z.ltb_lt _ _)) by lia. rewrite Haddr by lia. by rewrite Z.eqb_refl. }
  assert (Hused : used_blocks C' d' = used_blocks C d ++ [b]).
  { unfold used_blocks. rewrite Hnb, Hnb', seqZ_snoc, fmap_app by lia.
    rewrite !(proj2 (Z.ltb_ge _ _)) by lia. rewrite !app_nil_r. cbn. rewrite Hnew. f_equal.
    apply list_fmap_ext. intros i j Hj. apply lookup_seqZ in Hj as [-> Hlt]. apply Hblk. lia. }
  assert (Hwf' : wf_inode C' d').
  { destruct Hwf. split; rewrite ?Hnb'; rewrite ?Hnb in *; try lia.
    - cbn. clia.
    - cbn. by rewrite length_insert.
    - intros j Hj. destruct (decide (j = bn)) as [->|]; [by rewrite Hnew|]. rewrite Hblk by lia. apply wi_blk0. lia.
    - intros j Hj. rewrite Haddr, (proj2 (Z.eqb_neq _ _)) by lia. apply wi_zero0. lia.
    - intros _. rewrite Haddr, (proj2 (Z.eqb_neq _ _)) by lia. apply wi_zero_ind0. lia. }
  destruct (fsinv_grow C C' I n d' [b] Hi Hn Hwf') as [Hi' Hoth].
  - by rewrite Hused.
  - apply NoDup_singleton.
  - intros c ->%list_elem_of_singleton. done.
  - intros c Hc. unfold C'. rewrite taken_bits by (done || lia). f_equal.
    destruct (Z.eqb_spec c b) as [->|]; [rewrite bool_decide_true|rewrite bool_decide_false]; rewrite ?list_elem_of_singleton; done.
  - intros c Hc Hnb1 _. apply taken_ne; [|dlia]. intros ->. apply Hnb1. by apply list_elem_of_singleton.
  - split_and!; [done| |done|done].
    apply (data_grow C C' d d' bn b); try done; [lia| |apply taken_eq].
    intros j Hj. split; [by apply Hblk|]. pose proof (wi_blk _ _ Hwf j ltac:(lia)). apply taken_ne; [|dlia].
    intros E. assert (bitset (C BMAP) (blk C d j) = true) as E2 by (apply (fsi_bits _ _ Hi n); [done|apply blk_used; fold d; lia]).
    by rewrite E, Hfree in E2.
Qed.

End grow.

(** *** A block that the indirect block [a] lists

    [C1] are the blocks when [b], and [a] if it is new, have been allocated. *)
Section grow_indirect.
Context (C C1 : Z → list Z) (I : Z → dinode) (n bn b a : Z) (A F : list Z).
Let d := I n.
Let d' := grown d A bn.
Let C' := upd C1 a (put32 (C1 a) (Z.to_nat (4 * (bn - 12))) b).
Hypothesis (Hi : fsinv C I) (Hn : live I n) (Hsz : d_size d = 512 * bn) (Hbn : 12 ≤ bn < MAXFILE).
Hypothesis (Hb : nmeta ≤ b < FSSIZE) (Ha : nmeta ≤ a < FSSIZE) (Hab : a ≠ b).
Hypothesis (Hlen : length (C1 a) = 512%nat) (Hz : C1 b = zero_block).
Hypothesis (HA : length A = 13%nat) (Ha12 : A !! 12%nat = Some a) (HAj : ∀ j, (j < 12)%nat → A !! j = d_addrs d !! j).
Hypothesis (Hent : ∀ j, 12 ≤ j < MAXFILE → j ≠ bn →
  get32 (C1 a) (Z.to_nat (4 * (j - 12))) = if j <? bn then blk C d j else 0).
Hypothesis (HF : 12 < bn ∧ a = addr d 12 ∧ F = [b] ∨ bn = 12 ∧ F = [b; a]).
Hypothesis (HFfree : ∀ c, c ∈ F → bitset (C BMAP) c = false).
Hypothesis (Hbits : ∀ c, 0 ≤ c < FSSIZE → bitset (C1 BMAP) c = bool_decide (c ∈ F) || bitset (C BMAP) c).
Hypothesis (Hoth : ∀ c, nmeta ≤ c < FSSIZE → c ∉ F → C1 c = C c).

Lemma gi_nblk : nblk (d_size d) = bn.
Proof. rewrite Hsz. apply nblk_mul. Qed.
Lemma gi_nblk' : nblk (d_size d') = bn + 1.
Proof. apply nblk_mul. Qed.

Lemma gi_ind : addr d' 12 = a.
Proof. unfold addr. cbn [d_addrs d' grown]. change (Z.to_nat 12) with 12%nat. by rewrite Ha12. Qed.

Lemma gi_high j : 12 ≤ j < MAXFILE → blk C' d' j = if j =? bn then b else if j <? bn then blk C d j else 0.
Proof.
  intros Hj. unfold blk at 1. rewrite (proj2 (Z.ltb_ge _ _)) by lia. rewrite gi_ind. unfold C'. rewrite upd_eq.
  destruct (Z.eqb_spec j bn) as [->|Hne].
  - rewrite get32_put32_eq by clia. apply u32_small. dlia.
  - rewrite get32_put32_ne by clia. by apply Hent.
Qed.

Lemma gi_old j : 0 ≤ j < bn → blk C' d' j = blk C d j.
Proof.
  intros Hj. destruct (Z.ltb_spec j 12) as [Hlt|Hge].
  - unfold blk. rewrite !(proj2 (Z.ltb_lt _ _)) by lia. unfold addr. cbn [d_addrs d' grown]. by rewrite HAj by lia.
  - rewrite gi_high by lia. by rewrite (proj2 (Z.eqb_neq _ _)), (proj2 (Z.ltb_lt _ _)) by lia.
Qed.

Lemma gi_new : blk C' d' bn = b.
Proof. rewrite gi_high by lia. by rewrite Z.eqb_refl. Qed.

Lemma gi_used : used_blocks C' d' ≡ₚ used_blocks C d ++ F.
Proof.
  unfold used_blocks. rewrite gi_nblk, gi_nblk', seqZ_snoc, fmap_app by lia. rewrite <- !app_assoc.
  rewrite (proj2 (Z.ltb_lt _ (bn + 1))) by lia. rewrite gi_ind. cbn [fmap list_fmap]. rewrite gi_new.
  replace (blk C' d' <$> seqZ 0 bn) with (blk C d <$> seqZ 0 bn).
  2:{ apply list_fmap_ext. intros i j Hj. apply lookup_seqZ in Hj as [-> Hlt]. symmetry. apply gi_old. lia. }
  apply Permutation_app_head. destruct HF as [(H12 & Ea & EF)|[Ebn EF]]; rewrite EF.
  - rewrite (proj2 (Z.ltb_lt _ _)), Ea by lia. cbn. constructor.
  - by rewrite (proj2 (Z.ltb_ge _ _)) by lia.
Qed.

Lemma gi_wf : wf_inode C' d'.
Proof.
  pose proof (fsi_wf _ _ Hi n Hn) as Hwf. fold d in Hwf. pose proof gi_nblk. pose proof gi_nblk'.
  destruct Hwf. split; rewrite ?gi_nblk'; try lia.
  - cbn. clia.
  - done.
  - intros j Hj. destruct (decide (j = bn)) as [->|]; [by rewrite gi_new|]. rewrite gi_old by lia. apply wi_blk0. lia.
  - intros _. by rewrite gi_ind.
  - intros _ j Hj. rewrite gi_high by lia. by rewrite (proj2 (Z.eqb_neq _ _)), (proj2 (Z.ltb_ge _ _)) by lia.
Qed.

Lemma gi_F c : c ∈ F → nmeta ≤ c < FSSIZE.
Proof.
  destruct HF as [(_ & _ & E)|[_ E]]; rewrite E, ?elem_of_cons; intros Hc; destruct_or! Hc; try (by rewrite Hc);
    by apply not_elem_of_nil in Hc.
Qed.

Lemma gi_a : a ∈ F ∨ a ∈ used_blocks C d.
Proof.
  destruct HF as [(H12 & Ea & _)|[_ E]]; [right; rewrite Ea|left; rewrite E; right; left].
  apply ind_used. rewrite gi_nblk. done.
Qed.

Lemma gi_block c : c ∈ used_blocks C d → c ≠ a → C' c = C c.
Proof.
  intros Hc Hne. unfold C'. rewrite upd_ne by done. apply Hoth.
  - by eapply used_range; [apply (fsi_wf _ _ Hi n Hn)|].
  - intros HcF. pose proof (HFfree c HcF) as E. by rewrite (fsi_bits _ _ Hi n c) in E.
Qed.

Lemma grow_indirect :
  fsinv C' (updI I n d') ∧ file_data C' d' = file_data C d ++ replicate 512 0 ∧ blk C' d' bn = b ∧
  ∀ n', live I n' → n' ≠ n → file_data C' (I n') = file_data C (I n').
Proof.
  destruct (fsinv_grow C C' I n d' F Hi Hn gi_wf gi_used) as [Hi' Hothers].
  - destruct HF as [(_ & _ & E)|[_ E]]; rewrite E; [apply NoDup_singleton|].
    constructor; [rewrite list_elem_of_singleton; congruence|apply NoDup_singleton].
  - intros c Hc. split; [by apply gi_F|by apply HFfree].
  - intros c Hc. unfold C'. rewrite upd_ne by dlia. by apply Hbits.
  - intros c Hc HcF Hcu. unfold C'. rewrite upd_ne; [by apply Hoth|]. intros ->. by destruct gi_a.
  - split_and!; [done| |apply gi_new|done].
    apply (data_grow C C' d d' bn b); try done; [lia| |apply gi_new|unfold C'; by rewrite upd_ne].
    intros j Hj. split; [by apply gi_old|]. apply gi_block; [apply blk_used; rewrite gi_nblk; lia|].
    destruct HF as [(H12 & Ea & _)|[Ebn HFe]].
    + rewrite Ea. apply blk_not_ind; [by apply (fsi_nodup _ _ Hi)|rewrite gi_nblk; lia..].
    + intros E. assert (Hu : a ∈ used_blocks C d) by (rewrite <- E; apply blk_used; rewrite gi_nblk; lia).
      assert (HaF : a ∈ F) by (rewrite HFe; right; left). pose proof (HFfree a HaF) as E2.
      by rewrite (fsi_bits _ _ Hi n a) in E2.
Qed.
End grow_indirect.

(** *** The block after the last one *)
Section grow_block.
Implicit Types (C : Z → list Z) (I : Z → dinode) (n b bn : Z).

Lemma taken_twice_bits C a b c :
  block_ok (C BMAP) → nmeta ≤ a < FSSIZE → nmeta ≤ b < FSSIZE → 0 ≤ c < FSSIZE →
  bitset (taken_block (taken_block C a) b BMAP) c = bool_decide (c ∈ [b; a]) || bitset (C BMAP) c.
Proof.
  intros HokB Ha Hb Hc. rewrite taken_bits.
  - rewrite taken_bits by (apply HokB || dlia). rewrite orb_assoc. f_equal.
    apply eq_iff_eq_true. rewrite orb_true_iff, !Z.eqb_eq, bool_decide_eq_true, elem_of_cons, list_elem_of_singleton. done.
  - unfold taken_block. rewrite upd_ne by dlia. rewrite upd_eq. apply (block_ok_set_bit _ a); [dlia|done].
  - done.
  - dlia.
Qed.

Lemma get32_zero o : get32 zero_block o = 0.
Proof.
  unfold get32, sub, zero_block. rewrite drop_replicate, take_replicate. generalize (4 `min` (512 - o))%nat.
  intros z. induction z as [|z IH]; [done|]. cbn [replicate le_val]. rewrite IH. done.
Qed.

(** The indirect block is there. *)
Lemma grow_listed C I n bn b :
  fsinv C I → live I n → d_size (I n) = 512 * bn → 12 < bn < MAXFILE → block_ok (C BMAP) →
  length (C (addr (I n) 12)) = 512%nat → nmeta ≤ b < FSSIZE → bitset (C BMAP) b = false →
  let a := addr (I n) 12 in let C1 := taken_block C b in
  let C' := upd C1 a (put32 (C1 a) (Z.to_nat (4 * (bn - 12))) b) in let d' := grown (I n) (d_addrs (I n)) bn in
  fsinv C' (updI I n d') ∧ file_data C' d' = file_data C (I n) ++ replicate 512 0 ∧ blk C' d' bn = b ∧
  ∀ n', live I n' → n' ≠ n → file_data C' (I n') = file_data C (I n').
Proof.
  intros Hi Hn Hsz Hbn HokB Hla Hb Hfree a C1. pose proof (fsi_wf _ _ Hi n Hn) as Hwf.
  assert (H12 : 12 < nblk (d_size (I n))) by (rewrite Hsz, nblk_mul; lia).
  pose proof (wi_ind _ _ Hwf H12) as Hrange. fold a in Hrange.
  assert (Hbit : bitset (C BMAP) a = true) by (apply (fsi_bits _ _ Hi n); [done|by apply ind_used]).
  assert (Hab : a ≠ b) by (intros E; rewrite <- E in Hfree; by rewrite Hbit in Hfree).
  assert (HC1a : C1 a = C a) by (apply taken_ne; [done|dlia]).
  apply (grow_indirect C C1 I n bn b a (d_addrs (I n)) [b]); try done; [lia|by rewrite HC1a|apply taken_eq|apply Hwf|..].
  - unfold a, addr. change (Z.to_nat 12) with 12%nat.
    destruct (lookup_lt_is_Some_2 (d_addrs (I n)) 12) as [v Hv]; [rewrite (wi_len _ _ Hwf); lia|]. by rewrite Hv.
  - intros j Hj Hne. rewrite HC1a. assert (E : get32 (C a) (Z.to_nat (4 * (j - 12))) = blk C (I n) j).
    { unfold blk. by rewrite (proj2 (Z.ltb_ge _ _)) by lia. }
    rewrite E. destruct (Z.ltb_spec j bn); [done|]. apply (wi_zero_blk _ _ Hwf H12). rewrite Hsz, nblk_mul. lia.
  - left. split_and!; [lia|done|done].
  - by intros c ->%list_elem_of_singleton.
  - intros c Hc. unfold C1. rewrite taken_bits by (apply HokB || dlia). f_equal.
    destruct (Z.eqb_spec c b) as [->|]; [rewrite bool_decide_true|rewrite bool_decide_false]; rewrite ?list_elem_of_singleton; done.
  - intros c Hc HcF. apply taken_ne; [|dlia]. intros ->. apply HcF. by apply list_elem_of_singleton.
Qed.

(** It is [a], just allocated. *)
Lemma grow_first C I n a b :
  fsinv C I → live I n → d_size (I n) = 512 * 12 → block_ok (C BMAP) → a ≠ b →
  nmeta ≤ a < FSSIZE → bitset (C BMAP) a = false → nmeta ≤ b < FSSIZE → bitset (C BMAP) b = false →
  let C1 := taken_block (taken_block C a) b in
  let C' := upd C1 a (put32 (C1 a) 0 b) in let d' := grown (I n) (<[12%nat := a]> (d_addrs (I n))) 12 in
  fsinv C' (updI I n d') ∧ file_data C' d' = file_data C (I n) ++ replicate 512 0 ∧ blk C' d' 12 = b ∧
  ∀ n', live I n' → n' ≠ n → file_data C' (I n') = file_data C (I n').
Proof.
  intros Hi Hn Hsz HokB Hab Ha Hfa Hb Hfb C1. pose proof (fsi_wf _ _ Hi n Hn) as Hwf.
  assert (HC1a : C1 a = zero_block) by (unfold C1; rewrite taken_ne; [apply taken_eq|done|dlia]).
  apply (grow_indirect C C1 I n 12 b a (<[12%nat := a]> (d_addrs (I n))) [b; a]); try done.
  - by rewrite HC1a.
  - apply taken_eq.
  - rewrite length_insert. apply Hwf.
  - apply list_lookup_insert_eq. rewrite (wi_len _ _ Hwf). lia.
  - intros j Hj. apply list_lookup_insert_ne. lia.
  - intros j Hj Hne. rewrite HC1a, get32_zero. by rewrite (proj2 (Z.ltb_ge _ _)) by lia.
  - by right.
  - intros c. rewrite elem_of_cons, list_elem_of_singleton. intros [->| ->]; done.
  - intros c Hc. apply taken_twice_bits; done.
  - intros c Hc HcF. unfold C1. rewrite !taken_ne; [done|set_solver|dlia|set_solver|dlia].
Qed.
End grow_block.
