(* ===== verification/BmapSpec.v ===== *)
(** [bmap] ([fs.c]) finds the block of a file, and appends one at the end of the file. *)

From S2P Require Import Prelude Params Bytes State Spinlock Procs Sched SchedSpec Bio BioSpec CacheSpec BlockSpec Log LogSpec CommitSpec Inode BallocSpec DiskSpec.

(** The in-core inode [i] and the file layers' own state may change, nothing else. *)
Record istep (i : nat) (x' : inode) (s s' : fsys) : Prop := mkIstep {
  is_sb : sb s' = sb s;
  is_inodes : inodes s' = <[i := x']> (inodes s);
  is_files : files s' = files s;
  is_pipes : pipes s' = pipes s;
  is_log : ∃ y, log s' = set_lh y (log s);
  is_writes : dwrites s' = dwrites s
}.

(** The disk is the one of [mkfs]. *)
Definition layout (s : fsys) : Prop := sb s = mkfs_sb ∧ log_start (log s) = 2.

Section inode_access.
Implicit Types (k : kernel) (s : fsys) (i : nat) (x : inode).

Lemma get_inode_ok k i x : inodes (k_fs k) !! i = Some x → get_inode i k = Ok x k.
Proof. intros Hx. unfold get_inode. cbn. by rewrite Hx. Qed.

Definition put_inode i x s : fsys := set_inodes (<[i := x]> (inodes s)) s.

Lemma mod_inode_ok k i x f : inodes (k_fs k) !! i = Some x →
  mod_inode i f k = Ok tt (set_k_fs (put_inode i (f x) (k_fs k)) k).
Proof. intros Hx. unfold mod_inode, put_inode. cbn. unfold mod_fs. by rewrite (alter_insert _ _ _ x). Qed.

Lemma put_inode_lookup i x y s : inodes s !! i = Some y → inodes (put_inode i x s) !! i = Some x.
Proof. intros Hy. cbn. apply list_lookup_insert_eq. by eapply lookup_lt_Some. Qed.

Lemma get_addr_ok k i x n : inodes (k_fs k) !! i = Some x → 0 ≤ n < 13 → length (i_addrs x) = 13%nat →
  get_addr i n k = Ok (default 0 (i_addrs x !! Z.to_nat n)) k.
Proof.
  intros Hx Hn Hl. unfold get_addr. rewrite (bind_ok _ _ _ _ _ (get_inode_ok _ _ _ Hx)).
  destruct (aget_is_Some (i_addrs x) n) as [a Ha]; [lia|]. rewrite Ha. unfold aget in Ha.
  rewrite (proj2 (Z.leb_le _ _)) in Ha by lia. by rewrite Ha.
Qed.

Lemma set_addr_ok k i x n v : inodes (k_fs k) !! i = Some x → 0 ≤ n < 13 → length (i_addrs x) = 13%nat →
  set_addr i n v k = Ok tt (set_k_fs (put_inode i (set_i_addrs (<[Z.to_nat n := v]> (i_addrs x)) x) (k_fs k)) k).
Proof.
  intros Hx Hn Hl. unfold set_addr. rewrite (bind_ok _ _ _ _ _ (get_inode_ok _ _ _ Hx)).
  rewrite aset_in by lia. rewrite bind_or_ub. by apply (mod_inode_ok k i x (set_i_addrs _)).
Qed.

Lemma tx_inode h s C D m i x : tx h s C D m → tx h (put_inode i x s) C D m.
Proof.
  intros [Hc]. split; try done. apply (cview_same h s); try done. intros n. by rewrite elem_of_list_to_set.
Qed.

Lemma istep_put i x s : istep i x s (put_inode i x s).
Proof. split; try done. exists (lh (log s)). change (log (put_inode i x s)) with (log s). by destruct (log s). Qed.

Lemma istep_tstep i x s s' : inodes s !! i = Some x → tstep s s' → istep i x s s'.
Proof. intros Hx [[] Hl Hw]. split; try done. by rewrite list_insert_id. Qed.

Lemma istep_trans i x x' s1 s2 s3 : istep i x s1 s2 → istep i x' s2 s3 → istep i x' s1 s3.
Proof.
  intros [H1 H2 H3 H4 [y H5] H6] [K1 K2 K3 K4 [z K5] K6]. split; try congruence.
  - by rewrite K2, H2, list_insert_insert_eq.
  - exists z. by rewrite K5, H5.
Qed.

Lemma istep_layout i x s s' : istep i x s s' → layout s → layout s'.
Proof. intros [H1 _ _ _ [y H2] _] [? ?]. split; [congruence|]. by rewrite H2. Qed.

Lemma istep_lookup i x y s s' : istep i x s s' → inodes s !! i = Some y → inodes s' !! i = Some x.
Proof. intros [_ H _ _ _ _] Hy. rewrite H. apply list_lookup_insert_eq. by eapply lookup_lt_Some. Qed.
End inode_access.

Section bmap.
Context {W : world} {DW : DiskWorld}.
Implicit Types (k : kernel) (s : fsys) (i : nat) (x : inode) (C D : Z → list Z) (b n : Z).

(** The indirect block [a] lists the block, or a new one. *)
Lemma ind_entry k C D m a (j : nat) :
  fs_ready k → layout (k_fs k) → tx [] (k_fs k) C D m → bitmap_ok C → nmeta ≤ a < FSSIZE →
  bitset (C BMAP) a = true → (j < 128)%nat → (m < 26)%nat →
  let o := (4 * j)%nat in let e := get32 (C a) o in
  e ≠ 0 ∨ free_blocks C ≠ [] →
  ∃ s' b C' m', (bp ← bread 1 a; d ← bdata bp;
     v ← (if get32 d o =? 0 then
            v ← balloc 1; mod_data bp (λ d, put32 d o v);; log_write bp;; ret v
          else ret (get32 d o));
     brelse bp;; ret v) k = Ok b (set_k_fs s' k) ∧
   tx [] s' C' D m' ∧ (m' ≤ m + 3)%nat ∧ tstep (k_fs k) s' ∧
   (e ≠ 0 ∧ b = e ∧ C' = C ∨
    e = 0 ∧ ∃ rest, free_blocks C = b :: rest ∧ let C1 := taken_block C b in C' = upd C1 a (put32 (C1 a) o b)).
Proof.
  intros Hr [Hsb Hls] Htx Hbm Ha Hbit Hj Hm o e He.
  destruct (tx_bread k [] C D m a Hr Htx) as (bp & s1 & Hr1 & Htx1 & Hst1 & Hset); [dlia|apply not_elem_of_nil|cbn; lia|].
  destruct (Z.eq_dec e 0) as [E|E].
  - destruct He as [He|Hfree]; [done|]. destruct (free_blocks C) as [|b rest] eqn:Hf; [done|].
    pose proof Hf as (Hbr & Hbc & _)%filter_seqZ_cons.
    assert (Hba : b ≠ a) by (intros ->; by rewrite Hbit in Hbc).
    destruct (balloc_ok (set_k_fs s1 k) _ C D m b rest (fs_ready_fs _ _ Hr) Htx1) as (s2 & Hr2 & Htx2 & Hts2);
      [cbn; rewrite <- Hsb; apply Hst1|cbn; rewrite (st_log _ _ Hst1); done|done|done
      |cbn; rewrite list_elem_of_singleton; dlia|cbn; rewrite list_elem_of_singleton; done|cbn; lia|lia|].
    set (C1 := taken_block C b) in *.
    assert (Hl2 : log_start (log s2) = 2).
    { destruct (ts_log _ _ Hts2) as [y Hy]. cbn in Hy. rewrite Hy. cbn. by rewrite (st_log _ _ Hst1). }
    destruct (tx_write (set_k_fs s2 k) _ C1 D (S (S m)) bp a (λ d, put32 d o b) (fs_ready_fs _ _ Hr) Htx2)
      as (s3 & Hr3 & Htx3 & Hts3 & Hin3); [lia|left|cbn; rewrite Hl2; unfold home; dlia| |].
    { apply block_ok_put32; [eapply cview_block_ok, Htx2|unfold o; lia]. }
    destruct (tx_brelse (set_k_fs s3 k) [] _ D _ bp a (fs_ready_fs _ _ Hr) Htx3) as (s4 & Hr4 & Htx4 & Hst4); [by left|].
    exists s4, b, (upd C1 a (put32 (C1 a) o b)), (S (S (S m))). split_and!; [|done|lia| |right; split; [done|]; by exists rest].
    + rewrite (bind_ok _ _ _ _ _ Hr1). erewrite bind_ok by (eapply (tx_bdata (set_k_fs s1 k)); [done|left]).
      fold e. rewrite E, Z.eqb_refl. rewrite bind_assoc, (bind_ok _ _ _ _ _ Hr2).
      rewrite (bind_ok _ _ _ b (set_k_fs s3 k)); [by rewrite (bind_ok _ _ _ _ _ Hr4)|].
      by rewrite (seq2_ok _ _ _ _ _ _ Hr3).
    + eapply tstep_trans; [by apply tstep_still|]. eapply tstep_trans; [done|]. eapply tstep_trans; [done|by apply tstep_still].
  - destruct (tx_brelse (set_k_fs s1 k) [] C D m bp a (fs_ready_fs _ _ Hr) Htx1 Hset) as (s2 & Hr2 & Htx2 & Hst2).
    exists s2, e, C, m. split_and!; [|done|lia| |by left].
    + rewrite (bind_ok _ _ _ _ _ Hr1). erewrite bind_ok by (eapply (tx_bdata (set_k_fs s1 k)); [done|left]).
      fold e. rewrite (proj2 (Z.eqb_neq _ _)) by done. rewrite bind_ret. by rewrite (bind_ok _ _ _ _ _ Hr2).
    + eapply tstep_trans; by apply tstep_still.
Qed.

(** Where the addresses of inode [x] are those of [d]. *)
Definition incore s i x (d : dinode) : Prop :=
  inodes s !! i = Some x ∧ i_dev x = 1 ∧ i_addrs x = d_addrs d ∧ length (d_addrs d) = 13%nat.

(** A new block for entry [j] of the inode. *)
Lemma new_addr k C D m b rest i x d (j : Z) :
  fs_ready k → layout (k_fs k) → tx [] (k_fs k) C D m → bitmap_ok C → free_blocks C = b :: rest → (m < 28)%nat →
  incore (k_fs k) i x d → 0 ≤ j < 13 →
  ∃ s', (v ← balloc 1; set_addr i j v;; ret v) k = Ok b (set_k_fs s' k) ∧ tx [] s' (taken_block C b) D (S (S m)) ∧
    istep i (set_i_addrs (<[Z.to_nat j := b]> (d_addrs d)) x) (k_fs k) s'.
Proof.
  intros Hr [Hsb Hls] Htx Hbm Hf Hm (Hx & _ & HA & Hl) Hj.
  destruct (balloc_ok k [] C D m b rest Hr Htx Hsb Hls Hbm Hf) as (s1 & Hr1 & Htx1 & Hts1);
    [apply not_elem_of_nil..|cbn; lia|lia|].
  assert (Hx1 : inodes s1 !! i = Some x) by (by rewrite (fm_inodes _ _ (ts_frame _ _ Hts1))).
  eexists. split_and!; [|by apply tx_inode|].
  - rewrite (bind_ok _ _ _ _ _ Hr1). erewrite bind_ok by (apply (set_addr_ok (set_k_fs s1 k) i x); [done|done|by rewrite HA]).
    reflexivity.
  - cbn [k_fs set_k_fs]. rewrite HA. eapply istep_trans; [by apply istep_tstep|apply istep_put].
Qed.

(** What [bmap] does at the end of the file. *)
Definition appended C (d : dinode) bn C' d' : Prop :=
  (∃ A, d' = grown d A bn) ∧ file_data C' d' = file_data C d ++ replicate 512 0 ∧
  (length (free_blocks C') + (if Z.eqb bn 12 then 2 else 1) = length (free_blocks C))%nat.
Record bmap_post k C D (m : nat) (I : Z → dinode) i x n bn s' C' d' (m' : nat) : Prop := mkBmapPost {
  bm_tx : tx [] s' C' D m';
  bm_m : (m' ≤ m + 5)%nat;
  bm_step : istep i (set_i_addrs (d_addrs d') x) (k_fs k) s';
  bm_inv : fsinv C' (updI I n d');
  bm_others : ∀ n', live I n' → n' ≠ n → file_data C' (I n') = file_data C (I n');
  bm_meta : ∀ b, b < nmeta → b ≠ BMAP → C' b = C b;
  bm_case : bn < nblk (d_size (I n)) ∧ d' = I n ∧ C' = C ∨
    d_size (I n) = 512 * bn ∧ appended C (I n) bn C' d'
}.
Definition room C (d : dinode) bn : Prop :=
  bn < nblk (d_size d) ∨ d_size d = 512 * bn ∧ ((if Z.eqb bn 12 then 2 else 1) ≤ length (free_blocks C))%nat.

Lemma updI_same I n m : updI I n (I n) m = I m.
Proof. unfold updI. by destruct (Z.eqb_spec m n) as [->|]. Qed.

Lemma fsinv_ext C I I' : (∀ n, I n = I' n) → fsinv C I → fsinv C I'.
Proof.
  intros HI [H1 H2 H3 H4 H5]. split; try done; unfold live in *; intros n; rewrite <- ?HI; [apply H1|apply H2| |apply H4].
  intros n' b. rewrite <- !HI. apply H3.
Qed.

Lemma fsinv_same C I I' : fsinv C I → (∀ n, 1 ≤ n < NINODES → I' n = I n) → fsinv C I'.
Proof.
  intros [H1 H2 H3 H4 H5] HI. assert (Hl : ∀ n, live I' n → live I n ∧ I' n = I n).
  { intros n [Hn Ht]. rewrite HI in Ht |- * by done. done. }
  split; [..|done].
  - intros n (Hn & ->)%Hl. by apply H1.
  - intros n (Hn & ->)%Hl. by apply H2.
  - intros n n' b (Hn & ->)%Hl (Hn' & ->)%Hl. by apply H3.
  - intros n b (Hn & ->)%Hl. by apply H4.
Qed.

Lemma bmap_post_same k C D m I i x n bn s' m' :
  tx [] s' C D m' → (m' ≤ m + 5)%nat → incore (k_fs k) i x (I n) → tstep (k_fs k) s' → fsinv C I →
  bn < nblk (d_size (I n)) → bmap_post k C D m I i x n bn s' C (I n) m'.
Proof.
  intros Htx Hm (Hx & _ & HA & _) Hts Hi Hbn. split; try done.
  - rewrite <- HA. replace (set_i_addrs (i_addrs x) x) with x by (by destruct x). by apply istep_tstep.
  - eapply fsinv_ext; [|exact Hi]. intros n'. symmetry. apply updI_same.
  - by left.
Qed.

Lemma bmap_direct k C D m I i x n bn :
  fs_ready k → layout (k_fs k) → tx [] (k_fs k) C D m → (m ≤ 20)%nat → fsinv C I → live I n →
  incore (k_fs k) i x (I n) → 0 ≤ bn < 12 → room C (I n) bn →
  ∃ s' C' d' m', bmap i bn k = Ok (blk C' d' bn) (set_k_fs s' k) ∧ bmap_post k C D m I i x n bn s' C' d' m'.
Proof.
  intros Hr Hlay Htx Hm Hi Hn Hin Hbn Hroom. pose proof Hin as (Hx & Hdev & HA & HlA).
  pose proof (fsi_wf _ _ Hi n Hn) as Hwf. set (d := I n) in *.
  assert (Hstart : bmap i bn k = (addr ← ret (addr d bn); if addr =? 0 then addr ← balloc 1; set_addr i bn addr;; ret addr
    else ret addr) k).
  { unfold bmap. rewrite (bind_ok _ _ _ _ _ (get_inode_ok _ _ _ Hx)). rewrite (proj2 (Z.ltb_lt _ _)) by clia.
    erewrite bind_ok by (apply get_addr_ok; [done|lia|by rewrite HA]). by rewrite HA, Hdev. }
  rewrite Hstart, bind_ret. clear Hstart.
  destruct Hroom as [Hlt|[Hsz Hfree]].
  - assert (Hblk : blk C d bn = addr d bn) by (unfold blk; by rewrite (proj2 (Z.ltb_lt _ _)) by lia).
    pose proof (wi_blk _ _ Hwf bn ltac:(lia)) as Hrange. rewrite Hblk in Hrange.
    rewrite (proj2 (Z.eqb_neq _ _)) by dlia. exists (k_fs k), C, d, m. split.
    + rewrite Hblk. by destruct k.
    + apply bmap_post_same; try done; [lia|apply tstep_refl].
  - assert (Hnb : nblk (d_size d) = bn) by (rewrite Hsz; apply nblk_mul).
    rewrite (wi_zero _ _ Hwf bn), Z.eqb_refl by lia.
    rewrite (proj2 (Z.eqb_neq bn 12)) in Hfree by lia.
    destruct (free_blocks C) as [|b rest] eqn:Hf; [cbn in Hfree; lia|].
    destruct (new_addr k C D m b rest i x d bn Hr Hlay Htx (fsi_bmap _ _ Hi) Hf) as (s' & Hrun & Htx' & Hst); [lia|done|lia|].
    assert (HokB : block_ok (C BMAP)) by (eapply cview_block_ok, Htx).
    pose proof Hf as (Hbr & Hbc & _)%filter_seqZ_cons.
    destruct (grow_direct C I n bn b Hi Hn Hsz Hbn (proj1 HokB)) as (Hi' & Hdat & Hblk & Hoth); [dlia|done|].
    fold d in Hi', Hdat, Hblk. set (d' := grown d _ bn) in *.
    exists s', (taken_block C b), d', (S (S m)). split; [by rewrite Hrun, Hblk|]. split; try done.
    + lia.
    + intros c Hc HcB. apply taken_ne; [dlia|done].
    + right. split; [done|]. split_and!; [by eexists|done|].
      rewrite (free_blocks_taken C b rest HokB Hf), Hf. rewrite (proj2 (Z.eqb_neq bn 12)) by lia. cbn. lia.
Qed.

(** [bmap] beyond the direct blocks: the indirect block, then its entry. *)
Lemma bmap_high k i x (d : dinode) bn :
  incore (k_fs k) i x d → 12 ≤ bn < MAXFILE →
  bmap i bn k =
    (a ← (if addr d 12 =? 0 then a ← balloc 1; set_addr i 12 a;; ret a else ret (addr d 12));
     bp ← bread 1 a; e ← bdata bp;
     v ← (if get32 e (4 * Z.to_nat (bn - 12))%nat =? 0 then
            v ← balloc 1; mod_data bp (λ e, put32 e (4 * Z.to_nat (bn - 12))%nat v);; log_write bp;; ret v
          else ret (get32 e (4 * Z.to_nat (bn - 12))%nat));
     brelse bp;; ret v) k.
Proof.
  intros (Hx & Hdev & HA & HlA) Hbn. unfold bmap. rewrite (bind_ok _ _ _ _ _ (get_inode_ok _ _ _ Hx)).
  rewrite (proj2 (Z.ltb_ge _ _)) by clia. rewrite (proj2 (Z.ltb_lt _ _)) by clia.
  erewrite bind_ok by (apply get_addr_ok; [done|clia|by rewrite HA]). rewrite HA, Hdev. unfold addr.
  change NDIRECT with 12. by replace (Z.to_nat (4 * (bn - 12))) with (4 * Z.to_nat (bn - 12))%nat by lia.
Qed.

Lemma free_blocks_ext C C' : C' BMAP = C BMAP → free_blocks C' = free_blocks C.
Proof. intros HB. unfold free_blocks. by rewrite HB. Qed.

(** The indirect block is there. *)
Lemma bmap_indirect k C D m I i x n bn :
  fs_ready k → layout (k_fs k) → tx [] (k_fs k) C D m → (m ≤ 20)%nat → fsinv C I → live I n →
  incore (k_fs k) i x (I n) → 12 ≤ bn < MAXFILE → 12 < nblk (d_size (I n)) → room C (I n) bn →
  ∃ s' C' d' m', bmap i bn k = Ok (blk C' d' bn) (set_k_fs s' k) ∧ bmap_post k C D m I i x n bn s' C' d' m'.
Proof.
  intros Hr Hlay Htx Hm Hi Hn Hin Hbn H12 Hroom. pose proof Hin as (Hx & Hdev & HA & HlA).
  pose proof (fsi_wf _ _ Hi n Hn) as Hwf. set (d := I n) in *. rewrite (bmap_high k i x d bn Hin Hbn).
  pose proof (wi_ind _ _ Hwf H12) as Hrange. set (a := addr d 12) in *.
  rewrite (proj2 (Z.eqb_neq _ _)), bind_ret by dlia.
  assert (Hbit : bitset (C BMAP) a = true) by (apply (fsi_bits _ _ Hi n); [done|by apply ind_used]).
  assert (Hblk : blk C d bn = get32 (C a) (4 * Z.to_nat (bn - 12))).
  { unfold blk. rewrite (proj2 (Z.ltb_ge _ _)) by lia. f_equal. lia. }
  destruct (ind_entry k C D m a (Z.to_nat (bn - 12)) Hr Hlay Htx (fsi_bmap _ _ Hi) Hrange Hbit)
    as (s' & b & C' & m' & Hrun & Htx' & Hm' & Hts & Hcase); [clia|lia| |].
  { rewrite <- Hblk. destruct Hroom as [Hlt|[Hsz Hfree]].
    - left. pose proof (wi_blk _ _ Hwf bn ltac:(lia)). dlia.
    - right. destruct (free_blocks C); [cbn in Hfree; destruct (bn =? 12); lia|done]. }
  rewrite <- Hblk in Hcase. rewrite Hrun. destruct Hcase as [(He & -> & ->)|(He & rest & Hf & HC')].
  - assert (Hlt : bn < nblk (d_size d)).
    { destruct (Z.ltb_spec bn (nblk (d_size d))); [done|]. exfalso. apply He. apply (wi_zero_blk _ _ Hwf H12). lia. }
    exists s', C, d, m'. split; [done|]. apply bmap_post_same; try done. lia.
  - assert (Hsz : d_size d = 512 * bn).
    { destruct Hroom as [Hlt|[? _]]; [|done]. pose proof (wi_blk _ _ Hwf bn ltac:(lia)). exfalso. dlia. }
    assert (Hnb : nblk (d_size d) = bn) by (rewrite Hsz; apply nblk_mul).
    assert (HokB : block_ok (C BMAP)) by (eapply cview_block_ok, Htx).
    pose proof Hf as (Hbr & Hbc & _)%filter_seqZ_cons. set (C1 := taken_block C b) in *.
    destruct (grow_listed C I n bn b Hi Hn Hsz) as (Hi' & Hdat & Hnew & Hoth);
      [fold d; lia|done|apply (cview_block_ok _ _ _ _ _ a (tx_view _ _ _ _ _ Htx))|dlia|done|].
    fold d a C1 in Hi', Hdat, Hnew, Hoth.
    replace (Z.to_nat (4 * (bn - 12))) with (4 * Z.to_nat (bn - 12))%nat in Hi', Hdat, Hnew, Hoth by lia.
    rewrite <- HC' in Hi', Hdat, Hnew, Hoth. fold d in Hi', Hdat, Hnew. set (d' := grown d _ bn) in *.
    exists s', C', d', m'. split; [by rewrite Hnew|]. split; try done.
    + lia.
    + change (d_addrs d') with (d_addrs d). rewrite <- HA.
      replace (set_i_addrs (i_addrs x) x) with x by (by destruct x). by apply istep_tstep.
    + intros c Hc HcB. rewrite HC'. rewrite upd_ne by dlia. apply taken_ne; [dlia|done].
    + right. split; [done|]. split_and!; [by eexists|done|].
      rewrite (free_blocks_ext C1 C') by (rewrite HC'; apply upd_ne; dlia).
      unfold C1. rewrite (free_blocks_taken C b rest HokB Hf), Hf. rewrite (proj2 (Z.eqb_neq bn 12)) by lia. cbn. lia.
Qed.

(** The first block of the indirect block. *)
Lemma bmap_first k C D m I i x n :
  fs_ready k → layout (k_fs k) → tx [] (k_fs k) C D m → (m ≤ 20)%nat → fsinv C I → live I n →
  incore (k_fs k) i x (I n) → d_size (I n) = 512 * 12 → (2 ≤ length (free_blocks C))%nat →
  ∃ s' C' d' m', bmap i 12 k = Ok (blk C' d' 12) (set_k_fs s' k) ∧ bmap_post k C D m I i x n 12 s' C' d' m'.
Proof.
  intros Hr Hlay Htx Hm Hi Hn Hin Hsz Hfree. pose proof Hin as (Hx & Hdev & HA & HlA).
  pose proof (fsi_wf _ _ Hi n Hn) as Hwf. set (d := I n) in *.
  assert (Hnb : nblk (d_size d) = 12) by (rewrite Hsz; apply nblk_mul).
  rewrite (bmap_high k i x d 12 Hin) by clia. rewrite (wi_zero_ind _ _ Hwf), Z.eqb_refl by lia.
  destruct (free_blocks C) as [|a [|b rest]] eqn:Hf; [cbn in Hfree; lia..|].
  destruct (new_addr k C D m a (b :: rest) i x d 12 Hr Hlay Htx (fsi_bmap _ _ Hi) Hf) as (s1 & Hr1 & Htx1 & Hst1); [lia|done|lia|].
  rewrite (bind_ok _ _ _ _ _ Hr1). change (Z.to_nat 12) with 12%nat in Hst1.
  assert (HokB : block_ok (C BMAP)) by (eapply cview_block_ok, Htx).
  pose proof (free_blocks_taken C a (b :: rest) HokB Hf) as Hf0. set (C0 := taken_block C a) in *.
  assert (HokB0 : block_ok (C0 BMAP)) by (eapply cview_block_ok, Htx1).
  pose proof Hf as (Har & Hac & _)%filter_seqZ_cons. pose proof Hf0 as (Hbr & Hbc0 & _)%filter_seqZ_cons.
  assert (Hbits0 : ∀ c, 0 ≤ c → bitset (C0 BMAP) c = (c =? a) || bitset (C BMAP) c).
  { intros c Hc. apply taken_bits; [apply HokB|dlia|done]. }
  assert (Hab : a ≠ b) by (intros E; rewrite Hbits0, E, Z.eqb_refl in Hbc0 by dlia; done).
  assert (Hbm0 : bitmap_ok C0).
  { intros c Hc. rewrite Hbits0 by lia. rewrite (fsi_bmap _ _ Hi) by lia. apply orb_true_r. }
  destruct (ind_entry (set_k_fs s1 k) C0 D (S (S m)) a 0 (fs_ready_fs _ _ Hr) (istep_layout _ _ _ _ Hst1 Hlay) Htx1 Hbm0)
    as (s2 & b' & C' & m' & Hr2 & Htx2 & Hm2 & Hts2 & Hcase).
  { dlia. }
  { rewrite Hbits0, Z.eqb_refl by dlia. done. }
  { lia. }
  { lia. }
  { right. by rewrite Hf0. }
  assert (HC0a : C0 a = zero_block) by apply taken_eq.
  rewrite HC0a, get32_zero in Hcase. destruct Hcase as [(He & _)|(_ & rest' & Hf' & HC')]; [done|].
  rewrite Hf0 in Hf'. injection Hf' as <- <-. cbv zeta in HC'. set (C1 := taken_block C0 b) in *.
  assert (HC1a : C1 a = zero_block) by (unfold C1; rewrite taken_ne; [done|done|dlia]).
  change (Z.to_nat (12 - 12)) with 0%nat. rewrite Hr2.
  destruct (grow_first C I n a b Hi Hn Hsz HokB Hab) as (Hi' & Hdat & Hnew & Hoth); [dlia|done|dlia| |].
  { rewrite Hbits0 in Hbc0 by dlia. by apply orb_false_iff in Hbc0 as [_ ?]. }
  fold C0 C1 in Hi', Hdat, Hnew, Hoth. change 0%nat with (4 * 0)%nat in Hi', Hdat, Hnew, Hoth.
  rewrite <- HC' in Hi', Hdat, Hnew, Hoth.
  fold d in Hi', Hdat, Hnew. set (d' := grown d _ 12) in *.
  exists s2, C', d', m'. split; [by rewrite Hnew|]. split; try done.
  - lia.
  - eapply istep_trans; [exact Hst1|]. apply istep_tstep; [|done]. by eapply istep_lookup.
  - intros c Hc HcB. rewrite HC', upd_ne by dlia. unfold C1, C0. rewrite !taken_ne; [done|dlia|done|dlia|done].
  - right. split; [done|]. split_and!; [by eexists|done|].
    rewrite (free_blocks_ext C1 C') by (rewrite HC'; apply upd_ne; dlia).
    unfold C1. rewrite (free_blocks_taken C0 b rest HokB0 Hf0), Hf. cbn. lia.
Qed.

Lemma bmap_ok k C D m I i x n bn :
  fs_ready k → layout (k_fs k) → tx [] (k_fs k) C D m → (m ≤ 20)%nat → fsinv C I → live I n →
  incore (k_fs k) i x (I n) → 0 ≤ bn < MAXFILE → room C (I n) bn →
  ∃ s' C' d' m', bmap i bn k = Ok (blk C' d' bn) (set_k_fs s' k) ∧ bmap_post k C D m I i x n bn s' C' d' m'.
Proof.
  intros Hr Hlay Htx Hm Hi Hn Hin Hbn Hroom. destruct (Z.ltb_spec bn 12) as [H1|H1].
  { apply bmap_direct; done || lia. }
  destruct (Z.ltb_spec 12 (nblk (d_size (I n)))) as [H2|H2].
  { apply bmap_indirect; done || lia. }
  destruct Hroom as [?|[Hsz Hfree]]; [lia|]. assert (nblk (d_size (I n)) = bn) by (rewrite Hsz; apply nblk_mul).
  assert (bn = 12) as -> by lia. by apply bmap_first.
Qed.
End bmap.
