(* ===== verification/DinodeSpec.v ===== *)
(** Inodes on the disk: [struct dinode] and [iupdate] ([fs.c]). *)

From S2P Require Import Prelude Params Bytes State Spinlock Procs Sched SchedSpec Bio BioSpec CacheSpec BlockSpec Log LogSpec CommitSpec Inode BallocSpec DiskSpec BmapSpec.

(** The inode [n] of the disk. *)
Definition nd (C : Z → list Z) (n : Z) : dinode := dinode_at (C (IBLOCK n mkfs_sb)) (ioff n).

(** The fields are within their C types. *)
Record dinode_wf (d : dinode) : Prop := mkDinodeWf {
  dw_type : - 2 ^ 15 ≤ d_type d < 2 ^ 15;
  dw_major : - 2 ^ 15 ≤ d_major d < 2 ^ 15;
  dw_minor : - 2 ^ 15 ≤ d_minor d < 2 ^ 15;
  dw_nlink : - 2 ^ 15 ≤ d_nlink d < 2 ^ 15;
  dw_size : 0 ≤ d_size d < 2 ^ 32;
  dw_len : length (d_addrs d) = 13%nat;
  dw_addrs : Forall (λ a, 0 ≤ a < 2 ^ 32) (d_addrs d)
}.

Section dinode.
Implicit Types (d : dinode) (l bs : list Z) (off j : nat).

Lemma sub_splice_in l off bs j n :
  (off ≤ length l)%nat → (j + n ≤ length bs)%nat → sub (splice l off bs) (off + j) n = sub bs j n.
Proof.
  intros Ho Hj. apply list_eq. intros i. rewrite !sub_lookup. case_decide; [|done].
  rewrite splice_lookup, decide_True by lia. f_equal. lia.
Qed.

Lemma sub_app_l l1 l2 j n : (j + n ≤ length l1)%nat → sub (l1 ++ l2) j n = sub l1 j n.
Proof.
  intros Hj. apply list_eq. intros i. rewrite !sub_lookup. case_decide; [|done]. by rewrite lookup_app_l by lia.
Qed.
Lemma sub_app_r l1 l2 j n : (length l1 ≤ j)%nat → sub (l1 ++ l2) j n = sub l2 (j - length l1) n.
Proof.
  intros Hj. apply list_eq. intros i. rewrite !sub_lookup. case_decide; [|done].
  rewrite lookup_app_r by lia. f_equal. lia.
Qed.
Lemma sub_all l n : n = length l → sub l 0 n = l.
Proof. intros ->. unfold sub. rewrite drop_0. by apply take_ge. Qed.

Lemma length_concat_le l : length (concat (le_bytes 4 <$> l)) = (4 * length l)%nat.
Proof. induction l as [|v l IH]; [done|]. rewrite fmap_cons. cbn [concat]. rewrite length_app, length_le_bytes, IH. cbn [length]. lia. Qed.

Lemma sub_concat l (i : nat) v : l !! i = Some v → sub (concat (le_bytes 4 <$> l)) (4 * i) 4 = le_bytes 4 v.
Proof.
  revert i. induction l as [|w l IH]; intros [|i] Hi; try done; rewrite fmap_cons; cbn [concat].
  - injection Hi as ->. rewrite Nat.mul_0_r. rewrite sub_app_l by (rewrite length_le_bytes; lia). by apply sub_all.
  - rewrite sub_app_r by (rewrite length_le_bytes; lia). rewrite length_le_bytes.
    replace (4 * S i - 4)%nat with (4 * i)%nat by lia. by apply IH.
Qed.

Lemma length_dinode_bytes d : length (d_addrs d) = 13%nat → length (dinode_bytes d) = 64%nat.
Proof. intros Hl. unfold dinode_bytes. rewrite !length_app, !length_le_bytes, length_concat_le, Hl. done. Qed.

Lemma dinode_bytes_ok d : bytes_ok (dinode_bytes d).
Proof.
  unfold dinode_bytes, bytes_ok. rewrite !Forall_app. repeat split; try apply le_bytes_ok.
  apply Forall_concat. apply Forall_fmap. apply Forall_true. intros v. apply le_bytes_ok.
Qed.

Lemma s16_u16 v : - 2 ^ 15 ≤ v < 2 ^ 15 → s16 (v mod 256 ^ Z.of_nat 2) = v.
Proof. intros Hv. change (256 ^ Z.of_nat 2) with 65536. unfold s16. lia. Qed.

Lemma u32_le v : 0 ≤ v < 2 ^ 32 → v mod 256 ^ Z.of_nat 4 = v.
Proof. intros Hv. change (256 ^ Z.of_nat 4) with (2 ^ 32). lia. Qed.

(** The fields of an inode in its bytes. *)
Lemma dinode_field l off (pre : list Z) (w : nat) v suf bs :
  (off ≤ length l)%nat → bs = pre ++ le_bytes w v ++ suf →
  le_val (sub (splice l off bs) (off + length pre) w) = v mod 256 ^ Z.of_nat w.
Proof.
  intros Ho ->. rewrite sub_splice_in; [|done|rewrite !length_app, length_le_bytes; lia].
  rewrite sub_app_r by lia. rewrite Nat.sub_diag, sub_app_l by (rewrite length_le_bytes; lia).
  rewrite sub_all by (by rewrite length_le_bytes). apply le_val_bytes.
Qed.

(** Writing an inode and reading it back. *)
Lemma dinode_roundtrip l off d :
  dinode_wf d → (off ≤ length l)%nat → dinode_at (splice l off (dinode_bytes d)) off = d.
Proof.
  intros [Ht Hma Hmi Hnl Hs Hl HA] Ho. set (bs := dinode_bytes d). unfold dinode_at, get16, get32.
  assert (E : ∀ (p w : nat) (pre : list Z) v suf, bs = pre ++ le_bytes w v ++ suf → p = length pre →
    le_val (sub (splice l off bs) (off + p) w) = v mod 256 ^ Z.of_nat w).
  { intros p w pre v suf Hbs ->. by eapply dinode_field. }
  set (t := le_bytes 2 (d_type d)). set (ma := le_bytes 2 (d_major d)). set (mi := le_bytes 2 (d_minor d)).
  set (nl := le_bytes 2 (d_nlink d)). set (sz := le_bytes 4 (d_size d)). set (A := concat (le_bytes 4 <$> d_addrs d)).
  assert (Hlen : length (t ++ ma ++ mi ++ nl ++ sz) = 12%nat) by reflexivity.
  pose proof (E 0%nat 2%nat [] (d_type d) (ma ++ mi ++ nl ++ sz ++ A) eq_refl eq_refl) as F0. rewrite Nat.add_0_r in F0.
  pose proof (E 2%nat 2%nat t (d_major d) (mi ++ nl ++ sz ++ A) eq_refl eq_refl) as F2.
  pose proof (E 4%nat 2%nat (t ++ ma) (d_minor d) (nl ++ sz ++ A) ltac:(by rewrite <- !app_assoc) eq_refl) as F4.
  pose proof (E 6%nat 2%nat (t ++ ma ++ mi) (d_nlink d) (sz ++ A) ltac:(by rewrite <- !app_assoc) eq_refl) as F6.
  pose proof (E 8%nat 4%nat (t ++ ma ++ mi ++ nl) (d_size d) A ltac:(by rewrite <- !app_assoc) eq_refl) as F8.
  rewrite F0, F2, F4, F6, F8. pose proof (length_dinode_bytes d Hl) as Hbl. fold bs in Hbl.
  assert (Hbs : bs = (t ++ ma ++ mi ++ nl ++ sz) ++ A) by (by rewrite <- !app_assoc). clearbody bs.
  rewrite !s16_u16, u32_le by done. destruct d as [ty mj mn nk s As].
  cbn [d_type d_major d_minor d_nlink d_size d_addrs] in *. f_equal.
  apply list_eq. intros i. rewrite list_lookup_fmap. destruct (decide (i < 13)%nat) as [Hi|Hi].
  - rewrite lookup_seq_lt by done. cbn. destruct (lookup_lt_is_Some_2 As i) as [v Hv]; [lia|]. rewrite Hv. f_equal.
    rewrite <- Nat.add_assoc. rewrite sub_splice_in by lia. rewrite Hbs.
    rewrite sub_app_r by lia. rewrite Hlen. replace (12 + _ - 12)%nat with (4 * i)%nat by lia.
    unfold A. rewrite (sub_concat _ _ v) by done. rewrite le_val_bytes. apply u32_le.
    rewrite Forall_lookup in HA. by apply (HA i).
  - rewrite lookup_seq_ge by lia. cbn. symmetry. apply lookup_ge_None. lia.
Qed.

(** Writing an inode leaves the others in the block as they are. *)
Lemma dinode_other l off off' bs :
  (off ≤ length l)%nat → length bs = 64%nat → (off' + 64 ≤ off ∨ off + 64 ≤ off')%nat →
  dinode_at (splice l off bs) off' = dinode_at l off'.
Proof.
  intros Ho Hb Hd. unfold dinode_at, get16, get32. rewrite !sub_splice_ne by lia. f_equal.
  apply list_fmap_ext. intros i j Hj. apply lookup_seq in Hj as [-> Hlt]. by rewrite sub_splice_ne by lia.
Qed.

Lemma dinode_at_wf l off : bytes_ok l → dinode_wf (dinode_at l off).
Proof.
  intros Hl. unfold dinode_at. split; cbn [d_type d_major d_minor d_nlink d_size d_addrs].
  1-4: unfold s16; lia.
  - by apply get32_range.
  - by rewrite length_fmap, length_seq.
  - apply Forall_fmap, Forall_true. intros i. by apply get32_range.
Qed.
End dinode.

(** ** [iupdate] *)
Definition d_of (x : inode) : dinode :=
  mkDinode (i_type x) (i_major x) (i_minor x) (i_nlink x) (i_size x) (i_addrs x).
Definition iupdated (C : Z → list Z) (n : Z) (d : dinode) : Z → list Z :=
  let b := IBLOCK n mkfs_sb in upd C b (splice (C b) (ioff n) (dinode_bytes d)).

Section iupdate.
Context {W : world} {DW : DiskWorld}.
Implicit Types (k : kernel) (s : fsys) (i : nat) (x : inode) (C D : Z → list Z) (n : Z) (I : Z → dinode).

Lemma IBLOCK_eq n : IBLOCK n mkfs_sb = n / 8 + 32.
Proof. done. Qed.
Lemma ioff_eq n : 0 ≤ n → Z.of_nat (ioff n) = n mod 8 * 64 ∧ (ioff n + 64 ≤ 512)%nat.
Proof. intros Hn. unfold ioff. change IPB with 8. lia. Qed.

Lemma iupdated_block_ok C n d : 0 ≤ n → length (d_addrs d) = 13%nat → block_ok (C (IBLOCK n mkfs_sb)) →
  block_ok (iupdated C n d (IBLOCK n mkfs_sb)).
Proof.
  intros Hn Hl [Hlen Hb]. unfold iupdated. rewrite upd_eq. pose proof (ioff_eq n Hn) as [_ Ho].
  split; [rewrite length_splice_in; rewrite ?length_dinode_bytes by done; lia|].
  apply bytes_splice; [done|apply dinode_bytes_ok].
Qed.

Lemma iupdate_ok k C D m i x n :
  fs_ready k → layout (k_fs k) → tx [] (k_fs k) C D m → (m < 29)%nat → inodes (k_fs k) !! i = Some x →
  i_dev x = 1 → i_inum x = n → 1 ≤ n < NINODES → length (i_addrs x) = 13%nat →
  ∃ s', iupdate i k = Ok tt (set_k_fs s' k) ∧ tx [] s' (iupdated C n (d_of x)) D (S m) ∧ tstep (k_fs k) s'.
Proof.
  intros Hr [Hsb Hls] Htx Hm Hx Hdev Hin Hn Hl. set (b := IBLOCK n mkfs_sb).
  assert (Hb : 32 ≤ b < 58) by (unfold b; rewrite IBLOCK_eq; clia).
  destruct (tx_bread k [] C D m b Hr Htx) as (bp & s1 & Hr1 & Htx1 & Hst1 & _); [clia|apply not_elem_of_nil|cbn; lia|].
  assert (Hx1 : inodes s1 !! i = Some x) by (by rewrite (fm_inodes _ _ (st_frame _ _ Hst1))).
  destruct (tx_write (set_k_fs s1 k) _ C D m bp b (λ d, splice d (ioff n) (dinode_bytes (d_of x))) (fs_ready_fs _ _ Hr) Htx1)
    as (s2 & Hr2 & Htx2 & Hts2 & Hin2); [done|left|cbn; rewrite (st_log _ _ Hst1), Hls; unfold home; clia| |].
  { pose proof (iupdated_block_ok C n (d_of x) ltac:(lia) Hl) as Hok. unfold iupdated in Hok. rewrite upd_eq in Hok.
    apply Hok. eapply cview_block_ok, Htx. }
  destruct (tx_brelse (set_k_fs s2 k) [] _ D (S m) bp b (fs_ready_fs _ _ Hr) Htx2) as (s3 & Hr3 & Htx3 & Hst3); [by left|].
  exists s3. split_and!; [|done|].
  - unfold iupdate. rewrite (bind_ok _ _ _ _ _ (get_inode_ok _ _ _ Hx)). unfold getf. rewrite bind_gets.
    rewrite Hsb, Hdev, Hin. fold b. rewrite (bind_ok _ _ _ _ _ Hr1).
    erewrite bind_ok by (apply get_inode_ok; exact Hx1). rewrite Hin. fold (d_of x).
    rewrite (seq2_ok _ _ _ _ _ _ Hr2). exact Hr3.
  - eapply tstep_trans; [by apply tstep_still|]. eapply tstep_trans; [done|by apply tstep_still].
Qed.

Lemma nd_iupdated C n d : 1 ≤ n < NINODES → dinode_wf d → block_ok (C (IBLOCK n mkfs_sb)) →
  nd (iupdated C n d) n = d.
Proof.
  intros Hn Hd [Hl _]. unfold nd, iupdated. rewrite upd_eq. pose proof (ioff_eq n ltac:(lia)) as [_ Ho].
  apply dinode_roundtrip; [done|lia].
Qed.

Lemma nd_iupdated_ne C n d n' : 1 ≤ n < NINODES → 1 ≤ n' < NINODES → n' ≠ n → length (d_addrs d) = 13%nat →
  block_ok (C (IBLOCK n mkfs_sb)) → nd (iupdated C n d) n' = nd C n'.
Proof.
  intros Hn Hn' Hne Hl [Hlen _]. unfold nd, iupdated. destruct (decide (IBLOCK n' mkfs_sb = IBLOCK n mkfs_sb)) as [E|E].
  - rewrite E, upd_eq. rewrite !IBLOCK_eq in E. pose proof (ioff_eq n ltac:(lia)) as [H1 H2].
    pose proof (ioff_eq n' ltac:(lia)) as [H3 H4]. apply dinode_other; [lia|by apply length_dinode_bytes|lia].
  - by rewrite upd_ne.
Qed.

(** The blocks of files are not those of the inodes. *)
Lemma fsinv_meta C C' I : fsinv C I → (∀ b, BMAP ≤ b < FSSIZE → C' b = C b) →
  fsinv C' I ∧ ∀ n, live I n → file_data C' (I n) = file_data C (I n).
Proof.
  intros Hi HC. assert (Hsame : ∀ n, live I n → ∀ b, b ∈ used_blocks C (I n) → C' b = C b).
  { intros n Hn b Hb. apply HC. pose proof (used_range _ _ _ (fsi_wf _ _ Hi n Hn) Hb). dlia. }
  assert (HB : C' BMAP = C BMAP) by (apply HC; clia).
  split; [split|].
  - intros n Hn. apply (wf_unchanged C); [by apply Hsame|by apply (fsi_wf _ _ Hi)].
  - intros n Hn. rewrite (used_unchanged C) by (by apply Hsame). by apply (fsi_nodup _ _ Hi).
  - intros n n' b Hn Hn' Hne. rewrite (used_unchanged C C' (I n)), (used_unchanged C C' (I n')) by (by apply Hsame).
    by apply (fsi_disj _ _ Hi).
  - intros n b Hn. rewrite (used_unchanged C), HB by (by apply Hsame). by apply (fsi_bits _ _ Hi).
  - intros b Hb. rewrite HB. by apply (fsi_bmap _ _ Hi).
  - intros n Hn. apply data_unchanged; [by apply Hsame|]. apply (fsi_wf _ _ Hi n Hn).
Qed.

Lemma iupdated_high C n d b : 1 ≤ n < NINODES → BMAP ≤ b → iupdated C n d b = C b.
Proof. intros Hn Hb. apply upd_ne. rewrite IBLOCK_eq. clia. Qed.
End iupdate.
