(* ===== verification/Console.v ===== *)
(** The console: output to the screen and the serial line, [cprintf], and the
    line editor of [consoleintr] ([console.c], [uart.c]). *)

From S2P Require Import Prelude Params State Spinlock Mem Kalloc PageTable Uaccess Procs Sched Bio Log Inode.

Definition BACKSPACE : Z := 0x100.
Definition INPUT_BUF : Z := 128.
(** [C('x')] *)
Definition Ctl (x : Z) : Z := x - 64.
Definition NL : Z := 10.
Definition CR : Z := 13.

Definition getc_ {A} (f : consst → A) : K A := gets (λ k, f (k_cons k)).
Definition modc (f : consst → consst) : K unit := modify (mod_cons f).
Arguments getc_ _ _ _ /.
Arguments modc _ _ /.

(** ** The screen *)

(** [crt[i] = v] *)
Definition set_crt_at (i v : Z) : K unit :=
  l ← getc_ crt; l ← or_ub "crt" (aset l i v); modc (set_crt l).

(** [memmove(crt, crt+80, sizeof(crt[0])*23*80)] and the [memset] below it. *)
Definition scroll_up (l : list Z) (pos : Z) : list Z :=
  let l := take (23 * 80) (drop 80 l) ++ drop (23 * 80) l in
  take (Z.to_nat pos) l ++ replicate (Z.to_nat (24 * 80 - pos)) 0 ++ drop (24 * 80) l.

(** Where [c] leaves the cursor, before scrolling. *)
Definition advance (c pos : Z) : K Z :=
  if c =? NL then ret (pos + (80 - Z.rem pos 80))
  else if c =? BACKSPACE then ret (if 0 <? pos then pos - 1 else pos)
  else set_crt_at pos (Z.lor (Z.land c 0xff) 0x700);; ret (pos + 1).

Definition cgaputc (c : Z) : K unit :=
  pos ← getc_ crt_pos;
  pos ← advance c pos;
  if (pos <? 0) || (25 * 80 <? pos) then panic "pos under/overflow" else
  pos ← (if 24 <=? Z.quot pos 80 then
           let pos := pos - 80 in modc (λ s, set_crt (scroll_up (crt s) pos) s);; ret pos
         else ret pos);
  modc (set_crt_pos (Z.land pos 0xffff));;
  set_crt_at pos (Z.lor 32 0x700).

(** ** The serial line

    [uartputc] polls for room and sends; the byte reaches the line. *)
Definition uartputc (c : Z) : K unit :=
  u ← getc_ uart;
  when (truthy u) (modc (λ s, set_uart_out (uart_out s ++ [u8 c]) s)).

Definition consputc (c : Z) : K unit :=
  p ← getc_ panicked;
  if truthy p then cli;; fail OutOfFuel
  else
    (if c =? BACKSPACE then uartputc 8;; uartputc 32;; uartputc 8 else uartputc c);;
    cgaputc c.

(** ** [cprintf] *)
Definition digits : list Z := seqZ 48 10 ++ seqZ 97 6.

(** The digits of [x], least significant first. *)
Fixpoint digits_of (fuel : nat) (x base : Z) : list Z :=
  match fuel with
  | O => []
  | S fuel =>
      default 0 (digits !! Z.to_nat (x mod base)) ::
      (if x / base =? 0 then [] else digits_of fuel (x / base) base)
  end.

(** [buf] has room for 16 characters; a 32-bit number has at most ten digits in
    base ten and eight in base sixteen. *)
Definition int_chars (xx base : Z) (sign : bool) : list Z :=
  let neg := sign && (xx <? 0) in
  let x := u32 (if neg then - xx else xx) in
  reverse (digits_of 32 x base ++ (if neg then [45] else [])).

Definition printint (xx base : Z) (sign : bool) : K unit := forM (int_chars xx base sign) consputc.

(** An argument after the format: a word, or a string, which may be null. *)
Inductive parg := Pint (x : Z) | Pstr (s : option (list Z)).

Fixpoint cprintf_go (fmt : list Z) (args : list parg) : K unit :=
  match fmt with
  | [] => ret tt
  | c :: fmt =>
      if negb (c =? 37) then consputc c;; cprintf_go fmt args
      else
        match fmt with
        | [] => ret tt
        | c :: fmt =>
            if c =? 100 (* d *) then
              match args with
              | Pint x :: args => printint (s32 x) 10 true;; cprintf_go fmt args
              | _ => fail (UB "cprintf")
              end
            else if (c =? 120) || (c =? 112) (* x, p *) then
              match args with
              | Pint x :: args => printint (s32 x) 16 false;; cprintf_go fmt args
              | _ => fail (UB "cprintf")
              end
            else if c =? 115 (* s *) then
              match args with
              | Pstr s :: args =>
                  forM (default [40; 110; 117; 108; 108; 41] s) consputc;; cprintf_go fmt args
              | _ => fail (UB "cprintf")
              end
            else if c =? 37 then consputc 37;; cprintf_go fmt args
            else consputc 37;; consputc c;; cprintf_go fmt args
        end
  end.

Definition cprintf (fmt : list Z) (args : list parg) : K unit :=
  locking ← getc_ cons_locking;
  when (truthy locking) (acquire Lcons);;
  cprintf_go fmt args;;
  when (truthy locking) (release Lcons).

(** A string literal of the source. *)
Definition str (s : string) : list Z := (λ c, Z.of_nat (Ascii.nat_of_ascii c)) <$> String.list_ascii_of_string s.

(** ** The input line *)
Definition input_at (i : Z) : K Z :=
  s ← gets k_cons; or_ub "input.buf" (aget (input_buf s) (u32 i mod INPUT_BUF)).
Definition set_input_at (i c : Z) : K unit :=
  s ← gets k_cons;
  l ← or_ub "input.buf" (aset (input_buf s) (u32 i mod INPUT_BUF) (u8 c));
  modc (set_input_buf l).

(** [case C('U')]: erase back to the end of the previous line. *)
Fixpoint kill_line (fuel : nat) : K unit :=
  s ← gets k_cons;
  if input_e s =? input_w s then ret tt else
  c ← input_at (input_e s - 1);
  if c =? NL then ret tt else
  match fuel with
  | O => fail OutOfFuel
  | S fuel =>
      modc (λ s, set_input_e (u32 (input_e s - 1)) s);;
      consputc BACKSPACE;;
      kill_line fuel
  end.

Section console.
Context `{world}.

(** One character of input, other than [C('P')]. *)
Definition console_char (c : Z) : K unit :=
  s ← gets k_cons;
  if c =? Ctl 85 then kill_line (Z.to_nat INPUT_BUF)
  else if (c =? Ctl 72) || (c =? 127) then
    when (negb (input_e s =? input_w s)) (
      modc (λ s, set_input_e (u32 (input_e s - 1)) s);; consputc BACKSPACE)
  else
    when (negb (c =? 0) && (u32 (input_e s - input_r s) <? INPUT_BUF)) (
      let c := if c =? CR then NL else c in
      set_input_at (input_e s) c;;
      modc (λ s, set_input_e (u32 (input_e s + 1)) s);;
      consputc c;;
      s ← gets k_cons;
      when ((c =? NL) || (c =? Ctl 68) || (input_e s =? u32 (input_r s + INPUT_BUF))) (
        modc (λ s, set_input_w (input_e s) s);;
        wakeup (Some Cinput))).

(** [consoleintr(getc)] on the characters [getc] yields; the result says whether
    [C('P')] was typed, in which case [procdump] prints the process table. *)
Fixpoint console_chars (cs : list Z) (doprocdump : bool) : K bool :=
  match cs with
  | [] => ret doprocdump
  | c :: cs =>
      if c =? Ctl 80 then console_chars cs true
      else console_char c;; console_chars cs doprocdump
  end.
Definition consoleintr (cs : list Z) : K bool :=
  acquire Lcons;;
  d ← console_chars cs false;
  release Lcons;;
  ret d.

(** [while(input.r == input.w)] of [consoleread]; [false] when killed. *)
Fixpoint input_wait (fuel : nat) : K bool :=
  s ← gets k_cons;
  if input_r s =? input_w s then
    p ← curproc;
    q ← get_proc p;
    if truthy (killed q) then ret false
    else
      match fuel with
      | O => fail OutOfFuel
      | S fuel => sleep Cinput Lcons;; input_wait fuel
      end
  else ret true.

(** The loop of [consoleread]: [None] when killed, else how much of [n] is left. *)
Fixpoint consoleread_loop {A} (snk : sink A) (fuel : nat) (dst : A) (n target : Z) : K (option Z * A) :=
  match fuel with
  | O => ret (Some n, dst)
  | S fuel =>
      ok ← input_wait patience;
      if negb ok then ret (None, dst) else
      s ← gets k_cons;
      c ← input_at (input_r s);
      modc (set_input_r (u32 (input_r s + 1)));;
      if c =? Ctl 68 then
        when (u32 n <? target) (modc (λ s, set_input_r (u32 (input_r s - 1)) s));;
        ret (Some n, dst)
      else
        dst ← snk_put snk dst [c];
        if c =? NL then ret (Some (n - 1), dst)
        else consoleread_loop snk fuel dst (n - 1) target
  end.

Definition consoleread {A} (snk : sink A) (ip : nat) (dst : A) (n : Z) : K (Z * A) :=
  iunlock (Some ip);;
  acquire Lcons;;
  '(o, dst) ← consoleread_loop snk (Z.to_nat n) dst n (u32 n);
  release Lcons;;
  ilock (Some ip);;
  ret (match o with None => -1 | Some rest => s32 (u32 n - rest) end, dst).

Definition consolewrite {A} (src : source A) (ip : nat) (buf : A) (n : Z) : K Z :=
  iunlock (Some ip);;
  acquire Lcons;;
  (fix loop (fuel : nat) (buf : A) : K unit :=
     match fuel with
     | O => ret tt
     | S fuel =>
         '(l, buf) ← src_take src buf 1;
         consputc (Z.land (default 0 (head l)) 0xff);;
         loop fuel buf
     end) (Z.to_nat n) buf;;
  release Lcons;;
  ilock (Some ip);;
  ret n.
End console.

#[global] Arguments consputc : simpl never.
#[global] Arguments cgaputc : simpl never.
#[global] Arguments uartputc : simpl never.
#[global] Arguments cprintf : simpl never.
#[global] Arguments consoleread : simpl never.
#[global] Arguments consolewrite : simpl never.
