(* ===== verification/Fs.v ===== *)
(** File contents, directories and path names, the second half of [fs.c]. *)

From S2P Require Import Prelude Params Bytes State Spinlock Mem Kalloc PageTable Uaccess Procs Sched Bio Log Inode Console.

(** [struct stat] *)
Record stat := mkStat {
  st_type : Z;
  st_dev : Z;
  st_ino : Z;
  st_nlink : Z;
  st_size : Z;
}.

(** ** Directory entries

    Sixteen bytes: the inode number and fourteen bytes of name. *)
Record dirent := mkDirent { de_inum : Z; de_name : list Z }.
Definition dirent_of (l : list Z) : dirent := mkDirent (get16 l 0) (sub l 2 14).
Definition dirent_bytes (e : dirent) : list Z := le_bytes 2 (de_inum e) ++ de_name e.
Definition DIRENT : Z := 16.

(** ** Strings

    A string is the list of its bytes before the zero; a [char[DIRSIZ]] is a list of
    fourteen bytes, with no zero when the name fills it. *)
Fixpoint strncmp_l (n : nat) (p q : list Z) : Z :=
  match n with
  | O => 0
  | S n =>
      let a := default 0 (head p) in
      let b := default 0 (head q) in
      if negb (a =? 0) && (a =? b) then strncmp_l n (tail p) (tail q) else a - b
  end.
Definition namecmp (s t : list Z) : Z := strncmp_l (Z.to_nat DIRSIZ) s t.

(** [strncpy(name, s, DIRSIZ)] *)
Fixpoint strncpy_l (n : nat) (t : list Z) : list Z :=
  match n, t with
  | O, _ => []
  | S n, [] => 0 :: replicate n 0
  | S n, c :: t => if c =? 0 then 0 :: replicate n 0 else c :: strncpy_l n t
  end.

Definition SLASH : Z := 47.
Fixpoint skip_slashes (path : list Z) : list Z :=
  match path with
  | c :: path' => if c =? SLASH then skip_slashes path' else path
  | [] => []
  end.
(** The element up to the next slash, and the rest. *)
Fixpoint elem (path : list Z) : list Z * list Z :=
  match path with
  | [] => ([], [])
  | c :: path' => if c =? SLASH then ([], path) else let '(e, r) := elem path' in (c :: e, r)
  end.

(** [skipelem(path, name)]: the rest of the path and what [name] holds afterwards. *)
Definition skipelem (path name : list Z) : option (list Z * list Z) :=
  let path := skip_slashes path in
  match path with
  | [] => None
  | _ =>
      let '(s, path) := elem path in
      let len := Z.of_nat (length s) in
      let name := if DIRSIZ <=? len then take (Z.to_nat DIRSIZ) s
                  else splice name 0 (s ++ [0]) in
      Some (skip_slashes path, name)
  end.

Section fs.
Context `{world}.

(** ** The inode cache at boot *)
Definition iinit (dev : Z) : K unit :=
  initlock Licache "icache";;
  forM (seq 0 (Z.to_nat NINODE)) (λ i, initsleeplock (inode_lock i));;
  s ← readsb dev;
  modf (set_sb s);;
  cprintf (str "sb: size %d nblocks %d ninodes %d nlog %d logstart %d inodestart %d bmap start %d" ++ [NL])
    [Pint (sb_size s); Pint (sb_nblocks s); Pint (sb_ninodes s); Pint (sb_nlog s); Pint (sb_logstart s);
     Pint (sb_inodestart s); Pint (sb_bmapstart s)].

Definition stati (i : nat) : K stat :=
  x ← get_inode i;
  ret (mkStat (i_type x) (i_dev x) (i_inum x) (i_nlink x) (i_size x)).

(** ** Contents *)

(** The device switch: the console is the only device. *)
Definition CONSOLE : Z := 1.

Fixpoint readi_loop {A} (snk : sink A) (fuel : nat) (i : nat) (dst : A) (tot off n : Z) : K A :=
  if tot <? n then
    match fuel with
    | O => fail OutOfFuel
    | S fuel =>
        x ← get_inode i;
        addr ← bmap i (off / BSIZE);
        bp ← bread (i_dev x) addr;
        let m := Z.min (n - tot) (BSIZE - off mod BSIZE) in
        d ← bdata bp;
        dst ← snk_put snk dst (sub d (Z.to_nat (off mod BSIZE)) (Z.to_nat m));
        brelse bp;;
        readi_loop snk fuel i dst (tot + m) (off + m) n
    end
  else ret dst.

Definition readi {A} (snk : sink A) (i : nat) (dst : A) (off n : Z) : K (Z * A) :=
  x ← get_inode i;
  if i_type x =? T_DEV then
    if (i_major x <? 0) || (NDEV <=? i_major x) || negb (i_major x =? CONSOLE) then ret (-1, dst)
    else consoleread snk i dst (s32 n)
  else
    if (i_size x <? off) || (u32 (off + n) <? off) then ret (-1, dst) else
    let n := if i_size x <? off + n then i_size x - off else n in
    dst ← readi_loop snk (S (Z.to_nat n)) i dst 0 off n;
    ret (s32 n, dst).

Fixpoint writei_loop {A} (src : source A) (fuel : nat) (i : nat) (buf : A) (tot off n : Z) : K Z :=
  if tot <? n then
    match fuel with
    | O => fail OutOfFuel
    | S fuel =>
        x ← get_inode i;
        addr ← bmap i (off / BSIZE);
        bp ← bread (i_dev x) addr;
        let m := Z.min (n - tot) (BSIZE - off mod BSIZE) in
        '(l, buf) ← src_take src buf m;
        mod_data bp (λ d, splice d (Z.to_nat (off mod BSIZE)) l);;
        log_write bp;;
        brelse bp;;
        writei_loop src fuel i buf (tot + m) (off + m) n
    end
  else ret off.

Definition writei {A} (src : source A) (i : nat) (buf : A) (off n : Z) : K Z :=
  x ← get_inode i;
  if i_type x =? T_DEV then
    if (i_major x <? 0) || (NDEV <=? i_major x) || negb (i_major x =? CONSOLE) then ret (-1)
    else consolewrite src i buf (s32 n)
  else
    if (i_size x <? off) || (u32 (off + n) <? off) then ret (-1) else
    if MAXFILE * BSIZE <? u32 (off + n) then ret (-1) else
    off ← writei_loop src (S (Z.to_nat n)) i buf 0 off n;
    x ← get_inode i;
    when ((0 <? n) && (i_size x <? off)) (mod_inode i (set_i_size off);; iupdate i);;
    ret (s32 n).

(** ** Directories *)

(** [readi] into a local [struct dirent]. *)
Definition read_dirent (dp : nat) (off : Z) (msg : string) : K dirent :=
  '(r, l) ← readi local_sink dp [] off DIRENT;
  if r =? DIRENT then ret (dirent_of l) else panic msg.

Fixpoint dirlookup_loop (fuel : nat) (dp : nat) (name : list Z) (off : Z) : K (option (nat * Z)) :=
  x ← get_inode dp;
  if off <? i_size x then
    match fuel with
    | O => fail OutOfFuel
    | S fuel =>
        de ← read_dirent dp off "dirlookup read";
        if de_inum de =? 0 then dirlookup_loop fuel dp name (off + DIRENT)
        else if namecmp name (de_name de) =? 0 then
          ip ← iget (i_dev x) (de_inum de); ret (Some (ip, off))
        else dirlookup_loop fuel dp name (off + DIRENT)
    end
  else ret None.

(** The inode and the offset of its entry. *)
Definition dirlookup (dp : nat) (name : list Z) : K (option (nat * Z)) :=
  x ← get_inode dp;
  if negb (i_type x =? T_DIR) then panic "dirlookup not DIR"
  else dirlookup_loop (Z.to_nat (i_size x / DIRENT + 1)) dp name 0.

(** The offset of the first free entry, or the size. *)
Fixpoint dirlink_loop (fuel : nat) (dp : nat) (off : Z) : K Z :=
  x ← get_inode dp;
  if off <? i_size x then
    match fuel with
    | O => fail OutOfFuel
    | S fuel =>
        de ← read_dirent dp off "dirlink read";
        if de_inum de =? 0 then ret off else dirlink_loop fuel dp (off + DIRENT)
    end
  else ret off.

Definition dirlink (dp : nat) (name : list Z) (inum : Z) : K Z :=
  o ← dirlookup dp name;
  match o with
  | Some (ip, _) => iput ip;; ret (-1)
  | None =>
      x ← get_inode dp;
      off ← dirlink_loop (Z.to_nat (i_size x / DIRENT + 1)) dp 0;
      let de := dirent_bytes (mkDirent inum (strncpy_l (Z.to_nat DIRSIZ) name)) in
      r ← writei local_source dp de off DIRENT;
      if r =? DIRENT then ret 0 else panic "dirlink"
  end.

(** ** Paths *)

(** The loop of [namex]; each round consumes at least one character of [path]. *)
Fixpoint namex_loop (fuel : nat) (ip : nat) (path name : list Z) (parent : bool) : K (option (nat * list Z)) :=
  match skipelem path name with
  | None => if parent then iput ip;; ret None else ret (Some (ip, name))
  | Some (path, name) =>
      match fuel with
      | O => fail OutOfFuel
      | S fuel =>
          ilock (Some ip);;
          x ← get_inode ip;
          if negb (i_type x =? T_DIR) then iunlockput ip;; ret None
          else if parent && bool_decide (path = []) then
            iunlock (Some ip);; ret (Some (ip, name))
          else
            o ← dirlookup ip name;
            match o with
            | None => iunlockput ip;; ret None
            | Some (next, _) => iunlockput ip;; namex_loop fuel next path name parent
            end
      end
  end.

Definition namex (path : list Z) (parent : bool) (name : list Z) : K (option (nat * list Z)) :=
  ip ← (if bool_decide (head path = Some SLASH) then iget ROOTDEV ROOTINO
        else
          p ← curproc;
          q ← get_proc p;
          d ← or_ub "cwd" (cwd q);
          idup d);
  namex_loop (length path) ip path name parent.

(** [char name[DIRSIZ]] is not initialised; its contents are read only after
    [skipelem] has set them, so any contents will do. *)
Definition namei (path : list Z) : K (option nat) :=
  o ← namex path false (replicate 14 0); ret (fst <$> o).
Definition nameiparent (path : list Z) : K (option (nat * list Z)) :=
  namex path true (replicate 14 0).
End fs.

#[global] Arguments readi : simpl never.
#[global] Arguments writei : simpl never.
#[global] Arguments dirlookup : simpl never.
#[global] Arguments dirlink : simpl never.
#[global] Arguments namex : simpl never.
