(* ===== verification/WriteSpec.v ===== *)
(** [writei] ([fs.c]) writes what the caller asked for into the file, and touches no
    other file. *)

From S2P Require Import Prelude Params Bytes State Spinlock Mem Kalloc PageTable Uaccess Procs Sched SchedSpec Bio BioSpec CacheSpec BlockSpec Log LogSpec CommitSpec Inode BallocSpec DiskSpec BmapSpec DinodeSpec Console Fs.

(** ** Where the bytes come from

    [R a l]: the bytes [l] are at [a]. *)
Definition source_of {A} (src : source A) (k : kernel) (R : A → list Z → Prop) : Prop :=
  ∀ s a l1 l2, R a (l1 ++ l2) →
  ∃ a', src_take src a (Z.of_nat (length l1)) (set_k_fs s k) = Ok (l1, a') (set_k_fs s k) ∧ R a' l2.

Lemma local_source_of k : source_of local_source k (=).
Proof.
  intros s a l1 l2 ->. exists l2. split; [|done]. cbn. rewrite Nat2Z.id, take_app_length, drop_app_length. done.
Qed.

(** ** How many blocks a longer file needs *)
Definition needn (a b : Z) : Z := b - a + (if (a <=? 12) && (12 <? b) then 1 else 0).
(** Blocks to allocate when a file of [size] bytes is to have [e] bytes. *)
Definition need (size e : Z) : Z := needn (nblk size) (nblk (Z.max size e)).

Lemma needn_split a b c : a ≤ b → b ≤ c → needn a c = needn a b + needn b c.
Proof. intros. unfold needn. zcases; cbn; lia. Qed.

Lemma nblk_mono a b : a ≤ b → nblk a ≤ nblk b.
Proof. unfold nblk. lia. Qed.

Section write.
Context {W : world} {DW : DiskWorld}.
Implicit Types (k : kernel) (s : fsys) (i : nat) (x : inode) (C D : Z → list Z) (n off : Z) (I : Z → dinode) (d : dinode).

(** A longer view of the last block. *)
Lemma file_data_extend C d size : 0 ≤ d_size d ≤ size →
  ∃ junk, file_data C (resize d size) = file_data C d ++ junk.
Proof.
  intros Hs. exists (drop (Z.to_nat (d_size d)) (file_data C (resize d size))).
  rewrite <- (take_drop (Z.to_nat (d_size d)) (file_data C (resize d size))) at 1. f_equal.
  replace (file_data C d) with (file_data C (resize (resize d size) (d_size d))) by (by destruct d).
  by rewrite (file_data_resize C (resize d size) (d_size d)) by (cbn; lia).
Qed.

Definition write_step C (d : dinode) (C' : Z → list Z) (d' : dinode) off (l : list Z) : Prop :=
  d_size d' = Z.max (d_size d) (off + Z.of_nat (length l)) ∧ d_type d' = d_type d ∧ d_major d' = d_major d ∧
  d_minor d' = d_minor d ∧ d_nlink d' = d_nlink d ∧
  (nblk (d_size d') = nblk (d_size d) → d_addrs d' = d_addrs d) ∧
  file_data C' d' = splice (file_data C d) (Z.to_nat off) l ∧
  Z.of_nat (length (free_blocks C)) = Z.of_nat (length (free_blocks C')) + need (d_size d) (d_size d').

(** What the file looks like, up to the end of its last block, when [bmap] is done. *)
Record bmap_view C d C1 d1 (bn off : Z) (len : Z) : Prop := mkBmapView {
  bv_bn : 0 ≤ bn < nblk (d_size d1);
  bv_nblk : nblk (Z.max (d_size d) (off + len)) = nblk (d_size d1);
  bv_meta : d_type d1 = d_type d ∧ d_major d1 = d_major d ∧ d_minor d1 = d_minor d ∧ d_nlink d1 = d_nlink d;
  bv_addrs : nblk (d_size d1) = nblk (d_size d) → d_addrs d1 = d_addrs d;
  bv_size : 0 ≤ d_size d1 ≤ MAXFILE * BSIZE;
  bv_free : Z.of_nat (length (free_blocks C)) = Z.of_nat (length (free_blocks C1)) + needn (nblk (d_size d)) (nblk (d_size d1));
  bv_data : ∃ junk, file_data C1 (resize d1 (512 * nblk (d_size d1))) = file_data C d ++ junk
}.

Lemma bmap_case_view C d off len C1 d1 :
  let bn := off / 512 in
  bn < nblk (d_size d) ∧ d1 = d ∧ C1 = C ∨ d_size d = 512 * bn ∧ appended C d bn C1 d1 →
  wf_inode C d → 0 ≤ off ≤ d_size d → 0 < len →
  off mod 512 + len ≤ 512 → off + len ≤ MAXFILE * BSIZE → bmap_view C d C1 d1 bn off len.
Proof.
  intros bn Hp Hwf Hoff Hl Hm Hmax. pose proof (wi_size _ _ Hwf) as Hsz.
  pose proof (nblk_range (d_size d) ltac:(lia)) as (Hn0 & Hn1 & Hn2).
  destruct Hp as [(Hlt & -> & ->)|(Hs & [A ->] & Hdat & Hfree)].
  - split; try done; try lia.
    + unfold nblk, bn in *. lia.
    + unfold needn. zcases; cbn; lia.
    + apply file_data_extend. lia.
  - assert (Hnb : nblk (d_size d) = bn) by (rewrite Hs; apply nblk_mul).
    assert (Hb0 : 0 ≤ bn < MAXFILE) by (unfold bn; clia).
    assert (Hnb' : nblk (d_size (grown d A bn)) = bn + 1) by apply nblk_mul.
    split; rewrite ?Hnb'; try done; try lia.
    + unfold nblk, bn in *. lia.
    + cbn. clia.
    + rewrite Hnb. unfold needn. destruct (Z.eqb_spec bn 12); zcases; cbn; lia.
    + exists (replicate 512 0). rewrite <- Hdat. by f_equal.
Qed.

(** The pure part: a block that [bmap] has found, filled with [l] from [off] on. *)
Lemma block_filled C I n off l C1 d1 :
  let d := I n in let bn := off / 512 in let len := Z.of_nat (length l) in
  fsinv C1 (updI I n d1) → bmap_view C d C1 d1 bn off len → live I n → 0 ≤ d_size d →
  (∀ b, length (C1 b) = 512%nat) → 0 ≤ off ≤ d_size d → off mod 512 + len ≤ 512 → off + len ≤ MAXFILE * BSIZE →
  d_size d ≤ MAXFILE * BSIZE →
  let b := blk C1 d1 bn in
  let C2 := upd C1 b (splice (C1 b) (Z.to_nat (off mod 512)) l) in
  let d2 := resize d1 (Z.max (d_size d) (off + len)) in
  fsinv C2 (updI I n d2) ∧ write_step C d C2 d2 off l ∧ nmeta ≤ b < FSSIZE ∧
  ∀ n', live I n' → n' ≠ n → file_data C2 (I n') = file_data C1 (I n').
Proof.
  intros d bn len Hi1 [Hbn Hnb (Ht & Hma & Hmi & Hnl) Had Hsz Hfree [junk Hjunk]] Hn Hd0 Hlen Hoff Hm Hmax Hdmax b C2 d2.
  set (I1 := updI I n d1) in *. assert (HI1 : I1 n = d1) by apply updI_eq.
  assert (Hn1 : live I1 n) by (split; [apply Hn|rewrite HI1, Ht; apply Hn]).
  pose proof (nblk_range (d_size d1) ltac:(lia)) as (Hb0 & Hb1 & Hb2).
  set (up := 512 * nblk (d_size d1)) in *.
  assert (Hup : nblk up = nblk (d_size d1)) by apply nblk_mul.
  assert (Hupmax : 0 ≤ up ≤ MAXFILE * BSIZE) by (unfold up, nblk; clia).
  (* the last block as a whole *)
  pose proof (fsinv_resize C1 I1 n up Hi1 Hn1 Hupmax ltac:(by rewrite HI1)) as Hi2. rewrite HI1 in Hi2.
  set (I2 := updI I1 n (resize d1 up)) in *. assert (HI2 : I2 n = resize d1 up) by apply updI_eq.
  assert (Hn2 : live I2 n) by (split; [apply Hn|rewrite HI2; cbn; rewrite Ht; apply Hn]).
  assert (Hbn2 : 0 ≤ bn < nblk (d_size (I2 n))) by (rewrite HI2; cbn; by rewrite Hup).
  assert (Hblk : blk C1 (I2 n) bn = b) by (by rewrite HI2).
  pose proof (wi_blk _ _ (fsi_wf _ _ Hi2 n Hn2) bn Hbn2) as Hrb. rewrite Hblk in Hrb.
  assert (Hlive : ∀ n', live I n' → n' ≠ n → live I2 n' ∧ I2 n' = I n').
  { intros n' Hl' Hne. unfold I2, I1, live. by rewrite !updI_ne. }
  (* the write *)
  destruct (fsinv_write C1 I2 n bn (splice (C1 b) (Z.to_nat (off mod 512)) l) Hi2 Hn2 Hbn2) as (Hi3 & _ & Hoth).
  pose proof (file_data_write C1 I2 n bn (Z.to_nat (off mod 512)) l Hi2 Hn2 Hbn2) as Hdat. cbv zeta in Hdat.
  rewrite Hblk, HI2 in *. fold C2 in Hi3, Hoth, Hdat.
  assert (Hoff' : (Z.to_nat (512 * bn) + Z.to_nat (off mod 512))%nat = Z.to_nat off) by (unfold bn; lia).
  rewrite Hoff', Hjunk in Hdat. specialize (Hdat (Hlen b) ltac:(lia) ltac:(cbn; unfold up, bn in *; lia)).
  (* the size *)
  assert (Hupge : Z.max (d_size d) (off + len) ≤ up).
  { unfold up. rewrite <- Hnb. apply nblk_range. lia. }
  pose proof (fsinv_resize C2 I2 n (Z.max (d_size d) (off + len)) Hi3 Hn2 ltac:(lia) ltac:(rewrite HI2; cbn; by rewrite Hnb, Hup)) as Hi4.
  rewrite HI2 in Hi4. change (resize (resize d1 up) ?z) with (resize d1 z) in Hi4. fold d2 in Hi4.
  split_and!; try done.
  - eapply fsinv_ext; [|exact Hi4]. intros m. unfold I2, I1, updI. by destruct (m =? n).
  - unfold write_step. split_and!; try done.
    + cbn [d_size d2 resize]. by rewrite Hnb.
    + change d2 with (resize (resize d1 up) (Z.max (d_size d) (off + len))).
      rewrite file_data_resize by (cbn; lia). rewrite Hdat.
      assert (Hdl : length (file_data C d) = Z.to_nat (d_size d)) by apply length_file_data.
      pose proof (f_equal length Hjunk) as Hjl. rewrite length_file_data, length_app in Hjl. cbn in Hjl.
      rewrite <- (take_splice (file_data C d) junk l (Z.to_nat off)); [f_equal; lia|lia|rewrite length_app; lia].
    + cbn [d_size d2 resize]. unfold need. rewrite Z.max_r by lia. rewrite (free_blocks_ext C1 C2) by (apply upd_ne; dlia).
      by rewrite Hnb.
  - dlia.
  - dlia.
  - intros n' Hl' Hne. destruct (Hlive n' Hl' Hne) as [Hl2 <-]. by apply Hoth.
Qed.

(** ** The loop *)

(** In a transaction, inode [i] holds inode [n] of [I], as far as its blocks go. *)
Record writing k C D (m : nat) I i x n : Prop := mkWriting {
  wr_ready : fs_ready k;
  wr_layout : layout (k_fs k);
  wr_tx : tx [] (k_fs k) C D m;
  wr_inv : fsinv C I;
  wr_live : live I n;
  wr_in : incore (k_fs k) i x (I n)
}.

(** From [C], [I] the file [n] has become [d'], and only that file has changed. *)
Record wrote k C I i x n off (l : list Z) s' C' d' : Prop := mkWrote {
  wo_step : istep i (set_i_addrs (d_addrs d') x) (k_fs k) s';
  wo_others : ∀ n', live I n' → n' ≠ n → file_data C' (I n') = file_data C (I n');
  wo_meta : ∀ b, b < nmeta → b ≠ BMAP → C' b = C b;
  wo_data : write_step C (I n) C' d' off l
}.

Lemma need_room C d off len :
  0 ≤ off ≤ d_size d → 0 < len → off mod 512 + len ≤ 512 →
  need (d_size d) (off + len) ≤ Z.of_nat (length (free_blocks C)) → room C d (off / 512).
Proof.
  intros Hoff Hl Hm Hneed. pose proof (nblk_range (d_size d) ltac:(lia)) as (H0 & H1 & H2).
  destruct (Z.ltb_spec (off / 512) (nblk (d_size d))) as [Hlt|Hge]; [by left|right].
  assert (Hs : d_size d = 512 * (off / 512)) by lia. split; [done|].
  assert (Hn1 : nblk (d_size d) = off / 512) by (rewrite Hs at 1; apply nblk_mul).
  assert (Hn2 : nblk (Z.max (d_size d) (off + len)) = off / 512 + 1) by (unfold nblk; lia).
  unfold need in Hneed. rewrite Hn1, Hn2 in Hneed. unfold needn in Hneed.
  destruct (Z.eqb_spec (off / 512) 12) as [E|]; [|destruct ((off / 512 <=? 12) && _); lia].
  rewrite E in Hneed. change ((12 <=? 12) && (12 <? 12 + 1)) with true in Hneed. cbv iota in Hneed. lia.
Qed.

Lemma write_block {A B} (src : source A) R k C D m I i x n off l rest a (F : A → K B) :
  let len := Z.of_nat (length l) in
  writing k C D m I i x n → (m ≤ 20)%nat → source_of src k R → R a (l ++ rest) →
  0 ≤ off ≤ d_size (I n) → 0 < len → off mod 512 + len ≤ 512 → off + len ≤ MAXFILE * BSIZE → Forall (λ b, 0 ≤ b < 256) l →
  need (d_size (I n)) (off + len) ≤ Z.of_nat (length (free_blocks C)) →
  ∃ s' C' d' m' a',
    (addr ← bmap i (off / BSIZE);
     bp ← bread 1 addr;
     '(l, buf) ← src_take src a len;
     mod_data bp (λ e, splice e (Z.to_nat (off mod BSIZE)) l);;
     log_write bp;;
     brelse bp;;
     F buf) k = F a' (set_k_fs s' k) ∧ R a' rest ∧ (m' ≤ m + 6)%nat ∧
    writing (set_k_fs s' k) C' D m' (updI I n d') i (set_i_addrs (d_addrs d') x) n ∧
    wrote k C I i x n off l s' C' d'.
Proof.
  intros len [Hr Hlay Htx Hi Hn Hin] Hm Hsrc HR Hoff Hl Hmod Hmax Hbytes Hneed. change BSIZE with 512 in *.
  pose proof (fsi_wf _ _ Hi n Hn) as Hwf. pose proof (wi_size _ _ Hwf) as Hsz. change BSIZE with 512 in *.
  destruct (bmap_ok k C D m I i x n (off / 512) Hr Hlay Htx Hm Hi Hn Hin) as (s1 & C1 & d1 & m1 & Hr1 & Hp1).
  { clia. }
  { by apply (need_room C (I n) off len). }
  pose proof (bmap_case_view C (I n) off len C1 d1 (bm_case _ _ _ _ _ _ _ _ _ _ _ _ _ Hp1) Hwf Hoff Hl Hmod Hmax) as Hview.
  destruct Hp1 as [Htx1 Hm1 Hst1 Hi1 Hoth1 Hmeta1 _].
  assert (Hok1 : ∀ b, block_ok (C1 b)) by (intros b; eapply cview_block_ok, Htx1).
  destruct (block_filled C I n off l C1 d1 Hi1 Hview Hn) as (Hi2 & Hws & Hb & Hoth2);
    [lia|intros b; apply Hok1|done|done|clia|clia|]. fold len in Hi2, Hws.
  set (b := blk C1 d1 (off / 512)) in *. set (d2 := resize d1 _) in *. set (C2 := upd C1 b _) in *.
  pose proof (istep_layout _ _ _ _ Hst1 Hlay) as Hlay1.
  destruct (tx_bread (set_k_fs s1 k) [] C1 D m1 b (fs_ready_fs _ _ Hr) Htx1) as (bp & s2 & Hr2 & Htx2 & Hst2 & _);
    [dlia|apply not_elem_of_nil|cbn; lia|].
  destruct (Hsrc s2 a l rest HR) as (a' & Htake & HR').
  destruct (tx_write (set_k_fs s2 k) _ C1 D m1 bp b (λ e, splice e (Z.to_nat (off mod 512)) l) (fs_ready_fs _ _ Hr) Htx2)
    as (s3 & Hr3 & Htx3 & Hts3 & Hin3); [lia|left|cbn; rewrite (st_log _ _ Hst2); cbn; rewrite (proj2 Hlay1); unfold home; dlia| |].
  { destruct (Hok1 b) as [Hlb Hbb]. split; [rewrite length_splice_in; lia|]. by apply bytes_splice. }
  destruct (tx_brelse (set_k_fs s3 k) [] _ D (S m1) bp b (fs_ready_fs _ _ Hr) Htx3) as (s4 & Hr4 & Htx4 & Hst4); [by left|].
  fold C2 in Htx4.
  assert (Hx1 : inodes s1 !! i = Some (set_i_addrs (d_addrs d1) x)) by (eapply istep_lookup; [done|apply Hin]).
  assert (Hts : tstep s1 s4).
  { eapply tstep_trans; [by apply tstep_still|]. eapply tstep_trans; [done|by apply tstep_still]. }
  assert (Hst : istep i (set_i_addrs (d_addrs d2) x) (k_fs k) s4).
  { eapply istep_trans; [exact Hst1|]. by apply istep_tstep. }
  exists s4, C2, d2, (S m1), a'. split_and!; [|done|lia| |].
  - rewrite (bind_ok _ _ _ _ _ Hr1). fold b. rewrite (bind_ok _ _ _ _ _ Hr2), (bind_ok _ _ _ _ _ Htake).
    rewrite (seq2_ok _ _ _ _ _ _ Hr3), (bind_ok _ _ _ _ _ Hr4). done.
  - split; try done.
    + by apply fs_ready_fs.
    + by eapply istep_layout.
    + split; [apply Hn|]. rewrite updI_eq. destruct Hws as (_ & -> & _). apply Hn.
    + rewrite updI_eq. split_and!; [|apply Hin|done|].
      * by eapply istep_lookup; [exact Hst|apply Hin].
      * rewrite <- (wi_len C2 d2); [done|]. rewrite <- (updI_eq I n d2). apply (fsi_wf _ _ Hi2).
        split; [apply Hn|]. rewrite updI_eq. destruct Hws as (_ & -> & _). apply Hn.
  - split; try done.
    + intros n' Hl' Hne. rewrite Hoth2 by done. by apply Hoth1.
    + intros c Hc HcB. unfold C2. rewrite upd_ne by dlia. by apply Hmeta1.
Qed.

Lemma splice_nil (l : list Z) o : (o ≤ length l)%nat → splice l o [] = l.
Proof. intros Ho. unfold splice. cbn. rewrite Nat.add_0_r. apply take_drop. Qed.

Lemma splice_app (l l1 l2 : list Z) o : (o ≤ length l)%nat →
  splice (splice l o l1) (o + length l1) l2 = splice l o (l1 ++ l2).
Proof.
  intros Ho. apply list_eq. intros j.
  rewrite splice_lookup by (rewrite length_splice by done; lia). rewrite !splice_lookup by done. rewrite length_app.
  destruct (decide (o + length l1 ≤ j < o + length l1 + length l2)%nat).
  - rewrite decide_True by lia. rewrite lookup_app_r by lia. f_equal. lia.
  - case_decide.
    + rewrite decide_True by lia. by rewrite lookup_app_l by lia.
    + by rewrite decide_False by lia.
Qed.

Lemma need_split a b e : a ≤ b → b ≤ Z.max a e → need a e = need a b + need b e.
Proof.
  intros Ha Hb. unfold need. replace (Z.max a b) with b by lia. replace (Z.max b e) with (Z.max a e) by lia. apply needn_split; apply nblk_mono; lia.
Qed.

Lemma need_mono a e e' : e ≤ e' → need a e ≤ need a e'.
Proof.
  intros He. rewrite (need_split a (Z.max a e) e') by lia. unfold need at 1 2. rewrite Z.max_assoc, Z.max_id.
  unfold need, needn. pose proof (nblk_mono (Z.max a e) (Z.max (Z.max a e) e')). zcases; cbn; lia.
Qed.

Lemma write_step_nil C d off : 0 ≤ off ≤ d_size d → write_step C d C d off [].
Proof.
  intros Ho. unfold write_step. cbn [length]. split_and!; try done; try lia.
  - rewrite splice_nil; [done|]. rewrite length_file_data. lia.
  - unfold need, needn. rewrite Z.max_id. zcases; cbn; lia.
Qed.

Lemma write_step_app C d C1 d1 C2 d2 off l1 l2 :
  0 ≤ off ≤ d_size d → write_step C d C1 d1 off l1 →
  write_step C1 d1 C2 d2 (off + Z.of_nat (length l1)) l2 → write_step C d C2 d2 off (l1 ++ l2).
Proof.
  intros Ho (Hs1 & Ht1 & Ha1 & Hi1 & Hl1 & HA1 & Hd1 & Hf1) (Hs2 & Ht2 & Ha2 & Hi2 & Hl2 & HA2 & Hd2 & Hf2).
  unfold write_step. rewrite length_app. split_and!; try congruence; try lia.
  - intros E. pose proof (nblk_mono (d_size d) (d_size d1)). pose proof (nblk_mono (d_size d1) (d_size d2)).
    rewrite HA2, HA1 by lia. done.
  - rewrite Hd2, Hd1. rewrite <- splice_app by (rewrite length_file_data; lia). f_equal. lia.
  - rewrite (need_split _ (d_size d1)) by lia. lia.
Qed.

Lemma wrote_app k C I i x n off l1 l2 s1 C1 d1 s2 C2 d2 :
  live I n → 0 ≤ off ≤ d_size (I n) → wrote k C I i x n off l1 s1 C1 d1 →
  wrote (set_k_fs s1 k) C1 (updI I n d1) i (set_i_addrs (d_addrs d1) x) n (off + Z.of_nat (length l1)) l2 s2 C2 d2 →
  wrote k C I i x n off (l1 ++ l2) s2 C2 d2.
Proof.
  intros Hn Ho [Hs1 Ho1 Hm1 Hd1] [Hs2 Ho2 Hm2 Hd2]. split.
  - change (set_i_addrs (d_addrs d2) x) with (set_i_addrs (d_addrs d2) (set_i_addrs (d_addrs d1) x)).
    by eapply istep_trans.
  - intros n' Hl Hne. rewrite <- Ho1 by done. rewrite <- (updI_ne I n d1 n') by done. apply Ho2; [|done].
    unfold live. by rewrite updI_ne.
  - intros b Hb HbB. rewrite Hm2 by done. by apply Hm1.
  - rewrite updI_eq in Hd2. by eapply write_step_app.
Qed.

(** The blocks that [len] bytes at [off] touch. *)
Definition touched_blocks off len : Z := (off mod 512 + len + 511) / 512.

Lemma writing_same k C D m I i x n : writing k C D m I i x n →
  writing (set_k_fs (k_fs k) k) C D m (updI I n (I n)) i (set_i_addrs (d_addrs (I n)) x) n.
Proof.
  intros [Hr Hlay Htx Hi Hn (Hx & Hdev & HA & HlA)]. rewrite <- HA.
  replace (set_i_addrs (i_addrs x) x) with x by (by destruct x). split; try done.
  - by apply fs_ready_fs.
  - eapply fsinv_ext; [|exact Hi]. intros n'. symmetry. apply updI_same.
  - split; [apply Hn|rewrite updI_eq; apply Hn].
  - rewrite updI_eq. by split_and!.
Qed.

Lemma wrote_nil k C D m I i x n off : writing k C D m I i x n → 0 ≤ off ≤ d_size (I n) →
  wrote k C I i x n off [] (k_fs k) C (I n).
Proof.
  intros [Hr Hlay Htx Hi Hn (Hx & Hdev & HA & HlA)] Hoff. split; try done.
  - rewrite <- HA. replace (set_i_addrs (i_addrs x) x) with x by (by destruct x). by apply istep_tstep, tstep_refl.
  - by apply write_step_nil.
Qed.

Lemma writei_loop_ok {A} (src : source A) R (f : nat) : ∀ k C D m I i x n off l a tot,
  let len := Z.of_nat (length l) in
  writing k C D m I i x n → source_of src k R → R a l → (length l ≤ f)%nat → Forall (λ b, 0 ≤ b < 256) l →
  0 ≤ off ≤ d_size (I n) → off + len ≤ MAXFILE * BSIZE →
  (m ≤ 26)%nat → (l ≠ [] → Z.of_nat m + 6 * touched_blocks off len ≤ 26) →
  need (d_size (I n)) (off + len) ≤ Z.of_nat (length (free_blocks C)) →
  ∃ s' C' d' m', writei_loop src f i a tot off (tot + len) k = Ok (off + len) (set_k_fs s' k) ∧ (m' ≤ 26)%nat ∧
    writing (set_k_fs s' k) C' D m' (updI I n d') i (set_i_addrs (d_addrs d') x) n ∧
    wrote k C I i x n off l s' C' d'.
Proof.
  induction f as [|f IH]; intros k C D m I i x n off l a tot len Hwr Hsrc HR Hf Hby Hoff Hmax Hm Hbud Hneed.
  all: destruct (decide (l = [])) as [->|Hnil].
  1, 3: exists (k_fs k), C, (I n), m; split_and!; [|done|by apply writing_same|by eapply wrote_nil];
    subst len; cbn; rewrite Z.add_0_r, Z.ltb_irrefl, Z.add_0_r; by destruct k.
  { destruct l; [done|cbn in Hf; lia]. }
  set (mm := Z.min len (512 - off mod 512)). set (l1 := take (Z.to_nat mm) l). set (l2 := drop (Z.to_nat mm) l).
  assert (Hlen0 : 0 < len) by (destruct l; [done|unfold len; cbn; lia]).
  assert (Hl1 : Z.of_nat (length l1) = mm) by (unfold l1; rewrite length_take; lia).
  assert (Hl2 : Z.of_nat (length l2) = len - mm) by (unfold l2; rewrite length_drop; lia).
  assert (Hl12 : l = l1 ++ l2) by (symmetry; apply take_drop).
  specialize (Hbud Hnil). unfold touched_blocks in Hbud.
  assert (Hx : inodes (k_fs k) !! i = Some x ∧ i_dev x = 1) by (split; apply Hwr).
  destruct Hx as [Hx Hdev]. rewrite Hl12 in HR, Hby. apply Forall_app in Hby as [Hby1 Hby2].
  destruct (write_block src R k C D m I i x n off l1 l2 a (λ buf, writei_loop src f i buf (tot + mm) (off + mm) (tot + len)) Hwr)
    as (s1 & C1 & d1 & m1 & a1 & Hr1 & HR1 & Hm1 & Hwr1 & Hwo1); try done; rewrite ?Hl1; try lia.
  { pose proof (need_mono (d_size (I n)) (off + mm) (off + len)). lia. }
  rewrite Hl1 in Hr1. destruct (wo_data _ _ _ _ _ _ _ _ _ _ _ Hwo1) as (Hs1 & _ & _ & _ & _ & _ & _ & Hfree1). rewrite Hl1 in Hs1.
  destruct (IH (set_k_fs s1 k) C1 D m1 (updI I n d1) i (set_i_addrs (d_addrs d1) x) n (off + mm) l2 a1 (tot + mm) Hwr1)
    as (s2 & C2 & d2 & m2 & Hr2 & Hm2 & Hwr2 & Hwo2); rewrite ?updI_eq, ?Hl2; try done; try lia.
  { intros Hl2n. unfold touched_blocks. assert (0 < len - mm) by (destruct l2; [done|cbn in Hl2; lia]).
    assert (Hmm : mm = 512 - off mod 512) by (unfold mm in *; lia).
    replace ((off + mm) mod 512) with 0 by (rewrite Hmm; lia). lia. }
  { rewrite (need_split _ (d_size d1) (off + len)) in Hneed by lia. replace (off + mm + (len - mm)) with (off + len) by lia. lia. }
  exists s2, C2, d2, m2. split_and!; [|done| |].
  - cbn [writei_loop]. rewrite (proj2 (Z.ltb_lt _ _)) by lia. rewrite (bind_ok _ _ _ _ _ (get_inode_ok _ _ _ Hx)), Hdev.
    replace (tot + len - tot) with len by lia. change (BSIZE - off mod BSIZE) with (512 - off mod 512). fold mm.
    rewrite Hr1. rewrite Hl2 in Hr2. replace (tot + mm + (len - mm)) with (tot + len) in Hr2 by lia.
    rewrite Hr2. f_equal. lia.
  - destruct Hwr2 as [H1 H2 H3 H4 H5 H6]. split; try done.
    + eapply fsinv_ext; [|exact H4]. intros m'. unfold updI. by destruct (m' =? n).
    + split; [apply H5|]. rewrite updI_eq. destruct H5 as [_ H5]. by rewrite updI_eq in H5.
    + by rewrite updI_eq in *.
  - rewrite Hl12. eapply (wrote_app k C I i x n off l1 l2); [apply Hwr|done|done|by rewrite Hl1].
Qed.

(** ** [writei] *)

(** In a transaction: the disk's inodes and blocks fit together, and the in-core inode
    [i] is a faithful copy of inode [n]. *)
Record ftx k C D (m : nat) i x n : Prop := mkFtx {
  ft_ready : fs_ready k;
  ft_layout : layout (k_fs k);
  ft_tx : tx [] (k_fs k) C D m;
  ft_inv : fsinv C (nd C);
  ft_live : live (nd C) n;
  ft_inode : inodes (k_fs k) !! i = Some x;
  ft_dev : i_dev x = 1;
  ft_inum : i_inum x = n;
  ft_copy : d_of x = nd C n
}.

(** File [n] has got [l] at [off]; the other files are as they were. *)
Record file_written C C' n off (l : list Z) : Prop := mkFileWritten {
  fw_data : file_data C' (nd C' n) = splice (file_data C (nd C n)) (Z.to_nat off) l;
  fw_size : d_size (nd C' n) = Z.max (d_size (nd C n)) (off + Z.of_nat (length l));
  fw_type : d_type (nd C' n) = d_type (nd C n);
  fw_nd : ∀ n', 1 ≤ n' < NINODES → n' ≠ n → nd C' n' = nd C n';
  fw_others : ∀ n', live (nd C) n' → n' ≠ n → file_data C' (nd C n') = file_data C (nd C n');
  fw_free : Z.of_nat (length (free_blocks C))
    = Z.of_nat (length (free_blocks C')) + need (d_size (nd C n)) (d_size (nd C' n))
}.

Lemma nd_meta C C' n : (∀ b, b < nmeta → b ≠ BMAP → C' b = C b) → 1 ≤ n < NINODES → nd C' n = nd C n.
Proof. intros HC Hn. unfold nd. rewrite HC; [done|rewrite IBLOCK_eq; dlia..]. Qed.

Lemma fsinv_nd C I : (∀ n, 1 ≤ n < NINODES → I n = nd C n) → fsinv C I → fsinv C (nd C).
Proof.
  intros HI [H1 H2 H3 H4 H5].
  assert (Hl : ∀ n, live (nd C) n → live I n ∧ I n = nd C n).
  { intros n [Hn Ht]. rewrite <- HI in Ht by done. by split; [|apply HI]. }
  split; try done.
  - intros n [Hn E]%Hl. rewrite <- E. by apply H1.
  - intros n [Hn E]%Hl. rewrite <- E. by apply H2.
  - intros n n' b [Hn E]%Hl [Hn' E']%Hl. rewrite <- E, <- E'. by apply H3.
  - intros n b [Hn E]%Hl. rewrite <- E. by apply H4.
Qed.

Lemma wf_addrs C d : wf_inode C d → Forall (λ a, 0 ≤ a < 2 ^ 32) (d_addrs d).
Proof.
  intros Hw. apply Forall_lookup. intros j a Ha. pose proof (lookup_lt_Some _ _ _ Ha) as Hj. rewrite (wi_len _ _ Hw) in Hj.
  assert (E : addr d (Z.of_nat j) = a) by (unfold addr; by rewrite Nat2Z.id, Ha).
  destruct (decide (j = 12)%nat) as [->|Hne].
  - change (Z.of_nat 12) with 12 in E. destruct (Z.ltb_spec 12 (nblk (d_size d))) as [H|H].
    + pose proof (wi_ind _ _ Hw H). dlia.
    + pose proof (wi_zero_ind _ _ Hw H). lia.
  - assert (Eb : blk C d (Z.of_nat j) = a) by (unfold blk; by rewrite (proj2 (Z.ltb_lt _ _)) by lia).
    destruct (Z.ltb_spec (Z.of_nat j) (nblk (d_size d))) as [H|H].
    + pose proof (wi_blk _ _ Hw (Z.of_nat j) ltac:(lia)). dlia.
    + pose proof (wi_zero _ _ Hw (Z.of_nat j) ltac:(lia)). lia.
Qed.

Lemma ftx_writing k C D m i x n : ftx k C D m i x n → writing k C D m (nd C) i x n.
Proof.
  intros [Hr Hlay Htx Hi Hn Hx Hdev Hin Hcp]. split; try done. split_and!; try done.
  - by rewrite <- Hcp.
Qed.

(** The file did not become longer: the inode is as it was. *)
Lemma written_same C C' n off l d' :
  write_step C (nd C n) C' d' off l → d_size d' = d_size (nd C n) → d' = nd C n.
Proof.
  intros (_ & Ht & Hma & Hmi & Hnl & HA & _ & _) Hs. rewrite Hs in HA. specialize (HA eq_refl).
  destruct d', (nd C n). cbn in *. congruence.
Qed.

(** The end of [writei] when the file is no longer than it was. *)
Lemma settle_same k C D m i x n off l s1 C1 d1 m1 :
  ftx k C D m i x n → d_size d1 = d_size (nd C n) →
  writing (set_k_fs s1 k) C1 D m1 (updI (nd C) n d1) i (set_i_addrs (d_addrs d1) x) n →
  wrote k C (nd C) i x n off l s1 C1 d1 →
  ftx (set_k_fs s1 k) C1 D m1 i x n ∧ file_written C C1 n off l ∧ istep i x (k_fs k) s1.
Proof.
  intros Hft Hs Hwr [Hst Hoth Hmeta Hdat]. pose proof Hft as [Hr Hlay Htx Hi Hn Hx Hdev Hin Hcp].
  assert (d1 = nd C n) as -> by (by eapply written_same).
  assert (Hnd : ∀ n', 1 ≤ n' < NINODES → nd C1 n' = nd C n') by (intros; by apply nd_meta).
  assert (Hndn : nd C1 n = nd C n) by apply Hnd, Hn.
  replace (set_i_addrs (d_addrs (nd C n)) x) with x in * by (rewrite <- Hcp; by destruct x).
  destruct Hwr as [Hr1 Hlay1 Htx1 Hi1 Hn1 Hin1]. split_and!; [split; try done| |done].
  - eapply fsinv_nd; [|exact Hi1]. intros n' Hn'. by rewrite updI_same, Hnd.
  - split; [apply Hn|]. rewrite Hndn. apply Hn.
  - apply Hin1.
  - by rewrite Hndn.
  - destruct Hdat as (H1 & H2 & _ & _ & _ & _ & H7 & H8). split; rewrite ?Hndn; try done.
    intros n' Hn' _. by apply Hnd.
Qed.

(** And when it is longer: [iupdate] puts the new inode on the disk. *)
Lemma settle_longer k C D m i x n off l s1 C1 d1 m1 :
  let x2 := set_i_size (d_size d1) (set_i_addrs (d_addrs d1) x) in
  ftx k C D m i x n → (m1 ≤ 26)%nat →
  writing (set_k_fs s1 k) C1 D m1 (updI (nd C) n d1) i (set_i_addrs (d_addrs d1) x) n →
  wrote k C (nd C) i x n off l s1 C1 d1 →
  ∃ s2 C2, (mod_inode i (set_i_size (d_size d1));; iupdate i) (set_k_fs s1 k) = Ok tt (set_k_fs s2 k) ∧
    ftx (set_k_fs s2 k) C2 D (S m1) i x2 n ∧ file_written C C2 n off l ∧ istep i x2 (k_fs k) s2.
Proof.
  intros x2 Hft Hm1 Hwr [Hst Hoth Hmeta Hdat]. pose proof Hft as [Hr Hlay Htx Hi Hn Hx Hdev Hin Hcp].
  destruct Hwr as [Hr1 Hlay1 Htx1 Hi1 Hn1 (Hx1 & _ & _ & HlA)]. rewrite updI_eq in HlA. cbn in Hx1.
  destruct Hdat as (H1 & H2 & H3 & H4 & H5 & H6 & H7 & H8).
  set (s1' := put_inode i x2 s1).
  assert (Hd : d_of x2 = d1).
  { change (d_of x2) with (mkDinode (d_type (d_of x)) (d_major (d_of x)) (d_minor (d_of x)) (d_nlink (d_of x)) (d_size d1) (d_addrs d1)).
    rewrite Hcp, <- H2, <- H3, <- H4, <- H5. by destruct d1. }
  assert (Hwf1 : wf_inode C1 d1) by (rewrite <- (updI_eq (nd C) n d1); by apply (fsi_wf _ _ Hi1)).
  assert (Hok : block_ok (C1 (IBLOCK n mkfs_sb))) by (eapply cview_block_ok, Htx1).
  assert (Hdw : dinode_wf d1).
  { pose proof (dinode_at_wf (C (IBLOCK n mkfs_sb)) (ioff n)) as Hw0.
    destruct Hw0 as [Hw1 Hw2 Hw3 Hw4 _ _ _]; [eapply cview_block_ok, Htx|]. fold (nd C n) in Hw1, Hw2, Hw3, Hw4.
    pose proof (wi_size _ _ Hwf1). split; try congruence; [clia|by eapply wf_addrs]. }
  destruct (iupdate_ok (set_k_fs s1' k) C1 D m1 i x2 n) as (s2 & Hr2 & Htx2 & Hts2); try done.
  { by apply (fs_ready_fs k). }
  { by apply tx_inode. }
  { lia. }
  { by eapply put_inode_lookup. }
  { apply Hn. }
  rewrite Hd in Htx2. set (C2 := iupdated C1 n d1) in *.
  assert (Hnd1 : ∀ n', 1 ≤ n' < NINODES → nd C1 n' = nd C n') by (intros; by apply nd_meta).
  assert (Hnd2 : nd C2 n = d1) by (apply nd_iupdated; [apply Hn|done|done]).
  assert (Hnd2' : ∀ n', 1 ≤ n' < NINODES → n' ≠ n → nd C2 n' = nd C n').
  { intros n' Hn' Hne. rewrite <- Hnd1 by done. apply nd_iupdated_ne; [apply Hn|done|done|apply Hdw|done]. }
  assert (Hhigh : ∀ b, BMAP ≤ b < FSSIZE → C2 b = C1 b) by (intros b Hb; apply iupdated_high; [apply Hn|lia]).
  destruct (fsinv_meta C1 C2 _ Hi1 Hhigh) as [Hi2 Hdata2].
  assert (Hstep : istep i x2 (k_fs k) s2).
  { eapply istep_trans; [exact Hst|]. eapply istep_trans; [apply (istep_put i x2 s1)|]. apply istep_tstep; [|done].
    by eapply put_inode_lookup. }
  exists s2, C2. split_and!; [|split; try done| |done].
  - rewrite (bind_ok _ _ _ _ _ (mod_inode_ok (set_k_fs s1 k) i _ _ Hx1)). exact Hr2.
  - by apply fs_ready_fs.
  - by eapply istep_layout.
  - eapply fsinv_nd; [|exact Hi2]. intros n' Hn'. destruct (decide (n' = n)) as [->|]; [by rewrite updI_eq|].
    rewrite updI_ne by done. by rewrite Hnd2'.
  - split; [apply Hn|]. rewrite Hnd2, H2. apply Hn.
  - by eapply istep_lookup.
  - by rewrite Hd, Hnd2.
  - split; rewrite ?Hnd2; try done.
    + rewrite <- H7. rewrite <- (updI_eq (nd C) n d1). by apply Hdata2.
    + intros n' Hl Hne. rewrite <- Hoth by done.
      rewrite <- (updI_ne (nd C) n d1 n') by done. apply Hdata2. unfold live. by rewrite updI_ne.
    + rewrite (free_blocks_ext C1 C2) by (apply Hhigh; clia). done.
Qed.

Definition max_bytes (m : nat) off len : Prop := Z.of_nat m + 6 * touched_blocks off len ≤ 26.

Lemma writei_ok {A} (src : source A) R k C D m i x n off l a :
  let len := Z.of_nat (length l) in
  ftx k C D m i x n → i_type x ≠ T_DEV → source_of src k R → R a l → Forall (λ b, 0 ≤ b < 256) l →
  0 < len → 0 ≤ off ≤ i_size x → off + len ≤ MAXFILE * BSIZE → max_bytes m off len →
  need (i_size x) (off + len) ≤ Z.of_nat (length (free_blocks C)) →
  ∃ s' C' m' x', writei src i a off len k = Ok len (set_k_fs s' k) ∧ (m' ≤ 27)%nat ∧
    ftx (set_k_fs s' k) C' D m' i x' n ∧ file_written C C' n off l ∧ istep i x' (k_fs k) s' ∧
    (∃ sz As, x' = set_i_size sz (set_i_addrs As x)).
Proof.
  intros len Hft Ht Hsrc HR Hby Hlen Hoff Hmax Hbud Hneed.
  pose proof (ftx_writing _ _ _ _ _ _ _ Hft) as Hwr. pose proof Hft as [Hr Hlay Htx Hi Hn Hx Hdev Hin Hcp].
  assert (Hsz : i_size x = d_size (nd C n)) by (by rewrite <- Hcp). rewrite Hsz in *.
  unfold max_bytes in Hbud.
  destruct (writei_loop_ok src R (S (Z.to_nat len)) k C D m (nd C) i x n off l a 0 Hwr Hsrc HR)
    as (s1 & C1 & d1 & m1 & Hr1 & Hm1 & Hwr1 & Hwo1); try done; try lia.
  { unfold touched_blocks in Hbud. lia. }
  set (x1 := set_i_addrs (d_addrs d1) x) in *. fold len in Hr1. rewrite Z.add_0_l in Hr1.
  assert (Hx1 : inodes s1 !! i = Some x1) by apply Hwr1.
  destruct (wo_data _ _ _ _ _ _ _ _ _ _ _ Hwo1) as (Hs1 & _). fold len in Hs1.
  assert (Hstart : writei src i a off len k
    = (when ((0 <? len) && (d_size (nd C n) <? off + len)) (mod_inode i (set_i_size (off + len));; iupdate i);;
       ret (s32 len)) (set_k_fs s1 k)).
  { unfold writei. rewrite (bind_ok _ _ _ _ _ (get_inode_ok _ _ _ Hx)).
    rewrite (proj2 (Z.eqb_neq _ _)) by done. rewrite Hsz. rewrite (proj2 (Z.ltb_ge _ _)) by lia.
    rewrite u32_small by clia. rewrite (proj2 (Z.ltb_ge _ _)) by lia. cbn [orb].
    rewrite (proj2 (Z.ltb_ge _ _)) by lia. rewrite (bind_ok _ _ _ _ _ Hr1).
    rewrite (bind_ok _ _ _ _ _ (get_inode_ok (set_k_fs s1 k) i x1 Hx1)).
    change (i_size x1) with (i_size x). by rewrite Hsz. }
  rewrite Hstart, s32_small by clia. rewrite (proj2 (Z.ltb_lt 0 len)) by done. cbn [andb].
  destruct (Z.ltb_spec (d_size (nd C n)) (off + len)) as [Hlt|Hge].
  - rewrite bind_when_true. replace (off + len) with (d_size d1) by lia.
    destruct (settle_longer k C D m i x n off l s1 C1 d1 m1 Hft Hm1 Hwr1 Hwo1) as (s2 & C2 & Hr2 & Hft2 & Hfw & Hst2).
    rewrite (bind_ok _ _ _ _ _ Hr2). exists s2, C2, (S m1), (set_i_size (d_size d1) x1).
    split_and!; [done|lia|done|done|done|]. by eexists _, _.
  - rewrite bind_when_false. destruct (settle_same k C D m i x n off l s1 C1 d1 m1 Hft) as (Hft1 & Hfw & Hst1); [lia|done|done|].
    exists s1, C1, m1, x. split_and!; [done|lia|done|done|done|]. exists (i_size x), (i_addrs x). by destruct x.
Qed.
End write.
