(* ===== verification/ReadSpec.v ===== *)
(** [readi] ([fs.c]) returns what the file holds, and changes nothing; and memory as the source and the destination
    of the copies of the file layers. *)

From S2P Require Import Prelude Params Bytes State Spinlock Mem Kalloc PageTable Uaccess Procs Sched SchedSpec Bio BioSpec CacheSpec BlockSpec Log LogSpec CommitSpec Inode BallocSpec DiskSpec BmapSpec DinodeSpec Console Fs WriteSpec.

(** ** Where the bytes go

    When the bytes [l] have been stored, the kernel is [T l k] and the destination
    has become [N l]; meanwhile only the state of the file system changes. *)
Record sink_of {A} (snk : sink A) (N : list Z → A) (T : list Z → kernel → kernel) (total : Z) (k0 : kernel) : Prop := mkSinkOf {
  so_put l1 l2 s : Z.of_nat (length (l1 ++ l2)) ≤ total →
    snk_put snk (N l1) l2 (T l1 (set_k_fs s k0)) = Ok (N (l1 ++ l2)) (T (l1 ++ l2) (set_k_fs s k0));
  so_nil k : T [] k = k;
  so_fs l s k : T l (set_k_fs s k) = set_k_fs s (T l k);
  so_fs' l k : k_fs (T l k) = k_fs k;
  so_ready l k : fs_ready k → fs_ready (T l k)
}.

Lemma sink_of_fs {A} (snk : sink A) N T total s k : sink_of snk N T total k → sink_of snk N T total (set_k_fs s k).
Proof. by intros []. Qed.

Lemma local_sink_of l0 total k : sink_of local_sink (λ l, l0 ++ l) (λ _ k, k) total k.
Proof. split; try done. intros l1 l2 s _. cbn. by rewrite app_assoc. Qed.

Section read.
Context {W : world} {DW : DiskWorld}.
Implicit Types (k : kernel) (s : fsys) (i : nat) (x : inode) (C D : Z → list Z) (Q : gset Z) (n off bn : Z) (d : dinode).

(** The part of a file in one block. *)
Lemma block_sub C d off (m : nat) :
  0 ≤ off → off mod 512 + Z.of_nat m ≤ 512 → off + Z.of_nat m ≤ d_size d → (∀ b, length (C b) = 512%nat) →
  sub (C (blk C d (off / 512))) (Z.to_nat (off mod 512)) m = sub (file_data C d) (Z.to_nat off) m.
Proof.
  intros Ho Hm He Hlen. apply list_eq. intros j. rewrite !sub_lookup. case_decide as Hj; [|done].
  rewrite file_data_lookup by lia. unfold fbyte.
  replace (Z.of_nat (Z.to_nat off + j) / 512) with (off / 512) by lia.
  replace (Z.to_nat (Z.of_nat (Z.to_nat off + j) mod 512)) with (Z.to_nat (off mod 512) + j)%nat by lia.
  destruct (lookup_lt_is_Some_2 (C (blk C d (off / 512))) (Z.to_nat (off mod 512) + j)) as [y Hy]; [rewrite Hlen; lia|].
  by rewrite Hy.
Qed.

Lemma sub_append (l : list Z) (o1 o2 n1 n2 n : nat) : o2 = (o1 + n1)%nat → n = (n1 + n2)%nat →
  sub l o1 n1 ++ sub l o2 n2 = sub l o1 n.
Proof. intros -> ->. unfold sub. rewrite <- (drop_drop l n1 o1). by rewrite take_take_drop. Qed.

(** [bmap] within the file reads at most the indirect block. *)
Lemma bmap_read k C D Q i x d bn :
  fs_ready k → cview [] (k_fs k) C D Q → (size Q < 29)%nat → wf_inode C d → incore (k_fs k) i x d →
  0 ≤ bn < nblk (d_size d) →
  ∃ s', bmap i bn k = Ok (blk C d bn) (set_k_fs s' k) ∧ cview [] s' C D Q ∧ still (k_fs k) s'.
Proof.
  intros Hr Hc HQ Hwf Hin Hbn. pose proof Hin as (Hx & Hdev & HA & HlA). pose proof (wi_blk _ _ Hwf bn Hbn) as Hb.
  pose proof (wi_size _ _ Hwf) as Hsz. assert (Hmax : bn < MAXFILE) by (unfold nblk in Hbn; clia).
  destruct (Z.ltb_spec bn 12) as [Hlt|Hge].
  - assert (Hblk : blk C d bn = addr d bn) by (unfold blk; by rewrite (proj2 (Z.ltb_lt _ _)) by lia).
    exists (k_fs k). split_and!; [|by destruct k|done].
    unfold bmap. rewrite (bind_ok _ _ _ _ _ (get_inode_ok _ _ _ Hx)). rewrite (proj2 (Z.ltb_lt _ _)) by clia.
    erewrite bind_ok by (apply get_addr_ok; [done|lia|by rewrite HA]). rewrite HA. fold (addr d bn). rewrite <- Hblk.
    rewrite (proj2 (Z.eqb_neq _ _)) by dlia. by destruct k.
  - pose proof (wi_ind _ _ Hwf ltac:(lia)) as Ha. set (a := addr d 12) in *.
    destruct (cv_bread k [] C D Q a Hr Hc) as (b & s1 & Hr1 & Hc1 & Hst1 & Hset); [dlia|apply not_elem_of_nil|right; cbn; lia|].
    destruct (cv_brelse (set_k_fs s1 k) [] C D Q b a (fs_ready_fs _ _ Hr) Hc1 Hset) as (s2 & Hr2 & Hc2 & Hst2).
    exists s2. split_and!; [|done|by eapply still_trans]. rewrite (bmap_high k i x d bn Hin) by lia. fold a.
    rewrite (proj2 (Z.eqb_neq a 0)), bind_ret by dlia. rewrite (bind_ok _ _ _ _ _ Hr1).
    erewrite bind_ok by (eapply (cv_bdata (set_k_fs s1 k)); [done|left]).
    assert (Hblk : blk C d bn = get32 (C a) (4 * Z.to_nat (bn - 12))).
    { unfold blk. rewrite (proj2 (Z.ltb_ge _ _)) by lia. f_equal. lia. }
    rewrite <- Hblk. rewrite (proj2 (Z.eqb_neq _ _)), bind_ret by dlia. by rewrite (bind_ok _ _ _ _ _ Hr2).
Qed.

Lemma incore_still s s' i x d : still s s' → incore s i x d → incore s' i x d.
Proof. intros [[] _ _] (? & ? & ? & ?). split_and!; try done. congruence. Qed.

Lemma readi_loop_ok {A} (snk : sink A) N T total (f : nat) : ∀ k C D Q i x d off (pre : list Z) tot n,
  sink_of snk N T total k → fs_ready k → cview [] (k_fs k) C D Q → (size Q < 29)%nat → wf_inode C d → incore (k_fs k) i x d →
  tot = Z.of_nat (length pre) → tot ≤ n → n ≤ total → 0 ≤ off → off + (n - tot) ≤ d_size d → n - tot ≤ Z.of_nat f →
  let l := pre ++ sub (file_data C d) (Z.to_nat off) (Z.to_nat (n - tot)) in
  ∃ s', readi_loop snk f i (N pre) tot off n (T pre k) = Ok (N l) (set_k_fs s' (T l k)) ∧
    cview [] s' C D Q ∧ still (k_fs k) s'.
Proof.
  induction f as [|f IH]; intros k C D Q i x d off pre tot n Hsnk Hr Hc HQ Hwf Hin Htot Hn Htl Hoff Hend Hf l.
  all: destruct (decide (tot = n)) as [E|E].
  1, 3: exists (k_fs k); unfold l; replace (Z.to_nat (n - tot)) with 0%nat by lia; cbn [sub take];
    rewrite app_nil_r; split_and!; [|done|done]; cbn [readi_loop]; rewrite (proj2 (Z.ltb_ge _ _)) by lia;
    rewrite <- (so_fs _ _ _ _ _ Hsnk); by destruct k.
  { lia. }
  cbn [readi_loop]. rewrite (proj2 (Z.ltb_lt _ _)) by lia. pose proof Hin as (Hx & Hdev & _).
  assert (Hx' : inodes (k_fs (T pre k)) !! i = Some x) by (by rewrite (so_fs' _ _ _ _ _ Hsnk)).
  rewrite (bind_ok _ _ _ _ _ (get_inode_ok _ _ _ Hx')), Hdev.
  pose proof (nblk_cover (d_size d) off ltac:(lia)) as Hcov. change BSIZE with 512.
  pose proof (wi_blk _ _ Hwf _ Hcov) as Hb. set (b := blk C d (off / 512)) in *.
  set (mm := Z.min (n - tot) (512 - off mod 512)). set (kT := T pre k) in *.
  assert (HkT : fs_ready kT ∧ k_fs kT = k_fs k) by (split; [by apply (so_ready _ _ _ _ _ Hsnk)|apply (so_fs' _ _ _ _ _ Hsnk)]).
  destruct HkT as [HrT HfT].
  destruct (bmap_read kT C D Q i x d (off / 512)) as (s1 & Hr1 & Hc1 & Hst1); rewrite ?HfT; try done. fold b in Hr1.
  destruct (cv_bread (set_k_fs s1 kT) [] C D Q b (fs_ready_fs _ _ HrT) Hc1) as (bp & s2 & Hr2 & Hc2 & Hst2 & Hset);
    [dlia|apply not_elem_of_nil|right; cbn; lia|].
  set (piece := sub (C b) (Z.to_nat (off mod 512)) (Z.to_nat mm)).
  assert (Hlen : ∀ c, length (C c) = 512%nat) by (intros c; apply (cview_block_ok _ _ _ _ _ c Hc)).
  assert (Hpl : Z.of_nat (length piece) = mm) by (unfold piece; rewrite length_sub by (rewrite Hlen; lia); lia).
  pose proof (so_put _ _ _ _ _ Hsnk pre piece s2) as Hput. rewrite length_app in Hput.
  specialize (Hput ltac:(lia)). rewrite !(so_fs _ _ _ _ _ Hsnk) in Hput. fold kT in Hput.
  set (k2 := set_k_fs s2 (T (pre ++ piece) k)) in *.
  assert (Hr2' : fs_ready k2) by (by apply fs_ready_fs, (so_ready _ _ _ _ _ Hsnk)).
  destruct (cv_brelse k2 [] C D Q bp b Hr2' Hc2 Hset) as (s3 & Hr3 & Hc3 & Hst3). change (k_fs k2) with s2 in Hst3.
  assert (Hst : still (k_fs k) s3).
  { rewrite <- HfT. eapply still_trans; [exact Hst1|]. eapply still_trans; [exact Hst2|exact Hst3]. }
  destruct (IH (set_k_fs s3 k) C D Q i x d (off + mm) (pre ++ piece) (tot + mm) n (sink_of_fs _ _ _ _ _ _ Hsnk) (fs_ready_fs _ _ Hr) Hc3 HQ Hwf)
    as (s4 & Hr4 & Hc4 & Hst4); rewrite ?length_app; try lia; [by eapply incore_still|].
  exists s4. rewrite !(so_fs _ _ _ _ _ Hsnk) in Hr4. split_and!; [|done|by eapply still_trans].
  rewrite (bind_ok _ _ _ _ _ Hr1), (bind_ok _ _ _ _ _ Hr2).
  erewrite bind_ok by (eapply (cv_bdata (set_k_fs s2 kT)); [done|left]). fold piece.
  change (set_k_fs s2 (set_k_fs s1 kT)) with (set_k_fs s2 kT).
  rewrite (bind_ok _ _ _ _ _ Hput), (bind_ok _ _ _ _ _ Hr3).
  change (set_k_fs s3 k2) with (set_k_fs s3 (T (pre ++ piece) k)). rewrite Hr4.
  assert (E2 : (pre ++ piece) ++ sub (file_data C d) (Z.to_nat (off + mm)) (Z.to_nat (n - (tot + mm))) = l).
  { unfold l, piece, b. rewrite block_sub by (done || lia). rewrite <- app_assoc. f_equal. apply sub_append; lia. }
  by rewrite E2.
Qed.

Lemma readi_ok {A} (snk : sink A) N T k C D Q i x n off len :
  sink_of snk N T (Z.min len (i_size x - off)) k → fs_ready k → cview [] (k_fs k) C D Q → (size Q < 29)%nat → wf_inode C (nd C n) →
  inodes (k_fs k) !! i = Some x → i_dev x = 1 → d_of x = nd C n → i_type x ≠ T_DEV →
  0 ≤ off ≤ i_size x → 0 ≤ len < 2 ^ 31 → off + len < 2 ^ 32 →
  let l := sub (file_data C (nd C n)) (Z.to_nat off) (Z.to_nat (Z.min len (i_size x - off))) in
  ∃ s', readi snk i (N []) off len k = Ok (Z.min len (i_size x - off), N l) (set_k_fs s' (T l k)) ∧
    cview [] s' C D Q ∧ still (k_fs k) s'.
Proof.
  intros Hsnk Hr Hc HQ Hwf Hx Hdev Hcp Ht Hoff Hlen Hend l.
  assert (Hsz : i_size x = d_size (nd C n)) by (by rewrite <- Hcp).
  assert (Hin : incore (k_fs k) i x (nd C n)).
  { split_and!; [done|done|by rewrite <- Hcp|apply (wi_len _ _ Hwf)]. }
  set (len' := Z.min len (i_size x - off)).
  destruct (readi_loop_ok snk N T len' (S (Z.to_nat len')) k C D Q i x (nd C n) off [] 0 len' Hsnk Hr Hc HQ Hwf Hin)
    as (s' & Hrun & Hc' & Hst); cbn [length]; try lia. cbn [app] in Hrun. rewrite (so_nil _ _ _ _ _ Hsnk), Z.sub_0_r in Hrun.
  exists s'. split_and!; [|done|done]. unfold readi. rewrite (bind_ok _ _ _ _ _ (get_inode_ok _ _ _ Hx)).
  rewrite (proj2 (Z.eqb_neq _ _)) by done. rewrite u32_small by lia. rewrite !(proj2 (Z.ltb_ge _ _)) by lia. cbn [orb].
  replace (if i_size x <? off + len then i_size x - off else len) with len' by (unfold len'; zcases; lia).
  rewrite (bind_ok _ _ _ _ _ Hrun). cbn [ret]. unfold ret. rewrite s32_small by lia. done.
Qed.
End read.

(** ** Memory as source and destination *)
Section memory.
Implicit Types (k : kernel) (a : Z) (l : list Z).

Lemma vbytes_spec k a n l :
  vbytes k a n = Some l ↔ length l = Z.to_nat n ∧ ∀ (j : nat) b, l !! j = Some b → vload8 k (u32 (a + Z.of_nat j)) = Some b.
Proof.
  unfold vbytes. rewrite mapM_Some. split.
  - intros HF. pose proof (Forall2_length _ _ _ HF) as Hl. rewrite length_seqZ in Hl. split; [done|].
    intros j b Hj. destruct (Forall2_lookup_r _ _ _ _ _ HF Hj) as (i & Hi & Hb).
    apply lookup_seqZ in Hi as [-> _]. by rewrite Z.add_0_l in Hb.
  - intros [Hl Hv]. apply Forall2_same_length_lookup. split; [by rewrite length_seqZ|].
    intros j i b Hi Hb. apply lookup_seqZ in Hi as [-> _]. rewrite Z.add_0_l. by apply Hv.
Qed.

Lemma vbytes_sub k a n l (o m : nat) :
  vbytes k a n = Some l → (o + m ≤ length l)%nat → vbytes k (u32 (a + Z.of_nat o)) (Z.of_nat m) = Some (sub l o m).
Proof.
  intros [Hl Hv]%vbytes_spec Ho. apply vbytes_spec. rewrite length_sub by done. split; [lia|].
  intros j b Hj. rewrite sub_lookup in Hj. case_decide; [|done].
  replace (u32 (u32 (a + Z.of_nat o) + Z.of_nat j)) with (u32 (a + Z.of_nat (o + j))); [by apply Hv|].
  unfold u32. rewrite Nat2Z.inj_add, Z.add_assoc. by rewrite Zplus_mod_idemp_l.
Qed.

Lemma load_bytes_ok k a l :
  0 ≤ a < 2 ^ 32 → vbytes k a (Z.of_nat (length l)) = Some l → load_bytes (length l) a k = Ok l k.
Proof.
  revert a. induction l as [|b l IH]; intros a Ha [_ Hv]%vbytes_spec; [done|]. cbn [length load_bytes].
  assert (H8 : load8 a k = Ok b k).
  { unfold load8. specialize (Hv 0%nat b eq_refl). rewrite Z.add_0_r, u32_small in Hv by done. cbn. by rewrite Hv. }
  rewrite (bind_ok _ _ _ _ _ H8). rewrite (bind_ok _ _ _ l k); [done|]. apply IH; [apply u32_range|].
  apply vbytes_spec. split; [lia|]. intros j c Hj. specialize (Hv (S j) c Hj).
  replace (u32 (u32 (a + 1) + Z.of_nat j)) with (u32 (a + Z.of_nat (S j))); [done|].
  unfold u32. rewrite Zplus_mod_idemp_l. f_equal. lia.
Qed.

(** The bytes [l] are at [a]. *)
Definition at_mem k a l : Prop := 0 ≤ a < 2 ^ 32 ∧ vbytes k a (Z.of_nat (length l)) = Some l.

Lemma mem_source_of k : source_of mem_source k (at_mem k).
Proof.
  intros s a l1 l2 [Ha Hv]. exists (u32 (a + Z.of_nat (length l1))). split.
  - cbn [src_take mem_source]. rewrite Nat2Z.id. erewrite bind_ok; [done|]. apply load_bytes_ok; [done|].
    pose proof (vbytes_sub k a _ _ 0 (length l1) Hv) as Hs. rewrite length_app in Hs. specialize (Hs ltac:(lia)).
    rewrite Z.add_0_r, u32_small in Hs by done. change (vbytes (set_k_fs s k)) with (vbytes k). rewrite Hs. f_equal.
    unfold sub. by rewrite drop_0, take_app_length.
  - split; [apply u32_range|]. pose proof (vbytes_sub k a _ _ (length l1) (length l2) Hv) as Hs. rewrite length_app in Hs.
    specialize (Hs ltac:(lia)). rewrite Hs. f_equal. unfold sub. rewrite drop_app_length. by apply take_ge.
Qed.

(** The kernel with [l] stored at [a]. *)
Definition stored a l k : kernel := mod_vm (λ v, set_mem (write_bytes (mem v) a l) v) k.

Lemma write_bytes_app m a l1 l2 :
  write_bytes m a (l1 ++ l2) = write_bytes (write_bytes m a l1) (a + Z.of_nat (length l1)) l2.
Proof.
  revert m a. induction l1 as [|b l1 IH]; intros m a; cbn [app write_bytes length]; [by rewrite Z.add_0_r|].
  rewrite IH. f_equal. lia.
Qed.

Lemma store_bytes_ok k a l :
  KERNBASE ≤ a → a + Z.of_nat (length l) ≤ 2 ^ 32 → store_bytes (u32 a) l k = Ok tt (stored a l k).
Proof.
  revert k a. induction l as [|b l IH]; intros k a Ha Hl; cbn [length] in Hl.
  - by destruct k as [? [] ? ? ?].
  - cbn [store_bytes]. rewrite u32_small by clia.
    erewrite bind_ok.
    2:{ unfold store8. cbn. unfold vaddr_w. rewrite (proj2 (Z.leb_le _ _)) by done. reflexivity. }
    rewrite IH by lia. done.
Qed.

Lemma mem_sink_of a0 total k :
  KERNBASE ≤ a0 → a0 + total ≤ 2 ^ 32 →
  sink_of mem_sink (λ l, u32 (a0 + Z.of_nat (length l))) (stored a0) total k.
Proof.
  intros Ha Ht. split; try done.
  - intros l1 l2 s Hl. rewrite length_app in Hl. cbn [snk_put mem_sink].
    rewrite (bind_ok _ _ _ _ _ (store_bytes_ok _ (a0 + Z.of_nat (length l1)) l2 ltac:(lia) ltac:(lia))).
    cbn [ret]. unfold ret. f_equal.
    + rewrite length_app. unfold u32. rewrite Zplus_mod_idemp_l. f_equal. lia.
    + unfold stored, mod_vm, set_k_vm. cbn. by rewrite <- write_bytes_app.
  - intros k'. by destruct k' as [? [] ? ? ?].
  - intros l k' [H1 H2 H3]. by split.
Qed.
End memory.

(** ** The memory of the process

    A buffer is a range of kernel memory, or a range of the memory of the process all of whose pages
    are present and writable. *)
Section user.
Context `{link}.
Implicit Types (k : kernel) (m : memory) (a va : Z) (l : list Z).

Definition user_pd k : Z := P2V (cr3 (k_mach k)).

Record user_buf k a n : Prop := {
  ub_low : 0 ≤ a;
  ub_high : a + n ≤ KERNBASE;
  ub_space : ∃ fl, aspace (mem (k_vm k)) (user_pd k) fl;
  ub_page va : a ≤ va < a + n → let e := pte (mem (k_vm k)) (user_pd k) va in has_P e = true ∧ truthy (Z.land e PTE_W) = true
}.

Definition buffer k a n : Prop := (KERNBASE ≤ a ∧ a + n ≤ 2 ^ 32) ∨ user_buf k a n.

(** Where the byte at [va] is. *)
Definition place k va : Z := default 0 (vaddr k va).

(** The bytes [l] stored from [va] on, at their places. *)
Fixpoint put_at k m va l : memory :=
  match l with
  | [] => m
  | b :: l => put_at k (wr8 m (place k va) b) (va + 1) l
  end.

Lemma put_at_app k l1 l2 : ∀ m va, put_at k m va (l1 ++ l2) = put_at k (put_at k m va l1) (va + Z.of_nat (length l1)) l2.
Proof.
  induction l1 as [|b l1 IH]; intros m va; cbn [app put_at length]; [by rewrite Z.add_0_r|]. rewrite IH. f_equal. lia.
Qed.

Lemma user_buf_sub k a n a' n' : user_buf k a n → a ≤ a' → a' + n' ≤ a + n → user_buf k a' n'.
Proof. intros [H1 H2 H3 H4] ? ?. split; [lia|lia|done|intros va Hva; apply H4; lia]. Qed.

Lemma buffer_sub k a n a' n' : buffer k a n → a ≤ a' → a' + n' ≤ a + n → buffer k a' n'.
Proof. intros [[? ?]|Hu] ? ?; [left; lia|right; by eapply user_buf_sub]. Qed.

(** The place of a byte of the process: its frame, and the offset. *)
Lemma user_place k a n va :
  user_buf k a n → a ≤ va < a + n →
  ∃ f, role_page (mem (k_vm k)) (user_pd k) (RUser (va / PGSIZE)) = Some f ∧ vaddr k va = Some (f + va mod PGSIZE) ∧ place k va = f + va mod PGSIZE ∧
    page_ok f ∧ (∀ q, tabs (mem (k_vm k)) (user_pd k) q → page_ok q ∧ q ≠ f).
Proof.
  intros [H1 H2 (fl & Has) H4] Hva. destruct (H4 va Hva) as [HP _].
  pose proof (role_user (mem (k_vm k)) (user_pd k) va ltac:(lia) HP) as Hr. eexists. split; [exact Hr|].
  assert (Hv : vaddr k va = Some (P2V (PTE_ADDR (pte (mem (k_vm k)) (user_pd k) va)) + va mod PGSIZE)).
  { unfold vaddr, frame_of. rewrite (proj2 (Z.leb_gt _ _)) by lia. fold (user_pd k). by rewrite Hr. }
  split_and!; [done|unfold place; by rewrite Hv|by apply (as_page _ _ _ Has _ _ Hr)|].
  intros q (r & Hru & Hq). split; [by apply (as_page _ _ _ Has _ _ Hq)|]. intros ->. by apply (Hru (va / PGSIZE)), (as_inj _ _ _ Has _ _ _ Hq Hr).
Qed.

(** Stores into the frames of the process leave its page table alone. *)
Definition same_tables k m : Prop := ∀ q, tabs (mem (k_vm k)) (user_pd k) q → agree (mem (k_vm k)) m q.

Lemma same_tables_wr k a n va m b : user_buf k a n → a ≤ va < a + n → same_tables k m → same_tables k (wr8 m (place k va) b).
Proof.
  intros Hu Hva Hm q Hq c Hc. destruct (user_place k a n va Hu Hva) as (f & _ & _ & -> & Hf & Ht). destruct (Ht q Hq) as [Hqp Hne].
  rewrite rd8_wr8_ne; [exact (Hm q Hq c Hc)|]. destruct (page_ok_disjoint q f Hqp Hf Hne); clia.
Qed.

Lemma same_tables_put k a n l : ∀ m va, user_buf k a n → a ≤ va → va + Z.of_nat (length l) ≤ a + n → same_tables k m → same_tables k (put_at k m va l).
Proof.
  induction l as [|b l IH]; intros m va Hu Hva Hl Hm; [done|]. cbn [put_at length] in *. apply IH; [done|lia|lia|]. eapply same_tables_wr; [done|lia|done].
Qed.

(** The kernel with other memory. *)
Definition with_mem m k : kernel := mod_vm (set_mem m) k.

Lemma vaddr_same k m va : same_tables k m → vaddr (with_mem m k) va = vaddr k va ∧ vaddr_w (with_mem m k) va = vaddr_w k va.
Proof.
  intros Hm. assert (Hp : ∀ va, pte m (user_pd k) va = pte (mem (k_vm k)) (user_pd k) va) by (intros; by apply pte_tabs).
  assert (Hv : vaddr (with_mem m k) va = vaddr k va).
  { unfold vaddr, frame_of. cbn. fold (user_pd k). by rewrite Hp. }
  split; [done|]. unfold vaddr_w. rewrite Hv. cbn. fold (user_pd k). by rewrite Hp.
Qed.

Lemma place_kernel k va : KERNBASE ≤ va → place k va = va.
Proof. intros. unfold place, vaddr. by rewrite (proj2 (Z.leb_le _ _)). Qed.

Lemma put_at_kernel k l : ∀ m va, KERNBASE ≤ va → put_at k m va l = write_bytes m va l.
Proof. induction l as [|b l IH]; intros m va Hva; [done|]. cbn. rewrite place_kernel by done. apply IH. lia. Qed.

(** What a store to a buffer does. *)
Lemma store_user_ok k k' a l : user_buf k a (Z.of_nat (length l)) → k_mach k' = k_mach k → same_tables k (mem (k_vm k')) →
  store_bytes (u32 a) l k' = Ok tt (with_mem (put_at k (mem (k_vm k')) a l) k').
Proof.
  revert k' a. induction l as [|b l IH]; intros k' a Hu Hk Hm.
  { destruct k' as [? [] ? ? ?]. done. }
  cbn [length] in Hu. pose proof (ub_low _ _ _ Hu). pose proof (ub_high _ _ _ Hu). cbn [store_bytes]. rewrite u32_small by clia.
  destruct (user_place k a _ a Hu ltac:(lia)) as (f & _ & Hv & Hpl & _). destruct (ub_page _ _ _ Hu a ltac:(lia)) as [_ HW].
  assert (Hst : store8 a b k' = Ok tt (with_mem (wr8 (mem (k_vm k')) (place k a) b) k')).
  { destruct (vaddr_same k _ a Hm) as [_ Hw]. unfold store8. cbn. assert (Hw' : vaddr_w k' a = Some (place k a)).
    { transitivity (vaddr_w (with_mem (mem (k_vm k')) k) a).
      - unfold vaddr_w, vaddr. cbn. by rewrite Hk.
      - rewrite Hw. unfold vaddr_w. rewrite (proj2 (Z.leb_gt _ _)) by clia. fold (user_pd k). by rewrite HW, Hv, Hpl. }
    by rewrite Hw'. }
  rewrite (bind_ok _ _ _ _ _ Hst). rewrite IH; [done|eapply user_buf_sub; [exact Hu|lia|lia]|done|].
  cbn. eapply same_tables_wr; [exact Hu|lia|done].
Qed.

Lemma store_buffer_ok k k' a l : buffer k a (Z.of_nat (length l)) → k_mach k' = k_mach k →
  (user_buf k a (Z.of_nat (length l)) → same_tables k (mem (k_vm k'))) →
  store_bytes (u32 a) l k' = Ok tt (with_mem (put_at k (mem (k_vm k')) a l) k').
Proof.
  intros [[H1 H2]|Hu] Hk Hm; [|by apply store_user_ok; [| |apply Hm]]. rewrite store_bytes_ok by done. by rewrite put_at_kernel.
Qed.

Definition stored_at k a l k' : kernel := with_mem (put_at k (mem (k_vm k')) a l) k'.

Lemma buf_sink_of k a total :
  buffer k a total → sink_of mem_sink (λ l, u32 (a + Z.of_nat (length l))) (stored_at k a) total k.
Proof.
  intros Hb. split; try done.
  - intros l1 l2 s Hl. rewrite length_app in Hl. cbn [snk_put mem_sink].
    rewrite (bind_ok _ _ _ tt (stored_at k a (l1 ++ l2) (set_k_fs s k))).
    + unfold ret. f_equal. rewrite length_app. unfold u32. rewrite Zplus_mod_idemp_l. f_equal. lia.
    + rewrite (store_buffer_ok k); [|eapply buffer_sub; [exact Hb|lia|lia]|done|].
      * unfold stored_at. rewrite put_at_app. done.
      * intros Hu'. destruct Hb as [[? ?]|Hu].
        -- destruct l2 as [|c l2]; [|pose proof (ub_high _ _ _ Hu'); cbn [length] in *; lia].
           pose proof (ub_high _ _ _ Hu'). cbn [length] in *.
           assert (l1 = []) as -> by (destruct l1; [done|cbn [length] in *; lia]). done.
        -- cbn. eapply same_tables_put; [exact Hu|lia|lia|done].
  - intros k'. by destruct k' as [? [] ? ? ?].
  - intros l k' [H1 H2 H3]. by split.
Qed.

(** Two bytes of a buffer have different places. *)
Lemma place_inj k a n va va' : buffer k a n → a ≤ va < a + n → a ≤ va' < a + n → place k va = place k va' → va = va'.
Proof.
  intros [[H1 _]|Hu] Hva Hva' He; [by rewrite !place_kernel in He by lia|].
  destruct (user_place k a n va Hu Hva) as (f & Hr & _ & Hp & Hf & _). destruct (user_place k a n va' Hu Hva') as (f' & Hr' & _ & Hp' & Hf' & _).
  rewrite Hp, Hp' in He. destruct (decide (f = f')) as [<-|Hne]; [|destruct (page_ok_disjoint f f' Hf Hf' Hne); clia].
  destruct (ub_space _ _ _ Hu) as (fl & Has). pose proof (as_inj _ _ _ Has _ _ _ Hr Hr') as [= Hq]. clia.
Qed.

Lemma put_at_out k l : ∀ m va c, (∀ j, 0 ≤ j < Z.of_nat (length l) → place k (va + j) ≠ c) → rd8 (put_at k m va l) c = rd8 m c.
Proof.
  induction l as [|b l IH]; intros m va c Hc; [done|]. cbn [put_at length] in *. rewrite IH.
  - apply rd8_wr8_ne. specialize (Hc 0 ltac:(lia)). by rewrite Z.add_0_r in Hc.
  - intros j Hj. replace (va + 1 + j) with (va + (1 + j)) by lia. apply Hc. lia.
Qed.

Lemma put_at_in k a n l : ∀ m va (j : nat) b, buffer k a n → a ≤ va → va + Z.of_nat (length l) ≤ a + n → bytes_ok l → l !! j = Some b →
  rd8 (put_at k m va l) (place k (va + Z.of_nat j)) = b.
Proof.
  induction l as [|c l IH]; intros m va j b Hb Hva Hl Hby Hj; [done|]. cbn [put_at length] in *. apply Forall_cons in Hby as [Hc Hby].
  destruct j as [|j]; cbn in Hj.
  - injection Hj as <-. rewrite Z.add_0_r, put_at_out; [rewrite rd8_wr8_eq; by apply u8_small|].
    intros i Hi He. assert (va + 1 + i = va); [|lia]. eapply place_inj; [exact Hb|lia|lia|done].
  - replace (va + Z.of_nat (S j)) with (va + 1 + Z.of_nat j) by lia. apply IH; [done|lia|lia|done|done].
Qed.

(** The bytes are there for whoever reads the buffer, and no other byte has changed. *)
Lemma stored_at_reads k a l : buffer k a (Z.of_nat (length l)) → bytes_ok l →
  vbytes (stored_at k a l k) a (Z.of_nat (length l)) = Some l ∧
  ∀ c, (∀ j, 0 ≤ j < Z.of_nat (length l) → vaddr k (a + j) ≠ Some c) → rd8 (mem (k_vm (stored_at k a l k))) c = rd8 (mem (k_vm k)) c.
Proof.
  intros Hb Hby. set (n := Z.of_nat (length l)) in *.
  assert (Hpl : ∀ j, 0 ≤ j < n → vaddr k (a + j) = Some (place k (a + j)) ∧ vaddr (stored_at k a l k) (a + j) = vaddr k (a + j) ∧ 0 ≤ a + j < 2 ^ 32).
  { intros j Hj. destruct Hb as [[H1 H2]|Hu].
    - unfold place, vaddr. rewrite (proj2 (Z.leb_le _ _)) by lia. split_and!; [done..|clia|lia].
    - destruct (user_place k a n (a + j) Hu ltac:(lia)) as (f & _ & Hv & -> & _). pose proof (ub_low _ _ _ Hu). pose proof (ub_high _ _ _ Hu).
      split_and!; [done| |lia|clia]. apply vaddr_same. apply (same_tables_put k a n); [done|lia|lia|done]. }
  split.
  - apply vbytes_spec. split; [lia|]. intros j b Hj. pose proof (lookup_lt_Some _ _ _ Hj) as Hlt.
    destruct (Hpl (Z.of_nat j) ltac:(lia)) as (Hv & Hs & Hr). rewrite u32_small by lia. unfold vload8. rewrite Hs, Hv. cbn. f_equal.
    eapply put_at_in; [exact Hb|lia|lia|done|done].
  - intros c Hc. cbn. apply put_at_out. intros j Hj He. destruct (Hpl j Hj) as (Hv & _). apply (Hc j Hj). by rewrite Hv, He.
Qed.
End user.

#[global] Arguments put_at : simpl never.
