(* ===== verification/File.v ===== *)
(** Pipes ([pipe.c]) and open files ([file.c]).

    A pipe is a page of memory; [pipes] holds the pipe at the address of its page. *)

From S2P Require Import Prelude Params Bytes State Spinlock Mem Kalloc PageTable Uaccess Procs Sched Bio Log Inode Console Fs.

Definition PIPESIZE : Z := 512.

Definition get_pipe (p : Z) : K pipe := s ← getf pipes; or_ub "pipe" (s !! p).
Definition mod_pipe (p : Z) (f : pipe → pipe) : K unit :=
  modf (λ s, set_pipes (alter f p (pipes s)) s).

Definition get_file (f : nat) : K file := s ← getf files; or_ub "file" (s !! f).
Definition mod_file (f : nat) (g : file → file) : K unit :=
  modf (λ s, set_files (alter g f (files s)) s).

Section file.
Context `{link} `{world}.

(** ** Pipes *)
Definition pipeclose (p : Z) (writable : Z) : K unit :=
  acquire (Lpipe p);;
  (if truthy writable then mod_pipe p (set_writeopen 0);; wakeup (Some (Cpipe_nread p))
   else mod_pipe p (set_readopen 0);; wakeup (Some (Cpipe_nwrite p)));;
  x ← get_pipe p;
  if (readopen x =? 0) && (writeopen x =? 0) then
    release (Lpipe p);;
    kfree p;;
    modf (λ s, set_pipes (delete p (pipes s)) s)
  else release (Lpipe p).

(** The wait for room in [pipewrite]; [false] when it gives up. *)
Fixpoint pipe_room (fuel : nat) (p : Z) : K bool :=
  x ← get_pipe p;
  if nwrite x =? u32 (nread x + PIPESIZE) then
    giveup ← (if readopen x =? 0 then ret true
              else q ← curproc; q ← get_proc q; ret (truthy (killed q)));
    if giveup : bool then ret false
    else
      match fuel with
      | O => fail OutOfFuel
      | S fuel => wakeup (Some (Cpipe_nread p));; sleep (Cpipe_nwrite p) (Lpipe p);; pipe_room fuel p
      end
  else ret true.

(** [p->data[p->nwrite++ % PIPESIZE] = c] *)
Definition pipe_push (p c : Z) : K unit :=
  x ← get_pipe p;
  l ← or_ub "pipe.data" (aset (p_data x) (nwrite x mod PIPESIZE) c);
  mod_pipe p (λ x, set_nwrite (u32 (nwrite x + 1)) (set_p_data l x)).

(** Copy [n] bytes in; [false] when it gave up. *)
Fixpoint pipewrite_loop {A} (src : source A) (p : Z) (n : nat) (addr : A) : K bool :=
  match n with
  | O => ret true
  | S n =>
      ok ← pipe_room patience p;
      if negb ok then ret false
      else
        '(l, addr) ← src_take src addr 1;
        pipe_push p (default 0 (head l));;
        pipewrite_loop src p n addr
  end.

Definition pipewrite {A} (src : source A) (p : Z) (addr : A) (n : Z) : K Z :=
  acquire (Lpipe p);;
  ok ← pipewrite_loop src p (Z.to_nat n) addr;
  if ok : bool then wakeup (Some (Cpipe_nread p));; release (Lpipe p);; ret n
  else release (Lpipe p);; ret (-1).

(** The wait for data in [piperead]; [false] when killed. *)
Fixpoint pipe_avail (fuel : nat) (p : Z) : K bool :=
  x ← get_pipe p;
  if (nread x =? nwrite x) && truthy (writeopen x) then
    q ← curproc;
    q ← get_proc q;
    if truthy (killed q) then ret false
    else
      match fuel with
      | O => fail OutOfFuel
      | S fuel => sleep (Cpipe_nread p) (Lpipe p);; pipe_avail fuel p
      end
  else ret true.

Fixpoint piperead_loop {A} (snk : sink A) (p : Z) (n : nat) (i : Z) (addr : A) : K (Z * A) :=
  match n with
  | O => ret (i, addr)
  | S n =>
      x ← get_pipe p;
      if nread x =? nwrite x then ret (i, addr)
      else
        c ← or_ub "pipe.data" (aget (p_data x) (nread x mod PIPESIZE));
        mod_pipe p (λ x, set_nread (u32 (nread x + 1)) x);;
        addr ← snk_put snk addr [c];
        piperead_loop snk p n (i + 1) addr
  end.

Definition piperead {A} (snk : sink A) (p : Z) (addr : A) (n : Z) : K (Z * A) :=
  acquire (Lpipe p);;
  ok ← pipe_avail patience p;
  if negb ok then release (Lpipe p);; ret (-1, addr)
  else
    '(i, addr) ← piperead_loop snk p (Z.to_nat n) 0 addr;
    wakeup (Some (Cpipe_nwrite p));;
    release (Lpipe p);;
    ret (i, addr).

(** ** The table of open files *)
Definition fileinit : K unit := initlock Lftable "ftable".

Definition filealloc : K (option nat) :=
  acquire Lftable;;
  l ← getf files;
  match fst <$> list_find (λ x, f_ref x = 0) l with
  | Some f => mod_file f (set_f_ref 1);; release Lftable;; ret (Some f)
  | None => release Lftable;; ret None
  end.

Definition filedup (f : nat) : K nat :=
  acquire Lftable;;
  x ← get_file f;
  if f_ref x <? 1 then panic "filedup"
  else mod_file f (λ x, set_f_ref (f_ref x + 1) x);; release Lftable;; ret f.

Definition fileclose (f : nat) : K unit :=
  acquire Lftable;;
  x ← get_file f;
  if f_ref x <? 1 then panic "fileclose"
  else
    mod_file f (λ x, set_f_ref (f_ref x - 1) x);;
    ff ← get_file f;
    if 0 <? f_ref ff then release Lftable
    else
      mod_file f (set_f_ref 0);;
      mod_file f (set_f_type FD_NONE);;
      release Lftable;;
      match f_type ff with
      | FD_PIPE => pipeclose (f_pipe ff) (f_writable ff)
      | FD_INODE => begin_op;; i ← or_ub "ip" (f_ip ff); iput i;; end_op
      | FD_NONE => ret tt
      end.

Definition filestat (f : nat) : K (option stat) :=
  x ← get_file f;
  match f_type x with
  | FD_INODE =>
      ilock (f_ip x);;
      i ← or_ub "ip" (f_ip x);
      st ← stati i;
      iunlock (f_ip x);;
      ret (Some st)
  | _ => ret None
  end.

Definition fileread_to {A} (snk : sink A) (f : nat) (addr : A) (n : Z) : K (Z * A) :=
  x ← get_file f;
  if f_readable x =? 0 then ret (-1, addr) else
  match f_type x with
  | FD_PIPE => piperead snk (f_pipe x) addr n
  | FD_INODE =>
      ilock (f_ip x);;
      i ← or_ub "ip" (f_ip x);
      x ← get_file f;
      '(r, addr) ← readi snk i addr (f_off x) (u32 n);
      when (0 <? r) (mod_file f (λ x, set_f_off (u32 (f_off x + r)) x));;
      iunlock (Some i);;
      ret (r, addr)
  | FD_NONE => panic "fileread"
  end.

(** [((MAXOPBLOCKS-1-1-2) / 2) * 512]: what one transaction may write. *)
Definition max_write : Z := (MAXOPBLOCKS - 1 - 1 - 2) / 2 * 512.

(** The loop of [filewrite], from byte [i] on; [addr] is the address of byte 0. *)
Fixpoint filewrite_loop (fuel : nat) (f : nat) (addr n i : Z) : K Z :=
  if i <? n then
    match fuel with
    | O => fail OutOfFuel
    | S fuel =>
        let n1 := Z.min (n - i) max_write in
        begin_op;;
        x ← get_file f;
        ilock (f_ip x);;
        ip ← or_ub "ip" (f_ip x);
        x ← get_file f;
        r ← writei mem_source ip (u32 (addr + i)) (f_off x) n1;
        when (0 <? r) (mod_file f (λ x, set_f_off (u32 (f_off x + r)) x));;
        iunlock (Some ip);;
        end_op;;
        if r <? 0 then ret i
        else if negb (r =? n1) then panic "short filewrite"
        else filewrite_loop fuel f addr n (i + r)
    end
  else ret i.

Definition file_write (f : nat) (addr n : Z) : K Z :=
  x ← get_file f;
  if f_writable x =? 0 then ret (-1) else
  match f_type x with
  | FD_PIPE => pipewrite mem_source (f_pipe x) addr n
  | FD_INODE =>
      i ← filewrite_loop (S (Z.to_nat n)) f addr n 0;
      ret (if i =? n then n else -1)
  | FD_NONE => panic "filewrite"
  end.

Definition file_read (f : nat) (addr n : Z) : K Z :=
  '(r, _) ← fileread_to mem_sink f addr n; ret r.

(** ** [pipealloc] *)
Definition pipealloc_bad (f0 f1 : option nat) : K (option (nat * nat)) :=
  when (bool_decide (is_Some f0)) (f ← or_ub "f0" f0; fileclose f);;
  when (bool_decide (is_Some f1)) (f ← or_ub "f1" f1; fileclose f);;
  ret None.

(** The data of a fresh pipe is what its page held, after the spinlock's 52 bytes. *)
Definition pipealloc : K (option (nat * nat)) :=
  f0 ← filealloc;
  match f0 with
  | None => pipealloc_bad None None
  | Some a =>
      f1 ← filealloc;
      match f1 with
      | None => pipealloc_bad f0 None
      | Some b =>
          p ← kalloc;
          if p =? 0 then pipealloc_bad f0 f1
          else
            d ← getm (λ m, read_bytes m (p + 52) (Z.to_nat PIPESIZE));
            modf (λ s, set_pipes (<[p := mkPipe d 0 0 1 1]> (pipes s)) s);;
            initlock (Lpipe p) "pipe";;
            mod_file a (λ x, set_f_pipe p (set_f_writable 0 (set_f_readable 1 (set_f_type FD_PIPE x))));;
            mod_file b (λ x, set_f_pipe p (set_f_writable 1 (set_f_readable 0 (set_f_type FD_PIPE x))));;
            ret (Some (a, b))
      end
  end.
End file.

#[global] Arguments get_pipe : simpl never.
#[global] Arguments mod_pipe : simpl never.
#[global] Arguments get_file : simpl never.
#[global] Arguments mod_file : simpl never.
#[global] Arguments pipewrite : simpl never.
#[global] Arguments piperead : simpl never.
#[global] Arguments filealloc : simpl never.
#[global] Arguments filedup : simpl never.
#[global] Arguments fileclose : simpl never.
#[global] Arguments file_write : simpl never.
#[global] Arguments file_read : simpl never.
