(* ===== verification/FsSpec.v ===== *)
(** Reading and writing open files: [filewrite] and [fileread] ([file.c]) on the file
    system as a whole, between system calls. *)

From S2P Require Import Prelude Params Bytes State Spinlock Mem Kalloc PageTable Uaccess Procs Sched SchedSpec Bio BioSpec CacheSpec BlockSpec Log LogSpec CommitSpec CrashSpec Inode BallocSpec DiskSpec BmapSpec DinodeSpec Console Fs WriteSpec ReadSpec File.

(** ** The inode cache *)

(** Every in-core inode that is in use and valid is a copy of the disk's, and no
    inode is in the cache twice. *)
Record icache_ok (s : fsys) (C : Z → list Z) : Prop := mkIcacheOk {
  ic_len : length (inodes s) = 50%nat;
  ic_copy : ∀ j y, inodes s !! j = Some y → 0 < i_ref y → i_valid y = 1 →
    i_dev y = 1 ∧ 1 ≤ i_inum y < NINODES ∧ d_of y = nd C (i_inum y);
  ic_uniq : ∀ j j' y y', inodes s !! j = Some y → inodes s !! j' = Some y' → 0 < i_ref y → 0 < i_ref y' →
    i_dev y = i_dev y' → i_inum y = i_inum y' → j = j'
}.

(** The file system between transactions; [C] are the contents of the blocks. *)
Record fs_state (s : fsys) (C : Z → list Z) : Prop := mkFsState {
  fst_idle : fs_idle s C;
  fst_layout : layout s;
  fst_inv : fsinv C (nd C);
  fst_icache : icache_ok s C
}.

Section locks.
Context {W : world} {DW : DiskWorld}.
Implicit Types (k : kernel) (s : fsys) (i : nat) (x : inode).

Lemma acquiresleep_inode k p q i x :
  in_proc k p q → avail (Linode i) (k_mach k) → inodes (k_fs k) !! i = Some x → sl_locked (i_lock x) = 0 →
  acquiresleep (inode_lock i) k
  = Ok tt (set_k_fs (put_inode i (set_i_lock (mkSleeplock 1 (pid q)) x) (k_fs k)) k).
Proof.
  intros Hin Ha Hx Hl. rewrite (acquiresleep_ok (inode_lock i) k p q (i_lock x)); try done.
  - f_equal. unfold mod_fs, put_inode. cbn. by rewrite (alter_insert _ _ _ x).
  - intros f g s. cbn. by rewrite list_alter_alter_eq.
  - intros f g s Hfg. cbn. f_equal. apply list_alter_ext; [|done]. intros y _. by rewrite Hfg.
  - cbn. by rewrite Hx.
Qed.

(** [ilock] of an inode whose contents are in memory. *)
Lemma ilock_by k p q i x :
  in_proc k p q → fs_ready k → (i < 50)%nat → inodes (k_fs k) !! i = Some x → 0 < i_ref x → i_valid x = 1 → sl_locked (i_lock x) = 0 →
  ilock (Some i) k = Ok tt (set_k_fs (put_inode i (set_i_lock (mkSleeplock 1 (pid q)) x) (k_fs k)) k).
Proof.
  intros Hin Hr Hi Hx Href Hv Hl.
  unfold ilock. rewrite (bind_ok _ _ _ _ _ (get_inode_ok _ _ _ Hx)). rewrite (proj2 (Z.ltb_ge _ _)) by lia.
  rewrite (bind_ok _ _ _ _ _ (acquiresleep_inode k p q i x Hin (inode_avail k i Hr Hi) Hx Hl)).
  erewrite bind_ok by (apply get_inode_ok; by eapply put_inode_lookup). cbn [i_valid set_i_lock]. by rewrite Hv.
Qed.

Lemma ilock_valid k i x :
  fs_ready k → (i < 50)%nat → inodes (k_fs k) !! i = Some x → 0 < i_ref x → i_valid x = 1 → sl_locked (i_lock x) = 0 →
  ∃ l, ilock (Some i) k = Ok tt (set_k_fs (put_inode i (set_i_lock l x) (k_fs k)) k) ∧ sl_locked l = 1.
Proof.
  intros Hr Hi Hx Href Hv Hl. pose proof Hr as [(p & q & Hin) _ _]. exists (mkSleeplock 1 (pid q)). split; [by eapply ilock_by|done].
Qed.

Lemma iunlock_ok k i x :
  fs_ready k → (i < 50)%nat → inodes (k_fs k) !! i = Some x → 0 < i_ref x → sl_locked (i_lock x) = 1 →
  iunlock (Some i) k = Ok tt (set_k_fs (put_inode i (set_i_lock (mkSleeplock 0 0) x) (k_fs k)) k).
Proof.
  intros Hr Hi Hx Href Hl. unfold iunlock.
  rewrite (bind_ok _ _ _ _ _ (holdingsleep_ok (inode_lock i) k (i_lock x) (inode_avail k i Hr Hi) ltac:(cbn; by rewrite Hx))).
  rewrite (bind_ok _ _ _ _ _ (get_inode_ok _ _ _ Hx)). rewrite Hl, truthy_1. cbn [negb orb].
  rewrite (proj2 (Z.ltb_ge _ _)) by lia. rewrite releasesleep_ok; try done.
  - f_equal. unfold mod_fs, put_inode. cbn. by rewrite (alter_insert _ _ _ x).
  - by apply inode_avail.
  - by apply (fr_lock k Hr).
  - by apply (fr_quiet k Hr).
  - intros f g s. cbn. by rewrite list_alter_alter_eq.
  - intros f g s Hfg. cbn. f_equal. apply list_alter_ext; [|done]. intros y _. by rewrite Hfg.
Qed.
End locks.

(** ** Open files *)

(** File [f] is open on inode [i], which caches inode [n]; nobody else has it open, or
    holds its lock. *)
Record open_file (s : fsys) (f : nat) (fl : file) (i : nat) (x : inode) (n : Z) : Prop := mkOpenFile {
  of_file : files s !! f = Some fl;
  of_type : f_type fl = FD_INODE;
  of_read : f_readable fl ≠ 0;
  of_write : f_writable fl ≠ 0;
  of_ip : f_ip fl = Some i;
  of_inode : inodes s !! i = Some x;
  of_ref : 0 < i_ref x;
  of_valid : i_valid x = 1;
  of_dev : i_dev x = 1;
  of_inum : i_inum x = n;
  of_reg : i_type x = T_FILE;
  of_lock : sl_locked (i_lock x) = 0;
  of_alone : ∀ f' fl', f' ≠ f → files s !! f' = Some fl' → f_type fl' = FD_INODE → f_ip fl' ≠ Some i
}.

Section files.
Context {W : world} {DW : DiskWorld}.
Implicit Types (k : kernel) (s : fsys) (i f : nat) (x : inode) (C D : Z → list Z) (n off : Z).

Lemma get_file_ok k f fl : files (k_fs k) !! f = Some fl → get_file f k = Ok fl k.
Proof. intros Hf. unfold get_file. cbn. by rewrite Hf. Qed.

Lemma open_live s C f fl i x n : fs_state s C → open_file s f fl i x n → live (nd C) n ∧ d_of x = nd C n.
Proof.
  intros [_ _ _ Hic] [_ _ _ _ _ Hx Href Hv _ Hn Hreg _ _].
  destruct (ic_copy _ _ Hic i x Hx Href Hv) as (_ & Hr & Hcp). rewrite Hn in *. split; [|done].
  split; [done|]. rewrite <- Hcp. cbn. by rewrite Hreg.
Qed.

Lemma inode_lt s C i x : icache_ok s C → inodes s !! i = Some x → (i < 50)%nat.
Proof. intros Hic Hx. rewrite <- (ic_len _ _ Hic). by eapply lookup_lt_Some. Qed.

(** [C'] is [C] outside the log. *)
Lemma fsinv_home C C' : fsinv C (nd C) → (∀ n, home 2 n → C' n = C n) →
  fsinv C' (nd C') ∧ (∀ n, 1 ≤ n < NINODES → nd C' n = nd C n) ∧
  (∀ n, live (nd C) n → file_data C' (nd C n) = file_data C (nd C n)) ∧ free_blocks C' = free_blocks C.
Proof.
  intros Hi HC. assert (Hnd : ∀ n, 1 ≤ n < NINODES → nd C' n = nd C n).
  { intros n Hn. unfold nd. rewrite HC; [done|]. rewrite IBLOCK_eq. unfold home. clia. }
  destruct (fsinv_meta C C' (nd C) Hi) as [Hi' Hd]; [intros b Hb; apply HC; unfold home; clia|].
  split_and!; [|done|done|apply free_blocks_ext, HC; unfold home; clia].
  eapply fsinv_nd; [|exact Hi']. intros n Hn. by rewrite Hnd.
Qed.

(** *** The end of a transaction that wrote file [n] *)

(** The rest of the system: only inode [i] and file [f] have changed. *)
Record touched s s' i x' f fl' : Prop := mkTouched {
  tc_sb : sb s' = sb s;
  tc_inodes : inodes s' = <[i := x']> (inodes s);
  tc_files : files s' = <[f := fl']> (files s);
  tc_pipes : pipes s' = pipes s
}.

Lemma icache_written s s' C C' i x x' n f fl' off l :
  icache_ok s C → touched s s' i x' f fl' → inodes s !! i = Some x → 0 < i_ref x → i_dev x = 1 → i_inum x = n →
  1 ≤ n < NINODES → i_ref x' = i_ref x → i_dev x' = 1 → i_inum x' = n → d_of x' = nd C' n →
  file_written C C' n off l → icache_ok s' C'.
Proof.
  intros [Hlen Hcp Huq] [_ Hi _ _] Hx Href Hdev Hin Hn Href' Hdev' Hin' Hd' Hfw.
  assert (Hl : ∀ j y, inodes s' !! j = Some y → (j = i ∧ y = x') ∨ (j ≠ i ∧ inodes s !! j = Some y)).
  { intros j y. rewrite Hi. intros [(<- & <- & _)|[? ?]]%list_lookup_insert_Some; auto. }
  split.
  - by rewrite Hi, length_insert.
  - intros j y [[-> ->]|[Hne Hy]]%Hl Hr Hv; [by rewrite Hin'|].
    destruct (Hcp j y Hy Hr Hv) as (Hdy & Hry & Hcy). split_and!; try done; try lia.
    rewrite (fw_nd _ _ _ _ _ Hfw); [done|done|]. intros E. apply Hne. eapply (Huq j i y x); try done; congruence.
  - intros j j' y y' [[-> ->]|[Hne Hy]]%Hl [[-> ->]|[Hne' Hy']]%Hl Hr Hr' Hd Hin2.
    + done.
    + symmetry. eapply (Huq j' i y' x); try done; congruence.
    + eapply (Huq j i y x); try done; congruence.
    + by eapply Huq.
Qed.

Lemma commit_written k s0 C C2 D m i x x2 n f fl2 off l :
  fs_ready k → tx [] (k_fs k) C2 D m → outstanding (log (k_fs k)) = 1 → committing (log (k_fs k)) = 0 →
  layout (k_fs k) → hb_n (D 2) = 0 → fsinv C2 (nd C2) → live (nd C) n → live (nd C2) n → file_written C C2 n off l →
  fs_state s0 C → touched s0 (k_fs k) i x2 f fl2 → inodes s0 !! i = Some x → 0 < i_ref x → i_dev x = 1 → i_inum x = n →
  i_ref x2 = i_ref x → i_dev x2 = 1 → i_inum x2 = n → d_of x2 = nd C2 n →
  ∃ s' C', end_op k = Ok tt (set_k_fs s' k) ∧ fs_state s' C' ∧ file_written C C' n off l ∧
    touched s0 s' i x2 f fl2 ∧ d_of x2 = nd C' n.
Proof.
  intros Hr Htx Ho Hcm [Hsb Hls] Hh Hi Hn Hn2 Hfw [_ Hlay0 _ Hic] [T1 T2 T3 T4] Hx Href Hdev Hin Href' Hdev' Hin' Hd'.
  destruct (end_op_ok k C2 D m Hr Htx Ho Hcm) as (s' & Hrun & Hid & Hf & Hs' & Hw); [by rewrite Hls|].
  rewrite Hls in *. set (L := logged (k_fs k)) in *. set (C' := apply_writes _ D) in *.
  destruct Htx as [Hc Hlo _ _ HhL _]. rewrite Hls in HhL.
  assert (Hlen : (length L ≤ 29)%nat).
  { pose proof (logged_length _ Hlo) as E. fold L in E. pose proof (lo_n _ Hlo). clia. }
  assert (Hhome : ∀ b, home 2 b → C' b = C2 b).
  { intros b Hb. apply commit_home; try done. fold L in HhL |- *.
    destruct (cview_settled _ _ _ _ b Hc) as [Hq|]; [left|by right]. by apply elem_of_list_to_set in Hq. }
  destruct (fsinv_home C2 C' Hi Hhome) as (Hi' & Hnd & Hdata & Hfree).
  assert (HndL : nd C' n = nd C2 n) by apply Hnd, Hn.
  assert (Hfw' : file_written C C' n off l).
  { destruct Hfw as [F1 F2 F3 F4 F5 F6]. split; rewrite ?HndL; try done.
    - by rewrite Hdata.
    - intros n' Hn' Hne. rewrite Hnd by done. by apply F4.
    - intros n' Hl Hne. rewrite <- F5 by done. rewrite <- (F4 n') by (apply Hl || done). apply Hdata.
      split; [apply Hl|]. rewrite F4 by (apply Hl || done). apply Hl.
    - by rewrite Hfree. }
  destruct Hf as [G1 G2 G3 G4].
  assert (Ht : touched s0 s' i x2 f fl2) by (split; congruence).
  exists s', C'. split_and!; try done; [|by rewrite HndL]. split; try done.
  - split; [congruence|done].
  - eapply (icache_written s0 s' C C' i x x2 n); try done; [apply Hn|by rewrite HndL].
Qed.

(** *** One transaction of [filewrite] *)
Lemma tx_files h s C D m fs : tx h s C D m → tx h (set_files fs s) C D m.
Proof.
  intros [Hc]. split; try done. apply (cview_same h s); try done. intros n. by rewrite elem_of_list_to_set.
Qed.

Lemma at_mem_bytes k a l : at_mem k a l → Forall (λ b, 0 ≤ b < 256) l.
Proof.
  intros [_ [_ Hv]%vbytes_spec]. apply Forall_lookup. intros j b Hj. specialize (Hv j b Hj).
  unfold vload8 in Hv. destruct (vaddr k _); [|done]. injection Hv as <-. apply rd8_range.
Qed.

Lemma chunk_blocks off len : 0 ≤ off → 0 < len ≤ max_write → max_bytes 0 off len.
Proof. intros Ho Hl. change max_write with 1536 in Hl. unfold max_bytes, touched_blocks. lia. Qed.

(** From [begin_op] to [iunlock]. *)
Lemma chunk_tx k C f fl i x n a l :
  let len := Z.of_nat (length l) in let off := f_off fl in
  let s := k_fs k in let fl' := set_f_off (off + len) fl in
  fs_ready k → fs_state s C → open_file s f fl i x n → at_mem k a l → 0 < len ≤ max_write →
  0 ≤ off ≤ i_size x → off + len ≤ MAXFILE * BSIZE → need (i_size x) (off + len) ≤ Z.of_nat (length (free_blocks C)) →
  ∃ s' C2 m x2,
    (begin_op;;
     y ← get_file f;
     ilock (f_ip y);;
     ip ← or_ub "ip" (f_ip y);
     y ← get_file f;
     r ← writei mem_source ip a (f_off y) len;
     when (0 <? r) (mod_file f (λ y, set_f_off (u32 (f_off y + r)) y));;
     iunlock (Some ip);;
     ret r) k = Ok len (set_k_fs s' k) ∧ tx [] s' C2 C m ∧ outstanding (log s') = 1 ∧ committing (log s') = 0 ∧
    layout s' ∧ fsinv C2 (nd C2) ∧ live (nd C2) n ∧ file_written C C2 n off l ∧ touched s s' i x2 f fl' ∧
    d_of x2 = nd C2 n ∧ ∃ sz As, x2 = set_i_size sz (set_i_addrs As (set_i_lock (mkSleeplock 0 0) x)).
Proof.
  intros len off s fl' Hr Hfs Hof Hat Hlen Hoff Hmax Hneed.
  destruct (open_live _ _ _ _ _ _ _ Hfs Hof) as [Hn Hcp]. destruct Hfs as [Hid Hlay Hi Hic].
  pose proof Hof as [Hfile Hty Hrd Hwt Hip Hx Href Hv Hdev Hin Hreg Hlk Hal].
  destruct (begin_op_ok k C Hr Hid) as [Hr0 Htx0]. set (s0 := set_log _ (k_fs k)) in *.
  destruct (ilock_valid (set_k_fs s0 k) i x (fs_ready_fs _ _ Hr) (inode_lt _ _ _ _ Hic Hx) Hx Href Hv Hlk) as (lk & Hr1 & Hl1).
  set (x1 := set_i_lock lk x) in *. set (s1 := put_inode i x1 (k_fs (set_k_fs s0 k))) in *.
  assert (Hft : ftx (set_k_fs s1 k) C C 0 i x1 n).
  { split; try done; [by apply fs_ready_fs|by apply tx_inode|by eapply put_inode_lookup]. }
  destruct (writei_ok mem_source (at_mem k) (set_k_fs s1 k) C C 0 i x1 n off l a Hft)
    as (s2 & C2 & m & x2 & Hr2 & Hm & Hft2 & Hfw & Hst2 & sz & As & Hx2); try done.
  { change (i_type x1) with (i_type x). by rewrite Hreg. }
  { apply (mem_source_of k). }
  { by eapply at_mem_bytes. }
  { lia. }
  { apply chunk_blocks; lia. }
  destruct Hft2 as [_ Hlay2 Htx2 Hi2 Hn2 Hx2i Hdev2 Hin2 Hcp2]. cbn in Hx2i. change (k_fs (set_k_fs s2 _)) with s2 in *.
  set (s3 := set_files (alter (λ y, set_f_off (u32 (f_off y + len)) y) f (files s2)) s2).
  set (x3 := set_i_lock (mkSleeplock 0 0) x2). set (s4 := put_inode i x3 s3).
  assert (Hr4 : iunlock (Some i) (set_k_fs s3 k) = Ok tt (set_k_fs s4 k)).
  { apply (iunlock_ok (set_k_fs s3 k) i x2); [by apply fs_ready_fs|by eapply inode_lt|done|by rewrite Hx2|by rewrite Hx2]. }
  assert (Hf2 : files s2 = files s) by apply Hst2.
  exists s4, C2, m, x3. destruct Hst2 as [S1 S2 S3 S4 [y S5] S6].
  split_and!; try done.
  - rewrite (bind_ok _ _ _ _ _ Hr0). rewrite (bind_ok _ _ _ _ _ (get_file_ok (set_k_fs s0 k) f fl Hfile)). rewrite Hip.
    rewrite (bind_ok _ _ _ _ _ Hr1), bind_or_ub.
    rewrite (bind_ok _ _ _ _ _ (get_file_ok (set_k_fs s1 k) f fl Hfile)). fold off.
    rewrite (bind_ok _ _ _ _ _ Hr2). fold len. rewrite (proj2 (Z.ltb_lt 0 len)), bind_when_true by lia.
    rewrite (bind_ok _ _ _ tt (set_k_fs s3 k)) by done. by rewrite (bind_ok _ _ _ _ _ Hr4).
  - by apply tx_inode, tx_files.
  - change (log s4) with (log s2). by rewrite S5.
  - change (log s4) with (log s2). rewrite S5. apply (fi_com _ _ Hid).
  - split.
    + change (sb s4) with (sb s2). by rewrite S1.
    + change (inodes s4) with (<[i := x3]> (inodes s2)). rewrite S2. cbn. by rewrite !list_insert_insert_eq.
    + change (files s4) with (alter (λ y, set_f_off (u32 (f_off y + len)) y) f (files s2)). rewrite Hf2.
      rewrite (alter_insert _ _ _ fl) by done. unfold fl'. fold off. by rewrite u32_small by clia.
    + change (pipes s4) with (pipes s2). by rewrite S4.
  - exists sz, As. unfold x3. rewrite Hx2. by destruct x.
Qed.

Lemma touched_open s s' f fl fl' i x x' n :
  open_file s f fl i x n → touched s s' i x' f fl' → f_type fl' = FD_INODE → f_readable fl' = f_readable fl →
  f_writable fl' = f_writable fl → f_ip fl' = f_ip fl → 0 < i_ref x' → i_valid x' = 1 → i_dev x' = 1 → i_inum x' = n →
  i_type x' = T_FILE → sl_locked (i_lock x') = 0 → open_file s' f fl' i x' n.
Proof.
  intros [Hfile Hty Hrd Hwt Hip Hx Href Hv Hdev Hin Hreg Hlk Hal] [T1 T2 T3 T4] ? ? ? ? ? ? ? ? ? ?.
  split; try done; try congruence.
  - rewrite T3. apply list_lookup_insert_eq. by eapply lookup_lt_Some.
  - rewrite T2. apply list_lookup_insert_eq. by eapply lookup_lt_Some.
  - intros f' fl0 Hne. rewrite T3, list_lookup_insert_ne by done. by apply Hal.
Qed.

Lemma touched_trans s1 s2 s3 i x2 x3 f fl2 fl3 :
  touched s1 s2 i x2 f fl2 → touched s2 s3 i x3 f fl3 → touched s1 s3 i x3 f fl3.
Proof.
  intros [A1 A2 A3 A4] [B1 B2 B3 B4]. split; try congruence.
  - by rewrite B2, A2, list_insert_insert_eq.
  - by rewrite B3, A3, list_insert_insert_eq.
Qed.

Lemma file_written_nil C n off : 0 ≤ off ≤ d_size (nd C n) → file_written C C n off [].
Proof.
  intros Ho. split; try done.
  - rewrite splice_nil; [done|]. rewrite length_file_data. lia.
  - change (Z.of_nat (length [])) with 0. lia.
  - unfold need, needn. rewrite Z.max_id. zcases; cbn; lia.
Qed.

Lemma file_written_app C C1 C2 n off l1 l2 :
  0 ≤ off ≤ d_size (nd C n) → file_written C C1 n off l1 →
  file_written C1 C2 n (off + Z.of_nat (length l1)) l2 → file_written C C2 n off (l1 ++ l2).
Proof.
  intros Ho [A1 A2 A3 A4 A5 A6] [B1 B2 B3 B4 B5 B6]. split; try congruence.
  - rewrite B1, A1. rewrite <- splice_app by (rewrite length_file_data; lia). f_equal. lia.
  - rewrite length_app. lia.
  - intros n' Hn Hne. rewrite B4 by done. by apply A4.
  - intros n' Hl Hne. rewrite <- A5 by done. rewrite <- (A4 n') by (apply Hl || done). apply B5; [|done].
    split; [apply Hl|]. rewrite A4 by (apply Hl || done). apply Hl.
  - rewrite (need_split _ (d_size (nd C1 n))) by lia. lia.
Qed.

(** File [f] has been written, and is still open. *)
Definition written k C f fl i n l s' C' : Prop :=
  ∃ fl' x', fs_state s' C' ∧ file_written C C' n (f_off fl) l ∧ open_file s' f fl' i x' n ∧
    touched (k_fs k) s' i x' f fl' ∧ f_off fl' = f_off fl + Z.of_nat (length l).

Lemma write_chunk k C f fl i x n a l :
  let len := Z.of_nat (length l) in let off := f_off fl in
  fs_ready k → fs_state (k_fs k) C → open_file (k_fs k) f fl i x n → at_mem k a l → 0 < len ≤ max_write →
  0 ≤ off ≤ i_size x → off + len ≤ MAXFILE * BSIZE → need (i_size x) (off + len) ≤ Z.of_nat (length (free_blocks C)) →
  ∃ s' C', (∀ (F : Z → K Z), (begin_op;;
     y ← get_file f;
     ilock (f_ip y);;
     ip ← or_ub "ip" (f_ip y);
     y ← get_file f;
     r ← writei mem_source ip a (f_off y) len;
     when (0 <? r) (mod_file f (λ y, set_f_off (u32 (f_off y + r)) y));;
     iunlock (Some ip);;
     end_op;; F r) k = F len (set_k_fs s' k)) ∧ written k C f fl i n l s' C'.
Proof.
  intros len off Hr Hfs Hof Hat Hlen Hoff Hmax Hneed.
  destruct (chunk_tx k C f fl i x n a l Hr Hfs Hof Hat Hlen Hoff Hmax Hneed)
    as (s1 & C1 & m & x1 & Hr1 & Htx & Ho & Hcm & Hlay & Hi & Hn1 & Hfw & Htc & Hcp & sz & As & Hx1).
  destruct (open_live _ _ _ _ _ _ _ Hfs Hof) as [Hn Hcp0].
  pose proof Hof as [Hfile Hty Hrd Hwt Hip Hx Href Hv Hdev Hin Hreg Hlk Hal].
  assert (Hls : log_start (log (k_fs k)) = 2) by apply Hfs.
  destruct (commit_written (set_k_fs s1 k) (k_fs k) C C1 C m i x x1 n f (set_f_off (off + len) fl) off l)
    as (s2 & C2 & Hr2 & Hfs2 & Hfw2 & Htc2 & Hcp2); try done; try (by rewrite Hx1).
  { by apply fs_ready_fs. }
  { pose proof (fi_head _ _ (fst_idle _ _ Hfs)) as Hh. by rewrite Hls in Hh. }
  exists s2, C2. split.
  - intros F. revert Hr1. unfold bind, ret.
    destruct (begin_op k) as [u k1|]; [|done]. destruct (get_file f k1) as [y k2|]; [|done].
    destruct (ilock (f_ip y) k2) as [u2 k3|]; [|done]. destruct (or_ub "ip" (f_ip y) k3) as [ip k4|]; [|done].
    destruct (get_file f k4) as [y2 k5|]; [|done]. destruct (writei _ _ _ _ _ k5) as [r k6|]; [|done].
    destruct (when _ _ k6) as [u3 k7|]; [|done]. destruct (iunlock (Some ip) k7) as [u4 k8|]; [|done].
    intros [= -> ->]. by rewrite Hr2.
  - exists (set_f_off (off + len) fl), x1. split_and!; try done.
    eapply (touched_open (k_fs k) s2); try done; by rewrite Hx1.
Qed.

Lemma written_nil k C f fl i x n :
  fs_state (k_fs k) C → open_file (k_fs k) f fl i x n → 0 ≤ f_off fl ≤ i_size x → written k C f fl i n [] (k_fs k) C.
Proof.
  intros Hfs Hof Ho. destruct (open_live _ _ _ _ _ _ _ Hfs Hof) as [_ Hcp]. exists fl, x. split_and!; try done.
  - apply file_written_nil. by rewrite <- Hcp.
  - split; try done; (rewrite list_insert_id; [done|apply Hof]).
  - change (Z.of_nat (length [])) with 0. lia.
Qed.

Lemma written_app k C f fl i x n l1 l2 s1 C1 fl1 x1 s2 C2 :
  0 ≤ f_off fl ≤ i_size x → d_of x = nd C n → fs_state s1 C1 → file_written C C1 n (f_off fl) l1 →
  open_file s1 f fl1 i x1 n → touched (k_fs k) s1 i x1 f fl1 → f_off fl1 = f_off fl + Z.of_nat (length l1) →
  written (set_k_fs s1 k) C1 f fl1 i n l2 s2 C2 → written k C f fl i n (l1 ++ l2) s2 C2.
Proof.
  intros Ho Hcp Hfs1 Hfw1 Hof1 Htc1 Hoff1 (fl2 & x2 & Hfs2 & Hfw2 & Hof2 & Htc2 & Hoff2).
  exists fl2, x2. split_and!; try done.
  - rewrite Hoff1 in Hfw2. eapply file_written_app; [|done..]. by rewrite <- Hcp.
  - by eapply touched_trans.
  - rewrite Hoff2, Hoff1, length_app. lia.
Qed.

Lemma at_mem_split k a l1 l2 :
  at_mem k a (l1 ++ l2) → at_mem k a l1 ∧ at_mem k (u32 (a + Z.of_nat (length l1))) l2.
Proof.
  intros [Ha Hv]. split; (split; [done || apply u32_range|]).
  - pose proof (vbytes_sub k _ _ _ 0 (length l1) Hv ltac:(rewrite length_app; lia)) as Hs.
    rewrite Z.add_0_r, u32_small in Hs by done. rewrite Hs. unfold sub. by rewrite drop_0, take_app_length.
  - pose proof (vbytes_sub k _ _ _ (length l1) (length l2) Hv ltac:(rewrite length_app; lia)) as Hs.
    rewrite Hs. unfold sub. by rewrite drop_app_length, firstn_all.
Qed.

Lemma filewrite_loop_ok (fuel : nat) : ∀ k C f fl i x n addr total tot l,
  let len := Z.of_nat (length l) in let off := f_off fl in
  fs_ready k → fs_state (k_fs k) C → open_file (k_fs k) f fl i x n → at_mem k (u32 (addr + tot)) l → total - tot = len →
  (length l ≤ fuel)%nat → 0 ≤ off ≤ i_size x → off + len ≤ MAXFILE * BSIZE →
  need (i_size x) (off + len) ≤ Z.of_nat (length (free_blocks C)) →
  ∃ s' C', filewrite_loop fuel f addr total tot k = Ok total (set_k_fs s' k) ∧ written k C f fl i n l s' C'.
Proof.
  induction fuel as [|fuel IH]; intros k C f fl i x n addr total tot l len off Hr Hfs Hof Hat Hlen Hfu Hoff Hmax Hneed.
  all: destruct (decide (l = [])) as [->|Hnil].
  1, 3: exists (k_fs k), C; split; [|by eapply written_nil];
    change len with 0 in Hlen; cbn [filewrite_loop]; rewrite (proj2 (Z.ltb_ge _ _)) by lia; unfold ret; f_equal; [lia|by destruct k].
  { destruct l; [done|cbn in Hfu; lia]. }
  set (m := Z.min len 1536). rewrite <- (take_drop (Z.to_nat m) l) in Hat |- *.
  set (l1 := take (Z.to_nat m) l) in *. set (l2 := drop (Z.to_nat m) l) in *.
  assert (Hlen0 : 0 < len) by (destruct l; [done|unfold len; cbn; lia]).
  assert (Hl1 : Z.of_nat (length l1) = m) by (unfold l1; rewrite length_take; lia).
  assert (Hl2 : Z.of_nat (length l2) = len - m) by (unfold l2; rewrite length_drop; lia).
  apply at_mem_split in Hat as [Hat1 Hat2]. rewrite Hl1 in Hat2.
  pose proof (need_mono (i_size x) (off + m) (off + len) ltac:(lia)).
  destruct (write_chunk k C f fl i x n _ l1 Hr Hfs Hof Hat1) as (s1 & C1 & Hr1 & fl1 & x1 & Hfs1 & Hfw1 & Hof1 & Htc1 & Hoff1);
    try (change max_write with 1536); rewrite ?Hl1; fold off; try lia.
  destruct (open_live _ _ _ _ _ _ _ Hfs Hof) as [_ Hcp]. destruct (open_live _ _ _ _ _ _ _ Hfs1 Hof1) as [_ Hcp1].
  assert (Hsz : i_size x1 = Z.max (i_size x) (off + m)).
  { pose proof (fw_size _ _ _ _ _ Hfw1) as E. rewrite <- Hcp, <- Hcp1, Hl1 in E. exact E. }
  pose proof (fw_free _ _ _ _ _ Hfw1) as Hfree. rewrite <- Hcp, <- Hcp1 in Hfree.
  change (d_size (d_of ?y)) with (i_size y) in Hfree. rewrite Hl1 in Hoff1.
  destruct (IH (set_k_fs s1 k) C1 f fl1 i x1 n addr total (tot + m) l2) as (s2 & C2 & Hr2 & Hw2); try done.
  { by apply fs_ready_fs. }
  { replace (u32 (addr + (tot + m))) with (u32 (u32 (addr + tot) + m)); [done|]. unfold u32. rewrite Zplus_mod_idemp_l. f_equal. lia. }
  { lia. }
  { unfold l2 in *. lia. }
  { rewrite Hoff1. unfold off in *. lia. }
  { rewrite Hoff1. unfold off in *. lia. }
  { rewrite Hoff1, Hl2. replace (f_off fl + m + (len - m)) with (off + len) by (unfold off; lia).
    rewrite (need_split (i_size x) (i_size x1)) in Hneed by lia. lia. }
  exists s2, C2. split; [|by eapply written_app; rewrite ?Hl1].
  cbn [filewrite_loop]. rewrite (proj2 (Z.ltb_lt _ _)) by lia. rewrite Hlen. change (Z.min len max_write) with m.
  rewrite <- Hl1, Hr1, Hl1. rewrite (proj2 (Z.ltb_ge _ _)) by lia. by rewrite Z.eqb_refl.
Qed.

(** [filewrite]: the bytes at [addr] are written at the file's offset, and the offset
    moves past them. *)
Lemma file_write_ok k C f fl i x n addr l :
  let len := Z.of_nat (length l) in let off := f_off fl in
  fs_ready k → fs_state (k_fs k) C → open_file (k_fs k) f fl i x n → at_mem k addr l →
  0 ≤ off ≤ i_size x → off + len ≤ MAXFILE * BSIZE →
  need (i_size x) (off + len) ≤ Z.of_nat (length (free_blocks C)) →
  ∃ s' C', file_write f addr len k = Ok len (set_k_fs s' k) ∧ written k C f fl i n l s' C'.
Proof.
  intros len off Hr Hfs Hof Hat Ho Hmax Hneed.
  destruct (filewrite_loop_ok (S (Z.to_nat len)) k C f fl i x n addr len 0 l) as (s' & C' & Hr1 & Hw); try done.
  { rewrite Z.add_0_r, u32_small by apply Hat. done. }
  { fold len. lia. }
  { unfold len. lia. }
  exists s', C'. split; [|done]. unfold file_write. rewrite (bind_ok _ _ _ _ _ (get_file_ok k f fl (of_file _ _ _ _ _ _ Hof))).
  rewrite (proj2 (Z.eqb_neq _ _) (of_write _ _ _ _ _ _ Hof)), (of_type _ _ _ _ _ _ Hof).
  rewrite (bind_ok _ _ _ _ _ Hr1). by rewrite Z.eqb_refl.
Qed.

(** The file system does not depend on the rest of the tables. *)
Lemma cview_frame s s' C D Q :
  bufs s' = bufs s → lru s' = lru s → disk s' = disk s → (ide_idle s → ide_idle s') → log s' = log s →
  cview [] s C D Q → (∀ n, n ∈ Q → n ∈ logged s) → cview [] s' C D Q.
Proof. intros ? ? ? ? Hl Hc HQ. apply (cview_same [] s); try done. intros n Hn. unfold logged. rewrite Hl. by apply HQ. Qed.

(** [fileread]: [T] is the effect of what receives the bytes, which end with the file. *)
Lemma fileread_to_ok {A} (snk : sink A) N T k C f fl i x n len :
  let off := f_off fl in let s := k_fs k in let r := Z.min len (i_size x - off) in
  sink_of snk N T r k → fs_ready k → fs_state s C → open_file s f fl i x n →
  0 ≤ off ≤ i_size x → 0 ≤ len < 2 ^ 31 →
  let l := sub (file_data C (nd C n)) (Z.to_nat off) (Z.to_nat r) in
  ∃ s' x', fileread_to snk f (N []) len k = Ok (r, N l) (set_k_fs s' (T l k)) ∧
    fs_state s' C ∧ open_file s' f (set_f_off (off + r) fl) i x' n ∧ touched s s' i x' f (set_f_off (off + r) fl).
Proof.
  intros off s r Hsnk Hr Hfs Hof Hoff Hlen l.
  destruct (open_live _ _ _ _ _ _ _ Hfs Hof) as [Hn Hcp]. destruct Hfs as [Hid Hlay Hi Hic].
  pose proof Hof as [Hfile Hty Hrd Hwt Hip Hx Href Hv Hdev Hin Hreg Hlk Hal].
  destruct (ilock_valid k i x Hr (inode_lt _ _ _ _ Hic Hx) Hx Href Hv Hlk) as (lk & Hr1 & Hl1).
  set (x1 := set_i_lock lk x) in *. set (s1 := put_inode i x1 (k_fs k)) in *.
  pose proof (fi_view _ _ Hid) as Hc.
  assert (Hwf : wf_inode C (nd C n)) by (by apply (fsi_wf _ _ Hi)).
  assert (Hsz : i_size x ≤ MAXFILE * BSIZE) by (change (i_size x) with (d_size (d_of x)); rewrite Hcp; apply Hwf).
  destruct (readi_ok snk N T (set_k_fs s1 k) C C ∅ i x1 n off len (sink_of_fs _ _ _ _ _ _ Hsnk)) as (s2 & Hr2 & Hc2 & Hst2); try done; try clia.
  { by apply fs_ready_fs. }
  { apply (cview_frame s); done. }
  { vm_compute. lia. }
  { by eapply put_inode_lookup. }
  { change (i_type x1) with (i_type x). by rewrite Hreg. }
  change (i_size x1) with (i_size x) in Hr2. fold r in Hr2. fold l in Hr2.
  rewrite (so_fs _ _ _ _ _ Hsnk) in Hr2. change (set_k_fs s2 (set_k_fs s1 (T l k))) with (set_k_fs s2 (T l k)) in Hr2.
  destruct Hst2 as [[F1 F2 F3 F4] Hlg _]. cbn in F1, F2, F3, F4, Hlg.
  set (fl' := set_f_off (off + r) fl). set (s3 := set_files (<[f := fl']> (files s2)) s2).
  set (x3 := set_i_lock (mkSleeplock 0 0) x). set (s4 := put_inode i x3 s3).
  assert (Hx2 : inodes s3 !! i = Some x1) by (change (inodes s3) with (inodes s2); rewrite F2; by eapply put_inode_lookup).
  assert (Hr4 : iunlock (Some i) (set_k_fs s3 (T l k)) = Ok tt (set_k_fs s4 (T l k))).
  { rewrite (iunlock_ok _ i x1); try done; [|by eapply inode_lt]; by apply fs_ready_fs, (so_ready _ _ _ _ _ Hsnk). }
  assert (Htc : touched s s4 i x3 f fl').
  { split; try done.
    - change (inodes s4) with (<[i := x3]> (inodes s2)). rewrite F2. cbn. by rewrite list_insert_insert_eq.
    - change (files s4) with (<[f := fl']> (files s2)). by rewrite F3. }
  exists s4, x3. split_and!; [| |by eapply (touched_open s s4 f fl)|done].
  - unfold fileread_to. rewrite (bind_ok _ _ _ _ _ (get_file_ok k f fl Hfile)).
    rewrite (proj2 (Z.eqb_neq _ _) Hrd), Hty, Hip. rewrite (bind_ok _ _ _ _ _ Hr1), bind_or_ub.
    rewrite (bind_ok _ _ _ _ _ (get_file_ok (set_k_fs s1 k) f fl Hfile)). fold off. rewrite u32_small by clia.
    rewrite (bind_ok _ _ _ _ _ Hr2). rewrite (bind_ok _ _ _ tt (set_k_fs s3 (T l k))); [by rewrite (bind_ok _ _ _ _ _ Hr4)|].
    destruct (Z.ltb_spec 0 r) as [Hpos|Hz]; cbn [when].
    + unfold mod_file, modf, modify. cbn. unfold mod_fs. f_equal. unfold s3. cbn.
      rewrite (alter_insert _ _ _ fl) by (by rewrite F3). fold off. by rewrite u32_small by (unfold r; clia).
    + cbn. unfold s3, fl', ret. f_equal. f_equal. assert (r = 0) as -> by (unfold r in *; lia). rewrite Z.add_0_r, list_insert_id; [by destruct s2|].
      rewrite F3. etrans; [exact Hfile|]. by destruct fl.
  - split; try done.
    + destruct Hid as [G1 G2 G3 G4 G5 G6]. split; try (change (log s4) with (log s2); by rewrite Hlg).
      apply (cview_frame s2); done.
    + split; [change (sb s4) with (sb s2); by rewrite F1; apply Hlay|]. change (log s4) with (log s2). rewrite Hlg. apply Hlay.
    + eapply (icache_written s s4 C C i x x3 n f fl' 0 []); try done; [apply Hn|]. apply file_written_nil.
      rewrite <- Hcp. cbn. lia.
Qed.
End files.
