(* ===== verification/DirSpec.v ===== *)
(** Directories as maps from names to inode numbers, and path names ([fs.c]): what
    [namecmp], [strncpy] and [skipelem] make of a name. *)

From S2P Require Import Prelude Params Bytes State Inode Fs BallocSpec DiskSpec DinodeSpec.

(** ** Names *)

(** The name a string or a [char[DIRSIZ]] stands for: what is before the zero, at most
    fourteen bytes. *)
Definition cname (l : list Z) : list Z := take 14 (until_zero l).

Lemma strncmp_l_eq n : ∀ p q, strncmp_l n p q = 0 ↔ take n (until_zero p) = take n (until_zero q).
Proof.
  induction n as [|n IH]; intros p q; [done|]. destruct p as [|a p], q as [|b q]; cbn.
  - done.
  - destruct (Z.eqb_spec b 0) as [->|Hb]; [done|]. split; [lia|done].
  - destruct (Z.eqb_spec a 0) as [->|Ha]; [done|]. cbn. split; [lia|done].
  - destruct (Z.eqb_spec a 0) as [->|Ha]; cbn.
    + destruct (Z.eqb_spec b 0) as [->|Hb]; [done|]. split; [lia|done].
    + destruct (Z.eqb_spec a b) as [->|Hab]; cbn.
      * rewrite (proj2 (Z.eqb_neq b 0)) by done. rewrite IH. cbn. split; [by intros ->|by intros [=]].
      * destruct (Z.eqb_spec b 0) as [->|Hb]; cbn; split; [lia|done|lia|by intros [=]].
Qed.

Lemma namecmp_eq s t : (namecmp s t =? 0) = bool_decide (cname s = cname t).
Proof.
  unfold namecmp, cname. change (Z.to_nat DIRSIZ) with 14%nat. case_bool_decide as Hc.
  - apply Z.eqb_eq. by apply strncmp_l_eq.
  - apply Z.eqb_neq. by rewrite strncmp_l_eq.
Qed.

Lemma until_zero_zeros n : until_zero (replicate n 0) = [].
Proof. by destruct n. Qed.

Lemma strncpy_l_name n : ∀ t, take n (until_zero (strncpy_l n t)) = take n (until_zero t) ∧ length (strncpy_l n t) = n.
Proof.
  induction n as [|n IH]; intros t; [done|]. destruct t as [|c t]; cbn.
  - by rewrite length_replicate.
  - destruct (Z.eqb_spec c 0) as [->|Hc]; cbn; [by rewrite length_replicate|].
    rewrite (proj2 (Z.eqb_neq c 0)) by done. destruct (IH t) as [Ht Hl]. cbn. by rewrite Ht, Hl.
Qed.

Lemma cname_strncpy nm : cname (strncpy_l 14 nm) = cname nm.
Proof. apply strncpy_l_name. Qed.

Lemma strncpy_l_bytes n : ∀ t, bytes_ok (take n (until_zero t)) → bytes_ok (strncpy_l n t).
Proof.
  induction n as [|n IH]; intros t Ht; [constructor|]. assert (Hz : bytes_ok (0 :: replicate n 0)).
  { constructor; [lia|]. apply Forall_replicate. lia. }
  destruct t as [|c t]; cbn in *; [done|]. destruct (c =? 0); [done|]. inversion_clear Ht. constructor; [done|by apply IH].
Qed.

Lemma cname_bytes nm : bytes_ok nm → bytes_ok (cname nm).
Proof.
  intros Hb. apply Forall_take. induction Hb as [|c nm Hc Hb IH]; [constructor|]. cbn. destruct (c =? 0); [constructor|by constructor].
Qed.

(** ** The entries of a directory *)
Definition dents (l : list Z) : list dirent := (λ j, dirent_of (sub l (16 * j) 16)) <$> seq 0 (length l / 16).

Lemma length_dents l : length (dents l) = (length l / 16)%nat.
Proof. unfold dents. by rewrite length_fmap, length_seq. Qed.

Lemma dents_lookup l j : (j < length l / 16)%nat → dents l !! j = Some (dirent_of (sub l (16 * j) 16)).
Proof. intros Hj. unfold dents. rewrite list_lookup_fmap, lookup_seq_lt by done. done. Qed.

(** Does the entry give the name [nm] to an inode? *)
Definition names_it (nm : list Z) (e : dirent) : bool := negb (de_inum e =? 0) && bool_decide (cname nm = cname (de_name e)).

(** The first entry for a name, from the [j]th entry on, and its offset. *)
Fixpoint find_from (j : nat) (es : list dirent) (nm : list Z) : option (Z * Z) :=
  match es with
  | [] => None
  | e :: es => if names_it nm e then Some (de_inum e, 16 * Z.of_nat j) else find_from (S j) es nm
  end.
Definition dir_find (es : list dirent) (nm : list Z) : option (Z * Z) := find_from 0 es nm.

(** The first unused entry. *)
Fixpoint free_from (j : nat) (es : list dirent) : nat :=
  match es with
  | [] => j
  | e :: es => if de_inum e =? 0 then j else free_from (S j) es
  end.
Definition first_free (es : list dirent) : nat := free_from 0 es.

(** The directory with the entry at [j], which may be one past the last. *)
Definition with_entry (j : nat) (e : dirent) (es : list dirent) : list dirent := take j es ++ e :: drop (S j) es.

Lemma free_from_spec es : ∀ j, ∃ i, free_from j es = (j + i)%nat ∧ (i ≤ length es)%nat ∧
  (∀ e, es !! i = Some e → de_inum e = 0) ∧ Forall (λ e, de_inum e ≠ 0) (take i es).
Proof.
  induction es as [|e es IH]; intros j; cbn.
  - exists 0%nat. split_and!; [lia|done|done|constructor].
  - destruct (Z.eqb_spec (de_inum e) 0) as [He|He].
    + exists 0%nat. split_and!; [lia|lia|by intros ? [= <-]|constructor].
    + destruct (IH (S j)) as (i & -> & Hi & H0 & Hall). exists (S i). split_and!; [lia|lia|done|by constructor].
Qed.

Lemma find_from_app nm es1 : ∀ j es2,
  find_from j (es1 ++ es2) nm = match find_from j es1 nm with Some r => Some r | None => find_from (j + length es1) es2 nm end.
Proof.
  induction es1 as [|e es1 IH]; intros j es2; cbn; [by rewrite Nat.add_0_r|]. destruct (names_it nm e); [done|].
  rewrite IH. by replace (S j + length es1)%nat with (j + S (length es1))%nat by lia.
Qed.

(** Names that differ only after the fourteenth byte or the zero are the same name. *)
Lemma find_from_cname es nm nm' : cname nm = cname nm' → ∀ j, find_from j es nm = find_from j es nm'.
Proof. intros Hc. induction es as [|e es IH]; intros j; cbn; [done|]. unfold names_it. by rewrite Hc, IH. Qed.

(** A new entry for a name that had none is what is found, and the other names are as before. *)
Lemma find_with_entry es nm n nm' :
  let j := first_free es in let e := mkDirent n (strncpy_l 14 nm) in
  n ≠ 0 → dir_find es nm = None →
  dir_find (with_entry j e es) nm' =
    if bool_decide (cname nm' = cname nm) then Some (n, 16 * Z.of_nat j) else dir_find es nm'.
Proof.
  intros j e Hn Hnone. unfold dir_find, with_entry in *. destruct (free_from_spec es 0) as (i & Hj & Hi & H0 & _).
  fold (first_free es) in Hj. fold j in Hj. cbn in Hj. rewrite Hj in *. clear Hj.
  assert (Hname : names_it nm' e = bool_decide (cname nm' = cname nm)).
  { unfold names_it, e. cbn [de_inum de_name]. rewrite (proj2 (Z.eqb_neq n 0)) by done. cbn [negb andb].
    by rewrite cname_strncpy. }
  assert (Hsame : cname nm' = cname nm → find_from 0 es nm' = find_from 0 es nm) by (intros; by apply find_from_cname).
  rewrite find_from_app. cbn [find_from]. rewrite Hname, length_take_le by done.
  rewrite <- (take_drop i es) in Hnone, Hsame |- * at 2. 
  rewrite !find_from_app, !length_take_le in * by done. 
  case_bool_decide as Hc.
  - rewrite <- (Hsame Hc) in Hnone. destruct (find_from 0 (take i es) nm'); done.
  - destruct (find_from 0 (take i es) nm'); [done|]. cbn [Nat.add]. replace (drop (S i) es) with (drop 1 (drop i es)) by (rewrite drop_drop; f_equal; lia).
    destruct (drop i es) as [|d ds] eqn:Hd; [done|]. cbn [find_from drop]. unfold names_it at 1. rewrite (H0 d); [done|].
    rewrite <- (Nat.add_0_r i), <- lookup_drop, Hd. done.
Qed.

(** ** The bytes of an entry *)
Definition entry_ok (e : dirent) : Prop := 0 ≤ de_inum e < 2 ^ 16 ∧ length (de_name e) = 14%nat.

Lemma length_dirent_bytes e : length (de_name e) = 14%nat → length (dirent_bytes e) = 16%nat.
Proof. intros He. unfold dirent_bytes. by rewrite length_app, length_le_bytes, He. Qed.

Lemma dirent_of_bytes e : entry_ok e → dirent_of (dirent_bytes e) = e.
Proof.
  intros [Hi Hn]. destruct e as [n nm]. unfold dirent_of, dirent_bytes, get16, sub. cbn [de_inum de_name] in *. f_equal.
  - rewrite drop_0, take_app_length' by (by rewrite length_le_bytes). rewrite le_val_bytes. apply Z.mod_small. exact Hi.
  - rewrite drop_app_length' by (by rewrite length_le_bytes). by rewrite take_ge by lia.
Qed.

Lemma sixteenth q : (16 * q / 16)%nat = q.
Proof. rewrite Nat.mul_comm. by apply Nat.div_mul. Qed.

Lemma dents_with_entry l q j e :
  length l = (16 * q)%nat → (j ≤ q)%nat → entry_ok e →
  dents (splice l (16 * j) (dirent_bytes e)) = with_entry j e (dents l).
Proof.
  intros Hl Hj He. pose proof (length_dirent_bytes e (proj2 He)) as Hb. set (l' := splice l (16 * j) (dirent_bytes e)).
  assert (Hlen : length l' = (16 * Nat.max q (S j))%nat) by (unfold l'; rewrite length_splice, Hb; lia).
  assert (Hd : length (dents l) = q) by (by rewrite length_dents, Hl, sixteenth).
  assert (Hd' : length (dents l') = Nat.max q (S j)) by (by rewrite length_dents, Hlen, sixteenth).
  apply list_eq. intros t. unfold with_entry. destruct (decide (t < Nat.max q (S j))%nat) as [Ht|Ht].
  - rewrite dents_lookup by (by rewrite Hlen, sixteenth). unfold l'. destruct (decide (t = j)) as [->|Hne].
    + rewrite lookup_app_r by (rewrite length_take; lia). rewrite length_take, Hd, Nat.min_l, Nat.sub_diag by lia. cbn [lookup list_lookup].
      pose proof (sub_splice_eq l (16 * j) (dirent_bytes e) ltac:(lia)) as Hs. rewrite Hb in Hs. by rewrite Hs, dirent_of_bytes.
    + rewrite sub_splice_ne by lia. rewrite <- dents_lookup by (rewrite Hl, sixteenth; lia).
      destruct (decide (t < j)%nat).
      * rewrite lookup_app_l by (rewrite length_take; lia). by rewrite lookup_take_lt by lia.
      * rewrite lookup_app_r by (rewrite length_take; lia). rewrite length_take, Hd, Nat.min_l by lia.
        destruct (t - j)%nat as [|u] eqn:Hu; [lia|]. change ((e :: drop (S j) (dents l)) !! S u) with (drop (S j) (dents l) !! u).
        rewrite lookup_drop. f_equal. lia.
  - rewrite lookup_ge_None_2 by lia. symmetry. apply lookup_ge_None_2.
    rewrite length_app, length_take. cbn [length]. rewrite length_drop. lia.
Qed.

(** ** Paths *)
Fixpoint comps (cur path : list Z) : list (list Z) :=
  match path with
  | [] => [cur]
  | c :: path => if c =? SLASH then cur :: comps [] path else comps (cur ++ [c]) path
  end.
(** The elements of a path: what is between the slashes, empty ones left out. *)
Definition split_path (path : list Z) : list (list Z) := filter (λ e, e ≠ []) (comps [] path).

Lemma split_path_bytes path : bytes_ok path → Forall bytes_ok (split_path path).
Proof.
  intros Hp. assert (Hall : ∀ cur, bytes_ok cur → Forall bytes_ok (comps cur path)).
  2:{ rewrite Forall_forall. intros e [_ He]%list_elem_of_filter. specialize (Hall [] (Forall_nil_2 _)). rewrite Forall_forall in Hall. auto. }
  induction Hp as [|c path Hc Hp IH]; intros cur Hcur; cbn; [by constructor|]. destruct (c =? SLASH); [constructor; [done|apply IH; constructor]|].
  apply IH, Forall_app. split; [done|]. by constructor.
Qed.

Lemma split_skip path : split_path (skip_slashes path) = split_path path.
Proof.
  induction path as [|c path IH]; [done|]. cbn [skip_slashes]. destruct (Z.eqb_spec c SLASH) as [->|Hc]; [|done].
  rewrite IH. unfold split_path. cbn [comps]. rewrite Z.eqb_refl. by rewrite filter_cons_False by (by intros []).
Qed.

Lemma comps_elem path : ∀ cur, comps cur path = (cur ++ (elem path).1) :: match (elem path).2 with [] => [] | _ :: r => comps [] r end.
Proof.
  induction path as [|c path IH]; intros cur; cbn; [by rewrite app_nil_r|]. destruct (c =? SLASH); cbn; [by rewrite app_nil_r|].
  rewrite IH. destruct (elem path) as [e r]. cbn. by rewrite <- app_assoc.
Qed.

Lemma elem_spec path : path = (elem path).1 ++ (elem path).2 ∧ match (elem path).2 with [] => True | c :: _ => c = SLASH end.
Proof.
  induction path as [|c path IH]; cbn; [done|]. destruct (Z.eqb_spec c SLASH) as [->|Hc]; cbn; [done|].
  destruct (elem path) as [e r]. cbn in *. destruct IH as [-> ?]. done.
Qed.

Lemma skip_slashes_head path : match skip_slashes path with [] => True | c :: _ => c ≠ SLASH end.
Proof. induction path as [|c path IH]; cbn; [done|]. by destruct (Z.eqb_spec c SLASH). Qed.

Lemma skip_slashes_suffix path : skip_slashes path `suffix_of` path.
Proof. induction path as [|c path IH]; cbn; [done|]. destruct (c =? SLASH); [by apply suffix_cons_r|done]. Qed.

Lemma until_zero_id l : Forall (λ c, c ≠ 0) l → until_zero l = l.
Proof. induction 1 as [|c l Hc Hl IH]; cbn; [done|]. rewrite (proj2 (Z.eqb_neq c 0)) by done. by rewrite IH. Qed.

Lemma until_zero_nz l : Forall (λ c, c ≠ 0) (until_zero l).
Proof. induction l as [|c l IH]; cbn; [constructor|]. destruct (Z.eqb_spec c 0); [constructor|by constructor]. Qed.

Lemma cname_idem nm : cname (cname nm) = cname nm.
Proof.
  unfold cname. rewrite until_zero_id by (apply Forall_take, until_zero_nz). by rewrite take_take.
Qed.
Lemma until_zero_app l r : Forall (λ c, c ≠ 0) l → until_zero (l ++ 0 :: r) = l.
Proof. induction 1 as [|c l Hc Hl IH]; cbn; [done|]. rewrite (proj2 (Z.eqb_neq c 0)) by done. by rewrite IH. Qed.

(** [skipelem] takes the first element of a path. *)
Lemma skipelem_spec path name : Forall (λ c, c ≠ 0) path →
  match skipelem path name with
  | None => split_path path = []
  | Some (rest, name') => ∃ e, split_path path = e :: split_path rest ∧ cname name' = cname e ∧
      (length rest < length path)%nat ∧ Forall (λ c, c ≠ 0) rest ∧ bool_decide (rest = []) = bool_decide (split_path rest = [])
  end.
Proof.
  intros Hnz. unfold skipelem. rewrite <- (split_skip path). pose proof (skip_slashes_head path) as Hh.
  pose proof (skip_slashes_suffix path) as Hsuf. destruct (skip_slashes path) as [|c p] eqn:Hp; [done|]. set (q := c :: p) in *.
  assert (Hq : Forall (λ c, c ≠ 0) q) by (destruct Hsuf as [pre ->]; by apply Forall_app in Hnz as [_ ?]).
  pose proof (comps_elem q []) as Hc. destruct (elem_spec q) as [Heq Hr]. destruct (elem q) as [e r] eqn:He. cbn [fst snd] in *.
  assert (Hne : e ≠ []). { intros ->. cbn in Heq. rewrite <- Heq in Hr. done. }
  rewrite Heq in Hq. apply Forall_app in Hq as [He0 Hr0]. exists e. split_and!.
  - unfold split_path at 1. rewrite Hc. cbn [app]. rewrite filter_cons_True by done. f_equal. rewrite split_skip.
    destruct r as [|d r]; [done|]. rewrite Hr. unfold split_path. cbn [comps]. rewrite Z.eqb_refl.
    by rewrite filter_cons_False by (by intros []).
  - unfold cname. change (Z.to_nat DIRSIZ) with 14%nat. rewrite (until_zero_id e) by done. destruct (DIRSIZ <=? Z.of_nat (length e)).
    + rewrite until_zero_id by (by apply Forall_take). by rewrite take_take.
    + unfold splice. rewrite take_0, app_nil_l, <- app_assoc. exact (f_equal (take 14) (until_zero_app e _ He0)).
  - apply (f_equal length) in Heq. rewrite length_app in Heq. apply suffix_length in Hsuf.
    pose proof (suffix_length _ _ (skip_slashes_suffix r)). destruct e; [done|]. cbn [length] in *. lia.
  - destruct (skip_slashes_suffix r) as [pre Hpre]. rewrite Hpre in Hr0. by apply Forall_app in Hr0 as [_ ?].
  - apply bool_decide_ext. split; [by intros ->|]. pose proof (skip_slashes_head r) as Hh2. destruct (skip_slashes r) as [|d s]; [done|].
    unfold split_path. cbn [comps]. rewrite (proj2 (Z.eqb_neq d SLASH)) by done. rewrite comps_elem. cbn [app]. by rewrite filter_cons_True by done.
Qed.
