(* ===== verification/IcacheSpec.v ===== *)
(** The inode cache ([iget], [ilock], [iunlock], [iput] of [fs.c]): references are counted, an
    inode is in the cache at most once, and a locked inode is a copy of the disk's. *)

From S2P Require Import Prelude Params Bytes State Spinlock Mem Kalloc PageTable Uaccess Procs Sched SchedSpec Bio BioSpec CacheSpec BlockSpec Log LogSpec CommitSpec CrashSpec Inode BallocSpec DiskSpec BmapSpec DinodeSpec Console Fs WriteSpec ReadSpec File FsSpec.

(** No inode is locked but the entries [h]. *)
Definition unlocked (s : fsys) (h : list nat) : Prop := ∀ j y, inodes s !! j = Some y →
  0 ≤ i_ref y ∧ (i_valid y = 0 ∨ i_valid y = 1) ∧ (j ∉ h → sl_locked (i_lock y) = 0).

(** The file system while a process uses the inode cache: the contents [C] of the blocks, the disk
    [D], the blocks [Q] that wait for a commit. *)
Record iview (h : list nat) (k : kernel) (C D : Z → list Z) (Q : gset Z) : Prop := mkIview {
  iv_ready : fs_ready k;
  iv_sb : sb (k_fs k) = mkfs_sb;
  iv_view : cview [] (k_fs k) C D Q;
  iv_Q : (size Q < 29)%nat;
  iv_logged : ∀ n, n ∈ Q → n ∈ logged (k_fs k);
  iv_inv : fsinv C (nd C);
  iv_cache : icache_ok (k_fs k) C;
  iv_unlocked : unlocked (k_fs k) h
}.

(** How the cache may change: the reference count of entry [j] by [δ j]; an entry in use goes on
    being the same inode. *)
Record imoved (δ : nat → Z) (s s' : fsys) : Prop := mkImoved {
  im_ref : ∀ j y, inodes s !! j = Some y → ∃ y', inodes s' !! j = Some y' ∧ i_ref y' = i_ref y + δ j ∧
    (0 < i_ref y → i_dev y' = i_dev y ∧ i_inum y' = i_inum y ∧ (i_valid y = 1 → i_valid y' = 1 ∧ d_of y' = d_of y));
  im_sb : sb s' = sb s;
  im_files : files s' = files s;
  im_pipes : pipes s' = pipes s;
  im_log : log s' = log s;
  im_writes : dwrites s' = dwrites s
}.

(** One reference more for entry [i]. *)
Definition one (i : nat) (j : nat) : Z := if bool_decide (j = i) then 1 else 0.
Definition none (j : nat) : Z := 0.

Lemma one_eq i : one i i = 1.
Proof. unfold one. by rewrite bool_decide_true. Qed.
Lemma one_ne i j : j ≠ i → one i j = 0.
Proof. intros. unfold one. by rewrite bool_decide_false. Qed.
Lemma one_pos i j : 0 ≤ one i j.
Proof. unfold one. case_bool_decide; lia. Qed.

Lemma imoved_refl s : imoved none s s.
Proof. split; try done. intros j y Hy. exists y. unfold none. rewrite Z.add_0_r. done. Qed.

Lemma imoved_trans δ1 δ2 δ s1 s2 s3 :
  imoved δ1 s1 s2 → imoved δ2 s2 s3 → (∀ j, 0 ≤ δ1 j) → (∀ j, δ j = δ1 j + δ2 j) → imoved δ s1 s3.
Proof.
  intros [H1 ? ? ? ? ?] [H2 ? ? ? ? ?] Hpos Hδ. split; try congruence. intros j y Hy.
  destruct (H1 j y Hy) as (y1 & Hy1 & Hr1 & Hk1). destruct (H2 j y1 Hy1) as (y2 & Hy2 & Hr2 & Hk2).
  exists y2. split; [done|]. split; [rewrite Hδ; lia|]. intros Hp. destruct (Hk1 Hp) as (Hd1 & Hi1 & Hv1).
  destruct Hk2 as (Hd2 & Hi2 & Hv2); [specialize (Hpos j); lia|]. split_and!; [congruence..|].
  intros Hv. destruct (Hv1 Hv) as [Hv' Hdo]. destruct (Hv2 Hv') as [? ?]. split; congruence.
Qed.

Lemma imoved_after δ s1 s2 s3 : imoved none s1 s2 → imoved δ s2 s3 → imoved δ s1 s3.
Proof. intros H1 H2. eapply imoved_trans; [exact H1|exact H2|intros; by unfold none|intros; by unfold none]. Qed.

Lemma imoved_still s s' : still s s' → imoved none s s'.
Proof.
  intros [[Hsb Hin Hf Hp] Hl Hw]. split; try done. intros j y Hy. exists y. rewrite Hin. unfold none. rewrite Z.add_0_r. done.
Qed.

Lemma imoved_put δ i x y s :
  inodes s !! i = Some x → i_ref y = i_ref x + δ i → (∀ j, j ≠ i → δ j = 0) →
  (0 < i_ref x → i_dev y = i_dev x ∧ i_inum y = i_inum x ∧ (i_valid x = 1 → i_valid y = 1 ∧ d_of y = d_of x)) →
  imoved δ s (put_inode i y s).
Proof.
  intros Hx Hr Hδ Hk. split; try done. intros j z Hz. destruct (decide (j = i)) as [->|Hne].
  - exists y. rewrite (put_inode_lookup i y x) by done. by simplify_eq.
  - exists z. cbn. rewrite list_lookup_insert_ne by done. rewrite Hδ, Z.add_0_r by done. done.
Qed.

Section icache.
Context {W : world} {DW : DiskWorld}.
Implicit Types (k : kernel) (s : fsys) (i : nat) (x y : inode) (C D : Z → list Z) (Q : gset Z) (h : list nat).

(** Entry [i] is inode [n] of the disk, in use. *)
Definition entry_for s i n : Prop := ∃ x, inodes s !! i = Some x ∧ 0 < i_ref x ∧ i_dev x = 1 ∧ i_inum x = n.

Lemma iview_still h k C D Q s' : iview h k C D Q → cview [] s' C D Q → still (k_fs k) s' → iview h (set_k_fs s' k) C D Q.
Proof.
  intros [Hr Hsb Hv HQ Hlg Hi Hc Hu] Hv' [[Fsb Fin _ _] Flog _]. split; cbn; try done.
  - by apply fs_ready_fs.
  - by rewrite Fsb.
  - unfold logged. by rewrite Flog.
  - destruct Hc as [H1 H2 H3]. split; by rewrite Fin.
  - unfold unlocked. by rewrite Fin.
Qed.

(** Changing one entry. *)
Lemma iview_put h h' k C D Q i x y :
  iview h k C D Q → inodes (k_fs k) !! i = Some x → 0 ≤ i_ref y → (i_valid y = 0 ∨ i_valid y = 1) →
  (i ∉ h' → sl_locked (i_lock y) = 0) → (∀ j, j ≠ i → j ∉ h' → j ∉ h) →
  (0 < i_ref y → i_valid y = 1 → i_dev y = 1 ∧ 1 ≤ i_inum y < NINODES ∧ d_of y = nd C (i_inum y)) →
  (0 < i_ref y → ∀ j z, j ≠ i → inodes (k_fs k) !! j = Some z → 0 < i_ref z → i_dev z = i_dev y → i_inum z ≠ i_inum y) →
  iview h' (set_k_fs (put_inode i y (k_fs k)) k) C D Q.
Proof.
  intros [Hr Hsb Hv HQ Hlg Hi [Hl Hcp Hun] Hu] Hx Hr0 Hv01 Hlk Hh Hcopy Huniq. split; cbn; try done.
  - by apply fs_ready_fs.
  - by apply (cview_same _ (k_fs k)).
  - assert (Hcase : ∀ j z, inodes (put_inode i y (k_fs k)) !! j = Some z → (j = i ∧ z = y) ∨ (j ≠ i ∧ inodes (k_fs k) !! j = Some z)).
    { intros j z Hz. destruct (decide (j = i)) as [->|Hne]; [left|right].
      - rewrite (put_inode_lookup i y x) in Hz by done. by simplify_eq.
      - cbn in Hz. by rewrite list_lookup_insert_ne in Hz. }
    split; cbn [put_inode set_inodes inodes].
    + by rewrite length_insert.
    + intros j z Hz. destruct (Hcase j z Hz) as [[-> ->]|[? ?]]; [done|by eapply Hcp].
    + intros j j' z z' Hz Hz' Hp Hp' Hd Hn. destruct (Hcase j z Hz) as [[-> ->]|[Hj Hz0]], (Hcase j' z' Hz') as [[-> ->]|[Hj' Hz0']]; try done.
      * exfalso. by eapply (Huniq Hp j' z').
      * exfalso. by eapply (Huniq Hp' j z).
      * by eapply Hun.
  - intros j z Hz. destruct (decide (j = i)) as [->|Hne].
    + rewrite (put_inode_lookup i y x) in Hz by done. by simplify_eq.
    + cbn in Hz. rewrite list_lookup_insert_ne in Hz by done. destruct (Hu j z Hz) as (? & ? & Hz'). split_and!; try done.
      intros Hj. by apply Hz', Hh.
Qed.

(** ** [iget] *)
Lemma iget_scan_spec dev n l : ∀ j e,
  match iget_scan l j dev n e with
  | (true, o) => ∃ t x, o = Some (j + t)%nat ∧ l !! t = Some x ∧ 0 < i_ref x ∧ i_dev x = dev ∧ i_inum x = n
  | (false, o) => (∀ t x, l !! t = Some x → 0 < i_ref x → i_dev x = dev → i_inum x ≠ n) ∧
      match e with
      | Some e => o = Some e
      | None => (∃ t x, o = Some (j + t)%nat ∧ l !! t = Some x ∧ i_ref x = 0) ∨ (∀ t x, l !! t = Some x → i_ref x ≠ 0)
      end
  end.
Proof.
  induction l as [|x l IH]; intros j e; cbn; [destruct e; by auto|].
  destruct ((0 <? i_ref x) && (i_dev x =? dev) && (i_inum x =? n)) eqn:Hm.
  { rewrite !andb_true_iff, Z.ltb_lt, !Z.eqb_eq in Hm. exists 0%nat, x. rewrite Nat.add_0_r. by destruct Hm as [[? ?] ?]. }
  assert (Hx : 0 < i_ref x → i_dev x = dev → i_inum x ≠ n).
  { intros H1 H2 H3. by rewrite (proj2 (Z.ltb_lt _ _) H1), H2, H3, !Z.eqb_refl in Hm. }
  set (e' := if bool_decide (e = None) && (i_ref x =? 0) then Some j else e). specialize (IH (S j) e').
  destruct (iget_scan l (S j) dev n e') as [[] o].
  - destruct IH as (t & y & -> & Hy & Hr). exists (S t), y. split; [f_equal; lia|done].
  - destruct IH as [Hno He]. split; [by intros [|t] y Hy; [injection Hy as <-|eapply Hno]|].
    destruct e as [e|]; [done|]. subst e'. cbn in He. destruct (Z.eqb_spec (i_ref x) 0) as [H0|H0].
    + left. exists 0%nat, x. by rewrite Nat.add_0_r.
    + destruct He as [(t & y & -> & Hy & Hr)|Hn]; [left; exists (S t), y; split; [f_equal; lia|done]|right].
      intros [|t] y Hy; [by injection Hy as <-|by eapply Hn].
Qed.

Lemma put_inode_locks i x y s : inodes s !! i = Some x → i_lock y = i_lock x →
  ∀ j, i_lock <$> inodes (put_inode i y s) !! j = i_lock <$> inodes s !! j.
Proof.
  intros Hx Hl j. destruct (decide (j = i)) as [->|Hne]; [|cbn; by rewrite list_lookup_insert_ne].
  rewrite (put_inode_lookup i y x) by done. rewrite Hx. cbn. by rewrite Hl.
Qed.

(** An entry of the cache is free. *)
Definition has_room s : Prop := ∃ j y, inodes s !! j = Some y ∧ i_ref y = 0.

Lemma iget_run k i x f :
  avail Licache (k_mach k) → inodes (k_fs k) !! i = Some x →
  (mod_inode i f;; release Licache;; ret i) (mod_mach (hold Licache) k) = Ok i (set_k_fs (put_inode i (f x) (k_fs k)) k).
Proof.
  intros Ha Hx. rewrite (bind_ok _ _ _ _ _ (mod_inode_ok (mod_mach (hold Licache) k) i x f Hx)).
  rewrite (bind_ok _ _ _ _ _ (release_ok Licache (set_k_fs (put_inode i (f x) (k_fs k)) (mod_mach (hold Licache) k)) (k_mach k) Ha eq_refl)). by destruct k.
Qed.

Lemma iget_ok h k C D Q n :
  iview h k C D Q → 1 ≤ n < NINODES → has_room (k_fs k) →
  ∃ i s', iget 1 n k = Ok i (set_k_fs s' k) ∧ iview h (set_k_fs s' k) C D Q ∧ imoved (one i) (k_fs k) s' ∧
    entry_for s' i n ∧ (∀ j, i_lock <$> inodes s' !! j = i_lock <$> inodes (k_fs k) !! j).
Proof.
  intros Hv Hn (j0 & y0 & Hy0 & Hr0). pose proof Hv as [Hr _ _ _ _ _ Hc Hu]. assert (Ha : avail Licache (k_mach k)) by (by apply (fr_lock k Hr)).
  unfold iget. rewrite (bind_ok _ _ _ _ _ (acquire_ok _ _ Ha)). unfold getf. rewrite bind_gets. cbn [mod_mach set_k_mach k_fs].
  pose proof (iget_scan_spec 1 n (inodes (k_fs k)) 0 None) as Hs. destruct (iget_scan (inodes (k_fs k)) 0 1 n None) as [[] o].
  - destruct Hs as (i & x & -> & Hx & Hp & Hd & Hi). cbn [Nat.add]. rewrite (iget_run k i x _ Ha Hx).
    destruct (Hu i x Hx) as (H0 & H01 & Hlk). set (y := set_i_ref (i_ref x + 1) x). exists i, (put_inode i y (k_fs k)). split; [done|]. split_and!.
    + apply (iview_put h h k C D Q i x y Hv Hx); try done; cbn; try lia.
      * intros _ Hv1. exact (ic_copy _ _ Hc i x Hx Hp Hv1).
      * intros _ j z Hj Hz Hpz Hdz Hiz. by apply Hj, (ic_uniq _ _ Hc j i z x).
    + apply (imoved_put _ i x y); [done|by rewrite one_eq|intros; by apply one_ne|done].
    + exists y. split_and!; try done; [by eapply put_inode_lookup|cbn; lia].
    + by apply put_inode_locks with x.
  - destruct Hs as [Hno Hs]. destruct Hs as [(i & x & -> & Hx & H0)|Hs]; [|by eapply Hs in Hy0].
    cbn [Nat.add]. rewrite (iget_run k i x _ Ha Hx). destruct (Hu i x Hx) as (_ & _ & Hlk).
    set (y := set_i_valid 0 (set_i_ref 1 (set_i_inum n (set_i_dev 1 x)))). exists i, (put_inode i y (k_fs k)). split; [done|]. split_and!.
    + apply (iview_put h h k C D Q i x y Hv Hx); try done; cbn; try lia.
      intros _ j z Hj Hz Hpz Hdz. by eapply Hno.
    + apply (imoved_put _ i x y); [done|rewrite one_eq; cbn; lia|intros; by apply one_ne|lia].
    + exists y. split_and!; try done. by eapply put_inode_lookup.
    + by apply put_inode_locks with x.
Qed.

(** ** [ilock] and [iunlock] *)

(** Entry [i] is locked, and a copy of inode [n] of the disk. *)
Record locked_inode s C i n x : Prop := mkLockedInode {
  li_entry : inodes s !! i = Some x;
  li_ref : 0 < i_ref x;
  li_dev : i_dev x = 1;
  li_inum : i_inum x = n;
  li_valid : i_valid x = 1;
  li_copy : d_of x = nd C n;
  li_locked : sl_locked (i_lock x) = 1
}.

Lemma iview_cview_put h k C D Q i y g s1 :
  iview h k C D Q → still (k_fs k) s1 → cview g s1 C D Q → cview g (put_inode i y s1) C D Q.
Proof.
  intros Hv Hst Hc. apply (cview_same g s1); try done. intros n Hn. change (n ∈ logged s1). unfold logged. rewrite (st_log _ _ Hst).
  by apply (iv_logged _ _ _ _ _ Hv).
Qed.

(** Reading the inode from the disk. *)
Lemma load_ok h k C D Q i x n :
  iview h k C D Q → inodes (k_fs k) !! i = Some x → i_dev x = 1 → i_inum x = n → live (nd C) n →
  ∃ s', (s ← getf sb;
    bp ← bread (i_dev x) (IBLOCK (i_inum x) s);
    d ← bdata bp;
    mod_inode i (load_dinode (dinode_at d (ioff (i_inum x))));;
    brelse bp;;
    mod_inode i (set_i_valid 1);;
    x ← get_inode i;
    if i_type x =? 0 then panic "ilock: no type" else ret tt) k =
      Ok tt (set_k_fs (put_inode i (set_i_valid 1 (load_dinode (nd C n) x)) s') k) ∧
    cview [] s' C D Q ∧ still (put_inode i (load_dinode (nd C n) x) (k_fs k)) s'.
Proof.
  intros Hv Hx Hd Hi [Hn Ht]. pose proof Hv as [Hr Hsb Hc HQ Hlg _ _ _]. set (b := IBLOCK n mkfs_sb).
  assert (Hb : 32 ≤ b < 58) by (unfold b; rewrite IBLOCK_eq; clia).
  destruct (cv_bread k [] C D Q b Hr Hc) as (bp & s1 & Hr1 & Hc1 & Hst1 & Hset); [clia|apply not_elem_of_nil|right; cbn; lia|].
  set (y := load_dinode (nd C n) x). set (s1' := put_inode i y s1). pose proof Hst1 as [[_ Fin _ _] _ _].
  assert (Hc1' : cview [(bp, b)] s1' C D Q) by (by eapply iview_cview_put).
  destruct (cv_brelse (set_k_fs s1' k) [] C D Q bp b (fs_ready_fs _ _ Hr) Hc1' Hset) as (s2 & Hr2 & Hc2 & Hst2). exists s2.
  assert (Hst : still (put_inode i y (k_fs k)) s2).
  { eapply still_trans; [|exact Hst2]. destruct Hst1 as [[Fsb _ Ffi Fpi] Flog Fw]. split; [split|..]; cbn; try done. by rewrite Fin. }
  split_and!; [|done|done]. unfold getf. rewrite bind_gets, Hsb, Hd, Hi. fold b. rewrite (bind_ok _ _ _ _ _ Hr1).
  erewrite bind_ok by (eapply (cv_bdata (set_k_fs s1 k)); [exact Hc1|left]).
  erewrite bind_ok by (apply (mod_inode_ok (set_k_fs s1 k) i x); cbn; by rewrite Fin). fold (nd C n). fold y. fold s1'.
  change (set_k_fs (put_inode i y (k_fs (set_k_fs s1 k))) (set_k_fs s1 k)) with (set_k_fs s1' k). rewrite (bind_ok _ _ _ _ _ Hr2).
  assert (Hy : inodes s2 !! i = Some y).
  { rewrite (fm_inodes _ _ (st_frame _ _ Hst)). by eapply put_inode_lookup. }
  erewrite bind_ok by (apply (mod_inode_ok (set_k_fs (k_fs (set_k_fs s2 (set_k_fs s1' k))) k) i y); exact Hy).
  erewrite bind_ok by (apply get_inode_ok; by eapply put_inode_lookup). cbn [i_type set_i_valid y load_dinode].
  by rewrite (proj2 (Z.eqb_neq _ _)) by done.
Qed.

Lemma iview_lt h k C D Q i x : iview h k C D Q → inodes (k_fs k) !! i = Some x → (i < 50)%nat.
Proof. intros Hv. eapply inode_lt, Hv. Qed.

(** The lock of entry [i], which is all that changes. *)
Lemma iview_lock h h' k C D Q i x l :
  iview h k C D Q → inodes (k_fs k) !! i = Some x → (i ∉ h' → sl_locked l = 0) → (∀ j, j ≠ i → j ∉ h' → j ∉ h) →
  iview h' (set_k_fs (put_inode i (set_i_lock l x) (k_fs k)) k) C D Q ∧ imoved none (k_fs k) (put_inode i (set_i_lock l x) (k_fs k)).
Proof.
  intros Hv Hx Hl Hh. pose proof Hv as [_ _ _ _ _ _ Hc Hu]. destruct (Hu i x Hx) as (H0 & H01 & _). split.
  - apply (iview_put h h' k C D Q i x _ Hv Hx); try done.
    + intros Hp Hv1. exact (ic_copy _ _ Hc i x Hx Hp Hv1).
    + cbn. intros Hp j z Hj Hz Hpz Hdz Hiz. by apply Hj, (ic_uniq _ _ Hc j i z x).
  - apply (imoved_put _ i x); try done. unfold none. cbn. lia.
Qed.

Lemma ilock_ok h k C D Q i n :
  iview h k C D Q → i ∉ h → entry_for (k_fs k) i n → live (nd C) n →
  ∃ s' x', ilock (Some i) k = Ok tt (set_k_fs s' k) ∧ iview (i :: h) (set_k_fs s' k) C D Q ∧ imoved none (k_fs k) s' ∧
    locked_inode s' C i n x' ∧ (∀ j, j ≠ i → inodes s' !! j = inodes (k_fs k) !! j).
Proof.
  intros Hv Hih (x & Hx & Hp & Hd & Hi) Hn. pose proof Hv as [Hr _ _ _ _ _ Hc Hu]. destruct (Hu i x Hx) as (_ & H01 & Hlk).
  pose proof Hr as [(p & q & Hin) _ _]. set (l := mkSleeplock 1 (pid q)).
  destruct (iview_lock h (i :: h) k C D Q i x l Hv Hx) as [Hv1 Hm1]; [intros []; left|by intros j _ [_ ?]%not_elem_of_cons|].
  unfold ilock. rewrite (bind_ok _ _ _ _ _ (get_inode_ok _ _ _ Hx)). rewrite (proj2 (Z.ltb_ge _ _)) by lia.
  rewrite (bind_ok _ _ _ _ _ (acquiresleep_inode k p q i x Hin (inode_avail k i Hr (iview_lt _ _ _ _ _ _ _ Hv Hx)) Hx (Hlk Hih))).
  fold l. set (x1 := set_i_lock l x) in *. set (s1 := put_inode i x1 (k_fs k)) in *.
  assert (Hx1 : inodes s1 !! i = Some x1) by (by eapply put_inode_lookup).
  rewrite (bind_ok _ _ _ _ _ (get_inode_ok (set_k_fs s1 k) _ _ Hx1)). change (i_valid x1) with (i_valid x).
  destruct H01 as [H0|H1].
  - rewrite H0. cbn [Z.eqb when]. destruct (load_ok (i :: h) (set_k_fs s1 k) C D Q i x1 n Hv1 Hx1 Hd Hi Hn) as (s2 & Hr2 & Hc2 & Hst2).
    set (y := load_dinode (nd C n) x1) in *. set (y1 := set_i_valid 1 y) in *. exists (put_inode i y1 s2), y1.
    assert (Hy : inodes s2 !! i = Some y) by (rewrite (fm_inodes _ _ (st_frame _ _ Hst2)); by eapply put_inode_lookup).
    assert (Hv2 : iview (i :: h) (set_k_fs s2 k) C D Q ∧ imoved none s1 s2).
    { split.
      - apply (iview_still _ (set_k_fs (put_inode i y s1) k)); [|done|done].
        apply (iview_put (i :: h) (i :: h) (set_k_fs s1 k) C D Q i x1 y Hv1 Hx1); cbn; rewrite ?H0; try done; [lia|by left|by intros []; left|].
        intros _ j z Hj Hz Hpz Hdz Hiz. apply Hj. by apply (ic_uniq _ _ (iv_cache _ _ _ _ _ Hv1) j i z x1).
      - eapply imoved_after; [|by apply imoved_still].
        apply (imoved_put _ i x1); cbn; try done; [unfold none; lia|]. intros _. split_and!; try done. by rewrite H0. }
    destruct Hv2 as [Hv2 Hm2]. split_and!; [exact Hr2|..].
    + apply (iview_put (i :: h) (i :: h) (set_k_fs s2 k) C D Q i y y1 Hv2 Hy); cbn; try done; [lia|by right|by intros []; left|by rewrite Hi; destruct (nd C n), Hn|].
      intros _ j z Hj Hz Hpz Hdz Hiz. apply Hj. by apply (ic_uniq _ _ (iv_cache _ _ _ _ _ Hv2) j i z y).
    + eapply imoved_after; [by eapply imoved_after|]. apply (imoved_put none i y y1); cbn; try done. unfold none. lia.
    + split; try done. by eapply put_inode_lookup.
    + intros j Hj. cbn. rewrite (fm_inodes _ _ (st_frame _ _ Hst2)). cbn. by rewrite !list_lookup_insert_ne.
  - rewrite H1. cbn [Z.eqb when]. exists s1, x1. split_and!; try done; [|intros j Hj; cbn; by rewrite list_lookup_insert_ne]. split; try done.
    destruct (ic_copy _ _ Hc i x Hx Hp H1) as (_ & _ & Hcp). by rewrite Hi in Hcp.
Qed.

Lemma iunlock_iv h k C D Q i n x :
  iview (i :: h) k C D Q → locked_inode (k_fs k) C i n x →
  let s' := put_inode i (set_i_lock (mkSleeplock 0 0) x) (k_fs k) in
  iunlock (Some i) k = Ok tt (set_k_fs s' k) ∧ iview h (set_k_fs s' k) C D Q ∧ imoved none (k_fs k) s'.
Proof.
  intros Hv [Hx Hp _ _ _ _ Hl]. split.
  - apply iunlock_ok; try done; [apply Hv|by eapply iview_lt].
  - apply (iview_lock (i :: h)); try done. intros j Hj Hjh. by apply not_elem_of_cons.
Qed.

(** ** [iput] of an inode that stays on the disk *)
Lemma releasesleep_inode k i x :
  fs_ready k → (i < 50)%nat → inodes (k_fs k) !! i = Some x →
  releasesleep (inode_lock i) k = Ok tt (set_k_fs (put_inode i (set_i_lock (mkSleeplock 0 0) x) (k_fs k)) k).
Proof.
  intros Hr Hi Hx. rewrite releasesleep_ok; try done.
  - f_equal. unfold mod_fs, put_inode. cbn. by rewrite (alter_insert _ _ _ x).
  - by apply inode_avail.
  - by apply (fr_lock k Hr).
  - by apply (fr_quiet k Hr).
  - intros f g s. cbn. by rewrite list_alter_alter_eq.
  - intros f g s Hfg. cbn. f_equal. apply list_alter_ext; [|done]. intros y _. by rewrite Hfg.
Qed.

(** The test whether the inode is to be freed. *)
Lemma iput_keeps k i x (t : K unit) :
  avail Licache (k_mach k) → inodes (k_fs k) !! i = Some x → (i_valid x = 1 → i_nlink x ≠ 0 ∨ i_ref x ≠ 1) → (i_valid x = 0 ∨ i_valid x = 1) →
  when (truthy (i_valid x) && (i_nlink x =? 0)) (
    acquire Licache;; x ← get_inode i; release Licache;; when (i_ref x =? 1) t) k = Ok tt k.
Proof.
  intros Ha Hx Hk [H0|H1]; [by rewrite H0|]. rewrite H1, truthy_1. cbn [andb]. destruct (Z.eqb_spec (i_nlink x) 0) as [Hn|Hn]; cbn [when]; [|done].
  rewrite (bind_ok _ _ _ _ _ (acquire_ok _ _ Ha)). erewrite bind_ok by (apply (get_inode_ok (mod_mach (hold Licache) k)); exact Hx).
  rewrite (bind_ok _ _ _ _ _ (release_ok Licache (mod_mach (hold Licache) k) (k_mach k) Ha eq_refl)).
  rewrite (proj2 (Z.eqb_neq _ _)) by (destruct (Hk H1); done). by destruct k.
Qed.

Definition drop_one (i : nat) (j : nat) : Z := - one i j.

Lemma put_inode_twice i x y s : put_inode i y (put_inode i x s) = put_inode i y s.
Proof. destruct s. unfold put_inode, set_inodes. cbn. by rewrite list_insert_insert_eq. Qed.

Lemma iput_run k i x :
  fs_ready k → (i < 50)%nat → inodes (k_fs k) !! i = Some x → sl_locked (i_lock x) = 0 → (i_valid x = 0 ∨ i_valid x = 1) →
  (i_valid x = 1 → i_nlink x ≠ 0 ∨ i_ref x ≠ 1) →
  iput i k = Ok tt (set_k_fs (put_inode i (set_i_ref (i_ref x - 1) (set_i_lock (mkSleeplock 0 0) x)) (k_fs k)) k).
Proof.
  intros Hr Hi Hx Hlk H01 Hk. pose proof Hr as [(p & q & Hin) _ _]. assert (Ha : avail Licache (k_mach k)) by (by apply (fr_lock k Hr)).
  unfold iput. rewrite (bind_ok _ _ _ _ _ (acquiresleep_inode k p q i x Hin (inode_avail k i Hr Hi) Hx Hlk)).
  set (x1 := set_i_lock _ x). set (k1 := set_k_fs (put_inode i x1 (k_fs k)) k).
  assert (Hx1 : inodes (k_fs k1) !! i = Some x1) by (by eapply put_inode_lookup). rewrite (bind_ok _ _ _ _ _ (get_inode_ok k1 _ _ Hx1)).
  rewrite (bind_ok _ _ _ _ _ (iput_keeps k1 i x1 _ Ha Hx1 Hk H01)).
  rewrite (bind_ok _ _ _ _ _ (releasesleep_inode k1 i x1 (fs_ready_fs _ _ Hr) Hi Hx1)).
  set (x2 := set_i_lock _ x1). cbn [k_fs k1 set_k_fs]. rewrite put_inode_twice. set (s2 := put_inode i x2 (k_fs k)).
  assert (Hx2 : inodes s2 !! i = Some x2) by (by eapply put_inode_lookup).
  change (set_k_fs s2 k1) with (set_k_fs s2 k). rewrite (bind_ok _ _ _ _ _ (acquire_ok Licache (set_k_fs s2 k) Ha)).
  rewrite (bind_ok _ _ _ _ _ (mod_inode_ok (mod_mach (hold Licache) (set_k_fs s2 k)) i x2 _ Hx2)).
  rewrite (release_ok Licache _ (k_mach k) Ha) by done. cbn [k_fs mod_mach set_k_mach set_k_fs]. unfold s2. rewrite put_inode_twice. by destruct k.
Qed.

Lemma iput_ok h k C D Q i x :
  iview h k C D Q → i ∉ h → inodes (k_fs k) !! i = Some x → 0 < i_ref x → (i_valid x = 1 → i_nlink x ≠ 0 ∨ i_ref x ≠ 1) →
  ∃ s', iput i k = Ok tt (set_k_fs s' k) ∧ iview h (set_k_fs s' k) C D Q ∧ imoved (drop_one i) (k_fs k) s' ∧
    (∀ j, j ≠ i → inodes s' !! j = inodes (k_fs k) !! j).
Proof.
  intros Hv Hh Hx Hp Hk. pose proof Hv as [Hr _ _ _ _ _ Hc Hu]. destruct (Hu i x Hx) as (_ & H01 & Hlk).
  rewrite (iput_run k i x Hr (iview_lt _ _ _ _ _ _ _ Hv Hx) Hx (Hlk Hh) H01 Hk). eexists. split_and!; [done|..].
  - apply (iview_put h h k C D Q i x _ Hv Hx); cbn; try done; [lia|..].
    + intros _ Hv3. exact (ic_copy _ _ Hc i x Hx Hp Hv3).
    + intros _ j z Hj Hz Hpz Hdz Hiz. by apply Hj, (ic_uniq _ _ Hc j i z x).
  - apply (imoved_put _ i x); try done; [unfold drop_one; rewrite one_eq; cbn; lia|]. intros j Hj. unfold drop_one. by rewrite one_ne.
  - intros j Hj. cbn. by rewrite list_lookup_insert_ne.
Qed.

Lemma iunlockput_ok h k C D Q i n x :
  iview (i :: h) k C D Q → i ∉ h → locked_inode (k_fs k) C i n x → d_nlink (nd C n) ≠ 0 ∨ i_ref x ≠ 1 →
  ∃ s', iunlockput i k = Ok tt (set_k_fs s' k) ∧ iview h (set_k_fs s' k) C D Q ∧ imoved (drop_one i) (k_fs k) s' ∧
    (∀ j, j ≠ i → inodes s' !! j = inodes (k_fs k) !! j).
Proof.
  intros Hv Hih Hx Hk. destruct (iunlock_iv h k C D Q i n x Hv Hx) as (Hr1 & Hv1 & Hm1). destruct Hx as [Hx Hp _ _ _ Hcp _].
  destruct (iput_ok h _ C D Q i (set_i_lock (mkSleeplock 0 0) x) Hv1) as (s' & Hr2 & Hv2 & Hm2 & Ho2);
    [done|by eapply put_inode_lookup|done|rewrite <- Hcp in Hk; by intros _|].
  exists s'. split_and!; [|done|by eapply imoved_after|intros j Hj; rewrite Ho2 by done; cbn; by rewrite list_lookup_insert_ne]. unfold iunlockput. by rewrite (bind_ok _ _ _ _ _ Hr1).
Qed.

(** [idup] of an entry in use. *)
Lemma idup_ok h k C D Q i x :
  iview h k C D Q → inodes (k_fs k) !! i = Some x → 0 < i_ref x →
  ∃ s', idup i k = Ok i (set_k_fs s' k) ∧ iview h (set_k_fs s' k) C D Q ∧ imoved (one i) (k_fs k) s'.
Proof.
  intros Hv Hx Hp. pose proof Hv as [Hr _ _ _ _ _ Hc Hu]. assert (Ha : avail Licache (k_mach k)) by (by apply (fr_lock k Hr)).
  destruct (Hu i x Hx) as (H0 & H01 & Hlk). eexists. split_and!.
  - unfold idup. rewrite (bind_ok _ _ _ _ _ (acquire_ok _ _ Ha)). by apply iget_run.
  - apply (iview_put h h k C D Q i x _ Hv Hx); try done; cbn; try lia.
    + intros _ Hv1. exact (ic_copy _ _ Hc i x Hx Hp Hv1).
    + intros _ j z Hj Hz Hpz Hdz Hiz. by apply Hj, (ic_uniq _ _ Hc j i z x).
  - apply (imoved_put _ i x); [done|by rewrite one_eq|intros; by apply one_ne|done].
Qed.
End icache.
