(* ===== verification/TruncSpec.v ===== *)
(** Giving the blocks of a file back: [itrunc], and the end of a file in [iput] ([fs.c]). *)

From S2P Require Import Prelude Params Bytes State Spinlock Procs Sched SchedSpec Bio BioSpec CacheSpec BlockSpec Log LogSpec CommitSpec Inode BallocSpec DiskSpec BmapSpec DinodeSpec CrashSpec Mem Kalloc PageTable Uaccess Console Fs WriteSpec ReadSpec File FsSpec IcacheSpec.

(** ** Clearing bits *)
Definition freed_list (C : Z → list Z) (l : list Z) : Z → list Z := foldl freed_block C l.

Definition data_block (b : Z) : Prop := nmeta ≤ b < FSSIZE.

(** Blocks that [bfree] accepts one after the other. *)
Definition freeable (C : Z → list Z) (l : list Z) : Prop :=
  NoDup l ∧ ∀ b, b ∈ l → data_block b ∧ bitset (C BMAP) b = true.

Section freed.
Implicit Types (C : Z → list Z) (l : list Z) (b c : Z).

Lemma freed_list_ne C l c : c ≠ BMAP → freed_list C l c = C c.
Proof.
  intros Hc. revert C. induction l as [|b l IH]; intros C; cbn; [done|]. unfold freed_list in IH. rewrite IH.
  unfold freed_block. by rewrite upd_ne.
Qed.

Lemma freed_block_ok C b : 0 ≤ b → block_ok (C BMAP) → block_ok (freed_block C b BMAP).
Proof. intros Hb Hok. unfold freed_block. rewrite upd_eq. by apply block_ok_clear_bit. Qed.

Lemma freed_block_bit C b c : data_block b → 0 ≤ c → block_ok (C BMAP) →
  bitset (freed_block C b BMAP) c = negb (c =? b) && bitset (C BMAP) c.
Proof. intros Hb Hc [Hl _]. unfold freed_block, data_block in *. rewrite upd_eq. apply bitset_clear; [dlia|done|done]. Qed.

Lemma freed_list_bit C l c : Forall data_block l → 0 ≤ c → block_ok (C BMAP) →
  bitset (freed_list C l BMAP) c = bool_decide (c ∉ l) && bitset (C BMAP) c ∧ block_ok (freed_list C l BMAP).
Proof.
  intros Hl Hc. revert C. induction l as [|b l IH]; intros C Hok; cbn.
  - rewrite bool_decide_true by apply not_elem_of_nil. done.
  - apply Forall_cons in Hl as [Hb Hl]. destruct (IH Hl (freed_block C b)) as [E ?]; [apply freed_block_ok; [unfold data_block in Hb; dlia|done]|].
    unfold freed_list in *. split; [|done]. rewrite E, freed_block_bit by done.
    destruct (Z.eqb_spec c b) as [->|Hne]; cbn [negb andb].
    + rewrite andb_false_r. symmetry. rewrite bool_decide_false; [done|]. rewrite not_elem_of_cons. naive_solver.
    + f_equal. apply bool_decide_ext. rewrite not_elem_of_cons. naive_solver.
Qed.

Lemma freeable_cons C b l : block_ok (C BMAP) → freeable C (b :: l) →
  data_block b ∧ bitset (C BMAP) b = true ∧ freeable (freed_block C b) l.
Proof.
  intros Hok [[Hb Hnd]%NoDup_cons Hl]. destruct (Hl b (list_elem_of_here _ _)) as [Hd Hbit]. split_and!; [done..|].
  split; [done|]. intros c Hc. destruct (Hl c (list_elem_of_further _ _ _ Hc)) as [Hcd Hcb]. split; [done|].
  rewrite freed_block_bit, Hcb by (done || (unfold data_block in Hcd; dlia)).
  rewrite (proj2 (Z.eqb_neq _ _)); [done|]. by intros ->.
Qed.
End freed.

(** ** Freeing within a transaction

    The bitmap is one block, so however many blocks are freed it takes one place in the log. *)
Definition btx (h : list (nat * Z)) (s : fsys) (C D : Z → list Z) (m : nat) : Prop :=
  tx h s C D (S m) ∧ (BMAP ∈ logged s ∨ (length (logged s) ≤ m)%nat).

Section trunc.
Context {W : world} {DW : DiskWorld}.
Implicit Types (k : kernel) (s : fsys) (h : list (nat * Z)) (i : nat) (x : inode) (C D : Z → list Z) (b n : Z).

Lemma btx_start h s C D m : tx h s C D m → btx h s C D m.
Proof. intros [H1 H2 H3 H4 H5 H6]. split; [split; try done; lia|by right]. Qed.

Lemma tx_length h s C D m m' : tx h s C D m → (length (logged s) ≤ m')%nat → tx h s C D m'.
Proof. intros [] ?. by split. Qed.

Lemma bfree_btx k h C D m b :
  fs_ready k → layout (k_fs k) → btx h (k_fs k) C D m → sb_of_block (C 1) = mkfs_sb →
  data_block b → bitset (C BMAP) b = true → BMAP ∉ h.*2 → 1 ∉ h.*2 → (length h + m < 29)%nat → (m < 28)%nat →
  ∃ s', bfree 1 b k = Ok tt (set_k_fs s' k) ∧ btx h s' (freed_block C b) D m ∧ tstep (k_fs k) s' ∧
    ∀ c, c ∈ logged (k_fs k) → c ∈ logged s'.
Proof.
  intros Hr [Hsb Hls] [Htx Hm] Hsb1 Hb Hbit Hh1 Hh2 Hlen Hm28.
  assert (Hset : set_sb mkfs_sb (k_fs k) = k_fs k) by (rewrite <- Hsb; by destruct (k_fs k)).
  assert (∃ m0, tx h (k_fs k) C D m0 ∧ (m0 ≤ S m)%nat ∧ (BMAP ∈ logged (k_fs k) ∧ m0 = S m ∨ m0 = m)) as (m0 & Htx0 & Hm0 & Hcase).
  { destruct Hm as [Hin|Hl]; [exists (S m); by auto|exists m; split; [by eapply tx_length|auto with lia]]. }
  destruct (bfree_absorbs k h C D m0 b Hr Htx0) as (s' & Hrun & Htx' & Hts & Habs); [done..|lia|lia|].
  rewrite Hset in Hts. exists s'. split_and!; [done| |done|].
  - split; [|left; by eapply absorbed_in]. destruct Hcase as [[Hin ->]| ->]; [|done].
    destruct Habs as [[_ E]|[? _]]; [|done]. eapply tx_length; [exact Htx'|]. rewrite E. apply (tx_len _ _ _ _ _ Htx).
  - intros c Hc. destruct Habs as [[_ ->]|[_ ->]]; [done|]. apply elem_of_app. by left.
Qed.

Lemma tstep_layout s s' : tstep s s' → layout s → layout s'.
Proof. intros [[H1 _ _ _] [y H2] _] [? ?]. split; [congruence|]. by rewrite H2. Qed.

Lemma sb_freed C b : sb_of_block (C 1) = mkfs_sb → sb_of_block (freed_block C b 1) = mkfs_sb.
Proof. intros H. unfold freed_block. by rewrite upd_ne by done. Qed.

Lemma btx_inode h s C D m i x : btx h s C D m → btx h (put_inode i x s) C D m.
Proof. intros [Htx Hm]. split; [by apply tx_inode|done]. Qed.

(** The addresses that are in use. *)
Definition in_use (l : list Z) : list Z := filter (λ a, a ≠ 0) l.

Lemma in_use_cons a l : in_use (a :: l) = if a =? 0 then in_use l else a :: in_use l.
Proof. unfold in_use. rewrite filter_cons. destruct (Z.eqb_spec a 0); case_decide; done. Qed.

(** *** The direct blocks *)
Lemma trunc_direct todo : ∀ (j : nat) k C D m i x suf,
  fs_ready k → layout (k_fs k) → btx [] (k_fs k) C D m → sb_of_block (C 1) = mkfs_sb → (m < 28)%nat →
  inodes (k_fs k) !! i = Some x → i_dev x = 1 → i_addrs x = replicate j 0 ++ todo ++ suf → length (i_addrs x) = 13%nat →
  freeable C (in_use todo) →
  ∃ s', forM (seqZ (Z.of_nat j) (Z.of_nat (length todo))) (λ j,
      x ← get_inode i; addr ← get_addr i j; when (truthy addr) (bfree (i_dev x) addr;; set_addr i j 0)) k
    = Ok tt (set_k_fs s' k) ∧
    btx [] s' (freed_list C (in_use todo)) D m ∧
    istep i (set_i_addrs (replicate (j + length todo) 0 ++ suf) x) (k_fs k) s'.
Proof.
  induction todo as [|a todo IH]; intros j k C D m i x suf Hr Hly Htx Hsb Hm Hx Hdev HA HAl Hfr.
  { exists (k_fs k). split_and!; [by destruct k|done|]. rewrite Nat.add_0_r. cbn [app] in HA. rewrite <- HA.
    replace (set_i_addrs (i_addrs x) x) with x by (by destruct x).
    split; try done; [by rewrite list_insert_id|]. exists (lh (log (k_fs k))). by destruct (log (k_fs k)). }
  cbn [length]. rewrite seqZ_cons by lia. cbn [forM].
  assert (Haj : i_addrs x !! j = Some a) by (rewrite HA; apply list_lookup_middle; by rewrite length_replicate).
  assert (Hj13 : (j < 13)%nat) by (rewrite <- HAl; by eapply lookup_lt_Some).
  rewrite bind_assoc, (bind_ok _ _ _ _ _ (get_inode_ok _ _ _ Hx)).
  rewrite bind_assoc. erewrite bind_ok by (apply (get_addr_ok _ _ x); [done|lia|done]).
  rewrite Nat2Z.id, Haj. cbn [default from_option id].
  rewrite in_use_cons in Hfr |- *. replace (Z.succ (Z.of_nat j)) with (Z.of_nat (S j)) by lia.
  replace (Z.pred (Z.of_nat (S (length todo)))) with (Z.of_nat (length todo)) by lia.
  rewrite <- Nat.add_succ_comm. destruct (Z.eqb_spec a 0) as [->|Ha].
  - rewrite truthy_0. unfold when. rewrite bind_ret. apply (IH (S j) k C D m i x suf); try done.
    rewrite HA, replicate_S_end, <- app_assoc. done.
  - rewrite (proj2 (truthy_true a)) by done. unfold when.
    assert (Hok : block_ok (C BMAP)) by (eapply cview_block_ok, (proj1 Htx)).
    destruct (freeable_cons C a _ Hok Hfr) as (Hd & Hbit & Hfr').
    destruct (bfree_btx k [] C D m a Hr Hly Htx Hsb Hd Hbit) as (s1 & Hrun & Htx1 & Hts1 & _); [apply not_elem_of_nil..|cbn; lia|done|].
    rewrite Hdev, bind_assoc, (bind_ok _ _ _ _ _ Hrun).
    assert (Hx1 : inodes s1 !! i = Some x) by (by rewrite (fm_inodes _ _ (ts_frame _ _ Hts1))).
    rewrite (bind_ok _ _ _ _ _ (set_addr_ok (set_k_fs s1 k) i x (Z.of_nat j) 0 Hx1 ltac:(lia) HAl)). rewrite Nat2Z.id.
    set (x2 := set_i_addrs _ x). set (k2 := set_k_fs (put_inode i x2 s1) k).
    assert (HA2 : i_addrs x2 = replicate (S j) 0 ++ todo ++ suf).
    { rewrite replicate_S_end, <- app_assoc. cbn [i_addrs x2 set_i_addrs]. rewrite HA, insert_app_r_alt by (rewrite length_replicate; lia).
      by rewrite length_replicate, Nat.sub_diag. }
    destruct (IH (S j) k2 (freed_block C a) D m i x2 suf) as (s' & Hrun' & Htx' & Hst').
    { by apply fs_ready_fs. } { exact (tstep_layout _ _ Hts1 Hly). } { by apply btx_inode. } { by apply sb_freed. } { done. }
    { by eapply put_inode_lookup. } { done. } { done. } { by rewrite <- HAl; cbn; rewrite length_insert. } { done. }
    exists s'. split_and!; [exact Hrun'|exact Htx'|]. eapply istep_trans; [|exact Hst'].
    eapply (istep_trans i x); [by apply istep_tstep|apply istep_put].
Qed.

(** *** The blocks that the indirect block lists *)
Definition entry_of (d : list Z) (j : Z) : Z := get32 d (Z.to_nat (4 * j)).

Lemma trunc_indirect js : ∀ k C D m bp a,
  fs_ready k → layout (k_fs k) → btx [(bp, a)] (k_fs k) C D m → sb_of_block (C 1) = mkfs_sb → (m < 28)%nat → data_block a →
  freeable C (in_use (entry_of (C a) <$> js)) →
  ∃ s', forM js (λ j, d ← bdata bp; let e := get32 d (Z.to_nat (4 * j)) in when (truthy e) (bfree 1 e)) k
    = Ok tt (set_k_fs s' k) ∧
    btx [(bp, a)] s' (freed_list C (in_use (entry_of (C a) <$> js))) D m ∧ tstep (k_fs k) s' ∧
    ∀ c, c ∈ logged (k_fs k) → c ∈ logged s'.
Proof.
  induction js as [|j js IH]; intros k C D m bp a Hr Hly Htx Hsb Hm Ha Hfr.
  { exists (k_fs k). split_and!; [by destruct k|done|apply tstep_refl|done]. }
  cbn [forM]. rewrite bind_assoc. erewrite bind_ok by (eapply tx_bdata; [exact (proj1 Htx)|left]). cbv zeta.
  fold (entry_of (C a) j). cbn [fmap list_fmap] in Hfr |- *. rewrite in_use_cons in Hfr |- *.
  destruct (Z.eqb_spec (entry_of (C a) j) 0) as [E|E].
  - rewrite E, truthy_0. unfold when. rewrite bind_ret. by apply IH.
  - rewrite (proj2 (truthy_true _)) by done. unfold when.
    assert (Hok : block_ok (C BMAP)) by (eapply cview_block_ok, (proj1 Htx)).
    destruct (freeable_cons C _ _ Hok Hfr) as (Hd & Hbit & Hfr'). set (b := entry_of (C a) j) in *.
    unfold data_block in Ha.
    destruct (bfree_btx k _ C D m b Hr Hly Htx Hsb Hd Hbit) as (s1 & Hrun & Htx1 & Hts1 & Hlog1);
      [cbn; rewrite list_elem_of_singleton; dlia..|cbn; lia|done|].
    rewrite (bind_ok _ _ _ _ _ Hrun). assert (HCa : freed_block C b a = C a) by (apply upd_ne; dlia).
    destruct (IH (set_k_fs s1 k) (freed_block C b) D m bp a) as (s' & Hrun' & Htx' & Hts' & Hlog');
      [by apply fs_ready_fs|exact (tstep_layout _ _ Hts1 Hly)|done|by apply sb_freed|done|done|by rewrite HCa|].
    rewrite HCa in Htx'. exists s'. split_and!; [exact Hrun'|exact Htx'|by eapply tstep_trans|]. intros c Hc. by apply Hlog', Hlog1.
Qed.

Lemma freed_list_app C l l' : freed_list C (l ++ l') = freed_list (freed_list C l) l'.
Proof. apply foldl_app. Qed.

(** The indirect block and the blocks it lists. *)
Lemma trunc_second k C D m i x a :
  fs_ready k → layout (k_fs k) → btx [] (k_fs k) C D m → sb_of_block (C 1) = mkfs_sb → (m < 27)%nat →
  inodes (k_fs k) !! i = Some x → i_dev x = 1 → i_addrs x = replicate 12 0 ++ [a] →
  let l := if a =? 0 then [] else in_use (entry_of (C a) <$> seqZ 0 NINDIRECT) ++ [a] in
  freeable C l →
  ∃ s', (x ← get_inode i; addr ← get_addr i NDIRECT;
     when (truthy addr) (
       bp ← bread (i_dev x) addr;
       forM (seqZ 0 NINDIRECT) (λ j, d ← bdata bp; let e := get32 d (Z.to_nat (4 * j)) in when (truthy e) (bfree (i_dev x) e));;
       brelse bp;; bfree (i_dev x) addr;; set_addr i NDIRECT 0)) k = Ok tt (set_k_fs s' k) ∧
    btx [] s' (freed_list C l) D m ∧ istep i (set_i_addrs (replicate 13 0) x) (k_fs k) s'.
Proof.
  intros Hr Hly Htx Hsb Hm Hx Hdev HA l Hfr. assert (HAl : length (i_addrs x) = 13%nat) by (by rewrite HA).
  rewrite (bind_ok _ _ _ _ _ (get_inode_ok _ _ _ Hx)). rewrite (bind_ok _ _ _ _ _ (get_addr_ok k i x NDIRECT Hx ltac:(done) HAl)).
  rewrite HA. change (default 0 ((replicate 12 0 ++ [a]) !! Z.to_nat NDIRECT)) with a. rewrite Hdev. unfold l in *. clear l.
  destruct (Z.eqb_spec a 0) as [->|Ha].
  { rewrite truthy_0. exists (k_fs k). split_and!; [by destruct k|done|]. change (replicate 13 0) with (replicate 12 0 ++ [0]).
    rewrite <- HA. replace (set_i_addrs (i_addrs x) x) with x by (by destruct x).
    split; try done; [by rewrite list_insert_id|]. exists (lh (log (k_fs k))). by destruct (log (k_fs k)). }
  rewrite (proj2 (truthy_true _)) by done. unfold when at 1.
  assert (Hda : data_block a ∧ bitset (C BMAP) a = true). { apply Hfr. apply elem_of_app. right. by apply list_elem_of_singleton. }
  destruct Hda as [Hda Hbit]. pose proof Hda as Hda'. unfold data_block in Hda'.
  assert (Hok : block_ok (C BMAP)) by (eapply cview_block_ok, (proj1 Htx)).
  destruct (tx_bread k [] C D (S m) a Hr (proj1 Htx)) as (bp & s1 & Hr1 & Htx1 & Hst1 & Hset); [dlia|apply not_elem_of_nil|cbn; lia|].
  rewrite (bind_ok _ _ _ _ _ Hr1).
  assert (Hb1 : btx [(bp, a)] s1 C D m). { split; [done|]. unfold logged. rewrite (st_log _ _ Hst1). apply Htx. }
  destruct Hfr as [Hnd Hall]. pose proof Hnd as (Hnd1 & Hdisj & _)%NoDup_app.
  set (le := in_use (entry_of (C a) <$> seqZ 0 NINDIRECT)) in *.
  assert (Hle : ∀ b, b ∈ le → data_block b ∧ bitset (C BMAP) b = true) by (intros b Hb; apply Hall, elem_of_app; by left).
  destruct (trunc_indirect (seqZ 0 NINDIRECT) (set_k_fs s1 k) C D m bp a) as (s2 & Hr2 & Htx2 & Hts2 & Hlog2);
    [by apply fs_ready_fs|exact (tstep_layout _ _ (tstep_still _ _ Hst1) Hly)|done|done|lia|done|done|].
  rewrite (bind_ok _ _ _ _ _ Hr2). fold le in Htx2. set (C2 := freed_list C le) in *.
  assert (Ha2 : C2 a = C a) by (apply freed_list_ne; dlia).
  destruct (tx_brelse (set_k_fs s2 k) [] C2 D (S m) bp a (fs_ready_fs _ _ Hr) (proj1 Htx2)) as (s3 & Hr3 & Htx3 & Hst3).
  { destruct Hset as [Hset|Hset]; [left; by apply Hlog2|right; by rewrite Ha2]. }
  change (set_k_fs s2 (set_k_fs s1 k)) with (set_k_fs s2 k). rewrite (bind_ok _ _ _ _ _ Hr3).
  assert (Hb3 : btx [] s3 C2 D m). { split; [done|]. unfold logged. rewrite (st_log _ _ Hst3). apply Htx2. }
  assert (Hts3 : tstep (k_fs k) s3).
  { eapply tstep_trans; [by apply tstep_still|]. eapply tstep_trans; [exact Hts2|by apply tstep_still]. }
  assert (Hbit2 : bitset (C2 BMAP) a = true).
  { unfold C2. destruct (freed_list_bit C le a) as [-> _]; [|dlia|done|].
    - apply Forall_forall. intros b Hb. by apply Hle.
    - rewrite Hbit, bool_decide_true; [done|]. intros Hin. by apply (Hdisj a Hin), list_elem_of_singleton. }
  destruct (bfree_btx (set_k_fs s3 k) [] C2 D m a (fs_ready_fs _ _ Hr) (tstep_layout _ _ Hts3 Hly) Hb3) as (s4 & Hr4 & Htx4 & Hts4 & _);
    [unfold C2; by rewrite freed_list_ne|done|done|apply not_elem_of_nil..|cbn; lia|lia|].
  change (set_k_fs s3 (set_k_fs s2 k)) with (set_k_fs s3 k). rewrite (bind_ok _ _ _ _ _ Hr4).
  assert (Hts : tstep (k_fs k) s4) by (by eapply tstep_trans).
  assert (Hx4 : inodes s4 !! i = Some x) by (by rewrite (fm_inodes _ _ (ts_frame _ _ Hts))).
  eexists. split_and!.
  - apply (set_addr_ok (set_k_fs s4 k) i x NDIRECT 0 Hx4); [done|done].
  - rewrite freed_list_app. by apply btx_inode.
  - rewrite HA. cbn [k_fs set_k_fs]. eapply (istep_trans i x); [by apply istep_tstep|apply istep_put].
Qed.

(** *** [itrunc] *)
Lemma bind_assoc2 {A B X E : Type} (m : K A) (g : A → K B) (w : A → B → K X) (f : X → K E) k :
  bind m (λ u, bind (g u) (λ v, bind (w u v) f)) k = bind (bind m (λ u, bind (g u) (w u))) f k.
Proof. unfold bind. destruct (m k) as [u k1|]; [|done]. by destruct (g u k1). Qed.

(** The blocks of a file in the order in which they are freed. *)
Definition trunc_list C (A : list Z) : list Z :=
  let a := default 0 (A !! 12%nat) in
  in_use (take 12 A) ++ (if a =? 0 then [] else in_use (entry_of (C a) <$> seqZ 0 NINDIRECT) ++ [a]).

Definition emptied (d : dinode) : dinode := mkDinode (d_type d) (d_major d) (d_minor d) (d_nlink d) 0 (replicate 13 0).

Lemma itrunc_run k C D m i x n :
  fs_ready k → layout (k_fs k) → tx [] (k_fs k) C D m → sb_of_block (C 1) = mkfs_sb → (m < 27)%nat →
  inodes (k_fs k) !! i = Some x → i_dev x = 1 → i_inum x = n → 1 ≤ n < NINODES → length (i_addrs x) = 13%nat →
  freeable C (trunc_list C (i_addrs x)) →
  let x' := set_i_size 0 (set_i_addrs (replicate 13 0) x) in
  ∃ s', itrunc i k = Ok tt (set_k_fs s' k) ∧
    tx [] s' (iupdated (freed_list C (trunc_list C (i_addrs x))) n (emptied (d_of x))) D (S (S m)) ∧
    istep i x' (k_fs k) s'.
Proof.
  intros Hr Hly Htx Hsb Hm Hx Hdev Hin Hn HAl Hfr x'. unfold trunc_list in *. set (A := i_addrs x) in *.
  destruct (lookup_lt_is_Some_2 A 12) as [a Ha]; [lia|]. rewrite Ha in Hfr |- *. cbn [default from_option id] in *.
  assert (HA : A = take 12 A ++ [a]). { rewrite <- (take_drop 12 A) at 1. f_equal. apply (drop_S A a 12) in Ha. rewrite Ha. f_equal. apply drop_ge. lia. }
  assert (Ht12 : length (take 12 A) = 12%nat) by (rewrite length_take; lia).
  assert (Hok : block_ok (C BMAP)) by (eapply cview_block_ok, Htx).
  set (l1 := in_use (take 12 A)) in *. set (l2 := if a =? 0 then [] else _) in *.
  destruct Hfr as [(Hnd1 & Hdisj & Hnd2)%NoDup_app Hall].
  assert (Hf1 : freeable C l1) by (split; [done|]; intros b Hb; apply Hall, elem_of_app; by left).
  assert (Hd1 : Forall data_block l1) by (apply Forall_forall; intros b Hb; by apply Hf1).
  destruct (trunc_direct (take 12 A) 0 k C D m i x [a] Hr Hly (btx_start _ _ _ _ _ Htx) Hsb) as (s1 & Hr1 & Htx1 & Hst1);
    [lia|done|done|by rewrite <- HA|done|done|].
  rewrite Ht12 in Hr1, Hst1. fold l1 in Htx1. set (C1 := freed_list C l1) in *. set (x1 := set_i_addrs _ x) in Hst1.
  pose proof (istep_layout _ _ _ _ Hst1 Hly) as Hly1. pose proof (istep_lookup _ _ _ _ _ Hst1 Hx) as Hx1.
  assert (Hain : a ≠ 0 → a ∈ l2).
  { intros Hnz. unfold l2. rewrite (proj2 (Z.eqb_neq _ _)) by done. apply elem_of_app. right. by apply list_elem_of_singleton. }
  assert (Hl2 : (if a =? 0 then [] else in_use (entry_of (C1 a) <$> seqZ 0 NINDIRECT) ++ [a]) = l2).
  { unfold l2, C1. destruct (Z.eqb_spec a 0) as [|Hnz]; [done|]. rewrite freed_list_ne; [done|].
    destruct (Hall a) as [Hda _]; [apply elem_of_app; right; by apply Hain|unfold data_block in Hda; dlia]. }
  assert (Hf2 : freeable C1 l2).
  { split; [done|]. intros b Hb. destruct (Hall b) as [Hdb Hbb]; [apply elem_of_app; by right|]. split; [done|].
    unfold data_block in Hdb. unfold C1. destruct (freed_list_bit C l1 b Hd1) as [-> _]; [dlia|done|].
    rewrite Hbb, bool_decide_true; [done|]. intros Hin1. by apply (Hdisj b Hin1). }
  destruct (trunc_second (set_k_fs s1 k) C1 D m i x1 a (fs_ready_fs _ _ Hr) Hly1 Htx1) as (s2 & Hr2 & Htx2 & Hst2);
    [unfold C1; by rewrite freed_list_ne|done|done|done|done|by rewrite Hl2|].
  rewrite Hl2 in Htx2. unfold C1 in Htx2. rewrite <- freed_list_app in Htx2. cbn [k_fs set_k_fs] in Hst2. set (C2 := freed_list C (l1 ++ l2)) in *.
  pose proof (istep_trans _ _ _ _ _ _ Hst1 Hst2) as Hst. pose proof (istep_layout _ _ _ _ Hst Hly) as Hly2.
  pose proof (istep_lookup _ _ _ _ _ Hst Hx) as Hx2. set (x2 := set_i_addrs _ x1) in *.
  set (s3 := put_inode i (set_i_size 0 x2) s2).
  assert (Hx3 : inodes s3 !! i = Some x') by (by eapply put_inode_lookup).
  destruct (iupdate_ok (set_k_fs s3 k) C2 D (S m) i x' n (fs_ready_fs _ _ Hr)) as (s' & Hr4 & Htx4 & Hts4);
    [exact Hly2|apply tx_inode, Htx2|lia|done|done|done|done|done|].
  exists s'. split_and!.
  - unfold itrunc. change (seqZ 0 NDIRECT) with (seqZ (Z.of_nat 0) (Z.of_nat 12)). rewrite (bind_ok _ _ _ _ _ Hr1).
    rewrite bind_assoc2, (bind_ok _ _ _ _ _ Hr2). change (set_k_fs s2 (set_k_fs s1 k)) with (set_k_fs s2 k).
    by rewrite (bind_ok _ _ _ _ _ (mod_inode_ok (set_k_fs s2 k) i x2 _ Hx2)).
  - exact Htx4.
  - eapply istep_trans; [exact Hst|]. eapply istep_trans; [apply istep_put|]. by apply istep_tstep.
Qed.
End trunc.

(** ** The blocks of a file *)
Section blocks.
Implicit Types (C : Z → list Z) (I : Z → dinode) (d : dinode) (n b : Z).

(** What comes before the first zero. *)
Lemma in_use_prefix (f : Z → Z) (lo p n : Z) :
  0 ≤ p ≤ n → (∀ j, lo ≤ j < lo + p → f j ≠ 0) → (∀ j, lo + p ≤ j < lo + n → f j = 0) →
  in_use (f <$> seqZ lo n) = f <$> seqZ lo p.
Proof.
  intros Hp Hnz Hz. replace n with (p + (n - p)) by lia. rewrite seqZ_app by lia. rewrite fmap_app. unfold in_use. rewrite filter_app.
  rewrite filter_all.
  - rewrite <- (app_nil_r (f <$> seqZ lo p)) at 2. f_equal.
    destruct (filter _ (f <$> seqZ (lo + p) (n - p))) as [|a l] eqn:E; [done|]. exfalso.
    assert (a ∈ filter (λ a, a ≠ 0) (f <$> seqZ (lo + p) (n - p))) as [Ha Hin]%list_elem_of_filter by (rewrite E; apply list_elem_of_here).
    apply list_elem_of_fmap in Hin as (j & -> & Hj%elem_of_seqZ). apply Ha, Hz. lia.
  - intros a (j & -> & Hj%elem_of_seqZ)%list_elem_of_fmap. apply Hnz. lia.
Qed.

Lemma trunc_used C d : wf_inode C d → trunc_list C (d_addrs d) = used_blocks C d.
Proof.
  intros Hw. pose proof (nblk_range (d_size d) (proj1 (wi_size _ _ Hw))) as (Hn0 & Hn1 & Hn2).
  assert (Hnb : nblk (d_size d) ≤ MAXFILE). { pose proof (wi_size _ _ Hw). clia. }
  assert (Hblk : ∀ j, 0 ≤ j < nblk (d_size d) → blk C d j ≠ 0). { intros j Hj. pose proof (wi_blk _ _ Hw j Hj). dlia. }
  set (nb := nblk (d_size d)) in *. unfold trunc_list, used_blocks. fold nb.
  change (default 0 (d_addrs d !! 12%nat)) with (addr d 12).
  assert (Hdir : in_use (take 12 (d_addrs d)) = blk C d <$> seqZ 0 (Z.min 12 nb)).
  { replace (take 12 (d_addrs d)) with (addr d <$> seqZ 0 12).
    - rewrite (in_use_prefix _ 0 (Z.min 12 nb)).
      + apply list_fmap_ext. intros i j Hj%lookup_seqZ. unfold blk. by rewrite (proj2 (Z.ltb_lt _ _)) by lia.
      + lia.
      + intros j Hj. specialize (Hblk j ltac:(lia)). unfold blk in Hblk. by rewrite (proj2 (Z.ltb_lt _ _)) in Hblk by lia.
      + intros j Hj. apply (wi_zero _ _ Hw). fold nb. lia.
    - apply list_eq. intros i. rewrite list_lookup_fmap. destruct (decide (i < 12)%nat) as [Hi|Hi].
      + rewrite lookup_seqZ_lt, lookup_take_lt by lia. cbn [fmap option_fmap option_map]. unfold addr. rewrite Z.add_0_l, Nat2Z.id.
        destruct (lookup_lt_is_Some_2 (d_addrs d) i) as [v ->]; [rewrite (wi_len _ _ Hw); lia|done].
      + rewrite lookup_seqZ_ge, lookup_take_ge by lia. done. }
  rewrite Hdir. destruct (Z.ltb_spec 12 nb) as [H12|H12].
  - pose proof (wi_ind _ _ Hw H12). rewrite (proj2 (Z.eqb_neq _ _)) by dlia. rewrite Z.min_l by lia.
    rewrite app_assoc. f_equal. change NINDIRECT with 128.
    assert (He : ∀ j, 0 ≤ j → entry_of (C (addr d 12)) j = blk C d (12 + j)).
    { intros j Hj. unfold blk, entry_of. rewrite (proj2 (Z.ltb_ge _ _)) by lia. do 2 f_equal. lia. }
    rewrite (in_use_prefix _ 0 (nb - 12)).
    + replace nb with (12 + (nb - 12)) at 2 by lia. rewrite seqZ_app by lia. rewrite fmap_app. f_equal.
      apply list_eq. intros i. rewrite !list_lookup_fmap. destruct (decide (Z.of_nat i < nb - 12)).
      * rewrite !lookup_seqZ_lt by lia. cbn. by rewrite He by lia.
      * by rewrite !lookup_seqZ_ge by lia.
    + unfold MAXFILE in Hnb. clia.
    + intros j Hj. rewrite He by lia. apply Hblk. lia.
    + intros j Hj. rewrite He by lia. apply (wi_zero_blk _ _ Hw H12). unfold MAXFILE. fold nb. clia.
  - rewrite (wi_zero_ind _ _ Hw) by done. rewrite Z.min_r by lia. done.
Qed.

Lemma used_freeable C I n : fsinv C I → live I n → freeable C (used_blocks C (I n)).
Proof.
  intros Hi Hn. split; [by apply (fsi_nodup _ _ Hi)|]. intros b Hb. split.
  - by eapply used_range; [apply (fsi_wf _ _ Hi n)|].
  - by eapply (fsi_bits _ _ Hi n).
Qed.

(** A file without blocks. *)
Lemma wf_emptied C d : wf_inode C (emptied d).
Proof.
  assert (Ha : ∀ j, addr (emptied d) j = 0).
  { intros j. unfold addr. cbn [d_addrs emptied]. destruct (decide (Z.to_nat j < 13)%nat).
    - by rewrite lookup_replicate_2.
    - by rewrite lookup_ge_None_2 by (rewrite length_replicate; lia). }
  split; cbn [d_size d_addrs emptied]; try done; change (nblk 0) with 0; try lia.
Qed.

Lemma used_emptied C d : used_blocks C (emptied d) = [].
Proof. done. Qed.

(** The blocks of a file are free again, and no others. *)
Lemma fsinv_free C I n d0 :
  fsinv C I → live I n → block_ok (C BMAP) → (∀ C', wf_inode C' d0) → (∀ C', used_blocks C' d0 = []) →
  let C' := freed_list C (used_blocks C (I n)) in
  fsinv C' (updI I n d0) ∧ (∀ n', live I n' → n' ≠ n → file_data C' (I n') = file_data C (I n')) ∧
  free_blocks C' ≡ₚ free_blocks C ++ used_blocks C (I n).
Proof.
  intros Hi Hn Hok Hwf0 Hu0 C'. pose proof (used_freeable C I n Hi Hn) as [Hnd Hall].
  assert (Hdl : Forall data_block (used_blocks C (I n))) by (apply Forall_forall; intros b Hb; by apply Hall).
  assert (Hbit : ∀ c, 0 ≤ c → bitset (C' BMAP) c = bool_decide (c ∉ used_blocks C (I n)) && bitset (C BMAP) c).
  { intros c Hc. by apply freed_list_bit. }
  assert (Hsame : ∀ n', live I n' → ∀ b, b ∈ used_blocks C (I n') → C' b = C b).
  { intros n' Hn' b Hb. apply freed_list_ne. pose proof (used_range _ _ _ (fsi_wf _ _ Hi n' Hn') Hb). dlia. }
  assert (Hcase : ∀ n', live (updI I n d0) n' → (n' = n ∧ updI I n d0 n' = d0) ∨ (n' ≠ n ∧ live I n' ∧ updI I n d0 n' = I n')).
  { intros n' [Hr Ht]. destruct (decide (n' = n)) as [->|Hne]; [left; by rewrite updI_eq|right].
    rewrite updI_ne in Ht |- * by done. done. }
  assert (Hused : ∀ n', live I n' → used_blocks C' (I n') = used_blocks C (I n')) by (intros n' Hn'; by apply used_unchanged, Hsame).
  split; [split|split].
  - intros n' [[-> ->]|(Hne & Hl & ->)]%Hcase; [apply Hwf0|]. apply (wf_unchanged C); [by apply Hsame|by apply (fsi_wf _ _ Hi)].
  - intros n' [[-> ->]|(Hne & Hl & ->)]%Hcase; [rewrite Hu0; constructor|]. rewrite Hused by done. by apply (fsi_nodup _ _ Hi).
  - intros n1 n2 b [[-> ->]|(H1 & Hl1 & ->)]%Hcase [[-> ->]|(H2 & Hl2 & ->)]%Hcase Hne.
    + done.
    + rewrite Hu0. by intros ?%not_elem_of_nil.
    + rewrite Hu0. intros _. apply not_elem_of_nil.
    + rewrite !Hused by done. by apply (fsi_disj _ _ Hi).
  - intros n' b [[-> ->]|(Hne & Hl & ->)]%Hcase; [rewrite Hu0; by intros ?%not_elem_of_nil|]. rewrite Hused by done. intros Hb.
    pose proof (used_range _ _ _ (fsi_wf _ _ Hi n' Hl) Hb). rewrite Hbit, (fsi_bits _ _ Hi n' b Hl Hb), bool_decide_true; [done| |dlia].
    by apply (fsi_disj _ _ Hi n' n).
  - intros b Hb. rewrite Hbit, (fsi_bmap _ _ Hi b Hb), bool_decide_true; [done| |lia]. intros [Hdb _]%Hall. unfold data_block in Hdb. lia.
  - intros n' Hl _. apply data_unchanged; [by apply Hsame|]. apply (fsi_wf _ _ Hi n' Hl).
  - apply NoDup_Permutation; [apply NoDup_filter, NoDup_seqZ| |].
    + apply NoDup_app. split_and!; [apply NoDup_filter, NoDup_seqZ| |done].
      intros b [Hb _]%list_elem_of_filter [_ Hb']%Hall. congruence.
    + intros b. unfold free_blocks. rewrite elem_of_app, !list_elem_of_filter, elem_of_seqZ. split.
      * intros [Hb Hr]. rewrite Hbit in Hb by dlia. apply andb_false_iff in Hb as [Hb%bool_decide_eq_false|Hb]; [right|by left].
        by apply dec_stable.
      * intros [[Hb Hr]|Hb]; [rewrite Hbit, Hb, andb_false_r by dlia; done|]. destruct (Hall b Hb) as [Hdb _]. unfold data_block in Hdb.
        rewrite Hbit, bool_decide_false by (dlia || (intros Hn'; by apply Hn')). split; [done|lia].
Qed.
End blocks.

(** ** Inode [n] becomes [d], which has no blocks, and its blocks become free *)
Record emptied_to (C C' : Z → list Z) (n : Z) (d : dinode) : Prop := {
  et_inode : nd C' n = d;
  et_other : ∀ n', 1 ≤ n' < NINODES → n' ≠ n → nd C' n' = nd C n';
  et_inv : fsinv C' (nd C');
  et_data : ∀ n', live (nd C) n' → n' ≠ n → file_data C' (nd C n') = file_data C (nd C n');
  et_free : free_blocks C' ≡ₚ free_blocks C ++ used_blocks C (nd C n);
  et_sb : C' 1 = C 1
}.

(** An inode that has no blocks, whatever the disk. *)
Definition blockless (d : dinode) : Prop := dinode_wf d ∧ (∀ C, wf_inode C d) ∧ ∀ C, used_blocks C d = [].

Lemma emptied_to_store C n d :
  fsinv C (nd C) → live (nd C) n → (∀ b, block_ok (C b)) → blockless d →
  emptied_to C (iupdated (freed_list C (used_blocks C (nd C n))) n d) n d.
Proof.
  intros Hi Hn Hok (Hdw & Hwf & Hu). destruct (fsinv_free C (nd C) n d Hi Hn (Hok BMAP) Hwf Hu) as (Hi1 & Hd1 & Hf1).
  set (C1 := freed_list C (used_blocks C (nd C n))) in *. set (C2 := iupdated C1 n d). pose proof Hn as [Hnr _].
  assert (HC1 : ∀ c, c ≠ BMAP → C1 c = C c) by (intros c; apply freed_list_ne).
  assert (Hib : ∀ n', 1 ≤ n' < NINODES → C1 (IBLOCK n' mkfs_sb) = C (IBLOCK n' mkfs_sb)).
  { intros n' Hn'. apply HC1. rewrite IBLOCK_eq. clia. }
  assert (Hokn : block_ok (C1 (IBLOCK n mkfs_sb))) by (by rewrite Hib).
  assert (Hother : ∀ n', 1 ≤ n' < NINODES → n' ≠ n → nd C2 n' = nd C n').
  { intros n' Hn' Hne. unfold C2. rewrite nd_iupdated_ne by (done || apply Hdw). unfold nd. by rewrite Hib. }
  assert (Hself : nd C2 n = d) by (by apply nd_iupdated).
  assert (Hhigh : ∀ b, BMAP ≤ b < FSSIZE → C2 b = C1 b) by (intros b Hb; apply iupdated_high; [done|lia]).
  destruct (fsinv_meta C1 C2 _ Hi1 Hhigh) as [Hi2 Hd2]. split; try done.
  - apply (fsinv_same C2 _ _ Hi2). intros n' Hn'. destruct (decide (n' = n)) as [->|Hne]; [by rewrite updI_eq|].
    rewrite updI_ne by done. by apply Hother.
  - intros n' Hn' Hne. rewrite <- Hd1 by done. specialize (Hd2 n'). rewrite updI_ne in Hd2 by done. apply Hd2.
    destruct Hn'. split; [done|]. by rewrite updI_ne.
  - rewrite <- Hf1. unfold free_blocks. by rewrite (Hhigh BMAP) by clia.
  - unfold C2, iupdated. rewrite upd_ne; [by apply HC1|]. rewrite IBLOCK_eq. clia.
Qed.

Lemma emptied_to_trans C C1 C2 n d d' :
  live (nd C) n → emptied_to C C1 n d → emptied_to C1 C2 n d' → used_blocks C1 d = [] → emptied_to C C2 n d'.
Proof.
  intros Hn [E1 O1 I1 D1 F1 S1] [E2 O2 I2 D2 F2 S2] Hu. split; try done.
  - intros n' Hn' Hne. by rewrite O2, O1.
  - intros n' Hn' Hne. rewrite <- D1 by done. pose proof Hn' as [Hr Ht]. rewrite <- O1 by done. apply D2; [|done].
    split; [done|]. by rewrite O1.
  - rewrite F2, E1, Hu, app_nil_r. done.
  - congruence.
Qed.

(** What [itrunc] leaves, and what is left of a deleted file. *)
Definition dead (d : dinode) : dinode := mkDinode 0 (d_major d) (d_minor d) (d_nlink d) 0 (replicate 13 0).

Lemma blockless_emptied d : dinode_wf d → blockless (emptied d).
Proof.
  intros []. split; [split; cbn [d_type d_major d_minor d_nlink d_size d_addrs emptied]; try done; apply Forall_replicate; lia|].
  split; [intros C; apply wf_emptied|done].
Qed.

Lemma blockless_dead d : dinode_wf d → blockless (dead d).
Proof.
  intros []. split; [split; cbn [d_type d_major d_minor d_nlink d_size d_addrs dead]; try done; apply Forall_replicate; lia|].
  split; [intros C; apply (wf_emptied C (dead d))|done].
Qed.

Section delete.
Context {W : world} {DW : DiskWorld}.
Implicit Types (k : kernel) (s : fsys) (i : nat) (x : inode) (C D : Z → list Z) (n : Z).

Lemma itrunc_ok k C D m i x n :
  fs_ready k → layout (k_fs k) → tx [] (k_fs k) C D m → sb_of_block (C 1) = mkfs_sb → (m < 27)%nat →
  inodes (k_fs k) !! i = Some x → i_dev x = 1 → i_inum x = n → d_of x = nd C n → live (nd C) n → fsinv C (nd C) →
  ∃ s' C', itrunc i k = Ok tt (set_k_fs s' k) ∧ tx [] s' C' D (S (S m)) ∧
    emptied_to C C' n (emptied (nd C n)) ∧ istep i (set_i_size 0 (set_i_addrs (replicate 13 0) x)) (k_fs k) s'.
Proof.
  intros Hr Hly Htx Hsb Hm Hx Hdev Hin Hd Hn Hi. pose proof (fsi_wf _ _ Hi n Hn) as Hwf.
  assert (Hok : ∀ b, block_ok (C b)) by (intros b; eapply cview_block_ok, Htx).
  assert (HA : i_addrs x = d_addrs (nd C n)) by (by rewrite <- Hd).
  destruct (itrunc_run k C D m i x n Hr Hly Htx Hsb Hm Hx Hdev Hin) as (s' & Hrun & Htx' & Hst);
    [apply Hn|rewrite HA; apply Hwf|rewrite HA, trunc_used by done; by apply used_freeable|].
  rewrite HA, trunc_used, Hd in Htx' by done. eexists s', _. split_and!; [done|exact Htx'| |done].
  apply emptied_to_store; try done. apply blockless_emptied. apply dinode_at_wf, Hok.
Qed.

(** *** [iput] of the last reference to a file that no directory names *)
Definition forgotten x : inode :=
  set_i_ref (i_ref x - 1) (set_i_lock (mkSleeplock 0 0) (set_i_valid 0 (set_i_type 0 (set_i_size 0 (set_i_addrs (replicate 13 0) x))))).

(** The file [n] is deleted, once its inode is locked. *)
Lemma iput_frees k C D m i x n (f : unit → K unit) :
  fs_ready k → layout (k_fs k) → tx [] (k_fs k) C D m → sb_of_block (C 1) = mkfs_sb → (m < 27)%nat →
  inodes (k_fs k) !! i = Some x → i_ref x = 1 → i_valid x = 1 → i_nlink x = 0 →
  i_dev x = 1 → i_inum x = n → d_of x = nd C n → live (nd C) n → fsinv C (nd C) →
  ∃ s' C', (bind (when (truthy (i_valid x) && (i_nlink x =? 0)) (
      acquire Licache;; x ← get_inode i; release Licache;;
      when (i_ref x =? 1) (itrunc i;; mod_inode i (set_i_type 0);; iupdate i;; mod_inode i (set_i_valid 0)))) f) k
    = f tt (set_k_fs s' k) ∧
    tx [] s' C' D (S (S (S m))) ∧ emptied_to C C' n (dead (nd C n)) ∧
    istep i (set_i_valid 0 (set_i_type 0 (set_i_size 0 (set_i_addrs (replicate 13 0) x)))) (k_fs k) s'.
Proof.
  intros Hr Hly Htx Hsb Hm Hx Href Hv Hnl Hdev Hin Hd Hn Hi. assert (Ha : avail Licache (k_mach k)) by (by apply (fr_lock k Hr)).
  destruct (itrunc_ok k C D m i x n Hr Hly Htx Hsb Hm Hx Hdev Hin Hd Hn Hi) as (s1 & C1 & Hr1 & Htx1 & Het1 & Hst1).
  set (x1 := set_i_size 0 _) in Hst1. pose proof (istep_lookup _ _ _ _ _ Hst1 Hx) as Hx1.
  set (x2 := set_i_type 0 x1). set (s2 := put_inode i x2 s1).
  assert (Hx2 : inodes s2 !! i = Some x2) by (by eapply put_inode_lookup).
  destruct (iupdate_ok (set_k_fs s2 k) C1 D (S (S m)) i x2 n (fs_ready_fs _ _ Hr)) as (s3 & Hr3 & Htx3 & Hts3);
    [exact (istep_layout _ _ _ _ Hst1 Hly)|by apply tx_inode|lia|done|done|done|apply Hn|done|].
  assert (Hx3 : inodes s3 !! i = Some x2) by (by rewrite (fm_inodes _ _ (ts_frame _ _ Hts3))).
  assert (Hd2 : d_of x2 = dead (nd C n)) by (rewrite <- Hd; by destruct x).
  assert (Hok : ∀ C0 s0 m0, tx [] s0 C0 D m0 → ∀ b, block_ok (C0 b)) by (intros C0 s0 m0 Ht b; eapply cview_block_ok, Ht).
  assert (Hdw : dinode_wf (nd C n)) by (apply dinode_at_wf; by eapply Hok).
  eexists (put_inode i (set_i_valid 0 x2) s3), _. split_and!; [|apply tx_inode, Htx3| |].
  - rewrite Hv, Hnl, truthy_1. cbn [andb when Z.eqb]. rewrite !bind_assoc, (bind_ok _ _ _ _ _ (acquire_ok _ _ Ha)).
    rewrite bind_assoc. erewrite bind_ok by (apply (get_inode_ok (mod_mach (hold Licache) k)); exact Hx).
    rewrite bind_assoc, (bind_ok _ _ _ _ _ (release_ok Licache (mod_mach (hold Licache) k) (k_mach k) Ha eq_refl)).
    replace (set_k_mach (k_mach k) (mod_mach (hold Licache) k)) with k by (by destruct k).
    rewrite Href. change (1 =? 1) with true. unfold when. rewrite !bind_assoc, (bind_ok _ _ _ _ _ Hr1).
    rewrite !bind_assoc, (bind_ok _ _ _ _ _ (mod_inode_ok (set_k_fs s1 k) i x1 _ Hx1)).
    rewrite !bind_assoc. change (set_k_fs (put_inode i (set_i_type 0 x1) (k_fs (set_k_fs s1 k))) (set_k_fs s1 k)) with (set_k_fs s2 k).
    rewrite (bind_ok _ _ _ _ _ Hr3). by rewrite (bind_ok _ _ _ _ _ (mod_inode_ok (set_k_fs s3 k) i x2 _ Hx3)).
  - rewrite Hd2. eapply emptied_to_trans; [exact Hn|exact Het1| |done].
    assert (Hn1 : live (nd C1) n). { split; [apply Hn|]. rewrite (et_inode _ _ _ _ Het1). apply Hn. }
    pose proof (emptied_to_store C1 n (dead (nd C n)) (et_inv _ _ _ _ Het1) Hn1 (Hok _ _ _ Htx1) (blockless_dead _ Hdw)) as H.
    rewrite (et_inode _ _ _ _ Het1) in H. exact H.
  - eapply istep_trans; [exact Hst1|]. eapply istep_trans; [apply istep_put|]. eapply istep_trans; [by apply istep_tstep|apply istep_put].
Qed.

Lemma iput_deletes k C D m i x n :
  fs_ready k → layout (k_fs k) → tx [] (k_fs k) C D m → sb_of_block (C 1) = mkfs_sb → (m < 27)%nat → (i < 50)%nat →
  inodes (k_fs k) !! i = Some x → sl_locked (i_lock x) = 0 → i_ref x = 1 → i_valid x = 1 → i_nlink x = 0 →
  i_dev x = 1 → i_inum x = n → d_of x = nd C n → live (nd C) n → fsinv C (nd C) →
  ∃ s' C', iput i k = Ok tt (set_k_fs s' k) ∧ tx [] s' C' D (S (S (S m))) ∧ emptied_to C C' n (dead (nd C n)) ∧
    istep i (forgotten x) (k_fs k) s'.
Proof.
  intros Hr Hly Htx Hsb Hm Hi50 Hx Hlk Href Hv Hnl Hdev Hin Hd Hn Hi.
  pose proof Hr as [(p & q & Hp) _ _]. assert (Ha : avail Licache (k_mach k)) by (by apply (fr_lock k Hr)).
  unfold iput. rewrite (bind_ok _ _ _ _ _ (acquiresleep_inode k p q i x Hp (inode_avail k i Hr Hi50) Hx Hlk)).
  set (x1 := set_i_lock _ x). set (k1 := set_k_fs (put_inode i x1 (k_fs k)) k).
  assert (Hx1 : inodes (k_fs k1) !! i = Some x1) by (by eapply put_inode_lookup).
  rewrite (bind_ok _ _ _ _ _ (get_inode_ok k1 _ _ Hx1)).
  edestruct (iput_frees k1 C D m i x1 n) as (s2 & C2 & Hr2 & Htx2 & Het & Hst2);
    [by apply fs_ready_fs|exact Hly|by apply tx_inode|done|done|done|done|done|done|done|done|done|done|done|].
  rewrite Hr2. clear Hr2. pose proof (istep_lookup _ _ _ _ _ Hst2 Hx1) as Hx2. set (x2 := set_i_valid 0 _) in *.
  change (set_k_fs s2 k1) with (set_k_fs s2 k).
  rewrite (bind_ok _ _ _ _ _ (releasesleep_inode (set_k_fs s2 k) i x2 (fs_ready_fs _ _ Hr) Hi50 Hx2)).
  set (x3 := set_i_lock _ x2). cbn [k_fs set_k_fs]. set (s3 := put_inode i x3 s2).
  change (set_k_fs s3 (set_k_fs s2 k)) with (set_k_fs s3 k).
  rewrite (bind_ok _ _ _ _ _ (acquire_ok Licache (set_k_fs s3 k) Ha)).
  assert (Hx3 : inodes s3 !! i = Some x3) by (by eapply put_inode_lookup).
  rewrite (bind_ok _ _ _ _ _ (mod_inode_ok (mod_mach (hold Licache) (set_k_fs s3 k)) i x3 _ Hx3)).
  rewrite (release_ok Licache _ (k_mach k) Ha) by done. cbn [k_fs mod_mach set_k_mach set_k_fs].
  set (x4 := set_i_ref _ x3). exists (put_inode i x4 s3), C2. split_and!; [by destruct k|by apply tx_inode, tx_inode|done|].
  replace (forgotten x) with x4 by (by destruct x).
  eapply istep_trans; [apply (istep_put i x1)|]. eapply istep_trans; [exact Hst2|]. eapply istep_trans; [apply istep_put|apply istep_put].
Qed.

(** *** The last [close] of a file that has been unlinked *)

(** An entry that is no longer in use does not matter. *)
Lemma icache_forgotten s s' C C' i x x' n d :
  icache_ok s C → inodes s' = <[i := x']> (inodes s) → inodes s !! i = Some x → 0 < i_ref x → i_dev x = 1 → i_inum x = n →
  i_ref x' = 0 → emptied_to C C' n d → icache_ok s' C'.
Proof.
  intros [Hlen Hcp Huq] Hs Hx Href Hdev Hin Href' Het.
  assert (Hl : ∀ j y, inodes s' !! j = Some y → 0 < i_ref y → j ≠ i ∧ inodes s !! j = Some y).
  { intros j y. rewrite Hs. intros [(<- & <- & _)|[? ?]]%list_lookup_insert_Some Hp; [lia|done]. }
  split.
  - by rewrite Hs, length_insert.
  - intros j y Hy Hr Hv. destruct (Hl j y Hy Hr) as [Hne Hy0]. destruct (Hcp j y Hy0 Hr Hv) as (Hdy & Hry & Hcy).
    split_and!; try done; try lia. rewrite (et_other _ _ _ _ Het); [done|done|]. intros E. apply Hne.
    eapply (Huq j i y x); try done; congruence.
  - intros j j' y y' Hy Hy' Hr Hr' Hdd Hii. destruct (Hl j y Hy Hr), (Hl j' y' Hy' Hr'). by eapply Huq.
Qed.

Lemma emptied_to_home C C2 C' n d :
  1 ≤ n < NINODES → emptied_to C C2 n d → (∀ b, home 2 b → C' b = C2 b) → emptied_to C C' n d.
Proof.
  intros Hnr [E1 O1 I1 D1 F1 S1] Hh. destruct (fsinv_home C2 C' I1 Hh) as (Hi' & Hnd & Hdata & Hfree). split.
  - by rewrite Hnd.
  - intros n' Hn' Hne. rewrite Hnd by done. by apply O1.
  - done.
  - intros n' Hl Hne. rewrite <- D1 by done. rewrite <- (O1 n') by (apply Hl || done). apply Hdata.
    split; [apply Hl|]. rewrite O1 by (apply Hl || done). apply Hl.
  - by rewrite Hfree.
  - rewrite Hh; [done|]. unfold home. clia.
Qed.

(** A committed transaction has the contents it showed, outside the log. *)
Lemma committed_home s C D m :
  tx [] s C D m → log_start (log s) = 2 → ∀ b, home 2 b → apply_writes (end_writes C 2 (logged s)) D b = C b.
Proof.
  intros [Hc Hlo _ _ HhL _] Hls b Hb. rewrite Hls in HhL. apply commit_home; try done.
  - pose proof (logged_length _ Hlo) as E. pose proof (lo_n _ Hlo). clia.
  - destruct (cview_settled _ _ _ _ b Hc) as [Hq|]; [left|by right]. by apply elem_of_list_to_set in Hq.
Qed.

Lemma idle_files s C fs : fs_idle s C → fs_idle (set_files fs s) C.
Proof.
  intros [Hc]. split; try done. apply (cview_same [] s); try done.
Qed.

Lemma mod_file_ok k f fl g : files (k_fs k) !! f = Some fl →
  mod_file f g k = Ok tt (set_k_fs (set_files (<[f := g fl]> (files (k_fs k))) (k_fs k)) k).
Proof. intros Hf. unfold mod_file. cbn. unfold mod_fs. by rewrite (alter_insert _ _ _ fl). Qed.

End delete.

(** What [fileclose] does to the file table when the last reference goes. *)
Definition closed (fl : file) : file := set_f_type FD_NONE (set_f_ref 0 fl).

Section close.
Context `{link} {W : world} {DW : DiskWorld}.
Implicit Types (k : kernel) (s : fsys) (i f : nat) (x : inode) (C D : Z → list Z) (n : Z).

Lemma fileclose_last k f fl i :
  avail Lftable (k_mach k) → files (k_fs k) !! f = Some fl → f_ref fl = 1 → f_type fl = FD_INODE → f_ip fl = Some i →
  fileclose f k = (begin_op;; iput i;; end_op) (set_k_fs (set_files (<[f := closed fl]> (files (k_fs k))) (k_fs k)) k).
Proof.
  intros Ha Hf Href Hty Hip. unfold fileclose. rewrite (bind_ok _ _ _ _ _ (acquire_ok _ _ Ha)).
  erewrite bind_ok by (apply get_file_ok; exact Hf). rewrite Href. change (1 <? 1) with false. cbv iota.
  erewrite bind_ok by (apply mod_file_ok; exact Hf).
  assert (Hlk : ∀ y, <[f := y]> (files (k_fs k)) !! f = Some y) by (intros y; apply list_lookup_insert_eq; by eapply lookup_lt_Some).
  erewrite bind_ok by (apply get_file_ok; apply Hlk). cbn [f_ref set_f_ref]. rewrite Href. change (0 <? 1 - 1) with false. cbv iota.
  erewrite bind_ok by (apply mod_file_ok; apply Hlk). cbn [k_fs set_k_fs files set_files mod_mach set_k_mach].
  rewrite list_insert_insert_eq. erewrite bind_ok by (apply mod_file_ok; apply Hlk).
  cbn [k_fs set_k_fs files set_files mod_mach set_k_mach]. rewrite list_insert_insert_eq.
  erewrite bind_ok by (apply (release_ok Lftable _ (k_mach k) Ha); done). cbn [f_type f_ip set_f_ref]. rewrite Hty, Hip.
  reflexivity.
Qed.

(** C11: Deleted files leave nothing behind.  When the last descriptor of a file that no directory names
    any more is closed, the transaction of [fileclose] commits a disk on which the inode is free and its
    blocks, the indirect block included, have become free, each once and no others; every other inode and
    file is as before, the file system is consistent, and the entries of the file table and of the inode
    cache are free. *)
Theorem fileclose_deletes k C f fl i x n :
  fs_ready k → avail Lftable (k_mach k) → fs_state (k_fs k) C → sb_of_block (C 1) = mkfs_sb →
  files (k_fs k) !! f = Some fl → f_ref fl = 1 → f_type fl = FD_INODE → f_ip fl = Some i →
  inodes (k_fs k) !! i = Some x → sl_locked (i_lock x) = 0 → i_ref x = 1 → i_valid x = 1 → i_nlink x = 0 → i_inum x = n →
  i_type x ≠ 0 →
  ∃ s' C', fileclose f k = Ok tt (set_k_fs s' k) ∧ fs_state s' C' ∧ emptied_to C C' n (dead (nd C n)) ∧
    files s' = <[f := closed fl]> (files (k_fs k)) ∧ inodes s' = <[i := forgotten x]> (inodes (k_fs k)).
Proof.
  intros Hr Ha [Hid Hly Hi Hic] Hsb Hf Hfref Hty Hip Hx Hlk Href Hv Hnl Hin Ht.
  destruct (ic_copy _ _ Hic i x Hx ltac:(lia) Hv) as (Hdev & Hnr & Hcp). rewrite Hin in *.
  assert (Hn : live (nd C) n) by (split; [done|]; by rewrite <- Hcp).
  rewrite (fileclose_last k f fl i Ha Hf Hfref Hty Hip). set (s1 := set_files _ (k_fs k)). set (k1 := set_k_fs s1 k).
  destruct (begin_op_ok k1 C (fs_ready_fs _ _ Hr) (idle_files _ _ _ Hid)) as [Hr1 Htx1]. rewrite (bind_ok _ _ _ _ _ Hr1).
  set (s2 := set_log _ (k_fs k1)) in *. change (set_k_fs s2 k1) with (set_k_fs s2 k).
  destruct (iput_deletes (set_k_fs s2 k) C C 0 i x n (fs_ready_fs _ _ Hr)) as (s3 & C3 & Hr3 & Htx3 & Het & Hst);
    [exact Hly|exact Htx1|done|lia|by eapply inode_lt|done..|].
  rewrite (bind_ok _ _ _ _ _ Hr3). change (set_k_fs s3 (set_k_fs s2 k)) with (set_k_fs s3 k). destruct Hst as [S1 S2 S3 S4 [y S5] S6].
  assert (Hls : log_start (log s3) = 2) by (rewrite S5; apply Hly).
  destruct (end_op_ok (set_k_fs s3 k) C3 C 3 (fs_ready_fs _ _ Hr) Htx3) as (s4 & Hr4 & Hid4 & Hf4 & Hls4 & _);
    [cbn; by rewrite S5|cbn; rewrite S5; apply (fi_com _ _ Hid)|cbn; rewrite Hls; destruct Hly as [_ <-]; apply (fi_head _ _ Hid)|].
  cbn [k_fs set_k_fs] in *. set (C4 := apply_writes _ C) in *.
  assert (Hhome : ∀ b, home 2 b → C4 b = C3 b).
  { intros b Hb. unfold C4. rewrite Hls. by eapply committed_home. }
  pose proof (emptied_to_home C C3 C4 n _ Hnr Het Hhome) as Het4. destruct Hf4 as [G1 G2 G3 G4].
  exists s4, C4. split_and!; [exact Hr4| |exact Het4|by rewrite G3, S3|by rewrite G2, S2].
  split; [exact Hid4|split; [rewrite G1, S1; apply Hly|by rewrite Hls4]|apply Het4|].
  eapply (icache_forgotten (k_fs k) s4 C C4 i x (forgotten x) n); try done; [by rewrite G2, S2|lia|cbn; lia].
Qed.
End close.
