(* ===== verification/DirThms.v ===== *)
(** [dirlookup], [dirlink] and [namex] ([fs.c]): a directory is a map from names to inode
    numbers, and a path is followed through such maps. *)

From S2P Require Import Prelude Params Bytes State Spinlock Mem Kalloc PageTable Uaccess Procs Sched SchedSpec Bio BioSpec CacheSpec BlockSpec Log LogSpec CommitSpec CrashSpec Inode BallocSpec DiskSpec BmapSpec DinodeSpec Console Fs WriteSpec ReadSpec File FsSpec DirSpec IcacheSpec.

(** The entries of directory [n]. *)
Definition dir_of (C : Z → list Z) (n : Z) : list dirent := dents (file_data C (nd C n)).

(** A directory in order: a whole number of entries, and the names in use are those of inodes in
    use, which know that they have a name. *)
Record dir_ok (C : Z → list Z) (n : Z) : Prop := mkDirOk {
  do_live : live (nd C) n;
  do_type : d_type (nd C n) = T_DIR;
  do_size : ∃ q : nat, d_size (nd C n) = 16 * Z.of_nat q;
  do_names : ∀ e, e ∈ dir_of C n → de_inum e ≠ 0 → live (nd C) (de_inum e) ∧ d_nlink (nd C (de_inum e)) ≠ 0
}.

Lemma find_from_elem nm es : ∀ j m off, find_from j es nm = Some (m, off) → ∃ e, e ∈ es ∧ de_inum e = m ∧ m ≠ 0.
Proof.
  induction es as [|e es IH]; intros j m off Hf; cbn in Hf; [done|]. destruct (names_it nm e) eqn:He.
  - injection Hf as <- _. exists e. unfold names_it in He. apply andb_true_iff in He as [He _]. apply negb_true_iff, Z.eqb_neq in He.
    split_and!; [left|done|done].
  - destruct (IH _ _ _ Hf) as (e' & ? & ?). exists e'. split; [by right|done].
Qed.

Section dirs.
Context {W : world} {DW : DiskWorld}.
Implicit Types (k : kernel) (s : fsys) (i : nat) (x : inode) (C D : Z → list Z) (Q : gset Z) (h : list nat) (nm : list Z).

Lemma length_dir_of C n q : d_size (nd C n) = 16 * Z.of_nat q → length (dir_of C n) = q.
Proof.
  intros Hq. unfold dir_of. rewrite length_dents, length_file_data by lia.
  replace (Z.to_nat (d_size (nd C n))) with (16 * q)%nat by lia. apply sixteenth.
Qed.

Lemma read_dirent_ok h k C D Q i x n q t msg :
  iview h k C D Q → inodes (k_fs k) !! i = Some x → i_dev x = 1 → d_of x = nd C n → dir_ok C n →
  d_size (nd C n) = 16 * Z.of_nat q → (t < q)%nat →
  ∃ e s', read_dirent i (16 * Z.of_nat t) msg k = Ok e (set_k_fs s' k) ∧ dir_of C n !! t = Some e ∧ cview [] s' C D Q ∧ still (k_fs k) s'.
Proof.
  intros Hv Hx Hd Hcp Hdir Hq Ht. pose proof Hv as [Hr _ Hc HQ _ Hi _ _]. pose proof (fsi_wf _ _ Hi n (do_live _ _ Hdir)) as Hwf.
  assert (Hsz : i_size x = 16 * Z.of_nat q) by (rewrite <- Hq, <- Hcp; done).
  assert (Hty : i_type x = T_DIR) by (rewrite <- (do_type _ _ Hdir), <- Hcp; done).
  pose proof (wi_size _ _ Hwf) as Hmax. pose proof (length_dir_of C n q Hq) as Hlen.
  destruct (readi_ok local_sink (λ l, l) (λ _ k, k) k C D Q i x n (16 * Z.of_nat t) 16 (local_sink_of [] _ k))
    as (s' & Hrun & Hc' & Hst); try done; [by rewrite Hty|lia|clia|].
  rewrite Hsz, Z.min_l in Hrun by lia. eexists _, s'. split_and!; [|by apply dents_lookup; rewrite <- length_dents; unfold dir_of in Hlen; lia|done|done].
  unfold read_dirent. change DIRENT with 16. rewrite (bind_ok _ _ _ _ _ Hrun). cbn [Z.eqb Pos.eqb]. do 3 f_equal. lia.
Qed.

(** What a lookup leaves: the cache of inodes with one more reference to the inode found. *)
Definition looked_up h k C D Q (o : option (Z * Z)) (r : outcome kerr kernel (option (nat * Z))) : Prop :=
  match o with
  | None => ∃ s', r = Ok None (set_k_fs s' k) ∧ iview h (set_k_fs s' k) C D Q ∧ imoved none (k_fs k) s' ∧
      (∀ j, i_lock <$> inodes s' !! j = i_lock <$> inodes (k_fs k) !! j)
  | Some (m, off) => ∃ ip s', r = Ok (Some (ip, off)) (set_k_fs s' k) ∧ iview h (set_k_fs s' k) C D Q ∧ imoved (one ip) (k_fs k) s' ∧
      (∀ j, i_lock <$> inodes s' !! j = i_lock <$> inodes (k_fs k) !! j) ∧ entry_for s' ip m
  end.

Lemma dirlookup_loop_ok C D Q i n q nm (f : nat) : ∀ h k x t,
  iview h k C D Q → inodes (k_fs k) !! i = Some x → i_dev x = 1 → d_of x = nd C n → dir_ok C n → has_room (k_fs k) →
  d_size (nd C n) = 16 * Z.of_nat q → (t ≤ q)%nat → (q - t ≤ f)%nat →
  looked_up h k C D Q (find_from t (drop t (dir_of C n)) nm) (dirlookup_loop f i nm (16 * Z.of_nat t) k).
Proof.
  induction f as [|f IH]; intros h k x t Hv Hx Hd Hcp Hdir Hroom Hq Htq Hf.
  all: assert (Hsz : i_size x = 16 * Z.of_nat q) by (rewrite <- Hq, <- Hcp; done).
  all: pose proof (length_dir_of C n q Hq) as Hlen; cbn [dirlookup_loop].
  all: rewrite (bind_ok _ _ _ _ _ (get_inode_ok _ _ _ Hx)), Hsz.
  - rewrite (proj2 (Z.ltb_ge _ _)) by lia. rewrite drop_ge by lia. exists (k_fs k). split_and!; [by destruct k|by destruct k|apply imoved_refl|done].
  - destruct (Z.ltb_spec (16 * Z.of_nat t) (16 * Z.of_nat q)) as [Hlt|Hge]; [|rewrite drop_ge by lia; exists (k_fs k);
      split_and!; [by destruct k|by destruct k|apply imoved_refl|done]].
    destruct (read_dirent_ok h k C D Q i x n q t "dirlookup read" Hv Hx Hd Hcp Hdir Hq ltac:(lia)) as (e & s1 & Hr1 & He & Hc1 & Hst1).
    rewrite (bind_ok _ _ _ _ _ Hr1). rewrite (drop_S _ e t He). cbn [find_from]. unfold names_it.
    pose proof (iview_still _ _ _ _ _ _ Hv Hc1 Hst1) as Hv1. pose proof (st_frame _ _ Hst1) as [_ Fin _ _].
    assert (Hx1 : inodes s1 !! i = Some x) by (by rewrite Fin).
    assert (Hnext : looked_up h k C D Q (find_from (S t) (drop (S t) (dir_of C n)) nm)
      (dirlookup_loop f i nm (16 * Z.of_nat t + DIRENT) (set_k_fs s1 k))).
    { assert (Hroom1 : has_room s1) by (destruct Hroom as (j & y & ? & ?); exists j, y; by rewrite Fin).
      specialize (IH h (set_k_fs s1 k) x (S t) Hv1 Hx1 Hd Hcp Hdir Hroom1 Hq ltac:(lia) ltac:(lia)).
      replace (16 * Z.of_nat t + DIRENT) with (16 * Z.of_nat (S t)) by (change DIRENT with 16; lia). unfold looked_up in *.
      pose proof (imoved_still _ _ Hst1) as Hm1. destruct (find_from (S t) _ nm) as [[m off]|].
      - destruct IH as (ip & s2 & -> & Hv2 & Hm2 & Hl2 & He2). exists ip, s2. split_and!; try done; [by eapply imoved_after|].
        intros j. rewrite Hl2. cbn. by rewrite Fin.
      - destruct IH as (s2 & -> & Hv2 & Hm2 & Hl2). exists s2. split_and!; try done; [by eapply imoved_after|].
        intros j. rewrite Hl2. cbn. by rewrite Fin. }
    destruct (Z.eqb_spec (de_inum e) 0) as [H0|H0]; cbn [negb andb]; [done|]. rewrite namecmp_eq. case_bool_decide; [|done].
    destruct (do_names _ _ Hdir e (list_elem_of_lookup_2 _ _ _ He) H0) as [[Hn _] _]. rewrite Hd.
    destruct (iget_ok h (set_k_fs s1 k) C D Q (de_inum e) Hv1 Hn) as (ip & s2 & Hr2 & Hv2 & Hm2 & Hen & Hl2).
    { destruct Hroom as (j & y & ? & ?). exists j, y. cbn. by rewrite Fin. }
    rewrite (bind_ok _ _ _ _ _ Hr2). exists ip, s2. split_and!; try done.
    + eapply imoved_after; [by apply imoved_still|done].
    + intros j. rewrite Hl2. cbn. by rewrite Fin.
Qed.

(** [dirlookup] finds the first entry for the name. *)
Lemma dirlookup_ok h k C D Q i x n nm :
  iview h k C D Q → inodes (k_fs k) !! i = Some x → i_dev x = 1 → d_of x = nd C n → dir_ok C n → has_room (k_fs k) →
  looked_up h k C D Q (dir_find (dir_of C n) nm) (dirlookup i nm k).
Proof.
  intros Hv Hx Hd Hcp Hdir Hroom. destruct (do_size _ _ Hdir) as [q Hq].
  assert (Hsz : i_size x = 16 * Z.of_nat q) by (rewrite <- Hq, <- Hcp; done).
  assert (Hty : i_type x = T_DIR) by (rewrite <- (do_type _ _ Hdir), <- Hcp; done).
  unfold dirlookup. rewrite (bind_ok _ _ _ _ _ (get_inode_ok _ _ _ Hx)), Hty. cbn [Z.eqb Pos.eqb negb].
  unfold dir_find. rewrite <- (drop_0 (dir_of C n)).
  apply (dirlookup_loop_ok C D Q i n q nm _ h k x 0); try done; [lia|]. rewrite Hsz. change DIRENT with 16. lia.
Qed.

(** ** Path names *)

(** Following the elements [es] of a path from inode [n]: the inode they lead to or, for the
    parent, the directory that is to have the last of them, and its name. *)
Fixpoint resolve C (parent : bool) (n : Z) (es : list (list Z)) : option (Z * list Z) :=
  match es with
  | [] => if parent then None else Some (n, [])
  | e :: es =>
      if negb (d_type (nd C n) =? T_DIR) then None
      else if parent && bool_decide (es = []) then Some (n, cname e)
      else match dir_find (dir_of C n) e with
           | None => None
           | Some (m, _) => resolve C parent m es
           end
  end.

Definition dirs_ok C : Prop := ∀ n, live (nd C) n → d_type (nd C n) = T_DIR → dir_ok C n.

(** Two entries of the cache are free. *)
Definition two_free s : Prop := ∀ i, ∃ j y, j ≠ i ∧ inodes s !! j = Some y ∧ i_ref y = 0.

(** Inode [n], entry [i], is not freed when a reference of this process is dropped: it has a name, or
    somebody else had a reference before. *)
Definition stays C s0 i n : Prop := d_nlink (nd C n) ≠ 0 ∨ ∃ y, inodes s0 !! i = Some y ∧ 0 < i_ref y.

Lemma stays_ref C s0 s i n x : imoved (one i) s0 s → stays C s0 i n → inodes s !! i = Some x → d_nlink (nd C n) ≠ 0 ∨ i_ref x ≠ 1.
Proof.
  intros Hm [?|(y & Hy & Hp)] Hx; [by left|right]. destruct (im_ref _ _ _ Hm i y Hy) as (x' & Hx' & Hr & _). rewrite one_eq in Hr. simplify_eq. lia.
Qed.

Lemma room_left s0 s i : two_free s0 → imoved (one i) s0 s → has_room s.
Proof.
  intros H2 Hm. destruct (H2 i) as (j & y & Hj & Hy & H0). destruct (im_ref _ _ _ Hm j y Hy) as (y' & Hy' & Hr & _).
  exists j, y'. split; [done|]. rewrite Hr, one_ne by done. lia.
Qed.

(** What following a path leaves, the cache having been [s0] before. *)
Definition followed C D Q s0 k (o : option (Z * list Z)) (parent : bool) (r : outcome kerr kernel (option (nat * list Z))) : Prop :=
  match o with
  | None => ∃ s', r = Ok None (set_k_fs s' k) ∧ iview [] (set_k_fs s' k) C D Q ∧ imoved none s0 s'
  | Some (m, nm) => ∃ jp name s', r = Ok (Some (jp, name)) (set_k_fs s' k) ∧ iview [] (set_k_fs s' k) C D Q ∧
      imoved (one jp) s0 s' ∧ entry_for s' jp m ∧ stays C s0 jp m ∧ (parent = true → cname name = nm)
  end.

Lemma followed_put C D Q s0 k s1 i n x :
  iview [i] (set_k_fs s1 k) C D Q → locked_inode s1 C i n x → imoved (one i) s0 s1 → stays C s0 i n →
  ∃ s', iunlockput i (set_k_fs s1 k) = Ok tt (set_k_fs s' k) ∧ iview [] (set_k_fs s' k) C D Q ∧ imoved none s0 s'.
Proof.
  intros Hv Hx Hm Hst. destruct (iunlockput_ok [] _ C D Q i n x Hv (not_elem_of_nil _) Hx) as (s' & Hr & Hv' & Hm' & _); [by eapply stays_ref, Hx|].
  exists s'. split_and!; [done|done|]. eapply imoved_trans; [exact Hm|exact Hm'|intros; apply one_pos|].
  intros j. unfold none, drop_one. lia.
Qed.

Lemma locked_moved C s1 s2 i n x δ :
  locked_inode s1 C i n x → imoved δ s1 s2 → 0 ≤ δ i → (∀ j, i_lock <$> inodes s2 !! j = i_lock <$> inodes s1 !! j) →
  ∃ x2, locked_inode s2 C i n x2 ∧ i_ref x2 = i_ref x + δ i.
Proof.
  intros [Hx1 Hp1 Hd1 Hi1 Hva1 Hcp1 Hlk1] Hm2 Hpos Hl2.
  destruct (im_ref _ _ _ Hm2 i x Hx1) as (x2 & Hx2 & Hr2 & Hk2). destruct (Hk2 Hp1) as (Hd2 & Hi2 & Hv3). destruct (Hv3 Hva1) as [Hva2 Hcp2].
  exists x2. split; [|done]. split; try congruence; [lia|]. specialize (Hl2 i). rewrite Hx2, Hx1 in Hl2. cbn in Hl2. by injection Hl2 as ->.
Qed.

(** The directory on the way is unlocked and dropped, with the next inode in hand. *)
Lemma followed_step C D Q s0 k s1 i n x s2 ip m :
  locked_inode s1 C i n x → imoved (one i) s0 s1 → stays C s0 i n →
  iview [i] (set_k_fs s2 k) C D Q → imoved (one ip) s1 s2 → (∀ j, i_lock <$> inodes s2 !! j = i_lock <$> inodes s1 !! j) → entry_for s2 ip m →
  ∃ s', iunlockput i (set_k_fs s2 k) = Ok tt (set_k_fs s' k) ∧ iview [] (set_k_fs s' k) C D Q ∧ imoved (one ip) s0 s' ∧ entry_for s' ip m.
Proof.
  intros Hx Hm1 Hst Hv2 Hm2 Hl2 (z & Hz & Hzp & Hzd & Hzi). pose proof (one_pos ip i) as Hpos.
  destruct (locked_moved C s1 s2 i n x _ Hx Hm2 Hpos Hl2) as (x2 & Hin & Hr2). pose proof Hx as [Hx1 Hp1 _ _ _ _ _]. pose proof Hin as [Hx2 _ _ _ _ _ _].
  destruct (iunlockput_ok [] _ C D Q i n x2 Hv2 (not_elem_of_nil _) Hin) as (s' & Hr & Hv' & Hm' & _).
  { destruct (stays_ref C _ _ _ _ _ Hm1 Hst Hx1) as [?|Hr1]; [by left|right]. lia. }
  exists s'. split_and!; [done|done|..].
  - eapply (imoved_trans (λ j, one i j + one ip j)); [|exact Hm'|intros j; pose proof (one_pos i j); pose proof (one_pos ip j); lia|].
    + eapply imoved_trans; [exact Hm1|exact Hm2|intros; apply one_pos|done].
    + intros j. unfold drop_one. lia.
  - destruct (im_ref _ _ _ Hm' ip z Hz) as (z' & Hz' & Hrz & Hkz). destruct (Hkz Hzp) as (? & ? & _). exists z'. split_and!; try congruence.
    rewrite Hrz. unfold drop_one. destruct (decide (ip = i)) as [->|Hne]; [|rewrite one_ne by done; lia].
    rewrite one_eq in *. simplify_eq. lia.
Qed.

Lemma dir_find_live C n e m off : dir_ok C n → dir_find (dir_of C n) e = Some (m, off) → live (nd C) m ∧ d_nlink (nd C m) ≠ 0.
Proof. intros Hd Hf. destruct (find_from_elem _ _ _ _ _ Hf) as (d & Hin & <- & Hne). by apply (do_names _ _ Hd). Qed.

Lemma followed_end C D Q s0 k i n parent name :
  iview [] k C D Q → imoved (one i) s0 (k_fs k) → entry_for (k_fs k) i n → stays C s0 i n →
  followed C D Q s0 k (resolve C parent n []) parent ((if parent then iput i;; ret None else ret (Some (i, name))) k).
Proof.
  intros Hv Hm Hen Hst. destruct parent; cbn [resolve followed].
  - destruct Hen as (x & Hx & Hp & Hd & Hi). destruct (iput_ok [] k C D Q i x Hv (not_elem_of_nil _) Hx Hp) as (s' & Hr & Hv' & Hm' & _).
    { intros Hva. destruct (ic_copy _ _ (iv_cache _ _ _ _ _ Hv) i x Hx Hp Hva) as (_ & _ & Hcp). rewrite Hi in Hcp.
      replace (i_nlink x) with (d_nlink (nd C n)) by (by rewrite <- Hcp). by eapply stays_ref. }
    exists s'. rewrite (bind_ok _ _ _ _ _ Hr). split_and!; [done|done|].
    eapply imoved_trans; [exact Hm|exact Hm'|intros; apply one_pos|]. intros j. unfold none, drop_one. lia.
  - exists i, name, (k_fs k). destruct k. done.
Qed.

Lemma namex_loop_ok C D Q s0 parent (f : nat) : ∀ k path name i n,
  dirs_ok C → two_free s0 → iview [] k C D Q → imoved (one i) s0 (k_fs k) → entry_for (k_fs k) i n → live (nd C) n → stays C s0 i n →
  Forall (λ c, c ≠ 0) path → (length path ≤ f)%nat →
  followed C D Q s0 k (resolve C parent n (split_path path)) parent (namex_loop f i path name parent k).
Proof.
  induction f as [|f IH]; intros k path name i n Hdirs H2 Hv Hm Hen Hn Hst Hnz Hf;
    pose proof (skipelem_spec path name Hnz) as Hsk; cbn [namex_loop]; destruct (skipelem path name) as [[rest name']|];
    try (rewrite Hsk; by apply followed_end).
  { destruct Hsk as (_ & _ & _ & Hlen & _). lia. }
  destruct Hsk as (e & -> & Hnm & Hlen & Hnz' & Hnil). cbn [resolve].
  destruct (ilock_ok [] k C D Q i n Hv (not_elem_of_nil _) Hen Hn) as (s1 & x & Hr1 & Hv1 & Hm1 & Hx & _). rewrite (bind_ok _ _ _ _ _ Hr1).
  assert (Hm01 : imoved (one i) s0 s1).
  { eapply imoved_trans; [exact Hm|exact Hm1|intros; apply one_pos|]. intros j. unfold none. lia. }
  pose proof Hx as [Hx1 Hp1 Hd1 Hi1 Hva1 Hcp1 Hlk1].
  rewrite (bind_ok _ _ _ _ _ (get_inode_ok (set_k_fs s1 k) _ _ Hx1)). replace (i_type x) with (d_type (nd C n)) by (by rewrite <- Hcp1).
  destruct (Z.eqb_spec (d_type (nd C n)) T_DIR) as [Hdir|Hdir]; cbn [negb].
  2:{ destruct (followed_put C D Q s0 k s1 i n x Hv1 Hx Hm01 Hst) as (s' & Hr & Hv' & Hm'). rewrite (bind_ok _ _ _ _ _ Hr). by exists s'. }
  rewrite Hnil. destruct (parent && bool_decide (split_path rest = [])) eqn:Hpar.
  { destruct (iunlock_iv [] (set_k_fs s1 k) C D Q i n x Hv1 Hx) as (Hr & Hv' & Hm'). rewrite (bind_ok _ _ _ _ _ Hr).
    eexists i, name', _. split_and!; [done|exact Hv'|..|done|by intros _].
    - eapply imoved_trans; [exact Hm01|exact Hm'|intros; apply one_pos|]. intros j. unfold none. lia.
    - eexists. split; [by eapply put_inode_lookup|]. done. }
  assert (Hroom : has_room s1) by (by eapply room_left). pose proof (Hdirs n Hn Hdir) as Hok.
  pose proof (dirlookup_ok [i] (set_k_fs s1 k) C D Q i x n name' Hv1 Hx1 Hd1 Hcp1 Hok Hroom) as Hlook.
  unfold dir_find at 1 in Hlook. rewrite (find_from_cname _ _ _ Hnm) in Hlook. fold (dir_find (dir_of C n) e) in Hlook.
  destruct (dir_find (dir_of C n) e) as [[m off]|] eqn:Hfind.
  - destruct Hlook as (ip & s2 & Hr2 & Hv2 & Hm2 & Hl2 & He2). rewrite (bind_ok _ _ _ _ _ Hr2).
    destruct (followed_step C D Q s0 k s1 i n x s2 ip m Hx Hm01 Hst Hv2 Hm2 Hl2 He2) as (s3 & Hr3 & Hv3 & Hm3 & He3).
    change (set_k_fs s2 (set_k_fs s1 k)) with (set_k_fs s2 k). rewrite (bind_ok _ _ _ _ _ Hr3).
    destruct (dir_find_live C n e m off Hok Hfind) as [Hlive Hlink].
    apply (IH (set_k_fs s3 k) rest name' ip m Hdirs H2 Hv3 Hm3 He3 Hlive (or_introl Hlink) Hnz'). lia.
  - destruct Hlook as (s2 & Hr2 & Hv2 & Hm2 & Hl2). rewrite (bind_ok _ _ _ _ _ Hr2).
    destruct (locked_moved C s1 s2 i n x _ Hx Hm2 ltac:(by unfold none) Hl2) as (x2 & Hx2 & _).
    destruct (followed_put C D Q s0 k s2 i n x2 Hv2 Hx2) as (s' & Hr & Hv' & Hm'); [|done|].
    { eapply imoved_trans; [exact Hm01|exact Hm2|intros; apply one_pos|]. intros j. unfold none. lia. }
    change (set_k_fs s2 (set_k_fs s1 k)) with (set_k_fs s2 k). rewrite (bind_ok _ _ _ _ _ Hr). by exists s'.
Qed.

(** Where a path starts: at the root, or at the directory of the process. *)
Definition starts_at C k (path : list Z) n : Prop :=
  live (nd C) n ∧
  if bool_decide (head path = Some SLASH) then n = ROOTINO ∧ d_nlink (nd C n) ≠ 0
  else ∃ p q i, in_proc k p q ∧ cwd q = Some i ∧ entry_for (k_fs k) i n.

(** C9: Path names are followed as the directories say.  On a disk whose directories are in order, with
    no inode locked and two entries of the inode cache free, [namex] on any path completes; it starts at
    the root or at the current directory, takes the elements of the path in turn, however many slashes
    are between them and with names cut to fourteen bytes, and finds the inode that [resolve] finds, or,
    for [nameiparent], the directory of the last element and its name.  The caller gets one reference to
    the inode; all other reference counts, the inodes in use, the blocks, the log, the disk and the rest
    of the kernel are as before, and no inode is left locked, also when the path leads nowhere. *)
Theorem namex_resolves C D Q k path parent name n :
  iview [] k C D Q → dirs_ok C → two_free (k_fs k) → starts_at C k path n → Forall (λ c, c ≠ 0) path →
  followed C D Q (k_fs k) k (resolve C parent n (split_path path)) parent (namex path parent name k).
Proof.
  intros Hv Hdirs H2 [Hn Hstart] Hnz. unfold namex. destruct (bool_decide (head path = Some SLASH)).
  - destruct Hstart as [-> Hlink]. destruct (iget_ok [] k C D Q ROOTINO Hv) as (i & s1 & Hr1 & Hv1 & Hm1 & Hen & _); [apply Hn| |].
    { destruct (H2 0%nat) as (j & y & _ & ? & ?). by exists j, y. }
    change ROOTDEV with 1. rewrite (bind_ok _ _ _ _ _ Hr1).
    apply (namex_loop_ok C D Q (k_fs k) parent (length path) (set_k_fs s1 k)); try done. by left.
  - destruct Hstart as (p & q & i & Hin & Hcwd & Hen). pose proof Hen as (x & Hx & Hp & Hd & Hi).
    destruct (idup_ok [] k C D Q i x Hv Hx Hp) as (s1 & Hr1 & Hv1 & Hm1).
    assert (Hget : (p ← curproc; q ← get_proc p; d ← or_ub "cwd" (cwd q); idup d) k = Ok i (set_k_fs s1 k)).
    { rewrite (bind_ok _ _ _ _ _ (curproc_runs k p (in_proc_runs _ _ _ Hin))). destruct Hin as (_ & Hq & _).
      rewrite (bind_ok _ _ _ _ _ (get_proc_ok _ _ _ Hq)), Hcwd, bind_or_ub. exact Hr1. }
    rewrite (bind_ok _ _ _ _ _ Hget). destruct (im_ref _ _ _ Hm1 i x Hx) as (y & Hy & Hry & Hky). rewrite one_eq in Hry. destruct (Hky Hp) as (? & ? & _).
    apply (namex_loop_ok C D Q (k_fs k) parent (length path) (set_k_fs s1 k)); try done.
    + exists y. split_and!; try done; [lia|congruence|congruence].
    + right. by exists x.
Qed.
End dirs.
