(* ===== verification/DirLink.v ===== *)
(** [dirlink] ([fs.c]) adds a name to a directory. *)

From S2P Require Import Prelude Params Bytes State Spinlock Mem Kalloc PageTable Uaccess Procs Sched SchedSpec Bio BioSpec CacheSpec BlockSpec Log LogSpec CommitSpec CrashSpec Inode BallocSpec DiskSpec BmapSpec DinodeSpec Console Fs WriteSpec ReadSpec File FsSpec DirSpec IcacheSpec DirThms.

Section dirlink.
Context {W : world} {DW : DiskWorld}.
Implicit Types (k : kernel) (s : fsys) (i : nat) (x : inode) (C D : Z → list Z) (Q : gset Z) (h : list nat) (nm : list Z).

Lemma dirlink_loop_ok C D Q i n q (f : nat) : ∀ h k x t,
  iview h k C D Q → inodes (k_fs k) !! i = Some x → i_dev x = 1 → d_of x = nd C n → dir_ok C n →
  d_size (nd C n) = 16 * Z.of_nat q → (t ≤ q)%nat → (q - t ≤ f)%nat →
  ∃ s', dirlink_loop f i (16 * Z.of_nat t) k = Ok (16 * Z.of_nat (free_from t (drop t (dir_of C n)))) (set_k_fs s' k) ∧
    cview [] s' C D Q ∧ still (k_fs k) s'.
Proof.
  induction f as [|f IH]; intros h k x t Hv Hx Hd Hcp Hdir Hq Htq Hf.
  all: assert (Hsz : i_size x = 16 * Z.of_nat q) by (rewrite <- Hq, <- Hcp; done).
  all: pose proof (length_dir_of C n q Hq) as Hlen; cbn [dirlink_loop].
  all: rewrite (bind_ok _ _ _ _ _ (get_inode_ok _ _ _ Hx)), Hsz.
  - rewrite (proj2 (Z.ltb_ge _ _)) by lia. rewrite drop_ge by lia. exists (k_fs k). split_and!; [by destruct k|apply Hv|done].
  - destruct (Z.ltb_spec (16 * Z.of_nat t) (16 * Z.of_nat q)) as [Hlt|Hge].
    2:{ rewrite drop_ge by lia. exists (k_fs k). split_and!; [by destruct k|apply Hv|done]. }
    destruct (read_dirent_ok h k C D Q i x n q t "dirlink read" Hv Hx Hd Hcp Hdir Hq ltac:(lia)) as (e & s1 & Hr1 & He & Hc1 & Hst1).
    rewrite (bind_ok _ _ _ _ _ Hr1). rewrite (drop_S _ e t He). cbn [free_from].
    destruct (de_inum e =? 0); [by exists s1|].
    pose proof (iview_still _ _ _ _ _ _ Hv Hc1 Hst1) as Hv1. pose proof (st_frame _ _ Hst1) as [_ Fin _ _].
    destruct (IH h (set_k_fs s1 k) x (S t) Hv1) as (s2 & Hr2 & Hc2 & Hst2); try done; [cbn; by rewrite Fin|lia|lia|].
    replace (16 * Z.of_nat t + DIRENT) with (16 * Z.of_nat (S t)) by (change DIRENT with 16; lia).
    exists s2. split_and!; [done|done|by eapply still_trans].
Qed.

(** The entries of the cache keep their references, their locks and, when in use, the inodes they are
    for; the open files are as before. *)
Record kept s s' : Prop := mkKept {
  kp_entry : ∀ j y, inodes s !! j = Some y → ∃ y', inodes s' !! j = Some y' ∧ i_ref y' = i_ref y ∧ i_lock y' = i_lock y ∧
    (0 < i_ref y → i_dev y' = i_dev y ∧ i_inum y' = i_inum y ∧ (i_valid y = 1 → i_valid y' = 1));
  kp_files : files s' = files s;
  kp_pipes : pipes s' = pipes s
}.

Lemma cache_kept_trans s1 s2 s3 : kept s1 s2 → kept s2 s3 → kept s1 s3.
Proof.
  intros [H1 ? ?] [H2 ? ?]. split; [|congruence..]. intros j y Hy. destruct (H1 j y Hy) as (y1 & Hy1 & R1 & L1 & K1).
  destruct (H2 j y1 Hy1) as (y2 & Hy2 & R2 & L2 & K2). exists y2. split_and!; [done|congruence..|]. intros Hp. destruct (K1 Hp) as (? & ? & V1).
  destruct K2 as (? & ? & V2); [lia|]. split_and!; [congruence..|auto].
Qed.

Lemma kept_moved s s' : imoved none s s' → (∀ j, i_lock <$> inodes s' !! j = i_lock <$> inodes s !! j) → kept s s'.
Proof.
  intros [Hr _ ? ? _ _] Hl. split; try done. intros j y Hy. destruct (Hr j y Hy) as (y' & Hy' & R & K). exists y'.
  specialize (Hl j). rewrite Hy, Hy' in Hl. injection Hl as Hl. unfold none in R. split_and!; [done|lia|done|].
  intros Hp. destruct (K Hp) as (? & ? & V). split_and!; try done. intros Hva. by apply V.
Qed.

Lemma kept_still s s' : still s s' → kept s s'.
Proof. intros Hs. apply kept_moved; [by apply imoved_still|]. intros j. by rewrite (fm_inodes _ _ (st_frame _ _ Hs)). Qed.

Lemma kept_step i x x' s s' : inodes s !! i = Some x → istep i x' s s' → (∃ sz As, x' = set_i_size sz (set_i_addrs As x)) → kept s s'.
Proof.
  intros Hx [_ Hi ? ? _ _] (sz & As & ->). split; try done. intros j y Hy. rewrite Hi. destruct (decide (j = i)) as [->|Hne].
  - rewrite list_lookup_insert_eq by (by eapply lookup_lt_Some). simplify_eq. by eexists.
  - rewrite list_lookup_insert_ne by done. by exists y.
Qed.

(** A transaction on a locked directory, the entries [h] being locked. *)
Record dirtx h k C D (m : nat) i x n : Prop := mkDirtx {
  dt_ftx : ftx k C D m i x n;
  dt_view : iview h k C D (list_to_set (logged (k_fs k)));
  dt_locked : locked_inode (k_fs k) C i n x;
  dt_dir : dir_ok C n
}.

(** Looking a name up keeps the transaction. *)
Lemma ftx_moved k C D m i x n s' x' Q :
  ftx k C D m i x n → Q = list_to_set (logged (k_fs k)) → cview [] s' C D Q → imoved none (k_fs k) s' → locked_inode s' C i n x' →
  ftx (set_k_fs s' k) C D m i x' n.
Proof.
  intros [Hr [Hsb Hls] [Hcv Hlog Hout Hnd Hhome Hlen] Hi Hn Hx Hdev Hin Hcp] -> Hc' [_ Fsb _ _ Flog _] [Hx' _ Hd' Hi' _ Hcp' _].
  assert (Hlg : logged s' = logged (k_fs k)) by (unfold logged; by rewrite Flog).
  split; cbn; try done.
  - by apply fs_ready_fs.
  - split; by rewrite ?Fsb, ?Flog.
  - split; rewrite ?Hlg, ?Flog; done.
Qed.

(** Writing to one file keeps the inode cache in order. *)
Lemma iview_written h k C D i x n s' C' m' x' off l :
  iview h k C D (list_to_set (logged (k_fs k))) → locked_inode (k_fs k) C i n x → live (nd C) n →
  ftx (set_k_fs s' k) C' D m' i x' n → (m' ≤ 27)%nat → file_written C C' n off l → istep i x' (k_fs k) s' →
  (∃ sz As, x' = set_i_size sz (set_i_addrs As x)) →
  iview h (set_k_fs s' k) C' D (list_to_set (logged s')) ∧ locked_inode s' C' i n x'.
Proof.
  intros [Hr Hsb Hv HQ Hlg Hi [Hl Hcp Hun] Hu] [Hx Hp Hd Hin Hva Hco Hlk] Hn [_ [Hsb' _] Htx' Hi' _ Hx' Hd' Hin' Hco'] Hm' Hfw Hst (sz & As & Ex).
  cbn [k_fs set_k_fs] in *. pose proof (is_inodes _ _ _ _ Hst) as Hins.
  assert (Hcase : ∀ j z, inodes s' !! j = Some z → (j = i ∧ z = x') ∨ (j ≠ i ∧ inodes (k_fs k) !! j = Some z)).
  { intros j z Hz. rewrite Hins in Hz. destruct (decide (j = i)) as [->|Hne]; [left|right; by rewrite list_lookup_insert_ne in Hz].
    rewrite list_lookup_insert_eq in Hz by (by eapply lookup_lt_Some). by simplify_eq. }
  assert (Hold : ∀ j z, inodes s' !! j = Some z → ∃ z0, inodes (k_fs k) !! j = Some z0 ∧ i_ref z = i_ref z0 ∧ i_dev z = i_dev z0 ∧
    i_inum z = i_inum z0 ∧ i_valid z = i_valid z0 ∧ i_lock z = i_lock z0).
  { intros j z Hz. destruct (Hcase j z Hz) as [[-> ->]|[_ Hz0]]; [exists x; by rewrite Ex|by exists z]. }
  split; [split|]; cbn [k_fs set_k_fs]; try done.
  - by apply fs_ready_fs.
  - apply Htx'.
  - rewrite size_list_to_set by apply Htx'. pose proof (tx_len _ _ _ _ _ Htx'). lia.
  - intros b. by rewrite elem_of_list_to_set.
  - split; [by rewrite Hins, length_insert|..].
    + intros j z Hz Hpz Hvz. destruct (Hcase j z Hz) as [[-> ->]|[Hne Hz0]]; [rewrite Hin'; split_and!; by try apply Hn|].
      destruct (Hcp j z Hz0 Hpz Hvz) as (Hdz & Hnz & Hcz). split; [done|]. split; [done|]. rewrite Hcz. symmetry. apply (fw_nd _ _ _ _ _ Hfw); [done|].
      intros Hzn. apply Hne. apply (Hun j i z x); try done; congruence.
    + intros j j' z z' Hz Hz' Hpz Hpz' Hdz Hnz. destruct (Hold j z Hz) as (y & Hy & Ry & Dy & Iy & _), (Hold j' z' Hz') as (y' & Hy' & Ry' & Dy' & Iy' & _).
      apply (Hun j j' y y'); try done; congruence.
  - intros j z Hz. destruct (Hold j z Hz) as (y & Hy & Ry & _ & _ & Vy & Ly). rewrite Ry, Vy, Ly. by apply Hu.
  - split; try done; rewrite Ex; done.
Qed.

(** Other directories keep their entries, and the names stay those of inodes in use. *)
Lemma dir_ok_written C C' n off l n' :
  fsinv C (nd C) → file_written C C' n off l → live (nd C) n → d_nlink (nd C' n) = d_nlink (nd C n) → n' ≠ n → dir_ok C n' → dir_ok C' n'.
Proof.
  intros Hi Hfw Hn Hnl Hne [Hl Ht Hq Hnm]. assert (Hlive : ∀ a, live (nd C) a → live (nd C') a ∧ d_nlink (nd C' a) = d_nlink (nd C a)).
  { intros a [Ha Hta]. destruct (decide (a = n)) as [->|Han]; [split; [split; [done|by rewrite (fw_type _ _ _ _ _ Hfw)]|done]|].
    unfold live. by rewrite (fw_nd _ _ _ _ _ Hfw a Ha Han). }
  pose proof (fw_nd _ _ _ _ _ Hfw n' (proj1 Hl) Hne) as End.
  assert (Edir : dir_of C' n' = dir_of C n') by (unfold dir_of; rewrite End; by rewrite (fw_others _ _ _ _ _ Hfw)).
  split; [by apply Hlive|by rewrite End|by rewrite End|]. rewrite Edir. intros e He H0. destruct (Hnm e He H0) as [Hle Hke].
  destruct (Hlive _ Hle) as [? ->]. done.
Qed.

Lemma elem_with_entry j e es e' : e' ∈ with_entry j e es → e' = e ∨ e' ∈ es.
Proof.
  unfold with_entry. rewrite elem_of_app, elem_of_cons. intros [H|[H|H]]; [right|by left|right].
  - rewrite <- (take_drop j es). apply elem_of_app. by left.
  - rewrite <- (take_drop (S j) es). apply elem_of_app. by right.
Qed.

(** The directory with the new entry. *)
Lemma dir_linked C C' n q inum nm :
  let j := first_free (dir_of C n) in let e := mkDirent inum (strncpy_l 14 nm) in
  d_size (nd C n) = 16 * Z.of_nat q → 0 ≤ inum < 2 ^ 16 → file_written C C' n (16 * Z.of_nat j) (dirent_bytes e) →
  dir_of C' n = with_entry j e (dir_of C n) ∧ (j ≤ q)%nat ∧ d_size (nd C' n) = 16 * Z.of_nat (Nat.max q (S j)).
Proof.
  intros j e Hq Hinum Hfw. pose proof (length_dir_of C n q Hq) as Hlen.
  assert (Hj : (j ≤ q)%nat). { destruct (free_from_spec (dir_of C n) 0) as (t & Ht & Hle & _). unfold j, first_free. rewrite Ht. cbn. lia. }
  assert (He : entry_ok e) by (split; [done|apply strncpy_l_name]). split_and!; [|done|].
  - unfold dir_of at 1. rewrite (fw_data _ _ _ _ _ Hfw). replace (Z.to_nat (16 * Z.of_nat j)) with (16 * j)%nat by lia.
    apply (dents_with_entry _ q); [|done|done]. rewrite length_file_data by lia. lia.
  - rewrite (fw_size _ _ _ _ _ Hfw), length_dirent_bytes by apply He. lia.
Qed.

Lemma dir_ok_linked C C' n inum nm :
  let j := first_free (dir_of C n) in let e := mkDirent inum (strncpy_l 14 nm) in
  dir_ok C n → live (nd C) inum → d_nlink (nd C inum) ≠ 0 → d_nlink (nd C' n) = d_nlink (nd C n) →
  file_written C C' n (16 * Z.of_nat j) (dirent_bytes e) → dir_ok C' n.
Proof.
  intros j e [Hl Ht [q Hq] Hnm] Hli Hki Hnl Hfw.
  destruct (dir_linked C C' n q inum nm Hq ltac:(destruct Hli; clia) Hfw) as (Edir & _ & Esz).
  assert (Hlive : ∀ a, live (nd C) a → d_nlink (nd C a) ≠ 0 → live (nd C') a ∧ d_nlink (nd C' a) ≠ 0).
  { intros a [Ha Hta] Hka. destruct (decide (a = n)) as [->|Han]; [rewrite Hnl; split; [split; [done|by rewrite (fw_type _ _ _ _ _ Hfw)]|done]|].
    unfold live. by rewrite (fw_nd _ _ _ _ _ Hfw a Ha Han). }
  split.
  - destruct Hl as [Hn _]. split; [done|]. by rewrite (fw_type _ _ _ _ _ Hfw), Ht.
  - by rewrite (fw_type _ _ _ _ _ Hfw).
  - by eexists.
  - rewrite Edir. intros e' [->|He']%elem_with_entry H0; [by apply Hlive|]. destruct (Hnm e' He' H0). by apply Hlive.
Qed.

Lemma touched_entry (j : nat) : touched_blocks (16 * Z.of_nat j) 16 = 1.
Proof. unfold touched_blocks. lia. Qed.

(** There is room for one more entry: a free one, or a place at the end. *)
Definition entry_room C n : Prop :=
  Forall (λ e, de_inum e ≠ 0) (dir_of C n) →
  d_size (nd C n) + 16 ≤ MAXFILE * BSIZE ∧ need (d_size (nd C n)) (d_size (nd C n) + 16) ≤ Z.of_nat (length (free_blocks C)).

(** [es'] has the entry [e] at offset [off], the first that is free in [es] or the one after its last, and
    its other entries are those of [es]. *)
Definition placed (es es' : list dirent) (e : dirent) (off : Z) : Prop :=
  ∃ j : nat, off = 16 * Z.of_nat j ∧ (j ≤ length es)%nat ∧ Forall (λ e, de_inum e ≠ 0) (take j es) ∧
    (∀ e, es !! j = Some e → de_inum e = 0) ∧ es' = take j es ++ e :: drop (S j) es.

Lemma placed_first es e : placed es (with_entry (first_free es) e es) e (16 * Z.of_nat (first_free es)).
Proof.
  destruct (free_from_spec es 0) as (j & Hj & Hle & H0 & Hall). unfold first_free. rewrite Hj. exists j. cbn [Nat.add]. by split_and!.
Qed.

Lemma entry_room_first C n q : wf_inode C (nd C n) → d_size (nd C n) = 16 * Z.of_nat q → entry_room C n →
  let z := Z.max (d_size (nd C n)) (16 * Z.of_nat (first_free (dir_of C n)) + 16) in
  z ≤ MAXFILE * BSIZE ∧ need (d_size (nd C n)) z ≤ Z.of_nat (length (free_blocks C)).
Proof.
  intros Hwf Hq Hroom z. pose proof (length_dir_of C n q Hq) as Hlen. pose proof (wi_size _ _ Hwf) as Hsz.
  destruct (free_from_spec (dir_of C n) 0) as (j & Hj & Hle & _ & Hall). unfold z, first_free. rewrite Hj. cbn [Nat.add].
  destruct (decide (j = q)) as [->|Hne].
  - rewrite take_ge in Hall by lia. rewrite Z.max_r by lia. rewrite <- Hq. exact (Hroom Hall).
  - rewrite Z.max_l by lia. split; [clia|]. unfold need, needn. rewrite Z.max_id. zcases; cbn; lia.
Qed.

(** The entry is written: the end of [dirlink]. *)
Lemma write_entry h k C D m i x n nm inum :
  let j := first_free (dir_of C n) in let e := mkDirent inum (strncpy_l 14 nm) in
  dirtx h k C D m i x n → bytes_ok (cname nm) → live (nd C) inum → d_nlink (nd C inum) ≠ 0 → (m ≤ 20)%nat →
  entry_room C n →
  ∃ s' C' m' x', writei local_source i (dirent_bytes e) (16 * Z.of_nat j) DIRENT k = Ok 16 (set_k_fs s' k) ∧ (m' ≤ 27)%nat ∧
    dirtx h (set_k_fs s' k) C' D m' i x' n ∧ file_written C C' n (16 * Z.of_nat j) (dirent_bytes e) ∧ d_nlink (nd C' n) = d_nlink (nd C n) ∧
    kept (k_fs k) s'.
Proof.
  intros j e [Hft Hv Hx Hdir] Hnm Hli Hki Hm Hroom. pose proof Hx as [Hx1 _ _ _ _ Hcp _]. destruct (do_size _ _ Hdir) as [q Hq].
  destruct (entry_room_first C n q (fsi_wf _ _ (iv_inv _ _ _ _ _ Hv) n (do_live _ _ Hdir)) Hq Hroom) as [Hmax Hneed]. fold j in Hmax, Hneed.
  assert (Hj : (j ≤ q)%nat).
  { pose proof (length_dir_of C n q Hq). destruct (free_from_spec (dir_of C n) 0) as (t & Ht & Hle & _). unfold j, first_free. rewrite Ht. cbn. lia. }
  assert (Hsz : i_size x = d_size (nd C n)) by (by rewrite <- Hcp).
  assert (Hlen : Z.of_nat (length (dirent_bytes e)) = 16) by (rewrite length_dirent_bytes; [done|apply strncpy_l_name]).
  destruct (writei_ok local_source eq k C D m i x n (16 * Z.of_nat j) (dirent_bytes e) (dirent_bytes e) Hft)
    as (s' & C' & m' & x' & Hr & Hm' & Hft' & Hfw & Hst & Hxe); rewrite ?Hlen, ?Hsz; try done; try lia.
  { replace (i_type x) with T_DIR by (rewrite <- (do_type _ _ Hdir), <- Hcp; done). done. }
  { apply local_source_of. }
  { apply Forall_app. split; [apply le_bytes_ok|by apply strncpy_l_bytes]. }
  { unfold max_bytes. rewrite touched_entry. lia. }
  { etrans; [|exact Hneed]. apply need_mono. lia. }
  rewrite Hlen in Hr. destruct (iview_written h k C D i x n s' C' m' x' _ _ Hv Hx (do_live _ _ Hdir) Hft' Hm' Hfw Hst Hxe) as [Hv' Hx'].
  assert (Hnl : d_nlink (nd C' n) = d_nlink (nd C n)).
  { rewrite <- (li_copy _ _ _ _ _ Hx'), <- Hcp. by destruct Hxe as (sz & As & ->). }
  exists s', C', m', x'. split_and!; [done|done| |done|done|by eapply kept_step]. split; try done. by eapply dir_ok_linked.
Qed.

(** The reference to the inode that has the name is dropped. *)
Lemma put_found k C D Q i n x s1 ip t :
  locked_inode (k_fs k) C i n x → imoved (one ip) (k_fs k) s1 → iview [i] (set_k_fs s1 k) C D Q → entry_for s1 ip t →
  t ≠ n → d_nlink (nd C t) ≠ 0 →
  ∃ s2, iput ip (set_k_fs s1 k) = Ok tt (set_k_fs s2 k) ∧ iview [i] (set_k_fs s2 k) C D Q ∧ imoved none (k_fs k) s2.
Proof.
  intros [Hx1 Hp1 _ Hi1 _ _ _] Hm1 Hv1 (z & Hz & Hzp & Hzd & Hzi) Htn Hkt.
  assert (Hne : ip ∉ [i]).
  { intros ->%list_elem_of_singleton. destruct (im_ref _ _ _ Hm1 i x Hx1) as (x' & Hx' & _ & Hk). destruct (Hk Hp1) as (_ & Hi & _). by simplify_eq. }
  destruct (iput_ok [i] (set_k_fs s1 k) C D Q ip z Hv1 Hne Hz Hzp) as (s2 & Hr2 & Hv2 & Hm2 & _).
  { intros Hva. left. destruct (ic_copy _ _ (iv_cache _ _ _ _ _ Hv1) ip z Hz Hzp Hva) as (_ & _ & Hcp). rewrite Hzi in Hcp.
    change (d_nlink (d_of z) ≠ 0). by rewrite Hcp. }
  exists s2. split_and!; [done|done|]. eapply imoved_trans; [exact Hm1|exact Hm2|intros; apply one_pos|]. intros j. unfold none, drop_one. lia.
Qed.

Lemma dirtx_looked h k C D m i x n s1 :
  dirtx h k C D m i x n → iview h (set_k_fs s1 k) C D (list_to_set (logged (k_fs k))) → imoved none (k_fs k) s1 →
  (∀ j, i_lock <$> inodes s1 !! j = i_lock <$> inodes (k_fs k) !! j) → ∃ x1, dirtx h (set_k_fs s1 k) C D m i x1 n.
Proof.
  intros [Hft Hv Hx Hdir] Hv1 Hm1 Hl1. destruct (locked_moved C _ s1 i n x _ Hx Hm1 ltac:(by unfold none) Hl1) as (x1 & Hx1 & _).
  exists x1. assert (Hlg : logged s1 = logged (k_fs k)) by (unfold logged; by rewrite (im_log _ _ _ Hm1)).
  split; [|cbn; by rewrite Hlg|done|done]. eapply ftx_moved; [done|done|apply Hv1|done|done].
Qed.

(** The place of the new entry is found. *)
Lemma find_slot h k C D m i x n s1 :
  dirtx h (set_k_fs s1 k) C D m i x n →
  ∃ s2, dirlink_loop (Z.to_nat (i_size x / DIRENT + 1)) i 0 (set_k_fs s1 k) = Ok (16 * Z.of_nat (first_free (dir_of C n))) (set_k_fs s2 k) ∧
    dirtx h (set_k_fs s2 k) C D m i x n ∧ kept s1 s2.
Proof.
  intros Hdt. pose proof Hdt as [Hft Hv Hx Hdir]. pose proof Hx as [Hx1 Hp1 Hd1 _ _ Hcp1 _]. destruct (do_size _ _ Hdir) as [q Hq].
  assert (Hsz : i_size x = 16 * Z.of_nat q) by (rewrite <- Hq, <- Hcp1; done).
  destruct (dirlink_loop_ok C D _ i n q (Z.to_nat (i_size x / DIRENT + 1)) h (set_k_fs s1 k) x 0 Hv Hx1 Hd1 Hcp1 Hdir Hq) as (s2 & Hr2 & Hc2 & Hst2).
  { lia. } { rewrite Hsz. change DIRENT with 16. lia. }
  exists s2. split; [exact Hr2|]. split; [|by apply kept_still]. pose proof (st_frame _ _ Hst2) as [_ Fin _ _].
  assert (Hl2 : ∀ j, i_lock <$> inodes s2 !! j = i_lock <$> inodes s1 !! j) by (intros; by rewrite Fin).
  destruct (dirtx_looked h (set_k_fs s1 k) C D m i x n s2 Hdt) as (x2 & Hdt2); [by eapply iview_still|by apply imoved_still|done|].
  replace x2 with x in Hdt2; [done|]. pose proof (li_entry _ _ _ _ _ (dt_locked _ _ _ _ _ _ _ _ Hdt2)) as E. cbn [k_fs set_k_fs] in E, Hx1, Fin. congruence.
Qed.

(** A name the directory does not have yet is added. *)
Definition name_linked C C' n nm inum off : Prop :=
  (∀ nm', dir_find (dir_of C' n) nm' = if bool_decide (cname nm' = cname nm) then Some (inum, off) else dir_find (dir_of C n) nm') ∧
  (∀ n', live (nd C) n' → n' ≠ n → nd C' n' = nd C n' ∧ file_data C' (nd C' n') = file_data C (nd C n')) ∧
  (dirs_ok C → dirs_ok C').

Lemma dirlink_new h k C D m i x n nm inum :
  dirtx h k C D m i x n → has_room (k_fs k) → bytes_ok (cname nm) → live (nd C) inum → d_nlink (nd C inum) ≠ 0 → (m ≤ 20)%nat →
  entry_room C n → dir_find (dir_of C n) nm = None →
  ∃ s' C' m' x' off, dirlink i nm inum k = Ok 0 (set_k_fs s' k) ∧ (m' ≤ 27)%nat ∧ dirtx h (set_k_fs s' k) C' D m' i x' n ∧
    name_linked C C' n nm inum off ∧ placed (dir_of C n) (dir_of C' n) (mkDirent inum (strncpy_l 14 nm)) off ∧
    d_nlink (nd C' n) = d_nlink (nd C n) ∧ kept (k_fs k) s'.
Proof.
  intros Hdt Hroom Hnm Hli Hki Hm Hent Hfind. pose proof Hdt as [Hft Hv Hx Hdir]. pose proof Hx as [Hx1 Hp1 Hd1 Hi1 _ Hcp1 _].
  pose proof (dirlookup_ok h k C D _ i x n nm Hv Hx1 Hd1 Hcp1 Hdir Hroom) as Hlook. unfold dirlink. rewrite Hfind in Hlook.
  destruct Hlook as (s1 & Hr1 & Hv1 & Hm1 & Hl1). rewrite (bind_ok _ _ _ _ _ Hr1).
  destruct (dirtx_looked h k C D m i x n s1 Hdt Hv1 Hm1 Hl1) as (x1 & Hdt1). destruct (do_size _ _ Hdir) as [q Hq].
  destruct (find_slot h k C D m i x1 n s1 Hdt1) as (s2 & Hr2 & Hdt2 & Hk2). pose proof (dt_locked _ _ _ _ _ _ _ _ Hdt1) as Hx2.
  rewrite (bind_ok _ _ _ _ _ (get_inode_ok (set_k_fs s1 k) _ _ (li_entry _ _ _ _ _ Hx2))). rewrite (bind_ok _ _ _ _ _ Hr2).
  destruct (write_entry h (set_k_fs s2 k) C D m i x1 n nm inum Hdt2 Hnm Hli Hki Hm Hent) as (s3 & C' & m' & x' & Hr3 & Hm' & Hdt3 & Hfw & Hnl & Hk3).
  change (Z.to_nat DIRSIZ) with 14%nat. rewrite (bind_ok _ _ _ _ _ Hr3). exists s3, C', m', x', (16 * Z.of_nat (first_free (dir_of C n))).
  destruct (dir_linked C C' n q inum nm Hq ltac:(destruct Hli; clia) Hfw) as (Edir & _ & _). split_and!; [done|done|done| |rewrite Edir; apply placed_first|done|].
  2:{ eapply cache_kept_trans; [by apply kept_moved|]. by eapply cache_kept_trans. }
  split_and!.
  - intros nm'. rewrite Edir. apply find_with_entry; [destruct Hli; lia|done].
  - intros n' Hn' Hne. pose proof (fw_nd _ _ _ _ _ Hfw n' (proj1 Hn') Hne) as ->. split; [done|]. by apply (fw_others _ _ _ _ _ Hfw).
  - intros Hall n' Hn' Ht'. destruct (decide (n' = n)) as [->|Hne]; [apply Hdt3|].
    pose proof (fw_nd _ _ _ _ _ Hfw n' (proj1 Hn') Hne) as En. eapply dir_ok_written; try done; [apply Hv|apply Hdir|].
    rewrite En in Ht'. apply Hall; [|done]. destruct Hn' as [? ?]. split; [done|]. by rewrite <- En.
Qed.

(** C10: [dirlink] adds a name to a directory.  In a transaction, on a locked directory in order that has
    a free entry or can grow by one: if the directory has no entry for the name, [dirlink] returns 0, and
    the directory is what it was with the new entry in the first free place, or after the last entry when
    there is none ([placed]); from then on the name leads to the inode and every other name to where it
    led before, the directory is still in order, and so is every other one; no other file changes.  If
    the name is there already, for another inode than the directory itself, [dirlink] returns -1, and
    the contents and all reference counts are as before.  Names are compared and stored up to fourteen
    bytes. *)
Theorem dirlink_links k C D m i x n nm inum :
  dirtx [i] k C D m i x n → has_room (k_fs k) → bytes_ok nm → live (nd C) inum → d_nlink (nd C inum) ≠ 0 → (m ≤ 20)%nat →
  entry_room C n →
  match dir_find (dir_of C n) nm with
  | None => ∃ s' C' m' x' off, dirlink i nm inum k = Ok 0 (set_k_fs s' k) ∧ (m' ≤ 27)%nat ∧ dirtx [i] (set_k_fs s' k) C' D m' i x' n ∧
      placed (dir_of C n) (dir_of C' n) (mkDirent inum (strncpy_l 14 nm)) off ∧
      (∀ nm', dir_find (dir_of C' n) nm' = if bool_decide (cname nm' = cname nm) then Some (inum, off) else dir_find (dir_of C n) nm') ∧
      (∀ n', live (nd C) n' → n' ≠ n → nd C' n' = nd C n' ∧ file_data C' (nd C' n') = file_data C (nd C n')) ∧
      (dirs_ok C → dirs_ok C')
  | Some (t, _) => t ≠ n → ∃ s', dirlink i nm inum k = Ok (-1) (set_k_fs s' k) ∧
      iview [i] (set_k_fs s' k) C D (list_to_set (logged (k_fs k))) ∧ imoved none (k_fs k) s'
  end.
Proof.
  intros Hdt Hroom Hnm Hli Hki Hm Hent. pose proof Hdt as [Hft Hv Hx Hdir]. pose proof Hx as [Hx1 Hp1 Hd1 Hi1 _ Hcp1 _].
  pose proof (dirlookup_ok [i] k C D _ i x n nm Hv Hx1 Hd1 Hcp1 Hdir Hroom) as Hlook. unfold dirlink.
  destruct (dir_find (dir_of C n) nm) as [[t off]|] eqn:Hfind.
  - intros Htn. destruct Hlook as (ip & s1 & Hr1 & Hv1 & Hm1 & _ & Hen). rewrite (bind_ok _ _ _ _ _ Hr1).
    destruct (dir_find_live C n nm t off Hdir Hfind) as [Ht Hkt].
    destruct (put_found k C D _ i n x s1 ip t Hx Hm1 Hv1 Hen Htn Hkt) as (s2 & Hr2 & Hv2 & Hm2).
    exists s2. change (set_k_fs s1 k) with (set_k_fs s1 k) in Hr2. rewrite (bind_ok _ _ _ _ _ Hr2). done.
  - destruct (dirlink_new [i] k C D m i x n nm inum) as (s' & C' & m' & x' & off & Hr & Hm' & Hdt' & Hl & Hpl & _); try done; [by apply cname_bytes|].
    exists s', C', m', x', off. unfold dirlink in Hr. done.
Qed.
End dirlink.
