(* ===== verification/Sample.v ===== *)
(** A small concrete machine, on which the theorems are instantiated: one CPU
    that runs process 0, all locks free, all memory zero. *)

From S2P Require Import Prelude Params State Spinlock Mem Kalloc PageTable Procs.

(** A kernel image of one megabyte. *)
#[global] Program Instance sample_link : link := {|
  kend := 0x80200000; kdata := 0x80108000;
  forkret_addr := 0x80103a00; trapret_addr := 0x80105e00
|}.
Solve All Obligations with (unfold KERNLINK, KERNBASE, EXTMEM, PGSIZE; cbn; lia).

Definition free_lock : spinlock := mkSpinlock 0 "lock" None.

Definition all_locks : gmap lockid spinlock :=
  list_to_map ((λ l, (l, free_lock)) <$>
    ([Lptable; Lkmem; Lftable; Licache; Lbcache; Llog; Lide; Ltickslock; Lcons]
     ++ (Linode <$> seq 0 50) ++ (Lbuf <$> seq 0 30))).

Definition sample_mach : mach :=
  mkMach [mkCpu 0 0 FL_IF (Some 0%nat) 1 0] 0 FL_IF 0 0 all_locks.

Definition no_tf : trapframe := mkTrapframe 0 0 0 0 0 0 0 0 0 0 0 0 0 0 0 0 0 0 0.
Definition no_paging : paging :=
  mkPaging (replicate 32 (mkPage 0 (-1) 0 0 0)) 0 0 0 0 0 (replicate 16 (-1)) (replicate 16 (-1)).
Definition sample_proc : proc :=
  mkProc 0 0 0 RUNNING 3 None no_tf (mkContext 0 0 0 0 0) None 0 (replicate 16 None) None
    (replicate 16 0) None no_paging.
Definition unused_proc : proc := set_state UNUSED (set_pid 0 sample_proc).

Definition no_inode : inode := mkInode 0 0 0 (mkSleeplock 0 0) 0 0 0 0 0 0 (replicate 13 0).
Definition no_buf : buf := mkBuf 0 0 0 (mkSleeplock 0 0) 0 (replicate 512 0).
Definition no_file : file := mkFile FD_NONE 0 0 0 0 None 0.
Definition sample_fs : fsys :=
  mkFsys ∅ [] None [] 0x40 1 (replicate 30 no_buf) (seq 0 30) []
    (mkLogst 0 0 0 0 0 (mkLogheader 0 (replicate 30 0))) (mkSuperblock 0 0 0 0 0 0 0)
    (replicate 50 no_inode) (replicate 100 no_file) ∅.

Definition sample_kernel : kernel :=
  mkKernel sample_mach (mkVmem ∅ 0 0 0)
    (mkPtab (sample_proc :: replicate 63 unused_proc) (Some 0%nat) 4 0 0 0) sample_fs
    (mkConsst 1 (replicate 128 0) 0 0 0 (replicate 2000 0x720) 0 0 1 []).

(** The CPU is in order, and every lock is free. *)
Lemma sample_cpu : cpu_ok sample_mach 0 (mkCpu 0 0 FL_IF (Some 0%nat) 1 0).
Proof. split; [done|done|cbn; lia|by cbn|by cbn]. Qed.

Lemma sample_runs : runs sample_mach 0.
Proof. exists 0%nat, (mkCpu 0 0 FL_IF (Some 0%nat) 1 0). split; [apply sample_cpu|done]. Qed.

Lemma sample_lock l : all_locks !! l = Some free_lock → avail l sample_mach.
Proof.
  intros Hl. split; [|by exists "lock"]. exists 0%nat, (mkCpu 0 0 FL_IF (Some 0%nat) 1 0). apply sample_cpu.
Qed.
