(* ===== verification/LockThms.v ===== *)
(** Spinlocks nest: any set of locks, taken in one order and released in another, leaves the
    machine and the interrupt flag as they were. *)

From S2P Require Import Prelude Params State Spinlock Procs Sched SchedSpec Sample.

Section locks.
Implicit Types (k : kernel) (m : mach) (l : lockid) (ls : list lockid).

(** The machine that holds [ls]. *)
Definition hold_all ls m : mach := foldr hold m ls.

Lemma hold_all_perm ls ls' m : ls ≡ₚ ls' → NoDup ls → hold_all ls m = hold_all ls' m.
Proof.
  induction 1 as [|l ls ls' Hp IH|l l' ls|ls1 ls2 ls3 H1 IH1 H2 IH2]; intros Hnd.
  - done.
  - cbn. f_equal. apply IH. by apply NoDup_cons in Hnd as [_ ?].
  - apply hold_comm. apply NoDup_cons in Hnd as [Hl _]. set_solver.
  - rewrite IH1 by done. apply IH2. by rewrite <- H1.
Qed.

Lemma avail_hold_all l ls m : l ∉ ls → avail l m → avail l (hold_all ls m).
Proof.
  induction ls as [|l' ls IH]; intros Hl Ha; [done|]. cbn. apply avail_hold; [set_solver|]. apply IH; [set_solver|done].
Qed.

Lemma acquire_all ls k :
  NoDup ls → Forall (λ l, avail l (k_mach k)) ls →
  forM (reverse ls) acquire k = Ok tt (mod_mach (hold_all ls) k).
Proof.
  revert k. induction ls as [|l ls IH]; intros k Hnd Ha; [by destruct k|].
  apply NoDup_cons in Hnd as [Hl Hnd]. apply Forall_cons in Ha as [Hal Ha].
  rewrite reverse_cons. rewrite (forM_app _ _ _ _ _ (IH k Hnd Ha)). cbn [forM].
  rewrite (bind_ok _ _ _ _ _ (acquire_ok l (mod_mach (hold_all ls) k) (avail_hold_all l ls _ Hl Hal))). done.
Qed.

Lemma release_all ls k m :
  NoDup ls → Forall (λ l, avail l m) ls → k_mach k = hold_all ls m → forM ls release k = Ok tt (set_k_mach m k).
Proof.
  revert k. induction ls as [|l ls IH]; intros k Hnd Ha Hk; [cbn in *; rewrite <- Hk; by destruct k|].
  apply NoDup_cons in Hnd as [Hl Hnd]. apply Forall_cons in Ha as [Hal Ha]. cbn [forM].
  rewrite (bind_ok _ _ _ _ _ (release_ok l k _ (avail_hold_all l ls m Hl Hal) Hk)).
  by rewrite (IH (set_k_mach (hold_all ls m) k)).
Qed.

(** Whoever holds a lock runs with interrupts off. *)
Lemma hold_all_off ls m : mach_ok m → ls ≠ [] → Z.land (eflags (hold_all ls m)) FL_IF = 0.
Proof. intros _. destruct ls as [|l ls]; [done|]. intros _. apply eflags_off. Qed.

Lemma find_cpu_hold_all ls m : find_cpu (hold_all ls m) = find_cpu m.
Proof.
  induction ls as [|l ls IH]; [done|].
  etrans; [apply (find_cpu_pushed (hold_all ls m))|exact IH].
Qed.

Lemma hold_all_held ls m l :
  NoDup ls → Forall (λ l, avail l m) ls → l ∈ ls →
  ∃ name, locks (hold_all ls m) !! l = Some (mkSpinlock 1 name (find_cpu m)).
Proof.
  induction ls as [|l' ls IH]; intros Hnd Ha Hl; [by apply not_elem_of_nil in Hl|].
  apply NoDup_cons in Hnd as [Hl' Hnd]. apply Forall_cons in Ha as [Hal Ha].
  change (locks (hold_all (l' :: ls) m)) with (alter (λ s, mkSpinlock 1 (lk_name s) (find_cpu (hold_all ls m))) l' (locks (hold_all ls m))).
  destruct (decide (l' = l)) as [->|Hne].
  - destruct (avail_hold_all l ls m Hl' Hal) as [_ [nm Hnm]]. exists nm.
    rewrite lookup_alter_eq, Hnm. cbn. by rewrite find_cpu_hold_all.
  - rewrite lookup_alter_ne by done. apply IH; [done|done|set_solver].
Qed.

Lemma avail_sync l m i c : cpu_weak m i c → (∃ name, locks m !! l = Some (mkSpinlock 0 name None)) → avail l (sync m).
Proof. intros Hw [name Hl]. split; [by eapply sync_ok|]. exists name. unfold sync. by destruct (find_cpu m). Qed.

Lemma acquire_all_sync ls k i c :
  cpu_weak (k_mach k) i c → ls ≠ [] → forM ls acquire (mod_mach sync k) = forM ls acquire k.
Proof. intros Hw. destruct ls as [|l ls]; [done|]. intros _. cbn [forM]. unfold bind. by rewrite (acquire_sync l k i c Hw). Qed.

(** C20: Spinlocks nest and restore the interrupt flag.  A CPU that may run with interrupts on or
    off, and whose [intena] may hold anything while no lock is held, takes one or more free locks
    in any order and releases them in any other.  All calls succeed.  While it holds them
    interrupts are off and each lock is held by this CPU; after the last release the interrupt
    flag, the nesting count, the locks and everything else are as before the first [acquire],
    except that [intena] of this CPU keeps the interrupt flag that was saved when the count was
    zero ([sync]). *)
Theorem locks_nest ls ls' k i c :
  find_cpu (k_mach k) = Some i → cpus (k_mach k) !! i = Some c → 0 ≤ ncli c →
  (ncli c ≠ 0 → Z.land (eflags (k_mach k)) FL_IF = 0) →
  NoDup ls → ls ≡ₚ ls' → ls ≠ [] → Forall (λ l, ∃ name, locks (k_mach k) !! l = Some (mkSpinlock 0 name None)) ls →
  ∃ k1 k2, forM ls acquire k = Ok tt k1 ∧ forM ls' release k1 = Ok tt k2 ∧
    Z.land (eflags (k_mach k1)) FL_IF = 0 ∧
    (∀ l, l ∈ ls → ∃ name, locks (k_mach k1) !! l = Some (mkSpinlock 1 name (Some i))) ∧
    eflags (k_mach k2) = eflags (k_mach k) ∧ locks (k_mach k2) = locks (k_mach k) ∧ k2 = mod_mach sync k.
Proof.
  intros Hf Hc Hn Hi Hnd Hp Hne Hfree. assert (Hw : cpu_weak (k_mach k) i c) by done. set (m := sync (k_mach k)).
  assert (Ha : Forall (λ l, avail l m) ls) by (eapply Forall_impl; [exact Hfree|intros l Hl; by eapply avail_sync]).
  exists (mod_mach (hold_all ls') (mod_mach sync k)), (mod_mach sync k).
  assert (Hrev : hold_all (reverse ls) m = hold_all ls' m).
  { apply hold_all_perm; [|by rewrite reverse_Permutation]. by rewrite reverse_Permutation. }
  assert (Hnd' : NoDup ls') by (by rewrite <- Hp). split_and!.
  - rewrite <- (acquire_all_sync ls k i c) by done. rewrite <- (reverse_involutive ls). rewrite acquire_all.
    + unfold mod_mach at 1 3. change (k_mach (mod_mach sync k)) with m. by rewrite Hrev.
    + by rewrite reverse_Permutation.
    + by apply Forall_reverse.
  - rewrite (release_all ls' _ m); [done|done| |done]. by rewrite <- Hp.
  - apply (hold_all_off ls' m); [by eapply sync_ok|]. by intros ->; apply Permutation_nil_r in Hp.
  - intros l Hl. rewrite Hp in Hl. rewrite Hp in Ha. destruct (hold_all_held ls' m l Hnd' Ha Hl) as [name Hh].
    exists name. unfold m in Hh. rewrite find_cpu_sync, Hf in Hh. exact Hh.
  - cbn. unfold sync. by destruct (find_cpu _).
  - cbn. unfold sync. by destruct (find_cpu _).
  - done.
Qed.
End locks.

(** Taking a lock that the CPU holds already is caught: [acquire] panics, with
    interrupts off. *)
Theorem acquire_twice_panics l k :
  avail l (k_mach k) →
  ∃ k', (acquire l;; acquire l) k = Err (Panic "acquire") k' ∧ Z.land (eflags (k_mach k')) FL_IF = 0.
Proof.
  intros Ha. eexists. rewrite (bind_ok _ _ _ _ _ (acquire_ok l k Ha)). split; [by apply (acquire_held l _ (k_mach k))|].
  apply eflags_off.
Qed.

(** The sample machine with a stale [intena], on a CPU that runs with interrupts on. *)
Definition stale_kernel : kernel :=
  mod_mach (λ m, set_eflags FL_IF (set_cpus (set_intena 0 <$> cpus m) m)) sample_kernel.

Lemma locks_nest_witness :
  ∃ k1 k2, forM [Lptable; Ltickslock; Lcons] acquire stale_kernel = Ok tt k1 ∧
    forM [Ltickslock; Lptable; Lcons] release k1 = Ok tt k2 ∧
    Z.land (eflags (k_mach k1)) FL_IF = 0 ∧ eflags (k_mach k2) = FL_IF.
Proof.
  destruct (locks_nest [Lptable; Ltickslock; Lcons] [Ltickslock; Lptable; Lcons] stale_kernel 0 (mkCpu 0 0 0 (Some 0%nat) 1 0))
    as (k1 & k2 & H1 & H2 & H3 & _ & H4 & _).
  - vm_compute. reflexivity.
  - vm_compute. reflexivity.
  - vm_compute. discriminate.
  - vm_compute. intros H. destruct (H eq_refl).
  - apply (bool_decide_unpack _). vm_compute. exact I.
  - apply perm_swap.
  - discriminate.
  - repeat apply Forall_cons_2; [eexists; vm_compute; reflexivity..|constructor].
  - exists k1, k2. split; [exact H1|]. split; [exact H2|]. split; [exact H3|exact H4].
Defined.

Lemma acquire_twice_panics_witness : ∃ k', (acquire Lptable;; acquire Lptable) sample_kernel = Err (Panic "acquire") k'.
Proof.
  destruct (acquire_twice_panics Lptable sample_kernel) as (k' & Hr & _).
  - apply sample_lock. vm_compute. reflexivity.
  - exists k'. exact Hr.
Defined.
