(* ===== verification/PipeSpec.v ===== *)
(** A pipe implements a bounded queue of bytes: the ring of [PIPESIZE] bytes and the two
    counters, which wrap around at [2 ^ 32], hold what was written and not yet read. *)

From S2P Require Import Prelude Params State Spinlock Mem Kalloc Uaccess Procs Sched SchedSpec Bio Inode Console Fs File BioSpec Sample.

(** ** The specification *)

(** What is in the pipe, and which of its ends are open. *)
Record chan_spec := mkChan { cq : list Z; c_rd : bool; c_wr : bool }.

Inductive pipe_op :=
  | Pwrite (l : list Z)
  | Pread (n : nat)
  | Pclose_read
  | Pclose_write.

(** One operation on a bounded queue: its result, the bytes it delivers and the queue after it;
    [None] when the operation has to wait, or closes the last open end.  A writer that finds the
    queue full and no reader leaves the bytes that fitted and fails. *)
Definition queue_step (o : pipe_op) (c : chan_spec) : option (Z * list Z * chan_spec) :=
  match o with
  | Pwrite l =>
      if bool_decide (length (cq c) + length l ≤ 512)%nat then
        Some (Z.of_nat (length l), [], mkChan (cq c ++ l) (c_rd c) (c_wr c))
      else if c_rd c then None
      else Some (-1, [], mkChan (cq c ++ take (512 - length (cq c)) l) (c_rd c) (c_wr c))
  | Pread n =>
      if bool_decide (cq c = []) && c_wr c then None
      else Some (Z.of_nat (length (take n (cq c))), take n (cq c), mkChan (drop n (cq c)) (c_rd c) (c_wr c))
  | Pclose_read => if c_wr c then Some (0, [], mkChan (cq c) false true) else None
  | Pclose_write => if c_rd c then Some (0, [], mkChan (cq c) true false) else None
  end.

Fixpoint queue_steps (os : list pipe_op) (c : chan_spec) : option (list (Z * list Z) * chan_spec) :=
  match os with
  | [] => Some ([], c)
  | o :: os =>
      '(r, l, c) ← queue_step o c;
      '(rs, c) ← queue_steps os c;
      Some ((r, l) :: rs, c)
  end%stdpp.

(** ** The representation *)
Record pipe_rep (x : pipe) (c : chan_spec) : Prop := {
  pr_data : length (p_data x) = 512%nat;
  pr_nread : 0 ≤ nread x < 2 ^ 32;
  pr_nwrite : nwrite x = u32 (nread x + Z.of_nat (length (cq c)));
  pr_len : (length (cq c) ≤ 512)%nat;
  pr_bytes i : (i < length (cq c))%nat →
    p_data x !! Z.to_nat ((nread x + Z.of_nat i) mod 512) = cq c !! i;
  pr_ropen : readopen x = Z.b2z (c_rd c);
  pr_wopen : writeopen x = Z.b2z (c_wr c)
}.

Lemma u32_ring a : u32 a mod 512 = a mod 512.
Proof. unfold u32. apply Z.mod_mod_divide. by exists (2 ^ 23). Qed.

(** The two tests of the code decide fullness and emptiness. *)
Lemma pipe_full x c : pipe_rep x c → (nwrite x =? u32 (nread x + PIPESIZE)) = bool_decide (length (cq c) = 512%nat).
Proof.
  intros [_ Hr Hw Hl _ _ _]. rewrite Hw. unfold PIPESIZE, u32.
  case_bool_decide; [apply Z.eqb_eq|apply Z.eqb_neq]; lia.
Qed.

Lemma pipe_empty x c : pipe_rep x c → (nread x =? nwrite x) = bool_decide (cq c = []).
Proof.
  intros [_ Hr Hw Hl _ _ _]. rewrite Hw. unfold u32. case_bool_decide as Hq.
  - rewrite Hq. apply Z.eqb_eq. cbn [length]. lia.
  - apply Z.eqb_neq. destruct (cq c); [done|]. cbn [length] in *. lia.
Qed.

Definition pushed (b : Z) (x : pipe) : pipe :=
  set_nwrite (u32 (nwrite x + 1)) (set_p_data (<[Z.to_nat (nwrite x mod 512) := b]> (p_data x)) x).
Definition popped (x : pipe) : pipe := set_nread (u32 (nread x + 1)) x.

Lemma pushed_rep b x c :
  pipe_rep x c → (length (cq c) < 512)%nat → pipe_rep (pushed b x) (mkChan (cq c ++ [b]) (c_rd c) (c_wr c)).
Proof.
  intros [Hd Hr Hw Hl Hb Hro Hwo] Hlt. split; cbn; try done.
  - by rewrite length_insert.
  - rewrite Hw, length_app. cbn [length]. unfold u32. lia.
  - rewrite length_app. cbn [length]. lia.
  - intros i. rewrite length_app. cbn [length]. intros Hi. rewrite Hw, u32_ring.
    destruct (decide (i = length (cq c))) as [->|Hne].
    + rewrite list_lookup_insert_eq, lookup_app_r by lia. by rewrite Nat.sub_diag.
    + rewrite list_lookup_insert_ne, lookup_app_l by lia. apply Hb. lia.
Qed.

Lemma popped_rep x c b q : pipe_rep x c → cq c = b :: q → pipe_rep (popped x) (mkChan q (c_rd c) (c_wr c)).
Proof.
  intros [Hd Hr Hw Hl Hb Hro Hwo] Hq. rewrite Hq in *. cbn [length] in *. split; cbn; try done.
  - apply u32_range.
  - rewrite Hw. unfold u32. lia.
  - lia.
  - intros i Hi. specialize (Hb (S i) ltac:(lia)). change (_ !! S i) with (q !! i) in Hb. rewrite <- Hb. do 2 f_equal.
    rewrite <- (u32_ring (u32 _ + _)), <- (u32_ring (nread x + _)). unfold u32. lia.
Qed.

Section pipe.
Context `{link} `{world}.
Implicit Types (k : kernel) (x : pipe) (c : chan_spec).

(** The kernel whose pipe at [p] is [x]. *)
Definition with_pipe (p : Z) x k : kernel := mod_fs (λ s, set_pipes (<[p := x]> (pipes s)) s) k.

Lemma get_pipe_ok p x k : pipes (k_fs k) !! p = Some x → get_pipe p k = Ok x k.
Proof. intros Hp. unfold get_pipe, getf. rewrite bind_gets, Hp. done. Qed.

Lemma mod_pipe_ok p x f k : pipes (k_fs k) !! p = Some x → mod_pipe p f k = Ok tt (with_pipe p (f x) k).
Proof.
  intros Hp. assert (Ha : alter f p (pipes (k_fs k)) = <[p := f x]> (pipes (k_fs k))).
  { apply map_eq. intros j. destruct (decide (j = p)) as [->|]; [by rewrite lookup_alter_eq, lookup_insert_eq, Hp|].
    by rewrite lookup_alter_ne, lookup_insert_ne. }
  unfold mod_pipe, modf, modify, with_pipe, mod_fs. by rewrite Ha.
Qed.

Lemma with_pipe_id p x k : pipes (k_fs k) !! p = Some x → with_pipe p x k = k.
Proof.
  intros Hp. destruct k as [m v t s o]. destruct s. unfold with_pipe, mod_fs, set_pipes. cbn in *. by rewrite insert_id.
Qed.

Lemma with_pipe_twice p x y k : with_pipe p y (with_pipe p x k) = with_pipe p y k.
Proof. destruct k as [m v t s o]. destruct s. unfold with_pipe, mod_fs, set_pipes. cbn. by rewrite insert_insert_eq. Qed.

Lemma with_pipe_lookup p x k : pipes (k_fs (with_pipe p x k)) !! p = Some x.
Proof. cbn. apply lookup_insert_eq. Qed.

(** ** The copying loops *)
Lemma pipe_room_ok p x c k :
  pipes (k_fs k) !! p = Some x → pipe_rep x c → ((length (cq c) < 512)%nat ∨ c_rd c = false) →
  pipe_room patience p k = Ok (bool_decide (length (cq c) < 512)%nat) k.
Proof.
  intros Hp Hr Hc. assert (Hd : ∀ n, pipe_room n p k = Ok (bool_decide (length (cq c) < 512)%nat) k); [|apply Hd].
  intros n. pose proof (pr_len _ _ Hr).
  destruct n; cbn [pipe_room]; rewrite (bind_ok _ _ _ _ _ (get_pipe_ok _ _ _ Hp)), (pipe_full _ _ Hr), (pr_ropen _ _ Hr).
  all: case_bool_decide as Hf; [|by rewrite bool_decide_true by lia].
  all: destruct Hc as [?| ->]; [lia|]; cbn; by rewrite bool_decide_false by lia.
Qed.

Lemma pipe_push_ok p b x k :
  pipes (k_fs k) !! p = Some x → length (p_data x) = 512%nat → pipe_push p b k = Ok tt (with_pipe p (pushed b x) k).
Proof.
  intros Hp Hd. unfold pipe_push. rewrite (bind_ok _ _ _ _ _ (get_pipe_ok _ _ _ Hp)).
  rewrite aset_in by (unfold PIPESIZE; lia). rewrite bind_or_ub. by rewrite (mod_pipe_ok _ _ _ _ Hp).
Qed.

Lemma pipewrite_loop_ok p l : ∀ x c k,
  pipes (k_fs k) !! p = Some x → pipe_rep x c → ((length (cq c) + length l ≤ 512)%nat ∨ c_rd c = false) →
  ∃ x', pipewrite_loop local_source p (length l) l k =
      Ok (bool_decide (length (cq c) + length l ≤ 512)%nat) (with_pipe p x' k) ∧
    pipe_rep x' (mkChan (cq c ++ take (512 - length (cq c)) l) (c_rd c) (c_wr c)).
Proof.
  induction l as [|b l IH]; intros x c k Hp Hr Hc; cbn [length pipewrite_loop] in *.
  - exists x. rewrite bool_decide_true by (pose proof (pr_len _ _ Hr); lia). split.
    + by rewrite with_pipe_id.
    + rewrite take_nil, app_nil_r. by destruct c.
  - rewrite (bind_ok _ _ _ _ _ (pipe_room_ok _ _ _ _ Hp Hr ltac:(destruct Hc; [left; lia|by right]))).
    case_bool_decide as Hlt.
    + cbn [negb]. cbn [src_take local_source]. rewrite bind_ret. cbn [take drop Z.to_nat Pos.to_nat Pos.iter_op Nat.add head default].
      rewrite (bind_ok _ _ _ _ _ (pipe_push_ok p b x k Hp (pr_data _ _ Hr))).
      destruct (IH (pushed b x) _ (with_pipe p (pushed b x) k) (with_pipe_lookup _ _ _) (pushed_rep b x c Hr Hlt)) as (x' & Hx & Hr').
      { cbn. rewrite length_app. cbn. destruct Hc; [left; lia|by right]. }
      exists x'. cbn [cq c_rd c_wr] in *. rewrite length_app in *. cbn [length] in *. rewrite with_pipe_twice in Hx. split.
      * etrans; [exact Hx|]. f_equal. apply bool_decide_ext. lia.
      * rewrite <- app_assoc in Hr'. cbn in Hr'. replace (512 - length (cq c))%nat with (S (512 - (length (cq c) + 1))) by lia. done.
    + exists x. rewrite bool_decide_false by lia. rewrite with_pipe_id by done. split; [done|].
      replace (512 - length (cq c))%nat with 0%nat by lia. rewrite take_0, app_nil_r. by destruct c.
Qed.

Lemma pipe_avail_ok p x c k :
  pipes (k_fs k) !! p = Some x → pipe_rep x c → bool_decide (cq c = []) && c_wr c = false →
  pipe_avail patience p k = Ok true k.
Proof.
  intros Hp Hr Hc.
  destruct patience; cbn [pipe_avail]; rewrite (bind_ok _ _ _ _ _ (get_pipe_ok _ _ _ Hp)), (pipe_empty _ _ Hr), (pr_wopen _ _ Hr).
  all: destruct (bool_decide (cq c = [])), (c_wr c); done.
Qed.

Lemma piperead_loop_ok p n : ∀ x c k i acc,
  pipes (k_fs k) !! p = Some x → pipe_rep x c →
  ∃ x', piperead_loop local_sink p n i acc k =
      Ok (i + Z.of_nat (length (take n (cq c))), acc ++ take n (cq c)) (with_pipe p x' k) ∧
    pipe_rep x' (mkChan (drop n (cq c)) (c_rd c) (c_wr c)).
Proof.
  induction n as [|n IH]; intros x c k i acc Hp Hr; cbn [piperead_loop].
  - exists x. rewrite take_0, drop_0, app_nil_r, with_pipe_id by done. cbn. rewrite Z.add_0_r. by destruct c.
  - rewrite (bind_ok _ _ _ _ _ (get_pipe_ok _ _ _ Hp)), (pipe_empty _ _ Hr).
    destruct (cq c) as [|b q] eqn:Hq.
    + rewrite bool_decide_true by done. exists x. rewrite with_pipe_id by done. cbn. rewrite Z.add_0_r, app_nil_r.
      destruct c; by simplify_eq/=.
    + rewrite bool_decide_false by done.
      assert (Hb : aget (p_data x) (nread x mod PIPESIZE) = Some b).
      { pose proof (pr_bytes _ _ Hr 0) as Hb. rewrite Hq, Z.add_0_r in Hb. unfold aget, PIPESIZE.
        rewrite (proj2 (Z.leb_le _ _)) by lia. rewrite Hb by (cbn; lia). done. }
      rewrite Hb, bind_or_ub, (bind_ok _ _ _ _ _ (mod_pipe_ok p x _ k Hp)). cbn [snk_put local_sink]. rewrite bind_ret.
      destruct (IH (popped x) _ (with_pipe p (popped x) k) (i + 1) (acc ++ [b]) (with_pipe_lookup _ _ _) (popped_rep x c b q Hr Hq))
        as (x' & Hx & Hr').
      exists x'. cbn [cq take drop length] in *. rewrite with_pipe_twice, <- app_assoc in Hx. split; [|done].
      etrans; [exact Hx|]. do 2 f_equal. lia.
Qed.

(** ** The operations *)
Definition pipe_ready (p : Z) (m : mach) : Prop := avail Lptable m ∧ avail (Lpipe p) m.

(** What an operation may change: the pipe, and which processes are asleep. *)
Definition pipe_after (p : Z) x k k' : Prop :=
  k_mach k' = k_mach k ∧ k_vm k' = k_vm k ∧ k_cons k' = k_cons k ∧
  k_fs k' = set_pipes (<[p := x]> (pipes (k_fs k))) (k_fs k).

(** Waking the other side and releasing the lock, which ends every operation. *)
Lemma pipe_unlock {A} p ch x k (r : A) :
  pipe_ready p (k_mach k) →
  ∃ k', bind (wakeup (Some ch)) (λ _, bind (release (Lpipe p)) (λ _, ret r)) (with_pipe p x (mod_mach (hold (Lpipe p)) k)) = Ok r k' ∧
    pipe_after p x k k'.
Proof.
  intros [Ht Hp]. set (k1 := with_pipe p x (mod_mach (hold (Lpipe p)) k)).
  assert (Ha : avail Lptable (k_mach k1)) by (apply avail_hold; done).
  rewrite (bind_ok _ _ _ _ _ (wakeup_ok _ _ Ha)).
  rewrite (bind_ok _ _ _ _ _ (release_ok _ (woken (Some ch) k1) (k_mach k) Hp eq_refl)).
  eexists. split; [done|]. by destruct k.
Qed.

Definition run_pipe (p : Z) (o : pipe_op) : K (Z * list Z) :=
  match o with
  | Pwrite l => r ← pipewrite local_source p l (Z.of_nat (length l)); ret (r, [])
  | Pread n => piperead local_sink p [] (Z.of_nat n)
  | Pclose_read => pipeclose p 0;; ret (0, [])
  | Pclose_write => pipeclose p 1;; ret (0, [])
  end.

Definition pipe_op_ok p o : Prop := ∀ x c k r l c',
  pipe_ready p (k_mach k) → pipes (k_fs k) !! p = Some x → pipe_rep x c → queue_step o c = Some (r, l, c') →
  ∃ x' k', run_pipe p o k = Ok (r, l) k' ∧ pipe_rep x' c' ∧ pipe_after p x' k k'.

Lemma pread_ok p n : pipe_op_ok p (Pread n).
Proof.
  intros x c k r l c' Hk Hp Hr Hs. cbn in Hs. destruct (bool_decide _ && _) eqn:Hc; [done|]. simplify_eq.
  cbn [run_pipe]. unfold piperead. rewrite (bind_ok _ _ _ _ _ (acquire_ok _ _ (proj2 Hk))).
  rewrite (bind_ok _ _ _ _ _ (pipe_avail_ok p x c (mod_mach (hold (Lpipe p)) k) Hp Hr Hc)). cbn [negb]. rewrite Nat2Z.id.
  destruct (piperead_loop_ok p n x c (mod_mach (hold (Lpipe p)) k) 0 [] Hp Hr) as (x' & Hx & Hr').
  rewrite (bind_ok _ _ _ _ _ Hx). destruct (pipe_unlock p (Cpipe_nwrite p) x' k (0 + Z.of_nat (length (take n (cq c))), [] ++ take n (cq c)) Hk) as (k' & Hk' & Ha).
  exists x', k'. done.
Qed.

Lemma pwrite_ok p l : pipe_op_ok p (Pwrite l).
Proof.
  intros x c k r l' c' Hk Hp Hr Hs. cbn in Hs.
  destruct (pipewrite_loop_ok p l x c (mod_mach (hold (Lpipe p)) k) Hp Hr) as (x' & Hx & Hr').
  { case_bool_decide; [by left|]. destruct (c_rd c); [done|by right]. }
  cbn [run_pipe]. unfold pipewrite. rewrite (bind_assoc _ _ _ _), (bind_ok _ _ _ _ _ (acquire_ok _ _ (proj2 Hk))).
  rewrite Nat2Z.id, bind_assoc, (bind_ok _ _ _ _ _ Hx). case_bool_decide as Hf.
  - simplify_eq. rewrite take_ge in Hr' by lia.
    destruct (pipe_unlock p (Cpipe_nread p) x' k (Z.of_nat (length l)) Hk) as (k' & Hk' & Ha).
    rewrite (bind_ok _ _ _ _ _ Hk'). by exists x', k'.
  - destruct (c_rd c) eqn:Hrd; [done|]. simplify_eq.
    rewrite bind_assoc, (bind_ok _ _ _ _ _ (release_ok _ (with_pipe p x' (mod_mach (hold (Lpipe p)) k)) (k_mach k) (proj2 Hk) eq_refl)).
    eexists x', _. split_and!; [done|done|by destruct k].
Qed.

Lemma pclose_ok p w : pipe_op_ok p (if w : bool then Pclose_write else Pclose_read).
Proof.
  intros x c k r l c' Hk Hp Hr Hs. set (y := if w then set_writeopen 0 x else set_readopen 0 x).
  assert (Hy : pipe_rep y c' ∧ r = 0 ∧ l = [] ∧ (readopen y =? 0) && (writeopen y =? 0) = false).
  { destruct Hr as [Hd Hn Hw Hl Hb Hro Hwo], w; cbn in Hs; [destruct (c_rd c) eqn:Hc|destruct (c_wr c) eqn:Hc]; simplify_eq;
      (split_and!; [split; done|done|done|]); cbn; by rewrite ?Hro, ?Hwo. }
  destruct Hy as (Hy & -> & -> & Hopen).
  assert (Hrun : ∃ k', pipeclose p (Z.b2z w) k = Ok tt k' ∧ pipe_after p y k k').
  { unfold pipeclose. rewrite (bind_ok _ _ _ _ _ (acquire_ok _ _ (proj2 Hk))).
    set (ch := if w then Cpipe_nread p else Cpipe_nwrite p).
    set (k1 := with_pipe p y (mod_mach (hold (Lpipe p)) k)).
    assert (Ha : avail Lptable (k_mach k1)) by (apply avail_hold; [done|apply Hk]).
    rewrite (bind_ok _ _ _ tt (woken (Some ch) k1)).
    - rewrite (bind_ok _ _ _ y _ (get_pipe_ok _ y (woken (Some ch) k1) (with_pipe_lookup p y _))), Hopen.
      rewrite (release_ok _ (woken (Some ch) k1) (k_mach k) (proj2 Hk) eq_refl). eexists. split; [done|]. by destruct k.
    - destruct w; cbn [Z.b2z truthy]; (etrans; [apply bind_ok, (mod_pipe_ok p x); exact Hp|]); apply (wakeup_ok _ _ Ha). }
  destruct Hrun as (k' & Hk' & Haft). exists y, k'. split_and!; [|done..].
  destruct w; cbn [run_pipe]; by rewrite (bind_ok _ _ _ _ _ Hk').
Qed.

Lemma run_pipe_ok p o : pipe_op_ok p o.
Proof. destruct o; [apply pwrite_ok|apply pread_ok|apply (pclose_ok p false)|apply (pclose_ok p true)]. Qed.

Fixpoint run_pipes (p : Z) (os : list pipe_op) : K (list (Z * list Z)) :=
  match os with
  | [] => ret []
  | o :: os => r ← run_pipe p o; rs ← run_pipes p os; ret (r :: rs)
  end.

Lemma pipe_after_trans p x y k1 k2 k3 : pipe_after p x k1 k2 → pipe_after p y k2 k3 → pipe_after p y k1 k3.
Proof.
  intros (Hm & Hv & Hc & Hf) (Hm' & Hv' & Hc' & Hf'). split_and!; [congruence..|]. rewrite Hf', Hf.
  destruct (k_fs k1). unfold set_pipes. cbn. by rewrite insert_insert_eq.
Qed.

(** C21: Whatever sequence of writes, reads and closes of one end is run on a pipe, if a bounded
    queue of 512 bytes allows it without waiting then each operation returns and delivers what the
    queue does, in order and without loss, also when the counters wrap around at [2 ^ 32]; the pipe
    represents the queue afterwards, and the lock, the memory and every other pipe, file, inode and
    buffer are as before. *)
Theorem pipe_refines_queue p os x c k rs c' :
  pipe_ready p (k_mach k) → pipes (k_fs k) !! p = Some x → pipe_rep x c → queue_steps os c = Some (rs, c') →
  ∃ x' k', run_pipes p os k = Ok rs k' ∧ pipe_rep x' c' ∧ pipe_after p x' k k'.
Proof.
  revert x c k rs. induction os as [|o os IH]; intros x c k rs Hk Hp Hr Hs; cbn in Hs.
  - simplify_eq. exists x, k. split_and!; [done..|]. split_and!; [done..|].
    destruct k as [m v t s cs]. destruct s. unfold set_pipes. cbn in *. by rewrite insert_id.
  - destruct (queue_step o c) as [[[r l] c1]|] eqn:Ho; [|done]. cbn in Hs.
    destruct (queue_steps os c1) as [[rs1 c2]|] eqn:Hos; [|done]. simplify_eq/=.
    destruct (run_pipe_ok p o x c k r l c1 Hk Hp Hr Ho) as (y & k1 & Hrun & Hy & Ha).
    destruct (IH y c1 k1 rs1) as (x' & k' & Hrun' & Hx' & Ha'); [by rewrite (proj1 Ha)| |done..|].
    { destruct Ha as (_ & _ & _ & ->). apply lookup_insert_eq. }
    exists x', k'. rewrite Hrun, Hrun'.
    split_and!; [done..|by eapply pipe_after_trans].
Qed.
End pipe.

(** ** A pipe whose counters are about to wrap around *)
Definition sample_pipe : pipe := mkPipe (replicate 512 0) (2 ^ 32 - 3) (2 ^ 32 - 3) 1 1.
Definition pipe_mach : mach := set_locks (<[Lpipe 0 := free_lock]> all_locks) sample_mach.
Definition pipe_kernel : kernel :=
  with_pipe 0 sample_pipe (set_k_mach pipe_mach sample_kernel).

Lemma pipe_lock l : locks pipe_mach !! l = Some free_lock → avail l pipe_mach.
Proof.
  intros Hl. split; [|by exists "lock"]. exists 0%nat, (mkCpu 0 0 FL_IF (Some 0%nat) 1 0).
  split; [done|done|cbn; lia|by cbn|by cbn].
Qed.

#[local] Existing Instance idle_world.

Lemma pipe_refines_queue_witness :
  ∃ x' k', run_pipes 0 [Pwrite [1; 2; 3; 4; 5]; Pread 2; Pwrite [6; 7]; Pclose_write; Pread 9; Pread 9] pipe_kernel =
      Ok [(5, []); (2, [1; 2]); (2, []); (0, []); (5, [3; 4; 5; 6; 7]); (0, [])] k' ∧
    pipe_rep x' (mkChan [] true false) ∧ pipe_after 0 x' pipe_kernel k'.
Proof.
  apply (pipe_refines_queue 0 _ sample_pipe (mkChan [] true true)).
  - split; apply pipe_lock; vm_compute; reflexivity.
  - done.
  - split; cbn; try done; lia.
  - done.
Defined.
