(* ===== verification/User.v ===== *)
(** A user process: its memory, the system calls it makes, and the library routines of
    [ulib.c].

    A process sees the bytes from 0 to its size; an access outside them is a fault, which kills
    it.  What a system call does beyond the process is the class [uenv]: a program is proved
    against what the calls promise ([stream] for reading, [heap_env] for [sbrk]). *)

From S2P Require Import Prelude Params Mem Cstring.

Inductive uerr :=
  | Exited  (* [exit()] *)
  | Ufault (va : Z)
  | Ubounds  (* an access outside a local array *)
  | Ufuel.  (* the bound on a loop that the model runs with fuel *)

(** The system calls, as a process sees them, on the rest of the world [W]. *)
Class uenv (W : Type) := {
  sys_read : Z → Z → W → option (list Z) * W;  (* the bytes delivered, at most [n]; [None] is -1 *)
  sys_write : Z → list Z → W → Z * W;
  sys_open : list Z → Z → W → Z * W;
  sys_close : Z → W → Z * W;
  sys_sbrk : Z → W → bool * W  (* whether the process grows *)
}.

Record ustate (W : Type) := mkUstate { umem : memory; usz : Z; uworld : W }.
Arguments mkUstate {W}.
Arguments umem {W}.
Arguments usz {W}.
Arguments uworld {W}.

Section user.
Context {W : Type} `{!uenv W}.
Implicit Types (s : ustate W).

Definition set_umem (m : memory) s : ustate W := mkUstate m (usz s) (uworld s).
Definition set_usz (v : Z) s : ustate W := mkUstate (umem s) v (uworld s).
Definition set_uworld (w : W) s : ustate W := mkUstate (umem s) (usz s) w.

Definition U (A : Type) : Type := M uerr (ustate W) A.

(** ** Memory *)
Definition ucheck (a n : Z) : U unit := λ s,
  if (0 <=? a) && (a + n <=? usz s) then Ok tt s else Err (Ufault a) s.

Definition ld8 (a : Z) : U Z := ucheck a 1;; gets (λ s, rd8 (umem s) a).
Definition st8 (a v : Z) : U unit := ucheck a 1;; modify (λ s, set_umem (wr8 (umem s) a v) s).
Definition ld32 (a : Z) : U Z := ucheck a 4;; gets (λ s, rd32 (umem s) a).
Definition st32 (a v : Z) : U unit := ucheck a 4;; modify (λ s, set_umem (wr32 (umem s) a v) s).

(** ** System calls *)
Definition lift_sys {A} (f : W → A * W) : U A := λ s,
  let '(a, w) := f (uworld s) in Ok a (set_uworld w s).

(** [read(fd, a, n)]: the kernel refuses a buffer outside the process. *)
Definition uread (fd a n : Z) : U Z := λ s,
  if (0 <=? n) && (0 <=? a) && (a <? usz s) && (a + n <=? usz s) then
    match sys_read fd n (uworld s) with
    | (None, w) => Ok (-1) (set_uworld w s)
    | (Some l, w) => Ok (Z.of_nat (length l)) (set_uworld w (set_umem (write_bytes (umem s) a l) s))
    end
  else Ok (-1) s.

Definition uwrite (fd a n : Z) : U Z := λ s,
  if (0 <=? n) && (0 <=? a) && (a <? usz s) && (a + n <=? usz s) then
    lift_sys (sys_write fd (read_bytes (umem s) a (Z.to_nat n))) s
  else Ok (-1) s.

(** [sbrk(n)]: the old size, or -1. *)
Definition usbrk (n : Z) : U Z :=
  old ← gets usz;
  ok ← lift_sys (sys_sbrk n);
  if ok : bool then modify (set_usz (old + n));; ret old else ret (-1).

Definition uexit {A} : U A := fail Exited.

(** ** [ulib.c] *)
Fixpoint ustrcpy (fuel : nat) (d t : Z) : U unit :=
  match fuel with
  | O => fail Ufuel
  | S fuel =>
      c ← ld8 t;
      st8 d c;;
      if truthy c then ustrcpy fuel (d + 1) (t + 1) else ret tt
  end.

Fixpoint ustrcmp (fuel : nat) (p q : Z) : U Z :=
  match fuel with
  | O => fail Ufuel
  | S fuel =>
      a ← ld8 p;
      if truthy a then
        b ← ld8 q;
        if a =? b then ustrcmp fuel (p + 1) (q + 1) else ret (a - b)
      else b ← ld8 q; ret (a - b)
  end.

Fixpoint ustrlen_go (fuel : nat) (a n : Z) : U Z :=
  match fuel with
  | O => fail Ufuel
  | S fuel => c ← ld8 (a + n); if truthy c then ustrlen_go fuel a (n + 1) else ret n
  end.
Definition ustrlen (fuel : nat) (a : Z) : U Z := ustrlen_go fuel a 0.

Fixpoint umemset_go (n : nat) (d c : Z) : U unit :=
  match n with
  | O => ret tt
  | S n => st8 d c;; umemset_go n (d + 1) c
  end.
Definition umemset (d c n : Z) : U unit := umemset_go (Z.to_nat n) d c.

(** The address of the first [c] in a string, 0 when there is none. *)
Fixpoint ustrchr (fuel : nat) (a c : Z) : U Z :=
  match fuel with
  | O => fail Ufuel
  | S fuel =>
      b ← ld8 a;
      if truthy b then (if b =? c then ret a else ustrchr fuel (a + 1) c) else ret 0
  end.

(** [gets]: characters up to a newline or [max - 1], read one at a time into [c], a local
    variable at address [pc]. *)
Fixpoint ugets_loop (fuel : nat) (pc buf max i : Z) : U Z :=
  if i + 1 <? max then
    match fuel with
    | O => fail Ufuel
    | S fuel =>
        cc ← uread 0 pc 1;
        if cc <? 1 then ret i
        else
          c ← ld8 pc;
          st8 (buf + i) c;;
          if (c =? 10) || (c =? 13) then ret (i + 1) else ugets_loop fuel pc buf max (i + 1)
    end
  else ret i.
Definition ugets (fuel : nat) (pc buf max : Z) : U Z :=
  i ← ugets_loop fuel pc buf max 0;
  st8 (buf + i) 0;;
  ret buf.

(** [n = n*10 + *s++ - '0'] on [int]; the compiler may assume that it does not overflow. *)
Fixpoint atoi_go (fuel : nat) (a n : Z) : U Z :=
  match fuel with
  | O => fail Ufuel
  | S fuel =>
      c ← ld8 a;
      if (48 <=? c) && (c <=? 57) then atoi_go fuel (a + 1) (s32 (n * 10 + c - 48)) else ret n
  end.
Definition atoi (fuel : nat) (a : Z) : U Z := atoi_go fuel a 0.

(** Always upwards, also when the destination overlaps the source from above. *)
Fixpoint umemmove_go (n : nat) (d t : Z) : U unit :=
  match n with
  | O => ret tt
  | S n => c ← ld8 t; st8 d c;; umemmove_go n (d + 1) (t + 1)
  end.
Definition umemmove (d t n : Z) : U unit := umemmove_go (Z.to_nat n) d t.

(** ** Lemmas *)
Lemma ld8_ok a s : 0 ≤ a < usz s → ld8 a s = Ok (rd8 (umem s) a) s.
Proof.
  intros Ha. unfold ld8, ucheck. cbn. by rewrite (proj2 (Z.leb_le _ _)), (proj2 (Z.leb_le (a + 1) _)) by lia.
Qed.

Lemma st8_ok a v s : 0 ≤ a < usz s → st8 a v s = Ok tt (set_umem (wr8 (umem s) a v) s).
Proof.
  intros Ha. unfold st8, ucheck. cbn. by rewrite (proj2 (Z.leb_le _ _)), (proj2 (Z.leb_le (a + 1) _)) by lia.
Qed.

Lemma ld32_ok a s : 0 ≤ a → a + 4 ≤ usz s → ld32 a s = Ok (rd32 (umem s) a) s.
Proof.
  intros Ha Hb. unfold ld32, ucheck. cbn. by rewrite (proj2 (Z.leb_le _ _)), (proj2 (Z.leb_le (a + 4) _)) by lia.
Qed.

Lemma st32_ok a v s : 0 ≤ a → a + 4 ≤ usz s → st32 a v s = Ok tt (set_umem (wr32 (umem s) a v) s).
Proof.
  intros Ha Hb. unfold st32, ucheck. cbn. by rewrite (proj2 (Z.leb_le _ _)), (proj2 (Z.leb_le (a + 4) _)) by lia.
Qed.

(** A string inside the process. *)
Definition ustr s (a : Z) (l : list Z) : Prop :=
  cstr (umem s) a l ∧ 0 ≤ a ∧ a + Z.of_nat (length l) < usz s.

Lemma ustr_nil s a : ustr s a [] → ld8 a s = Ok 0 s.
Proof. intros (Hc & Ha & Hl). cbn in *. rewrite ld8_ok by lia. by rewrite Hc. Qed.

Lemma ustr_cons s a b l : ustr s a (b :: l) → ld8 a s = Ok b s ∧ b ≠ 0 ∧ ustr s (a + 1) l.
Proof.
  intros (Hc & Ha & Hl). cbn in Hc, Hl. destruct Hc as (Hb & Hnz & Hc). rewrite ld8_ok by lia. rewrite Hb.
  split_and!; [done..|]. split_and!; [done|lia|lia].
Qed.

Lemma ustr_ld s a l : ustr s a l → ld8 a s = Ok (default 0 (head l)) s.
Proof. destruct l; [apply ustr_nil|]. intros H. by destruct (ustr_cons _ _ _ _ H) as (? & _). Qed.

Lemma ustr_nonzero s a l : ustr s a l → Forall (λ b, b ≠ 0) l.
Proof.
  revert a. induction l as [|b l IH]; intros a H; constructor.
  - by destruct (ustr_cons _ _ _ _ H) as (_ & ? & _).
  - apply (IH (a + 1)), (ustr_cons _ _ _ _ H).
Qed.

(** The scan for a character: the address of its first occurrence. *)
Lemma ustrchr_found l c : ∀ fuel s a t,
  ustr s a (l ++ c :: t) → c ∉ l → (length l < fuel)%nat → ustrchr fuel a c s = Ok (a + Z.of_nat (length l)) s.
Proof.
  induction l as [|b l IH]; intros [|fuel] s a t Ha Hc Hf; cbn [length app] in *; try lia.
  - destruct (ustr_cons _ _ _ _ Ha) as (Hb & Hnz & _). cbn [ustrchr]. rewrite (bind_ok _ _ _ _ _ Hb).
    rewrite (proj2 (truthy_true c)) by done. rewrite Z.eqb_refl. cbn. by rewrite Z.add_0_r.
  - destruct (ustr_cons _ _ _ _ Ha) as (Hb & Hnz & Ha1). cbn [ustrchr]. rewrite (bind_ok _ _ _ _ _ Hb).
    rewrite (proj2 (truthy_true b)) by done. apply not_elem_of_cons in Hc as [Hcb Hc].
    rewrite (proj2 (Z.eqb_neq _ _)) by done. rewrite (IH fuel s (a + 1) t) by (done || lia). f_equal. lia.
Qed.

Lemma ustrchr_none l c : ∀ fuel s a,
  ustr s a l → c ∉ l → (length l < fuel)%nat → ustrchr fuel a c s = Ok 0 s.
Proof.
  induction l as [|b l IH]; intros [|fuel] s a Ha Hc Hf; cbn [length] in *; try lia; cbn [ustrchr].
  - by rewrite (bind_ok _ _ _ _ _ (ustr_nil _ _ Ha)).
  - destruct (ustr_cons _ _ _ _ Ha) as (Hb & Hnz & Ha1). rewrite (bind_ok _ _ _ _ _ Hb).
    rewrite (proj2 (truthy_true b)) by done. apply not_elem_of_cons in Hc as [Hcb Hc].
    rewrite (proj2 (Z.eqb_neq _ _)) by done. apply IH; [done..|lia].
Qed.

Lemma umemmove_ok d t n s :
  0 ≤ n → 0 ≤ d → d + n ≤ usz s → 0 ≤ t → t + n ≤ usz s →
  umemmove d t n s = Ok tt (set_umem (copy_up (umem s) d t (Z.to_nat n)) s).
Proof.
  unfold umemmove. intros Hn. rewrite <- (Z2Nat.id n Hn) at 1 2. generalize (Z.to_nat n). clear n Hn. intros n.
  revert d t s. induction n as [|n IH]; intros d t s Hd Hd' Ht Ht'; cbn [umemmove_go copy_up].
  - by destruct s.
  - rewrite (bind_ok _ _ _ _ _ (ld8_ok t s ltac:(lia))), (bind_ok _ _ _ _ _ (st8_ok d _ s ltac:(lia))).
    rewrite IH by (cbn; lia). done.
Qed.

(** Strings and the bytes they are made of. *)
Lemma cstr_bytes m p l :
  cstr m p l ↔ read_bytes m p (length l) = l ∧ Forall (λ b, b ≠ 0) l ∧ rd8 m (p + Z.of_nat (length l)) = 0.
Proof.
  revert p. induction l as [|b l IH]; intros p; cbn [cstr length read_bytes].
  - rewrite Z.add_0_r. naive_solver.
  - rewrite IH, Forall_cons. replace (p + 1 + Z.of_nat (length l)) with (p + Z.of_nat (S (length l))) by lia.
    naive_solver congruence.
Qed.
End user.
