(* ===== verification/Grep.v ===== *)
(** [grep.c]: the matcher of regular expressions decides the language of the pattern, and the
    loop over the input prints the lines that match. *)

From S2P Require Import Prelude Params Mem Cstring User.

(** The characters the matcher knows. *)
Definition c_caret : Z := 94.
Definition c_dollar : Z := 36.
Definition c_dot : Z := 46.
Definition c_star : Z := 42.
Definition c_newline : Z := 10.

Section matcher.
Context {W : Type} `{!uenv W}.

(** [matchhere] and [matchstar]; each call and each turn of the loop takes one unit of fuel. *)
Fixpoint matchhere (fuel : nat) (re text : Z) : U (W := W) Z :=
  match fuel with
  | O => fail Ufuel
  | S fuel =>
      r0 ← ld8 re;
      if r0 =? 0 then ret 1
      else
        r1 ← ld8 (re + 1);
        if r1 =? c_star then matchstar fuel r0 (re + 2) text
        else if (r0 =? c_dollar) && (r1 =? 0) then t ← ld8 text; ret (Z.b2z (t =? 0))
        else
          t ← ld8 text;
          if negb (t =? 0) && ((r0 =? c_dot) || (r0 =? t)) then matchhere fuel (re + 1) (text + 1)
          else ret 0
  end
with matchstar (fuel : nat) (c re text : Z) : U (W := W) Z :=
  match fuel with
  | O => fail Ufuel
  | S fuel =>
      r ← matchhere fuel re text;
      if truthy r then ret 1
      else
        t ← ld8 text;
        if negb (t =? 0) && ((t =? c) || (c =? c_dot)) then matchstar fuel c re (text + 1)
        else ret 0
  end.

(** The loop of [match], which looks at every suffix of the text, the empty one too. *)
Fixpoint match_loop (fuel : nat) (re text : Z) : U (W := W) Z :=
  match fuel with
  | O => fail Ufuel
  | S n =>
      r ← matchhere fuel re text;
      if truthy r then ret 1
      else
        t ← ld8 text;
        if negb (t =? 0) then match_loop n re (text + 1) else ret 0
  end.
Definition match_ (fuel : nat) (re text : Z) : U (W := W) Z :=
  r0 ← ld8 re;
  if r0 =? c_caret then matchhere fuel (re + 1) text else match_loop fuel re text.

(** ** The loop over the input, whose buffer [char buf[1024]] is at [buf] *)

(** Every complete line from [p] on; the address after the last one. *)
Fixpoint grep_lines (n fuel : nat) (pattern p : Z) : U (W := W) Z :=
  match n with
  | O => fail Ufuel
  | S n =>
      q ← ustrchr fuel p c_newline;
      if truthy q then
        st8 q 0;;
        r ← match_ fuel pattern p;
        (if truthy r then st8 q c_newline;; uwrite 1 p (q + 1 - p);; ret tt else ret tt);;
        grep_lines n fuel pattern (q + 1)
      else ret p
  end.

Fixpoint grep_loop (n fuel : nat) (buf pattern fd m : Z) : U (W := W) unit :=
  match n with
  | O => fail Ufuel
  | S n =>
      k ← uread fd (buf + m) (1024 - m - 1);
      if 0 <? k then
        let m := m + k in
        st8 (buf + m) 0;;
        p ← grep_lines fuel fuel pattern buf;
        let m := if p =? buf then 0 else m in
        m ← (if 0 <? m then
               let m := m - (p - buf) in umemmove buf p m;; ret m
             else ret m);
        grep_loop n fuel buf pattern fd m
      else ret tt
  end.
Definition grep (fuel : nat) (buf pattern fd : Z) : U (W := W) unit := grep_loop fuel fuel buf pattern fd 0.
End matcher.

(** ** The language of a pattern *)
Inductive item :=
  | One (c : Z)
  | Star (c : Z).

(** The items of a pattern without its [^], and whether it ends with [$]. *)
Fixpoint parse (re : list Z) : list item * bool :=
  match re with
  | [] => ([], false)
  | c :: re1 =>
      match re1 with
      | [] => if c =? c_dollar then ([], true) else ([One c], false)
      | d :: re2 =>
          if d =? c_star then (let '(l, e) := parse re2 in (Star c :: l, e))
          else (let '(l, e) := parse re1 in (One c :: l, e))
      end
  end.

Definition char_ok (c b : Z) : Prop := c = c_dot ∨ c = b.

(** [lang l s]: the items [l] describe the string [s]. *)
Inductive lang : list item → list Z → Prop :=
  | lang_nil : lang [] []
  | lang_one c b l s : char_ok c b → lang l s → lang (One c :: l) (b :: s)
  | lang_star c l s1 s2 : Forall (char_ok c) s1 → lang l s2 → lang (Star c :: l) (s1 ++ s2).

(** A prefix of the text that the items describe, all of it when the pattern ends with [$]. *)
Definition here (pat : list item * bool) (text : list Z) : Prop :=
  ∃ s after, text = s ++ after ∧ lang pat.1 s ∧ (pat.2 = true → after = []).

(** The pattern describes a part of the text; from its start with [^], to its end with [$]. *)
Definition matches (re text : list Z) : Prop :=
  match re with
  | c :: re1 =>
      if c =? c_caret then here (parse re1) text
      else ∃ before rest, text = before ++ rest ∧ here (parse re) rest
  | [] => True
  end.

(** ** Correctness of the matcher *)
Lemma here_nil t : here ([], false) t.
Proof. exists [], t. split_and!; [done|constructor|done]. Qed.

Lemma here_end t : here ([], true) t ↔ t = [].
Proof.
  split.
  - intros (s & r & -> & Hl & Hr). inversion Hl. by rewrite (Hr eq_refl).
  - intros ->. exists [], []. split_and!; [done|constructor|done].
Qed.

Lemma here_one c l e t : here (One c :: l, e) t ↔ ∃ b t', t = b :: t' ∧ char_ok c b ∧ here (l, e) t'.
Proof.
  split.
  - intros (s & r & -> & Hl & Hr). cbn in *. inversion Hl; subst. eexists _, _. split_and!; [done..|]. by exists s0, r.
  - intros (b & t' & -> & Hc & s & r & -> & Hl & Hr). exists (b :: s), r. split_and!; [done| |done]. by constructor.
Qed.

Lemma here_star c l e t :
  here (Star c :: l, e) t ↔ here (l, e) t ∨ ∃ b t', t = b :: t' ∧ char_ok c b ∧ here (Star c :: l, e) t'.
Proof.
  split.
  - intros (s & r & -> & Hl & Hr). cbn in *. inversion Hl as [| |? ? s1 s2 Hs1 Hs2]; subst.
    destruct s1 as [|b s1]; [left; by exists s2, r|right].
    apply Forall_cons in Hs1 as [Hb Hs1]. exists b, ((s1 ++ s2) ++ r). split_and!; [done..|].
    exists (s1 ++ s2), r. split_and!; [done|by constructor|done].
  - intros [(s & r & -> & Hl & Hr)|(b & t' & -> & Hc & s & r & -> & Hl & Hr)]; cbn in *.
    + exists s, r. split_and!; [done| |done]. by apply (lang_star c l [] s).
    + inversion Hl as [| |? ? s1 s2 Hs1 Hs2]; subst. exists (b :: s1 ++ s2), r.
      split_and!; [done| |done]. apply (lang_star c l (b :: s1)); [by constructor|done].
Qed.

Section correct.
Context {W : Type} `{!uenv W}.
Implicit Types (s : ustate W).

(** The computation [m] leaves the process as it is and decides [P]. *)
Definition decides (m : U (W := W) Z) s (P : Prop) : Prop := ∃ r : bool, m s = Ok (Z.b2z r) s ∧ (r = true ↔ P).

Lemma decides_iff m s (P Q : Prop) : (P ↔ Q) → decides m s P → decides m s Q.
Proof. intros HPQ (r & Hm & Hr). exists r. split; [done|]. by rewrite Hr. Qed.

Lemma char_test c t : ((t =? c) || (c =? c_dot)) = true ↔ char_ok c t.
Proof. unfold char_ok. destruct (Z.eqb_spec t c), (Z.eqb_spec c c_dot); naive_solver. Qed.

(** Enough fuel for [matchhere], and one more for [matchstar]. *)
Definition fuel_for (re text : list Z) : nat := 2 * (length re + length text) + 1.

Definition here_ok (fuel : nat) : Prop := ∀ re text s a b,
  ustr s a re → ustr s b text → (fuel_for re text ≤ fuel)%nat → decides (matchhere fuel a b) s (here (parse re) text).
Definition star_ok (fuel : nat) : Prop := ∀ c re text s a b,
  ustr s a re → ustr s b text → (fuel_for re text < fuel)%nat →
  decides (matchstar fuel c a b) s (here (Star c :: (parse re).1, (parse re).2) text).

(** The last case of [matchhere]: one character of the pattern against one of the text. *)
Lemma matchhere_one fuel c re text s a b :
  here_ok fuel → ustr s a re → ustr s b text → (fuel_for re text ≤ S (S fuel))%nat →
  decides (t ← ld8 b; if negb (t =? 0) && ((c =? c_dot) || (c =? t)) then matchhere fuel a (b + 1) else ret 0)
    s (here (One c :: (parse re).1, (parse re).2) text).
Proof.
  unfold fuel_for. intros IH Ha Hb Hf. unfold decides. rewrite (bind_ok _ _ _ _ _ (ustr_ld _ _ _ Hb)).
  destruct text as [|t text].
  - exists false. split; [done|]. rewrite here_one. naive_solver.
  - destruct (ustr_cons _ _ _ _ Hb) as (_ & Htz & Hb1). cbn [head default from_option id length] in *.
    rewrite (proj2 (Z.eqb_neq _ _)) by done. cbn [negb andb].
    destruct ((c =? c_dot) || (c =? t)) eqn:Hct; rewrite orb_comm, (Z.eqb_sym c t) in Hct.
    + apply char_test in Hct. destruct (IH re text s a (b + 1) Ha Hb1) as (r & Hr & Hiff); [unfold fuel_for; lia|].
      exists r. split; [done|]. rewrite Hiff, here_one, (surjective_pairing (parse re)). naive_solver.
    + exists false. split; [done|]. rewrite here_one. split; [done|]. intros (? & ? & ? & Hok & _).
      simplify_eq. apply char_test in Hok. congruence.
Qed.

Lemma matchhere_step fuel : here_ok fuel → star_ok fuel → here_ok (S fuel).
Proof.
  intros IHh IHs re text s a b Ha Hb Hf. destruct re as [|c re].
  { exists true. split; [|split; [intros _; apply here_nil|done]]. cbn [matchhere]. by rewrite (bind_ok _ _ _ _ _ (ustr_nil _ _ Ha)). }
  destruct (ustr_cons _ _ _ _ Ha) as (Hc & Hnz & Ha1). unfold fuel_for in Hf. cbn [length] in Hf.
  pose proof (matchhere_one fuel c re text s (a + 1) b IHh Ha1 Hb ltac:(unfold fuel_for; lia)) as Hone.
  unfold decides. cbn [matchhere]. rewrite (bind_ok _ _ _ _ _ Hc), (proj2 (Z.eqb_neq _ _)) by done.
  rewrite (bind_ok _ _ _ _ _ (ustr_ld _ _ _ Ha1)). destruct re as [|d re].
  - cbn [head default from_option id]. rewrite (proj2 (Z.eqb_neq 0 _)) by done. cbn [parse]. rewrite Z.eqb_refl, andb_true_r.
    destruct (c =? c_dollar); [|exact Hone]. rewrite (bind_ok _ _ _ _ _ (ustr_ld _ _ _ Hb)).
    exists (default 0 (head text) =? 0). split; [done|]. rewrite here_end. destruct text as [|t text]; [done|].
    destruct (ustr_cons _ _ _ _ Hb) as (_ & Htz & _). cbn. split; [by intros ?%Z.eqb_eq|done].
  - destruct (ustr_cons _ _ _ _ Ha1) as (_ & Hdz & Ha2). cbn [head default from_option id length] in *.
    replace (a + 2) with (a + 1 + 1) by lia. destruct (d =? c_star) eqn:Hd.
    + cbn [parse]. rewrite Hd, (surjective_pairing (parse re)). apply IHs; [done..|unfold fuel_for; lia].
    + rewrite (proj2 (Z.eqb_neq d 0)), andb_false_r by done.
      replace (parse (c :: d :: re)) with (One c :: (parse (d :: re)).1, (parse (d :: re)).2); [exact Hone|].
      cbn [parse] in *. rewrite Hd. by destruct (match re with [] => _ | _ => _ end).
Qed.

Lemma matchstar_step fuel : here_ok fuel → star_ok fuel → star_ok (S fuel).
Proof.
  intros IHh IHs c re text s a b Ha Hb Hf. unfold decides. cbn [matchstar].
  destruct (IHh re text s a b Ha Hb ltac:(lia)) as (r & Hr & Hiff). rewrite (bind_ok _ _ _ _ _ Hr).
  rewrite (surjective_pairing (parse re)) in Hiff.
  destruct r; [exists true; split; [done|]; rewrite here_star; naive_solver|]. cbn [Z.b2z]. rewrite truthy_0.
  rewrite (bind_ok _ _ _ _ _ (ustr_ld _ _ _ Hb)).
  destruct text as [|t text]; [exists false; split; [done|]; rewrite here_star; naive_solver|].
  destruct (ustr_cons _ _ _ _ Hb) as (_ & Htz & Hb1). cbn [head default from_option id] in *. unfold fuel_for in Hf. cbn [length] in Hf.
  rewrite (proj2 (Z.eqb_neq _ _)) by done. cbn [negb andb]. destruct ((t =? c) || (c =? c_dot)) eqn:Hct.
  - destruct (IHs c re text s a (b + 1) Ha Hb1) as (r & Hr' & Hiff'); [unfold fuel_for; lia|]. exists r. split; [done|].
    rewrite Hiff'. apply char_test in Hct. rewrite (here_star c _ _ (t :: text)). naive_solver.
  - exists false. split; [done|]. rewrite here_star. split; [done|]. intros [?|(? & ? & ? & Hok & _)]; [naive_solver|].
    simplify_eq. apply char_test in Hok. congruence.
Qed.

Lemma matcher_ok fuel : here_ok fuel ∧ star_ok fuel.
Proof.
  induction fuel as [|fuel [IHh IHs]].
  - split; intros; red; intros; unfold fuel_for in *; lia.
  - split; [by apply matchhere_step|by apply matchstar_step].
Qed.

Lemma match_loop_ok re text : ∀ fuel s a b,
  ustr s a re → ustr s b text → (fuel_for re text ≤ fuel)%nat →
  decides (match_loop fuel a b) s (∃ before rest, text = before ++ rest ∧ here (parse re) rest).
Proof.
  induction text as [|t text IH]; intros fuel s a b Ha Hb Hf; (destruct fuel as [|n]; [unfold fuel_for in Hf; lia|]).
  all: unfold decides; cbn [match_loop].
  all: destruct (proj1 (matcher_ok (S n)) re _ s a b Ha Hb Hf) as (r & Hr & Hiff); rewrite (bind_ok _ _ _ _ _ Hr).
  all: destruct r; [exists true; split; [done|]; split; [|done]; intros _; exists []; naive_solver|].
  all: cbn [Z.b2z]; rewrite truthy_0; rewrite (bind_ok _ _ _ _ _ (ustr_ld _ _ _ Hb)).
  - exists false. split; [done|]. split; [done|]. intros (? & ? & He & ?). symmetry in He. apply app_nil in He as [-> ->]. naive_solver.
  - destruct (ustr_cons _ _ _ _ Hb) as (_ & Htz & Hb1). cbn [head default from_option id]. rewrite (proj2 (Z.eqb_neq _ _)) by done. cbn [negb].
    destruct (IH n s a (b + 1) Ha Hb1) as (r & Hr' & Hiff'); [unfold fuel_for in *; cbn [length] in Hf; lia|].
    exists r. split; [done|]. rewrite Hiff'. split.
    + intros (bf & rest & -> & ?). by exists (t :: bf), rest.
    + intros ([|? bf] & rest & He & ?); simplify_eq/=; [naive_solver|by exists bf, rest].
Qed.

Lemma match_ok re text fuel s a b :
  ustr s a re → ustr s b text → (fuel_for re text ≤ fuel)%nat → decides (match_ fuel a b) s (matches re text).
Proof.
  intros Ha Hb Hf. unfold decides, match_, matches. rewrite (bind_ok _ _ _ _ _ (ustr_ld _ _ _ Ha)).
  destruct re as [|c re]; cbn [head default from_option id].
  - cbn [Z.eqb c_caret]. eapply decides_iff; [|by apply match_loop_ok]. split; [done|]. intros _. exists [], text.
    split; [done|]. apply here_nil.
  - destruct (c =? c_caret); [|by apply match_loop_ok]. destruct (ustr_cons _ _ _ _ Ha) as (_ & _ & Ha1).
    apply matcher_ok; [done..|]. unfold fuel_for in *. cbn [length] in Hf. lia.
Qed.

(** C27: [match] of [grep.c] returns 1 exactly when the pattern describes a part of the text (from
    its start when the pattern begins with a caret, to its end when it ends with a dollar), 0
    otherwise, on any two strings of the process; the recursion and the loops end within a bound
    linear in their lengths, no access leaves the strings, and nothing is changed. *)
Theorem match_decides re text fuel s a b :
  ustr s a re → ustr s b text → (2 * (length re + length text) + 1 ≤ fuel)%nat →
  ∃ r, match_ fuel a b s = Ok r s ∧ (r = 1 ↔ matches re text) ∧ (r = 0 ↔ ¬ matches re text).
Proof.
  intros Ha Hb Hf. destruct (match_ok re text fuel s a b Ha Hb Hf) as ([] & Hr & Hiff); eexists; (split; [exact Hr|]); cbn; naive_solver.
Qed.
End correct.
