(* ===== verification/GrepSpec.v ===== *)
(** What [grep] prints: on input that [read] delivers as a file does, the lines that match. *)

From S2P Require Import Prelude Params Mem Cstring User Grep.

(** The text of complete lines. *)
Definition unlines (ls : list (list Z)) : list Z := concat ((λ l, l ++ [c_newline]) <$> ls).

Lemma unlines_cons l ls : unlines (l :: ls) = l ++ c_newline :: unlines ls.
Proof. unfold unlines. cbn. by rewrite <- app_assoc. Qed.

Lemma unlines_app ls1 ls2 : unlines (ls1 ++ ls2) = unlines ls1 ++ unlines ls2.
Proof. unfold unlines. by rewrite fmap_app, concat_app. Qed.

(** [selected pat ls o]: [o] is the lines of [ls] that match [pat], in their order. *)
Inductive selected (pat : list Z) : list (list Z) → list Z → Prop :=
  | sel_nil : selected pat [] []
  | sel_yes l ls o : matches pat l → selected pat ls o → selected pat (l :: ls) (l ++ c_newline :: o)
  | sel_no l ls o : ¬ matches pat l → selected pat ls o → selected pat (l :: ls) o.

Lemma selected_app pat ls1 ls2 o1 o2 :
  selected pat ls1 o1 → selected pat ls2 o2 → selected pat (ls1 ++ ls2) (o1 ++ o2).
Proof.
  induction 1; intros H2; cbn; [done| |].
  - rewrite <- app_assoc. cbn. constructor; [done|auto].
  - apply sel_no; [done|auto].
Qed.

(** What the program relies on: descriptor [fd] is a file of which [rest] is still to be read and
    [read] delivers as much as was asked for while there is more; what is written to descriptor 1
    is appended to [out]. *)
Record file_reader {W} `{!uenv W} (fd : Z) (rest out : W → list Z) : Prop := {
  fr_read n w : 0 < n →
    ∃ w', sys_read fd n w = (Some (take (Z.to_nat n) (rest w)), w') ∧
      rest w' = drop (Z.to_nat n) (rest w) ∧ out w' = out w;
  fr_write l w :
    ∃ w', sys_write 1 l w = (Z.of_nat (length l), w') ∧ out w' = out w ++ l ∧ rest w' = rest w
}.

Section grep.
Context {W : Type} `{!uenv W} (fd : Z) (rest out : W → list Z) (Hfr : file_reader fd rest out).
Implicit Types (s : ustate W).

Lemma ustr_ext s s' a l :
  ustr s a l → usz s' = usz s → (∀ x, a ≤ x ≤ a + Z.of_nat (length l) → rd8 (umem s') x = rd8 (umem s) x) → ustr s' a l.
Proof.
  intros (Hc & Ha & Hl) Hz Hx. split_and!; [|done|by rewrite Hz]. eapply cstr_ext; [|done]. intros x Hxr. symmetry. by apply Hx.
Qed.

Lemma ustr_split s a l1 l2 : ustr s a (l1 ++ l2) → ustr s (a + Z.of_nat (length l1)) l2 ∧ read_bytes (umem s) a (length l1) = l1.
Proof.
  intros (Hc & Ha & Hl). apply cstr_bytes in Hc as (Hb & Hnz & Ht). rewrite length_app in *.
  rewrite read_bytes_app in Hb. apply app_inj_1 in Hb as [Hb1 Hb2]; [|by rewrite length_read_bytes].
  apply Forall_app in Hnz as [_ Hnz]. split; [|done]. split_and!; [|lia|lia].
  apply cstr_bytes. split_and!; [done..|]. rewrite <- Ht. f_equal. lia.
Qed.

(** Cutting a string at one of its characters. *)
Lemma ustr_cut s a l c t m' :
  ustr s a (l ++ c :: t) → rd8 m' (a + Z.of_nat (length l)) = 0 →
  (∀ x, x ≠ a + Z.of_nat (length l) → rd8 m' x = rd8 (umem s) x) → ustr (set_umem m' s) a l.
Proof.
  intros Hu H0 Hx. pose proof (ustr_split _ _ _ _ Hu) as [_ Hb]. pose proof (ustr_nonzero _ _ _ Hu) as [Hnz _]%Forall_app.
  destruct Hu as (_ & Ha & Hl). rewrite length_app in Hl. split_and!; [|done|cbn in *; lia].
  apply cstr_bytes. split_and!; [|done|done]. cbn. rewrite <- Hb at 2. apply read_bytes_ext. intros. apply Hx. lia.
Qed.

Lemma uwrite_ok a n s :
  0 ≤ n → 0 ≤ a < usz s → a + n ≤ usz s →
  ∃ w, uwrite 1 a n s = Ok n (set_uworld w s) ∧ out w = out (uworld s) ++ read_bytes (umem s) a (Z.to_nat n) ∧ rest w = rest (uworld s).
Proof.
  intros Hn Ha Hb. unfold uwrite. rewrite !(proj2 (Z.leb_le _ _)), (proj2 (Z.ltb_lt _ _)) by lia. cbn [andb].
  destruct (fr_write _ _ _ Hfr (read_bytes (umem s) a (Z.to_nat n)) (uworld s)) as (w & Hw & Ho & Hr).
  exists w. unfold lift_sys. rewrite Hw, length_read_bytes, Z2Nat.id by done. done.
Qed.

(** What the treatment of some lines leaves: the memory outside them, and the output. *)
Definition lines_done (pat : list Z) (ls : list (list Z)) (p : Z) s s' : Prop :=
  usz s' = usz s ∧ rest (uworld s') = rest (uworld s) ∧
  (∀ x, within p (Z.of_nat (length (unlines ls))) x = false → rd8 (umem s') x = rd8 (umem s) x) ∧
  ∃ o, out (uworld s') = out (uworld s) ++ o ∧ selected pat ls o.

(** One line: it is cut, matched, and printed when it matches. *)
Lemma grep_line_ok pat l t fuel pa p s :
  ustr s pa pat → ustr s p (l ++ c_newline :: t) → (fuel_for pat l ≤ fuel)%nat →
  (pa + Z.of_nat (length pat) < p ∨ p + Z.of_nat (length l) < pa) →
  ∃ s', bind (st8 (p + Z.of_nat (length l)) 0) (λ _, bind (match_ fuel pa p) (λ r,
      if truthy r then st8 (p + Z.of_nat (length l)) c_newline;; uwrite 1 p (p + Z.of_nat (length l) + 1 - p);; ret tt else ret tt)) s
      = Ok tt s' ∧ lines_done pat [l] p s s'.
Proof.
  intros Hpat Hu Hf Hd. set (q := p + Z.of_nat (length l)). pose proof Hu as (_ & Hp0 & Hlen).
  rewrite length_app in Hlen. cbn [length] in Hlen.
  rewrite (bind_ok _ _ _ _ _ (st8_ok q 0 s ltac:(lia))). set (s1 := set_umem (wr8 (umem s) q 0) s).
  assert (H1 : ustr s1 p l). { eapply ustr_cut; [exact Hu|by rewrite rd8_wr8_eq|]. intros. apply rd8_wr8_ne. lia. }
  assert (H2 : ustr s1 pa pat). { eapply ustr_ext; [exact Hpat|done|]. intros x Hx. apply rd8_wr8_ne. lia. }
  destruct (match_ok pat l fuel s1 pa p H2 H1 Hf) as ([] & Hr & Hiff); rewrite (bind_ok _ _ _ _ _ Hr); cbn [Z.b2z].
  - rewrite truthy_1. rewrite (bind_ok _ _ _ _ _ (st8_ok q c_newline s1 ltac:(cbn; lia))).
    set (s2 := set_umem _ s1). assert (Hm : ∀ x, rd8 (umem s2) x = rd8 (umem s) x).
    { intros x. cbn. rewrite !rd8_wr8. destruct (Z.eqb_spec q x) as [<-|]; [|done]. unfold q.
      destruct (ustr_split s p l (c_newline :: t) Hu) as [((? & _) & _) _]. done. }
    destruct (uwrite_ok p (q + 1 - p) s2) as (w & Hw & Ho & Hrest); [lia|cbn; lia|cbn; lia|].
    rewrite (bind_ok _ _ _ _ _ Hw). eexists. split; [done|]. split_and!; [done|done|by intros; cbn; rewrite <- Hm|].
    exists (l ++ [c_newline]). split; [|apply sel_yes; [by apply Hiff|constructor]]. cbn [uworld set_uworld]. rewrite Ho. f_equal.
    replace (l ++ c_newline :: t) with ((l ++ [c_newline]) ++ t) in Hu by by rewrite <- app_assoc.
    destruct (ustr_split s p _ _ Hu) as [_ Hb]. rewrite <- Hb at 1. rewrite length_app. cbn [length].
    replace (Z.to_nat (q + 1 - p)) with (length l + 1)%nat by lia. apply read_bytes_ext. intros. apply Hm.
  - rewrite truthy_0. exists s1. split; [done|]. split_and!; [done|done| |].
    + intros x. rewrite unlines_cons, length_app. cbn. within_cases. intros _. apply rd8_wr8_ne. lia.
    + exists []. rewrite app_nil_r. split; [done|]. apply sel_no; [naive_solver|constructor].
Qed.

Lemma lines_done_nil pat p s : lines_done pat [] p s s.
Proof. split_and!; [done..|]. exists []. rewrite app_nil_r. split; [done|constructor]. Qed.

Lemma lines_done_cons pat l ls p s s1 s2 :
  lines_done pat [l] p s s1 → lines_done pat ls (p + Z.of_nat (length l) + 1) s1 s2 → lines_done pat (l :: ls) p s s2.
Proof.
  intros (Hz1 & Hr1 & Hm1 & o1 & Ho1 & Hs1) (Hz2 & Hr2 & Hm2 & o2 & Ho2 & Hs2). split_and!; [congruence..| |].
  - intros x. rewrite !unlines_cons, length_app. cbn [length]. intros Hx. rewrite Hm2, Hm1; [done| |].
    + rewrite unlines_cons, length_app. cbn in *. revert Hx. by within_cases.
    + revert Hx. by within_cases.
  - exists (o1 ++ o2). rewrite Ho2, Ho1, <- app_assoc. split; [done|]. by apply (selected_app pat [l]).
Qed.

Definition clean (l : list Z) : Prop := c_newline ∉ l.

Lemma grep_lines_ok pat lrem fuel pa : ∀ ls n p s,
  0 < p → ustr s pa pat → ustr s p (unlines ls ++ lrem) → Forall clean ls → clean lrem →
  (2 * (length pat + length (unlines ls ++ lrem)) + 1 ≤ fuel)%nat → (length ls < n)%nat →
  (pa + Z.of_nat (length pat) < p ∨ p + Z.of_nat (length (unlines ls ++ lrem)) < pa) →
  ∃ s', grep_lines n fuel pa p s = Ok (p + Z.of_nat (length (unlines ls))) s' ∧ lines_done pat ls p s s'.
Proof.
  induction ls as [|l ls IH]; intros n p s Hp Hpat Hu Hc Hrem Hf Hn Hd; (destruct n as [|n]; cbn [length] in *; [lia|]); cbn [grep_lines].
  - rewrite (bind_ok _ _ _ _ _ (ustrchr_none _ _ fuel s p Hu Hrem ltac:(lia))). exists s. split; [|apply lines_done_nil].
    cbn. by rewrite Z.add_0_r.
  - apply Forall_cons in Hc as [Hl Hc]. rewrite unlines_cons in *. rewrite <- app_assoc in *. cbn [app] in *.
    rewrite length_app in Hf, Hd. cbn [length] in Hf, Hd.
    rewrite (bind_ok _ _ _ _ _ (ustrchr_found _ _ fuel s p _ Hu Hl ltac:(lia))).
    rewrite (proj2 (truthy_true _)) by lia.
    destruct (grep_line_ok pat l (unlines ls ++ lrem) fuel pa p s Hpat Hu) as (s1 & Hrun & Hdone); [unfold fuel_for; lia|lia|].
    pose proof Hdone as (Hz & _ & Hm & _).
    replace (l ++ c_newline :: unlines ls ++ lrem) with ((l ++ [c_newline]) ++ (unlines ls ++ lrem)) in Hu by by rewrite <- app_assoc.
    destruct (ustr_split s p _ _ Hu) as [Hu' _]. rewrite length_app in Hu'. cbn [length] in Hu'.
    replace (p + Z.of_nat (length l + 1)) with (p + Z.of_nat (length l) + 1) in Hu' by lia.
    assert (Hw : ∀ x, x < p ∨ p + Z.of_nat (length l) < x → within p (Z.of_nat (length (unlines [l]))) x = false).
    { intros x. rewrite unlines_cons, length_app. cbn. by within_cases. }
    destruct (IH n (p + Z.of_nat (length l) + 1) s1) as (s2 & Hrun2 & Hdone2); [lia| | |done..|lia|lia|lia|].
    { eapply ustr_ext; [exact Hpat|done|]. intros x Hx. apply Hm, Hw. lia. }
    { eapply ustr_ext; [exact Hu'|done|]. intros x Hx. apply Hm, Hw. lia. }
    exists s2. split; [|by eapply lines_done_cons]. rewrite length_app. cbn [length].
    replace (p + Z.of_nat (length l + S (length (unlines ls)))) with (p + Z.of_nat (length l) + 1 + Z.of_nat (length (unlines ls))) by lia.
    rewrite <- Hrun2. revert Hrun. unfold bind. destruct (st8 _ _ s) as [? s3|]; [|done].
    destruct (match_ fuel pa p s3) as [r s4|]; [|done]. by intros ->.
Qed.

(** ** Cutting the input where the reads do *)

(** A prefix of the text holds some of its lines and the beginning of what follows. *)
Lemma cut_lines ls lrem : ∀ b t,
  b ++ t = unlines ls ++ lrem → Forall clean ls → clean lrem →
  ∃ ls1 ls2 c, ls = ls1 ++ ls2 ∧ b = unlines ls1 ++ c ∧ clean c ∧ c ++ t = unlines ls2 ++ lrem.
Proof.
  induction ls as [|l ls IH]; intros b t Hbt Hls Hrem.
  - exists [], [], b. split_and!; [done|done| |done]. cbn in Hbt. subst lrem. intros ?. apply Hrem, elem_of_app. by left.
  - apply Forall_cons in Hls as [Hl Hls]. rewrite unlines_cons, <- app_assoc in Hbt. cbn [app] in Hbt.
    apply app_eq_inv in Hbt as [(k & -> & Hk)|(k & Hlk & ->)].
    + destruct k as [|x k]; cbn in Hk.
      * exists [], (l :: ls), l. rewrite app_nil_r. split_and!; [done..|]. by rewrite unlines_cons, <- app_assoc, <- Hk.
      * injection Hk as <- Hk. destruct (IH k t) as (ls1 & ls2 & c & -> & -> & Hc & Hct); [done..|].
        exists (l :: ls1), ls2, c. rewrite unlines_cons, <- app_assoc. done.
    + exists [], (l :: ls), b. split_and!; [done|done| |].
      * intros Hb. apply Hl. rewrite Hlk. apply elem_of_app. by left.
      * rewrite unlines_cons, Hlk, <- !app_assoc. done.
Qed.

(** The buffer that a read leaves: what was kept of the last one, and the new bytes. *)
Definition in_buffer (buf : Z) s (b : list Z) : Prop :=
  read_bytes (umem s) buf (length b) = b ∧ (length b ≤ 1023)%nat.

Lemma uread_ok buf b s :
  0 < buf → buf + 1024 ≤ usz s → in_buffer buf s b → (length b < 1023)%nat →
  Forall (λ x, 0 ≤ x < 256) (rest (uworld s)) →
  let l := take (1023 - length b) (rest (uworld s)) in
  ∃ s', uread fd (buf + Z.of_nat (length b)) (1024 - Z.of_nat (length b) - 1) s = Ok (Z.of_nat (length l)) s' ∧
    in_buffer buf s' (b ++ l) ∧ usz s' = usz s ∧ out (uworld s') = out (uworld s) ∧
    rest (uworld s') = drop (1023 - length b) (rest (uworld s)) ∧
    ∀ x, x < buf ∨ buf + 1023 ≤ x → rd8 (umem s') x = rd8 (umem s) x.
Proof.
  intros Hbuf Hsz [Hb Hle] Hlt Hbytes l. unfold uread.
  rewrite !(proj2 (Z.leb_le _ _)), (proj2 (Z.ltb_lt _ _)) by lia. cbn [andb].
  destruct (fr_read _ _ _ Hfr (1024 - Z.of_nat (length b) - 1) (uworld s)) as (w & Hw & Hr & Ho); [lia|].
  replace (Z.to_nat (1024 - Z.of_nat (length b) - 1)) with (1023 - length b)%nat in * by lia. rewrite Hw.
  assert (Hl : (length l ≤ 1023 - length b)%nat) by (unfold l; rewrite length_take; lia).
  eexists. split; [done|]. cbn. split_and!; [split|done..|].
  - cbn. rewrite length_app, read_bytes_app. f_equal.
    + etrans; [|exact Hb]. apply read_bytes_ext. intros i Hi. rewrite rd8_write_bytes. by within_cases.
    + apply read_write_bytes. by apply Forall_take.
  - rewrite length_app. lia.
  - intros x Hx. rewrite rd8_write_bytes. fold l. destruct (within_spec (buf + Z.of_nat (length b)) (Z.of_nat (length l)) x); [lia|done].
Qed.

(** Moving what is left to the start of the buffer. *)
Lemma keep_ok buf s pre c :
  0 < buf → buf + 1024 ≤ usz s → (length (pre ++ c) ≤ 1023)%nat →
  read_bytes (umem s) (buf + Z.of_nat (length pre)) (length c) = c →
  let n := Z.of_nat (length c) in
  ∃ s', umemmove buf (buf + Z.of_nat (length pre)) n s = Ok tt s' ∧
    in_buffer buf s' c ∧ usz s' = usz s ∧ uworld s' = uworld s ∧
    ∀ x, x < buf ∨ buf + 1023 ≤ x → rd8 (umem s') x = rd8 (umem s) x.
Proof.
  intros Hbuf Hsz Hle Hc n. rewrite length_app in Hle. rewrite umemmove_ok by (unfold n; lia). eexists. split; [done|].
  unfold n. rewrite Nat2Z.id. split_and!; [split; [|lia]|done|done|].
  - etrans; [|exact Hc]. apply list_eq. intros i. destruct (decide (i < length c)%nat) as [Hi|Hi].
    + rewrite !lookup_read_bytes by done. cbn. rewrite rd8_copy_up by lia. within_cases. do 2 f_equal. lia.
    + rewrite !lookup_ge_None_2; rewrite ?length_read_bytes; [done|lia..].
  - intros x Hx. cbn. rewrite rd8_copy_up by lia. by within_cases.
Qed.

Lemma unlines_dirty l ls : ¬ clean (unlines (l :: ls)).
Proof. intros Hc. apply Hc. rewrite unlines_cons. set_solver. Qed.

Lemma length_unlines ls : (length ls ≤ length (unlines ls))%nat.
Proof. induction ls as [|l ls IH]; [done|]. rewrite unlines_cons, length_app. cbn [length]. lia. Qed.

(** The state between two reads: [c] is kept in the buffer, and with what is still to be read it
    is the lines [ls] and an incomplete line. *)
Record between (buf pa : Z) (pat c : list Z) (ls : list (list Z)) (lrem : list Z) s : Prop := {
  bt_pat : ustr s pa pat;
  bt_size : buf + 1024 ≤ usz s;
  bt_buf : in_buffer buf s c;
  bt_len : (length c < 1023)%nat;
  bt_clean : clean c;
  bt_text : c ++ rest (uworld s) = unlines ls ++ lrem;
  bt_lines : Forall (λ l, clean l ∧ (length l < 1023)%nat) ls;
  bt_rem : clean lrem;
  bt_bytes : Forall (λ x, 0 < x < 256) (c ++ rest (uworld s))
}.

(** A buffer without a complete line, when a read has not reached the end: all that is left is one
    long incomplete line. *)
Lemma no_line buf pa pat c ls2 lrem s :
  between buf pa pat c ls2 lrem s → clean (c ++ take (1023 - length c) (rest (uworld s))) → ls2 = [].
Proof.
  intros [_ _ _ Hlen _ Htext Hls _ _] Hc. destruct ls2 as [|l ls]; [done|exfalso].
  apply Forall_cons in Hls as [[_ Hl] _]. rewrite unlines_cons, <- app_assoc in Htext. cbn [app] in Htext.
  apply Hc. apply list_elem_of_lookup. exists (length l).
  assert (Hx : (c ++ rest (uworld s)) !! length l = Some c_newline) by (rewrite Htext; by apply list_lookup_middle).
  destruct (decide (length l < length c)%nat) as [Hlt|Hge].
  - rewrite lookup_app_l in Hx by done. by rewrite lookup_app_l.
  - rewrite lookup_app_r in Hx by lia. rewrite lookup_app_r by lia. rewrite lookup_take_lt by lia. done.
Qed.

(** The lines in the buffer are handled; [c'] is what is not yet a line. *)
Lemma grep_buffer fuel buf pa pat b ls1 c' s :
  0 < buf → buf + 1024 ≤ usz s → ustr s pa pat → (pa + Z.of_nat (length pat) < buf ∨ buf + 1024 ≤ pa) →
  in_buffer buf s b → Forall (λ x, 0 < x < 256) b → b = unlines ls1 ++ c' → Forall clean ls1 → clean c' →
  (2 * (length pat + 1024) ≤ fuel)%nat →
  ∃ s', bind (st8 (buf + Z.of_nat (length b)) 0) (λ _, grep_lines fuel fuel pa buf) s = Ok (buf + Z.of_nat (length (unlines ls1))) s' ∧
    usz s' = usz s ∧ rest (uworld s') = rest (uworld s) ∧ ustr s' pa pat ∧
    read_bytes (umem s') (buf + Z.of_nat (length (unlines ls1))) (length c') = c' ∧
    ∃ o, out (uworld s') = out (uworld s) ++ o ∧ selected pat ls1 o.
Proof.
  intros Hbuf Hsz Hpat Hd [Hb Hle] Hbytes Hbeq Hls Hc Hf.
  rewrite (bind_ok _ _ _ _ _ (st8_ok (buf + Z.of_nat (length b)) 0 s ltac:(lia))). set (s1 := set_umem _ s).
  assert (Hu : ustr s1 buf b).
  { split_and!; [|lia|cbn; lia]. apply cstr_bytes. split_and!.
    - etrans; [|exact Hb]. apply read_bytes_ext. intros. apply rd8_wr8_ne. lia.
    - eapply Forall_impl; [exact Hbytes|]. cbn. lia.
    - cbn. by rewrite rd8_wr8_eq. }
  assert (Hp1 : ustr s1 pa pat). { eapply ustr_ext; [exact Hpat|done|]. intros. apply rd8_wr8_ne. lia. }
  rewrite Hbeq in Hu. rewrite Hbeq in Hle. pose proof (length_unlines ls1). rewrite length_app in Hle.
  destruct (grep_lines_ok pat c' fuel pa ls1 fuel buf s1 Hbuf Hp1 Hu Hls Hc) as (s2 & Hrun & Hz & Hr & Hm & o & Ho & Hsel);
    rewrite ?length_app; [lia..|].
  exists s2. split_and!; [done|done|done| | |by exists o].
  - eapply ustr_ext; [exact Hp1|done|]. intros x Hx. apply Hm. destruct (within_spec buf (Z.of_nat (length (unlines ls1))) x); [lia|done].
  - destruct (ustr_split _ _ _ _ Hu) as [[Hcs _] _]. apply cstr_bytes in Hcs as (Hcs & _). etrans; [|exact Hcs].
    apply read_bytes_ext. intros x Hx. apply Hm. destruct (within_spec buf (Z.of_nat (length (unlines ls1))) x); [lia|done].
Qed.

(** The end of a turn: what is not yet a line moves to the start of the buffer. *)
Lemma grep_keep {B} (f : Z → U B) buf ls1 c' (b : list Z) s :
  0 < buf → buf + 1024 ≤ usz s → b = unlines ls1 ++ c' → (length b ≤ 1023)%nat → ls1 ≠ [] →
  read_bytes (umem s) (buf + Z.of_nat (length (unlines ls1))) (length c') = c' →
  ∃ s', bind (let m := if buf + Z.of_nat (length (unlines ls1)) =? buf then 0 else Z.of_nat (length b) in
          if 0 <? m then
            let m := m - (buf + Z.of_nat (length (unlines ls1)) - buf) in
            umemmove buf (buf + Z.of_nat (length (unlines ls1))) m;; ret m
          else ret m) f s = f (Z.of_nat (length c')) s' ∧
    in_buffer buf s' c' ∧ usz s' = usz s ∧ uworld s' = uworld s ∧
    ∀ x, x < buf ∨ buf + 1023 ≤ x → rd8 (umem s') x = rd8 (umem s) x.
Proof.
  intros Hbuf Hsz Hb Hle Hls Hc. pose proof (length_unlines ls1) as Hpos. destruct ls1 as [|l0 ls1]; [done|]. cbn [length] in Hpos.
  assert (Hlen : length b = (length (unlines (l0 :: ls1)) + length c')%nat) by by rewrite Hb, length_app.
  destruct (keep_ok buf s (unlines (l0 :: ls1)) c' Hbuf Hsz) as (s' & Hrun & Hs'); [rewrite <- Hb; lia|done|].
  cbv zeta. rewrite (proj2 (Z.eqb_neq _ _)), (proj2 (Z.ltb_lt 0 _)) by lia.
  replace (Z.of_nat (length b) - (buf + Z.of_nat (length (unlines (l0 :: ls1))) - buf)) with (Z.of_nat (length c')) by lia.
  exists s'. split; [|done]. rewrite bind_assoc, (bind_ok _ _ _ _ _ Hrun). done.
Qed.

(** One turn of the loop, when the read delivers something. *)
Lemma grep_round n fuel buf pa pat c ls lrem s :
  0 < buf → (pa + Z.of_nat (length pat) < buf ∨ buf + 1024 ≤ pa) → (2 * (length pat + 1024) ≤ fuel)%nat →
  between buf pa pat c ls lrem s → rest (uworld s) ≠ [] →
  ∃ s' c' ls1 ls2 lrem' o,
    grep_loop (S n) fuel buf pa fd (Z.of_nat (length c)) s = grep_loop n fuel buf pa fd (Z.of_nat (length c')) s' ∧
    between buf pa pat c' ls2 lrem' s' ∧ ls = ls1 ++ ls2 ∧ selected pat ls1 o ∧
    out (uworld s') = out (uworld s) ++ o ∧ (length (rest (uworld s')) < length (rest (uworld s)))%nat.
Proof.
  intros Hbuf Hd Hf Hbt Hne. pose proof Hbt as [Hpat Hsz Hib Hlen Hcl Htext Hls Hrem Hbytes].
  set (l := take (1023 - length c) (rest (uworld s))). set (t := drop (1023 - length c) (rest (uworld s))).
  assert (Hlt : rest (uworld s) = l ++ t) by (unfold l, t; by rewrite take_drop).
  assert (Hl0 : (0 < length l)%nat). { unfold l. rewrite length_take. destruct (rest (uworld s)); [done|]. cbn [length]. lia. }
  destruct (uread_ok buf c s Hbuf Hsz Hib Hlen) as (s1 & Hrd & Hib1 & Hz1 & Ho1 & Hr1 & Hm1).
  { apply Forall_app in Hbytes as [_ Hbytes]. eapply Forall_impl; [exact Hbytes|]. cbn. lia. }
  fold l in Hrd, Hib1. fold t in Hr1. rewrite Hlt, app_assoc in Htext, Hbytes.
  destruct (cut_lines ls lrem (c ++ l) t Htext) as (ls1 & ls2 & c' & -> & Hb & Hcc & Hct); [by eapply Forall_impl; [exact Hls|tauto]|done|].
  assert (Hp1 : ustr s1 pa pat). { eapply ustr_ext; [exact Hpat|done|]. intros. apply Hm1. lia. }
  pose proof (proj1 (Forall_app _ _ _) Hls) as [Hls1 Hls2]. pose proof (proj1 (Forall_app _ _ _) Hbytes) as [Hbb Hbt'].
  destruct (grep_buffer fuel buf pa pat (c ++ l) ls1 c' s1) as (s2 & Hrun & Hz2 & Hr2 & Hp2 & Hc2 & o & Ho2 & Hsel);
    [done|lia|done..|by eapply Forall_impl; [exact Hls1|tauto]|done|done|].
  cbn [grep_loop]. rewrite (bind_ok _ _ _ _ _ Hrd), (proj2 (Z.ltb_lt 0 _)) by lia.
  replace (Z.of_nat (length c) + Z.of_nat (length l)) with (Z.of_nat (length (c ++ l))) by (rewrite length_app; lia).
  rewrite (seq2_ok _ _ _ _ _ _ Hrun). assert (Hshort : (length t < length (rest (uworld s)))%nat) by (rewrite Hlt, length_app; lia).
  destruct (decide (ls1 = [])) as [->|Hls0].
  - exists s2, [], [], ls2, t, o. assert (ls2 = []) as -> by (eapply no_line; [exact Hbt|]; fold l; by rewrite Hb).
    cbn [unlines fmap concat length]. rewrite Z.add_0_r, Z.eqb_refl. cbn in Hct.
    split_and!; [done| |done|done|congruence|by rewrite Hr2, Hr1]. split; [done|lia|split; [done|cbn; lia]|cbn; lia|apply not_elem_of_nil| |done| |].
    + by rewrite Hr2, Hr1.
    + subst lrem. intros ?. apply Hrem, elem_of_app. by right.
    + by rewrite Hr2, Hr1.
  - destruct (grep_keep (grep_loop n fuel buf pa fd) buf ls1 c' (c ++ l) s2) as (s3 & Hrun3 & Hib3 & Hz3 & Hw3 & Hm3); [done|lia|done|apply Hib1|done|done|].
    exists s3, c', ls1, ls2, lrem, o. rewrite Hw3, Hr2, Hr1. split_and!; [exact Hrun3| |done|done|congruence|done].
    assert (Hc1 : (length c' < 1023)%nat). { pose proof (proj2 Hib1) as Hl1. rewrite Hb, length_app in Hl1. pose proof (length_unlines ls1). destruct ls1; [done|]. cbn [length] in *. lia. }
    split; [|lia|done|done|done|by rewrite Hw3, Hr2, Hr1|done|done|].
    + eapply ustr_ext; [exact Hp2|done|]. intros. apply Hm3. lia.
    + rewrite Hw3, Hr2, Hr1. rewrite Hb in Hbb. apply Forall_app in Hbb as [_ Hbb]. by apply Forall_app.
Qed.

Lemma grep_loop_ok fuel buf pa pat : ∀ n c ls lrem s,
  0 < buf → (pa + Z.of_nat (length pat) < buf ∨ buf + 1024 ≤ pa) → (2 * (length pat + 1024) ≤ fuel)%nat →
  between buf pa pat c ls lrem s → (length (rest (uworld s)) < n)%nat →
  ∃ s' o, grep_loop n fuel buf pa fd (Z.of_nat (length c)) s = Ok tt s' ∧
    out (uworld s') = out (uworld s) ++ o ∧ selected pat ls o.
Proof.
  induction n as [|n IH]; intros c ls lrem s Hbuf Hd Hf Hbt Hn; [lia|].
  destruct (decide (rest (uworld s) = [])) as [He|He].
  - destruct Hbt as [Hpat Hsz Hib Hlen Hcl Htext Hls Hrem Hbytes].
    destruct (uread_ok buf c s Hbuf Hsz Hib Hlen) as (s1 & Hrd & _ & _ & Ho1 & _ & _); [by rewrite He|].
    cbn [grep_loop]. rewrite (bind_ok _ _ _ _ _ Hrd), He, take_nil. cbn. exists s1, []. rewrite app_nil_r. split_and!; [done..|].
    destruct ls as [|l ls]; [constructor|]. rewrite He, app_nil_r in Htext. rewrite Htext in Hcl. destruct (unlines_dirty l ls).
    intros Hx. apply Hcl, elem_of_app. by left.
  - destruct (grep_round n fuel buf pa pat c ls lrem s Hbuf Hd Hf Hbt He) as (s1 & c' & ls1 & ls2 & lrem' & o1 & Hrun & Hbt' & -> & Hs1 & Ho1 & Hr1).
    destruct (IH c' ls2 lrem' s1 Hbuf Hd Hf Hbt') as (s' & o & Hrun' & Ho & Hs); [lia|].
    exists s', (o1 ++ o). rewrite Hrun, Hrun', Ho, Ho1, app_assoc. split_and!; [done..|by apply selected_app].
Qed.

(** C26: [grep] on a file prints exactly the complete lines that match the pattern, whole and in
    their order, and returns at the end of the file: whatever the reads of at most 1023 bytes cut,
    provided no line is longer than the buffer and the text has no NUL. *)
Theorem grep_prints_matches fuel buf pa pat ls lrem s :
  0 < buf → buf + 1024 ≤ usz s → ustr s pa pat → (pa + Z.of_nat (length pat) < buf ∨ buf + 1024 ≤ pa) →
  rest (uworld s) = unlines ls ++ lrem → Forall (λ l, clean l ∧ (length l < 1023)%nat) ls → clean lrem →
  Forall (λ x, 0 < x < 256) (rest (uworld s)) →
  (2 * (length pat + 1024) ≤ fuel)%nat → (length (rest (uworld s)) < fuel)%nat →
  ∃ s' o, grep fuel buf pa fd s = Ok tt s' ∧ out (uworld s') = out (uworld s) ++ o ∧ selected pat ls o.
Proof.
  intros Hbuf Hsz Hpat Hd Htext Hls Hrem Hbytes Hf Hn.
  apply (grep_loop_ok fuel buf pa pat fuel [] ls lrem s Hbuf Hd Hf); [|done].
  split; [done|done|split; [done|cbn; lia]|cbn; lia|apply not_elem_of_nil|done|done|done|done].
Qed.
End grep.

(** ** A process with a file open *)

(** The world: what is still to be read, and what was written. *)
#[local] Instance text_env : uenv (list Z * list Z) := {|
  sys_read _ n w := (Some (take (Z.to_nat n) w.1), (drop (Z.to_nat n) w.1, w.2));
  sys_write _ l w := (Z.of_nat (length l), (w.1, w.2 ++ l));
  sys_open _ _ w := (-1, w);
  sys_close _ w := (0, w);
  sys_sbrk _ w := (false, w)
|}.

Lemma text_reader : file_reader 3 (fst : list Z * list Z → _) snd.
Proof. split; [intros n w Hn|intros l w]; eexists; done. Qed.

(** The pattern ^a*c at 100, and an input of two lines and an incomplete one. *)
Definition grep_pattern : list Z := [94; 97; 42; 99].
Definition grep_state : ustate (list Z * list Z) :=
  mkUstate (write_bytes ∅ 100 grep_pattern) 8192 ([98; 99; 10; 97; 97; 99; 10; 99], []).

Lemma grep_pattern_at : ustr grep_state 100 grep_pattern.
Proof. by vm_compute. Qed.

Lemma match_decides_witness : ∃ r, match_ 17 100 100 grep_state = Ok r grep_state ∧
  (r = 1 ↔ matches grep_pattern grep_pattern) ∧ (r = 0 ↔ ¬ matches grep_pattern grep_pattern).
Proof. apply (match_decides grep_pattern grep_pattern 17); [by vm_compute..|cbn; lia]. Defined.

Lemma grep_prints_matches_witness :
  ∃ s' o, grep 3000 4096 100 3 grep_state = Ok tt s' ∧ snd (uworld s') = snd (uworld grep_state) ++ o ∧
    selected grep_pattern [[98; 99]; [97; 97; 99]] o.
Proof.
  apply (grep_prints_matches 3 fst snd text_reader 3000 4096 100 grep_pattern [[98; 99]; [97; 97; 99]] [99] grep_state).
  - lia.
  - cbn. lia.
  - apply grep_pattern_at.
  - cbn. lia.
  - done.
  - repeat constructor; cbn; unfold clean, c_newline; set_solver || lia.
  - unfold clean, c_newline. set_solver.
  - cbn. repeat constructor; lia.
  - cbn. lia.
  - cbn. lia.
Defined.

(** ** Input that arrives in pieces *)

(** The world of a reader of a pipe or of the console: the pieces still to come. *)
#[local] Instance piece_env : uenv (list (list Z) * list Z) := {|
  sys_read _ n w := (Some (take (Z.to_nat n) (default [] (head w.1))), (tail w.1, w.2));
  sys_write _ l w := (Z.of_nat (length l), (w.1, w.2 ++ l));
  sys_open _ _ w := (-1, w);
  sys_close _ w := (0, w);
  sys_sbrk _ w := (false, w)
|}.

(** The line "aac" matches the pattern "a"; when it arrives as "aa" and "c" with its newline, the
    first piece, which completes no line, is dropped, and nothing is printed. *)
Theorem grep_drops_pieces :
  ∃ s', grep 3000 4096 100 0 (mkUstate (write_bytes ∅ 100 [97]) 8192 ([[97; 97]; [99; 10]], [])) = Ok tt s' ∧
    (uworld s').2 = [] ∧ matches [97] [97; 97; 99].
Proof.
  eexists. split; [vm_compute; reflexivity|]. split; [done|]. exists [], [97; 97; 99]. split; [done|].
  exists [97], [97; 99]. split_and!; [done| |done]. constructor; [by right|constructor].
Qed.
