(* ===== verification/Printf.v ===== *)
(** [printf.c]: what [printf] writes is what its format describes, and [atoi] of [ulib.c] reads a
    printed number back. *)

From S2P Require Import Prelude Params Mem Cstring User.

Definition digits : list Z := [48; 49; 50; 51; 52; 53; 54; 55; 56; 57; 65; 66; 67; 68; 69; 70].

Section printf.
Context {W : Type} `{!uenv W}.
Implicit Types (s : ustate W).

Definition or_bounds {A} (o : option A) : U (W := W) A :=
  match o with Some x => ret x | None => fail Ubounds end.

Definition putc (fd c : Z) : U (W := W) unit := lift_sys (sys_write fd [u8 c]);; ret tt.

(** [do { buf[i++] = digits[x % base]; } while((x /= base) != 0)] *)
Fixpoint digit_loop (fuel : nat) (buf : list Z) (i x base : Z) : U (W := W) (list Z * Z) :=
  match fuel with
  | O => fail Ufuel
  | S fuel =>
      c ← or_bounds (aget digits (x mod base));
      buf ← or_bounds (aset buf i c);
      if truthy (x / base) then digit_loop fuel buf (i + 1) (x / base) base else ret (buf, i + 1)
  end.

(** [while(--i >= 0) putc(fd, buf[i])], with [n] characters in the buffer *)
Fixpoint put_back (fd : Z) (buf : list Z) (n : nat) : U (W := W) unit :=
  match n with
  | O => ret tt
  | S n => c ← or_bounds (aget buf (Z.of_nat n)); putc fd c;; put_back fd buf n
  end.

(** The digits take at most 32 turns; [buf] has 16 places. *)
Definition uprintint (fd xx base : Z) (sgn : bool) : U (W := W) unit :=
  let neg := sgn && (xx <? 0) in
  let x := if neg then u32 (- xx) else u32 xx in
  ' (buf, i) ← digit_loop 32 (replicate 16 0) 0 x base;
  ' (buf, i) ← (if neg then buf ← or_bounds (aset buf i 45); ret (buf, i + 1) else ret (buf, i));
  put_back fd buf (Z.to_nat i).

(** The characters of a string, one by one. *)
Fixpoint put_str (fuel : nat) (fd a : Z) : U (W := W) unit :=
  match fuel with
  | O => fail Ufuel
  | S fuel => c ← ld8 a; if truthy c then putc fd c;; put_str fuel fd (a + 1) else ret tt
  end.

(** What follows a percent sign, with the next argument at [ap]; the argument after it. The literal
    "(null)" is at [null]. *)
Definition directive (fuel : nat) (null fd c ap : Z) : U (W := W) Z :=
  if c =? 100 (* d *) then
    x ← ld32 ap; uprintint fd (s32 x) 10 true;; ret (ap + 4)
  else if (c =? 120) || (c =? 112) (* x, p *) then
    x ← ld32 ap; uprintint fd (s32 x) 16 false;; ret (ap + 4)
  else if c =? 115 (* s *) then
    a ← ld32 ap; put_str fuel fd (if a =? 0 then null else a);; ret (ap + 4)
  else if c =? 99 (* c *) then
    x ← ld32 ap; putc fd x;; ret (ap + 4)
  else if c =? 37 then putc fd c;; ret ap
  else putc fd 37;; putc fd c;; ret ap.

(** The loop over the format at [fmt]; [state] is [true] after a percent sign. *)
Fixpoint printf_loop (n fuel : nat) (null fd fmt ap : Z) (state : bool) : U (W := W) unit :=
  match n with
  | O => fail Ufuel
  | S n =>
      c ← ld8 fmt;
      if c =? 0 then ret tt
      else if negb state then
        if c =? 37 then printf_loop n fuel null fd (fmt + 1) ap true
        else putc fd c;; printf_loop n fuel null fd (fmt + 1) ap false
      else
        ap ← directive fuel null fd c ap;
        printf_loop n fuel null fd (fmt + 1) ap false
  end.

Definition printf (fuel : nat) (null fd fmt ap : Z) : U (W := W) unit := printf_loop fuel fuel null fd fmt ap false.
End printf.

(** ** The specification *)

(** The numerals 0 to 9, then the letters A to F. *)
Definition digit (d : Z) : Z := if d <? 10 then 48 + d else 65 + (d - 10).

(** The digits of [x], most significant first. *)
Fixpoint numeral (fuel : nat) (base x : Z) : list Z :=
  match fuel with
  | O => []
  | S fuel => (if x <? base then [] else numeral fuel base (x / base)) ++ [digit (x mod base)]
  end.

Definition signed_numeral (v : Z) : list Z :=
  if v <? 0 then 45 :: numeral 32 10 (- v) else numeral 32 10 v.

(** An argument: a word, or the address of a string and its characters. *)
Inductive uarg :=
  | Aword (v : Z)
  | Astr (a : Z) (l : list Z).

(** What a format prints with some arguments; [None] when the arguments do not fit. *)
Fixpoint render (fmt : list Z) (args : list uarg) : option (list Z) :=
  match fmt with
  | [] => Some []
  | c :: fmt1 =>
      if c =? 37 then
        match fmt1 with
        | [] => Some []
        | d :: fmt =>
            if d =? 100 then
              match args with Aword v :: args => app (signed_numeral (s32 v)) <$> render fmt args | _ => None end
            else if (d =? 120) || (d =? 112) then
              match args with Aword v :: args => app (numeral 32 16 (u32 v)) <$> render fmt args | _ => None end
            else if d =? 115 then
              match args with Astr _ l :: args => app l <$> render fmt args | _ => None end
            else if d =? 99 then
              match args with Aword v :: args => (cons (u8 v)) <$> render fmt args | _ => None end
            else if d =? 37 then (cons 37) <$> render fmt args
            else (λ l, 37 :: d :: l) <$> render fmt args
        end
      else (cons c) <$> render fmt1 args
  end.

(** What the program relies on: what is written to [fd] is appended to [out]. *)
Definition appends {W} `{!uenv W} (fd : Z) (out : W → list Z) : Prop :=
  ∀ l w, ∃ w', sys_write fd l w = (Z.of_nat (length l), w') ∧ out w' = out w ++ l.

Section correct.
Context {W : Type} `{!uenv W} (fd : Z) (out : W → list Z) (Hout : appends fd out).
Implicit Types (s : ustate W).

(** [m] writes [l] and changes nothing of the process. *)
Definition prints {A} (m : U A) (a : A) s (l : list Z) : Prop :=
  ∃ w, m s = Ok a (set_uworld w s) ∧ out w = out (uworld s) ++ l.

Lemma prints_ret {A} (a : A) s : prints (ret a) a s [].
Proof. exists (uworld s). rewrite app_nil_r. by destruct s. Qed.

Lemma prints_bind {A B} (m : U A) (f : A → U B) a b s l1 l2 :
  prints m a s l1 → (∀ w, prints (f a) b (set_uworld w s) l2) → prints (bind m f) b s (l1 ++ l2).
Proof.
  intros (w & Hm & Ho) Hf. destruct (Hf w) as (w' & Hf' & Ho'). exists w'. rewrite (bind_ok _ _ _ _ _ Hm), Hf'.
  cbn in *. by rewrite Ho', Ho, app_assoc.
Qed.

(** A step that only reads. *)
Lemma prints_pure {A B} (m : U A) (f : A → U B) a b s l : m s = Ok a s → prints (f a) b s l → prints (bind m f) b s l.
Proof. intros Hm (w & Hf & Ho). exists w. by rewrite (bind_ok _ _ _ _ _ Hm). Qed.

Lemma putc_ok c s : prints (putc fd c) tt s [u8 c].
Proof.
  destruct (Hout [u8 c] (uworld s)) as (w & Hw & Ho). exists w. unfold putc, lift_sys. cbn. by rewrite Hw.
Qed.

Lemma put_back_ok buf n s :
  (n ≤ length buf)%nat → Forall (λ c, 0 ≤ c < 256) buf → prints (put_back fd buf n) tt s (reverse (take n buf)).
Proof.
  revert s. induction n as [|n IH]; intros s Hn Hb; cbn [put_back]; [apply prints_ret|].
  destruct (lookup_lt_is_Some_2 buf n) as [c Hc]; [lia|].
  rewrite (take_S_r _ _ _ Hc), reverse_app. eapply prints_pure; [by rewrite aget_nat, Hc|].
  eapply prints_bind; [|intros w; apply IH; [lia|done]].
  pose proof (putc_ok c s) as Hput. rewrite u8_small in Hput by by eapply (Forall_lookup_1 _ _ _ _ Hb). exact Hput.
Qed.

(** ** Numerals *)
Lemma numeral_length base x n : 1 < base → 0 ≤ x < base ^ Z.of_nat n → ∀ fuel, (length (numeral fuel base x) ≤ Nat.max 1 n)%nat.
Proof.
  intros Hb. revert x. induction n as [|n IH]; intros x Hx [|fuel]; cbn [numeral]; try (cbn [length]; lia); rewrite length_app; cbn [length].
  - rewrite (proj2 (Z.ltb_lt _ _)); [cbn; lia|]. change (base ^ Z.of_nat 0) with 1 in Hx. lia.
  - destruct (Z.ltb_spec x base) as [|Hge]; [cbn; lia|]. rewrite Nat2Z.inj_succ, Z.pow_succ_r in Hx by lia.
    assert (Hdiv : 0 ≤ x / base < base ^ Z.of_nat n) by (split; [apply Z.div_pos; lia|apply Z.div_lt_upper_bound; lia]).
    destruct n as [|n]; [change (base ^ Z.of_nat 0) with 1 in Hx; nia|].
    specialize (IH (x / base) Hdiv fuel). lia.
Qed.

Lemma digit_ok base x : 1 < base ≤ 16 → aget digits (x mod base) = Some (digit (x mod base)) ∧ 0 ≤ digit (x mod base) < 256.
Proof.
  intros Hb. assert (Hx : 0 ≤ x mod base < 16) by (pose proof (Z.mod_pos_bound x base); lia).
  revert Hx. generalize (x mod base). intros y Hy. split; [|unfold digit; destruct (y <? 10); lia].
  assert (y ∈ seqZ 0 16) as Hin by (apply elem_of_seqZ; lia).
  assert (Hall : Forall (λ y, aget digits y = Some (digit y)) (seqZ 0 16)) by (repeat constructor). by apply (proj1 (Forall_forall _ _) Hall).
Qed.

Lemma digit_loop_ok base : 1 < base ≤ 16 → ∀ fuel x buf (i : nat) s,
  0 ≤ x < base ^ Z.of_nat fuel → length buf = 16%nat → Forall (λ c, 0 ≤ c < 256) buf →
  (i + length (numeral fuel base x) ≤ 16)%nat → (0 < fuel)%nat →
  ∃ buf', digit_loop fuel buf (Z.of_nat i) x base s = Ok (buf', Z.of_nat (i + length (numeral fuel base x))) s ∧
    length buf' = 16%nat ∧ Forall (λ c, 0 ≤ c < 256) buf' ∧
    take (i + length (numeral fuel base x)) buf' = take i buf ++ reverse (numeral fuel base x).
Proof.
  intros Hb. induction fuel as [|fuel IH]; intros x buf i s Hx Hl Hbuf Hi Hf; [lia|]. cbn [digit_loop numeral] in *.
  destruct (digit_ok base x Hb) as [Hc Hcr]. rewrite Hc. set (c := digit (x mod base)) in *.
  rewrite length_app in *. cbn [length] in *. rewrite (bind_ok _ _ _ c s) by done.
  rewrite aset_nat by lia. rewrite (bind_ok _ _ _ (<[i:=c]> buf) s) by done.
  assert (Hbuf' : Forall (λ c, 0 ≤ c < 256) (<[i:=c]> buf)) by by apply Forall_insert.
  assert (Ht : take (S i) (<[i:=c]> buf) = take i buf ++ [c]).
  { rewrite (take_S_r _ _ c) by (apply list_lookup_insert_eq; lia). by rewrite take_insert_ge by lia. }
  destruct (Z.ltb_spec x base) as [Hlt|Hge].
  - rewrite (Z.div_small x base) by lia. rewrite truthy_0. exists (<[i:=c]> buf). cbn [length app].
    rewrite length_insert. split_and!; [cbn; do 2 f_equal; lia|done..|]. replace (i + (0 + 1))%nat with (S i) by lia. done.
  - assert (Hq : 0 < x / base) by (apply Z.div_str_pos; lia). rewrite (proj2 (truthy_true _)) by lia.
    rewrite Nat2Z.inj_succ, Z.pow_succ_r in Hx by lia.
    destruct fuel as [|fuel]; [change (base ^ Z.of_nat 0) with 1 in Hx; nia|].
    destruct (IH (x / base) (<[i:=c]> buf) (S i) s) as (buf' & Hrun & Hl' & Hb' & Ht'); [|by rewrite length_insert|done|lia|lia|].
    { split; [lia|]. apply Z.div_lt_upper_bound; lia. }
    exists buf'. replace (Z.of_nat i + 1) with (Z.of_nat (S i)) by lia. rewrite Hrun.
    replace (i + (length (numeral (S fuel) base (x / base)) + 1))%nat with (S i + length (numeral (S fuel) base (x / base)))%nat by lia.
    split_and!; [done..|]. rewrite Ht', Ht, reverse_app. cbn. by rewrite <- app_assoc.
Qed.

Lemma uprintint_ok xx base sgn s :
  10 ≤ base ≤ 16 → - 2 ^ 31 ≤ xx < 2 ^ 31 →
  prints (uprintint fd xx base sgn) tt s
    (if sgn && (xx <? 0) then 45 :: numeral 32 base (- xx) else numeral 32 base (u32 xx)).
Proof.
  intros Hb Hx. unfold uprintint. set (neg := sgn && (xx <? 0)). cbv zeta.
  set (x := if neg then u32 (- xx) else u32 xx). assert (Hxr : 0 ≤ x < 2 ^ 32) by (unfold x; case_match; apply u32_range).
  replace (if neg then 45 :: numeral 32 base (- xx) else numeral 32 base (u32 xx))
    with ((if neg then [45] else []) ++ numeral 32 base x).
  2: { unfold x. destruct neg eqn:Hn; [|done]. apply andb_true_iff in Hn as [_ Hn%Z.ltb_lt]. by rewrite u32_small by lia. }
  assert (Hp : 2 ^ 32 ≤ base ^ Z.of_nat 10).
  { transitivity (10 ^ Z.of_nat 10); [by vm_compute|]. apply Z.pow_le_mono_l. lia. }
  assert (Hp' : base ^ Z.of_nat 10 ≤ base ^ Z.of_nat 32) by (apply Z.pow_le_mono_r; lia).
  pose proof (numeral_length base x 10 ltac:(lia) ltac:(lia) 32) as Hlen.
  destruct (digit_loop_ok base ltac:(lia) 32 x (replicate 16 0) 0%nat s) as (buf & Hrun & Hl & Hbuf & Ht);
    [lia|by rewrite length_replicate|by apply Forall_replicate|lia|lia|].
  cbn [Nat.add] in Hrun, Ht. rewrite take_0, app_nil_l in Ht. set (ds := numeral 32 base x) in *.
  eapply prints_pure; [exact Hrun|]. cbv beta iota. destruct neg.
  - rewrite aset_nat by lia. set (buf' := <[length ds:=45]> buf).
    eapply prints_pure; [done|]. cbv beta iota. replace (Z.to_nat (Z.of_nat (length ds) + 1)) with (S (length ds)) by lia.
    assert (Hb' : take (S (length ds)) buf' = reverse ds ++ [45]).
    { unfold buf'. rewrite (take_S_r _ _ 45) by (apply list_lookup_insert_eq; lia). by rewrite take_insert_ge, Ht by lia. }
    pose proof (put_back_ok buf' (S (length ds)) s) as Hput. rewrite Hb', reverse_app, reverse_involutive, reverse_singleton in Hput.
    apply Hput; [unfold buf'; rewrite length_insert; lia|by apply Forall_insert].
  - eapply prints_pure; [done|]. cbv beta iota. rewrite Nat2Z.id. pose proof (put_back_ok buf (length ds) s) as Hput.
    rewrite Ht, reverse_involutive in Hput. apply Hput; [lia|done].
Qed.

Lemma ustr_byte s a b l : ustr s a (b :: l) → 0 ≤ b < 256.
Proof. intros ((Hb & _) & _). rewrite <- Hb. apply rd8_range. Qed.

Lemma put_str_ok l : ∀ fuel a s, ustr s a l → (length l < fuel)%nat → prints (put_str fuel fd a) tt s l.
Proof.
  induction l as [|b l IH]; intros [|fuel] a s Ha Hf; cbn [length] in *; try lia; cbn [put_str].
  - eapply prints_pure; [exact (ustr_nil _ _ Ha)|]. rewrite truthy_0. apply prints_ret.
  - destruct (ustr_cons _ _ _ _ Ha) as (Hb & Hnz & Ha1). eapply prints_pure; [exact Hb|].
    rewrite (proj2 (truthy_true b)) by done. apply (prints_bind _ _ tt _ _ [b]).
    + rewrite <- (u8_small b) at 2 by by eapply ustr_byte. apply putc_ok.
    + intros w. apply IH; [exact Ha1|lia].
Qed.

Definition null_text : list Z := [40; 110; 117; 108; 108; 41].

(** The words at [ap] are the arguments. *)
Fixpoint args_at (null : Z) (fuel : nat) s (ap : Z) (args : list uarg) : Prop :=
  match args with
  | [] => True
  | x :: args =>
      0 ≤ ap ∧ ap + 4 ≤ usz s ∧ args_at null fuel s (ap + 4) args ∧
      match x with
      | Aword v => rd32 (umem s) ap = u32 v
      | Astr a l =>
          rd32 (umem s) ap = a ∧ (length l < fuel)%nat ∧
          if a =? 0 then l = null_text ∧ ustr s null l else ustr s a l
      end
  end.

Lemma args_at_world null fuel s w ap args : args_at null fuel s ap args → args_at null fuel (set_uworld w s) ap args.
Proof. revert ap. induction args as [|x args IH]; intros ap; cbn; [done|]. intros (? & ? & ? & ?). by split_and!; [| |apply IH|]. Qed.

Lemma prints_word {B} (f : Z → U B) b null fuel s ap args v l :
  args_at null fuel s ap (Aword v :: args) → prints (f (u32 v)) b s l → prints (bind (ld32 ap) f) b s l.
Proof. intros (H0 & H4 & _ & Hv) Hf. eapply prints_pure; [|exact Hf]. rewrite ld32_ok, Hv by lia. done. Qed.

Lemma s32_u32 v : s32 (u32 v) = s32 v.
Proof. unfold s32, u32. lia. Qed.

Lemma u32_s32 v : u32 (s32 v) = u32 v.
Proof. unfold s32, u32. lia. Qed.

Lemma directive_ok null fuel d fmt args ap s l :
  0 ≤ d < 256 → args_at null fuel s ap args → render (37 :: d :: fmt) args = Some l →
  ∃ l1 l2 args' ap', prints (directive fuel null fd d ap) ap' s l1 ∧ l = l1 ++ l2 ∧
    render fmt args' = Some l2 ∧ args_at null fuel s ap' args'.
Proof.
  intros Hd Hargs Hr. cbn [render Z.eqb Pos.eqb] in Hr. unfold directive.
  assert (Hnext : ∀ x args', args_at null fuel s ap (x :: args') → args_at null fuel s (ap + 4) args') by (intros x args'; cbn; tauto).
  destruct (d =? 100).
  { destruct args as [|[v|] args]; [done| |done]. apply fmap_Some in Hr as (l2 & Hr & ->).
    exists (signed_numeral (s32 v)), l2, args, (ap + 4). split_and!; [|done|done|by eapply Hnext].
    eapply prints_word; [exact Hargs|]. rewrite <- (app_nil_r (signed_numeral _)). apply (prints_bind _ _ tt); [|intros w; apply prints_ret].
    pose proof (s32_range v) as Hv. rewrite s32_u32. eapply eq_ind; [apply (uprintint_ok (s32 v) 10 true); lia|].
    unfold signed_numeral. cbn [andb]. destruct (Z.ltb_spec (s32 v) 0); [done|]. by rewrite u32_small by lia. }
  destruct ((d =? 120) || (d =? 112)).
  { destruct args as [|[v|] args]; [done| |done]. apply fmap_Some in Hr as (l2 & Hr & ->).
    exists (numeral 32 16 (u32 v)), l2, args, (ap + 4). split_and!; [|done|done|by eapply Hnext].
    eapply prints_word; [exact Hargs|]. rewrite <- (app_nil_r (numeral _ _ _)). apply (prints_bind _ _ tt); [|intros w; apply prints_ret].
    pose proof (s32_range v) as Hv. rewrite s32_u32, <- (u32_s32 v). apply (uprintint_ok (s32 v) 16 false); lia. }
  destruct (d =? 115).
  { destruct args as [|[|a str] args]; [done|done|]. apply fmap_Some in Hr as (l2 & Hr & ->).
    exists str, l2, args, (ap + 4). split_and!; [|done|done|by eapply Hnext]. destruct Hargs as (H0 & H4 & _ & Ha & Hf & Hstr).
    eapply prints_pure; [by rewrite ld32_ok, Ha by lia|]. rewrite <- (app_nil_r str). apply (prints_bind _ _ tt); [|intros w; apply prints_ret].
    destruct (a =? 0); apply put_str_ok; naive_solver. }
  destruct (d =? 99).
  { destruct args as [|[v|] args]; [done| |done]. apply fmap_Some in Hr as (l2 & Hr & ->).
    exists [u8 v], l2, args, (ap + 4). split_and!; [|done|done|by eapply Hnext].
    eapply prints_word; [exact Hargs|]. apply (prints_bind _ _ tt _ _ [u8 v] []); [|intros w; apply prints_ret].
    replace (u8 v) with (u8 (u32 v)) by (unfold u8, u32; lia). apply putc_ok. }
  destruct (Z.eqb_spec d 37) as [->|]; apply fmap_Some in Hr as (l2 & Hr & ->).
  - exists [37], l2, args, ap. split_and!; [|done..]. apply (prints_bind _ _ tt _ _ [37] []); [apply (putc_ok 37)|intros w; apply prints_ret].
  - exists [37; d], l2, args, ap. split_and!; [|done..]. apply (prints_bind _ _ tt _ _ [37] [d]); [apply (putc_ok 37)|]. intros w.
    apply (prints_bind _ _ tt _ _ [d] []); [|intros; apply prints_ret]. rewrite <- (u8_small d) at 2 by done. apply putc_ok.
Qed.

Lemma printf_loop_ok null fuel n : ∀ fmt args pf ap s l,
  (length fmt < n)%nat → ustr s pf fmt → args_at null fuel s ap args → render fmt args = Some l →
  prints (printf_loop n fuel null fd pf ap false) tt s l.
Proof.
  induction n as [n IH] using lt_wf_ind. intros fmt args pf ap s l Hn Hf Hargs Hr.
  destruct n as [|n]; [lia|]. cbn [printf_loop]. destruct fmt as [|c fmt].
  { eapply prints_pure; [exact (ustr_nil _ _ Hf)|]. injection Hr as <-. apply prints_ret. }
  destruct (ustr_cons _ _ _ _ Hf) as (Hc & Hnz & Hf1). eapply prints_pure; [exact Hc|].
  rewrite (proj2 (Z.eqb_neq _ _)) by done. cbn [negb length] in *. destruct (Z.eqb_spec c 37) as [->|Hc37].
  - destruct n as [|n]; [lia|]. cbn [printf_loop]. destruct fmt as [|d fmt].
    { eapply prints_pure; [exact (ustr_nil _ _ Hf1)|]. injection Hr as <-. apply prints_ret. }
    destruct (ustr_cons _ _ _ _ Hf1) as (Hd & Hdz & Hf2). eapply prints_pure; [exact Hd|].
    rewrite (proj2 (Z.eqb_neq _ _)) by done. cbn [negb length] in *.
    destruct (directive_ok null fuel d fmt args ap s l) as (l1 & l2 & args' & ap' & Hp & -> & Hr' & Ha'); [by eapply ustr_byte|done|done|].
    apply (prints_bind _ _ ap'); [done|]. intros w. apply (IH n ltac:(lia) fmt args'); [lia|done|by apply args_at_world|done].
  - cbn [render] in Hr. rewrite (proj2 (Z.eqb_neq _ _) Hc37) in Hr. apply fmap_Some in Hr as (l2 & Hr & ->).
    apply (prints_bind _ _ tt _ _ [c]).
    + rewrite <- (u8_small c) at 2 by by eapply ustr_byte. apply putc_ok.
    + intros w. apply (IH n ltac:(lia) fmt args); [lia|done|by apply args_at_world|done].
Qed.

(** C40: [printf] writes exactly what its format describes: the characters, and for each directive the
    argument's decimal digits with its sign, its hexadecimal digits, its string (or "(null)"), its
    character or a percent sign; an unknown directive is written as it stands. The comment above [printf]
    lists only %d, %x, %p and %s; the code has %c and %% as well, and so has this theorem. No access leaves the
    strings, the arguments and the buffer of digits, and the process is unchanged. *)
Theorem printf_renders null fuel pf ap fmt args s l :
  (length fmt < fuel)%nat → ustr s pf fmt → args_at null fuel s ap args → render fmt args = Some l →
  ∃ w, printf fuel null fd pf ap s = Ok tt (set_uworld w s) ∧ out w = out (uworld s) ++ l.
Proof. apply printf_loop_ok. Qed.
End correct.

(** ** Reading a number back *)
Section atoi.
Context {W : Type} `{!uenv W}.
Implicit Types (s : ustate W).

Definition value (n : Z) (ds : list Z) : Z := foldl (λ n d, n * 10 + (d - 48)) n ds.
Definition is_digit (d : Z) : Prop := 48 ≤ d ≤ 57.

Lemma value_ge ds : ∀ n, Forall is_digit ds → 0 ≤ n → n ≤ value n ds.
Proof.
  induction ds as [|d ds IH]; intros n Hds Hn; [done|]. apply Forall_cons in Hds as [Hd Hds]. red in Hd. cbn.
  transitivity (n * 10 + (d - 48)); [lia|]. apply IH; [done|lia].
Qed.

Lemma atoi_go_ok ds : ∀ fuel a n s,
  ustr s a ds → Forall is_digit ds → 0 ≤ n → value n ds < 2 ^ 31 → (length ds < fuel)%nat → atoi_go fuel a n s = Ok (value n ds) s.
Proof.
  induction ds as [|d ds IH]; intros [|fuel] a n s Ha Hds Hn Hv Hf; cbn [length] in *; try lia; cbn [atoi_go].
  - by rewrite (bind_ok _ _ _ _ _ (ustr_nil _ _ Ha)).
  - destruct (ustr_cons _ _ _ _ Ha) as (Hd & _ & Ha1). apply Forall_cons in Hds as [Hdd Hds]. red in Hdd.
    rewrite (bind_ok _ _ _ _ _ Hd), !(proj2 (Z.leb_le _ _)) by lia. cbn [andb].
    pose proof (value_ge ds (n * 10 + (d - 48)) Hds ltac:(lia)) as Hge. change (value n (d :: ds)) with (value (n * 10 + (d - 48)) ds) in *.
    rewrite s32_small by lia. rewrite Z.add_sub_assoc in *. apply IH; [done|done|lia|done|lia].
Qed.

Lemma numeral_value fuel : ∀ x, 0 ≤ x < 10 ^ Z.of_nat fuel → value 0 (numeral fuel 10 x) = x ∧ Forall is_digit (numeral fuel 10 x).
Proof.
  induction fuel as [|fuel IH]; intros x Hx; [change (10 ^ Z.of_nat 0) with 1 in Hx; by split; [cbn; lia|]|]. cbn [numeral].
  assert (Hd : digit (x mod 10) = 48 + x mod 10) by (unfold digit; rewrite (proj2 (Z.ltb_lt _ _)); lia).
  rewrite Hd. unfold value. rewrite foldl_app. cbn [foldl]. rewrite Forall_app.
  rewrite Nat2Z.inj_succ, Z.pow_succ_r in Hx by lia. destruct (Z.ltb_spec x 10) as [Hlt|Hge].
  - split; [cbn; lia|]. split; [done|]. constructor; [red; lia|done].
  - destruct (IH (x / 10)) as [IHv IHd]; [split; [lia|apply Z.div_lt_upper_bound; lia]|]. fold (value 0 (numeral fuel 10 (x / 10))).
    rewrite IHv. split; [lia|]. split; [done|]. constructor; [red; lia|done].
Qed.

(** [atoi] reads back what [printf] writes for a number: on the decimal digits of any number
    below [2 ^ 31], stored as a string, it returns the number. *)
Theorem atoi_numeral x fuel a s :
  0 ≤ x < 2 ^ 31 → ustr s a (numeral 32 10 x) → (length (numeral 32 10 x) < fuel)%nat → atoi fuel a s = Ok x s.
Proof.
  intros Hx Ha Hf. destruct (numeral_value 32 x) as [Hv Hd]; [pose proof (eq_refl : (2 ^ 31 ?= 10 ^ Z.of_nat 32) = Lt) as Hlt; change (2 ^ 31 < 10 ^ Z.of_nat 32) in Hlt; lia|].
  unfold atoi. rewrite (atoi_go_ok (numeral 32 10 x)) by (done || lia). by rewrite Hv.
Qed.
End atoi.

(** ** A process that prints *)

(** The world: what was written. *)
#[local] Instance out_env : uenv (list Z) := {|
  sys_read _ n w := (None, w);
  sys_write _ l w := (Z.of_nat (length l), w ++ l);
  sys_open _ _ w := (-1, w);
  sys_close _ w := (0, w);
  sys_sbrk _ w := (false, w)
|}.

(** The format "%d:%s" at 100, its arguments -7 and the string "ok" at 200, and the digits of
    4096 at 300. *)
Definition printf_state : ustate (list Z) :=
  mkUstate (write_bytes (wr32 (wr32 (write_bytes (write_bytes ∅ 100 [37; 100; 58; 37; 115]) 200 [111; 107]) 400 (-7)) 404 200)
    300 [52; 48; 57; 54]) 8192 [].

Lemma printf_renders_witness :
  ∃ w, printf 10 0 1 100 400 printf_state = Ok tt (set_uworld w printf_state) ∧ w = [] ++ [45; 55; 58; 111; 107].
Proof.
  apply (printf_renders 1 (λ w : list Z, w)) with (fmt := [37; 100; 58; 37; 115]) (args := [Aword (-7); Astr 200 [111; 107]]).
  - intros l w. by eexists.
  - cbn. lia.
  - by vm_compute.
  - split_and!; [done..| |by vm_compute]. split_and!; [done..|by vm_compute|cbn; lia|by vm_compute].
  - by vm_compute.
Defined.

Lemma atoi_numeral_witness : atoi 10 300 printf_state = Ok 4096 printf_state.
Proof. apply atoi_numeral; [lia|by vm_compute|vm_compute; lia]. Defined.
