(* ===== verification/Tools.v ===== *)
(** The small tools of the user: [cat.c], [wc.c], [echo.c], and [rm.c], [mkdir.c], [ln.c], [kill.c],
    which pass their arguments to one system call.

    A program runs with [argc] words from address [argv] on, each the address of a string.  Its
    literals, the buffer [char buf\[512\]] and the place [sp] where it puts the arguments of [printf]
    are at the addresses of the class [tool]; [fuel] bounds its loops. *)

From S2P Require Import Prelude Params Mem Cstring User Printf.

(** The calls only these programs make. *)
Class fenv (W : Type) := {
  sys_unlink : list Z → W → Z * W;
  sys_mkdir : list Z → W → Z * W;
  sys_link : list Z → list Z → W → Z * W;
  sys_kill : Z → W → Z * W
}.

Class tool := {
  buf : Z; sp : Z; null : Z; fuel : nat;
  (* the literals, by the line that has them *)
  cat_write_error : Z; cat_read_error : Z; cat_cannot_open : Z;
  wc_spaces : Z; wc_read_error : Z; wc_format : Z; wc_no_name : Z; wc_cannot_open : Z;
  echo_format : Z; echo_space : Z; echo_newline : Z;
  rm_usage : Z; rm_failed : Z; mkdir_usage : Z; mkdir_failed : Z; ln_usage : Z; ln_failed : Z; kill_usage : Z
}.

Section tools.
Context {W : Type} `{!uenv W} `{!fenv W} `{!tool}.

Definition BUFSIZE : Z := 512.

(** ** Calls with a string: the kernel reads it up to its NUL, inside the process *)
Fixpoint scan (n : nat) (m : memory) (a : Z) : option (list Z) :=
  match n with
  | O => None
  | S n => if rd8 m a =? 0 then Some [] else cons (rd8 m a) <$> scan n m (a + 1)
  end.
Definition ustring (a : Z) : U (W := W) (option (list Z)) := λ s,
  Ok (if 0 <=? a then scan (Z.to_nat (usz s - a)) (umem s) a else None) s.

Definition with_path (f : list Z → W → Z * W) (a : Z) : U (W := W) Z :=
  l ← ustring a;
  match l with
  | Some l => lift_sys (f l)
  | None => ret (-1)
  end.
Definition uopen (a mode : Z) : U (W := W) Z := with_path (λ l, sys_open l mode) a.
Definition uunlink (a : Z) : U (W := W) Z := with_path sys_unlink a.
Definition umkdir (a : Z) : U (W := W) Z := with_path sys_mkdir a.
Definition ulink (a b : Z) : U (W := W) Z :=
  new ← ustring b;
  old ← ustring a;
  match old, new with
  | Some old, Some new => lift_sys (sys_link old new)
  | _, _ => ret (-1)
  end.

(** [printf(fd, fmt, args...)]: the words go to the stack. *)
Fixpoint push_words (a : Z) (args : list Z) : U (W := W) unit :=
  match args with
  | [] => ret tt
  | x :: args => st32 a x;; push_words (a + 4) args
  end.
Definition call_printf (fd fmt : Z) (args : list Z) : U (W := W) unit :=
  push_words sp args;; printf fuel null fd fmt sp.

Definition arg (argv i : Z) : U (W := W) Z := ld32 (argv + 4 * i).

(** ** [cat.c] *)
Fixpoint cat_loop (n : nat) (fd : Z) : U (W := W) Z :=
  match n with
  | O => fail Ufuel
  | S n =>
      k ← uread fd buf BUFSIZE;
      if 0 <? k then
        r ← uwrite 1 buf k;
        if negb (r =? k) then call_printf 1 cat_write_error [];; uexit else cat_loop n fd
      else ret k
  end.
Definition cat (fd : Z) : U (W := W) unit :=
  k ← cat_loop fuel fd;
  if k <? 0 then call_printf 1 cat_read_error [];; uexit else ret tt.

(** [for(i = 1; i < argc; i++)] *)
Definition args_from (first argc : Z) : list Z := seqZ first (argc - first).

Definition cat_main (argc argv : Z) : U (W := W) unit :=
  if argc <=? 1 then cat 0;; uexit
  else
    forM (args_from 1 argc) (λ i,
      a ← arg argv i;
      fd ← uopen a 0;
      if fd <? 0 then
        a ← arg argv i;
        call_printf 1 cat_cannot_open [a];; uexit
      else cat fd;; lift_sys (sys_close fd);; ret tt);;
    uexit.

(** ** [wc.c] *)
Record counts := mkCounts { c_lines : Z; c_words : Z; c_chars : Z; c_inword : bool }.

(** The body of the loop over the buffer. *)
Definition wc_char (b : Z) (k : counts) : U (W := W) counts :=
  let c := s32 (c_chars k + 1) in
  let l := if b =? 10 then s32 (c_lines k + 1) else c_lines k in
  r ← ustrchr fuel wc_spaces b;
  ret (if truthy r then mkCounts l (c_words k) c false
       else if negb (c_inword k) then mkCounts l (s32 (c_words k + 1)) c true
       else mkCounts l (c_words k) c (c_inword k)).

Fixpoint wc_chars (n : nat) (i : Z) (k : counts) : U (W := W) counts :=
  match n with
  | O => ret k
  | S n => b ← ld8 (buf + i); k ← wc_char b k; wc_chars n (i + 1) k
  end.

Fixpoint wc_loop (n : nat) (fd : Z) (k : counts) : U (W := W) (Z * counts) :=
  match n with
  | O => fail Ufuel
  | S n =>
      r ← uread fd buf BUFSIZE;
      if 0 <? r then k ← wc_chars (Z.to_nat r) 0 k; wc_loop n fd k else ret (r, k)
  end.

Definition wc (fd name : Z) : U (W := W) unit :=
  '(r, k) ← wc_loop fuel fd (mkCounts 0 0 0 false);
  if r <? 0 then call_printf 1 wc_read_error [];; uexit
  else call_printf 1 wc_format [c_lines k; c_words k; c_chars k; name].

Definition wc_main (argc argv : Z) : U (W := W) unit :=
  if argc <=? 1 then wc 0 wc_no_name;; uexit
  else
    forM (args_from 1 argc) (λ i,
      a ← arg argv i;
      fd ← uopen a 0;
      if fd <? 0 then
        a ← arg argv i;
        call_printf 1 wc_cannot_open [a];; uexit
      else
        a ← arg argv i;
        wc fd a;; lift_sys (sys_close fd);; ret tt);;
    uexit.

(** ** [echo.c] *)
Definition echo_main (argc argv : Z) : U (W := W) unit :=
  forM (args_from 1 argc) (λ i,
    a ← arg argv i;
    call_printf 1 echo_format [a; if i + 1 <? argc then echo_space else echo_newline]);;
  uexit.

(** ** [rm.c] and [mkdir.c], whose loops a failure leaves *)
Fixpoint each_arg (f : Z → U (W := W) Z) (failed argv : Z) (idx : list Z) : U (W := W) unit :=
  match idx with
  | [] => ret tt
  | i :: idx =>
      a ← arg argv i;
      r ← f a;
      if r <? 0 then a ← arg argv i; call_printf 2 failed [a] else each_arg f failed argv idx
  end.

Definition rm_main (argc argv : Z) : U (W := W) unit :=
  if argc <? 2 then call_printf 2 rm_usage [];; uexit
  else each_arg uunlink rm_failed argv (args_from 1 argc);; uexit.

Definition mkdir_main (argc argv : Z) : U (W := W) unit :=
  if argc <? 2 then call_printf 2 mkdir_usage [];; uexit
  else each_arg umkdir mkdir_failed argv (args_from 1 argc);; uexit.

(** ** [ln.c] and [kill.c] *)
Definition ln_main (argc argv : Z) : U (W := W) unit :=
  if negb (argc =? 3) then call_printf 2 ln_usage [];; uexit
  else
    a ← arg argv 1;
    b ← arg argv 2;
    r ← ulink a b;
    (if r <? 0 then
       a ← arg argv 1;
       b ← arg argv 2;
       call_printf 2 ln_failed [a; b]
     else ret tt);;
    uexit.

Definition kill_main (argc argv : Z) : U (W := W) unit :=
  if argc <? 2 then call_printf 2 kill_usage [];; uexit
  else
    forM (args_from 1 argc) (λ i, a ← arg argv i; p ← atoi fuel a; lift_sys (sys_kill p);; ret tt);;
    uexit.
End tools.
