(* ===== verification/ToolsSpec.v ===== *)
(** [cat] copies its files and [wc] counts them, however the reads cut the text. *)

From S2P Require Import Prelude Params Mem Cstring User Printf Tools.

(** What the programs rely on: [rest fd] is what is still to be read from an open descriptor; a read
    delivers some of it, and something unless it is empty; what is written to descriptor 1 is appended
    to [out]; opening a file gives a descriptor at its beginning. *)
Record files {W} `{!uenv W} (content : list Z → option (list Z)) (rest : Z → W → option (list Z)) (out : W → list Z) : Prop := {
  fi_read fd n w t : rest fd w = Some t → 0 < n →
    ∃ l t' w', sys_read fd n w = (Some l, w') ∧ t = l ++ t' ∧ rest fd w' = Some t' ∧
      Z.of_nat (length l) ≤ n ∧ (l = [] → t = []) ∧ out w' = out w;
  fi_write l w : ∃ w', sys_write 1 l w = (Z.of_nat (length l), w') ∧ out w' = out w ++ l ∧ ∀ fd, rest fd w' = rest fd w;
  fi_open path t w : content path = Some t →
    ∃ fd w', sys_open path 0 w = (fd, w') ∧ 0 ≤ fd ∧ rest fd w' = Some t ∧ out w' = out w;
  fi_close fd w : ∃ r w', sys_close fd w = (r, w') ∧ out w' = out w
}.

Section spec.
Context {W : Type} `{!uenv W} `{!fenv W} `{!tool} (content : list Z → option (list Z)).
Context (rest : Z → W → option (list Z)) (out : W → list Z) (Hfi : files content rest out).
Implicit Types (s : ustate W) (t l : list Z).

Definition bytes l : Prop := Forall (λ b, 0 ≤ b < 256) l.

(** The buffer and the arguments of [printf] are in the process, and apart. *)
Definition room s : Prop :=
  0 < buf ∧ buf + BUFSIZE ≤ usz s ∧ 0 ≤ sp ∧ sp + 16 ≤ usz s ∧ (buf + BUFSIZE ≤ sp ∨ sp + 16 ≤ buf) ∧ usz s < 2 ^ 32.

Definition outside (a : Z) : Prop := (a < buf ∨ buf + BUFSIZE ≤ a) ∧ (a < sp ∨ sp + 16 ≤ a).
Definition apart (a n : Z) : Prop := ∀ x, a ≤ x < a + n → outside x.

(** What the programs leave alone. *)
Definition kept s s' : Prop := usz s' = usz s ∧ ∀ a, outside a → rd8 (umem s') a = rd8 (umem s) a.

Lemma kept_refl s : kept s s.
Proof. done. Qed.
Lemma kept_trans s1 s2 s3 : kept s1 s2 → kept s2 s3 → kept s1 s3.
Proof. intros [H1 H2] [H3 H4]. split; [congruence|]. intros a Ha. by rewrite H4, H2. Qed.
Lemma kept_room s s' : kept s s' → room s → room s'.
Proof. unfold room. by intros [-> _]. Qed.

(** A string the programs cannot overwrite. *)
Definition text_at s (a : Z) l : Prop := ustr s a l ∧ apart a (Z.of_nat (length l) + 1).

Lemma kept_text s s' a l : kept s s' → text_at s a l → text_at s' a l.
Proof.
  intros [Hz Hm] [(Hc & H0 & Hl) Ha]. split; [|done]. split_and!; [|done|by rewrite Hz].
  eapply cstr_ext; [|exact Hc]. intros x Hx. symmetry. apply Hm, Ha. lia.
Qed.

Lemma kept_rd32 s s' a : kept s s' → apart a 4 → rd32 (umem s') a = rd32 (umem s) a.
Proof. intros [_ Hm] Ha. unfold rd32. by rewrite !Hm by (apply Ha; lia). Qed.

(** ** Reading and writing *)
Lemma uread_stream fd s t :
  room s → rest fd (uworld s) = Some t → bytes t →
  ∃ l t' s', uread fd buf BUFSIZE s = Ok (Z.of_nat (length l)) s' ∧ t = l ++ t' ∧ rest fd (uworld s') = Some t' ∧
    (l = [] → t = []) ∧ out (uworld s') = out (uworld s) ∧ kept s s' ∧ read_bytes (umem s') buf (length l) = l ∧
    Z.of_nat (length l) ≤ BUFSIZE.
Proof.
  intros (H0 & H1 & _) Hr Hb. destruct (fi_read _ _ _ Hfi fd BUFSIZE (uworld s) t Hr) as (l & t' & w' & Hrd & -> & Hr' & Hlen & Hnil & Ho); [done|].
  apply Forall_app in Hb as [Hb _]. exists l, t', (set_uworld w' (set_umem (write_bytes (umem s) buf l) s)). split_and!; try done.
  - unfold uread. rewrite !(proj2 (Z.leb_le _ _)), (proj2 (Z.ltb_lt _ _)) by (unfold BUFSIZE in *; lia). cbn. by rewrite Hrd.
  - split; [done|]. intros a [Ha _]. cbn. rewrite rd8_write_bytes. destruct (within _ _ _) eqn:E; [|done].
    unfold within in E. lia.
  - cbn. by apply read_write_bytes.
Qed.

Lemma uwrite_buf s (l : list Z) :
  room s → Z.of_nat (length l) ≤ BUFSIZE → read_bytes (umem s) buf (length l) = l →
  ∃ w', uwrite 1 buf (Z.of_nat (length l)) s = Ok (Z.of_nat (length l)) (set_uworld w' s) ∧
    out w' = out (uworld s) ++ l ∧ ∀ fd, rest fd w' = rest fd (uworld s).
Proof.
  intros (H0 & H1 & _) Hl Hr. destruct (fi_write _ _ _ Hfi l (uworld s)) as (w' & Hw & Ho & Hrest).
  exists w'. split_and!; try done. unfold uwrite.
  rewrite !(proj2 (Z.leb_le _ _)), (proj2 (Z.ltb_lt _ _)) by (unfold BUFSIZE in *; lia). cbn.
  unfold lift_sys. by rewrite Nat2Z.id, Hr, Hw.
Qed.

(** ** [cat] *)
Lemma cat_loop_ok fd n t s :
  room s → rest fd (uworld s) = Some t → bytes t → (length t < n)%nat →
  ∃ s', cat_loop n fd s = Ok 0 s' ∧ out (uworld s') = out (uworld s) ++ t ∧ kept s s'.
Proof.
  revert t s. induction n as [|n IH]; intros t s Hroom Hr Hb Hn; [lia|]. cbn [cat_loop].
  destruct (uread_stream fd s t Hroom Hr Hb) as (l & t' & s1 & Hrd & -> & Hr1 & Hnil & Ho1 & Hk1 & Hbuf & Hl).
  rewrite (bind_ok _ _ _ _ _ Hrd). destruct l as [|b l].
  { assert (t' = []) as -> by exact (Hnil eq_refl). exists s1. rewrite app_nil_r. by split_and!. }
  rewrite (proj2 (Z.ltb_lt _ _)) by (cbn; lia).
  destruct (uwrite_buf s1 (b :: l) (kept_room _ _ Hk1 Hroom) Hl Hbuf) as (w2 & Hw & Ho2 & Hr2).
  rewrite (bind_ok _ _ _ _ _ Hw), Z.eqb_refl. cbn [negb]. rewrite length_app in Hn. cbn [length] in Hn.
  destruct (IH t' (set_uworld w2 s1)) as (s' & Hrun & Ho' & Hk').
  { by apply (kept_room s). } { cbn. by rewrite Hr2. } { by apply Forall_app in Hb as [_ ?]. } { lia. }
  exists s'. split_and!; [done| |by eapply (kept_trans _ s1)]. rewrite Ho'.
  change (uworld (set_uworld w2 s1)) with w2. by rewrite Ho2, Ho1, <- app_assoc.
Qed.

Lemma cat_ok fd t s :
  room s → rest fd (uworld s) = Some t → bytes t → (length t < fuel)%nat →
  ∃ s', cat fd s = Ok tt s' ∧ out (uworld s') = out (uworld s) ++ t ∧ kept s s'.
Proof.
  intros Hroom Hr Hb Hf. destruct (cat_loop_ok fd fuel t s) as (s' & Hrun & Ho & Hk); [done..|].
  exists s'. unfold cat. by rewrite (bind_ok _ _ _ _ _ Hrun).
Qed.

(** ** The arguments of a program *)
Definition argv_at s (argv : Z) (args : list (Z * list Z)) : Prop :=
  ∀ i a path, args !! i = Some (a, path) →
    let p := argv + 4 * Z.of_nat i in
    0 ≤ p ∧ p + 4 ≤ usz s ∧ apart p 4 ∧ rd32 (umem s) p = a ∧ text_at s a path.

Lemma kept_argv s s' argv args : kept s s' → argv_at s argv args → argv_at s' argv args.
Proof.
  intros Hk Ha i a path Hi. destruct (Ha i a path Hi) as (H0 & H1 & H2 & H3 & H4).
  cbn zeta in *. rewrite (kept_rd32 s s' _ Hk H2). split_and!; [done|by rewrite (proj1 Hk)|done|done|by apply (kept_text s)].
Qed.

Lemma arg_ok s argv args (i : nat) a path :
  argv_at s argv args → args !! i = Some (a, path) → arg argv (Z.of_nat i) s = Ok a s ∧ text_at s a path.
Proof. intros Ha Hi. destruct (Ha i a path Hi) as (H0 & H1 & _ & H3 & H4). unfold arg. by rewrite ld32_ok, H3. Qed.

Lemma scan_ok n m a l : cstr m a l → (length l < n)%nat → scan n m a = Some l.
Proof.
  revert n a. induction l as [|b l IH]; intros [|n] a Hc Hn; cbn [length] in Hn; try lia; cbn [scan cstr] in *.
  - by rewrite Hc.
  - destruct Hc as (Hb & Hnz & Hc). rewrite Hb, (proj2 (Z.eqb_neq _ _)), IH by (done || lia). done.
Qed.

Lemma with_path_ok f s a l : text_at s a l → with_path f a s = lift_sys (f l) s.
Proof.
  intros [(Hc & H0 & H1) _]. unfold with_path, ustring, bind.
  rewrite (proj2 (Z.leb_le _ _)) by done. by rewrite (scan_ok _ _ _ l) by (done || lia).
Qed.

Lemma uopen_ok s a path t :
  text_at s a path → content path = Some t →
  ∃ fd w, uopen a 0 s = Ok fd (set_uworld w s) ∧ 0 ≤ fd ∧ rest fd w = Some t ∧ out w = out (uworld s).
Proof.
  intros Ha Ht. destruct (fi_open _ _ _ Hfi path t (uworld s) Ht) as (fd & w & Ho & Hfd & Hr & Hout).
  exists fd, w. split_and!; try done. unfold uopen. rewrite (with_path_ok _ _ _ _ Ha). unfold lift_sys. by rewrite Ho.
Qed.

Lemma uclose_ok fd s : ∃ w, (lift_sys (sys_close fd);; ret tt) s = Ok tt (set_uworld w s) ∧ out w = out (uworld s).
Proof.
  destruct (fi_close _ _ _ Hfi fd (uworld s)) as (r & w & Hc & Ho). exists w. split; [|done].
  unfold bind, lift_sys. by rewrite Hc.
Qed.

(** A loop over the arguments of a program that started as [s0], which does for each what [body] does
    with the file it names. *)
Definition does_file s0 (args : list (Z * list Z)) (body : Z → U (W := W) unit) (text : list Z → list Z → list Z) : Prop :=
  ∀ (i : nat) a path t s, args !! i = Some (a, path) → content path = Some t → bytes t → (length t < fuel)%nat → kept s0 s →
    ∃ s', body (Z.of_nat i) s = Ok tt s' ∧ out (uworld s') = out (uworld s) ++ text path t ∧ kept s s'.

Definition readable (x : Z * list Z) t : Prop := content x.2 = Some t ∧ bytes t ∧ (length t < fuel)%nat.

Lemma each_file_from s0 body text todo : ∀ dn ts s,
  does_file s0 (dn ++ todo) body text → kept s0 s → Forall2 readable todo ts →
  ∃ s', forM (seqZ (Z.of_nat (length dn)) (Z.of_nat (length todo))) body s = Ok tt s' ∧
    out (uworld s') = out (uworld s) ++ concat (zip_with (λ x t, text x.2 t) todo ts) ∧ kept s s'.
Proof.
  induction todo as [|[a path] todo IH]; intros dn ts s Hbody Hk Hts.
  { exists s. cbn. by rewrite app_nil_r. }
  inversion Hts as [|? t ? ts' (Hc & Hb & Hf) Hts']; subst. cbn [length]. rewrite seqZ_cons by lia. cbn [forM].
  destruct (Hbody (length dn) a path t s) as (s1 & Hrun & Ho1 & Hk1); [by apply list_lookup_middle|done..|].
  rewrite (bind_ok _ _ _ _ _ Hrun). rewrite cons_middle, app_assoc in Hbody.
  destruct (IH (dn ++ [(a, path)]) ts' s1 Hbody) as (s' & Hrun' & Ho' & Hk'); [by eapply kept_trans|done|].
  exists s'. split_and!; [|by rewrite Ho', Ho1, <- app_assoc|by eapply kept_trans].
  rewrite <- Hrun'. f_equal. f_equal; [rewrite length_app; cbn|]; lia.
Qed.

Lemma each_file args body text ts s :
  does_file s args body text → Forall2 readable (tail args) ts →
  ∃ s', forM (args_from 1 (Z.of_nat (length args))) body s = Ok tt s' ∧
    out (uworld s') = out (uworld s) ++ concat (zip_with (λ x t, text x.2 t) (tail args) ts) ∧ kept s s'.
Proof.
  intros Hbody Hts. destruct args as [|x0 args].
  { inversion Hts; subst. exists s. cbn. by rewrite app_nil_r. }
  destruct (each_file_from s body text args [x0] ts s Hbody (kept_refl s) Hts) as (s' & Hrun & Ho & Hk).
  exists s'. split_and!; [|done..]. rewrite <- Hrun. unfold args_from. do 2 f_equal. cbn. lia.
Qed.

Lemma zip_second {A B} (l : list A) (k : list B) : length l = length k → zip_with (λ _ y, y) l k = k.
Proof. revert k. induction l as [|x l IH]; intros [|y k] Hl; try done. cbn. f_equal. apply IH. by injection Hl. Qed.

(** What [cat] and [wc] do with one argument: open it and work on the descriptor. *)
Lemma open_and_work s0 argv args (work : Z → Z → U (W := W) unit) bad text :
  argv_at s0 argv args →
  (∀ fd (i : nat) a path t s, kept s0 s → args !! i = Some (a, path) → rest fd (uworld s) = Some t → bytes t → (length t < fuel)%nat →
    ∃ s', work fd (Z.of_nat i) s = Ok tt s' ∧ out (uworld s') = out (uworld s) ++ text path t ∧ kept s s') →
  does_file s0 args (λ i, a ← arg argv i; fd ← uopen a 0; if fd <? 0 then bad i else work fd i) text.
Proof.
  intros Ha Hwork i a path t s Hi Hc Hb Hf Hk0.
  destruct (arg_ok s argv args i a path (kept_argv _ _ _ _ Hk0 Ha) Hi) as [Hga Hta].
  rewrite (bind_ok _ _ _ _ _ Hga). destruct (uopen_ok s a path t Hta Hc) as (fd & w & Hop & Hfd & Hr & Ho).
  rewrite (bind_ok _ _ _ _ _ Hop), (proj2 (Z.ltb_ge _ _)) by done. set (s1 := set_uworld w s) in *.
  destruct (Hwork fd i a path t s1) as (s2 & Hrun & Ho2 & Hk2); [done..|].
  rewrite Hrun. exists s2. split_and!; [done|rewrite Ho2; cbn; by rewrite Ho|done].
Qed.

Lemma then_close fd (m : U (W := W) unit) s s1 l :
  m s = Ok tt s1 → out (uworld s1) = out (uworld s) ++ l → kept s s1 →
  ∃ s', (m;; lift_sys (sys_close fd);; ret tt) s = Ok tt s' ∧ out (uworld s') = out (uworld s) ++ l ∧ kept s s'.
Proof.
  intros Hm Ho Hk. destruct (uclose_ok fd s1) as (w & Hcl & Hw). exists (set_uworld w s1).
  rewrite (bind_ok _ _ _ _ _ Hm). split_and!; [done|cbn; congruence|by destruct Hk].
Qed.

(** C28: [cat] with any readable files as arguments writes the texts of the files, all of them and in
    order, and ends; however the reads cut the texts. *)
Theorem cat_concatenates argv args ts s :
  room s → argv_at s argv args → (1 < length args)%nat → Forall2 readable (tail args) ts →
  ∃ s', cat_main (Z.of_nat (length args)) argv s = Err Exited s' ∧
    out (uworld s') = out (uworld s) ++ concat ts ∧ kept s s'.
Proof.
  intros Hroom Ha Hlen Hts. unfold cat_main. rewrite (proj2 (Z.leb_gt _ _)) by lia.
  edestruct (each_file args) as (s' & Hrun & Ho & Hk); [|exact Hts|].
  { apply (open_and_work s argv args (λ fd _, cat fd;; lift_sys (sys_close fd);; ret tt)
      (λ i, a ← arg argv i; call_printf 1 cat_cannot_open [a];; uexit) (λ _ t, t) Ha).
    intros fd i a path t s1 Hk1 _ Hr Hb Hf. destruct (cat_ok fd t s1) as (s2 & Hrun & Ho & Hk); [by apply (kept_room s)|done..|].
    by eapply then_close. }
  exists s'. split_and!; [|rewrite Ho; do 2 f_equal; apply zip_second; by eapply Forall2_length|exact Hk].
  by rewrite (bind_ok _ _ _ _ _ Hrun).
Qed.

(** ** [wc] *)
Definition is_space (b : Z) : Prop := b ∈ [32; 13; 9; 10; 11].

(** A word starts where a character that is no space follows a space or nothing. *)
Definition starts_word t (i : nat) : Prop :=
  (∃ b, t !! i = Some b ∧ ¬ is_space b) ∧ (i = 0%nat ∨ ∃ b, t !! pred i = Some b ∧ is_space b).
#[local] Instance starts_word_dec t i : Decision (starts_word t i).
Proof.
  unfold starts_word, is_space. apply and_dec.
  - destruct (t !! i) as [b|]; [|right; naive_solver].
    destruct (decide (b ∈ [32; 13; 9; 10; 11])); [right|left]; naive_solver.
  - apply or_dec; [apply _|]. destruct (t !! pred i) as [b|]; [|right; naive_solver].
    destruct (decide (b ∈ [32; 13; 9; 10; 11])); [left|right]; naive_solver.
Defined.
Definition line_count t : nat := length (filter (λ b, b = 10) t).
Definition word_count t : nat := length (filter (starts_word t) (seq 0 (length t))).
Definition ends_in_word t : Prop := ∃ b, last t = Some b ∧ ¬ is_space b.

Lemma line_count_snoc t b : line_count (t ++ [b]) = (line_count t + if decide (b = 10%Z) then 1 else 0)%nat.
Proof. unfold line_count. rewrite filter_app, length_app. f_equal. rewrite filter_cons. by case_decide. Qed.

Lemma filter_same {A} (P Q : A → Prop) `{∀ x, Decision (P x)} `{∀ x, Decision (Q x)} (l : list A) :
  (∀ x, x ∈ l → P x ↔ Q x) → filter P l = filter Q l.
Proof.
  induction l as [|x l IH]; intros Hl; [done|]. rewrite !filter_cons, IH by (intros; apply Hl; by apply list_elem_of_further).
  pose proof (Hl x (list_elem_of_here _ _)). do 2 case_decide; tauto.
Qed.

Lemma starts_word_app t b i : (i < length t)%nat → starts_word (t ++ [b]) i ↔ starts_word t i.
Proof. intros Hi. unfold starts_word. rewrite !lookup_app_l by lia. done. Qed.

Lemma word_count_snoc t b :
  word_count (t ++ [b]) = (word_count t + if decide (starts_word (t ++ [b]) (length t)) then 1 else 0)%nat.
Proof.
  unfold word_count. rewrite length_app, seq_app, filter_app, length_app. cbn [length seq Nat.add].
  f_equal; [|rewrite filter_cons; by case_decide].
  f_equal. apply filter_same. intros i Hi%elem_of_seq. apply starts_word_app. lia.
Qed.

(** What the counters hold after the text [t]. *)
Record counted t (k : counts) : Prop := {
  ct_lines : c_lines k = Z.of_nat (line_count t);
  ct_words : c_words k = Z.of_nat (word_count t);
  ct_chars : c_chars k = Z.of_nat (length t);
  ct_inword : c_inword k = true ↔ ends_in_word t
}.

Lemma counted_nil : counted [] (mkCounts 0 0 0 false).
Proof. split; try done. split; [done|]. by intros (b & ? & _). Qed.

Lemma line_count_le t : (line_count t ≤ length t)%nat.
Proof. apply length_filter. Qed.
Lemma word_count_le t : (word_count t ≤ length t)%nat.
Proof. unfold word_count. etransitivity; [apply length_filter|]. by rewrite length_seq. Qed.

Lemma ends_in_word_snoc t b : ends_in_word (t ++ [b]) ↔ ¬ is_space b.
Proof. unfold ends_in_word. rewrite last_snoc. naive_solver. Qed.

Lemma starts_word_snoc t b : starts_word (t ++ [b]) (length t) ↔ ¬ is_space b ∧ ¬ ends_in_word t.
Proof.
  unfold starts_word, ends_in_word. rewrite lookup_app_r, Nat.sub_diag by lia. cbn.
  destruct t as [|c t _] using rev_ind; [cbn; naive_solver|].
  rewrite last_snoc, length_app, Nat.add_comm. cbn [length Nat.add Nat.pred]. rewrite <- app_assoc, lookup_app_r, Nat.sub_diag by lia.
  cbn. destruct (decide (c ∈ [32; 13; 9; 10; 11])) as [Hc|Hc]; unfold is_space; naive_solver.
Qed.

(** The literal of [wc] that lists the spaces. *)
Definition spaces_at s : Prop := 0 < wc_spaces ∧ text_at s wc_spaces [32; 13; 9; 10; 11] ∧ (5 < fuel)%nat.

Lemma space_found b s :
  spaces_at s → ∃ r, ustrchr fuel wc_spaces b s = Ok r s ∧ truthy r = bool_decide (is_space b).
Proof.
  intros (H0 & [Hs _] & Hf). case_bool_decide as Hb.
  - destruct (list_elem_of_split_l _ _ Hb) as (l1 & l2 & E & Hn).
    assert (length l1 < 5)%nat. { apply (f_equal length) in E. rewrite length_app in E. cbn in E. lia. }
    rewrite E in Hs. eexists. split; [apply (ustrchr_found l1 b fuel s wc_spaces l2 Hs Hn); lia|]. apply truthy_true. lia.
  - exists 0. split; [|done]. apply (ustrchr_none [32; 13; 9; 10; 11]); [done..|cbn; lia].
Qed.

Lemma wc_char_ok t b k s :
  spaces_at s → counted t k → Z.of_nat (length t) < 2 ^ 31 - 1 → ∃ k', wc_char b k s = Ok k' s ∧ counted (t ++ [b]) k'.
Proof.
  intros Hsp [Hl Hw Hc Hi] Hlen. destruct (space_found b s Hsp) as (r & Hr & Hb). pose proof (line_count_le t). pose proof (word_count_le t).
  unfold wc_char. rewrite (bind_ok _ _ _ _ _ Hr), Hb. unfold ret. eexists. split; [reflexivity|].
  assert (Hch : s32 (c_chars k + 1) = Z.of_nat (length (t ++ [b]))) by (rewrite Hc, s32_small, length_app by lia; cbn; lia).
  assert (Hln : (if b =? 10 then s32 (c_lines k + 1) else c_lines k) = Z.of_nat (line_count (t ++ [b]))).
  { rewrite line_count_snoc, Hl. clear Hb. destruct (Z.eqb_spec b 10), (decide (b = 10)); try done; rewrite ?s32_small by lia; lia. }
  pose proof (ends_in_word_snoc t b) as He. pose proof (starts_word_snoc t b) as Hst. pose proof (word_count_snoc t b) as Hws.
  rewrite (s32_small (c_words k + 1)) by lia.
  rewrite Hw. clear Hl Hw Hc Hr Hb Hsp. case_bool_decide as Hspc; [|destruct (c_inword k); cbn [negb]]; split; cbn [c_lines c_words c_chars c_inword]; try done.
  - rewrite Hws, decide_False by tauto. lia.
  - split; [done|tauto].
  - rewrite Hws, decide_False by tauto. lia.
  - tauto.
  - rewrite Hws, decide_True by (apply Hst; split; [done|]; by rewrite <- Hi). lia.
  - tauto.
Qed.

Lemma wc_chars_ok l : ∀ i t k s,
  room s → spaces_at s → 0 ≤ i → i + Z.of_nat (length l) ≤ BUFSIZE → read_bytes (umem s) (buf + i) (length l) = l →
  counted t k → Z.of_nat (length t + length l) < 2 ^ 31 →
  ∃ k', wc_chars (length l) i k s = Ok k' s ∧ counted (t ++ l) k'.
Proof.
  induction l as [|b l IH]; intros i t k s Hroom Hsp Hi Hil Hrd Hc Hlen; cbn [length wc_chars].
  { exists k. by rewrite app_nil_r. }
  cbn [length read_bytes] in *. injection Hrd as Hb Hrd. pose proof Hroom as (H0 & H1 & _).
  assert (Hin : 0 ≤ buf + i < usz s) by lia. rewrite (bind_ok _ _ _ _ _ (ld8_ok (buf + i) s Hin)), Hb.
  destruct (wc_char_ok t b k s Hsp Hc) as (k1 & Hr1 & Hc1); [lia|]. rewrite (bind_ok _ _ _ _ _ Hr1).
  rewrite cons_middle, app_assoc. apply IH; [done|done|lia|lia|by rewrite Z.add_assoc|done|rewrite length_app; cbn; lia].
Qed.

Lemma kept_spaces s s' : kept s s' → spaces_at s → spaces_at s'.
Proof. intros Hk (H0 & Ht & Hf). split_and!; [done|by apply (kept_text s)|done]. Qed.

Lemma wc_loop_ok fd n : ∀ t1 t k s,
  room s → spaces_at s → rest fd (uworld s) = Some t → bytes t → (length t < n)%nat → counted t1 k →
  Z.of_nat (length t1 + length t) < 2 ^ 31 →
  ∃ k' s', wc_loop n fd k s = Ok (0, k') s' ∧ counted (t1 ++ t) k' ∧ out (uworld s') = out (uworld s) ∧ kept s s'.
Proof.
  induction n as [|n IH]; intros t1 t k s Hroom Hsp Hr Hb Hn Hc Hlen; [lia|]. cbn [wc_loop].
  destruct (uread_stream fd s t Hroom Hr Hb) as (l & t' & s1 & Hrd & -> & Hr1 & Hnil & Ho1 & Hk1 & Hbuf & Hl).
  rewrite (bind_ok _ _ _ _ _ Hrd). destruct l as [|b l].
  { assert (t' = []) as -> by exact (Hnil eq_refl). exists k, s1. rewrite app_nil_r. by split_and!. }
  rewrite (proj2 (Z.ltb_lt _ _)) by (cbn; lia). rewrite Nat2Z.id. rewrite length_app in Hn, Hlen.
  destruct (wc_chars_ok (b :: l) 0 t1 k s1) as (k1 & Hrun & Hc1);
    [by apply (kept_room s)|by apply (kept_spaces s)|done|lia|by rewrite Z.add_0_r|done|lia|].
  rewrite (bind_ok _ _ _ _ _ Hrun), app_assoc. apply Forall_app in Hb as [_ Hb']. cbn [length] in Hn.
  destruct (IH (t1 ++ b :: l) t' k1 s1) as (k' & s' & Hrun' & Hc' & Ho' & Hk');
    [by apply (kept_room s)|by apply (kept_spaces s)|done|done|lia|done|rewrite length_app; lia|].
  exists k', s'. split_and!; [done..|congruence|by eapply kept_trans].
Qed.

(** ** [printf] from the programs *)
Definition word_of (x : uarg) : Z := match x with Aword v => v | Astr a _ => a end.

(** The arguments a program passes: words, and strings it does not overwrite. *)
Definition args_ok s (args : list uarg) : Prop :=
  (length args ≤ 4)%nat ∧
  Forall (λ x, match x with Aword _ => True | Astr a l => a ≠ 0 ∧ text_at s a l ∧ (length l < fuel)%nat end) args.

Lemma push_words_ok args : ∀ a s,
  0 ≤ a → a + 4 * Z.of_nat (length args) ≤ usz s →
  ∃ m, push_words a args s = Ok tt (set_umem m s) ∧
    (∀ i v, args !! i = Some v → rd32 m (a + 4 * Z.of_nat i) = u32 v) ∧
    (∀ x, x < a ∨ a + 4 * Z.of_nat (length args) ≤ x → rd8 m x = rd8 (umem s) x).
Proof.
  induction args as [|v args IH]; intros a s Ha Hs; cbn [push_words length] in *.
  { exists (umem s). split_and!; [by destruct s|done|done]. }
  rewrite (bind_ok _ _ _ _ _ (st32_ok a v s Ha ltac:(lia))).
  destruct (IH (a + 4) (set_umem (wr32 (umem s) a v) s)) as (m & Hrun & Hv & Hm); [lia|cbn; lia|].
  exists m. split_and!; [done| |].
  - intros [|i] v' Hi; cbn in Hi.
    + injection Hi as ->. rewrite Z.add_0_r, <- (rd32_wr32_eq (umem s) a v'). apply rd32_ext. intros i Hi. apply Hm. lia.
    + replace (a + 4 * Z.of_nat (S i)) with (a + 4 + 4 * Z.of_nat i) by lia. by apply Hv.
  - intros x Hx. rewrite Hm by lia. cbn. apply rd8_wr32_ne. lia.
Qed.

Lemma args_at_pushed todo : ∀ dn s,
  room s → args_ok s (dn ++ todo) →
  (∀ i v, (word_of <$> (dn ++ todo)) !! i = Some v → rd32 (umem s) (sp + 4 * Z.of_nat i) = u32 v) →
  args_at null fuel s (sp + 4 * Z.of_nat (length dn)) todo.
Proof.
  induction todo as [|x todo IH]; intros dn s Hroom [Hlen Hok] Hv; cbn [args_at]; [done|].
  pose proof Hroom as (_ & _ & Hsp & Hsp' & _ & Hz). pose proof (Hv (length dn) (word_of x)) as Hx.
  rewrite fmap_app, lookup_app_r, length_fmap, Nat.sub_diag in Hx by (rewrite length_fmap; lia). specialize (Hx eq_refl).
  assert (Hl4 : (length dn < 4)%nat) by (rewrite length_app in Hlen; cbn in Hlen; lia).
  split_and!; [lia|lia| |].
  - replace (sp + 4 * Z.of_nat (length dn) + 4) with (sp + 4 * Z.of_nat (length (dn ++ [x]))) by (rewrite length_app; cbn; lia).
    rewrite cons_middle, app_assoc in Hlen, Hok, Hv. by apply IH.
  - apply Forall_app in Hok as [_ [Hxo _]%Forall_cons]. destruct x as [v|a l]; [done|]. destruct Hxo as (Hnz & Hta & Hfl).
    pose proof Hta as [(_ & H0 & H1) _]. cbn [word_of] in Hx. rewrite Hx, u32_small by lia. rewrite (proj2 (Z.eqb_neq _ _)) by done.
    split_and!; [done..|apply Hta].
Qed.

Lemma kept_args s s' args : kept s s' → args_ok s args → args_ok s' args.
Proof.
  intros Hk [Hl Ha]. split; [done|]. eapply Forall_impl; [exact Ha|]. intros [v|a l]; [done|].
  intros (? & ? & ?). split_and!; [done|by apply (kept_text s)|done].
Qed.

Lemma call_printf_ok fmt (f : list Z) args s l :
  room s → text_at s fmt f → (length f < fuel)%nat → args_ok s args → render f args = Some l →
  ∃ s', call_printf 1 fmt (word_of <$> args) s = Ok tt s' ∧ out (uworld s') = out (uworld s) ++ l ∧ kept s s'.
Proof.
  intros Hroom Hfmt Hf [Hlen Hargs] Hr. pose proof Hroom as (_ & _ & Hsp & Hsp' & _).
  destruct (push_words_ok (word_of <$> args) sp s) as (m & Hpush & Hv & Hm); [done|rewrite length_fmap; lia|].
  rewrite length_fmap in Hm. set (s1 := set_umem m s) in *.
  assert (Hk : kept s s1). { split; [done|]. intros a [_ Ha]. apply Hm. lia. }
  assert (Hap : appends 1 out). { intros l' w. destruct (fi_write _ _ _ Hfi l' w) as (w' & ? & ? & _). by exists w'. }
  destruct (printf_loop_ok 1 out Hap null fuel fuel f args fmt sp s1 l) as (w & Hrun & Ho); [done|by apply (kept_text s)| |done|].
  { pose proof (args_at_pushed args [] s1 (kept_room _ _ Hk Hroom) (kept_args _ _ _ Hk (conj Hlen Hargs)) Hv) as Hat.
    by rewrite Z.add_0_r in Hat. }
  exists (set_uworld w s1). unfold call_printf. rewrite (bind_ok _ _ _ _ _ Hpush). split_and!; [exact Hrun|exact Ho|by destruct Hk].
Qed.

(** ** The line [wc] prints for a file *)
Definition wc_line (name t : list Z) : list Z :=
  signed_numeral (Z.of_nat (line_count t)) ++ [32] ++ signed_numeral (Z.of_nat (word_count t)) ++ [32] ++
  signed_numeral (Z.of_nat (length t)) ++ [32] ++ name ++ [10].

Definition wc_format_text : list Z := [37; 100; 32; 37; 100; 32; 37; 100; 32; 37; 115; 10].

Lemma wc_ok fd a name t s :
  room s → spaces_at s → text_at s wc_format wc_format_text → (12 < fuel)%nat → text_at s a name → a ≠ 0 → (length name < fuel)%nat →
  rest fd (uworld s) = Some t → bytes t → (length t < fuel)%nat → Z.of_nat (length t) < 2 ^ 31 →
  ∃ s', wc fd a s = Ok tt s' ∧ out (uworld s') = out (uworld s) ++ wc_line name t ∧ kept s s'.
Proof.
  intros Hroom Hsp Hfmt Hf12 Hname Hnz Hfn Hr Hb Hf Hlen.
  destruct (wc_loop_ok fd fuel [] t _ s Hroom Hsp Hr Hb Hf counted_nil Hlen) as (k & s1 & Hrun & [Hl Hw Hc _] & Ho1 & Hk1).
  unfold wc. rewrite (bind_ok _ _ _ _ _ Hrun). cbn [Z.ltb Z.compare]. cbn [app] in *.
  pose proof (line_count_le t). pose proof (word_count_le t).
  destruct (call_printf_ok wc_format wc_format_text [Aword (c_lines k); Aword (c_words k); Aword (c_chars k); Astr a name] s1 (wc_line name t))
    as (s' & Hrun' & Ho' & Hk'); [by apply (kept_room s)|by apply (kept_text s)|cbn; lia| | |].
  - split; [cbn; lia|]. rewrite !Forall_cons. split_and!; [done|done|done|done|by apply (kept_text s)|done|constructor].
  - rewrite Hl, Hw, Hc. unfold wc_line. cbn. by rewrite !s32_small by lia.
  - exists s'. split_and!; [exact Hrun'|by rewrite Ho', Ho1|by eapply kept_trans].
Qed.

(** C29: [wc] with any readable files as arguments prints for each, in order, the number of its lines, of
    its words and of its characters and its name, and ends; however the reads cut the texts, also
    inside a word. *)
Theorem wc_counts argv args ts s :
  room s → argv_at s argv args → (1 < length args)%nat → Forall2 readable (tail args) ts →
  spaces_at s → text_at s wc_format wc_format_text → (12 < fuel)%nat → Z.of_nat fuel < 2 ^ 31 →
  Forall (λ x, x.1 ≠ 0 ∧ (length x.2 < fuel)%nat) args →
  ∃ s', wc_main (Z.of_nat (length args)) argv s = Err Exited s' ∧
    out (uworld s') = out (uworld s) ++ concat (zip_with (λ x t, wc_line x.2 t) (tail args) ts).
Proof.
  intros Hroom Ha Hlen Hts Hsp Hfmt Hf12 Hmax Hnames. unfold wc_main. rewrite (proj2 (Z.leb_gt _ _)) by lia.
  edestruct (each_file args) as (s' & Hrun & Ho & Hk); [|exact Hts|].
  { apply (open_and_work s argv args (λ fd i, a ← arg argv i; wc fd a;; lift_sys (sys_close fd);; ret tt)
      (λ i, a ← arg argv i; call_printf 1 wc_cannot_open [a];; uexit) wc_line Ha).
    intros fd i a path t s1 Hk1 Hi Hr Hb Hf. destruct (arg_ok s1 argv args i a path (kept_argv _ _ _ _ Hk1 Ha) Hi) as [Hga Hta].
    rewrite (bind_ok _ _ _ _ _ Hga). destruct (Forall_lookup_1 _ _ _ _ Hnames Hi) as [Hnz Hn]. cbn in Hnz, Hn.
    destruct (wc_ok fd a path t s1) as (s2 & Hrun & Ho & Hk);
      [by apply (kept_room s)|by apply (kept_spaces s)|by apply (kept_text s)|done..|lia|]. by eapply then_close. }
  exists s'. split; [|exact Ho]. by rewrite (bind_ok _ _ _ _ _ Hrun).
Qed.

(** ** [echo] *)
Fixpoint echo_text (names : list (list Z)) : list Z :=
  match names with
  | [] => []
  | [x] => x ++ [10]
  | x :: names => x ++ [32] ++ echo_text names
  end.

Record echo_literals s : Prop := {
  el_format : text_at s echo_format [37; 115; 37; 115];
  el_space : text_at s echo_space [32] ∧ echo_space ≠ 0;
  el_newline : text_at s echo_newline [10] ∧ echo_newline ≠ 0;
  el_fuel : (4 < fuel)%nat
}.

Lemma echo_from s0 argv todo : ∀ dn s,
  room s0 → echo_literals s0 → argv_at s0 argv (dn ++ todo) → Forall (λ x, x.1 ≠ 0 ∧ (length x.2 < fuel)%nat) todo → kept s0 s →
  ∃ s', forM (seqZ (Z.of_nat (length dn)) (Z.of_nat (length todo))) (λ i,
      a ← arg argv i;
      call_printf 1 echo_format [a; if i + 1 <? Z.of_nat (length (dn ++ todo)) then echo_space else echo_newline]) s = Ok tt s' ∧
    out (uworld s') = out (uworld s) ++ echo_text (snd <$> todo) ∧ kept s s'.
Proof.
  induction todo as [|[a path] todo IH]; intros dn s Hroom Hel Ha Hn Hk.
  { exists s. cbn [fmap list_fmap echo_text]. split_and!; [done|by rewrite app_nil_r|done]. }
  apply Forall_cons in Hn as [[Hnz Hlen] Hn]. cbn in Hnz, Hlen. cbn [length]. rewrite seqZ_cons by lia. cbn [forM].
  destruct (arg_ok s argv _ (length dn) a path (kept_argv _ _ _ _ Hk Ha)) as [Hga Hta]; [by apply list_lookup_middle|].
  rewrite bind_assoc, (bind_ok _ _ _ _ _ Hga).
  set (sep := if Z.of_nat (length dn) + 1 <? _ then echo_space else echo_newline).
  set (c := match todo with [] => 10 | _ => 32 end).
  assert (Hsep : sep ≠ 0 ∧ text_at s0 sep [c]).
  { destruct Hel as [_ [? ?] [? ?] _]. unfold sep, c. rewrite length_app. cbn [length].
    destruct todo; [rewrite (proj2 (Z.ltb_ge _ _)) by (cbn; lia)|rewrite (proj2 (Z.ltb_lt _ _)) by (cbn; lia)]; done. }
  destruct Hsep as [Hsz Hst]. pose proof (el_fuel _ Hel).
  destruct (call_printf_ok echo_format [37; 115; 37; 115] [Astr a path; Astr sep [c]] s (path ++ [c])) as (s1 & Hrun & Ho1 & Hk1).
  { by apply (kept_room s0). } { apply (kept_text s0); [done|apply Hel]. } { cbn. lia. }
  { split; [cbn; lia|]. rewrite !Forall_cons. split_and!; [done..| |by apply (kept_text s0)|cbn; lia|done]. done. }
  { done. }
  rewrite (bind_ok _ _ _ _ _ Hrun). rewrite cons_middle, app_assoc in Ha |- *.
  destruct (IH (dn ++ [(a, path)]) s1) as (s' & Hrun' & Ho' & Hk'); [done..|by eapply kept_trans|].
  exists s'. split_and!; [|rewrite Ho', Ho1, <- app_assoc; f_equal|by eapply kept_trans].
  - rewrite <- Hrun'. f_equal. f_equal; [rewrite length_app; cbn|]; lia.
  - unfold c. rewrite <- app_assoc. by destruct todo as [|x todo].
Qed.

(** [echo] writes its arguments, with a space between them and a newline at the end. *)
Theorem echo_writes argv args s :
  room s → echo_literals s → argv_at s argv args → (0 < length args)%nat → Forall (λ x, x.1 ≠ 0 ∧ (length x.2 < fuel)%nat) (tail args) →
  ∃ s', echo_main (Z.of_nat (length args)) argv s = Err Exited s' ∧
    out (uworld s') = out (uworld s) ++ echo_text (snd <$> tail args) ∧ kept s s'.
Proof.
  intros Hroom Hel Ha Hlen Hn. destruct args as [|x0 args]; [cbn in Hlen; lia|].
  destruct (echo_from s argv args [x0] s Hroom Hel Ha Hn (kept_refl s)) as (s' & Hrun & Ho & Hk).
  exists s'. split_and!; [|done..]. unfold echo_main, args_from.
  replace (Z.of_nat (length (x0 :: args)) - 1) with (Z.of_nat (length args)) by (cbn; lia).
  by rewrite (bind_ok _ _ _ _ _ Hrun).
Qed.
End spec.

(** ** Two files, read three bytes at a time *)
Definition desk : Type := list (list Z) * list Z.
Definition desk_content (path : list Z) : option (list Z) :=
  if bool_decide (path = [97]) then Some [104; 105; 32; 121; 111; 117; 10]
  else if bool_decide (path = [98]) then Some [10; 120] else None.

#[local] Instance desk_env : uenv desk := {|
  sys_read fd n w :=
    match w.1 !! Z.to_nat fd with
    | Some t => (Some (take (Nat.min (Z.to_nat n) 3) t), (<[Z.to_nat fd := drop (Nat.min (Z.to_nat n) 3) t]> w.1, w.2))
    | None => (None, w)
    end;
  sys_write _ l w := (Z.of_nat (length l), (w.1, w.2 ++ l));
  sys_open path _ w :=
    match desk_content path with
    | Some t => (Z.of_nat (length w.1), (w.1 ++ [t], w.2))
    | None => (-1, w)
    end;
  sys_close _ w := (0, w);
  sys_sbrk _ w := (false, w)
|}.
Definition desk_rest (fd : Z) (w : desk) : option (list Z) := w.1 !! Z.to_nat fd.

Lemma desk_files : files desk_content desk_rest snd.
Proof.
  split.
  - intros fd n w t Hr Hn. unfold desk_rest in *. cbn. rewrite Hr. eexists _, (drop (Nat.min (Z.to_nat n) 3) t), _.
    split_and!; [done|by rewrite take_drop| | | |done].
    + cbn. apply list_lookup_insert_eq. by eapply lookup_lt_Some.
    + rewrite length_take. lia.
    + destruct t as [|b t]; [done|]. replace (Nat.min (Z.to_nat n) 3) with (S (Nat.min (Z.to_nat n - 1) 2)) by lia. done.
  - intros l w. eexists. by split_and!.
  - intros path t w Hp. eexists _, _. cbn. rewrite Hp. split_and!; [done|lia| |done].
    unfold desk_rest. cbn. by rewrite Nat2Z.id, lookup_app_r, Nat.sub_diag by lia.
  - intros fd w. by eexists _, _.
Qed.

#[local] Instance desk_tool : tool := {|
  buf := 4096; sp := 6000; null := 0; fuel := 20;
  cat_write_error := 0; cat_read_error := 0; cat_cannot_open := 0;
  wc_spaces := 300; wc_read_error := 0; wc_format := 320; wc_no_name := 0; wc_cannot_open := 0;
  echo_format := 0; echo_space := 0; echo_newline := 0;
  rm_usage := 0; rm_failed := 0; mkdir_usage := 0; mkdir_failed := 0; ln_usage := 0; ln_failed := 0; kill_usage := 0
|}.
#[local] Instance desk_fenv : fenv desk := {|
  sys_unlink _ w := (-1, w); sys_mkdir _ w := (-1, w); sys_link _ _ w := (-1, w); sys_kill _ w := (-1, w)
|}.

(** argv is at 200. *)
Definition desk_args : list (Z * list Z) := [(100, [119; 99]); (110, [97]); (120, [98])].
Definition desk_mem : memory :=
  foldl (λ m '(a, l), write_bytes m a l) ∅
    [(100, [119; 99]); (110, [97]); (120, [98]); (200, [100; 0; 0; 0; 110; 0; 0; 0; 120; 0; 0; 0]);
     (300, [32; 13; 9; 10; 11]); (320, wc_format_text)].
Definition desk_state : ustate desk := mkUstate desk_mem 8192 ([], []).

Lemma desk_apart a n : 0 ≤ n → a + n ≤ 4096 → apart a n.
Proof. intros Hn Ha x Hx. unfold outside, BUFSIZE. cbn. lia. Qed.

Lemma desk_text a l : cstr desk_mem a l → 0 ≤ a → a + Z.of_nat (length l) < 4096 → text_at desk_state a l.
Proof. intros Hc H0 H1. split; [split_and!; [done|done|cbn; lia]|]. apply desk_apart; lia. Qed.

Lemma desk_room : room desk_state.
Proof. unfold room, BUFSIZE. cbn. lia. Qed.

Lemma desk_argv : argv_at desk_state 200 desk_args.
Proof.
  intros [|[|[|i]]] a path Hi; cbn in Hi; try discriminate; injection Hi as <- <-;
    (split_and!; [lia|cbn; lia|apply desk_apart; lia|vm_compute; reflexivity|]);
    (apply desk_text; [by vm_compute|lia|cbn; lia]).
Qed.

Definition desk_texts : list (list Z) := [[104; 105; 32; 121; 111; 117; 10]; [10; 120]].
Lemma desk_readable : Forall2 (readable desk_content) (tail desk_args) desk_texts.
Proof.
  repeat constructor; try lia; cbn; lia.
Qed.

Lemma cat_concatenates_witness :
  ∃ s', cat_main 3 200 desk_state = Err Exited s' ∧ snd (uworld s') = [104; 105; 32; 121; 111; 117; 10; 10; 120].
Proof.
  destruct (cat_concatenates desk_content desk_rest snd desk_files 200 desk_args desk_texts desk_state) as (s' & Hr & Ho & _).
  - exact desk_room.
  - exact desk_argv.
  - cbn. lia.
  - exact desk_readable.
  - exists s'. split; [exact Hr|exact Ho].
Defined.

(** 1 2 7 a, then 1 1 2 b *)
Lemma wc_counts_witness :
  ∃ s', wc_main 3 200 desk_state = Err Exited s' ∧
    snd (uworld s') = [49; 32; 50; 32; 55; 32; 97; 10; 49; 32; 49; 32; 50; 32; 98; 10].
Proof.
  destruct (wc_counts desk_content desk_rest snd desk_files 200 desk_args desk_texts desk_state) as (s' & Hr & Ho).
  - exact desk_room.
  - exact desk_argv.
  - cbn. lia.
  - exact desk_readable.
  - split; [reflexivity|split; [|cbn; lia]]. apply desk_text; [by vm_compute|vm_compute; discriminate|reflexivity].
  - apply desk_text; [by vm_compute|vm_compute; discriminate|reflexivity].
  - cbn. lia.
  - reflexivity.
  - repeat constructor; try discriminate; cbn; lia.
  - exists s'. split; [exact Hr|]. rewrite Ho. vm_compute. reflexivity.
Defined.
