(* ===== verification/Umalloc.v ===== *)
(** [umalloc.c]: the allocator of the user library.

    A header has 8 bytes: the next free block, and the size of the block in headers.  The free
    blocks are on a circular list in the order of their addresses, through [base], a static header
    of size 0, which lies below the heap; [freep] points somewhere into the list. *)

From S2P Require Import Prelude Params Mem Cstring User.

(** The addresses of the static variables. *)
Class malloc_link := { base : Z; freep : Z }.

Definition HDR : Z := 8.

Section umalloc.
Context {W : Type} `{!uenv W} `{!malloc_link}.

Definition h_ptr (p : Z) : U (W := W) Z := ld32 p.
Definition h_size (p : Z) : U (W := W) Z := ld32 (p + 4).
Definition set_h_ptr (p v : Z) : U (W := W) unit := st32 p v.
Definition set_h_size (p v : Z) : U (W := W) unit := st32 (p + 4) v.

(** [for(p = freep; !(bp > p && bp < p->s.ptr); p = p->s.ptr)
       if(p >= p->s.ptr && (bp > p || bp < p->s.ptr)) break;] *)
Fixpoint free_slot (fuel : nat) (bp p : Z) : U (W := W) Z :=
  match fuel with
  | O => fail Ufuel
  | S fuel =>
      q ← h_ptr p;
      if (p <? bp) && (bp <? q) then ret p
      else if (q <=? p) && ((p <? bp) || (bp <? q)) then ret p
      else free_slot fuel bp q
  end.

Definition ufree (fuel : nat) (ap : Z) : U (W := W) unit :=
  let bp := u32 (ap - HDR) in
  p ← ld32 freep;
  p ← free_slot fuel bp p;
  q ← h_ptr p;
  bsize ← h_size bp;
  (if u32 (bp + HDR * bsize) =? q then
     qsize ← h_size q;
     set_h_size bp (u32 (bsize + qsize));;
     qq ← h_ptr q;
     set_h_ptr bp qq
   else set_h_ptr bp q);;
  psize ← h_size p;
  (if u32 (p + HDR * psize) =? bp then
     bsize ← h_size bp;
     set_h_size p (u32 (psize + bsize));;
     bq ← h_ptr bp;
     set_h_ptr p bq
   else set_h_ptr p bp);;
  st32 freep p.

Definition morecore (fuel : nat) (nu : Z) : U (W := W) Z :=
  let nu := if nu <? 4096 then 4096 else nu in
  p ← usbrk (s32 (u32 (nu * HDR)));
  if p =? -1 then ret 0
  else
    set_h_size p nu;;
    ufree fuel (p + HDR);;
    ld32 freep.

(** The search from [p], with its predecessor; it asks for more memory when it is back at [freep]. *)
Fixpoint malloc_loop (n fuel : nat) (nunits prevp p : Z) : U (W := W) Z :=
  match n with
  | O => fail Ufuel
  | S n =>
      size ← h_size p;
      if nunits <=? size then
        p ← (if size =? nunits then q ← h_ptr p; set_h_ptr prevp q;; ret p
             else
               set_h_size p (u32 (size - nunits));;
               size ← h_size p;
               let p := u32 (p + HDR * size) in
               set_h_size p nunits;;
               ret p);
        st32 freep prevp;;
        ret (p + HDR)
      else
        f ← ld32 freep;
        if p =? f then
          p ← morecore fuel nunits;
          if p =? 0 then ret 0 else q ← h_ptr p; malloc_loop n fuel nunits p q
        else q ← h_ptr p; malloc_loop n fuel nunits p q
  end.

Definition malloc (fuel : nat) (nbytes : Z) : U (W := W) Z :=
  let nunits := u32 (nbytes + HDR - 1) / HDR + 1 in
  prevp ← ld32 freep;
  prevp ← (if prevp =? 0 then
             st32 freep base;; set_h_ptr base base;; set_h_size base 0;; ret base
           else ret prevp);
  p ← h_ptr prevp;
  malloc_loop fuel fuel nunits prevp p.

(** [malloc] with a bound on its searches that they do not reach: a block has eight bytes at least. *)
Definition umalloc (nbytes : Z) : U (W := W) Z :=
  sz ← gets usz;
  malloc (Z.to_nat sz + 4) nbytes.
End umalloc.
