(* ===== verification/UmallocSpec.v ===== *)
(** The allocator of the user library keeps a sorted ring of free blocks: [free] gives a block back
    and joins it with its neighbours, [malloc] takes one out, and no byte that is in use changes. *)

From S2P Require Import Prelude Params Mem Cstring User Umalloc.

(** ** Blocks *)

(** Free blocks: the address and the number of headers of each. *)
Abbreviation blocks := (list (Z * Z)).

(** The address the first of some blocks is at, [z] when there is none. *)
Definition first_at (z : Z) (L : blocks) : Z := match L with [] => z | (a, _) :: _ => a end.

(** The headers of the blocks, chained, the last one pointing to [z]. *)
Fixpoint chained (m : memory) (L : blocks) (z : Z) : Prop :=
  match L with
  | [] => True
  | (a, n) :: L => rd32 m a = first_at z L ∧ rd32 m (a + 4) = n ∧ chained m L z
  end.

(** One past the last byte of a block; the header of [base], of size 0, counts. *)
Definition block_end (a n : Z) : Z := a + 8 * Z.max 1 n.

(** In the order of their addresses; with a gap after each block but [base], since neighbours
    are joined. *)
Fixpoint ordered (L : blocks) : Prop :=
  match L with
  | [] => True
  | (a, n) :: L =>
      0 ≤ n ∧ ordered L ∧
      match L with
      | [] => True
      | (b, _) :: _ => block_end a n ≤ b ∧ (1 ≤ n → block_end a n < b)
      end
  end.

(** The bytes that are free. *)
Definition covers (L : blocks) (x : Z) : Prop := ∃ a n, (a, n) ∈ L ∧ a ≤ x < a + 8 * n.

Lemma first_at_app z L1 L2 : first_at z (L1 ++ L2) = first_at (first_at z L2) L1.
Proof. by destruct L1 as [|[]]. Qed.

Lemma chained_app m L1 L2 z : chained m (L1 ++ L2) z ↔ chained m L1 (first_at z L2) ∧ chained m L2 z.
Proof.
  induction L1 as [|[a n] L1 IH]; cbn [chained app]; [tauto|]. rewrite IH, first_at_app. tauto.
Qed.

Lemma chained_ext m m' L z :
  (∀ a n, (a, n) ∈ L → rd32 m' a = rd32 m a ∧ rd32 m' (a + 4) = rd32 m (a + 4)) → chained m L z → chained m' L z.
Proof.
  induction L as [|[a n] L IH]; intros He; cbn [chained]; [done|]. intros (Ha & Hn & HL).
  destruct (He a n ltac:(set_solver)) as [-> ->]. split_and!; [done..|]. apply IH; [|done]. intros b k Hb. apply (He b k). set_solver.
Qed.

Lemma ordered_app_2 L1 L2 : ordered (L1 ++ L2) → ordered L2.
Proof. induction L1 as [|[a n] L1 IH]; [done|]. cbn. naive_solver. Qed.

(** Every block lies after the end of those before it. *)
Lemma ordered_after a n L b k : ordered ((a, n) :: L) → (b, k) ∈ L → block_end a n ≤ b ∧ (1 ≤ n → block_end a n < b) ∧ 0 ≤ k.
Proof.
  revert a n. induction L as [|[c j] L IH]; intros a n HL Hb; [set_solver|].
  destruct HL as (Hn & HL & Hac & Hac'). apply elem_of_cons in Hb as [[= -> ->]|Hb].
  - split_and!; [done..|]. by destruct HL.
  - destruct (IH c j HL Hb) as (H1 & _ & H2). pose proof (proj1 HL). unfold block_end in *. split_and!; [lia|intros; lia|done].
Qed.

Lemma ordered_app L1 a n L2 b k :
  ordered (L1 ++ (a, n) :: L2) → (b, k) ∈ L1 → block_end b k ≤ a ∧ 0 ≤ k.
Proof.
  induction L1 as [|[c j] L1 IH]; intros HL Hb; [set_solver|]. cbn [app] in HL. apply elem_of_cons in Hb as [[= -> ->]|Hb].
  - split; [|by destruct HL]. by eapply (ordered_after c j) with (k := n); [exact HL|set_solver].
  - apply IH; [by destruct HL as (_ & HL & _)|done].
Qed.

(** Replacing the end of an ordered list. *)
Lemma ordered_replace L1 L2 L2' :
  ordered (L1 ++ L2) → ordered L2' → (∀ z, first_at z L2 ≤ first_at z L2') → L2 ≠ [] ∨ L2' = [] → ordered (L1 ++ L2').
Proof.
  intros HL HL' Hf Hne. induction L1 as [|[a n] L1 IH]; [done|]. cbn [app ordered] in *. destruct HL as (Hn & HL & Hab).
  split_and!; [done|by apply IH|]. destruct L1 as [|[b k] L1]; [|done]. cbn [app] in *.
  destruct L2 as [|[b k] L2], L2' as [|[b' k'] L2']; try done; [naive_solver|].
  specialize (Hf 0). cbn in Hf. destruct Hab as [H1 H2]. split; [lia|intros; specialize (H2 ltac:(done)); lia].
Qed.

Section heap.
Context {W : Type} `{!uenv W} `{!malloc_link}.
Implicit Types (s : ustate W) (L bs : blocks).

(** Where the heap may begin: after the static variables. *)
Definition statics_end : Z := Z.max (base + HDR) (freep + 4).

(** The ring of free blocks: [base], and the blocks [bs] of the heap. *)
Definition ring bs : blocks := (base, 0) :: bs.

Record heap s bs : Prop := {
  hp_chain : chained (umem s) (ring bs) base;
  hp_ordered : ordered (ring bs);
  hp_blocks a n : (a, n) ∈ bs → 1 ≤ n ∧ statics_end ≤ a ∧ a + HDR * n ≤ usz s;
  hp_base : 0 < base;
  hp_apart : 0 ≤ freep ∧ (freep + 4 ≤ base ∨ base + HDR ≤ freep);
  hp_room : statics_end ≤ usz s ≤ 2 ^ 31;
  hp_freep : ∃ n, (rd32 (umem s) freep, n) ∈ ring bs
}.

(** Every header of the ring is inside the process, and away from [freep]. *)
Lemma heap_node s bs a n :
  heap s bs → (a, n) ∈ ring bs → base ≤ a ∧ a + 8 ≤ usz s ∧ (a + 8 ≤ freep ∨ freep + 4 ≤ a).
Proof.
  intros Hh Ha. pose proof (hp_base _ _ Hh). pose proof (hp_apart _ _ Hh) as Hap. pose proof (hp_room _ _ Hh) as Hr. unfold statics_end, HDR in *.
  apply elem_of_cons in Ha as [[= -> ->]|Ha]; [lia|].
  destruct (hp_blocks _ _ Hh a n Ha) as (Hn & Hs & Ht). unfold statics_end, HDR in *. lia.
Qed.

Lemma h_ptr_ok s bs a n : heap s bs → (a, n) ∈ ring bs → h_ptr a s = Ok (rd32 (umem s) a) s.
Proof.
  intros Hh Ha. pose proof (hp_base _ _ Hh). destruct (heap_node s bs a n Hh Ha) as (? & ? & _). apply ld32_ok; lia.
Qed.

Lemma h_size_ok s bs a n : heap s bs → (a, n) ∈ ring bs → h_size a s = Ok (rd32 (umem s) (a + 4)) s.
Proof.
  intros Hh Ha. pose proof (hp_base _ _ Hh). destruct (heap_node s bs a n Hh Ha) as (? & ? & _). apply ld32_ok; lia.
Qed.

(** ** The place for a block *)

(** [bp] lies between [p] and the blocks after it. *)
Lemma slot_here s bs L1 p pn L2 bp fuel :
  heap s bs → ring bs = L1 ++ (p, pn) :: L2 → base < bp → p < bp → (∀ b k, (b, k) ∈ L2 → bp < b) →
  free_slot (S fuel) bp p s = Ok p s.
Proof.
  intros Hh Hbs Hb Hp HL2. cbn [free_slot]. pose proof (hp_chain _ _ Hh) as Hc. rewrite Hbs in Hc.
  apply chained_app in Hc as (_ & Hptr & _). rewrite (bind_ok _ _ _ _ _ (h_ptr_ok s bs p pn Hh ltac:(rewrite Hbs; set_solver))), Hptr.
  rewrite (proj2 (Z.ltb_lt p bp)) by done. destruct L2 as [|[b k] L2]; cbn [first_at].
  - destruct (heap_node s bs p pn Hh ltac:(rewrite Hbs; set_solver)) as (? & _).
    rewrite (proj2 (Z.ltb_ge bp base)), (proj2 (Z.leb_le base p)) by lia. done.
  - by rewrite (proj2 (Z.ltb_lt bp b)) by (apply (HL2 b k); set_solver).
Qed.

(** The search walks up from a block below [bp]. *)
Lemma slot_up s bs bp : heap s bs → base < bp → (∀ a n, (a, n) ∈ bs → a ≠ bp) → ∀ L2 fuel L1 p pn,
  ring bs = L1 ++ (p, pn) :: L2 → p < bp → (length L2 < fuel)%nat →
  ∃ L1' p' pn' L2', ring bs = L1' ++ (p', pn') :: L2' ∧ p' < bp ∧ (∀ b k, (b, k) ∈ L2' → bp < b) ∧
    free_slot fuel bp p s = Ok p' s.
Proof.
  intros Hh Hb Hne. induction L2 as [|[b k] L2 IH]; intros fuel L1 p pn Hbs Hp Hf; (destruct fuel as [|fuel]; [cbn in Hf; lia|]).
  { exists L1, p, pn, []. split_and!; [done..|set_solver|]. eapply slot_here; [done..|set_solver]. }
  pose proof (hp_ordered _ _ Hh) as Ho. rewrite Hbs in Ho. apply ordered_app_2 in Ho.
  destruct (decide (b < bp)) as [Hlt|Hge].
  - destruct (IH fuel (L1 ++ [(p, pn)]) b k) as (L1' & p' & pn' & L2' & Hr & Hp' & HL2' & Hrun); [by rewrite <- app_assoc|done|cbn in Hf; lia|].
    exists L1', p', pn', L2'. split_and!; [done..|]. rewrite <- Hrun. cbn [free_slot].
    pose proof (hp_chain _ _ Hh) as Hc. rewrite Hbs in Hc. apply chained_app in Hc as (_ & Hptr & _).
    rewrite (bind_ok _ _ _ _ _ (h_ptr_ok s bs p pn Hh ltac:(rewrite Hbs; set_solver))), Hptr. cbn [first_at].
    destruct (ordered_after p pn _ b k Ho) as (Hend & _); [set_solver|]. unfold block_end in Hend.
    rewrite (proj2 (Z.ltb_ge bp b)), (proj2 (Z.leb_gt b p)), andb_false_r by lia. done.
  - assert (Hbne : b ≠ bp).
    { apply (Hne b k). destruct L1 as [|[c j] L1]; cbn in Hbs; injection Hbs; intros; subst bs; set_solver. }
    exists L1, p, pn, ((b, k) :: L2). assert (HL2 : ∀ c j, (c, j) ∈ (b, k) :: L2 → bp < c).
    { intros c j [[= -> ->]|Hc]%elem_of_cons; [lia|]. destruct Ho as (_ & Ho & _).
      destruct (ordered_after b k _ c j Ho Hc) as (Hend & _). unfold block_end in Hend. lia. }
    split_and!; [done..|]. by eapply slot_here.
Qed.

(** From a block above [bp] it walks to the end of the ring, and on from [base]. *)
Lemma slot_wrap s bs bp : heap s bs → base < bp → (∀ a n, (a, n) ∈ bs → a ≠ bp) → ∀ L2 fuel L1 p pn,
  ring bs = L1 ++ (p, pn) :: L2 → bp < p → (length L2 + length bs + 1 < fuel)%nat →
  ∃ L1' p' pn' L2', ring bs = L1' ++ (p', pn') :: L2' ∧ p' < bp ∧ (∀ b k, (b, k) ∈ L2' → bp < b) ∧
    free_slot fuel bp p s = Ok p' s.
Proof.
  intros Hh Hb Hne. induction L2 as [|[b k] L2 IH]; intros fuel L1 p pn Hbs Hp Hf; (destruct fuel as [|fuel]; [cbn in Hf; lia|]).
  all: pose proof (hp_chain _ _ Hh) as Hc; rewrite Hbs in Hc; apply chained_app in Hc as (_ & Hptr & _).
  all: cbn [free_slot]; rewrite (bind_ok _ _ _ _ _ (h_ptr_ok s bs p pn Hh ltac:(rewrite Hbs; set_solver))), Hptr; cbn [first_at length] in *.
  all: rewrite (proj2 (Z.ltb_ge p bp)) by lia; cbn [andb orb].
  - rewrite (proj2 (Z.ltb_ge bp base)), andb_false_r by lia. apply (slot_up s bs bp Hh Hb Hne bs fuel [] base 0); [done|done|lia].
  - pose proof (hp_ordered _ _ Hh) as Ho. rewrite Hbs in Ho. apply ordered_app_2 in Ho.
    destruct (ordered_after p pn _ b k Ho) as (Hend & _); [set_solver|]. unfold block_end in Hend.
    rewrite (proj2 (Z.leb_gt b p)) by lia. cbn [andb]. apply (IH fuel (L1 ++ [(p, pn)]) b k); [by rewrite <- app_assoc|lia|lia].
Qed.

Lemma free_slot_ok s bs bp p pn fuel :
  heap s bs → base < bp → (∀ a n, (a, n) ∈ bs → a ≠ bp) → (p, pn) ∈ ring bs → (2 * length bs + 2 < fuel)%nat →
  ∃ L1' p' pn' L2', ring bs = L1' ++ (p', pn') :: L2' ∧ p' < bp ∧ (∀ b k, (b, k) ∈ L2' → bp < b) ∧
    free_slot fuel bp p s = Ok p' s.
Proof.
  intros Hh Hb Hne Hp Hf. apply list_elem_of_split in Hp as (L1 & L2 & Hbs).
  assert (Hl : (length (ring bs) = length L1 + S (length L2))%nat) by (rewrite Hbs, length_app; done). cbn [ring length] in Hl.
  destruct (Z.lt_total p bp) as [?|[->|?]].
  - apply (slot_up s bs bp Hh Hb Hne L2 fuel L1 p pn Hbs); [done|lia].
  - exfalso. destruct L1 as [|x L1]; cbn in Hbs; injection Hbs; intros; [lia|]. apply (Hne bp pn); [subst bs; set_solver|done].
  - apply (slot_wrap s bs bp Hh Hb Hne L2 fuel L1 p pn Hbs); [done|lia].
Qed.

(** ** [free] *)

(** The block at [bp] joined with the one after it. *)
Definition join_right (bp n : Z) L2 : blocks :=
  match L2 with
  | (q, k) :: L2' => if bp + 8 * n =? q then (bp, n + k) :: L2' else (bp, n) :: L2
  | [] => [(bp, n)]
  end.
(** [p] joined with what comes after it. *)
Definition join_left (p pn : Z) L : blocks :=
  match L with
  | (b, n) :: L' => if p + 8 * pn =? b then (p, pn + n) :: L' else (p, pn) :: L
  | [] => [(p, pn)]
  end.

Lemma covers_app L1 L2 x : covers (L1 ++ L2) x ↔ covers L1 x ∨ covers L2 x.
Proof. unfold covers. set_solver. Qed.

Lemma covers_cons a n L x : covers ((a, n) :: L) x ↔ a ≤ x < a + 8 * n ∨ covers L x.
Proof.
  unfold covers. split.
  - intros (b & k & [[= -> ->]|Hb]%elem_of_cons & Hx); [by left|right; by exists b, k].
  - intros [Hx|(b & k & Hb & Hx)]; [exists a, n|exists b, k]; set_solver.
Qed.

Lemma covers_join_right bp n L x :
  0 ≤ n → (∀ b k, (b, k) ∈ L → 0 ≤ k) → covers (join_right bp n L) x ↔ bp ≤ x < bp + 8 * n ∨ covers L x.
Proof.
  intros Hn HL. destruct L as [|[q k] L]; cbn [join_right]; [by rewrite covers_cons|].
  specialize (HL q k ltac:(set_solver)). destruct (Z.eqb_spec (bp + 8 * n) q); rewrite !covers_cons; [|tauto].
  assert (bp ≤ x < bp + 8 * (n + k) ↔ bp ≤ x < bp + 8 * n ∨ q ≤ x < q + 8 * k) as -> by lia. tauto.
Qed.

Lemma covers_join_left p pn L x :
  0 ≤ pn → (∀ b k, (b, k) ∈ L → 0 ≤ k) → covers (join_left p pn L) x ↔ p ≤ x < p + 8 * pn ∨ covers L x.
Proof.
  intros Hn HL. destruct L as [|[q k] L]; cbn [join_left]; [by rewrite covers_cons|].
  specialize (HL q k ltac:(set_solver)). destruct (Z.eqb_spec (p + 8 * pn) q); rewrite !covers_cons; [|tauto].
  assert (p ≤ x < p + 8 * (pn + k) ↔ p ≤ x < p + 8 * pn ∨ q ≤ x < q + 8 * k) as -> by lia. tauto.
Qed.

Lemma join_right_ordered bp n L :
  1 ≤ n → ordered L → (∀ b k, (b, k) ∈ L → bp + 8 * n ≤ b ∧ 1 ≤ k) → ordered (join_right bp n L).
Proof.
  intros Hn HL Hb. destruct L as [|[q k] L]; cbn [join_right]; [cbn; lia|].
  destruct (Hb q k ltac:(set_solver)) as [Hq Hk]. destruct (Z.eqb_spec (bp + 8 * n) q) as [<-|Hne].
  - destruct HL as (_ & HL & Hnext). split_and!; [lia|done|]. destruct L as [|[c j] L]; [done|]. unfold block_end in *. lia.
  - split; [lia|]. split; [done|]. unfold block_end. lia.
Qed.

Lemma join_left_ordered p pn L :
  0 ≤ pn → ordered L → (∀ b k, (b, k) ∈ L → block_end p pn ≤ b ∧ 1 ≤ k) → ordered (join_left p pn L).
Proof.
  intros Hn HL Hb. destruct L as [|[q k] L]; cbn [join_left]; [cbn; lia|].
  destruct (Hb q k ltac:(set_solver)) as [Hq Hk]. destruct (Z.eqb_spec (p + 8 * pn) q) as [<-|Hne].
  - destruct HL as (_ & HL & Hnext). split_and!; [lia|done|]. destruct L as [|[c j] L]; [done|]. unfold block_end in *. lia.
  - split; [lia|]. split; [done|]. unfold block_end in *. lia.
Qed.

(** Memory that agrees outside the 8 bytes at [a]. *)
Definition same_but (a : Z) (m m' : memory) : Prop := ∀ x, x < a ∨ a + 8 ≤ x → rd8 m' x = rd8 m x.

Lemma same_but_rd32 a m m' b : same_but a m m' → b + 4 ≤ a ∨ a + 8 ≤ b → rd32 m' b = rd32 m b.
Proof. intros Hm Hb. apply rd32_ext. intros x Hx. apply Hm. lia. Qed.

Lemma same_but_chained a m m' L z :
  same_but a m m' → (∀ b k, (b, k) ∈ L → b + 8 ≤ a ∨ a + 8 ≤ b) → chained m L z → chained m' L z.
Proof. intros Hm HL. apply chained_ext. intros b k Hb. specialize (HL b k Hb). split; apply (same_but_rd32 a); (done || lia). Qed.

(** The header at [a] written, its two fields in either order. *)
Lemma same_but_wr32 a m p v : p = a ∨ p = a + 4 → same_but a m (wr32 m p v).
Proof. intros Hp x Hx. apply rd8_wr32_ne. lia. Qed.

Lemma same_but_trans a m1 m2 m3 : same_but a m1 m2 → same_but a m2 m3 → same_but a m1 m3.
Proof. intros H1 H2 x Hx. by rewrite H2, H1. Qed.

Lemma chained_fields m L z : chained m L z → ∀ b k L', L = (b, k) :: L' → rd32 m b = first_at z L' ∧ rd32 m (b + 4) = k.
Proof. intros HL b k L' ->. by destruct HL as (? & ? & _). Qed.

(** The first half of [free]: the new block points to what follows, joined with it when they touch. *)
Lemma free_right s L2 bp n :
  chained (umem s) L2 base → rd32 (umem s) (bp + 4) = n → 1 ≤ n → 0 ≤ base < bp → bp + 8 * n ≤ usz s → usz s ≤ 2 ^ 31 →
  (∀ b k, (b, k) ∈ L2 → bp + 8 * n ≤ b ∧ 1 ≤ k ∧ b + 8 * k ≤ usz s) →
  ∃ m1, (if u32 (bp + HDR * n) =? first_at base L2 then
       qsize ← h_size (first_at base L2);
       set_h_size bp (u32 (n + qsize));;
       qq ← h_ptr (first_at base L2);
       set_h_ptr bp qq
     else set_h_ptr bp (first_at base L2)) s = Ok tt (set_umem m1 s) ∧
    chained m1 (join_right bp n L2) base ∧ same_but bp (umem s) m1.
Proof.
  intros Hc Hn Hn1 Hb Ht Hsz HL2. unfold HDR, h_size, h_ptr, set_h_size, set_h_ptr. rewrite u32_small by lia.
  assert (Hsame : ∀ m1 L, same_but bp (umem s) m1 → (∀ b k, (b, k) ∈ L → (b, k) ∈ L2) → chained (umem s) L base → chained m1 L base).
  { intros m1 L Hm HL. apply (same_but_chained bp); [done|]. intros b k Hb'. destruct (HL2 b k (HL _ _ Hb')). lia. }
  destruct L2 as [|[q k] L2]; cbn [first_at join_right].
  - rewrite (proj2 (Z.eqb_neq _ _)), st32_ok by lia. eexists. split; [done|].
    assert (Hm : same_but bp (umem s) (wr32 (umem s) bp base)) by (apply same_but_wr32; by left).
    split; [|done]. split_and!; [rewrite rd32_wr32_eq, u32_small; cbn; lia|rewrite rd32_wr32_ne by lia; lia|done].
  - destruct (HL2 q k ltac:(set_solver)) as (Hq & Hk & Hqt). destruct (chained_fields _ _ _ Hc q k L2 eq_refl) as [Hqp Hqk].
    pose proof (rd32_range (umem s) q). destruct (Z.eqb_spec (bp + 8 * n) q) as [Heq|Hne].
    + rewrite (bind_ok _ _ _ k s) by (rewrite ld32_ok by lia; by rewrite Hqk).
      rewrite (bind_ok _ _ _ _ _ (st32_ok (bp + 4) _ s ltac:(lia) ltac:(lia))). set (s1 := set_umem _ s).
      rewrite (bind_ok _ _ _ (rd32 (umem s) q) s1) by (rewrite ld32_ok by (cbn; lia); cbn; by rewrite rd32_wr32_ne by lia).
      rewrite st32_ok by (cbn; lia). eexists. split; [done|].
      assert (Hm : same_but bp (umem s) (wr32 (umem s1) bp (rd32 (umem s) q))).
      { eapply same_but_trans; apply same_but_wr32; [by right|by left]. }
      split; [|done]. split_and!.
      * rewrite rd32_wr32_eq, u32_small by done. done.
      * rewrite rd32_wr32_ne by lia. cbn. rewrite rd32_wr32_eq, (u32_small (n + k)) by lia. apply u32_small. lia.
      * apply Hsame; [done|set_solver|]. by destruct Hc as (_ & _ & ?).
    + rewrite st32_ok by lia. eexists. split; [done|].
      assert (Hm : same_but bp (umem s) (wr32 (umem s) bp q)) by (apply same_but_wr32; by left).
      split; [|done]. split_and!; [rewrite rd32_wr32_eq, u32_small by lia; done|rewrite rd32_wr32_ne by lia; done|].
      apply Hsame; [done|set_solver|done].
Qed.

(** The second half: the block before points to the new one, joined with it when they touch. *)
Lemma free_left s R p pn bp n :
  chained (umem s) ((bp, n) :: R) base → rd32 (umem s) (p + 4) = pn → 0 ≤ pn → 0 ≤ base ≤ p → block_end p pn ≤ bp →
  1 ≤ n → bp + 8 * n ≤ usz s → usz s ≤ 2 ^ 31 → (∀ b k, (b, k) ∈ R → bp ≤ b) →
  ∃ m2, (psize ← h_size p;
     if u32 (p + HDR * psize) =? bp then
       bsize ← h_size bp;
       set_h_size p (u32 (psize + bsize));;
       bq ← h_ptr bp;
       set_h_ptr p bq
     else set_h_ptr p bp) s = Ok tt (set_umem m2 s) ∧
    chained m2 (join_left p pn ((bp, n) :: R)) base ∧ same_but p (umem s) m2.
Proof.
  intros Hc Hpn Hpn0 Hb He Hn Ht Hsz HR. unfold block_end in He. unfold HDR, h_size, h_ptr, set_h_size, set_h_ptr.
  rewrite (bind_ok _ _ _ pn s) by (rewrite ld32_ok by lia; by rewrite Hpn). rewrite u32_small by lia.
  assert (Hsame : ∀ m2 L, same_but p (umem s) m2 → (∀ b k, (b, k) ∈ L → bp ≤ b) → chained (umem s) L base → chained m2 L base).
  { intros m2 L Hm HL. apply (same_but_chained p); [done|]. intros b k Hb'. specialize (HL b k Hb'). lia. }
  destruct (chained_fields _ _ _ Hc bp n R eq_refl) as [Hbp Hbn]. pose proof (rd32_range (umem s) bp).
  cbn [join_left]. destruct (Z.eqb_spec (p + 8 * pn) bp) as [Heq|Hne].
  - rewrite (bind_ok _ _ _ n s) by (rewrite ld32_ok by lia; by rewrite Hbn).
    rewrite (bind_ok _ _ _ _ _ (st32_ok (p + 4) _ s ltac:(lia) ltac:(lia))). set (s1 := set_umem _ s).
    rewrite (bind_ok _ _ _ (rd32 (umem s) bp) s1) by (rewrite ld32_ok by (cbn; lia); cbn; by rewrite rd32_wr32_ne by lia).
    rewrite st32_ok by (cbn; lia). eexists. split; [done|].
    assert (Hm : same_but p (umem s) (wr32 (umem s1) p (rd32 (umem s) bp))).
    { eapply same_but_trans; apply same_but_wr32; [by right|by left]. }
    split; [|done]. split_and!.
    + rewrite rd32_wr32_eq, u32_small by done. done.
    + rewrite rd32_wr32_ne by lia. cbn. rewrite rd32_wr32_eq, (u32_small (pn + n)) by lia. apply u32_small. lia.
    + apply Hsame; [done|done|]. by destruct Hc as (_ & _ & ?).
  - rewrite st32_ok by lia. eexists. split; [done|].
    assert (Hm : same_but p (umem s) (wr32 (umem s) p bp)) by (apply same_but_wr32; by left).
    split; [|done]. split; [rewrite rd32_wr32_eq, u32_small by lia; done|]. split; [rewrite rd32_wr32_ne by lia; done|].
    apply Hsame; [done| |done]. intros b k [[= -> ->]|Hb']%elem_of_cons; [lia|by eapply HR].
Qed.

(** What an operation on the heap leaves alone: everything outside the free blocks and the
    static variables. *)
Definition heap_frame bs s s' : Prop :=
  ∀ x, ¬ covers bs x → (x < base ∨ base + 8 ≤ x) → (x < freep ∨ freep + 4 ≤ x) → rd8 (umem s') x = rd8 (umem s) x.

(** A block in use: inside the heap, with its size in its header, and away from the free ones. *)
Record used s bs (bp n : Z) : Prop := {
  us_size : rd32 (umem s) (bp + 4) = n;
  us_pos : 1 ≤ n;
  us_low : statics_end ≤ bp;
  us_high : bp + 8 * n ≤ usz s;
  us_apart a k : (a, k) ∈ bs → a + 8 * k ≤ bp ∨ bp + 8 * n ≤ a
}.

(** The ring after [free], for the place it finds. *)
Lemma freed_ring s bs L1 p pn L2 bp n :
  heap s bs → used s bs bp n → ring bs = L1 ++ (p, pn) :: L2 → p < bp → (∀ b k, (b, k) ∈ L2 → bp < b) →
  (∀ b k, (b, k) ∈ L2 → bp + 8 * n ≤ b ∧ 1 ≤ k ∧ b + 8 * k ≤ usz s) ∧ 0 ≤ pn ∧ block_end p pn ≤ bp ∧ (p, pn) ∈ ring bs.
Proof.
  intros Hh Hu Hbs Hp HL2. assert (Hin : (p, pn) ∈ ring bs) by (rewrite Hbs; set_solver).
  assert (Hsub : ∀ b k, (b, k) ∈ L2 → (b, k) ∈ bs).
  { intros b k Hb. destruct L1 as [|x L1]; cbn in Hbs; injection Hbs; intros; subst bs; [done|set_solver]. }
  split_and!; [|..|done].
  - intros b k Hb. destruct (hp_blocks _ _ Hh b k (Hsub b k Hb)) as (Hk & _ & Ht). destruct (us_apart _ _ _ _ Hu b k (Hsub b k Hb)) as [Hl|Hr].
    + specialize (HL2 b k Hb). lia.
    + unfold HDR in Ht. lia.
  - pose proof (hp_ordered _ _ Hh) as Ho. rewrite Hbs in Ho. apply ordered_app_2 in Ho. by destruct Ho.
  - apply elem_of_cons in Hin as [[= -> ->]|Hin].
    + pose proof (us_low _ _ _ _ Hu) as Hl. unfold statics_end, HDR in Hl. unfold block_end. lia.
    + destruct (hp_blocks _ _ Hh p pn Hin) as (Hk & _ & _). pose proof (us_pos _ _ _ _ Hu).
      destruct (us_apart _ _ _ _ Hu p pn Hin); unfold block_end; lia.
Qed.

Lemma join_right_in bp n L a k :
  1 ≤ n → (∀ b j, (b, j) ∈ L → 1 ≤ j) → (a, k) ∈ join_right bp n L → 1 ≤ k ∧ (a = bp ∨ (a, k) ∈ L).
Proof.
  intros Hn HL Ha. destruct L as [|[q j] L]; cbn [join_right] in Ha; [set_solver|].
  pose proof (HL q j ltac:(set_solver)). destruct (_ =? _); apply elem_of_cons in Ha as [[= -> ->]|Ha].
  - split; [lia|by left].
  - split; [apply (HL a k); set_solver|right; set_solver].
  - split; [lia|by left].
  - split; [by apply (HL a k)|by right].
Qed.

Lemma join_right_head bp n L : ∃ n' R, join_right bp n L = (bp, n') :: R ∧ (∀ b j, (b, j) ∈ R → (b, j) ∈ L).
Proof. destruct L as [|[q j] L]; cbn [join_right]; [|destruct (_ =? _)]; eexists _, _; (split; [done|]); set_solver. Qed.

(** The blocks of the ring after [free]. *)
Lemma freed_blocks s bs L1 p pn L2 bp n :
  heap s bs → used s bs bp n → ring bs = L1 ++ (p, pn) :: L2 → p < bp → (∀ b k, (b, k) ∈ L2 → bp < b) →
  ∃ bs', L1 ++ join_left p pn (join_right bp n L2) = ring bs' ∧
    (∀ a k, (a, k) ∈ bs' → 1 ≤ k) ∧ (∀ x, covers bs' x ↔ covers bs x ∨ bp ≤ x < bp + 8 * n).
Proof.
  intros Hh Hu Hbs Hp HL2. destruct (freed_ring s bs L1 p pn L2 bp n Hh Hu Hbs Hp HL2) as (HL & Hpn & He & _).
  pose proof (us_pos _ _ _ _ Hu) as Hn. set (R := join_right bp n L2).
  assert (HR : ∀ a k, (a, k) ∈ R → 1 ≤ k) by (intros a k Ha; eapply (join_right_in bp n L2); [done| |exact Ha]; intros b j Hb; by apply (HL b j)).
  assert (Hcov : ∀ x, covers (L1 ++ join_left p pn R) x ↔ covers (ring bs) x ∨ bp ≤ x < bp + 8 * n).
  { intros x. rewrite Hbs, !covers_app, covers_cons, covers_join_left; [|done|intros b k Hb; specialize (HR b k Hb); lia].
    unfold R. rewrite covers_join_right; [tauto|lia|]. intros b k Hb. destruct (HL b k Hb). lia. }
  assert (Hring : ∀ L x, covers (ring L) x ↔ covers L x) by (intros L x; unfold ring; rewrite covers_cons; split; [intros [?|?]; [lia|done]|by right]).
  destruct (join_right_head bp n L2) as (n' & R' & HRe & _). fold R in HRe.
  destruct L1 as [|[c j] L1]; cbn [app] in *; injection Hbs as Hb1 Hb2 Hbs'.
  - subst p pn. exists R. unfold ring. assert (Hj : join_left base 0 R = (base, 0) :: R).
    { rewrite HRe. cbn [join_left]. rewrite (proj2 (Z.eqb_neq _ _)); [done|lia]. }
    split_and!; [done|done|]. intros x. rewrite <- Hring, <- (Hring bs), <- Hcov, Hj. done.
  - subst c j. exists (L1 ++ join_left p pn R). split_and!; [done| |].
    + intros a k [Ha|Ha]%elem_of_app; [by apply (hp_blocks _ _ Hh a k); rewrite Hbs'; set_solver|].
      assert (1 ≤ pn) by (apply (hp_blocks _ _ Hh p pn); rewrite Hbs'; set_solver). rewrite HRe in Ha, HR. cbn [join_left] in Ha.
      pose proof (HR bp n' ltac:(set_solver)). destruct (_ =? _); apply elem_of_cons in Ha as [[= -> ->]|Ha]; [lia| |lia|]; apply (HR a k); set_solver.
    + intros x. rewrite <- Hring, <- (Hring bs), <- Hcov. done.
Qed.

Lemma covered_range s bs x : heap s bs → covers bs x → statics_end ≤ x < usz s.
Proof. intros Hh (a & n & Ha & Hx). destruct (hp_blocks _ _ Hh a n Ha) as (? & ? & Ht). unfold HDR in Ht. lia. Qed.

(** Blocks that cover what is inside the heap are inside it. *)
Lemma blocks_inside bs' lo hi :
  (∀ a k, (a, k) ∈ bs' → 1 ≤ k) → (∀ x, covers bs' x → lo ≤ x < hi) → ∀ a k, (a, k) ∈ bs' → 1 ≤ k ∧ lo ≤ a ∧ a + HDR * k ≤ hi.
Proof.
  intros Hk Hx a k Ha. specialize (Hk a k Ha). unfold HDR. pose proof (Hx a ltac:(exists a, k; split; [done|lia])).
  pose proof (Hx (a + 8 * k - 1) ltac:(exists a, k; split; [done|lia])). split_and!; [done|lia|lia].
Qed.

Lemma freep_apart bs' s bs : heap s bs → (∀ a k, (a, k) ∈ bs' → statics_end ≤ a) → ∀ a k, (a, k) ∈ ring bs' → a + 8 ≤ freep ∨ freep + 4 ≤ a.
Proof.
  intros Hh Hb a k [[= -> ->]|Ha]%elem_of_cons; [pose proof (hp_apart _ _ Hh); unfold HDR in *; lia|].
  specialize (Hb a k Ha). unfold statics_end in Hb. lia.
Qed.

Lemma freep_store bs' s bs m p z :
  heap s bs → (∀ a k, (a, k) ∈ bs' → statics_end ≤ a) → chained m (ring bs') z → chained (wr32 m freep p) (ring bs') z.
Proof.
  intros Hh Hb. apply chained_ext. intros a k Ha. destruct (freep_apart bs' s bs Hh Hb a k Ha); split; apply rd32_wr32_ne; lia.
Qed.

Lemma join_left_first p pn L z : first_at z (join_left p pn L) = p.
Proof. destruct L as [|[b n] L]; cbn [join_left]; [done|]. by destruct (_ =? _). Qed.

(** The run of [free], up to the last store. *)
Lemma ufree_run s bs bp n fuel :
  heap s bs → used s bs bp n → (2 * length bs + 2 < fuel)%nat →
  ∃ L1 p pn L2 m, ring bs = L1 ++ (p, pn) :: L2 ∧ p + 8 ≤ bp ∧ (∀ b k, (b, k) ∈ L2 → bp < b) ∧
    ufree fuel (bp + HDR) s = Ok tt (set_umem (wr32 m freep p) s) ∧
    chained m (join_left p pn (join_right bp n L2)) base ∧
    ∀ x, (x < p ∨ p + 8 ≤ x) → (x < bp ∨ bp + 8 ≤ x) → rd8 m x = rd8 (umem s) x.
Proof.
  intros Hh Hu Hf. pose proof Hu as [Hsz Hpos Hlow Hhigh Hap]. pose proof (hp_base _ _ Hh) as Hb0. pose proof (hp_room _ _ Hh) as Hroom.
  pose proof (hp_apart _ _ Hh) as Hapart. assert (Hbb : base + 8 ≤ bp ∧ freep + 4 ≤ bp) by (unfold statics_end, HDR in Hlow; lia).
  unfold ufree. replace (bp + HDR - HDR) with bp by lia. rewrite (u32_small bp) by lia. cbv zeta.
  destruct (hp_freep _ _ Hh) as (fn & Hfn).
  rewrite (bind_ok _ _ _ (rd32 (umem s) freep) s) by (apply ld32_ok; [|unfold statics_end, HDR in *]; lia).
  destruct (free_slot_ok s bs bp (rd32 (umem s) freep) fn fuel Hh) as (L1 & p & pn & L2 & Hbs & Hp & HL2 & Hslot); [lia| |done|done|].
  { intros a k Ha. destruct (hp_blocks _ _ Hh a k Ha) as (? & _). destruct (Hap a k Ha); lia. }
  rewrite (bind_ok _ _ _ _ _ Hslot). destruct (freed_ring s bs L1 p pn L2 bp n Hh Hu Hbs Hp HL2) as (HR & Hpn0 & Hend & Hin).
  pose proof (hp_chain _ _ Hh) as Hc. rewrite Hbs in Hc. apply chained_app in Hc as (Hc1 & Hpp & Hpn & Hc2).
  destruct (heap_node s bs p pn Hh Hin) as (Hpb & Hpt & Hpf). assert (Hpe : p + 8 ≤ bp) by (unfold block_end in Hend; lia).
  rewrite (bind_ok _ _ _ _ _ (h_ptr_ok s bs p pn Hh Hin)), Hpp.
  rewrite (bind_ok _ _ _ n s) by (unfold h_size; rewrite ld32_ok by lia; by rewrite Hsz).
  destruct (free_right s L2 bp n Hc2 Hsz Hpos) as (m1 & Hrun1 & Hch1 & Hs1); [lia|done|lia|done|].
  rewrite (bind_ok _ _ _ _ _ Hrun1). destruct (join_right_head bp n L2) as (n' & R & HRe & HRs). rewrite HRe in Hch1.
  assert (Hn' : 1 ≤ n' ∧ bp + 8 * n' ≤ usz s).
  { destruct L2 as [|[q k] L2]; cbn [join_right] in HRe; [naive_solver|]. destruct (HR q k ltac:(set_solver)) as (? & ? & ?).
    destruct (Z.eqb_spec (bp + 8 * n) q); simplify_eq; lia. }
  destruct (free_left (set_umem m1 s) R p pn bp n' Hch1) as (m2 & Hrun2 & Hch2 & Hs2); [|done|lia|done|lia|cbn; lia|cbn; lia| |].
  { cbn. rewrite <- Hpn. apply (same_but_rd32 bp); [done|lia]. }
  { intros b k Hb. specialize (HL2 b k (HRs _ _ Hb)). lia. }
  exists L1, p, pn, L2, m2. rewrite HRe. split_and!; [done|done|done| |done|].
  - etrans; [symmetry; apply bind_assoc|]. rewrite (bind_ok _ _ _ _ _ Hrun2).
    rewrite st32_ok; [done|lia|unfold statics_end, HDR in *; cbn; lia].
  - intros x Hx Hx'. rewrite (Hs2 x Hx). by apply Hs1.
Qed.

Lemma ufree_ok s bs bp n fuel :
  heap s bs → used s bs bp n → (2 * length bs + 2 < fuel)%nat →
  ∃ s' bs', ufree fuel (bp + HDR) s = Ok tt s' ∧ heap s' bs' ∧ (∀ x, covers bs' x ↔ covers bs x ∨ bp ≤ x < bp + 8 * n) ∧
    usz s' = usz s ∧ uworld s' = uworld s ∧ heap_frame bs' s s' ∧ (length bs' ≤ S (length bs))%nat.
Proof.
  intros Hh Hu Hf. destruct (ufree_run s bs bp n fuel Hh Hu Hf) as (L1 & p & pn & L2 & m & Hbs & Hp & HL2 & Hrun & Hch & Hm).
  destruct (freed_blocks s bs L1 p pn L2 bp n Hh Hu Hbs ltac:(lia) HL2) as (bs' & Hbs' & Hk & Hcov).
  destruct (freed_ring s bs L1 p pn L2 bp n Hh Hu Hbs ltac:(lia) HL2) as (HR & Hpn0 & Hend & Hin).
  pose proof Hu as [_ Hpos Hlow Hhigh _]. pose proof (hp_ordered _ _ Hh) as Ho. rewrite Hbs in Ho.
  assert (Hins : ∀ a k, (a, k) ∈ bs' → 1 ≤ k ∧ statics_end ≤ a ∧ a + HDR * k ≤ usz s).
  { apply blocks_inside; [done|]. intros x [Hx|Hx]%Hcov; [by eapply covered_range|lia]. }
  assert (Hst : ∀ a k, (a, k) ∈ bs' → statics_end ≤ a) by (intros a k Ha; by apply (Hins a k)).
  pose proof (hp_chain _ _ Hh) as Hc. rewrite Hbs in Hc. apply chained_app in Hc as (Hc1 & _). cbn [first_at] in Hc1.
  eexists _, bs'. split; [exact Hrun|]. split_and!; [split|done|done|done| |].
  - apply (freep_store bs' s bs); [done|done|]. rewrite <- Hbs'. apply chained_app. rewrite join_left_first. split; [|done].
    eapply chained_ext; [|exact Hc1]. intros a k Ha. destruct (ordered_app L1 p pn L2 a k Ho Ha) as [He _]. unfold block_end in He.
    split; apply rd32_ext; intros i Hi; apply Hm; lia.
  - rewrite <- Hbs'. eapply ordered_replace; [exact Ho| |intros z; rewrite join_left_first; done|by left].
    assert (HRin : ∀ b k, (b, k) ∈ join_right bp n L2 → bp ≤ b ∧ 1 ≤ k).
    { intros b k Hb. destruct (join_right_in bp n L2 b k Hpos ltac:(intros c j Hc; by apply (HR c j)) Hb) as [? [->|Hb']]; [lia|]. specialize (HL2 b k Hb'). lia. }
    apply join_left_ordered; [done| |intros b k Hb; destruct (HRin b k Hb); unfold block_end in *; lia].
    apply join_right_ordered; [done|by apply ordered_app_2 in Ho as (_ & Ho & _)|]. intros b k Hb. destruct (HR b k Hb). lia.
  - done.
  - apply (hp_base _ _ Hh).
  - apply (hp_apart _ _ Hh).
  - apply (hp_room _ _ Hh).
  - cbn. pose proof (heap_node s bs p pn Hh Hin). pose proof (hp_base _ _ Hh). pose proof (hp_room _ _ Hh).
    rewrite rd32_wr32_eq, u32_small by lia. rewrite <- Hbs'.
    destruct (join_left p pn (join_right bp n L2)) as [|[c k] J] eqn:HJ; pose proof (join_left_first p pn (join_right bp n L2) (-1)) as Hfst; rewrite HJ in Hfst; cbn in Hfst; [lia|].
    subst c. exists k. set_solver.
  - intros x Hx Hxb Hxf. cbn. rewrite rd8_wr32_ne by lia. rewrite Hcov in Hx. apply Hm; [|lia].
    apply elem_of_cons in Hin as [[= -> ->]|Hin]; [lia|]. destruct (hp_blocks _ _ Hh p pn Hin).
    destruct (decide (p ≤ x < p + 8)); [|lia]. exfalso. apply Hx. left. exists p, pn. split; [done|lia].
  - assert (Hlen : (length (ring bs') ≤ S (length (ring bs)))%nat); [|cbn in Hlen; lia]. rewrite <- Hbs', Hbs, !length_app. cbn [length].
    assert ((length (join_right bp n L2) ≤ S (length L2))%nat) by (destruct L2 as [|[q k] L2]; cbn; [lia|destruct (_ =? _); cbn; lia]).
    destruct (join_right bp n L2) as [|[b j] R]; cbn [join_left length] in *; [lia|]. destruct (_ =? _); cbn [length]; lia.
Qed.

(** ** [malloc] *)

(** A block taken out of the ring: [bp] of [n] headers, the rest of the ring is [bs']. *)
Record taken s bs s' bs' (bp n : Z) : Prop := {
  tk_heap : heap s' bs';
  tk_used : used s' bs' bp n;
  tk_covers x : covers bs x ↔ covers bs' x ∨ bp ≤ x < bp + 8 * n;
  tk_frame : heap_frame bs s s';
  tk_size : usz s' = usz s;
  tk_world : uworld s' = uworld s;
  tk_tail : ∃ a k, (a, k) ∈ bs ∧ n ≤ k ∧ bp + 8 * n = a + 8 * k
}.

Lemma heap_change s bs s' bs' :
  heap s bs → usz s' = usz s → chained (umem s') (ring bs') base → ordered (ring bs') → (∀ a k, (a, k) ∈ bs' → 1 ≤ k) →
  (∀ x, covers bs' x → covers bs x) → (∃ n, (rd32 (umem s') freep, n) ∈ ring bs') → heap s' bs'.
Proof.
  intros Hh Hz Hc Ho Hk Hx Hf. split; [done|done| |apply Hh|apply Hh|rewrite Hz; apply Hh|done].
  rewrite Hz. apply blocks_inside; [done|]. intros x Hcx. by eapply covered_range, Hx.
Qed.

(** The ring without its block at [p]. *)
Lemma ring_without L1 a k p n L2 : ordered (L1 ++ (a, k) :: (p, n) :: L2) → ordered (L1 ++ (a, k) :: L2).
Proof.
  intros Ho. eapply ordered_replace; [exact Ho| |done|by left]. apply ordered_app_2 in Ho.
  destruct Ho as (Hk & (Hn & Ho & Hpn) & Hap). split; [done|]. split; [done|]. destruct L2 as [|[c j] L2]; [done|]. unfold block_end in *. lia.
Qed.

(** The ring with its block at [p] cut to [n'] headers. *)
Lemma ring_cut L1 p n n' L2 : ordered (L1 ++ (p, n) :: L2) → 1 ≤ n' ≤ n → ordered (L1 ++ (p, n') :: L2).
Proof.
  intros Ho Hn'. eapply ordered_replace; [exact Ho| |done|by left]. apply ordered_app_2 in Ho.
  destruct Ho as (Hk & Ho & Hap). split; [lia|]. split; [done|]. destruct L2 as [|[c j] L2]; [done|]. unfold block_end in *. lia.
Qed.

(** Dropping or replacing a block of the heap keeps [base] in front. *)
Lemma ring_tail bs L1 prevp pk L2 L2' :
  ring bs = L1 ++ (prevp, pk) :: L2 → ∃ bs', L1 ++ (prevp, pk) :: L2' = ring bs' ∧
    ((bs = L2 ∧ bs' = L2') ∨ ∃ L, bs = L ++ (prevp, pk) :: L2 ∧ bs' = L ++ (prevp, pk) :: L2').
Proof.
  intros Hbs. destruct L1 as [|[c j] L1]; cbn [app] in *; injection Hbs as Hb1 Hb2 Hbs.
  - subst. exists L2'. split; [done|by left].
  - subst. exists (L1 ++ (prevp, pk) :: L2'). split; [done|right; by exists L1].
Qed.

Lemma covers_ring bs x : covers (ring bs) x ↔ covers bs x.
Proof. unfold ring. rewrite covers_cons. split; [intros [?|?]; [lia|done]|by right]. Qed.

(** Where the blocks before and after [p] lie. *)
Lemma around L1 p n L2 a k :
  ordered (L1 ++ (p, n) :: L2) → (a, k) ∈ L1 ∨ (a, k) ∈ L2 → block_end a k ≤ p ∨ block_end p n ≤ a.
Proof.
  intros Ho [Ha|Ha]; [left; by eapply ordered_app|right]. apply ordered_app_2 in Ho. by eapply ordered_after.
Qed.

Lemma app_cons (L1 : blocks) x (L2 : blocks) : L1 ++ x :: L2 = (L1 ++ [x]) ++ L2.
Proof. by rewrite <- app_assoc. Qed.

(** The facts about the block [p] of the heap that the two ways to take from it share. *)
Lemma block_facts s bs L1 prevp pk p size L2 :
  heap s bs → ring bs = L1 ++ (prevp, pk) :: (p, size) :: L2 →
  (p, size) ∈ bs ∧ (prevp, pk) ∈ ring bs ∧ statics_end ≤ p ∧ p + 8 * size ≤ usz s ∧ usz s ≤ 2 ^ 31 ∧ 0 < base ≤ prevp ∧ prevp + 8 ≤ p ∧
  (prevp + 8 ≤ freep ∨ freep + 4 ≤ prevp) ∧ 0 ≤ freep ∧ freep + 4 ≤ statics_end ∧ base + 8 ≤ statics_end ∧ 1 ≤ size.
Proof.
  intros Hh Hbs. assert (Hp : (p, size) ∈ bs) by (destruct L1 as [|x L1]; cbn in Hbs; injection Hbs; intros; subst bs; set_solver).
  assert (Hq : (prevp, pk) ∈ ring bs) by (rewrite Hbs; set_solver). destruct (hp_blocks _ _ Hh p size Hp) as (Hz & Hs & Ht). unfold HDR in Ht.
  destruct (heap_node s bs prevp pk Hh Hq) as (Hb & _ & Hf). pose proof (hp_base _ _ Hh). pose proof (hp_room _ _ Hh). pose proof (hp_apart _ _ Hh).
  pose proof (hp_ordered _ _ Hh) as Ho. rewrite Hbs in Ho. apply ordered_app_2 in Ho.
  destruct (ordered_after prevp pk _ p size Ho ltac:(set_solver)) as (He & _). unfold block_end in He. unfold statics_end, HDR in *.
  split_and!; (done || lia).
Qed.

(** Taking a whole block out. *)
Lemma malloc_whole s bs L1 prevp pk p size L2 :
  heap s bs → ring bs = L1 ++ (prevp, pk) :: (p, size) :: L2 →
  ∃ bs', taken s bs (set_umem (wr32 (wr32 (umem s) prevp (rd32 (umem s) p)) freep prevp) s) bs' p size ∧ (length bs' ≤ length bs)%nat.
Proof.
  intros Hh Hbs. destruct (block_facts _ _ _ _ _ _ _ _ Hh Hbs) as (Hp & Hq & Hps & Hpt & Hsz & Hqb & Hqp & Hqf & Hf0 & Hf4 & Hb8 & Hz).
  destruct (ring_tail bs L1 prevp pk ((p, size) :: L2) L2 Hbs) as (bs' & Hbs' & Htl).
  assert (Hsub : ∀ a k, (a, k) ∈ bs' → (a, k) ∈ bs) by (destruct Htl as [[-> ->]|(L & -> & ->)]; set_solver).
  pose proof (hp_ordered _ _ Hh) as Ho. rewrite Hbs in Ho.
  pose proof (hp_chain _ _ Hh) as Hc. rewrite Hbs in Hc. apply chained_app in Hc as (Hc1 & Hqp' & Hqk & Hpp & Hpk & Hc2). cbn [first_at] in *.
  set (m1 := wr32 (umem s) prevp (rd32 (umem s) p)).
  assert (Hm1 : same_but prevp (umem s) m1) by (apply same_but_wr32; by left).
  assert (Hcov : ∀ x, covers bs x ↔ covers bs' x ∨ p ≤ x < p + 8 * size).
  { intros x. rewrite <- covers_ring, <- (covers_ring bs'), Hbs, <- Hbs', !covers_app, !covers_cons. tauto. }
  exists bs'. split; [|destruct Htl as [[-> ->]|(L & -> & ->)]; rewrite ?length_app; cbn [length]; lia]. split.
  - eapply heap_change; [exact Hh|done| | |intros a k Ha; by apply (hp_blocks _ _ Hh a k), Hsub|intros x Hx; apply Hcov; by left|].
    + apply (freep_store bs' s bs); [done|intros a k Ha; by apply (hp_blocks _ _ Hh a k), Hsub|]. rewrite <- Hbs'. apply chained_app. cbn [first_at]. split.
      * apply (same_but_chained prevp (umem s)); [done| |done]. intros a k Ha. destruct (ordered_app L1 prevp pk _ a k Ho Ha) as [He _]. unfold block_end in He. lia.
      * split_and!; [|by rewrite <- Hqk; unfold m1; rewrite rd32_wr32_ne by lia|].
        { unfold m1. rewrite rd32_wr32_eq, u32_small by apply rd32_range. done. }
        apply (same_but_chained prevp (umem s)); [done| |done]. intros a k Ha. apply ordered_app_2 in Ho.
        destruct (ordered_after prevp pk _ a k Ho ltac:(set_solver)) as (He & _). unfold block_end in He. lia.
    + rewrite <- Hbs'. by eapply ring_without.
    + cbn. rewrite rd32_wr32_eq, u32_small by lia. exists pk. rewrite <- Hbs'. set_solver.
  - split; [|by apply (hp_blocks _ _ Hh p size)|done|done|].
    + cbn. unfold m1. rewrite !rd32_wr32_ne by lia. done.
    + intros a k Ha. destruct (hp_blocks _ _ Hh a k (Hsub a k Ha)) as (Hk & _).
      rewrite app_cons in Ho. assert (Hin : (a, k) ∈ ring bs') by (by right). rewrite <- Hbs', app_cons in Hin.
      destruct (around _ p size L2 a k Ho) as [He|He]; [set_solver|unfold block_end in He; lia..].
  - done.
  - intros x Hx Hxb Hxf. cbn. rewrite rd8_wr32_ne by lia. apply elem_of_cons in Hq as [[= -> ->]|Hq]; [apply Hm1; lia|].
    apply Hm1. destruct (hp_blocks _ _ Hh prevp pk Hq). destruct (decide (prevp ≤ x < prevp + 8)); [|lia].
    exfalso. apply Hx. exists prevp, pk. split; [done|lia].
  - done.
  - done.
  - by exists p, size.
Qed.

(** Taking the end of a block. *)
Lemma malloc_part s bs L1 prevp pk p size L2 n :
  heap s bs → ring bs = L1 ++ (prevp, pk) :: (p, size) :: L2 → 1 ≤ n < size →
  let bp := p + 8 * (size - n) in
  ∃ bs', taken s bs (set_umem (wr32 (wr32 (wr32 (umem s) (p + 4) (size - n)) (bp + 4) n) freep prevp) s) bs' bp n ∧ (length bs' ≤ length bs)%nat.
Proof.
  intros Hh Hbs Hn bp. destruct (block_facts _ _ _ _ _ _ _ _ Hh Hbs) as (Hp & Hq & Hps & Hpt & Hsz & Hqb & Hqp & Hqf & Hf0 & Hf4 & Hb8 & Hz).
  destruct (ring_tail bs L1 prevp pk ((p, size) :: L2) ((p, size - n) :: L2) Hbs) as (bs' & Hbs' & Htl).
  assert (Hsub : ∀ a k, (a, k) ∈ bs' → (a, k) = (p, size - n) ∨ (a, k) ∈ bs) by (destruct Htl as [[-> ->]|(L & -> & ->)]; set_solver).
  assert (Hst : ∀ a k, (a, k) ∈ bs' → 1 ≤ k ∧ statics_end ≤ a).
  { intros a k [[= -> ->]|Ha]%Hsub; [lia|]. by destruct (hp_blocks _ _ Hh a k Ha) as (? & ? & _). }
  pose proof (hp_ordered _ _ Hh) as Ho. rewrite Hbs, app_cons in Ho. rewrite app_cons in Hbs, Hbs'.
  pose proof (hp_chain _ _ Hh) as Hc. rewrite Hbs in Hc. apply chained_app in Hc as (Hc1 & Hpp & Hpk & Hc2). cbn [first_at] in *.
  set (m1 := wr32 (umem s) (p + 4) (size - n)). set (m2 := wr32 m1 (bp + 4) n).
  assert (Hm2 : ∀ x, x < p ∨ p + 8 * size ≤ x → rd8 m2 x = rd8 (umem s) x) by (intros x Hx; unfold m2, m1; rewrite !rd8_wr32_ne by lia; done).
  assert (Hcov : ∀ x, covers bs x ↔ covers bs' x ∨ bp ≤ x < bp + 8 * n).
  { intros x. rewrite <- covers_ring, <- (covers_ring bs'), Hbs, <- Hbs', !covers_app, !covers_cons. unfold bp.
    assert (p ≤ x < p + 8 * size ↔ p ≤ x < p + 8 * (size - n) ∨ p + 8 * (size - n) ≤ x < p + 8 * (size - n) + 8 * n) as -> by lia. tauto. }
  exists bs'. split; [|destruct Htl as [[-> ->]|(L & -> & ->)]; rewrite ?length_app; cbn [length]; lia]. split.
  - eapply heap_change; [exact Hh|done| | |intros a k Ha; by apply (Hst a k)|intros x Hx; apply Hcov; by left|].
    + apply (freep_store bs' s bs); [done|intros a k Ha; by apply (Hst a k)|]. rewrite <- Hbs'. apply chained_app. cbn [first_at]. split.
      * eapply chained_ext; [|exact Hc1]. intros a k Ha. destruct (ordered_app _ p size _ a k Ho Ha) as [He _]. unfold block_end in He.
        split; apply rd32_ext; intros i Hi; apply Hm2; lia.
      * split_and!; [unfold m2, m1; by rewrite !rd32_wr32_ne by lia| |].
        { unfold m2, m1. rewrite rd32_wr32_ne, rd32_wr32_eq, u32_small by lia. done. }
        eapply chained_ext; [|exact Hc2]. intros a k Ha. apply ordered_app_2 in Ho.
        destruct (ordered_after p size _ a k Ho Ha) as (He & _). unfold block_end in He. split; apply rd32_ext; intros i Hi; apply Hm2; lia.
    + rewrite <- Hbs'. eapply ring_cut; [exact Ho|lia].
    + cbn. rewrite rd32_wr32_eq, u32_small by lia. exists pk. rewrite <- Hbs'. set_solver.
  - split; [|lia|lia|cbn; lia|].
    + cbn. rewrite rd32_wr32_ne by lia. unfold m2. rewrite rd32_wr32_eq, u32_small by lia. done.
    + intros a k Ha. destruct (Hst a k Ha) as (Hk & _). destruct (decide ((a, k) = (p, size - n))) as [[= -> ->]|Hne]; [lia|].
      assert (Hin : (a, k) ∈ ring bs') by (by right). rewrite <- Hbs' in Hin.
      destruct (around _ p size L2 a k Ho) as [He|He]; [set_solver|unfold block_end in He; lia..].
  - done.
  - intros x Hx Hxb Hxf. cbn. rewrite rd8_wr32_ne by lia. apply Hm2. destruct (decide (p ≤ x < p + 8 * size)); [|lia].
    exfalso. apply Hx. by exists p, size.
  - done.
  - done.
  - exists p, size. split_and!; [done|lia|lia].
Qed.

(** ** The search *)
Lemma chained_lookup m L z i a n : chained m L z → L !! i = Some (a, n) → rd32 m a = first_at z (drop (S i) L) ∧ rd32 m (a + 4) = n.
Proof.
  revert i. induction L as [|[b k] L IH]; intros i Hc Hi; [done|]. destruct Hc as (Hb & Hk & Hc). destruct i as [|i].
  - injection Hi as -> ->. done.
  - apply (IH i Hc Hi).
Qed.

Lemma ring_inj bs i j a n k : ordered (ring bs) → ring bs !! i = Some (a, n) → ring bs !! j = Some (a, k) → i = j.
Proof.
  intros Ho Hi Hj. destruct (Nat.lt_total i j) as [Hlt|[?|Hlt]]; [exfalso|done|exfalso].
  - apply take_drop_middle in Hi as Hs. rewrite <- Hs in Ho. apply ordered_app_2 in Ho.
    assert (Hin : (a, k) ∈ drop (S i) (ring bs)).
    { apply list_elem_of_lookup. exists (j - S i)%nat. rewrite lookup_drop. by replace (S i + (j - S i))%nat with j by lia. }
    destruct (ordered_after a n _ a k Ho Hin) as (He & _). unfold block_end in He. lia.
  - apply take_drop_middle in Hj as Hs. rewrite <- Hs in Ho. apply ordered_app_2 in Ho.
    assert (Hin : (a, n) ∈ drop (S j) (ring bs)).
    { apply list_elem_of_lookup. exists (i - S j)%nat. rewrite lookup_drop. by replace (S j + (i - S j))%nat with i by lia. }
    destruct (ordered_after a k _ a n Ho Hin) as (He & _). unfold block_end in He. lia.
Qed.

Lemma succ_mod f e N : ((f + S e) mod N = S ((f + e) mod N) mod N)%nat.
Proof. rewrite Nat.add_succ_r. symmetry. rewrite <- (Nat.add_1_l (_ mod _)), Nat.Div0.add_mod_idemp_r. done. Qed.

(** The block [e] steps after index [f] of the ring. *)
Definition at_step bs (f e : nat) : option (Z * Z) := ring bs !! ((f + e) mod length (ring bs))%nat.

Lemma step_next s bs f e a n : heap s bs → at_step bs f e = Some (a, n) → ∃ k, at_step bs f (S e) = Some (rd32 (umem s) a, k).
Proof.
  unfold at_step. intros Hh Hi. set (N := length (ring bs)) in *. assert (HN : (0 < N)%nat) by (cbn; lia).
  destruct (chained_lookup _ _ _ _ a n (hp_chain _ _ Hh) Hi) as [-> _].
  rewrite succ_mod.
  pose proof (Nat.mod_upper_bound (f + e) N ltac:(lia)) as Hm. destruct (decide (S ((f + e) mod N) < N)%nat) as [Hlt|Hge].
  - rewrite (Nat.mod_small (S _)) by done. destruct (lookup_lt_is_Some_2 (ring bs) (S ((f + e) mod N)) Hlt) as [[b k] Hb].
    exists k. rewrite Hb. by rewrite (drop_S _ _ _ Hb).
  - replace (S ((f + e) mod N)) with N by lia. rewrite Nat.Div0.mod_same. exists 0. rewrite drop_ge by (fold N; lia). done.
Qed.

Lemma step_full bs f : (f < length (ring bs))%nat → at_step bs f (length (ring bs)) = ring bs !! f.
Proof.
  intros Hf. unfold at_step. rewrite <- (Nat.mul_1_l (length (ring bs))) at 1. rewrite Nat.Div0.mod_add. by rewrite Nat.mod_small.
Qed.

(** Two blocks in a row, the second of them not [base]. *)
Lemma step_split bs f e prevp pk p size :
  at_step bs f e = Some (prevp, pk) → at_step bs f (S e) = Some (p, size) → 1 ≤ size →
  ∃ L1 L2, ring bs = L1 ++ (prevp, pk) :: (p, size) :: L2.
Proof.
  unfold at_step. set (N := length (ring bs)). intros Hj Hi Hs. set (j := ((f + e) mod N)%nat) in *.
  assert (Hij : ((f + S e) mod N = S j mod N)%nat).
  { unfold j. apply succ_mod. }
  rewrite Hij in Hi. assert (HjN : (j < N)%nat) by by apply lookup_lt_Some in Hj.
  destruct (decide (S j < N)%nat) as [Hlt|Hge].
  - rewrite Nat.mod_small in Hi by done. exists (take j (ring bs)), (drop (S (S j)) (ring bs)).
    rewrite <- (drop_S _ _ _ Hi). by rewrite take_drop_middle.
  - replace (S j) with N in Hi by lia. rewrite Nat.Div0.mod_same in Hi. injection Hi. lia.
Qed.

(** Taking a block at [p], whose predecessor is [prevp]. *)
Lemma malloc_take s bs f e prevp pk p size nunits :
  heap s bs → at_step bs f e = Some (prevp, pk) → at_step bs f (S e) = Some (p, size) → 1 ≤ nunits ≤ size →
  ∃ s' bs' bp,
    (p ← (if size =? nunits then q ← h_ptr p; set_h_ptr prevp q;; ret p
          else
            set_h_size p (u32 (size - nunits));;
            size ← h_size p;
            let p := u32 (p + HDR * size) in
            set_h_size p nunits;;
            ret p);
     st32 freep prevp;;
     ret (p + HDR)) s = Ok (bp + HDR) s' ∧ taken s bs s' bs' bp nunits ∧ (length bs' ≤ length bs)%nat.
Proof.
  intros Hh Hj Hi Hn. destruct (step_split bs f e prevp pk p size Hj Hi ltac:(lia)) as (L1 & L2 & Hbs).
  destruct (block_facts _ _ _ _ _ _ _ _ Hh Hbs) as (Hp & Hq & Hps & Hpt & Hsz & Hqb & Hqp & Hqf & Hf0 & Hf4 & Hb8 & Hz).
  assert (Hfin : ∀ m bp, (st32 freep prevp;; ret (bp + HDR)) (set_umem m s) = Ok (bp + HDR) (set_umem (wr32 m freep prevp) s)).
  { intros m bp. rewrite (bind_ok _ _ _ tt (set_umem (wr32 m freep prevp) s)); [done|]. rewrite st32_ok by (cbn; lia). done. }
  unfold h_ptr, h_size, set_h_ptr, set_h_size, HDR in *. destruct (Z.eqb_spec size nunits) as [<-|Hne].
  - destruct (malloc_whole s bs L1 prevp pk p size L2 Hh Hbs) as (bs' & Ht & Hl). eexists _, bs', p. split; [|split; [exact Ht|done]].
    rewrite bind_assoc, (bind_ok _ _ _ _ _ (ld32_ok p s ltac:(lia) ltac:(lia))).
    rewrite bind_assoc, (bind_ok _ _ _ _ _ (st32_ok prevp _ s ltac:(lia) ltac:(lia))). apply Hfin.
  - destruct (malloc_part s bs L1 prevp pk p size L2 nunits Hh Hbs ltac:(lia)) as (bs' & Ht & Hl).
    eexists _, bs', (p + 8 * (size - nunits)). split; [|split; [exact Ht|done]].
    rewrite (u32_small (size - nunits)) by lia.
    rewrite bind_assoc, (bind_ok _ _ _ _ _ (st32_ok (p + 4) _ s ltac:(lia) ltac:(lia))). set (s1 := set_umem _ s).
    rewrite bind_assoc, (bind_ok _ _ _ (size - nunits) s1).
    2: { rewrite ld32_ok by (cbn; lia). cbn. by rewrite rd32_wr32_eq, u32_small by lia. }
    cbv zeta. rewrite (u32_small (p + _)) by lia.
    rewrite bind_assoc, (bind_ok _ _ _ _ _ (st32_ok (p + 8 * (size - nunits) + 4) nunits s1 ltac:(lia) ltac:(cbn; lia))). apply Hfin.
Qed.

(** Every block of the heap is some steps after any index of the ring. *)
Lemma step_all bs f a k : (f < length (ring bs))%nat → (a, k) ∈ bs → ∃ e, (1 ≤ e ≤ length (ring bs))%nat ∧ at_step bs f e = Some (a, k).
Proof.
  intros Hf Ha. apply list_elem_of_lookup in Ha as (i & Hi). assert (Hr : ring bs !! S i = Some (a, k)) by done.
  pose proof (lookup_lt_Some _ _ _ Hr) as HiN. unfold at_step. set (N := length (ring bs)) in *.
  destruct (decide (f < S i)%nat) as [Hlt|Hge].
  - exists (S i - f)%nat. split; [lia|]. replace (f + (S i - f))%nat with (S i) by lia. by rewrite Nat.mod_small.
  - exists (S i + N - f)%nat. split; [lia|]. replace (f + (S i + N - f))%nat with (S i + 1 * N)%nat by lia.
    rewrite Nat.Div0.mod_add. by rewrite Nat.mod_small.
Qed.

(** The search asks for more memory only when no block is large enough. *)
Lemma malloc_scan s bs f fk nunits fuel :
  heap s bs → ring bs !! f = Some (rd32 (umem s) freep, fk) → 1 ≤ nunits → ∀ r e n prevp pk p size,
  (S (e + r) = length (ring bs))%nat → at_step bs f e = Some (prevp, pk) → at_step bs f (S e) = Some (p, size) → (r < n)%nat →
  (∀ e' a k, (1 ≤ e' ≤ e)%nat → at_step bs f e' = Some (a, k) → k < nunits) →
  (∃ s' bs' bp, malloc_loop n fuel nunits prevp p s = Ok (bp + HDR) s' ∧ taken s bs s' bs' bp nunits ∧ (length bs' ≤ length bs)%nat) ∨
  (∀ a k, (a, k) ∈ bs → k < nunits) ∧
    malloc_loop n fuel nunits prevp p s =
      (p ← morecore fuel nunits; if p =? 0 then ret 0 else q ← h_ptr p; malloc_loop (n - S r) fuel nunits p q) s.
Proof.
  intros Hh Hf Hn. assert (HfN : (f < length (ring bs))%nat) by by apply lookup_lt_Some in Hf.
  induction r as [|r IH]; intros e n prevp pk p size He Hj Hi Hrn Hsm; (destruct n as [|n]; [lia|]).
  all: destruct (chained_lookup _ _ _ _ p size (hp_chain _ _ Hh) Hi) as [_ Hps].
  all: assert (Hin : (p, size) ∈ ring bs) by (apply list_elem_of_lookup; eexists; exact Hi).
  all: pose proof (hp_apart _ _ Hh) as Hap; pose proof (hp_room _ _ Hh) as Hroom.
  all: cbn [malloc_loop]; rewrite (bind_ok _ _ _ _ _ (h_size_ok s bs p size Hh Hin)), Hps.
  all: destruct (Z.leb_spec nunits size) as [Hle|Hgt]; [left; by apply (malloc_take s bs f e prevp pk p size nunits Hh Hj Hi ltac:(lia))|].
  all: rewrite (bind_ok _ _ _ (rd32 (umem s) freep) s) by (apply ld32_ok; [|unfold statics_end, HDR in *]; lia).
  all: assert (Hsm' : ∀ e' a k, (1 ≤ e' ≤ S e)%nat → at_step bs f e' = Some (a, k) → k < nunits)
    by (intros e' a k He' Ha; destruct (decide (e' = S e)) as [->|]; [congruence|by apply (Hsm e' a k); [lia|]]).
  - right. split.
    + intros a k Ha. destruct (step_all bs f a k HfN Ha) as (e' & He' & Hat). apply (Hsm' e' a k); [lia|done].
    + replace (S e) with (length (ring bs)) in Hi by lia. rewrite step_full in Hi by done. rewrite Hf in Hi. injection Hi as <- _.
      rewrite Z.eqb_refl. cbn [Nat.sub]. by rewrite Nat.sub_0_r.
  - destruct (Z.eqb_spec p (rd32 (umem s) freep)) as [Heq|_].
    + exfalso. rewrite Heq in Hi. unfold at_step in Hi. pose proof (ring_inj bs _ _ _ _ _ (hp_ordered _ _ Hh) Hi Hf) as Hmod.
      pose proof (Nat.div_mod_eq (f + S e) (length (ring bs))) as Hd. rewrite Hmod in Hd.
      assert (S e = length (ring bs) * ((f + S e) / length (ring bs)))%nat by lia.
      destruct ((f + S e) / length (ring bs))%nat as [|q]; [lia|nia].
    + rewrite (bind_ok _ _ _ _ _ (h_ptr_ok s bs p size Hh Hin)). destruct (step_next s bs f (S e) p size Hh Hi) as (k & Hnext).
      destruct (IH (S e) n p size (rd32 (umem s) p) k) as [(s' & bs' & bp & ?)|[Hall Hrun]]; [lia|done|done|lia|done| |].
      * left. by exists s', bs', bp.
      * right. split; [done|]. rewrite Hrun. done.
Qed.

(** ** [morecore] *)

Lemma ordered_pair L a n b k :
  ordered L → (a, n) ∈ L → (b, k) ∈ L → (a, n) = (b, k) ∨ (block_end a n ≤ b ∧ (1 ≤ n → block_end a n < b)) ∨ (block_end b k ≤ a ∧ (1 ≤ k → block_end b k < a)).
Proof.
  induction L as [|[c j] L IH]; intros Ho Ha Hb; [set_solver|].
  apply elem_of_cons in Ha as [[= -> ->]|Ha], Hb as [[= -> ->]|Hb].
  - by left.
  - right; left. destruct (ordered_after c j L b k Ho Hb) as (? & ? & _). done.
  - right; right. destruct (ordered_after c j L a n Ho Ha) as (? & ? & _). done.
  - destruct Ho as (_ & Ho & _). by apply IH.
Qed.

(** Since neighbours are joined, a range that is free lies in one block. *)
Lemma one_block s bs lo n :
  heap s bs → 1 ≤ n → (∀ x, lo ≤ x < lo + 8 * n → covers bs x) → ∃ a k, (a, k) ∈ bs ∧ n ≤ k.
Proof.
  intros Hh Hn Hx. destruct (Hx lo ltac:(lia)) as (a & k & Ha & Hlo). exists a, k. split; [done|].
  destruct (decide (n ≤ k)) as [|Hlt]; [done|exfalso]. destruct (Hx (a + 8 * k) ltac:(lia)) as (b & j & Hb & Hend).
  pose proof (hp_ordered _ _ Hh) as Ho. destruct (hp_blocks _ _ Hh a k Ha) as (Hk & _), (hp_blocks _ _ Hh b j Hb) as (Hj & _).
  destruct (ordered_pair (ring bs) a k b j Ho) as [[= -> ->]|[[H1 H2]|[H1 H2]]]; [by right|by right|lia|..]; unfold block_end in *; lia.
Qed.

(** A state with more memory, where only the fresh part was written. *)
Lemma heap_grow s bs s' :
  heap s bs → usz s ≤ usz s' ≤ 2 ^ 31 → (∀ x, x < usz s → rd8 (umem s') x = rd8 (umem s) x) → heap s' bs.
Proof.
  intros Hh Hz Hm. pose proof (hp_room _ _ Hh) as Hroom. assert (Hrd : ∀ a, a + 4 ≤ usz s → rd32 (umem s') a = rd32 (umem s) a).
  { intros a Ha. apply rd32_ext. intros i Hi. apply Hm. lia. }
  split; [|apply Hh| |apply Hh|apply Hh|lia|].
  - eapply chained_ext; [|apply Hh]. intros a n Ha. destruct (heap_node s bs a n Hh Ha) as (_ & ? & _). split; apply Hrd; lia.
  - intros a n Ha. destruct (hp_blocks _ _ Hh a n Ha) as (? & ? & ?). split_and!; [done|done|lia].
  - rewrite Hrd by (unfold statics_end in Hroom; lia). apply Hh.
Qed.

Definition more_units (nu : Z) : Z := if nu <? 4096 then 4096 else nu.

Lemma morecore_grows s bs nu fuel w :
  heap s bs → 1 ≤ nu → usz s + 8 * more_units nu < 2 ^ 31 → sys_sbrk (8 * more_units nu) (uworld s) = (true, w) →
  (2 * length bs + 2 < fuel)%nat →
  ∃ s' bs', morecore fuel nu s = Ok (rd32 (umem s') freep) s' ∧ heap s' bs' ∧ usz s' = usz s + 8 * more_units nu ∧ uworld s' = w ∧
    (∀ x, covers bs' x ↔ covers bs x ∨ usz s ≤ x < usz s') ∧ heap_frame bs' s s' ∧ (length bs' ≤ S (length bs))%nat.
Proof.
  intros Hh Hnu Hsz Hsb Hf. pose proof (hp_room _ _ Hh) as Hroom. pose proof (hp_apart _ _ Hh) as Hap. pose proof (hp_base _ _ Hh) as Hb.
  assert (Hs0 : 0 < usz s) by (unfold statics_end, HDR in Hroom; lia).
  unfold morecore. cbv zeta. fold (more_units nu). set (n := more_units nu) in *. assert (Hn : 1 ≤ n) by (unfold n, more_units; case_match; lia).
  replace (n * HDR) with (8 * n) by (unfold HDR; lia). rewrite u32_small, s32_small by lia.
  set (s1 := set_usz (usz s + 8 * n) (set_uworld w s)).
  rewrite (bind_ok _ _ _ (usz s) s1).
  2: { unfold usbrk, lift_sys. cbn. rewrite Hsb. done. }
  rewrite (proj2 (Z.eqb_neq _ _)) by (unfold statics_end, HDR in *; lia). unfold set_h_size.
  rewrite (bind_ok _ _ _ _ _ (st32_ok (usz s + 4) n s1 ltac:(lia) ltac:(cbn; lia))). set (s2 := set_umem _ s1).
  assert (Hh2 : heap s2 bs). { apply (heap_grow s); [done|cbn; lia|]. intros x Hx. cbn. apply rd8_wr32_ne. lia. }
  assert (Hu2 : used s2 bs (usz s) n).
  { split; [cbn; by rewrite rd32_wr32_eq, u32_small by lia|done|lia|cbn; lia|]. intros a k Ha. left. destruct (hp_blocks _ _ Hh a k Ha) as (_ & _ & ?). unfold HDR in *. lia. }
  destruct (ufree_ok s2 bs (usz s) n fuel Hh2 Hu2 Hf) as (s' & bs' & Hrun & Hh' & Hcov & Hz & Hw & Hfr & Hl).
  rewrite (bind_ok _ _ _ _ _ Hrun). exists s', bs'. split_and!; [|done|done|done| |  |done].
  - apply ld32_ok; [lia|]. rewrite Hz. cbn. unfold statics_end in Hroom. lia.
  - intros x. rewrite Hcov, Hz. cbn. tauto.
  - intros x Hx Hxb Hxf. rewrite (Hfr x Hx Hxb Hxf). cbn. apply rd8_wr32_ne.
    assert (¬ usz s ≤ x < usz s + 8 * n) by (intros ?; apply Hx, Hcov; by right). lia.
Qed.

Lemma morecore_fails s nu fuel w :
  usz s + 8 * more_units nu < 2 ^ 31 → 0 ≤ usz s → 0 ≤ nu → sys_sbrk (8 * more_units nu) (uworld s) = (false, w) →
  morecore fuel nu s = Ok 0 (set_uworld w s).
Proof.
  intros Hsz Hs Hnu Hsb. unfold morecore. cbv zeta. fold (more_units nu). set (n := more_units nu) in *.
  assert (Hn : 0 ≤ n) by (unfold n, more_units; case_match; lia).
  replace (n * HDR) with (8 * n) by (unfold HDR; lia). rewrite u32_small, s32_small by lia.
  rewrite (bind_ok _ _ _ (-1) (set_uworld w s)); [done|]. unfold usbrk, lift_sys. cbn. by rewrite Hsb.
Qed.

(** ** The two operations *)

(** The number of headers [malloc] takes for [nbytes], the header of the block included. *)
Definition units (nbytes : Z) : Z := (nbytes + 7) / 8 + 1.

(** What a call of [malloc] that found a block leaves: the block [bp], the free blocks [bs'], which
    with it are what was free and the memory the process has got since, and nothing else changed. *)
Record malloced s bs s' bs' (bp n : Z) : Prop := {
  ml_heap : heap s' bs';
  ml_used : used s' bs' bp n;
  ml_covers x : (covers bs x ∨ usz s ≤ x < usz s') ↔ (covers bs' x ∨ bp ≤ x < bp + 8 * n);
  ml_grow : usz s ≤ usz s';
  ml_frame : ∀ x, ¬ covers bs x → x < usz s → (x < base ∨ base + 8 ≤ x) → (x < freep ∨ freep + 4 ≤ x) →
    rd8 (umem s') x = rd8 (umem s) x
}.

(** The search from the start, in a ring where [malloc] has just begun or has just got memory. *)
Lemma malloc_search s bs n fuel nunits :
  heap s bs → 1 ≤ nunits → (length bs < n)%nat →
  let search := p ← h_ptr (rd32 (umem s) freep); malloc_loop n fuel nunits (rd32 (umem s) freep) p in
  (∃ s' bs' bp, search s = Ok (bp + HDR) s' ∧ taken s bs s' bs' bp nunits ∧ (length bs' ≤ length bs)%nat) ∨
  (∀ a k, (a, k) ∈ bs → k < nunits) ∧
    search s = (p ← morecore fuel nunits; if p =? 0 then ret 0 else q ← h_ptr p; malloc_loop (n - S (length bs)) fuel nunits p q) s.
Proof.
  intros Hh Hn Hl search. destruct (hp_freep _ _ Hh) as (fk & Hin). apply list_elem_of_lookup in Hin as Hf. destruct Hf as (f & Hf).
  pose proof (lookup_lt_Some _ _ _ Hf) as HfN. assert (H0 : at_step bs f 0 = Some (rd32 (umem s) freep, fk)).
  { unfold at_step. rewrite Nat.add_0_r, Nat.mod_small by done. done. }
  destruct (step_next s bs f 0 _ fk Hh H0) as (k & H1). unfold search. rewrite (bind_ok _ _ _ _ _ (h_ptr_ok s bs _ fk Hh Hin)).
  apply (malloc_scan s bs f fk nunits fuel Hh Hf Hn (length bs) 0 n _ fk _ k); [done|done|done|lia|]. intros. lia.
Qed.

Lemma taken_malloced s bs s' bs' bp n : taken s bs s' bs' bp n → malloced s bs s' bs' bp n.
Proof.
  intros [Hh Hu Hc Hf Hz _ _]. split; [done|done|intros x; rewrite Hc, Hz; intuition lia|lia|intros; by apply Hf].
Qed.

(** A block taken after the process has grown. *)
Lemma grown_malloced s bs s1 bs1 s' bs' bp n :
  (∀ x, covers bs1 x ↔ covers bs x ∨ usz s ≤ x < usz s1) → usz s ≤ usz s1 → heap_frame bs1 s s1 → taken s1 bs1 s' bs' bp n →
  malloced s bs s' bs' bp n.
Proof.
  intros Hcov Hz1 Hf1 [Hh Hu Hc Hf Hz _ _]. split; [done|done|intros x; rewrite <- Hc, Hcov, Hz; tauto|lia|].
  intros x Hx Hlt Hb Hfp. assert (¬ covers bs1 x) by (rewrite Hcov; intros [?|?]; [done|lia]). rewrite Hf by done. by apply Hf1.
Qed.

(** What is left of a block that a smaller one was taken from. *)
Lemma taken_leaves s bs s' bs' bp n a k need :
  heap s bs → taken s bs s' bs' bp n → (a, k) ∈ bs → 1 ≤ need → need + n ≤ k → ∃ a' k', (a', k') ∈ bs' ∧ need ≤ k'.
Proof.
  intros Hh Ht Ha Hneed Hk. destruct (tk_tail _ _ _ _ _ _ Ht) as (a1 & k1 & Ha1 & Hn1 & He). pose proof (us_pos _ _ _ _ (tk_used _ _ _ _ _ _ Ht)) as Hn.
  apply (one_block s' bs' a need); [apply Ht|done|]. intros x Hx.
  assert (Hc : covers bs x) by (exists a, k; split; [done|lia]). apply (tk_covers _ _ _ _ _ _ Ht) in Hc as [Hc|Hc]; [done|exfalso].
  destruct (ordered_pair (ring bs) a k a1 k1 (hp_ordered _ _ Hh)) as [[= <- <-]|[[H1 _]|[H1 _]]]; [by right|by right|lia|..]; unfold block_end in *; lia.
Qed.

(** Before the first call: [freep] is null and the ring is not yet made. *)
Definition fresh s bs : Prop :=
  bs = [] ∧ rd32 (umem s) freep = 0 ∧ 0 < base ∧ (0 ≤ freep ∧ (freep + 4 ≤ base ∨ base + HDR ≤ freep)) ∧ statics_end ≤ usz s ≤ 2 ^ 31.

Definition ready s bs : Prop := heap s bs ∨ fresh s bs.

Lemma malloc_start s bs :
  ready s bs → ∃ s1, (prevp ← ld32 freep;
      if prevp =? 0 then st32 freep base;; set_h_ptr base base;; set_h_size base 0;; ret base else ret prevp) s =
    Ok (rd32 (umem s1) freep) s1 ∧ heap s1 bs ∧ usz s1 = usz s ∧ uworld s1 = uworld s ∧ heap_frame bs s s1.
Proof.
  intros [Hh|(-> & H0 & Hb & Hap & Hroom)].
  - exists s. pose proof (hp_apart _ _ Hh) as Hap. pose proof (hp_room _ _ Hh) as Hroom. destruct (hp_freep _ _ Hh) as (fk & Hin).
    destruct (heap_node s bs _ fk Hh Hin) as (Hge & _). pose proof (hp_base _ _ Hh).
    rewrite (bind_ok _ _ _ _ _ (ld32_ok _ s ltac:(apply Hap) ltac:(unfold statics_end in Hroom; lia))).
    rewrite (proj2 (Z.eqb_neq _ _)) by lia. done.
  - assert (Hz : base + 8 ≤ usz s ∧ freep + 4 ≤ usz s) by (unfold statics_end, HDR in Hroom; lia). unfold HDR in Hap.
    rewrite (bind_ok _ _ _ 0 s) by (rewrite ld32_ok by lia; by rewrite H0). cbn [Z.eqb]. unfold set_h_ptr, set_h_size.
    exists (set_umem (wr32 (wr32 (wr32 (umem s) freep base) base base) (base + 4) 0) s). split.
    { rewrite (bind_ok _ _ _ tt (set_umem (wr32 (umem s) freep base) s)) by (rewrite st32_ok by lia; done).
      rewrite (bind_ok _ _ _ tt (set_umem (wr32 (wr32 (umem s) freep base) base base) s)) by (rewrite st32_ok by (cbn; lia); done).
      rewrite (bind_ok _ _ _ tt (set_umem (wr32 (wr32 (wr32 (umem s) freep base) base base) (base + 4) 0) s)) by (rewrite st32_ok by (cbn; lia); done).
      cbn. rewrite !rd32_wr32_ne, rd32_wr32_eq, u32_small by lia. done. }
    assert (Hf : rd32 (wr32 (wr32 (wr32 (umem s) freep base) base base) (base + 4) 0) freep = base) by (rewrite !rd32_wr32_ne, rd32_wr32_eq, u32_small by lia; done).
    split_and!; [split; cbn|done|done|].
    + rewrite rd32_wr32_ne, !rd32_wr32_eq, u32_small by lia. done.
    + lia.
    + set_solver.
    + done.
    + unfold HDR. lia.
    + done.
    + exists 0. rewrite Hf. set_solver.
    + intros x _ Hxb Hxf. cbn. rewrite !rd8_wr32_ne by lia. done.
Qed.

Lemma heap_world s bs w : heap s bs → heap (set_uworld w s) bs.
Proof. intros Hh. split; apply Hh. Qed.

(** The whole of [malloc]; besides, a block of [need] headers is left when there was one with room
    for it too, or the process has grown. *)
Lemma malloc_ok s bs nbytes fuel :
  ready s bs → 0 ≤ nbytes → 8 * units nbytes < 2 ^ 31 → (2 * length bs + 3 < fuel)%nat →
  (∃ a k, (a, k) ∈ bs ∧ units nbytes ≤ k) ∨ usz s + 8 * more_units (units nbytes) < 2 ^ 31 →
  (∃ s' bs' bp, malloc fuel nbytes s = Ok (bp + 8) s' ∧ malloced s bs s' bs' bp (units nbytes) ∧ nbytes + 8 ≤ 8 * units nbytes ∧
     ((∃ a k, (a, k) ∈ bs ∧ units nbytes ≤ k) → usz s' = usz s ∧ uworld s' = uworld s) ∧
     (∀ need, 1 ≤ need → (∃ a k, (a, k) ∈ bs ∧ need + units nbytes ≤ k) ∨
        (∀ a k, (a, k) ∈ bs → k < units nbytes) ∧ need + units nbytes ≤ 4096 → ∃ a k, (a, k) ∈ bs' ∧ need ≤ k)) ∨
  (∃ s' w, malloc fuel nbytes s = Ok 0 s' ∧ heap s' bs ∧ heap_frame bs s s' ∧ usz s' = usz s ∧
     (∀ a k, (a, k) ∈ bs → k < units nbytes) ∧ sys_sbrk (8 * more_units (units nbytes)) (uworld s) = (false, w)).
Proof.
  intros Hready Hnb Hnb' Hfuel Hsz. destruct (malloc_start s bs Hready) as (s1 & Hrun1 & Hh1 & Hz1 & Hw1 & Hf1).
  assert (Hroom : 0 < usz s1) by (pose proof (hp_room _ _ Hh1); pose proof (hp_base _ _ Hh1); unfold statics_end, HDR in *; lia).
  assert (Hmore : units nbytes ≤ more_units (units nbytes) ∧ 4096 ≤ more_units (units nbytes)) by (unfold more_units; case_match; lia).
  assert (Hun : u32 (nbytes + HDR - 1) / HDR + 1 = units nbytes).
  { unfold units, HDR in *. rewrite u32_small by lia. do 2 f_equal. lia. }
  assert (Hbig : nbytes + 8 ≤ 8 * units nbytes ∧ 1 ≤ units nbytes) by (unfold units; lia).
  set (n := units nbytes) in *. assert (Hm : malloc fuel nbytes s = (p ← h_ptr (rd32 (umem s1) freep); malloc_loop fuel fuel n (rd32 (umem s1) freep) p) s1).
  { unfold malloc. cbv zeta. rewrite Hun. etrans; [symmetry; apply bind_assoc|]. by rewrite (bind_ok _ _ _ _ _ Hrun1). }
  rewrite Hm. clear Hm. assert (Hfirst : ∀ s' bs' bp, malloced s1 bs s' bs' bp n → malloced s bs s' bs' bp n).
  { intros s' bs' bp [Hh Hu Hc Hg Hfr]. split; [done|done|by rewrite <- Hz1|lia|]. intros x Hx Hlt Hb Hf. rewrite Hfr by (done || lia). by apply Hf1. }
  destruct (malloc_search s1 bs fuel fuel n Hh1 ltac:(lia) ltac:(lia)) as [(s' & bs' & bp & Hrun & Htk & _)|[Hnone Hrun]].
  { left. exists s', bs', bp. split_and!; [exact Hrun|by apply Hfirst, taken_malloced|lia|intros _; by rewrite (tk_size _ _ _ _ _ _ Htk), (tk_world _ _ _ _ _ _ Htk)|].
    destruct (tk_tail _ _ _ _ _ _ Htk) as (a1 & k1 & Ha1 & Hk1 & _).
    intros need Hneed [(a & k & Ha & Hk)|[Hno _]]; [by eapply taken_leaves|specialize (Hno a1 k1 Ha1); lia]. }
  assert (Hsz' : usz s + 8 * more_units n < 2 ^ 31) by (destruct Hsz as [(a & k & Ha & Hk)|]; [specialize (Hnone a k Ha); lia|done]).
  destruct (sys_sbrk (8 * more_units n) (uworld s)) as [[] w] eqn:Hsb.
  - left. rewrite <- Hw1 in Hsb. destruct (morecore_grows s1 bs n fuel w Hh1) as (s2 & bs2 & Hrun2 & Hh2 & Hz2 & _ & Hcov2 & Hf2 & Hl2); [lia|lia|done|lia|].
    rewrite Hrun, (bind_ok _ _ _ _ _ Hrun2). pose proof (hp_base _ _ Hh2). destruct (hp_freep _ _ Hh2) as (fk & Hin). destruct (heap_node s2 bs2 _ fk Hh2 Hin) as (Hge & _).
    rewrite (proj2 (Z.eqb_neq _ _)) by lia.
    destruct (one_block s2 bs2 (usz s1) (more_units n) Hh2) as (a & k & Ha & Hk); [lia|intros x Hx; apply Hcov2; right; lia|].
    destruct (malloc_search s2 bs2 (fuel - S (length bs)) fuel n Hh2 ltac:(lia) ltac:(lia)) as [(s' & bs' & bp & Hrun' & Htk & _)|[Hnone' _]].
    + exists s', bs', bp. split_and!; [exact Hrun'|apply Hfirst; by eapply grown_malloced; [done|lia|done|]|lia| |].
      * intros (a1 & k1 & Ha1 & Hk1). specialize (Hnone a1 k1 Ha1). lia.
      * intros need Hneed [(a1 & k1 & Ha1 & Hk1)|[_ Hle]]; [specialize (Hnone a1 k1 Ha1); lia|]. eapply (taken_leaves s2 bs2); [done|done|exact Ha|done|lia].
    + exfalso. specialize (Hnone' a k Ha). lia.
  - right. exists (set_uworld w s1), w. rewrite Hrun. rewrite (bind_ok _ _ _ 0 (set_uworld w s1)); [|apply morecore_fails; [lia|lia|lia|by rewrite Hw1]].
    split_and!; [done|by apply heap_world|intros x Hx Hb Hf; by apply Hf1|done|done|done].
Qed.

(** C17: [malloc] returns a block large enough for the request. When a free block is large enough it
    comes from one of them, and when the process has to grow, from the free memory and the fresh;
    it is no longer free, everything else that was free still is, the ring of free blocks is
    sorted, without overlaps and with neighbours joined, and no byte in use has changed. Only when
    no block is large enough and the process cannot grow does it return 0, with the blocks as they
    were; this holds from the first call on, and the searches end. *)
Theorem malloc_takes s bs nbytes fuel :
  ready s bs → 0 ≤ nbytes → usz s + 8 * more_units (units nbytes) < 2 ^ 31 → (2 * length bs + 3 < fuel)%nat →
  (∃ s' bs' bp, malloc fuel nbytes s = Ok (bp + 8) s' ∧ malloced s bs s' bs' bp (units nbytes) ∧ nbytes + 8 ≤ 8 * units nbytes ∧
     ((∃ a k, (a, k) ∈ bs ∧ units nbytes ≤ k) → usz s' = usz s)) ∨
  (∃ s' w, malloc fuel nbytes s = Ok 0 s' ∧ heap s' bs ∧ heap_frame bs s s' ∧ usz s' = usz s ∧
     (∀ a k, (a, k) ∈ bs → k < units nbytes) ∧ sys_sbrk (8 * more_units (units nbytes)) (uworld s) = (false, w)).
Proof.
  intros Hready Hnb Hsz Hfuel. assert (units nbytes ≤ more_units (units nbytes)) by (unfold more_units; case_match; lia).
  assert (0 < usz s).
  { destruct (malloc_start s bs Hready) as (s1 & _ & Hh1 & <- & _). pose proof (hp_room _ _ Hh1). pose proof (hp_base _ _ Hh1). unfold statics_end, HDR in *. lia. }
  destruct (malloc_ok s bs nbytes fuel Hready Hnb ltac:(lia) Hfuel ltac:(by right)) as [(s' & bs' & bp & ? & ? & ? & Hz & _)|Hf]; [left|by right].
  exists s', bs', bp. split_and!; [done..|]. intros Hb. by apply Hz.
Qed.

(** C30: [free] gives a block back: exactly its bytes become free, joined with the free blocks they
    touch, the ring stays sorted and without overlaps, whatever block [freep] points to; the
    search for the place ends, and no byte outside the free blocks and the two static variables
    changes. *)
Theorem free_returns s bs bp n fuel :
  heap s bs → used s bs bp n → (2 * length bs + 2 < fuel)%nat →
  ∃ s' bs', ufree fuel (bp + 8) s = Ok tt s' ∧ heap s' bs' ∧ (∀ x, covers bs' x ↔ covers bs x ∨ bp ≤ x < bp + 8 * n) ∧
    usz s' = usz s ∧ uworld s' = uworld s ∧ heap_frame bs' s s'.
Proof.
  intros Hh Hu Hf. destruct (ufree_ok s bs bp n fuel Hh Hu Hf) as (s' & bs' & ? & ? & ? & ? & ? & ? & _). by exists s', bs'.
Qed.
(** ** What a program that allocates sees *)

(** The bytes that are neither free nor the allocator's own. *)
Definition inuse s bs (x : Z) : Prop :=
  0 ≤ x < usz s ∧ ¬ covers bs x ∧ (x < base ∨ base + 8 ≤ x) ∧ (x < freep ∨ freep + 4 ≤ x).

(** What was in use is in use and has not changed. *)
Record ext s bs s' bs' : Prop := {
  ext_ready : ready s' bs';
  ext_size : usz s ≤ usz s';
  ext_same x : inuse s bs x → inuse s' bs' x ∧ rd8 (umem s') x = rd8 (umem s) x
}.
Definition newly s bs s' bs' (x : Z) : Prop := inuse s' bs' x ∧ ¬ inuse s bs x.

Lemma ext_refl s bs : ready s bs → ext s bs s bs.
Proof. intros Hr. by split; [|lia|]. Qed.

Lemma ext_trans s1 bs1 s2 bs2 s3 bs3 : ext s1 bs1 s2 bs2 → ext s2 bs2 s3 bs3 → ext s1 bs1 s3 bs3.
Proof.
  intros [_ Hz1 Hs1] [Hr2 Hz2 Hs2]. split; [done|lia|]. intros x Hx. destruct (Hs1 x Hx) as [Hx1 <-]. by apply Hs2.
Qed.

Lemma newly_l s1 bs1 s2 bs2 s3 bs3 x : ext s2 bs2 s3 bs3 → newly s1 bs1 s2 bs2 x → newly s1 bs1 s3 bs3 x.
Proof. intros [_ _ Hs] [Hx Hn]. split; [by apply Hs|done]. Qed.
Lemma newly_r s1 bs1 s2 bs2 s3 bs3 x : ext s1 bs1 s2 bs2 → newly s2 bs2 s3 bs3 x → newly s1 bs1 s3 bs3 x.
Proof. intros [_ _ Hs] [Hx Hn]. split; [done|]. intros Hx1. by apply Hn, Hs. Qed.

Lemma ready_room s bs : ready s bs → 0 < base ∧ 0 < usz s ≤ 2 ^ 31 ∧ 0 ≤ freep ∧ statics_end ≤ usz s.
Proof.
  intros [Hh|(_ & _ & Hb & Hap & Hr)].
  - pose proof (hp_base _ _ Hh). pose proof (hp_room _ _ Hh). pose proof (hp_apart _ _ Hh). unfold statics_end, HDR in *. lia.
  - unfold statics_end, HDR in *. lia.
Qed.

(** Writing what is in use leaves the allocator as it is. *)
Lemma ready_same s bs s' :
  ready s bs → usz s' = usz s → (∀ x, ¬ inuse s bs x → rd8 (umem s') x = rd8 (umem s) x) → ready s' bs.
Proof.
  intros Hr Hz Hm. assert (Hfp : rd32 (umem s') freep = rd32 (umem s) freep).
  { apply rd32_ext. intros i Hi. apply Hm. unfold inuse. lia. }
  destruct Hr as [Hh|(Hbs & H0 & Hb & Hap & Hr)]; [left|right; unfold fresh; rewrite Hz, Hfp; done].
  split; [|apply Hh|rewrite Hz; apply Hh|apply Hh|apply Hh|rewrite Hz; apply Hh|rewrite Hfp; apply Hh].
  eapply chained_ext; [|apply Hh]. intros a n Ha. assert (Hin : ∀ x, a ≤ x < a + 8 → ¬ inuse s bs x).
  { intros x Hx (_ & Hc & Hxb & _). apply elem_of_cons in Ha as [[= -> ->]|Ha]; [lia|]. apply Hc. exists a, n. split; [done|].
    destruct (hp_blocks _ _ Hh a n Ha) as (? & _). lia. }
  split; apply rd32_ext; intros i Hi; apply Hm, Hin; lia.
Qed.

Lemma ext_writes s bs s1 bs1 s2 :
  ext s bs s1 bs1 → usz s2 = usz s1 → (∀ x, ¬ newly s bs s1 bs1 x → rd8 (umem s2) x = rd8 (umem s1) x) → ext s bs s2 bs1.
Proof.
  intros [Hr Hz Hs] Hz2 Hm. split; [|by rewrite Hz2|].
  - apply (ready_same s1); [done|done|]. intros x Hx. apply Hm. by intros [? _].
  - intros x Hx. destruct (Hs x Hx) as [Hx1 <-]. split; [by unfold inuse; rewrite Hz2|]. apply Hm. by intros [_ ?].
Qed.

Lemma malloced_ext s bs s' bs' bp n :
  ready s bs → malloced s bs s' bs' bp n → ext s bs s' bs' ∧ ∀ x, bp ≤ x < bp + 8 * n → newly s bs s' bs' x.
Proof.
  intros Hr [Hh Hu Hc Hg Hf]. destruct (ready_room _ _ Hr) as (Hb & _ & Hfp & _). split.
  - split; [by left|done|]. intros x (Hx & Hnc & Hxb & Hxf). split; [|apply Hf; (done || lia)]. split_and!; [lia|lia| |done|done].
    intros Hcx. assert (covers bs x ∨ usz s ≤ x < usz s') as [?|?]; [apply Hc; by left|done|lia].
  - intros x Hx. pose proof (us_low _ _ _ _ Hu) as Hlo. pose proof (us_high _ _ _ _ Hu) as Hhi. unfold statics_end, HDR in Hlo. split.
    + split_and!; [lia|lia| |lia|lia]. intros (a & k & Ha & Hxa). destruct (us_apart _ _ _ _ Hu a k Ha); lia.
    + intros (Hx' & Hnc & _). assert (covers bs x ∨ usz s ≤ x < usz s') as [?|?]; [apply Hc; by right|done|lia].
Qed.

(** A process has fewer blocks than bytes. *)
Lemma blocks_count L lo hi :
  ordered L → (∀ a n, (a, n) ∈ L → 1 ≤ n ∧ lo ≤ a ∧ a + 8 * n ≤ hi) → lo ≤ hi → 8 * Z.of_nat (length L) ≤ hi - lo.
Proof.
  revert lo. induction L as [|[a n] L IH]; intros lo Ho HL Hle; [cbn; lia|]. destruct (HL a n ltac:(set_solver)) as (Hn & Hlo & Hhi).
  assert (8 * Z.of_nat (length L) ≤ hi - (a + 8 * n)); [|cbn [length]; lia]. apply IH; [by destruct Ho as (_ & ? & _)| |lia].
  intros b k Hb. destruct (HL b k ltac:(set_solver)) as (? & _ & ?). destruct (ordered_after a n L b k Ho Hb) as (He & _). unfold block_end in He. lia.
Qed.

Lemma ready_count s bs : ready s bs → 8 * Z.of_nat (length bs) ≤ usz s.
Proof.
  intros Hr. destruct (ready_room _ _ Hr) as (Hb & Hz & _). destruct Hr as [Hh|(-> & _)]; [|cbn; lia].
  pose proof (blocks_count bs 0 (usz s)) as Hc. rewrite Z.sub_0_r in Hc. apply Hc; [|intros a n Ha|lia].
  - by destruct (hp_ordered _ _ Hh) as (_ & ? & _).
  - destruct (hp_blocks _ _ Hh a n Ha) as (? & ? & ?). unfold statics_end, HDR in *. lia.
Qed.

(** There is room for blocks of [need] headers together: a free block is large enough, or the process
    may grow and 4096 headers, which is how much it grows by, are. *)
Definition room s bs (need : Z) : Prop :=
  need ≤ 0 ∨ (∃ a k, (a, k) ∈ bs ∧ need ≤ k) ∨
  need ≤ 4096 ∧ usz s + 32768 < 2 ^ 31 ∧ ∃ w, sys_sbrk 32768 (uworld s) = (true, w).

Lemma room_less s bs need need' : need' ≤ need → room s bs need → room s bs need'.
Proof. intros Hle [?|[(a & k & Ha & Hk)|(? & ?)]]; [left; lia|right; left; exists a, k; split; [done|lia]|right; right; split; [lia|done]]. Qed.

Lemma umalloc_ok s bs nbytes need :
  ready s bs → 0 ≤ nbytes < 32000 → 0 ≤ need → room s bs (units nbytes + need) →
  ∃ a s' bs', umalloc nbytes s = Ok a s' ∧ ext s bs s' bs' ∧ (∀ x, a ≤ x < a + nbytes → newly s bs s' bs' x) ∧ room s' bs' need ∧
    0 < a ∧ a + nbytes ≤ usz s' ≤ 2 ^ 31.
Proof.
  intros Hr Hnb Hneed Hroom. assert (Hu : 1 ≤ units nbytes < 4096) by (unfold units; lia).
  assert (Hmu : more_units (units nbytes) = 4096) by (unfold more_units; rewrite (proj2 (Z.ltb_lt _ _)); lia).
  pose proof (ready_count s bs Hr) as Hc. unfold umalloc. rewrite bind_gets.
  destruct Hroom as [?|Hroom]; [lia|].
  destruct (malloc_ok s bs nbytes (Z.to_nat (usz s) + 4) Hr) as [(s' & bs' & bp & Hrun & Hml & Hbig & Hsame & Hleft)|(s' & w & _ & _ & _ & _ & Hno & Hsb)]; [lia|lia|lia| | |].
  - rewrite Hmu. destruct Hroom as [(a & k & Ha & Hk)|(_ & ? & _)]; [left; exists a, k; split; [done|lia]|right; lia].
  - destruct (malloced_ext _ _ _ _ _ _ Hr Hml) as [He Hnew]. exists (bp + 8), s', bs'. pose proof (us_low _ _ _ _ (ml_used _ _ _ _ _ _ Hml)) as Hlo.
    pose proof (us_high _ _ _ _ (ml_used _ _ _ _ _ _ Hml)). destruct (ready_room _ _ (ext_ready _ _ _ _ He)) as (? & ? & _). unfold statics_end, HDR in Hlo.
    split_and!; [done|done|intros x Hx; apply Hnew; lia| |lia|lia|lia].
    destruct (decide (need = 0)) as [->|]; [by left|right].
    destruct Hroom as [(a & k & Ha & Hk)|(Hk & Hgrow)]; [left; apply Hleft; [lia|left; exists a, k; split; [done|lia]]|].
    destruct (decide (Exists (λ b, units nbytes ≤ b.2) bs)) as [He'|He'].
    + right. apply Exists_exists in He' as ([a k] & Ha & Hka). destruct Hsame as [-> ->]; [by exists a, k|]. split; [lia|done].
    + left. apply Hleft; [lia|]. right. split; [|lia]. intros a k Ha. apply not_Exists_Forall in He'; [|apply _]. rewrite Forall_forall in He'. specialize (He' _ Ha). cbn in He'. lia.
  - exfalso. rewrite Hmu in Hsb. destruct Hroom as [(a & k & Ha & Hk)|(_ & _ & w' & Hw)]; [specialize (Hno a k Ha); lia|]. change (8 * 4096) with 32768 in Hsb. congruence.
Qed.
End heap.

(** ** A process with two free blocks *)
#[local] Instance sample_malloc : malloc_link := {| base := 16; freep := 32 |}.

(** A world where the process may always grow. *)
#[local] Instance grow_env : uenv unit := {|
  sys_read _ n w := (None, w);
  sys_write _ l w := (-1, w);
  sys_open _ _ w := (-1, w);
  sys_close _ w := (0, w);
  sys_sbrk _ w := (true, w)
|}.

(** Free blocks of 4 and of 6 headers at 128 and 256, and a block of 2 in use between them. *)
Definition malloc_state : ustate unit :=
  mkUstate (wr32 (wr32 (wr32 (wr32 (wr32 (wr32 (wr32 ∅ 16 128) 128 256) 132 4) 256 16) 260 6) 32 128) 164 2) 4096 tt.
Definition malloc_blocks : blocks := [(128, 4); (256, 6)].

Lemma malloc_state_heap : heap malloc_state malloc_blocks.
Proof.
  split.
  - by vm_compute.
  - unfold ring, malloc_blocks, ordered, block_end. cbn. lia.
  - intros a n Ha. unfold malloc_blocks in Ha. unfold statics_end, HDR. cbn. apply elem_of_cons in Ha as [[= -> ->]|Ha]; [lia|].
    apply elem_of_cons in Ha as [[= -> ->]|Ha]; [lia|set_solver].
  - done.
  - unfold HDR. cbn. lia.
  - by vm_compute.
  - exists 4. by right; left.
Qed.

Lemma malloc_state_used : used malloc_state malloc_blocks 160 2.
Proof.
  split; [by vm_compute|done|by vm_compute|by vm_compute|]. intros a k Ha. unfold malloc_blocks in Ha.
  apply elem_of_cons in Ha as [[= -> ->]|Ha]; [lia|]. apply elem_of_cons in Ha as [[= -> ->]|Ha]; [lia|set_solver].
Qed.

Lemma free_returns_witness :
  ∃ s' bs', ufree 10 (160 + 8) malloc_state = Ok tt s' ∧ heap s' bs' ∧ (∀ x, covers bs' x ↔ covers malloc_blocks x ∨ 160 ≤ x < 160 + 8 * 2) ∧
    usz s' = usz malloc_state ∧ uworld s' = uworld malloc_state ∧ heap_frame bs' malloc_state s'.
Proof. apply (free_returns malloc_state malloc_blocks 160 2 10); [apply malloc_state_heap|apply malloc_state_used|cbn; lia]. Defined.

Lemma malloc_takes_witness :
  (∃ s' bs' bp, malloc 10 30 malloc_state = Ok (bp + 8) s' ∧ malloced malloc_state malloc_blocks s' bs' bp (units 30) ∧ 30 + 8 ≤ 8 * units 30 ∧
     ((∃ a k, (a, k) ∈ malloc_blocks ∧ units 30 ≤ k) → usz s' = usz malloc_state)) ∨
  (∃ s' w, malloc 10 30 malloc_state = Ok 0 s' ∧ heap s' malloc_blocks ∧ heap_frame malloc_blocks malloc_state s' ∧ usz s' = usz malloc_state ∧
     (∀ a k, (a, k) ∈ malloc_blocks → k < units 30) ∧ sys_sbrk (8 * more_units (units 30)) (uworld malloc_state) = (false, w)).
Proof.
  apply (malloc_takes malloc_state malloc_blocks 30 10); [left; apply malloc_state_heap|lia|by vm_compute|cbn; lia].
Defined.
