(* ===== verification/Mkfs.v ===== *)
(** [mkfs] ([mkfs.c]), the program of the host that builds the file system image the
    kernel boots with. *)

From S2P Require Import Prelude Params Bytes State Bio Log Inode BallocSpec Fs.

(** What stops it: [exit(1)] after a failed call of the host, or a failed assertion. *)
Inductive mkerr := Exit1 | Assertion | MkFuel.

(** Its global variables. [fsfd] is the image, sector by sector. *)
Record mkst := mkMkst {
  fsfd : list (list Z);
  m_sb : superblock;
  freeinode : Z;
  freeblock : Z;
}.
Definition set_fsfd (x : list (list Z)) (s : mkst) : mkst := mkMkst x (m_sb s) (freeinode s) (freeblock s).
Definition set_m_sb (x : superblock) (s : mkst) : mkst := mkMkst (fsfd s) x (freeinode s) (freeblock s).
Definition set_freeinode (x : Z) (s : mkst) : mkst := mkMkst (fsfd s) (m_sb s) x (freeblock s).
Definition set_freeblock (x : Z) (s : mkst) : mkst := mkMkst (fsfd s) (m_sb s) (freeinode s) x.
Definition mk_init : mkst := mkMkst [] (mkSuperblock 0 0 0 0 0 0 0) 1 0.

Definition MK (A : Type) : Type := M mkerr mkst A.
Definition assert (b : bool) : MK unit := if b then ret tt else fail Assertion.

(** Intel byte order, on a little-endian host. *)
Definition xshort (x : Z) : Z := le_val [u8 x; u8 (Z.shiftr x 8)].
Definition xint (x : Z) : Z := le_val [u8 x; u8 (Z.shiftr x 8); u8 (Z.shiftr x 16); u8 (Z.shiftr x 24)].

(** ** Sectors

    [lseek(fsfd, sec * BSIZE, 0)] with 32-bit arithmetic; writing beyond the end fills the
    gap with zeros, reading there reads nothing. *)
Definition sector_at (sec : Z) : nat := Z.to_nat (u32 (sec * BSIZE) / BSIZE).
Definition put_sector (l : list (list Z)) (n : nat) (buf : list Z) : list (list Z) :=
  if (n <? length l)%nat then <[n := buf]> l
  else l ++ replicate (n - length l) zero_block ++ [buf].

Definition wsect (sec : Z) (buf : list Z) : MK unit :=
  modify (λ s, set_fsfd (put_sector (fsfd s) (sector_at sec) buf) s).
Definition rsect (sec : Z) : MK (list Z) :=
  l ← gets fsfd;
  match l !! sector_at sec with
  | Some buf => ret buf
  | None => fail Exit1
  end.

(** ** Inodes *)
Definition winode (inum : Z) (ip : dinode) : MK unit :=
  sb ← gets m_sb;
  let bn := IBLOCK inum sb in
  buf ← rsect bn;
  wsect bn (splice buf (ioff inum) (dinode_bytes ip)).

Definition rinode (inum : Z) : MK dinode :=
  sb ← gets m_sb;
  let bn := IBLOCK inum sb in
  buf ← rsect bn;
  ret (dinode_at buf (ioff inum)).

Definition ialloc (type : Z) : MK Z :=
  inum ← gets freeinode;
  modify (set_freeinode (u32 (inum + 1)));;
  winode inum (mkDinode (s16 (xshort type)) 0 0 (s16 (xshort 1)) (xint 0) (replicate 13 0));;
  ret inum.

(** The bitmap: the first [used] blocks are taken. *)
Definition first_bits (used : Z) : list Z := foldl set_bit zero_block (seqZ 0 used).
Definition balloc (used : Z) : MK unit :=
  assert (used <? BSIZE * 8);;
  sb ← gets m_sb;
  wsect (sb_bmapstart sb) (first_bits used).

(** ** Contents *)
(** [freeblock++] *)
Definition next_block : MK Z :=
  b ← gets freeblock;
  modify (set_freeblock (u32 (b + 1)));;
  ret b.
Definition din_addr (d : dinode) (j : Z) : Z := default 0 (d_addrs d !! Z.to_nat j).
Definition din_set_addr (d : dinode) (j v : Z) : dinode :=
  mkDinode (d_type d) (d_major d) (d_minor d) (d_nlink d) (d_size d) (<[Z.to_nat j := v]> (d_addrs d)).
Definition din_set_size (d : dinode) (v : Z) : dinode :=
  mkDinode (d_type d) (d_major d) (d_minor d) (d_nlink d) v (d_addrs d).

(** The block [fbn] of the file, allocated when it is not there. *)
Definition iappend_block (din : dinode) (fbn : Z) : MK (dinode * Z) :=
  if fbn <? NDIRECT then
    din ← (if xint (din_addr din fbn) =? 0 then
             b ← next_block; ret (din_set_addr din fbn (xint b))
           else ret din);
    ret (din, xint (din_addr din fbn))
  else
    din ← (if xint (din_addr din NDIRECT) =? 0 then
             b ← next_block; ret (din_set_addr din NDIRECT (xint b))
           else ret din);
    indirect ← rsect (xint (din_addr din NDIRECT));
    let o := Z.to_nat (4 * (fbn - NDIRECT)) in
    indirect ← (if get32 indirect o =? 0 then
                  b ← next_block;
                  let indirect := put32 indirect o (xint b) in
                  wsect (xint (din_addr din NDIRECT)) indirect;;
                  ret indirect
                else ret indirect);
    ret (din, xint (get32 indirect o)).

Fixpoint iappend_loop (fuel : nat) (p : list Z) (off : Z) (din : dinode) : MK (Z * dinode) :=
  let n := Z.of_nat (length p) in
  if 0 <? n then
    match fuel with
    | O => fail MkFuel
    | S fuel =>
        let fbn := off / BSIZE in
        assert (fbn <? MAXFILE);;
        '(din, x) ← iappend_block din fbn;
        let n1 := Z.min n ((fbn + 1) * BSIZE - off) in
        buf ← rsect x;
        wsect x (splice buf (Z.to_nat (off - fbn * BSIZE)) (take (Z.to_nat n1) p));;
        iappend_loop fuel (drop (Z.to_nat n1) p) (u32 (off + n1)) din
    end
  else ret (off, din).
Definition iappend (inum : Z) (p : list Z) : MK unit :=
  din ← rinode inum;
  '(off, din) ← iappend_loop (length p) p (xint (d_size din)) din;
  winode inum (din_set_size din (xint off)).

(** ** The image *)
Definition sb_bytes (s : superblock) : list Z :=
  concat (le_bytes 4 <$> [sb_size s; sb_nblocks s; sb_ninodes s; sb_nlog s; sb_logstart s; sb_inodestart s; sb_bmapstart s]).

(** [bzero(&de, sizeof(de)); de.inum = xshort(inum); strcpy(de.name, name);] *)
Definition dot_entry (inum : Z) (name : list Z) : list Z :=
  dirent_bytes (mkDirent (xshort inum) (splice (replicate (Z.to_nat DIRSIZ) 0) 0 (name ++ [0]))).

(** [while((cc = read(fd, buf, sizeof(buf))) > 0) iappend(inum, buf, cc);], where [reads]
    are the results of the calls. *)
Fixpoint copy_loop (inum : Z) (reads : list (list Z)) : MK unit :=
  match reads with
  | [] => ret tt
  | buf :: reads =>
      if 0 <? Z.of_nat (length buf) then iappend inum buf;; copy_loop inum reads else ret tt
  end.

Section main.
(** The host: whether the image can be created, and for each file that can be opened what
    the successive reads of 512 bytes return. *)
Context (host_creat : list Z → bool) (host_open : list Z → option (list (list Z))).

(** Skip leading _ in name. *)
Definition skip_underscore (name : list Z) : list Z :=
  match name with
  | c :: name' => if c =? 95 then name' else name
  | [] => []
  end.

Definition add_file (rootino : Z) (name : list Z) : MK unit :=
  assert (bool_decide (SLASH ∉ name));;
  match host_open name with
  | None => fail Exit1
  | Some reads =>
      let name := skip_underscore name in
      inum ← ialloc T_FILE;
      iappend rootino (dirent_bytes (mkDirent (xshort inum) (strncpy_l (Z.to_nat DIRSIZ) name)));;
      copy_loop inum reads
  end.

Definition main (argv : list (list Z)) : MK unit :=
  match argv with
  | _ :: img :: files =>
      if negb (host_creat img) then fail Exit1 else
      modify (set_fsfd []);;
      modify (set_m_sb (mkSuperblock (xint FSSIZE) (xint (FSSIZE - nmeta)) (xint NINODES) (xint nlog)
        (xint 2) (xint (2 + nlog)) (xint (2 + nlog + ninodeblocks))));;
      modify (set_freeblock nmeta);;
      forM (seqZ 0 FSSIZE) (λ i, wsect i zero_block);;
      sb ← gets m_sb;
      wsect 1 (splice zero_block 0 (sb_bytes sb));;
      rootino ← ialloc T_DIR;
      assert (rootino =? ROOTINO);;
      iappend rootino (dot_entry rootino [46]);;
      iappend rootino (dot_entry rootino [46; 46]);;
      forM files (add_file rootino);;
      din ← rinode rootino;
      let off := xint (d_size din) in
      let off := u32 ((off / BSIZE + 1) * BSIZE) in
      winode rootino (din_set_size din (xint off));;
      fb ← gets freeblock;
      balloc (s32 fb)
  | _ => fail Exit1
  end.
End main.

#[global] Arguments wsect : simpl never.
#[global] Arguments rsect : simpl never.
#[global] Arguments winode : simpl never.
#[global] Arguments rinode : simpl never.
#[global] Arguments iappend : simpl never.
#[global] Arguments first_bits : simpl never.
