(* ===== verification/MkfsSpec.v ===== *)
(** [mkfs] ([mkfs.c]) builds a consistent file system that holds the files it was given. *)

From S2P Require Import Prelude Params Bytes State Spinlock Procs Sched SchedSpec Bio BioSpec CacheSpec BlockSpec Log LogSpec CommitSpec Inode BallocSpec DiskSpec BmapSpec DinodeSpec Console Fs WriteSpec Mkfs.

(** ** Byte order and bits *)
Lemma xint_small x : 0 ≤ x < 2 ^ 32 → xint x = x.
Proof. intros Hx. unfold xint, u8. rewrite !Z.shiftr_div_pow2 by lia. cbn [le_val]. lia. Qed.
Lemma xshort_small x : 0 ≤ x < 2 ^ 16 → xshort x = x.
Proof. intros Hx. unfold xshort, u8. rewrite !Z.shiftr_div_pow2 by lia. cbn [le_val]. lia. Qed.

Lemma first_bits_next n : 0 ≤ n → first_bits (n + 1) = set_bit (first_bits n) n.
Proof. intros Hn. unfold first_bits. rewrite seqZ_snoc by done. by rewrite foldl_snoc. Qed.

Lemma first_bits_ok (n : nat) : Z.of_nat n ≤ 4096 →
  block_ok (first_bits (Z.of_nat n)) ∧ ∀ b, 0 ≤ b → bitset (first_bits (Z.of_nat n)) b = (b <? Z.of_nat n).
Proof.
  induction n as [|n IH]; intros Hn.
  - split; [apply zero_block_ok|]. intros b Hb. rewrite (proj2 (Z.ltb_ge _ _)) by lia.
    change (first_bits (Z.of_nat 0)) with zero_block. unfold bitset, zero_block.
    destruct (replicate 512 0 !! _) as [x|] eqn:E; [apply lookup_replicate in E as [-> _]|]; apply Z.bits_0.
  - destruct IH as [Hok Hb]; [lia|]. replace (Z.of_nat (S n)) with (Z.of_nat n + 1) by lia.
    rewrite first_bits_next by lia. split; [apply block_ok_set_bit; [lia|done]|].
    intros b Hb0. rewrite bitset_set by (apply Hok || lia). rewrite Hb by done. zcases; cbn; lia.
Qed.

Lemma bitset_first n b : 0 ≤ n ≤ 4096 → 0 ≤ b → bitset (first_bits n) b = (b <? n).
Proof. intros Hn Hb. destruct (first_bits_ok (Z.to_nat n)) as [_ H]; [lia|]. rewrite Z2Nat.id in H by lia. by apply H. Qed.

Lemma first_bits_block n : 0 ≤ n ≤ 4096 → block_ok (first_bits n).
Proof. intros Hn. destruct (first_bits_ok (Z.to_nat n)) as [H _]; [lia|]. by rewrite Z2Nat.id in H by lia. Qed.

(** ** The image

    It holds the blocks [C], up to the bitmap, which is written at the end: in [C] it says
    that the blocks below [freeblock] are taken. *)
Record holds (st : mkst) (C : Z → list Z) : Prop := mkHolds {
  ho_len : length (fsfd st) = 1000%nat;
  ho_sect : ∀ b, 0 ≤ b < FSSIZE → b ≠ BMAP → fsfd st !! Z.to_nat b = Some (C b);
  ho_ok : ∀ b, block_ok (C b);
  ho_free : nmeta ≤ freeblock st ≤ FSSIZE;
  ho_bits : C BMAP = first_bits (freeblock st);
  ho_zero : ∀ b, freeblock st ≤ b < FSSIZE → C b = zero_block;
  ho_sb : m_sb st = mkfs_sb
}.

Section image.
Implicit Types (st : mkst) (C : Z → list Z) (b : Z).

Lemma sector_at_small b : 0 ≤ b < FSSIZE → sector_at b = Z.to_nat b.
Proof. intros Hb. unfold sector_at. rewrite u32_small by clia. f_equal. clia. Qed.

Lemma rsect_ok st C b : holds st C → 0 ≤ b < FSSIZE → b ≠ BMAP → rsect b st = Ok (C b) st.
Proof.
  intros Hh Hb HB. unfold rsect. rewrite bind_gets, sector_at_small by done. by rewrite (ho_sect _ _ Hh).
Qed.

Lemma wsect_ok st C b x : holds st C → 0 ≤ b < freeblock st → b ≠ BMAP → block_ok x →
  let st' := set_fsfd (<[Z.to_nat b := x]> (fsfd st)) st in
  wsect b x st = Ok tt st' ∧ holds st' (upd C b x).
Proof.
  intros [Hl Hs Hok Hf Hbits Hz Hsb] Hb HB Hx st'. split.
  - unfold wsect, modify, put_sector. rewrite sector_at_small by lia.
    by rewrite (proj2 (Nat.ltb_lt _ _)) by (rewrite Hl; clia).
  - split; cbn [fsfd freeblock m_sb st' set_fsfd]; try done.
    + by rewrite length_insert.
    + intros c Hc HcB. destruct (decide (c = b)) as [->|Hne].
      * rewrite upd_eq. apply list_lookup_insert_eq. rewrite Hl. clia.
      * rewrite upd_ne by done. rewrite list_lookup_insert_ne by lia. by apply Hs.
    + intros c. destruct (decide (c = b)) as [->|Hne]; [by rewrite upd_eq|by rewrite upd_ne].
    + by rewrite upd_ne.
    + intros c Hc. rewrite upd_ne by lia. by apply Hz.
Qed.

Lemma holds_taken st C b : holds st C → 0 ≤ b < FSSIZE → bitset (C BMAP) b = (b <? freeblock st).
Proof. intros Hh Hb. rewrite (ho_bits _ _ Hh). pose proof (ho_free _ _ Hh). apply bitset_first; dlia. Qed.

Lemma next_block_ok st C : holds st C → freeblock st < FSSIZE →
  let b := freeblock st in let st' := set_freeblock (b + 1) st in
  next_block st = Ok b st' ∧ holds st' (taken_block C b) ∧ nmeta ≤ b < FSSIZE ∧ bitset (C BMAP) b = false.
Proof.
  intros Hh Hb b st'. pose proof Hh as [Hl Hs Hok Hf Hbits Hz Hsb]. split_and!; [| |dlia|dlia|].
  - unfold next_block. rewrite bind_gets, bind_modify. fold b. rewrite u32_small by (unfold b; dlia). done.
  - split; cbn [fsfd freeblock m_sb st' set_freeblock]; try done.
    + intros c Hc HcB. destruct (decide (c = b)) as [->|Hne].
      * rewrite taken_eq, <- (Hz b) by (unfold b; lia). by apply Hs.
      * rewrite taken_ne by done. by apply Hs.
    + intros c. unfold taken_block. destruct (decide (c = b)) as [->|Hne]; [rewrite upd_eq; apply zero_block_ok|].
      rewrite upd_ne by done. destruct (decide (c = BMAP)) as [->|HB]; [|by rewrite upd_ne].
      rewrite upd_eq. apply block_ok_set_bit; [unfold b; dlia|done].
    + unfold b. dlia.
    + unfold taken_block. rewrite upd_ne by (unfold b; dlia). rewrite upd_eq, Hbits. unfold b. rewrite first_bits_next by dlia. done.
    + intros c Hc. rewrite taken_ne by (unfold b; dlia). apply Hz. unfold b in *. lia.
  - rewrite (holds_taken st C) by (done || (unfold b; dlia)). apply Z.ltb_irrefl.
Qed.
End image.

(** ** Appending to a file

    The inodes [I] have the sizes of their blocks, so that the bytes after the end of a
    file count as its contents. *)
Definition grown_to (d : dinode) (A : list Z) (nb : Z) : dinode :=
  mkDinode (d_type d) (d_major d) (d_minor d) (d_nlink d) (512 * nb) A.
Definition zeros (n : Z) : list Z := replicate (Z.to_nat n) 0.

(** Block [bn] of file [n] has been found or allocated. *)
Record grew (st : mkst) (C : Z → list Z) (I : Z → dinode) (n bn nb : Z) (st' : mkst) (C' : Z → list Z) (A : list Z) : Prop := mkGrew {
  gr_holds : holds st' C';
  gr_inv : fsinv C' (updI I n (grown_to (I n) A (bn + 1)));
  gr_data : file_data C' (grown_to (I n) A (bn + 1)) = file_data C (I n) ++ zeros (512 * (bn + 1 - nb));
  gr_others : ∀ n', live I n' → n' ≠ n → file_data C' (I n') = file_data C (I n');
  gr_low : ∀ b, b < nmeta → b ≠ BMAP → C' b = C b;
  gr_free : freeblock st' = freeblock st + needn nb (bn + 1);
  gr_freei : freeinode st' = freeinode st
}.

Section append.
Implicit Types (st : mkst) (C : Z → list Z) (I : Z → dinode) (d din : dinode) (n b bn nb : Z) (l : list Z).

Lemma grew_same st C I n bn :
  holds st C → fsinv C I → d_size (I n) = 512 * (bn + 1) → grew st C I n bn (bn + 1) st C (d_addrs (I n)).
Proof.
  intros Hh Hi Hs. assert (E : grown_to (I n) (d_addrs (I n)) (bn + 1) = I n).
  { unfold grown_to. rewrite <- Hs. by destruct (I n). }
  split; rewrite ?E; try done.
  - eapply fsinv_ext; [|exact Hi]. intros m. symmetry. apply updI_same.
  - replace (bn + 1 - (bn + 1)) with 0 by lia. by rewrite app_nil_r.
  - unfold needn. zcases; cbn; lia.
Qed.

Lemma grew_next st C I n bn st' C' A :
  let d' := grown (I n) A bn in
  holds st' C' → fsinv C' (updI I n d') → file_data C' d' = file_data C (I n) ++ replicate 512 0 →
  (∀ n', live I n' → n' ≠ n → file_data C' (I n') = file_data C (I n')) →
  (∀ b, b < nmeta → b ≠ BMAP → C' b = C b) → freeblock st' = freeblock st + needn bn (bn + 1) → freeinode st' = freeinode st →
  grew st C I n bn bn st' C' A.
Proof.
  intros d' Hh Hi Hd Ho Hlow Hf Hfi. split; try done.
  replace (bn + 1 - bn) with 1 by lia. exact Hd.
Qed.

(** The entries of an inode are block numbers. *)
Lemma din_addr_int C I n j : fsinv C I → live I n → 0 ≤ addr (I n) j < 2 ^ 32.
Proof.
  intros Hi Hn. pose proof (wf_addrs _ _ (fsi_wf _ _ Hi n Hn)) as HA. unfold addr.
  destruct (d_addrs (I n) !! Z.to_nat j) as [a|] eqn:E; [|cbn; lia]. rewrite Forall_lookup in HA. by apply HA in E.
Qed.

Definition with_addrs (din : dinode) (A : list Z) : dinode :=
  mkDinode (d_type din) (d_major din) (d_minor din) (d_nlink din) (d_size din) A.

Lemma iappend_direct st C I n din bn nb :
  holds st C → fsinv C I → live I n → d_size (I n) = 512 * nb → d_addrs (I n) = d_addrs din → 0 ≤ bn < 12 →
  (nb = bn ∨ nb = bn + 1) → freeblock st + needn nb (bn + 1) ≤ FSSIZE →
  ∃ st' C' A, iappend_block din bn st = Ok (with_addrs din A, blk C' (grown_to (I n) A (bn + 1)) bn) st' ∧
    grew st C I n bn nb st' C' A.
Proof.
  intros Hh Hi Hn Hs HA Hbn Hnb Hroom. pose proof (fsi_wf _ _ Hi n Hn) as Hwf.
  assert (Hnbk : nblk (d_size (I n)) = nb) by (rewrite Hs; apply nblk_mul).
  assert (Ha : din_addr din bn = addr (I n) bn) by (unfold din_addr, addr; by rewrite HA).
  pose proof (din_addr_int C I n bn Hi Hn) as Hint.
  unfold iappend_block. rewrite (proj2 (Z.ltb_lt _ _)) by clia. rewrite Ha, xint_small by done.
  destruct Hnb as [-> | ->].
  - rewrite (wi_zero _ _ Hwf bn), Z.eqb_refl by lia. rewrite bind_assoc.
    assert (Hlt : freeblock st < FSSIZE) by (unfold needn in Hroom; destruct ((bn <=? 12) && _); lia).
    destruct (next_block_ok st C Hh Hlt) as (Hrun & Hh' & Hb & Hfree). set (b := freeblock st) in *.
    rewrite (bind_ok _ _ _ _ _ Hrun), bind_ret. set (A := <[Z.to_nat bn := b]> (d_addrs (I n))).
    destruct (grow_direct C I n bn b Hi Hn Hs) as (Hi' & Hd & Hblk & Ho); [lia|apply (ho_ok _ _ Hh)|dlia|done|].
    exists (set_freeblock (b + 1) st), (taken_block C b), A. rewrite xint_small by dlia. split.
    + unfold din_set_addr, ret, with_addrs. rewrite <- HA. fold A. f_equal. f_equal.
      transitivity b; [|symmetry; exact Hblk]. unfold din_addr. cbn [d_addrs]. unfold A.
      rewrite list_lookup_insert_eq by (rewrite (wi_len _ _ Hwf); lia). apply xint_small. dlia.
    + apply grew_next; try done.
      * intros c Hc HcB. apply taken_ne; [dlia|done].
      * cbn. fold b. unfold needn. zcases; cbn; lia.
  - assert (Hblk : blk C (I n) bn = addr (I n) bn) by (unfold blk; by rewrite (proj2 (Z.ltb_lt _ _)) by lia).
    pose proof (wi_blk _ _ Hwf bn ltac:(lia)) as Hr. rewrite Hblk in Hr. rewrite (proj2 (Z.eqb_neq _ _)) by dlia.
    rewrite bind_ret. exists st, C, (d_addrs (I n)). split; [|by apply grew_same].
    rewrite Ha, xint_small by done. unfold ret. replace (with_addrs din (d_addrs (I n))) with din by (rewrite HA; by destruct din).
    f_equal. f_equal. rewrite <- Hblk. unfold grown_to. rewrite <- Hs. by destruct (I n).
Qed.

(** The indirect block. *)
Lemma iappend_indirect st C I n din bn nb :
  holds st C → fsinv C I → live I n → d_size (I n) = 512 * nb → d_addrs (I n) = d_addrs din → 12 ≤ bn < MAXFILE →
  12 < nb → (nb = bn ∨ nb = bn + 1) → freeblock st + needn nb (bn + 1) ≤ FSSIZE →
  ∃ st' C' A, iappend_block din bn st = Ok (with_addrs din A, blk C' (grown_to (I n) A (bn + 1)) bn) st' ∧
    grew st C I n bn nb st' C' A.
Proof.
  intros Hh Hi Hn Hs HA Hbn H12 Hnb Hroom. pose proof (fsi_wf _ _ Hi n Hn) as Hwf.
  assert (Hnbk : nblk (d_size (I n)) = nb) by (rewrite Hs; apply nblk_mul).
  assert (Ha : din_addr din NDIRECT = addr (I n) 12) by (unfold din_addr, addr; by rewrite HA).
  pose proof (wi_ind _ _ Hwf ltac:(lia)) as Hrange. set (a := addr (I n) 12) in *.
  unfold iappend_block. rewrite (proj2 (Z.ltb_ge _ _)) by clia. rewrite Ha, xint_small by dlia.
  rewrite (proj2 (Z.eqb_neq _ _)), bind_ret by dlia. rewrite Ha, xint_small by dlia.
  rewrite (bind_ok _ _ _ _ _ (rsect_ok st C a Hh ltac:(dlia) ltac:(dlia))). change NDIRECT with 12.
  assert (Hblk : blk C (I n) bn = get32 (C a) (Z.to_nat (4 * (bn - 12)))).
  { unfold blk. by rewrite (proj2 (Z.ltb_ge _ _)) by lia. }
  rewrite <- Hblk. destruct Hnb as [-> | ->].
  - rewrite (wi_zero_blk _ _ Hwf), Z.eqb_refl by lia. rewrite bind_assoc.
    assert (Hlt : freeblock st < FSSIZE) by (unfold needn in Hroom; destruct ((bn <=? 12) && _); lia).
    destruct (next_block_ok st C Hh Hlt) as (Hrun & Hh' & Hb & Hfree). set (b := freeblock st) in *.
    rewrite (bind_ok _ _ _ _ _ Hrun). rewrite xint_small by dlia.
    assert (Hbit : bitset (C BMAP) a = true) by (apply (fsi_bits _ _ Hi n); [done|apply ind_used; lia]).
    assert (Hab : a ≠ b) by congruence.
    assert (HC1 : taken_block C b a = C a) by (apply taken_ne; [done|dlia]).
    pose proof Hbit as Hlta. rewrite (holds_taken st C) in Hlta by (done || dlia). apply Z.ltb_lt in Hlta.
    destruct (wsect_ok _ _ a (put32 (C a) (Z.to_nat (4 * (bn - 12))) b) Hh') as [Hw Hh2];
      [cbn; dlia|dlia|apply block_ok_put32; [apply (ho_ok _ _ Hh)|clia]|].
    rewrite bind_assoc. rewrite (bind_ok _ _ _ _ _ Hw), bind_ret.
    destruct (grow_listed C I n bn b Hi Hn Hs) as (Hi' & Hd & Hnew & Ho);
      [lia|apply (ho_ok _ _ Hh)|apply (ho_ok _ _ Hh)|done|done|].
    fold a in Hi', Hd, Hnew, Ho. rewrite HC1 in Hi', Hd, Hnew, Ho.
    eexists _, _, (d_addrs (I n)). split.
    + rewrite get32_put32_eq by (rewrite (proj1 (ho_ok _ _ Hh a)); clia). rewrite u32_small, xint_small by dlia.
      replace (with_addrs din (d_addrs (I n))) with din by (rewrite HA; by destruct din).
      unfold ret. f_equal. f_equal. symmetry. exact Hnew.
    + apply grew_next; try done.
      * intros c Hc HcB. rewrite upd_ne by dlia. apply taken_ne; [dlia|done].
      * cbn. fold b. unfold needn. zcases; cbn; lia.
  - pose proof (wi_blk _ _ Hwf bn ltac:(lia)) as Hr. rewrite (proj2 (Z.eqb_neq _ _)) by dlia.
    rewrite bind_ret. exists st, C, (d_addrs (I n)). split; [|by apply grew_same].
    rewrite <- Hblk, xint_small by dlia. unfold ret. replace (with_addrs din (d_addrs (I n))) with din by (rewrite HA; by destruct din).
    done.
Qed.

Lemma iappend_first st C I n din :
  holds st C → fsinv C I → live I n → d_size (I n) = 512 * 12 → d_addrs (I n) = d_addrs din →
  freeblock st + 2 ≤ FSSIZE →
  ∃ st' C' A, iappend_block din 12 st = Ok (with_addrs din A, blk C' (grown_to (I n) A 13) 12) st' ∧
    grew st C I n 12 12 st' C' A.
Proof.
  intros Hh Hi Hn Hs HA Hroom. pose proof (fsi_wf _ _ Hi n Hn) as Hwf.
  assert (Hnbk : nblk (d_size (I n)) = 12) by (rewrite Hs; apply nblk_mul).
  assert (Ha : din_addr din NDIRECT = 0) by (unfold din_addr; rewrite <- HA; apply (wi_zero_ind _ _ Hwf); lia).
  unfold iappend_block. change (12 <? NDIRECT) with false. cbv iota. rewrite Ha. change (xint 0 =? 0) with true. cbv iota.
  destruct (next_block_ok st C Hh ltac:(lia)) as (Hrun & Hh' & Hb & Hfree). set (a := freeblock st) in *.
  rewrite bind_assoc, (bind_ok _ _ _ _ _ Hrun), bind_ret. rewrite (xint_small a) by dlia.
  set (A := <[12%nat := a]> (d_addrs din)). change (din_set_addr din NDIRECT a) with (with_addrs din A).
  assert (HAa : din_addr (with_addrs din A) NDIRECT = a).
  { unfold din_addr. cbn. unfold A. change (Z.to_nat NDIRECT) with 12%nat.
    by rewrite list_lookup_insert_eq by (rewrite <- HA, (wi_len _ _ Hwf); lia). }
  rewrite HAa, xint_small by dlia. set (st1 := set_freeblock (a + 1) st) in *.
  rewrite (bind_ok _ _ _ _ _ (rsect_ok st1 _ a Hh' ltac:(dlia) ltac:(dlia))). rewrite taken_eq, get32_zero, Z.eqb_refl.
  rewrite bind_assoc. destruct (next_block_ok st1 _ Hh' ltac:(cbn; lia)) as (Hrun2 & Hh2 & Hb2 & Hfree2).
  change (freeblock st1) with (a + 1) in *. rewrite (bind_ok _ _ _ _ _ Hrun2). rewrite xint_small by dlia.
  change (Z.to_nat (4 * (12 - NDIRECT))) with 0%nat.
  destruct (wsect_ok _ _ a (put32 zero_block 0 (a + 1)) Hh2) as [Hw Hh3];
    [cbn; dlia|dlia|apply block_ok_put32; [apply zero_block_ok|lia]|].
  rewrite bind_assoc. rewrite (bind_ok _ _ _ _ _ Hw), bind_ret.
  assert (Hfb : bitset (C BMAP) (a + 1) = false).
  { rewrite (holds_taken st C) by (done || dlia). apply Z.ltb_ge. unfold a. lia. }
  destruct (grow_first C I n a (a + 1) Hi Hn Hs (ho_ok _ _ Hh _)) as (Hi' & Hd & Hnew & Ho); [lia|done|done|dlia|done|].
  assert (HCa : taken_block (taken_block C a) (a + 1) a = zero_block) by (rewrite taken_ne by dlia; apply taken_eq).
  rewrite HCa in Hi', Hd, Hnew, Ho. rewrite HA in Hi', Hd, Hnew. fold A in Hi', Hd, Hnew.
  eexists _, _, A. split.
  - rewrite get32_put32_eq by (cbn; lia). rewrite u32_small, xint_small by dlia.
    unfold ret. f_equal. f_equal. symmetry. exact Hnew.
  - apply grew_next; try done.
    + intros c Hc HcB. rewrite upd_ne by dlia. rewrite !taken_ne by (done || dlia). done.
    + change (needn 12 (12 + 1)) with 2. cbn. fold a. lia.
Qed.

Lemma iappend_block_ok st C I n din bn nb :
  holds st C → fsinv C I → live I n → d_size (I n) = 512 * nb → d_addrs (I n) = d_addrs din → 0 ≤ bn < MAXFILE →
  (nb = bn ∨ nb = bn + 1) → freeblock st + needn nb (bn + 1) ≤ FSSIZE →
  ∃ st' C' A, iappend_block din bn st = Ok (with_addrs din A, blk C' (grown_to (I n) A (bn + 1)) bn) st' ∧
    grew st C I n bn nb st' C' A.
Proof.
  intros Hh Hi Hn Hs HA Hbn Hnb Hroom. destruct (Z.ltb_spec bn 12) as [H1|H1]; [apply iappend_direct; done || lia|].
  destruct (Z.ltb_spec 12 nb) as [H2|H2]; [apply iappend_indirect; done || lia|].
  assert (bn = 12) as -> by lia. assert (nb = 12) as -> by lia. apply iappend_first; try done.
Qed.

(** File [n], which had the bytes [data], has got [l]. *)
Record stretched st C I n (data l : list Z) st' C' (A : list Z) : Prop := mkStretched {
  sr_holds : holds st' C';
  sr_inv : fsinv C' (updI I n (grown_to (I n) A (nblk (Z.of_nat (length (data ++ l))))));
  sr_data : file_data C' (grown_to (I n) A (nblk (Z.of_nat (length (data ++ l)))))
    = (data ++ l) ++ zeros (512 * nblk (Z.of_nat (length (data ++ l))) - Z.of_nat (length (data ++ l)));
  sr_others : ∀ n', live I n' → n' ≠ n → file_data C' (I n') = file_data C (I n');
  sr_low : ∀ b, b < nmeta → b ≠ BMAP → C' b = C b;
  sr_free : freeblock st' = freeblock st + needn (nblk (Z.of_nat (length data))) (nblk (Z.of_nat (length (data ++ l))));
  sr_freei : freeinode st' = freeinode st
}.
Record stretchable st C I n din (data : list Z) : Prop := mkStretchable {
  sc_holds : holds st C;
  sc_inv : fsinv C I;
  sc_live : live I n;
  sc_size : d_size (I n) = 512 * nblk (Z.of_nat (length data));
  sc_addrs : d_addrs (I n) = d_addrs din;
  sc_data : file_data C (I n) = data ++ zeros (512 * nblk (Z.of_nat (length data)) - Z.of_nat (length data))
}.

Lemma splice_zeros (data l : list Z) m :
  splice (data ++ zeros m) (length data) l = data ++ l ++ zeros (m - Z.of_nat (length l)).
Proof.
  unfold splice. rewrite take_app_length. f_equal. f_equal. rewrite drop_app_add. unfold zeros.
  rewrite drop_replicate. f_equal. lia.
Qed.

(** One round of the loop. *)
Lemma append_step {B} st C I n din data l (F : dinode → MK B) :
  let off := Z.of_nat (length data) in let len := Z.of_nat (length l) in
  stretchable st C I n din data → 0 < len → off mod 512 + len ≤ 512 → off + len ≤ MAXFILE * BSIZE → bytes_ok l →
  freeblock st + needn (nblk off) (nblk (off + len)) ≤ FSSIZE →
  ∃ st' C' A,
    ('(din, x) ← iappend_block din (off / 512);
     buf ← rsect x;
     wsect x (splice buf (Z.to_nat (off - off / 512 * 512)) l);;
     F din) st = F (with_addrs din A) st' ∧ stretched st C I n data l st' C' A.
Proof.
  intros off len [Hh Hi Hn Hs HA Hd] Hl Hm Hmax Hby Hroom. set (bn := off / 512).
  assert (Hnb : nblk (off + len) = bn + 1) by (unfold nblk, bn in *; lia). rewrite Hnb in Hroom.
  assert (Hnb0 : nblk off = bn ∨ nblk off = bn + 1) by (unfold nblk, bn in *; lia).
  destruct (iappend_block_ok st C I n din bn (nblk off) Hh Hi Hn Hs HA) as (st1 & C1 & A & Hrun & Hg); [unfold bn; clia|done|done|].
  destruct Hg as [Hh1 Hi1 Hd1 Ho1 Hlow1 Hf1 Hfi1]. set (d1 := grown_to (I n) A (bn + 1)) in *.
  set (I1 := updI I n d1) in *. assert (HI1 : I1 n = d1) by apply updI_eq.
  assert (Hn1 : live I1 n) by (split; [apply Hn|rewrite HI1; apply Hn]).
  assert (Hs1 : d_size d1 = 512 * (bn + 1)) by done.
  assert (Hbn1 : 0 ≤ bn < nblk (d_size (I1 n))) by (rewrite HI1, Hs1, nblk_mul; unfold bn; lia).
  pose proof (wi_blk _ _ (fsi_wf _ _ Hi1 n Hn1) bn Hbn1) as Hb. set (x := blk C1 d1 bn). rewrite HI1 in Hb. fold x in Hb.
  assert (Hbit : bitset (C1 BMAP) x = true).
  { apply (fsi_bits _ _ Hi1 n); [done|]. rewrite HI1. apply blk_used. by rewrite <- HI1. }
  rewrite (holds_taken st1) in Hbit by (done || dlia). apply Z.ltb_lt in Hbit.
  set (o := Z.to_nat (off - bn * 512)). assert (Ho : (o + length l ≤ 512)%nat) by (unfold o, bn; lia).
  destruct (ho_ok _ _ Hh1 x) as [Hlx Hbx].
  destruct (wsect_ok st1 C1 x (splice (C1 x) o l) Hh1) as [Hw Hh2];
    [dlia|dlia|split; [rewrite length_splice_in; lia|by apply bytes_splice]|].
  destruct (fsinv_write C1 I1 n bn (splice (C1 x) o l) Hi1 Hn1 Hbn1) as (Hi2 & _ & Hoth2).
  pose proof (file_data_write C1 I1 n bn o l Hi1 Hn1 Hbn1) as Hd2. cbv zeta in Hd2. rewrite HI1 in Hi2, Hoth2, Hd2. fold x in Hi2, Hoth2, Hd2.
  specialize (Hd2 Hlx Ho ltac:(rewrite Hs1; lia)).
  assert (Elen : Z.of_nat (length (data ++ l)) = off + len) by (rewrite length_app; lia).
  eexists _, _, A. split.
  - rewrite (bind_ok _ _ _ _ _ Hrun). fold d1 x. rewrite (bind_ok _ _ _ _ _ (rsect_ok st1 C1 x Hh1 ltac:(dlia) ltac:(dlia))).
    by rewrite (bind_ok _ _ _ _ _ Hw).
  - split; rewrite ?Elen, ?Hnb; try done.
    + fold d1. rewrite Hd2, Hd1, Hd. replace (Z.to_nat (512 * bn) + o)%nat with (length data) by (unfold o, bn; lia).
      unfold zeros at 1 2. rewrite <- app_assoc, <- replicate_add, <- Z2Nat.inj_add by (unfold nblk; lia).
      change (replicate (Z.to_nat ?z) 0) with (zeros z). rewrite splice_zeros, <- app_assoc. do 3 f_equal. fold off len. lia.
    + intros n' Hl' Hne. rewrite <- Ho1 by done. rewrite <- (updI_ne I n d1 n') by done. apply Hoth2; [|done].
      unfold live, I1. by rewrite updI_ne.
    + intros c Hc HcB. rewrite upd_ne by dlia. by apply Hlow1.
Qed.

Lemma stretched_able st C I n din data l st' C' A :
  live I n → stretched st C I n data l st' C' A →
  stretchable st' C' (updI I n (grown_to (I n) A (nblk (Z.of_nat (length (data ++ l)))))) n (with_addrs din A) (data ++ l).
Proof.
  intros Hn [Hh Hi Hd Ho Hlow Hf Hfi]. split; rewrite ?updI_eq; try done.
  split; [apply Hn|]. rewrite updI_eq. apply Hn.
Qed.

Lemma stretched_trans st C I n data l1 l2 st1 C1 A1 st2 C2 A2 :
  live I n → stretched st C I n data l1 st1 C1 A1 →
  stretched st1 C1 (updI I n (grown_to (I n) A1 (nblk (Z.of_nat (length (data ++ l1)))))) n (data ++ l1) l2 st2 C2 A2 →
  stretched st C I n data (l1 ++ l2) st2 C2 A2.
Proof.
  intros Hn [Hh1 Hi1 Hd1 Ho1 Hlow1 Hf1 Hfi1] [Hh2 Hi2 Hd2 Ho2 Hlow2 Hf2 Hfi2]. rewrite updI_eq in Hi2, Hd2.
  split; rewrite ?(app_assoc data l1 l2); try done.
  - eapply fsinv_ext; [|exact Hi2]. intros m. unfold updI. by destruct (m =? n).
  - intros n' Hl Hne. rewrite <- Ho1 by done. specialize (Ho2 n'). unfold live in Ho2. rewrite updI_ne in Ho2 by done.
    by apply Ho2.
  - intros b Hb HB. rewrite Hlow2 by done. by apply Hlow1.
  - rewrite Hf2, Hf1. rewrite (needn_split (nblk (Z.of_nat (length data))) (nblk (Z.of_nat (length (data ++ l1)))) (nblk (Z.of_nat (length ((data ++ l1) ++ l2)))));
      [lia|apply nblk_mono; rewrite ?length_app; lia..].
  - by rewrite Hfi2.
Qed.

Lemma stretched_nil st C I n din data : stretchable st C I n din data → stretched st C I n data [] st C (d_addrs din).
Proof.
  intros [Hh Hi Hn Hs HA Hd]. assert (E : grown_to (I n) (d_addrs din) (nblk (Z.of_nat (length data))) = I n).
  { unfold grown_to. rewrite <- Hs, <- HA. by destruct (I n). }
  split; rewrite ?app_nil_r, ?E; try done.
  - eapply fsinv_ext; [|exact Hi]. intros m. symmetry. apply updI_same.
  - unfold needn. zcases; cbn; lia.
Qed.

Lemma iappend_loop_ok (f : nat) : ∀ st C I n din data l,
  let off := Z.of_nat (length data) in let len := Z.of_nat (length l) in
  stretchable st C I n din data → (length l ≤ f)%nat → off + len ≤ MAXFILE * BSIZE → bytes_ok l →
  freeblock st + needn (nblk off) (nblk (off + len)) ≤ FSSIZE →
  ∃ st' C' A, iappend_loop f l off din st = Ok (off + len, with_addrs din A) st' ∧ stretched st C I n data l st' C' A.
Proof.
  induction f as [|f IH]; intros st C I n din data l off len Hsc Hf Hmax Hby Hroom.
  all: destruct (decide (l = [])) as [->|Hnil].
  1, 3: exists st, C, (d_addrs din); split; [|by apply stretched_nil]; unfold len; cbn; rewrite Z.add_0_r; by destruct din.
  { destruct l; [done|cbn in Hf; lia]. }
  assert (Hlen0 : 0 < len) by (destruct l; [done|unfold len; cbn; lia]).
  cbn [iappend_loop]. fold len. rewrite (proj2 (Z.ltb_lt _ _)) by done. change BSIZE with 512 in *.
  rewrite (proj2 (Z.ltb_lt _ MAXFILE)) by clia. change (assert true) with (ret (E:=mkerr) (S:=mkst) tt). rewrite bind_ret.
  set (mm := Z.min len ((off / 512 + 1) * 512 - off)). set (l1 := take (Z.to_nat mm) l). set (l2 := drop (Z.to_nat mm) l).
  assert (Hl1 : Z.of_nat (length l1) = mm) by (unfold l1; rewrite length_take; lia).
  assert (Hl2 : Z.of_nat (length l2) = len - mm) by (unfold l2; rewrite length_drop; lia).
  assert (Hl12 : l = l1 ++ l2) by (symmetry; apply take_drop).
  assert (Hby12 : bytes_ok l1 ∧ bytes_ok l2) by (by rewrite Hl12 in Hby; apply Forall_app in Hby). destruct Hby12 as [Hby1 Hby2].
  pose proof (nblk_mono off (off + mm) ltac:(lia)). pose proof (nblk_mono (off + mm) (off + len) ltac:(lia)).
  pose proof (needn_split (nblk off) (nblk (off + mm)) (nblk (off + len)) ltac:(done) ltac:(done)) as Hsplit.
  assert (0 ≤ needn (nblk (off + mm)) (nblk (off + len))) by (unfold needn; destruct (_ && _); lia).
  destruct (append_step st C I n din data l1 (iappend_loop f l2 (u32 (off + mm))) Hsc)
    as (st1 & C1 & A1 & Hr1 & Hs1); rewrite ?Hl1; try done; fold off; [lia|lia|clia|lia|].
  fold off in Hr1. rewrite Hr1. rewrite u32_small by clia.
  assert (Elen : Z.of_nat (length (data ++ l1)) = off + mm) by (rewrite length_app; lia).
  pose proof (stretched_able _ _ _ _ din _ _ _ _ _ (sc_live _ _ _ _ _ _ Hsc) Hs1) as Hsc1.
  destruct (IH st1 C1 _ n _ _ l2 Hsc1) as (st2 & C2 & A2 & Hr2 & Hs2); rewrite ?Elen, ?Hl2; try done; [lia|lia| |].
  { rewrite (sr_free _ _ _ _ _ _ _ _ _ Hs1), Elen. replace (off + mm + (len - mm)) with (off + len) by lia. fold off. lia. }
  exists st2, C2, A2. split.
  - rewrite Elen, Hl2 in Hr2. replace (off + mm + (len - mm)) with (off + len) in Hr2 by lia. exact Hr2.
  - rewrite Hl12. eapply stretched_trans; [apply Hsc|done..].
Qed.
End append.

(** ** The file system under construction *)
Definition full (d : dinode) : dinode := resize d (512 * nblk (d_size d)).
Definition fullI (I : Z → dinode) : Z → dinode := λ n, full (I n).

Record mkfs_inv (st : mkst) (C : Z → list Z) : Prop := mkMkfsInv {
  mi_holds : holds st C;
  mi_inv : fsinv C (fullI (nd C));
  mi_next : 1 ≤ freeinode st ≤ NINODES;
  mi_new : ∀ n, freeinode st ≤ n < NINODES → d_type (nd C n) = 0;
  mi_sb : C 1 = splice zero_block 0 (sb_bytes mkfs_sb);
  mi_log : ∀ b, 2 ≤ b < 2 + LOGSIZE → C b = zero_block
}.

(** Inode [n] is a file of type [ty] with the bytes [data], followed by zeros in its last block. *)
Record file_at (C : Z → list Z) (n ty : Z) (data : list Z) : Prop := mkFileAt {
  fa_live : live (nd C) n;
  fa_type : d_type (nd C n) = ty;
  fa_nlink : d_nlink (nd C n) = 1;
  fa_size : d_size (nd C n) = Z.of_nat (length data);
  fa_data : file_data C (full (nd C n)) = data ++ zeros (512 * nblk (Z.of_nat (length data)) - Z.of_nat (length data))
}.

Section build.
Implicit Types (st : mkst) (C : Z → list Z) (I : Z → dinode) (d : dinode) (n b ty : Z) (data l : list Z).

Lemma fsinv_resized C I I' :
  fsinv C I →
  (∀ n, live I' n → live I n ∧ ∃ size, I' n = resize (I n) size ∧ 0 ≤ size ≤ MAXFILE * BSIZE ∧ nblk size = nblk (d_size (I n))) →
  fsinv C I'.
Proof.
  intros [H1 H2 H3 H4 H5] HI.
  assert (Hu : ∀ n, live I' n → live I n ∧ used_blocks C (I' n) = used_blocks C (I n)).
  { intros n (Hn & size & -> & _ & Hs)%HI. split; [done|]. by apply used_resize. }
  split; try done.
  - intros n (Hn & size & -> & Hs & Hs')%HI. apply wf_resize; [done|done|by apply H1].
  - intros n (Hn & ->)%Hu. by apply H2.
  - intros n n' b (Hn & ->)%Hu (Hn' & ->)%Hu. by apply H3.
  - intros n b (Hn & ->)%Hu. by apply H4.
Qed.

Lemma full_size d : 0 ≤ d_size d → d_size d ≤ d_size (full d) ∧ nblk (d_size (full d)) = nblk (d_size d).
Proof. intros Hd. cbn. rewrite nblk_mul. split; [|done]. apply nblk_range. lia. Qed.

(** The inodes with their sizes are consistent too. *)
Lemma fsinv_unfull C : (∀ b, block_ok (C b)) → fsinv C (fullI (nd C)) → fsinv C (nd C).
Proof.
  intros Hok Hi. apply (fsinv_resized C (fullI (nd C)) _ Hi). intros n Hn. assert (Hl : live (fullI (nd C)) n) by done.
  split; [done|]. exists (d_size (nd C n)).
  assert (Hs : 0 ≤ d_size (nd C n)) by (apply (dinode_at_wf (C (IBLOCK n mkfs_sb)) (ioff n)), Hok).
  pose proof (full_size _ Hs) as [H1 H2]. pose proof (wi_size _ _ (fsi_wf _ _ Hi n Hl)) as Hm. unfold fullI in *.
  split_and!; [by destruct (nd C n)|lia|lia|done].
Qed.

Lemma rinode_ok st C n : holds st C → 1 ≤ n < NINODES → rinode n st = Ok (nd C n) st.
Proof.
  intros Hh Hn. unfold rinode. rewrite bind_gets, (ho_sb _ _ Hh).
  by rewrite (bind_ok _ _ _ _ _ (rsect_ok st C (IBLOCK n mkfs_sb) Hh ltac:(rewrite IBLOCK_eq; clia) ltac:(rewrite IBLOCK_eq; clia))).
Qed.

Lemma winode_ok st C n d : holds st C → 1 ≤ n < NINODES → length (d_addrs d) = 13%nat →
  ∃ st', winode n d st = Ok tt st' ∧ holds st' (iupdated C n d) ∧ freeblock st' = freeblock st ∧ freeinode st' = freeinode st.
Proof.
  intros Hh Hn Hl. pose proof (ho_free _ _ Hh).
  destruct (wsect_ok st C (IBLOCK n mkfs_sb) (iupdated C n d (IBLOCK n mkfs_sb)) Hh) as [Hw Hh'];
    [rewrite IBLOCK_eq; dlia|rewrite IBLOCK_eq; clia|apply iupdated_block_ok; [lia|done|apply (ho_ok _ _ Hh)]|].
  unfold iupdated in Hw, Hh'. rewrite upd_eq in Hw, Hh'.
  eexists. split_and!; [|exact Hh'|done|done].
  unfold winode. rewrite bind_gets, (ho_sb _ _ Hh).
  by rewrite (bind_ok _ _ _ _ _ (rsect_ok st C (IBLOCK n mkfs_sb) Hh ltac:(rewrite IBLOCK_eq; clia) ltac:(rewrite IBLOCK_eq; clia))).
Qed.

(** Storing an inode whose blocks are those of [I]. *)
Lemma inode_stored st C I n d st' :
  holds st' (iupdated C n d) → (∀ b, block_ok (C b)) → dinode_wf d → 1 ≤ n < NINODES → fsinv C I →
  I n = full d → (∀ n', 1 ≤ n' < NINODES → n' ≠ n → I n' = full (nd C n')) →
  let C' := iupdated C n d in
  nd C' n = d ∧ (∀ n', 1 ≤ n' < NINODES → n' ≠ n → nd C' n' = nd C n') ∧ fsinv C' (fullI (nd C')) ∧
  (∀ n', live I n' → file_data C' (I n') = file_data C (I n')) ∧ (∀ b, b < 32 → C' b = C b).
Proof.
  intros Hh Hok Hwf Hn Hi HIn HI C'.
  assert (H1 : nd C' n = d) by (by apply nd_iupdated).
  assert (H2 : ∀ n', 1 ≤ n' < NINODES → n' ≠ n → nd C' n' = nd C n').
  { intros n' Hn' Hne. apply nd_iupdated_ne; [done|done|done|apply Hwf|done]. }
  destruct (fsinv_meta C C' I Hi) as [Hi' Hd']; [intros b Hb; apply iupdated_high; [done|lia]|].
  split_and!; try done.
  - apply (fsinv_same C' I _ Hi'). intros n' Hn'. unfold fullI. destruct (decide (n' = n)) as [->|Hne]; [by rewrite H1|].
    by rewrite H2, HI.
  - intros b Hb. apply upd_ne. rewrite IBLOCK_eq. lia.
Qed.

Definition keeps C C' n : Prop := ∀ n' ty data, n' ≠ n → file_at C n' ty data → file_at C' n' ty data.
(** The blocks that [n] bytes take. *)
Definition blocks_for (n : nat) : Z := nblk (Z.of_nat n).

Lemma file_stretchable st C n ty data : mkfs_inv st C → file_at C n ty data →
  stretchable st C (fullI (nd C)) n (nd C n) data.
Proof.
  intros [Hh Hi _ _ _ _] [Hl Ht Hnl Hs Hd]. split; try done. rewrite <- Hs. done.
Qed.

Lemma file_kept C C' n n' ty data : n' ≠ n → file_at C n' ty data → nd C' n' = nd C n' →
  file_data C' (full (nd C n')) = file_data C (full (nd C n')) → file_at C' n' ty data.
Proof. intros Hne [Hl Ht Hnl Hs Hd] E Ed. split; unfold live; rewrite ?E, ?Ed; done. Qed.

Lemma iappend_ok st C n ty data l :
  mkfs_inv st C → file_at C n ty data → bytes_ok l → Z.of_nat (length (data ++ l)) ≤ MAXFILE * BSIZE →
  freeblock st + needn (blocks_for (length data)) (blocks_for (length (data ++ l))) ≤ FSSIZE →
  ∃ st' C', iappend n l st = Ok tt st' ∧ mkfs_inv st' C' ∧ file_at C' n ty (data ++ l) ∧ keeps C C' n ∧
    freeblock st' = freeblock st + needn (blocks_for (length data)) (blocks_for (length (data ++ l))) ∧ freeinode st' = freeinode st.
Proof.
  unfold blocks_for. intros Hm Hfa Hby Hmax Hroom. pose proof Hm as [Hh Hi Hnx Hnew Hsb Hlog]. pose proof Hfa as [Hl Ht Hnl Hs Hd].
  pose proof (file_stretchable _ _ _ _ _ Hm Hfa) as Hsc. set (din := nd C n) in *.
  pose proof (dinode_at_wf (C (IBLOCK n mkfs_sb)) (ioff n) (proj2 (ho_ok _ _ Hh _))) as Hdw. fold (nd C n) in Hdw. fold din in Hdw.
  assert (Hn : 1 ≤ n < NINODES) by apply Hl. rewrite length_app, Nat2Z.inj_add in Hmax, Hroom.
  destruct (iappend_loop_ok (length l) st C _ n din data l Hsc) as (st1 & C1 & A & Hrun & Hst); try done.
  pose proof Hst as [Hh1 Hi1 Hd1 Ho1 Hlow1 Hf1 Hfi1]. set (len := Z.of_nat (length (data ++ l))) in *.
  assert (Elen : Z.of_nat (length data) + Z.of_nat (length l) = len) by (unfold len; rewrite length_app; lia).
  rewrite Elen in *. set (d' := din_set_size (with_addrs din A) len).
  assert (Hfull : full d' = grown_to (fullI (nd C) n) A (nblk len)) by done.
  assert (Hwf1 : wf_inode C1 (full d')).
  { rewrite Hfull, <- (updI_eq (fullI (nd C)) n (grown_to _ A (nblk len))). apply (fsi_wf _ _ Hi1). split; [done|]. rewrite updI_eq. apply Hl. }
  assert (Hdw' : dinode_wf d').
  { destruct Hdw. split; try done; [cbn; clia|apply (wi_len _ _ Hwf1)|apply (wf_addrs _ _ Hwf1)]. }
  destruct (winode_ok st1 C1 n d' Hh1 Hn (dw_len _ Hdw')) as (st2 & Hw & Hh2 & Hf2 & Hfi2).
  assert (Hnd1 : ∀ n', 1 ≤ n' < NINODES → nd C1 n' = nd C n') by (intros; by apply nd_meta).
  destruct (inode_stored st1 C1 _ n d' st2 Hh2 (ho_ok _ _ Hh1) Hdw' Hn Hi1) as (N1 & N2 & Hi2 & Hd2 & Hlow2).
  { by rewrite updI_eq. }
  { intros n' Hn' Hne. rewrite updI_ne, Hnd1 by done. done. }
  set (C2 := iupdated C1 n d') in *. exists st2, C2. split_and!.
  - unfold iappend. rewrite (bind_ok _ _ _ _ _ (rinode_ok st C n Hh Hn)). fold din. rewrite Hs, xint_small by clia.
    rewrite (bind_ok _ _ _ _ _ Hrun). rewrite xint_small by clia. exact Hw.
  - split; try done; rewrite ?Hfi2, ?Hfi1; try done.
    + intros n' Hn'. assert (n' ≠ n) by (intros ->; apply Hl; by apply Hnew). rewrite N2, Hnd1 by lia. by apply Hnew.
    + rewrite Hlow2, Hlow1 by dlia. done.
    + intros b Hb. rewrite Hlow2, Hlow1 by dlia. by apply Hlog.
  - split; unfold live; rewrite ?N1; try done.
    rewrite Hfull. fold len. rewrite <- Hd1. specialize (Hd2 n). rewrite updI_eq in Hd2. apply Hd2. split; [done|]. rewrite updI_eq. apply Hl.
  - intros n' ty' data' Hne Hfa'. pose proof (fa_live _ _ _ _ Hfa') as Hl'.
    apply (file_kept C C2 n); [done|done|rewrite N2, Hnd1 by (done || apply Hl'); done|].
    specialize (Hd2 n'). unfold live in Hd2. rewrite updI_ne in Hd2 by done.
    etransitivity; [apply Hd2, Hl'|by apply Ho1].
  - by rewrite Hf2, Hf1.
  - by rewrite Hfi2.
Qed.

(** A new, empty inode. *)
Lemma fsinv_new C I n d :
  fsinv C I → ¬ live I n → d_size d = 0 → d_addrs d = replicate 13 0 → fsinv C (updI I n d).
Proof.
  intros [H1 H2 H3 H4 H5] Hn Hs HA.
  assert (Hu : used_blocks C d = []) by (unfold used_blocks; by rewrite Hs).
  assert (Hwf : wf_inode C d).
  { split; rewrite ?Hs; try (intros; change (nblk 0) with 0 in *; lia); try done; [by rewrite HA| |].
    - intros bn Hbn. unfold addr. rewrite HA, lookup_replicate_2; [done|]. change (nblk 0) with 0 in *. lia.
    - intros _. unfold addr. by rewrite HA. }
  assert (HI : ∀ m, live (updI I n d) m → m = n ∧ updI I n d m = d ∨ live I m ∧ updI I n d m = I m).
  { intros m [Hm Ht]. unfold updI in *. destruct (Z.eqb_spec m n) as [->|]; [by left|by right]. }
  split; try done.
  - intros m [[-> ->]|[Hl ->]]%HI; [done|by apply H1].
  - intros m [[-> ->]|[Hl ->]]%HI; [rewrite Hu; constructor|by apply H2].
  - intros m m' b [[-> ->]|[Hl ->]]%HI [[-> ->]|[Hl' ->]]%HI; rewrite ?Hu; try done;
      [by intros _ ?%not_elem_of_nil|by intros _ _ ?%not_elem_of_nil|by apply H3].
  - intros m b [[-> ->]|[Hl ->]]%HI; [rewrite Hu; by intros ?%not_elem_of_nil|by apply H4].
Qed.

Lemma ialloc_ok st C ty :
  mkfs_inv st C → freeinode st < NINODES → 0 < ty < 2 ^ 15 →
  ∃ st' C', ialloc ty st = Ok (freeinode st) st' ∧ mkfs_inv st' C' ∧ file_at C' (freeinode st) ty [] ∧ keeps C C' (freeinode st) ∧
    freeblock st' = freeblock st ∧ freeinode st' = freeinode st + 1.
Proof.
  intros [Hh Hi Hnx Hnew Hsb Hlog] Hlt Hty. set (n := freeinode st) in *. set (d := mkDinode ty 0 0 1 0 (replicate 13 0)).
  assert (Hdw : dinode_wf d) by (split; cbn; try lia; try done; repeat constructor; lia).
  set (st1 := set_freeinode (n + 1) st). assert (Hh1 : holds st1 C) by (by destruct Hh).
  destruct (winode_ok st1 C n d Hh1 ltac:(lia) eq_refl) as (st2 & Hw & Hh2 & Hf2 & Hfi2).
  assert (Hnl : ¬ live (fullI (nd C)) n) by (intros [_ Ht]; apply Ht; apply Hnew; lia).
  pose proof (fsinv_new C _ n d Hi Hnl eq_refl eq_refl) as Hi1.
  destruct (inode_stored st1 C _ n d st2 Hh2 (ho_ok _ _ Hh) Hdw ltac:(lia) Hi1) as (N1 & N2 & Hi2 & Hd2 & Hlow2).
  { by rewrite updI_eq. }
  { intros n' Hn' Hne. by rewrite updI_ne. }
  set (C2 := iupdated C n d) in *. exists st2, C2. split_and!.
  - unfold ialloc. rewrite bind_gets. fold n. rewrite bind_modify, u32_small by clia. fold st1.
    rewrite !xshort_small by lia. change (xint 0) with 0. replace (s16 ty) with ty by (unfold s16; lia). change (s16 1) with 1. fold d.
    by rewrite (bind_ok _ _ _ _ _ Hw).
  - split; try done; rewrite ?Hfi2; cbn [freeinode st1 set_freeinode]; try lia.
    + intros n' Hn'. rewrite N2 by lia. apply Hnew. lia.
    + rewrite Hlow2 by lia. done.
    + intros b Hb. rewrite Hlow2 by clia. by apply Hlog.
  - split; unfold live; rewrite ?N1; try done. cbn. lia.
  - intros n' ty' data' Hne Hfa'. pose proof (fa_live _ _ _ _ Hfa') as Hl'.
    apply (file_kept C C2 n); [done|done|rewrite N2 by (done || apply Hl'); done|].
    specialize (Hd2 n'). unfold live in Hd2. rewrite updI_ne in Hd2 by done. by apply Hd2, Hl'.
  - done.
  - done.
Qed.
End build.
