(* ===== verification/MkfsThms.v ===== *)
(** The image that [mkfs] writes: from an empty image to the files of the command line. *)

From S2P Require Import Prelude Params Bytes State Spinlock Procs Sched SchedSpec Bio BioSpec CacheSpec BlockSpec Log LogSpec CommitSpec CrashSpec Inode BallocSpec DiskSpec BmapSpec DinodeSpec Console Fs WriteSpec Mkfs MkfsSpec.

(** What a file takes on the disk, its indirect block included. *)
Definition file_blocks (n : nat) : Z := needn 0 (blocks_for n).
Definition dir_entry (inum : Z) (name : list Z) : list Z :=
  dirent_bytes (mkDirent inum (strncpy_l 14 (skip_underscore name))).
Fixpoint dir_entries (inum : Z) (names : list (list Z)) : list Z :=
  match names with
  | [] => []
  | name :: names => dir_entry inum name ++ dir_entries (inum + 1) names
  end.
(** The root directory. *)
Definition root_dir (names : list (list Z)) : list Z :=
  (dot_entry 1 [46] ++ dot_entry 1 [46; 46]) ++ dir_entries 2 names.
Definition total_blocks (inputs : list (list (list Z))) : Z :=
  foldr (λ reads z, file_blocks (length (concat reads)) + z) 0 inputs.

Section files.
Implicit Types (st : mkst) (C : Z → list Z) (n ty : Z) (data l : list Z) (reads : list (list Z)).

Lemma length_strncpy_l (m : nat) (t : list Z) : length (strncpy_l m t) = m.
Proof. revert t. induction m as [|m IH]; intros [|c t]; cbn; try done; [by rewrite length_replicate|]. destruct (c =? 0); cbn; [by rewrite length_replicate|by rewrite IH]. Qed.

Lemma bytes_strncpy_l (m : nat) (t : list Z) : bytes_ok t → bytes_ok (strncpy_l m t).
Proof.
  revert t. induction m as [|m IH]; intros t Ht; cbn; [constructor|].
  assert (Hz : bytes_ok (0 :: replicate m 0)) by (constructor; [lia|apply Forall_replicate; lia]).
  destruct t as [|c t]; [done|]. apply Forall_cons in Ht as [Hc Ht]. destruct (c =? 0); [done|]. constructor; [done|by apply IH].
Qed.

Lemma dir_entry_ok n name : bytes_ok name → length (dir_entry n name) = 16%nat ∧ bytes_ok (dir_entry n name).
Proof.
  intros Hn. unfold dir_entry, dirent_bytes. cbn [de_inum de_name]. split.
  - by rewrite length_app, length_le_bytes, length_strncpy_l.
  - apply Forall_app. split; [apply le_bytes_ok|]. apply bytes_strncpy_l. destruct name as [|c name]; [done|]. cbn.
    pose proof (Forall_inv_tail Hn). by destruct (c =? 95).
Qed.

Lemma length_dir_entries n names : Forall bytes_ok names → length (dir_entries n names) = (16 * length names)%nat.
Proof.
  revert n. induction names as [|name names IH]; intros n Hn; [done|]. apply Forall_cons in Hn as [Hn Hns].
  cbn [dir_entries length]. rewrite length_app, IH by done. rewrite (proj1 (dir_entry_ok n name Hn)). lia.
Qed.

Lemma length_root_dir names : Forall bytes_ok names → length (root_dir names) = (16 * (2 + length names))%nat.
Proof. intros Hn. unfold root_dir. rewrite length_app, length_dir_entries by done. change (length (_ ++ _)) with 32%nat. lia. Qed.

Lemma needn_nonneg a b : a ≤ b → 0 ≤ needn a b.
Proof. intros. unfold needn. destruct (_ && _); lia. Qed.
Lemma blocks_for_mono (a b : nat) : (a ≤ b)%nat → blocks_for a ≤ blocks_for b.
Proof. intros. apply nblk_mono. lia. Qed.
Lemma needn_app data l1 l2 :
  needn (blocks_for (length data)) (blocks_for (length (data ++ l1 ++ l2)))
  = needn (blocks_for (length data)) (blocks_for (length (data ++ l1)))
    + needn (blocks_for (length (data ++ l1))) (blocks_for (length (data ++ l1 ++ l2))).
Proof. apply needn_split; apply blocks_for_mono; rewrite !length_app; lia. Qed.

(** What the host's [read] returns before the end of the file. *)
Definition good_reads reads : Prop := Forall (λ r, r ≠ [] ∧ bytes_ok r) reads.

Lemma copy_loop_ok reads : ∀ st C n ty data,
  mkfs_inv st C → file_at C n ty data → good_reads reads →
  Z.of_nat (length (data ++ concat reads)) ≤ MAXFILE * BSIZE →
  freeblock st + needn (blocks_for (length data)) (blocks_for (length (data ++ concat reads))) ≤ FSSIZE →
  ∃ st' C', copy_loop n reads st = Ok tt st' ∧ mkfs_inv st' C' ∧ file_at C' n ty (data ++ concat reads) ∧ keeps C C' n ∧
    freeblock st' = freeblock st + needn (blocks_for (length data)) (blocks_for (length (data ++ concat reads))) ∧
    freeinode st' = freeinode st.
Proof.
  induction reads as [|r reads IH]; intros st C n ty data Hm Hfa Hr Hmax Hroom; cbn [concat copy_loop] in *.
  - rewrite app_nil_r in *. exists st, C. split_and!; try done; [by intros ???|]. unfold needn. zcases; cbn; lia.
  - apply Forall_cons in Hr as [[Hne Hby] Hr]. rewrite needn_app in *.
    pose proof (needn_nonneg (blocks_for (length (data ++ r))) (blocks_for (length (data ++ r ++ concat reads)))
      ltac:(apply blocks_for_mono; rewrite !length_app; lia)).
    destruct (iappend_ok st C n ty data r Hm Hfa Hby) as (st1 & C1 & Hr1 & Hm1 & Hfa1 & Hk1 & Hf1 & Hfi1);
      [rewrite !length_app in *; lia|lia|].
    destruct (IH st1 C1 n ty (data ++ r) Hm1 Hfa1 Hr) as (st2 & C2 & Hr2 & Hm2 & Hfa2 & Hk2 & Hf2 & Hfi2); rewrite <- ?app_assoc in *; [done|lia|].
    exists st2, C2. split_and!; try done; [|intros n' ty' data' Hn' Hf'; by apply Hk2, Hk1|lia|lia].
    destruct r as [|c r]; [done|]. cbn [length]. rewrite (proj2 (Z.ltb_lt _ _)) by lia.
    by rewrite (bind_ok _ _ _ _ _ Hr1).
Qed.
End files.

(** ** The empty image *)
Definition sb_block : list Z := splice zero_block 0 (sb_bytes mkfs_sb).
Definition blank (b : Z) : list Z :=
  if b =? 1 then sb_block else if b =? BMAP then first_bits nmeta else zero_block.
Definition st_blank : mkst := mkMkst (<[1%nat := sb_block]> (replicate 1000 zero_block)) mkfs_sb 1 nmeta.

Lemma zero_sectors (n : nat) : (n ≤ 1000)%nat → ∀ s, fsfd s = [] →
  forM (seqZ 0 (Z.of_nat n)) (λ i, wsect i zero_block) s = Ok tt (set_fsfd (replicate n zero_block) s).
Proof.
  intros Hn s Hs. induction n as [|n IH]; [destruct s; cbn in Hs; by subst|].
  replace (Z.of_nat (S n)) with (Z.of_nat n + 1) by lia. rewrite seqZ_snoc by lia.
  erewrite forM_app by (apply IH; lia). cbn [forM]. unfold wsect, modify, bind.
  rewrite sector_at_small by clia. cbn [fsfd set_fsfd]. unfold put_sector. rewrite length_replicate, Nat2Z.id.
  rewrite (proj2 (Nat.ltb_ge _ _)) by lia. rewrite Nat.sub_diag. cbn [replicate app].
  replace (replicate n zero_block ++ [zero_block]) with (replicate (S n) zero_block); [done|].
  change [zero_block] with (replicate 1 zero_block). rewrite <- replicate_add. f_equal. lia.
Qed.

(** The image before the first file. *)
Lemma blank_start :
  (forM (seqZ 0 FSSIZE) (λ i, wsect i zero_block);;
   sb ← gets m_sb;
   wsect 1 (splice zero_block 0 (sb_bytes sb))) (mkMkst [] mkfs_sb 1 nmeta) = Ok tt st_blank.
Proof.
  change FSSIZE with (Z.of_nat 1000) at 1. rewrite (bind_ok _ _ _ _ _ (zero_sectors 1000 ltac:(lia) (mkMkst [] mkfs_sb 1 nmeta) eq_refl)).
  rewrite bind_gets. change (m_sb _) with mkfs_sb. fold sb_block. unfold wsect, modify.
  rewrite sector_at_small by clia. unfold put_sector. cbn [fsfd set_fsfd]. rewrite length_replicate. done.
Qed.

Lemma sb_block_ok : block_ok sb_block.
Proof.
  split; [reflexivity|]. apply bytes_splice; [apply zero_block_ok|]. unfold sb_bytes.
  apply Forall_concat, Forall_fmap, Forall_true. intros v. apply le_bytes_ok.
Qed.

Lemma blank_nd n : 1 ≤ n < NINODES → d_type (nd blank n) = 0.
Proof.
  intros Hn. unfold nd. assert (E : blank (IBLOCK n mkfs_sb) = zero_block).
  { unfold blank. rewrite !(proj2 (Z.eqb_neq _ _)) by (rewrite IBLOCK_eq; clia). done. }
  rewrite E. unfold dinode_at. cbn [d_type]. unfold get16, sub, zero_block. rewrite drop_replicate, take_replicate.
  generalize (2 `min` (512 - ioff n))%nat. intros z.
  assert (Hz : le_val (replicate z 0) = 0) by (induction z as [|z IH]; [done|]; cbn [replicate le_val]; by rewrite IH).
  by rewrite Hz.
Qed.

Lemma blank_inv : mkfs_inv st_blank blank.
Proof.
  assert (Hnl : ∀ n, live (fullI (nd blank)) n → False) by (intros n [Hn Ht]; apply Ht; by apply blank_nd).
  split.
  - split; try done.
    + intros b Hb HB. cbn [fsfd st_blank]. unfold blank. destruct (Z.eqb_spec b 1) as [->|H1].
      * apply list_lookup_insert_eq. rewrite length_replicate. lia.
      * rewrite (proj2 (Z.eqb_neq b BMAP)) by done. rewrite list_lookup_insert_ne by lia. apply lookup_replicate_2. clia.
    + intros b. unfold blank. destruct (b =? 1); [apply sb_block_ok|]. destruct (b =? BMAP); [|apply zero_block_ok].
      apply first_bits_block. dlia.
    + intros b Hb. unfold blank. cbn [freeblock st_blank] in Hb. rewrite !(proj2 (Z.eqb_neq _ _)) by dlia. done.
  - split; try (intros n Hl; by destruct (Hnl n)); try (intros n b Hl; by destruct (Hnl n)).
    + intros n n' b Hl. by destruct (Hnl n).
    + intros b Hb. change (blank BMAP) with (first_bits nmeta). rewrite bitset_first by dlia. apply Z.ltb_lt. lia.
  - cbn. clia.
  - intros n Hn. apply blank_nd. cbn in Hn. lia.
  - done.
  - intros b Hb. unfold blank. rewrite !(proj2 (Z.eqb_neq _ _)) by clia. done.
Qed.

(** The first inode is the root directory, with its first two entries. *)
Lemma root_ok (F : Z → MK unit) :
  ∃ st C, (rootino ← ialloc T_DIR;
           assert (rootino =? ROOTINO);;
           iappend rootino (dot_entry rootino [46]);;
           iappend rootino (dot_entry rootino [46; 46]);;
           F rootino) st_blank = F 1 st ∧
    mkfs_inv st C ∧ file_at C 1 T_DIR (dot_entry 1 [46] ++ dot_entry 1 [46; 46]) ∧ freeblock st = nmeta + 1 ∧ freeinode st = 2.
Proof.
  destruct (ialloc_ok st_blank blank T_DIR blank_inv) as (st1 & C1 & Hr1 & Hm1 & Hfa1 & _ & Hf1 & Hfi1); [done|done|].
  change (freeinode st_blank) with 1 in *. change (freeblock st_blank) with nmeta in *.
  destruct (iappend_ok st1 C1 1 T_DIR [] (dot_entry 1 [46]) Hm1 Hfa1) as (st2 & C2 & Hr2 & Hm2 & Hfa2 & _ & Hf2 & Hfi2);
    [by repeat constructor|done|rewrite Hf1; done|].
  destruct (iappend_ok st2 C2 1 T_DIR _ (dot_entry 1 [46; 46]) Hm2 Hfa2) as (st3 & C3 & Hr3 & Hm3 & Hfa3 & _ & Hf3 & Hfi3);
    [by repeat constructor|done|rewrite Hf2, Hf1; done|].
  exists st3, C3. split_and!; try done.
  - rewrite (bind_ok _ _ _ _ _ Hr1). change (assert (1 =? ROOTINO)) with (ret (E:=mkerr) (S:=mkst) tt). rewrite bind_ret.
    by rewrite (bind_ok _ _ _ _ _ Hr2), (bind_ok _ _ _ _ _ Hr3).
  - by rewrite Hf3, Hf2, Hf1.
  - by rewrite Hfi3, Hfi2, Hfi1.
Qed.

(** ** The files of the command line *)
Section host.
Context (host_creat : list Z → bool) (host_open : list Z → option (list (list Z))).

Record good_input (name : list Z) (reads : list (list Z)) : Prop := mkGoodInput {
  gi_name : bytes_ok name ∧ SLASH ∉ name;
  gi_open : host_open name = Some reads;
  gi_reads : good_reads reads;
  gi_max : Z.of_nat (length (concat reads)) ≤ MAXFILE * BSIZE
}.

Lemma add_file_ok st C dd name reads :
  let n := freeinode st in let dd' := dd ++ dir_entry n name in
  mkfs_inv st C → file_at C 1 T_DIR dd → good_input name reads → 1 < n < NINODES →
  Z.of_nat (length dd') ≤ MAXFILE * BSIZE →
  freeblock st + needn (blocks_for (length dd)) (blocks_for (length dd')) + file_blocks (length (concat reads)) ≤ FSSIZE →
  ∃ st' C', add_file host_open 1 name st = Ok tt st' ∧ mkfs_inv st' C' ∧ file_at C' 1 T_DIR dd' ∧
    file_at C' n T_FILE (concat reads) ∧
    (∀ n' ty data, n' ≠ 1 → n' ≠ n → file_at C n' ty data → file_at C' n' ty data) ∧
    freeblock st' = freeblock st + needn (blocks_for (length dd)) (blocks_for (length dd')) + file_blocks (length (concat reads)) ∧
    freeinode st' = n + 1.
Proof.
  intros n dd' Hm Hroot [[Hbn Hsl] Hopen Hreads Hmax] Hn Hdmax Hroom.
  pose proof (needn_nonneg (blocks_for 0) (blocks_for (length (concat reads))) ltac:(apply blocks_for_mono; lia)).
  change (blocks_for 0) with 0 in *. fold (file_blocks (length (concat reads))) in *.
  destruct (ialloc_ok st C T_FILE Hm ltac:(fold n; lia) ltac:(done)) as (st1 & C1 & Hr1 & Hm1 & Hnew1 & Hk1 & Hf1 & Hfi1). fold n in Hr1, Hnew1, Hk1, Hfi1.
  destruct (iappend_ok st1 C1 1 T_DIR dd (dir_entry n name) Hm1) as (st2 & C2 & Hr2 & Hm2 & Hroot2 & Hk2 & Hf2 & Hfi2);
    [apply Hk1; [lia|done]|by apply dir_entry_ok|done|fold dd'; lia|]. fold dd' in Hroot2, Hf2.
  destruct (copy_loop_ok reads st2 C2 n T_FILE [] Hm2) as (st3 & C3 & Hr3 & Hm3 & Hnew3 & Hk3 & Hf3 & Hfi3);
    [apply Hk2; [lia|done]|done|done|cbn; change (blocks_for 0) with 0; fold (file_blocks (length (concat reads))); lia|].
  exists st3, C3. split_and!; try done.
  - unfold add_file. rewrite bool_decide_true by done. change (assert true) with (ret (E:=mkerr) (S:=mkst) tt). rewrite bind_ret, Hopen.
    rewrite (bind_ok _ _ _ _ _ Hr1). rewrite xshort_small by clia. change (Z.to_nat DIRSIZ) with 14%nat. fold (dir_entry n name).
    by rewrite (bind_ok _ _ _ _ _ Hr2).
  - apply Hk3; [lia|done].
  - intros n' ty data H1 H2 Hfa. apply Hk3, Hk2, Hk1; done.
  - cbn in Hf3. change (blocks_for 0) with 0 in Hf3. fold (file_blocks (length (concat reads))) in Hf3. lia.
  - lia.
Qed.

Lemma add_files_ok names inputs : Forall2 good_input names inputs → ∀ st C dd,
  let n := freeinode st in let dd' := dd ++ dir_entries n names in
  mkfs_inv st C → file_at C 1 T_DIR dd → 1 < n → n + Z.of_nat (length names) ≤ NINODES →
  Z.of_nat (length dd') ≤ MAXFILE * BSIZE →
  freeblock st + needn (blocks_for (length dd)) (blocks_for (length dd')) + total_blocks inputs ≤ FSSIZE →
  ∃ st' C', forM names (add_file host_open 1) st = Ok tt st' ∧ mkfs_inv st' C' ∧ file_at C' 1 T_DIR dd' ∧
    (∀ (j : nat) reads, inputs !! j = Some reads → file_at C' (n + Z.of_nat j) T_FILE (concat reads)) ∧
    (∀ n' ty data, n' ≠ 1 → n' < n → file_at C n' ty data → file_at C' n' ty data) ∧
    freeblock st' = freeblock st + needn (blocks_for (length dd)) (blocks_for (length dd')) + total_blocks inputs ∧
    freeinode st' = n + Z.of_nat (length names).
Proof.
  induction 1 as [|name reads names inputs Hgi _ IH]; intros st C dd n dd' Hm Hroot Hn Hni Hmax Hroom; cbn [forM dir_entries length] in *.
  - unfold dd'. rewrite app_nil_r in *. exists st, C. split_and!; try done; [|lia]. cbn. unfold needn. zcases; cbn; lia.
  - cbn [total_blocks foldr] in Hroom. fold (total_blocks inputs) in Hroom. unfold dd' in Hroom. rewrite needn_app in Hroom.
    pose proof (needn_nonneg (blocks_for (length (dd ++ dir_entry n name))) (blocks_for (length dd'))
      ltac:(apply blocks_for_mono; unfold dd'; rewrite !length_app; lia)) as H1. unfold dd' in H1.
    assert (H2 : 0 ≤ total_blocks inputs).
    { clear. induction inputs as [|r rs IH]; [done|]. cbn. fold (total_blocks rs).
      pose proof (needn_nonneg 0 (blocks_for (length (concat r))) ltac:(apply (blocks_for_mono 0); lia)). unfold file_blocks. lia. }
    destruct (add_file_ok st C dd name reads Hm Hroot Hgi) as (st1 & C1 & Hr1 & Hm1 & Hroot1 & Hfile1 & Hk1 & Hf1 & Hfi1);
      fold n; [lia|unfold dd' in Hmax; rewrite !length_app in *; lia|lia|]. fold n in Hroot1, Hfile1, Hk1, Hf1, Hfi1.
    destruct (IH st1 C1 (dd ++ dir_entry n name) Hm1 Hroot1) as (st2 & C2 & Hr2 & Hm2 & Hroot2 & Hfiles2 & Hk2 & Hf2 & Hfi2);
      rewrite ?Hfi1, <- ?app_assoc in *; [lia|lia|done|lia|].
    exists st2, C2. split_and!; try done.
    + by rewrite (bind_ok _ _ _ _ _ Hr1).
    + intros [|j] r Hj; cbn in Hj.
      * injection Hj as <-. rewrite Z.add_0_r. apply Hk2; [lia|lia|done].
      * replace (n + Z.of_nat (S j)) with (n + 1 + Z.of_nat j) by lia. by apply Hfiles2.
    + intros n' ty data Hn1 Hn2 Hfa. apply Hk2; [done|lia|]. apply Hk1; [done|lia|done].
    + unfold dd'. rewrite needn_app. cbn [total_blocks foldr]. fold (total_blocks inputs). lia.
    + lia.
Qed.

(** ** The whole program *)
Definition image_of st : Z → list Z := λ b, default zero_block (fsfd st !! Z.to_nat b).

(** The image has the files, and nothing else. *)
Record built (C : Z → list Z) (names : list (list Z)) (inputs : list (list (list Z))) (fb : Z) : Prop := mkBuilt {
  bu_sb : sb_of_block (C 1) = mkfs_sb;
  bu_log : hb_n (C 2) = 0;
  bu_inv : fsinv C (nd C);
  bu_root : d_type (nd C 1) = T_DIR ∧
    file_data C (nd C 1) = root_dir names ++ zeros (512 * blocks_for (length (root_dir names)) - Z.of_nat (length (root_dir names)));
  bu_files : ∀ (j : nat) reads, inputs !! j = Some reads →
    let d := nd C (2 + Z.of_nat j) in d_type d = T_FILE ∧ d_nlink d = 1 ∧ file_data C d = concat reads;
  bu_rest : ∀ n, 2 + Z.of_nat (length names) ≤ n < NINODES → d_type (nd C n) = 0;
  bu_free : free_blocks C = seqZ fb (FSSIZE - fb)
}.

Lemma file_at_data C n ty data : file_at C n ty data → file_data C (nd C n) = data.
Proof.
  intros [Hl _ _ Hs Hd]. replace (nd C n) with (resize (full (nd C n)) (d_size (nd C n))) by (by destruct (nd C n)).
  pose proof (full_size (nd C n) ltac:(lia)) as [Hf _].
  rewrite file_data_resize by (cbn in *; lia). rewrite Hd, Hs, Nat2Z.id. apply take_app_length.
Qed.

(** [balloc]: the bitmap goes to its block. *)
Lemma balloc_image st C : holds st C →
  ∃ st', balloc (s32 (freeblock st)) st = Ok tt st' ∧ length (fsfd st') = 1000%nat ∧
    (∀ b, 0 ≤ b < FSSIZE → image_of st' b = C b).
Proof.
  intros Hh. pose proof Hh as [Hl Hs Hok Hf Hbits Hz Hsb]. rewrite s32_small by dlia.
  exists (set_fsfd (<[58%nat := C BMAP]> (fsfd st)) st). split_and!.
  - unfold balloc. rewrite (proj2 (Z.ltb_lt _ _)) by clia. change (assert true) with (ret (E:=mkerr) (S:=mkst) tt).
    rewrite bind_ret, bind_gets, Hsb. change (sb_bmapstart mkfs_sb) with 58. unfold wsect, modify. rewrite sector_at_small by clia.
    unfold put_sector. rewrite (proj2 (Nat.ltb_lt _ _)) by (rewrite Hl; lia). by rewrite Hbits.
  - cbn. by rewrite length_insert.
  - intros b Hb. unfold image_of. cbn [fsfd set_fsfd]. destruct (decide (b = BMAP)) as [->|HB].
    + change (Z.to_nat BMAP) with 58%nat. by rewrite list_lookup_insert_eq by lia.
    + rewrite list_lookup_insert_ne by clia. by rewrite Hs.
Qed.

Lemma free_blocks_first C fb : C BMAP = first_bits fb → nmeta ≤ fb ≤ FSSIZE → free_blocks C = seqZ fb (FSSIZE - fb).
Proof.
  intros HB Hfb. unfold free_blocks. rewrite HB. replace (FSSIZE - nmeta) with ((fb - nmeta) + (FSSIZE - fb)) by lia.
  rewrite seqZ_app by lia. rewrite filter_app. replace (nmeta + (fb - nmeta)) with fb by lia.
  rewrite (filter_all _ (seqZ fb _)) by (intros b Hb%elem_of_seqZ; rewrite bitset_first by dlia; apply Z.ltb_ge; lia).
  replace (filter _ (seqZ nmeta _)) with (@nil Z); [done|]. symmetry. apply elem_of_nil_inv.
  intros b [Hc Hb%elem_of_seqZ]%list_elem_of_filter. revert Hc. rewrite bitset_first by dlia. by rewrite (proj2 (Z.ltb_lt _ _)) by lia.
Qed.

(** What was built is there whatever the blocks beyond the disk. *)
Lemma built_image st C D names inputs :
  mkfs_inv st C → length names = length inputs → freeinode st = 2 + Z.of_nat (length names) →
  d_type (nd C 1) = T_DIR →
  file_data C (nd C 1) = root_dir names ++ zeros (512 * blocks_for (length (root_dir names)) - Z.of_nat (length (root_dir names))) →
  (∀ (j : nat) reads, inputs !! j = Some reads → file_at C (2 + Z.of_nat j) T_FILE (concat reads)) →
  (∀ b, 0 ≤ b < FSSIZE → D b = C b) → built D names inputs (freeblock st).
Proof.
  intros [Hh Hi Hnx Hnew Hsb Hlog] Hlen Hfi Ht Hroot Hfiles HD.
  assert (Hnd : ∀ n, 1 ≤ n < NINODES → nd D n = nd C n) by (intros n Hn; unfold nd; rewrite HD; [done|rewrite IBLOCK_eq; clia]).
  assert (Hi' : fsinv C (nd C)) by (apply fsinv_unfull; [apply (ho_ok _ _ Hh)|done]).
  destruct (fsinv_meta C D _ Hi') as [HiD Hdata]; [intros b Hb; apply HD; clia|].
  split.
  - by rewrite HD, Hsb by clia.
  - rewrite HD, Hlog by clia. done.
  - by apply (fsinv_same D (nd C)).
  - rewrite Hnd by clia. split; [done|]. rewrite Hdata; [done|]. split; [clia|]. by rewrite Ht.
  - intros j reads Hj. pose proof (lookup_lt_Some _ _ _ Hj). pose proof (Hfiles j reads Hj) as Hfa.
    cbv zeta. rewrite Hnd by lia. split_and!; [apply Hfa|apply Hfa|]. rewrite Hdata by apply Hfa. by eapply file_at_data.
  - intros n Hn. rewrite Hnd by lia. apply Hnew. lia.
  - apply free_blocks_first; [rewrite HD by clia; apply (ho_bits _ _ Hh)|apply (ho_free _ _ Hh)].
Qed.

(** The end of [main]: the root directory gets the size of its blocks, and the bitmap is written. *)
Lemma main_end st C names inputs :
  let len := Z.of_nat (length (root_dir names)) in
  mkfs_inv st C → file_at C 1 T_DIR (root_dir names) → len mod 512 ≠ 0 → len ≤ MAXFILE * BSIZE → length names = length inputs →
  freeinode st = 2 + Z.of_nat (length names) →
  (∀ (j : nat) reads, inputs !! j = Some reads → file_at C (2 + Z.of_nat j) T_FILE (concat reads)) →
  ∃ st', (din ← rinode 1;
          winode 1 (din_set_size din (xint (u32 ((xint (d_size din) / BSIZE + 1) * BSIZE))));;
          fb ← gets freeblock;
          balloc (s32 fb)) st = Ok tt st' ∧ length (fsfd st') = 1000%nat ∧ built (image_of st') names inputs (freeblock st).
Proof.
  intros len Hm Hroot Hmod Hmax Hlen Hfi Hfiles. pose proof Hm as [Hh Hi Hnx Hnew Hsb Hlog].
  pose proof Hroot as [Hl Ht Hnl Hs Hd]. set (d := nd C 1) in *. set (d' := full d).
  pose proof (dinode_at_wf (C (IBLOCK 1 mkfs_sb)) (ioff 1) (proj2 (ho_ok _ _ Hh _))) as Hdw. fold (nd C 1) in Hdw. fold d in Hdw.
  assert (Hwf : wf_inode C d') by (apply (fsi_wf _ _ Hi 1 Hl)).
  assert (Hdw' : dinode_wf d') by (destruct Hdw; split; try done; pose proof (wi_size _ _ Hwf); clia).
  destruct (winode_ok st C 1 d' Hh ltac:(clia) (dw_len _ Hdw')) as (st1 & Hw & Hh1 & Hf1 & Hfi1).
  assert (Hff : full d' = d') by (unfold d', full, resize; cbn; by rewrite nblk_mul).
  destruct (inode_stored st C (fullI (nd C)) 1 d' st1 Hh1 (ho_ok _ _ Hh) Hdw' ltac:(clia) Hi) as (N1 & N2 & Hi1 & Hd1 & Hlow1);
    [by rewrite Hff|done|]. set (C1 := iupdated C 1 d') in *.
  destruct (balloc_image st1 C1 Hh1) as (st2 & Hb & Hl2 & HD). exists st2. split_and!; [|done|].
  - rewrite (bind_ok _ _ _ _ _ (rinode_ok st C 1 Hh ltac:(clia))). fold d. rewrite Hs. fold len. rewrite (xint_small len) by (unfold len in *; clia).
    change BSIZE with 512 in *. replace ((len / 512 + 1) * 512) with (512 * nblk (d_size d)) by (rewrite Hs; fold len; unfold nblk; lia).
    assert (0 ≤ 512 * nblk (d_size d) < 2 ^ 32) by apply (dw_size _ Hdw').
    rewrite u32_small, xint_small by done. change (din_set_size d (512 * nblk (d_size d))) with d'.
    rewrite (bind_ok _ _ _ _ _ Hw), bind_gets. exact Hb.
  - rewrite <- Hf1. apply (built_image st1 C1); try done.
    + split; try done; rewrite ?Hfi1; try done.
      * intros n Hn. rewrite N2 by lia. by apply Hnew.
      * intros b Hb'. rewrite Hlow1 by clia. by apply Hlog.
    + lia.
    + by rewrite N1.
    + rewrite N1. etransitivity; [by apply (Hd1 1)|exact Hd].
    + intros j reads Hj. pose proof (Hfiles j reads Hj) as Hfa. pose proof (fa_live _ _ _ _ Hfa) as Hlj.
      apply (file_kept C C1 1); [lia|done|apply N2; [apply Hlj|lia]|]. by apply (Hd1 (2 + Z.of_nat j)).
Qed.

(** C5: [mkfs] builds the file system it was asked for. Given files that can be opened, at
    most 198 of them, none longer than a file can be and all fitting on the disk, [main]
    completes and writes an image of exactly 1000 blocks on which the superblock describes
    the layout, the log is empty, no block belongs to two files or is both used and free
    ([fsinv]), inode 1 is a directory that lists the files, inode [2 + j] is a file with the
    bytes of the [j]th argument, whatever pieces the host's [read] returned, no other inode is in use, and the
    free blocks are exactly those after the last one taken. The number of directory entries must
    not fill its last block exactly: in that case [main] gives the directory a further block it
    does not have. *)
Theorem mkfs_builds prog img names inputs :
  host_creat img = true → Forall2 good_input names inputs → Z.of_nat (length names) ≤ 198 →
  (2 + Z.of_nat (length names)) mod 32 ≠ 0 →
  let used := nmeta + file_blocks (length (root_dir names)) + total_blocks inputs in
  used ≤ FSSIZE →
  ∃ st, main host_creat host_open (prog :: img :: names) mk_init = Ok tt st ∧ length (fsfd st) = 1000%nat ∧
    built (image_of st) names inputs used.
Proof.
  intros Himg Hin Hnum Hmod used Hused. set (F rootino := (forM names (add_file host_open rootino);;
      din ← rinode rootino;
      winode rootino (din_set_size din (xint (u32 ((xint (d_size din) / BSIZE + 1) * BSIZE))));;
      fb ← gets freeblock;
      balloc (s32 fb)) : MK unit).
  assert (Hnames : Forall bytes_ok names).
  { eapply Forall2_Forall_l; [exact Hin|]. apply Forall_true. intros reads name [[? _] _ _ _]. done. }
  pose proof (length_root_dir names Hnames) as Hlen. pose proof (Forall2_length _ _ _ Hin) as Hlen2.
  destruct (root_ok F) as (st1 & C1 & Hr1 & Hm1 & Hroot1 & Hf1 & Hfi1).
  assert (E : needn 0 (blocks_for (length (root_dir names)))
    = 1 + needn (blocks_for 32) (blocks_for (length (root_dir names)))).
  { apply (needn_split 0 1); [done|]. change 1 with (blocks_for 32). apply blocks_for_mono. lia. }
  destruct (add_files_ok names inputs Hin st1 C1 _ Hm1 Hroot1) as (st2 & C2 & Hr2 & Hm2 & Hroot2 & Hfiles2 & _ & Hf2 & Hfi2);
    rewrite ?Hfi1; try lia; [clia|fold (root_dir names); clia|..].
  { fold (root_dir names). unfold file_blocks in *. change (length (_ ++ dot_entry 1 _)) with 32%nat. lia. }
  rewrite Hfi1 in *. fold (root_dir names) in Hroot2, Hf2.
  destruct (main_end st2 C2 names inputs Hm2 Hroot2) as (st3 & Hr3 & Hl3 & Hbu3); [rewrite Hlen; lia|rewrite Hlen; clia|exact Hlen2|exact Hfi2|exact Hfiles2|].
  exists st3. split_and!; [|done|].
  - unfold main. rewrite Himg. cbn [negb]. rewrite !bind_modify.
    change (set_freeblock nmeta _) with (mkMkst [] mkfs_sb 1 nmeta).
    destruct (bind_ok_inv _ _ _ _ _ blank_start) as ([] & s1 & Hz & Hsb).
    rewrite (bind_ok _ _ _ _ _ Hz). rewrite bind_gets in Hsb |- *. rewrite (bind_ok _ _ _ _ _ Hsb).
    etransitivity; [exact Hr1|]. unfold F. by rewrite (bind_ok _ _ _ _ _ Hr2).
  - replace used with (freeblock st2); [done|]. unfold used, file_blocks. rewrite Hf2, Hf1, E. change (length (_ ++ _)) with 32%nat. lia.
Qed.
End host.

(** ** Two files, one of them read in two pieces *)
Definition sample_host (name : list Z) : option (list (list Z)) :=
  if bool_decide (name = [95; 108; 115]) then Some [[127; 69]; [76; 70; 1]]
  else if bool_decide (name = [82]) then Some [replicate 512 120; replicate 100 121] else None.

Lemma mkfs_builds_witness :
  ∃ st, main (λ _, true) sample_host [[109]; [105]; [95; 108; 115]; [82]] mk_init = Ok tt st ∧
    fsinv (image_of st) (nd (image_of st)) ∧ file_data (image_of st) (nd (image_of st) 2) = [127; 69; 76; 70; 1] ∧
    free_blocks (image_of st) = seqZ 63 937.
Proof.
  destruct (mkfs_builds (λ _, true) sample_host [109] [105] [[95; 108; 115]; [82]]
    [[[127; 69]; [76; 70; 1]]; [replicate 512 120; replicate 100 121]]) as (st & Hrun & _ & Hb).
  - reflexivity.
  - assert (Hby : ∀ l : list Z, bool_decide (bytes_ok l) = true → bytes_ok l) by (intros l; apply bool_decide_eq_true_1).
    constructor; [|constructor; [|constructor]].
    + split; [split; [by apply Hby|set_solver]|reflexivity| |discriminate].
      repeat constructor; (discriminate || lia).
    + split; [split; [by apply Hby|set_solver]|reflexivity| |discriminate].
      constructor; [|constructor; [|constructor]]; (split; [discriminate|by apply Hby]).
  - discriminate.
  - discriminate.
  - discriminate.
  - exists st. split; [exact Hrun|]. split; [apply Hb|]. split; [|apply Hb].
    destruct (bu_files _ _ _ _ Hb 0 [[127; 69]; [76; 70; 1]] eq_refl) as (_ & _ & Hd). exact Hd.
Defined.
