(* ===== verification/Sh.v ===== *)
(** The shell ([sh.c]): the parser of command lines.

    The line is in the memory of the process, and so are the nodes of the parsed command, which
    [malloc] gives; they refer to the words of the line by the addresses of their first byte and of the byte
    after their last. *)

From S2P Require Import Prelude Params Mem Cstring User Umalloc.

Definition MAXARGS : Z := 10.

(** The values of [cmd->type]. *)
Definition T_EXEC : Z := 1.
Definition T_REDIR : Z := 2.
Definition T_PIPE : Z := 3.
Definition T_LIST : Z := 4.
Definition T_BACK : Z := 5.

(** A command as a tree: what the nodes in memory, a [struct cmd] and the structures it is the head of,
    make up. *)
Inductive cmd :=
  | EXEC (argv eargv : list Z)
  | REDIR (c : cmd) (file efile mode fd : Z)
  | PIPE (left right : cmd)
  | LIST (left right : cmd)
  | BACK (c : cmd).

(** [strchr] on a constant string; 0 is in none. *)
Definition strchr_c (l : list Z) (c : Z) : bool := existsb (Z.eqb c) l.
Definition whitespace : list Z := [32; 9; 13; 10; 11].
Definition symbols : list Z := [60; 124; 62; 38; 59; 40; 41].

Section sh.
Context {W : Type} `{!uenv W} `{!malloc_link}.

(** ** Constructors

    The result of [malloc] is not checked: when there is no memory, the node is written at 0. *)
Definition execcmd : U (W := W) Z :=
  cmd ← umalloc 84;
  umemset cmd 0 84;;
  st32 cmd T_EXEC;;
  ret cmd.

Definition redircmd (subcmd file efile mode fd : Z) : U (W := W) Z :=
  cmd ← umalloc 24;
  umemset cmd 0 24;;
  st32 cmd T_REDIR;;
  st32 (cmd + 4) subcmd;;
  st32 (cmd + 8) file;;
  st32 (cmd + 12) efile;;
  st32 (cmd + 16) mode;;
  st32 (cmd + 20) fd;;
  ret cmd.

Definition pipecmd (left right : Z) : U (W := W) Z :=
  cmd ← umalloc 12;
  umemset cmd 0 12;;
  st32 cmd T_PIPE;;
  st32 (cmd + 4) left;;
  st32 (cmd + 8) right;;
  ret cmd.

Definition listcmd (left right : Z) : U (W := W) Z :=
  cmd ← umalloc 12;
  umemset cmd 0 12;;
  st32 cmd T_LIST;;
  st32 (cmd + 4) left;;
  st32 (cmd + 8) right;;
  ret cmd.

Definition backcmd (subcmd : Z) : U (W := W) Z :=
  cmd ← umalloc 8;
  umemset cmd 0 8;;
  st32 cmd T_BACK;;
  st32 (cmd + 4) subcmd;;
  ret cmd.

(** ** Tokens *)

(** [printf(2, "%s\n", s); exit();], one [write] per character. *)
Definition chars (s : string) : list Z := (λ a, Z.of_nat (Ascii.nat_of_ascii a)) <$> String.list_ascii_of_string s.
Definition panic {A} (msg : string) : U (W := W) A :=
  forM (chars msg ++ [10]) (λ c, lift_sys (sys_write 2 [c]);; ret tt);;
  uexit.

(** [while(s < es && strchr(whitespace, *s)) s++;] *)
Fixpoint skip_space (fuel : nat) (s es : Z) : U (W := W) Z :=
  if s <? es then
    match fuel with
    | O => fail Ufuel
    | S fuel => c ← ld8 s; if strchr_c whitespace c then skip_space fuel (s + 1) es else ret s
    end
  else ret s.
(** [while(s < es && !strchr(whitespace, *s) && !strchr(symbols, *s)) s++;] *)
Fixpoint skip_word (fuel : nat) (s es : Z) : U (W := W) Z :=
  if s <? es then
    match fuel with
    | O => fail Ufuel
    | S fuel =>
        c ← ld8 s;
        if negb (strchr_c whitespace c) && negb (strchr_c symbols c) then skip_word fuel (s + 1) es else ret s
    end
  else ret s.
Definition to_end (s es : Z) : nat := Z.to_nat (es - s).

(** The token, [*q], [*eq] and [*ps]. *)
Definition gettoken (s es : Z) : U (W := W) (Z * Z * Z * Z) :=
  s ← skip_space (to_end s es) s es;
  let q := s in
  c ← ld8 s;
  '(r, s) ← (if c =? 0 then ret (0, s)
             else if strchr_c [124; 40; 41; 59; 38; 60] c then ret (c, s + 1)
             else if c =? 62 then
               c ← ld8 (s + 1);
               if c =? 62 then ret (43, s + 2) else ret (62, s + 1)
             else s ← skip_word (to_end s es) s es; ret (97, s));
  let eq := s in
  s ← skip_space (to_end s es) s es;
  ret (r, q, eq, s).

Definition peek (s es : Z) (toks : list Z) : U (W := W) (bool * Z) :=
  s ← skip_space (to_end s es) s es;
  c ← ld8 s;
  ret (truthy c && strchr_c toks c, s).

(** ** The grammar *)
Fixpoint parseredirs (fuel : nat) (c : Z) (s es : Z) : U (W := W) (Z * Z) :=
  '(p, s) ← peek s es [60; 62];
  if p : bool then
    match fuel with
    | O => fail Ufuel
    | S fuel =>
        '(tok, _, _, s) ← gettoken s es;
        '(t, q, eq, s) ← gettoken s es;
        if negb (t =? 97) then panic "missing file for redirection" else
        c ← (if tok =? 60 then redircmd c q eq O_RDONLY 0
             else if tok =? 62 then redircmd c q eq (Z.lor O_WRONLY O_CREATE) 1
             else if tok =? 43 then redircmd c q eq (Z.lor O_WRONLY O_CREATE) 1
             else ret c);
        parseredirs fuel c s es
    end
  else ret (c, s).

(** [cmd->argv[argc] = q; cmd->eargv[argc] = eq;] *)
Definition set_arg (cmd : Z) (argc : nat) (q eq : Z) : U (W := W) unit :=
  st32 (cmd + 4 + 4 * Z.of_nat argc) q;;
  st32 (cmd + 44 + 4 * Z.of_nat argc) eq.

(** The words of [cmd]; [r] is [cmd] with the redirections so far. *)
Fixpoint parseexec_loop (fuel : nat) (cmd r : Z) (argc : nat) (s es : Z) : U (W := W) (Z * Z) :=
  '(p, s) ← peek s es [124; 41; 38; 59];
  if p : bool then set_arg cmd argc 0 0;; ret (r, s) else
  match fuel with
  | O => fail Ufuel
  | S fuel =>
      '(tok, q, eq, s) ← gettoken s es;
      if tok =? 0 then set_arg cmd argc 0 0;; ret (r, s) else
      if negb (tok =? 97) then panic "syntax" else
      set_arg cmd argc q eq;;
      let argc := S argc in
      if MAXARGS <=? Z.of_nat argc then panic "too many args" else
      '(r, s) ← parseredirs (to_end s es) r s es;
      parseexec_loop fuel cmd r argc s es
  end.

(** [while(peek(ps, es, "&"))] *)
Fixpoint back_loop (fuel : nat) (c : Z) (s es : Z) : U (W := W) (Z * Z) :=
  '(p, s) ← peek s es [38];
  if p : bool then
    match fuel with
    | O => fail Ufuel
    | S fuel => '(_, _, _, s) ← gettoken s es; c ← backcmd c; back_loop fuel c s es
    end
  else ret (c, s).

Fixpoint parseline (fuel : nat) (s es : Z) : U (W := W) (Z * Z) :=
  match fuel with
  | O => fail Ufuel
  | S fuel =>
      '(c, s) ← parsepipe fuel s es;
      '(c, s) ← back_loop (to_end s es) c s es;
      '(p, s) ← peek s es [59];
      if p : bool then
        '(_, _, _, s) ← gettoken s es;
        '(d, s) ← parseline fuel s es;
        c ← listcmd c d;
        ret (c, s)
      else ret (c, s)
  end
with parsepipe (fuel : nat) (s es : Z) : U (W := W) (Z * Z) :=
  match fuel with
  | O => fail Ufuel
  | S fuel =>
      '(c, s) ← parseexec fuel s es;
      '(p, s) ← peek s es [124];
      if p : bool then
        '(_, _, _, s) ← gettoken s es;
        '(d, s) ← parsepipe fuel s es;
        c ← pipecmd c d;
        ret (c, s)
      else ret (c, s)
  end
with parseexec (fuel : nat) (s es : Z) : U (W := W) (Z * Z) :=
  match fuel with
  | O => fail Ufuel
  | S fuel =>
      '(p, s) ← peek s es [40];
      if p : bool then parseblock fuel s es else
      cmd ← execcmd;
      '(r, s) ← parseredirs (to_end s es) cmd s es;
      parseexec_loop (S (to_end s es)) cmd r 0 s es
  end
with parseblock (fuel : nat) (s es : Z) : U (W := W) (Z * Z) :=
  match fuel with
  | O => fail Ufuel
  | S fuel =>
      '(p, s) ← peek s es [40];
      if negb p then panic "parseblock" else
      '(_, _, _, s) ← gettoken s es;
      '(c, s) ← parseline fuel s es;
      '(p, s) ← peek s es [41];
      if negb p then panic "syntax - missing )" else
      '(_, _, _, s) ← gettoken s es;
      parseredirs (to_end s es) c s es
  end.

(** [for(i=0; ecmd->argv[i]; i++) *ecmd->eargv[i] = 0;], in the array. *)
Fixpoint nul_args (n : nat) (ecmd i : Z) : U (W := W) unit :=
  match n with
  | O => fail Ubounds
  | S n =>
      a ← ld32 (ecmd + 4 + 4 * i);
      if truthy a then
        e ← ld32 (ecmd + 44 + 4 * i);
        st8 e 0;;
        nul_args n ecmd (i + 1)
      else ret tt
  end.
Fixpoint nulterminate (fuel : nat) (cmd : Z) : U (W := W) Z :=
  match fuel with
  | O => fail Ufuel
  | S fuel =>
      if cmd =? 0 then ret 0 else
      type ← ld32 cmd;
      (if type =? T_EXEC then nul_args (Z.to_nat MAXARGS) cmd 0
       else if type =? T_REDIR then
         c ← ld32 (cmd + 4);
         nulterminate fuel c;;
         e ← ld32 (cmd + 12);
         st8 e 0
       else if (type =? T_PIPE) || (type =? T_LIST) then
         l ← ld32 (cmd + 4);
         nulterminate fuel l;;
         r ← ld32 (cmd + 8);
         nulterminate fuel r;;
         ret tt
       else if type =? T_BACK then
         c ← ld32 (cmd + 4);
         nulterminate fuel c;;
         ret tt
       else ret tt);;
      ret cmd
  end.

(** The leftovers are printed up to their zero. *)
Definition parsecmd (s : Z) : U (W := W) Z :=
  sz ← gets usz;
  n ← ustrlen (S (Z.to_nat (sz - s))) s;
  let es := s + n in
  '(c, s) ← parseline (4 * Z.to_nat n + 4) s es;
  '(_, s) ← peek s es [];
  if negb (s =? es) then
    m ← gets umem;
    forM (chars "leftovers: " ++ read_bytes m s (Z.to_nat (es - s)) ++ [10]) (λ c, lift_sys (sys_write 2 [c]);; ret tt);;
    panic "syntax"
  else nulterminate (4 * Z.to_nat n + 4) c;; ret c.
End sh.
