(* ===== verification/ShSpec.v ===== *)
(** The parser of the shell ([sh.c]) reads back every command line: for any layout of the
    tokens of a command, [parsecmd] builds that command, with its words as strings in memory. *)

From S2P Require Import Prelude Params Mem Cstring User Umalloc UmallocSpec Sh.

(** ** Tokens *)
Definition is_space (c : Z) : Prop := strchr_c whitespace c = true.
(** A character of a word. *)
Definition word_char (c : Z) : Prop := c ≠ 0 ∧ strchr_c whitespace c = false ∧ strchr_c symbols c = false.

Inductive tok := TWord (w : list Z) | TSym (c : Z) | TAppend.
Definition tok_text (t : tok) : list Z :=
  match t with
  | TWord w => w
  | TSym c => [c]
  | TAppend => [62; 62]
  end.
(** What [gettoken] returns for it. *)
Definition tok_code (t : tok) : Z :=
  match t with
  | TWord _ => 97
  | TSym c => c
  | TAppend => 43
  end.
Definition tok_ok (t : tok) : Prop :=
  match t with
  | TWord w => w ≠ [] ∧ Forall word_char w
  | TSym c => strchr_c symbols c = true
  | TAppend => True
  end.
(** What may follow it without a space. *)
Definition sep (t : tok) (text : list Z) : Prop :=
  match t, text with
  | TWord _, c :: _ => ¬ word_char c
  | TSym c, d :: _ => c = 62 → d ≠ 62
  | _, _ => True
  end.

(** [text] is a layout of the tokens, with any spaces between them. *)
Inductive lays : list Z → list tok → Prop :=
  | lays_nil ws : Forall is_space ws → lays ws []
  | lays_cons ws t text toks :
      Forall is_space ws → tok_ok t → sep t text → lays text toks → lays (ws ++ tok_text t ++ text) (t :: toks).

Section lexer.
Context {W : Type} `{!uenv W}.
Implicit Types (s : ustate W) (p q es : Z) (text ws : list Z) (t : tok) (toks : list tok).

(** The text from [p] to [es] is a layout of [toks]. *)
Definition at_toks s p es toks : Prop :=
  ∃ text, ustr s p text ∧ es = p + Z.of_nat (length text) ∧ lays text toks.

Lemma ustr_app s p l1 l2 : ustr s p (l1 ++ l2) → ustr s (p + Z.of_nat (length l1)) l2.
Proof.
  revert p. induction l1 as [|c l1 IH]; intros p Hu; cbn [app length] in *; [by rewrite Z.add_0_r|].
  destruct (ustr_cons _ _ _ _ Hu) as (_ & _ & Hu'). specialize (IH _ Hu').
  by replace (p + Z.of_nat (S (length l1))) with (p + 1 + Z.of_nat (length l1)) by lia.
Qed.

(** Skipping what satisfies a test, up to something that does not. *)
Lemma skip_space_ok ws : ∀ fuel s p text es,
  ustr s p (ws ++ text) → Forall is_space ws → (∀ c, head text = Some c → ¬ is_space c) →
  es = p + Z.of_nat (length (ws ++ text)) → (length (ws ++ text) ≤ fuel)%nat →
  skip_space fuel p es s = Ok (p + Z.of_nat (length ws)) s.
Proof.
  induction ws as [|c ws IH]; intros fuel s p text es Hu Hws Hh Hes Hf; cbn [app length] in *.
  - rewrite Z.add_0_r. destruct text as [|c text]; cbn [length] in *.
    + destruct fuel; cbn [skip_space]; by rewrite (proj2 (Z.ltb_ge _ _)) by lia.
    + destruct fuel as [|fuel]; [lia|]. cbn [skip_space]. rewrite (proj2 (Z.ltb_lt _ _)) by lia.
      destruct (ustr_cons _ _ _ _ Hu) as (Hc & _ & _). rewrite (bind_ok _ _ _ _ _ Hc).
      specialize (Hh c eq_refl). unfold is_space in Hh. by destruct (strchr_c whitespace c).
  - destruct fuel as [|fuel]; [lia|]. cbn [skip_space]. rewrite (proj2 (Z.ltb_lt _ _)) by lia.
    destruct (ustr_cons _ _ _ _ Hu) as (Hc & _ & Hu'). rewrite (bind_ok _ _ _ _ _ Hc).
    apply Forall_cons in Hws as [Hw Hws]. rewrite Hw. rewrite (IH fuel s (p + 1) text es Hu' Hws Hh); [f_equal; lia|lia|lia].
Qed.

Lemma skip_word_ok w : ∀ fuel s p text es,
  ustr s p (w ++ text) → Forall word_char w → (∀ c, head text = Some c → ¬ word_char c) →
  es = p + Z.of_nat (length (w ++ text)) → (length (w ++ text) ≤ fuel)%nat →
  skip_word fuel p es s = Ok (p + Z.of_nat (length w)) s.
Proof.
  induction w as [|c w IH]; intros fuel s p text es Hu Hws Hh Hes Hf; cbn [app length] in *.
  - rewrite Z.add_0_r. destruct text as [|c text]; cbn [length] in *.
    + destruct fuel; cbn [skip_word]; by rewrite (proj2 (Z.ltb_ge _ _)) by lia.
    + destruct fuel as [|fuel]; [lia|]. cbn [skip_word]. rewrite (proj2 (Z.ltb_lt _ _)) by lia.
      destruct (ustr_cons _ _ _ _ Hu) as (Hc & Hnz & _). rewrite (bind_ok _ _ _ _ _ Hc).
      specialize (Hh c eq_refl). unfold word_char in Hh.
      destruct (strchr_c whitespace c), (strchr_c symbols c); try done. by destruct Hh.
  - destruct fuel as [|fuel]; [lia|]. cbn [skip_word]. rewrite (proj2 (Z.ltb_lt _ _)) by lia.
    destruct (ustr_cons _ _ _ _ Hu) as (Hc & _ & Hu'). rewrite (bind_ok _ _ _ _ _ Hc).
    apply Forall_cons in Hws as [(_ & -> & ->) Hws]. cbn [negb andb].
    rewrite (IH fuel s (p + 1) text es Hu' Hws Hh); [f_equal; lia|lia|lia].
Qed.

Lemma tok_head t : tok_ok t → ∃ c r, tok_text t = c :: r ∧ ¬ is_space c ∧ c ≠ 0.
Proof.
  destruct t as [w|c|]; cbn [tok_ok tok_text].
  - intros [Hne Hw]. destruct w as [|c w]; [done|]. apply Forall_cons in Hw as [(H0 & Hs & _) _]. exists c, w.
    split_and!; [done| |done]. unfold is_space. by rewrite Hs.
  - intros Hc. exists c, []. split_and!; [done|..]; unfold is_space; unfold strchr_c, symbols, whitespace in *; cbn in *; intros E; zcases; lia.
  - intros _. exists 62, [62]. done.
Qed.

(** The spaces before the first token. *)
Lemma lays_strip text toks : lays text toks →
  ∃ ws rest, text = ws ++ rest ∧ Forall is_space ws ∧ (∀ c, head rest = Some c → ¬ is_space c) ∧ lays rest toks ∧
    match toks with
    | [] => rest = []
    | t :: toks => tok_ok t ∧ ∃ text', rest = tok_text t ++ text' ∧ sep t text' ∧ lays text' toks
    end.
Proof.
  intros [ws Hws|ws t text' toks' Hws Ht Hsep Hl].
  - exists ws, []. rewrite app_nil_r. split_and!; try done. by constructor.
  - exists ws, (tok_text t ++ text'). split_and!; try done; [| |by exists text'].
    + destruct (tok_head t Ht) as (c & r & -> & Hc & _). cbn. by intros c' [= <-].
    + by apply (lays_cons []).
Qed.

(** [while(s < es && strchr(whitespace, *s)) s++;] at a token or at the end. *)
Lemma skip_toks s p es toks : at_toks s p es toks →
  ∃ rest, let p' := es - Z.of_nat (length rest) in
    skip_space (to_end p es) p es s = Ok p' s ∧ p ≤ p' ∧ ustr s p' rest ∧ lays rest toks ∧
    match toks with
    | [] => rest = []
    | t :: toks => tok_ok t ∧ ∃ text', rest = tok_text t ++ text' ∧ sep t text' ∧ lays text' toks
    end.
Proof.
  intros (text & Hu & Hes & Hl). destruct (lays_strip text toks Hl) as (ws & rest & -> & Hws & Hh & Hl' & Hcase).
  exists rest. cbv zeta. rewrite length_app in Hes. replace (es - Z.of_nat (length rest)) with (p + Z.of_nat (length ws)) by lia.
  split_and!; try done; [|lia|by apply ustr_app].
  apply (skip_space_ok ws _ s p rest); try done; unfold to_end; rewrite ?length_app; lia.
Qed.

Lemma at_toks_rest s es rest toks :
  ustr s (es - Z.of_nat (length rest)) rest → lays rest toks → at_toks s (es - Z.of_nat (length rest)) es toks.
Proof. intros Hu Hl. exists rest. split_and!; try done. lia. Qed.

Definition first_char (toks : list tok) : Z :=
  match toks with
  | [] => 0
  | t :: _ => default 0 (head (tok_text t))
  end.

Lemma peek_ok s p es toks set : at_toks s p es toks →
  ∃ p', peek p es set s = Ok (truthy (first_char toks) && strchr_c set (first_char toks), p') s ∧ p ≤ p' ∧ at_toks s p' es toks ∧
    (toks = [] → p' = es).
Proof.
  intros Ha. destruct (skip_toks s p es toks Ha) as (rest & Hsk & Hle & Hu & Hl & Hcase). cbv zeta in *.
  exists (es - Z.of_nat (length rest)). split_and!; try done; [|by apply at_toks_rest|intros ->; rewrite Hcase; cbn; lia].
  unfold peek. rewrite (bind_ok _ _ _ _ _ Hsk), (bind_ok _ _ _ _ _ (ustr_ld _ _ _ Hu)).
  destruct toks as [|t toks]; [by rewrite Hcase|]. destruct Hcase as (Ht & text' & -> & _).
  destruct (tok_head t Ht) as (c & r & E & _). cbn [first_char]. by rewrite E.
Qed.

Lemma gettoken_end s p es : at_toks s p es [] → gettoken p es s = Ok (0, es, es, es) s.
Proof.
  intros Ha. destruct (skip_toks s p es [] Ha) as (rest & Hsk & Hle & Hu & Hl & ->). cbv zeta in *. cbn [length] in *.
  change (Z.of_nat 0) with 0 in *. rewrite Z.sub_0_r in *. unfold gettoken. rewrite (bind_ok _ _ _ _ _ Hsk).
  rewrite (bind_ok _ _ _ _ _ (ustr_nil _ _ Hu)). cbn [Z.eqb]. rewrite bind_ret.
  assert (Hz : skip_space (to_end es es) es es s = Ok es s) by (destruct (to_end es es); cbn; by rewrite Z.ltb_irrefl).
  by rewrite (bind_ok _ _ _ _ _ Hz).
Qed.

(** The bytes at [q] are those of the token. *)
Definition spells s q (l : list Z) : Prop := read_bytes (umem s) q (length l) = l.

Lemma ustr_spells s p l text : ustr s p (l ++ text) → spells s p l.
Proof.
  intros (Hc & _). apply cstr_bytes in Hc as [Hr _]. rewrite length_app, read_bytes_app in Hr.
  apply app_inj_1 in Hr as [Hr _]; [done|]. apply length_read_bytes.
Qed.

(** The first part of [gettoken], after the spaces. *)
Lemma token_ok s p es t text : tok_ok t → sep t text → ustr s p (tok_text t ++ text) →
  es = p + Z.of_nat (length (tok_text t ++ text)) →
  (c ← ld8 p;
   if c =? 0 then ret (0, p)
   else if strchr_c [124; 40; 41; 59; 38; 60] c then ret (c, p + 1)
   else if c =? 62 then
     c ← ld8 (p + 1);
     if c =? 62 then ret (43, p + 2) else ret (62, p + 1)
   else p ← skip_word (to_end p es) p es; ret (97, p)) s = Ok (tok_code t, p + Z.of_nat (length (tok_text t))) s.
Proof.
  intros Ht Hsep Hu Hes. destruct t as [w|c|]; cbn [tok_text tok_code tok_ok sep] in *.
  - destruct Ht as [Hne Hw]. destruct w as [|c w]; [done|]. pose proof Hw as [(H0 & Hs & Hy) _]%Forall_cons.
    destruct (ustr_cons _ _ _ _ Hu) as (Hc & _ & _). rewrite (bind_ok _ _ _ _ _ Hc).
    rewrite (proj2 (Z.eqb_neq _ _)) by done.
    assert (Hno : strchr_c [124; 40; 41; 59; 38; 60] c = false ∧ (c =? 62) = false).
    { unfold strchr_c, symbols in *. cbn in *. zcases; lia || done. }
    destruct Hno as [-> ->]. erewrite bind_ok; [reflexivity|].
    apply (skip_word_ok (c :: w) _ s p text); try done; [by destruct text; cbn; [|intros c' [= <-]]|unfold to_end; cbn [app length] in *; lia].
  - destruct (ustr_cons _ _ _ _ Hu) as (Hc & Hnz & Hu1). rewrite (bind_ok _ _ _ _ _ Hc).
    rewrite (proj2 (Z.eqb_neq _ _)) by done. cbn [length] in *. change (Z.of_nat 1) with 1.
    destruct (strchr_c [124; 40; 41; 59; 38; 60] c) eqn:E; [done|].
    assert (c = 62) as -> by (unfold strchr_c, symbols in *; cbn in *; zcases; lia || done). rewrite Z.eqb_refl.
    rewrite (bind_ok _ _ _ _ _ (ustr_ld _ _ _ Hu1)). rewrite (proj2 (Z.eqb_neq _ _)); [done|].
    destruct text as [|d text]; [done|]. by apply Hsep.
  - destruct (ustr_cons _ _ _ _ Hu) as (Hc & _ & Hu1). rewrite (bind_ok _ _ _ _ _ Hc).
    destruct (ustr_cons _ _ _ _ Hu1) as (Hc1 & _ & _). rewrite (proj2 (Z.eqb_neq 62 0)) by done.
    change (strchr_c [124; 40; 41; 59; 38; 60] 62) with false. rewrite Z.eqb_refl. by rewrite (bind_ok _ _ _ _ _ Hc1).
Qed.

Lemma gettoken_ok s p es t toks : at_toks s p es (t :: toks) →
  ∃ q p', gettoken p es s = Ok (tok_code t, q, q + Z.of_nat (length (tok_text t)), p') s ∧ p ≤ q ∧
    q + Z.of_nat (length (tok_text t)) ≤ p' ∧ at_toks s p' es toks ∧ spells s q (tok_text t) ∧
    tok_ok t ∧ 0 ≤ q ∧ q + Z.of_nat (length (tok_text t)) < usz s ∧
    (∀ w, t = TWord w → q + Z.of_nat (length w) = p' → ¬ word_char (rd8 (umem s) p')).
Proof.
  intros Ha. destruct (skip_toks s p es (t :: toks) Ha) as (rest & Hsk & Hle & Hu & Hl & Ht & text & -> & Hsep & Hl'). cbv zeta in *.
  set (q := es - Z.of_nat (length (tok_text t ++ text))) in *. set (e := q + Z.of_nat (length (tok_text t))).
  pose proof (ustr_app _ _ _ _ Hu) as Hu'. fold e in Hu'.
  assert (Hes : es = e + Z.of_nat (length text)) by (unfold e, q; rewrite length_app; lia).
  assert (Ha' : at_toks s e es toks) by (by exists text).
  destruct (skip_toks s e es toks Ha') as (rest' & Hsk' & Hle' & Hu'' & Hl'' & _). cbv zeta in *.
  exists q, (es - Z.of_nat (length rest')). split_and!; try done.
  - unfold gettoken. rewrite (bind_ok _ _ _ _ _ Hsk). fold q.
    pose proof (token_ok s q es t text Ht Hsep Hu ltac:(unfold q; lia)) as Htok. fold e in Htok.
    apply bind_ok_inv in Htok as (c & s1 & Hld & Htok). rewrite (bind_ok _ _ _ _ _ Hld).
    rewrite (bind_ok _ _ _ _ _ Htok). by rewrite (bind_ok _ _ _ _ _ Hsk').
  - by apply at_toks_rest.
  - by eapply ustr_spells.
  - apply Hu.
  - destruct Hu' as (_ & _ & ?). fold e. lia.
  - intros w -> E Hw. destruct text as [|c text].
    + destruct rest' as [|c r]; [|cbn in *; lia]. cbn [length] in E, Hes. destruct Hu'' as (Hz & _). cbn in Hz. destruct Hw as [Hw _]. cbn [length] in Hw. done.
    + destruct (ustr_cons _ _ _ _ Hu') as (Hc & _). destruct Hu' as (Hz & _ & _). cbn in Hz. destruct Hz as [Hz _].
      cbn [tok_text] in e. fold e in E. rewrite <- E, Hz in Hw. by apply Hsep.
Qed.
End lexer.

(** ** The grammar

    A line is pipelines, each with any number of [&], separated by [;]; a pipeline is
    commands separated by [|]; a command is a line in parentheses with redirections, or words and
    redirections in any order. *)
Inductive redir := Rin (w : list Z) | Rout (w : list Z) | Rappend (w : list Z).
Inductive sline := SEnd (p : spipe) (amps : nat) | SSeq (p : spipe) (amps : nat) (l : sline)
with spipe := SOne (e : sexec) | SBar (e : sexec) (p : spipe)
with sexec := SBlock (l : sline) (rs : list redir) | SSimple (rs : list redir) (args : list (list Z * list redir)).

Scheme sline_mind := Induction for sline Sort Prop
with spipe_mind := Induction for spipe Sort Prop
with sexec_mind := Induction for sexec Sort Prop.
Combined Scheme syntax_ind from sline_mind, spipe_mind, sexec_mind.

Definition redir_toks (r : redir) : list tok :=
  match r with
  | Rin w => [TSym 60; TWord w]
  | Rout w => [TSym 62; TWord w]
  | Rappend w => [TAppend; TWord w]
  end.
Definition redirs_toks (rs : list redir) : list tok := concat (redir_toks <$> rs).
Definition args_toks (args : list (list Z * list redir)) : list tok :=
  concat ((λ '(w, rs), TWord w :: redirs_toks rs) <$> args).
Fixpoint line_toks (l : sline) : list tok :=
  match l with
  | SEnd p n => pipe_toks p ++ replicate n (TSym 38)
  | SSeq p n l => pipe_toks p ++ replicate n (TSym 38) ++ TSym 59 :: line_toks l
  end
with pipe_toks (p : spipe) : list tok :=
  match p with
  | SOne e => exec_toks e
  | SBar e p => exec_toks e ++ TSym 124 :: pipe_toks p
  end
with exec_toks (e : sexec) : list tok :=
  match e with
  | SBlock l rs => TSym 40 :: line_toks l ++ TSym 41 :: redirs_toks rs
  | SSimple rs args => redirs_toks rs ++ args_toks args
  end.

(** At most nine words in a command. *)
Fixpoint line_fits (l : sline) : Prop :=
  match l with
  | SEnd p _ => pipe_fits p
  | SSeq p _ l => pipe_fits p ∧ line_fits l
  end
with pipe_fits (p : spipe) : Prop :=
  match p with
  | SOne e => exec_fits e
  | SBar e p => exec_fits e ∧ pipe_fits p
  end
with exec_fits (e : sexec) : Prop :=
  match e with
  | SBlock l _ => line_fits l
  | SSimple _ args => (length args < 10)%nat
  end.

(** ** Commands with their words *)
Inductive dcmd :=
  | DEXEC (args : list (list Z))
  | DREDIR (c : dcmd) (file : list Z) (mode fd : Z)
  | DPIPE (left right : dcmd)
  | DLIST (left right : dcmd)
  | DBACK (c : dcmd).

Definition redir_word (r : redir) : list Z := match r with Rin w | Rout w | Rappend w => w end.
(** [open] mode and file descriptor. *)
Definition redir_mode (r : redir) : Z := match r with Rin _ => 0 | _ => 0x201 end.
Definition redir_fd (r : redir) : Z := match r with Rin _ => 0 | _ => 1 end.
Definition den_redirs (d : dcmd) (rs : list redir) : dcmd :=
  foldl (λ d r, DREDIR d (redir_word r) (redir_mode r) (redir_fd r)) d rs.
Fixpoint den_line (l : sline) : dcmd :=
  match l with
  | SEnd p n => Nat.iter n DBACK (den_pipe p)
  | SSeq p n l => DLIST (Nat.iter n DBACK (den_pipe p)) (den_line l)
  end
with den_pipe (p : spipe) : dcmd :=
  match p with
  | SOne e => den_exec e
  | SBar e p => DPIPE (den_exec e) (den_pipe p)
  end
with den_exec (e : sexec) : dcmd :=
  match e with
  | SBlock l rs => den_redirs (den_line l) rs
  | SSimple rs args => den_redirs (DEXEC args.*1) (rs ++ concat args.*2)
  end.

(** A word and where it is. *)
Record span := mkSpan { sp_q : Z; sp_e : Z; sp_w : list Z }.
Definition exec_of (xs : list span) : cmd :=
  let pad := replicate (10 - length xs) 0 in EXEC ((sp_q <$> xs) ++ pad) ((sp_e <$> xs) ++ pad).

(** The command [c] is [d], its words being at [L]. *)
Inductive reps : cmd → dcmd → list span → Prop :=
  | reps_exec xs : (length xs < 10)%nat → reps (exec_of xs) (DEXEC (sp_w <$> xs)) xs
  | reps_redir c d L x mode fd : reps c d L → reps (REDIR c (sp_q x) (sp_e x) mode fd) (DREDIR d (sp_w x) mode fd) (L ++ [x])
  | reps_pipe c1 c2 d1 d2 L1 L2 : reps c1 d1 L1 → reps c2 d2 L2 → reps (PIPE c1 c2) (DPIPE d1 d2) (L1 ++ L2)
  | reps_list c1 c2 d1 d2 L1 L2 : reps c1 d1 L1 → reps c2 d2 L2 → reps (LIST c1 c2) (DLIST d1 d2) (L1 ++ L2)
  | reps_back c d L : reps c d L → reps (BACK c) (DBACK d) L.

(** In memory [m] the words of [c] are strings: [c] is [d]. *)
Fixpoint denotes (m : memory) (c : cmd) (d : dcmd) : Prop :=
  match c, d with
  | EXEC argv _, DEXEC args => 
      (length args < 10)%nat ∧ ∃ ptrs, Forall2 (λ q w, q ≠ 0 ∧ cstr m q w) ptrs args ∧ argv = ptrs ++ replicate (10 - length args) 0
  | REDIR c file _ mode fd, DREDIR d w mode' fd' => denotes m c d ∧ cstr m file w ∧ mode = mode' ∧ fd = fd'
  | PIPE l r, DPIPE l' r' | LIST l r, DLIST l' r' => denotes m l l' ∧ denotes m r r'
  | BACK c, DBACK d => denotes m c d
  | _, _ => False
  end.

Section parser.
Context {W : Type} `{!uenv W} {ML : malloc_link}.
Implicit Types (s : ustate W) (bs : blocks) (p q es : Z) (t : tok) (toks : list tok) (L : list span) (rs : list redir).

(** ** Nodes in memory *)

(** The words from [a] on. *)
Definition words (m : memory) (a : Z) (vs : list Z) : Prop := ∀ i v, vs !! i = Some v → rd32 m (a + 4 * Z.of_nat i) = v.

Lemma words_keep m m' a vs :
  (∀ x, a ≤ x < a + 4 * Z.of_nat (length vs) → rd8 m' x = rd8 m x) → words m a vs → words m' a vs.
Proof.
  intros Hm Hw i v Hi. rewrite <- (Hw i v Hi). apply lookup_lt_Some in Hi. apply rd32_ext. intros j Hj. apply Hm. lia.
Qed.

Lemma words_store m a vs i v :
  words m a vs → (i < length vs)%nat → 0 ≤ v < 2 ^ 32 → words (wr32 m (a + 4 * Z.of_nat i) v) a (<[i := v]> vs).
Proof.
  intros Hw Hi Hv j u Hj. destruct (decide (i = j)) as [<-|Hne].
  - rewrite list_lookup_insert_eq in Hj by done. injection Hj as <-. by rewrite rd32_wr32_eq, u32_small.
  - rewrite list_lookup_insert_ne in Hj by done. rewrite rd32_wr32_ne by lia. by apply Hw.
Qed.

Lemma words_split m a vs1 vs2 : words m a (vs1 ++ vs2) ↔ words m a vs1 ∧ words m (a + 4 * Z.of_nat (length vs1)) vs2.
Proof.
  split.
  - intros Hw. split; intros i v Hi.
    + apply Hw. by apply lookup_app_l_Some.
    + rewrite <- (Hw (length vs1 + i)%nat v); [f_equal; lia|]. by rewrite lookup_app_r, Nat.add_comm, Nat.add_sub by lia.
  - intros [H1 H2] i v [Hi|[Hl Hi]]%lookup_app_Some; [by apply H1|]. rewrite <- (H2 _ _ Hi). f_equal. lia.
Qed.

(** A node of these words at [a], inside [R]. *)
Definition node (m : memory) (R : Z → Prop) (a : Z) (vs : list Z) : Prop :=
  0 < a ∧ words m a vs ∧ ∀ x, a ≤ x < a + 4 * Z.of_nat (length vs) → R x.

Lemma node_mono m m' (R R' : Z → Prop) a vs :
  (∀ x, R x → R' x ∧ rd8 m' x = rd8 m x) → node m R a vs → node m' R' a vs.
Proof. intros HR (Ha & Hw & Hx). split_and!; [done|eapply words_keep; [|done]|]; intros z Hz; by apply HR, Hx. Qed.

(** The nodes of the command [c], at [p] and inside [R]. *)
Fixpoint rep (m : memory) (R : Z → Prop) (p : Z) (c : cmd) : Prop :=
  match c with
  | EXEC argv eargv => length argv = 10%nat ∧ length eargv = 10%nat ∧ node m R p (T_EXEC :: argv ++ eargv)
  | REDIR c file efile mode fd => ∃ q, node m R p [T_REDIR; q; file; efile; mode; fd] ∧ rep m R q c
  | PIPE l r => ∃ q q', node m R p [T_PIPE; q; q'] ∧ rep m R q l ∧ rep m R q' r
  | LIST l r => ∃ q q', node m R p [T_LIST; q; q'] ∧ rep m R q l ∧ rep m R q' r
  | BACK c => ∃ q, node m R p [T_BACK; q] ∧ rep m R q c
  end.

Lemma rep_mono m m' (R R' : Z → Prop) c : (∀ x, R x → R' x ∧ rd8 m' x = rd8 m x) → ∀ p, rep m R p c → rep m' R' p c.
Proof.
  intros HR. induction c as [argv eargv|c IH file efile mode fd|l IHl r IHr|l IHl r IHr|c IH]; intros p; cbn [rep].
  - intros (? & ? & Hn). split_and!; [done..|]. by eapply node_mono.
  - intros (q & Hn & Hc). exists q. split; [by eapply node_mono|by apply IH].
  - intros (q & q' & Hn & Hl & Hr). exists q, q'. split_and!; [by eapply node_mono|by apply IHl|by apply IHr].
  - intros (q & q' & Hn & Hl & Hr). exists q, q'. split_and!; [by eapply node_mono|by apply IHl|by apply IHr].
  - intros (q & Hn & Hc). exists q. split; [by eapply node_mono|by apply IH].
Qed.

Lemma rep_node m R p c : rep m R p c → 0 < p ∧ R p.
Proof.
  assert (Hn : ∀ v vs, node m R p (v :: vs) → 0 < p ∧ R p) by (intros v vs (? & _ & Hx); split; [done|]; apply Hx; cbn [length]; lia).
  destruct c; cbn [rep]; [intros (_ & _ & ?)|intros (? & ? & _)|intros (? & ? & ? & _)|intros (? & ? & ? & _)|intros (? & ? & _)]; by eapply Hn.
Qed.

(** *** The constructors *)
Lemma umemset_go_ok n : ∀ d s, 0 ≤ d → d + Z.of_nat n ≤ usz s →
  ∃ m, umemset_go n d 0 s = Ok tt (set_umem m s) ∧ (∀ x, d ≤ x < d + Z.of_nat n → rd8 m x = 0) ∧
    (∀ x, x < d ∨ d + Z.of_nat n ≤ x → rd8 m x = rd8 (umem s) x).
Proof.
  induction n as [|n IH]; intros d s Hd Hn; cbn [umemset_go].
  - exists (umem s). split_and!; [by destruct s|lia|done].
  - rewrite (bind_ok _ _ _ _ _ (st8_ok d 0 s ltac:(lia))). destruct (IH (d + 1) (set_umem (wr8 (umem s) d 0) s)) as (m & -> & Hz & Hs); [lia|cbn; lia|].
    exists m. split_and!; [done| |].
    + intros x Hx. destruct (decide (x = d)) as [->|]; [|apply Hz; lia]. rewrite Hs by lia. cbn. by rewrite rd8_wr8_eq.
    + intros x Hx. rewrite Hs by lia. cbn. by rewrite rd8_wr8_ne by lia.
Qed.

(** A node that has been allocated since [s], with room for [need] more headers left. *)
Definition made s bs s' bs' (need a : Z) (vs : list Z) : Prop :=
  ext s bs s' bs' ∧ node (umem s') (newly s bs s' bs') a vs ∧ room s' bs' need ∧ a + 4 * Z.of_nat (length vs) ≤ usz s'.

Lemma made_store s bs s' bs' need a vs i b v :
  made s bs s' bs' need a vs → b = a + 4 * Z.of_nat i → (i < length vs)%nat → 0 ≤ v < 2 ^ 32 →
  ∃ s'', st32 b v s' = Ok tt s'' ∧ made s bs s'' bs' need a (<[i := v]> vs).
Proof.
  intros (He & (Ha & Hw & Hx) & Hr & Hz) -> Hi Hv. eexists. split; [apply st32_ok; lia|]. unfold made, node. rewrite length_insert. split_and!; [|done|..].
  - eapply ext_writes; [exact He|done|]. intros x Hn. cbn. apply rd8_wr32_ne.
    destruct (decide (a + 4 * Z.of_nat i ≤ x < a + 4 * Z.of_nat i + 4)); [|lia]. destruct Hn. apply Hx. lia.
  - by apply words_store.
  - exact Hx.
  - exact Hr.
  - exact Hz.
Qed.

Lemma made_zero n s bs need :
  ready s bs → (n < 100)%nat → 0 ≤ need → room s bs (units (4 * Z.of_nat n) + need) →
  ∃ a s1 s2 bs', umalloc (4 * Z.of_nat n) s = Ok a s1 ∧ umemset a 0 (4 * Z.of_nat n) s1 = Ok tt s2 ∧
    made s bs s2 bs' need a (replicate n 0).
Proof.
  intros Hr Hn Hneed Hroom. destruct (umalloc_ok s bs (4 * Z.of_nat n) need Hr) as (a & s1 & bs' & Hrun & He & Hnew & Hroom' & Ha & Hz); [lia|done|done|].
  destruct (umemset_go_ok (Z.to_nat (4 * Z.of_nat n)) a s1) as (m & Hset & H0 & Hs); [lia|lia|]. rewrite Z2Nat.id in * by lia.
  exists a, s1, (set_umem m s1), bs'. split_and!; [done|done|]. unfold made, node. rewrite length_replicate. split_and!.
  - eapply ext_writes; [exact He|done|]. intros x Hx. apply Hs. destruct (decide (a ≤ x < a + 4 * Z.of_nat n)); [|lia]. destruct Hx. by apply Hnew.
  - done.
  - intros i v [-> Hi]%lookup_replicate. unfold rd32. cbn. rewrite !H0 by lia. done.
  - exact Hnew.
  - exact Hroom'.
  - cbn. lia.
Qed.

(** One more store into a node. *)
Ltac node_word i :=
  match goal with
  | H : made ?s ?bs ?s1 ?bs1 ?need ?a ?vs |- context [bind (st32 ?b ?v) _ ?s1] =>
      let s2 := fresh "s" in let E := fresh "E" in let H' := fresh "H" in
      destruct (made_store s bs s1 bs1 need a vs i b v H) as (s2 & E & H'); [lia|cbn; lia|(done || lia)|];
      rewrite (bind_ok _ _ _ _ _ E); clear E H; cbn [list_insert replicate] in H'
  end.

Lemma execcmd_ok s bs need : ready s bs → 0 ≤ need → room s bs (units 84 + need) →
  ∃ a s' bs', execcmd s = Ok a s' ∧ made s bs s' bs' need a (T_EXEC :: replicate 20 0).
Proof.
  intros Hr Hn Hroom. destruct (made_zero 21 s bs need Hr) as (a & s1 & s2 & bs' & Hal & Hset & Hm); [lia|done|done|].
  unfold execcmd. rewrite (bind_ok _ _ _ _ _ Hal), (bind_ok _ _ _ _ _ Hset). node_word O. eexists _, _, _. by split.
Qed.

Lemma redircmd_ok s bs need c file efile mode fd :
  ready s bs → 0 ≤ need → room s bs (units 24 + need) →
  0 ≤ c < 2 ^ 32 → 0 ≤ file < 2 ^ 32 → 0 ≤ efile < 2 ^ 32 → 0 ≤ mode < 2 ^ 32 → 0 ≤ fd < 2 ^ 32 →
  ∃ a s' bs', redircmd c file efile mode fd s = Ok a s' ∧ made s bs s' bs' need a [T_REDIR; c; file; efile; mode; fd].
Proof.
  intros Hr Hn Hroom ? ? ? ? ?. destruct (made_zero 6 s bs need Hr) as (a & s1 & s2 & bs' & Hal & Hset & Hm); [lia|done|done|].
  unfold redircmd. rewrite (bind_ok _ _ _ _ _ Hal), (bind_ok _ _ _ _ _ Hset).
  node_word O. node_word 1%nat. node_word 2%nat. node_word 3%nat. node_word 4%nat. node_word 5%nat. eexists _, _, _. by split.
Qed.

Lemma pipecmd_ok s bs need l r :
  ready s bs → 0 ≤ need → room s bs (units 12 + need) → 0 ≤ l < 2 ^ 32 → 0 ≤ r < 2 ^ 32 →
  ∃ a s' bs', pipecmd l r s = Ok a s' ∧ made s bs s' bs' need a [T_PIPE; l; r].
Proof.
  intros Hr Hn Hroom ? ?. destruct (made_zero 3 s bs need Hr) as (a & s1 & s2 & bs' & Hal & Hset & Hm); [lia|done|done|].
  unfold pipecmd. rewrite (bind_ok _ _ _ _ _ Hal), (bind_ok _ _ _ _ _ Hset). node_word O. node_word 1%nat. node_word 2%nat. eexists _, _, _. by split.
Qed.

Lemma listcmd_ok s bs need l r :
  ready s bs → 0 ≤ need → room s bs (units 12 + need) → 0 ≤ l < 2 ^ 32 → 0 ≤ r < 2 ^ 32 →
  ∃ a s' bs', listcmd l r s = Ok a s' ∧ made s bs s' bs' need a [T_LIST; l; r].
Proof.
  intros Hr Hn Hroom ? ?. destruct (made_zero 3 s bs need Hr) as (a & s1 & s2 & bs' & Hal & Hset & Hm); [lia|done|done|].
  unfold listcmd. rewrite (bind_ok _ _ _ _ _ Hal), (bind_ok _ _ _ _ _ Hset). node_word O. node_word 1%nat. node_word 2%nat. eexists _, _, _. by split.
Qed.

Lemma backcmd_ok s bs need c :
  ready s bs → 0 ≤ need → room s bs (units 8 + need) → 0 ≤ c < 2 ^ 32 →
  ∃ a s' bs', backcmd c s = Ok a s' ∧ made s bs s' bs' need a [T_BACK; c].
Proof.
  intros Hr Hn Hroom ?. destruct (made_zero 2 s bs need Hr) as (a & s1 & s2 & bs' & Hal & Hset & Hm); [lia|done|done|].
  unfold backcmd. rewrite (bind_ok _ _ _ _ _ Hal), (bind_ok _ _ _ _ _ Hset). node_word O. node_word 1%nat. eexists _, _, _. by split.
Qed.

Implicit Types (x y : span).

(** ** Where the words are *)

(** A word that was read before [p'], and does not go on there. *)
Record read_word s p p' x : Prop := mkReadWord {
  rw_q : p ≤ sp_q x;
  rw_ne : sp_w x ≠ [];
  rw_chars : Forall word_char (sp_w x);
  rw_spells : spells s (sp_q x) (sp_w x);
  rw_e : sp_e x = sp_q x + Z.of_nat (length (sp_w x));
  rw_sz : sp_e x < usz s;
  rw_end : sp_e x < p' ∨ sp_e x = p' ∧ ¬ word_char (rd8 (umem s) p')
}.
Definition apart x y : Prop := x = y ∨ sp_e x < sp_q y ∨ sp_e y < sp_q x.
Definition words_read s p p' L : Prop :=
  p ≤ p' ∧ (∀ x, x ∈ L → read_word s p p' x) ∧ (∀ x y, x ∈ L → y ∈ L → apart x y).

Lemma words_nil s p p' : p ≤ p' → words_read s p p' [].
Proof. intros Hp. split_and!; [done|by intros x ?%not_elem_of_nil|by intros x y ?%not_elem_of_nil]. Qed.

Lemma words_later s p0 p p' p1 L : p0 ≤ p → p' ≤ p1 → words_read s p p' L → words_read s p0 p1 L.
Proof.
  intros H0 H1 (Hp & Hr & Ha). split_and!; [lia| |done]. intros x [Hq Hne Hc Hs He Hsz Hend]%Hr.
  split; try done; [lia|]. destruct Hend as [?|[-> Hend]]; [left; lia|]. destruct (Z.eq_dec p' p1) as [<-|]; [by right|left; lia].
Qed.

Lemma words_ext s p p' L L' : (∀ x, x ∈ L' → x ∈ L) → words_read s p p' L → words_read s p p' L'.
Proof. intros HL (Hp & Hr & Ha). split_and!; [done|by intros x ?%HL; apply Hr|by intros x y ?%HL ?%HL; apply Ha]. Qed.

(** A word begins with a word character. *)
Lemma spells_head s q w : spells s q w → w ≠ [] → Forall word_char w → word_char (rd8 (umem s) q).
Proof.
  unfold spells. intros Hs Hne Hw. destruct w as [|c w]; [done|]. cbn [length read_bytes] in Hs. injection Hs as -> _.
  by apply Forall_cons in Hw as [? _].
Qed.

Lemma words_app s p p1 p2 L1 L2 : words_read s p p1 L1 → words_read s p1 p2 L2 → words_read s p p2 (L1 ++ L2).
Proof.
  intros H1 H2. assert (Hord : ∀ x y, x ∈ L1 → y ∈ L2 → sp_e x < sp_q y).
  { intros x y Hx Hy. destruct H1 as (_ & Hr1 & _), H2 as (_ & Hr2 & _).
    destruct (Hr1 x Hx) as [_ _ _ _ _ _ Hend], (Hr2 y Hy) as [Hq Hne Hc Hs _ _ _].
    destruct Hend as [?|[-> Hend]]; [lia|]. destruct (Z.eq_dec p1 (sp_q y)) as [->|]; [|lia].
    destruct Hend. by eapply spells_head. }
  destruct (words_later s p p p1 p2 L1 ltac:(lia) (proj1 H2) H1) as (Hp1 & Hr1 & Ha1).
  destruct (words_later s p p1 p2 p2 L2 (proj1 H1) ltac:(lia) H2) as (Hp2 & Hr2 & Ha2).
  split_and!; [done|intros x [?|?]%elem_of_app; [by apply Hr1|by apply Hr2]|].
  intros x y [Hx|Hx]%elem_of_app [Hy|Hy]%elem_of_app; [by apply Ha1| | |by apply Ha2].
  - right; left; by apply Hord.
  - right; right; by apply Hord.
Qed.

(** ** Tokens ahead *)
Definition not_first (set : list Z) toks : Prop := truthy (first_char toks) && strchr_c set (first_char toks) = false.
Lemma not_first_nil set : not_first set [].
Proof. done. Qed.

Lemma word_not_first set w toks : (∀ c, strchr_c set c = true → strchr_c symbols c = true) →
  tok_ok (TWord w) → not_first set (TWord w :: toks).
Proof.
  intros Hset [Hne Hw]. destruct w as [|c w]; [done|]. apply Forall_cons in Hw as [(_ & _ & Hy) _].
  unfold not_first. cbn. destruct (strchr_c set c) eqn:E; [|by rewrite andb_false_r]. apply Hset in E. congruence.
Qed.

Lemma peek_no s p es toks set : at_toks s p es toks → not_first set toks →
  ∃ p', peek p es set s = Ok (false, p') s ∧ p ≤ p' ∧ at_toks s p' es toks ∧ (toks = [] → p' = es).
Proof. intros Ha Hn. destruct (peek_ok s p es toks set Ha) as (p' & Hp & H). unfold not_first in Hn. rewrite Hn in Hp. by exists p'. Qed.

Lemma peek_yes s p es t toks set : at_toks s p es (t :: toks) → truthy (first_char (t :: toks)) && strchr_c set (first_char (t :: toks)) = true →
  ∃ p', peek p es set s = Ok (true, p') s ∧ p ≤ p' ∧ at_toks s p' es (t :: toks).
Proof. intros Ha Hn. destruct (peek_ok s p es (t :: toks) set Ha) as (p' & Hp & H1 & H2 & _). rewrite Hn in Hp. by exists p'. Qed.

Lemma gettoken_word s p es w toks : at_toks s p es (TWord w :: toks) →
  ∃ x p', gettoken p es s = Ok (97, sp_q x, sp_e x, p') s ∧ sp_w x = w ∧ at_toks s p' es toks ∧ words_read s p p' [x].
Proof.
  intros Ha. destruct (gettoken_ok s p es (TWord w) toks Ha) as (q & p' & Hg & Hq & He & Ha' & Hs & [Hne Hw] & H0 & Hsz & Hend).
  cbn [tok_text tok_code] in *. exists (mkSpan q (q + Z.of_nat (length w)) w), p'. split_and!; try done; unfold words_read; cbn; split_and!.
  - lia.
  - intros x ->%list_elem_of_singleton. split; cbn; try done. specialize (Hend w eq_refl).
    destruct (Z.eq_dec (q + Z.of_nat (length w)) p'); [right; auto|left; lia].
  - intros x y ->%list_elem_of_singleton ->%list_elem_of_singleton. by left.
Qed.

Lemma gettoken_sym s p es t toks : at_toks s p es (t :: toks) →
  ∃ q e p', gettoken p es s = Ok (tok_code t, q, e, p') s ∧ at_toks s p' es toks ∧ p < p'.
Proof.
  intros Ha. destruct (gettoken_ok s p es t toks Ha) as (q & p' & Hg & Hq & He & Ha' & _ & Ht & _).
  exists q, (q + Z.of_nat (length (tok_text t))), p'. split_and!; try done.
  destruct (tok_head t Ht) as (c & r & E & _). rewrite E in He. cbn in He. lia.
Qed.

Lemma lays_length text toks : lays text toks → (length toks ≤ length text)%nat.
Proof.
  induction 1 as [|ws t text toks Hws Ht Hsep Hl IH]; [cbn; lia|]. destruct (tok_head t Ht) as (c & r & E & _).
  rewrite !length_app, E. cbn [length]. lia.
Qed.
Lemma toks_to_end s p es toks : at_toks s p es toks → (length toks ≤ to_end p es)%nat.
Proof. intros (text & _ & -> & Hl%lays_length). unfold to_end. lia. Qed.

(** ** The line while nodes are allocated *)

(** The rest of the line is in use. *)
Definition lined s bs p es : Prop := ∀ z : Z, p ≤ z ≤ es → inuse s bs z.

Lemma at_toks_same s s' p es toks :
  at_toks s p es toks → (∀ z : Z, p ≤ z ≤ es → rd8 (umem s') z = rd8 (umem s) z) → usz s ≤ usz s' → at_toks s' p es toks.
Proof.
  intros (text & (Hc & Hp & Hl) & Hes & Hlay) Hm Hz. exists text. split_and!; [|done|done]. split_and!; [|done|lia].
  apply cstr_bytes in Hc as (Hb & Hnz & H0). apply cstr_bytes. split_and!; [|done|].
  - rewrite <- Hb at 2. apply read_bytes_ext. intros i Hi. apply Hm. lia.
  - rewrite Hm by lia. done.
Qed.

Lemma words_same s s' p p' L :
  words_read s p p' L → (∀ z : Z, p ≤ z ≤ p' → rd8 (umem s') z = rd8 (umem s) z) → p' < usz s' → words_read s' p p' L.
Proof.
  intros (Hp & Hr & Ha) Hm Hz. split_and!; [done| |done]. intros x Hx. destruct (Hr x Hx) as [Hq Hne Hc Hs He Hsz Hend].
  split; [done|done|done| |done|lia|].
  - unfold spells. rewrite <- Hs at 2. apply read_bytes_ext. intros i Hi. apply Hm. lia.
  - destruct Hend as [?|[E Hend]]; [by left|right]. by rewrite Hm by lia.
Qed.

(** The parser stands at [p], with [toks] before it. *)
Record good s bs p es toks : Prop := {
  gd_ready : ready s bs;
  gd_line : lined s bs p es;
  gd_toks : at_toks s p es toks
}.

Lemma good_end s bs p es toks : good s bs p es toks → 0 ≤ p ≤ es.
Proof. intros [_ _ (text & (_ & Hp & _) & -> & _)]. lia. Qed.

Lemma good_next s bs p es toks p' toks' : good s bs p es toks → p ≤ p' → at_toks s p' es toks' → good s bs p' es toks'.
Proof. intros [Hr Hl _] Hp Ht. split; [done| |done]. intros z Hz. apply Hl. lia. Qed.

Lemma good_ext s bs s' bs' p es toks : good s bs p es toks → ext s bs s' bs' → good s' bs' p es toks.
Proof.
  intros [_ Hl Ht] [Hr' Hz Hs]. split; [done|by intros z Hz'; apply Hs, Hl|]. eapply at_toks_same; [done|by intros z Hz'; apply Hs, Hl|done].
Qed.

(** Words that were read stay where they are. *)
Lemma words_kept s bs s' bs' p p' es L :
  words_read s p p' L → lined s bs p es → p' ≤ es → ext s bs s' bs' → words_read s' p p' L.
Proof.
  intros Hw Hl Hp' [_ _ Hs]. eapply words_same; [done|intros z Hz'; apply Hs, Hl; lia|].
  destruct Hw as [Hp _]. destruct (Hs p' (Hl p' ltac:(lia))) as [(? & _) _]. lia.
Qed.

Lemma word_range s bs p p' x L : 0 ≤ p → ready s bs → words_read s p p' L → x ∈ L → 0 ≤ sp_q x < 2 ^ 32 ∧ 0 ≤ sp_e x < 2 ^ 32.
Proof.
  intros Hp Hr (_ & Hw & _) Hx. destruct (Hw x Hx) as [Hq _ _ _ He Hsz _]. destruct (ready_room _ _ Hr) as (_ & ? & _). lia.
Qed.

(** A command stays as it is while more is allocated. *)
Lemma rep_kept s0 bs0 s bs s' bs' a c :
  rep (umem s) (newly s0 bs0 s bs) a c → ext s bs s' bs' → rep (umem s') (newly s0 bs0 s' bs') a c.
Proof.
  intros Hr He. eapply rep_mono; [|exact Hr]. intros z Hz. split; [by eapply newly_l|]. apply He, Hz.
Qed.
Lemma rep_earlier s0 bs0 s bs s' bs' a c :
  rep (umem s') (newly s bs s' bs') a c → ext s0 bs0 s bs → rep (umem s') (newly s0 bs0 s' bs') a c.
Proof. intros Hr He. eapply rep_mono; [|exact Hr]. intros z Hz. split; [by eapply newly_r|done]. Qed.
Lemma node_earlier s0 bs0 s bs s' bs' a vs :
  node (umem s') (newly s bs s' bs') a vs → ext s0 bs0 s bs → node (umem s') (newly s0 bs0 s' bs') a vs.
Proof. intros Hn He. eapply node_mono; [|exact Hn]. intros z Hz. split; [by eapply newly_r|done]. Qed.

Lemma rep_range s0 bs0 s bs a c : rep (umem s) (newly s0 bs0 s bs) a c → ready s bs → 0 ≤ a < 2 ^ 32.
Proof. intros [Ha [(Hx & _) _]]%rep_node Hr. destruct (ready_room _ _ Hr) as (_ & ? & _). lia. Qed.

(** ** Redirections *)
Fixpoint wrap (c : cmd) (ys : list span) (rs : list redir) : cmd :=
  match ys, rs with
  | y :: ys, r :: rs => wrap (REDIR c (sp_q y) (sp_e y) (redir_mode r) (redir_fd r)) ys rs
  | _, _ => c
  end.

Lemma reps_wrap c d L ys rs : reps c d L → sp_w <$> ys = redir_word <$> rs → reps (wrap c ys rs) (den_redirs d rs) (L ++ ys).
Proof.
  revert c d L rs. induction ys as [|y ys IH]; intros c d L [|r rs] Hr Hw; try done; cbn in *; [by rewrite app_nil_r|].
  injection Hw as E Hw. rewrite cons_middle, app_assoc. apply (IH _ _ (L ++ [y])); [|done]. rewrite <- E. by constructor.
Qed.

Definition redir_words (c : Z) y (r : redir) : list Z := [T_REDIR; c; sp_q y; sp_e y; redir_mode r; redir_fd r].

(** The nodes of redirections [rs], with the file names [ys], from the innermost, around the command at
    [c], to the outermost, at [r']. *)
Fixpoint wraps (m : memory) (R : Z → Prop) (c : Z) (ys : list span) (rs : list redir) (r' : Z) : Prop :=
  match ys, rs with
  | y :: ys, r :: rs => ∃ c1, node m R c1 (redir_words c y r) ∧ wraps m R c1 ys rs r'
  | [], [] => r' = c
  | _, _ => False
  end.

Lemma wraps_mono m m' (R R' : Z → Prop) ys : (∀ z : Z, R z → R' z ∧ rd8 m' z = rd8 m z) → ∀ c rs r',
  wraps m R c ys rs r' → wraps m' R' c ys rs r'.
Proof.
  intros HR. induction ys as [|y ys IH]; intros c [|r rs] r'; cbn [wraps]; [done..|]. intros (c1 & Hn & Hw).
  exists c1. split; [by eapply node_mono|by apply IH].
Qed.

Lemma wraps_app m R ys1 : ∀ c rs1 r1 ys2 rs2 r2,
  wraps m R c ys1 rs1 r1 → wraps m R r1 ys2 rs2 r2 → wraps m R c (ys1 ++ ys2) (rs1 ++ rs2) r2.
Proof.
  induction ys1 as [|y ys1 IH]; intros c [|r rs1] r1 ys2 rs2 r2; cbn [wraps app]; try done; [by intros ->|].
  intros (c1 & Hn & Hw) Hw2. exists c1. split; [done|by eapply IH].
Qed.

Lemma wraps_rep m R ys : ∀ p c rs r', rep m R p c → wraps m R p ys rs r' → rep m R r' (wrap c ys rs).
Proof.
  induction ys as [|y ys IH]; intros p c [|r rs] r' Hc; cbn [wraps wrap]; try done; [by intros ->|].
  intros (c1 & Hn & Hw). eapply IH; [|exact Hw]. by exists p.
Qed.

Lemma wraps_length m R ys : ∀ c rs r', wraps m R c ys rs r' → length ys = length rs.
Proof. induction ys as [|y ys IH]; intros c [|r rs] r'; cbn [wraps length]; try done. intros (c1 & _ & Hw). f_equal. by eapply IH. Qed.

Lemma wraps_range m s0 bs0 s bs ys c rs r' : 0 ≤ c < 2 ^ 32 → wraps m (newly s0 bs0 s bs) c ys rs r' → ready s bs → 0 ≤ r' < 2 ^ 32.
Proof.
  intros Hc Hw Hr. revert c rs Hc Hw. induction ys as [|y ys IH]; intros c [|r rs] Hc; cbn [wraps]; try done; [by intros ->|].
  intros (c1 & (Ha & _ & Hx) & Hw). apply (IH c1 rs); [|done]. destruct (Hx c1) as [(? & _) _]; [cbn; lia|]. destruct (ready_room _ _ Hr) as (_ & ? & _). lia.
Qed.

Lemma redir_kinds r : 0 ≤ redir_mode r < 2 ^ 32 ∧ 0 ≤ redir_fd r < 2 ^ 32.
Proof. by destruct r. Qed.

Lemma parseredirs_ok rs : ∀ fuel c s bs p es toks need,
  good s bs p es (redirs_toks rs ++ toks) → not_first [60; 62] toks → (length rs ≤ fuel)%nat →
  0 ≤ c < 2 ^ 32 → 0 ≤ need → room s bs (units 24 * Z.of_nat (length rs) + need) →
  ∃ ys p' r' s' bs', parseredirs fuel c p es s = Ok (r', p') s' ∧ ext s bs s' bs' ∧ wraps (umem s') (newly s bs s' bs') c ys rs r' ∧
    sp_w <$> ys = redir_word <$> rs ∧ good s' bs' p' es toks ∧ words_read s' p p' ys ∧ room s' bs' need.
Proof.
  induction rs as [|r rs IH]; intros fuel c s bs p es toks need Hg Hn Hf Hc Hneed Hroom.
  - destruct (peek_no s p es toks _ (gd_toks _ _ _ _ _ Hg) Hn) as (p' & Hp & Hle & Ha' & _). exists [], p', c, s, bs.
    split_and!; try done; [|by apply ext_refl, Hg|by eapply good_next|by apply words_nil].
    destruct fuel; cbn [parseredirs]; by rewrite (bind_ok _ _ _ _ _ Hp).
  - destruct fuel as [|fuel]; [cbn in Hf; lia|]. set (w := redir_word r). set (k := match r with Rin _ => TSym 60 | Rout _ => TSym 62 | Rappend _ => TAppend end).
    assert (Hg0 : good s bs p es (k :: TWord w :: redirs_toks rs ++ toks)) by (by destruct r). clear Hg.
    destruct (peek_yes s p es k _ [60; 62] (gd_toks _ _ _ _ _ Hg0) ltac:(by destruct r)) as (p1 & Hp1 & Hle1 & Ha1).
    destruct (gettoken_sym s p1 es _ _ Ha1) as (q2 & e2 & p2 & Hg2 & Ha2 & Hle2).
    destruct (gettoken_word s p2 es _ _ Ha2) as (y & p3 & Hg3 & Hw & Ha3 & Hr3).
    pose proof (good_next _ _ _ _ _ p2 _ Hg0 ltac:(lia) Ha2) as Hgd2. pose proof (good_next _ _ _ _ _ p3 _ Hgd2 (proj1 Hr3) Ha3) as Hgd3.
    destruct (word_range s bs p2 p3 y [y]) as [Hq He]; [apply (good_end _ _ _ _ _ Hgd2)|apply Hgd2|done|by left|].
    destruct (redircmd_ok s bs (units 24 * Z.of_nat (length rs) + need) c (sp_q y) (sp_e y) (redir_mode r) (redir_fd r)) as (c1 & s1 & bs1 & Hrun & Hmade);
      [apply Hg0|unfold units; lia|eapply room_less; [|exact Hroom]; unfold units; cbn [length]; lia|done|done|done|apply redir_kinds|apply redir_kinds|].
    destruct Hmade as (He1 & Hn1 & Hroom1 & Hz1).
    destruct (IH fuel c1 s1 bs1 p3 es toks need (good_ext _ _ _ _ _ _ _ Hgd3 He1) Hn) as (ys & p4 & r' & s2 & bs2 & Hr4 & He2 & Hws & Hw4 & Hg4 & Hwr4 & Hroom2); [cbn in Hf; lia| |done|done|].
    { destruct Hn1 as (? & _ & Hx). destruct (ready_room _ _ (ext_ready _ _ _ _ He1)) as (_ & ? & _). cbn [length] in Hz1. lia. }
    pose proof (ext_trans _ _ _ _ _ _ He1 He2) as He12. exists (y :: ys), p4, r', s2, bs2. split_and!; [|done| |cbn; by rewrite Hw, Hw4|done| |done].
    + cbn [parseredirs]. rewrite (bind_ok _ _ _ _ _ Hp1), (bind_ok _ _ _ _ _ Hg2), (bind_ok _ _ _ _ _ Hg3). cbn [negb Z.eqb Pos.eqb].
      assert (E : ∀ f : Z → U (Z * Z), bind (if tok_code k =? 60 then redircmd c (sp_q y) (sp_e y) O_RDONLY 0
             else if tok_code k =? 62 then redircmd c (sp_q y) (sp_e y) (Z.lor O_WRONLY O_CREATE) 1
             else if tok_code k =? 43 then redircmd c (sp_q y) (sp_e y) (Z.lor O_WRONLY O_CREATE) 1 else ret c) f s = f c1 s1).
      { intros f. destruct r; exact (bind_ok _ _ _ _ _ Hrun). }
      rewrite E. exact Hr4.
    + exists c1. split; [|eapply wraps_mono; [|exact Hws]; intros z Hz; split; [exact (newly_r _ _ _ _ _ _ _ He1 Hz)|done]].
      eapply node_mono; [|exact Hn1]. intros z Hz. split; [exact (newly_l _ _ _ _ _ _ _ He2 Hz)|]. apply He2, Hz.
    + apply (words_app s2 p p3 p4 [y]); [|done]. apply (words_later s2 p p2 p3 p3); [lia|lia|].
      eapply (words_kept s bs); [exact Hr3|apply Hgd2|apply (good_end _ _ _ _ _ Hgd3)|done].
Qed.

Lemma args_cons w rs args : args_toks ((w, rs) :: args) = TWord w :: redirs_toks rs ++ args_toks args.
Proof. done. Qed.

Lemma args_first args toks : (∀ w rs, (w, rs) ∈ args → tok_ok (TWord w)) → ∀ set, (∀ c, strchr_c set c = true → strchr_c symbols c = true) →
  not_first set toks → not_first set (args_toks args ++ toks).
Proof.
  intros Hok set Hset Hn. destruct args as [|[w rs] args]; [done|]. rewrite args_cons. apply word_not_first; [done|].
  apply (Hok w rs). left.
Qed.

Lemma at_toks_ok s p es toks : at_toks s p es toks → Forall tok_ok toks.
Proof. intros (text & _ & _ & Hl). induction Hl; by constructor. Qed.

(** What may follow a command, a pipeline, a line. *)
Definition follows (set : list Z) toks : Prop := toks = [] ∨ ∃ c toks', toks = TSym c :: toks' ∧ strchr_c set c = true.

Lemma follows_not_first set set' toks :
  follows set toks → forallb (λ c, negb (strchr_c set' c)) set = true → not_first set' toks.
Proof.
  intros [->|(c & toks' & -> & Hc)] Hd; [done|]. unfold not_first. cbn. rewrite forallb_forall in Hd.
  assert (Hin : In c set). { unfold strchr_c in Hc. apply existsb_exists in Hc as (y & Hy & E). by apply Z.eqb_eq in E as ->. }
  specialize (Hd c Hin). by destruct (strchr_c set' c), (truthy c).
Qed.

Lemma follows_in set set' toks : follows set toks → forallb (strchr_c set') set = true → follows set' toks.
Proof.
  intros [->|(c & toks' & -> & Hc)] Hd; [by left|right]. exists c, toks'. split; [done|]. rewrite forallb_forall in Hd. apply Hd.
  unfold strchr_c in Hc. apply existsb_exists in Hc as (y & Hy & E). by apply Z.eqb_eq in E as ->.
Qed.

Lemma sub_symbols set : forallb (strchr_c symbols) set = true → ∀ c, strchr_c set c = true → strchr_c symbols c = true.
Proof.
  intros Hd c Hc. rewrite forallb_forall in Hd. apply Hd. unfold strchr_c in Hc. apply existsb_exists in Hc as (y & Hy & E).
  by apply Z.eqb_eq in E as ->.
Qed.

Lemma args_not_first args toks set : Forall tok_ok (args_toks args ++ toks) → forallb (strchr_c symbols) set = true →
  not_first set toks → not_first set (args_toks args ++ toks).
Proof.
  intros Ha Hset Hn. destruct args as [|[w rs] args]; [done|]. rewrite args_cons in *. apply word_not_first; [by apply sub_symbols|].
  by apply Forall_cons in Ha as [? _].
Qed.

Lemma redirs_length rs : (length rs ≤ length (redirs_toks rs))%nat.
Proof.
  induction rs as [|r rs IH]; [done|]. change (redirs_toks (r :: rs)) with (redir_toks r ++ redirs_toks rs).
  rewrite length_app. destruct r; cbn [redir_toks length]; lia.
Qed.

(** *** The node of a simple command *)
Definition exec_words (xs : list span) : list Z :=
  let pad := replicate (10 - length xs) 0 in T_EXEC :: ((sp_q <$> xs) ++ pad) ++ ((sp_e <$> xs) ++ pad).

Lemma exec_words_length xs : (length xs ≤ 10)%nat → length (exec_words xs) = 21%nat.
Proof. intros Hl. unfold exec_words. cbn [length]. rewrite !length_app, !length_fmap, !length_replicate. lia. Qed.

Lemma exec_words_insert xs q e : (length xs < 10)%nat →
  <[S (10 + length xs) := e]> (<[S (length xs) := q]> (exec_words xs)) =
  T_EXEC :: ((sp_q <$> xs) ++ q :: replicate (9 - length xs) 0) ++ ((sp_e <$> xs) ++ e :: replicate (9 - length xs) 0).
Proof.
  intros Hl. unfold exec_words. cbv zeta. replace (10 - length xs)%nat with (S (9 - length xs)) by lia. cbn [replicate].
  assert (E : ∀ (f : span → Z) z l, <[length xs := z]> ((f <$> xs) ++ 0 :: l) = (f <$> xs) ++ z :: l).
  { intros f z l. rewrite <- (length_fmap f xs). by rewrite insert_app_r_alt, Nat.sub_diag by lia. }
  assert (Ec : ∀ i v (u : Z) l, <[S i := v]> (u :: l) = u :: <[i := v]> l) by done. rewrite !Ec. f_equal. rewrite insert_app_l, E by (rewrite length_app, length_fmap; cbn [length]; rewrite length_replicate; lia).
  rewrite insert_app_r_alt by (rewrite length_app, length_fmap; cbn [length]; rewrite length_replicate; lia).
  rewrite length_app, length_fmap. cbn [length]. rewrite length_replicate.
  replace (10 + length xs - (length xs + S (9 - length xs)))%nat with (length xs) by lia. by rewrite E.
Qed.

Lemma exec_words_snoc xs x : (length xs < 10)%nat →
  <[S (10 + length xs) := sp_e x]> (<[S (length xs) := sp_q x]> (exec_words xs)) = exec_words (xs ++ [x]).
Proof.
  intros Hl. rewrite exec_words_insert by done. unfold exec_words. rewrite !length_app, !fmap_app. cbn [length].
  replace (10 - (length xs + 1))%nat with (9 - length xs)%nat by lia. cbn [fmap list_fmap]. by rewrite <- !app_assoc.
Qed.

Lemma exec_words_end xs : (length xs < 10)%nat → <[S (10 + length xs) := 0]> (<[S (length xs) := 0]> (exec_words xs)) = exec_words xs.
Proof.
  intros Hl. rewrite exec_words_insert by done. unfold exec_words. by replace (10 - length xs)%nat with (S (9 - length xs)) by lia.
Qed.

(** While a simple command is read: its node [e], new since [s0], with the words [xs] so far, and the
    redirections around it. *)
Record exec_inv s0 bs0 s bs (e : Z) (xs ys : list span) rs (r : Z) : Prop := {
  ei_ext : ext s0 bs0 s bs;
  ei_pos : 0 < e;
  ei_new z : e ≤ z < e + 84 → newly s0 bs0 s bs z;
  ei_words : words (umem s) e (exec_words xs);
  ei_wraps : wraps (umem s) (λ z, newly s0 bs0 s bs z ∧ (z < e ∨ e + 84 ≤ z)) e ys rs r
}.

Lemma exec_inv_root s0 bs0 s bs e xs ys rs r : exec_inv s0 bs0 s bs e xs ys rs r → 0 ≤ r < 2 ^ 32.
Proof.
  intros [He Hp Hn _ Hw]. apply (wraps_range (umem s) s0 bs0 s bs ys e rs r); [|eapply wraps_mono; [|exact Hw]; by intros z [? _]|apply He].
  destruct (Hn e) as [(? & _) _]; [lia|]. destruct (ready_room _ _ (ext_ready _ _ _ _ He)) as (_ & ? & _). lia.
Qed.

(** More is allocated. *)
Lemma exec_inv_ext s0 bs0 s bs s' bs' e xs ys rs r ys' rs' r' : (length xs ≤ 10)%nat →
  exec_inv s0 bs0 s bs e xs ys rs r → ext s bs s' bs' → wraps (umem s') (newly s bs s' bs') r ys' rs' r' →
  exec_inv s0 bs0 s' bs' e xs (ys ++ ys') (rs ++ rs') r'.
Proof.
  intros Hl [He Hp Hn Hw Hws] He' Hws'. split; [by eapply ext_trans|done|intros z Hz; eapply newly_l; [done|by apply Hn]| |].
  - eapply words_keep; [|exact Hw]. intros z Hz. rewrite exec_words_length in Hz by done. apply He', Hn. lia.
  - eapply wraps_app; (eapply wraps_mono; [|eassumption]).
    + intros z [Hz Ho]. split; [split; [by eapply newly_l|done]|]. apply He', Hz.
    + intros z Hz. split; [|done]. split; [by eapply newly_r|]. destruct (decide (e ≤ z < e + 84)) as [Hin|]; [|lia]. destruct Hz as [_ []]. by apply Hn.
Qed.

Lemma set_arg_ok s0 bs0 s bs e xs xs' ys rs r q eq :
  exec_inv s0 bs0 s bs e xs ys rs r → (length xs < 10)%nat → 0 ≤ q < 2 ^ 32 → 0 ≤ eq < 2 ^ 32 →
  <[S (10 + length xs) := eq]> (<[S (length xs) := q]> (exec_words xs)) = exec_words xs' →
  ∃ s', set_arg e (length xs) q eq s = Ok tt s' ∧ exec_inv s0 bs0 s' bs e xs' ys rs r ∧
    (∀ z : Z, inuse s0 bs0 z → rd8 (umem s') z = rd8 (umem s) z) ∧ usz s' = usz s ∧ uworld s' = uworld s.
Proof.
  intros [He Hp Hn Hw Hws] Hl Hq Heq Hx. pose proof (exec_words_length xs ltac:(lia)) as Hlen.
  assert (Hz : e + 84 ≤ usz s) by (destruct (Hn (e + 83)) as [(? & _) _]; lia).
  set (m1 := wr32 (umem s) (e + 4 + 4 * Z.of_nat (length xs)) q). set (m2 := wr32 m1 (e + 44 + 4 * Z.of_nat (length xs)) eq).
  assert (Hm : ∀ z : Z, z < e ∨ e + 84 ≤ z → rd8 m2 z = rd8 (umem s) z) by (intros z Hz'; unfold m2, m1; rewrite !rd8_wr32_ne by lia; done).
  exists (set_umem m2 s). split_and!; [|split|..]; try done.
  - unfold set_arg. rewrite (bind_ok _ _ _ _ _ (st32_ok (e + 4 + 4 * Z.of_nat (length xs)) q s ltac:(lia) ltac:(lia))). rewrite st32_ok by (cbn; lia). done.
  - eapply ext_writes; [exact He|done|]. intros z Hz'. apply Hm. destruct (decide (e ≤ z < e + 84)); [|lia]. destruct Hz'. by apply Hn.
  - rewrite <- Hx. cbn [umem set_umem]. unfold m2, m1.
    replace (e + 44 + 4 * Z.of_nat (length xs)) with (e + 4 * Z.of_nat (S (10 + length xs))) by lia.
    replace (e + 4 + 4 * Z.of_nat (length xs)) with (e + 4 * Z.of_nat (S (length xs))) by lia.
    apply words_store; [|rewrite length_insert; lia|done]. apply words_store; [done|lia|done].
  - eapply wraps_mono; [|exact Hws]. intros z [Hz' Ho]. split; [done|]. by apply Hm.
  - intros z Hz'. apply Hm. destruct (decide (e ≤ z < e + 84)) as [Hin|]; [|lia]. destruct (Hn z Hin) as [_ []]. done.
Qed.

Lemma good_store s bs s' p es toks :
  good s bs p es toks → ready s' bs → usz s' = usz s → (∀ z : Z, p ≤ z ≤ es → rd8 (umem s') z = rd8 (umem s) z) → good s' bs p es toks.
Proof.
  intros [_ Hl Ht] Hr Hz Hm. split; [done|intros z Hz'; unfold inuse; rewrite Hz; by apply Hl|eapply at_toks_same; [exact Ht|exact Hm|lia]].
Qed.

Lemma room_same s bs s' need : usz s' = usz s → uworld s' = uworld s → room s bs need → room s' bs need.
Proof. intros Hz Hw. unfold room. by rewrite Hz, Hw. Qed.

Lemma exec_loop_end fuel s0 bs0 s bs p es toks e xs ys rs r need :
  exec_inv s0 bs0 s bs e xs ys rs r → (length xs < 10)%nat → lined s0 bs0 p es →
  good s bs p es toks → follows [124; 41; 38; 59] toks → room s bs need →
  ∃ p' s', parseexec_loop (S fuel) e r (length xs) p es s = Ok (r, p') s' ∧ exec_inv s0 bs0 s' bs e xs ys rs r ∧
    p ≤ p' ∧ good s' bs p' es toks ∧ room s' bs need.
Proof.
  intros Hi Hl Hline Hg Hfo Hroom.
  destruct (set_arg_ok s0 bs0 s bs e xs xs ys rs r 0 0 Hi Hl) as (s' & Hset & Hi' & Hm & Hz & Hw); [done|done|by apply exec_words_end|].
  assert (Hfin : ∀ p', p ≤ p' → at_toks s p' es toks → good s' bs p' es toks).
  { intros p' Hp' Ha'. eapply good_store; [by eapply good_next|apply Hi'|done|]. intros z Hz'. apply Hm, Hline. lia. }
  destruct Hfo as [->|(c & toks' & -> & Hc)]; cbn [parseexec_loop].
  - destruct (peek_no s p es [] [124; 41; 38; 59] (gd_toks _ _ _ _ _ Hg) eq_refl) as (p' & Hp & Hle & Ha' & Hend). specialize (Hend eq_refl) as ->.
    exists es, s'. split_and!; [|done|done|by apply Hfin|by eapply room_same]. rewrite (bind_ok _ _ _ _ _ Hp), (bind_ok _ _ _ _ _ (gettoken_end s es es Ha')).
    cbn [Z.eqb]. by rewrite (bind_ok _ _ _ _ _ Hset).
  - assert (Hnz : truthy c = true) by (apply truthy_true; intros ->; by compute in Hc).
    destruct (peek_yes s p es (TSym c) toks' [124; 41; 38; 59] (gd_toks _ _ _ _ _ Hg)) as (p' & Hp & Hle & Ha'); [change (first_char (TSym c :: toks')) with c; by rewrite Hnz, Hc|].
    exists p', s'. split_and!; [|done|done|by apply Hfin|by eapply room_same]. rewrite (bind_ok _ _ _ _ _ Hp). by rewrite (bind_ok _ _ _ _ _ Hset).
Qed.

Lemma parseexec_loop_ok s0 bs0 e es args : ∀ fuel s bs p toks xs ys rs r need,
  exec_inv s0 bs0 s bs e xs ys rs r → lined s0 bs0 p es →
  good s bs p es (args_toks args ++ toks) → follows [124; 41; 38; 59] toks →
  (length xs + length args < 10)%nat → (length args < fuel)%nat → 0 ≤ need →
  room s bs (units 24 * Z.of_nat (length (concat args.*2)) + need) →
  ∃ xs' ys' p' r' s' bs', parseexec_loop fuel e r (length xs) p es s = Ok (r', p') s' ∧
    exec_inv s0 bs0 s' bs' e (xs ++ xs') (ys ++ ys') (rs ++ concat args.*2) r' ∧
    sp_w <$> xs' = args.*1 ∧ sp_w <$> ys' = redir_word <$> concat args.*2 ∧ good s' bs' p' es toks ∧
    words_read s' p p' (xs' ++ ys') ∧ room s' bs' need.
Proof.
  induction args as [|[w rs0] args IH]; intros fuel s bs p toks xs ys rs r need Hi Hline Hg Hfo Hlen Hf Hneed Hroom; (destruct fuel as [|fuel]; [cbn in Hf; lia|]).
  - destruct (exec_loop_end fuel s0 bs0 s bs p es toks e xs ys rs r need) as (p' & s' & Hp & Hi' & Hle & Hg' & Hroom'); try done; [lia|].
    exists [], [], p', r, s', bs. split_and!; try done; [|by apply words_nil]. by rewrite !app_nil_r.
  - rewrite args_cons in Hg. cbn [length app] in *. rewrite <- app_assoc in Hg. cbn [fmap list_fmap snd concat] in Hroom. rewrite length_app in Hroom.
    pose proof (at_toks_ok _ _ _ _ (gd_toks _ _ _ _ _ Hg)) as Hok. apply Forall_cons in Hok as [Hokw Hok].
    destruct (peek_no s p es _ [124; 41; 38; 59] (gd_toks _ _ _ _ _ Hg)) as (p1 & Hp1 & Hle1 & Ha1 & _); [by apply word_not_first; [apply sub_symbols|]|].
    destruct (gettoken_word s p1 es w _ Ha1) as (x & p2 & Hg2 & Hw & Ha2 & Hr2).
    pose proof (good_next _ _ _ _ _ p1 _ Hg Hle1 Ha1) as Hgd1. pose proof (good_next _ _ _ _ _ p2 _ Hgd1 (proj1 Hr2) Ha2) as Hgd2.
    destruct (word_range s bs p1 p2 x [x]) as [Hq He]; [apply (good_end _ _ _ _ _ Hgd1)|apply Hgd1|done|by left|].
    destruct (set_arg_ok s0 bs0 s bs e xs (xs ++ [x]) ys rs r (sp_q x) (sp_e x) Hi) as (s1 & Hset & Hi1 & Hm1 & Hz1 & Hw1);
      [lia|done|done|apply exec_words_snoc; lia|].
    assert (Hgd2' : good s1 bs p2 es (redirs_toks rs0 ++ args_toks args ++ toks)).
    { eapply good_store; [exact Hgd2|apply Hi1|done|]. intros z Hz. apply Hm1, Hline. destruct Hr2 as [? _]. lia. }
    pose proof (toks_to_end _ _ _ _ (gd_toks _ _ _ _ _ Hgd2')) as Hte.
    destruct (parseredirs_ok rs0 (to_end p2 es) r s1 bs p2 es _ (units 24 * Z.of_nat (length (concat args.*2)) + need) Hgd2')
      as (ys0 & p3 & r3 & s3 & bs3 & Hr3 & He3 & Hws3 & Hw3 & Hg3 & Hwr3 & Hroom3).
    { apply args_not_first; [by apply Forall_app in Hok as [_ ?]|done|by eapply follows_not_first]. }
    { pose proof (redirs_length rs0). rewrite length_app in Hte. lia. }
    { by eapply exec_inv_root. }
    { unfold units. lia. }
    { eapply room_same; [done|done|]. eapply room_less; [|exact Hroom]. lia. }
    assert (Hlx : (length (xs ++ [x]) ≤ 10)%nat) by (rewrite length_app; cbn; lia).
    pose proof (exec_inv_ext _ _ _ _ _ _ _ _ _ _ _ _ _ _ Hlx Hi1 He3 Hws3) as Hi3.
    assert (Hr2' : words_read s3 p1 p2 [x]).
    { eapply (words_kept s1 bs); [|intros z Hz; unfold inuse; rewrite Hz1; by apply Hgd1|apply (good_end _ _ _ _ _ Hgd2)|done].
      eapply words_same; [exact Hr2|intros z Hz; apply Hm1, Hline; pose proof (good_end _ _ _ _ _ Hgd2); lia|]. rewrite Hz1.
      destruct (gd_line _ _ _ _ _ Hgd2 p2) as (? & _); [pose proof (good_end _ _ _ _ _ Hgd2); lia|lia]. }
    destruct (IH fuel s3 bs3 p3 toks (xs ++ [x]) (ys ++ ys0) (rs ++ rs0) r3 need Hi3) as (xs' & ys' & p4 & r4 & s4 & bs4 & Hr4 & Hi4 & Hx4 & Hy4 & Hg4 & Hwr4 & Hroom4); try done.
    { intros z Hz. apply Hline. destruct Hr2 as [? _], Hwr3 as [? _]. lia. }
    { rewrite length_app. cbn. lia. }
    { lia. }
    assert (Hk : ∀ L, words_read s3 p p3 L → words_read s4 p p3 L). { intros L HL. eapply words_same; [exact HL| |].
      - intros z Hz. pose proof (good_end _ _ _ _ _ Hg3). rewrite (proj2 (ext_same _ _ _ _ (ei_ext _ _ _ _ _ _ _ _ _ Hi4) z (Hline z ltac:(lia)))).
        by rewrite (proj2 (ext_same _ _ _ _ (ei_ext _ _ _ _ _ _ _ _ _ Hi3) z (Hline z ltac:(lia)))).
      - pose proof (good_end _ _ _ _ _ Hg3). destruct HL as [? _].
        destruct (ext_same _ _ _ _ (ei_ext _ _ _ _ _ _ _ _ _ Hi4) p3 (Hline p3 ltac:(lia))) as [(? & _) _]. lia. }
    exists (x :: xs'), (ys0 ++ ys'), p4, r4, s4, bs4. split_and!; [| |cbn; by rewrite Hw, Hx4|cbn; by rewrite !fmap_app, Hw3, Hy4|done| |done].
    + cbn [parseexec_loop]. rewrite (bind_ok _ _ _ _ _ Hp1), (bind_ok _ _ _ _ _ Hg2). cbn [Z.eqb Pos.eqb negb].
      rewrite (bind_ok _ _ _ _ _ Hset). cbv zeta. rewrite (proj2 (Z.leb_gt _ _)) by (unfold MAXARGS; lia).
      rewrite (bind_ok _ _ _ _ _ Hr3). replace (S (length xs)) with (length (xs ++ [x])) by (rewrite length_app; cbn; lia). exact Hr4.
    + cbn [fmap list_fmap snd concat]. by rewrite <- !app_assoc in Hi4.
    + pose proof (words_later s3 p p1 p2 p2 _ Hle1 ltac:(lia) Hr2') as H1. pose proof (Hk _ (words_app _ _ _ _ _ _ H1 Hwr3)) as H2.
      pose proof (words_app _ _ _ _ _ _ H2 Hwr4) as H3. eapply words_ext; [|exact H3]. intros y. rewrite !elem_of_app, !elem_of_cons. tauto.
Qed.

(** ** Lines, pipelines, blocks *)
Lemma lined_ext s bs s' bs' p es : lined s bs p es → ext s bs s' bs' → lined s' bs' p es.
Proof. intros Hl He z Hz. by apply He, Hl. Qed.

Lemma back_loop_ok n : ∀ fuel a c s0 bs0 s bs p es toks need,
  ext s0 bs0 s bs → rep (umem s) (newly s0 bs0 s bs) a c →
  good s bs p es (replicate n (TSym 38) ++ toks) → not_first [38] toks → (n ≤ fuel)%nat → 0 ≤ need → room s bs (units 8 * Z.of_nat n + need) →
  ∃ a' p' s' bs', back_loop fuel a p es s = Ok (a', p') s' ∧ ext s bs s' bs' ∧ rep (umem s') (newly s0 bs0 s' bs') a' (Nat.iter n BACK c) ∧
    good s' bs' p' es toks ∧ p ≤ p' ∧ room s' bs' need.
Proof.
  induction n as [|n IH]; intros fuel a c s0 bs0 s bs p es toks need He Hc Hg Hn Hf Hneed Hroom.
  - destruct (peek_no s p es toks [38] (gd_toks _ _ _ _ _ Hg) Hn) as (p' & Hp & Hle & Ha' & _). exists a, p', s, bs.
    split_and!; try done; [|by apply ext_refl, Hg|by eapply good_next]. destruct fuel; cbn [back_loop]; by rewrite (bind_ok _ _ _ _ _ Hp).
  - destruct fuel as [|fuel]; [lia|]. cbn [replicate app] in Hg.
    destruct (peek_yes s p es (TSym 38) _ [38] (gd_toks _ _ _ _ _ Hg) eq_refl) as (p1 & Hp1 & Hle1 & Ha1).
    destruct (gettoken_sym s p1 es _ _ Ha1) as (q2 & e2 & p2 & Hg2 & Ha2 & Hle2).
    destruct (backcmd_ok s bs (units 8 * Z.of_nat n + need) a) as (a1 & s1 & bs1 & Hrun & He1 & Hn1 & Hroom1 & _);
      [apply Hg|unfold units; lia|eapply room_less; [|exact Hroom]; unfold units; lia|eapply rep_range; [exact Hc|apply Hg]|].
    destruct (IH fuel a1 (BACK c) s0 bs0 s1 bs1 p2 es toks need) as (a' & p3 & s2 & bs2 & Hr3 & He3 & Hrep3 & Hg3 & Hle3 & Hroom3); try done.
    { by eapply ext_trans. }
    { exists a. split; [by eapply node_earlier|by eapply rep_kept]. }
    { eapply good_ext; [|exact He1]. eapply good_next; [exact Hg|lia|done]. }
    { lia. }
    exists a', p3, s2, bs2. split_and!; [|by eapply ext_trans|by rewrite Nat.iter_succ_r|done|lia|done].
    cbn [back_loop]. rewrite (bind_ok _ _ _ _ _ Hp1), (bind_ok _ _ _ _ _ Hg2), (bind_ok _ _ _ _ _ Hrun). exact Hr3.
Qed.

Lemma reps_backs n c d L : reps c d L → reps (Nat.iter n BACK c) (Nat.iter n DBACK d) L.
Proof. intros Hr. induction n as [|n IH]; [done|]. by constructor. Qed.

Lemma simple_not_first rs args toks set :
  Forall tok_ok (args_toks args ++ toks) → forallb (strchr_c symbols) set = true → strchr_c set 60 = false → strchr_c set 62 = false →
  not_first set toks → not_first set (redirs_toks rs ++ args_toks args ++ toks).
Proof.
  intros Hok Hset H60 H62 Hn. destruct rs as [|r rs]; [by apply args_not_first|].
  destruct r; unfold not_first; [change (first_char _) with 60; rewrite H60|change (first_char _) with 62; rewrite H62..]; apply andb_false_r.
Qed.

(** The headers that the nodes of a command take. *)
Fixpoint cost (d : dcmd) : Z :=
  match d with
  | DEXEC _ => units 84
  | DREDIR d _ _ _ => cost d + units 24
  | DPIPE l r | DLIST l r => cost l + cost r + units 12
  | DBACK d => cost d + units 8
  end.

Lemma cost_pos d : 0 ≤ cost d.
Proof. unfold units in *. induction d; cbn [cost]; unfold units; lia. Qed.

Lemma cost_redirs rs : ∀ d, cost (den_redirs d rs) = cost d + units 24 * Z.of_nat (length rs).
Proof. induction rs as [|r rs IH]; intros d; [cbn; lia|]. change (den_redirs d (r :: rs)) with (den_redirs (DREDIR d (redir_word r) (redir_mode r) (redir_fd r)) rs). rewrite IH. cbn [cost length]. lia. Qed.

Lemma cost_backs n d : cost (Nat.iter n DBACK d) = cost d + units 8 * Z.of_nat n.
Proof. induction n as [|n IH]; [cbn; lia|]. cbn [Nat.iter nat_rect cost]. change (nat_rect _ d (λ _, DBACK) n) with (Nat.iter n DBACK d). rewrite IH. lia. Qed.

(** The result of parsing a phrase: the command is in new nodes, and the room that is not for it is left. *)
Definition parsed (r : outcome uerr (ustate W) (Z * Z)) s bs p es (d : dcmd) toks (need : Z) : Prop :=
  ∃ a c L p' s' bs', r = Ok (a, p') s' ∧ ext s bs s' bs' ∧ rep (umem s') (newly s bs s' bs') a c ∧ reps c d L ∧
    good s' bs' p' es toks ∧ words_read s' p p' L ∧ room s' bs' need.

Lemma parse_simple f s bs p es toks rs args need :
  good s bs p es (exec_toks (SSimple rs args) ++ toks) → follows [124; 38; 59; 41] toks → (length args < 10)%nat → (0 < f)%nat →
  0 ≤ need → room s bs (cost (den_exec (SSimple rs args)) + need) →
  parsed (parseexec f p es s) s bs p es (den_exec (SSimple rs args)) toks need.
Proof.
  intros Hg Hfo Hfit Hf Hneed Hroom. destruct f as [|f]; [lia|]. cbn [exec_toks] in Hg. rewrite <- app_assoc in Hg.
  cbn [den_exec] in Hroom. rewrite cost_redirs, length_app in Hroom. cbn [cost] in Hroom.
  pose proof (at_toks_ok _ _ _ _ (gd_toks _ _ _ _ _ Hg)) as Hok. apply Forall_app in Hok as [_ Hok].
  destruct (peek_no s p es _ [40] (gd_toks _ _ _ _ _ Hg)) as (p1 & Hp1 & Hle1 & Ha1 & _).
  { apply simple_not_first; try done. by eapply follows_not_first. }
  pose proof (good_next _ _ _ _ _ p1 _ Hg Hle1 Ha1) as Hg1.
  destruct (execcmd_ok s bs (units 24 * Z.of_nat (length rs + length (concat args.*2)) + need)) as (e & s1 & bs1 & Hrun & He1 & (Hpos & Hw & Hnew) & Hroom1 & Hz1);
    [apply Hg|unfold units; lia|eapply room_less; [|exact Hroom]; lia|].
  assert (Hi1 : exec_inv s bs s1 bs1 e [] [] [] e) by (split; [exact He1|exact Hpos|exact Hnew|exact Hw|reflexivity]).
  pose proof (good_ext _ _ _ _ _ _ _ Hg1 He1) as Hg1'.
  pose proof (toks_to_end _ _ _ _ Ha1) as Hte. rewrite !length_app in Hte. pose proof (redirs_length rs) as Hrl.
  destruct (parseredirs_ok rs (to_end p1 es) e s1 bs1 p1 es _ (units 24 * Z.of_nat (length (concat args.*2)) + need) Hg1')
    as (ys & p2 & r2 & s2 & bs2 & Hr2 & He2 & Hws2 & Hw2 & Hg2 & Hwr2 & Hroom2).
  { apply args_not_first; [done|done|by eapply follows_not_first]. }
  { lia. }
  { by eapply exec_inv_root. }
  { unfold units. lia. }
  { eapply room_less; [|exact Hroom1]. unfold units. lia. }
  pose proof (exec_inv_ext s bs s1 bs1 s2 bs2 e [] [] [] e ys rs r2 (Nat.le_0_l 10) Hi1 He2 Hws2) as Hi2. cbn [app] in Hi2.
  pose proof (toks_to_end _ _ _ _ (gd_toks _ _ _ _ _ Hg2)) as Hte2. rewrite !length_app in Hte2.
  assert (Hal : (length args ≤ length (args_toks args))%nat).
  { clear. induction args as [|[w rs] args IH]; [done|]. rewrite args_cons. cbn [length]. rewrite length_app. lia. }
  assert (Hline : lined s bs p1 es) by apply Hg1.
  destruct (parseexec_loop_ok s bs e es args (S (to_end p2 es)) s2 bs2 p2 toks [] ys rs r2 need Hi2) as (xs & ys' & p3 & r3 & s3 & bs3 & Hr3 & Hi3 & Hx3 & Hy3 & Hg3 & Hwr3 & Hroom3);
    try done; [intros z Hz; apply Hline; destruct Hwr2 as [? _]; lia|by eapply follows_in|lia|].
  exists r3, (wrap (exec_of xs) (ys ++ ys') (rs ++ concat args.*2)), (xs ++ ys ++ ys'), p3, s3, bs3.
  cbn [app] in Hi3. assert (Hlen : (length xs < 10)%nat) by (apply (f_equal length) in Hx3; rewrite !length_fmap in Hx3; lia).
  split_and!; [|apply Hi3| | |done| |done].
  - cbn [parseexec]. rewrite (bind_ok _ _ _ _ _ Hp1), (bind_ok _ _ _ _ _ Hrun), (bind_ok _ _ _ _ _ Hr2). exact Hr3.
  - destruct Hi3 as [_ Hp3 Hn3 Hw3 Hws3]. apply (wraps_rep _ _ _ e).
    + unfold exec_of. cbn [rep]. rewrite !length_app, !length_fmap, length_replicate. split_and!; [lia|lia|]. split_and!; [done|exact Hw3|].
      change (T_EXEC :: _) with (exec_words xs). rewrite exec_words_length by lia. exact Hn3.
    + eapply wraps_mono; [|exact Hws3]. by intros z [? _].
  - cbn [den_exec]. apply reps_wrap; [|by rewrite !fmap_app, Hw2, Hy3]. rewrite <- Hx3. by constructor.
  - assert (Hwr2' : words_read s3 p1 p2 ys).
    { eapply words_same; [exact Hwr2| |].
      - intros z Hz. pose proof (good_end _ _ _ _ _ Hg2). rewrite (proj2 (ext_same _ _ _ _ (ei_ext _ _ _ _ _ _ _ _ _ Hi3) z (Hline z ltac:(lia)))).
        by rewrite (proj2 (ext_same _ _ _ _ (ei_ext _ _ _ _ _ _ _ _ _ Hi2) z (Hline z ltac:(lia)))).
      - pose proof (good_end _ _ _ _ _ Hg2). destruct Hwr2 as [? _].
        destruct (ext_same _ _ _ _ (ei_ext _ _ _ _ _ _ _ _ _ Hi3) p2 (Hline p2 ltac:(lia))) as [(? & _) _]. lia. }
    pose proof (words_app _ _ _ _ _ _ Hwr2' Hwr3) as H1. apply (words_later _ p _ p3 p3) in H1; [|lia|lia].
    eapply words_ext; [|exact H1]. intros y. rewrite !elem_of_app. tauto.
Qed.

Definition line_spec (l : sline) : Prop := ∀ f s bs p es toks need,
  good s bs p es (line_toks l ++ toks) → follows [41] toks → line_fits l → (4 * length (line_toks l) + 3 ≤ f)%nat →
  0 ≤ need → room s bs (cost (den_line l) + need) → parsed (parseline f p es s) s bs p es (den_line l) toks need.
Definition pipe_spec (l : spipe) : Prop := ∀ f s bs p es toks need,
  good s bs p es (pipe_toks l ++ toks) → follows [38; 59; 41] toks → pipe_fits l → (4 * length (pipe_toks l) + 2 ≤ f)%nat →
  0 ≤ need → room s bs (cost (den_pipe l) + need) → parsed (parsepipe f p es s) s bs p es (den_pipe l) toks need.
Definition exec_spec (e : sexec) : Prop := ∀ f s bs p es toks need,
  good s bs p es (exec_toks e ++ toks) → follows [124; 38; 59; 41] toks → exec_fits e → (4 * length (exec_toks e) + 1 ≤ f)%nat →
  0 ≤ need → room s bs (cost (den_exec e) + need) → parsed (parseexec f p es s) s bs p es (den_exec e) toks need.

(** A line in parentheses. *)
Lemma parse_block l rs : line_spec l → exec_spec (SBlock l rs).
Proof.
  intros IH f s bs p es toks need Hg Hfo Hfit Hf Hneed Hroom. cbn [exec_toks] in *. cbn [length app] in *. rewrite <- app_assoc in Hg. cbn [app] in Hg.
  cbn [den_exec] in Hroom. rewrite cost_redirs in Hroom. rewrite length_app in Hf. cbn [length] in Hf. destruct f as [|[|f]]; [lia|lia|].
  destruct (peek_yes s p es (TSym 40) _ [40] (gd_toks _ _ _ _ _ Hg) eq_refl) as (p1 & Hp1 & Hle1 & Ha1).
  destruct (peek_yes s p1 es (TSym 40) _ [40] Ha1 eq_refl) as (p2 & Hp2 & Hle2 & Ha2).
  destruct (gettoken_sym s p2 es _ _ Ha2) as (q3 & e3 & p3 & Hg3 & Ha3 & Hle3).
  destruct (IH f s bs p3 es _ (units 24 * Z.of_nat (length rs) + need) (good_next _ _ _ _ _ p3 _ Hg ltac:(lia) Ha3)) as (a & c & L & p4 & s4 & bs4 & Hr4 & He4 & Hrep4 & Hreps & Hg4 & Hw4 & Hroom4);
    [right; by eexists _, _|done|lia|unfold units; lia|eapply room_less; [|exact Hroom]; lia|].
  destruct (peek_yes s4 p4 es (TSym 41) _ [41] (gd_toks _ _ _ _ _ Hg4) eq_refl) as (p5 & Hp5 & Hle5 & Ha5).
  destruct (gettoken_sym s4 p5 es _ _ Ha5) as (q6 & e6 & p6 & Hg6 & Ha6 & Hle6).
  pose proof (good_next _ _ _ _ _ p6 _ Hg4 ltac:(lia) Ha6) as Hgd6.
  pose proof (toks_to_end _ _ _ _ Ha6) as Hte. rewrite length_app in Hte. pose proof (redirs_length rs).
  destruct (parseredirs_ok rs (to_end p6 es) a s4 bs4 p6 es toks need Hgd6) as (ys & p7 & r7 & s7 & bs7 & Hr7 & He7 & Hws7 & Hw7 & Hg7 & Hwr7 & Hroom7);
    [by eapply follows_not_first|lia|eapply rep_range; [exact Hrep4|apply Hg4]|done|done|].
  exists r7, (wrap c ys rs), (L ++ ys), p7, s7, bs7. split_and!; [|by eapply ext_trans| |by apply reps_wrap|done| |done].
  - cbn [parseexec parseblock]. rewrite (bind_ok _ _ _ _ _ Hp1), (bind_ok _ _ _ _ _ Hp2). cbn [negb].
    rewrite (bind_ok _ _ _ _ _ Hg3), (bind_ok _ _ _ _ _ Hr4), (bind_ok _ _ _ _ _ Hp5). cbn [negb].
    rewrite (bind_ok _ _ _ _ _ Hg6). exact Hr7.
  - apply (wraps_rep _ _ _ a); [by eapply rep_kept|]. eapply wraps_mono; [|exact Hws7]. intros z Hz. split; [exact (newly_r _ _ _ _ _ _ _ He4 Hz)|done].
  - apply (words_app s7 p p6); [|done]. apply (words_later s7 p p3 p4 p6); [lia|lia|].
    eapply (words_kept s4 bs4 _ _ _ _ es); [exact Hw4|eapply (lined_ext s bs); [|exact He4]; intros z Hz; apply (gd_line _ _ _ _ _ Hg); lia|apply (good_end _ _ _ _ _ Hg4)|done].
Qed.

(** A node with two commands, one parsed after the other. *)
Lemma rep_two s bs s1 bs1 s2 bs2 s3 bs3 a c a2 c2 a3 tag need :
  ext s bs s1 bs1 → ext s1 bs1 s2 bs2 → made s2 bs2 s3 bs3 need a3 [tag; a; a2] →
  rep (umem s1) (newly s bs s1 bs1) a c → rep (umem s2) (newly s1 bs1 s2 bs2) a2 c2 →
  ext s bs s3 bs3 ∧ node (umem s3) (newly s bs s3 bs3) a3 [tag; a; a2] ∧
  rep (umem s3) (newly s bs s3 bs3) a c ∧ rep (umem s3) (newly s bs s3 bs3) a2 c2.
Proof.
  intros He1 He2 (He3 & Hn & _) Hc1 Hc2. pose proof (ext_trans _ _ _ _ _ _ He1 He2) as He12. split_and!.
  - by eapply ext_trans.
  - by eapply node_earlier.
  - exact (rep_kept _ _ _ _ _ _ _ _ Hc1 (ext_trans _ _ _ _ _ _ He2 He3)).
  - exact (rep_kept _ _ _ _ _ _ _ _ (rep_earlier _ _ _ _ _ _ _ _ Hc2 He1) He3).
Qed.

Lemma parse_pipe e l : exec_spec e → pipe_spec l → pipe_spec (SBar e l).
Proof.
  intros IHe IHl f s bs p es toks need Hg Hfo [He Hl] Hf Hneed Hroom. cbn [pipe_toks] in *. rewrite <- app_assoc in Hg. cbn [app] in Hg.
  cbn [den_pipe cost] in Hroom. rewrite length_app in Hf. cbn [length] in Hf. destruct f as [|f]; [lia|]. pose proof (cost_pos (den_pipe l)) as Hcl.
  destruct (IHe f s bs p es _ (cost (den_pipe l) + (units 12 + need)) Hg) as (a & c & L & p1 & s1 & bs1 & Hr1 & He1 & Hrep1 & Hreps1 & Hg1 & Hw1 & Hroom1);
    [right; by eexists _, _|done|lia|unfold units; lia|eapply room_less; [|exact Hroom]; lia|].
  destruct (peek_yes s1 p1 es (TSym 124) _ [124] (gd_toks _ _ _ _ _ Hg1) eq_refl) as (p2 & Hp2 & Hle2 & Ha2).
  destruct (gettoken_sym s1 p2 es _ _ Ha2) as (q3 & e3 & p3 & Hg3 & Ha3 & Hle3).
  destruct (IHl f s1 bs1 p3 es _ (units 12 + need) (good_next _ _ _ _ _ p3 _ Hg1 ltac:(lia) Ha3) Hfo Hl) as (a2 & c2 & L2 & p4 & s4 & bs4 & Hr4 & He4 & Hrep4 & Hreps4 & Hg4 & Hw4 & Hroom4);
    [lia|unfold units; lia|done|].
  destruct (pipecmd_ok s4 bs4 need a a2) as (a5 & s5 & bs5 & Hr5 & Hm5); [apply Hg4|done|done| |eapply rep_range; [exact Hrep4|apply Hg4]|].
  { eapply rep_range; [exact Hrep1|apply Hg1]. }
  destruct (rep_two _ _ _ _ _ _ _ _ _ _ _ _ _ _ _ He1 He4 Hm5 Hrep1 Hrep4) as (He5 & Hn5 & Hc5 & Hd5). destruct Hm5 as (He45 & _ & Hroom5 & _).
  exists a5, (PIPE c c2), (L ++ L2), p4, s5, bs5. split_and!; [|done|by exists a, a2|by constructor|by eapply good_ext| |done].
  - cbn [parsepipe]. rewrite (bind_ok _ _ _ _ _ Hr1), (bind_ok _ _ _ _ _ Hp2), (bind_ok _ _ _ _ _ Hg3), (bind_ok _ _ _ _ _ Hr4). by rewrite (bind_ok _ _ _ _ _ Hr5).
  - apply (words_app s5 p p3).
    + apply (words_later s5 p p p1 p3); [lia|lia|]. eapply (words_kept s1 bs1 _ _ _ _ es); [exact Hw1|eapply (lined_ext s bs); [apply Hg|done]|apply (good_end _ _ _ _ _ Hg1)|by eapply ext_trans].
    + eapply (words_kept s4 bs4 _ _ _ _ es); [exact Hw4| |apply (good_end _ _ _ _ _ Hg4)|done].
      eapply (lined_ext s1 bs1); [|exact He4]. intros z Hz. apply (gd_line _ _ _ _ _ Hg1). lia.
Qed.

Lemma parse_one e : exec_spec e → pipe_spec (SOne e).
Proof.
  intros IHe f s bs p es toks need Hg Hfo He Hf Hneed Hroom. cbn [pipe_toks] in *. destruct f as [|f]; [lia|].
  destruct (IHe f s bs p es _ need Hg) as (a & c & L & p1 & s1 & bs1 & Hr1 & He1 & Hrep1 & Hreps1 & Hg1 & Hw1 & Hroom1); [by eapply follows_in|done|lia|done|done|].
  destruct (peek_no s1 p1 es toks [124] (gd_toks _ _ _ _ _ Hg1)) as (p2 & Hp2 & Hle2 & Ha2 & _); [by eapply follows_not_first|].
  exists a, c, L, p2, s1, bs1. split_and!; [|done|done|done|by eapply good_next|apply (words_later s1 p p p1 p2); [lia|lia|done]|done].
  cbn [parsepipe]. by rewrite (bind_ok _ _ _ _ _ Hr1), (bind_ok _ _ _ _ _ Hp2).
Qed.

Lemma follows_backs n toks set : follows set toks → strchr_c set 38 = true → follows set (replicate n (TSym 38) ++ toks).
Proof. intros Hf H38. destruct n as [|n]; [done|]. right. by eexists _, _. Qed.

(** A pipeline and its [&]s. *)
Lemma parse_backs l n f s bs p es toks need : pipe_spec l →
  good s bs p es (pipe_toks l ++ replicate n (TSym 38) ++ toks) → follows [59; 41] toks → pipe_fits l → (4 * length (pipe_toks l) + 2 ≤ f)%nat →
  0 ≤ need → room s bs (cost (Nat.iter n DBACK (den_pipe l)) + need) →
  parsed (('(c, s) ← parsepipe f p es; back_loop (to_end s es) c s es) s) s bs p es (Nat.iter n DBACK (den_pipe l)) toks need.
Proof.
  intros IH Hg Hfo Hfit Hf Hneed Hroom. rewrite cost_backs in Hroom.
  destruct (IH f s bs p es _ (units 8 * Z.of_nat n + need) Hg) as (a & c & L & p1 & s1 & bs1 & Hr1 & He1 & Hrep1 & Hreps1 & Hg1 & Hw1 & Hroom1);
    [apply follows_backs; [by eapply follows_in|done]|done|done|unfold units; lia|eapply room_less; [|exact Hroom]; lia|].
  pose proof (toks_to_end _ _ _ _ (gd_toks _ _ _ _ _ Hg1)) as Hte. rewrite length_app, length_replicate in Hte.
  destruct (back_loop_ok n (to_end p1 es) a c s bs s1 bs1 p1 es toks need He1 Hrep1 Hg1) as (a2 & p2 & s2 & bs2 & Hr2 & He2 & Hrep2 & Hg2 & Hle2 & Hroom2);
    [by eapply follows_not_first|lia|done|done|].
  exists a2, (Nat.iter n BACK c), L, p2, s2, bs2. split_and!; [|by eapply ext_trans|done|by apply reps_backs|done| |done].
  - rewrite (bind_ok _ _ _ _ _ Hr1). exact Hr2.
  - apply (words_later s2 p p p1 p2); [lia|lia|].
    eapply (words_kept s1 bs1 _ _ _ _ es); [exact Hw1|eapply (lined_ext s bs); [apply Hg|done]|apply (good_end _ _ _ _ _ Hg1)|done].
Qed.

Lemma parse_end l n : pipe_spec l → line_spec (SEnd l n).
Proof.
  intros IH f s bs p es toks need Hg Hfo Hfit Hf Hneed Hroom. cbn [line_toks] in *. rewrite <- app_assoc in Hg. rewrite length_app in Hf. destruct f as [|f]; [lia|].
  destruct (parse_backs l n f s bs p es toks need IH Hg) as (a & c & L & p1 & s1 & bs1 & Hr1 & He1 & Hrep1 & Hreps1 & Hg1 & Hw1 & Hroom1); [by eapply follows_in|done|lia|done|done|].
  destruct (peek_no s1 p1 es toks [59] (gd_toks _ _ _ _ _ Hg1)) as (p2 & Hp2 & Hle2 & Ha2 & _); [by eapply follows_not_first|].
  exists a, c, L, p2, s1, bs1. split_and!; [|done|done|done|by eapply good_next|apply (words_later s1 p p p1 p2); [lia|lia|done]|done].
  apply bind_ok_inv in Hr1 as ([c0 p0] & s0 & H1 & H2).
  cbn [parseline]. rewrite (bind_ok _ _ _ _ _ H1), (bind_ok _ _ _ _ _ H2). by rewrite (bind_ok _ _ _ _ _ Hp2).
Qed.

Lemma parse_seq l n r : pipe_spec l → line_spec r → line_spec (SSeq l n r).
Proof.
  intros IH IHr f s bs p es toks need Hg Hfo [Hl Hr] Hf Hneed Hroom. cbn [line_toks] in *. rewrite <- !app_assoc in Hg. cbn [app] in Hg.
  cbn [den_line cost] in Hroom. rewrite !length_app in Hf. cbn [length] in Hf. destruct f as [|f]; [lia|]. pose proof (cost_pos (den_line r)) as Hcr.
  destruct (parse_backs l n f s bs p es _ (cost (den_line r) + (units 12 + need)) IH Hg) as (a & c & L & p1 & s1 & bs1 & Hr1 & He1 & Hrep1 & Hreps1 & Hg1 & Hw1 & Hroom1);
    [right; by eexists _, _|done|lia|unfold units; lia|eapply room_less; [|exact Hroom]; lia|].
  destruct (peek_yes s1 p1 es (TSym 59) _ [59] (gd_toks _ _ _ _ _ Hg1) eq_refl) as (p2 & Hp2 & Hle2 & Ha2).
  destruct (gettoken_sym s1 p2 es _ _ Ha2) as (q3 & e3 & p3 & Hg3 & Ha3 & Hle3).
  destruct (IHr f s1 bs1 p3 es toks (units 12 + need) (good_next _ _ _ _ _ p3 _ Hg1 ltac:(lia) Ha3) Hfo Hr) as (a2 & c2 & L2 & p4 & s4 & bs4 & Hr4 & He4 & Hrep4 & Hreps4 & Hg4 & Hw4 & Hroom4);
    [lia|unfold units; lia|done|].
  destruct (listcmd_ok s4 bs4 need a a2) as (a5 & s5 & bs5 & Hr5 & Hm5); [apply Hg4|done|done| |eapply rep_range; [exact Hrep4|apply Hg4]|].
  { eapply rep_range; [exact Hrep1|apply Hg1]. }
  destruct (rep_two _ _ _ _ _ _ _ _ _ _ _ _ _ _ _ He1 He4 Hm5 Hrep1 Hrep4) as (He5 & Hn5 & Hc5 & Hd5). destruct Hm5 as (He45 & _ & Hroom5 & _).
  exists a5, (LIST c c2), (L ++ L2), p4, s5, bs5. split_and!; [|done|by exists a, a2|by constructor|by eapply good_ext| |done].
  - apply bind_ok_inv in Hr1 as ([c0 p0] & s0 & H1 & H2).
    cbn [parseline]. rewrite (bind_ok _ _ _ _ _ H1), (bind_ok _ _ _ _ _ H2), (bind_ok _ _ _ _ _ Hp2), (bind_ok _ _ _ _ _ Hg3).
    rewrite (bind_ok _ _ _ _ _ Hr4). by rewrite (bind_ok _ _ _ _ _ Hr5).
  - apply (words_app s5 p p3).
    + apply (words_later s5 p p p1 p3); [lia|lia|]. eapply (words_kept s1 bs1 _ _ _ _ es); [exact Hw1|eapply (lined_ext s bs); [apply Hg|done]|apply (good_end _ _ _ _ _ Hg1)|by eapply ext_trans].
    + eapply (words_kept s4 bs4 _ _ _ _ es); [exact Hw4| |apply (good_end _ _ _ _ _ Hg4)|done].
      eapply (lined_ext s1 bs1); [|exact He4]. intros z Hz. apply (gd_line _ _ _ _ _ Hg1). lia.
Qed.

Lemma parse_ok : (∀ l, line_spec l) ∧ (∀ l, pipe_spec l) ∧ (∀ e, exec_spec e).
Proof.
  apply syntax_ind.
  - intros l IH n. by apply parse_end.
  - intros l IH n r IHr. by apply parse_seq.
  - intros e IH. by apply parse_one.
  - intros e IH l IHl. by apply parse_pipe.
  - intros l IH rs. by apply parse_block.
  - intros rs args f s bs p es toks need Hg Hfo Hfit Hf Hneed Hroom. apply parse_simple; try done. lia.
Qed.

(** ** Ending the words *)
Definition zero_ends (m : memory) L : memory := foldl (λ m x, wr8 m (sp_e x) 0) m L.

Lemma rd8_zero_ends L m a : rd8 (zero_ends m L) a = if decide (a ∈ sp_e <$> L) then 0 else rd8 m a.
Proof.
  revert m. induction L as [|x L IH]; intros m; [done|]. cbn [zero_ends foldl]. rewrite IH. cbn [fmap list_fmap].
  destruct (decide (a ∈ sp_e <$> L)) as [H1|H1].
  - rewrite decide_True; [done|]. by right.
  - destruct (decide (a = sp_e x)) as [->|H2].
    + rewrite decide_True by left. by rewrite rd8_wr8_eq.
    + rewrite decide_False by (rewrite elem_of_cons; tauto). by rewrite rd8_wr8_ne.
Qed.

Lemma zero_ends_app m L1 L2 : zero_ends m (L1 ++ L2) = zero_ends (zero_ends m L1) L2.
Proof. apply foldl_app. Qed.

(** *** Reading nodes back *)
Lemma node_ld s R a vs i b v :
  node (umem s) R a vs → vs !! i = Some v → b = a + 4 * Z.of_nat i → (∀ z : Z, R z → 0 ≤ z < usz s) → ld32 b s = Ok v s.
Proof.
  intros (Ha & Hw & Hx) Hi -> HR. pose proof (lookup_lt_Some _ _ _ Hi) as Hl.
  pose proof (HR _ (Hx (a + 4 * Z.of_nat i + 3) ltac:(lia))). rewrite ld32_ok by lia. by rewrite (Hw i v Hi).
Qed.

Lemma exec_words_at xs i x : xs !! i = Some x → (length xs ≤ 10)%nat →
  exec_words xs !! S i = Some (sp_q x) ∧ exec_words xs !! S (10 + i) = Some (sp_e x).
Proof.
  intros Hi Hl. pose proof (lookup_lt_Some _ _ _ Hi) as Hlt. unfold exec_words. cbv zeta.
  assert (Ec : ∀ i (u : Z) l, (u :: l) !! S i = l !! i) by done. rewrite !Ec. split.
  - rewrite lookup_app_l, lookup_app_l by (rewrite ?length_app, ?length_fmap, ?length_replicate; lia). by rewrite list_lookup_fmap, Hi.
  - rewrite lookup_app_r by (rewrite ?length_app, ?length_fmap, ?length_replicate; lia).
    rewrite length_app, length_fmap, length_replicate. replace (10 + i - (length xs + (10 - length xs)))%nat with i by lia.
    rewrite lookup_app_l by (rewrite length_fmap; lia). by rewrite list_lookup_fmap, Hi.
Qed.

Lemma exec_words_stop xs : (length xs < 10)%nat → exec_words xs !! S (length xs) = Some 0.
Proof.
  intros Hl. unfold exec_words. cbv zeta. assert (Ec : ∀ i (u : Z) l, (u :: l) !! S i = l !! i) by done. rewrite !Ec.
  rewrite lookup_app_l, lookup_app_r by (rewrite ?length_app, ?length_fmap, ?length_replicate; lia).
  rewrite length_fmap, Nat.sub_diag. by apply lookup_replicate_2; lia.
Qed.

(** The end of a word is inside the process and in no node. *)
Definition ends_ok s (R : Z → Prop) L : Prop := ∀ x, x ∈ L → sp_q x ≠ 0 ∧ 0 ≤ sp_e x < usz s ∧ ¬ R (sp_e x).

Lemma zero_ends_nodes s R L z : ends_ok s R L → R z → rd8 (zero_ends (umem s) L) z = rd8 (umem s) z.
Proof.
  intros HL Hz. rewrite rd8_zero_ends, decide_False; [done|]. intros (x & -> & Hx)%list_elem_of_fmap. by destruct (HL x Hx) as (_ & _ & []).
Qed.

Lemma nul_args_ok R e xs : ∀ pre s, node (umem s) R e (exec_words (pre ++ xs)) → (length (pre ++ xs) < 10)%nat →
  (∀ z : Z, R z → 0 ≤ z < usz s) → ends_ok s R xs →
  nul_args (10 - length pre) e (Z.of_nat (length pre)) s = Ok tt (set_umem (zero_ends (umem s) xs) s).
Proof.
  induction xs as [|x xs IH]; intros pre s Hn Hl HR He; pose proof Hl as Hl'; rewrite length_app in Hl'.
  - rewrite app_nil_r in Hn. replace (10 - length pre)%nat with (S (9 - length pre)) by (cbn in Hl'; lia). cbn [nul_args].
    rewrite (bind_ok _ _ _ _ _ (node_ld s R e _ (S (length pre)) (e + 4 + 4 * Z.of_nat (length pre)) 0 Hn (exec_words_stop pre ltac:(cbn in Hl'; lia)) ltac:(lia) HR)). by destruct s.
  - cbn [length] in Hl'. replace (10 - length pre)%nat with (S (10 - length (pre ++ [x]))) by (rewrite length_app; cbn; lia). cbn [nul_args].
    assert (Hi : (pre ++ x :: xs) !! length pre = Some x) by (by apply list_lookup_middle).
    destruct (exec_words_at _ _ _ Hi ltac:(lia)) as [Hq Hend]. destruct (He x ltac:(left)) as (Hnz & Hes & HnR).
    rewrite (bind_ok _ _ _ _ _ (node_ld s R e _ _ (e + 4 + 4 * Z.of_nat (length pre)) _ Hn Hq ltac:(lia) HR)).
    rewrite (proj2 (truthy_true _)) by done.
    rewrite (bind_ok _ _ _ _ _ (node_ld s R e _ _ (e + 44 + 4 * Z.of_nat (length pre)) _ Hn Hend ltac:(lia) HR)).
    rewrite (bind_ok _ _ _ _ _ (st8_ok _ 0 s Hes)).
    replace (Z.of_nat (length pre) + 1) with (Z.of_nat (length (pre ++ [x]))) by (rewrite length_app; cbn; lia).
    rewrite IH; [done| |by rewrite <- app_assoc|done|intros y Hy; apply He; by right]. rewrite <- app_assoc. eapply node_mono; [|exact Hn].
    intros z Hz. split; [done|]. cbn. apply rd8_wr8_ne. by intros <-.
Qed.

Fixpoint height (d : dcmd) : nat :=
  match d with
  | DEXEC _ => 0
  | DREDIR d _ _ _ | DBACK d => S (height d)
  | DPIPE l r | DLIST l r => S (height l `max` height r)
  end.

Lemma ends_ok_app s R L1 L2 : ends_ok s R (L1 ++ L2) → ends_ok s R L1 ∧ ends_ok s R L2.
Proof. intros HL. split; intros x Hx; apply HL, elem_of_app; auto. Qed.

(** A node with two commands. *)
Lemma nul_two R tag c1 c2 d1 d2 L1 L2 : tag = T_PIPE ∨ tag = T_LIST →
  (∀ fuel a s, rep (umem s) R a c1 → (∀ z : Z, R z → 0 ≤ z < usz s) → ends_ok s R L1 → (height d1 < fuel)%nat →
     nulterminate fuel a s = Ok a (set_umem (zero_ends (umem s) L1) s)) →
  (∀ fuel a s, rep (umem s) R a c2 → (∀ z : Z, R z → 0 ≤ z < usz s) → ends_ok s R L2 → (height d2 < fuel)%nat →
     nulterminate fuel a s = Ok a (set_umem (zero_ends (umem s) L2) s)) →
  ∀ fuel a s q q', node (umem s) R a [tag; q; q'] → rep (umem s) R q c1 → rep (umem s) R q' c2 → (∀ z : Z, R z → 0 ≤ z < usz s) →
  ends_ok s R (L1 ++ L2) → (height d1 `max` height d2 < fuel)%nat →
  nulterminate (S fuel) a s = Ok a (set_umem (zero_ends (umem s) (L1 ++ L2)) s).
Proof.
  intros Htag IH1 IH2 fuel a s q q' Hn Hc1 Hc2 HR He Hf. apply ends_ok_app in He as [He1 He2]. cbn [nulterminate].
  rewrite (proj2 (Z.eqb_neq a 0)) by (destruct Hn; lia).
  rewrite (bind_ok _ _ _ _ _ (node_ld s R a _ 0 a _ Hn eq_refl ltac:(lia) HR)).
  assert (Hrun : (l ← ld32 (a + 4); nulterminate fuel l;; r ← ld32 (a + 8); nulterminate fuel r;; ret tt) s = Ok tt (set_umem (zero_ends (umem s) (L1 ++ L2)) s)).
  { rewrite (bind_ok _ _ _ _ _ (node_ld s R a _ 1 (a + 4) _ Hn eq_refl ltac:(lia) HR)).
    rewrite (bind_ok _ _ _ _ _ (IH1 fuel q s Hc1 HR He1 ltac:(lia))). set (s1 := set_umem _ s).
    assert (Hm : ∀ z : Z, R z → R z ∧ rd8 (umem s1) z = rd8 (umem s) z) by (intros z Hz; split; [done|by eapply zero_ends_nodes]).
    rewrite (bind_ok _ _ _ _ _ (node_ld s1 R a _ 2 (a + 8) _ (node_mono _ _ _ _ _ _ Hm Hn) eq_refl ltac:(lia) HR)).
    rewrite (bind_ok _ _ _ _ _ (IH2 fuel q' s1 (rep_mono _ _ _ _ _ Hm _ Hc2) HR He2 ltac:(lia))). unfold s1. by rewrite zero_ends_app. }
  destruct Htag as [->| ->]; cbn [Z.eqb T_EXEC T_REDIR T_PIPE T_LIST Pos.eqb orb]; by rewrite (bind_ok _ _ _ _ _ Hrun).
Qed.

Lemma nulterminate_ok R c d L : reps c d L → ∀ fuel a s,
  rep (umem s) R a c → (∀ z : Z, R z → 0 ≤ z < usz s) → ends_ok s R L → (height d < fuel)%nat →
  nulterminate fuel a s = Ok a (set_umem (zero_ends (umem s) L) s).
Proof.
  induction 1 as [xs Hl|c d L x mode fd Hr IH|c1 c2 d1 d2 L1 L2 H1 IH1 H2 IH2|c1 c2 d1 d2 L1 L2 H1 IH1 H2 IH2|c d L Hr IH];
    intros fuel a s Hrep HR He Hf; (destruct fuel as [|fuel]; [cbn in Hf; lia|]); cbn [height] in Hf.
  - unfold exec_of in Hrep. cbn [rep] in Hrep. destruct Hrep as (_ & _ & Hn).
    cbn [nulterminate]. rewrite (proj2 (Z.eqb_neq a 0)) by (destruct Hn; lia).
    rewrite (bind_ok _ _ _ _ _ (node_ld s R a _ 0 a _ Hn eq_refl ltac:(lia) HR)). cbn [Z.eqb T_EXEC Pos.eqb].
    by rewrite (bind_ok _ _ _ _ _ (nul_args_ok R a xs [] s Hn Hl HR He)).
  - cbn [rep] in Hrep. destruct Hrep as (q & Hn & Hc). apply ends_ok_app in He as [HeL Hex]. destruct (Hex x ltac:(left)) as (_ & Hes & HnR).
    cbn [nulterminate]. rewrite (proj2 (Z.eqb_neq a 0)) by (destruct Hn; lia).
    rewrite (bind_ok _ _ _ _ _ (node_ld s R a _ 0 a _ Hn eq_refl ltac:(lia) HR)). cbn [Z.eqb T_EXEC T_REDIR Pos.eqb].
    rewrite bind_assoc, (bind_ok _ _ _ _ _ (node_ld s R a _ 1 (a + 4) _ Hn eq_refl ltac:(lia) HR)).
    rewrite bind_assoc, (bind_ok _ _ _ _ _ (IH fuel q s Hc HR HeL ltac:(lia))). set (s1 := set_umem _ s).
    assert (Hn1 : node (umem s1) R a [T_REDIR; q; sp_q x; sp_e x; mode; fd]) by (eapply node_mono; [|exact Hn]; intros z Hz; split; [done|by eapply zero_ends_nodes]).
    rewrite bind_assoc, (bind_ok _ _ _ _ _ (node_ld s1 R a _ 3 (a + 12) _ Hn1 eq_refl ltac:(lia) HR)).
    rewrite (bind_ok _ _ _ _ _ (st8_ok (sp_e x) 0 s1 Hes)). unfold s1. by rewrite zero_ends_app.
  - cbn [rep] in Hrep. destruct Hrep as (q & q' & Hn & Hc1 & Hc2). apply (nul_two R T_PIPE c1 c2 d1 d2) with q q'; [by left|done..|lia].
  - cbn [rep] in Hrep. destruct Hrep as (q & q' & Hn & Hc1 & Hc2). apply (nul_two R T_LIST c1 c2 d1 d2) with q q'; [by right|done..|lia].
  - cbn [rep] in Hrep. destruct Hrep as (q & Hn & Hc).
    cbn [nulterminate]. rewrite (proj2 (Z.eqb_neq a 0)) by (destruct Hn; lia).
    rewrite (bind_ok _ _ _ _ _ (node_ld s R a _ 0 a _ Hn eq_refl ltac:(lia) HR)). cbn [Z.eqb T_EXEC T_REDIR T_PIPE T_LIST T_BACK Pos.eqb orb].
    rewrite bind_assoc, (bind_ok _ _ _ _ _ (node_ld s R a _ 1 (a + 4) _ Hn eq_refl ltac:(lia) HR)).
    rewrite bind_assoc, (bind_ok _ _ _ _ _ (IH fuel q s Hc HR He ltac:(lia))). done.
Qed.

Lemma height_redirs rs : ∀ d, height (den_redirs d rs) = (height d + length rs)%nat.
Proof. induction rs as [|r rs IH]; intros d; [cbn; lia|]. change (den_redirs d (r :: rs)) with (den_redirs (DREDIR d (redir_word r) (redir_mode r) (redir_fd r)) rs). rewrite IH. cbn [height length]. lia. Qed.
Lemma height_backs n d : height (Nat.iter n DBACK d) = (n + height d)%nat.
Proof. induction n as [|n IH]; [done|]. cbn. by rewrite <- IH. Qed.
Lemma args_redirs args : (length (concat args.*2) ≤ length (args_toks args))%nat.
Proof.
  induction args as [|[w rs] args IH]; [done|]. rewrite args_cons. cbn [fmap list_fmap snd concat length]. rewrite !length_app. pose proof (redirs_length rs). lia.
Qed.

(** A command is no higher than its tokens allow. *)
Lemma height_toks : (∀ l, height (den_line l) ≤ 2 * length (line_toks l))%nat ∧ (∀ l, height (den_pipe l) ≤ 2 * length (pipe_toks l))%nat ∧
  (∀ e, height (den_exec e) ≤ 2 * length (exec_toks e))%nat.
Proof.
  apply syntax_ind.
  - intros l IH n. cbn [den_line line_toks]. rewrite height_backs, length_app, length_replicate. lia.
  - intros l IH n r IHr. cbn [den_line line_toks height]. rewrite height_backs, !length_app, length_replicate. cbn [length]. lia.
  - intros e IH. exact IH.
  - intros e IH l IHl. cbn [den_pipe pipe_toks height]. rewrite !length_app. cbn [length]. lia.
  - intros l IH rs. cbn [den_exec exec_toks]. rewrite height_redirs. cbn [length]. rewrite length_app. cbn [length]. pose proof (redirs_length rs). lia.
  - intros rs args. cbn [den_exec exec_toks]. rewrite height_redirs, !length_app. pose proof (redirs_length rs). pose proof (args_redirs args). cbn [height]. lia.
Qed.

(** What the words have become. *)
Lemma word_string s p p' L x : words_read s p p' L → x ∈ L → cstr (zero_ends (umem s) L) (sp_q x) (sp_w x).
Proof.
  intros (_ & Hr & Ha) Hx. destruct (Hr x Hx) as [Hq Hne Hc Hs He Hsz _]. apply cstr_bytes. split_and!.
  - rewrite <- Hs at 2. apply read_bytes_ext. intros i Hi. rewrite rd8_zero_ends, decide_False; [done|].
    intros (y & Ey & Hy)%list_elem_of_fmap. destruct (Hr y Hy) as [_ _ _ _ Hey _ _].
    destruct (Ha x y Hx Hy) as [<-|[?|?]]; lia.
  - eapply Forall_impl; [exact Hc|]. by intros c [? _].
  - rewrite <- He, rd8_zero_ends, decide_True; [done|]. by apply list_elem_of_fmap_2.
Qed.

Lemma reps_denotes m c d L : reps c d L → (∀ x, x ∈ L → sp_q x ≠ 0 ∧ cstr m (sp_q x) (sp_w x)) → denotes m c d.
Proof.
  induction 1 as [xs Hl|c d L x mode fd Hr IH|c1 c2 d1 d2 L1 L2 H1 IH1 H2 IH2|c1 c2 d1 d2 L1 L2 H1 IH1 H2 IH2|c d L Hr IH];
    intros Hx; cbn [denotes].
  - unfold exec_of. cbn [denotes]. rewrite length_fmap. split; [done|]. exists (sp_q <$> xs). split; [|done].
    apply Forall2_fmap_2, Forall_Forall2_diag, Forall_forall. done.
  - split_and!; [apply IH; intros y Hy; apply Hx, elem_of_app; by left| |done|done]. apply Hx, elem_of_app. right. left.
  - split; [apply IH1|apply IH2]; intros y Hy; apply Hx, elem_of_app; auto.
  - split; [apply IH1|apply IH2]; intros y Hy; apply Hx, elem_of_app; auto.
  - by apply IH.
Qed.

Lemma ustrlen_go_ok l : ∀ fuel s a n, ustr s (a + n) l → (length l < fuel)%nat →
  ustrlen_go fuel a n s = Ok (n + Z.of_nat (length l)) s.
Proof.
  induction l as [|c l IH]; intros [|fuel] s a n Hu Hf; cbn [length] in *; try lia; cbn [ustrlen_go].
  - rewrite (bind_ok _ _ _ _ _ (ustr_nil _ _ Hu)). change (truthy 0) with false. cbv iota. unfold ret. f_equal. lia.
  - destruct (ustr_cons _ _ _ _ Hu) as (Hc & Hnz & Hu'). rewrite (bind_ok _ _ _ _ _ Hc). rewrite (proj2 (truthy_true c)) by done.
    rewrite IH; [f_equal; lia| |lia]. by replace (a + (n + 1)) with (a + n + 1) by lia.
Qed.
End parser.

(** C15: The shell reads back what is typed.  A command line of the grammar is in memory that is in
    use, laid out with any spaces between its tokens, and the allocator has room for the nodes of the
    command, in a free block or because the process may grow.  Then [parsecmd] succeeds, within
    the recursion depth it is given, and returns the address of nodes in newly allocated memory that
    make up the command that was laid out, its words and file names being zero-terminated strings
    in the line.  The allocator is in order, and of what was in use only the line has changed. *)
Theorem parsecmd_reads_back {W} `{!uenv W} `{!malloc_link} (s : ustate W) (bs : blocks) (p : Z) (text : list Z) (l : sline) :
  ready s bs → ustr s p text → 0 < p → (∀ x, p ≤ x ≤ p + Z.of_nat (length text) → inuse s bs x) →
  lays text (line_toks l) → line_fits l → room s bs (cost (den_line l)) →
  ∃ a c s' bs', parsecmd p s = Ok a s' ∧ ready s' bs' ∧ rep (umem s') (newly s bs s' bs') a c ∧ denotes (umem s') c (den_line l) ∧
    (∀ x, inuse s bs x → inuse s' bs' x ∧ (x < p ∨ p + Z.of_nat (length text) < x → rd8 (umem s') x = rd8 (umem s) x)).
Proof.
  intros Hready Hu Hp Hline Hl Hfit Hroom. set (es := p + Z.of_nat (length text)) in *. pose proof (lays_length _ _ Hl) as Hlen.
  assert (Hg : good s bs p es (line_toks l ++ [])) by (split; [done|done|rewrite app_nil_r; by exists text]).
  destruct (proj1 parse_ok l (4 * Z.to_nat (Z.of_nat (length text)) + 4)%nat s bs p es [] 0 Hg)
    as (a & c & L & p1 & s1 & bs1 & Hr1 & He1 & Hrep & Hreps & Hg1 & Hw1 & _); [by left|done|lia|lia|by rewrite Z.add_0_r|].
  destruct (peek_no s1 p1 es [] [] (gd_toks _ _ _ _ _ Hg1) eq_refl) as (p2 & Hp2 & Hle2 & _ & Hend). rewrite (Hend eq_refl) in *.
  assert (Hx : ∀ x, x ∈ L → sp_q x ≠ 0 ∧ p ≤ sp_e x ≤ es).
  { intros x Hx. destruct Hw1 as (_ & Hr & _). destruct (Hr x Hx) as [Hq Hne _ _ He Hsz Hend']. lia. }
  assert (Hin : ∀ z, p ≤ z ≤ es → inuse s1 bs1 z) by (intros z Hz; by apply He1, Hline).
  assert (He : ends_ok s1 (newly s bs s1 bs1) L).
  { intros x Hxl. destruct (Hx x Hxl) as [Hq He]. split_and!; [done|apply Hin; lia|apply Hin; lia|]. intros [_ Hn]. by apply Hn, Hline. }
  pose proof (proj1 height_toks l) as Hht. set (s2 := set_umem (zero_ends (umem s1) L) s1).
  assert (Hm : ∀ z, z < p ∨ es < z → rd8 (umem s2) z = rd8 (umem s1) z).
  { intros z Hz. cbn. rewrite rd8_zero_ends, decide_False; [done|]. intros (x & -> & Hxl)%list_elem_of_fmap. specialize (Hx x Hxl). lia. }
  exists a, c, s2, bs1. split_and!.
  - assert (Hus : ustrlen (S (Z.to_nat (usz s - p))) p s = Ok (Z.of_nat (length text)) s).
    { destruct Hu as (Hc & H0 & Hsz). apply (ustrlen_go_ok text); [|lia]. rewrite Z.add_0_r. done. }
    unfold parsecmd. rewrite bind_gets, (bind_ok _ _ _ _ _ Hus). fold es. rewrite (bind_ok _ _ _ _ _ Hr1), (bind_ok _ _ _ _ _ Hp2).
    rewrite Z.eqb_refl. cbn [negb]. rewrite (bind_ok _ _ _ a s2); [done|].
    eapply nulterminate_ok; [exact Hreps|exact Hrep|by intros z [(? & _) _]|exact He|lia].
  - eapply (ready_same s1); [apply He1|done|]. intros z Hz. apply Hm. destruct (decide (p ≤ z ≤ es)) as [Hz'|]; [|lia]. by destruct Hz; apply Hin.
  - eapply rep_mono; [|exact Hrep]. intros z Hz. split; [exact Hz|by eapply zero_ends_nodes].
  - apply (reps_denotes _ _ _ L Hreps). intros x Hxl. split; [by apply Hx|by eapply word_string].
  - intros z Hz. destruct (ext_same _ _ _ _ He1 z Hz) as [Hz1 <-]. split; [exact Hz1|apply Hm].
Qed.

(** ** [echo hi >f;(ls|wc )&], at address 4096 *)
(** A world where the process may grow. *)
Definition quiet_env : uenv unit := {|
  sys_read _ _ w := (None, w);
  sys_write _ l w := (Z.of_nat (length l), w);
  sys_open _ _ w := (-1, w);
  sys_close _ w := (0, w);
  sys_sbrk _ w := (true, w)
|}.
Definition typed : list Z := chars "echo hi >f;(ls|wc )&".
Definition typed_line : sline :=
  SSeq (SOne (SSimple [] [(chars "echo", []); (chars "hi", [Rout (chars "f")])])) 0
    (SEnd (SOne (SBlock (SEnd (SBar (SSimple [] [(chars "ls", [])]) (SOne (SSimple [] [(chars "wc", [])]))) 0) [])) 1).
Definition typed_state : ustate unit := mkUstate (write_bytes ∅ 4096 (typed ++ [0])) 8192 tt.
#[local] Instance sh_malloc : malloc_link := {| base := 16; freep := 32 |}.

Lemma word_chars (w : list Z) : forallb (λ c, negb (c =? 0) && negb (strchr_c whitespace c) && negb (strchr_c symbols c)) w = true →
  Forall word_char w.
Proof.
  rewrite forallb_forall, Forall_forall. intros Hw c Hc%list_elem_of_In. specialize (Hw c Hc).
  apply andb_true_iff in Hw as [[Hw1%negb_true_iff Hw2%negb_true_iff]%andb_true_iff Hw3%negb_true_iff].
  apply Z.eqb_neq in Hw1. done.
Qed.

Lemma typed_lays : lays typed (line_toks typed_line).
Proof.
  assert (Hw : ∀ w : string, chars w ≠ [] → forallb (λ c, negb (c =? 0) && negb (strchr_c whitespace c) && negb (strchr_c symbols c)) (chars w) = true →
    tok_ok (TWord (chars w))) by (intros w H1 H2; split; [done|by apply word_chars]).
  assert (Hns : ∀ c, negb (c =? 0) && negb (strchr_c whitespace c) && negb (strchr_c symbols c) = false → ¬ word_char c).
  { intros c Hc (H0 & H1 & H2). rewrite H1, H2 in Hc. apply Z.eqb_neq in H0. by rewrite H0 in Hc. }
  apply (lays_cons [] (TWord (chars "echo")) (chars " hi >f;(ls|wc )&")); [constructor|by apply Hw|by apply Hns|].
  apply (lays_cons [32] (TWord (chars "hi")) (chars " >f;(ls|wc )&")); [by repeat constructor|by apply Hw|by apply Hns|].
  apply (lays_cons [32] (TSym 62) (chars "f;(ls|wc )&")); [by repeat constructor|done|done|].
  apply (lays_cons [] (TWord (chars "f")) (chars ";(ls|wc )&")); [constructor|by apply Hw|by apply Hns|].
  apply (lays_cons [] (TSym 59) (chars "(ls|wc )&")); [constructor|done|done|].
  apply (lays_cons [] (TSym 40) (chars "ls|wc )&")); [constructor|done|done|].
  apply (lays_cons [] (TWord (chars "ls")) (chars "|wc )&")); [constructor|by apply Hw|by apply Hns|].
  apply (lays_cons [] (TSym 124) (chars "wc )&")); [constructor|done|done|].
  apply (lays_cons [] (TWord (chars "wc")) (chars " )&")); [constructor|by apply Hw|by apply Hns|].
  apply (lays_cons [32] (TSym 41) (chars "&")); [by repeat constructor|done|done|].
  apply (lays_cons [] (TSym 38) []); [constructor|done|done|]. by constructor.
Qed.

Lemma typed_in_use x : 4096 ≤ x ≤ 4096 + Z.of_nat (length typed) → inuse typed_state [] x.
Proof.
  change (Z.of_nat (length typed)) with 20. intros Hx. unfold inuse. change (usz typed_state) with 8192. change base with 16. change freep with 32.
  split_and!; [lia|lia| |lia|lia]. intros (a & n & Ha & _). by apply elem_of_nil in Ha.
Qed.

Lemma parsecmd_reads_back_witness :
  ∃ a c s' bs', parsecmd (uenv0 := quiet_env) 4096 typed_state = Ok a s' ∧ rep (umem s') (newly typed_state [] s' bs') a c ∧
    denotes (umem s') c (DLIST (DREDIR (DEXEC [chars "echo"; chars "hi"]) (chars "f") 0x201 1)
                       (DBACK (DPIPE (DEXEC [chars "ls"]) (DEXEC [chars "wc"])))).
Proof.
  destruct (parsecmd_reads_back (uenv0 := quiet_env) typed_state [] 4096 typed typed_line) as (a & c & s' & bs' & Hr & _ & Hrep & Hd & _).
  - right. split; [reflexivity|]. split; [vm_compute; reflexivity|]. split; [reflexivity|].
    split; [split; [discriminate|right; discriminate]|split; discriminate].
  - split; [|split; [discriminate|reflexivity]]. vm_compute. repeat split; discriminate.
  - reflexivity.
  - exact typed_in_use.
  - exact typed_lays.
  - vm_compute. repeat constructor.
  - right. right. split; [vm_compute; discriminate|]. split; [reflexivity|]. exists tt. reflexivity.
  - exists a, c, s', bs'. split; [exact Hr|]. split; [exact Hrep|exact Hd].
Defined.
