(* ===== verification/ShRun.v ===== *)
(** The shell ([sh.c]): running a parsed command.

    [runcmd] is a program of system calls; each process of the command line is such a
    program with its own table of open files. *)

From S2P Require Import Prelude Params Mem Cstring User Sh.

(** ** Programs of system calls

    Each constructor makes a call and goes on with its result. *)
Inductive prog :=
  | Pexit
  | Pexec (path : Z) (argv : list Z) (failed : prog)
  | Popen (file mode : Z) (k : Z → prog)
  | Pclose (fd : Z) (k : prog)
  | Pdup (fd : Z) (k : prog)
  | Ppipe (k : option (Z * Z) → prog)
  | Pfork (k : Z → prog)
  | Pwait (k : prog)
  | Pprintf (fd : Z) (fmt : string) (args : list Z) (k : prog).

Definition sh_panic (msg : string) : prog := Pprintf 2 (msg +:+ "\n") [] Pexit.
Definition fork1 (k : Z → prog) : prog := Pfork (λ pid, if pid =? -1 then sh_panic "fork" else k pid).

(** [runcmd], which does not return. *)
Fixpoint runcmd (c : cmd) : prog :=
  match c with
  | EXEC argv _ =>
      let argv0 := default 0 (head argv) in
      if argv0 =? 0 then Pexit else
      Pexec argv0 argv (Pprintf 2 "exec %s failed\n" [argv0] Pexit)
  | REDIR c file _ mode fd =>
      Pclose fd (Popen file mode (λ r,
        if r <? 0 then Pprintf 2 "open %s failed\n" [file] Pexit else runcmd c))
  | LIST l r =>
      fork1 (λ pid, if pid =? 0 then runcmd l else Pwait (runcmd r))
  | PIPE l r =>
      Ppipe (λ p,
        match p with
        | None => sh_panic "pipe"
        | Some (p0, p1) =>
            fork1 (λ pid,
              if pid =? 0 then Pclose 1 (Pdup p1 (Pclose p0 (Pclose p1 (runcmd l)))) else
              fork1 (λ pid,
                if pid =? 0 then Pclose 0 (Pdup p0 (Pclose p0 (Pclose p1 (runcmd r)))) else
                Pclose p0 (Pclose p1 (Pwait (Pwait Pexit)))))
        end)
  | BACK c => fork1 (λ pid, if pid =? 0 then runcmd c else Pexit)
  end.

(** ** Reading a command *)
Section getcmd.
Context {W : Type} `{!uenv W}.

(** [printf(2, "$ "); memset(buf, 0, nbuf); gets(buf, nbuf);]; [pc] is where [gets] has its
    local variable. *)
Definition getcmd (pc buf nbuf : Z) : U (W := W) Z :=
  forM [36; 32] (λ c, lift_sys (sys_write 2 [c]);; ret tt);;
  umemset buf 0 nbuf;;
  _ ← ugets (Z.to_nat nbuf) pc buf nbuf;
  c ← ld8 buf;
  if c =? 0 then ret (-1) else ret 0.
End getcmd.

(** ** Processes

    What is behind a file descriptor: what the shell was given, a file, an end of a pipe. A pipe is named
    by the process that made it. *)
Inductive obj := Given (n : Z) | Opened (file mode : Z) | ReadEnd (pipe : list nat) | WriteEnd (pipe : list nat).
#[global] Instance obj_eq_dec : EqDecision obj.
Proof. solve_decision. Defined.

Abbreviation fdtab := (list (option obj)).
Definition NOFD : nat := 16.

(** The lowest free descriptor, as [fdalloc] ([sysfile.c]) takes it. *)
Fixpoint lowest (t : fdtab) : option nat :=
  match t with
  | [] => None
  | None :: _ => Some O
  | Some _ :: t => S <$> lowest t
  end.
Definition fd_alloc (o : obj) (t : fdtab) : option (Z * fdtab) :=
  (λ i, (Z.of_nat i, <[i := Some o]> t)) <$> lowest t.
Definition fd_close (fd : Z) (t : fdtab) : fdtab := <[Z.to_nat fd := None]> t.
Definition fd_dup (fd : Z) (t : fdtab) : fdtab :=
  match t !! Z.to_nat fd with
  | Some (Some o) => default t (snd <$> fd_alloc o t)
  | _ => t
  end.
Definition fd_pipe (id : list nat) (t : fdtab) : option (Z * Z * fdtab) :=
  match fd_alloc (ReadEnd id) t with
  | Some (p0, t1) => match fd_alloc (WriteEnd id) t1 with Some (p1, t2) => Some (p0, p1, t2) | None => None end
  | None => None
  end.

(** What a process does, as far as others see it: it starts a child, waits for one, prints, or
    becomes a program with the files it has open. *)
Inductive event :=
  | Spawned (child : list event)
  | Waited
  | Said (fd : Z) (fmt : string) (args : list Z)
  | Became (argv : list Z) (files : fdtab).

Section run.
(** Which files can be opened and which programs exist; [fork] succeeds, and [pipe] does while there
    are free descriptors. *)
Context (opens : Z → Z → bool) (execs : Z → bool).

Fixpoint run (p : prog) (me : list nat) (t : fdtab) : list event :=
  match p with
  | Pexit => []
  | Pexec path argv failed => if execs path then [Became argv t] else run failed me t
  | Popen file mode k =>
      if opens file mode then
        match fd_alloc (Opened file mode) t with
        | Some (fd, t) => run (k fd) me t
        | None => run (k (-1)) me t
        end
      else run (k (-1)) me t
  | Pclose fd k => run k me (fd_close fd t)
  | Pdup fd k => run k me (fd_dup fd t)
  | Ppipe k =>
      match fd_pipe me t with
      | Some (p0, p1, t) => run (k (Some (p0, p1))) (2%nat :: me) t
      | None => run (k None) me t
      end
  | Pfork k => Spawned (run (k 0) (0%nat :: me) t) :: run (k 1) (1%nat :: me) t
  | Pwait k => Waited :: run k me t
  | Pprintf fd fmt args k => Said fd fmt args :: run k me t
  end.
End run.

(** ** What a command line should do *)
Definition three (i o e : obj) : fdtab := [Some i; Some o; Some e] ++ replicate 13 None.
(** [o] instead of what is behind descriptor [fd]. *)
Definition instead (fd : Z) (n : Z) (o old : obj) : obj := if fd =? n then o else old.

Section wiring.
Context (opens : Z → Z → bool) (execs : Z → bool).
Implicit Types (c : cmd) (me : list nat) (i o e : obj) (t : fdtab).

(** The processes of the command [c] with the standard files [i], [o], [e]. *)
Fixpoint wired c me i o e : list event :=
  match c with
  | EXEC argv _ =>
      let argv0 := default 0 (head argv) in
      if argv0 =? 0 then [] else
      if execs argv0 then [Became argv (three i o e)] else [Said 2 "exec %s failed\n" [argv0]]
  | REDIR c file _ mode fd =>
      if opens file mode then
        let f := Opened file mode in wired c me (instead fd 0 f i) (instead fd 1 f o) (instead fd 2 f e)
      else [Said 2 "open %s failed\n" [file]]
  | LIST l r => [Spawned (wired l (0%nat :: me) i o e); Waited] ++ wired r (1%nat :: me) i o e
  | PIPE l r =>
      [Spawned (wired l (0%nat :: 2%nat :: me) i (WriteEnd me) e);
       Spawned (wired r (0%nat :: 1%nat :: 2%nat :: me) (ReadEnd me) o e); Waited; Waited]
  | BACK c => [Spawned (wired c (0%nat :: me) i o e)]
  end.

(** Redirections are of the standard files. *)
Fixpoint std_redirs c : Prop :=
  match c with
  | EXEC _ _ => True
  | REDIR c _ _ _ fd => 0 ≤ fd ≤ 2 ∧ std_redirs c
  | LIST l r | PIPE l r => std_redirs l ∧ std_redirs r
  | BACK c => std_redirs c
  end.

Lemma redirected fd x i o e : 0 ≤ fd ≤ 2 →
  fd_alloc x (fd_close fd (three i o e)) = Some (fd, three (instead fd 0 x i) (instead fd 1 x o) (instead fd 2 x e)).
Proof. intros Hfd. assert (fd = 0 ∨ fd = 1 ∨ fd = 2) as [->|[->| ->]] by lia; reflexivity. Qed.

(** The ends of the pipe: the left process keeps the one for writing as descriptor 1, the right
    one the other as descriptor 0, and nobody keeps anything else. *)
Definition piped me i o e : fdtab := [Some i; Some o; Some e; Some (ReadEnd me); Some (WriteEnd me)] ++ replicate 11 None.
Lemma piped_ends me i o e : fd_pipe me (three i o e) = Some (3, 4, piped me i o e) ∧
  fd_close 4 (fd_close 3 (fd_dup 4 (fd_close 1 (piped me i o e)))) = three i (WriteEnd me) e ∧
  fd_close 4 (fd_close 3 (fd_dup 3 (fd_close 0 (piped me i o e)))) = three (ReadEnd me) o e.
Proof. done. Qed.

(** C16: Every program of a command line runs with exactly the files it should have. Whatever
    the command, running [runcmd] on a process with three open files, where [fork] succeeds, starts the processes and
    waits for them as the operators say: a program has three open files, those of the shell
    except where a redirection or a pipe puts a file or the one end of the pipe it is
    for, and no other descriptor, in particular no end of a pipe, is left open in it. *)
Theorem runcmd_wires c : ∀ me i o e, std_redirs c →
  run opens execs (runcmd c) me (three i o e) = wired c me i o e.
Proof.
  induction c as [argv eargv|c IH file efile mode fd|l IHl r IHr|l IHl r IHr|c IH]; intros me i o e Hc; cbn [runcmd wired].
  - destruct (default 0 (head argv) =? 0); [done|]. cbn [run]. by destruct (execs _).
  - destruct Hc as [Hfd Hc]. cbn [run]. destruct (opens file mode); [|done]. rewrite redirected by done.
    rewrite (proj2 (Z.ltb_ge _ _)) by lia. by apply IH.
  - destruct Hc as [Hl Hr]. destruct (piped_ends me i o e) as (Hp & Hleft & Hright). cbn [run]. rewrite Hp.
    unfold fork1. cbn [run Z.eqb]. by rewrite Hleft, Hright, IHl, IHr.
  - destruct Hc as [Hl Hr]. unfold fork1. cbn [run Z.eqb app]. by rewrite IHl, IHr.
  - unfold fork1. cbn [run Z.eqb]. by rewrite IH.
Qed.
End wiring.

(** [ls < f | wc], where everything exists. *)
Lemma runcmd_wires_witness :
  run (λ _ _, true) (λ _, true) (runcmd (PIPE (REDIR (EXEC [100; 0] [102; 0]) 105 106 0 0) (EXEC [110; 0] [112; 0]))) []
    (three (Given 0) (Given 1) (Given 2))
  = [Spawned [Became [100; 0] (three (Opened 105 0) (WriteEnd []) (Given 2))];
     Spawned [Became [110; 0] (three (ReadEnd []) (Given 1) (Given 2))]; Waited; Waited].
Proof.
  rewrite (runcmd_wires (λ _ _, true) (λ _, true)); [reflexivity|].
  repeat split; discriminate.
Defined.
