(* ===== verification/SampleFs.v ===== *)
(** A small concrete file system, on which the theorems are instantiated: the disk as [mkfs]
    lays it out, with one regular file of a page, and a booted kernel on it. *)

From S2P Require Import Prelude Params Bytes State Spinlock Mem Kalloc PageTable Uaccess Procs Sched SchedSpec Bio BioSpec CacheSpec BlockSpec Log LogSpec CommitSpec CrashSpec Inode BallocSpec DiskSpec BmapSpec DinodeSpec Console Fs WriteSpec ReadSpec File FsSpec Sample.

#[global] Existing Instance idle_world.
#[global] Existing Instance idle_disk.

(** Deciding a closed proposition. *)
Ltac compute_done := apply (bool_decide_unpack _); vm_compute; exact I.

#[global] Instance block_ok_dec d : Decision (block_ok d).
Proof. unfold block_ok, bytes_ok. apply _. Defined.

Definition in_block (l : list Z) : list Z := l ++ replicate (512 - length l) 0.

(** Inode 2 is a file of 4096 bytes in blocks 59 to 66. *)
Definition swap_dinode : dinode := mkDinode T_FILE 0 0 1 4096 (seqZ 59 8 ++ replicate 5 0).
Definition sample_disk : gmap (Z * Z) (list Z) :=
  list_to_map
    ([((1, 1), in_block (concat (le_bytes 4 <$> [FSSIZE; FSSIZE - nmeta; NINODES; nlog; 2; 2 + nlog; 2 + nlog + ninodeblocks])));
      ((1, 32), splice zero_block (ioff 2) (dinode_bytes swap_dinode));
      ((1, 58), in_block (replicate 8 255 ++ [7]))]
     ++ ((λ b, ((1, b), replicate 512 (b mod 256))) <$> seqZ 59 8)).

Definition swap_inode : inode := mkInode 1 2 1 (mkSleeplock 0 0) 1 T_FILE 0 0 1 4096 (seqZ 59 8 ++ replicate 5 0).
Definition swap_file_entry : file := mkFile FD_INODE 1 1 1 0 (Some 0%nat) 0.
Definition image : fsys :=
  mkFsys sample_disk [] None [] 0x40 1 (replicate 30 no_buf) (seq 0 30) []
    (mkLogst 2 LOGSIZE 0 0 1 (mkLogheader 0 (replicate 30 0))) mkfs_sb
    (swap_inode :: replicate 49 no_inode) (swap_file_entry :: replicate 99 no_file) ∅.

(** ** The empty cache *)
Lemma no_buf_lookup b x : replicate 30 no_buf !! b = Some x → x = no_buf.
Proof. by intros [-> _]%lookup_replicate. Qed.

(** A cache that has read nothing says what is on the disk. *)
Lemma boot_view s :
  bufs s = replicate 30 no_buf → lru s = seq 0 30 → ide_idle s → (∀ n, block_ok (sector s 1 n)) →
  cview [] s (sector s 1) (sector s 1) ∅.
Proof.
  intros Hb Hl Hi Hd. split.
  - assert (Hfree : ∀ b x, bufs s !! b = Some x → x = no_buf) by (intros b x; rewrite Hb; apply no_buf_lookup).
    split; try done.
    + by rewrite Hb.
    + by rewrite Hl.
    + constructor.
    + intros b x ->%Hfree. split; try done; [|by left|].
      * by compute_done.
      * by intros []%elem_of_nil.
    + intros b c x y ->%Hfree. done.
  - by intros b n []%elem_of_nil.
  - intros n. unfold content. rewrite Hb. done.
  - done.
  - intros n. split; [|by intros []%elem_of_empty]. intros (b & x & Hx & Hdev & _). rewrite Hb in Hx.
    apply no_buf_lookup in Hx as ->. done.
Qed.

(** ** The image *)
Lemma image_sector n : block_ok (sector image 1 n).
Proof.
  unfold sector. destruct (disk image !! (1, n)) as [d|] eqn:E; [|by compute_done]. cbn.
  assert (Hall : map_Forall (λ _ d, block_ok d) sample_disk) by compute_done. by apply (Hall _ _ E).
Qed.

Lemma image_view : cview [] image (sector image 1) (sector image 1) ∅.
Proof. apply boot_view; try done. apply image_sector. Qed.

Lemma image_idle : fs_idle image (sector image 1).
Proof. split; [apply image_view|split|..]; done. Qed.

Abbreviation img := (sector image 1).

Lemma image_nd : nd img 2 = swap_dinode.
Proof. vm_compute. reflexivity. Qed.

Lemma image_live n : live (nd img) n → n = 2.
Proof.
  intros [Hn Ht]. assert (Hall : Forall (λ n, n = 2 ∨ d_type (nd img n) = 0) (seqZ 1 199)) by compute_done.
  rewrite Forall_forall in Hall. destruct (Hall n); [|done|done]. apply elem_of_seqZ. clia.
Qed.

Lemma image_wf : wf_inode img swap_dinode.
Proof.
  assert (Hb : Forall (λ bn, blk img swap_dinode bn = 59 + bn) (seqZ 0 8)) by compute_done.
  assert (Hz : Forall (λ bn, addr swap_dinode bn = 0) (seqZ 8 4)) by compute_done.
  rewrite Forall_forall in Hb, Hz.
  assert (Hn : nblk (d_size swap_dinode) = 8) by done. split; rewrite ?Hn; try done.
  - intros bn Hbn. rewrite Hb by (apply elem_of_seqZ; lia). dlia.
  - intros bn Hbn. apply Hz, elem_of_seqZ. lia.
Qed.

Lemma image_fsinv : fsinv img (nd img).
Proof.
  assert (Hu : used_blocks img swap_dinode = seqZ 59 8) by (vm_compute; reflexivity).
  split.
  - intros n ->%image_live. rewrite image_nd. apply image_wf.
  - intros n ->%image_live. rewrite image_nd, Hu. apply NoDup_seqZ.
  - by intros n n' b ->%image_live ->%image_live.
  - intros n b ->%image_live. rewrite image_nd, Hu. revert b. rewrite <- Forall_forall. compute_done.
  - intros b Hb. revert b Hb. assert (Hall : Forall (λ b, bitset (img BMAP) b = true) (seqZ 0 59)) by compute_done.
    intros b Hb. rewrite Forall_forall in Hall. apply Hall, elem_of_seqZ. dlia.
Qed.

Lemma image_state : fs_state image img.
Proof.
  assert (Hi : ∀ j y, inodes image !! j = Some y → 0 < i_ref y → j = 0%nat ∧ y = swap_inode).
  { intros [|j] y; [by intros [= <-]|]. change (inodes image !! S j) with (replicate 49 no_inode !! j).
    by intros [-> _]%lookup_replicate. }
  split; [apply image_idle|done|apply image_fsinv|]. split; [done|..].
  - intros j y Hj Hr Hv. destruct (Hi j y Hj Hr) as [-> ->].
    change (i_inum swap_inode) with 2. by rewrite image_nd.
  - intros j j' y y' Hj Hj' Hr Hr' _ _. destruct (Hi j y Hj Hr) as [-> _], (Hi j' y' Hj' Hr') as [-> _]. done.
Qed.

Lemma image_open : open_file image 0 swap_file_entry 0 swap_inode 2.
Proof.
  split; try done. intros [|f'] fl' Hne; [done|]. change (files image !! S f') with (replicate 99 no_file !! f').
  by intros [-> _]%lookup_replicate.
Qed.

(** ** The kernel on it *)
(** Process [q] runs on the sample machine, with any registers. *)
Lemma sample_ready k q c2 c3 :
  k_mach k = set_cr2 c2 (set_cr3 c3 sample_mach) → procs (k_pt k) = q :: replicate 63 unused_proc →
  state q = RUNNING → pchan q = None → fs_ready k.
Proof.
  intros Hm Hps Hs Hc. set (c := mkCpu 0 0 FL_IF (Some 0%nat) 1 0).
  assert (Hcpu : cpu_ok (k_mach k) 0 c) by (rewrite Hm; destruct sample_cpu; by split).
  assert (Hl : ∀ l, fs_lock l = true → all_locks !! l = Some free_lock).
  { assert (Hi : Forall (λ i, all_locks !! Linode i = Some free_lock) (seq 0 50)) by (vm_compute; repeat constructor).
    assert (Hb : Forall (λ b, all_locks !! Lbuf b = Some free_lock) (seq 0 30)) by (vm_compute; repeat constructor).
    rewrite Forall_forall in Hi, Hb.
    intros [] Hl; try done; apply Nat.leb_le in Hl; [apply Hi|apply Hb]; apply elem_of_seq; lia. }
  split.
  - exists 0%nat, q. split_and!; try done; [|by rewrite Hps]. by exists 0%nat, c.
  - intros l Hf. split; [by exists 0%nat, c|]. exists "lock". rewrite Hm. by apply Hl.
  - intros ch _ p. rewrite Hps. intros [->|Hq]%elem_of_cons; [by rewrite Hs|]. apply elem_of_replicate in Hq as [-> _]. done.
Qed.

Definition fs_kernel : kernel := set_k_fs image sample_kernel.

Lemma fs_kernel_ready : fs_ready fs_kernel.
Proof. by apply (sample_ready fs_kernel sample_proc 0 0). Qed.
