(* ===== verification/SampleDir.v ===== *)
(** A small concrete tree of directories, on which the theorems on names are instantiated:
    [/] with a directory [d], which has a file [f] and an unused entry. *)

From S2P Require Import Prelude Params Bytes State Spinlock Mem Kalloc PageTable Uaccess Procs Sched SchedSpec Bio BioSpec CacheSpec BlockSpec Log LogSpec CommitSpec CrashSpec Inode BallocSpec DiskSpec BmapSpec DinodeSpec Console Fs WriteSpec ReadSpec File FsSpec DirSpec IcacheSpec DirThms DirLink Sample SampleFs.

Definition entry (n : Z) (nm : list Z) : list Z := dirent_bytes (mkDirent n (strncpy_l 14 nm)).
Definition one_block (type size b : Z) : dinode := mkDinode type 0 0 1 size (b :: replicate 12 0).

Definition dot : list Z := [46].
Definition dotdot : list Z := [46; 46].

Definition tree_disk : gmap (Z * Z) (list Z) :=
  list_to_map
    [((1, 32), splice (splice (splice zero_block (ioff 1) (dinode_bytes (one_block T_DIR 48 59)))
        (ioff 2) (dinode_bytes (one_block T_DIR 64 60))) (ioff 3) (dinode_bytes (one_block T_FILE 5 61)));
     ((1, 58), in_block (replicate 7 255 ++ [63]));
     ((1, 59), in_block (entry 1 dot ++ entry 1 dotdot ++ entry 2 [100]));
     ((1, 60), in_block (entry 2 dot ++ entry 1 dotdot ++ entry 0 [] ++ entry 3 [102]))].
Definition tree_image (l : list inode) : fsys :=
  mkFsys tree_disk [] None [] 0x40 1 (replicate 30 no_buf) (seq 0 30) []
    (mkLogst 2 LOGSIZE 0 0 1 (mkLogheader 0 (replicate 30 0))) mkfs_sb l (replicate 100 no_file) ∅.
Abbreviation tree := (sector (tree_image []) 1).

Lemma tree_sector n : block_ok (tree n).
Proof.
  unfold sector. destruct (disk (tree_image []) !! (1, n)) as [d|] eqn:E; [|by compute_done]. cbn.
  assert (Hall : map_Forall (λ _ d, block_ok d) tree_disk) by compute_done. by apply (Hall _ _ E).
Qed.

Lemma tree_view l : cview [] (tree_image l) tree tree ∅.
Proof. apply (boot_view (tree_image l)); try done. apply tree_sector. Qed.

Lemma tree_idle l : fs_idle (tree_image l) tree.
Proof. split; [apply tree_view|split|..]; done. Qed.

Lemma tree_live n : live (nd tree) n → n = 1 ∨ n = 2 ∨ n = 3.
Proof.
  intros [Hn Ht]. assert (Hall : Forall (λ n, n = 1 ∨ n = 2 ∨ n = 3 ∨ d_type (nd tree n) = 0) (seqZ 1 199)) by compute_done.
  rewrite Forall_forall in Hall. destruct (Hall n) as [?|[?|[?|?]]]; auto; [|done]. apply elem_of_seqZ. clia.
Qed.

Lemma tree_nd : nd tree 1 = one_block T_DIR 48 59 ∧ nd tree 2 = one_block T_DIR 64 60 ∧ nd tree 3 = one_block T_FILE 5 61.
Proof. vm_compute. done. Qed.

Lemma one_block_wf C t size b : 0 < size ≤ 512 → nmeta ≤ b < FSSIZE →
  wf_inode C (one_block t size b) ∧ used_blocks C (one_block t size b) = [b].
Proof.
  intros Hs Hb. assert (Hn : nblk (d_size (one_block t size b)) = 1) by (unfold nblk; cbn; clia).
  assert (Hz : Forall (λ bn, addr (one_block t size b) bn = 0) (seqZ 1 12)) by (repeat constructor).
  rewrite Forall_forall in Hz. split; [|unfold used_blocks; rewrite Hn; done]. split; rewrite ?Hn; try done.
  - cbn. clia.
  - intros bn Hbn. assert (bn = 0) as -> by lia. done.
  - intros bn Hbn. apply Hz, elem_of_seqZ. lia.
Qed.

Lemma tree_fsinv : fsinv tree (nd tree).
Proof.
  destruct tree_nd as (E1 & E2 & E3).
  assert (Hall : ∀ n, live (nd tree) n → wf_inode tree (nd tree n) ∧ used_blocks tree (nd tree n) = [58 + n] ∧ 1 ≤ n ≤ 3).
  { intros n [-> | [-> | ->]]%tree_live; rewrite ?E1, ?E2, ?E3;
      (edestruct one_block_wf as [Hw ->]; [| |split; [exact Hw|split; [done|lia]]]); dlia. }
  split.
  - intros n Hn. by apply Hall.
  - intros n Hn. destruct (Hall n Hn) as (_ & -> & _). apply NoDup_singleton.
  - intros n n' b Hn Hn' Hne. destruct (Hall n Hn) as (_ & -> & _), (Hall n' Hn') as (_ & -> & _). rewrite !list_elem_of_singleton. lia.
  - intros n b Hn. destruct (Hall n Hn) as (_ & -> & Hr). rewrite list_elem_of_singleton. intros ->.
    assert (n = 1 ∨ n = 2 ∨ n = 3) as [-> | [-> | ->]] by lia; vm_compute; done.
  - intros b Hb. assert (Hbits : Forall (λ b, bitset (tree BMAP) b = true) (seqZ 0 59)) by compute_done.
    rewrite Forall_forall in Hbits. apply Hbits, elem_of_seqZ. dlia.
Qed.

Lemma tree_dirs : dirs_ok tree.
Proof.
  destruct tree_nd as (E1 & E2 & E3).
  assert (Hn : ∀ n, n = 1 ∨ n = 2 ∨ n = 3 → live (nd tree) n ∧ d_nlink (nd tree n) ≠ 0).
  { intros n [-> | [-> | ->]]; unfold live; rewrite ?E1, ?E2, ?E3; cbn; (split; [split; [clia|done]|done]). }
  assert (Hd : Forall (λ n, Forall (λ e, de_inum e = 0 ∨ de_inum e = 1 ∨ de_inum e = 2 ∨ de_inum e = 3) (dir_of tree n)) [1; 2]) by compute_done.
  intros n Hl Ht. assert (Hin : n ∈ [1; 2]).
  { destruct (tree_live n Hl) as [-> | [-> | ->]]; [by left|by right; left|]. by rewrite E3 in Ht. }
  rewrite Forall_forall in Hd. specialize (Hd n Hin). rewrite Forall_forall in Hd. split; [done|done| |].
  - destruct (tree_live n Hl) as [-> | [-> | ->]]; rewrite ?E1, ?E2, ?E3 in *; [by exists 3%nat|by exists 4%nat|done].
  - intros e He H0. destruct (Hd e He) as [?|?]; [done|by apply Hn].
Qed.

(** ** Nothing cached *)
Definition tree_kernel : kernel := set_k_fs (tree_image (replicate 50 no_inode)) sample_kernel.

Lemma tree_ready l : fs_ready (set_k_fs (tree_image l) sample_kernel).
Proof. by apply (sample_ready (set_k_fs (tree_image l) sample_kernel) sample_proc 0 0). Qed.

Lemma tree_kernel_view : iview [] tree_kernel tree tree ∅.
Proof.
  assert (Hno : ∀ j y, inodes (k_fs tree_kernel) !! j = Some y → y = no_inode) by (intros j y Hy; by apply lookup_replicate in Hy as [-> _]).
  split; [apply tree_ready|done|apply tree_view|rewrite size_empty; lia|by intros n []%elem_of_empty|apply tree_fsinv| |].
  - split; [done|intros j y ->%Hno; done|intros j j' y y' ->%Hno; done].
  - intros j y ->%Hno. split_and!; [done|by left|done].
Qed.

(** "/d//f" is inode 3. *)
Lemma namex_resolves_witness :
  ∃ jp name s', namex [47; 100; 47; 47; 102] false (replicate 14 0) tree_kernel = Ok (Some (jp, name)) (set_k_fs s' tree_kernel) ∧
    entry_for s' jp 3 ∧ imoved (one jp) (k_fs tree_kernel) s'.
Proof.
  assert (Hres : resolve tree false 1 (split_path [47; 100; 47; 47; 102]) = Some (3, [])) by (vm_compute; reflexivity).
  assert (H : followed tree tree ∅ (k_fs tree_kernel) tree_kernel (resolve tree false 1 (split_path [47; 100; 47; 47; 102])) false
    (namex [47; 100; 47; 47; 102] false (replicate 14 0) tree_kernel)).
  { apply (namex_resolves tree tree ∅ tree_kernel [47; 100; 47; 47; 102] false (replicate 14 0) 1 tree_kernel_view tree_dirs).
    - intros [|i]; [exists 1%nat|exists 0%nat]; exists no_inode; (split; [discriminate|split; reflexivity]).
    - destruct tree_nd as (E1 & _). split; [split; [clia|rewrite E1; discriminate]|]. rewrite bool_decide_true by reflexivity.
      split; [reflexivity|]. rewrite E1. discriminate.
    - repeat constructor; discriminate. }
  rewrite Hres in H. destruct H as (jp & name & s' & Hr & _ & Hm & He & _).
  exists jp, name, s'. split; [exact Hr|]. split; [exact He|exact Hm].
Defined.

(** ** The directory [d] locked, in a transaction *)
Definition d_inode : inode := mkInode 1 2 1 (mkSleeplock 1 3) 1 T_DIR 0 0 1 64 (60 :: replicate 12 0).
Definition d_image : fsys := tree_image (d_inode :: replicate 49 no_inode).
Definition link_kernel : kernel := set_k_fs (set_log (set_outstanding 1 (log d_image)) d_image) sample_kernel.

Lemma d_cached j y : inodes (k_fs link_kernel) !! j = Some y → (j = 0%nat ∧ y = d_inode) ∨ y = no_inode.
Proof.
  destruct j as [|j]; [by intros [= <-]; left|]. change (inodes (k_fs link_kernel) !! S j) with (replicate 49 no_inode !! j).
  intros [-> _]%lookup_replicate. by right.
Qed.

Lemma link_kernel_tx : dirtx [0%nat] link_kernel tree tree 0 0 d_inode 2.
Proof.
  destruct tree_nd as (_ & E2 & _). assert (Hl : live (nd tree) 2) by (unfold live; by rewrite E2).
  assert (Htx : tx [] (k_fs link_kernel) tree tree 0) by apply (begin_op_ok _ tree (tree_ready _) (tree_idle (d_inode :: replicate 49 no_inode))).
  assert (Hr : fs_ready link_kernel) by exact (fs_ready_fs _ _ (tree_ready [])). split.
  - split; [exact Hr|split; reflexivity|exact Htx|apply tree_fsinv|exact Hl|reflexivity|reflexivity|reflexivity|by rewrite E2].
  - split; [exact Hr|reflexivity|apply Htx|compute_done|intros n; by rewrite elem_of_list_to_set|apply tree_fsinv| |].
    + split; [reflexivity|..].
      * intros j y [[-> ->]| ->]%d_cached; [|by intros ?]. intros _ _. change (i_inum d_inode) with 2. rewrite E2. split; [reflexivity|]. split; [clia|reflexivity].
      * intros j j' y y' [[-> ->]| ->]%d_cached [[-> ->]| ->]%d_cached; done.
    + intros j y [[-> ->]| ->]%d_cached; (split_and!; [done|by auto|]); [intros []; left|done].
  - by split.
  - apply tree_dirs; [done|by rewrite E2].
Qed.

(** A second name for [f], which goes to the unused entry, and a name that is there. *)
Lemma dirlink_links_witness :
  (∃ s' C', dirlink 0 [103] 3 link_kernel = Ok 0 (set_k_fs s' link_kernel) ∧ fst <$> dir_find (dir_of C' 2) [103] = Some 3 ∧
    fst <$> dir_find (dir_of C' 2) [102] = Some 3) ∧
  (∃ s', dirlink 0 [102] 3 link_kernel = Ok (-1) (set_k_fs s' link_kernel)).
Proof.
  destruct tree_nd as (_ & E2 & E3). assert (Hl : live (nd tree) 3) by (unfold live; by rewrite E3).
  assert (Hroom : has_room (k_fs link_kernel)) by (by exists 1%nat, no_inode).
  pose proof (λ nm Hnm H1 H2 H3, dirlink_links link_kernel tree tree 0 0 d_inode 2 nm 3 link_kernel_tx Hroom Hnm Hl H1 H2 H3) as Hlink.
  split.
  - specialize (Hlink [103]). assert (Hf : dir_find (dir_of tree 2) [103] = None) by (vm_compute; reflexivity).
    assert (Hf' : dir_find (dir_of tree 2) [102] = Some (3, 48)) by (vm_compute; reflexivity). rewrite Hf in Hlink.
    destruct Hlink as (s' & C' & m' & x' & off & Hr & _ & _ & Hpl & Hdir & _).
    + repeat constructor; lia.
    + by rewrite E3.
    + lia.
    + intros _. rewrite E2. split; [done|]. change (need _ _) with 0. lia.
    + exists s', C'. split; [exact Hr|]. split; rewrite Hdir; [done|]. rewrite bool_decide_false by done. by rewrite Hf'.
  - specialize (Hlink [102]). assert (Hf : dir_find (dir_of tree 2) [102] = Some (3, 48)) by (vm_compute; reflexivity). rewrite Hf in Hlink.
    destruct Hlink as (s' & Hr & _); [repeat constructor; lia|by rewrite E3|lia|intros _; rewrite E2; split; [done|]; change (need _ _) with 0; lia|done|].
    by exists s'.
Defined.
