(* ===== verification/ConsoleSpec.v ===== *)
(** The console as a line editor ([console.c]): what is typed can be edited until the line is
    ended, and is then delivered, line by line, to the processes that read. *)

From S2P Require Import Prelude Params Bytes State Spinlock Mem Kalloc PageTable Uaccess Procs Sched SchedSpec Bio BioSpec CacheSpec BlockSpec Log LogSpec CommitSpec CrashSpec Inode BallocSpec DiskSpec BmapSpec DinodeSpec Console Fs WriteSpec ReadSpec File FsSpec Sample SampleFs.

(** ** The screen *)
Record screen_ok (s : consst) : Prop := mkScreenOk {
  so_crt : length (crt s) = 2000%nat;
  so_pos : 0 ≤ crt_pos s < 24 * 80;
  so_panicked : panicked s = 0
}.
(** The input is as it was. *)
Record same_input (s s' : consst) : Prop := mkSameInput {
  si_buf : input_buf s' = input_buf s;
  si_r : input_r s' = input_r s;
  si_w : input_w s' = input_w s;
  si_e : input_e s' = input_e s
}.
(** The serial line, and whether the console is locked. *)
Definition line (s : consst) : Z * list Z * Z := (uart s, uart_out s, cons_locking s).
(** The bytes [l] have been sent to the serial line, if there is one. *)
Definition sent (l : list Z) (s s' : consst) : Prop :=
  line s' = (uart s, uart_out s ++ (if truthy (uart s) then l else []), cons_locking s).
Definition shown (s s' : consst) : Prop := same_input s s' ∧ (screen_ok s → screen_ok s').

Section screen.
Implicit Types (k : kernel) (s : consst) (c pos : Z).

Lemma shown_refl s : shown s s.
Proof. done. Qed.
Lemma shown_trans s1 s2 s3 : shown s1 s2 → shown s2 s3 → shown s1 s3.
Proof. intros [[] ?] [[] ?]. split; [split; congruence|auto]. Qed.

Lemma uartputc_ok k c : ∃ s, uartputc c k = Ok tt (set_k_cons s k) ∧ shown (k_cons k) s.
Proof.
  unfold uartputc, getc_, modc. rewrite bind_gets. destruct (truthy _); cbn [when].
  - eexists. split; [reflexivity|]. split; [done|by intros [? ? ?]].
  - exists (k_cons k). split; [by destruct k|apply shown_refl].
Qed.

Lemma set_crt_at_ok k i v : 0 ≤ i < 2000 → length (crt (k_cons k)) = 2000%nat →
  ∃ l, set_crt_at i v k = Ok tt (set_k_cons (set_crt l (k_cons k)) k) ∧ length l = 2000%nat.
Proof.
  intros Hi Hl. unfold set_crt_at, getc_, modc. rewrite bind_gets. rewrite aset_in by lia. rewrite bind_or_ub.
  eexists. split; [reflexivity|]. by rewrite length_insert.
Qed.

Lemma length_scroll_up l pos : length l = 2000%nat → 0 ≤ pos ≤ 1920 → length (scroll_up l pos) = 2000%nat.
Proof.
  intros Hl Hp. unfold scroll_up. rewrite !length_app, !length_take, !length_drop, length_replicate, !length_app, !length_take, !length_drop. lia.
Qed.

Lemma land_ffff pos : 0 ≤ pos < 65536 → Z.land pos 0xffff = pos.
Proof. intros Hp. change 0xffff with (Z.ones 16). rewrite Z.land_ones by lia. apply Z.mod_small. lia. Qed.

(** Where a character leaves the cursor. *)
Lemma advance_ok k c : 
  screen_ok (k_cons k) → ∃ l pos, advance c (crt_pos (k_cons k)) k = Ok pos (set_k_cons (set_crt l (k_cons k)) k) ∧
    length l = 2000%nat ∧ 0 ≤ pos ≤ 24 * 80.
Proof.
  intros [Hl Hp _]. unfold advance. pose proof (Z.rem_bound_pos (crt_pos (k_cons k)) 80).
  pose proof (Z.quot_rem' (crt_pos (k_cons k)) 80). repeat case_match.
  - eexists (crt (k_cons k)), _. split; [by destruct k as [? ? ? ? []]|]. split; [done|]. lia.
  - eexists (crt (k_cons k)), _. split; [by destruct k as [? ? ? ? []]|]. split; [done|]. lia.
  - eexists (crt (k_cons k)), _. split; [by destruct k as [? ? ? ? []]|]. split; [done|]. lia.
  - edestruct (set_crt_at_ok k (crt_pos (k_cons k))) as (l & Hs & Hl'); [lia|done|].
    rewrite (bind_ok _ _ _ _ _ Hs). eexists l, _. split; [done|]. split; [done|]. lia.
Qed.

Lemma cgaputc_ok k c : screen_ok (k_cons k) → ∃ s, cgaputc c k = Ok tt (set_k_cons s k) ∧ shown (k_cons k) s ∧ line s = line (k_cons k).
Proof.
  intros Hs. destruct (advance_ok k c Hs) as (l & pos & Ha & Hl & Hp). unfold cgaputc, getc_, modc. rewrite bind_gets.
  rewrite (bind_ok _ _ _ _ _ Ha). rewrite (proj2 (Z.ltb_ge _ _)), (proj2 (Z.ltb_ge _ _)) by lia. cbn [orb].
  destruct (Z.leb_spec 24 (Z.quot pos 80)) as [Hq|Hq].
  - pose proof (Z.quot_rem' pos 80). pose proof (Z.rem_bound_pos pos 80).
    rewrite bind_assoc, bind_modify, bind_ret, bind_modify. rewrite land_ffff by lia.
    edestruct set_crt_at_ok as (l' & -> & Hl'); [|cbn; apply length_scroll_up; [done|lia]|]; [lia|].
    eexists. split; [reflexivity|]. split; [|done]. split; [done|]. intros [? ? ?]. split; cbn; [done|lia|done].
  - pose proof (Z.quot_rem' pos 80). pose proof (Z.rem_bound_pos pos 80).
    rewrite bind_ret, bind_modify. rewrite land_ffff by lia.
    edestruct set_crt_at_ok as (l' & -> & Hl'); [|cbn; exact Hl|]; [lia|].
    eexists. split; [reflexivity|]. split; [|done]. split; [done|]. intros [? ? ?]. split; cbn; [done|lia|done].
Qed.

(** Printing a character never panics, and leaves the input alone. *)
Lemma consputc_ok k c : screen_ok (k_cons k) → ∃ s, consputc c k = Ok tt (set_k_cons s k) ∧ shown (k_cons k) s.
Proof.
  intros Hs. unfold consputc, getc_. rewrite bind_gets. rewrite (so_panicked _ Hs), truthy_0.
  assert (Hu : ∃ s, (if c =? BACKSPACE then uartputc 8;; uartputc 32;; uartputc 8 else uartputc c) k = Ok tt (set_k_cons s k) ∧ shown (k_cons k) s).
  { case_match; [|apply uartputc_ok]. destruct (uartputc_ok k 8) as (s1 & H1 & Hs1). rewrite (bind_ok _ _ _ _ _ H1).
    destruct (uartputc_ok (set_k_cons s1 k) 32) as (s2 & H2 & Hs2). rewrite (bind_ok _ _ _ _ _ H2).
    destruct (uartputc_ok (set_k_cons s2 (set_k_cons s1 k)) 8) as (s3 & -> & Hs3). exists s3. split; [done|].
    eauto using shown_trans. }
  destruct Hu as (s1 & Hu & Hs1). rewrite (bind_ok _ _ _ _ _ Hu).
  destruct (cgaputc_ok (set_k_cons s1 k) c) as (s2 & -> & Hs2 & _); [by apply Hs1|]. exists s2. split; [done|].
  eauto using shown_trans.
Qed.

(** *** [cprintf] *)
Lemma sent_trans l1 l2 s1 s2 s3 : sent l1 s1 s2 → sent l2 s2 s3 → sent (l1 ++ l2) s1 s3.
Proof. unfold sent, line. intros [= H1 H2 H3] [= -> -> ->]. rewrite H1, H2, H3, <- app_assoc. by destruct (truthy (uart s1)). Qed.

Lemma sent_nil s : sent [] s s.
Proof. unfold sent, line. by destruct (truthy _); rewrite app_nil_r. Qed.

Lemma consputc_sends k c : screen_ok (k_cons k) → 0 ≤ c < 256 →
  ∃ s, consputc c k = Ok tt (set_k_cons s k) ∧ shown (k_cons k) s ∧ sent [c] (k_cons k) s.
Proof.
  intros Hs Hc. unfold consputc, getc_. rewrite bind_gets. rewrite (so_panicked _ Hs), truthy_0, (proj2 (Z.eqb_neq c BACKSPACE)) by (unfold BACKSPACE; lia).
  assert (Hu : ∃ s, uartputc c k = Ok tt (set_k_cons s k) ∧ shown (k_cons k) s ∧ sent [c] (k_cons k) s).
  { unfold uartputc, getc_, modc, sent. rewrite bind_gets. destruct (truthy _); cbn [when].
    - eexists. split; [reflexivity|]. split; [split; [done|by intros [? ? ?]]|]. cbn. by rewrite u8_small.
    - exists (k_cons k). split; [by destruct k|]. split; [done|]. by rewrite app_nil_r. }
  destruct Hu as (s1 & Hu & Hs1 & Hl1). rewrite (bind_ok _ _ _ _ _ Hu).
  destruct (cgaputc_ok (set_k_cons s1 k) c) as (s2 & -> & Hs2 & Hl2); [by apply Hs1|]. exists s2. split; [done|].
  split; [eauto using shown_trans|]. unfold sent in *. cbn in Hl2. by rewrite Hl2.
Qed.

(** What a format and its arguments stand for. *)
Fixpoint cformat (fmt : list Z) (args : list parg) : option (list Z) :=
  match fmt with
  | [] => Some []
  | c :: fmt =>
      if negb (c =? 37) then cons c <$> cformat fmt args
      else
        match fmt with
        | [] => Some []
        | d :: fmt =>
            if d =? 100 then match args with Pint x :: args => app (int_chars (s32 x) 10 true) <$> cformat fmt args | _ => None end
            else if (d =? 120) || (d =? 112) then
              match args with Pint x :: args => app (int_chars (s32 x) 16 false) <$> cformat fmt args | _ => None end
            else if d =? 115 then
              match args with Pstr t :: args => app (default [40; 110; 117; 108; 108; 41] t) <$> cformat fmt args | _ => None end
            else if d =? 37 then cons 37 <$> cformat fmt args
            else app [37; d] <$> cformat fmt args
        end
  end.

(** [m] prints the text [l]. *)
Definition types (m : K unit) (l : list Z) : Prop :=
  ∀ k, screen_ok (k_cons k) → bytes_ok l → ∃ s, m k = Ok tt (set_k_cons s k) ∧ shown (k_cons k) s ∧ sent l (k_cons k) s.

Lemma types_ret : types (ret tt) [].
Proof. intros k _ _. exists (k_cons k). split; [by destruct k|]. split; [apply shown_refl|apply sent_nil]. Qed.

Lemma types_bind m1 m2 l1 l2 : types m1 l1 → types m2 l2 → types (m1;; m2) (l1 ++ l2).
Proof.
  intros H1 H2 k Hk [Hb1 Hb2]%Forall_app. destruct (H1 k Hk Hb1) as (s1 & Hr1 & Hs1 & Ht1). rewrite (bind_ok _ _ _ _ _ Hr1).
  destruct (H2 (set_k_cons s1 k)) as (s2 & -> & Hs2 & Ht2); [by apply Hs1|done|]. exists s2. split; [done|].
  split; [eauto using shown_trans|eauto using sent_trans].
Qed.

Lemma types_char c : types (consputc c) [c].
Proof. intros k Hk Hb. apply Forall_cons in Hb as [Hc _]. by apply consputc_sends. Qed.

Lemma types_chars l : types (forM l consputc) l.
Proof. induction l as [|c l IH]; [apply types_ret|]. apply (types_bind _ _ [c] l); [apply types_char|exact IH]. Qed.

Lemma cprintf_go_types n : ∀ fmt args l, (length fmt ≤ n)%nat → cformat fmt args = Some l → types (cprintf_go fmt args) l.
Proof.
  induction n as [|n IH]; intros [|c fmt] args l Hn Hl; cbn in Hn; try lia; cbn [cprintf_go cformat] in *.
  1, 2: injection Hl as <-; apply types_ret.
  destruct (negb (c =? 37)).
  { apply fmap_Some in Hl as (l' & Hl & ->). apply (types_bind _ _ [c]); [apply types_char|apply IH; [lia|done]]. }
  destruct fmt as [|d fmt]; [injection Hl as <-; apply types_ret|]. cbn in Hn.
  repeat case_match; try done; apply fmap_Some in Hl as (l' & Hl & ->).
  - apply types_bind; [apply types_chars|apply IH; [lia|done]].
  - apply types_bind; [apply types_chars|apply IH; [lia|done]].
  - apply types_bind; [apply types_chars|apply IH; [lia|done]].
  - apply (types_bind _ _ [37]); [apply types_char|apply IH; [lia|done]].
  - apply (types_bind _ _ [37] (d :: l')); [apply types_char|]. apply (types_bind _ _ [d]); [apply types_char|apply IH; [lia|done]].
Qed.

(** [cprintf] prints what its format stands for, and changes nothing but the screen and the line. *)
Lemma cprintf_ok k fmt args l :
  screen_ok (k_cons k) → (cons_locking (k_cons k) ≠ 0 → avail Lcons (k_mach k)) → cformat fmt args = Some l → bytes_ok l →
  ∃ s, cprintf fmt args k = Ok tt (set_k_cons s k) ∧ shown (k_cons k) s ∧ sent l (k_cons k) s.
Proof.
  intros Hs Hlk Hl Hb. pose proof (cprintf_go_types _ fmt args l (Nat.le_refl _) Hl) as Ht. unfold cprintf, getc_. rewrite bind_gets.
  destruct (truthy (cons_locking (k_cons k))) eqn:Hlock; cbn [when].
  - assert (Ha : avail Lcons (k_mach k)) by (by apply Hlk, truthy_true). rewrite (bind_ok _ _ _ _ _ (acquire_ok _ _ Ha)).
    destruct (Ht (mod_mach (hold Lcons) k) Hs Hb) as (s & Hr & Hsh & Hse). rewrite (bind_ok _ _ _ _ _ Hr).
    exists s. split; [|done]. rewrite (release_ok Lcons _ (k_mach k) Ha) by done. by destruct k.
  - rewrite bind_ret. destruct (Ht k Hs Hb) as (s & Hr & Hsh & Hse). rewrite (bind_ok _ _ _ _ _ Hr). by exists s.
Qed.
End screen.

(** ** The specification *)

(** The input: what can be read, and the line being typed. *)
Record lines := mkLines { ready : list Z; editing : list Z }.

Inductive cons_op :=
  | Ktype (cs : list Z)
  | Kread (n : nat).
Inductive cons_ans :=
  | Atyped (dump : bool)
  | Aread (r : Z) (l : list Z).

Definition typed_char (c : Z) : Z := if c =? CR then NL else c.
Definition room (l : lines) : Prop := (length (ready l) + length (editing l) < 128)%nat.

(** A character ends the line if it is a newline or control-D, or if it fills the buffer. *)
Definition ends_line (c : Z) (l : lines) : bool :=
  (c =? NL) || (c =? 4) || bool_decide (length (ready l) + length (editing l) = 127)%nat.

(** One character: whether it ends the line, and the input after it. *)
Definition type1 (c : Z) (l : lines) : bool * lines :=
  if c =? 16 (* ^P *) then (false, l)
  else if c =? 21 (* ^U *) then (false, mkLines (ready l) [])
  else if (c =? 8) || (c =? 127) (* ^H, DEL *) then (false, mkLines (ready l) (removelast (editing l)))
  else if bool_decide (c ≠ 0 ∧ room l) then
    let c := typed_char c in
    if ends_line c l then (true, mkLines (ready l ++ editing l ++ [c]) [])
    else (false, mkLines (ready l) (editing l ++ [c]))
  else (false, l).

Fixpoint type_all (cs : list Z) (l : lines) : bool * lines :=
  match cs with
  | [] => (false, l)
  | c :: cs => let '(b, l) := type1 c l in let '(b', l) := type_all cs l in (b || b', l)
  end.

(** What a read of [n] bytes takes: up to the end of the line, or to a control-D, which is left
    for the next read, to see the end of the file, if this one has got something already; [None]
    when it has to wait. *)
Fixpoint read_take (n : nat) (got : bool) (l : list Z) : option (list Z * list Z) :=
  match n, l with
  | O, _ => Some ([], l)
  | S _, [] => None
  | S n, c :: l' =>
      if c =? 4 then Some ([], if got then l else l')
      else if c =? NL then Some ([c], l')
      else '(out, rest) ← read_take n true l'; Some (c :: out, rest)
  end%stdpp.

Definition line_step (o : cons_op) (l : lines) : option (cons_ans * bool * lines) :=
  match o with
  | Ktype cs => let '(b, l) := type_all cs l in Some (Atyped (bool_decide (16 ∈ cs)), b, l)
  | Kread n =>
      '(out, rest) ← read_take n false (ready l);
      Some (Aread (Z.of_nat (length out)) out, false, mkLines rest (editing l))
  end%stdpp.

Fixpoint line_steps (os : list cons_op) (l : lines) : option (list cons_ans * bool * lines) :=
  match os with
  | [] => Some ([], false, l)
  | o :: os =>
      '(a, b, l) ← line_step o l;
      '(rs, b', l) ← line_steps os l;
      Some (a :: rs, b || b', l)
  end%stdpp.

(** ** The representation *)
(** No newline is in the line being typed. *)
Definition lines_ok (l : lines) : Prop := NL ∉ editing l.

Record cons_rep (s : consst) (l : lines) : Prop := mkConsRep {
  cr_buf : length (input_buf s) = 128%nat;
  cr_r : 0 ≤ input_r s < 2 ^ 32;
  cr_w : input_w s = u32 (input_r s + Z.of_nat (length (ready l)));
  cr_e : input_e s = u32 (input_r s + Z.of_nat (length (ready l) + length (editing l)));
  cr_len : (length (ready l) + length (editing l) ≤ 128)%nat;
  cr_bytes : ∀ i c, (ready l ++ editing l) !! i = Some c →
    input_buf s !! Z.to_nat ((input_r s + Z.of_nat i) mod 128) = Some c;
  cr_screen : screen_ok s
}.

Lemma u32_ring128 a : u32 a mod 128 = a mod 128.
Proof. unfold u32. apply Z.mod_mod_divide. by exists (2 ^ 25). Qed.

(** Printing keeps the representation. *)
Lemma cons_rep_shown s s' l : cons_rep s l → shown s s' → cons_rep s' l.
Proof. intros [] [[Hb Hr Hw He] Hs]. split; rewrite ?Hb, ?Hr, ?Hw, ?He; auto. Qed.

Definition erased (s : consst) : consst := set_input_e (u32 (input_e s - 1)) s.
Definition typed_at (c : Z) (s : consst) : consst :=
  set_input_e (u32 (input_e s + 1)) (set_input_buf (<[Z.to_nat (input_e s mod 128) := c]> (input_buf s)) s).
Definition taken1 (s : consst) : consst := set_input_r (u32 (input_r s + 1)) s.

(** The comparisons of the code. *)
Lemma cons_editing s l : cons_rep s l → (input_e s =? input_w s) = bool_decide (editing l = []).
Proof.
  intros [_ Hr Hw He Hl _ _]. rewrite Hw, He. unfold u32. case_bool_decide as Hq.
  - rewrite Hq. apply Z.eqb_eq. cbn [length]. f_equal. lia.
  - apply Z.eqb_neq. destruct (editing l); [done|]. cbn [length] in *. lia.
Qed.

Lemma cons_ready s l : cons_rep s l → (input_r s =? input_w s) = bool_decide (ready l = []).
Proof.
  intros [_ Hr Hw He Hl _ _]. rewrite Hw. unfold u32. case_bool_decide as Hq.
  - rewrite Hq. apply Z.eqb_eq. cbn [length]. lia.
  - apply Z.eqb_neq. destruct (ready l); [done|]. cbn [length] in *. lia.
Qed.

Lemma cons_room s l : cons_rep s l → (u32 (input_e s - input_r s) <? INPUT_BUF) = bool_decide (room l).
Proof.
  intros [_ Hr Hw He Hl _ _]. rewrite He. unfold u32, INPUT_BUF, room.
  case_bool_decide; [apply Z.ltb_lt|apply Z.ltb_ge]; lia.
Qed.

Lemma cons_full s l : cons_rep s l →
  (input_e s =? u32 (input_r s + INPUT_BUF)) = bool_decide (length (ready l) + length (editing l) = 128)%nat.
Proof.
  intros [_ Hr Hw He Hl _ _]. rewrite He. unfold u32, INPUT_BUF.
  case_bool_decide; [apply Z.eqb_eq|apply Z.eqb_neq]; lia.
Qed.

Lemma cons_at s l i c : cons_rep s l → (ready l ++ editing l) !! i = Some c →
  aget (input_buf s) ((input_r s + Z.of_nat i) mod 128) = Some c.
Proof. intros Hr Hc. unfold aget. rewrite (proj2 (Z.leb_le _ _)) by lia. by apply (cr_bytes _ _ Hr). Qed.

Lemma erased_rep s r e c : cons_rep s (mkLines r (e ++ [c])) → cons_rep (erased s) (mkLines r e).
Proof.
  intros [Hb Hr Hw He Hl Hc Hs]. cbn [ready editing] in *. rewrite length_app in *. cbn [length] in *. split; cbn; try done.
  - rewrite He. unfold u32. lia.
  - lia.
  - intros i b Hi. apply Hc. rewrite app_assoc. by apply lookup_app_l_Some.
  - by destruct Hs.
Qed.

Lemma typed_rep s l c : cons_rep s l → room l → cons_rep (typed_at c s) (mkLines (ready l) (editing l ++ [c])).
Proof.
  intros [Hb Hr Hw He Hl Hc Hs] Hroom. unfold room in Hroom. split; cbn; try done.
  - by rewrite length_insert.
  - rewrite He, length_app. cbn [length]. unfold u32. lia.
  - rewrite length_app. cbn [length]. lia.
  - intros i b Hi. rewrite He, u32_ring128. rewrite app_assoc in Hi. apply lookup_snoc_Some in Hi as [[Hi Hb']|[-> ->]].
    + rewrite length_app in Hi. rewrite list_lookup_insert_ne by lia. by apply Hc.
    + rewrite length_app. rewrite list_lookup_insert_eq by lia. done.
  - by destruct Hs.
Qed.

Lemma committed_rep s l : cons_rep s l → cons_rep (set_input_w (input_e s) s) (mkLines (ready l ++ editing l) []).
Proof.
  intros [Hb Hr Hw He Hl Hc Hs]. split; cbn; try done.
  - by rewrite He, length_app.
  - by rewrite He, length_app, Nat.add_0_r.
  - rewrite length_app. lia.
  - by rewrite app_nil_r.
  - by destruct Hs.
Qed.

Lemma taken_rep s c r e : cons_rep s (mkLines (c :: r) e) → cons_rep (taken1 s) (mkLines r e).
Proof.
  intros [Hb Hr Hw He Hl Hc Hs]. cbn [ready editing length] in *. split; cbn [taken1 set_input_r input_buf input_r input_w input_e ready editing]; try done.
  - apply u32_range.
  - rewrite Hw. unfold u32. lia.
  - rewrite He. unfold u32. lia.
  - lia.
  - intros i b Hi. rewrite <- (Hc (S i) b Hi). do 2 f_equal.
    rewrite <- (u32_ring128 (u32 _ + _)), <- (u32_ring128 (input_r s + _)). unfold u32. lia.
  - by destruct Hs.
Qed.

Lemma type1_ok c l : lines_ok l → lines_ok (type1 c l).2.
Proof.
  unfold type1, lines_ok. intros Hl. repeat case_match; cbn; try done; try apply not_elem_of_nil.
  - intros Hin. apply Hl. destruct (editing l) as [|x e _] using rev_ind; [done|]. rewrite removelast_last in Hin. set_solver.
  - rewrite not_elem_of_app, list_elem_of_singleton. split; [done|]. unfold ends_line in *.
    intros Hc. by rewrite <- Hc in *.
Qed.

(** ** Typing *)
Section typing.
Context `{world}.
Implicit Types (k : kernel) (s : consst) (l : lines).

(** What an operation on the console changes: the console, and, if a line has been ended, which
    processes sleep, for all that wait for input are made runnable. *)
Definition cons_after (woke : bool) k k' : Prop :=
  k_mach k' = k_mach k ∧ k_vm k' = k_vm k ∧ k_fs k' = k_fs k ∧
  k_pt k' = k_pt (if woke then woken (Some Cinput) k else k).

Lemma woken_twice c k : woken c (woken c k) = woken c k.
Proof.
  unfold woken, mod_pt. destruct k as [m v t f o]. destruct t as [ps]. unfold set_k_pt, set_procs. cbn. do 2 f_equal.
  rewrite <- list_fmap_compose. apply list_fmap_ext. intros i q _. unfold compose, wake.
  destruct (bool_decide (state q = SLEEPING) && _) eqn:Hq; [done|]. by rewrite Hq.
Qed.

Lemma cons_after_trans b b' k1 k2 k3 : cons_after b k1 k2 → cons_after b' k2 k3 → cons_after (b || b') k1 k3.
Proof.
  intros (Hm & Hv & Hf & Ht) (Hm' & Hv' & Hf' & Ht'). split_and!; [congruence..|]. rewrite Ht'.
  destruct b'; cbn; [|by rewrite orb_false_r]. rewrite orb_true_r. cbn. rewrite Ht. destruct b; [|done].
  exact (f_equal k_pt (woken_twice _ k1)).
Qed.

Lemma cons_after_cons s k : cons_after false k (set_k_cons s k).
Proof. done. Qed.

(** Erasing: the loop of control-U, and control-H. *)
Lemma input_at_ok k i c : aget (input_buf (k_cons k)) (i mod 128) = Some c → input_at i k = Ok c k.
Proof. intros Hc. unfold input_at. rewrite bind_gets. unfold INPUT_BUF. by rewrite u32_ring128, Hc. Qed.

Lemma last_at s r e c : cons_rep s (mkLines r (e ++ [c])) → aget (input_buf s) ((input_e s - 1) mod 128) = Some c.
Proof.
  intros Hr. pose proof (cr_e _ _ Hr) as He. cbn in He. rewrite length_app in He. cbn in He.
  rewrite <- (cons_at s _ (length r + length e) c Hr).
  - f_equal. rewrite He. rewrite <- (u32_ring128 (u32 _ - _)), <- (u32_ring128 (input_r s + _)). unfold u32. lia.
  - cbn. rewrite app_assoc. apply lookup_snoc_Some. right. by rewrite length_app.
Qed.

Lemma erase_ok k r e c :
  cons_rep (k_cons k) (mkLines r (e ++ [c])) →
  ∃ s, (modc (λ s, set_input_e (u32 (input_e s - 1)) s);; consputc BACKSPACE) k = Ok tt (set_k_cons s k) ∧ cons_rep s (mkLines r e).
Proof.
  intros Hr. unfold modc. rewrite bind_modify. apply erased_rep in Hr.
  destruct (consputc_ok (mod_cons erased k) BACKSPACE) as (s & Hc & Hs); [apply Hr|].
  exists s. split; [exact Hc|]. by eapply cons_rep_shown.
Qed.

Lemma kill_line_ok e : ∀ n k r,
  cons_rep (k_cons k) (mkLines r e) → NL ∉ e → (length e ≤ n)%nat →
  ∃ s, kill_line n k = Ok tt (set_k_cons s k) ∧ cons_rep s (mkLines r []).
Proof.
  induction e as [|c e IH] using rev_ind; intros n k r Hr Hn Hl.
  - exists (k_cons k). destruct n; cbn [kill_line]; rewrite bind_gets, (cons_editing _ _ Hr); by destruct k.
  - rewrite length_app in Hl. cbn in Hl. destruct n as [|n]; [lia|]. cbn [kill_line].
    rewrite bind_gets, (cons_editing _ _ Hr). cbn [editing]. rewrite bool_decide_false by (by destruct e).
    rewrite (bind_ok _ _ _ _ _ (input_at_ok k _ c (last_at _ _ _ _ Hr))). rewrite (proj2 (Z.eqb_neq _ _)) by set_solver.
    destruct (erase_ok k r e c Hr) as (s & He & Hs).
    rewrite <- bind_assoc, (bind_ok _ _ _ _ _ He).
    destruct (IH n (set_k_cons s k) r Hs) as (s' & -> & Hs'); [set_solver|lia|]. by exists s'.
Qed.

(** An ordinary character: stored, echoed, and the line delivered if it ends here. *)
Lemma store_ok k l c :
  cons_rep (k_cons k) l → room l → 0 ≤ c < 256 →
  ∃ s, (set_input_at (input_e (k_cons k)) c;; modc (λ s, set_input_e (u32 (input_e s + 1)) s);; consputc c) k = Ok tt (set_k_cons s k) ∧
    cons_rep s (mkLines (ready l) (editing l ++ [c])).
Proof.
  intros Hr Hroom Hc. unfold set_input_at, modc, INPUT_BUF. rewrite bind_assoc, bind_gets, u32_ring128, u8_small by done.
  rewrite aset_in by (rewrite (cr_buf _ _ Hr); lia). rewrite bind_assoc, bind_or_ub, bind_modify, bind_modify.
  pose proof (typed_rep _ _ c Hr Hroom) as Ht.
  destruct (consputc_ok (mod_cons (typed_at c) k) c) as (s & Hs & Hsh); [apply Ht|].
  exists s. split; [exact Hs|]. by eapply cons_rep_shown.
Qed.

Lemma typed_char_range c : 0 ≤ c < 256 → 0 ≤ typed_char c < 256.
Proof. unfold typed_char, NL. case_match; lia. Qed.

Lemma ordinary_ok k l c :
  cons_rep (k_cons k) l → room l → avail Lptable (k_mach k) → 0 ≤ c < 256 →
  ∃ k', (set_input_at (input_e (k_cons k)) c;;
      modc (λ s, set_input_e (u32 (input_e s + 1)) s);;
      consputc c;;
      s ← gets k_cons;
      when ((c =? NL) || (c =? Ctl 68) || (input_e s =? u32 (input_r s + INPUT_BUF))) (
        modc (λ s, set_input_w (input_e s) s);;
        wakeup (Some Cinput))) k = Ok tt k' ∧
    cons_rep (k_cons k') (if ends_line c l then mkLines (ready l ++ editing l ++ [c]) [] else mkLines (ready l) (editing l ++ [c])) ∧
    cons_after (ends_line c l) k k'.
Proof.
  intros Hr Hroom Ha Hc. destruct (store_ok k l c Hr Hroom Hc) as (s & Hs & Hrs).
  rewrite <- bind_assoc in Hs. do 2 rewrite <- bind_assoc. rewrite (bind_ok _ _ _ _ _ Hs), bind_gets.
  cbn [set_k_cons k_cons]. rewrite (cons_full _ _ Hrs). cbn [ready editing].
  assert (He : (c =? NL) || (c =? Ctl 68) || bool_decide (length (ready l) + length (editing l ++ [c]) = 128)%nat = ends_line c l).
  { unfold ends_line. f_equal. apply bool_decide_ext. rewrite length_app. cbn. lia. }
  rewrite He. destruct (ends_line c l); cbn [when].
  - unfold modc. rewrite bind_modify, wakeup_ok by done. eexists. split; [done|]. split; [|done].
    apply committed_rep in Hrs. exact Hrs.
  - by eexists.
Qed.

Lemma console_char_ok c k l :
  cons_rep (k_cons k) l → lines_ok l → avail Lptable (k_mach k) → 0 ≤ c < 256 → c ≠ 16 →
  ∃ k', console_char c k = Ok tt k' ∧ cons_rep (k_cons k') (type1 c l).2 ∧ cons_after (type1 c l).1 k k'.
Proof.
  intros Hr Hl Ha Hc Hp. unfold console_char, type1. rewrite bind_gets, (proj2 (Z.eqb_neq c 16)) by done.
  change (Ctl 85) with 21. change (Ctl 72) with 8. destruct (c =? 21).
  { pose proof (cr_len _ _ Hr). destruct (kill_line_ok (editing l) (Z.to_nat INPUT_BUF) k (ready l)) as (s & -> & Hs);
      [by destruct l|done|unfold INPUT_BUF; lia|]. by eexists. }
  destruct ((c =? 8) || (c =? 127)).
  { rewrite (cons_editing _ _ Hr). destruct l as [r e]. cbn [editing ready]. destruct e as [|x e _] using rev_ind.
    - rewrite bool_decide_true by done. cbn [negb when]. by exists k.
    - rewrite bool_decide_false by (by destruct e). cbn [negb when]. rewrite removelast_last.
      destruct (erase_ok k r e x Hr) as (s & -> & Hs). by eexists. }
  rewrite (cons_room _ _ Hr). case_bool_decide as Hroom; case_bool_decide as Hd; try tauto.
  - rewrite (proj2 (Z.eqb_neq c 0)) by tauto. cbn [negb andb when]. fold (typed_char c).
    destruct (ordinary_ok k l (typed_char c) Hr Hroom Ha (typed_char_range _ Hc)) as (k' & Hk & Hs & Haf).
    exists k'. split; [exact Hk|]. destruct (ends_line _ _); done.
  - rewrite (proj2 (Z.eqb_eq c 0)); [by exists k|]. destruct (decide (c = 0)); [done|tauto].
  - rewrite andb_false_r. by exists k.
Qed.

Lemma type_all_ok cs : ∀ l, lines_ok l → lines_ok (type_all cs l).2.
Proof.
  induction cs as [|c cs IH]; intros l Hl; [done|]. cbn. pose proof (type1_ok c l Hl) as H1. destruct (type1 c l) as [b l1].
  specialize (IH l1 H1). by destruct (type_all cs l1).
Qed.

Lemma console_chars_ok cs : ∀ d k l,
  cons_rep (k_cons k) l → lines_ok l → avail Lptable (k_mach k) → Forall (λ c, 0 ≤ c < 256) cs →
  ∃ k', console_chars cs d k = Ok (d || bool_decide (16 ∈ cs)) k' ∧ cons_rep (k_cons k') (type_all cs l).2 ∧ cons_after (type_all cs l).1 k k'.
Proof.
  induction cs as [|c cs IH]; intros d k l Hr Hl Ha Hcs; cbn [console_chars type_all].
  { exists k. rewrite bool_decide_false, orb_false_r by set_solver. done. }
  inversion_clear Hcs as [|? ? Hc Hcs']. change (Ctl 80) with 16. destruct (Z.eqb_spec c 16) as [->|Hp].
  - destruct (IH true k l Hr Hl Ha Hcs') as (k' & Hk & Hs & Haf). exists k'. unfold type1. cbn [Z.eqb Pos.eqb].
    destruct (type_all cs l) as [b l']. cbn in *. rewrite Hk, (bool_decide_true (16 ∈ 16 :: cs)) by set_solver. by rewrite orb_true_r.
  - destruct (console_char_ok c k l Hr Hl Ha Hc Hp) as (k1 & Hk1 & Hr1 & Ha1). rewrite (bind_ok _ _ _ _ _ Hk1).
    pose proof (type1_ok c l Hl) as Hl1. destruct (type1 c l) as [b l1]. cbn in *.
    destruct (IH d k1 l1 Hr1 Hl1) as (k' & Hk & Hs & Haf); [by rewrite (proj1 Ha1)|done|]. exists k'. rewrite Hk.
    destruct (type_all cs l1) as [b' l']. cbn in *. split_and!; [|done|by eapply cons_after_trans].
    do 2 f_equal. apply bool_decide_ext. rewrite elem_of_cons. split; [by right|by intros [?|?]].
Qed.

Lemma consoleintr_ok cs k l :
  cons_rep (k_cons k) l → lines_ok l → avail Lptable (k_mach k) → avail Lcons (k_mach k) → Forall (λ c, 0 ≤ c < 256) cs →
  ∃ k', consoleintr cs k = Ok (bool_decide (16 ∈ cs)) k' ∧ cons_rep (k_cons k') (type_all cs l).2 ∧ cons_after (type_all cs l).1 k k'.
Proof.
  intros Hr Hl Ht Hc Hcs. unfold consoleintr. rewrite (bind_ok _ _ _ _ _ (acquire_ok _ _ Hc)).
  destruct (console_chars_ok cs false (mod_mach (hold Lcons) k) l) as (k1 & Hk1 & Hr1 & Hm & Hv & Hf & Hp); [done..|by apply avail_hold|done|].
  rewrite (bind_ok _ _ _ _ _ Hk1), (bind_ok _ _ _ _ _ (release_ok _ _ _ Hc Hm)). eexists. split; [done|]. split; [done|].
  split_and!; [done..|]. cbn. rewrite Hp. by destruct (type_all cs l).1.
Qed.
End typing.

(** ** Reading *)
Section reading.
Context {W : world} {DW : DiskWorld}.
Implicit Types (k : kernel) (s : consst) (l : lines).

Lemma read_loop_ok n : ∀ k l acc target out rest,
  cons_rep (k_cons k) l → Z.of_nat n ≤ target < 2 ^ 31 →
  read_take n (bool_decide (Z.of_nat n < target)) (ready l) = Some (out, rest) →
  ∃ s, consoleread_loop local_sink n acc (Z.of_nat n) target k = Ok (Some (Z.of_nat n - Z.of_nat (length out)), acc ++ out) (set_k_cons s k) ∧
    cons_rep s (mkLines rest (editing l)).
Proof.
  induction n as [|n IH]; intros k [r e] acc target out rest Hr Ht Hs; cbn [ready editing] in *.
  { injection Hs as <- <-. exists (k_cons k). cbn. rewrite app_nil_r. by destruct k. }
  destruct r as [|c r]; [done|]. cbn [read_take] in Hs. cbn [consoleread_loop].
  assert (Hw : input_wait patience k = Ok true k).
  { destruct patience; cbn [input_wait]; rewrite bind_gets, (cons_ready _ _ Hr); by cbn [ready]. }
  rewrite (bind_ok _ _ _ _ _ Hw). cbn [negb]. rewrite bind_gets.
  rewrite (bind_ok _ _ _ c _ (input_at_ok k (input_r (k_cons k)) c ltac:(rewrite <- (cons_at _ _ 0 c Hr eq_refl); by rewrite Z.add_0_r))).
  unfold modc. rewrite bind_modify. change (Ctl 68) with 4. pose proof (taken_rep _ _ _ _ Hr) as Hr1. destruct (c =? 4).
  - injection Hs as <- <-. rewrite u32_small by lia. rewrite app_nil_r. cbn [length]. rewrite Z.sub_0_r. case_bool_decide as Hg.
    + rewrite (proj2 (Z.ltb_lt _ _)) by done. exists (k_cons k). split; [|done]. destruct k as [? ? ? ? []]. cbn.
      unfold mod_cons, set_k_cons, set_input_r. cbn. do 3 f_equal. pose proof (cr_r _ _ Hr) as Hb. cbn in Hb. unfold u32. lia.
    + rewrite (proj2 (Z.ltb_ge _ _)) by lia. by eexists.
  - cbn [snk_put local_sink]. rewrite bind_ret. destruct (c =? NL).
    + injection Hs as <- <-. cbn [length]. eexists. split; [|exact Hr1]. do 2 f_equal.
    + destruct (read_take n true r) as [[out' rest']|] eqn:Hrest; [|done]. cbn in Hs. simplify_eq.
      destruct (IH (mod_cons taken1 k) (mkLines r e) (acc ++ [c]) target out' rest Hr1) as (s & Hk & Hrs); [lia| |].
      { by rewrite bool_decide_true by lia. }
      exists s. split; [|done]. replace (Z.of_nat (S n) - 1) with (Z.of_nat n) by lia. etrans; [exact Hk|]. rewrite <- app_assoc. cbn [length app].
      do 3 f_equal. lia.
Qed.

Lemma read_take_length n : ∀ g r out rest, read_take n g r = Some (out, rest) → (length out ≤ n)%nat.
Proof.
  induction n as [|n IH]; intros g r out rest Hs; cbn in Hs; [by simplify_eq|]. destruct r as [|c r]; [done|].
  repeat case_match; simplify_eq/=; try lia. destruct (read_take n true r) as [[o1 r1]|] eqn:Hr; simplify_eq/=.
  apply IH in Hr. lia.
Qed.

Lemma fs_ready_cons s k : fs_ready k → fs_ready (set_k_cons s k).
Proof. intros [(p & q & Hp) Hl Hq]. split; [by exists p, q|done|done]. Qed.

(** The console's inode, locked by the process [p] that reads. *)
Record reading (i : nat) (k : kernel) : Prop := mkReading {
  rd_fs : fs_ready k;
  rd_cons : avail Lcons (k_mach k);
  rd_inode : (i < 50)%nat ∧ ∃ x p q, inodes (k_fs k) !! i = Some x ∧ 0 < i_ref x ∧ i_valid x = 1 ∧
    in_proc k p q ∧ i_lock x = mkSleeplock 1 (pid q)
}.

Lemma relocked i x (l : sleeplock) y f : inodes f !! i = Some x → y = set_i_lock (i_lock x) (set_i_lock l x) → put_inode i y (put_inode i (set_i_lock l x) f) = f.
Proof.
  intros Hx ->. destruct f, x. unfold put_inode, set_inodes, set_i_lock in *. cbn in *. by rewrite list_insert_insert_eq, list_insert_id.
Qed.

Lemma consoleread_ok i n k l out rest :
  reading i k → cons_rep (k_cons k) l → Z.of_nat n < 2 ^ 31 → read_take n false (ready l) = Some (out, rest) →
  ∃ s, consoleread local_sink i [] (Z.of_nat n) k = Ok (Z.of_nat (length out), out) (set_k_cons s k) ∧ cons_rep s (mkLines rest (editing l)).
Proof.
  intros [Hf Hc (Hi & x & p & q & Hx & Href & Hv & Hin & Hlk)] Hr Hn Ht. unfold consoleread.
  rewrite (bind_ok _ _ _ _ _ (iunlock_ok k i x Hf Hi Hx Href ltac:(by rewrite Hlk))).
  set (f := put_inode i (set_i_lock (mkSleeplock 0 0) x) (k_fs k)).
  rewrite (bind_ok _ _ _ _ _ (acquire_ok Lcons (set_k_fs f k) Hc)). rewrite Nat2Z.id, (u32_small (Z.of_nat n)) by lia.
  destruct (read_loop_ok n (mod_mach (hold Lcons) (set_k_fs f k)) l [] (Z.of_nat n) out rest Hr) as (s & Hs & Hrs).
  { lia. }
  { by rewrite bool_decide_false by lia. }
  rewrite (bind_ok _ _ _ _ _ Hs). cbv beta iota.
  rewrite (bind_ok _ _ _ _ _ (release_ok Lcons (set_k_cons s (mod_mach (hold Lcons) (set_k_fs f k))) (k_mach k) Hc eq_refl)).
  rewrite (bind_ok _ _ _ _ _ (ilock_by (set_k_fs f (set_k_cons s k)) p q i (set_i_lock (mkSleeplock 0 0) x) Hin (fs_ready_fs _ f (fs_ready_cons s k Hf)) Hi
    (put_inode_lookup _ _ _ _ Hx) Href Hv eq_refl)).
  exists s. split; [|done]. cbn [k_fs set_k_fs]. unfold f. rewrite (relocked i x _ _ _ Hx) by (by rewrite Hlk).
  assert (Hlen : (length out ≤ n)%nat) by (by eapply read_take_length). rewrite s32_small by lia. cbn [app].
  destruct k. cbn. do 3 f_equal. lia.
Qed.
End reading.

(** ** Any sequence of typing and reading *)
Section console_lines.
Context {W : world} {DW : DiskWorld}.
Implicit Types (k : kernel) (l : lines).

Definition run_cons (i : nat) (o : cons_op) : K cons_ans :=
  match o with
  | Ktype cs => d ← consoleintr cs; ret (Atyped d)
  | Kread n => '(r, l) ← consoleread local_sink i [] (Z.of_nat n); ret (Aread r l)
  end.
Fixpoint run_conss (i : nat) (os : list cons_op) : K (list cons_ans) :=
  match os with
  | [] => ret []
  | o :: os => a ← run_cons i o; rs ← run_conss i os; ret (a :: rs)
  end.

Definition cons_op_ok (o : cons_op) : Prop :=
  match o with
  | Ktype cs => Forall (λ c, 0 ≤ c < 256) cs
  | Kread n => Z.of_nat n < 2 ^ 31
  end.

Lemma in_proc_woken c p q k : in_proc k p q → in_proc (woken c k) p q.
Proof.
  intros (Hm & Hp & Hs & Hc). split_and!; [done| |done|done]. cbn. rewrite list_lookup_fmap, Hp. cbn. unfold wake. by rewrite Hs.
Qed.

Lemma quiet_woken c ch k : quiet k ch → quiet (woken c k) ch.
Proof.
  intros Hq q Hin Hs. cbn in Hin. apply list_elem_of_fmap in Hin as (q' & -> & Hin). unfold wake in *.
  destruct (bool_decide _ && _); [done|]. by apply Hq.
Qed.

Lemma reading_woken i c k : reading i k → reading i (woken c k).
Proof.
  intros [[(p0 & q0 & Hp) Hl Hq] Hc (Hi & x & p & q & Hx & Href & Hv & Hin & Hlk)]. split; [|done|].
  - split; [exists p0, q0; by apply in_proc_woken|done|]. intros ch Hch. by apply quiet_woken, Hq.
  - split; [done|]. exists x, p, q. split_and!; [done..| |done]. by apply in_proc_woken.
Qed.

Lemma reading_after i b k k' : reading i k → cons_after b k k' → reading i k'.
Proof.
  intros Hr (Hm & Hv & Hf & Ht). assert (Hb : reading i (if b then woken (Some Cinput) k else k)) by (destruct b; [by apply reading_woken|done]).
  destruct k' as [m v t f o]. cbn in *. subst. destruct b, k; exact Hb || (destruct Hb as [[] ? ?]; done).
Qed.

Lemma run_cons_ok i o k l a b l' :
  reading i k → cons_rep (k_cons k) l → lines_ok l → cons_op_ok o → line_step o l = Some (a, b, l') →
  ∃ k', run_cons i o k = Ok a k' ∧ cons_rep (k_cons k') l' ∧ lines_ok l' ∧ cons_after b k k'.
Proof.
  intros Hk Hr Hl Ho Hs. destruct o as [cs|n]; cbn in Hs.
  - pose proof (type_all_ok cs l Hl) as Hl'.
    destruct (consoleintr_ok cs k l Hr Hl (fr_lock _ (rd_fs _ _ Hk) Lptable eq_refl) (rd_cons _ _ Hk) Ho) as (k' & Hrun & Hr' & Ha).
    destruct (type_all cs l) as [b0 l0]. simplify_eq. exists k'. cbn [run_cons]. by rewrite (bind_ok _ _ _ _ _ Hrun).
  - destruct (read_take n false (ready l)) as [[out rest]|] eqn:Ht; [|done]. injection Hs as <- <- <-.
    destruct (consoleread_ok i n k l out rest Hk Hr Ho Ht) as (s & Hrun & Hs). eexists. cbn [run_cons]. by rewrite (bind_ok _ _ _ _ _ Hrun).
Qed.

(** C22: The console is a line editor.  Whatever characters are typed and whatever reads are made, in
    any order, if the specification lets every read return without waiting, then each interrupt and
    each read returns what the specification says: a line can be edited with backspace and control-U
    until newline, control-D or a full buffer of 128 characters ends it, only ended lines are
    delivered, in order and without loss, a read stops at the end of the line, and control-D reads as
    the end of the file.  This holds when the indices wrap around at [2 ^ 32], and no character makes
    the screen panic.  If a line was ended, every process that slept for input is runnable;
    otherwise the process table is as before, as are the locks, the memory and the file system. *)
Theorem console_refines_lines i os k l rs b l' :
  reading i k → cons_rep (k_cons k) l → lines_ok l → Forall cons_op_ok os → line_steps os l = Some (rs, b, l') →
  ∃ k', run_conss i os k = Ok rs k' ∧ cons_rep (k_cons k') l' ∧ cons_after b k k'.
Proof.
  revert k l rs b. induction os as [|o os IH]; intros k l rs b Hk Hr Hl Ho Hs; cbn in Hs.
  - simplify_eq. exists k. done.
  - inversion_clear Ho as [|? ? Ho1 Hos]. destruct (line_step o l) as [[[a b1] l1]|] eqn:H1; [|done]. cbn in Hs.
    destruct (line_steps os l1) as [[[rs1 b2] l2]|] eqn:H2; [|done]. injection Hs as <- <- <-.
    destruct (run_cons_ok i o k l a b1 l1 Hk Hr Hl Ho1 H1) as (k1 & Hrun & Hr1 & Hl1 & Ha1).
    destruct (IH k1 l1 rs1 b2 (reading_after _ _ _ _ Hk Ha1) Hr1 Hl1 Hos H2) as (k' & Hrun' & Hr' & Ha').
    exists k'. cbn [run_conss]. rewrite (bind_ok _ _ _ _ _ Hrun), (bind_ok _ _ _ _ _ Hrun'). split_and!; [done|done|by eapply cons_after_trans].
Qed.
End console_lines.

(** ** A console whose indices are about to wrap around, the cursor in the last cell *)
Definition wrap_cons : consst :=
  mkConsst 1 (replicate 128 0) (2 ^ 32 - 2) (2 ^ 32 - 2) (2 ^ 32 - 2) (replicate 2000 0x720) 1919 0 1 [].
Definition cons_inode : inode := set_i_lock (mkSleeplock 1 (pid sample_proc)) swap_inode.
Definition cons_kernel : kernel :=
  set_k_cons wrap_cons (set_k_fs (put_inode 0 cons_inode image) sample_kernel).

#[local] Existing Instance idle_world.

Lemma cons_kernel_reading : reading 0 cons_kernel.
Proof.
  split.
  - by apply (sample_ready cons_kernel sample_proc 0 0).
  - by apply sample_lock.
  - split; [lia|]. exists cons_inode, 0%nat, sample_proc. split_and!; try done.
    split_and!; try done. exists 0%nat, (mkCpu 0 0 FL_IF (Some 0%nat) 1 0). split_and!; try done.
Qed.

Lemma cons_kernel_rep : cons_rep (k_cons cons_kernel) (mkLines [] []).
Proof. split; try done; cbn; lia. Qed.

(** "lx^Hs", newline, an unfinished "ab" that is killed, and "c", control-D. *)
Lemma console_refines_lines_witness :
  ∃ k', run_conss 0 [Ktype [108; 120; 8; 115]; Ktype [13; 97; 98]; Kread 100; Ktype [21; 99; 4]; Kread 5; Kread 5] cons_kernel =
      Ok [Atyped false; Atyped false; Aread 3 [108; 115; 10]; Atyped false; Aread 1 [99]; Aread 0 []] k' ∧
    cons_rep (k_cons k') (mkLines [] []) ∧ cons_after true cons_kernel k'.
Proof.
  apply (console_refines_lines 0 _ cons_kernel (mkLines [] [])).
  - apply cons_kernel_reading.
  - apply cons_kernel_rep.
  - apply not_elem_of_nil.
  - repeat constructor; cbn; try lia; repeat constructor; lia.
  - vm_compute. reflexivity.
Defined.
