(* ===== verification/Kbd.v ===== *)
(** The keyboard ([kbd.c], [kbd.h]) and the receiving side of the serial line ([uart.c]):
    scan codes become characters, which [consoleintr] takes, and a line typed on the keyboard is what [consoleread] delivers. *)

From S2P Require Import Prelude Params State Spinlock Mem Kalloc PageTable Uaccess Procs Sched SchedSpec Bio BioSpec CacheSpec BlockSpec Log LogSpec CommitSpec CrashSpec Inode BallocSpec DiskSpec BmapSpec DinodeSpec Console Fs WriteSpec ReadSpec File FsSpec Sample SampleFs ConsoleSpec.

(** ** The tables of [kbd.h] *)
Definition SHIFT : Z := Z.shiftl 1 0.
Definition CTL : Z := Z.shiftl 1 1.
Definition ALT : Z := Z.shiftl 1 2.
Definition CAPSLOCK : Z := Z.shiftl 1 3.
Definition NUMLOCK : Z := Z.shiftl 1 4.
Definition SCROLLLOCK : Z := Z.shiftl 1 5.
Definition E0ESC : Z := Z.shiftl 1 6.

(** An array of 256 bytes with an initializer: the first elements, then those designated by index;
    the others are zero. *)
Definition designated (l : list Z) (ds : list (Z * Z)) : list Z :=
  foldl (λ t d, <[Z.to_nat d.1 := d.2]> t) (l ++ replicate (256 - length l) 0) ds.

Definition shiftcode : list Z := designated []
  [(0x1D, CTL); (0x2A, SHIFT); (0x36, SHIFT); (0x38, ALT); (0x9D, CTL); (0xB8, ALT)].
Definition togglecode : list Z := designated []
  [(0x3A, CAPSLOCK); (0x45, NUMLOCK); (0x46, SCROLLLOCK)].

Definition normalmap : list Z := designated
  [0; 27; 49; 50; 51; 52; 53; 54;
   55; 56; 57; 48; 45; 61; 8; 9;
   113; 119; 101; 114; 116; 121; 117; 105;
   111; 112; 91; 93; 10; 0; 97; 115;
   100; 102; 103; 104; 106; 107; 108; 59;
   39; 96; 0; 92; 122; 120; 99; 118;
   98; 110; 109; 44; 46; 47; 0; 42;
   0; 32; 0; 0; 0; 0; 0; 0;
   0; 0; 0; 0; 0; 0; 0; 55;
   56; 57; 45; 52; 53; 54; 43; 49;
   50; 51; 48; 46; 0; 0; 0; 0]
  [(0x9C, 0xA); (0xB5, 0x2F); (0xC8, 0xE2); (0xD0, 0xE3); (0xC9, 0xE6); (0xD1, 0xE7); (0xCB, 0xE4); (0xCD, 0xE5); (0x97, 0xE0); (0xCF, 0xE1); (0xD2, 0xE8); (0xD3, 0xE9)].

Definition shiftmap : list Z := designated
  [0; 27; 33; 64; 35; 36; 37; 94;
   38; 42; 40; 41; 95; 43; 8; 9;
   81; 87; 69; 82; 84; 89; 85; 73;
   79; 80; 123; 125; 10; 0; 65; 83;
   68; 70; 71; 72; 74; 75; 76; 58;
   34; 126; 0; 124; 90; 88; 67; 86;
   66; 78; 77; 60; 62; 63; 0; 42;
   0; 32; 0; 0; 0; 0; 0; 0;
   0; 0; 0; 0; 0; 0; 0; 55;
   56; 57; 45; 52; 53; 54; 43; 49;
   50; 51; 48; 46; 0; 0; 0; 0]
  [(0x9C, 0xA); (0xB5, 0x2F); (0xC8, 0xE2); (0xD0, 0xE3); (0xC9, 0xE6); (0xD1, 0xE7); (0xCB, 0xE4); (0xCD, 0xE5); (0x97, 0xE0); (0xCF, 0xE1); (0xD2, 0xE8); (0xD3, 0xE9)].

Definition ctlmap : list Z := designated
  [0; 0; 0; 0; 0; 0; 0; 0;
   0; 0; 0; 0; 0; 0; 0; 0;
   17; 23; 5; 18; 20; 25; 21; 9;
   15; 16; 0; 0; 13; 0; 1; 19;
   4; 6; 7; 8; 10; 11; 12; 0;
   0; 0; 0; 28; 26; 24; 3; 22;
   2; 14; 13; 0; 0; u8 (-17); 0; 0]
  [(0x9C, 0xD); (0xB5, u8 (-17)); (0xC8, 0xE2); (0xD0, 0xE3); (0xC9, 0xE6); (0xD1, 0xE7); (0xCB, 0xE4); (0xCD, 0xE5); (0x97, 0xE0); (0xCF, 0xE1); (0xD2, 0xE8); (0xD3, 0xE9)].

Definition code_at (t : list Z) (i : Z) : Z := default 0 (t !! Z.to_nat i).

(** [charcode[i]] *)
Definition charcode (i : Z) : list Z :=
  if i =? 0 then normalmap else if i =? 1 then shiftmap else ctlmap.

(** The letter with the other case. *)
Definition swap_case (c : Z) : Z :=
  if (97 <=? c) && (c <=? 122) then c + 65 - 97
  else if (65 <=? c) && (c <=? 90) then c + 97 - 65
  else c.

(** A key that is pressed, its code complete. *)
Definition key_down (shift data : Z) : Z * Z :=
  let shift := Z.lor shift (code_at shiftcode data) in
  let shift := Z.lxor shift (code_at togglecode data) in
  let c := code_at (charcode (Z.land shift (Z.lor CTL SHIFT))) data in
  (if truthy (Z.land shift CAPSLOCK) then swap_case c else c, shift).

(** [kbdgetc] once the controller has the byte [data]: the character and the new [shift]. *)
Definition kbd_code (shift data : Z) : Z * Z :=
  if data =? 0xE0 then (0, Z.lor shift E0ESC)
  else if truthy (Z.land data 0x80) then
    let data := if truthy (Z.land shift E0ESC) then data else Z.land data 0x7F in
    (0, Z.land shift (Z.lnot (Z.lor (code_at shiftcode data) E0ESC)))
  else if truthy (Z.land shift E0ESC) then
    key_down (Z.land shift (Z.lnot E0ESC)) (Z.lor data 0x80)
  else key_down shift data.

(** [kbdgetc]; [buf] are the bytes in the buffer of the controller, which sets [KBS_DIB] while there
    are any. *)
Definition kbdgetc (shift : Z) (buf : list Z) : Z * Z * list Z :=
  match buf with
  | [] => (-1, shift, [])
  | data :: buf => (kbd_code shift data, buf)
  end.

(** The characters that a caller gets until [kbdgetc] returns -1. *)
Fixpoint kbd_chars (shift : Z) (buf : list Z) : list Z * Z :=
  match buf with
  | [] => ([], shift)
  | data :: buf =>
      let '(c, shift) := kbd_code shift data in
      let '(cs, shift) := kbd_chars shift buf in
      (c :: cs, shift)
  end.

(** [uartgetc] until it returns -1; [buf] are the bytes the line has received. *)
Definition uart_chars (uart : Z) (buf : list Z) : list Z := if truthy uart then buf else [].

Section kbd.
Context `{world}.

(** [kbdintr], with the process listing left to the caller as in [consoleintr]. *)
Definition kbdintr (shift : Z) (buf : list Z) : K (bool * Z) :=
  let '(cs, shift) := kbd_chars shift buf in
  d ← consoleintr cs; ret (d, shift).

Definition uartintr (buf : list Z) : K bool :=
  u ← getc_ uart; consoleintr (uart_chars u buf).
End kbd.

(** ** Strokes *)

(** The keys of a PC keyboard with the US layout: rows of keys with consecutive scan codes, the first
    code of the row, what is printed on the keys, and what is printed above it. *)
Definition us_rows : list (Z * list Z * list Z) :=
  [(0x02, str "1234567890-=", str "!@#$%^&*()_+");
   (0x10, str "qwertyuiop[]", str "QWERTYUIOP{}");
   (0x1E, str "asdfghjkl;'`", str "ASDFGHJKL:" ++ [34] ++ str "~");
   (0x2B, str "\zxcvbnm,./", str "|ZXCVBNM<>?");
   (0x39, str " ", [])].

(** The codes of Enter and of the left shift key; a key sends its code with the top bit set when it is
    released. *)
Definition ENTER_KEY : Z := 0x1C.
Definition SHIFT_KEY : Z := 0x2A.
Definition released (key : Z) : Z := key + 0x80.

Definition key_in (row : Z) (cs : list Z) (c : Z) : option Z :=
  (λ p : nat * Z, row + Z.of_nat p.1) <$> list_find (λ x, x = c) cs.

(** The key for a character, and whether shift is held for it. *)
Fixpoint key_for (rows : list (Z * list Z * list Z)) (c : Z) : option (Z * bool) :=
  match rows with
  | [] => None
  | (row, plain, shifted) :: rows =>
      match key_in row plain c with
      | Some k => Some (k, false)
      | None => match key_in row shifted c with Some k => Some (k, true) | None => key_for rows c end
      end
  end.

(** The scan codes of pressing and releasing the keys for a character. *)
Definition strokes (c : Z) : option (list Z) :=
  if c =? NL then Some [ENTER_KEY; released ENTER_KEY]
  else match key_for us_rows c with
       | Some (k, false) => Some [k; released k]
       | Some (k, true) => Some [SHIFT_KEY; k; released k; released SHIFT_KEY]
       | None => None
       end.

Definition all_strokes (text : list Z) : option (list Z) := (λ l, concat l) <$> mapM strokes text.

Definition stroke_ok (c : Z) : bool :=
  match strokes c with
  | Some s => bool_decide ((kbd_chars 0 s).2 = 0 ∧ filter (λ x, x ≠ 0) (kbd_chars 0 s).1 = [c] ∧ Forall (λ x, 0 ≤ x < 256) (kbd_chars 0 s).1)
  | None => true
  end.

(** Every character that has keys comes out of them, and the modifiers are released again. *)
Lemma strokes_char c s : 0 < c < 256 → strokes c = Some s →
  (kbd_chars 0 s).2 = 0 ∧ filter (λ x, x ≠ 0) (kbd_chars 0 s).1 = [c] ∧ Forall (λ x, 0 ≤ x < 256) (kbd_chars 0 s).1.
Proof.
  intros Hc Hs. assert (Hall : Forall (λ c, stroke_ok c = true) (seqZ 1 255)) by compute_done.
  rewrite Forall_forall in Hall. specialize (Hall c ltac:(apply elem_of_seqZ; lia)). unfold stroke_ok in Hall. rewrite Hs in Hall.
  by apply bool_decide_eq_true in Hall.
Qed.

Lemma kbd_chars_app l1 : ∀ l2 shift, kbd_chars shift (l1 ++ l2) =
  ((kbd_chars shift l1).1 ++ (kbd_chars (kbd_chars shift l1).2 l2).1, (kbd_chars (kbd_chars shift l1).2 l2).2).
Proof.
  induction l1 as [|d l1 IH]; intros l2 shift; cbn; [by destruct (kbd_chars shift l2)|]. destruct (kbd_code shift d) as [c sh].
  rewrite IH. by destruct (kbd_chars sh l1).
Qed.

(** The characters of a text come out in order, with zeros between them. *)
Lemma text_chars text : ∀ codes, Forall (λ c, 0 < c < 256) text → all_strokes text = Some codes →
  (kbd_chars 0 codes).2 = 0 ∧ filter (λ x, x ≠ 0) (kbd_chars 0 codes).1 = text ∧ Forall (λ x, 0 ≤ x < 256) (kbd_chars 0 codes).1.
Proof.
  induction text as [|c text IH]; intros codes Ht Hs; unfold all_strokes in *; cbn in Hs.
  - simplify_eq. split; [done|]. split; [done|constructor].
  - inversion_clear Ht as [|? ? Hc Ht']. destruct (strokes c) as [s|] eqn:Es; [|done]. cbn in Hs.
    destruct (mapM strokes text) as [ss|] eqn:Em; [|done]. cbn in Hs. injection Hs as <-.
    destruct (strokes_char c s Hc Es) as (H1 & H2 & H3). destruct (IH (concat ss) Ht' eq_refl) as (H4 & H5 & H6).
    cbn [concat]. rewrite kbd_chars_app, H1. cbn [fst snd]. rewrite filter_app, H2, H5. split; [done|]. split; [done|]. by apply Forall_app.
Qed.

(** ** The line *)
Lemma type_all_zeros cs : ∀ l, type_all cs l = type_all (filter (λ x, x ≠ 0) cs) l.
Proof.
  induction cs as [|c cs IH]; intros l; [done|]. destruct (decide (c = 0)) as [->|Hc].
  - rewrite filter_cons_False by (by intros []). cbn [type_all]. unfold type1. cbn [Z.eqb orb].
    rewrite bool_decide_false by (by intros [[] _]). rewrite IH. by destruct (type_all _ l).
  - rewrite filter_cons_True by done. cbn [type_all]. destruct (type1 c l). by rewrite IH.
Qed.

(** A printable character. *)
Definition printable (c : Z) : Prop := 32 ≤ c < 127.

Lemma type_text text : ∀ l, Forall printable text → (length (ready l) + length (editing l) + length text < 127)%nat →
  type_all (text ++ [NL]) l = (true, mkLines (ready l ++ editing l ++ text ++ [NL]) []).
Proof.
  induction text as [|c text IH]; intros l Ht Hlen; cbn [app type_all length] in *.
  - unfold type1. cbn [Z.eqb Pos.eqb orb NL]. rewrite bool_decide_true by (split; [done|unfold room; lia]). done.
  - inversion_clear Ht as [|? ? Hc Ht']. unfold printable in Hc. unfold type1.
    rewrite !(proj2 (Z.eqb_neq c _)) by lia. cbn [orb]. rewrite bool_decide_true by (split; [lia|unfold room; lia]).
    unfold typed_char, ends_line. rewrite !(proj2 (Z.eqb_neq c _)) by (unfold CR, NL; lia). cbn [orb]. rewrite bool_decide_false by lia.
    rewrite IH; [|done|cbn; rewrite length_app; cbn; lia]. cbn. by rewrite <- app_assoc.
Qed.

Lemma take_line text n g : Forall printable text → (length text < n)%nat → read_take n g (text ++ [NL]) = Some (text ++ [NL], []).
Proof.
  revert n g. induction text as [|c text IH]; intros n g Ht Hn; destruct n as [|n]; cbn in Hn; try lia; cbn; [done|].
  inversion_clear Ht as [|? ? Hc Ht']. unfold printable in Hc. rewrite !(proj2 (Z.eqb_neq c _)) by (unfold NL; lia).
  rewrite IH by (try done; lia). done.
Qed.

Lemma printable_strokes text : Forall (λ c, printable c ∨ c = NL) text → is_Some (all_strokes text).
Proof.
  intros Ht. assert (Hall : Forall (λ c, bool_decide (is_Some (strokes c)) = true) (NL :: seqZ 32 95)) by compute_done.
  unfold all_strokes. rewrite fmap_is_Some. apply mapM_is_Some. eapply Forall_impl; [exact Ht|]. intros c Hc.
  rewrite Forall_forall in Hall. apply (proj1 (bool_decide_eq_true _)), (Hall c). destruct Hc as [Hc| ->]; [right|by left].
  apply elem_of_seqZ. unfold printable in Hc. lia.
Qed.

Section keyboard.
Context {W : world} {DW : DiskWorld}.

(** C23: From the keys to the reader.  Every text of printable characters can be typed: pressing and
    releasing the keys that carry its characters on a keyboard with the US layout, with shift where it
    is needed, and Enter, makes [kbdintr] put exactly that line into the console and wake the readers,
    with no modifier left held; and a read that is long enough then gets exactly the text and the
    newline. *)
Theorem keyboard_line_read i k text n :
  reading i k → cons_rep (k_cons k) (mkLines [] []) → Forall printable text → (length text < 127)%nat →
  (length text < n)%nat → Z.of_nat n < 2 ^ 31 →
  ∃ codes k1 k', all_strokes (text ++ [NL]) = Some codes ∧ kbdintr 0 codes k = Ok (false, 0) k1 ∧
    consoleread local_sink i [] (Z.of_nat n) k1 = Ok (Z.of_nat (length text) + 1, text ++ [NL]) k' ∧
    cons_rep (k_cons k') (mkLines [] []) ∧ cons_after true k k'.
Proof.
  intros Hk Hr Ht Hlen Hn Hmax. assert (Hnl : Forall (λ c, printable c ∨ c = NL) (text ++ [NL])).
  { apply Forall_app. split; [eapply Forall_impl; [exact Ht|by left]|]. constructor; [by right|constructor]. }
  destruct (printable_strokes _ Hnl) as [codes Hcodes].
  assert (Hby : Forall (λ c, 0 < c < 256) (text ++ [NL])).
  { eapply Forall_impl; [exact Hnl|]. intros c [Hc| ->]; [unfold printable in Hc; lia|done]. }
  destruct (text_chars _ codes Hby Hcodes) as (Hsh & Hcs & Hrange). destruct (kbd_chars 0 codes) as [cs sh] eqn:Ek. cbn [fst snd] in *. subst sh.
  destruct (consoleintr_ok cs k (mkLines [] []) Hr) as (k1 & Hr1 & Hrep1 & Ha1);
    [apply not_elem_of_nil|exact (fr_lock _ (rd_fs _ _ Hk) Lptable eq_refl)|exact (rd_cons _ _ Hk)|exact Hrange|].
  pose proof (type_text text (mkLines [] []) Ht ltac:(cbn; lia)) as Htype. rewrite type_all_zeros, Hcs, Htype in Hrep1, Ha1. cbn [fst snd ready editing app] in *.
  assert (Hp : bool_decide (16 ∈ cs) = false).
  { apply bool_decide_eq_false. intros Hin. assert (Hin' : 16 ∈ text ++ [NL]) by (rewrite <- Hcs; by apply list_elem_of_filter).
    rewrite Forall_forall in Hnl. by destruct (Hnl 16 Hin') as [[? ?]|]. }
  destruct (consoleread_ok i n k1 _ (text ++ [NL]) [] (reading_after _ _ _ _ Hk Ha1) Hrep1 Hmax) as (s & Hr2 & Hrep2); [by apply take_line|].
  exists codes, k1, (set_k_cons s k1). split_and!; [done| | |done|].
  - unfold kbdintr. rewrite Ek, (bind_ok _ _ _ _ _ Hr1), Hp. done.
  - rewrite Hr2, length_app. cbn [length]. do 2 f_equal. lia.
  - change true with (true || false). eapply cons_after_trans; [exact Ha1|apply cons_after_cons].
Qed.
End keyboard.

(** "Hi!" *)
Lemma keyboard_line_read_witness :
  ∃ k1 k', kbdintr 0 [0x2A; 0x23; 0xA3; 0xAA; 0x17; 0x97; 0x2A; 0x02; 0x82; 0xAA; 0x1C; 0x9C] cons_kernel = Ok (false, 0) k1 ∧
    consoleread local_sink 0 [] 100 k1 = Ok (4, [72; 105; 33; 10]) k' ∧
    cons_rep (k_cons k') (mkLines [] []) ∧ cons_after true cons_kernel k'.
Proof.
  destruct (keyboard_line_read 0 cons_kernel [72; 105; 33] 100) as (codes & k1 & k' & Hc & Hr).
  - apply cons_kernel_reading.
  - apply cons_kernel_rep.
  - repeat constructor; unfold printable; lia.
  - cbn; lia.
  - cbn; lia.
  - lia.
  - vm_compute in Hc. injection Hc as <-. exists k1, k'. exact Hr.
Defined.
