(* ===== verification/FsThms.v ===== *)
(** The theorems on the file system, each with an instance on the image of [SampleFs.v]. *)

From S2P Require Import Prelude Params Bytes State Spinlock Mem Kalloc PageTable Uaccess Procs Sched SchedSpec Bio BioSpec CacheSpec BlockSpec Log LogSpec CommitSpec CrashSpec Inode BallocSpec DiskSpec BmapSpec DinodeSpec Console Fs WriteSpec ReadSpec File FsSpec IcacheSpec TruncSpec Sample SampleFs.

Section filesystem.
Context {W : world} {DW : DiskWorld}.
Implicit Types (k : kernel) (s : fsys) (f i : nat) (x : inode) (C D : Z → list Z) (Q : gset Z) (n off : Z).

(** C3: [filewrite] on a regular file writes all bytes, in as many transactions as it
    takes: the file has them at its offset, the offset is past them, the disk has
    lost exactly the blocks the file has grown by, every other file has the
    contents it had, and the file system is consistent and idle again. *)
Theorem filewrite_writes k C f fl i x n addr l :
  let len := Z.of_nat (length l) in let off := f_off fl in
  fs_ready k → fs_state (k_fs k) C → open_file (k_fs k) f fl i x n → at_mem k addr l →
  0 ≤ off ≤ i_size x → off + len ≤ MAXFILE * BSIZE → need (i_size x) (off + len) ≤ Z.of_nat (length (free_blocks C)) →
  ∃ s' C' fl' x', file_write f addr len k = Ok len (set_k_fs s' k) ∧ fs_state s' C' ∧
    open_file s' f fl' i x' n ∧ f_off fl' = off + len ∧
    file_data C' (nd C' n) = splice (file_data C (nd C n)) (Z.to_nat off) l ∧
    Z.of_nat (length (free_blocks C))
      = Z.of_nat (length (free_blocks C')) + need (d_size (nd C n)) (d_size (nd C' n)) ∧
    ∀ n', live (nd C) n' → n' ≠ n → nd C' n' = nd C n' ∧ file_data C' (nd C' n') = file_data C (nd C n').
Proof.
  intros len off Hr Hfs Hof Hat Ho Hmax Hneed.
  destruct (file_write_ok k C f fl i x n addr l Hr Hfs Hof Hat Ho Hmax Hneed)
    as (s' & C' & Hrun & fl' & x' & Hfs' & Hfw & Hof' & _ & Hoff).
  exists s', C', fl', x'. split_and!; try done; try apply Hfw.
  intros n' Hl Hne. rewrite (fw_nd _ _ _ _ _ Hfw) by (done || apply Hl). split; [done|]. by apply (fw_others _ _ _ _ _ Hfw).
Qed.

(** C32: [fileread] reads a regular file into a buffer of the kernel or of the process.  It returns the
    number of bytes asked for, or what is left to the end of the file when that is less (0 at the
    end); the buffer then holds exactly those bytes of the file from its offset on, as whoever reads
    the buffer through the page table sees them, and no other byte of memory has changed; the offset
    has moved past them, and the file and all blocks are as before.  The pages of the buffer that
    are stored to must be present and writable. *)
Theorem fileread_reads k C f fl i x n buf len :
  let off := f_off fl in let r := Z.min len (i_size x - off) in
  fs_ready k → fs_state (k_fs k) C → open_file (k_fs k) f fl i x n → buffer k buf r →
  0 ≤ buf < 2 ^ 32 → 0 ≤ off ≤ i_size x → 0 ≤ len < 2 ^ 31 →
  ∃ s' m' x', file_read f buf len k = Ok r (set_k_fs s' (with_mem m' k)) ∧
    vbytes (with_mem m' k) buf r = Some (sub (file_data C (nd C n)) (Z.to_nat off) (Z.to_nat r)) ∧
    (∀ c, (∀ j, 0 ≤ j < r → vaddr k (buf + j) ≠ Some c) → rd8 m' c = rd8 (mem (k_vm k)) c) ∧
    fs_state s' C ∧ open_file s' f (set_f_off (off + r) fl) i x' n.
Proof.
  intros off r Hr Hfs Hof Hb Hbuf Hoff Hlen.
  destruct (fileread_to_ok mem_sink _ _ k C f fl i x n len (buf_sink_of k buf r Hb) Hr Hfs Hof Hoff Hlen)
    as (s' & x' & Hrun & Hfs' & Hof' & _). fold off r in Hrun, Hof'. set (l := sub _ _ _) in Hrun.
  destruct (open_live _ _ _ _ _ _ _ Hfs Hof) as [Hn Hcp].
  assert (Hll : Z.of_nat (length l) = r).
  { unfold l. rewrite length_sub; [lia|]. rewrite length_file_data, <- Hcp. cbn. lia. }
  assert (Hby : bytes_ok l) by (apply Forall_take, Forall_drop; apply file_data_bytes; intros b; eapply cview_block_ok, (fi_view _ _ (fst_idle _ _ Hfs))).
  pose proof (stored_at_reads k buf l) as Hst. rewrite Hll in Hst. destruct (Hst Hb Hby) as [Hv Ho].
  exists s', (put_at k (mem (k_vm k)) buf l), x'. split_and!; try done.
  unfold file_read. cbn [length] in Hrun. rewrite Z.add_0_r, u32_small in Hrun by done. by rewrite (bind_ok _ _ _ _ _ Hrun).
Qed.

(** [bread] returns a locked buffer with the latest contents of the block,
    whether it is in the cache or has to come from the disk.  No block that
    waits for a commit is evicted: the cached contents, the disk and the set of
    dirty blocks are as before. *)
Theorem bread_latest k h C D Q n :
  fs_ready k → cview h (k_fs k) C D Q → 0 ≤ n < FSSIZE → n ∉ h.*2 → n ∈ Q ∨ (length h + size Q < 30)%nat →
  ∃ b s', bread 1 n k = Ok b (set_k_fs s' k) ∧ bdata b (set_k_fs s' k) = Ok (C n) (set_k_fs s' k) ∧
    cview ((b, n) :: h) s' C D Q.
Proof.
  intros Hr Hc Hn Hu Hlen. destruct (cv_bread k h C D Q n Hr Hc Hn Hu Hlen) as (b & s' & Hrun & Hc' & _ & _).
  exists b, s'. split_and!; [done| |done]. eapply cv_bdata; [done|left].
Qed.

(** [balloc] takes the free block with the lowest number, marks it in the bitmap
    and fills it with zeros; all other blocks keep their contents, and exactly
    this block is no longer free. *)
Theorem balloc_lowest k C D m b rest :
  fs_ready k → tx [] (k_fs k) C D m → layout (k_fs k) → bitmap_ok C → free_blocks C = b :: rest → (m < 28)%nat →
  ∃ s' C', balloc 1 k = Ok b (set_k_fs s' k) ∧ tx [] s' C' D (S (S m)) ∧ bitmap_ok C' ∧
    free_blocks C' = rest ∧ C' b = zero_block ∧ ∀ n, n ≠ b → n ≠ BMAP → C' n = C n.
Proof.
  intros Hr Htx [Hsb Hls] Hbm Hf Hm.
  destruct (balloc_ok k [] C D m b rest Hr Htx Hsb Hls Hbm Hf) as (s' & Hrun & Htx' & _);
    [apply not_elem_of_nil..|cbn; lia|done|].
  assert (Hok : block_ok (C BMAP)) by (eapply cview_block_ok, Htx).
  pose proof Hf as (Hb & _ & _)%filter_seqZ_cons.
  exists s', (taken_block C b). split_and!; try done.
  - intros c Hc. rewrite taken_bits by (apply Hok || clia). rewrite (Hbm c Hc). apply orb_true_r.
  - by apply free_blocks_taken.
  - unfold taken_block. apply upd_eq.
  - intros n Hn1 Hn2. unfold taken_block. by rewrite !upd_ne.
Qed.

(** [bfree] undoes [balloc]: the same blocks are free afterwards as before, and
    every block but the bitmap and the one that was allocated has its contents. *)
Theorem balloc_bfree_roundtrip k C D m b rest :
  fs_ready k → tx [] (k_fs k) C D m → layout (k_fs k) → bitmap_ok C → sb_of_block (C 1) = mkfs_sb →
  free_blocks C = b :: rest → (m < 27)%nat →
  ∃ s' C', (x ← balloc 1; bfree 1 x) k = Ok tt (set_k_fs s' k) ∧ tx [] s' C' D (S (S (S m))) ∧
    free_blocks C' = free_blocks C ∧ (∀ c, 0 ≤ c < FSSIZE → bitset (C' BMAP) c = bitset (C BMAP) c) ∧
    ∀ n, n ≠ b → n ≠ BMAP → C' n = C n.
Proof.
  intros Hr Htx [Hsb Hls] Hbm Hsb1 Hf Hm.
  destruct (balloc_ok k [] C D m b rest Hr Htx Hsb Hls Hbm Hf) as (s1 & Hrun & Htx1 & Hst);
    [apply not_elem_of_nil..|cbn; lia|lia|].
  assert (Hok : block_ok (C BMAP)) by (eapply cview_block_ok, Htx).
  pose proof Hf as (Hb & Hclear & _)%filter_seqZ_cons. assert (Hbr : nmeta ≤ b < FSSIZE) by lia.
  set (C1 := taken_block C b) in *.
  assert (H1 : C1 1 = C 1) by (unfold C1, taken_block; rewrite !upd_ne by dlia; done).
  assert (Hbits : ∀ c, 0 ≤ c → bitset (C1 BMAP) c = (c =? b) || bitset (C BMAP) c)
    by (intros c Hc; apply taken_bits; [apply Hok|done|done]).
  destruct (bfree_ok (set_k_fs s1 k) [] C1 D _ b (fs_ready_fs _ _ Hr) Htx1) as (s2 & Hr2 & Htx2 & _);
    [by rewrite H1|destruct Hst as [_ [x Hx] _]; cbn; by rewrite Hx|done| |apply not_elem_of_nil..|cbn; lia|lia|].
  { rewrite Hbits by dlia. by rewrite Z.eqb_refl. }
  assert (Hok1 : block_ok (C1 BMAP)) by (eapply cview_block_ok, Htx1).
  assert (Hsame : ∀ c, 0 ≤ c < FSSIZE → bitset (freed_block C1 b BMAP) c = bitset (C BMAP) c).
  { intros c Hc. unfold freed_block. rewrite upd_eq, bitset_clear by (apply Hok1 || dlia). rewrite Hbits by lia.
    destruct (Z.eqb_spec c b) as [->|]; [by rewrite Hclear|done]. }
  exists s2, (freed_block C1 b). split_and!; try done.
  - by rewrite (bind_ok _ _ _ _ _ Hrun).
  - unfold free_blocks. apply filter_ext_in. intros c Hc%elem_of_seqZ. rewrite Hsame; [done|dlia].
  - intros n Hn1 Hn2. unfold freed_block, C1, taken_block. by rewrite !upd_ne.
Qed.

(** [iupdate] stores the inode: the disk inode of number [n] has the fields of
    the in-core one, every other disk inode and every block but the one it is in
    are unchanged. *)
Theorem iupdate_stores k C D m i x n :
  fs_ready k → layout (k_fs k) → tx [] (k_fs k) C D m → (m < 29)%nat → inodes (k_fs k) !! i = Some x →
  i_dev x = 1 → i_inum x = n → 1 ≤ n < NINODES → dinode_wf (d_of x) →
  ∃ s' C', iupdate i k = Ok tt (set_k_fs s' k) ∧ tx [] s' C' D (S m) ∧ nd C' n = d_of x ∧
    (∀ n', 1 ≤ n' < NINODES → n' ≠ n → nd C' n' = nd C n') ∧ ∀ b, b ≠ IBLOCK n mkfs_sb → C' b = C b.
Proof.
  intros Hr Hlay Htx Hm Hx Hdev Hin Hn Hwf.
  destruct (iupdate_ok k C D m i x n Hr Hlay Htx Hm Hx Hdev Hin Hn) as (s' & Hrun & Htx' & _); [apply Hwf|].
  assert (Hok : block_ok (C (IBLOCK n mkfs_sb))) by (eapply cview_block_ok, Htx).
  exists s', (iupdated C n (d_of x)). split_and!; try done.
  - by apply nd_iupdated.
  - intros n' Hn' Hne. apply nd_iupdated_ne; try done. apply Hwf.
  - intros b Hb. unfold iupdated. by apply upd_ne.
Qed.

(** [bmap] finds block [bn] of a file, or appends it: when the file has [bn]
    blocks so far, a zeroed block is allocated, and with it the indirect block
    when this is the first block past the direct ones.  The file system stays
    consistent and no other file changes. *)
Theorem bmap_finds_or_appends k C D m I i x n bn :
  fs_ready k → layout (k_fs k) → tx [] (k_fs k) C D m → (m ≤ 20)%nat → fsinv C I → live I n →
  incore (k_fs k) i x (I n) → 0 ≤ bn < MAXFILE → room C (I n) bn →
  ∃ s' C' d' m', bmap i bn k = Ok (blk C' d' bn) (set_k_fs s' k) ∧ tx [] s' C' D m' ∧ fsinv C' (updI I n d') ∧
    (∀ n', live I n' → n' ≠ n → file_data C' (I n') = file_data C (I n')) ∧
    (bn < nblk (d_size (I n)) ∧ d' = I n ∧ C' = C ∨ d_size (I n) = 512 * bn ∧ appended C (I n) bn C' d').
Proof.
  intros Hr Hlay Htx Hm Hi Hn Hin Hbn Hroom.
  destruct (bmap_ok k C D m I i x n bn Hr Hlay Htx Hm Hi Hn Hin Hbn Hroom) as (s' & C' & d' & m' & Hrun & []).
  by exists s', C', d', m'.
Qed.
End filesystem.

(** ** Instances *)

(** The sample kernel in a transaction. *)
Definition tx_kernel : kernel := set_k_fs (set_log (set_outstanding 1 (log image)) image) fs_kernel.

Lemma tx_kernel_ready : fs_ready tx_kernel.
Proof. apply fs_ready_fs, fs_kernel_ready. Qed.
Lemma tx_kernel_tx : tx [] (k_fs tx_kernel) img img 0.
Proof. apply (begin_op_ok fs_kernel img fs_kernel_ready image_idle). Qed.
Lemma tx_kernel_layout : layout (k_fs tx_kernel).
Proof. split; reflexivity. Qed.

(** The machine, booted on the sample disk. *)
Definition boot_kernel : kernel := set_k_fs (set_log boot_log image) fs_kernel.

Lemma boot_kernel_booted : booted boot_kernel img.
Proof.
  split; [apply fs_ready_fs, fs_kernel_ready| |reflexivity].
  apply (boot_view (k_fs boot_kernel)); try done. apply image_sector.
Qed.

Lemma image_log_at : log_at 2 (img 1).
Proof. split; vm_compute; reflexivity. Qed.

Lemma image_home : home 2 1.
Proof. split; [split; [discriminate|reflexivity]|left; reflexivity]. Qed.

(** Block 100 is overwritten in a transaction; the crash comes before any write. *)
Lemma end_op_crash_safe_witness :
  ∃ k s' ws, end_op k = Ok tt (set_k_fs s' k) ∧ dwrites s' = dwrites (k_fs k) ++ ws ∧
    content s' 100 = replicate 512 9 ∧
    ∃ s1, initlog 1 boot_kernel = Ok tt (set_k_fs s1 (with_lock Llog "log" boot_kernel)) ∧
      (content s1 100 = zero_block ∨ content s1 100 = replicate 512 9).
Proof.
  assert (H100 : home 2 100) by (split; [split; [discriminate|reflexivity]|right; discriminate]).
  destruct (tx_change tx_kernel [] img img 0 100 (λ _, replicate 512 9) tx_kernel_ready tx_kernel_tx) as (s & _ & Htx & Hst).
  { exact H100. }
  { apply not_elem_of_nil. }
  { apply Nat.ltb_lt. reflexivity. }
  { apply Nat.ltb_lt. reflexivity. }
  { compute_done. }
  set (C := upd img 100 (replicate 512 9)) in *.
  destruct (ts_log _ _ Hst) as [x Hx].
  assert (Hl1 : 1 ∉ logged s).
  { destruct (cview_settled _ _ _ _ 100 (tx_view _ _ _ _ _ Htx)) as [Hin|Heq]; [|vm_compute in Heq; discriminate].
    apply elem_of_list_to_set in Hin. pose proof (tx_len _ _ _ _ _ Htx) as Hlen.
    destruct (logged s) as [|y [|z L]]; [by apply not_elem_of_nil in Hin| |cbn in Hlen; lia].
    apply list_elem_of_singleton in Hin. intros H1%list_elem_of_singleton. lia. }
  destruct (end_op_crash_safe (set_k_fs s tx_kernel) C img 1 2) as (s' & ws & Hr & Hw & Hc & Hcrash).
  - apply fs_ready_fs, tx_kernel_ready.
  - exact Htx.
  - cbn. rewrite Hx. reflexivity.
  - cbn. rewrite Hx. reflexivity.
  - cbn. rewrite Hx. reflexivity.
  - vm_compute. reflexivity.
  - exact image_log_at.
  - exact image_home.
  - exact Hl1.
  - destruct (Hcrash [] ws boot_kernel eq_refl boot_kernel_booted) as (s1 & Hb & Hcases).
    assert (HC : C 100 = replicate 512 9) by reflexivity.
    exists (set_k_fs s tx_kernel), s', ws. split; [exact Hr|]. split; [exact Hw|].
    split; [rewrite <- HC; apply Hc, H100|]. exists s1. split; [exact Hb|].
    destruct Hcases as [[Hold _]|Hnew]; [left|right].
    + rewrite (Hold 100 H100). vm_compute. reflexivity.
    + rewrite (Hnew 100 H100). exact HC.
Defined.

Lemma recovery_crash_safe_witness :
  ∃ s' ws, initlog 1 boot_kernel = Ok tt (set_k_fs s' (with_lock Llog "log" boot_kernel)) ∧
    dwrites s' = dwrites (k_fs boot_kernel) ++ ws ∧ content s' 59 = replicate 512 59 ∧
    ∃ s1, initlog 1 boot_kernel = Ok tt (set_k_fs s1 (with_lock Llog "log" boot_kernel)) ∧ content s1 59 = content s' 59.
Proof.
  assert (H59 : home 2 59) by (split; [split; [discriminate|reflexivity]|right; discriminate]).
  assert (Hwf : header_wf 2 (img 2)) by (split; [split; [discriminate|reflexivity]|constructor]).
  destruct (recovery_crash_safe boot_kernel img 2 boot_kernel_booted image_log_at) as (s' & ws & Hr & Hw & Hc & Hcrash).
  - split; discriminate.
  - exact Hwf.
  - exact image_home.
  - apply not_elem_of_nil.
  - destruct (Hcrash [] ws boot_kernel eq_refl boot_kernel_booted) as (s1 & Hb & Hs1).
    exists s', ws. split; [exact Hr|]. split; [exact Hw|]. split; [rewrite (Hc 59 H59); vm_compute; reflexivity|].
    exists s1. split; [exact Hb|]. apply Hs1, H59.
Defined.

(** Five bytes go to the start of the file. *)
Lemma filewrite_writes_witness :
  ∃ s' C', file_write 0 0x80402000 5 fs_kernel = Ok 5 (set_k_fs s' fs_kernel) ∧ fs_state s' C' ∧
    file_data C' (nd C' 2) = splice (file_data img (nd img 2)) 0 (replicate 5 0).
Proof.
  destruct (filewrite_writes fs_kernel img 0 swap_file_entry 0 swap_inode 2 0x80402000 (replicate 5 0) fs_kernel_ready
    image_state image_open) as (s' & C' & fl' & x' & Hr & Hfs & _ & _ & Hd & _).
  - split; [split; [discriminate|reflexivity]|vm_compute; reflexivity].
  - split; discriminate.
  - discriminate.
  - apply Z.leb_le. vm_compute. reflexivity.
  - exists s', C'. split; [exact Hr|]. split; [exact Hfs|exact Hd].
Defined.

Lemma bread_latest_witness :
  ∃ b s', bread 1 59 fs_kernel = Ok b (set_k_fs s' fs_kernel) ∧
    bdata b (set_k_fs s' fs_kernel) = Ok (replicate 512 59) (set_k_fs s' fs_kernel).
Proof.
  destruct (bread_latest fs_kernel [] img img ∅ 59 fs_kernel_ready image_view) as (b & s' & Hr & Hd & _).
  - split; [discriminate|reflexivity].
  - apply not_elem_of_nil.
  - right. apply Nat.ltb_lt. vm_compute. reflexivity.
  - exists b, s'. split; [exact Hr|]. exact Hd.
Defined.

Lemma balloc_lowest_witness :
  ∃ s', balloc 1 tx_kernel = Ok 67 (set_k_fs s' tx_kernel).
Proof.
  destruct (balloc_lowest tx_kernel img img 0 67 (seqZ 68 932) tx_kernel_ready tx_kernel_tx tx_kernel_layout
    (fsi_bmap _ _ image_fsinv)) as (s' & C' & Hr & _).
  - vm_compute. reflexivity.
  - apply Nat.ltb_lt. reflexivity.
  - exists s'. exact Hr.
Defined.

Lemma balloc_bfree_roundtrip_witness :
  ∃ s' C', (x ← balloc 1; bfree 1 x) tx_kernel = Ok tt (set_k_fs s' tx_kernel) ∧ free_blocks C' = free_blocks img.
Proof.
  destruct (balloc_bfree_roundtrip tx_kernel img img 0 67 (seqZ 68 932) tx_kernel_ready tx_kernel_tx tx_kernel_layout
    (fsi_bmap _ _ image_fsinv)) as (s' & C' & Hr & _ & Hf & _).
  - vm_compute. reflexivity.
  - vm_compute. reflexivity.
  - apply Nat.ltb_lt. reflexivity.
  - exists s', C'. split; [exact Hr|exact Hf].
Defined.

Lemma iupdate_stores_witness :
  ∃ s' C', iupdate 0 tx_kernel = Ok tt (set_k_fs s' tx_kernel) ∧ nd C' 2 = swap_dinode.
Proof.
  destruct (iupdate_stores tx_kernel img img 0 0 swap_inode 2 tx_kernel_ready tx_kernel_layout tx_kernel_tx)
    as (s' & C' & Hr & _ & Hd & _).
  - apply Nat.ltb_lt. reflexivity.
  - reflexivity.
  - reflexivity.
  - reflexivity.
  - split; [discriminate|reflexivity].
  - split; try (split; [discriminate|reflexivity]); [reflexivity|compute_done].
  - exists s', C'. split; [exact Hr|exact Hd].
Defined.

(** The file has eight blocks; the ninth is appended. *)
Lemma bmap_finds_or_appends_witness :
  ∃ s' C' d', bmap 0 8 tx_kernel = Ok (blk C' d' 8) (set_k_fs s' tx_kernel) ∧ fsinv C' (updI (nd img) 2 d').
Proof.
  destruct (bmap_finds_or_appends tx_kernel img img 0 (nd img) 0 swap_inode 2 8 tx_kernel_ready tx_kernel_layout tx_kernel_tx)
    as (s' & C' & d' & m' & Hr & _ & Hi & _).
  - apply Nat.leb_le. reflexivity.
  - exact image_fsinv.
  - split; [split; [discriminate|reflexivity]|vm_compute; discriminate].
  - rewrite image_nd. split_and!; reflexivity.
  - split; [discriminate|reflexivity].
  - right. rewrite image_nd. split; [reflexivity|]. apply Nat.leb_le. vm_compute. reflexivity.
  - exists s', C', d'. split; [exact Hr|exact Hi].
Defined.

(** ** A file of thirteen blocks that no directory names and one process has open *)

(** Inode 2: twelve blocks from 59 on, the indirect block 71, and block 72. *)
Definition orphan_dinode : dinode := mkDinode T_FILE 0 0 0 6656 (seqZ 59 13).
Definition orphan_disk : gmap (Z * Z) (list Z) :=
  list_to_map
    [((1, 1), in_block (concat (le_bytes 4 <$> [FSSIZE; FSSIZE - nmeta; NINODES; nlog; 2; 2 + nlog; 2 + nlog + ninodeblocks])));
     ((1, 32), splice zero_block (ioff 2) (dinode_bytes orphan_dinode));
     ((1, 58), in_block (replicate 9 255 ++ [1])); ((1, 71), in_block (le_bytes 4 72))].
Definition orphan_inode : inode := mkInode 1 2 1 (mkSleeplock 0 0) 1 T_FILE 0 0 0 6656 (seqZ 59 13).
Definition orphan_image : fsys :=
  mkFsys orphan_disk [] None [] 0x40 1 (replicate 30 no_buf) (seq 0 30) []
    (mkLogst 2 LOGSIZE 0 0 1 (mkLogheader 0 (replicate 30 0))) mkfs_sb
    (orphan_inode :: replicate 49 no_inode) (swap_file_entry :: replicate 99 no_file) ∅.
Abbreviation orphan := (sector orphan_image 1).

Lemma orphan_sector n : block_ok (orphan n).
Proof.
  unfold sector. destruct (disk orphan_image !! (1, n)) as [d|] eqn:E; [|by compute_done]. cbn.
  assert (Hall : map_Forall (λ _ d, block_ok d) orphan_disk) by compute_done. by apply (Hall _ _ E).
Qed.

Lemma orphan_nd : nd orphan 2 = orphan_dinode.
Proof. vm_compute. reflexivity. Qed.

Lemma orphan_live n : live (nd orphan) n → n = 2.
Proof.
  intros [Hn Ht]. assert (Hall : Forall (λ n, n = 2 ∨ d_type (nd orphan n) = 0) (seqZ 1 199)) by compute_done.
  rewrite Forall_forall in Hall. destruct (Hall n); [|done|done]. apply elem_of_seqZ. clia.
Qed.

Lemma orphan_used : used_blocks orphan orphan_dinode = seqZ 59 12 ++ [72; 71].
Proof. vm_compute. reflexivity. Qed.

Lemma orphan_wf : wf_inode orphan orphan_dinode.
Proof.
  assert (Hb : Forall (λ bn, blk orphan orphan_dinode bn = if bn <? 12 then 59 + bn else 72) (seqZ 0 13)) by compute_done.
  assert (Hz : Forall (λ bn, blk orphan orphan_dinode bn = 0) (seqZ 13 127)) by compute_done.
  rewrite Forall_forall in Hb, Hz.
  assert (Hn : nblk (d_size orphan_dinode) = 13) by done. split; rewrite ?Hn; try done.
  - intros bn Hbn. rewrite Hb by (apply elem_of_seqZ; lia). destruct (Z.ltb_spec bn 12); dlia.
  - intros bn Hbn. lia.
  - intros _ bn Hbn. apply Hz, elem_of_seqZ. clia.
Qed.

Lemma orphan_fsinv : fsinv orphan (nd orphan).
Proof.
  split.
  - intros n ->%orphan_live. rewrite orphan_nd. apply orphan_wf.
  - intros n ->%orphan_live. rewrite orphan_nd, orphan_used. compute_done.
  - by intros n n' b ->%orphan_live ->%orphan_live.
  - intros n b ->%orphan_live. rewrite orphan_nd, orphan_used. revert b. rewrite <- Forall_forall. compute_done.
  - intros b Hb. revert b Hb. assert (Hall : Forall (λ b, bitset (orphan BMAP) b = true) (seqZ 0 59)) by compute_done.
    intros b Hb. rewrite Forall_forall in Hall. apply Hall, elem_of_seqZ. dlia.
Qed.

Lemma orphan_state : fs_state orphan_image orphan.
Proof.
  assert (Hi : ∀ j y, inodes orphan_image !! j = Some y → 0 < i_ref y → j = 0%nat ∧ y = orphan_inode).
  { intros [|j] y; [by intros [= <-]|]. change (inodes orphan_image !! S j) with (replicate 49 no_inode !! j).
    by intros [-> _]%lookup_replicate. }
  split; [split; [apply boot_view; try done; apply orphan_sector|split|..]; done|done|apply orphan_fsinv|]. split; [done|..].
  - intros j y Hj Hr Hv. destruct (Hi j y Hj Hr) as [-> ->]. change (i_inum orphan_inode) with 2. by rewrite orphan_nd.
  - intros j j' y y' Hj Hj' Hr Hr' _ _. destruct (Hi j y Hj Hr) as [-> _], (Hi j' y' Hj' Hr') as [-> _]. done.
Qed.

Definition orphan_kernel : kernel := set_k_fs orphan_image sample_kernel.

(** The fourteen blocks are free afterwards. *)
Lemma fileclose_deletes_witness :
  ∃ s' C', fileclose 0 orphan_kernel = Ok tt (set_k_fs s' orphan_kernel) ∧ fs_state s' C' ∧ d_type (nd C' 2) = 0 ∧
    free_blocks C' ≡ₚ free_blocks orphan ++ seqZ 59 12 ++ [72; 71].
Proof.
  destruct (fileclose_deletes orphan_kernel orphan 0 swap_file_entry 0 orphan_inode 2) as (s' & C' & Hr & Hs & Het & _).
  - exact (sample_ready orphan_kernel sample_proc 0 0 eq_refl eq_refl eq_refl eq_refl).
  - apply sample_lock. vm_compute. reflexivity.
  - exact orphan_state.
  - vm_compute. reflexivity.
  - reflexivity.
  - reflexivity.
  - reflexivity.
  - reflexivity.
  - reflexivity.
  - reflexivity.
  - reflexivity.
  - reflexivity.
  - reflexivity.
  - reflexivity.
  - discriminate.
  - exists s', C'. split; [exact Hr|]. split; [exact Hs|]. split; [rewrite (et_inode _ _ _ _ Het); reflexivity|].
    rewrite (et_free _ _ _ _ Het), orphan_nd, orphan_used. reflexivity.
Defined.
