(* ===== verification/KallocSpec.v ===== *)
(** The page allocator implements a stack of pages, and booting fills it with
    every page between the end of the kernel image and the end of memory. *)

From S2P Require Import Prelude Params State Spinlock Mem Kalloc Procs Sample.

Section stack.
Context `{link}.
Implicit Types (l : list Z) (k : kernel).

#[global] Instance page_ok_dec p : Decision (page_ok p).
Proof. unfold page_ok. apply _. Defined.

(** A client of the allocator. *)
Inductive op := Oalloc | Ofree (p : Z).

Fixpoint run_ops (ops : list op) : K (list Z) :=
  match ops with
  | [] => ret []
  | Oalloc :: ops => r ← kalloc; rs ← run_ops ops; ret (r :: rs)
  | Ofree p :: ops => kfree p;; run_ops ops
  end.

(** The specification: a stack of pages. An allocation pops (or yields 0), a free
    pushes; freeing what is no page, or is free already, is not allowed. *)
Fixpoint stack_ops (ops : list op) (l : list Z) : option (list Z * list Z) :=
  match ops with
  | [] => Some ([], l)
  | Oalloc :: ops =>
      '(rs, l') ← stack_ops ops (tail l); Some (default 0 (head l) :: rs, l')
  | Ofree p :: ops =>
      if bool_decide (page_ok p ∧ p ∉ l) then stack_ops ops (p :: l) else None
  end%stdpp.

(** The pages a client may disturb: those that were free and those it frees. *)
Definition touched (ops : list op) l (q : Z) : Prop := q ∈ l ∨ Ofree q ∈ ops.

Lemma run_ops_stack ops : ∀ k l rs l',
  kmem_ready k → kmem_ok (k_vm k) l → stack_ops ops l = Some (rs, l') →
  ∃ v, run_ops ops k = Ok rs (set_k_vm v k) ∧ kmem_ok v l' ∧
    ∀ a, (∀ q, touched ops l q → within q PGSIZE a = false) → rd8 (mem v) a = rd8 (mem (k_vm k)) a.
Proof.
  induction ops as [|[|p] ops IH]; intros k l rs l' Hr Hk Hs; simpl in Hs.
  - simplify_eq. exists (k_vm k). split_and!; [by destruct k|done|done].
  - destruct (stack_ops ops (tail l)) as [[rs1 l1]|] eqn:Hst; simplify_eq/=.
    rewrite (kalloc_run k Hr).
    assert (Hv : freelist (k_vm k) = default 0 (head l) ∧ kmem_ok (kalloc_vm (k_vm k)) (tail l) ∧
      mem (kalloc_vm (k_vm k)) = mem (k_vm k)).
    { destruct l as [|p l].
      - destruct (kmem_ok_nil _ Hk) as [Hf Hv]. by rewrite Hv.
      - destruct (kmem_ok_cons _ _ _ Hk) as (Hf & _ & _ & Hv & Hk'). split_and!; [done..|by rewrite Hv]. }
    destruct Hv as (Hf & Hk' & Hm).
    destruct (IH (mod_vm kalloc_vm k) (tail l) rs1 l') as (v & Hrun & Hkv & Hfr); [|done..|].
    { apply kmem_ready_vm; [done|]. unfold kalloc_vm. by destruct (truthy _). }
    exists v. cbn in Hrun |- *. rewrite Hrun, Hf. split_and!; [done..|]. intros a Ha.
    rewrite Hfr; [cbn; by rewrite Hm|]. intros q [Hq|Hq]; apply Ha.
    + left. destruct l; set_solver.
    + right. set_solver.
  - case_bool_decide as Hp; [|done]. destruct Hp as [Hp Hnl].
    cbn [run_ops]. rewrite (bind_ok _ _ _ _ _ (kfree_run p k Hp Hr)).
    destruct (IH (mod_vm (kfree_vm p) k) (p :: l) rs l') as (v & Hrun & Hkv & Hfr);
      [by apply kmem_ready_vm|by apply kfree_vm_ok|done|].
    exists v. split_and!; [done..|]. intros a Ha. rewrite Hfr.
    + cbn. apply rd8_kfree_vm; [done|]. apply Ha. right. set_solver.
    + intros q [Hq|Hq]; apply Ha; [|right; set_solver]. apply elem_of_cons in Hq as [->|?];
        [right; set_solver|by left].
Qed.

(** C19: Whatever sequence of [kalloc] and [kfree] a client runs, if a stack of
    pages allows it then the allocator returns what the stack returns, its linked
    list through the free pages represents the stack's contents afterwards, and
    no byte outside pages that were free or are freed has changed. *)
Theorem allocator_refines_stack ops k l rs l' :
  kmem_ready k → kmem_ok (k_vm k) l → stack_ops ops l = Some (rs, l') →
  ∃ v, run_ops ops k = Ok rs (set_k_vm v k) ∧ kmem_ok v l' ∧
    ∀ a, (∀ q, touched ops l q → within q PGSIZE a = false) → rd8 (mem v) a = rd8 (mem (k_vm k)) a.
Proof. apply run_ops_stack. Qed.
(** ** Booting *)

(** What [main] runs of the allocator: [kinit1] on the pages the boot page table
    maps, and [kinit2] on the rest. *)
Definition boot_alloc : K unit :=
  kinit1 kend (P2V (4 * 1024 * 1024));; kinit2 (P2V (4 * 1024 * 1024)) (P2V PHYSTOP).

Lemma pages_between lo n q : lo mod PGSIZE = 0 →
  q ∈ pages_from lo n ↔ q mod PGSIZE = 0 ∧ lo ≤ q < lo + Z.of_nat n * PGSIZE.
Proof.
  intros Hlo. rewrite elem_of_pages_from. split.
  - intros (i & Hi & ->). clia.
  - intros [Hq Hr]. exists (Z.to_nat ((q - lo) / PGSIZE)). clia.
Qed.

(** The two ranges that [main] frees, in pages. *)
Lemma boot_ranges : ∃ lo n1 n2,
  PGROUNDUP kend = lo ∧ lo mod PGSIZE = 0 ∧ lo ≤ P2V (4 * 1024 * 1024) ∧
  n1 = Z.to_nat ((P2V (4 * 1024 * 1024) - lo) / PGSIZE) ∧
  n2 = Z.to_nat ((P2V PHYSTOP - P2V (4 * 1024 * 1024)) / PGSIZE) ∧
  ∀ q, (q ∈ pages_from lo n1 ↔ q mod PGSIZE = 0 ∧ kend ≤ q < KERNBASE + 4 * 1024 * 1024) ∧
       (q ∈ pages_from (P2V (4 * 1024 * 1024)) n2 ↔
        q mod PGSIZE = 0 ∧ KERNBASE + 4 * 1024 * 1024 ≤ q < KERNBASE + PHYSTOP).
Proof.
  pose proof link_data. pose proof link_end.
  assert (HP : P2V (4 * 1024 * 1024) = KERNBASE + 4 * 1024 * 1024) by done.
  assert (HT : P2V PHYSTOP = KERNBASE + PHYSTOP) by done.
  assert (Hlo : PGROUNDUP kend mod PGSIZE = 0 ∧ kend ≤ PGROUNDUP kend < kend + PGSIZE).
  { rewrite PGROUNDUP_eq by clia. clia. }
  exists (PGROUNDUP kend), (Z.to_nat ((P2V (4 * 1024 * 1024) - PGROUNDUP kend) / PGSIZE)),
    (Z.to_nat ((P2V PHYSTOP - P2V (4 * 1024 * 1024)) / PGSIZE)).
  rewrite HP, HT in *. revert Hlo. generalize (PGROUNDUP kend). intros lo [Hlo1 Hlo2].
  split_and!; [done|done|clia|done|done|]. intros q. split.
  - rewrite pages_between by done. rewrite Z2Nat.id by clia. clia.
  - rewrite pages_between by done. rewrite Z2Nat.id by clia. clia.
Qed.

Lemma kinit_pages k : freelist (k_vm k) = 0 →
  ∃ v m l, boot_alloc k = Ok tt (set_k_mach m (set_k_vm v k)) ∧
    m = set_locks (<[Lkmem := mkSpinlock 0 "kmem" None]> (locks (k_mach k))) (k_mach k) ∧
    use_lock v = 1 ∧ kmem_ok v l ∧ ∀ p, p ∈ l ↔ page_ok p.
Proof.
  intros Hf. pose proof link_data. pose proof link_end.
  set (k0 := mod_vm (set_use_lock 0)
    (set_k_mach (set_locks (<[Lkmem := mkSpinlock 0 "kmem" None]> (locks (k_mach k))) (k_mach k)) k)).
  destruct boot_ranges as (lo & n1 & n2 & Hlo & Hal & Hle & Hn1 & Hn2 & Hp).
  assert (Hmid : PGROUNDUP (P2V (4 * 1024 * 1024)) = P2V (4 * 1024 * 1024)) by done.
  destruct (freerange_ok k0 [] kend (P2V (4 * 1024 * 1024)) n1) as (v1 & Hr1 & Hu1 & Hk1);
    rewrite ?Hlo; [clia|done|done|by left|by split; [|constructor|constructor]|..].
  { intros q Hq%Hp. unfold page_ok. split; [clear -Hq; clia|apply not_elem_of_nil]. }
  rewrite Hlo, app_nil_r in Hk1.
  destruct (freerange_ok (set_k_vm v1 k0) (reverse (pages_from lo n1))
      (P2V (4 * 1024 * 1024)) (P2V PHYSTOP) n2) as (v2 & Hr2 & Hu2 & Hk2);
    rewrite ?Hmid; [done|done|done|left; cbn; by rewrite Hu1|done|..].
  { intros q Hq%Hp. unfold page_ok. rewrite elem_of_reverse, (proj1 (Hp q)). clear -Hq H1. clia. }
  exists (set_use_lock 1 v2), (k_mach k0), (reverse (pages_from (P2V (4 * 1024 * 1024)) n2) ++ reverse (pages_from lo n1)).
  split_and!; [|done|done|rewrite Hmid in Hk2; by destruct Hk2|].
  - unfold boot_alloc, kinit1, kinit2.
    rewrite (bind_ok _ _ _ tt (set_k_vm v1 k0)) by exact Hr1.
    by rewrite (bind_ok _ _ _ _ _ Hr2).
  - intros p. rewrite elem_of_app, !elem_of_reverse, (proj1 (Hp p)), (proj2 (Hp p)). unfold page_ok. clear -H1. clia.
Qed.

(** Booting with an empty list, [kinit1] and [kinit2] together put every page
    between the end of the kernel image and the end of physical memory on the
    free list, once, and leave the allocator's lock initialised, free and in use. *)
Theorem kinit_owns_all_pages k : freelist (k_vm k) = 0 →
  ∃ v m l, boot_alloc k = Ok tt (set_k_mach m (set_k_vm v k)) ∧
    m = set_locks (<[Lkmem := mkSpinlock 0 "kmem" None]> (locks (k_mach k))) (k_mach k) ∧
    use_lock v = 1 ∧ kmem_ok v l ∧ ∀ p, p ∈ l ↔ page_ok p.
Proof. apply kinit_pages. Qed.
End stack.

(** Free two pages, allocate three times. *)
Lemma allocator_refines_stack_witness :
  let ops := [Ofree 0x80400000; Ofree 0x80401000; Oalloc; Oalloc; Oalloc] in
  kmem_ready sample_kernel ∧ kmem_ok (k_vm sample_kernel) [] ∧
  stack_ops ops [] = Some ([0x80401000; 0x80400000; 0], []) ∧
  ∃ v, run_ops ops sample_kernel = Ok [0x80401000; 0x80400000; 0] (set_k_vm v sample_kernel) ∧
    kmem_ok v [] ∧
    ∀ a, (∀ q, touched ops [] q → within q PGSIZE a = false) → rd8 (mem v) a = rd8 ∅ a.
Proof.
  intros ops.
  assert (Hr : kmem_ready sample_kernel) by (by left).
  assert (Hk : kmem_ok (k_vm sample_kernel) []) by (split; [done|constructor|constructor]).
  assert (Hs : stack_ops ops [] = Some ([0x80401000; 0x80400000; 0], [])) by (vm_compute; reflexivity).
  split; [exact Hr|]. split; [exact Hk|]. split; [exact Hs|].
  exact (allocator_refines_stack ops sample_kernel [] _ _ Hr Hk Hs).
Defined.

Lemma kinit_owns_all_pages_witness : freelist (k_vm sample_kernel) = 0 ∧
  ∃ v m l, boot_alloc sample_kernel = Ok tt (set_k_mach m (set_k_vm v sample_kernel)) ∧
    m = set_locks (<[Lkmem := mkSpinlock 0 "kmem" None]> all_locks) sample_mach ∧
    use_lock v = 1 ∧ kmem_ok v l ∧ ∀ p, p ∈ l ↔ page_ok p.
Proof. split; [reflexivity|]. exact (kinit_owns_all_pages sample_kernel eq_refl). Defined.
