(* ===== verification/Queue.v ===== *)
(** [proc.c], lines 625 to 866: the tables a process keeps for paging.

    [inRAMQueue] holds the indices (in [pagesDS]) of the pages in memory,
    [availableOffsetQueue] the places of the swap file that are free again; both
    are C arrays of [MAX_PSYC_PAGES] ints, filled from the left and padded with
    [-1].  The operations that touch only these tables are programs on
    [paging], run on the current process; the others also read page tables. *)

From S2P Require Import Prelude Params State Spinlock Mem Kalloc PageTable Procs.

(** The replacement policy the kernel is compiled with (Makefile, [SELECTION]). *)
Inductive selection := SCFIFO | NFUA | LAPA | AQ | NONE.

#[global] Instance selection_eq_dec : EqDecision selection.
Proof. solve_decision. Defined.

(** What the Makefile chooses: the policy, and whether a process reports its end. *)
Class build := { SELECTION : selection; VERBOSE_PRINT : bool }.

(** ** Programs on one array *)
Section arrays.
Abbreviation A := (M kerr (list Z)).

Definition rd_arr (i : Z) : A Z := a ← get; or_ub "array" (aget a i).
Definition wr_arr (i x : Z) : A unit := a ← get; b ← or_ub "array" (aset a i x); modify (λ _, b).

(** [while(index < MAX_PSYC_PAGES-1) { a[index] = a[index+1]; index++; }], then
    the last slot is emptied. *)
Definition arr_shift (index : Z) : A unit :=
  forM (seqZ index (MAX_PSYC_PAGES - 1 - index)) (λ i, x ← rd_arr (i + 1); wr_arr i x);;
  wr_arr (MAX_PSYC_PAGES - 1) (-1).

(** [for(i = 0; a[i] != -1; i++) if(i == MAX_PSYC_PAGES) panic(msg);]: the entry
    is read before the bound is tested. *)
Fixpoint arr_free (fuel : nat) (msg : string) (i : Z) : A Z :=
  match fuel with
  | O => fail OutOfFuel
  | S fuel =>
      x ← rd_arr i;
      if x =? -1 then ret i
      else if i =? MAX_PSYC_PAGES then fail (Panic msg)
      else arr_free fuel msg (i + 1)
  end.
Definition arr_insert (msg : string) (x : Z) : A unit :=
  i ← arr_free 18 msg 0; wr_arr i x.

(** The first [i] with [a[i] == x], if there is one. *)
Fixpoint arr_find (n : nat) (i x : Z) : A (option Z) :=
  match n with
  | O => ret None
  | S n => y ← rd_arr i; if y =? x then ret (Some i) else arr_find n (i + 1) x
  end.

(** The two loops at the end of [removeSCFIFO]. *)
Fixpoint scfifo_move (n : nat) (i new_index : Z) : A Z :=
  match n with
  | O => ret new_index
  | S n =>
      x ← rd_arr i;
      if negb (x =? -1) then wr_arr new_index x;; scfifo_move n (i + 1) (new_index + 1)
      else ret new_index
  end.
Fixpoint scfifo_fill (n : nat) (temp : list Z) (i new_index : Z) : A unit :=
  match n with
  | O => ret tt
  | S n =>
      x ← or_ub "temp" (aget temp i);
      wr_arr new_index x;;
      scfifo_fill n temp (i + 1) (new_index + 1)
  end.
End arrays.

#[global] Arguments rd_arr : simpl never.
#[global] Arguments wr_arr : simpl never.
#[global] Arguments arr_shift : simpl never.
#[global] Arguments arr_insert : simpl never.

(** ** Programs on the paging tables *)
Section tables.
Context `{build}.
Abbreviation P := (M kerr paging).

Definition on_queue {A} (m : M kerr (list Z) A) : P A :=
  zoom (λ g, Some (inRAMQueue g)) set_inRAMQueue m.
Definition on_offsets {A} (m : M kerr (list Z) A) : P A :=
  zoom (λ g, Some (availableOffsetQueue g)) set_availableOffsetQueue m.

Definition get_page (i : Z) : P page :=
  g ← get; or_ub "pagesDS" (aget (pagesDS g) i).
Definition mod_page (i : Z) (f : page → page) : P unit :=
  d ← get_page i;
  g ← get;
  l ← or_ub "pagesDS" (aset (pagesDS g) i (f d));
  modify (set_pagesDS l).

(** The age a page starts with. *)
Definition new_age : Z :=
  match SELECTION with LAPA => 0xFFFFFFFF | _ => 0x00000000 end.

Definition fixQueue_pg (index : Z) : P unit := on_queue (arr_shift index).
Definition insert_pg (index : Z) : P unit := on_queue (arr_insert "error in inerstion!" index).

(** [curproc->pagesDS[curproc->inRAMQueue[i]].age] *)
Definition age_at (i : Z) : P Z :=
  x ← on_queue (rd_arr i); d ← get_page x; ret (age d).

Fixpoint nfua_loop (js : list Z) (min_index : Z) : P Z :=
  match js with
  | [] => ret min_index
  | i :: js =>
      a ← age_at i;
      b ← age_at min_index;
      nfua_loop js (if a <? b then i else min_index)
  end.
Definition removeNFUA_pg : P Z :=
  min_index ← nfua_loop (seqZ 1 (MAX_PSYC_PAGES - 1)) 0;
  x ← on_queue (rd_arr min_index);
  fixQueue_pg min_index;;
  ret x.

(** The number of [j] below 32 with [(1 << j) & x]. *)
Definition count_bits (x : Z) : Z :=
  Z.of_nat (length (filter (λ j, truthy (Z.land (Z.shiftl 1 j) x) = true) (seqZ 0 32))).

Fixpoint lapa_loop (js : list Z) (min_i min_age min_count : Z) : P Z :=
  match js with
  | [] => ret min_i
  | i :: js =>
      a ← age_at i;
      let curr_age := s32 a in
      let curr_count := count_bits curr_age in
      if curr_count <? min_count then lapa_loop js i curr_age curr_count
      else if (curr_count =? min_count) && (curr_age <? min_age) then lapa_loop js i curr_age min_count
      else lapa_loop js min_i min_age min_count
  end.
Definition removeLAPA_pg : P Z :=
  min_i ← lapa_loop (seqZ 0 MAX_PSYC_PAGES) (-1) (s32 0xFFFFFFFF) 33;
  if min_i =? -1 then fail (Panic "LAPA error")
  else
    index ← on_queue (rd_arr min_i);
    fixQueue_pg min_i;;
    ret index.

Definition removeAQ_pg : P Z :=
  index ← on_queue (rd_arr 0);
  fixQueue_pg 0;;
  ret index.

Definition fixOffsetQueue_pg : P unit := on_offsets (arr_shift 0).
Definition removeOffsetQueue_pg : P Z :=
  index ← on_offsets (rd_arr 0);
  when (negb (index =? -1)) fixOffsetQueue_pg;;
  ret index.
Definition insertOffsetQueue_pg (index : Z) : P unit :=
  on_offsets (arr_insert "overflow  in offset insert !" index).

Definition getFreeFileOffset_pg : P Z :=
  result ← removeOffsetQueue_pg;
  if result =? -1 then
    off ← gets fileOffset;
    modify (set_fileOffset (u32 (off + PGSIZE)));;
    ret (s32 off)
  else ret result.

Fixpoint find_page (n : nat) (i : Z) (P : page → bool) : M kerr paging (option Z) :=
  match n with
  | O => ret None
  | S n => d ← get_page i; if P d then ret (Some i) else find_page n (i + 1) P
  end.

Definition deallocatePage_pg (va : Z) : P unit :=
  o ← find_page (Z.to_nat MAX_TOTAL_PAGES) 0 (λ d, negb (isAllocated d =? 0) && (v_address d =? va));
  match o with
  | None => fail (Panic "trying to deallocate a non existing page ")
  | Some i =>
      mod_page i (λ d, set_isAllocated 0 (set_age new_age (set_v_address 0 d)));;
      d ← get_page i;
      when (in_RAM d =? 0) (insertOffsetQueue_pg (file_offset d));;
      mod_page i (λ d, set_file_offset (-1) (set_in_RAM 0 d));;
      r ← on_queue (arr_find (Z.to_nat MAX_PSYC_PAGES) 0 i);
      match r with
      | Some j => fixQueue_pg j
      | None => ret tt
      end
  end.
End tables.

(** ** Programs of the current process *)
Section current.
Context `{link} `{build}.

Definition fixQueue (index : Z) : K unit := p ← curproc; on_pg p (fixQueue_pg index).
Definition insert (index : Z) : K unit := p ← curproc; on_pg p (insert_pg index).
Definition removeNFUA : K Z := p ← curproc; on_pg p removeNFUA_pg.
Definition removeLAPA : K Z := p ← curproc; on_pg p removeLAPA_pg.
Definition removeAQ : K Z := p ← curproc; on_pg p removeAQ_pg.
Definition fixOffsetQueue : K unit := p ← curproc; on_pg p fixOffsetQueue_pg.
Definition removeOffsetQueue : K Z := p ← curproc; on_pg p removeOffsetQueue_pg.
Definition insertOffsetQueue (index : Z) : K unit := p ← curproc; on_pg p (insertOffsetQueue_pg index).
Definition getFreeFileOffset : K Z := p ← curproc; on_pg p getFreeFileOffset_pg.
Definition deallocatePage (va : Z) : K unit := p ← curproc; on_pg p (deallocatePage_pg va).

(** [walkpgdir_global(curproc->pgdir, curproc->pagesDS[index].v_address, 0)] *)
Definition walk_page (p : nat) (index : Z) : K Z :=
  q ← get_proc p;
  d ← on_pg p (get_page index);
  walkpgdir_global (pgdir q) (v_address d) 0.

(** The scan of [removeSCFIFO] from slot [i]: it stops at the first page that was
    not accessed, and otherwise clears the accessed bit and sets the page aside
    in [temp].  The result is [index], [i] and [temp]. *)
Fixpoint scfifo_scan (n : nat) (p : nat) (i : Z) (temp : list Z) (temp_index : Z) : K (Z * Z * list Z) :=
  match n with
  | O => ret (-1, i, temp)
  | S n =>
      x ← on_pg p (on_queue (rd_arr i));
      pte ← walk_page p x;
      e ← deref pte;
      if truthy (Z.land e PTE_A) then
        store32 pte (PTE_A_OFF e);;
        temp ← or_ub "temp" (aset temp temp_index x);
        scfifo_scan n p (i + 1) temp (temp_index + 1)
      else ret (x, i, temp)
  end.

Definition removeSCFIFO : K Z :=
  p ← curproc;
  let temp := replicate (Z.to_nat MAX_PSYC_PAGES) (-1) in
  ' (index, i, temp) ← scfifo_scan (Z.to_nat MAX_PSYC_PAGES) p 0 temp 0;
  if index =? -1 then
    index ← on_pg p (on_queue (rd_arr 0));
    if negb (index =? -1) then fixQueue 0;; ret index
    else panic "error in removing scfifo!"
  else
    let i := i + 1 in
    new_index ← on_pg p (on_queue (scfifo_move (Z.to_nat (MAX_PSYC_PAGES - i)) i 0));
    on_pg p (on_queue (scfifo_fill (Z.to_nat (MAX_PSYC_PAGES - new_index)) temp 0 new_index));;
    ret index.

(** The body of the loop of [agePages]. *)
Definition age_page (p : nat) (i : Z) : K unit :=
  d ← on_pg p (get_page i);
  when (isAllocated d =? 1)
    (on_pg p (mod_page i (λ d, set_age (Z.shiftr (age d) 1) d));;
     pte ← walk_page p i;
     e ← deref pte;
     when (truthy (Z.land e PTE_A))
       (on_pg p (mod_page i (λ d, set_age (Z.lor (age d) 0x80000000) d));;
        store32 pte (PTE_A_OFF e))).
Definition agePages : K unit :=
  p ← curproc; forM (seqZ 0 MAX_TOTAL_PAGES) (age_page p).

(** [for(i = MAX_PSYC_PAGES-1; i < 0; i--)] *)
Fixpoint advance_loop (fuel : nat) (p : nat) (i : Z) : K unit :=
  if i <? 0 then
    match fuel with
    | O => fail OutOfFuel
    | S fuel =>
        curr_page_idx ← on_pg p (on_queue (rd_arr i));
        when (negb (curr_page_idx =? -1))
          (prev_page_idx ← on_pg p (on_queue (rd_arr (i - 1)));
           pte_curr ← walk_page p curr_page_idx;
           pte_pre ← walk_page p prev_page_idx;
           e_pre ← deref pte_pre;
           e_curr ← deref pte_curr;
           when (negb (Z.land e_pre PTE_A =? 0) && (Z.land e_curr PTE_A =? 0))
             (on_pg p (on_queue (wr_arr i prev_page_idx));;
              on_pg p (on_queue (wr_arr (i - 1) curr_page_idx))));;
        advance_loop fuel p (i - 1)
    end
  else ret tt.
Definition advanceQueue : K unit :=
  p ← curproc; advance_loop (Z.to_nat MAX_PSYC_PAGES) p (MAX_PSYC_PAGES - 1).
End current.
