(* ===== verification/QueueSpec.v ===== *)
(** Correctness of the paging tables of [Queue.v].

    An array that is filled from the left and padded with [-1] represents a
    list; the operations are the list operations: remove at an index, append,
    second-chance rotation, the choice of the page with the least age. *)

From S2P Require Import Prelude Params State Spinlock Mem Kalloc PageTable Procs Queue.

(** Array [a] represents the list [q]. *)
Record qrep (a q : list Z) : Prop := mkQrep {
  qr_len : (length q ≤ 16)%nat;
  qr_arr : a = q ++ replicate (16 - length q) (-1);
  qr_pos : Forall (λ x, 0 ≤ x) q
}.

Section array_specs.
Implicit Types (a q : list Z) (i x : Z).

Lemma qrep_length a q : qrep a q → length a = 16%nat.
Proof. intros [? -> _]. rewrite length_app, length_replicate. lia. Qed.

Lemma qrep_lookup a q (n : nat) :
  qrep a q → (n < 16)%nat → a !! n = Some (default (-1) (q !! n)).
Proof.
  intros [? -> _] Hn. destruct (decide (n < length q)%nat).
  - rewrite lookup_app_l by done. by destruct (lookup_lt_is_Some_2 q n) as [x ->].
  - rewrite lookup_app_r by lia. rewrite (lookup_ge_None_2 q) by lia.
    rewrite lookup_replicate_2 by lia. done.
Qed.

Lemma rd_arr_nat a (n : nat) x : a !! n = Some x → rd_arr (Z.of_nat n) a = Ok x a.
Proof. intros Hx. unfold rd_arr. cbn. by rewrite aget_nat, Hx. Qed.

Lemma rd_arr_out a i : i < 0 ∨ Z.of_nat (length a) ≤ i → rd_arr i a = Err (UB "array") a.
Proof. intros Hi. unfold rd_arr. cbn. by rewrite aget_out. Qed.

Lemma wr_arr_nat a (n : nat) x : (n < length a)%nat → wr_arr (Z.of_nat n) x a = Ok tt (<[n := x]> a).
Proof. intros Hn. unfold wr_arr. cbn. by rewrite aset_nat. Qed.

(** The shift deletes one slot and frees the last one. *)
Lemma arr_shift_ok a (n : nat) :
  length a = 16%nat → (n < 16)%nat → arr_shift (Z.of_nat n) a = Ok tt (delete n a ++ [-1]).
Proof.
  do 16 (destruct a as [|? a]; [done|]). destruct a; [|done]. intros _ Hn.
  do 16 (destruct n as [|n]; [vm_compute; reflexivity|]). lia.
Qed.

Lemma delete_app_l (l k : list Z) (n : nat) :
  (n < length l)%nat → delete n (l ++ k) = delete n l ++ k.
Proof.
  revert n. induction l as [|x l IH]; intros [|n] Hn; simpl in *; try lia; [done|].
  f_equal. apply IH. lia.
Qed.

Lemma qrep_delete a q (n : nat) :
  qrep a q → (n < length q)%nat → qrep (delete n a ++ [-1]) (delete n q).
Proof.
  intros [Hl -> Hp] Hn. split; [| |by apply Forall_delete].
  - rewrite length_delete; [lia|]. by apply lookup_lt_is_Some_2.
  - rewrite delete_app_l, length_delete, <- app_assoc by (done || by apply lookup_lt_is_Some_2).
    f_equal. rewrite <- replicate_S_end. f_equal. lia.
Qed.

Lemma qrep_snoc a q x :
  qrep a q → (length q < 16)%nat → 0 ≤ x → qrep (<[length q := x]> a) (q ++ [x]).
Proof.
  intros [Hl -> Hp] Hn Hx. split.
  - rewrite length_app. simpl. lia.
  - rewrite insert_app_r_alt by done. rewrite Nat.sub_diag, length_app. simpl.
    replace (16 - length q)%nat with (S (16 - (length q + 1))) by lia. simpl.
    by rewrite <- app_assoc.
  - apply Forall_app. by split; [|constructor].
Qed.

Lemma arr_free_ok msg a q (n : nat) fuel :
  qrep a q → (n ≤ length q < 16)%nat → (length q - n < fuel)%nat →
  arr_free fuel msg (Z.of_nat n) a = Ok (Z.of_nat (length q)) a.
Proof.
  intros Hq. revert n. induction fuel as [|fuel IH]; intros n Hn Hf; [lia|]. cbn [arr_free].
  erewrite bind_ok by (apply rd_arr_nat, qrep_lookup; [done|lia]).
  destruct (decide (n = length q)) as [->|Hne].
  - by rewrite (lookup_ge_None_2 q) by lia.
  - destruct (lookup_lt_is_Some_2 q n) as [x Hx]; [lia|]. rewrite Hx. cbn.
    pose proof (Forall_lookup_1 _ _ _ _ (qr_pos _ _ Hq) Hx) as Hpos. simpl in Hpos.
    rewrite (proj2 (Z.eqb_neq x _)), (proj2 (Z.eqb_neq _ MAX_PSYC_PAGES)) by clia.
    replace (Z.of_nat n + 1) with (Z.of_nat (S n)) by lia. apply IH; lia.
Qed.

Lemma arr_insert_ok msg a q x :
  qrep a q → (length q < 16)%nat →
  arr_insert msg x a = Ok tt (<[length q := x]> a).
Proof.
  intros Hq Hl. unfold arr_insert. change 0 with (Z.of_nat 0).
  rewrite (bind_ok _ _ _ _ _ (arr_free_ok msg a q 0 18 Hq ltac:(lia) ltac:(lia))).
  apply wr_arr_nat. rewrite (qrep_length _ _ Hq). lia.
Qed.

(** On a full array the search runs past its end before it would panic. *)
Lemma arr_insert_full msg a q x :
  qrep a q → length q = 16%nat → arr_insert msg x a = Err (UB "array") a.
Proof.
  intros Hq Hl. unfold arr_insert.
  assert (Hf : ∀ n fuel, (n ≤ 16)%nat → (16 - n < fuel)%nat →
    arr_free fuel msg (Z.of_nat n) a = Err (UB "array") a).
  { intros n fuel. revert n. induction fuel as [|fuel IH]; intros n Hn Hfu; [lia|]. cbn [arr_free].
    destruct (decide (n = 16)%nat) as [->|Hne].
    - erewrite bind_err; [done|]. apply rd_arr_out. rewrite (qrep_length _ _ Hq). lia.
    - erewrite bind_ok by (apply rd_arr_nat, qrep_lookup; [done|lia]).
      destruct (lookup_lt_is_Some_2 q n) as [y Hy]; [lia|]. rewrite Hy. cbn.
      pose proof (Forall_lookup_1 _ _ _ _ (qr_pos _ _ Hq) Hy) as Hpos. simpl in Hpos.
      rewrite (proj2 (Z.eqb_neq y _)), (proj2 (Z.eqb_neq _ MAX_PSYC_PAGES)) by clia.
      replace (Z.of_nat n + 1) with (Z.of_nat (S n)) by lia. apply IH; lia. }
  change 0 with (Z.of_nat 0). by rewrite (bind_err _ _ _ _ _ (Hf 0%nat 18%nat ltac:(lia) ltac:(lia))).
Qed.
End array_specs.

(** The array of a list. *)
Definition arr (q : list Z) : list Z := q ++ replicate (16 - length q) (-1).

Lemma qrep_eq a q : qrep a q → a = arr q.
Proof. by intros [_ -> _]. Qed.

Lemma qrep_arr q : (length q ≤ 16)%nat → Forall (λ x, 0 ≤ x) q → qrep (arr q) q.
Proof. intros. by split. Qed.

(** [l !! j] is the first of the least elements of [l]. *)
Definition first_min {A} (R : A → A → Prop) (l : list A) (j : nat) : Prop :=
  ∃ x, l !! j = Some x ∧ (∀ y, y ∈ l → ¬ R y x) ∧ (∀ i y, (i < j)%nat → l !! i = Some y → R x y).

Section first_min.
Context {A : Type} (R : A → A → Prop).
Hypothesis R_asym : ∀ x y, R x y → ¬ R y x.
Hypothesis R_comp : ∀ x y z, R y x → ¬ R z x → R y z.

Lemma first_min_keep (l : list A) (i m : nat) x y :
  first_min R (take i l) m → l !! m = Some x → l !! i = Some y → ¬ R y x →
  first_min R (take (S i) l) m.
Proof using Type.
  intros (x' & Hx & Hmin & Hbef) Hm Hy Hn.
  assert (Hmi : (m < i)%nat) by (apply lookup_lt_Some in Hx; rewrite length_take in Hx; lia).
  rewrite lookup_take_lt in Hx by done. assert (x' = x) as -> by congruence. exists x.
  rewrite (take_S_r _ _ _ Hy). split_and!.
  - rewrite lookup_app_l by (by eapply lookup_lt_Some; rewrite lookup_take_lt). by rewrite lookup_take_lt.
  - intros z [Hz|Hz%list_elem_of_singleton]%elem_of_app; [by apply Hmin|by subst].
  - intros j z Hj Hz. apply (Hbef j); [done|]. rewrite lookup_take_lt by lia.
    rewrite lookup_app_l in Hz by (eapply Nat.lt_trans; [done|]; eapply lookup_lt_Some; by rewrite lookup_take_lt).
    by rewrite lookup_take_lt in Hz by lia.
Qed.

Lemma first_min_new (l : list A) (i m : nat) x y :
  first_min R (take i l) m → l !! m = Some x → l !! i = Some y → R y x →
  first_min R (take (S i) l) i.
Proof using R_asym R_comp.
  intros (x' & Hx & Hmin & _) Hm Hy HR.
  assert (Hmi : (m < i)%nat) by (apply lookup_lt_Some in Hx; rewrite length_take in Hx; lia).
  rewrite lookup_take_lt in Hx by done. assert (x' = x) as -> by congruence.
  assert (Hall : ∀ z, z ∈ take i l → R y z) by (intros z Hz; eapply R_comp; eauto).
  assert (Hlen : length (take i l) = i) by (apply lookup_lt_Some in Hy; rewrite length_take; lia).
  exists y. rewrite (take_S_r _ _ _ Hy). split_and!.
  - by rewrite lookup_app_r, Hlen, Nat.sub_diag by lia.
  - intros z [Hz|Hz%list_elem_of_singleton]%elem_of_app; [by apply R_asym, Hall|].
    subst. intros Hyy. by apply (R_asym y y).
  - intros j z Hj Hz. apply Hall. rewrite lookup_app_l in Hz by lia. by eapply list_elem_of_lookup_2.
Qed.

Lemma first_min_one (l : list A) x : l !! 0%nat = Some x → first_min R (take 1 l) 0.
Proof using R_asym.
  destruct l as [|y l]; [done|]. intros [= ->]. exists x. split_and!; [done| |lia].
  intros z ->%list_elem_of_singleton Hzz. by apply (R_asym x x).
Qed.
End first_min.

(** ** The operations on [paging] *)
Section paging_specs.
Context `{build}.
Implicit Types (g : paging) (q : list Z).

Lemma on_queue_ok {A} (m : M kerr (list Z) A) g x a :
  m (inRAMQueue g) = Ok x a → on_queue m g = Ok x (set_inRAMQueue a g).
Proof. intros Hm. unfold on_queue. by rewrite (zoom_ok _ _ m g (inRAMQueue g) x a). Qed.

Lemma on_queue_err {A} (m : M kerr (list Z) A) g e a :
  m (inRAMQueue g) = Err e a → on_queue m g = Err e (set_inRAMQueue a g).
Proof. intros Hm. unfold on_queue. by rewrite (zoom_err _ _ m g (inRAMQueue g) e a). Qed.

Lemma on_offsets_ok {A} (m : M kerr (list Z) A) g x a :
  m (availableOffsetQueue g) = Ok x a → on_offsets m g = Ok x (set_availableOffsetQueue a g).
Proof. intros Hm. unfold on_offsets. by rewrite (zoom_ok _ _ m g (availableOffsetQueue g) x a). Qed.

Lemma set_inRAMQueue_id g : set_inRAMQueue (inRAMQueue g) g = g.
Proof. by destruct g. Qed.
Lemma set_availableOffsetQueue_id g : set_availableOffsetQueue (availableOffsetQueue g) g = g.
Proof. by destruct g. Qed.

Lemma rd_queue g (n : nat) x :
  inRAMQueue g !! n = Some x → on_queue (rd_arr (Z.of_nat n)) g = Ok x g.
Proof.
  intros Hx. rewrite (on_queue_ok _ g x (inRAMQueue g)) by (by apply rd_arr_nat).
  by rewrite set_inRAMQueue_id.
Qed.

Lemma rd_queue_q g q (n : nat) x :
  qrep (inRAMQueue g) q → q !! n = Some x → on_queue (rd_arr (Z.of_nat n)) g = Ok x g.
Proof.
  intros Hq Hx. pose proof (lookup_lt_Some _ _ _ Hx). pose proof (qr_len _ _ Hq).
  apply rd_queue. rewrite (qrep_lookup _ _ _ Hq) by lia. by rewrite Hx.
Qed.

Lemma fixQueue_pg_ok g q (n : nat) :
  qrep (inRAMQueue g) q → (n < length q)%nat →
  fixQueue_pg (Z.of_nat n) g = Ok tt (set_inRAMQueue (arr (delete n q)) g).
Proof.
  intros Hq Hn. pose proof (qr_len _ _ Hq). unfold fixQueue_pg. apply on_queue_ok.
  rewrite arr_shift_ok by (rewrite ?(qrep_length _ _ Hq); lia).
  by rewrite (qrep_eq _ _ (qrep_delete _ _ n Hq Hn)).
Qed.

Lemma insert_pg_ok g q x :
  qrep (inRAMQueue g) q → (length q < 16)%nat → 0 ≤ x →
  insert_pg x g = Ok tt (set_inRAMQueue (arr (q ++ [x])) g).
Proof.
  intros Hq Hn Hx. unfold insert_pg. apply on_queue_ok.
  rewrite (arr_insert_ok _ _ q) by done. by rewrite (qrep_eq _ _ (qrep_snoc _ _ x Hq Hn Hx)).
Qed.

Lemma insert_pg_full g q x :
  qrep (inRAMQueue g) q → length q = 16%nat → insert_pg x g = Err (UB "array") g.
Proof.
  intros Hq Hn. unfold insert_pg.
  rewrite (on_queue_err _ g (UB "array") (inRAMQueue g)) by (by apply (arr_insert_full _ _ q)).
  by rewrite set_inRAMQueue_id.
Qed.

Lemma get_page_ok g i d : aget (pagesDS g) i = Some d → get_page i g = Ok d g.
Proof. intros Hd. unfold get_page. cbn. by rewrite Hd. Qed.

(** The ages of the queued pages. *)
Definition queue_ages g q (ags : list Z) : Prop :=
  Forall2 (λ x a, age <$> aget (pagesDS g) x = Some a) q ags.

Lemma age_at_ok g q ags (n : nat) a :
  qrep (inRAMQueue g) q → queue_ages g q ags → ags !! n = Some a →
  age_at (Z.of_nat n) g = Ok a g.
Proof.
  intros Hq Ha Hn. destruct (Forall2_lookup_r _ _ _ _ _ Ha Hn) as (x & Hx & Hxa).
  apply fmap_Some in Hxa as (d & Hd & ->).
  unfold age_at. rewrite (bind_ok _ _ _ _ _ (rd_queue_q g q n x Hq Hx)).
  by rewrite (bind_ok _ _ _ _ _ (get_page_ok g x d Hd)).
Qed.

(** [queue_ages] exists whenever the queue holds indices of [pagesDS]. *)
Lemma queue_ages_exist g q :
  Forall (λ x, 0 ≤ x < Z.of_nat (length (pagesDS g))) q → ∃ ags, queue_ages g q ags.
Proof.
  induction 1 as [|x q Hx Hq [ags IH]]; [by exists []; constructor|].
  destruct (aget_is_Some (pagesDS g) x Hx) as [d Hd].
  exists (age d :: ags). constructor; [by rewrite Hd|done].
Qed.
Lemma nfua_loop_ok g q ags (n i m : nat) :
  qrep (inRAMQueue g) q → queue_ages g q ags → (i + n = length ags)%nat →
  first_min Z.lt (take i ags) m →
  ∃ m' : nat, nfua_loop (seqZ (Z.of_nat i) (Z.of_nat n)) (Z.of_nat m) g = Ok (Z.of_nat m') g ∧
    first_min Z.lt ags m'.
Proof.
  intros Hq Ha. revert i m. induction n as [|n IH]; intros i m Hi Hm.
  - exists m. split; [done|]. by rewrite take_ge in Hm by lia.
  - rewrite seqZ_cons by lia. cbn [nfua_loop].
    destruct (lookup_lt_is_Some_2 ags i) as [y Hy]; [lia|].
    assert (Hx : ∃ x, ags !! m = Some x).
    { destruct Hm as (x & Hx & _). exists x. by apply lookup_take_Some in Hx as [? _]. }
    destruct Hx as [x Hx].
    rewrite (bind_ok _ _ _ _ _ (age_at_ok _ _ _ _ _ Hq Ha Hy)).
    rewrite (bind_ok _ _ _ _ _ (age_at_ok _ _ _ _ _ Hq Ha Hx)).
    replace (Z.succ (Z.of_nat i)) with (Z.of_nat (S i)) by lia.
    replace (Z.pred (Z.of_nat (S n))) with (Z.of_nat n) by lia.
    destruct (Z.ltb_spec y x).
    + apply IH; [lia|]. eapply first_min_new; [lia|lia|done..].
    + apply IH; [lia|]. eapply first_min_keep; [done..|lia].
Qed.

(** [removeNFUA] takes the first of the pages with the least age out of a full
    queue, which keeps the order of the others. *)
Lemma removeNFUA_pg_ok g q ags :
  qrep (inRAMQueue g) q → length q = 16%nat → queue_ages g q ags →
  ∃ j x, q !! j = Some x ∧ first_min Z.lt ags j ∧
    removeNFUA_pg g = Ok x (set_inRAMQueue (arr (delete j q)) g).
Proof.
  intros Hq Hl Ha. pose proof (Forall2_length _ _ _ Ha) as Hla.
  destruct (lookup_lt_is_Some_2 ags 0) as [a0 Ha0]; [lia|].
  destruct (nfua_loop_ok g q ags 15 1 0 Hq Ha) as (j & Hj & Hmin); [lia| |].
  { eapply first_min_one; [lia|done]. }
  assert (Hlt : (j < length ags)%nat) by (destruct Hmin as (? & ?%lookup_lt_Some & _); done).
  destruct (lookup_lt_is_Some_2 q j) as [x Hx]; [lia|]. exists j, x. split_and!; [done..|].
  unfold removeNFUA_pg. change (seqZ 1 (MAX_PSYC_PAGES - 1)) with (seqZ (Z.of_nat 1) (Z.of_nat 15)).
  change 0 with (Z.of_nat 0). rewrite (bind_ok _ _ _ _ _ Hj).
  rewrite (bind_ok _ _ _ _ _ (rd_queue_q g q j x Hq Hx)).
  by rewrite (bind_ok _ _ _ _ _ (fixQueue_pg_ok g q j Hq ltac:(lia))).
Qed.

(** The number of ones of a word in binary, which does not look at how the code counts them. *)
Fixpoint pos_ones (p : positive) : Z :=
  match p with xI p => 1 + pos_ones p | xO p => pos_ones p | xH => 1 end.
Definition z_ones (x : Z) : Z := match x with Zpos p => pos_ones p | _ => 0 end.
Definition ones (a : Z) : Z := z_ones (u32 a).

(** The order of [removeLAPA]: fewer bits first, then the age as a signed number. *)
Definition lapa_lt (a b : Z) : Prop := ones a < ones b ∨ (ones a = ones b ∧ s32 a < s32 b).

Lemma filter_iff_in {A} (P Q : A → Prop) `{∀ x, Decision (P x)} `{∀ x, Decision (Q x)} (l : list A) :
  (∀ x, x ∈ l → P x ↔ Q x) → filter P l = filter Q l.
Proof.
  induction l as [|x l IH]; intros Hl; [done|]. rewrite !filter_cons, IH by (intros; apply Hl; by constructor).
  specialize (Hl x (list_elem_of_here _ _)). repeat case_decide; tauto || done.
Qed.

Lemma filter_fmap_in {A B} (f : A → B) (P : B → Prop) `{∀ x, Decision (P x)} (l : list A) :
  filter P (f <$> l) = f <$> filter (P ∘ f) l.
Proof. induction l as [|x l IH]; [done|]. rewrite fmap_cons, !filter_cons, IH. cbn. by repeat case_decide. Qed.

Lemma z_ones_step x : 0 ≤ x → z_ones x = x mod 2 + z_ones (x / 2).
Proof.
  intros Hx. rewrite <- (Z.div2_div x), Zmod_odd. destruct x as [|p|p]; [done| |lia]. destruct p; cbn; lia.
Qed.

(** Counting the [j] below [n] with bit [j] set counts the ones of the last [n] bits. *)
Lemma count_ones (n : nat) : ∀ x,
  Z.of_nat (length (filter (λ j, Z.testbit x j = true) (seqZ 0 (Z.of_nat n)))) = z_ones (x mod 2 ^ Z.of_nat n).
Proof.
  induction n as [|n IH]; intros x; [by rewrite Z.mod_1_r|]. pose proof (Z.mod_pos_bound x (2 ^ Z.of_nat (S n)) ltac:(lia)).
  rewrite z_ones_step by lia. replace (2 ^ Z.of_nat (S n)) with (2 * 2 ^ Z.of_nat n) by (rewrite Nat2Z.inj_succ, Z.pow_succ_r; lia).
  rewrite Z.rem_mul_r by lia. rewrite (Z.mul_comm 2), Z_mod_plus_full, Z.div_add, Z.mod_mod by lia.
  rewrite (Z.div_small (x mod 2)), Z.add_0_l by (apply Z.mod_pos_bound; lia). rewrite <- IH.
  rewrite seqZ_cons by lia. change (Z.succ 0) with (1 + 0). replace (Z.pred (Z.of_nat (S n))) with (Z.of_nat n) by lia.
  rewrite <- (fmap_add_seqZ 1). rewrite filter_cons, filter_fmap_in.
  rewrite (filter_iff_in _ (λ j, Z.testbit (x / 2) j = true)).
  2:{ intros j [Hj _]%elem_of_seqZ. unfold compose. by rewrite Z.add_1_l, Z.div2_bits. }
  rewrite Zmod_odd, <- Z.bit0_odd. case_decide as Hd; [rewrite Hd|apply not_true_is_false in Hd; rewrite Hd]; cbn [length]; rewrite length_fmap; lia.
Qed.

Lemma count_bits_ones a : count_bits (s32 a) = ones a.
Proof.
  transitivity (z_ones (s32 a mod 2 ^ Z.of_nat 32)).
  - rewrite <- count_ones. unfold count_bits. do 2 f_equal. apply filter_iff_in. intros j [Hj _]%elem_of_seqZ.
    by rewrite Z.land_comm, Z.shiftl_1_l, truthy_land_pow2.
  - unfold ones. change (2 ^ Z.of_nat 32) with (2 ^ 32). replace (s32 a mod 2 ^ 32) with (u32 a); [done|].
    unfold s32, u32. by rewrite Zminus_mod_idemp_l, Z.add_simpl_r.
Qed.

Lemma count_bits_range x : 0 ≤ count_bits x ≤ 32.
Proof.
  unfold count_bits. pose proof (length_filter (λ j, truthy (Z.land (Z.shiftl 1 j) x) = true) (seqZ 0 32)) as Hl.
  rewrite length_seqZ in Hl. lia.
Qed.

Lemma lapa_loop_ok g q ags (n i m : nat) a :
  qrep (inRAMQueue g) q → queue_ages g q ags → (i + n = length ags)%nat →
  first_min lapa_lt (take i ags) m → ags !! m = Some a →
  ∃ m' : nat, lapa_loop (seqZ (Z.of_nat i) (Z.of_nat n)) (Z.of_nat m) (s32 a) (ones a) g
    = Ok (Z.of_nat m') g ∧ first_min lapa_lt ags m'.
Proof.
  intros Hq Ha. revert i m a. induction n as [|n IH]; intros i m a Hi Hm Hma.
  - exists m. split; [done|]. by rewrite take_ge in Hm by lia.
  - rewrite seqZ_cons by lia. cbn [lapa_loop].
    destruct (lookup_lt_is_Some_2 ags i) as [y Hy]; [lia|].
    rewrite (bind_ok _ _ _ _ _ (age_at_ok _ _ _ _ _ Hq Ha Hy)).
    replace (Z.succ (Z.of_nat i)) with (Z.of_nat (S i)) by lia.
    replace (Z.pred (Z.of_nat (S n))) with (Z.of_nat n) by lia.
    assert (Hnew : lapa_lt y a → first_min lapa_lt (take (S i) ags) i).
    { intros Hlt. eapply first_min_new; try done; unfold lapa_lt in *; lia. }
    assert (Hkeep : ¬ lapa_lt y a → first_min lapa_lt (take (S i) ags) m).
    { intros Hlt. by eapply first_min_keep. }
    rewrite count_bits_ones. destruct (Z.ltb_spec (ones y) (ones a)).
    + apply IH; [lia| |done]. apply Hnew. unfold lapa_lt. lia.
    + destruct (Z.eqb_spec (ones y) (ones a)) as [He|], (Z.ltb_spec (s32 y) (s32 a)); cbn.
      1: { rewrite <- He. apply IH; [lia| |done]. apply Hnew. unfold lapa_lt. lia. }
      all: apply IH; [lia| |done]; apply Hkeep; unfold lapa_lt; lia.
Qed.

Lemma removeLAPA_pg_ok g q ags :
  qrep (inRAMQueue g) q → length q = 16%nat → queue_ages g q ags →
  ∃ j x, q !! j = Some x ∧ first_min lapa_lt ags j ∧
    removeLAPA_pg g = Ok x (set_inRAMQueue (arr (delete j q)) g).
Proof.
  intros Hq Hl Ha. pose proof (Forall2_length _ _ _ Ha) as Hla.
  destruct (lookup_lt_is_Some_2 ags 0) as [a0 Ha0]; [lia|].
  destruct (lapa_loop_ok g q ags 15 1 0 a0 Hq Ha) as (j & Hj & Hmin); [lia| |done|].
  { eapply first_min_one; [unfold lapa_lt; lia|done]. }
  assert (Hlt : (j < length ags)%nat) by (destruct Hmin as (? & ?%lookup_lt_Some & _); done).
  destruct (lookup_lt_is_Some_2 q j) as [x Hx]; [lia|]. exists j, x. split_and!; [done..|].
  unfold removeLAPA_pg. change (seqZ 0 MAX_PSYC_PAGES) with (0 :: seqZ (Z.of_nat 1) (Z.of_nat 15)).
  cbn [lapa_loop]. change (0 : Z) with (Z.of_nat 0). rewrite !bind_assoc.
  rewrite (bind_ok _ _ _ _ _ (age_at_ok _ _ _ _ _ Hq Ha Ha0)).
  pose proof (count_bits_range (s32 a0)) as Hr. rewrite count_bits_ones in *. rewrite (proj2 (Z.ltb_lt _ _)) by lia.
  rewrite (bind_ok _ _ _ _ _ Hj). rewrite (proj2 (Z.eqb_neq _ _)) by lia.
  rewrite (bind_ok _ _ _ _ _ (rd_queue_q g q j x Hq Hx)).
  by rewrite (bind_ok _ _ _ _ _ (fixQueue_pg_ok g q j Hq ltac:(lia))).
Qed.

Lemma removeAQ_pg_ok g q x :
  qrep (inRAMQueue g) (x :: q) → removeAQ_pg g = Ok x (set_inRAMQueue (arr q) g).
Proof.
  intros Hq. unfold removeAQ_pg. change 0 with (Z.of_nat 0).
  rewrite (bind_ok _ _ _ _ _ (rd_queue_q g _ 0 x Hq eq_refl)).
  by rewrite (bind_ok _ _ _ _ _ (fixQueue_pg_ok g _ 0 Hq ltac:(simpl; lia))).
Qed.
(** ** Offsets of the swap file *)
Lemma getFreeFileOffset_pg_reuse g o x :
  qrep (availableOffsetQueue g) (x :: o) →
  getFreeFileOffset_pg g = Ok x (set_availableOffsetQueue (arr o) g).
Proof.
  intros Ho. pose proof (qr_pos _ _ Ho) as [Hx _]%Forall_cons.
  assert (Hrd : on_offsets (rd_arr 0) g = Ok x g).
  { rewrite (on_offsets_ok _ g x (availableOffsetQueue g)); [by rewrite set_availableOffsetQueue_id|].
    apply (rd_arr_nat _ 0). by rewrite (qrep_lookup _ _ 0 Ho) by lia. }
  assert (Hfix : fixOffsetQueue_pg g = Ok tt (set_availableOffsetQueue (arr o) g)).
  { unfold fixOffsetQueue_pg. apply on_offsets_ok. change 0 with (Z.of_nat 0).
    rewrite arr_shift_ok by (rewrite ?(qrep_length _ _ Ho); lia).
    by rewrite (qrep_eq _ _ (qrep_delete _ _ 0 Ho ltac:(simpl; lia))). }
  assert (Hrm : removeOffsetQueue_pg g = Ok x (set_availableOffsetQueue (arr o) g)).
  { unfold removeOffsetQueue_pg. rewrite (bind_ok _ _ _ _ _ Hrd).
    rewrite (proj2 (Z.eqb_neq _ _)) by lia. cbn [negb when].
    by rewrite (bind_ok _ _ _ _ _ Hfix). }
  unfold getFreeFileOffset_pg. rewrite (bind_ok _ _ _ _ _ Hrm).
  by rewrite (proj2 (Z.eqb_neq _ _)) by lia.
Qed.

Lemma getFreeFileOffset_pg_new g :
  qrep (availableOffsetQueue g) [] →
  getFreeFileOffset_pg g = Ok (s32 (fileOffset g)) (set_fileOffset (u32 (fileOffset g + PGSIZE)) g).
Proof.
  intros Ho. unfold getFreeFileOffset_pg, removeOffsetQueue_pg.
  assert (Hrd : on_offsets (rd_arr 0) g = Ok (-1) g).
  { rewrite (on_offsets_ok _ g (-1) (availableOffsetQueue g)); [by rewrite set_availableOffsetQueue_id|].
    apply (rd_arr_nat _ 0). by rewrite (qrep_lookup _ _ 0 Ho) by lia. }
  rewrite !bind_assoc. by rewrite (bind_ok _ _ _ _ _ Hrd).
Qed.

Lemma insertOffsetQueue_pg_ok g o x :
  qrep (availableOffsetQueue g) o → (length o < 16)%nat → 0 ≤ x →
  insertOffsetQueue_pg x g = Ok tt (set_availableOffsetQueue (arr (o ++ [x])) g).
Proof.
  intros Ho Hn Hx. unfold insertOffsetQueue_pg. apply on_offsets_ok.
  rewrite (arr_insert_ok _ _ o) by done. by rewrite (qrep_eq _ _ (qrep_snoc _ _ x Ho Hn Hx)).
Qed.

(** ** Entries of [pagesDS] *)
Lemma get_page_nat g (i : nat) d : pagesDS g !! i = Some d → get_page (Z.of_nat i) g = Ok d g.
Proof. intros Hd. apply get_page_ok. by rewrite aget_nat. Qed.

Lemma mod_page_nat g (i : nat) d f :
  pagesDS g !! i = Some d →
  mod_page (Z.of_nat i) f g = Ok tt (set_pagesDS (<[i := f d]> (pagesDS g)) g).
Proof.
  intros Hd. unfold mod_page. rewrite (bind_ok _ _ _ _ _ (get_page_nat g i d Hd)). cbn.
  rewrite aset_nat by (by eapply lookup_lt_Some). done.
Qed.

Lemma find_page_ok g P (n i : nat) :
  (i + n = length (pagesDS g))%nat →
  find_page n (Z.of_nat i) P g
  = Ok ((λ x, Z.of_nat (i + x.1)) <$> list_find (λ d, P d = true) (drop i (pagesDS g))) g.
Proof.
  revert i. induction n as [|n IH]; intros i Hi; cbn [find_page].
  - by rewrite drop_ge by lia.
  - destruct (lookup_lt_is_Some_2 (pagesDS g) i) as [d Hd]; [lia|].
    rewrite (bind_ok _ _ _ _ _ (get_page_nat g i d Hd)).
    rewrite (drop_S _ _ _ Hd). cbn [list_find]. destruct (P d) eqn:HP.
    + rewrite decide_True by done. cbn. by rewrite Nat.add_0_r.
    + rewrite decide_False by done. replace (Z.of_nat i + 1) with (Z.of_nat (S i)) by lia.
      rewrite IH by lia. f_equal. rewrite <- option_fmap_compose. apply option_fmap_ext.
      intros [j e]. cbn. lia.
Qed.

Lemma find_page_first g P (i : nat) d :
  pagesDS g !! i = Some d → P d = true →
  (∀ j e, (j < i)%nat → pagesDS g !! j = Some e → P e = false) →
  find_page (length (pagesDS g)) 0 P g = Ok (Some (Z.of_nat i)) g.
Proof.
  intros Hd HP Hbef. change 0 with (Z.of_nat 0). rewrite find_page_ok by done. cbn.
  rewrite (proj2 (list_find_Some _ _ i d)); [done|]. split_and!; [done..|].
  intros j e He Hj. by rewrite (Hbef j e Hj He).
Qed.

Lemma find_page_none g P :
  (∀ d, d ∈ pagesDS g → P d = false) →
  find_page (length (pagesDS g)) 0 P g = Ok None g.
Proof.
  intros Hall. change 0 with (Z.of_nat 0). rewrite find_page_ok by done. cbn.
  rewrite (proj2 (list_find_None _ _)); [done|]. apply Forall_forall. intros d Hd. by rewrite Hall.
Qed.

(** ** Slots of the queue *)
Lemma arr_find_ok (a : list Z) x (n i : nat) :
  (i + n = length a)%nat →
  arr_find n (Z.of_nat i) x a
  = Ok ((λ y, Z.of_nat (i + y.1)) <$> list_find (λ y, y = x) (drop i a)) a.
Proof.
  revert i. induction n as [|n IH]; intros i Hi; cbn [arr_find].
  - by rewrite drop_ge by lia.
  - destruct (lookup_lt_is_Some_2 a i) as [y Hy]; [lia|].
    rewrite (bind_ok _ _ _ _ _ (rd_arr_nat a i y Hy)).
    rewrite (drop_S _ _ _ Hy). cbn [list_find]. destruct (Z.eqb_spec y x) as [->|].
    + rewrite decide_True by done. cbn. by rewrite Nat.add_0_r.
    + rewrite decide_False by done. replace (Z.of_nat i + 1) with (Z.of_nat (S i)) by lia.
      rewrite IH by lia. f_equal. rewrite <- option_fmap_compose. apply option_fmap_ext.
      intros [j e]. cbn. lia.
Qed.

Lemma find_queue g q x :
  qrep (inRAMQueue g) q → 0 ≤ x →
  on_queue (arr_find 16 0 x) g = Ok (Z.of_nat ∘ fst <$> list_find (λ y, y = x) q) g.
Proof.
  intros Hq Hx. rewrite (on_queue_ok _ g (Z.of_nat ∘ fst <$> list_find (λ y, y = x) q) (inRAMQueue g));
    [by rewrite set_inRAMQueue_id|].
  change 0 with (Z.of_nat 0). rewrite arr_find_ok by (rewrite (qrep_length _ _ Hq); done). f_equal.
  change (drop 0 (inRAMQueue g)) with (inRAMQueue g). rewrite (qr_arr _ _ Hq).
  destruct (list_find (λ y, y = x) q) as [[j y]|] eqn:Hf; [by rewrite (list_find_app_l _ _ _ _ _ Hf)|].
  rewrite (list_find_app_r _ _ _ Hf).
  rewrite (proj2 (list_find_None _ _)); [done|]. apply Forall_replicate. lia.
Qed.
(** ** [deallocatePage] *)
Definition no_page : page := mkPage 0 (-1) 0 0 new_age.

(** The first allocated entry for address [va] is entry [i]. *)
Definition entry_for g (va : Z) (i : nat) (d : page) : Prop :=
  pagesDS g !! i = Some d ∧ isAllocated d ≠ 0 ∧ v_address d = va ∧
  ∀ j e, (j < i)%nat → pagesDS g !! j = Some e → isAllocated e = 0 ∨ v_address e ≠ va.

Lemma find_entry_for g va i d :
  length (pagesDS g) = 32%nat → entry_for g va i d →
  find_page (Z.to_nat MAX_TOTAL_PAGES) 0
    (λ d, negb (isAllocated d =? 0) && (v_address d =? va)) g = Ok (Some (Z.of_nat i)) g.
Proof.
  intros Hl (Hd & Ha & Hv & Hbef). change (Z.to_nat MAX_TOTAL_PAGES) with 32%nat. rewrite <- Hl.
  eapply find_page_first; [done| |].
  - by rewrite (proj2 (Z.eqb_neq _ _)), (proj2 (Z.eqb_eq _ _)).
  - intros j e Hj He. destruct (Hbef j e Hj He); zcases; done.
Qed.

Lemma deallocatePage_pg_ram g q va i d (j : nat) :
  length (pagesDS g) = 32%nat → entry_for g va i d → in_RAM d ≠ 0 →
  qrep (inRAMQueue g) q → NoDup q → q !! j = Some (Z.of_nat i) →
  deallocatePage_pg va g
  = Ok tt (set_inRAMQueue (arr (delete j q)) (set_pagesDS (<[i := no_page]> (pagesDS g)) g)).
Proof.
  intros Hl Hi Hram Hq Hnd Hj. pose proof Hi as (Hd & _).
  assert (Hil : (i < length (pagesDS g))%nat) by (by eapply lookup_lt_Some).
  unfold deallocatePage_pg. rewrite (bind_ok _ _ _ _ _ (find_entry_for _ _ _ _ Hl Hi)).
  rewrite (bind_ok _ _ _ _ _ (mod_page_nat _ _ _ _ Hd)).
  erewrite bind_ok by (apply get_page_nat; cbn; by rewrite list_lookup_insert_eq).
  cbn [in_RAM set_isAllocated set_age set_v_address]. rewrite (proj2 (Z.eqb_neq _ _)) by done.
  rewrite bind_when_false.
  erewrite bind_ok by (apply mod_page_nat; cbn; by rewrite list_lookup_insert_eq).
  erewrite bind_ok by (apply (find_queue _ q); [done|lia]).
  rewrite (proj2 (list_find_Some _ _ j (Z.of_nat i))).
  - cbn [fmap option_fmap option_map compose fst].
    erewrite fixQueue_pg_ok; [|done|by eapply lookup_lt_Some]. cbn.
    by rewrite list_insert_insert_eq.
  - split_and!; [done..|]. intros j' y Hy Hlt ->. assert (j' = j) by (by eapply NoDup_lookup). lia.
Qed.

Lemma deallocatePage_pg_swapped g q o va i d :
  length (pagesDS g) = 32%nat → entry_for g va i d → in_RAM d = 0 → 0 ≤ file_offset d →
  qrep (inRAMQueue g) q → Z.of_nat i ∉ q →
  qrep (availableOffsetQueue g) o → (length o < 16)%nat →
  deallocatePage_pg va g
  = Ok tt (set_availableOffsetQueue (arr (o ++ [file_offset d]))
      (set_pagesDS (<[i := no_page]> (pagesDS g)) g)).
Proof.
  intros Hl Hi Hram Hoff Hq Hnq Ho Hlo. pose proof Hi as (Hd & _).
  assert (Hil : (i < length (pagesDS g))%nat) by (by eapply lookup_lt_Some).
  unfold deallocatePage_pg. rewrite (bind_ok _ _ _ _ _ (find_entry_for _ _ _ _ Hl Hi)).
  rewrite (bind_ok _ _ _ _ _ (mod_page_nat _ _ _ _ Hd)).
  erewrite bind_ok by (apply get_page_nat; cbn; by rewrite list_lookup_insert_eq).
  cbn [in_RAM set_isAllocated set_age set_v_address file_offset]. rewrite Hram.
  cbn [Z.eqb]. rewrite bind_when_true. erewrite bind_ok by (by apply (insertOffsetQueue_pg_ok _ o)).
  erewrite bind_ok by (apply mod_page_nat; cbn; by rewrite list_lookup_insert_eq).
  erewrite bind_ok by (apply (find_queue _ q); [done|lia]).
  rewrite (proj2 (list_find_None _ _)).
  - cbn. by rewrite list_insert_insert_eq.
  - apply Forall_forall. intros y Hy ->. done.
Qed.

(** There is no entry for the address: the kernel stops. *)
Lemma deallocatePage_pg_missing g va :
  length (pagesDS g) = 32%nat →
  (∀ d, d ∈ pagesDS g → isAllocated d = 0 ∨ v_address d ≠ va) →
  deallocatePage_pg va g = Err (Panic "trying to deallocate a non existing page ") g.
Proof.
  intros Hl Hall. unfold deallocatePage_pg. change (Z.to_nat MAX_TOTAL_PAGES) with 32%nat.
  rewrite <- Hl. erewrite bind_ok; [|apply find_page_none].
  - done.
  - intros d Hd. destruct (Hall d Hd); zcases; done.
Qed.

(** ** The loops of [removeSCFIFO] on arrays *)
Lemma scfifo_move_ok (r : list Z) (z n i j : nat) (a : list Z) :
  length a = (i + n)%nat → (j < i)%nat → drop i a = r ++ replicate z (-1) → Forall (λ x, 0 ≤ x) r →
  scfifo_move n (Z.of_nat i) (Z.of_nat j) a
  = Ok (Z.of_nat (j + length r)) (take j a ++ r ++ drop (j + length r) a).
Proof.
  revert i j n a. induction r as [|x r IH]; intros i j n a Hl Hj Hd Hp.
  - replace (take j a ++ [] ++ drop (j + length (@nil Z)) a) with a
      by (simpl; by rewrite Nat.add_0_r, take_drop).
    simpl. rewrite Nat.add_0_r. destruct n as [|n]; [done|]. cbn [scfifo_move].
    destruct z as [|z].
    { exfalso. apply (f_equal length) in Hd. rewrite length_drop in Hd. simpl in Hd. lia. }
    assert (Hx : a !! i = Some (-1)).
    { rewrite <- (Nat.add_0_r i), <- lookup_drop, Hd. done. }
    by rewrite (bind_ok _ _ _ _ _ (rd_arr_nat _ _ _ Hx)).
  - apply Forall_cons in Hp as [Hx Hp].
    assert (Hxi : a !! i = Some x) by (rewrite <- (Nat.add_0_r i), <- lookup_drop, Hd; done).
    destruct n as [|n]; [apply lookup_lt_Some in Hxi; lia|]. cbn [scfifo_move].
    rewrite (bind_ok _ _ _ _ _ (rd_arr_nat _ _ _ Hxi)). rewrite (proj2 (Z.eqb_neq _ _)) by lia.
    cbn [negb]. erewrite bind_ok by (apply wr_arr_nat; lia).
    replace (Z.of_nat i + 1) with (Z.of_nat (S i)) by lia.
    replace (Z.of_nat j + 1) with (Z.of_nat (S j)) by lia.
    rewrite IH; [|rewrite length_insert; lia|lia| |done].
    + f_equal; [simpl; lia|]. assert (Hlj : (j < length a)%nat) by lia.
      rewrite (take_S_r (<[j:=x]> a) j x), take_insert_ge by (done || by apply list_lookup_insert_eq || lia).
      rewrite <- app_assoc, drop_insert_lt by lia. simpl.
      by replace (S (j + length r)) with (j + S (length r))%nat by lia.
    + rewrite drop_insert_lt by lia. rewrite (drop_S _ _ _ Hxi) in Hd. by simplify_eq/=.
Qed.

Lemma scfifo_fill_ok (n i j : nat) (temp a : list Z) :
  length a = (j + n)%nat → (i + n ≤ length temp)%nat →
  scfifo_fill n temp (Z.of_nat i) (Z.of_nat j) a = Ok tt (take j a ++ take n (drop i temp)).
Proof.
  revert i j a. induction n as [|n IH]; intros i j a Hl Ht; cbn [scfifo_fill].
  - rewrite take_0, app_nil_r, take_ge by lia. done.
  - destruct (lookup_lt_is_Some_2 temp i) as [x Hx]; [lia|]. rewrite aget_nat, Hx.
    cbn [or_ub bind ret]. rewrite wr_arr_nat by lia.
    replace (Z.of_nat i + 1) with (Z.of_nat (S i)) by lia.
    replace (Z.of_nat j + 1) with (Z.of_nat (S j)) by lia.
    rewrite IH by (rewrite ?length_insert; lia). f_equal.
    rewrite (take_S_r (<[j:=x]> a) j x), take_insert_ge by (lia || (apply list_lookup_insert_eq; lia)).
    rewrite <- app_assoc. by rewrite (drop_S _ _ _ Hx).
Qed.
End paging_specs.

(** ** Second chance *)
Section second_chance.
Context `{link} `{build}.
Implicit Types (k : kernel) (p : nat) (q : list Z).

(** The virtual page of entry [x], and the pages of some entries. *)
Definition vpn_of (g : paging) (x : Z) : Z := default 0 (v_address <$> aget (pagesDS g) x) / PGSIZE.

(** The queued entry [x] is a page in memory. *)
Definition resident (m : memory) (pd : Z) (g : paging) (x : Z) : Prop :=
  ∃ d, aget (pagesDS g) x = Some d ∧ 0 ≤ v_address d < KERNBASE ∧ has_P (pte m pd (v_address d)) = true.

Definition accessed (m : memory) (pd : Z) (g : paging) (x : Z) : bool :=
  has_A (pte m pd (vpn_of g x * PGSIZE)).

(** Exactly the entries of the pages [vs] have lost their accessed bit. *)
Definition A_cleared (pd : Z) (m m' : memory) (vs : list Z) : Prop :=
  ∀ va, 0 ≤ va < 2 ^ 32 →
    pte m' pd va = if bool_decide (va / PGSIZE ∈ vs) then PTE_A_OFF (pte m pd va) else pte m pd va.

Lemma accessed_pte m pd g x d :
  aget (pagesDS g) x = Some d → 0 ≤ v_address d < KERNBASE →
  accessed m pd g x = has_A (pte m pd (v_address d)).
Proof.
  intros Hd Hv. unfold accessed, vpn_of. rewrite Hd. cbn.
  f_equal. apply pte_same_page; clia.
Qed.

Lemma walk_page_ok k p pr x d t :
  procs (k_pt k) !! p = Some pr → aget (pagesDS (pg pr)) x = Some d →
  table (mem (k_vm k)) (pgdir pr) (PDX (v_address d)) = Some t →
  walk_page p x k = Ok (t + 4 * PTX (v_address d)) k.
Proof.
  intros Hp Hd Ht. unfold walk_page. rewrite (bind_ok _ _ _ _ _ (get_proc_ok k p pr Hp)).
  erewrite bind_ok by (eapply on_pg_read; [done|by apply get_page_ok]).
  by apply walkpgdir_found.
Qed.

(** One accessed page: its bit is cleared. *)
Lemma clear_one k pd l x d t g :
  kmem_ok (k_vm k) l → aspace (mem (k_vm k)) pd l →
  aget (pagesDS g) x = Some d → 0 ≤ v_address d < KERNBASE →
  table (mem (k_vm k)) pd (PDX (v_address d)) = Some t →
  ∃ v, store32 (t + 4 * PTX (v_address d)) (PTE_A_OFF (pte (mem (k_vm k)) pd (v_address d))) k
      = Ok tt (set_k_vm v k) ∧
    pt_step pd (k_vm k) l v l ∧ A_cleared pd (mem (k_vm k)) (mem v) [vpn_of g x].
Proof.
  intros Hk Has Hd Hv Ht.
  destruct (PTE_A_OFF_ok (pte (mem (k_vm k)) pd (v_address d))) as (Hr & Ha & HP & _); [apply pte_range|].
  destruct (pt_step_flags pd (k_vm k) l (v_address d) t
    (PTE_A_OFF (pte (mem (k_vm k)) pd (v_address d)))) as [Hs Hp]; try done.
  { rewrite HP. done. }
  eexists. split_and!; [done|done|]. intros va Hva. cbn. rewrite Hp by done.
  unfold vpn_of. rewrite Hd. cbn.
  destruct (Z.eqb_spec (v_address d / PGSIZE) (va / PGSIZE)) as [He|Hne].
  - rewrite bool_decide_true by (rewrite He; set_solver). f_equal. apply pte_same_page; clia.
  - by rewrite bool_decide_false by set_solver.
Qed.

Lemma A_cleared_trans pd m m1 m2 vs ws :
  A_cleared pd m m1 vs → A_cleared pd m1 m2 ws → (∀ v, v ∈ vs → v ∉ ws) →
  A_cleared pd m m2 (vs ++ ws).
Proof.
  intros H1 H2 Hd va Hva. rewrite (H2 va Hva), (H1 va Hva). specialize (Hd (va / PGSIZE)).
  destruct (decide (va / PGSIZE ∈ vs)) as [Hv|Hv], (decide (va / PGSIZE ∈ ws)) as [Hw|Hw];
    rewrite ?(bool_decide_true _ Hw), ?(bool_decide_true _ Hv), ?(bool_decide_false _ Hw),
      ?(bool_decide_false _ Hv).
  - by destruct Hd.
  - rewrite bool_decide_true; [done|set_solver].
  - rewrite bool_decide_true; [done|set_solver].
  - rewrite bool_decide_false; [done|set_solver].
Qed.

Lemma A_cleared_resident pd m m' vs g x : A_cleared pd m m' vs → resident m pd g x → resident m' pd g x.
Proof.
  intros Hc (d & Hd & Hv & HP). exists d. split_and!; [done|lia..|]. rewrite Hc by clia.
  case_bool_decide; [|done]. by rewrite (proj1 (proj2 (proj2 (PTE_A_OFF_ok _ (pte_range _ _ _))))).
Qed.

Lemma vpn_of_range m pd g x : resident m pd g x → 0 ≤ vpn_of g x < UPAGES.
Proof. intros (d & Hd & Hv & _). unfold vpn_of. rewrite Hd. cbn. clia. Qed.

Lemma A_cleared_accessed pd m m' vs g x :
  A_cleared pd m m' vs → resident m pd g x → vpn_of g x ∉ vs → accessed m' pd g x = accessed m pd g x.
Proof.
  intros Hc Hx%vpn_of_range Hn. unfold accessed. rewrite Hc by clia.
  rewrite Z_div_mult by clia. by rewrite bool_decide_false.
Qed.
(** What the scan does at one slot. *)
Lemma scfifo_visit p pr l q x (n i : nat) temp ti k :
  qrep (inRAMQueue (pg pr)) q → q !! i = Some x →
  procs (k_pt k) !! p = Some pr → kmem_ok (k_vm k) l → aspace (mem (k_vm k)) (pgdir pr) l →
  resident (mem (k_vm k)) (pgdir pr) (pg pr) x →
  if accessed (mem (k_vm k)) (pgdir pr) (pg pr) x then
    ∃ v, scfifo_scan (S n) p (Z.of_nat i) temp ti k
      = (temp ← or_ub "temp" (aset temp ti x); scfifo_scan n p (Z.of_nat (S i)) temp (ti + 1)) (set_k_vm v k) ∧
      pt_step (pgdir pr) (k_vm k) l v l ∧
      A_cleared (pgdir pr) (mem (k_vm k)) (mem v) [vpn_of (pg pr) x]
  else scfifo_scan (S n) p (Z.of_nat i) temp ti k = Ok (x, Z.of_nat i, temp) k.
Proof.
  intros Hq Hx Hp Hk Has (d & Hd & Hv & HP). cbn [scfifo_scan].
  erewrite bind_ok by (eapply on_pg_read; [done|by eapply rd_queue_q]).
  destruct (table_of_pte _ _ _ HP) as [t Ht].
  rewrite (bind_ok _ _ _ _ _ (walk_page_ok k p pr x d t Hp Hd Ht)).
  rewrite (bind_ok _ _ _ _ _ (deref_entry k _ l _ t Has Ht)).
  fold (has_A (pte (mem (k_vm k)) (pgdir pr) (v_address d))).
  rewrite <- (accessed_pte _ _ (pg pr) x d Hd Hv). destruct (accessed _ _ _ _); [|done].
  destruct (clear_one k (pgdir pr) l x d t (pg pr) Hk Has Hd Hv Ht) as (v & Hst & Hs & Hc).
  exists v. split_and!; [|done..]. rewrite (bind_ok _ _ _ _ _ Hst).
  by replace (Z.of_nat i + 1) with (Z.of_nat (S i)) by lia.
Qed.

(** Clearing the bit of one page leaves the others as they were. *)
Lemma accessed_others pd m m' g q x y :
  A_cleared pd m m' [vpn_of g x] → Forall (resident m pd g) q → NoDup (vpn_of g <$> x :: q) →
  y ∈ q → accessed m' pd g y = accessed m pd g y.
Proof.
  intros Hc Hres Hnd Hy. eapply A_cleared_accessed; [done| |].
  - rewrite Forall_forall in Hres. auto.
  - intros He%list_elem_of_singleton. cbn in Hnd. apply NoDup_cons in Hnd as [Hn _].
    apply Hn. rewrite <- He. by apply list_elem_of_fmap_2.
Qed.

(** The scan passes over the accessed pages [pre] and stops at the next page,
    or at the end of a full queue. *)
Lemma scfifo_scan_ok p pr l q dn pre post :
  qrep (inRAMQueue (pg pr)) q → q = dn ++ pre ++ post →
  NoDup (vpn_of (pg pr) <$> q) → (post = [] → length q = 16%nat) → ∀ k,
  procs (k_pt k) !! p = Some pr →
  kmem_ok (k_vm k) l → aspace (mem (k_vm k)) (pgdir pr) l →
  Forall (resident (mem (k_vm k)) (pgdir pr) (pg pr)) q →
  (∀ x, x ∈ pre → accessed (mem (k_vm k)) (pgdir pr) (pg pr) x = true) →
  (∀ x, head post = Some x → accessed (mem (k_vm k)) (pgdir pr) (pg pr) x = false) →
  ∃ v, scfifo_scan (16 - length dn) p (Z.of_nat (length dn)) (arr dn) (Z.of_nat (length dn)) k
    = Ok (default (-1) (head post), Z.of_nat (length dn + length pre), arr (dn ++ pre)) (set_k_vm v k) ∧
    pt_step (pgdir pr) (k_vm k) l v l ∧
    A_cleared (pgdir pr) (mem (k_vm k)) (mem v) (vpn_of (pg pr) <$> pre).
Proof.
  intros Hq Hsp Hnd Hfull. pose proof (qr_len _ _ Hq) as Hlen.
  revert dn Hsp. induction pre as [|x pre IH]; intros dn Hsp k Hp Hk Has Hres Hacc Hstop.
  - exists (k_vm k). rewrite set_k_vm_id, app_nil_r, Nat.add_0_r.
    split_and!; [|by apply pt_step_refl|by intros va _].
    destruct post as [|y post].
    + specialize (Hfull eq_refl). rewrite Hsp, app_nil_r in Hfull. by rewrite Hfull.
    + assert (Hy : q !! length dn = Some y) by (rewrite Hsp, lookup_app_r, Nat.sub_diag; done).
      replace (16 - length dn)%nat with (S (15 - length dn)) by (apply lookup_lt_Some in Hy; lia).
      pose proof (scfifo_visit p pr l q y (15 - length dn) _ (arr dn) (Z.of_nat (length dn)) k Hq Hy Hp Hk Has
        (Forall_lookup_1 _ _ _ _ Hres Hy)) as Hvis. by rewrite Hstop in Hvis.
  - assert (Hx : q !! length dn = Some x) by (rewrite Hsp, lookup_app_r, Nat.sub_diag; done).
    assert (Hlt : (length dn < 16)%nat) by (apply lookup_lt_Some in Hx; lia).
    replace (16 - length dn)%nat with (S (16 - (length dn + 1))) by lia.
    pose proof (scfifo_visit p pr l q x (16 - (length dn + 1)) _ (arr dn) (Z.of_nat (length dn)) k Hq Hx Hp Hk Has
      (Forall_lookup_1 _ _ _ _ Hres Hx)) as Hvis.
    rewrite Hacc in Hvis by set_solver. destruct Hvis as (v1 & -> & Hs1 & Hc1).
    pose proof (qr_pos _ _ Hq) as Hpos. rewrite Hsp in Hpos. apply Forall_app in Hpos as [Hposdn Hpos].
    apply Forall_cons in Hpos as [Hx0 _].
    pose proof (qrep_arr dn ltac:(lia) Hposdn) as Hdn.
    rewrite aset_nat by (rewrite (qrep_length _ _ Hdn); lia).
    cbn [or_ub bind ret]. rewrite (qrep_eq _ _ (qrep_snoc _ _ x Hdn Hlt Hx0)).
    rewrite Hsp in Hnd, Hres. rewrite fmap_app in Hnd. apply NoDup_app in Hnd as (_ & _ & Hnd').
    assert (Hres' : Forall (resident (mem (k_vm k)) (pgdir pr) (pg pr)) (pre ++ post))
      by (by apply Forall_app in Hres as [_ [_ ?]%Forall_cons]).
    assert (Hacc1 : ∀ y, y ∈ pre ++ post →
      accessed (mem v1) (pgdir pr) (pg pr) y = accessed (mem (k_vm k)) (pgdir pr) (pg pr) y)
      by (intros y; by eapply accessed_others).
    destruct (IH (dn ++ [x])) with (k := set_k_vm v1 k) as (v & Hrun & Hs & Hc);
      [by rewrite Hsp, <- app_assoc|done|apply Hs1|apply Hs1| | | |].
    + rewrite Hsp. eapply Forall_impl; [done|]. intros y Hy. by eapply A_cleared_resident.
    + intros y Hy. cbn. rewrite Hacc1 by set_solver. set_solver.
    + intros y Hy. cbn. rewrite Hacc1; [auto|]. destruct post; simplify_eq/=. set_solver.
    + exists v. rewrite length_app in Hrun. cbn [length] in Hrun. split_and!.
      * replace (Z.of_nat (length dn) + 1) with (Z.of_nat (length dn + 1)) by lia.
        replace (S (length dn)) with (length dn + 1)%nat by lia.
        rewrite Hrun, <- app_assoc. do 3 f_equal. cbn. lia.
      * by eapply pt_step_trans.
      * eapply (A_cleared_trans _ _ _ _ [vpn_of (pg pr) x]); [done..|].
        intros w ->%list_elem_of_singleton Hw. cbn in Hnd'. apply NoDup_cons in Hnd' as [Hn _].
        apply Hn. rewrite fmap_app. set_solver.
Qed.
(** The second-chance policy: the pages at the head of the queue that were
    accessed go to the back, with their bit cleared, and the first page that was
    not is chosen; if all were accessed, the oldest one is. The result is the
    page, the new queue and the pages whose bit is cleared. *)
Fixpoint span (acc : Z → bool) (q : list Z) : list Z * list Z :=
  match q with
  | x :: q' => if acc x then let '(a, b) := span acc q' in (x :: a, b) else ([], q)
  | [] => ([], [])
  end.
Definition second_chance (acc : Z → bool) (q : list Z) : option (Z * list Z * list Z) :=
  match span acc q, q with
  | (pre, x :: post), _ => Some (x, post ++ pre, pre)
  | (_, []), x :: q' => Some (x, q', q)
  | (_, []), [] => None
  end.

Lemma span_spec acc q pre post :
  span acc q = (pre, post) →
  q = pre ++ post ∧ (∀ x, x ∈ pre → acc x = true) ∧ (∀ x, head post = Some x → acc x = false).
Proof.
  revert pre. induction q as [|y q IH]; intros pre; simpl.
  - intros [= <- <-]. split_and!; [done|set_solver|done].
  - destruct (acc y) eqn:Hy.
    + destruct (span acc q) as [a b]. intros [= <- <-]. destruct (IH a eq_refl) as (-> & Ha & Hb).
      split_and!; [done| |done]. intros x [->|?]%elem_of_cons; auto.
    + intros [= <- <-]. split_and!; [done|set_solver|]. by intros x [= ->].
Qed.

Lemma take_arr_app (post pre : list Z) :
  (length pre + length post ≤ 16)%nat → post ++ take (16 - length post) (arr pre) = arr (post ++ pre).
Proof.
  intros Hl. unfold arr. rewrite <- app_assoc. f_equal.
  rewrite take_app_ge by lia. f_equal. rewrite take_replicate, length_app. f_equal. lia.
Qed.

(** The two copying loops put [post ++ pre] into the queue. *)
Lemma scfifo_rotate k p pr q pre x post :
  procs (k_pt k) !! p = Some pr → qrep (inRAMQueue (pg pr)) q → q = pre ++ x :: post →
  let i := Z.of_nat (length pre) + 1 in
  (new_index ← on_pg p (on_queue (scfifo_move (Z.to_nat (MAX_PSYC_PAGES - i)) i 0));
   on_pg p (on_queue (scfifo_fill (Z.to_nat (MAX_PSYC_PAGES - new_index)) (arr pre) 0 new_index));;
   ret x) k
  = Ok x (upd_proc p (set_pg (set_inRAMQueue (arr (post ++ pre)) (pg pr))) k).
Proof.
  intros Hp Hq Hsp i. pose proof (qr_len _ _ Hq) as Hlen. rewrite Hsp, length_app in Hlen. cbn in Hlen.
  pose proof (qrep_length _ _ Hq) as Hal. pose proof (qr_pos _ _ Hq) as Hpos.
  rewrite Hsp in Hpos. apply Forall_app in Hpos as [_ [_ Hpost]%Forall_cons].
  set (a := inRAMQueue (pg pr)) in *.
  assert (Hmove : scfifo_move (Z.to_nat (MAX_PSYC_PAGES - i)) i 0 a
    = Ok (Z.of_nat (length post)) (post ++ drop (length post) a)).
  { replace i with (Z.of_nat (S (length pre))) by lia. change 0 with (Z.of_nat 0).
    replace (Z.to_nat (MAX_PSYC_PAGES - Z.of_nat (S (length pre)))) with (16 - S (length pre))%nat by clia.
    rewrite (scfifo_move_ok post (16 - length q)); [done|lia..| |done].
    rewrite (qr_arr _ _ Hq) at 1. rewrite Hsp at 1. rewrite <- app_assoc. cbn.
    rewrite cons_middle, app_assoc. rewrite drop_app_length'; [done|]. rewrite length_app. cbn. lia. }
  erewrite bind_ok by (eapply on_pg_ok; [done|by apply on_queue_ok]).
  erewrite bind_ok; cycle 1.
  { eapply on_pg_ok; [by apply upd_proc_lookup|]. apply on_queue_ok. cbn. change 0 with (Z.of_nat 0).
    replace (Z.to_nat (MAX_PSYC_PAGES - Z.of_nat (length post))) with (16 - length post)%nat by clia.
    apply scfifo_fill_ok.
    - rewrite length_app, length_drop. lia.
    - unfold arr. rewrite length_app, length_replicate. lia. }
  cbn [ret]. f_equal. rewrite upd_proc_compose. rewrite take_app_length, drop_0.
  by rewrite take_arr_app by lia.
Qed.

(** [removeSCFIFO] is the second-chance policy. *)
Lemma removeSCFIFO_run k p pr l q acc :
  runs (k_mach k) p → procs (k_pt k) !! p = Some pr → qrep (inRAMQueue (pg pr)) q →
  NoDup (vpn_of (pg pr) <$> q) → kmem_ok (k_vm k) l → aspace (mem (k_vm k)) (pgdir pr) l →
  Forall (resident (mem (k_vm k)) (pgdir pr) (pg pr)) q →
  acc = accessed (mem (k_vm k)) (pgdir pr) (pg pr) →
  (length q = 16%nat ∨ ∃ y, y ∈ q ∧ acc y = false) →
  ∃ x q' cl v, second_chance acc q = Some (x, q', cl) ∧
    removeSCFIFO k = Ok x (upd_proc p (set_pg (set_inRAMQueue (arr q') (pg pr))) (set_k_vm v k)) ∧
    pt_step (pgdir pr) (k_vm k) l v l ∧
    A_cleared (pgdir pr) (mem (k_vm k)) (mem v) (vpn_of (pg pr) <$> cl).
Proof.
  intros Hrun Hp Hq Hnd Hk Has Hres Hac Hfull.
  destruct (span acc q) as [pre post] eqn:Hspan. destruct (span_spec _ _ _ _ Hspan) as (Hsp & Ha & Hb).
  assert (Hfl : post = [] → length q = 16%nat).
  { intros ->. destruct Hfull as [?|(y & Hy & Hn)]; [done|]. rewrite app_nil_r in Hsp. subst q.
    by rewrite (Ha y Hy) in Hn. }
  destruct (scfifo_scan_ok p pr l q [] pre post Hq Hsp Hnd Hfl k Hp Hk Has Hres) as (v & Hscan & Hs & Hc);
    [intros; subst acc; auto..|].
  unfold second_chance. rewrite Hspan. unfold removeSCFIFO.
  rewrite (bind_ok _ _ _ _ _ (curproc_runs k p Hrun)).
  change (replicate (Z.to_nat MAX_PSYC_PAGES) (-1)) with (arr []).
  change (Z.to_nat MAX_PSYC_PAGES) with (16 - 0)%nat. change 0 with (Z.of_nat (length (@nil Z))).
  rewrite (bind_ok _ _ _ _ _ Hscan). cbn [fst snd].
  assert (Hp' : procs (k_pt (set_k_vm v k)) !! p = Some pr) by done.
  destruct post as [|x post]; cbn [head default from_option id].
  - rewrite app_nil_r in Hsp. subst pre. specialize (Hfl eq_refl). destruct q as [|x q]; [done|].
    rewrite Z.eqb_refl. exists x, q, (x :: q), v. split_and!; [done| |done..].
    erewrite bind_ok by (eapply on_pg_read; [done|by apply (rd_queue_q _ _ 0 x Hq)]).
    pose proof (qr_pos _ _ Hq) as [Hx _]%Forall_cons. rewrite (proj2 (Z.eqb_neq _ _)) by lia. cbn [negb].
    unfold fixQueue. rewrite bind_assoc. rewrite (bind_ok _ _ _ _ _ (curproc_runs (set_k_vm v k) p Hrun)).
    erewrite bind_ok; cycle 1.
    { eapply on_pg_ok; [done|]. apply (fixQueue_pg_ok _ _ 0 Hq). simpl. lia. }
    done.
  - exists x, (post ++ pre), pre, v. split_and!; [done| |done..].
    assert (Hx : 0 ≤ x).
    { pose proof (qr_pos _ _ Hq) as Hpos. rewrite Forall_forall in Hpos. apply Hpos. rewrite Hsp. set_solver. }
    rewrite (proj2 (Z.eqb_neq _ _)) by lia.
    by apply (scfifo_rotate _ _ _ q).
Qed.
End second_chance.

(** ** Ageing *)
Section ageing.
Context `{link} `{build}.
Implicit Types (k : kernel) (p : nat).

Lemma advanceQueue_noop k p : runs (k_mach k) p → advanceQueue k = Ok tt k.
Proof. intros Hp. unfold advanceQueue. by rewrite (bind_ok _ _ _ _ _ (curproc_runs k p Hp)). Qed.

(** The age of a page after a tick: the accessed bit comes in from the left. *)
Definition aged (m : memory) (pd : Z) (d : page) : page :=
  if isAllocated d =? 1 then
    let a := Z.shiftr (age d) 1 in
    set_age (if has_A (pte m pd (v_address d)) then Z.lor a 0x80000000 else a) d
  else d.

(** The pages of [ds] whose accessed bit a tick clears. *)
Definition tick_pages (m : memory) (pd : Z) (ds : list page) : list Z :=
  omap (λ d, if (isAllocated d =? 1) && has_A (pte m pd (v_address d))
             then Some (v_address d / PGSIZE) else None) ds.

(** An allocated entry is a page in memory or in the swap file. *)
Definition tabled (m : memory) (pd : Z) (d : page) : Prop :=
  isAllocated d = 1 → 0 ≤ v_address d < KERNBASE ∧
  has_P (pte m pd (v_address d)) || has_PG (pte m pd (v_address d)) = true.

Lemma tabled_table m pd va :
  has_P (pte m pd va) || has_PG (pte m pd va) = true → ∃ t, table m pd (PDX va) = Some t.
Proof.
  intros HP. destruct (table m pd (PDX va)) as [t|] eqn:Ht; [by exists t|].
  by rewrite (pte_none _ _ _ Ht) in HP.
Qed.

Definition alloc_vpns (ds : list page) : list Z :=
  omap (λ d, if isAllocated d =? 1 then Some (v_address d / PGSIZE) else None) ds.

Lemma agePages_step k p pr l (i : nat) d :
  procs (k_pt k) !! p = Some pr → kmem_ok (k_vm k) l → aspace (mem (k_vm k)) (pgdir pr) l →
  pagesDS (pg pr) !! i = Some d → tabled (mem (k_vm k)) (pgdir pr) d →
  ∃ v, age_page p (Z.of_nat i) k
    = Ok tt (upd_proc p (set_pg (set_pagesDS (<[i := aged (mem (k_vm k)) (pgdir pr) d]> (pagesDS (pg pr))) (pg pr)))
        (set_k_vm v k)) ∧
    pt_step (pgdir pr) (k_vm k) l v l ∧
    A_cleared (pgdir pr) (mem (k_vm k)) (mem v) (tick_pages (mem (k_vm k)) (pgdir pr) [d]).
Proof.
  intros Hp Hk Has Hd Htab. pose proof (lookup_lt_Some _ _ _ Hd) as Hi. unfold age_page.
  erewrite bind_ok by (eapply on_pg_read; [done|by apply get_page_nat]).
  unfold aged, tick_pages. cbn [omap list_omap]. destruct (Z.eqb_spec (isAllocated d) 1) as [Ha|Ha].
  2: { exists (k_vm k). rewrite set_k_vm_id. cbn. split_and!; [|by apply pt_step_refl|by intros va _].
       rewrite list_insert_id by done. f_equal. symmetry. eapply upd_proc_same; [done|].
       by destruct pr as [? ? ? ? ? ? ? ? ? ? ? ? ? ? []]. }
  destruct (Htab Ha) as (Hv & [t Ht]%tabled_table). cbn [when andb].
  erewrite bind_ok by (eapply on_pg_ok; [done|by apply mod_page_nat]).
  set (d1 := set_age (Z.shiftr (age d) 1) d). set (k1 := upd_proc p _ k).
  assert (Hp1 : procs (k_pt k1) !! p = Some (set_pg (set_pagesDS (<[i:=d1]> (pagesDS (pg pr))) (pg pr)) pr))
    by (by apply upd_proc_lookup).
  assert (Hd1 : <[i:=d1]> (pagesDS (pg pr)) !! i = Some d1) by (by apply list_lookup_insert_eq).
  erewrite bind_ok; [|eapply (walk_page_ok _ _ _ _ d1 t); [done|by rewrite aget_nat|done]].
  rewrite (bind_ok _ _ _ _ _ (deref_entry k1 _ l _ t Has Ht)).
  change (v_address d1) with (v_address d). change (k_vm k1) with (k_vm k).
  fold (has_A (pte (mem (k_vm k)) (pgdir pr) (v_address d))).
  destruct (has_A (pte (mem (k_vm k)) (pgdir pr) (v_address d))) eqn:HA; cbn [when].
  - erewrite bind_ok by (eapply on_pg_ok; [done|by apply mod_page_nat]).
    destruct (clear_one k (pgdir pr) l (Z.of_nat i) d t (pg pr)) as (v & Hst & Hs & Hc);
      [done|done|by rewrite aget_nat|done..|].
    exists v. split_and!; [|done|].
    + unfold k1. rewrite upd_proc_compose. cbn in Hst |- *. injection Hst as <-.
      by rewrite list_insert_insert_eq.
    + unfold vpn_of in Hc. by rewrite aget_nat, Hd in Hc.
  - exists (k_vm k). split_and!; [|by apply pt_step_refl|by intros va _]. by rewrite set_k_vm_id.
Qed.
Lemma tabled_cleared pd m m' vs d : A_cleared pd m m' vs → tabled m pd d → tabled m' pd d.
Proof.
  intros Hc Hd Ha. destruct (Hd Ha) as [Hv HP]. split; [done|]. rewrite (Hc (v_address d)) by clia.
  case_bool_decide; [|done].
  by destruct (PTE_A_OFF_ok (pte m pd (v_address d)) (pte_range _ _ _)) as (_ & _ & -> & -> & _).
Qed.

Lemma pte_uncleared pd m m' vs d :
  A_cleared pd m m' vs → 0 ≤ v_address d < KERNBASE → v_address d / PGSIZE ∉ vs →
  pte m' pd (v_address d) = pte m pd (v_address d).
Proof. intros Hc Hv Hn. rewrite (Hc (v_address d)) by clia. by rewrite bool_decide_false. Qed.

Lemma tick_pages_sub m pd ds x : x ∈ tick_pages m pd ds → x ∈ alloc_vpns ds.
Proof.
  unfold tick_pages, alloc_vpns. rewrite !list_elem_of_omap. intros (d & Hd & Hx). exists d.
  split; [done|]. destruct (isAllocated d =? 1); [|done]. cbn in Hx. by destruct (has_A _).
Qed.

Lemma alloc_vpns_elem ds d :
  d ∈ ds → isAllocated d = 1 → v_address d / PGSIZE ∈ alloc_vpns ds.
Proof.
  intros Hd Ha. unfold alloc_vpns. apply list_elem_of_omap. exists d. split; [done|]. by rewrite Ha.
Qed.

Lemma aged_ext m m' pd d : 
  (isAllocated d = 1 → pte m' pd (v_address d) = pte m pd (v_address d)) → aged m' pd d = aged m pd d.
Proof.
  intros Hd. unfold aged. destruct (Z.eqb_spec (isAllocated d) 1) as [Ha|]; [|done]. by rewrite Hd.
Qed.

Lemma tick_pages_ext m m' pd ds :
  (∀ d, d ∈ ds → isAllocated d = 1 → pte m' pd (v_address d) = pte m pd (v_address d)) →
  tick_pages m' pd ds = tick_pages m pd ds.
Proof.
  intros Hd. unfold tick_pages. induction ds as [|d ds IH]; [done|]. cbn.
  rewrite IH by (intros; apply Hd; set_solver).
  destruct (Z.eqb_spec (isAllocated d) 1) as [Ha|]; [|done]. rewrite Hd by set_solver. done.
Qed.

Lemma alloc_vpns_cons d ds :
  NoDup (alloc_vpns (d :: ds)) →
  NoDup (alloc_vpns ds) ∧ (isAllocated d = 1 → v_address d / PGSIZE ∉ alloc_vpns ds).
Proof.
  unfold alloc_vpns. cbn. destruct (Z.eqb_spec (isAllocated d) 1) as [Ha|Ha].
  - intros [Hn Hnd]%NoDup_cons. done.
  - done.
Qed.

Lemma agePages_loop p l rest : ∀ dn k pr,
  procs (k_pt k) !! p = Some pr → kmem_ok (k_vm k) l → aspace (mem (k_vm k)) (pgdir pr) l →
  pagesDS (pg pr) = dn ++ rest →
  Forall (tabled (mem (k_vm k)) (pgdir pr)) rest → NoDup (alloc_vpns rest) →
  ∃ v, forM (seqZ (Z.of_nat (length dn)) (Z.of_nat (length rest))) (age_page p) k
    = Ok tt (upd_proc p (set_pg (set_pagesDS (dn ++ (aged (mem (k_vm k)) (pgdir pr) <$> rest)) (pg pr))) (set_k_vm v k)) ∧
    pt_step (pgdir pr) (k_vm k) l v l ∧
    A_cleared (pgdir pr) (mem (k_vm k)) (mem v) (tick_pages (mem (k_vm k)) (pgdir pr) rest).
Proof.
  induction rest as [|d rest IH]; intros dn k pr Hp Hk Has Hds Htab Hnd.
  - exists (k_vm k). rewrite set_k_vm_id. split_and!; [|by apply pt_step_refl|by intros va _].
    cbn. rewrite app_nil_r in *. rewrite <- Hds. f_equal. symmetry. eapply upd_proc_same; [done|].
    by destruct pr as [? ? ? ? ? ? ? ? ? ? ? ? ? ? []].
  - apply Forall_cons in Htab as [Hd Htab]. apply alloc_vpns_cons in Hnd as [Hnd Hn].
    assert (Hi : pagesDS (pg pr) !! length dn = Some d) by (rewrite Hds, lookup_app_r, Nat.sub_diag; done).
    destruct (agePages_step k p pr l (length dn) d Hp Hk Has Hi Hd) as (v1 & Hst & Hs1 & Hc1).
    rewrite seqZ_cons by (cbn; lia). cbn [forM]. rewrite (bind_ok _ _ _ _ _ Hst).
    set (d' := aged _ _ d) in *. set (k1 := upd_proc _ _ _) in *.
    assert (Hnt : ∀ v, v ∈ tick_pages (mem (k_vm k)) (pgdir pr) [d] → v ∉ alloc_vpns rest).
    { intros v Hv%tick_pages_sub. unfold alloc_vpns in Hv. cbn in Hv.
      destruct (Z.eqb_spec (isAllocated d) 1); [|set_solver]. apply list_elem_of_singleton in Hv as ->. auto. }
    assert (Hsame : ∀ e, e ∈ rest → isAllocated e = 1 →
      pte (mem v1) (pgdir pr) (v_address e) = pte (mem (k_vm k)) (pgdir pr) (v_address e)).
    { intros e He Ha. rewrite Forall_forall in Htab. eapply pte_uncleared; [done|by apply Htab|].
      intros Hv%Hnt. by apply Hv, alloc_vpns_elem. }
    assert (Hp1 : procs (k_pt k1) !! p = Some (set_pg (set_pagesDS (<[length dn := d']> (pagesDS (pg pr))) (pg pr)) pr))
      by (by apply upd_proc_lookup).
    assert (Hds1 : <[length dn := d']> (pagesDS (pg pr)) = (dn ++ [d']) ++ rest).
    { by rewrite Hds, <- app_assoc, insert_app_r_alt, Nat.sub_diag. }
    destruct (IH (dn ++ [d']) k1 _ Hp1) as (v & Hrun & Hs & Hc); [apply Hs1|apply Hs1|done| |done|].
    { eapply Forall_impl; [done|]. intros e He. by eapply tabled_cleared. }
    rewrite length_app in Hrun. cbn [length pgdir set_pg pg] in Hrun, Hs, Hc.
    change (mem (k_vm k1)) with (mem v1) in Hrun, Hc.
    exists v. split_and!; [|by eapply pt_step_trans|].
    + replace (Z.succ (Z.of_nat (length dn))) with (Z.of_nat (length dn + 1)) by lia.
      replace (Z.pred (Z.of_nat (length (d :: rest)))) with (Z.of_nat (length rest)) by (cbn; lia).
      rewrite Hrun. f_equal. change (set_k_vm v k1)
        with (upd_proc p (set_pg (set_pagesDS (<[length dn := d']> (pagesDS (pg pr))) (pg pr))) (set_k_vm v k)).
      rewrite upd_proc_compose, <- app_assoc. cbn.
      rewrite (list_fmap_ext (aged (mem v1) (pgdir pr)) (aged (mem (k_vm k)) (pgdir pr)) rest);
        [done|].
      intros i e He. apply aged_ext, Hsame. by eapply list_elem_of_lookup_2.
    + rewrite (tick_pages_ext (mem (k_vm k))) in Hc by done.
      change (d :: rest) with ([d] ++ rest). unfold tick_pages at 1. rewrite omap_app.
      eapply A_cleared_trans; [done..|]. intros w Hw Hw'%tick_pages_sub. by apply (Hnt w).
Qed.

(** [agePages] ages every entry and clears the accessed bits it has read. *)
Lemma agePages_run k p pr l :
  runs (k_mach k) p → procs (k_pt k) !! p = Some pr →
  kmem_ok (k_vm k) l → aspace (mem (k_vm k)) (pgdir pr) l →
  length (pagesDS (pg pr)) = 32%nat →
  Forall (tabled (mem (k_vm k)) (pgdir pr)) (pagesDS (pg pr)) → NoDup (alloc_vpns (pagesDS (pg pr))) →
  let m := mem (k_vm k) in
  ∃ v, agePages k
    = Ok tt (upd_proc p (set_pg (set_pagesDS (aged m (pgdir pr) <$> pagesDS (pg pr)) (pg pr))) (set_k_vm v k)) ∧
    pt_step (pgdir pr) (k_vm k) l v l ∧
    A_cleared (pgdir pr) m (mem v) (tick_pages m (pgdir pr) (pagesDS (pg pr))).
Proof.
  intros Hrun Hp Hk Has Hlen Htab Hnd m. unfold agePages.
  rewrite (bind_ok _ _ _ _ _ (curproc_runs k p Hrun)).
  change (seqZ 0 MAX_TOTAL_PAGES) with (seqZ (Z.of_nat (length (@nil page))) (Z.of_nat 32)). rewrite <- Hlen.
  by apply (agePages_loop p l _ [] k pr).
Qed.
End ageing.
