(* ===== verification/Sysfile.v ===== *)
(** Arguments of system calls ([syscall.c]), the system calls on files
    ([sysfile.c]), and the creation and removal of swap files ([fs.c]). *)

From S2P Require Import Prelude Params Bytes State Spinlock Mem Kalloc PageTable Uaccess Procs Sched Bio Log Inode Console Fs File.

(** ** Arguments

    [None] stands for the result [-1]. *)
Definition fetchint (addr : Z) : K (option Z) :=
  p ← curproc;
  q ← get_proc p;
  if (sz q <=? addr) || (sz q <? u32 (addr + 4)) then ret None
  else l ← load_bytes 4 addr; ret (Some (s32 (le_val l))).

(** The string itself stands for the pointer to it. *)
Definition fetchstr (addr : Z) : K (option (list Z)) :=
  p ← curproc;
  q ← get_proc p;
  if sz q <=? addr then ret None else load_str (Z.to_nat (sz q - addr)) addr.

Definition argint (n : Z) : K (option Z) :=
  p ← curproc;
  q ← get_proc p;
  fetchint (u32 (tf_esp (tf q) + 4 + 4 * n)).

Definition argptr (n size : Z) : K (option Z) :=
  p ← curproc;
  q ← get_proc p;
  o ← argint n;
  match o with
  | None => ret None
  | Some i =>
      if (size <? 0) || (sz q <=? u32 i) || (sz q <? u32 (u32 i + size)) then ret None
      else ret (Some (u32 i))
  end.

Definition argstr (n : Z) : K (option (list Z)) :=
  o ← argint n;
  match o with None => ret None | Some addr => fetchstr (u32 addr) end.

Section sysfile.
Context `{link} `{world}.

(** ** Descriptors *)
Definition argfd (n : Z) : K (option (Z * nat)) :=
  o ← argint n;
  match o with
  | None => ret None
  | Some fd =>
      p ← curproc;
      q ← get_proc p;
      if (fd <? 0) || (NOFILE <=? fd) then ret None
      else f ← or_ub "ofile" (aget (ofile q) fd); ret ((λ f, (fd, f)) <$> f)
  end.

Definition set_ofile_at (p : nat) (fd : Z) (f : option nat) : K unit :=
  q ← get_proc p; l ← or_ub "ofile" (aset (ofile q) fd f); mod_proc p (set_ofile l).

Definition fdalloc (f : nat) : K Z :=
  p ← curproc;
  q ← get_proc p;
  match list_find (λ o, o = None) (ofile q) with
  | Some (fd, _) => set_ofile_at p (Z.of_nat fd) (Some f);; ret (Z.of_nat fd)
  | None => ret (-1)
  end.

Definition sys_dup : K Z :=
  o ← argfd 0;
  match o with
  | None => ret (-1)
  | Some (_, f) =>
      fd ← fdalloc f;
      if fd <? 0 then ret (-1) else filedup f;; ret fd
  end.

(** The arguments of [sys_read] and [sys_write], in the order the code checks them. *)
Definition rw_args : K (option (nat * Z * Z)) :=
  o ← argfd 0;
  match o with
  | None => ret None
  | Some (_, f) =>
      o ← argint 2;
      match o with
      | None => ret None
      | Some n => o ← argptr 1 n; ret ((λ p, (f, n, p)) <$> o)
      end
  end.

Definition sys_read : K Z :=
  o ← rw_args; match o with None => ret (-1) | Some (f, n, p) => file_read f p n end.
Definition sys_write : K Z :=
  o ← rw_args; match o with None => ret (-1) | Some (f, n, p) => file_write f p n end.

Definition sys_close : K Z :=
  o ← argfd 0;
  match o with
  | None => ret (-1)
  | Some (fd, f) => p ← curproc; set_ofile_at p fd None;; fileclose f;; ret 0
  end.

(** [struct stat] in memory: [type], [dev], [ino], [nlink] and [size] at offsets
    0, 4, 8, 12 and 16. *)
Definition store_stat (a : Z) (st : stat) : K unit :=
  store_bytes a (le_bytes 2 (st_type st));;
  store_bytes (u32 (a + 4)) (le_bytes 4 (st_dev st));;
  store_bytes (u32 (a + 8)) (le_bytes 4 (st_ino st));;
  store_bytes (u32 (a + 12)) (le_bytes 2 (st_nlink st));;
  store_bytes (u32 (a + 16)) (le_bytes 4 (st_size st)).

(** [filestat] fills the user's structure while it holds the inode. *)
Definition filestat_to (f : nat) (a : Z) : K Z :=
  x ← get_file f;
  match f_type x with
  | FD_INODE =>
      ilock (f_ip x);;
      i ← or_ub "ip" (f_ip x);
      st ← stati i;
      store_stat a st;;
      iunlock (f_ip x);;
      ret 0
  | _ => ret (-1)
  end.

Definition sys_fstat : K Z :=
  o ← argfd 0;
  match o with
  | None => ret (-1)
  | Some (_, f) =>
      o ← argptr 1 20;
      match o with None => ret (-1) | Some a => filestat_to f a end
  end.

(** ** Names *)
Definition link_bad (ip : nat) : K Z :=
  ilock (Some ip);;
  mod_inode ip (λ x, set_i_nlink (s16 (i_nlink x - 1)) x);;
  iupdate ip;;
  iunlockput ip;;
  end_op;;
  ret (-1).

Definition link_at (old new : list Z) : K Z :=
  begin_op;;
  o ← namei old;
  match o with
  | None => end_op;; ret (-1)
  | Some ip =>
      ilock (Some ip);;
      x ← get_inode ip;
      if i_type x =? T_DIR then iunlockput ip;; end_op;; ret (-1)
      else
        mod_inode ip (λ x, set_i_nlink (s16 (i_nlink x + 1)) x);;
        iupdate ip;;
        iunlock (Some ip);;
        o ← nameiparent new;
        match o with
        | None => link_bad ip
        | Some (dp, name) =>
            ilock (Some dp);;
            y ← get_inode dp;
            x ← get_inode ip;
            bad ← (if negb (i_dev y =? i_dev x) then ret true
                   else r ← dirlink dp name (i_inum x); ret (r <? 0));
            if bad : bool then iunlockput dp;; link_bad ip
            else iunlockput dp;; iput ip;; end_op;; ret 0
        end
  end.

Definition sys_link : K Z :=
  o ← argstr 0;
  match o with
  | None => ret (-1)
  | Some old =>
      o ← argstr 1;
      match o with None => ret (-1) | Some new => link_at old new end
  end.

Fixpoint isdirempty_loop (fuel : nat) (dp : nat) (off : Z) : K bool :=
  x ← get_inode dp;
  if off <? i_size x then
    match fuel with
    | O => fail OutOfFuel
    | S fuel =>
        de ← read_dirent dp off "isdirempty: readi";
        if negb (de_inum de =? 0) then ret false else isdirempty_loop fuel dp (off + DIRENT)
    end
  else ret true.
Definition isdirempty (dp : nat) : K bool :=
  x ← get_inode dp; isdirempty_loop (Z.to_nat (i_size x / DIRENT + 1)) dp (2 * DIRENT).

Definition DOT : list Z := [46].
Definition DOTDOT : list Z := [46; 46].

(** The part that [sys_unlink] and [removeSwapFile] share, inside a transaction. *)
Definition unlink_path (path : list Z) : K Z :=
  begin_op;;
  o ← nameiparent path;
  match o with
  | None => end_op;; ret (-1)
  | Some (dp, name) =>
      ilock (Some dp);;
      if (namecmp name DOT =? 0) || (namecmp name DOTDOT =? 0) then iunlockput dp;; end_op;; ret (-1)
      else
        o ← dirlookup dp name;
        match o with
        | None => iunlockput dp;; end_op;; ret (-1)
        | Some (ip, off) =>
            ilock (Some ip);;
            x ← get_inode ip;
            if i_nlink x <? 1 then panic "unlink: nlink < 1" else
            full ← (if i_type x =? T_DIR then e ← isdirempty ip; ret (negb e) else ret false);
            if full : bool then iunlockput ip;; iunlockput dp;; end_op;; ret (-1)
            else
              r ← writei local_source dp (replicate 16 0) off DIRENT;
              if negb (r =? DIRENT) then panic "unlink: writei" else
              x ← get_inode ip;
              when (i_type x =? T_DIR) (
                mod_inode dp (λ x, set_i_nlink (s16 (i_nlink x - 1)) x);;
                iupdate dp);;
              iunlockput dp;;
              mod_inode ip (λ x, set_i_nlink (s16 (i_nlink x - 1)) x);;
              iupdate ip;;
              iunlockput ip;;
              end_op;;
              ret 0
        end
  end.

Definition sys_unlink : K Z :=
  o ← argstr 0; match o with None => ret (-1) | Some path => unlink_path path end.

Definition create (path : list Z) (type major minor : Z) : K (option nat) :=
  o ← nameiparent path;
  match o with
  | None => ret None
  | Some (dp, name) =>
      ilock (Some dp);;
      o ← dirlookup dp name;
      match o with
      | Some (ip, _) =>
          iunlockput dp;;
          ilock (Some ip);;
          x ← get_inode ip;
          if (type =? T_FILE) && (i_type x =? T_FILE) then ret (Some ip)
          else iunlockput ip;; ret None
      | None =>
          y ← get_inode dp;
          ip ← ialloc (i_dev y) type;
          ilock (Some ip);;
          mod_inode ip (λ x, set_i_nlink 1 (set_i_minor minor (set_i_major major x)));;
          iupdate ip;;
          when (type =? T_DIR) (
            mod_inode dp (λ x, set_i_nlink (s16 (i_nlink x + 1)) x);;
            iupdate dp;;
            x ← get_inode ip;
            y ← get_inode dp;
            r ← dirlink ip DOT (i_inum x);
            if r <? 0 then panic "create dots" else
            r ← dirlink ip DOTDOT (i_inum y);
            if r <? 0 then panic "create dots" else ret tt);;
          x ← get_inode ip;
          r ← dirlink dp name (i_inum x);
          if r <? 0 then panic "create: dirlink" else
          iunlockput dp;;
          ret (Some ip)
      end
  end.

(** [None] after the transaction has been ended. *)
Definition open_inode (path : list Z) (omode : Z) : K (option nat) :=
  if truthy (Z.land omode O_CREATE) then
    o ← create path T_FILE 0 0;
    match o with
    | None => end_op;; ret None
    | Some ip => ret (Some ip)
    end
  else
    o ← namei path;
    match o with
    | None => end_op;; ret None
    | Some ip =>
        ilock (Some ip);;
        x ← get_inode ip;
        if (i_type x =? T_DIR) && negb (omode =? O_RDONLY) then
          iunlockput ip;; end_op;; ret None
        else ret (Some ip)
    end.

Definition b2z (b : bool) : Z := if b then 1 else 0.

Definition open_at (path : list Z) (omode : Z) : K Z :=
  begin_op;;
  o ← open_inode path omode;
  match o with
  | None => ret (-1)
  | Some ip =>
      fo ← filealloc;
      fd ← match fo with None => ret (-1) | Some f => fdalloc f end;
      match fo with
      | Some f =>
          if fd <? 0 then fileclose f;; iunlockput ip;; end_op;; ret (-1)
          else
            iunlock (Some ip);;
            end_op;;
            mod_file f (λ x,
              set_f_writable (b2z (truthy (Z.land omode O_WRONLY) || truthy (Z.land omode O_RDWR)))
              (set_f_readable (b2z (negb (truthy (Z.land omode O_WRONLY))))
              (set_f_off 0 (set_f_ip (Some ip) (set_f_type FD_INODE x)))));;
            ret fd
      | None => iunlockput ip;; end_op;; ret (-1)
      end
  end.

Definition sys_open : K Z :=
  o ← argstr 0;
  match o with
  | None => ret (-1)
  | Some path =>
      o ← argint 1;
      match o with None => ret (-1) | Some omode => open_at path omode end
  end.

Definition sys_mkdir : K Z :=
  begin_op;;
  o ← argstr 0;
  r ← match o with None => ret None | Some path => create path T_DIR 0 0 end;
  match r with
  | None => end_op;; ret (-1)
  | Some ip => iunlockput ip;; end_op;; ret 0
  end.

Definition sys_mknod : K Z :=
  begin_op;;
  o ← argstr 0;
  r ← match o with
      | None => ret None
      | Some path =>
          o ← argint 1;
          match o with
          | None => ret None
          | Some major =>
              o ← argint 2;
              match o with
              | None => ret None
              | Some minor => create path T_DEV (s16 major) (s16 minor)
              end
          end
      end;
  match r with
  | None => end_op;; ret (-1)
  | Some ip => iunlockput ip;; end_op;; ret 0
  end.

Definition sys_chdir : K Z :=
  p ← curproc;
  begin_op;;
  o ← argstr 0;
  r ← match o with None => ret None | Some path => namei path end;
  match r with
  | None => end_op;; ret (-1)
  | Some ip =>
      ilock (Some ip);;
      x ← get_inode ip;
      if negb (i_type x =? T_DIR) then iunlockput ip;; end_op;; ret (-1)
      else
        iunlock (Some ip);;
        q ← get_proc p;
        old ← or_ub "cwd" (cwd q);
        iput old;;
        end_op;;
        mod_proc p (set_cwd (Some ip));;
        ret 0
  end.

Definition sys_pipe : K Z :=
  o ← argptr 0 8;
  match o with
  | None => ret (-1)
  | Some a =>
      o ← pipealloc;
      match o with
      | None => ret (-1)
      | Some (rf, wf) =>
          fd0 ← fdalloc rf;
          fd1 ← (if fd0 <? 0 then ret (-1) else fdalloc wf);
          if fd1 <? 0 then
            p ← curproc;
            when (0 <=? fd0) (set_ofile_at p fd0 None);;
            fileclose rf;;
            fileclose wf;;
            ret (-1)
          else
            store_bytes a (le_bytes 4 fd0);;
            store_bytes (u32 (a + 4)) (le_bytes 4 fd1);;
            ret 0
      end
  end.

(** ** Swap files *)

(** The decimal digits of [i], least significant first. *)
Fixpoint itoa_digits (fuel : nat) (i : Z) : list Z :=
  match fuel with
  | O => []
  | S fuel => (48 + i mod 10) :: (if i / 10 =? 0 then [] else itoa_digits fuel (i / 10))
  end.
Definition itoa (i : Z) : list Z :=
  (if i <? 0 then [45] else []) ++ reverse (itoa_digits 10 (Z.abs i)).

(** [path] has room for [DIGITS] bytes, the zero included; a longer name is written
    past its end. *)
Definition DIGITS : Z := 14.
Definition swap_path (pid' : Z) : K (list Z) :=
  let path := str "/.swap" ++ itoa pid' in
  if Z.of_nat (length path) <? DIGITS then ret path else fail (UB "path").

Definition removeSwapFile (p : nat) : K Z :=
  q ← get_proc p;
  path ← swap_path (pid q);
  match swapFile q with
  | None => ret (-1)
  | Some f => fileclose f;; unlink_path path
  end.

Definition createSwapFile (p : nat) : K Z :=
  q ← get_proc p;
  path ← swap_path (pid q);
  begin_op;;
  ip ← create path T_FILE 0 0;
  iunlock ip;;
  fo ← filealloc;
  mod_proc p (set_swapFile fo);;
  match fo with
  | None => panic "no slot for files on /store"
  | Some f =>
      mod_file f (λ x, set_f_writable O_RDWR (set_f_readable O_WRONLY (set_f_off 0
        (set_f_type FD_INODE (set_f_ip ip x)))));;
      end_op;;
      ret 0
  end.
End sysfile.
