(* ===== verification/CreateSpec.v ===== *)
(** [ialloc] ([fs.c]) and [create] ([sysfile.c]): a new file under a path. *)

From S2P Require Import Prelude Params Bytes State Spinlock Mem Kalloc PageTable Uaccess Procs Sched SchedSpec Bio BioSpec CacheSpec BlockSpec Log LogSpec CommitSpec CrashSpec Inode BallocSpec DiskSpec BmapSpec DinodeSpec Console Fs WriteSpec ReadSpec File FsSpec DirSpec IcacheSpec TruncSpec DirThms DirLink Sample SampleFs SampleDir Sysfile.

(** ** A disk inode without blocks is stored *)
Record stored (C C' : Z → list Z) (n : Z) (d : dinode) : Prop := mkStored {
  sto_inode : nd C' n = d;
  sto_other : ∀ n', 1 ≤ n' < NINODES → n' ≠ n → nd C' n' = nd C n';
  sto_inv : fsinv C' (nd C');
  sto_data : ∀ n', live (nd C) n' → n' ≠ n → file_data C' (nd C n') = file_data C (nd C n');
  sto_high : ∀ b, BMAP ≤ b → C' b = C b
}.

Lemma stored_ok C n d :
  fsinv C (nd C) → 1 ≤ n < NINODES → (∀ b, block_ok (C b)) → blockless d →
  stored C (iupdated C n d) n d.
Proof.
  intros Hi Hn Hok (Hdw & Hwf & Hus). set (C' := iupdated C n d).
  assert (Hself : nd C' n = d) by (by apply nd_iupdated).
  assert (Hother : ∀ n', 1 ≤ n' < NINODES → n' ≠ n → nd C' n' = nd C n') by (intros n' Hn' Hne; apply nd_iupdated_ne; try done; apply Hdw).
  assert (Hhigh : ∀ b, BMAP ≤ b → C' b = C b) by (intros b Hb; by apply iupdated_high).
  assert (Hi1 : fsinv C (updI (nd C) n d)).
  { destruct Hi as [H1 H2 H3 H4 H5].
    assert (Hl : ∀ n', live (updI (nd C) n d) n' → n' = n ∧ updI (nd C) n d n' = d ∨ n' ≠ n ∧ live (nd C) n' ∧ updI (nd C) n d n' = nd C n').
    { intros n' [Hn' Ht]. destruct (decide (n' = n)) as [->|Hne]; [left; by rewrite updI_eq|right]. rewrite updI_ne in Ht by done. rewrite updI_ne by done. split_and!; done. }
    split; [..|done].
    - intros n' [[-> ->]|(_ & ? & ->)]%Hl; auto.
    - intros n' [[-> ->]|(_ & ? & ->)]%Hl; [rewrite Hus; constructor|auto].
    - intros n1 n2 b [[-> ->]|(_ & ? & ->)]%Hl [[-> ->]|(_ & ? & ->)]%Hl Hne; rewrite ?Hus; [done|by intros ?%elem_of_nil|intros _; apply not_elem_of_nil|by apply H3].
    - intros n' b [[-> ->]|(_ & ? & ->)]%Hl; [rewrite Hus; by intros ?%elem_of_nil|by apply H4]. }
  destruct (fsinv_meta C C' _ Hi1 ltac:(intros b [? _]; by apply Hhigh)) as [Hi2 Hd2]. split; try done.
  - apply (fsinv_same C' _ _ Hi2). intros n' Hn'. destruct (decide (n' = n)) as [->|Hne]; [by rewrite updI_eq|].
    rewrite updI_ne by done. by apply Hother.
  - intros n' Hl Hne. specialize (Hd2 n'). rewrite updI_ne in Hd2 by done. apply Hd2. destruct Hl. split; [done|]. by rewrite updI_ne.
Qed.

Lemma stored_live C C' n d n' : stored C C' n d → d_type d ≠ 0 → live (nd C) n' → live (nd C') n'.
Proof.
  intros Hs Ht [Hn Hl]. split; [done|]. destruct (decide (n' = n)) as [->|Hne]; [by rewrite (sto_inode _ _ _ _ Hs)|].
  by rewrite (sto_other _ _ _ _ Hs).
Qed.

(** Directories are as before. *)
Lemma stored_dir C C' n d n' : stored C C' n d → live (nd C) n' → n' ≠ n → dir_of C' n' = dir_of C n'.
Proof.
  intros Hs Hl Hne. unfold dir_of. rewrite (sto_other _ _ _ _ Hs) by (done || apply Hl). by rewrite (sto_data _ _ _ _ Hs).
Qed.

Lemma stored_dirs C C' n d :
  stored C C' n d → d_type d ≠ 0 → d_type d ≠ T_DIR → (live (nd C) n → d_nlink (nd C n) ≠ 0 → d_nlink d ≠ 0) → dirs_ok C → dirs_ok C'.
Proof.
  intros Hs Ht Htd Hnl Hdirs n' Hl' Ht'. destruct (decide (n' = n)) as [->|Hne]; [by rewrite (sto_inode _ _ _ _ Hs) in Ht'|].
  pose proof (sto_other _ _ _ _ Hs n' (proj1 Hl') Hne) as En.
  assert (Hl : live (nd C) n') by (destruct Hl'; split; [done|by rewrite <- En]). destruct (Hdirs n' Hl) as [_ T S N]; [by rewrite <- En|].
  split; [done|done|by rewrite En|]. rewrite (stored_dir _ _ _ _ _ Hs Hl Hne). intros e He H0. destruct (N e He H0) as [Hle Hke].
  split; [by eapply stored_live|]. destruct (decide (de_inum e = n)) as [E|Hen]; [rewrite E in *; rewrite (sto_inode _ _ _ _ Hs); auto|].
  rewrite (sto_other _ _ _ _ Hs); [done|apply Hle|done].
Qed.

Section create.
Context {W : world} {DW : DiskWorld}.
Implicit Types (k : kernel) (s : fsys) (i : nat) (x y : inode) (C D : Z → list Z) (Q : gset Z) (h : list nat) (n : Z).

(** The entries of the cache after inode [n] has been stored: none is for [n], or it has the new
    contents. *)
Definition cached s s' n (d : dinode) : Prop := ∀ j y, inodes s' !! j = Some y →
  (inodes s !! j = Some y ∧ (0 < i_ref y → i_dev y = 1 → i_inum y ≠ n)) ∨
  (i_dev y = 1 ∧ i_inum y = n ∧ d_of y = d ∧ ∃ y0, inodes s !! j = Some y0 ∧ i_ref y = i_ref y0 ∧ i_dev y = i_dev y0 ∧
    i_inum y = i_inum y0 ∧ i_valid y = i_valid y0 ∧ i_lock y = i_lock y0).

Lemma iview_stored h k C D Q C' n d s' m :
  iview h k C D Q → 1 ≤ n < NINODES → stored C C' n d → tx [] s' C' D m → (m ≤ 28)%nat → sb s' = sb (k_fs k) →
  length (inodes s') = 50%nat → cached (k_fs k) s' n d → iview h (set_k_fs s' k) C' D (list_to_set (logged s')).
Proof.
  intros [Hr Hsb Hv HQ Hlg Hi [Hl Hcp Hun] Hu] Hn Hsto Htx Hm Hsb' Hlen Hca.
  assert (Hold : ∀ j y, inodes s' !! j = Some y → ∃ y0, inodes (k_fs k) !! j = Some y0 ∧ i_ref y = i_ref y0 ∧ i_dev y = i_dev y0 ∧
    i_inum y = i_inum y0 ∧ i_valid y = i_valid y0 ∧ i_lock y = i_lock y0).
  { intros j y Hy. destruct (Hca j y Hy) as [[? _]|(_ & _ & _ & ?)]; [by exists y|done]. }
  split; cbn [k_fs set_k_fs]; try done.
  - by apply fs_ready_fs.
  - by rewrite Hsb'.
  - apply Htx.
  - rewrite size_list_to_set by apply Htx. pose proof (tx_len _ _ _ _ _ Htx). lia.
  - intros b. by rewrite elem_of_list_to_set.
  - apply Hsto.
  - split; [done|..].
    + intros j y Hy Hp Hva. destruct (Hca j y Hy) as [[Hy0 Hne]|(Hd & Hin & Hdo & _)].
      * destruct (Hcp j y Hy0 Hp Hva) as (Hd & Hr1 & Hdo). split_and!; try done; [lia..|]. by rewrite (sto_other _ _ _ _ Hsto) by auto.
      * rewrite Hin. split_and!; try done; [lia..|]. by rewrite (sto_inode _ _ _ _ Hsto).
    + intros j j' y y' Hy Hy' Hp Hp' Hd Hin. destruct (Hold j y Hy) as (y0 & Hy0 & ? & ? & ? & _), (Hold j' y' Hy') as (y0' & Hy0' & ? & ? & ? & _).
      apply (Hun j j' y0 y0'); try done; congruence.
  - intros j y Hy. destruct (Hold j y Hy) as (y0 & Hy0 & R & _ & _ & V & L). rewrite R, V, L. by apply Hu.
Qed.

(** ** [ialloc] *)
Definition empty_dinode (type major minor nlink : Z) : dinode := mkDinode type major minor nlink 0 (replicate 13 0).

Lemma blockless_empty t a b c :
  - 2 ^ 15 ≤ t < 2 ^ 15 → - 2 ^ 15 ≤ a < 2 ^ 15 → - 2 ^ 15 ≤ b < 2 ^ 15 → - 2 ^ 15 ≤ c < 2 ^ 15 → blockless (empty_dinode t a b c).
Proof. intros. apply (blockless_emptied (empty_dinode t a b c)). split; try done. repeat constructor; lia. Qed.

(** The scan for the first free inode, which is claimed in its block. *)
Lemma ialloc_loop_ok C D m type (f : nat) : ∀ k n0,
  fs_ready k → layout (k_fs k) → tx [] (k_fs k) C D m → (m < 29)%nat → 1 ≤ n0 → NINODES - n0 ≤ Z.of_nat f →
  (∃ n, n0 ≤ n < NINODES ∧ d_type (nd C n) = 0) →
  ∃ n s', n0 ≤ n < NINODES ∧ d_type (nd C n) = 0 ∧ (∀ n', n0 ≤ n' < n → d_type (nd C n') ≠ 0) ∧
    ialloc_loop f 1 type n0 k = iget 1 n (set_k_fs s' k) ∧ tx [] s' (iupdated C n (empty_dinode type 0 0 0)) D (S m) ∧ tstep (k_fs k) s'.
Proof.
  induction f as [|f IH]; intros k n0 Hr Hly Htx Hm Hn0 Hf (n1 & Hn1 & Ht1); [lia|]. pose proof Hly as [Hsb Hls].
  cbn [ialloc_loop]. unfold getf at 1. rewrite bind_gets, Hsb. change (sb_ninodes mkfs_sb) with NINODES.
  rewrite (proj2 (Z.ltb_lt n0 NINODES)) by lia. set (b := IBLOCK n0 mkfs_sb).
  assert (Hb : 32 ≤ b < 58) by (unfold b; rewrite IBLOCK_eq; clia).
  destruct (tx_bread k [] C D m b Hr Htx) as (bp & s1 & Hr1 & Htx1 & Hst1 & Hset); [clia|apply not_elem_of_nil|cbn; lia|].
  rewrite (bind_ok _ _ _ _ _ Hr1). erewrite bind_ok by (eapply (cv_bdata (set_k_fs s1 k)); [apply Htx1|left]). change (dinode_at (C b) (ioff n0)) with (nd C n0).
  pose proof (fs_ready_fs _ s1 Hr) as Hr'. destruct (Z.eqb_spec (d_type (nd C n0)) 0) as [H0|H0].
  - destruct (tx_write (set_k_fs s1 k) _ C D m bp b (λ d, splice d (ioff n0) (dinode_bytes (empty_dinode type 0 0 0))) Hr' Htx1)
      as (s2 & Hr2 & Htx2 & Hts2 & Hin2); [done|left|cbn; rewrite (st_log _ _ Hst1), Hls; unfold home; clia| |].
    { pose proof (iupdated_block_ok C n0 (empty_dinode type 0 0 0) ltac:(lia) eq_refl) as Hok. unfold iupdated in Hok. rewrite upd_eq in Hok.
      apply Hok. eapply cview_block_ok, Htx. }
    destruct (tx_brelse (set_k_fs s2 k) [] _ D (S m) bp b (fs_ready_fs _ _ Hr) Htx2) as (s3 & Hr3 & Htx3 & Hst3); [by left|].
    exists n0, s3. split_and!; try done; [lia..| |].
    + fold (empty_dinode type 0 0 0). rewrite (seq2_ok _ _ _ _ _ _ Hr2). change (set_k_fs s2 (set_k_fs s1 k)) with (set_k_fs s2 k). by rewrite (bind_ok _ _ _ _ _ Hr3).
    + eapply tstep_trans; [by apply tstep_still|]. eapply tstep_trans; [done|by apply tstep_still].
  - destruct (tx_brelse (set_k_fs s1 k) [] C D m bp b Hr' Htx1 Hset) as (s2 & Hr2 & Htx2 & Hst2). rewrite (bind_ok _ _ _ _ _ Hr2).
    change (set_k_fs s2 (set_k_fs s1 k)) with (set_k_fs s2 k). pose proof (still_trans _ _ _ Hst1 Hst2) as Hst.
    assert (Hly2 : layout s2) by (destruct Hst as [[Fsb _ _ _] Hlg _]; split; [by rewrite Fsb|by rewrite Hlg]).
    destruct (IH (set_k_fs s2 k) (n0 + 1) (fs_ready_fs _ _ Hr) Hly2 Htx2 Hm) as (n & s3 & Hn & Ht & Hlow & -> & Htx3 & Hts3); [lia..| |].
    { exists n1. split; [|done]. assert (n0 ≠ n1) by congruence. lia. }
    exists n, s3. split_and!; try done; [lia..| |].
    + intros n' Hn'. destruct (decide (n' = n0)) as [->|]; [done|]. apply Hlow. lia.
    + eapply tstep_trans; [by apply tstep_still|done].
Qed.

(** Whatever inode of the disk is in use in the cache is in use on the disk. *)
Definition cached_live s C : Prop := ∀ j y, inodes s !! j = Some y → 0 < i_ref y → i_dev y = 1 → live (nd C) (i_inum y).

Lemma ialloc_claims h k C D Q m type :
  iview h k C D Q → tx [] (k_fs k) C D m → layout (k_fs k) → (m ≤ 27)%nat → has_room (k_fs k) → cached_live (k_fs k) C →
  - 2 ^ 15 ≤ type < 2 ^ 15 → (∃ n, 1 ≤ n < NINODES ∧ d_type (nd C n) = 0) →
  ∃ n ip s' C', ialloc 1 type k = Ok ip (set_k_fs s' k) ∧ 1 ≤ n < NINODES ∧ d_type (nd C n) = 0 ∧
    stored C C' n (empty_dinode type 0 0 0) ∧ iview h (set_k_fs s' k) C' D (list_to_set (logged s')) ∧ tx [] s' C' D (S m) ∧
    layout s' ∧ entry_for s' ip n ∧ ∃ s1, tstep (k_fs k) s1 ∧ imoved (one ip) s1 s' ∧
      (∀ j, i_lock <$> inodes s' !! j = i_lock <$> inodes s1 !! j).
Proof.
  intros Hv Htx Hly Hm Hroom Hcl Hty Hex. unfold ialloc, getf. rewrite bind_gets. pose proof Hly as [Hsb Hls]. rewrite Hsb. change (Z.to_nat (sb_ninodes mkfs_sb)) with 200%nat.
  destruct (ialloc_loop_ok C D m type 200 k 1 (iv_ready _ _ _ _ _ Hv) Hly Htx) as (n & s1 & Hn & Ht & _ & -> & Htx1 & Hts1); [lia|lia|clia|done|].
  set (C1 := iupdated C n (empty_dinode type 0 0 0)) in *. pose proof Hts1 as [[Fsb Fin Ffi Fpi] [z Flog] _].
  assert (Hsto : stored C C1 n (empty_dinode type 0 0 0)).
  { apply stored_ok; [apply Hv|done| |by apply blockless_empty]. intros b. eapply cview_block_ok, Htx. }
  assert (Hv1 : iview h (set_k_fs s1 k) C1 D (list_to_set (logged s1))).
  { apply (iview_stored h k C D Q C1 n (empty_dinode type 0 0 0) s1 (S m)); try done; [lia|rewrite Fin; apply Hv|].
    intros j y Hy. rewrite Fin in Hy. left. split; [done|]. intros Hp Hd E. destruct (Hcl j y Hy Hp Hd) as [_ Hl]. by rewrite E in Hl. }
  assert (Hroom1 : has_room s1) by (destruct Hroom as (j & y & ? & ?); exists j, y; by rewrite Fin).
  destruct (iget_ok h (set_k_fs s1 k) C1 D _ n Hv1 Hn Hroom1) as (ip & s2 & Hr2 & Hv2 & Hm2 & Hen & Hl2).
  change (set_k_fs s2 (set_k_fs s1 k)) with (set_k_fs s2 k) in *. cbn [k_fs set_k_fs] in *.
  assert (Hlg : logged s2 = logged s1) by (unfold logged; by rewrite (im_log _ _ _ Hm2)).
  exists n, ip, s2, C1. split_and!; try done; [lia..|by rewrite Hlg| | |by exists s1].
  - destruct Htx1 as [_ H2 H3 H4 H5 H6]. split; rewrite ?Hlg, ?(im_log _ _ _ Hm2); try done. apply Hv2.
  - split; [by rewrite (im_sb _ _ _ Hm2), Fsb|by rewrite (im_log _ _ _ Hm2), Flog].
Qed.

(** ** Changes of the cache along the way *)

(** Reference counts by [δ]; an entry in use goes on being the same inode; open files stay. *)
Record rmoved (δ : nat → Z) s s' : Prop := mkRmoved {
  rm_ref : ∀ j y, inodes s !! j = Some y → ∃ y', inodes s' !! j = Some y' ∧ i_ref y' = i_ref y + δ j ∧
    (0 < i_ref y → i_dev y' = i_dev y ∧ i_inum y' = i_inum y);
  rm_files : files s' = files s;
  rm_pipes : pipes s' = pipes s
}.

Lemma rmoved_trans δ1 δ2 δ s1 s2 s3 :
  rmoved δ1 s1 s2 → rmoved δ2 s2 s3 → (∀ j, 0 ≤ δ1 j) → (∀ j, δ j = δ1 j + δ2 j) → rmoved δ s1 s3.
Proof.
  intros [H1 ? ?] [H2 ? ?] Hpos Hδ. split; [|congruence..]. intros j y Hy. destruct (H1 j y Hy) as (y1 & Hy1 & R1 & K1).
  destruct (H2 j y1 Hy1) as (y2 & Hy2 & R2 & K2). exists y2. split; [done|]. split; [rewrite Hδ; lia|]. intros Hp. destruct (K1 Hp).
  destruct K2; [specialize (Hpos j); lia|]. split; congruence.
Qed.

Lemma rmoved_after δ s1 s2 s3 : rmoved none s1 s2 → rmoved δ s2 s3 → rmoved δ s1 s3.
Proof. intros H1 H2. eapply rmoved_trans; [exact H1|exact H2|intros; by unfold none|intros; by unfold none]. Qed.

Lemma rmoved_before δ s1 s2 s3 : rmoved δ s1 s2 → rmoved none s2 s3 → (∀ j, 0 ≤ δ j) → rmoved δ s1 s3.
Proof. intros H1 H2 Hp. eapply rmoved_trans; [exact H1|exact H2|done|intros; unfold none; lia]. Qed.

Lemma rmoved_imoved δ s s' : imoved δ s s' → rmoved δ s s'.
Proof.
  intros [H ? ? ? ? ?]. split; try done. intros j y Hy. destruct (H j y Hy) as (y' & ? & ? & K). exists y'. split_and!; try done.
  intros Hp. by destruct (K Hp) as (? & ? & _).
Qed.

Lemma rmoved_kept s s' : kept s s' → rmoved none s s'.
Proof.
  intros [H ? ?]. split; try done. intros j y Hy. destruct (H j y Hy) as (y' & ? & ? & ? & K). exists y'. unfold none.
  split_and!; [done|lia|]. intros Hp. by destruct (K Hp) as (? & ? & _).
Qed.

Lemma rmoved_tstep s s' : tstep s s' → rmoved none s s'.
Proof.
  intros [[_ Fin Ffi Fpi] _ _]. split; try done. intros j y Hy. exists y. rewrite Fin. unfold none. split_and!; [done|lia|done].
Qed.

Lemma rmoved_put i x y s : inodes s !! i = Some x → i_ref y = i_ref x → i_dev y = i_dev x → i_inum y = i_inum x → rmoved none s (put_inode i y s).
Proof.
  intros Hx Hr Hd Hi. split; try done. intros j z Hz. unfold none. destruct (decide (j = i)) as [->|Hne].
  - exists y. rewrite (put_inode_lookup i y x) by done. simplify_eq. split_and!; [done|lia|done].
  - exists z. cbn. rewrite list_lookup_insert_ne by done. split_and!; [done|lia|done].
Qed.

(** The order in which entries were locked does not matter. *)
Lemma iview_perm h h' k C D Q : iview h k C D Q → (∀ j, j ∈ h → j ∈ h') → iview h' k C D Q.
Proof.
  intros [Hr Hsb Hv HQ Hlg Hi Hc Hu] Hh. split; try done. intros j y Hy. destruct (Hu j y Hy) as (? & ? & Hl). split_and!; try done.
  intros Hj. apply Hl. intros Hj'. by apply Hj, Hh.
Qed.

Lemma stored_trans C C1 C2 n d1 d2 : live (nd C1) n → stored C C1 n d1 → stored C1 C2 n d2 → d_type d1 ≠ 0 → stored C C2 n d2.
Proof.
  intros Hl H1 H2 Ht. split; [apply H2| |apply H2| |].
  - intros n' Hn' Hne. by rewrite (sto_other _ _ _ _ H2), (sto_other _ _ _ _ H1).
  - intros n' Hn' Hne. rewrite <- (sto_data _ _ _ _ H1) by done. rewrite <- (sto_other _ _ _ _ H1) by (done || apply Hn').
    apply (sto_data _ _ _ _ H2); [|done]. by eapply stored_live.
  - intros b Hb. by rewrite (sto_high _ _ _ _ H2), (sto_high _ _ _ _ H1).
Qed.

(** ** The new inode is set up *)
Definition set_up (major minor : Z) x : inode := set_i_nlink 1 (set_i_minor minor (set_i_major major x)).

Lemma set_up_dinode type major minor x : d_of x = empty_dinode type 0 0 0 → d_of (set_up major minor x) = empty_dinode type major minor 1.
Proof. unfold d_of, empty_dinode. intros [= Ht _ _ _ Hs Ha]. cbn. by rewrite Ht, Hs, Ha. Qed.

Lemma set_up_ok h k C D Q m ip n x type major minor :
  iview h k C D Q → tx [] (k_fs k) C D m → layout (k_fs k) → (m ≤ 27)%nat → locked_inode (k_fs k) C ip n x → 1 ≤ n < NINODES →
  nd C n = empty_dinode type 0 0 0 → - 2 ^ 15 ≤ type < 2 ^ 15 → - 2 ^ 15 ≤ major < 2 ^ 15 → - 2 ^ 15 ≤ minor < 2 ^ 15 →
  ∃ s' C', iupdate ip (set_k_fs (put_inode ip (set_up major minor x) (k_fs k)) k) = Ok tt (set_k_fs s' k) ∧
    stored C C' n (empty_dinode type major minor 1) ∧ iview h (set_k_fs s' k) C' D (list_to_set (logged s')) ∧ tx [] s' C' D (S m) ∧
    layout s' ∧ locked_inode s' C' ip n (set_up major minor x) ∧ rmoved none (k_fs k) s' ∧
    (∀ j, j ≠ ip → inodes s' !! j = inodes (k_fs k) !! j).
Proof.
  intros Hv Htx [Hsb Hls] Hm [Hx Hp Hd Hi Hva Hcp Hlk] Hn Hnd Hty Hma Hmi. set (y := set_up major minor x). set (s1 := put_inode ip y (k_fs k)).
  assert (Hdy : d_of y = empty_dinode type major minor 1) by (apply set_up_dinode; by rewrite Hcp).
  assert (Hy : inodes s1 !! ip = Some y) by (by eapply put_inode_lookup).
  assert (Hlen : length (i_addrs y) = 13%nat) by (change (i_addrs y) with (d_addrs (d_of y)); by rewrite Hdy).
  destruct (iupdate_ok (set_k_fs s1 k) C D m ip y n (fs_ready_fs _ _ (iv_ready _ _ _ _ _ Hv))) as (s2 & Hr2 & Htx2 & Hts2); try done; [by apply tx_inode|lia|].
  rewrite Hdy in Htx2. pose proof Hts2 as [[Fsb Fin Ffi Fpi] [z Flog] _]. cbn [k_fs set_k_fs] in *.
  assert (Hsto : stored C (iupdated C n (empty_dinode type major minor 1)) n (empty_dinode type major minor 1)).
  { apply stored_ok; [apply Hv|done| |by apply blockless_empty]. intros b. eapply cview_block_ok, Htx. }
  eexists s2, _. split_and!; [exact Hr2|exact Hsto| |exact Htx2|split; [by rewrite Fsb|by rewrite Flog]| |..].
  - apply (iview_stored h k C D Q _ n (empty_dinode type major minor 1) s2 (S m)); try done; [lia|rewrite Fin; cbn; rewrite length_insert; apply Hv|].
    intros j w Hw. rewrite Fin in Hw. destruct (decide (j = ip)) as [->|Hne].
    + rewrite Hy in Hw. injection Hw as <-. right. split_and!; try done. by exists x.
    + cbn in Hw. rewrite list_lookup_insert_ne in Hw by done. left. split; [done|]. intros Hpw Hdw Hiw. apply Hne.
      apply (ic_uniq _ _ (iv_cache _ _ _ _ _ Hv) j ip w x); congruence.
  - split; try done; [by rewrite Fin|]. by rewrite (sto_inode _ _ _ _ Hsto).
  - eapply rmoved_after; [|by apply rmoved_tstep]. by apply (rmoved_put ip x).
  - intros j Hj. rewrite Fin. cbn. by rewrite list_lookup_insert_ne.
Qed.

Lemma locked_stored s C C' i d x n dd : locked_inode s C i d x → stored C C' n dd → 1 ≤ d < NINODES → d ≠ n → locked_inode s C' i d x.
Proof. intros [] Hs Hd Hne. split; try done. by rewrite (sto_other _ _ _ _ Hs). Qed.

Lemma locked_same s s' C i d x : locked_inode s C i d x → inodes s' !! i = inodes s !! i → locked_inode s' C i d x.
Proof. intros [] Hs. split; try done. by rewrite Hs. Qed.

(** The state when the new inode [n], entry [ip], is set up, next to the directory [d], entry [dp]. *)
Record set_up_at k C D (m : nat) dp d x ip n y s (C' : Z → list Z) type major minor : Prop := mkSetUpAt {
  su_free : 1 ≤ n < NINODES ∧ d_type (nd C n) = 0;
  su_stored : stored C C' n (empty_dinode type major minor 1);
  su_view : iview [ip; dp] (set_k_fs s k) C' D (list_to_set (logged s));
  su_tx : tx [] s C' D m;
  su_layout : layout s;
  su_new : locked_inode s C' ip n y;
  su_dir : ∃ xd, locked_inode s C' dp d xd ∧ i_ref xd = i_ref x;
  su_moved : rmoved (one ip) (k_fs k) s;
  su_room : has_room s
}.

Lemma room_moved s s' i : two_free s → rmoved (one i) s s' → has_room s'.
Proof.
  intros H2 Hm. destruct (H2 i) as (j & y & Hj & Hy & H0). destruct (rm_ref _ _ _ Hm j y Hy) as (y' & Hy' & Hr & _).
  exists j, y'. split; [done|]. rewrite Hr, one_ne by done. lia.
Qed.

Lemma claim_ok k C D Q m dp d x type major minor :
  iview [dp] k C D Q → tx [] (k_fs k) C D m → layout (k_fs k) → (m ≤ 18)%nat → locked_inode (k_fs k) C dp d x → live (nd C) d →
  two_free (k_fs k) → cached_live (k_fs k) C → (∃ n, 1 ≤ n < NINODES ∧ d_type (nd C n) = 0) →
  - 2 ^ 15 ≤ type < 2 ^ 15 → type ≠ 0 → - 2 ^ 15 ≤ major < 2 ^ 15 → - 2 ^ 15 ≤ minor < 2 ^ 15 →
  ∃ ip n y s1 s2 s' C', ialloc 1 type k = Ok ip (set_k_fs s1 k) ∧ ilock (Some ip) (set_k_fs s1 k) = Ok tt (set_k_fs s2 k) ∧
    inodes s2 !! ip = Some y ∧ iupdate ip (set_k_fs (put_inode ip (set_up major minor y) s2) k) = Ok tt (set_k_fs s' k) ∧
    set_up_at k C D (S (S m)) dp d x ip n (set_up major minor y) s' C' type major minor.
Proof.
  intros Hv Htx Hly Hm Hdp Hd H2 Hcl Hex Hty Ht0 Hma Hmi. assert (Hroom : has_room (k_fs k)) by (destruct (H2 0%nat) as (j & y & _ & ? & ?); by exists j, y).
  destruct (ialloc_claims [dp] k C D Q m type Hv Htx Hly ltac:(lia) Hroom Hcl Hty Hex)
    as (n & ip & s1 & C1 & Hr1 & Hn & Hn0 & Hsto1 & Hv1 & Htx1 & Hly1 & Hen & s0 & Hts0 & Hm1 & Hl1).
  assert (Hdn : d ≠ n) by (intros ->; destruct Hd; by rewrite Hn0 in *). pose proof (ts_frame _ _ Hts0) as [_ Fin _ _].
  destruct (locked_moved C s0 s1 dp d x _ (locked_same _ s0 _ _ _ _ Hdp ltac:(by rewrite Fin)) Hm1 (one_pos _ _) Hl1) as (x1 & Hdp1 & Hrf1).
  assert (Hne : dp ≠ ip). { intros ->. destruct Hen as (z & Hz & _ & _ & Hzi). destruct Hdp1 as [Hz' _ _ Hzi' _ _ _]. congruence. }
  rewrite one_ne in Hrf1 by done. assert (Hl : live (nd C1) n) by (split; [done|]; by rewrite (sto_inode _ _ _ _ Hsto1)).
  destruct (ilock_ok [dp] (set_k_fs s1 k) C1 D _ ip n Hv1) as (s2 & y & Hr2 & Hv2 & Hm2 & Hip & Ho2); [by intros ?%list_elem_of_singleton|done|done|].
  change (set_k_fs s2 (set_k_fs s1 k)) with (set_k_fs s2 k) in *. cbn [k_fs set_k_fs] in *.
  assert (Hlg2 : logged s2 = logged s1) by (unfold logged; by rewrite (im_log _ _ _ Hm2)).
  assert (Htx2 : tx [] s2 C1 D (S m)).
  { destruct Htx1 as [_ T2 T3 T4 T5 T6]. split; rewrite ?Hlg2, ?(im_log _ _ _ Hm2); try done. apply Hv2. }
  assert (Hly2 : layout s2) by (destruct Hly1; split; [by rewrite (im_sb _ _ _ Hm2)|by rewrite (im_log _ _ _ Hm2)]).
  destruct (set_up_ok [ip; dp] (set_k_fs s2 k) C1 D _ (S m) ip n y type major minor Hv2 Htx2 Hly2 ltac:(lia) Hip Hn)
    as (s3 & C2 & Hr3 & Hsto2 & Hv3 & Htx3 & Hly3 & Hip3 & Hm3 & Ho3); [apply Hsto1|done..|]. cbn [k_fs set_k_fs] in *.
  assert (Hmv : rmoved (one ip) (k_fs k) s3).
  { eapply rmoved_after; [by apply rmoved_tstep|]. eapply rmoved_before; [|exact Hm3|intros; apply one_pos].
    eapply rmoved_before; [by apply rmoved_imoved|by apply rmoved_imoved|intros; apply one_pos]. }
  exists ip, n, y, s1, s2, s3, C2. split_and!; try done; [apply Hip|]. split; try done; [by eapply stored_trans| |by eapply room_moved].
  exists x1. split; [|lia]. apply (locked_same s2); [|by apply Ho3]. apply (locked_same s1); [|by apply Ho2].
  eapply locked_stored; [|exact Hsto2|apply Hd|done]. eapply locked_stored; [done|exact Hsto1|apply Hd|done].
Qed.

(** ** The name is linked *)

(** The disk has a new inode [n] with contents [dn], named [nm] in directory [d]; all other names and
    files are as before. *)
Record created C C' d (nm : list Z) n dn off : Prop := mkCreated {
  cr_free : 1 ≤ n < NINODES ∧ d_type (nd C n) = 0;
  cr_inode : nd C' n = dn;
  cr_name : ∀ nm', dir_find (dir_of C' d) nm' = if bool_decide (cname nm' = cname nm) then Some (n, off) else dir_find (dir_of C d) nm';
  cr_other : ∀ n', live (nd C) n' → n' ≠ d → nd C' n' = nd C n' ∧ file_data C' (nd C' n') = file_data C (nd C n');
  cr_dirs : dirs_ok C'
}.

(** The directory can take one more entry. *)
Definition takes_entry C d : Prop :=
  d_size (nd C d) + 16 ≤ MAXFILE * BSIZE ∧ need (d_size (nd C d)) (d_size (nd C d) + 16) ≤ Z.of_nat (length (free_blocks C)).

Lemma created_ok C C1 C2 d nm n dn off :
  1 ≤ n < NINODES → d_type (nd C n) = 0 → live (nd C) d → stored C C1 n dn → d_type dn ≠ 0 → dirs_ok C1 → name_linked C1 C2 d nm n off →
  created C C2 d nm n dn off.
Proof.
  intros Hn Ht Hd Hsto Hdt Hdirs (Hnm & Hoth & Hdo). assert (Hdn : d ≠ n) by (intros ->; destruct Hd; by rewrite Ht in *).
  assert (Hl : live (nd C1) n) by (split; [done|by rewrite (sto_inode _ _ _ _ Hsto)]). split; try done.
  - by rewrite (proj1 (Hoth n Hl (not_eq_sym Hdn))), (sto_inode _ _ _ _ Hsto).
  - intros nm'. by rewrite Hnm, (stored_dir _ _ _ _ _ Hsto Hd Hdn).
  - intros n' Hl' Hne. assert (Hne' : n' ≠ n) by (intros ->; destruct Hl'; by rewrite Ht in *).
    destruct (Hoth n' (stored_live _ _ _ _ _ Hsto Hdt Hl') Hne) as [-> ->]. rewrite (sto_other _ _ _ _ Hsto) by (done || apply Hl').
    split; [done|]. by apply (sto_data _ _ _ _ Hsto).
  - by apply Hdo.
Qed.

Lemma link_ok k C D m dp d x ip n y s C' type major minor nm :
  set_up_at k C D m dp d x ip n y s C' type major minor → (m ≤ 20)%nat → type ≠ 0 → type ≠ T_DIR → dirs_ok C → live (nd C) d →
  d_type (nd C d) = T_DIR → dir_find (dir_of C d) nm = None → bytes_ok (cname nm) → takes_entry C d → d_nlink (nd C d) ≠ 0 ∨ i_ref x ≠ 1 →
  ∃ s1 s' C'' m' y' off, dirlink dp nm n (set_k_fs s k) = Ok 0 (set_k_fs s1 k) ∧ iunlockput dp (set_k_fs s1 k) = Ok tt (set_k_fs s' k) ∧
    (m' ≤ 27)%nat ∧ tx [] s' C'' D m' ∧ iview [ip] (set_k_fs s' k) C'' D (list_to_set (logged s')) ∧ locked_inode s' C'' ip n y' ∧
    created C C'' d nm n (empty_dinode type major minor 1) off ∧ rmoved (λ j, one ip j - one dp j) (k_fs k) s'.
Proof.
  intros [[Hn Ht] Hsto Hv Htx Hly Hip (xd & Hdp & Hrf) Hmv Hroom] Hm Hty0 Htyd Hdirs Hd Hdt Hfind Hnm [Hmax Hneed] Hst.
  assert (Hdn : d ≠ n) by (intros ->; destruct Hd; by rewrite Ht in *). pose proof (sto_other _ _ _ _ Hsto d (proj1 Hd) Hdn) as End.
  assert (Hdirs1 : dirs_ok C') by (eapply stored_dirs; try done; by destruct 1).
  pose proof (stored_live _ _ _ _ _ Hsto Hty0 Hd) as Hd1. assert (Hl : live (nd C') n) by (split; [done|by rewrite (sto_inode _ _ _ _ Hsto)]).
  assert (Hdir : dir_ok C' d) by (apply Hdirs1; [done|by rewrite End]).
  assert (Hdtx : dirtx [ip; dp] (set_k_fs s k) C' D m dp xd d).
  { split; try done. pose proof Hdp as [E1 _ E3 E4 _ E6 _]. split; try done; apply Hv. }
  destruct (dirlink_new [ip; dp] (set_k_fs s k) C' D m dp xd d nm n Hdtx Hroom Hnm Hl) as (s1 & C2 & m1 & x1 & off & Hr1 & Hm1 & Hdtx1 & Hnl & _ & Hkl & Hk1).
  { by rewrite (sto_inode _ _ _ _ Hsto). } { done. }
  { intros _. rewrite End. unfold free_blocks. by rewrite (sto_high _ _ _ _ Hsto BMAP) by lia. } { by rewrite (stored_dir _ _ _ _ _ Hsto Hd Hdn). }
  destruct Hdtx1 as [Hft1 Hv1 Hdp1 _]. cbn [k_fs set_k_fs] in *. change (set_k_fs s1 (set_k_fs s k)) with (set_k_fs s1 k) in *.
  assert (Hne : dp ≠ ip) by (intros ->; destruct Hdp as [A _ _ B _ _ _], Hip as [A' _ _ B' _ _ _]; congruence).
  assert (Hip1 : ∃ y1, locked_inode s1 C2 ip n y1).
  { destruct Hip as [A1 A2 A3 A4 A5 A6 A7]. destruct (kp_entry _ _ Hk1 ip y A1) as (y1 & B1 & B2 & B3 & B4). destruct (B4 A2) as (B5 & B6 & B7).
    exists y1. assert (Hp1 : 0 < i_ref y1) by lia. destruct (ic_copy _ _ (iv_cache _ _ _ _ _ Hv1) ip y1 B1 Hp1 (B7 A5)) as (_ & _ & B8).
    split; try congruence. by apply B7. }
  destruct Hip1 as [y1 Hip1].
  assert (Hrf1 : i_ref x1 = i_ref xd).
  { destruct (kp_entry _ _ Hk1 dp xd (li_entry _ _ _ _ _ Hdp)) as (x2 & B1 & B2 & _). pose proof (li_entry _ _ _ _ _ Hdp1). cbn in *. congruence. }
  destruct (iunlockput_ok [ip] (set_k_fs s1 k) C2 D (list_to_set (logged s1)) dp d x1) as (s2 & Hr2 & Hv2 & Hm2 & Ho2).
  { eapply iview_perm; [exact Hv1|]. intros j. rewrite !elem_of_cons. tauto. } { by intros ?%list_elem_of_singleton. } { done. } { rewrite Hkl, End, Hrf1, Hrf. done. }
  change (set_k_fs s2 (set_k_fs s1 k)) with (set_k_fs s2 k) in *. cbn [k_fs set_k_fs] in *.
  assert (Hlg : logged s2 = logged s1) by (unfold logged; by rewrite (im_log _ _ _ Hm2)).
  exists s1, s2, C2, m1, y1, off. split_and!; try done.
  - destruct (ft_tx _ _ _ _ _ _ _ Hft1) as [_ T2 T3 T4 T5 T6]. split; rewrite ?Hlg, ?(im_log _ _ _ Hm2); try done. apply Hv2.
  - by rewrite Hlg.
  - apply (locked_same s1); [done|by apply Ho2].
  - by eapply created_ok.
  - eapply rmoved_trans; [eapply rmoved_before; [exact Hmv|by apply rmoved_kept|intros; apply one_pos]|by apply rmoved_imoved|intros; apply one_pos|].
    intros j. unfold drop_one. lia.
Qed.

(** ** [create] *)
Lemma resolve_dir C es : ∀ n d nm, dirs_ok C → live (nd C) n → Forall bytes_ok es → resolve C true n es = Some (d, nm) →
  live (nd C) d ∧ d_type (nd C d) = T_DIR ∧ bytes_ok nm ∧ cname nm = nm.
Proof.
  induction es as [|e es IH]; intros n d nm Hdirs Hn Hb; cbn [resolve]; [done|]. inversion_clear Hb as [|? ? He Hes].
  destruct (Z.eqb_spec (d_type (nd C n)) T_DIR) as [Ht|]; cbn [negb]; [|done]. cbn [andb]. case_bool_decide.
  - intros [= <- <-]. split_and!; try done; [by apply cname_bytes|apply cname_idem].
  - destruct (dir_find (dir_of C n) e) as [[m off]|] eqn:Hf; [|done]. apply IH; try done.
    by apply (dir_find_live C n e m off (Hdirs n Hn Ht) Hf).
Qed.

Definition three_free s : Prop := ∀ i i', ∃ j y, j ≠ i ∧ j ≠ i' ∧ inodes s !! j = Some y ∧ i_ref y = 0.

Lemma three_two s : three_free s → two_free s.
Proof. intros H3 i. destruct (H3 i i) as (j & y & ? & _ & ? & ?). by exists j, y. Qed.

Lemma two_left s s' i : three_free s → imoved (one i) s s' → two_free s'.
Proof.
  intros H3 Hm i'. destruct (H3 i i') as (j & y & Hj & Hj' & Hy & H0). destruct (im_ref _ _ _ Hm j y Hy) as (y' & Hy' & Hr & _).
  exists j, y'. split_and!; try done. rewrite Hr, one_ne by done. lia.
Qed.

Lemma tx_moved δ s s' C D m : tx [] s C D m → imoved δ s s' → cview [] s' C D (list_to_set (logged s)) → tx [] s' C D m.
Proof.
  intros [_ T2 T3 T4 T5 T6] Hm Hc. assert (Hlg : logged s' = logged s) by (unfold logged; by rewrite (im_log _ _ _ Hm)).
  split; rewrite ?Hlg, ?(im_log _ _ _ Hm); done.
Qed.

(** The cache holds what it held and the inode of entry [i], which is in use. *)
Lemma live_moved h s s' C D Q k i n :
  cached_live s C → imoved (one i) s s' → entry_for s' i n → live (nd C) n → length (inodes s) = 50%nat → iview h (set_k_fs s' k) C D Q → cached_live s' C.
Proof.
  intros Hcl Hm (z & Hz & _ & _ & Hzi) Hn Hlen Hv j y' Hy' Hp Hd. destruct (decide (j = i)) as [->|Hne]; [replace y' with z by congruence; by rewrite Hzi|].
  pose proof (ic_len _ _ (iv_cache _ _ _ _ _ Hv)) as Hlen'. pose proof (lookup_lt_Some _ _ _ Hy') as Hlt. cbn in Hlen'.
  destruct (lookup_lt_is_Some_2 (inodes s) j) as [y Hy]; [lia|]. destruct (im_ref _ _ _ Hm j y Hy) as (y2 & Hy2 & Hr & Hk). rewrite one_ne in Hr by done.
  simplify_eq. destruct Hk as (E1 & E2 & _); [lia|]. rewrite E2. apply (Hcl j y Hy); [lia|congruence].
Qed.

(** What [create] leaves for a name that the directory has. *)
Lemma create_found s0 k C D Q s1 dp d x s2 ip t :
  iview [dp] (set_k_fs s2 k) C D Q → locked_inode s1 C dp d x → imoved (one dp) s0 s1 → stays C s0 dp d → imoved (one ip) s1 s2 →
  (∀ j, i_lock <$> inodes s2 !! j = i_lock <$> inodes s1 !! j) → entry_for s2 ip t → live (nd C) t → d_nlink (nd C t) ≠ 0 →
  let r := (iunlockput dp;; ilock (Some ip);; x ← get_inode ip;
    if (T_FILE =? T_FILE) && (i_type x =? T_FILE) then ret (Some ip) else iunlockput ip;; ret None) (set_k_fs s2 k) in
  if d_type (nd C t) =? T_FILE then ∃ y s', r = Ok (Some ip) (set_k_fs s' k) ∧ iview [ip] (set_k_fs s' k) C D Q ∧
    locked_inode s' C ip t y ∧ imoved (one ip) s0 s'
  else ∃ s', r = Ok None (set_k_fs s' k) ∧ iview [] (set_k_fs s' k) C D Q ∧ imoved none s0 s'.
Proof.
  intros Hv Hx Hm1 Hst Hm2 Hl2 Hen Hlt Hk. cbv zeta.
  destruct (followed_step C D Q s0 k s1 dp d x s2 ip t Hx Hm1 Hst Hv Hm2 Hl2 Hen) as (s3 & Hr3 & Hv3 & Hm3 & He3). rewrite (bind_ok _ _ _ _ _ Hr3).
  destruct (ilock_ok [] (set_k_fs s3 k) C D Q ip t Hv3 (not_elem_of_nil _) He3 Hlt) as (s4 & y & Hr4 & Hv4 & Hm4 & Hy & _). rewrite (bind_ok _ _ _ _ _ Hr4).
  change (set_k_fs s4 (set_k_fs s3 k)) with (set_k_fs s4 k) in *. cbn [k_fs set_k_fs] in *.
  rewrite (bind_ok _ _ _ _ _ (get_inode_ok (set_k_fs s4 k) _ _ (li_entry _ _ _ _ _ Hy))).
  replace (i_type y) with (d_type (nd C t)) by (by rewrite <- (li_copy _ _ _ _ _ Hy)). rewrite Z.eqb_refl. cbn [andb].
  assert (Hm : imoved (one ip) s0 s4) by (eapply imoved_trans; [exact Hm3|exact Hm4|intros; apply one_pos|intros j; unfold none; lia]).
  destruct (d_type (nd C t) =? T_FILE); [by exists y, s4|].
  destruct (followed_put C D Q s0 k s4 ip t y Hv4 Hy Hm) as (s' & Hr & Hv' & Hm'); [by left|]. rewrite (bind_ok _ _ _ _ _ Hr). by exists s'.
Qed.

(** What [create] does for a name that the directory does not have; [dots] is what it would do for a
    directory. *)
Lemma create_missing s0 k C D m s dp d x name nm major minor (dots : nat → K unit) :
  let Q := list_to_set (logged s0) in
  iview [dp] (set_k_fs s k) C D Q → tx [] s C D m → layout s → (m ≤ 18)%nat → dirs_ok C → cached_live s0 C → three_free s0 → length (inodes s0) = 50%nat →
  imoved (one dp) s0 s → locked_inode s C dp d x → live (nd C) d → d_type (nd C d) = T_DIR → d_nlink (nd C d) ≠ 0 ∨ i_ref x ≠ 1 →
  cname name = nm → cname nm = nm → bytes_ok nm → dir_find (dir_of C d) name = None →
  - 2 ^ 15 ≤ major < 2 ^ 15 → - 2 ^ 15 ≤ minor < 2 ^ 15 →
  (∃ t, 1 ≤ t < NINODES ∧ d_type (nd C t) = 0) → takes_entry C d →
  let r := (y ← get_inode dp;
    ip ← ialloc (i_dev y) T_FILE;
    ilock (Some ip);;
    mod_inode ip (λ x, set_i_nlink 1 (set_i_minor minor (set_i_major major x)));;
    iupdate ip;;
    when (T_FILE =? T_DIR) (dots ip);;
    x ← get_inode ip;
    r ← dirlink dp name (i_inum x);
    if r <? 0 then panic "create: dirlink" else iunlockput dp;; ret (Some ip)) (set_k_fs s k) in
  ∃ ip t y off s' C' m', r = Ok (Some ip) (set_k_fs s' k) ∧ (m' ≤ 27)%nat ∧ tx [] s' C' D m' ∧
    iview [ip] (set_k_fs s' k) C' D (list_to_set (logged s')) ∧ locked_inode s' C' ip t y ∧
    created C C' d nm t (empty_dinode T_FILE major minor 1) off ∧ rmoved (one ip) s0 s'.
Proof.
  intros Q Hv Htx Hly Hm Hdirs Hcl H3 Hlen Hmv0 Hx Hd Hdt Hst Hnm Hcn Hbn Hfind Hma Hmi Hex Htake. cbv zeta.
  assert (Hcl3 : cached_live s C).
  { eapply (live_moved [dp] s0 s C D Q k dp d); try done. pose proof Hx as [? ? ? ? _ _ _]. by exists x. }
  destruct (claim_ok (set_k_fs s k) C D Q m dp d x T_FILE major minor Hv Htx Hly Hm Hx Hd (two_left _ _ _ H3 Hmv0) Hcl3 Hex)
    as (ip & t & y & s4 & s5 & s6 & C' & Hr4 & Hr5 & Hy & Hr6 & Hsu); [done..|].
  pose proof (su_new _ _ _ _ _ _ _ _ _ _ _ _ _ _ _ Hsu) as Hnew.
  destruct (link_ok (set_k_fs s k) C D (S (S m)) dp d x ip t _ s6 C' T_FILE major minor name Hsu)
    as (s7 & s8 & C2 & m' & y' & off & Hr7 & Hr8 & Hm' & Htx' & Hv' & Hy' & Hcr & Hmv); [lia|done..|by rewrite Hnm|done|done|].
  exists ip, t, y', off, s8, C2, m'. split_and!; try done.
  - rewrite (bind_ok _ _ _ _ _ (get_inode_ok (set_k_fs s k) _ _ (li_entry _ _ _ _ _ Hx))), (li_dev _ _ _ _ _ Hx).
    rewrite (bind_ok _ _ _ _ _ Hr4), (bind_ok _ _ _ _ _ Hr5), (bind_ok _ _ _ _ _ (mod_inode_ok (set_k_fs s5 k) ip y _ Hy)).
    fold (set_up major minor y). rewrite (bind_ok _ _ _ _ _ Hr6). change (T_FILE =? T_DIR) with false. rewrite bind_when_false.
    rewrite (bind_ok _ _ _ _ _ (get_inode_ok (set_k_fs s6 k) _ _ (li_entry _ _ _ _ _ Hnew))), (li_inum _ _ _ _ _ Hnew).
    rewrite (bind_ok _ _ _ _ _ Hr7). cbn [Z.ltb Z.compare]. by rewrite (bind_ok _ _ _ _ _ Hr8).
  - destruct Hcr as [R1 R2 R3 R4 R5]. split; try done. intros nm'. by rewrite R3, Hnm, Hcn.
  - eapply rmoved_trans; [apply rmoved_imoved, Hmv0|exact Hmv|intros; apply one_pos|]. intros j. cbn. lia.
Qed.

(** C8: [create] makes files.  In a transaction with room, on a disk whose directories are in order, with
    no inode locked and three entries of the inode cache free, [create] of a regular file with any path
    does what the directories say: when the directory of the last element cannot be found it returns
    nothing; when the name is there already it returns that file, locked, or nothing when it is no
    regular file, and changes no block; otherwise it takes a free inode, sets it up as an empty file with
    one link, and puts its name into the directory, so that the name, and no other one, now leads to it.
    All other files, directories and reference counts are as before, the directories are in order, and
    the new inode is the only one locked. *)
Theorem create_creates k C D m path major minor n :
  iview [] k C D (list_to_set (logged (k_fs k))) → tx [] (k_fs k) C D m → layout (k_fs k) → (m ≤ 18)%nat → dirs_ok C →
  cached_live (k_fs k) C → three_free (k_fs k) → starts_at C k path n → Forall (λ c, c ≠ 0) path → bytes_ok path →
  - 2 ^ 15 ≤ major < 2 ^ 15 → - 2 ^ 15 ≤ minor < 2 ^ 15 →
  let r := create path T_FILE major minor k in let Q := list_to_set (logged (k_fs k)) in
  match resolve C true n (split_path path) with
  | None => ∃ s', r = Ok None (set_k_fs s' k) ∧ iview [] (set_k_fs s' k) C D Q ∧ imoved none (k_fs k) s'
  | Some (d, nm) =>
      match dir_find (dir_of C d) nm with
      | Some (t, _) =>
          if d_type (nd C t) =? T_FILE then ∃ ip y s', r = Ok (Some ip) (set_k_fs s' k) ∧ iview [ip] (set_k_fs s' k) C D Q ∧
            locked_inode s' C ip t y ∧ imoved (one ip) (k_fs k) s'
          else ∃ s', r = Ok None (set_k_fs s' k) ∧ iview [] (set_k_fs s' k) C D Q ∧ imoved none (k_fs k) s'
      | None => (∃ t, 1 ≤ t < NINODES ∧ d_type (nd C t) = 0) → takes_entry C d →
          ∃ ip t y off s' C' m', r = Ok (Some ip) (set_k_fs s' k) ∧ (m' ≤ 27)%nat ∧ tx [] s' C' D m' ∧
            iview [ip] (set_k_fs s' k) C' D (list_to_set (logged s')) ∧ locked_inode s' C' ip t y ∧
            created C C' d nm t (empty_dinode T_FILE major minor 1) off ∧ rmoved (one ip) (k_fs k) s'
      end
  end.
Proof.
  intros Hv Htx Hly Hm Hdirs Hcl H3 Hstart Hnz Hby Hma Hmi r Q. subst r. unfold create, nameiparent.
  pose proof (namex_resolves C D Q k path true (replicate 14 0) n Hv Hdirs (three_two _ H3) Hstart Hnz) as Hf.
  pose proof (split_path_bytes path Hby) as Hes.
  destruct (resolve C true n (split_path path)) as [[d nm]|] eqn:Hres; cbn [followed] in Hf.
  2:{ destruct Hf as (s' & Hr & Hv' & Hm'). rewrite (bind_ok _ _ _ _ _ Hr). by exists s'. }
  destruct Hf as (dp & name & s1 & Hr1 & Hv1 & Hm1 & Hen & Hst & Hnm). specialize (Hnm eq_refl). rewrite (bind_ok _ _ _ _ _ Hr1).
  destruct (resolve_dir C _ n d nm Hdirs (proj1 Hstart) Hes Hres) as (Hd & Hdt & Hbn & Hcn).
  destruct (ilock_ok [] (set_k_fs s1 k) C D Q dp d Hv1 (not_elem_of_nil _) Hen Hd) as (s2 & x & Hr2 & Hv2 & Hm2 & Hx & _). rewrite (bind_ok _ _ _ _ _ Hr2).
  change (set_k_fs s2 (set_k_fs s1 k)) with (set_k_fs s2 k) in *. cbn [k_fs set_k_fs] in *.
  assert (Hm02 : imoved (one dp) (k_fs k) s2) by (eapply imoved_trans; [exact Hm1|exact Hm2|intros; apply one_pos|intros j; unfold none; lia]).
  pose proof Hx as [Hx1 _ Hd1 _ _ Hcp1 _]. assert (Hroom : has_room s2) by (by eapply room_left; [apply three_two|]).
  pose proof (dirlookup_ok [dp] (set_k_fs s2 k) C D Q dp x d name Hv2 Hx1 Hd1 Hcp1 (Hdirs d Hd Hdt) Hroom) as Hlook.
  assert (Hfn : dir_find (dir_of C d) name = dir_find (dir_of C d) nm) by (apply find_from_cname; by rewrite Hnm, Hcn). rewrite Hfn in Hlook.
  destruct (dir_find (dir_of C d) nm) as [[t off]|] eqn:Hfind.
  - destruct Hlook as (ip & s3 & Hr3 & Hv3 & Hm3 & Hl3 & He3). rewrite (bind_ok _ _ _ _ _ Hr3).
    change (set_k_fs s3 (set_k_fs s2 k)) with (set_k_fs s3 k) in *. destruct (dir_find_live C d nm t off (Hdirs d Hd Hdt) Hfind) as [Hlt Hkt].
    pose proof (create_found (k_fs k) k C D Q s2 dp d x s3 ip t Hv3 Hx Hm02 Hst Hm3 Hl3 He3 Hlt Hkt) as Hfound. cbv zeta in Hfound.
    destruct (d_type (nd C t) =? T_FILE); [by exists ip|done].
  - intros Hex Htake. destruct Hlook as (s3 & Hr3 & Hv3 & Hm3 & Hl3). rewrite (bind_ok _ _ _ _ _ Hr3).
    change (set_k_fs s3 (set_k_fs s2 k)) with (set_k_fs s3 k) in *. cbn [k_fs set_k_fs] in *.
    assert (Hm03 : imoved (one dp) (k_fs k) s3) by (eapply imoved_trans; [exact Hm02|exact Hm3|intros; apply one_pos|intros j; unfold none; lia]).
    destruct (locked_moved C s2 s3 dp d x _ Hx Hm3 ltac:(by unfold none) Hl3) as (x3 & Hx3 & Hrf3).
    assert (Htx3 : tx [] s3 C D m) by (by eapply tx_moved; [| |apply Hv3]).
    assert (Hly3 : layout s3) by (destruct Hly; split; [by rewrite (im_sb _ _ _ Hm03)|by rewrite (im_log _ _ _ Hm03)]).
    assert (Hst3 : d_nlink (nd C d) ≠ 0 ∨ i_ref x3 ≠ 1) by (rewrite Hrf3; unfold none; rewrite Z.add_0_r; by eapply stays_ref, Hx1).
    destruct (create_missing (k_fs k) k C D m s3 dp d x3 name nm major minor (λ ip,
      mod_inode dp (λ x, set_i_nlink (s16 (i_nlink x + 1)) x);;
      iupdate dp;;
      x ← get_inode ip;
      y ← get_inode dp;
      r ← dirlink ip DOT (i_inum x);
      if r <? 0 then panic "create dots" else
      r ← dirlink ip DOTDOT (i_inum y);
      if r <? 0 then panic "create dots" else ret tt)) as (ip & t & y & off & s' & C' & m' & Hrm & Hrest); try done; [apply Hv|].
    exists ip, t, y, off, s', C', m'. split; [|exact Hrest].
    match type of Hrm with ?l = _ => match goal with |- ?l' = _ => constr_eq l l' end end. exact Hrm.
Qed.
End create.

(** "/d/g" becomes inode 4, and "/d/f" is there already. *)
Definition create_kernel : kernel := set_k_fs (set_log (set_outstanding 1 (log (k_fs tree_kernel))) (k_fs tree_kernel)) sample_kernel.

Lemma create_cached j y : inodes (k_fs create_kernel) !! j = Some y → y = no_inode.
Proof. intros Hy. by apply lookup_replicate in Hy as [-> _]. Qed.

Lemma create_kernel_tx : tx [] (k_fs create_kernel) tree tree 0.
Proof. apply (begin_op_ok _ tree (tree_ready _) (tree_idle (replicate 50 no_inode))). Qed.

Lemma create_kernel_view : iview [] create_kernel tree tree (list_to_set (logged (k_fs create_kernel))).
Proof.
  split; [exact (fs_ready_fs _ _ (tree_ready []))|done|apply create_kernel_tx|compute_done|intros n; by rewrite elem_of_list_to_set|apply tree_fsinv| |].
  - split; [done|by intros j y ->%create_cached|by intros j j' y y' ->%create_cached].
  - intros j y ->%create_cached. split_and!; [done|by left|done].
Qed.

Lemma create_creates_witness :
  (∃ ip t s' C' off, create [47; 100; 47; 103] T_FILE 0 0 create_kernel = Ok (Some ip) (set_k_fs s' create_kernel) ∧
    dir_find (dir_of C' 2) [103] = Some (t, off) ∧ d_size (nd C' t) = 0 ∧ nd C' 3 = nd tree 3) ∧
  (∃ ip s', create [47; 100; 47; 102] T_FILE 0 0 create_kernel = Ok (Some ip) (set_k_fs s' create_kernel)).
Proof.
  destruct tree_nd as (E1 & E2 & E3). assert (H3 : three_free (k_fs create_kernel)).
  { intros [|[|i]] [|[|i']]; [exists 1%nat|exists 2%nat|exists 1%nat|exists 2%nat|exists 0%nat|exists 0%nat|exists 1%nat|exists 0%nat|exists 0%nat];
      exists no_inode; (split; [discriminate|split; [discriminate|split; reflexivity]]). }
  assert (Hcl : cached_live (k_fs create_kernel) tree) by (intros j y ->%create_cached; discriminate).
  assert (Hst : ∀ p, starts_at tree create_kernel (47 :: p) 1).
  { intros p. split; [split; [clia|by rewrite E1]|]. rewrite bool_decide_true by reflexivity. split; [reflexivity|by rewrite E1]. }
  pose proof (λ p Hnz Hby, create_creates create_kernel tree tree 0 (47 :: p) 0 0 1 create_kernel_view create_kernel_tx (conj eq_refl eq_refl)
    (Nat.le_0_l 18) tree_dirs Hcl H3 (Hst p) Hnz Hby ltac:(lia) ltac:(lia)) as Hc. split.
  - specialize (Hc [100; 47; 103]). assert (Hres : resolve tree true 1 (split_path [47; 100; 47; 103]) = Some (2, [103])) by (vm_compute; reflexivity).
    assert (Hf : dir_find (dir_of tree 2) [103] = None) by (vm_compute; reflexivity). cbv zeta in Hc. rewrite Hres, Hf in Hc.
    destruct Hc as (ip & t & y & off & s' & C' & m' & Hr & _ & _ & _ & _ & Hcr & _); [repeat constructor; lia|repeat constructor; lia| | |].
    + exists 4. split; [clia|vm_compute; reflexivity].
    + unfold takes_entry. rewrite E2. split; [vm_compute; discriminate|]. change (need _ _) with 0. lia.
    + exists ip, t, s', C', off. split; [exact Hr|]. split; [rewrite (cr_name _ _ _ _ _ _ _ Hcr); reflexivity|]. split; [by rewrite (cr_inode _ _ _ _ _ _ _ Hcr)|].
      apply (cr_other _ _ _ _ _ _ _ Hcr); [split; [clia|by rewrite E3]|lia].
  - specialize (Hc [100; 47; 102]). assert (Hres : resolve tree true 1 (split_path [47; 100; 47; 102]) = Some (2, [102])) by (vm_compute; reflexivity).
    assert (Hf : dir_find (dir_of tree 2) [102] = Some (3, 48)) by (vm_compute; reflexivity). cbv zeta in Hc. rewrite Hres, Hf, E3 in Hc.
    destruct Hc as (ip & y & s' & Hr & _); [repeat constructor; lia|repeat constructor; lia|]. by exists ip, s'.
Defined.
