(* ===== verification/Swap.v ===== *)
(** Paging between memory and the swap file: [selectPage] and [swapToFile]
    ([vm.c]), [writeToSwapFile] and [readFromSwapFile] ([fs.c]), and the
    page-fault case of [trap] ([trap.c]).

    The swap file is an open file; reading and writing it goes through the
    interface [FileIO]. *)

From S2P Require Import Prelude Params State Spinlock Mem Kalloc PageTable Uaccess Procs Queue QueueSpec Console.

(** ** Files, as paging uses them *)
Class FileIO := {
  filewrite : nat → Z → Z → K Z;
  fileread : nat → Z → Z → K Z
}.

Definition set_off (f : nat) (off : Z) : K unit :=
  modify (mod_fs (λ s, set_files (alter (set_f_off off) f (files s)) s)).

Section swap.
Context `{link} `{build} `{FileIO}.

Definition swap_file (p : nat) : K nat :=
  q ← get_proc p; or_ub "swapFile" (swapFile q).

Definition writeToSwapFile (p : nat) (buffer placeOnFile size : Z) : K Z :=
  f ← swap_file p;
  set_off f placeOnFile;;
  filewrite f buffer size.

Definition readFromSwapFile (p : nat) (buffer placeOnFile size : Z) : K Z :=
  f ← swap_file p;
  set_off f placeOnFile;;
  fileread f buffer size.

(** [lcr3] *)
Definition lcr3 (v : Z) : K unit := modify (mod_mach (set_cr3 v)).

Definition selectPage : K Z :=
  index ← match SELECTION with
          | SCFIFO => removeSCFIFO
          | NFUA => removeNFUA
          | LAPA => removeLAPA
          | AQ => removeAQ
          | NONE => ret 0
          end;
  p ← curproc;
  d ← on_pg p (get_page index);
  ret (v_address d).

(** [while(pagesDS[i].v_address != address && i < MAX_TOTAL_PAGES) i++;]: the
    entry is read before the bound is tested. *)
Fixpoint find_address (fuel : nat) (i address : Z) : M kerr paging Z :=
  match fuel with
  | O => fail OutOfFuel
  | S fuel =>
      d ← get_page i;
      if negb (v_address d =? address) && (i <? MAX_TOTAL_PAGES) then find_address fuel (i + 1) address
      else ret i
  end.

(** An assignment of [f e] to [*pte], whose value is [e]. *)
Definition update_pte (pte : Z) (f : Z → Z) : K unit :=
  e ← deref pte; store32 pte (f e).

Definition swapToFile (pgdir' : Z) : K Z :=
  p ← curproc;
  address ← selectPage;
  offset ← getFreeFileOffset;
  writeToSwapFile p address offset PGSIZE;;
  i ← on_pg p (find_address 34 0 address);
  on_pg p (mod_page i (λ d, set_in_RAM 0 (set_file_offset offset d)));;
  on_pg p (modify (λ g, set_totalNumberOfPagedOut (totalNumberOfPagedOut g + 1) g));;
  on_pg p (modify (λ g, set_numberOfPagedOut (u32 (numberOfPagedOut g + 1)) g));;
  pte ← walkpgdir pgdir' address 0;
  update_pte pte PTE_P_OFF;;
  update_pte pte PTE_PG_ON;;
  e ← deref pte;
  let v_address := P2V (PTE_ADDR e) in
  kfree v_address;;
  q ← get_proc p;
  lcr3 (V2P (pgdir q));;
  ret v_address.

(** The number of entries that are allocated and in memory. *)
Fixpoint count_resident (n : nat) (i count : Z) : M kerr paging Z :=
  match n with
  | O => ret count
  | S n =>
      d ← get_page i;
      count_resident n (i + 1)
        (if (isAllocated d =? 1) && truthy (in_RAM d) then count + 1 else count)
  end.

(** The updates of the page-table entry in the [T_PGFLT] case of [trap]. *)
Definition map_in (pte pgdir' page newPageAddress : Z) : K unit :=
  update_pte pte PTE_P_OFF;;
  update_pte pte PTE_PG_ON;;
  mappages_global pgdir' page PGSIZE (V2P newPageAddress) (Z.lor PTE_W PTE_U);;
  update_pte pte PTE_P_ON;;
  update_pte pte PTE_PG_OFF.

(** The [T_PGFLT] case of [trap], from the allocation of a frame on. *)
Definition page_in (p : nat) (va page : Z) : K unit :=
  newPageAddress ← kalloc;
  if newPageAddress =? 0 then cprintf (str "kalloc failed in trap PGFLT case" ++ [NL]) []
  else
    mod_mem (λ m, memset m newPageAddress 0 PGSIZE);;
    o ← on_pg p (find_page (Z.to_nat MAX_TOTAL_PAGES) 0 (λ d, v_address d =? page));
    match o with
    | None => panic "can't find appropriate page"
    | Some i =>
        d ← on_pg p (get_page i);
        readFromSwapFile p newPageAddress (u32 (file_offset d)) PGSIZE;;
        q ← get_proc p;
        pte ← walkpgdir_global (pgdir q) va 0;
        map_in pte (pgdir q) page newPageAddress;;
        on_pg p (mod_page i (set_in_RAM 1));;
        d ← on_pg p (get_page i);
        insertOffsetQueue (file_offset d);;
        on_pg p (mod_page i (set_file_offset (-1)));;
        insert i;;
        on_pg p (modify (λ g, set_numberOfPagedOut (u32 (numberOfPagedOut g - 1)) g))
    end.

Definition page_fault : K unit :=
  p ← curproc;
  on_pg p (modify (λ g, set_numberOfPageFaults (numberOfPageFaults g + 1) g));;
  va ← gets (λ k, cr2 (k_mach k));
  let page := PGROUNDDOWN va in
  count ← on_pg p (count_resident (Z.to_nat MAX_TOTAL_PAGES) 0 0);
  q ← get_proc p;
  when (count =? MAX_PSYC_PAGES) (swapToFile (pgdir q);; ret tt);;
  page_in p va page.
End swap.

#[global] Arguments swap_file : simpl never.
#[global] Arguments writeToSwapFile : simpl never.
#[global] Arguments readFromSwapFile : simpl never.
#[global] Arguments selectPage : simpl never.
#[global] Arguments update_pte : simpl never.
#[global] Arguments swapToFile : simpl never.
#[global] Arguments map_in : simpl never.
#[global] Arguments page_in : simpl never.
#[global] Arguments page_fault : simpl never.
