(* ===== verification/Vm.v ===== *)
(** Address spaces, the rest of [vm.c]: building and freeing page tables, growing
    and shrinking user memory, copying an address space, and copying out.
    Also [growproc] of [proc.c]. *)

From S2P Require Import Prelude Params Bytes State Spinlock Mem Kalloc PageTable Uaccess Procs Sched Bio Log Inode Console Fs Queue QueueSpec Swap.

(** ** The kernel's mappings *)
Record kmapping := mkKmapping { virt : Z; phys_start : Z; phys_end : Z; km_perm : Z }.

Definition kmap `{link} : list kmapping := [
  mkKmapping KERNBASE 0 EXTMEM PTE_W;
  mkKmapping KERNLINK (V2P KERNLINK) (V2P kdata) 0;
  mkKmapping kdata (V2P kdata) PHYSTOP PTE_W;
  mkKmapping DEVSPACE DEVSPACE 0 PTE_W
].

Section vm.
Context `{link} `{build} `{FileIO} `{world}.

(** [#if (defined(SCFIFO) || defined(NFUA) || defined(AQ) || defined(LAPA))] *)
Definition paging_on : bool := match SELECTION with NONE => false | _ => true end.

(** [myproc()->pid > DEFAULT_PROCESSES] *)
Definition user_proc : K bool :=
  p ← curproc; q ← get_proc p; ret (DEFAULT_PROCESSES <? pid q).

(** ** Freeing *)

(** The loop of [deallocuvm], from [a] on.  Each round moves [a] up by at least a page. *)
Fixpoint deallocuvm_loop (fuel : nat) (pgdir' a oldsz flag : Z) : K unit :=
  if a <? oldsz then
    match fuel with
    | O => fail OutOfFuel
    | S fuel =>
        pte ← walkpgdir pgdir' a 0;
        if pte =? 0 then
          deallocuvm_loop fuel pgdir' (u32 (PGADDR (PDX a + 1) 0 0 - PGSIZE + PGSIZE)) oldsz flag
        else
          e ← load32 pte;
          (if truthy (Z.land e PTE_P) then
             let pa := PTE_ADDR e in
             if pa =? 0 then panic "kfree" else
             (if paging_on then u ← user_proc; when (u && (flag =? 1)) (deallocatePage a) else ret tt);;
             kfree (P2V pa);;
             store32 pte 0
           else if paging_on then
             u ← user_proc;
             when (u && truthy (Z.land e PTE_PG)) (
               let pa := PTE_ADDR e in
               if pa =? 0 then panic "kfree" else
               u ← user_proc;
               when (u && (flag =? 1)) (deallocatePage a);;
               store32 pte 0)
           else ret tt);;
          deallocuvm_loop fuel pgdir' (u32 (a + PGSIZE)) oldsz flag
    end
  else ret tt.

Definition deallocuvm (pgdir' oldsz newsz flag : Z) : K Z :=
  if oldsz <=? newsz then ret oldsz
  else
    let a := PGROUNDUP newsz in
    deallocuvm_loop (S (Z.to_nat ((oldsz - a) / PGSIZE))) pgdir' a oldsz flag;;
    ret newsz.

Definition freevm (pgdir' : Z) : K unit :=
  if pgdir' =? 0 then panic "freevm: no pgdir" else
  deallocuvm pgdir' KERNBASE 0 0;;
  forM (seqZ 0 NPDENTRIES) (λ i,
    e ← load32 (pgdir' + 4 * i);
    when (truthy (Z.land e PTE_P)) (kfree (P2V (PTE_ADDR e))));;
  kfree pgdir'.

(** ** Building *)

(** The mappings still to be entered; [false] when a page table cannot be allocated. *)
Fixpoint map_kernel (pgdir' : Z) (ks : list kmapping) : K bool :=
  match ks with
  | [] => ret true
  | x :: ks =>
      r ← mappages pgdir' (virt x) (u32 (phys_end x - phys_start x)) (phys_start x) (km_perm x);
      if r <? 0 then ret false else map_kernel pgdir' ks
  end.

Definition setupkvm : K Z :=
  pgdir' ← kalloc;
  if pgdir' =? 0 then ret 0 else
  mod_mem (λ m, memset m pgdir' 0 PGSIZE);;
  if DEVSPACE <? P2V PHYSTOP then panic "PHYSTOP too high" else
  ok ← map_kernel pgdir' kmap;
  if ok : bool then ret pgdir' else freevm pgdir';; ret 0.

Definition switchkvm : K unit := v ← gets k_vm; lcr3 (V2P (kpgdir v)).

Definition kvmalloc : K unit :=
  pd ← setupkvm;
  modify (mod_vm (set_kpgdir pd));;
  switchkvm.

(** The segment descriptors are constant, so of the task state only the stack matters. *)
Definition switchuvm (p : nat) : K unit :=
  q ← get_proc p;
  if kstack q =? 0 then panic "switchuvm: no kstack" else
  if pgdir q =? 0 then panic "switchuvm: no pgdir" else
  pushcli;;
  i ← mycpu;
  modify (mod_mach (mod_cpu i (set_esp0 (u32 (kstack q + KSTACKSIZE)))));;
  lcr3 (V2P (pgdir q));;
  popcli.

(** The program [init] is the bytes of [initcode]. *)
Definition inituvm (pgdir' : Z) (init : list Z) : K unit :=
  if PGSIZE <=? Z.of_nat (length init) then panic "inituvm: more than a page" else
  a ← kalloc;
  mod_mem (λ m, memset m a 0 PGSIZE);;
  mappages pgdir' 0 PGSIZE (V2P a) (Z.lor PTE_W PTE_U);;
  mod_mem (λ m, write_bytes m a init).

Fixpoint loaduvm_loop (fuel : nat) (pgdir' addr : Z) (ip : nat) (offset sz' i : Z) : K Z :=
  if i <? sz' then
    match fuel with
    | O => fail OutOfFuel
    | S fuel =>
        pte ← walkpgdir pgdir' (u32 (addr + i)) 0;
        if pte =? 0 then panic "loaduvm: address should exist" else
        e ← load32 pte;
        let n := if sz' - i <? PGSIZE then sz' - i else PGSIZE in
        '(r, _) ← readi mem_sink ip (P2V (PTE_ADDR e)) (u32 (offset + i)) n;
        if negb (u32 r =? n) then ret (-1)
        else loaduvm_loop fuel pgdir' addr ip offset sz' (i + PGSIZE)
    end
  else ret 0.
Definition loaduvm (pgdir' addr : Z) (ip : nat) (offset sz' : Z) : K Z :=
  if truthy (addr mod PGSIZE) then panic "loaduvm: addr must be page aligned"
  else loaduvm_loop (S (Z.to_nat (sz' / PGSIZE))) pgdir' addr ip offset sz' 0.

(** ** Growing *)

(** The index of the first entry of [pagesDS] that is not allocated, 32 when all are. *)
Fixpoint free_entry (fuel : nat) (i : Z) : M kerr paging Z :=
  match fuel with
  | O => ret i
  | S fuel => d ← get_page i; if isAllocated d =? 1 then free_entry fuel (i + 1) else ret i
  end.

(** Record the new page at [a] in [pagesDS] and the queue. *)
Definition record_page (pgdir' a : Z) : K unit :=
  p ← curproc;
  i ← on_pg p (free_entry (Z.to_nat MAX_TOTAL_PAGES) 0);
  on_pg p (mod_page i (λ d, set_file_offset (-1) (set_in_RAM 1 (set_v_address a (set_isAllocated 1 d)))));;
  insert i;;
  on_pg p (modify (λ g, set_numberOfAllocatedPages (numberOfAllocatedPages g + 1) g));;
  pte ← walkpgdir pgdir' a 0;
  update_pte pte PTE_P_ON;;
  update_pte pte PTE_PG_OFF.

Fixpoint allocuvm_loop (fuel : nat) (pgdir' a oldsz newsz : Z) : K Z :=
  if a <? newsz then
    match fuel with
    | O => fail OutOfFuel
    | S fuel =>
        (if paging_on then
           u ← user_proc;
           when (u && (PGSIZE * MAX_PSYC_PAGES <=? a)) (swapToFile pgdir';; ret tt)
         else ret tt);;
        m ← kalloc;
        if m =? 0 then
          cprintf (str "allocuvm out of memory" ++ [NL]) [];;
          deallocuvm pgdir' newsz oldsz 0;;
          ret 0
        else
          mod_mem (λ x, memset x m 0 PGSIZE);;
          r ← mappages pgdir' a PGSIZE (V2P m) (Z.lor PTE_W PTE_U);
          if r <? 0 then
            cprintf (str "allocuvm out of memory (2)" ++ [NL]) [];;
            deallocuvm pgdir' newsz oldsz 0;;
            kfree m;;
            ret 0
          else
            (if paging_on then u ← user_proc; when u (record_page pgdir' a) else ret tt);;
            allocuvm_loop fuel pgdir' (u32 (a + PGSIZE)) oldsz newsz
    end
  else ret newsz.

(** The result is an [int]; both sizes are below [KERNBASE], so it is not negative. *)
Definition allocuvm (pgdir' oldsz newsz : Z) : K Z :=
  if KERNBASE <=? newsz then ret 0 else
  if newsz <? oldsz then ret oldsz else
  let a := PGROUNDUP oldsz in
  allocuvm_loop (S (Z.to_nat ((newsz - a) / PGSIZE))) pgdir' a oldsz newsz.

Definition growproc (n : Z) : K Z :=
  p ← curproc;
  q ← get_proc p;
  let sz' := sz q in
  r ← (if 0 <? n then
         sz' ← allocuvm (pgdir q) sz' (u32 (sz' + n)); ret (if sz' =? 0 then None else Some sz')
       else if n <? 0 then
         on_pg p (modify (λ g, set_numberOfAllocatedPages
           (numberOfAllocatedPages g + Z.quot (PGROUNDUP_int n) PGSIZE) g));;
         sz' ← deallocuvm (pgdir q) sz' (u32 (sz' + n)) 1; ret (if sz' =? 0 then None else Some sz')
       else ret (Some sz'));
  match r with
  | None => ret (-1)
  | Some sz' => mod_proc p (set_sz sz');; switchuvm p;; ret 0
  end.

(** ** Copying *)
Fixpoint copyuvm_loop (fuel : nat) (pgdir' d i sz' : Z) : K Z :=
  if i <? sz' then
    match fuel with
    | O => fail OutOfFuel
    | S fuel =>
        pte ← walkpgdir pgdir' i 0;
        if pte =? 0 then panic "copyuvm: pte should exist" else
        e ← load32 pte;
        if negb (truthy (Z.land e PTE_P)) then
          if negb (truthy (Z.land e PTE_PG)) then panic "copyuvm: page not present"
          else copyuvm_loop fuel pgdir' d (i + PGSIZE) sz'
        else
          m ← kalloc;
          if m =? 0 then freevm d;; ret 0
          else
            mod_mem (λ x, memmove x m (P2V (PTE_ADDR e)) PGSIZE);;
            r ← mappages d i PGSIZE (V2P m) (PTE_FLAGS e);
            if r <? 0 then freevm d;; ret 0
            else copyuvm_loop fuel pgdir' d (i + PGSIZE) sz'
    end
  else ret d.
Definition copyuvm (pgdir' sz' : Z) : K Z :=
  d ← setupkvm;
  if d =? 0 then ret 0 else copyuvm_loop (S (Z.to_nat (sz' / PGSIZE))) pgdir' d 0 sz'.

(** Copy the bytes [buf] to the user address [va]; one round per page. *)
Fixpoint copyout_loop (fuel : nat) (pgdir' va : Z) (buf : list Z) : K Z :=
  match buf with
  | [] => ret 0
  | _ =>
      match fuel with
      | O => fail OutOfFuel
      | S fuel =>
          let va0 := PGROUNDDOWN va in
          pa0 ← uva2ka pgdir' va0;
          if pa0 =? 0 then ret (-1)
          else
            let n := Z.min (PGSIZE - (va - va0)) (Z.of_nat (length buf)) in
            mod_mem (λ m, write_bytes m (pa0 + (va - va0)) (take (Z.to_nat n) buf));;
            copyout_loop fuel pgdir' (u32 (va0 + PGSIZE)) (drop (Z.to_nat n) buf)
      end
  end.
Definition copyout (pgdir' va : Z) (buf : list Z) : K Z :=
  copyout_loop (S (length buf)) pgdir' va buf.
End vm.

#[global] Arguments deallocuvm : simpl never.
#[global] Arguments freevm : simpl never.
#[global] Arguments setupkvm : simpl never.
#[global] Arguments switchuvm : simpl never.
#[global] Arguments loaduvm : simpl never.
#[global] Arguments allocuvm : simpl never.
#[global] Arguments growproc : simpl never.
#[global] Arguments copyuvm : simpl never.
#[global] Arguments copyout : simpl never.
