(* ===== verification/VmSpec.v ===== *)
(** Whole address spaces: [freevm] gives back every page one owns, [setupkvm] builds one without
    user pages, and [copyuvm] copies the pages of a process that are in memory. *)

From S2P Require Import Prelude Params State Spinlock Mem Kalloc PageTable Uaccess Procs Sched Bio Log Inode Console Fs Queue QueueSpec Swap Vm.

Section vmspec.
Context `{link} `{build} `{FileIO} `{world}.
Implicit Types (k : kernel) (v : vmem) (l : list Z) (pd : Z).

(** A process runs, so the code can look at its number. *)
Definition cur_ok k : Prop := ∃ p q, runs (k_mach k) p ∧ procs (k_pt k) !! p = Some q.

Lemma user_proc_ok k : cur_ok k → ∃ u, ∀ v, user_proc (set_k_vm v k) = Ok u (set_k_vm v k).
Proof.
  intros (p & q & Hr & Hq). exists (DEFAULT_PROCESSES <? pid q). intros v. unfold user_proc.
  rewrite (bind_ok _ _ _ _ _ (curproc_runs (set_k_vm v k) p Hr)).
  by rewrite (bind_ok _ _ _ _ _ (get_proc_ok (set_k_vm v k) p q Hq)).
Qed.

(** ** Removing user pages *)

(** The user pages that [P] selects are given back, and nothing else of [pd] changes. *)
Record dropped pd (P : Z → bool) v l v' l' : Prop := {
  dr_kmem : kmem_ok v' l';
  dr_aspace : aspace (mem v') pd l';
  dr_role r : role_page (mem v') pd r =
    match r with RUser n => if P n then None else role_page (mem v) pd r | _ => role_page (mem v) pd r end;
  dr_pte va : 0 ≤ va < 2 ^ 32 → P (va / PGSIZE) = false → pte (mem v') pd va = pte (mem v) pd va;
  dr_free q : q ∈ l' ↔ q ∈ l ∨ ∃ n, P n = true ∧ role_page (mem v) pd (RUser n) = Some q;
  dr_frame a : (∀ r q, role_page (mem v) pd r = Some q → within q PGSIZE a = false) → rd8 (mem v') a = rd8 (mem v) a;
  dr_lock : use_lock v' = use_lock v;
  dr_kpgdir : kpgdir v' = kpgdir v
}.

Lemma dropped_none pd v l P :
  kmem_ok v l → aspace (mem v) pd l → (∀ n, P n = true → role_page (mem v) pd (RUser n) = None) → dropped pd P v l v l.
Proof.
  intros Hk Has HP. split; try done.
  - intros r. destruct r as [| |n]; [done..|]. destruct (P n) eqn:Hn; [by apply HP|done].
  - intros q. split; [by left|]. intros [?|(n & Hn & Hr)]; [done|]. by rewrite (HP n Hn) in Hr.
Qed.

Lemma dropped_trans pd P1 P2 v l v1 l1 v2 l2 :
  dropped pd P1 v l v1 l1 → dropped pd P2 v1 l1 v2 l2 → dropped pd (λ n, P1 n || P2 n) v l v2 l2.
Proof.
  intros D1 D2. split; [apply D2|apply D2| | | | |by rewrite (dr_lock _ _ _ _ _ _ D2); apply D1|by rewrite (dr_kpgdir _ _ _ _ _ _ D2); apply D1].
  - intros r. rewrite (dr_role _ _ _ _ _ _ D2), (dr_role _ _ _ _ _ _ D1). destruct r as [| |n]; [done..|]. by destruct (P1 n), (P2 n).
  - intros va Hva [HP1 HP2]%orb_false_iff. rewrite (dr_pte _ _ _ _ _ _ D2) by done. by apply D1.
  - intros q. rewrite (dr_free _ _ _ _ _ _ D2), (dr_free _ _ _ _ _ _ D1). split.
    + intros [[?|(n & Hn & Hr)]|(n & Hn & Hr)]; [by left|right; exists n; by rewrite Hn|].
      rewrite (dr_role _ _ _ _ _ _ D1) in Hr. destruct (P1 n) eqn:Hp1; [done|]. right. exists n. by rewrite Hp1, Hn.
    + intros [?|(n & Hn & Hr)]; [by left; left|]. destruct (P1 n) eqn:Hp1; [left; right; by exists n|].
      right. exists n. rewrite (dr_role _ _ _ _ _ _ D1), Hp1. done.
  - intros a Ha. rewrite (dr_frame _ _ _ _ _ _ D2), (dr_frame _ _ _ _ _ _ D1); [done|done|].
    intros r q Hr. apply (Ha r). rewrite (dr_role _ _ _ _ _ _ D1) in Hr. destruct r as [| |n]; [done..|]. by destruct (P1 n).
Qed.

Lemma dropped_ext pd P P' v l v' l' : (∀ n, P n = P' n) → dropped pd P v l v' l' → dropped pd P' v l v' l'.
Proof.
  intros HP D. split; try apply D.
  - intros r. rewrite (dr_role _ _ _ _ _ _ D). destruct r as [| |n]; [done..|]. by rewrite HP.
  - intros va Hva HP'. apply D; [done|by rewrite HP].
  - intros q. rewrite (dr_free _ _ _ _ _ _ D). by setoid_rewrite HP.
Qed.

(** The entry of a page cleared, in memory only. *)
Lemma clear_entry_mem pd v l va t :
  aspace (mem v) pd l → 0 ≤ va < KERNBASE → table (mem v) pd (PDX va) = Some t →
  let m' := wr32 (mem v) (t + 4 * PTX va) 0 in
  aspace m' pd l ∧
  (∀ r, role_page m' pd r = if decide (r = RUser (va / PGSIZE)) then None else role_page (mem v) pd r) ∧
  (∀ va', 0 ≤ va' < 2 ^ 32 → va' / PGSIZE ≠ va / PGSIZE → pte m' pd va' = pte (mem v) pd va') ∧
  (∀ a, within t PGSIZE a = false → rd8 m' a = rd8 (mem v) a).
Proof.
  intros Has Hva Ht m'. destruct (aspace_table _ _ _ _ _ Has (PDX_range va) Ht) as (Htp & Htl & _). pose proof (PTX_range va).
  split_and!.
  - apply aspace_set; [done|clia|done|]. by rewrite u32_small by lia.
  - intros r. case_decide as Hr; [subst r|apply (role_set_ne _ _ l); [done|clia|done|done]]. unfold m'. by rewrite (role_set_eq _ _ l) by done.
  - intros va' Hva' Hne. unfold m'. rewrite (pte_set _ _ l) by (done || clia). by rewrite (proj2 (Z.eqb_neq _ _)) by done.
  - intros a Ha. apply rd8_wr32_ne. revert Ha. by within_cases.
Qed.

(** One page whose frame is freed and whose entry is cleared after that. *)
Lemma drop_page pd v l va t :
  kmem_ok v l → aspace (mem v) pd l → 0 ≤ va < KERNBASE → table (mem v) pd (PDX va) = Some t → has_P (pte (mem v) pd va) = true →
  let f := P2V (PTE_ADDR (pte (mem v) pd va)) in
  let v1 := kfree_vm f v in
  dropped pd (λ n, n =? va / PGSIZE) v l (set_mem (wr32 (mem v1) (t + 4 * PTX va) 0) v1) (f :: l).
Proof.
  intros Hk Has Hva Ht HP f v1. pose proof (role_user _ _ _ Hva HP) as Hf. fold f in Hf.
  destruct (as_page _ _ _ Has _ _ Hf) as [Hfp Hfl]. destruct (aspace_table _ _ _ _ _ Has (PDX_range va) Ht) as (Htp & Htl & _).
  assert (Hag : ∀ q, tabs (mem v) pd q → agree (mem v) (mem v1) q).
  { intros q (r & Hr & Hq). destruct (as_page _ _ _ Has _ _ Hq) as [Hqp _]. intros a Ha. apply rd8_kfree_vm; [done|].
    destruct (page_ok_disjoint f q Hfp Hqp); [|by within_cases..]. intros <-. by apply (Hr (va / PGSIZE)), (as_inj _ _ _ Has _ _ f). }
  assert (Hrole1 : ∀ r, role_page (mem v1) pd r = role_page (mem v) pd r) by (intros r; by apply role_tabs).
  assert (Has1 : aspace (mem v1) pd l) by by apply (aspace_tabs (mem v)).
  assert (Ht1 : table (mem v1) pd (PDX va) = Some t) by (rewrite (table_agree (mem v)); [done|apply Hag, tabs_dir|apply PDX_range]).
  assert (Htf : t ∉ f :: l). { apply not_elem_of_cons. split; [|done]. intros ->. pose proof (role_table _ _ _ _ (PDX_range va) Ht) as Hrt. by discriminate (as_inj _ _ _ Has _ _ _ Hrt Hf). }
  assert (Hk1 : kmem_ok v1 (f :: l)) by by apply kfree_vm_ok.
  destruct (clear_entry_mem pd v1 l va t Has1 Hva Ht1) as (Has2 & Hrole2 & Hpte2 & Hm2). set (m2 := wr32 (mem v1) (t + 4 * PTX va) 0) in *.
  assert (Hrole : ∀ r, role_page m2 pd r = if decide (r = RUser (va / PGSIZE)) then None else role_page (mem v) pd r).
  { intros r. rewrite Hrole2. by case_decide. }
  split; cbn [mem set_mem].
  - apply kmem_ok_mem; [done|]. intros q Hq. destruct Hk1 as [_ _ Hall]. rewrite Forall_forall in Hall. intros a Ha. apply Hm2.
    destruct (page_ok_disjoint t q Htp (Hall q Hq)); [set_solver|by within_cases..].
  - destruct Has2 as [Hp2 Hi2]. split; [|done]. intros r q Hr. destruct (Hp2 r q Hr) as [Hq Hql]. split; [done|]. apply not_elem_of_cons.
    split; [|done]. intros ->. rewrite Hrole in Hr. case_decide as Hd; [done|]. by apply Hd, (as_inj _ _ _ Has _ _ f).
  - intros r. rewrite Hrole. destruct r as [| |n]; [by rewrite decide_False..|]. destruct (Z.eqb_spec n (va / PGSIZE)) as [->|Hne]; [by rewrite decide_True|].
    rewrite decide_False by congruence. done.
  - intros va' Hva' Hne%Z.eqb_neq. rewrite Hpte2 by done. by apply pte_tabs.
  - intros q. rewrite elem_of_cons. split.
    + intros [->|?]; [right|by left]. exists (va / PGSIZE). by rewrite Z.eqb_refl.
    + intros [?|(n & ->%Z.eqb_eq & Hr)]; [by right|left]. congruence.
  - intros a Ha. rewrite Hm2 by (eapply Ha, role_table; [apply PDX_range|done]). apply rd8_kfree_vm; [done|]. by eapply Ha.
  - done.
  - done.
Qed.

(** One page that is in the swap file: only its entry is cleared. *)
Lemma drop_swapped pd v l va t :
  kmem_ok v l → aspace (mem v) pd l → 0 ≤ va < KERNBASE → table (mem v) pd (PDX va) = Some t → has_P (pte (mem v) pd va) = false →
  dropped pd (λ n, n =? va / PGSIZE) v l (set_mem (wr32 (mem v) (t + 4 * PTX va) 0) v) l.
Proof.
  intros Hk Has Hva Ht HP. destruct (aspace_table _ _ _ _ _ Has (PDX_range va) Ht) as (Htp & Htl & _).
  destruct (clear_entry_mem pd v l va t Has Hva Ht) as (Has2 & Hrole2 & Hpte2 & Hm2).
  assert (Hnone : role_page (mem v) pd (RUser (va / PGSIZE)) = None).
  { cbn. rewrite (pte_same_page (mem v) pd (va / PGSIZE * PGSIZE) va) by clia. rewrite HP. by case_match. }
  split; cbn [mem set_mem]; try done.
  - apply kmem_ok_mem; [done|]. intros q Hq. destruct Hk as [_ _ Hall]. rewrite Forall_forall in Hall. intros a Ha. apply Hm2.
    destruct (page_ok_disjoint t q Htp (Hall q Hq)); [set_solver|by within_cases..].
  - intros r. rewrite Hrole2. destruct r as [| |n]; [by rewrite decide_False..|]. destruct (Z.eqb_spec n (va / PGSIZE)) as [->|Hne]; [by rewrite decide_True|].
    rewrite decide_False by congruence. done.
  - intros va' Hva' Hne%Z.eqb_neq. by apply Hpte2.
  - intros q. split; [by left|]. intros [?|(n & ->%Z.eqb_eq & Hr)]; [done|]. congruence.
  - intros a Ha. apply Hm2. eapply Ha, role_table; [apply PDX_range|done].
Qed.

(** The pages from [lo] up to [hi]. *)
Definition pages (lo hi n : Z) : bool := (lo <=? n) && (n <? hi).

(** A page in the swap file keeps the place its frame had. *)
Definition swapped_ok (m : memory) pd (lo hi : Z) : Prop := ∀ va, 0 ≤ va < KERNBASE → lo ≤ va / PGSIZE < hi →
  has_P (pte m pd va) = false → has_PG (pte m pd va) = true → PTE_ADDR (pte m pd va) ≠ 0.

Lemma dropped_ready k pd P v l v' l' : kmem_ready (set_k_vm v k) → dropped pd P v l v' l' → kmem_ready (set_k_vm v' k).
Proof. intros [Hl|Hl] D; [left|by right]. cbn in *. by rewrite (dr_lock _ _ _ _ _ _ D). Qed.

(** One round of the loop of [deallocuvm] for a page whose table exists. *)
Definition dealloc_entry (a entry : Z) : K unit :=
  e ← load32 entry;
  if truthy (Z.land e PTE_P) then
    let pa := PTE_ADDR e in
    if pa =? 0 then panic "kfree" else
    (if paging_on then u ← user_proc; when (u && (0 =? 1)) (deallocatePage a) else ret tt);;
    kfree (P2V pa);;
    store32 entry 0
  else if paging_on then
    u ← user_proc;
    when (u && truthy (Z.land e PTE_PG)) (
      let pa := PTE_ADDR e in
      if pa =? 0 then panic "kfree" else
      u ← user_proc;
      when (u && (0 =? 1)) (deallocatePage a);;
      store32 entry 0)
  else ret tt.

Lemma dealloc_entry_ok k v l pd n t :
  cur_ok k → kmem_ready (set_k_vm v k) → kmem_ok v l → aspace (mem v) pd l → 0 ≤ n < UPAGES →
  table (mem v) pd (PDX (n * PGSIZE)) = Some t → swapped_ok (mem v) pd n (n + 1) →
  ∃ v' l', dealloc_entry (n * PGSIZE) (t + 4 * PTX (n * PGSIZE)) (set_k_vm v k) = Ok tt (set_k_vm v' k) ∧
    dropped pd (λ i, i =? n) v l v' l'.
Proof.
  intros Hcur Hrd Hk Has Hn Ht Hsw. set (va := n * PGSIZE) in *. assert (Hva : 0 ≤ va < KERNBASE) by (unfold va; clia).
  assert (Hvn : va / PGSIZE = n) by (unfold va; clia). destruct (user_proc_ok k Hcur) as (u & Hu).
  unfold dealloc_entry. rewrite (bind_ok _ _ _ (pte (mem v) pd va) (set_k_vm v k)) by (cbn; by rewrite <- (pte_some _ _ _ _ Ht)).
  set (e := pte (mem v) pd va). fold (has_P e). fold (has_PG e). destruct (has_P e) eqn:HP.
  - pose proof (role_user _ _ _ Hva HP) as Hf. destruct (as_page _ _ _ Has _ _ Hf) as [Hfp _]. fold e in Hfp.
    rewrite (proj2 (Z.eqb_neq _ _)) by (intros He; rewrite He in Hfp; apply page_ok_range in Hfp; unfold P2V, u32 in Hfp; clia).
    rewrite (bind_ok _ _ _ tt (set_k_vm v k)) by (destruct paging_on; [rewrite (bind_ok _ _ _ _ _ (Hu v)); by rewrite andb_false_r|done]).
    rewrite (bind_ok _ _ _ _ _ (kfree_run _ _ Hfp Hrd)). cbn.
    pose proof (drop_page pd v l va t Hk Has Hva Ht HP) as D. cbv zeta in D. rewrite Hvn in D. eexists _, _. split; [|exact D]. done.
  - destruct paging_on; [|exists v, l; split; [done|]; apply dropped_none; [done..|]; intros i ->%Z.eqb_eq].
    + rewrite (bind_ok _ _ _ _ _ (Hu v)). destruct (u && has_PG e) eqn:Hug.
      * apply andb_true_iff in Hug as [-> HPG]. cbn [when]. rewrite (proj2 (Z.eqb_neq _ _)) by (apply Hsw; (done || lia)).
        rewrite (bind_ok _ _ _ _ _ (Hu v)). cbn. pose proof (drop_swapped pd v l va t Hk Has Hva Ht HP) as D. rewrite Hvn in D.
        eexists _, _. split; [|exact D]. done.
      * exists v, l. split; [done|]. apply dropped_none; [done..|]. intros i ->%Z.eqb_eq. cbn. fold va e. rewrite HP. by case_match.
    + cbn. fold va e. rewrite HP. by case_match.
Qed.

Lemma next_table n : 0 ≤ n < UPAGES →
  let n' := (n / 1024 + 1) * 1024 in
  u32 (PGADDR (PDX (n * PGSIZE) + 1) 0 0 - PGSIZE + PGSIZE) = n' * PGSIZE ∧ n < n' ∧
  ∀ i, n ≤ i < n' → PDX (i * PGSIZE) = PDX (n * PGSIZE).
Proof.
  intros Hn n'. assert (Hd : PDX (n * PGSIZE) = n / 1024) by (rewrite PDX_eq by clia; clia). split_and!.
  - rewrite Hd. unfold PGADDR, PDXSHIFT, PTXSHIFT. rewrite Z.shiftl_0_l, !Z.lor_0_r, Z.shiftl_mul_pow2 by lia.
    assert (0 ≤ n / 1024 < 512) by clia. unfold n'. rewrite (u32_small ((n / 1024 + 1) * 2 ^ 22)) by lia. rewrite u32_small by clia. clia.
  - unfold n'. lia.
  - intros i Hi. rewrite Hd. rewrite PDX_eq by (unfold n' in *; clia). unfold n' in *. clia.
Qed.

(** The pages of a missing table. *)
Lemma no_table_none m pd n i : table m pd (PDX (n * PGSIZE)) = None → PDX (i * PGSIZE) = PDX (n * PGSIZE) → role_page m pd (RUser i) = None.
Proof. intros Ht Hi. cbn. rewrite (pte_none m pd (i * PGSIZE)) by congruence. rewrite has_P_0. by case_match. Qed.

Lemma swapped_ok_dropped pd P v l v' l' lo hi lo' :
  dropped pd P v l v' l' → (∀ n, lo' ≤ n < hi → P n = false) → lo ≤ lo' → swapped_ok (mem v) pd lo hi → swapped_ok (mem v') pd lo' hi.
Proof.
  intros D HP Hlo Hsw va Hva Hr. rewrite (dr_pte _ _ _ _ _ _ D) by (clia || by apply HP). apply Hsw; [done|lia].
Qed.

Lemma pages_split lo mid hi n : lo ≤ mid → pages lo (Z.min mid hi) n || pages mid hi n = pages lo hi n.
Proof.
  intros Hm. unfold pages. destruct (Z.leb_spec lo n), (Z.ltb_spec n (Z.min mid hi)), (Z.leb_spec mid n), (Z.ltb_spec n hi); cbn; try done; lia.
Qed.

Lemma deallocuvm_loop_ok k pd oldsz : cur_ok k → 0 ≤ oldsz ≤ KERNBASE → let hi := (oldsz + PGSIZE - 1) / PGSIZE in
  ∀ fuel lo v l, kmem_ready (set_k_vm v k) → kmem_ok v l → aspace (mem v) pd l → 0 ≤ lo ≤ UPAGES + 1024 →
  swapped_ok (mem v) pd lo hi → hi - lo < Z.of_nat fuel →
  ∃ v' l', deallocuvm_loop fuel pd (lo * PGSIZE) oldsz 0 (set_k_vm v k) = Ok tt (set_k_vm v' k) ∧ dropped pd (pages lo hi) v l v' l'.
Proof.
  intros Hcur Hsz hi. induction fuel as [|fuel IH]; intros lo v l Hrd Hk Has Hlo Hsw Hf; cbn [deallocuvm_loop].
  all: destruct (Z.ltb_spec (lo * PGSIZE) oldsz) as [Hlt|Hge]; [|exists v, l; split; [done|]; apply dropped_none; [done..|]].
  2, 4: intros n Hn; exfalso; unfold pages in Hn; apply andb_true_iff in Hn as [?%Z.leb_le ?%Z.ltb_lt]; unfold hi in *; clia.
  { exfalso. unfold hi in Hf. clia. }
  assert (Hn : 0 ≤ lo < UPAGES) by clia.
  destruct (table (mem v) pd (PDX (lo * PGSIZE))) as [t|] eqn:Ht.
  - rewrite (bind_ok _ _ _ _ _ (walkpgdir_found (set_k_vm v k) pd _ 0 t Ht)).
    rewrite (proj2 (Z.eqb_neq _ _)) by (by eapply entry_nonzero).
    destruct (dealloc_entry_ok k v l pd lo t Hcur Hrd Hk Has Hn Ht) as (v1 & l1 & Hrun & D1).
    { intros va Hva Hr. apply Hsw; [done|]. split; [lia|]. unfold hi. clia. }
    destruct (IH (lo + 1) v1 l1) as (v2 & l2 & Hrun2 & D2); [by eapply dropped_ready|apply D1|apply D1|lia| |lia|].
    { eapply swapped_ok_dropped; [exact D1| |apply (Z.le_succ_diag_r lo)|done]. intros n Hn'. apply Z.eqb_neq. lia. }
    exists v2, l2. split.
    + etrans; [symmetry; apply (bind_assoc (load32 _))|]. etrans; [by apply bind_ok, Hrun|]. rewrite u32_small by clia.
      replace (lo * PGSIZE + PGSIZE) with ((lo + 1) * PGSIZE) by lia. exact Hrun2.
    + eapply dropped_ext; [|exact (dropped_trans _ _ _ _ _ _ _ _ _ D1 D2)]. intros n. cbn beta. rewrite <- (pages_split lo (lo + 1) hi) by lia.
      f_equal. unfold pages. assert (lo < hi) by (unfold hi; clia). destruct (Z.eqb_spec n lo), (Z.leb_spec lo n), (Z.ltb_spec n (Z.min (lo + 1) hi)); cbn; (done || lia).
  - rewrite (bind_ok _ _ _ _ _ (walkpgdir_absent (set_k_vm v k) pd _ Ht)). cbn [Z.eqb].
    destruct (next_table lo Hn) as (Hnext & Hlt' & Hsame). rewrite Hnext. set (lo' := (lo / 1024 + 1) * 1024) in *.
    destruct (IH lo' v l) as (v2 & l2 & Hrun2 & D2); [done|done|done|unfold lo'; lia| |lia|].
    { intros va Hva Hr. apply Hsw; [done|lia]. }
    exists v2, l2. split; [exact Hrun2|]. eapply dropped_ext; [intros n; apply (pages_split lo lo' hi); lia|].
    eapply (dropped_trans _ _ _ _ _ v l); [|exact D2]. apply dropped_none; [done..|]. intros n Hr.
    unfold pages in Hr. apply andb_true_iff in Hr as [?%Z.leb_le ?%Z.ltb_lt]. eapply no_table_none; [exact Ht|]. apply Hsame. lia.
Qed.

(** ** The tables and the directory *)
Definition free_table pd (i : Z) : K unit :=
  e ← load32 (pd + 4 * i);
  when (truthy (Z.land e PTE_P)) (kfree (P2V (PTE_ADDR e))).

Lemma free_tables_ok k pd : page_ok pd → ∀ ids v l,
  kmem_ready (set_k_vm v k) → kmem_ok v l → (∀ i, i ∈ ids → 0 ≤ i < 1024) → NoDup ids →
  (∀ i t, i ∈ ids → table (mem v) pd i = Some t → page_ok t ∧ t ∉ l ∧ t ≠ pd) →
  (∀ i j t, i ∈ ids → j ∈ ids → table (mem v) pd i = Some t → table (mem v) pd j = Some t → i = j) →
  ∃ v' l', forM ids (free_table pd) (set_k_vm v k) = Ok tt (set_k_vm v' k) ∧ kmem_ok v' l' ∧
    (∀ q, q ∈ l' ↔ q ∈ l ∨ ∃ i, i ∈ ids ∧ table (mem v) pd i = Some q) ∧
    (∀ a, (∀ i t, i ∈ ids → table (mem v) pd i = Some t → within t PGSIZE a = false) → rd8 (mem v') a = rd8 (mem v) a) ∧
    use_lock v' = use_lock v ∧ kpgdir v' = kpgdir v.
Proof.
  intros Hpd. induction ids as [|i ids IH]; intros v l Hrd Hk Hr Hnd Hok Hinj.
  { exists v, l. split_and!; [done|done| |done|done|done]. intros q. set_solver. }
  apply NoDup_cons in Hnd as [Hni Hnd]. cbn [forM]. unfold free_table at 1.
  destruct (table (mem v) pd i) as [t|] eqn:Ht.
  - destruct (Hok i t ltac:(set_solver) Ht) as (Htp & Htl & Htd). set (v1 := kfree_vm t v).
    assert (Hsame : ∀ j, 0 ≤ j < 1024 → table (mem v1) pd j = table (mem v) pd j).
    { intros j Hj. apply table_agree; [|done]. intros a Ha. apply rd8_kfree_vm; [done|]. destruct (page_ok_disjoint t pd Htp Hpd Htd); by within_cases. }
    destruct (IH v1 (t :: l)) as (v' & l' & Hrun & Hk' & Hl' & Hfr & Hul & Hkp); [| | |done| | |].
    { destruct Hrd as [?|?]; [by left|by right]. }
    { by apply kfree_vm_ok. }
    { intros j Hj. apply Hr. set_solver. }
    { intros j u Hj. rewrite Hsame by (apply Hr; set_solver). intros Hu. destruct (Hok j u ltac:(set_solver) Hu) as (? & ? & ?). split_and!; [done| |done].
      apply not_elem_of_cons. split; [|done]. intros ->. rewrite (Hinj i j t) in Hni by (set_solver || done). done. }
    { intros j j' u Hj Hj'. rewrite !Hsame by (apply Hr; set_solver). apply Hinj; set_solver. }
    exists v', l'. split_and!; [| done| | |by rewrite Hul|by rewrite Hkp].
    + erewrite bind_ok; [exact Hrun|]. unfold table in Ht. cbn in *. destruct (has_P _) eqn:HP; [|done]. unfold has_P in HP. rewrite HP. cbn [when].
      injection Ht as ->. by rewrite kfree_run.
    + intros q. rewrite Hl', elem_of_cons. split.
      * intros [[->|?]|(j & Hj & Hq)]; [right; exists i; set_solver|by left|]. rewrite Hsame in Hq by (apply Hr; set_solver). right. exists j. set_solver.
      * intros [?|(j & Hj & Hq)]; [by left; right|]. apply elem_of_cons in Hj as [->|Hj]; [left; left; congruence|].
        right. exists j. rewrite Hsame by (apply Hr; set_solver). done.
    + intros a Ha. rewrite Hfr; [apply rd8_kfree_vm; [done|]; by eapply (Ha i); [set_solver|]|].
      intros j u Hj. rewrite Hsame by (apply Hr; set_solver). apply Ha. set_solver.
  - destruct (IH v l) as (v' & l' & Hrun & Hk' & Hl' & Hfr & Hul & Hkp); [done|done|intros; apply Hr; set_solver|done|intros j u Hj; apply Hok; set_solver|intros j j' u Hj Hj'; apply Hinj; set_solver|].
    exists v', l'. split_and!; [|done| | |done|done].
    + erewrite bind_ok; [exact Hrun|]. unfold table in Ht. cbn in *. destruct (has_P _) eqn:HP; [done|]. unfold has_P in HP. by rewrite HP.
    + intros q. rewrite Hl'. split; [intros [?|(j & Hj & Hq)]; [by left|right; exists j; set_solver]|].
      intros [?|(j & Hj & Hq)]; [by left|]. apply elem_of_cons in Hj as [->|Hj]; [congruence|right; by exists j].
    + intros a Ha. apply Hfr. intros j u Hj. apply Ha. set_solver.
Qed.

Lemma deallocuvm_all k pd l :
  cur_ok k → kmem_ready k → kmem_ok (k_vm k) l → aspace (mem (k_vm k)) pd l → swapped_ok (mem (k_vm k)) pd 0 UPAGES →
  ∃ v' l', deallocuvm pd KERNBASE 0 0 k = Ok 0 (set_k_vm v' k) ∧ dropped pd (pages 0 UPAGES) (k_vm k) l v' l'.
Proof.
  intros Hcur Hrd Hk Has Hsw. unfold deallocuvm. rewrite (proj2 (Z.leb_gt _ _)) by clia. change (PGROUNDUP 0) with (0 * PGSIZE). cbv zeta.
  destruct (deallocuvm_loop_ok k pd KERNBASE Hcur ltac:(clia) (S (Z.to_nat ((KERNBASE - 0 * PGSIZE) / PGSIZE))) 0 (k_vm k) l)
    as (v' & l' & Hrun & D); [by rewrite set_k_vm_id|done|done|clia|exact Hsw|rewrite Nat2Z.inj_succ, Z2Nat.id; clia|].
  rewrite set_k_vm_id in Hrun. exists v', l'. split; [|exact D]. by rewrite (bind_ok _ _ _ _ _ Hrun).
Qed.

Lemma freevm_ok k pd l :
  cur_ok k → kmem_ready k → kmem_ok (k_vm k) l → aspace (mem (k_vm k)) pd l → swapped_ok (mem (k_vm k)) pd 0 UPAGES →
  ∃ v' l', freevm pd k = Ok tt (set_k_vm v' k) ∧ kmem_ok v' l' ∧
    (∀ q, q ∈ l' ↔ q ∈ l ∨ ∃ r, role_page (mem (k_vm k)) pd r = Some q) ∧
    (∀ a, (∀ r q, role_page (mem (k_vm k)) pd r = Some q → within q PGSIZE a = false) → rd8 (mem v') a = rd8 (mem (k_vm k)) a) ∧
    use_lock v' = use_lock (k_vm k) ∧ kpgdir v' = kpgdir (k_vm k).
Proof.
  intros Hcur Hrd Hk Has Hsw. pose proof (aspace_dir _ _ _ Has) as Hpd. destruct (deallocuvm_all k pd l Hcur Hrd Hk Has Hsw) as (v1 & l1 & Hrun1 & D1).
  assert (Htab : ∀ i, 0 ≤ i < 1024 → table (mem v1) pd i = table (mem (k_vm k)) pd i).
  { intros i Hi. pose proof (dr_role _ _ _ _ _ _ D1 (RTab i)) as Hr. cbn in Hr. unfold NPDENTRIES in Hr. rewrite (proj2 (Z.leb_le _ _)), (proj2 (Z.ltb_lt _ _)) in Hr by lia. done. }
  pose proof (dr_aspace _ _ _ _ _ _ D1) as Has1. assert (Hpd1 : pd ∉ l1) by (by destruct (as_page _ _ _ Has1 RDir pd)).
  assert (Hin : ∀ i, i ∈ seqZ 0 NPDENTRIES → 0 ≤ i < 1024) by (intros i Hi%elem_of_seqZ; unfold NPDENTRIES in Hi; lia).
  destruct (free_tables_ok k pd Hpd (seqZ 0 NPDENTRIES) v1 l1) as (v2 & l2 & Hrun2 & Hk2 & Hl2 & Hfr2 & Hul2 & Hkp2);
    [by eapply dropped_ready; [rewrite set_k_vm_id|]|apply D1|done|apply NoDup_seqZ| | |].
  { intros i t Hi Ht. apply (aspace_table _ _ _ _ _ Has1 (Hin i Hi) Ht). }
  { intros i j t Hi Hj. apply (aspace_tables _ _ _ _ _ _ Has1); by apply Hin. }
  assert (Hpd2 : pd ∉ l2). { rewrite Hl2. intros [?|(i & Hi & Ht)]; [done|]. by destruct (aspace_table _ _ _ _ _ Has1 (Hin i Hi) Ht) as (_ & _ & ?). }
  exists (kfree_vm pd v2), (pd :: l2). split_and!; [|by apply kfree_vm_ok| | |by cbn; rewrite Hul2; apply D1|by cbn; rewrite Hkp2; apply D1].
  - unfold freevm. rewrite (proj2 (Z.eqb_neq _ _)) by (pose proof (page_ok_range pd Hpd); clia). rewrite (bind_ok _ _ _ _ _ Hrun1).
    rewrite (bind_ok _ _ _ _ _ Hrun2). rewrite kfree_run; [done|done|]. destruct Hrd as [Hu|Hu]; [left|by right]. cbn. rewrite Hul2, (dr_lock _ _ _ _ _ _ D1). done.
  - intros q. rewrite elem_of_cons, Hl2, (dr_free _ _ _ _ _ _ D1). split.
    + intros [->|[[?|(n & _ & Hr)]|(i & Hi & Ht)]]; [right; by exists RDir|by left|right; by exists (RUser n)|].
      right. exists (RTab i). apply role_table; [by apply Hin|]. rewrite <- Htab; [done|by apply Hin].
    + intros [?|(r & Hr)]; [by right; left; left|]. destruct r as [|i|n].
      * left. cbn in Hr. congruence.
      * right; right. cbn in Hr. unfold NPDENTRIES in Hr. destruct (Z.leb_spec 0 i), (Z.ltb_spec i 1024); cbn in Hr; try done.
        exists i. rewrite Htab by lia. split; [|done]. apply elem_of_seqZ. unfold NPDENTRIES. lia.
      * right; left; right. exists n. split; [|done]. cbn in Hr. unfold pages. by destruct ((0 <=? n) && (n <? UPAGES)).
  - intros a Ha. rewrite rd8_kfree_vm by (done || by apply (Ha RDir)). rewrite Hfr2; [by apply D1|].
    intros i t Hi. rewrite Htab by by apply Hin. intros Ht. apply (Ha (RTab i)). apply role_table; [by apply Hin|done].
Qed.

(** ** Building the kernel's half *)

(** A mapping of whole pages in the kernel's half, from [lo] on. *)
Definition kmapping_ok (lo : Z) (x : kmapping) (n : nat) : Prop :=
  KERNBASE ≤ lo ≤ virt x ∧ virt x mod 4096 = 0 ∧ virt x + Z.of_nat n * PGSIZE < 2 ^ 32 ∧
  0 ≤ phys_start x ∧ phys_start x mod 4096 = 0 ∧ phys_start x + Z.of_nat n * PGSIZE < 2 ^ 32 ∧ 0 ≤ km_perm x < 4096 ∧
  u32 (phys_end x - phys_start x) = (Z.of_nat n + 1) * PGSIZE.

Definition km_end (x : kmapping) (n : nat) : Z := virt x + (Z.of_nat n + 1) * PGSIZE.

Fixpoint kmappings_ok (lo : Z) (ks : list kmapping) (ns : list nat) : Prop :=
  match ks, ns with
  | [], [] => True
  | x :: ks, n :: ns => kmapping_ok lo x n ∧ kmappings_ok (km_end x n) ks ns
  | _, _ => False
  end.

(** The entry of [va] in the kernel's half. *)
Definition kernel_entry (x : kmapping) (va : Z) : Z := map_entry (virt x) (phys_start x) (km_perm x) va.

(** The tables of a list of mappings are those of the directory entries [T]. *)
Definition tables_in (T : list Z) (ks : list kmapping) (ns : list nat) : Prop :=
  Forall2 (λ x n, ∀ i, PDX (virt x) ≤ i ≤ PDX (virt x + Z.of_nat n * PGSIZE) → i ∈ T) ks ns.

Definition tables_of (m : memory) pd (T : list Z) : Prop := ∀ i, 0 ≤ i < 1024 → is_Some (table m pd i) → i ∈ T.

Lemma map_kernel_ok pd T ks : ∀ ns lo k l,
  kmem_ready k → kmem_ok (k_vm k) l → aspace (mem (k_vm k)) pd l → kmappings_ok lo ks ns → tables_in T ks ns → tables_of (mem (k_vm k)) pd T →
  (∀ va, lo ≤ va < 2 ^ 32 → has_P (pte (mem (k_vm k)) pd va) = false) →
  ∃ ok v l', map_kernel pd ks k = Ok ok (set_k_vm v k) ∧ pt_step pd (k_vm k) l v l' ∧
    (∀ va, 0 ≤ va < lo → KERNBASE ≤ lo → ks ≠ [] → pte (mem v) pd va = pte (mem (k_vm k)) pd va) ∧
    tables_of (mem v) pd T ∧ (ok = false → l' = [] ∧ ∃ i, i ∈ T ∧ table (mem v) pd i = None) ∧
    (ok = true → ∀ i x n va, ks !! i = Some x → ns !! i = Some n → virt x ≤ va < km_end x n → pte (mem v) pd va = kernel_entry x va).
Proof.
  induction ks as [|x ks IH]; intros [|n ns] lo k l Hrd Hk Has Hks Hin Hto Hnp; try done; cbn [map_kernel].
  { exists true, (k_vm k), l. rewrite set_k_vm_id. split_and!; [done|by apply pt_step_refl|done|done|done|done]. }
  apply Forall2_cons in Hin as [Hi Hin].
  destruct Hks as [(Hlo & Ha & Han & Hp & Hpa & Hpn & Hperm & Hsz) Hks]. unfold km_end in *.
  destruct (mappages_ok n k pd (virt x) (phys_start x) (km_perm x) l Hrd Hk Has) as (r & v1 & l1 & Hrun & Hs & Hout & Hg & Hres);
    [clia|done|done|done|done|done|done|intros; clia|intros va Hva; apply Hnp; clia|].
  assert (Hto1 : tables_of (mem v1) pd T) by (intros i Hi1 Ht; destruct (Hg i Hi1 Ht); [by apply Hto|by apply Hi]).
  rewrite Hsz, (bind_ok _ _ _ _ _ Hrun). destruct Hres as [[-> Hres]|(-> & -> & i & Hi1 & Hti)].
  - destruct (IH ns (virt x + (Z.of_nat n + 1) * PGSIZE) (set_k_vm v1 k) l1) as (ok & v2 & l2 & Hrun2 & Hs2 & Hlow & Hto2 & Hfail & Hmap);
      [by eapply pt_step_ready|apply Hs|apply Hs|done|done|done|intros va Hva; cbn; rewrite Hout by clia; apply Hnp; clia|].
    cbn in Hrun2. exists ok, v2, l2. cbn [Z.ltb Z.compare]. split_and!; [exact Hrun2|by eapply pt_step_trans| |done|done|].
    + intros va Hva Hk0 _. destruct ks as [|y ks]; [destruct ns; [|done]; cbn in Hrun2; injection Hrun2 as <- <-; apply Hout; lia|].
      rewrite Hlow by (done || clia). apply Hout. lia.
    + intros Hok i y j va Hy Hj Hva. destruct i as [|i].
      * injection Hy as ->. injection Hj as ->. unfold km_end in Hva. unfold kernel_entry. rewrite <- Hres by done.
        destruct ks as [|z ks]; [destruct ns; [|done]; cbn in Hrun2; by injection Hrun2 as <- <-|]. apply Hlow; [clia|clia|done].
      * by apply (Hmap Hok i y j).
  - exists false, v1, []. split_and!; [done|done|intros va Hva _ _; apply Hout; lia|done| |done].
    intros _. split; [done|]. exists i. split; [by apply Hi|done].
Qed.

Definition kmap_sizes : list nat :=
  [Z.to_nat (EXTMEM / PGSIZE - 1); Z.to_nat ((kdata - KERNLINK) / PGSIZE - 1);
   Z.to_nat ((PHYSTOP - V2P kdata) / PGSIZE - 1); Z.to_nat ((2 ^ 32 - DEVSPACE) / PGSIZE - 1)].

Lemma kmap_ok : kmappings_ok KERNBASE kmap kmap_sizes.
Proof.
  pose proof link_data as Hd. pose proof link_end as He. pose proof link_align as Ha.
  assert (HV : V2P kdata = kdata - KERNBASE) by (unfold V2P; rewrite u32_small; clia).
  assert (HV' : V2P KERNLINK = EXTMEM) by reflexivity.
  unfold kmap, kmap_sizes. cbn [kmappings_ok]. unfold kmapping_ok, km_end. cbn [virt phys_start phys_end km_perm]. rewrite HV, HV'.
  unfold PTE_W. split_and!; rewrite ?Z2Nat.id by clia; try clia.
  all: try (rewrite u32_small; clia).
  all: try (unfold u32; clia).
Qed.

(** The directory entries of the kernel's half: physical memory from KERNBASE on, and the devices. *)
Definition kernel_tables : list Z := seqZ 512 56 ++ seqZ 1016 8.

Lemma kmap_tables : tables_in kernel_tables kmap kmap_sizes.
Proof.
  pose proof link_data as Hd. pose proof link_end as He. pose proof link_align as Ha.
  assert (HV : V2P kdata = kdata - KERNBASE) by (unfold V2P; rewrite u32_small; clia).
  unfold kmap, kmap_sizes. repeat apply Forall2_cons_2; [..|constructor]; cbn [virt]; rewrite ?HV, Z2Nat.id by clia; intros i Hi;
    rewrite !PDX_eq in Hi by clia; unfold kernel_tables; rewrite elem_of_app, !elem_of_seqZ; clia.
Qed.

(** A page taken from the allocator and cleared is a directory without tables. *)
Lemma new_dir v p l :
  kmem_ok v (p :: l) → let m' := memset (mem v) p 0 PGSIZE in
  kmem_ok (set_mem m' (kalloc_vm v)) l ∧ aspace m' p l ∧ (∀ va, pte m' p va = 0) ∧ (∀ r q, role_page m' p r = Some q → q = p) ∧
  (∀ a, within p PGSIZE a = false → rd8 m' a = rd8 (mem v) a).
Proof.
  intros Hk m'. destruct (kmem_ok_cons _ _ _ Hk) as (Hf & Hp & Hpl & Hv & Hk').
  assert (Hm : ∀ a, within p PGSIZE a = false → rd8 m' a = rd8 (mem v) a) by (intros a Ha; unfold m'; rewrite rd8_memset by clia; by rewrite Ha).
  assert (Ht : ∀ i, 0 ≤ i < 1024 → table m' p i = None).
  { intros i Hi. unfold table. assert (rd32 m' (p + 4 * i) = 0) as ->; [|done]. unfold rd32, m'. rewrite !rd8_memset by clia. by within_cases. }
  assert (Hpte : ∀ va, pte m' p va = 0) by (intros va; apply pte_none, Ht, PDX_range).
  assert (Hrole : ∀ r q, role_page m' p r = Some q → r = RDir ∧ q = p).
  { intros [|i|n] q; cbn; [by intros [= ->]| |rewrite Hpte, has_P_0; by case_match]. unfold NPDENTRIES.
    destruct (Z.leb_spec 0 i), (Z.ltb_spec i 1024); cbn; try done. by rewrite Ht by lia. }
  split_and!; [|split| | |done].
  - apply kmem_ok_mem; [done|]. rewrite Hv. cbn. intros q Hq a Ha. apply Hm. destruct Hk as [_ _ Hall]. rewrite Forall_forall in Hall.
    destruct (page_ok_disjoint p q Hp (Hall q ltac:(set_solver))); [set_solver|by within_cases..].
  - intros r q [_ ->]%Hrole. done.
  - intros r r' q [-> _]%Hrole [-> _]%Hrole. done.
  - done.
  - intros r q [_ ->]%Hrole. done.
Qed.

(** The address space [d] made of pages of [l0]: each of them is free or has a role in it. *)
Record made d l0 v l : Prop := {
  md_kmem : kmem_ok v l;
  md_aspace : aspace (mem v) d l;
  md_all q : q ∈ l0 ↔ q ∈ l ∨ ∃ r, role_page (mem v) d r = Some q
}.

Lemma made_step d l0 v l v' l' :
  made d l0 v l → pt_step d v l v' l' → (∀ n, role_page (mem v') d (RUser n) = role_page (mem v) d (RUser n)) → made d l0 v' l'.
Proof.
  intros [Hk Has Hall] Hs Hu. split; [apply Hs|apply Hs|]. intros q. rewrite Hall. split.
  - intros [Hq|(r & Hr)].
    + destruct (ps_kept _ _ _ _ _ Hs q (or_intror Hq)) as [(r & _ & Hr)|?]; [right; by exists r|by left].
    + destruct r as [|i|n]; [| |right; exists (RUser n); by rewrite Hu].
      all: destruct (ps_kept _ _ _ _ _ Hs q) as [(r' & _ & Hr')|?]; [left; eexists; split; [|exact Hr]; done|right; by exists r'|by left].
  - intros [Hq|(r & Hr)]; [left; eapply suffix_of_elem; [apply Hs|done]|].
    destruct r as [|i|n]; [| |right; exists (RUser n); by rewrite <- Hu].
    all: destruct (ps_tabs _ _ _ _ _ Hs q) as [(r' & _ & Hr')|?]; [eexists; split; [|exact Hr]; done|right; by exists r'|by left].
Qed.

(** Each page of [l0] is free, the directory, a table or a frame, so there are not more of them. *)
Lemma made_count d l0 v l T U :
  NoDup l0 → made d l0 v l → tables_of (mem v) d T → (∀ n, is_Some (role_page (mem v) d (RUser n)) → n ∈ U) →
  (length l0 ≤ length l + 1 + length T + length U)%nat.
Proof.
  intros Hnd [_ _ Hall] HT HU. set (rs := RDir :: (RTab <$> T) ++ (RUser <$> U)).
  assert (Hincl : l0 ⊆ l ++ omap (role_page (mem v) d) rs).
  { intros q [Hq|(r & Hr)]%Hall; apply elem_of_app; [by left|right]. apply list_elem_of_omap. exists r. split; [|done].
    unfold rs. rewrite elem_of_cons, elem_of_app. destruct r as [|i|n]; [by left|right; left|right; right]; apply list_elem_of_fmap.
    - exists i. split; [done|]. cbn in Hr. destruct (Z.leb_spec 0 i), (Z.ltb_spec i NPDENTRIES); cbn in Hr; try done. apply HT; [clia|by exists q].
    - exists n. split; [done|]. apply HU. by exists q. }
  apply NoDup_submseteq, submseteq_length in Hincl; [|done]. rewrite length_app in Hincl.
  assert (Hom : (length (omap (role_page (mem v) d) rs) ≤ length rs)%nat).
  { clear. induction rs as [|r rs IH]; cbn; [lia|]. destruct (role_page (mem v) d r); cbn; lia. }
  unfold rs in Hom at 2. cbn [length] in Hom. rewrite length_app, !length_fmap in Hom. lia.
Qed.

(** A table that is missing leaves one less. *)
Lemma tables_of_missing m d T i : tables_of m d T → table m d i = None → tables_of m d (filter (λ j, j ≠ i) T).
Proof.
  intros HT Hi j Hj Hs. apply list_elem_of_filter. split; [|by apply HT]. intros ->. rewrite Hi in Hs. by destruct Hs.
Qed.

Lemma filter_shorter (T : list Z) i : i ∈ T → (length (filter (λ j, j ≠ i) T) < length T)%nat.
Proof.
  intros Hi. induction T as [|j T IH]; [by apply not_elem_of_nil in Hi|]. rewrite filter_cons. apply elem_of_cons in Hi.
  destruct (decide (j = i)) as [->|Hne].
  - rewrite decide_False by (by intros []). cbn. apply le_n_S, length_filter.
  - rewrite decide_True by done. cbn. destruct Hi as [->|Hi]; [done|]. specialize (IH Hi). lia.
Qed.

(** Memory outside the pages [l] is the same. *)
Definition outside l (m m' : memory) : Prop := ∀ a, (∀ q, q ∈ l → within q PGSIZE a = false) → rd8 m' a = rd8 m a.

(** Giving a half-made address space back gives all of [l0] back. *)
Lemma free_made k d l0 l :
  cur_ok k → kmem_ready k → made d l0 (k_vm k) l → swapped_ok (mem (k_vm k)) d 0 UPAGES →
  ∃ v' l', freevm d k = Ok tt (set_k_vm v' k) ∧ kmem_ok v' l' ∧ (∀ q, q ∈ l' ↔ q ∈ l0) ∧ outside l0 (mem (k_vm k)) (mem v') ∧
    use_lock v' = use_lock (k_vm k) ∧ kpgdir v' = kpgdir (k_vm k).
Proof.
  intros Hcur Hrd [Hk Has Hall] Hsw. destruct (freevm_ok k d l Hcur Hrd Hk Has Hsw) as (v' & l' & Hrun & Hk' & Hl' & Hfr & Hu & Hkp).
  exists v', l'. split_and!; [done|done|intros q; by rewrite Hl', Hall| |done|done].
  intros a Ha. apply Hfr. intros r q Hr. apply Ha, Hall. right. by exists r.
Qed.

Lemma no_swapped m pd lo hi : (∀ va, 0 ≤ va < KERNBASE → lo ≤ va / PGSIZE → pte m pd va = 0) → swapped_ok m pd lo hi.
Proof. intros Hz va Hva Hr _. by rewrite Hz by lia. Qed.

(** The memory a table step leaves alone, when all pages come from [l0]. *)
Lemma step_outside d l0 v l v' l' : made d l0 v l → pt_step d v l v' l' → outside l0 (mem v) (mem v').
Proof.
  intros [_ _ Hall] Hs a Ha. apply (ps_frame _ _ _ _ _ Hs). intros q [(r & _ & Hr)|Hq]; apply Ha, Hall; [right; by exists r|by left].
Qed.

Lemma user_roles m m' d : (∀ va, 0 ≤ va < KERNBASE → pte m' d va = pte m d va) → ∀ n, role_page m' d (RUser n) = role_page m d (RUser n).
Proof.
  intros Hp n. cbn. destruct (Z.leb_spec 0 n), (Z.ltb_spec n UPAGES); cbn; try done. rewrite Hp by clia. done.
Qed.

Lemma setupkvm_ok k l :
  cur_ok k → kmem_ready k → kmem_ok (k_vm k) l →
  ∃ r v l', setupkvm k = Ok r (set_k_vm v k) ∧ use_lock v = use_lock (k_vm k) ∧ kpgdir v = kpgdir (k_vm k) ∧ kmem_ok v l' ∧
    outside l (mem (k_vm k)) (mem v) ∧
    ((r = 0 ∧ (length l < 65)%nat ∧ ∀ q, q ∈ l' ↔ q ∈ l) ∨
     (r ≠ 0 ∧ made r l v l' ∧ tables_of (mem v) r kernel_tables ∧ (∀ va, 0 ≤ va < KERNBASE → pte (mem v) r va = 0) ∧
      ∀ i x n va, kmap !! i = Some x → kmap_sizes !! i = Some n → virt x ≤ va < km_end x n → pte (mem v) r va = kernel_entry x va)).
Proof.
  intros Hcur Hrd Hk. unfold setupkvm. rewrite (bind_ok _ _ _ _ _ (kalloc_run k Hrd)). destruct l as [|p l].
  { destruct (kmem_ok_nil _ Hk) as [Hf Hv]. rewrite Hf. cbn [Z.eqb]. exists 0, (k_vm k), []. unfold mod_vm. rewrite Hv.
    split_and!; [done|done|done|done|done|left; split_and!; [done|cbn; lia|done]]. }
  destruct (kmem_ok_cons _ _ _ Hk) as (Hf & Hp & Hpl & Hv & _). rewrite Hf. pose proof (page_ok_range p Hp) as Hpr.
  rewrite (proj2 (Z.eqb_neq _ _)) by clia. destruct (new_dir (k_vm k) p l Hk) as (Hk1 & Has1 & Hz1 & Hr1 & Hm1).
  set (v1 := set_mem (memset (mem (k_vm k)) p 0 PGSIZE) (kalloc_vm (k_vm k))) in *.
  assert (Hmd1 : made p (p :: l) v1 l).
  { split; [done|done|]. intros q. rewrite elem_of_cons. split; [intros [->|?]; [right; by exists RDir|by left]|intros [?|(r & ->%Hr1)]; [by right|by left]]. }
  assert (Hrd1 : kmem_ready (set_k_vm v1 k)) by (destruct Hrd as [?|?]; [left; cbn; by rewrite Hv|by right]).
  rewrite (bind_ok _ _ _ tt (set_k_vm v1 k)) by (cbn; unfold v1, mod_vm; cbn; by rewrite Hv).
  change (DEVSPACE <? P2V PHYSTOP) with false.
  destruct (map_kernel_ok p kernel_tables kmap kmap_sizes KERNBASE (set_k_vm v1 k) l Hrd1 Hk1 Has1 kmap_ok kmap_tables)
    as (ok & v2 & l2 & Hrun & Hs & Hlow & Hto & Hfail & Hmap); [|intros va _; cbn; by rewrite Hz1|].
  { intros i Hi [t Ht]. pose proof (role_table _ _ _ _ Hi Ht) as Hr. pose proof (Hr1 _ _ Hr) as ->.
    by pose proof (as_inj _ _ _ Has1 (RTab i) RDir p Hr eq_refl). } cbn in Hrun. rewrite (bind_ok _ _ _ _ _ Hrun).
  assert (Hlow' : ∀ va, 0 ≤ va < KERNBASE → pte (mem v2) p va = 0) by (intros va Hva; rewrite (Hlow va) by (done || clia); apply Hz1).
  assert (Hmd2 : made p (p :: l) v2 l2) by (eapply made_step; [exact Hmd1|exact Hs|]; apply user_roles; intros va Hva; rewrite Hlow' by done; symmetry; apply Hz1).
  assert (Hout2 : outside (p :: l) (mem (k_vm k)) (mem v2)).
  { intros a Ha. rewrite (step_outside _ _ _ _ _ _ Hmd1 Hs a Ha). apply Hm1, Ha. set_solver. }
  assert (Hul : use_lock v2 = use_lock (k_vm k) ∧ kpgdir v2 = kpgdir (k_vm k)) by (rewrite (ps_lock _ _ _ _ _ Hs), (ps_kpgdir _ _ _ _ _ Hs); cbn; by rewrite Hv).
  destruct ok.
  - exists p, v2, l2. split_and!; [done|apply Hul|apply Hul|apply Hmd2|done|right]. split_and!; [clia|done|done|done|by apply Hmap].
  - destruct (free_made (set_k_vm v2 k) p (p :: l) l2) as (v3 & l3 & Hrun3 & Hk3 & Hl3 & Hout3 & Hu3 & Hkp3);
      [done|by eapply (pt_step_ready (set_k_vm v1 k))|done|by apply no_swapped; intros; apply Hlow'|].
    exists 0, v3, l3. rewrite (bind_ok _ _ _ _ _ Hrun3). cbn in Hu3, Hkp3. split_and!; [done|rewrite Hu3; apply Hul|rewrite Hkp3; apply Hul|done| |left; split_and!; [done| |done]].
    2:{ destruct (Hfail eq_refl) as (-> & i & Hi & Hti).
        pose proof (made_count p (p :: l) v2 [] _ [] (kmem_nodup _ _ Hk) Hmd2 (tables_of_missing _ _ _ _ Hto Hti)) as Hcount.
        pose proof (filter_shorter _ _ Hi) as Hsh. change (length kernel_tables) with 64%nat in Hsh. cbn [length] in *.
        eapply Nat.le_lt_trans; [apply Hcount|lia]. intros n [q Hq]. cbn in Hq.
        destruct (Z.leb_spec 0 n), (Z.ltb_spec n UPAGES); cbn in Hq; try done. rewrite Hlow' in Hq by clia. done. }
    intros a Ha. rewrite (Hout3 a Ha). by apply Hout2.
Qed.

(** ** Copying *)

(** A page mapped to the frame [f], which was neither free nor in use. *)
Lemma made_map d l0 l0' v l v' l' i f :
  made d l0' v l → pt_step d v l v' l' → (∀ q, q ∈ l0 ↔ q ∈ l0' ∨ q = f) → role_page (mem v) d (RUser i) = None →
  role_page (mem v') d (RUser i) = Some f → (∀ n, n ≠ i → role_page (mem v') d (RUser n) = role_page (mem v) d (RUser n)) → made d l0 v' l'.
Proof.
  intros [Hk Has Hall] Hs Hl0 Hi Hi' Hu. split; [apply Hs|apply Hs|]. intros q. rewrite Hl0, Hall. split.
  - intros [[Hq|(r & Hr)]| ->]; [| |right; by exists (RUser i)].
    + destruct (ps_kept _ _ _ _ _ Hs q (or_intror Hq)) as [(r & _ & Hr)|?]; [right; by exists r|by left].
    + destruct r as [|j|n]; [| |right; exists (RUser n); rewrite Hu; [done|congruence]].
      all: destruct (ps_kept _ _ _ _ _ Hs q) as [(r' & _ & Hr')|?]; [left; eexists; split; [|exact Hr]; done|right; by exists r'|by left].
  - intros [Hq|(r & Hr)]; [left; left; eapply suffix_of_elem; [apply Hs|done]|].
    destruct r as [|j|n]; [| |destruct (decide (n = i)) as [->|Hne]; [right; congruence|left; right; exists (RUser n); by rewrite <- Hu]].
    all: left; destruct (ps_tabs _ _ _ _ _ Hs q) as [(r' & _ & Hr')|?]; [eexists; split; [|exact Hr]; done|right; by exists r'|by left].
Qed.

(** Page [j] of [d] is a copy of page [j] of the address space [pd] in memory [m0]. *)
Definition copied (m0 : memory) pd (m : memory) d (j : Z) : Prop :=
  let e := pte m0 pd (j * PGSIZE) in
  if has_P e then
    ∃ f, pte m d (j * PGSIZE) = Z.lor (Z.lor (V2P f) (PTE_FLAGS e)) PTE_P ∧ role_page m d (RUser j) = Some f ∧
      ∀ o, 0 ≤ o < PGSIZE → rd8 m (f + o) = rd8 m0 (P2V (PTE_ADDR e) + o)
  else pte m d (j * PGSIZE) = 0.

(** A step that keeps the entry and the frame of a page keeps the copy. *)
Lemma copied_step m0 pd m m' d j :
  copied m0 pd m d j → pte m' d (j * PGSIZE) = pte m d (j * PGSIZE) → role_page m' d (RUser j) = role_page m d (RUser j) →
  (∀ f, role_page m d (RUser j) = Some f → agree m m' f) → copied m0 pd m' d j.
Proof.
  intros Hc Hp Hr Ha. unfold copied in *. destruct (has_P _); [|congruence]. destruct Hc as (f & Hf & Hrf & Hb). exists f.
  split_and!; [congruence|congruence|]. intros o Ho. rewrite (Ha f Hrf) by lia. by apply Hb.
Qed.

(** The pages below page [i] that are in memory, and the directory entries of their tables. *)
Definition present (m : memory) pd (i : Z) : list Z := filter (λ j, has_P (pte m pd (j * PGSIZE)) = true) (seqZ 0 i).
Definition user_tables (m : memory) pd (i : Z) : list Z := remove_dups ((λ j, PDX (j * PGSIZE)) <$> present m pd i).

(** What a copy of the first [i] pages takes from the allocator: the directory, the tables of the
    kernel's half, the tables of the pages in memory, and a frame for each of them. *)
Definition copy_needs (m : memory) pd (i : Z) : nat := 1 + 64 + length (user_tables m pd i) + length (present m pd i).

Lemma elem_of_present m pd i j : j ∈ present m pd i ↔ has_P (pte m pd (j * PGSIZE)) = true ∧ 0 ≤ j < i.
Proof. unfold present. rewrite list_elem_of_filter, elem_of_seqZ. by rewrite Z.add_0_l. Qed.

Lemma elem_of_user_tables m pd i t :
  t ∈ user_tables m pd i ↔ ∃ j, t = PDX (j * PGSIZE) ∧ has_P (pte m pd (j * PGSIZE)) = true ∧ 0 ≤ j < i.
Proof. unfold user_tables. rewrite elem_of_remove_dups, list_elem_of_fmap. by setoid_rewrite elem_of_present. Qed.

Lemma user_tables_mono m pd i i' : i ≤ i' → user_tables m pd i ⊆ user_tables m pd i'.
Proof. intros Hi t. rewrite !elem_of_user_tables. intros (j & ? & ? & ?). exists j. split_and!; done || lia. Qed.

(** A page in memory at [i] or later takes one more frame. *)
Lemma present_lt m pd i hi : 0 ≤ i < hi → has_P (pte m pd (i * PGSIZE)) = true → (length (present m pd i) < length (present m pd hi))%nat.
Proof.
  intros Hi HP. unfold present. replace hi with (i + (1 + (hi - i - 1))) by lia. rewrite !seqZ_app by lia.
  rewrite !filter_app, !length_app. change (seqZ (0 + i) 1) with [0 + i]. rewrite filter_cons, Z.add_0_l, decide_True by done. cbn. lia.
Qed.

Record copying (v0 : vmem) pd l0 d (i : Z) v l : Prop := {
  cp_made : made d l0 v l;
  cp_out : outside l0 (mem v0) (mem v);
  cp_rest va : 0 ≤ va < KERNBASE → i ≤ va / PGSIZE → pte (mem v) d va = 0;
  cp_done j : 0 ≤ j < i → copied (mem v0) pd (mem v) d j;
  cp_tabs : tables_of (mem v) d (kernel_tables ++ user_tables (mem v0) pd i);
  cp_lock : use_lock v = use_lock v0;
  cp_kpgdir : kpgdir v = kpgdir v0
}.

(** The parent's pages are not among those handed out, so they stay as they were. *)
Lemma parent_agree v0 pd l0 m : aspace (mem v0) pd l0 → kmem_ok v0 l0 → outside l0 (mem v0) m →
  (∀ r q, role_page (mem v0) pd r = Some q → agree (mem v0) m q) ∧ (∀ va, pte m pd va = pte (mem v0) pd va) ∧
  (∀ i, 0 ≤ i < 1024 → table m pd i = table (mem v0) pd i).
Proof.
  intros Has Hk Hout. assert (Hag : ∀ r q, role_page (mem v0) pd r = Some q → agree (mem v0) m q).
  { intros r q Hr a Ha. apply Hout. intros p Hp. destruct (as_page _ _ _ Has _ _ Hr) as [Hq Hql]. destruct Hk as [_ _ Hall]. rewrite Forall_forall in Hall.
    destruct (page_ok_disjoint q p Hq (Hall p Hp)); [set_solver|by within_cases..]. }
  split_and!; [done|intros va; apply pte_tabs; intros q (r & _ & Hr); by eapply Hag|].
  intros i Hi. apply table_agree; [|done]. by apply (Hag RDir).
Qed.

(** A page handed out and filled with the bytes of a page of the parent. *)
Lemma fill_page v0 pd l0 d i v l f src :
  copying v0 pd l0 d i v (f :: l) →
  let v1 := set_mem (memmove (mem v) f src PGSIZE) (kalloc_vm v) in
  let l1 := filter (λ q, q ≠ f) l0 in
  made d l1 v1 l ∧ fresh (mem v1) d l f ∧ (∀ q, q ∈ l0 ↔ q ∈ l1 ∨ q = f) ∧ outside l0 (mem v0) (mem v1) ∧
  (∀ va, pte (mem v1) d va = pte (mem v) d va) ∧ (∀ j, 0 ≤ j < i → copied (mem v0) pd (mem v1) d j) ∧
  (∀ o, 0 ≤ o < PGSIZE → rd8 (mem v1) (f + o) = rd8 (mem v) (src + o)) ∧ (∀ r, role_page (mem v1) d r = role_page (mem v) d r) ∧
  use_lock v1 = use_lock v ∧ kpgdir v1 = kpgdir v.
Proof.
  intros [[Hk Has Hall] Hout Hrest Hdone _ Hl Hkp] v1 l1. destruct (kmem_ok_cons _ _ _ Hk) as (Hf & Hp & Hpl & Hv & _).
  assert (Hm : ∀ a, within f PGSIZE a = false → rd8 (memmove (mem v) f src PGSIZE) a = rd8 (mem v) a) by (intros a Ha; rewrite rd8_memmove by clia; by rewrite Ha).
  destruct (alloc_page v d f l _ Hk Has Hm) as (Hk1 & Has1 & Hfr & Hpte & Hrole & Hag).
  assert (Hfl : f ∈ l0) by (apply Hall; left; set_solver).
  assert (Hl1 : ∀ q, q ∈ l0 ↔ q ∈ l1 ∨ q = f) by (intros q; unfold l1; rewrite list_elem_of_filter; destruct (decide (q = f)); naive_solver).
  split_and!; [split; [done|done|]|done|done| |done| | |exact Hrole|by cbn; rewrite Hv|by cbn; rewrite Hv].
  - intros q. unfold l1. rewrite list_elem_of_filter, Hall, elem_of_cons. cbn [mem v1 set_mem]. setoid_rewrite Hrole. split.
    + intros (Hne & [[?|?]|?]); [done|by left|by right].
    + intros [Hq|(r & Hr)]; [split; [congruence|by left; right]|]. split; [|right; by exists r]. intros ->. destruct (as_page _ _ _ Has _ _ Hr). set_solver.
  - intros a Ha. cbn. rewrite Hm by (by apply Ha). by apply Hout.
  - intros j Hj. eapply copied_step; [by apply Hdone|apply Hpte|apply Hrole|]. intros g Hg. by eapply Hag.
  - intros o Ho. cbn. rewrite rd8_memmove by clia. within_cases. f_equal. lia.
Qed.

Lemma fresh_agree d v l v' l' f :
  kmem_ok v l → aspace (mem v) d l → fresh (mem v) d l f → pt_step d v l v' l' → agree (mem v) (mem v') f.
Proof.
  intros Hk Has (Hf & Hfl & Hfr) Hs. eapply agree_outside; [done| |apply Hs]. intros q [(r & _ & Hr)|Hq].
  - split; [by apply (as_page _ _ _ Has r)|]. intros ->. by apply (Hfr r).
  - destruct Hk as [_ _ Hall]. rewrite Forall_forall in Hall. split; [auto|]. by intros ->.
Qed.

(** The bookkeeping of one page that is copied. *)
Lemma copy_page v0 pd l0 d i v l f v1 v2 l2 :
  let e := pte (mem v0) pd (i * PGSIZE) in let l1 := filter (λ q, q ≠ f) l0 in
  copying v0 pd l0 d i v (f :: l) → 0 ≤ i < UPAGES → has_P e = true → made d l1 v1 l → fresh (mem v1) d l f →
  (∀ q, q ∈ l0 ↔ q ∈ l1 ∨ q = f) → outside l0 (mem v0) (mem v1) → (∀ va, pte (mem v1) d va = pte (mem v) d va) →
  (∀ j, 0 ≤ j < i → copied (mem v0) pd (mem v1) d j) →
  (∀ o, 0 ≤ o < PGSIZE → rd8 (mem v1) (f + o) = rd8 (mem v0) (P2V (PTE_ADDR e) + o)) → use_lock v1 = use_lock v → kpgdir v1 = kpgdir v →
  tables_of (mem v1) d (kernel_tables ++ user_tables (mem v0) pd i) →
  pt_step d v1 l v2 l2 → gains d (mem v1) (mem v2) (PDX (i * PGSIZE)) (PDX (i * PGSIZE)) →
  (∀ va, 0 ≤ va < i * PGSIZE ∨ i * PGSIZE + PGSIZE ≤ va < 2 ^ 32 → pte (mem v2) d va = pte (mem v1) d va) →
  (∀ va, i * PGSIZE ≤ va < i * PGSIZE + PGSIZE → pte (mem v2) d va = Z.lor (Z.lor (V2P f) (PTE_FLAGS e)) PTE_P) →
  copying v0 pd l0 d (i + 1) v2 l2.
Proof.
  intros e l1 Hc Hi HP Hmd Hfr Hl1 Hout Hpte Hdone Hbytes Hul Hkp Hto Hs Hg Hlow Hnew.
  pose proof (pte_range (mem v0) pd (i * PGSIZE)) as He. fold e in He. pose proof Hfr as (Hfp & Hfl & _).
  assert (Hfe : 0 ≤ PTE_FLAGS e < 4096) by (rewrite PTE_FLAGS_eq by done; lia).
  destruct (flags_entry (V2P f) (PTE_FLAGS e) Hfe) as [Hlor Hrange].
  assert (Hri : role_page (mem v2) d (RUser i) = Some f).
  { cbn. rewrite (proj2 (Z.leb_le _ _)), (proj2 (Z.ltb_lt _ _)) by lia. cbn. rewrite Hnew, Hlor by clia.
    destruct (entry_page f _ Hfp Hrange) as [_ ->]. rewrite !has_P_lor. by rewrite (orb_comm (has_P (V2P f))), (orb_comm (has_P (PTE_FLAGS e))). }
  assert (Hsame : ∀ n, n ≠ i → role_page (mem v2) d (RUser n) = role_page (mem v1) d (RUser n)).
  { intros n Hn. cbn. destruct (Z.leb_spec 0 n), (Z.ltb_spec n UPAGES); cbn; try done. rewrite Hlow by clia. done. }
  assert (Hri1 : role_page (mem v1) d (RUser i) = None).
  { cbn. rewrite Hpte, (cp_rest _ _ _ _ _ _ _ Hc) by clia. rewrite has_P_0. by case_match. }
  split.
  - by eapply made_map.
  - intros a Ha. rewrite (step_outside _ _ _ _ _ _ Hmd Hs a); [by apply Hout|]. intros q Hq. apply Ha, Hl1. by left.
  - intros va Hva Hge. rewrite Hlow by clia. rewrite Hpte. apply Hc; [done|lia].
  - intros j Hj. destruct (decide (j = i)) as [->|Hne].
    + unfold copied. fold e. rewrite HP. exists f. split_and!; [apply Hnew; clia|done|]. intros o Ho.
      rewrite (fresh_agree d v1 l v2 l2 f (md_kmem _ _ _ _ Hmd) (md_aspace _ _ _ _ Hmd) Hfr Hs) by lia. by apply Hbytes.
    + eapply copied_step; [apply Hdone; lia|apply Hlow; clia|by apply Hsame|]. intros g Hgf.
      eapply pt_step_user; [exact Hs|apply Hmd|apply Hmd|exact Hgf].
  - intros j Hj Ht. rewrite elem_of_app. destruct (Hg j Hj Ht) as [Ht1|Hji].
    + destruct (proj1 (elem_of_app _ _ _) (Hto j Hj Ht1)); [by left|right]. by apply (user_tables_mono _ _ i); [lia|].
    + right. apply elem_of_user_tables. exists i. split_and!; done || lia.
  - rewrite (ps_lock _ _ _ _ _ Hs), Hul. apply Hc.
  - rewrite (ps_kpgdir _ _ _ _ _ Hs), Hkp. apply Hc.
Qed.

Lemma tables_of_roles m m' d T : (∀ i, role_page m' d (RTab i) = role_page m d (RTab i)) → tables_of m d T → tables_of m' d T.
Proof.
  intros Hr HT i Hi. specialize (Hr i). cbn in Hr. rewrite (proj2 (Z.leb_le _ _)), (proj2 (Z.ltb_lt _ _)) in Hr by clia.
  cbn in Hr. rewrite Hr. by apply HT.
Qed.

Lemma user_tables_le m pd i i' : i ≤ i' → (length (user_tables m pd i) ≤ length (user_tables m pd i'))%nat.
Proof. intros Hi. apply submseteq_length, NoDup_submseteq; [apply NoDup_remove_dups|by apply user_tables_mono]. Qed.

(** The frames of the child are those of the pages copied so far. *)
Lemma copying_users v0 pd l0 d i v l :
  copying v0 pd l0 d i v l → ∀ n, is_Some (role_page (mem v) d (RUser n)) → n ∈ present (mem v0) pd i.
Proof.
  intros Hc n [q Hq]. cbn in Hq. destruct (Z.leb_spec 0 n), (Z.ltb_spec n UPAGES); cbn in Hq; try done.
  destruct (decide (i ≤ n)) as [Hge|Hlt]; [by rewrite (cp_rest _ _ _ _ _ _ _ Hc) in Hq by clia|].
  apply elem_of_present. split; [|lia]. pose proof (cp_done _ _ _ _ _ _ _ Hc n ltac:(lia)) as Hn. unfold copied in Hn.
  destruct (has_P (pte (mem v0) pd _)); [done|]. by rewrite Hn in Hq.
Qed.

(** When the table for page [i] is missing and no page is left for it, there were too few. *)
Lemma lost_count m pd l0 l1 f d v i hi :
  NoDup l0 → 0 ≤ i < hi → has_P (pte m pd (i * PGSIZE)) = true → made d l1 v [] → table (mem v) d (PDX (i * PGSIZE)) = None →
  (∀ q, q ∈ l0 → q ∈ l1 ∨ q = f) → tables_of (mem v) d (kernel_tables ++ user_tables m pd i) →
  (∀ n, is_Some (role_page (mem v) d (RUser n)) → n ∈ present m pd i) → (length l0 < copy_needs m pd hi)%nat.
Proof.
  intros Hnd Hi HP Hmd Hnt Hl1 Hto Hus. set (l2 := remove_dups l1).
  assert (Hmd2 : made d l2 v []) by (destruct Hmd as [? ? Ha]; split; [done|done|]; intros q; unfold l2; rewrite elem_of_remove_dups; apply Ha).
  assert (Hto' : tables_of (mem v) d (kernel_tables ++ user_tables m pd hi)).
  { intros j Hj Ht. specialize (Hto j Hj Ht). rewrite elem_of_app in *. destruct Hto as [?|Hj']; [by left|right]. by apply (user_tables_mono m pd i hi); [lia|]. }
  pose proof (made_count d l2 v [] _ _ (NoDup_remove_dups _) Hmd2 (tables_of_missing _ _ _ _ Hto' Hnt) Hus) as Hcount.
  assert (Hin : PDX (i * PGSIZE) ∈ kernel_tables ++ user_tables m pd hi).
  { apply elem_of_app. right. apply elem_of_user_tables. by exists i. }
  pose proof (filter_shorter _ _ Hin) as Hsh. rewrite length_app in Hsh. change (length kernel_tables) with 64%nat in Hsh.
  assert (Hl0 : (length l0 ≤ length (f :: l2))%nat).
  { apply submseteq_length, NoDup_submseteq; [done|]. intros q Hq. unfold l2. rewrite elem_of_cons, elem_of_remove_dups. destruct (Hl1 q Hq); auto. }
  pose proof (present_lt m pd i hi Hi HP). unfold copy_needs. cbn [length] in *. lia.
Qed.

(** Giving up: the child is freed, all pages are free again but possibly [lost]. *)
Definition gave_up v0 l0 v l (lost : list Z) : Prop :=
  kmem_ok v l ∧ (∀ q, q ∈ l ↔ q ∈ l0 ∧ q ∉ lost) ∧ (length lost ≤ 1)%nat ∧ outside l0 (mem v0) (mem v) ∧
  use_lock v = use_lock v0 ∧ kpgdir v = kpgdir v0.

Lemma copy_abandon k v0 l0 l1 d v l lost :
  cur_ok k → kmem_ready (set_k_vm v k) → made d l1 v l → swapped_ok (mem v) d 0 UPAGES → (∀ q, q ∈ l1 ↔ q ∈ l0 ∧ q ∉ lost) →
  (length lost ≤ 1)%nat → outside l0 (mem v0) (mem v) → use_lock v = use_lock v0 → kpgdir v = kpgdir v0 →
  ∃ v' l', (freevm d;; ret 0) (set_k_vm v k) = Ok 0 (set_k_vm v' k) ∧ gave_up v0 l0 v' l' lost.
Proof.
  intros Hcur Hrd Hmd Hsw Hl1 Hlost Hout Hul Hkp.
  destruct (free_made (set_k_vm v k) d l1 l Hcur Hrd Hmd Hsw) as (v' & l' & Hrun & Hk' & Hl' & Hout' & Hul' & Hkp').
  exists v', l'. rewrite (bind_ok _ _ _ _ _ Hrun). cbn in *. split; [done|]. split_and!; [done|intros q; by rewrite Hl', Hl1|done| |congruence|congruence].
  intros a Ha. rewrite Hout'; [by apply Hout|]. intros q Hq. apply Ha. by apply Hl1.
Qed.

(** Mapping one page: it fails only when a table is missing and no page is free, and then nothing
    has changed. *)
Lemma mappages_one k pd a f perm l :
  kmem_ready k → kmem_ok (k_vm k) l → aspace (mem (k_vm k)) pd l → 0 ≤ a < KERNBASE → a mod 4096 = 0 → 0 ≤ perm < 4096 →
  fresh (mem (k_vm k)) pd l f → has_P (pte (mem (k_vm k)) pd a) = false →
  (l = [] ∧ table (mem (k_vm k)) pd (PDX a) = None ∧ mappages pd a PGSIZE (V2P f) perm k = Ok (-1) k) ∨
  ∃ v l', mappages pd a PGSIZE (V2P f) perm k = Ok 0 (set_k_vm v k) ∧ pt_step pd (k_vm k) l v l' ∧
    gains pd (mem (k_vm k)) (mem v) (PDX a) (PDX a) ∧
    (∀ va, 0 ≤ va < a ∨ a + PGSIZE ≤ va < 2 ^ 32 → pte (mem v) pd va = pte (mem (k_vm k)) pd va) ∧
    (∀ va, a ≤ va < a + PGSIZE → pte (mem v) pd va = Z.lor (Z.lor (V2P f) perm) PTE_P).
Proof.
  intros Hrd Hk Has Ha Hal Hperm Hfr HP. unfold mappages.
  assert (Hb : PGROUNDDOWN a = a) by (rewrite PGROUNDDOWN_eq; clia).
  assert (Hl : PGROUNDDOWN (u32 (a + PGSIZE - 1)) = a) by (rewrite u32_small, PGROUNDDOWN_eq; clia).
  rewrite Hb, Hl, Z.sub_diag. change (Z.to_nat (u32 0 / PGSIZE)) with 0%nat. cbn [mappages_loop].
  pose proof Hfr as (Hfp & _). destruct (V2P_page f Hfp) as (_ & Hv & Hva).
  assert (Hfr' : a < KERNBASE → fresh (mem (k_vm k)) pd l (P2V (V2P f))) by (intros _; rewrite P2V_V2P; [done|pose proof (page_ok_range f Hfp); clia]).
  destruct (map_step k pd a (V2P f) perm l Hrd Hk Has ltac:(clia) Hperm Hv Hva Hfr')
    as [(-> & Hnt & Hw)|(ad & v1 & l1 & Hw & Had & Hrd1 & Hs & Hpte & Hg)]; rewrite (bind_ok _ _ _ _ _ Hw).
  - left. done.
  - right. rewrite (proj2 (Z.eqb_neq _ _)) by done. cbn [bind load32 getm gets k_vm set_k_vm]. rewrite Hrd1.
    fold (has_P (pte (mem (k_vm k)) pd a)). rewrite HP. cbn. rewrite Z.eqb_refl. eexists _, l1. split_and!; [done|done|done| |].
    + intros va Hva'. cbn. rewrite Hpte by clia. zcases; first [done|clia].
    + intros va Hva'. cbn. rewrite Hpte by clia. zcases; first [done|clia].
Qed.

Lemma child_swapped v0 pd l0 d i v l m : copying v0 pd l0 d i v l → (∀ va, pte m d va = pte (mem v) d va) → swapped_ok m d 0 UPAGES.
Proof.
  intros Hc Hm va Hva Hr HP. rewrite Hm in *. destruct (decide (i ≤ va / PGSIZE)) as [Hge|Hlt]; [by rewrite (cp_rest _ _ _ _ _ _ _ Hc)|].
  pose proof (cp_done _ _ _ _ _ _ _ Hc (va / PGSIZE) ltac:(lia)) as Hj. unfold copied in Hj.
  rewrite (pte_same_page _ d va (va / PGSIZE * PGSIZE)) in HP |- * by clia. destruct (has_P (pte (mem v0) pd _)).
  - destruct Hj as (f & Hf & _). rewrite Hf, !has_P_lor, orb_true_r in HP. done.
  - by rewrite Hj.
Qed.

(** Every page of the parent below its size is in memory or in the swap file. *)
Definition all_there (m : memory) pd (n : Z) : Prop := ∀ j, 0 ≤ j < n → has_P (pte m pd (j * PGSIZE)) = true ∨ has_PG (pte m pd (j * PGSIZE)) = true.

(** Copying one page: the rest of the loop runs on the next page, or all is given up. *)
Lemma copy_round (rest : K Z) k pd l0 d i hi v l :
  let e := pte (mem (k_vm k)) pd (i * PGSIZE) in
  cur_ok k → kmem_ready (set_k_vm v k) → kmem_ok (k_vm k) l0 → aspace (mem (k_vm k)) pd l0 → copying (k_vm k) pd l0 d i v l → 0 ≤ i < UPAGES → i < hi → has_P e = true →
  let round := f ← kalloc;
    if f =? 0 then freevm d;; ret 0
    else
      mod_mem (λ x, memmove x f (P2V (PTE_ADDR e)) PGSIZE);;
      r ← mappages d (i * PGSIZE) PGSIZE (V2P f) (PTE_FLAGS e);
      if r <? 0 then freevm d;; ret 0 else rest in
  (∃ v' l', copying (k_vm k) pd l0 d (i + 1) v' l' ∧ round (set_k_vm v k) = rest (set_k_vm v' k)) ∨
  (∃ v' l' lost, round (set_k_vm v k) = Ok 0 (set_k_vm v' k) ∧ (length l0 < copy_needs (mem (k_vm k)) pd hi)%nat ∧ gave_up (k_vm k) l0 v' l' lost).
Proof.
  intros e Hcur Hrd Hk0 Has0 Hc Hi Hhi HP round. pose proof (kmem_nodup _ _ Hk0) as Hnd.
  pose proof (present_lt (mem (k_vm k)) pd i hi ltac:(lia) HP) as Hpl. pose proof (copying_users _ _ _ _ _ _ _ Hc) as Hus. unfold round. rewrite (bind_ok _ _ _ _ _ (kalloc_run _ Hrd)). cbn [k_vm set_k_vm].
  pose proof (md_kmem _ _ _ _ (cp_made _ _ _ _ _ _ _ Hc)) as Hk. destruct l as [|f l].
  { destruct (kmem_ok_nil _ Hk) as [Hf Hv]. rewrite Hf. cbn [Z.eqb]. right.
    destruct (copy_abandon k (k_vm k) l0 l0 d v [] [] Hcur Hrd (cp_made _ _ _ _ _ _ _ Hc)) as (v' & l' & Hrun & Hg);
      [by eapply child_swapped|set_solver|cbn; lia|apply Hc|apply Hc|apply Hc|].
    exists v', l', []. split_and!; [| |done]; [rewrite <- Hrun; unfold mod_vm; cbn; by rewrite Hv|].
    pose proof (made_count d l0 v [] _ _ Hnd (cp_made _ _ _ _ _ _ _ Hc) (cp_tabs _ _ _ _ _ _ _ Hc) Hus) as Hcount.
    rewrite length_app in Hcount. pose proof (user_tables_le (mem (k_vm k)) pd i hi ltac:(lia)).
    unfold copy_needs. change (length kernel_tables) with 64%nat in Hcount. cbn [length] in Hcount. lia. }
  destruct (kmem_ok_cons _ _ _ Hk) as (Hf & Hp & _ & Hv & _). rewrite Hf. pose proof (page_ok_range f Hp) as Hpr. rewrite (proj2 (Z.eqb_neq _ _)) by clia.
  destruct (fill_page (k_vm k) pd l0 d i v l f (P2V (PTE_ADDR e)) Hc) as (Hmd1 & Hfr1 & Hl1 & Hout1 & Hpte1 & Hdone1 & Hb1 & Hrole1 & Hul1 & Hkp1).
  set (v1 := set_mem _ (kalloc_vm v)) in *. set (l1 := filter _ l0) in *. pose proof (pte_range (mem (k_vm k)) pd (i * PGSIZE)) as He. fold e in He.
  rewrite (bind_ok _ _ _ tt (set_k_vm v1 k)) by (cbn; unfold v1, mod_vm; cbn; by rewrite Hv).
  assert (Hrd1 : kmem_ready (set_k_vm v1 k)) by (destruct Hrd as [Hu|?]; [left; cbn in *; congruence|by right]).
  pose proof (tables_of_roles _ _ _ _ (λ i, Hrole1 (RTab i)) (cp_tabs _ _ _ _ _ _ _ Hc)) as Hto1.
  destruct (mappages_one (set_k_vm v1 k) d (i * PGSIZE) f (PTE_FLAGS e) l Hrd1 (md_kmem _ _ _ _ Hmd1) (md_aspace _ _ _ _ Hmd1))
    as [(-> & Hnt & Hrun)|(v2 & l2 & Hrun & Hs & Hg & Hlow & Hnew)]; [clia|clia|rewrite PTE_FLAGS_eq by done; lia|done| | |].
  { cbn [k_vm set_k_vm]. rewrite Hpte1, (cp_rest _ _ _ _ _ _ _ Hc) by clia. done. }
  - rewrite (bind_ok _ _ _ _ _ Hrun). right. destruct (copy_abandon k (k_vm k) l0 l1 d v1 [] [f] Hcur Hrd1 Hmd1) as (v' & l' & Hrun' & Hgu);
      [by eapply child_swapped| |done|done|rewrite Hul1; apply Hc|rewrite Hkp1; apply Hc|exists v', l', [f]; split_and!; [done| |done]].
    { intros q. unfold l1. rewrite list_elem_of_filter, list_elem_of_singleton. tauto. }
    apply (lost_count (mem (k_vm k)) pd l0 l1 f d v1 i hi); [done|lia|done|done|done| |done|intros n; rewrite Hrole1; apply Hus].
    intros q Hq. by apply Hl1.
  - rewrite (bind_ok _ _ _ _ _ Hrun). left. exists v2, l2. split; [|done]. cbn [k_vm set_k_vm] in *.
    eapply copy_page; [exact Hc|lia|exact HP|exact Hmd1|exact Hfr1|exact Hl1|exact Hout1|exact Hpte1|exact Hdone1| |exact Hul1|exact Hkp1|exact Hto1|exact Hs|exact Hg|exact Hlow|exact Hnew].
    intros o Ho. rewrite Hb1 by done. destruct (parent_agree (k_vm k) pd l0 (mem v) Has0 Hk0 (cp_out _ _ _ _ _ _ _ Hc)) as (Hag & _).
    assert (Hir : 0 ≤ i * PGSIZE < KERNBASE) by clia. pose proof (role_user _ _ _ Hir HP) as Hr. apply (Hag _ _ Hr). fold e. lia.
Qed.

Lemma copyuvm_loop_ok k pd l0 d sz' :
  cur_ok k → kmem_ready k → kmem_ok (k_vm k) l0 → aspace (mem (k_vm k)) pd l0 → 0 ≤ sz' ≤ KERNBASE → let hi := (sz' + PGSIZE - 1) / PGSIZE in
  all_there (mem (k_vm k)) pd hi → ∀ fuel i v l, copying (k_vm k) pd l0 d i v l → 0 ≤ i ≤ hi → hi - i ≤ Z.of_nat fuel →
  ∃ r v' l', copyuvm_loop fuel pd d (i * PGSIZE) sz' (set_k_vm v k) = Ok r (set_k_vm v' k) ∧
    ((r = d ∧ copying (k_vm k) pd l0 d hi v' l') ∨ (r = 0 ∧ (length l0 < copy_needs (mem (k_vm k)) pd hi)%nat ∧ ∃ lost, gave_up (k_vm k) l0 v' l' lost)).
Proof.
  intros Hcur Hrd Hk0 Has0 Hsz hi Hth. induction fuel as [|fuel IH]; intros i v l Hc Hi Hf; cbn [copyuvm_loop].
  all: destruct (Z.ltb_spec (i * PGSIZE) sz') as [Hlt|Hge]; [|exists d, v, l; split; [done|]; left; split; [done|]; replace hi with i by (unfold hi in *; clia); done].
  { exfalso. unfold hi in Hf. clia. }
  assert (Hin : 0 ≤ i < UPAGES ∧ i < hi) by (unfold hi; clia).
  destruct (parent_agree (k_vm k) pd l0 (mem v) Has0 Hk0 (cp_out _ _ _ _ _ _ _ Hc)) as (Hag & Hpte & Htab).
  set (e := pte (mem (k_vm k)) pd (i * PGSIZE)). assert (He : has_P e = true ∨ has_PG e = true) by (apply Hth; lia).
  assert (∃ t, table (mem (k_vm k)) pd (PDX (i * PGSIZE)) = Some t) as [t Ht].
  { destruct (table _ pd (PDX (i * PGSIZE))) as [t|] eqn:Ht; [by exists t|]. unfold e in He. rewrite (pte_none _ _ _ Ht) in He. by destruct He. }
  rewrite (bind_ok _ _ _ _ _ (walkpgdir_found (set_k_vm v k) pd _ 0 t ltac:(cbn; by rewrite Htab by apply PDX_range))).
  rewrite (proj2 (Z.eqb_neq _ _)) by (by eapply entry_nonzero).
  rewrite (bind_ok _ _ _ e (set_k_vm v k)) by (cbn; rewrite <- (pte_some (mem v) pd _ t) by (by rewrite Htab by apply PDX_range); by rewrite Hpte).
  fold (has_P e). fold (has_PG e). assert (Hrdv : kmem_ready (set_k_vm v k)) by (destruct Hrd as [?|?]; [left; cbn; by rewrite (cp_lock _ _ _ _ _ _ _ Hc)|by right]).
  replace (i * PGSIZE + PGSIZE) with ((i + 1) * PGSIZE) by lia. destruct (has_P e) eqn:HP; cbn [negb].
  - destruct (copy_round (copyuvm_loop fuel pd d ((i + 1) * PGSIZE) sz') k pd l0 d i hi v l Hcur Hrdv Hk0 Has0 Hc) as [(v1 & l1 & Hc1 & Hrun)|(v1 & l1 & lost & Hrun & Hfew & Hg)];
      [lia|lia|done| |exists 0, v1, l1; split; [exact Hrun|right; split_and!; [done|done|by exists lost]]].
    destruct (IH (i + 1) v1 l1 Hc1) as (r & v2 & l2 & Hrun2 & Hres); [lia|lia|]. exists r, v2, l2. split; [|done]. etrans; [exact Hrun|exact Hrun2].
  - destruct He as [?| ->]; [congruence|]. cbn [negb]. apply (IH (i + 1) v l); [|lia|lia]. destruct Hc as [Hmd Hout Hrest Hdone Hto Hul Hkp].
    split; [done|done|intros; apply Hrest; lia| | |done|done].
    2:{ intros j Hj Htj. specialize (Hto j Hj Htj). rewrite elem_of_app in *. destruct Hto as [?|Hj']; [by left|right]. by apply (user_tables_mono _ _ i); [lia|]. }
    intros j Hj. destruct (decide (j = i)) as [->|]; [|apply Hdone; lia].
    unfold copied. fold e. rewrite HP. apply Hrest; clia.
Qed.

(** ** The properties *)

(** C24: [freevm] gives back every page of an address space and no other: afterwards a page is free
    exactly when it was before, or was the directory, a page table or a frame of the address space
    (no page is lost, and none is freed twice); memory outside those pages is unchanged. *)
Theorem freevm_frees k pd l :
  cur_ok k → kmem_ready k → kmem_ok (k_vm k) l → aspace (mem (k_vm k)) pd l → swapped_ok (mem (k_vm k)) pd 0 UPAGES →
  ∃ v' l', freevm pd k = Ok tt (set_k_vm v' k) ∧ kmem_ok v' l' ∧
    (∀ q, q ∈ l' ↔ q ∈ l ∨ ∃ r, role_page (mem (k_vm k)) pd r = Some q) ∧
    (∀ a, (∀ r q, role_page (mem (k_vm k)) pd r = Some q → within q PGSIZE a = false) → rd8 (mem v') a = rd8 (mem (k_vm k)) a) ∧
    use_lock v' = use_lock (k_vm k) ∧ kpgdir v' = kpgdir (k_vm k).
Proof. apply freevm_ok. Qed.

(** C14: [copyuvm] gives the child a copy of every page the parent has in memory, with the same flags
    and the same 4096 bytes in a frame of its own, an empty entry for every page the parent has in
    the swap file, and no page beyond the size; each page taken from the allocator has one role in
    the child, and the parent's tables and frames are unchanged. It gives up only when memory runs
    out, that is when fewer pages are free than the copy takes ([copy_needs]: the directory, 64
    tables for the kernel's half, the tables of the pages in memory and a frame for each of them);
    then it returns 0 and all pages are free again, but at most one. *)
Theorem copyuvm_copies k pd l sz' :
  cur_ok k → kmem_ready k → kmem_ok (k_vm k) l → aspace (mem (k_vm k)) pd l → 0 ≤ sz' ≤ KERNBASE →
  let hi := (sz' + PGSIZE - 1) / PGSIZE in all_there (mem (k_vm k)) pd hi →
  ∃ d v l', copyuvm pd sz' k = Ok d (set_k_vm v k) ∧
    (∀ va, pte (mem v) pd va = pte (mem (k_vm k)) pd va) ∧
    (∀ r q, role_page (mem (k_vm k)) pd r = Some q → agree (mem (k_vm k)) (mem v) q) ∧
    ((d ≠ 0 ∧ made d l v l' ∧ (∀ j, 0 ≤ j < hi → copied (mem (k_vm k)) pd (mem v) d j) ∧
      (∀ va, 0 ≤ va < KERNBASE → hi ≤ va / PGSIZE → pte (mem v) d va = 0)) ∨
     (d = 0 ∧ (length l < copy_needs (mem (k_vm k)) pd hi)%nat ∧ ∃ lost, gave_up (k_vm k) l v l' lost)).
Proof.
  intros Hcur Hrd Hk Has Hsz hi Hth. unfold copyuvm. destruct (setupkvm_ok k l Hcur Hrd Hk) as (d & v1 & l1 & Hrun & Hul & Hkp & Hk1 & Hout & Hres).
  rewrite (bind_ok _ _ _ _ _ Hrun). destruct Hres as [(-> & Hfew & Hl1)|(Hd & Hmd & Hto & Hz & _)].
  - destruct (parent_agree (k_vm k) pd l (mem v1) Has Hk Hout) as (Hag & Hpte & _). exists 0, v1, l1. split_and!; [done|done|done|].
    right. split; [done|]. split; [unfold copy_needs; lia|]. exists []. split_and!; [done|intros q; rewrite Hl1; set_solver|cbn; lia|done|done|done].
  - rewrite (proj2 (Z.eqb_neq _ _)) by done. assert (Hc : copying (k_vm k) pd l d 0 v1 l1).
    { split; [done|done|intros; by apply Hz|intros; lia| |done|done]. intros i Hi Ht. apply elem_of_app. left. by apply Hto. }
    destruct (copyuvm_loop_ok k pd l d sz' Hcur Hrd Hk Has Hsz Hth (S (Z.to_nat (sz' / PGSIZE))) 0 v1 l1 Hc) as (r & v2 & l2 & Hrun2 & Hres);
      [unfold hi in *; clia|rewrite Nat2Z.inj_succ, Z2Nat.id; clia|]. exists r, v2, l2.
    assert (Hout2 : outside l (mem (k_vm k)) (mem v2)) by (destruct Hres as [[_ Hc2]|(_ & _ & lost & Hg)]; [apply Hc2|apply Hg]).
    destruct (parent_agree (k_vm k) pd l (mem v2) Has Hk Hout2) as (Hag & Hpte & _). split_and!; [exact Hrun2|done|done|].
    destruct Hres as [[-> Hc2]|(-> & Hg)]; [left|by right]. split_and!; [done|apply Hc2|apply Hc2|apply Hc2].
Qed.
End vmspec.
