(* ===== verification/Proc.v ===== *)
(** The life of a process, [proc.c]: creation, [fork], [exit], [wait], the
    scheduler, and the listing of the process table. *)

From S2P Require Import Prelude Params Bytes State Spinlock Mem Kalloc PageTable Uaccess Procs Sched Bio Log Inode Console Fs File Sysfile Queue QueueSpec Swap Vm.

Section proc.
Context `{link} `{build} `{FileIO} `{world}.

Definition pinit : K unit := initlock Lptable "ptable".

(** ** Creation *)
Definition clean_pages : list page :=
  replicate (Z.to_nat MAX_TOTAL_PAGES) (mkPage 0 (-1) 0 0 new_age).
Definition clean_queue : list Z := replicate (Z.to_nat MAX_PSYC_PAGES) (-1).
Definition clean_paging : paging := mkPaging clean_pages 0 0 0 0 0 clean_queue clean_queue.

(** [sizeof(struct trapframe)] *)
Definition TF_SIZE : Z := 76.

(** The trap frame itself is not initialised here: both callers overwrite it. *)
Definition allocproc : K (option nat) :=
  acquire Lptable;;
  t ← gets k_pt;
  match fst <$> list_find (λ q, state q = UNUSED) (procs t) with
  | None => release Lptable;; ret None
  | Some p =>
      mod_proc p (set_state EMBRYO);;
      mod_proc p (set_pid (nextpid t));;
      modify (mod_pt (λ t, set_nextpid (s32 (nextpid t + 1)) t));;
      release Lptable;;
      ks ← kalloc;
      mod_proc p (set_kstack ks);;
      if ks =? 0 then mod_proc p (set_state UNUSED);; ret None
      else
        store32 (ks + KSTACKSIZE - TF_SIZE - 4) trapret_addr;;
        mod_proc p (set_ctx (mkContext 0 0 0 0 forkret_addr));;
        mod_proc p (set_pg clean_paging);;
        ret (Some p)
  end.

(** A selector for user segment [i]. *)
Definition user_seg (i : Z) : Z := Z.lor (Z.shiftl i 3) DPL_USER.
Definition init_tf : trapframe :=
  let ds := user_seg SEG_UDATA in
  mkTrapframe 0 0 0 0 0 0 0 0 0 0 ds ds 0 0 0 (user_seg SEG_UCODE) FL_IF PGSIZE ds.

(** [safestrcpy(dst, s, sizeof(p->name))]; after a copied zero comes another one. *)
Definition safe_name (old s : list Z) : list Z := splice old 0 (take 15 (s ++ [0]) ++ [0]).

(** [initcode] is the bytes of the program linked into the kernel. *)
Definition userinit (initcode : list Z) : K unit :=
  n ← getCurrentCapacity;
  modify (mod_pt (set_initial_size n));;
  o ← allocproc;
  modify (mod_pt (set_initproc o));;
  p ← or_ub "userinit" o;
  pd ← setupkvm;
  mod_proc p (set_pgdir pd);;
  if pd =? 0 then panic "userinit: out of memory?" else
  inituvm pd initcode;;
  mod_proc p (set_sz PGSIZE);;
  mod_proc p (set_tf init_tf);;
  mod_proc p (λ q, set_pname (safe_name (pname q) (str "initcode")) q);;
  d ← namei (str "/");
  mod_proc p (set_cwd d);;
  acquire Lptable;;
  mod_proc p (set_state RUNNABLE);;
  release Lptable.

(** The first [numberOfPagedOut] pages of the parent's swap file, copied to the child's. *)
Definition copy_swap (cur np : nat) (buf n : Z) : K unit :=
  forM (seqZ 0 n) (λ i,
    readFromSwapFile cur buf (i * PGSIZE) PGSIZE;;
    writeToSwapFile np buf (i * PGSIZE) PGSIZE;;
    ret tt).

Definition fork_paging (cur np : nat) : K unit :=
  createSwapFile np;;
  g ← get_pg cur id;
  on_pg np (modify (λ h,
    mkPaging (pagesDS g) (fileOffset g) (numberOfAllocatedPages g) (numberOfPagedOut g) 0 0
      (inRAMQueue h) (availableOffsetQueue h)));;
  newPage ← kalloc;
  copy_swap cur np newPage (numberOfPagedOut g);;
  on_pg np (modify (λ h, set_availableOffsetQueue (availableOffsetQueue g) (set_inRAMQueue (inRAMQueue g) h)));;
  kfree newPage.

(** [*np->tf = *curproc->tf; np->tf->eax = 0] *)
Definition child_tf (t : trapframe) : trapframe := set_tf_eax 0 t.

Definition fork : K Z :=
  cur ← curproc;
  o ← allocproc;
  match o with
  | None => ret (-1)
  | Some np =>
      q ← get_proc cur;
      d ← copyuvm (pgdir q) (sz q);
      mod_proc np (set_pgdir d);;
      if d =? 0 then
        n ← get_proc np;
        kfree (kstack n);;
        mod_proc np (set_kstack 0);;
        mod_proc np (set_state UNUSED);;
        ret (-1)
      else
        mod_proc np (λ n, set_tf (child_tf (tf q)) (set_parent (Some cur) (set_sz (sz q) n)));;
        forM (seqZ 0 NOFILE) (λ i,
          q ← get_proc cur;
          f ← or_ub "ofile" (aget (ofile q) i);
          match f with
          | None => ret tt
          | Some f => f ← filedup f; set_ofile_at np i (Some f)
          end);;
        c ← or_ub "cwd" (cwd q);
        c ← idup c;
        mod_proc np (set_cwd (Some c));;
        mod_proc np (λ n, set_pname (safe_name (pname n) (until_zero (pname q))) n);;
        n ← get_proc np;
        let pid' := pid n in
        (if paging_on then when (DEFAULT_PROCESSES <? pid') (fork_paging cur np) else ret tt);;
        acquire Lptable;;
        mod_proc np (set_state RUNNABLE);;
        release Lptable;;
        ret pid'
  end.

(** ** The end of a process *)
Definition exit : K unit :=
  cur ← curproc;
  t ← gets k_pt;
  if bool_decide (initproc t = Some cur) then panic "init exiting" else
  forM (seqZ 0 NOFILE) (λ fd,
    q ← get_proc cur;
    f ← or_ub "ofile" (aget (ofile q) fd);
    match f with
    | None => ret tt
    | Some f => fileclose f;; set_ofile_at cur fd None
    end);;
  begin_op;;
  q ← get_proc cur;
  c ← or_ub "cwd" (cwd q);
  iput c;;
  end_op;;
  mod_proc cur (set_cwd None);;
  (if paging_on then removeSwapFile cur;; ret tt else ret tt);;
  acquire Lptable;;
  q ← get_proc cur;
  wakeup1 (Cproc <$> parent q);;
  t ← gets k_pt;
  forM (seq 0 (length (procs t))) (λ p,
    q ← get_proc p;
    when (bool_decide (parent q = Some cur)) (
      t ← gets k_pt;
      mod_proc p (set_parent (initproc t));;
      when (bool_decide (state q = ZOMBIE)) (wakeup1 (Cproc <$> initproc t))));;
  mod_proc cur (set_state ZOMBIE);;
  (if VERBOSE_PRINT then
     q ← get_proc cur;
     let g := pg q in
     cprintf (str "%d state=ZOMBIE alloc-memory-pages=%d paged-out=%d page-faults=%d  paged-out-total-num=%d %s" ++ [NL])
       [Pint (pid q); Pint (numberOfAllocatedPages g); Pint (numberOfPagedOut g); Pint (numberOfPageFaults g);
        Pint (totalNumberOfPagedOut g); Pstr (Some (until_zero (pname q)))]
   else ret tt);;
  sched;;
  panic "zombie exit".

(** The first zombie child of [cur]. *)
Definition find_zombie (cur : nat) (l : list proc) : option nat :=
  fst <$> list_find (λ q, parent q = Some cur ∧ state q = ZOMBIE) l.

(** Free what is left of the zombie [p]. *)
Definition reap (p : nat) : K Z :=
  q ← get_proc p;
  let pid' := pid q in
  kfree (kstack q);;
  mod_proc p (set_kstack 0);;
  freevm (pgdir q);;
  mod_proc p (set_pid 0);;
  mod_proc p (set_parent None);;
  mod_proc p (λ q, set_pname (<[0%nat := 0]> (pname q)) q);;
  mod_proc p (set_killed 0);;
  mod_proc p (set_state UNUSED);;
  release Lptable;;
  ret pid'.

Fixpoint wait_loop (fuel : nat) (cur : nat) : K Z :=
  t ← gets k_pt;
  match find_zombie cur (procs t) with
  | Some p => reap p
  | None =>
      let havekids := existsb (λ q, bool_decide (parent q = Some cur)) (procs t) in
      q ← get_proc cur;
      if negb havekids || truthy (killed q) then release Lptable;; ret (-1)
      else
        match fuel with
        | O => fail OutOfFuel
        | S fuel => sleep (Cproc cur) Lptable;; wait_loop fuel cur
        end
  end.
Definition wait : K Z := cur ← curproc; acquire Lptable;; wait_loop patience cur.

(** ** The scheduler *)

(** The body of the loop over the process table. *)
Definition schedule_one (c p : nat) : K unit :=
  q ← get_proc p;
  when (bool_decide (state q = RUNNABLE)) (
    modify (mod_mach (mod_cpu c (set_cpu_proc (Some p))));;
    switchuvm p;;
    mod_proc p (set_state RUNNING);;
    run_proc p;;
    switchkvm;;
    match SELECTION with
    | NFUA | LAPA => agePages
    | AQ => advanceQueue
    | _ => ret tt
    end;;
    modify (mod_mach (mod_cpu c (set_cpu_proc None)))).

(** One round of [scheduler]'s endless loop on CPU [c]. *)
Definition scheduler_round (c : nat) : K unit :=
  sti;;
  acquire Lptable;;
  t ← gets k_pt;
  forM (seq 0 (length (procs t))) (schedule_one c);;
  release Lptable.

Definition forkret : K unit :=
  release Lptable;;
  t ← gets k_pt;
  when (truthy (first t)) (
    modify (mod_pt (set_first 0));;
    iinit ROOTDEV;;
    initlog ROOTDEV).

(** ** The listing *)
Definition state_name (s : procstate) : list Z :=
  str (match s with
       | UNUSED => "unused" | EMBRYO => "embryo" | SLEEPING => "sleep "
       | RUNNABLE => "runble" | RUNNING => "run   " | ZOMBIE => "zombie"
       end).

Definition procdump : K unit :=
  t ← gets k_pt;
  forM (seq 0 (length (procs t))) (λ p,
    q ← get_proc p;
    when (negb (bool_decide (state q = UNUSED))) (
      let g := pg q in
      cprintf (str "%d state=%s alloc-memory-pages=%d paged-out=%d page-faults=%d  paged-out-total-num=%d %s")
        [Pint (pid q); Pstr (Some (state_name (state q))); Pint (numberOfAllocatedPages g);
         Pint (numberOfPagedOut g); Pint (numberOfPageFaults g); Pint (totalNumberOfPagedOut g);
         Pstr (Some (until_zero (pname q)))];;
      cprintf [NL] []));;
  n ← getCurrentCapacity;
  t ← gets k_pt;
  if initial_size t =? 0 then fail (UB "division by zero")
  else cprintf (str "%d % free pages in the system" ++ [NL])
         [Pint (Z.quot (s32 (n * 100)) (initial_size t))].
End proc.

#[global] Arguments allocproc : simpl never.
#[global] Arguments fork : simpl never.
#[global] Arguments exit : simpl never.
#[global] Arguments reap : simpl never.
#[global] Arguments wait : simpl never.
