(* ===== verification/SchedThms.v ===== *)
(** The first process mounts the root file system, and the scheduler gives every process that can run
    its turn. *)

From Stdlib Require Classical_Prop.
From S2P Require Import Prelude Params Bytes State Spinlock Mem Kalloc PageTable Uaccess Procs Sched SchedSpec Bio BioSpec CacheSpec BlockSpec Log LogSpec CommitSpec CrashSpec Inode BallocSpec DiskSpec BmapSpec DinodeSpec Console Fs WriteSpec ReadSpec File FsSpec Sample SampleFs ConsoleSpec FsThms Queue QueueSpec Swap Vm Proc.

(** ** The first process *)
(** No inode is in use. *)
Definition no_inodes (s : fsys) : Prop := length (inodes s) = 50%nat ∧ Forall (λ x, i_ref x = 0) (inodes s).

Section boot.
Context {W : world} {DW : DiskWorld}.
Implicit Types (k : kernel) (s : fsys) (C D : Z → list Z) (n : Z) (i : nat).

(** Initialising a lock changes nothing else of a machine that is not using it. *)
Lemma booted_lock l name k D : booted k D → booted (with_lock l name k) D.
Proof. intros [Hr Hc Hl]. split; [by apply fs_ready_lock|done|done]. Qed.

Lemma booted_inodes k D x : booted k D → booted (set_k_fs (set_inodes x (k_fs k)) k) D.
Proof.
  intros [Hr Hc Hl]. split; [by apply fs_ready_fs|by apply (cview_same _ (k_fs k))|done].
Qed.

Lemma no_inodes_alter s i f : (∀ x, i_ref (f x) = i_ref x) → no_inodes s →
  no_inodes (set_inodes (alter f i (inodes s)) s).
Proof.
  intros Hf [Hlen Hr]. split; cbn; [by rewrite length_alter|]. apply Forall_alter; [done|]. intros x _. by rewrite Hf.
Qed.

(** The console can print: its screen is in order, and its lock is free if it is used. *)
Definition cons_ready k : Prop := screen_ok (k_cons k) ∧ (cons_locking (k_cons k) ≠ 0 → avail Lcons (k_mach k)).

Lemma avail_lock l l' name k : avail l (k_mach k) → l ≠ l' → avail l (k_mach (with_lock l' name k)).
Proof.
  intros [Hm [nm Hl]] Hne. split.
  - destruct Hm as (i & c & Hc). exists i, c. destruct Hc; by split.
  - exists nm. cbn. by rewrite lookup_insert_ne.
Qed.

Lemma initsleeplock_boot k D i : booted k D → no_inodes (k_fs k) →
  ∃ k', initsleeplock (inode_lock i) k = Ok tt k' ∧ booted k' D ∧ no_inodes (k_fs k') ∧ k_pt k' = k_pt k ∧
    k_cons k' = k_cons k ∧ (cons_ready k → cons_ready k').
Proof.
  intros Hb Hn. unfold initsleeplock, initlock, set_lock, sl_mod. rewrite !bind_modify. eexists. split; [reflexivity|].
  split_and!; [|by apply no_inodes_alter, no_inodes_alter|done|done|intros [Hs Ha]; split; [done|intros Hl; exact (avail_lock Lcons (Linode i) _ k (Ha Hl) ltac:(done))]].
  apply (booted_inodes (set_k_fs (set_inodes _ (k_fs k)) (with_lock (Linode i) "sleep lock" k))).
  apply (booted_inodes (with_lock (Linode i) "sleep lock" k)), booted_lock, Hb.
Qed.

Lemma initsleeplocks_boot D (l : list nat) : ∀ k, booted k D → no_inodes (k_fs k) →
  ∃ k', forM l (λ i, initsleeplock (inode_lock i)) k = Ok tt k' ∧ booted k' D ∧ no_inodes (k_fs k') ∧ k_pt k' = k_pt k ∧
    k_cons k' = k_cons k ∧ (cons_ready k → cons_ready k').
Proof.
  induction l as [|i l IH]; intros k Hb Hn; cbn [forM]; [by exists k|].
  destruct (initsleeplock_boot k D i Hb Hn) as (k1 & Hr1 & Hb1 & Hn1 & Hp1 & Hc1 & Ha1). rewrite (bind_ok _ _ _ _ _ Hr1).
  destruct (IH k1 Hb1 Hn1) as (k2 & Hr2 & Hb2 & Hn2 & Hp2 & Hc2 & Ha2). exists k2. rewrite Hp2, Hp1, Hc2, Hc1. split_and!; auto.
Qed.

(** What [iinit] prints about a disk of [mkfs]. *)
Definition sb_message : list Z :=
  str "sb: size 1000 nblocks 941 ninodes 200 nlog 30 logstart 2 inodestart 32 bmap start 58" ++ [NL].

Lemma iinit_boot k D : booted k D → no_inodes (k_fs k) → cons_ready k → sb_of_block (D 1) = mkfs_sb →
  ∃ k', iinit 1 k = Ok tt k' ∧ booted k' D ∧ no_inodes (k_fs k') ∧ k_pt k' = k_pt k ∧ sb (k_fs k') = mkfs_sb ∧
    screen_ok (k_cons k') ∧ sent sb_message (k_cons k) (k_cons k').
Proof.
  intros Hb Hn Hcr Hsb. unfold iinit, initlock, set_lock. rewrite bind_modify.
  destruct (initsleeplocks_boot D (seq 0 (Z.to_nat NINODE)) (with_lock Licache "icache" k)) as (k1 & Hr1 & Hb1 & Hn1 & Hp1 & Hc1 & Ha1);
    [by apply booted_lock|done|]. rewrite (bind_ok _ _ _ _ _ Hr1). destruct Hb1 as [Hr Hc Hl].
  destruct Ha1 as [Hs1 Hlk1]; [destruct Hcr as [Hs Ha]; split; [done|intros Hx; exact (avail_lock Lcons Licache _ k (Ha Hx) ltac:(done))]|].
  destruct (readsb_ok k1 D D ∅ Hr Hc) as (s1 & Hr2 & Hc2 & Hst2); [vm_compute; lia|]. rewrite (bind_ok _ _ _ _ _ Hr2), Hsb.
  set (k2 := set_k_fs (set_sb mkfs_sb s1) k1). rewrite (bind_ok _ _ _ tt k2) by done.
  destruct (cprintf_ok k2 (str "sb: size %d nblocks %d ninodes %d nlog %d logstart %d inodestart %d bmap start %d" ++ [NL])
    [Pint (sb_size mkfs_sb); Pint (sb_nblocks mkfs_sb); Pint (sb_ninodes mkfs_sb); Pint (sb_nlog mkfs_sb); Pint (sb_logstart mkfs_sb);
     Pint (sb_inodestart mkfs_sb); Pint (sb_bmapstart mkfs_sb)] sb_message) as (s3 & Hr3 & Hs3 & Hse3); [done|done|by vm_compute|compute_done|].
  exists (set_k_cons s3 k2). split_and!; try done.
  - split; [by apply fs_ready_cons, fs_ready_fs|by apply (cview_same _ s1)|]. change (log s1 = boot_log). by rewrite (st_log _ _ Hst2).
  - destruct Hst2 as [[_ Hin _ _] _ _]. split; cbn; rewrite Hin; apply Hn1.
  - by apply Hs3.
  - cbn in Hse3. by rewrite Hc1 in Hse3.
Qed.

(** C6: The first process mounts the root file system. It enters [forkret] with the process
    table locked, on a machine that has just booted with the disk [D]: the superblock of
    [mkfs], a log header that a commit can have left, and blocks that are consistent once
    the log is replayed; the screen is in order and the lock of the console is free if it
    is used. Then [forkret] releases the lock, [iinit] and [initlog] complete,
    and the file system is in the state every file operation expects ([fs_state]), its
    blocks being those of the disk with the committed transaction replayed; [iinit] has
    printed the line about the superblock, which the serial line has received. *)
Theorem forkret_mounts k m D :
  k_mach k = hold Lptable m → booted (set_k_mach m k) D → truthy (first (k_pt k)) = true → no_inodes (k_fs k) →
  screen_ok (k_cons k) → (cons_locking (k_cons k) ≠ 0 → avail Lcons m) →
  sb_of_block (D 1) = mkfs_sb → header_wf 2 (D 2) → fsinv (recovered 2 D) (nd (recovered 2 D)) →
  ∃ k' C, forkret k = Ok tt k' ∧ fs_ready k' ∧ fs_state (k_fs k') C ∧ (∀ n, n ≠ 2 → C n = recovered 2 D n) ∧
    first (k_pt k') = 0 ∧ screen_ok (k_cons k') ∧ sent sb_message (k_cons k) (k_cons k').
Proof.
  intros Hm Hb Hfirst Hn Hscr Hlk Hsb Hwf Hinv. set (k0 := set_k_mach m k) in *.
  assert (Hav : avail Lptable m) by (apply (fr_lock _ (bt_ready _ _ Hb)); done).
  set (k1 := mod_pt (set_first 0) k0). assert (Hb1 : booted k1 D).
  { destruct Hb as [[Hp Hl Hq] Hc Hlog]. split; [split; done|done|done]. }
  destruct (iinit_boot k1 D Hb1 Hn (conj Hscr Hlk) Hsb) as (k2 & Hr2 & Hb2 & Hn2 & Hp2 & Hsb2 & Hs2 & Hse2).
  destruct (initlog_ok k2 D 2 Hb2) as (s' & C & Hr3 & Hid & Hf & Hls & HC & _); [split; by rewrite Hsb|clia|done|].
  exists (set_k_fs s' (with_lock Llog "log" k2)), C.
  destruct (fsinv_home (recovered 2 D) C Hinv) as (Hi & _).
  { intros n [_ Hh]. apply HC. clia. }
  destruct Hf as [Fsb Fin _ _]. split_and!; try done.
  - unfold forkret. rewrite (bind_ok _ _ _ _ _ (release_ok Lptable k m Hav Hm)). fold k0. rewrite bind_gets.
    change (first (k_pt k0)) with (first (k_pt k)). rewrite Hfirst. cbn [when]. rewrite bind_modify. fold k1.
    change ROOTDEV with 1. by rewrite (bind_ok _ _ _ _ _ Hr2).
  - apply fs_ready_fs, fs_ready_lock, Hb2.
  - split; [done| |done|].
    + split; [|done]. cbn. by rewrite Fsb, Hsb2.
    + destruct Hn2 as [Hl2 Hr]. rewrite <- Fin in Hl2, Hr. rewrite Forall_lookup in Hr.
      split; [done|intros j y Hy Hpos _; apply Hr in Hy; lia|intros j j' y y' Hy _ Hpos; apply Hr in Hy; lia].
  - cbn. by rewrite Hp2.
Qed.
End boot.

(** ** A disk with one file, mounted *)
Definition mount_kernel : kernel :=
  mod_pt (set_first 1) (set_k_fs (set_inodes (replicate 50 no_inode) (k_fs boot_kernel)) boot_kernel).

Lemma mount_kernel_booted : booted mount_kernel img.
Proof. destruct (booted_inodes boot_kernel img (replicate 50 no_inode) boot_kernel_booted) as [[Hp Hl Hq] Hc Hlog]. split; [split; done|done|done]. Qed.

Lemma forkret_mounts_witness :
  ∃ k' C, forkret (mod_mach (hold Lptable) mount_kernel) = Ok tt k' ∧ fs_state (k_fs k') C ∧ C 59 = replicate 512 59 ∧
    first (k_pt k') = 0 ∧ uart_out (k_cons k') = sb_message.
Proof.
  assert (H0 : hb_n (img 2) = 0) by (vm_compute; reflexivity).
  destruct (recovered_none 2 img H0) as [Hwf Hrec].
  destruct (forkret_mounts (mod_mach (hold Lptable) mount_kernel) (k_mach mount_kernel) img) as (k' & C & Hr & _ & Hst & HC & Hf & _ & Hse).
  - reflexivity.
  - exact mount_kernel_booted.
  - reflexivity.
  - split; [reflexivity|]. apply Forall_replicate. reflexivity.
  - split; [reflexivity|split; [discriminate|reflexivity]|reflexivity].
  - intros _. apply sample_lock. vm_compute. reflexivity.
  - vm_compute. reflexivity.
  - exact Hwf.
  - destruct (fsinv_home img (recovered 2 img) image_fsinv) as [Hi _]; [intros n _; apply Hrec|exact Hi].
  - exists k', C. split; [exact Hr|]. split; [exact Hst|]. split; [|split; [exact Hf|exact (f_equal (λ l, snd (fst l)) Hse)]].
    rewrite HC by discriminate. rewrite Hrec. vm_compute. reflexivity.
Defined.

(** ** The scheduler *)
Section scheduler.
Context `{link} `{world} `{build}.
Implicit Types (k : kernel) (m : mach) (c p n : nat) (q : proc).

(** CPU [c] is in the scheduler, inside [ptable.lock], with [o] as its process. *)
Definition at_sched c (o : option nat) k : Prop :=
  ∃ m cc, k_mach k = hold Lptable m ∧ avail Lptable m ∧ cpu_ok m c cc ∧ ncli cc = 0 ∧ cpu_proc cc = o.

Definition runnable k p : Prop := ∃ q, procs (k_pt k) !! p = Some q ∧ state q = RUNNABLE.

(** The table has [n] slots, and what can run has a kernel stack and a page table. *)
Definition table_ok n k : Prop :=
  length (procs (k_pt k)) = n ∧
  ∀ p q, procs (k_pt k) !! p = Some q → state q = RUNNABLE → kstack q ≠ 0 ∧ pgdir q ≠ 0.

(** ** The steps around the switch *)
Definition on_cpu c (f : cpu → cpu) k : kernel := mod_mach (mod_cpu c f) k.

(** A change of the CPU that leaves its nesting alone. *)
Definition mild (f : cpu → cpu) : Prop :=
  ∀ x, apicid (f x) = apicid x ∧ (∀ v, set_ncli v (f x) = f (set_ncli v x)) ∧ ncli (f x) = ncli x ∧ intena (f x) = intena x.

Lemma find_cpu_mild m c f : mild f → find_cpu (mod_cpu c f m) = find_cpu m.
Proof. intros Hm. unfold find_cpu, mod_cpu. cbn. apply list_find_alter. intros x. by rewrite (proj1 (Hm x)). Qed.

Lemma pushed_mild m c f : mild f → find_cpu m = Some c → mod_cpu c f (pushed m) = pushed (mod_cpu c f m).
Proof.
  intros Hm Hf. unfold pushed. rewrite find_cpu_mild, Hf by done. cbn [default from_option]. unfold mod_cpu, set_cpus. cbn.
  f_equal. rewrite !list_alter_alter_eq. apply list_alter_ext; [|done].
  intros x _. cbn. destruct (Hm x) as (_ & E & -> & _). by rewrite E.
Qed.

Lemma hold_mild l m c f : mild f → find_cpu m = Some c → mod_cpu c f (hold l m) = hold l (mod_cpu c f m).
Proof.
  intros Hm Hf. unfold hold. rewrite find_cpu_mild by done. rewrite <- pushed_mild by done. done.
Qed.

Lemma cpu_ok_mild m c cc f : mild f → cpu_ok m c cc → cpu_ok (mod_cpu c f m) c (f cc).
Proof.
  intros Hm [Hf Hc Hn Ho Hi]. destruct (Hm cc) as (_ & _ & En & Ei). split.
  - by rewrite find_cpu_mild.
  - cbn. by rewrite list_lookup_alter_eq, Hc.
  - by rewrite En.
  - rewrite En, Ei. exact Ho.
  - rewrite En. exact Hi.
Qed.

Lemma at_sched_on_cpu c o o' k f :
  mild f → (∀ x, cpu_proc x = o → cpu_proc (f x) = o') → at_sched c o k → at_sched c o' (on_cpu c f k).
Proof.
  intros Hf Ho' (m & cc & Hk & [Ha [nm Hl]] & Hc & Hn & Ho). exists (mod_cpu c f m), (f cc).
  pose proof (cpu_ok_mild m c cc f Hf Hc) as Hc'. split_and!; try done.
  - cbn. rewrite Hk. apply hold_mild; [done|apply Hc].
  - split; [by exists c, (f cc)|by exists nm].
  - by destruct (Hf cc) as (_ & _ & -> & _).
  - by apply Ho'.
Qed.

Lemma at_sched_cr3 c o k v : at_sched c o k → at_sched c o (mod_mach (set_cr3 v) k).
Proof.
  intros (m & cc & Hk & [Ha [nm Hl]] & [] & Hn & Ho). exists (set_cr3 v m), cc.
  assert (cpu_ok (set_cr3 v m) c cc) by (by split).
  split_and!; try done.
  - cbn. by rewrite Hk.
  - split; [by exists c, cc|by exists nm].
Qed.

Lemma at_sched_mach c o k k' : k_mach k' = k_mach k → at_sched c o k → at_sched c o k'.
Proof. intros E (m & cc & Hk & Hr). exists m, cc. by rewrite E. Qed.

Lemma at_sched_runs c p k : at_sched c (Some p) k → runs (k_mach k) p.
Proof.
  intros (m & cc & Hk & _ & Hc & _ & Ho). exists c, (set_ncli (ncli cc + 1) cc).
  rewrite Hk. split; [by apply cpu_ok_hold|done].
Qed.

(** What [schedule_one] has set up when it switches to [p]. *)
Definition dispatched c p q k : kernel :=
  upd_proc p (set_state RUNNING)
    (mod_mach (set_cr3 (V2P (pgdir q)))
      (on_cpu c (set_esp0 (u32 (kstack q + KSTACKSIZE))) (on_cpu c (set_cpu_proc (Some p)) k))).

Lemma switchuvm_ok c o k p q :
  at_sched c o k → procs (k_pt k) !! p = Some q → kstack q ≠ 0 → pgdir q ≠ 0 →
  switchuvm p k = Ok tt (mod_mach (set_cr3 (V2P (pgdir q))) (on_cpu c (set_esp0 (u32 (kstack q + KSTACKSIZE))) k)).
Proof.
  intros Hs Hq Hks Hpd. pose proof Hs as (m & cc & Hk & _ & Hc & _). pose proof (cpu_ok_hold Lptable _ _ _ Hc) as Hh.
  assert (Hmo : mach_ok (k_mach k)) by (rewrite Hk; by eexists _, _).
  unfold switchuvm. rewrite (bind_ok _ _ _ _ _ (get_proc_ok k p q Hq)), !(proj2 (Z.eqb_neq _ _)) by done.
  rewrite (bind_ok _ _ _ _ _ (pushcli_ok k Hmo)).
  rewrite (bind_ok _ _ _ c (mod_mach pushed k)).
  2:{ apply mycpu_ok; cbn; rewrite Hk; [rewrite find_cpu_pushed; apply Hh|apply eflags_off]. }
  rewrite bind_modify. unfold lcr3. rewrite bind_modify.
  set (f := set_esp0 _). assert (mild f) as Hf by done.
  rewrite (popcli_ok _ (set_cr3 (V2P (pgdir q)) (mod_cpu c f (k_mach k)))).
  - by destruct k.
  - rewrite Hk. pose proof (cpu_ok_mild _ _ _ f Hf Hh) as []. eexists c, _. by split.
  - cbn. rewrite pushed_mild; [done|done|]. rewrite Hk. apply Hh.
Qed.

(** ** The policy's step *)

(** What the scheduler sees of the table. *)
Definition slots k : list (procstate * Z * Z) := (λ q, (state q, kstack q, pgdir q)) <$> procs (k_pt k).

Lemma slots_lookup k k' p q :
  slots k' = slots k → procs (k_pt k') !! p = Some q →
  ∃ q0, procs (k_pt k) !! p = Some q0 ∧ state q0 = state q ∧ kstack q0 = kstack q ∧ pgdir q0 = pgdir q.
Proof.
  intros E Hq. assert (slots k !! p = Some (state q, kstack q, pgdir q)) as Hs.
  { rewrite <- E. unfold slots. by rewrite list_lookup_fmap, Hq. }
  unfold slots in Hs. rewrite list_lookup_fmap in Hs. destruct (procs (k_pt k) !! p) as [q0|]; [|done].
  exists q0. cbn in Hs. by injection Hs as -> -> ->.
Qed.

Lemma slots_table_ok n k k' : slots k' = slots k → table_ok n k → table_ok n k'.
Proof.
  intros E [Hl Ht]. split.
  - rewrite <- Hl. apply (f_equal length) in E. unfold slots in E. by rewrite !length_fmap in E.
  - intros p q Hq Hs. destruct (slots_lookup _ _ _ _ E Hq) as (q0 & Hq0 & Es & <- & <-). eapply Ht; [done|by rewrite Es].
Qed.

Lemma slots_runnable k k' p : slots k' = slots k → runnable k p → runnable k' p.
Proof. intros E (q & Hq & Hs). destruct (slots_lookup k' k p q) as (q0 & Hq0 & Es & _); [done..|]. exists q0. by rewrite Es. Qed.

Lemma slots_upd p f k : (∀ q, state (f q) = state q ∧ kstack (f q) = kstack q ∧ pgdir (f q) = pgdir q) → slots (upd_proc p f k) = slots k.
Proof.
  intros Hf. unfold slots. cbn.
  apply list_eq. intros i. rewrite !list_lookup_fmap. destruct (decide (p = i)) as [<-|Hne].
  - rewrite list_lookup_alter_eq. destruct (procs (k_pt k) !! p) as [q|]; [|done]. cbn. by destruct (Hf q) as (-> & -> & ->).
  - by rewrite list_lookup_alter_ne.
Qed.

Definition policy_step : K unit :=
  match SELECTION with
  | NFUA | LAPA => agePages
  | AQ => advanceQueue
  | _ => ret tt
  end.

(** The pages of [p] are in its page table, as the policies that read the accessed bits expect. *)
Definition pages_tabled p k : Prop :=
  ∃ pr l, procs (k_pt k) !! p = Some pr ∧ kmem_ok (k_vm k) l ∧ aspace (mem (k_vm k)) (pgdir pr) l ∧
    length (pagesDS (pg pr)) = 32%nat ∧ Forall (tabled (mem (k_vm k)) (pgdir pr)) (pagesDS (pg pr)) ∧
    NoDup (alloc_vpns (pagesDS (pg pr))).
Definition policy_ok p k : Prop := SELECTION ∈ [NFUA; LAPA] → pages_tabled p k.

Lemma agePages_slots p k :
  runs (k_mach k) p → pages_tabled p k → ∃ k', agePages k = Ok tt k' ∧ k_mach k' = k_mach k ∧ slots k' = slots k.
Proof.
  intros Hs (pr & l & Hpr & Hkm & Has & Hlen & Htab & Hnd).
  destruct (agePages_run k p pr l) as (v & Hr & _); [done..|]. rewrite Hr. eexists. split_and!; [done|done|].
  by rewrite slots_upd.
Qed.

Lemma policy_step_ok c p k :
  at_sched c (Some p) k → policy_ok p k → ∃ k', policy_step k = Ok tt k' ∧ k_mach k' = k_mach k ∧ slots k' = slots k.
Proof.
  intros Hs%at_sched_runs Hp. unfold policy_step, policy_ok in *. destruct SELECTION; try (by exists k).
  - apply (agePages_slots p k Hs), Hp, list_elem_of_here.
  - apply (agePages_slots p k Hs), Hp, list_elem_of_further, list_elem_of_here.
  - exists k. by rewrite (advanceQueue_noop k p).
Qed.

(** ** One round *)

(** A turn: the process, and the machine that it is given.  It has the CPU, its own page table and
    kernel stack, and the state RUNNING; the table is locked. *)
Definition given_cpu c (e : nat * kernel) : Prop :=
  at_sched c (Some e.1) e.2 ∧ ∃ q cc, procs (k_pt e.2) !! e.1 = Some q ∧ state q = RUNNING ∧
    cr3 (k_mach e.2) = V2P (pgdir q) ∧ cpus (k_mach e.2) !! c = Some cc ∧ esp0 cc = u32 (kstack q + KSTACKSIZE).

(** What a process owes the scheduler, "it is the process's job to release ptable.lock and then
    reacquire it before jumping back to us": it comes back, with the table locked and in order.  It
    and the other CPUs may have changed the states of the processes in any way. *)
Definition kept c n (e : nat * kernel) : Prop :=
  ∃ k', run_proc e.1 e.2 = Ok tt k' ∧ at_sched c (Some e.1) k' ∧ table_ok n k' ∧ policy_ok e.1 k'.

(** During a turn, [p] stopped being able to run: another CPU has taken it. *)
Definition took p (e : nat * kernel) : Prop :=
  runnable e.2 p ∧ ∃ k', run_proc e.1 e.2 = Ok tt k' ∧ ¬ runnable k' p.

(** The turns [tr] that the scheduler gives in a pass over the slots [ps]: to each process that can
    run when its slot is reached, and to no other. *)
Inductive pass c : list nat → kernel → list (nat * kernel) → kernel → Prop :=
  | pass_end k : pass c [] k [] k
  | pass_skip p ps k tr k' : ¬ runnable k p → pass c ps k tr k' → pass c (p :: ps) k tr k'
  | pass_run p q ps k k1 k2 tr k' :
      procs (k_pt k) !! p = Some q → state q = RUNNABLE →
      run_proc p (dispatched c p q k) = Ok tt k1 → policy_step (mod_mach (set_cr3 (V2P (kpgdir (k_vm k1)))) k1) = Ok tt k2 →
      pass c ps (on_cpu c (set_cpu_proc None) k2) tr k' → pass c (p :: ps) k ((p, dispatched c p q k) :: tr) k'.

(** The pass over [ps] has ended, or it stands at a process that breaks its word. *)
Definition ends_or_held c n ps k (rest : list nat) k1 : Prop :=
  match rest with
  | [] => forM ps (schedule_one c) k = Ok tt k1
  | p :: _ => ∃ q, procs (k_pt k1) !! p = Some q ∧ state q = RUNNABLE ∧
      given_cpu c (p, dispatched c p q k1) ∧ ¬ kept c n (p, dispatched c p q k1)
  end.

Lemma runnable_dec k p : runnable k p ∨ ¬ runnable k p.
Proof.
  unfold runnable. destruct (procs (k_pt k) !! p) as [q|]; [|right; by intros (? & ? & _)].
  destruct (decide (state q = RUNNABLE)); [left; by exists q|right; intros (q' & Hq & Hs); by simplify_eq].
Qed.

Lemma schedule_skip c k p :
  ¬ runnable k p → (p < length (procs (k_pt k)))%nat → schedule_one c p k = Ok tt k.
Proof.
  intros Hr Hp. destruct (lookup_lt_is_Some_2 (procs (k_pt k)) p Hp) as [q Hq].
  unfold schedule_one. rewrite (bind_ok _ _ _ _ _ (get_proc_ok k p q Hq)).
  rewrite bool_decide_false; [done|]. intros Hs. apply Hr. by exists q.
Qed.

Lemma runnable_dispatched c p q k p' : p' ≠ p → runnable k p' → runnable (dispatched c p q k) p'.
Proof. intros Hne (q' & Hq' & Hs). exists q'. split; [|done]. unfold dispatched. by rewrite upd_proc_ne by done. Qed.

Lemma table_ok_dispatched c p q k n : table_ok n k → table_ok n (dispatched c p q k).
Proof.
  intros [Hl Ht]. split; [cbn; by rewrite length_alter|]. intros p' q' Hq' Hs.
  unfold dispatched in Hq'. destruct (decide (p = p')) as [<-|Hne].
  - cbn in Hq'. rewrite list_lookup_alter_eq in Hq'. destruct (procs (k_pt k) !! p); [|done]. by injection Hq' as <-.
  - rewrite upd_proc_ne in Hq' by done. by eapply Ht.
Qed.

Lemma at_sched_dispatched c k p q : at_sched c None k → at_sched c (Some p) (dispatched c p q k).
Proof.
  intros Hs. assert (at_sched c (Some p) (on_cpu c (set_cpu_proc (Some p)) k)) by (by eapply at_sched_on_cpu).
  eapply (at_sched_mach _ _ (mod_mach _ _)); [reflexivity|]. apply at_sched_cr3. by eapply at_sched_on_cpu.
Qed.

Lemma dispatched_given c k p q :
  at_sched c None k → procs (k_pt k) !! p = Some q → given_cpu c (p, dispatched c p q k).
Proof.
  intros Hs Hq. split; [by apply at_sched_dispatched|]. destruct Hs as (m & cc & Hk & _ & Hc & _).
  apply (cpu_ok_hold Lptable) in Hc. rewrite <- Hk in Hc. destruct Hc as [_ Hc _ _ _].
  eexists (set_state RUNNING q), _. split_and!; [by apply upd_proc_lookup|done|done| |].
  - cbn. by rewrite !list_lookup_alter_eq, Hc.
  - done.
Qed.

Lemma schedule_run c n k p q :
  kept c n (p, dispatched c p q k) → at_sched c None k → table_ok n k → procs (k_pt k) !! p = Some q → state q = RUNNABLE →
  ∃ k1 k2, let k' := on_cpu c (set_cpu_proc None) k2 in
    run_proc p (dispatched c p q k) = Ok tt k1 ∧
    policy_step (mod_mach (set_cr3 (V2P (kpgdir (k_vm k1)))) k1) = Ok tt k2 ∧
    schedule_one c p k = Ok tt k' ∧ at_sched c None k' ∧ table_ok n k' ∧
    ∀ p', p' ≠ p → runnable k p' → runnable k' p' ∨ took p' (p, dispatched c p q k).
Proof.
  intros (k1 & Hrun & Hs2 & Ht2 & Hp2) Hs Ht Hq Hr. cbn in Hrun, Hs2, Hp2. destruct (proj2 Ht p q Hq Hr) as [Hks Hpd].
  assert (Hs0 : at_sched c (Some p) (on_cpu c (set_cpu_proc (Some p)) k)) by (by eapply at_sched_on_cpu).
  destruct (policy_step_ok c p (mod_mach (set_cr3 (V2P (kpgdir (k_vm k1)))) k1)) as (k2 & Hpol & Hm3 & Hsl);
    [by apply at_sched_cr3|exact Hp2|].
  exists k1, k2. cbn zeta. split_and!; [done..| | | |].
  - unfold schedule_one. rewrite (bind_ok _ _ _ _ _ (get_proc_ok k p q Hq)), bool_decide_true by done.
    unfold when. rewrite bind_modify, (bind_ok _ _ _ _ _ (switchuvm_ok c (Some p) _ p q Hs0 Hq Hks Hpd)).
    unfold mod_proc. rewrite bind_modify, (bind_ok _ _ _ _ _ Hrun).
    unfold switchkvm at 1. rewrite bind_assoc, bind_gets. unfold lcr3. rewrite bind_modify.
    change (match SELECTION with NFUA | LAPA => agePages | AQ => advanceQueue | _ => ret tt end) with policy_step.
    by rewrite (bind_ok _ _ _ _ _ Hpol).
  - eapply (at_sched_on_cpu c (Some p)); [done..|]. eapply at_sched_mach; [exact Hm3|by apply at_sched_cr3].
  - apply (slots_table_ok n k2); [done|]. eapply slots_table_ok; [exact Hsl|exact Ht2].
  - intros p' Hne Hp'. apply (runnable_dispatched c p q) in Hp'; [|done].
    destruct (runnable_dec k1 p') as [Hr'|Hr']; [left|right; split; [done|by exists k1]].
    apply (slots_runnable k2); [done|]. by eapply slots_runnable.
Qed.

(** A pass gives its turn to every process that can run when it begins, unless another CPU takes it. *)
Lemma schedule_pass c n ps k :
  at_sched c None k → table_ok n k → NoDup ps → Forall (λ p, p < n)%nat ps →
  ∃ ds rest tr k1, ps = ds ++ rest ∧ pass c ds k tr k1 ∧ at_sched c None k1 ∧ table_ok n k1 ∧
    Forall (given_cpu c) tr ∧ tr.*1 `sublist_of` ds ∧
    (∀ p, p ∈ ds → runnable k p → p ∈ tr.*1 ∨ Exists (took p) tr) ∧ ends_or_held c n ps k rest k1.
Proof.
  revert k. induction ps as [|p ps IH]; intros k Hs Ht Hnd Hps.
  { exists [], [], [], k. split_and!; [done|constructor|done|done|constructor|done|by intros p ?%elem_of_nil|done]. }
  apply NoDup_cons in Hnd as [Hp Hnd]. apply Forall_cons in Hps as [Hpn Hps]. rewrite <- (proj1 Ht) in Hpn.
  destruct (lookup_lt_is_Some_2 _ _ Hpn) as [q Hq].
  destruct (decide (state q = RUNNABLE)) as [Hr|Hr].
  - destruct (Classical_Prop.classic (kept c n (p, dispatched c p q k))) as [Hk|Hk].
    2:{ exists [], (p :: ps), [], k. split_and!; [done|constructor|done|done|constructor|done|by intros p' ?%elem_of_nil|].
        exists q. split_and!; [done|done|by apply dispatched_given|done]. }
    destruct (schedule_run c n k p q) as (k1 & k2 & Hrun & Hpol & Hone & Hs' & Ht' & Hr'); [done..|].
    destruct (IH _ Hs' Ht' Hnd Hps) as (ds & rest & tr & k' & -> & Hpass & Hs'' & Ht'' & Hg & Hsub & Hin & He).
    exists (p :: ds), rest, ((p, dispatched c p q k) :: tr), k'. split_and!; [done|by eapply pass_run|done|done| | | |].
    + constructor; [by apply dispatched_given|done].
    + by constructor.
    + intros p' [-> |Hp']%elem_of_cons Hrn; [left; apply list_elem_of_here|].
      destruct (Hr' p') as [Hr''|Htk]; [by intros ->; apply Hp, elem_of_app; left|done| |right; by constructor].
      destruct (Hin p' Hp' Hr''); [left; by apply list_elem_of_further|right; by apply Exists_cons_tl].
    + destruct rest; [|exact He]. cbn [ends_or_held forM] in *. by rewrite (bind_ok _ _ _ _ _ Hone).
  - assert (Hn : ¬ runnable k p) by (intros (q' & Hq' & Hs'); rewrite Hq in Hq'; by injection Hq' as ->).
    destruct (IH _ Hs Ht Hnd Hps) as (ds & rest & tr & k' & -> & Hpass & Hs'' & Ht'' & Hg & Hsub & Hin & He).
    exists (p :: ds), rest, tr, k'. split_and!; [done|by apply pass_skip|done|done|done|by constructor| |].
    + intros p' [-> |Hp']%elem_of_cons Hrn; [done|by apply Hin].
    + destruct rest; [|exact He]. cbn [ends_or_held forM] in *. by rewrite (bind_ok _ _ _ _ _ (schedule_skip c k p Hn Hpn)).
Qed.

(** CPU [c] is between two rounds. *)
Definition idle c k : Prop :=
  ∃ cc nm, cpu_weak (k_mach k) c cc ∧ ncli cc = 0 ∧ cpu_proc cc = None ∧
    locks (k_mach k) !! Lptable = Some (mkSpinlock 0 nm None).

Lemma idle_acquire c k : idle c k → ∃ k0, (sti ;; acquire Lptable) k = Ok tt k0 ∧ at_sched c None k0 ∧ k_pt k0 = k_pt k.
Proof.
  intros (cc & nm & Hw & Hn & Ho & Hl). unfold sti. rewrite bind_modify. set (k1 := mod_mach _ k).
  assert (Hw1 : cpu_weak (k_mach k1) c cc) by (destruct Hw as (?&?&?&?); by split_and!).
  destruct (sync_ok _ _ _ Hw1) as (i & c1 & Hok). pose proof Hok as [Hf Hc _ _ _]. pose proof Hw1 as (Hf1 & Hc1 & _).
  assert (i = c) as -> by (rewrite find_cpu_sync, Hf1 in Hf; by injection Hf).
  assert (Ecs : ∃ v, c1 = set_intena v cc).
  { unfold sync in Hc. rewrite Hf1 in Hc. cbn in Hc, Hc1. rewrite list_lookup_alter_eq, Hc1 in Hc. cbn in Hc. rewrite Hn in Hc. injection Hc as <-. by eexists. }
  destruct Ecs as [v ->].
  assert (Ha : avail Lptable (k_mach (mod_mach sync k1))).
  { split; [by eexists _, _|]. exists nm. change (k_mach (mod_mach sync k1)) with (sync (k_mach k1)).
    unfold sync. rewrite Hf1. exact Hl. }
  rewrite <- (acquire_sync Lptable k1 c cc Hw1), (acquire_ok _ _ Ha). eexists. split_and!; [done| |done].
  by exists (sync (k_mach k1)), (set_intena v cc).
Qed.

Lemma sched_release c k : at_sched c None k → ∃ k', release Lptable k = Ok tt k' ∧ idle c k' ∧ k_pt k' = k_pt k.
Proof.
  intros (m & cc & Hk & Ha & Hc & Hn & Ho). rewrite (release_ok _ _ _ Ha Hk). eexists. split_and!; [done| |done].
  destruct Ha as [_ [nm Hl]], Hc as [Hf Hcc ? ? ?]. exists cc, nm. by split_and!.
Qed.

(** C13: A round of the scheduler visits the slots of the table in order.  Every process that can run
    when its slot is reached is given the CPU, once, with its page table, its stack and the state
    RUNNING, and the table locked; no other process is.  So a process that could run when the round began
    gets its turn, unless during an earlier turn it has stopped being able to, as when another CPU has
    taken it.  The round ends, ready for the next one, or it stands at a process that it has
    given the CPU to and that does not keep its side of the bargain ([kept]): to come back, holding the
    lock of the table, with what can run having a stack and a page table, and (NFUA and LAPA)
    with its own pages in its page table.  Nothing else can hold the scheduler up. *)
Theorem scheduler_runs_all c n k :
  idle c k → table_ok n k →
  ∃ k0 ds rest tr k1, k_pt k0 = k_pt k ∧ seq 0 n = ds ++ rest ∧ pass c ds k0 tr k1 ∧ table_ok n k1 ∧
    Forall (given_cpu c) tr ∧ tr.*1 `sublist_of` ds ∧
    (∀ p, p ∈ ds → runnable k p → p ∈ tr.*1 ∨ Exists (took p) tr) ∧
    match rest with
    | [] => ∃ k', scheduler_round c k = Ok tt k' ∧ idle c k' ∧ k_pt k' = k_pt k1
    | p :: _ => ∃ q, procs (k_pt k1) !! p = Some q ∧ state q = RUNNABLE ∧
        given_cpu c (p, dispatched c p q k1) ∧ ¬ kept c n (p, dispatched c p q k1)
    end.
Proof.
  intros Hi Ht. destruct (idle_acquire c k Hi) as (k0 & Hacq & Hs & E0).
  assert (Ht0 : table_ok n k0) by (unfold table_ok; by rewrite E0).
  destruct (schedule_pass c n (seq 0 n) k0 Hs Ht0 (NoDup_seq 0 n)) as (ds & rest & tr & k1 & Eds & Hpass & Hs1 & Ht1 & Hg & Hsub & Hin & He).
  { apply Forall_forall. intros p Hp%elem_of_seq. lia. }
  exists k0, ds, rest, tr, k1. split_and!; try done.
  { intros p Hp Hr. apply (Hin p Hp). unfold runnable. by rewrite E0. }
  destruct rest as [|p rest]; [|exact He].
  destruct (sched_release c k1 Hs1) as (k' & Hrel & Hi' & E'). exists k'. split_and!; [|done|done].
  unfold scheduler_round. rewrite <- bind_assoc. rewrite (bind_ok _ _ _ _ _ Hacq), bind_gets, (proj1 Ht0).
  cbn in He. by rewrite (bind_ok _ _ _ _ _ He).
Qed.
End scheduler.

(** ** Two processes that go to sleep when they run *)
#[local] Instance sleepy_world : world :=
  {| others := ret tt; run_proc p := mod_proc p (set_state SLEEPING); patience := 1 |}.
#[local] Instance default_build : build := {| SELECTION := SCFIFO; VERBOSE_PRINT := false |}.

Lemma sleepy_keeps c n p k : given_cpu c (p, k) → table_ok n k → kept c n (p, k).
Proof.
  intros (Hs & q & cc & Hq & Hr & _) [Hl Ht]. cbn in Hs, Hq. eexists. split_and!; [reflexivity|exact Hs|split|].
  - cbn. by rewrite length_alter.
  - intros p' q' Hq' Hs'. cbn [fst snd] in Hq'. destruct (decide (p = p')) as [<-|Hne].
    + rewrite (upd_proc_lookup _ _ _ _ Hq) in Hq'. by injection Hq' as <-.
    + rewrite upd_proc_ne in Hq' by done. by eapply Ht.
  - intros Hin. by rewrite !elem_of_cons, elem_of_nil in Hin; destruct Hin as [|[|]].
Qed.

Lemma sleepy_takes_none c p e : given_cpu c e → ¬ took p e.
Proof.
  intros (_ & q & cc & Hq & Hr & _) [(q' & Hq' & Hs') (k' & Hrun & Hn)]. apply Hn. injection Hrun as <-. exists q'.
  destruct (decide (e.1 = p)) as [<-|Hne]; [congruence|]. by rewrite upd_proc_ne.
Qed.

Definition ready_proc : proc := set_state RUNNABLE (set_kstack 0x80400000 (set_pgdir 0x80500000 sample_proc)).
Definition sched_kernel : kernel :=
  set_k_mach (mod_cpu 0 (set_cpu_proc None) sample_mach)
    (mod_pt (set_procs (<[5%nat := ready_proc]> (<[1%nat := ready_proc]> (replicate 64 unused_proc)))) sample_kernel).

Lemma scheduler_runs_all_witness :
  ∃ k0 tr k1 k', scheduler_round 0 sched_kernel = Ok tt k' ∧ pass 0 (seq 0 64) k0 tr k1 ∧ 1%nat ∈ tr.*1 ∧ 5%nat ∈ tr.*1.
Proof.
  destruct (scheduler_runs_all 0 64 sched_kernel) as (k0 & ds & rest & tr & k1 & _ & Eds & Hp & Ht & Hg & _ & Hin & Hend).
  - exists (mkCpu 0 0 FL_IF None 1 0), "lock". split_and!; try reflexivity. split_and!; [reflexivity|reflexivity|reflexivity|].
    intros []. reflexivity.
  - split; [reflexivity|]. intros p q Hq Hs.
    assert (Forall (λ q, state q = RUNNABLE → kstack q ≠ 0 ∧ pgdir q ≠ 0) (procs (k_pt sched_kernel))) as Hf.
    { vm_compute. repeat constructor; discriminate. }
    exact (proj1 (Forall_lookup _ _) Hf p q Hq Hs).
  - destruct rest as [|p rest].
    2:{ destruct Hend as (q & Hq & _ & Hgp & Hk). destruct Hk. apply sleepy_keeps; [exact Hgp|by apply table_ok_dispatched]. }
    destruct Hend as (k' & Hr & _). rewrite app_nil_r in Eds. subst ds.
    assert (Hrun : ∀ p, p ∈ seq 0 64 → runnable sched_kernel p → p ∈ tr.*1).
    { intros p Hps Hpr. destruct (Hin p Hps Hpr) as [|Htk]; [done|]. apply Exists_exists in Htk as (e & He & Htk).
      destruct (sleepy_takes_none 0 p e (proj1 (Forall_forall _ _) Hg e He) Htk). }
    exists k0, tr, k1, k'. split_and!; [exact Hr|exact Hp|apply Hrun; [apply elem_of_seq; lia|by exists ready_proc]..].
Defined.
