(* ===== verification/Exec.v ===== *)
(** [exec.c]: replacing a process's memory with a program. *)

From S2P Require Import Prelude Params Bytes State Spinlock Mem Kalloc PageTable Uaccess Procs Sched Bio Log Inode Console Fs File Sysfile Queue QueueSpec Swap Vm Proc.

(** ** [elf.h] *)
Definition ELF_MAGIC : Z := 0x464C457F.
Definition ELF_PROG_LOAD : Z := 1.
Record elfhdr := mkElfhdr { elf_magic : Z; elf_entry : Z; elf_phoff : Z; elf_phnum : Z }.
Record proghdr := mkProghdr {
  ph_type : Z; ph_off : Z; ph_vaddr : Z; ph_filesz : Z; ph_memsz : Z
}.
Definition ELFHDR : Z := 52.
Definition PROGHDR : Z := 32.
Definition elfhdr_of (l : list Z) : elfhdr :=
  mkElfhdr (get32 l 0) (get32 l 24) (get32 l 28) (get16 l 44).
Definition proghdr_of (l : list Z) : proghdr :=
  mkProghdr (get32 l 0) (get32 l 4) (get32 l 8) (get32 l 16) (get32 l 20).

(** ** The paging data of a failed [exec]

    The backup has no room for the ages of the pages. *)
Definition clear_page (d : page) : page := mkPage 0 (-1) 0 0 (age d).
Definition restore_page (b d : page) : page :=
  mkPage (v_address b) (file_offset b) (in_RAM b) (isAllocated b) (age d).

Section exec.
Context `{link} `{build} `{FileIO} `{world}.

(** The old data; [curproc]'s is cleared. *)
Definition initializePagesDataExec : K paging :=
  p ← curproc;
  g ← get_pg p id;
  on_pg p (modify (λ g,
    mkPaging (clear_page <$> pagesDS g) 0 0 0 0 0
      (replicate (length (inRAMQueue g)) (-1)) (replicate (length (availableOffsetQueue g)) (-1))));;
  ret g.

Definition restoreFromBackup (b : paging) : K unit :=
  p ← curproc;
  on_pg p (modify (λ g,
    mkPaging (zip_with restore_page (pagesDS b) (pagesDS g)) (fileOffset b)
      (numberOfAllocatedPages b) (numberOfPagedOut b) (numberOfPageFaults b)
      (totalNumberOfPagedOut b) (inRAMQueue b) (availableOffsetQueue b))).

(** Load the program headers from the [i]th on; [None] on failure. *)
Fixpoint load_segments (fuel : nat) (ip : nat) (pd off sz' : Z) : K (option Z) :=
  match fuel with
  | O => ret (Some sz')
  | S fuel =>
      '(r, l) ← readi local_sink ip [] off PROGHDR;
      if negb (r =? PROGHDR) then ret None else
      let ph := proghdr_of l in
      if negb (ph_type ph =? ELF_PROG_LOAD) then load_segments fuel ip pd (u32 (off + PROGHDR)) sz' else
      if ph_memsz ph <? ph_filesz ph then ret None else
      if u32 (ph_vaddr ph + ph_memsz ph) <? ph_vaddr ph then ret None else
      sz' ← allocuvm pd sz' (u32 (ph_vaddr ph + ph_memsz ph));
      if sz' =? 0 then ret None else
      if truthy (ph_vaddr ph mod PGSIZE) then ret None else
      r ← loaduvm pd (ph_vaddr ph) ip (ph_off ph) (ph_filesz ph);
      if r <? 0 then ret None else load_segments fuel ip pd (u32 (off + PROGHDR)) sz'
  end.

(** Push the argument strings; the stack pointer and the addresses of the strings. *)
Fixpoint push_args (pd sp : Z) (argv : list (list Z)) (argc : Z) : K (option (Z * list Z)) :=
  match argv with
  | [] => ret (Some (sp, []))
  | s :: argv =>
      if MAXARG <=? argc then ret None else
      let sp := Z.land (u32 (sp - (Z.of_nat (length s) + 1))) (Z.lnot 3) in
      r ← copyout pd sp (s ++ [0]);
      if r <? 0 then ret None else
      o ← push_args pd sp argv (argc + 1);
      ret ((λ '(sp', l), (sp', sp :: l)) <$> o)
  end.

(** The first frame of [main]: return address, [argc], [argv], and the array itself. *)
Definition ustack (sp : Z) (args : list Z) : list Z :=
  let argc := Z.of_nat (length args) in
  concat (le_bytes 4 <$> ([0xffffffff; argc; u32 (sp - (argc + 1) * 4)] ++ args ++ [0])).

(** The part of the path after the last slash. *)
Fixpoint last_elem (path acc : list Z) : list Z :=
  match path with
  | [] => acc
  | c :: path => last_elem path (if c =? SLASH then path else acc)
  end.

(** [bad:]; [ip] is the inode that is still locked inside the transaction. *)
Definition exec_bad (b : option paging) (pd : Z) (ip : option nat) : K Z :=
  match b with Some b => restoreFromBackup b | None => ret tt end;;
  when (truthy pd) (freevm pd);;
  match ip with Some i => iunlockput i;; end_op | None => ret tt end;;
  ret (-1).

(** Map the stack, push the arguments, and switch to the new image. *)
Definition exec_finish (b : option paging) (path : list Z) (argv : list (list Z)) (entry pd sz' : Z) : K Z :=
  cur ← curproc;
  let sz0 := PGROUNDUP sz' in
  sz' ← allocuvm pd sz0 (u32 (sz0 + 2 * PGSIZE));
  if sz' =? 0 then exec_bad b pd None else
  clearpteu pd (u32 (sz' - 2 * PGSIZE));;
  o ← push_args pd sz' argv 0;
  match o with
  | None => exec_bad b pd None
  | Some (sp, args) =>
      let frame := ustack sp args in
      let sp := u32 (sp - Z.of_nat (length frame)) in
      r ← copyout pd sp frame;
      if r <? 0 then exec_bad b pd None else
      mod_proc cur (λ q, set_pname (safe_name (pname q) (last_elem path path)) q);;
      q ← get_proc cur;
      let oldpgdir := pgdir q in
      mod_proc cur (λ q, set_tf (set_tf_esp sp (set_tf_eip entry (tf q))) (set_sz sz' (set_pgdir pd q)));;
      (if paging_on then
         when (DEFAULT_PROCESSES <? pid q) (removeSwapFile cur;; createSwapFile cur;; ret tt)
       else ret tt);;
      switchuvm cur;;
      freevm oldpgdir;;
      ret 0
  end.

Definition exec (path : list Z) (argv : list (list Z)) : K Z :=
  begin_op;;
  o ← namei path;
  match o with
  | None => end_op;; cprintf (str "exec: fail" ++ [NL]) [];; ret (-1)
  | Some ip =>
      ilock (Some ip);;
      b ← (if paging_on then b ← initializePagesDataExec; ret (Some b) else ret None);
      '(r, l) ← readi local_sink ip [] 0 ELFHDR;
      if negb (r =? ELFHDR) then exec_bad b 0 (Some ip) else
      let elf := elfhdr_of l in
      if negb (elf_magic elf =? ELF_MAGIC) then exec_bad b 0 (Some ip) else
      pd ← setupkvm;
      if pd =? 0 then exec_bad b 0 (Some ip) else
      o ← load_segments (Z.to_nat (elf_phnum elf)) ip pd (elf_phoff elf) 0;
      match o with
      | None => exec_bad b pd (Some ip)
      | Some sz' =>
          iunlockput ip;;
          end_op;;
          exec_finish b path argv (elf_entry elf) pd sz'
      end
  end.

(** [sys_exec]: fetch the arguments; [None] when one is bad or there are too many. *)
Fixpoint fetch_argv (fuel : nat) (uargv i : Z) : K (option (list (list Z))) :=
  match fuel with
  | O => ret None
  | S fuel =>
      o ← fetchint (u32 (uargv + 4 * i));
      match o with
      | None => ret None
      | Some uarg =>
          if uarg =? 0 then ret (Some [])
          else
            o ← fetchstr (u32 uarg);
            match o with
            | None => ret None
            | Some s => l ← fetch_argv fuel uargv (i + 1); ret (cons s <$> l)
            end
      end
  end.

Definition sys_exec : K Z :=
  o ← argstr 0;
  match o with
  | None => ret (-1)
  | Some path =>
      o ← argint 1;
      match o with
      | None => ret (-1)
      | Some uargv =>
          l ← fetch_argv (Z.to_nat MAXARG) (u32 uargv) 0;
          match l with None => ret (-1) | Some argv => exec path argv end
      end
  end.
End exec.
