(* ===== verification/Trap.v ===== *)
(** System calls ([syscall.c], [sysproc.c]) and traps ([trap.c]). *)

From S2P Require Import Prelude Params Bytes State Spinlock Mem Kalloc PageTable Uaccess Procs Sched Bio Log Inode Console Kbd Fs File Sysfile Queue QueueSpec Swap Vm Proc Exec.

(** ** [traps.h] *)
Definition T_PGFLT : Z := 14.
Definition T_SYSCALL : Z := 64.
Definition T_IRQ0 : Z := 32.
Definition IRQ_TIMER : Z := 0.
Definition IRQ_KBD : Z := 1.
Definition IRQ_COM1 : Z := 4.
Definition IRQ_IDE : Z := 14.
Definition IRQ_SPURIOUS : Z := 31.

Section trap.
Context `{link} `{build} `{FileIO} `{world}.

(** ** [sysproc.c] *)
Definition sys_yield : K Z := yield;; ret 0.
Definition sys_fork : K Z := fork.
Definition sys_exit : K Z := exit;; ret 0.
Definition sys_wait : K Z := wait.
Definition sys_kill : K Z :=
  o ← argint 0; match o with None => ret (-1) | Some pid' => kill pid' end.
Definition sys_getpid : K Z := p ← curproc; q ← get_proc p; ret (pid q).
Definition sys_sbrk : K Z :=
  o ← argint 0;
  match o with
  | None => ret (-1)
  | Some n =>
      p ← curproc;
      q ← get_proc p;
      r ← growproc n;
      ret (if r <? 0 then -1 else s32 (sz q))
  end.

(** [ticks - ticks0 < n] compares unsigned numbers. *)
Fixpoint sleep_ticks (fuel : nat) (ticks0 n : Z) : K Z :=
  t ← gets (λ k, ticks (k_pt k));
  if u32 (t - ticks0) <? u32 n then
    p ← curproc;
    q ← get_proc p;
    if truthy (killed q) then release Ltickslock;; ret (-1)
    else
      match fuel with
      | O => fail OutOfFuel
      | S fuel => sleep Cticks Ltickslock;; sleep_ticks fuel ticks0 n
      end
  else release Ltickslock;; ret 0.
Definition sys_sleep : K Z :=
  o ← argint 0;
  match o with
  | None => ret (-1)
  | Some n =>
      acquire Ltickslock;;
      ticks0 ← gets (λ k, ticks (k_pt k));
      sleep_ticks patience ticks0 n
  end.

Definition sys_uptime : K Z :=
  acquire Ltickslock;;
  x ← gets (λ k, ticks (k_pt k));
  release Ltickslock;;
  ret (s32 x).

(** ** [syscall.c] *)
Definition syscalls : list (option (K Z)) := [
  None; Some sys_fork; Some sys_exit; Some sys_wait; Some sys_pipe; Some sys_read; Some sys_kill;
  Some sys_exec; Some sys_fstat; Some sys_chdir; Some sys_dup; Some sys_getpid; Some sys_sbrk;
  Some sys_sleep; Some sys_uptime; Some sys_open; Some sys_write; Some sys_mknod; Some sys_unlink;
  Some sys_link; Some sys_mkdir; Some sys_close; Some sys_yield
].

Definition syscall : K unit :=
  p ← curproc;
  q ← get_proc p;
  let num := s32 (tf_eax (tf q)) in
  match (if 0 <? num then mjoin (aget syscalls num) else None) with
  | Some call =>
      r ← call;
      mod_proc p (λ q, set_tf (set_tf_eax (u32 r) (tf q)) q)
  | None =>
      cprintf (str "%d %s: unknown sys call %d" ++ [NL])
        [Pint (pid q); Pstr (Some (until_zero (pname q))); Pint num];;
      mod_proc p (λ q, set_tf (set_tf_eax (u32 (-1)) (tf q)) q)
  end.

(** ** [trap.c] *)

(** Is the current process, if any, to be killed on its way to user space? *)
Definition exit_if_killed (t : trapframe) : K unit :=
  o ← myproc;
  match o with
  | None => ret tt
  | Some p =>
      q ← get_proc p;
      when (truthy (killed q) && (Z.land (tf_cs t) 3 =? DPL_USER)) exit
  end.

(** A trap that no case handles. *)
Definition unexpected (t : trapframe) : K unit :=
  o ← myproc;
  cr2' ← gets (λ k, cr2 (k_mach k));
  match o with
  | Some p =>
      if Z.land (tf_cs t) 3 =? 0 then
        c ← cpuid;
        cprintf (str "unexpected trap %d from cpu %d eip %x (cr2=0x%x)" ++ [NL])
          [Pint (tf_trapno t); Pint (Z.of_nat c); Pint (tf_eip t); Pint cr2'];;
        panic "trap"
      else
        q ← get_proc p;
        c ← cpuid;
        cprintf (str "pid %d %s: trap %d err %d on cpu %d eip 0x%x addr 0x%x--kill proc" ++ [NL])
          [Pint (pid q); Pstr (Some (until_zero (pname q))); Pint (tf_trapno t); Pint (tf_err t);
           Pint (Z.of_nat c); Pint (tf_eip t); Pint cr2'];;
        mod_proc p (set_killed 1)
  | None =>
      c ← cpuid;
      cprintf (str "unexpected trap %d from cpu %d eip %x (cr2=0x%x)" ++ [NL])
        [Pint (tf_trapno t); Pint (Z.of_nat c); Pint (tf_eip t); Pint cr2'];;
      panic "trap"
  end.

(** The switch, with the process listing the console may ask for; [input] are the scan codes of the
    keyboard or the bytes of the serial line that wait in the device, and [shift] is the static variable
    of [kbdgetc], whose new value is returned. *)
Definition trap_case (t : trapframe) (shift : Z) (input : list Z) : K Z :=
  let n := tf_trapno t in
  if n =? T_IRQ0 + IRQ_KBD then '(d, shift) ← kbdintr shift input; when d procdump;; ret shift
  else if n =? T_IRQ0 + IRQ_COM1 then d ← uartintr input; when d procdump;; ret shift
  else
  (if n =? T_IRQ0 + IRQ_TIMER then
    c ← cpuid;
    when (bool_decide (c = 0%nat)) (
      acquire Ltickslock;;
      modify (mod_pt (λ x, set_ticks (u32 (ticks x + 1)) x));;
      wakeup (Some Cticks);;
      release Ltickslock)
  else if n =? T_IRQ0 + IRQ_IDE then ideintr
  else if n =? T_IRQ0 + IRQ_IDE + 1 then ret tt
  else if (n =? T_IRQ0 + 7) || (n =? T_IRQ0 + IRQ_SPURIOUS) then
    c ← cpuid;
    cprintf (str "cpu%d: spurious interrupt at %x:%x" ++ [NL])
      [Pint (Z.of_nat c); Pint (tf_cs t); Pint (tf_eip t)]
  else if paging_on && (n =? T_PGFLT) then page_fault
  else unexpected t);;
  ret shift.

Definition trap (t : trapframe) (shift : Z) (input : list Z) : K Z :=
  if tf_trapno t =? T_SYSCALL then
    p ← curproc;
    q ← get_proc p;
    when (truthy (killed q)) exit;;
    mod_proc p (set_tf t);;
    syscall;;
    q ← get_proc p;
    when (truthy (killed q)) exit;;
    ret shift
  else
    shift ← trap_case t shift input;
    exit_if_killed t;;
    o ← myproc;
    match o with
    | None => ret tt
    | Some p =>
        q ← get_proc p;
        when (bool_decide (state q = RUNNING) && (tf_trapno t =? T_IRQ0 + IRQ_TIMER)) yield
    end;;
    exit_if_killed t;;
    ret shift.
End trap.
