(* ===== verification/Apic.v ===== *)
(** The interrupt controllers ([lapic.c], [ioapic.c], [picirq.c]) and the clock ([lapic.c]).

    The registers of the I/O APIC are cells that the code selects and accesses.  What the local APIC and
    the clock show is given by the hardware, at each read anew. *)

From S2P Require Import Prelude Params Mem Trap.

(** The local APIC and the CMOS chip: the value of a register at the [n]-th read. *)
Class hardware := {
  lapic_read : nat → Z → Z;
  cmos : nat → Z → Z
}.

Record devices := mkDevices {
  d_lapic : bool;  (* mp.c has found the local APIC *)
  d_lapicw : list (Z * Z);  (* the writes to it, in order *)
  d_reads : nat;  (* how often registers were read *)
  d_ports : list (Z * Z);  (* the writes to ports, in order *)
  d_memory : memory;
  d_reg : Z;  (* the selected register of the I/O APIC *)
  d_ioapic : gmap Z Z;
  d_ioapicid : Z;
  d_said : list string  (* messages *)
}.

Abbreviation D := (M (err unit) devices).

Section apic.
Context `{hardware}.

Definition outb (port data : Z) : D unit := modify (λ s,
  mkDevices (d_lapic s) (d_lapicw s) (d_reads s) (d_ports s ++ [(port, u8 data)]) (d_memory s) (d_reg s) (d_ioapic s) (d_ioapicid s) (d_said s)).
Definition store16 (a v : Z) : D unit := modify (λ s,
  mkDevices (d_lapic s) (d_lapicw s) (d_reads s) (d_ports s) (wr8 (wr8 (d_memory s) a v) (a + 1) (Z.shiftr v 8))
    (d_reg s) (d_ioapic s) (d_ioapicid s) (d_said s)).
Definition read_hw (f : nat → Z) : D Z := λ s,
  Ok (f (d_reads s))
    (mkDevices (d_lapic s) (d_lapicw s) (S (d_reads s)) (d_ports s) (d_memory s) (d_reg s) (d_ioapic s) (d_ioapicid s) (d_said s)).

(** ** [picirq.c] *)
Definition IO_PIC1 : Z := 0x20.
Definition IO_PIC2 : Z := 0xA0.
Definition picinit : D unit := outb (IO_PIC1 + 1) 0xFF;; outb (IO_PIC2 + 1) 0xFF.

(** ** [ioapic.c] *)
Definition REG_ID : Z := 0x00.
Definition REG_VER : Z := 0x01.
Definition REG_TABLE : Z := 0x10.
Definition INT_DISABLED : Z := 0x00010000.

Definition io_select (reg : Z) : D unit := modify (λ s,
  mkDevices (d_lapic s) (d_lapicw s) (d_reads s) (d_ports s) (d_memory s) reg (d_ioapic s) (d_ioapicid s) (d_said s)).
Definition io_data : D Z := gets (λ s, default 0 (d_ioapic s !! d_reg s)).
Definition io_set_data (data : Z) : D unit := modify (λ s,
  mkDevices (d_lapic s) (d_lapicw s) (d_reads s) (d_ports s) (d_memory s) (d_reg s) (<[d_reg s := u32 data]> (d_ioapic s))
    (d_ioapicid s) (d_said s)).

Definition ioapicread (reg : Z) : D Z := io_select reg;; io_data.
Definition ioapicwrite (reg data : Z) : D unit := io_select reg;; io_set_data data.

Definition say (msg : string) : D unit := modify (λ s,
  mkDevices (d_lapic s) (d_lapicw s) (d_reads s) (d_ports s) (d_memory s) (d_reg s) (d_ioapic s) (d_ioapicid s) (d_said s ++ [msg])).

Definition ioapicinit : D unit :=
  v ← ioapicread REG_VER;
  let maxintr := Z.land (Z.shiftr v 16) 0xFF in
  v ← ioapicread REG_ID;
  let id := Z.shiftr v 24 in
  s ← get;
  when (negb (id =? d_ioapicid s)) (say "ioapicinit: id isn't equal to ioapicid; not a MP");;
  forM (seqZ 0 (maxintr + 1)) (λ i,
    ioapicwrite (REG_TABLE + 2 * i) (Z.lor INT_DISABLED (T_IRQ0 + i));;
    ioapicwrite (REG_TABLE + 2 * i + 1) 0).

Definition ioapicenable (irq cpunum : Z) : D unit :=
  ioapicwrite (REG_TABLE + 2 * irq) (T_IRQ0 + irq);;
  ioapicwrite (REG_TABLE + 2 * irq + 1) (Z.shiftl cpunum 24).

(** ** [lapic.c]: the local APIC *)
Definition ID : Z := 0x0020 / 4.
Definition VER : Z := 0x0030 / 4.
Definition TPR : Z := 0x0080 / 4.
Definition EOI : Z := 0x00B0 / 4.
Definition SVR : Z := 0x00F0 / 4.
Definition ENABLE : Z := 0x00000100.
Definition ESR : Z := 0x0280 / 4.
Definition ICRLO : Z := 0x0300 / 4.
Definition INIT : Z := 0x00000500.
Definition STARTUP : Z := 0x00000600.
Definition DELIVS : Z := 0x00001000.
Definition ASSERT : Z := 0x00004000.
Definition LEVEL : Z := 0x00008000.
Definition BCAST : Z := 0x00080000.
Definition ICRHI : Z := 0x0310 / 4.
Definition TIMER : Z := 0x0320 / 4.
Definition X1 : Z := 0x0000000B.
Definition PERIODIC : Z := 0x00020000.
Definition PCINT : Z := 0x0340 / 4.
Definition LINT0 : Z := 0x0350 / 4.
Definition LINT1 : Z := 0x0360 / 4.
Definition ERROR : Z := 0x0370 / 4.
Definition MASKED : Z := 0x00010000.
Definition TICR : Z := 0x0380 / 4.
Definition TDCR : Z := 0x03E0 / 4.
Definition IRQ_ERROR : Z := 19.

Definition lapic_at (index : Z) : D Z := read_hw (λ n, lapic_read n index).
Definition lapicw (index value : Z) : D unit :=
  modify (λ s, mkDevices (d_lapic s) (d_lapicw s ++ [(index, u32 value)]) (d_reads s) (d_ports s) (d_memory s) (d_reg s)
    (d_ioapic s) (d_ioapicid s) (d_said s));;
  lapic_at ID;;
  ret tt.

(** [while(lapic\[ICRLO\] & DELIVS)] *)
Fixpoint lapic_wait (fuel : nat) : D unit :=
  match fuel with
  | O => fail OutOfFuel
  | S fuel => r ← lapic_at ICRLO; if truthy (Z.land r DELIVS) then lapic_wait fuel else ret tt
  end.

Definition lapicinit (fuel : nat) : D unit :=
  s ← get;
  if negb (d_lapic s) then ret tt
  else
    lapicw SVR (Z.lor ENABLE (T_IRQ0 + IRQ_SPURIOUS));;
    lapicw TDCR X1;;
    lapicw TIMER (Z.lor PERIODIC (T_IRQ0 + IRQ_TIMER));;
    lapicw TICR 10000000;;
    lapicw LINT0 MASKED;;
    lapicw LINT1 MASKED;;
    v ← lapic_at VER;
    when (4 <=? Z.land (Z.shiftr v 16) 0xFF) (lapicw PCINT MASKED);;
    lapicw ERROR (T_IRQ0 + IRQ_ERROR);;
    lapicw ESR 0;;
    lapicw ESR 0;;
    lapicw EOI 0;;
    lapicw ICRHI 0;;
    lapicw ICRLO (Z.lor (Z.lor BCAST INIT) LEVEL);;
    lapic_wait fuel;;
    lapicw TPR 0.

Definition lapicid : D Z :=
  s ← get;
  if negb (d_lapic s) then ret 0 else v ← lapic_at ID; ret (Z.shiftr v 24).

Definition lapiceoi : D unit :=
  s ← get;
  when (d_lapic s) (lapicw EOI 0).

Definition CMOS_PORT : Z := 0x70.
Definition WRV : Z := P2V (Z.lor (Z.shiftl 0x40 4) 0x67).

Definition lapicstartap (apicid addr : Z) : D unit :=
  outb CMOS_PORT 0xF;;
  outb (CMOS_PORT + 1) 0x0A;;
  store16 WRV 0;;
  store16 (WRV + 2) (Z.shiftr addr 4);;
  lapicw ICRHI (Z.shiftl apicid 24);;
  lapicw ICRLO (Z.lor (Z.lor INIT LEVEL) ASSERT);;
  lapicw ICRLO (Z.lor INIT LEVEL);;
  forM (seqZ 0 2) (λ _,
    lapicw ICRHI (Z.shiftl apicid 24);;
    lapicw ICRLO (Z.lor STARTUP (Z.shiftr addr 12))).

(** ** [lapic.c]: the clock *)
Record rtcdate := mkRtcdate { second : Z; minute : Z; hour : Z; day : Z; month : Z; year : Z }.

#[global] Instance rtcdate_eq_dec : EqDecision rtcdate.
Proof. solve_decision. Defined.

Definition CMOS_STATA : Z := 0x0a.
Definition CMOS_STATB : Z := 0x0b.
Definition CMOS_UIP : Z := Z.shiftl 1 7.
Definition SECS : Z := 0x00.
Definition MINS : Z := 0x02.
Definition HOURS : Z := 0x04.
Definition DAY : Z := 0x07.
Definition MONTH : Z := 0x08.
Definition YEAR : Z := 0x09.

Definition cmos_read (reg : Z) : D Z := outb CMOS_PORT reg;; read_hw (λ n, cmos n reg).

Definition fill_rtcdate : D rtcdate :=
  s ← cmos_read SECS;
  m ← cmos_read MINS;
  h ← cmos_read HOURS;
  d ← cmos_read DAY;
  mo ← cmos_read MONTH;
  y ← cmos_read YEAR;
  ret (mkRtcdate s m h d mo y).

(** The loop until two readings agree. *)
Fixpoint cmos_loop (fuel : nat) : D rtcdate :=
  match fuel with
  | O => fail OutOfFuel
  | S fuel =>
      t1 ← fill_rtcdate;
      a ← cmos_read CMOS_STATA;
      if truthy (Z.land a CMOS_UIP) then cmos_loop fuel
      else
        t2 ← fill_rtcdate;
        if bool_decide (t1 = t2) then ret t1 else cmos_loop fuel
  end.

Definition CONV (x : Z) : Z := Z.shiftr x 4 * 10 + Z.land x 0xf.
Definition convert (t : rtcdate) : rtcdate :=
  mkRtcdate (CONV (second t)) (CONV (minute t)) (CONV (hour t)) (CONV (day t)) (CONV (month t)) (CONV (year t)).

Definition cmostime (fuel : nat) : D rtcdate :=
  sb ← cmos_read CMOS_STATB;
  let bcd := Z.land sb (Z.shiftl 1 2) =? 0 in
  t1 ← cmos_loop fuel;
  let t1 := if bcd then convert t1 else t1 in
  ret (mkRtcdate (second t1) (minute t1) (hour t1) (day t1) (month t1) (year t1 + 2000)).
End apic.

(** ** Where interrupts go *)
Section routing.
Context `{hardware}.
Implicit Types (s : devices) (g : gmap Z Z).

(** The device with other registers in its I/O APIC. *)
Definition with_io (reg : Z) (g : gmap Z Z) (s : devices) : devices :=
  mkDevices (d_lapic s) (d_lapicw s) (d_reads s) (d_ports s) (d_memory s) reg g (d_ioapicid s) (d_said s).

(** The vector and the processor of interrupt [i], as the entry of the redirection table says; none when
    it is masked. *)
Definition delivers (g : gmap Z Z) (i : Z) : option (Z * Z) :=
  let low := default 0 (g !! (REG_TABLE + 2 * i)) in
  let high := default 0 (g !! (REG_TABLE + 2 * i + 1)) in
  if Z.testbit low 16 then None else Some (Z.land low 0xFF, Z.shiftr high 24).

(** The processor that the last of the calls chose. *)
Fixpoint route (es : list (Z * Z)) (i : Z) : option Z :=
  match es with
  | [] => None
  | (irq, c) :: es => match route es i with Some c => Some c | None => if irq =? i then Some c else None end
  end.

Definition entry_set (i low high : Z) g : gmap Z Z :=
  <[REG_TABLE + 2 * i + 1 := u32 high]> (<[REG_TABLE + 2 * i := u32 low]> g).

Lemma ioapic_entry i low high s :
  (ioapicwrite (REG_TABLE + 2 * i) low;; ioapicwrite (REG_TABLE + 2 * i + 1) high) s
  = Ok tt (with_io (REG_TABLE + 2 * i + 1) (entry_set i low high (d_ioapic s)) s).
Proof. done. Qed.

Lemma delivers_entry_ne i j low high g : i ≠ j → delivers (entry_set i low high g) j = delivers g j.
Proof. intros Hne. unfold delivers, entry_set, REG_TABLE. by rewrite !lookup_insert_ne by lia. Qed.

Lemma delivers_enabled i c g : 0 ≤ i < 224 → 0 ≤ c < 256 → delivers (entry_set i (T_IRQ0 + i) (Z.shiftl c 24) g) i = Some (32 + i, c).
Proof.
  intros Hi Hc. unfold delivers, entry_set. rewrite lookup_insert_ne by lia. rewrite !lookup_insert_eq. cbn [default].
  assert (Hu : u32 (T_IRQ0 + i) = 32 + i) by (unfold u32, T_IRQ0; lia). rewrite Hu.
  rewrite Z.testbit_odd, Z.shiftr_div_pow2, (Z.div_small (32 + i)) by lia. cbn [Z.odd].
  change 0xFF with (Z.ones 8). rewrite Z.land_ones, (Z.mod_small (32 + i)) by lia. rewrite Z.shiftl_mul_pow2, Z.shiftr_div_pow2 by lia.
  repeat f_equal. unfold u32, id. lia.
Qed.

Lemma delivers_disabled i g : 0 ≤ i < 224 → delivers (entry_set i (Z.lor INT_DISABLED (T_IRQ0 + i)) 0 g) i = None.
Proof.
  intros Hi. unfold delivers, entry_set. rewrite lookup_insert_ne by lia. rewrite lookup_insert_eq. cbn [default id].
  unfold u32. rewrite Z.mod_pow2_bits_low by lia. by rewrite Z.lor_spec.
Qed.

(** The loop of [ioapicinit] masks every interrupt it passes. *)
Lemma ioapic_mask_all l s : Forall (λ i, 0 ≤ i < 224) l →
  ∃ r g, forM l (λ i, ioapicwrite (REG_TABLE + 2 * i) (Z.lor INT_DISABLED (T_IRQ0 + i));; ioapicwrite (REG_TABLE + 2 * i + 1) 0) s
      = Ok tt (with_io r g s) ∧
    ∀ i, delivers g i = if bool_decide (i ∈ l) then None else delivers (d_ioapic s) i.
Proof.
  intros Hl. revert s. induction Hl as [|i l Hi Hl IH]; intros s; cbn [forM].
  - exists (d_reg s), (d_ioapic s). by destruct s.
  - rewrite (bind_ok _ _ _ _ _ (ioapic_entry i _ 0 s)). set (s1 := with_io _ _ s).
    destruct (IH s1) as (r & g & -> & Hg). exists r, g. split; [done|]. intros j. rewrite Hg. cbn [s1 with_io d_ioapic].
    destruct (decide (j = i)) as [->|Hne].
    + rewrite delivers_disabled, (bool_decide_eq_true_2 (i ∈ i :: l)) by (done || left). by case_match.
    + rewrite delivers_entry_ne by done. case_bool_decide as Hj.
      * rewrite bool_decide_eq_true_2; [done|by right].
      * rewrite bool_decide_eq_false_2; [done|]. by intros [|]%elem_of_cons.
Qed.

Lemma ioapicenable_all es s : Forall (λ e, 0 ≤ e.1 < 224 ∧ 0 ≤ e.2 < 256) es →
  ∃ r g, forM es (λ e, ioapicenable e.1 e.2) s = Ok tt (with_io r g s) ∧
    ∀ i, delivers g i = match route es i with Some c => Some (32 + i, c) | None => delivers (d_ioapic s) i end.
Proof.
  intros Hes. revert s. induction Hes as [|[irq c] es [Hi Hc] Hes IH]; intros s; cbn [forM].
  - exists (d_reg s), (d_ioapic s). by destruct s.
  - cbn [fst snd] in Hi, Hc. unfold ioapicenable at 1. cbn [fst snd]. rewrite (bind_ok _ _ _ _ _ (ioapic_entry irq _ _ s)). set (s1 := with_io _ _ s).
    destruct (IH s1) as (r & g & -> & Hg). exists r, g. split; [done|]. intros j. rewrite Hg. cbn [route s1 with_io d_ioapic].
    destruct (route es j); [done|]. destruct (Z.eqb_spec irq j) as [->|Hne]; [by apply delivers_enabled|by apply delivers_entry_ne].
Qed.

(** Interrupts go where they were sent.  After [ioapicinit] and any calls of [ioapicenable], an
    interrupt of the I/O APIC that was enabled is delivered as vector 32 plus its number to the
    processor of the last call that named it, and every other interrupt is masked. *)
Theorem ioapic_routes s es n :
  n = Z.land (Z.shiftr (default 0 (d_ioapic s !! REG_VER)) 16) 0xFF → n < 224 →
  Forall (λ e, 0 ≤ e.1 ≤ n ∧ 0 ≤ e.2 < 256) es →
  ∃ s', (ioapicinit;; forM es (λ e, ioapicenable e.1 e.2)) s = Ok tt s' ∧
    ∀ i, 0 ≤ i ≤ n → delivers (d_ioapic s') i = (λ c, (32 + i, c)) <$> route es i.
Proof.
  intros Hn Hlt Hes. unfold ioapicinit. rewrite bind_assoc. set (s0 := with_io REG_VER (d_ioapic s) s).
  assert (Hv : ioapicread REG_VER s = Ok (default 0 (d_ioapic s !! REG_VER)) s0) by done.
  rewrite (bind_ok _ _ _ _ _ Hv), <- Hn, bind_assoc. set (v := default 0 (d_ioapic s !! REG_ID)). set (s1 := with_io REG_ID (d_ioapic s) s).
  assert (Hid : ioapicread REG_ID s0 = Ok v s1) by done. rewrite (bind_ok _ _ _ _ _ Hid), bind_assoc.
  rewrite (bind_ok get _ s1 s1 s1 eq_refl), bind_assoc.
  assert (Hw : ∃ s2, when (negb (Z.shiftr v 24 =? d_ioapicid s1)) (say "ioapicinit: id isn't equal to ioapicid; not a MP") s1 = Ok tt s2 ∧
    d_ioapic s2 = d_ioapic s) by (destruct (negb _); by eexists).
  destruct Hw as (s2 & Hw & Hs2). rewrite (bind_ok _ _ _ _ _ Hw).
  destruct (ioapic_mask_all (seqZ 0 (n + 1)) s2) as (r & g & Hm & Hg).
  { apply Forall_forall. intros i Hi%elem_of_seqZ. lia. }
  rewrite (bind_ok _ _ _ _ _ Hm). destruct (ioapicenable_all es (with_io r g s2)) as (r' & g' & -> & Hg').
  { eapply Forall_impl; [exact Hes|]. intros [irq c]. cbn. lia. }
  eexists. split; [done|]. intros i Hi. cbn [with_io d_ioapic]. rewrite Hg'. destruct (route es i); [done|]. cbn [with_io d_ioapic].
  rewrite Hg, bool_decide_eq_true_2 by (apply elem_of_seqZ; lia). done.
Qed.
End routing.

(** The devices after boot: an I/O APIC of 24 interrupts; the console and the serial line on processor
    0, the disk first there and then on the last one. *)
Definition sample_devices : devices := mkDevices true [] 0 [] ∅ 0 (<[REG_VER := 0x170011]> ∅) 0 [].

Lemma ioapic_routes_witness :
  ∃ s', (ioapicinit;; forM [(IRQ_KBD, 0); (IRQ_COM1, 0); (IRQ_IDE, 0); (IRQ_IDE, 1)] (λ e, ioapicenable e.1 e.2)) sample_devices = Ok tt s' ∧
    delivers (d_ioapic s') IRQ_IDE = Some (46, 1) ∧ delivers (d_ioapic s') 2 = None.
Proof.
  destruct (ioapic_routes sample_devices [(IRQ_KBD, 0); (IRQ_COM1, 0); (IRQ_IDE, 0); (IRQ_IDE, 1)] 23) as (s' & Hr & Hd).
  - reflexivity.
  - reflexivity.
  - repeat constructor; cbn; discriminate || reflexivity.
  - exists s'. split; [exact Hr|]. split; [exact (Hd IRQ_IDE ltac:(unfold IRQ_IDE; lia))|exact (Hd 2 ltac:(lia))].
Defined.

(** ** Starting processors *)
Section startup.
Context `{hardware}.
Implicit Types (s : devices).

Definition wrote (index v : Z) s : devices :=
  mkDevices (d_lapic s) (d_lapicw s ++ [(index, u32 v)]) (S (d_reads s)) (d_ports s) (d_memory s) (d_reg s) (d_ioapic s) (d_ioapicid s) (d_said s).

Lemma bind_lapicw {A} index v (f : unit → D A) s : bind (lapicw index v) f s = f tt (wrote index v s).
Proof. done. Qed.

Lemma read_hw_ok f s : ∃ v s', read_hw f s = Ok v s' ∧ d_lapicw s' = d_lapicw s.
Proof. by eexists _, _. Qed.

Lemma lapic_wait_ok fuel s j : (j < fuel)%nat → Z.land (lapic_read (d_reads s + j) ICRLO) DELIVS = 0 →
  ∃ s', lapic_wait fuel s = Ok tt s' ∧ d_lapicw s' = d_lapicw s.
Proof.
  revert s j. induction fuel as [|fuel IH]; intros s j Hj Hd; [lia|]. cbn [lapic_wait]. unfold bind at 1, lapic_at, read_hw.
  unfold truthy. destruct (Z.eqb_spec (Z.land (lapic_read (d_reads s) ICRLO) DELIVS) 0) as [|Hne]; cbn [negb]; [by eexists|].
  destruct j as [|j]; [by rewrite Nat.add_0_r in Hd|]. set (s1 := mkDevices _ _ _ _ _ _ _ _ _).
  apply (IH s1 j); [lia|]. cbn. by rewrite Nat.add_succ_r in Hd.
Qed.

(** The value a register was last given. *)
Definition last_write (ws : list (Z * Z)) (r : Z) : option Z := foldl (λ o w, if w.1 =? r then Some w.2 else o) None ws.

(** [lapicinit] ends when the command has been delivered.  The unit is then enabled, the timer
    interrupts periodically with vector 32, the lines of the old controller are masked, and the last
    write lets interrupts through. *)
Theorem lapicinit_enables fuel s : d_lapic s = true → (∀ n, ∃ j, (j < fuel)%nat ∧ Z.land (lapic_read (n + j) ICRLO) DELIVS = 0) →
  ∃ s' ws, lapicinit fuel s = Ok tt s' ∧ d_lapicw s' = d_lapicw s ++ ws ++ [(TPR, 0)] ∧
    last_write ws SVR = Some (ENABLE + 63) ∧ last_write ws TIMER = Some (PERIODIC + 32) ∧
    last_write ws LINT0 = Some MASKED ∧ last_write ws LINT1 = Some MASKED ∧ last_write ws ICRLO = Some (BCAST + INIT + LEVEL).
Proof.
  intros Hon Hdel. unfold lapicinit. rewrite (bind_ok get _ s s s eq_refl), Hon. cbn [negb]. do 6 rewrite bind_lapicw.
  set (s1 := wrote LINT1 _ _). destruct (read_hw_ok (λ n, lapic_read n VER) s1) as (v & s2 & Hv & Hs2).
  rewrite (bind_ok (lapic_at VER) _ _ _ _ Hv).
  assert (Hw : ∃ s3 ws, when (4 <=? Z.land (Z.shiftr v 16) 0xFF) (lapicw PCINT MASKED) s2 = Ok tt s3 ∧ d_lapicw s3 = d_lapicw s2 ++ ws ∧
    (ws = [] ∨ ws = [(PCINT, MASKED)])).
  { destruct (4 <=? _); [eexists _, [(PCINT, MASKED)]|eexists _, []]; (split; [reflexivity|]); cbn; rewrite ?app_nil_r; auto. }
  destruct Hw as (s3 & ws & Hw & Hs3 & Hws). rewrite (bind_ok _ _ _ _ _ Hw). do 6 rewrite bind_lapicw. set (s4 := wrote ICRLO _ _).
  destruct (Hdel (d_reads s4)) as (j & Hj & Hd). destruct (lapic_wait_ok fuel s4 j Hj Hd) as (s5 & Hw5 & Hs5).
  rewrite (bind_ok _ _ _ _ _ Hw5). exists (wrote TPR 0 s5).
  exists ([(SVR, u32 (Z.lor ENABLE (T_IRQ0 + IRQ_SPURIOUS))); (TDCR, u32 X1); (TIMER, u32 (Z.lor PERIODIC (T_IRQ0 + IRQ_TIMER)));
    (TICR, u32 10000000); (LINT0, u32 MASKED); (LINT1, u32 MASKED)] ++ ws ++ [(ERROR, u32 (T_IRQ0 + IRQ_ERROR)); (ESR, u32 0); (ESR, u32 0);
    (EOI, u32 0); (ICRHI, u32 0); (ICRLO, u32 (Z.lor (Z.lor BCAST INIT) LEVEL))]). split; [done|]. split.
  - cbn [wrote d_lapicw]. rewrite Hs5. cbn [s4 wrote d_lapicw]. rewrite Hs3, Hs2. cbn [s1 wrote d_lapicw].
    rewrite <- !app_assoc. cbn [app]. done.
  - destruct Hws as [-> | ->]; vm_compute; done.
Qed.

(** The processor that [lapicstartap] starts runs from [addr] on, whether it takes the warm reset vector
    or one of the two startup messages. *)
Theorem lapicstartap_starts apicid addr s : 0 ≤ apicid < 256 → 0 ≤ addr < 2 ^ 20 → addr mod 4096 = 0 →
  ∃ s' vec, lapicstartap apicid addr s = Ok tt s' ∧
    16 * (rd8 (d_memory s') (WRV + 2) + 2 ^ 8 * rd8 (d_memory s') (WRV + 3)) + (rd8 (d_memory s') WRV + 2 ^ 8 * rd8 (d_memory s') (WRV + 1)) = addr ∧
    d_lapicw s' = d_lapicw s ++ [(ICRHI, apicid * 2 ^ 24); (ICRLO, INIT + LEVEL + ASSERT); (ICRLO, INIT + LEVEL);
      (ICRHI, apicid * 2 ^ 24); (ICRLO, STARTUP + vec); (ICRHI, apicid * 2 ^ 24); (ICRLO, STARTUP + vec)] ∧
    0 ≤ vec < 256 ∧ 4096 * vec = addr.
Proof.
  intros Ha Hr Hal. assert (Hv : 0 ≤ addr / 4096 < 256) by lia. unfold lapicstartap, outb, store16. do 4 rewrite bind_modify.
  do 3 rewrite bind_lapicw. change (seqZ 0 2) with [0; 1]. cbn [forM]. do 2 rewrite bind_assoc, 2!bind_lapicw.
  eexists _, (addr / 4096). split; [reflexivity|]. cbn [wrote d_memory d_lapicw]. split; [|split; [|lia]].
  - rewrite !rd8_wr8. zbool. rewrite !Z.shiftr_div_pow2 by lia. unfold u8. lia.
  - rewrite <- !app_assoc. cbn [app]. rewrite Z.shiftl_mul_pow2, Z.shiftr_div_pow2 by lia. change (2 ^ 12) with 4096.
    assert (Hor : Z.lor STARTUP (addr / 4096) = STARTUP + addr / 4096).
    { assert (Hall : Forall (λ v, Z.lor STARTUP v = STARTUP + v) (seqZ 0 256)) by vm_decide. rewrite Forall_forall in Hall.
      apply Hall, elem_of_seqZ. lia. }
    rewrite Hor. replace (u32 (apicid * 2 ^ 24)) with (apicid * 2 ^ 24) by (unfold u32; lia).
    replace (u32 (STARTUP + addr / 4096)) with (STARTUP + addr / 4096) by (unfold u32, STARTUP; lia). done.
Qed.
End startup.

(** ** The time of day *)
Section clock.
Context `{hardware}.
Implicit Types (s : devices) (t : rtcdate) (n : nat).

(** A field as the clock stores it. *)
Definition field (bcd : bool) (x : Z) : Z := if bcd then 16 * (x / 10) + x mod 10 else x.
Definition fields (bcd : bool) t : rtcdate :=
  mkRtcdate (field bcd (second t)) (field bcd (minute t)) (field bcd (hour t)) (field bcd (day t)) (field bcd (month t)) (field bcd (year t)).
Definition two_digits t : Prop :=
  Forall (λ x, 0 ≤ x < 100) [second t; minute t; hour t; day t; month t; year t].

(** The clock: at the [n]-th read it shows the date [now n], and it announces an update early enough
    that after a clear bit six more registers can be read. *)
Record rtc (bcd : bool) (now : nat → rtcdate) : Prop := {
  rtc_mode n : (Z.land (cmos n CMOS_STATB) (Z.shiftl 1 2) =? 0) = bcd;
  rtc_second n : cmos n SECS = field bcd (second (now n));
  rtc_minute n : cmos n MINS = field bcd (minute (now n));
  rtc_hour n : cmos n HOURS = field bcd (hour (now n));
  rtc_day n : cmos n DAY = field bcd (day (now n));
  rtc_month n : cmos n MONTH = field bcd (month (now n));
  rtc_year n : cmos n YEAR = field bcd (year (now n));
  rtc_digits n : two_digits (now n);
  rtc_uip n j : Z.land (cmos n CMOS_STATA) CMOS_UIP = 0 → (j ≤ 6)%nat → now (n + j)%nat = now n
}.

(** Nothing changes for the time of two rounds of the loop, from read [n0] on. *)
Definition rests (now : nat → rtcdate) (n0 : nat) : Prop :=
  ∀ j, (j < 26)%nat → now (n0 + j)%nat = now n0 ∧ Z.land (cmos (n0 + j) CMOS_STATA) CMOS_UIP = 0.

Context (bcd : bool) (now : nat → rtcdate) (Hrtc : rtc bcd now).

Lemma cmos_read_ok reg s : ∃ s', cmos_read reg s = Ok (cmos (d_reads s) reg) s' ∧ d_reads s' = S (d_reads s).
Proof. by eexists. Qed.

(** Six reads that see one date. *)
Lemma fill_rtcdate_ok s : ∃ t s', fill_rtcdate s = Ok t s' ∧ d_reads s' = (d_reads s + 6)%nat ∧
  ∀ d, (∀ j, (j < 6)%nat → now (d_reads s + j)%nat = d) → t = fields bcd d.
Proof.
  unfold fill_rtcdate. set (n := d_reads s).
  destruct (cmos_read_ok SECS s) as (s1 & H1 & R1). rewrite (bind_ok _ _ _ _ _ H1).
  destruct (cmos_read_ok MINS s1) as (s2 & H2 & R2). rewrite (bind_ok _ _ _ _ _ H2).
  destruct (cmos_read_ok HOURS s2) as (s3 & H3 & R3). rewrite (bind_ok _ _ _ _ _ H3).
  destruct (cmos_read_ok DAY s3) as (s4 & H4 & R4). rewrite (bind_ok _ _ _ _ _ H4).
  destruct (cmos_read_ok MONTH s4) as (s5 & H5 & R5). rewrite (bind_ok _ _ _ _ _ H5).
  destruct (cmos_read_ok YEAR s5) as (s6 & H6 & R6). rewrite (bind_ok _ _ _ _ _ H6).
  eexists _, s6. split; [reflexivity|]. split; [lia|]. intros d Hd. unfold fields.
  rewrite (rtc_second _ _ Hrtc), (rtc_minute _ _ Hrtc), (rtc_hour _ _ Hrtc), (rtc_day _ _ Hrtc), (rtc_month _ _ Hrtc), (rtc_year _ _ Hrtc).
  assert (Hj : ∀ j m, (j < 6)%nat → m = (n + j)%nat → now m = d) by (intros j m Hj ->; by apply Hd).
  by rewrite (Hj 0%nat (d_reads s)), (Hj 1%nat (d_reads s1)), (Hj 2%nat (d_reads s2)), (Hj 3%nat (d_reads s3)),
    (Hj 4%nat (d_reads s4)), (Hj 5%nat (d_reads s5)) by lia.
Qed.

Lemma cmos_loop_ok fuel s n0 : rests now n0 →
  (d_reads s ≤ n0 + 13)%nat → (1 ≤ fuel)%nat → (n0 < d_reads s + fuel)%nat →
  ∃ s' n, cmos_loop fuel s = Ok (fields bcd (now n)) s' ∧ (d_reads s ≤ n < d_reads s')%nat.
Proof.
  intros Hq. revert s. induction fuel as [|fuel IH]; intros s Hs Hf Hn; [lia|]. cbn [cmos_loop].
  destruct (fill_rtcdate_ok s) as (t1 & s1 & H1 & R1 & T1). rewrite (bind_ok _ _ _ _ _ H1).
  destruct (cmos_read_ok CMOS_STATA s1) as (s2 & H2 & R2). rewrite (bind_ok _ _ _ _ _ H2).
  unfold truthy. destruct (Z.eqb_spec (Z.land (cmos (d_reads s1) CMOS_STATA) CMOS_UIP) 0) as [Hu|Hu]; cbn [negb].
  - destruct (fill_rtcdate_ok s2) as (t2 & s3 & H3 & R3 & T2). rewrite (bind_ok _ _ _ _ _ H3).
    assert (Ht2 : t2 = fields bcd (now (d_reads s1))).
    { apply T2. intros j Hj. rewrite R2. replace (S (d_reads s1) + j)%nat with (d_reads s1 + S j)%nat by lia.
      apply (rtc_uip _ _ Hrtc); [done|lia]. }
    case_bool_decide as He; [exists s3, (d_reads s1); split; [by rewrite He, Ht2|lia]|].
    assert (Hlt : (d_reads s < n0)%nat).
    { destruct (decide (d_reads s < n0)%nat) as [|Hge]; [done|]. destruct He. rewrite Ht2. apply T1. intros j Hj.
      replace (d_reads s + j)%nat with (n0 + (d_reads s + j - n0))%nat by lia.
      replace (d_reads s1) with (n0 + (d_reads s1 - n0))%nat by lia. by rewrite (proj1 (Hq (d_reads s + j - n0)%nat ltac:(lia))), (proj1 (Hq (d_reads s1 - n0)%nat ltac:(lia))). }
    destruct (IH s3) as (s' & n & -> & Hb); [lia..|]. exists s', n. split; [done|lia].
  - assert (Hlt : (d_reads s < n0)%nat).
    { destruct (decide (d_reads s < n0)%nat) as [|Hge]; [done|]. destruct Hu.
      replace (d_reads s1) with (n0 + (d_reads s1 - n0))%nat by lia. apply Hq. lia. }
    destruct (IH s2) as (s' & n & -> & Hb); [lia..|]. exists s', n. split; [done|lia].
Qed.

Lemma CONV_field x : 0 ≤ x < 100 → CONV (field true x) = x.
Proof.
  intros Hx. unfold CONV, field. change 0xf with (Z.ones 4). rewrite Z.land_ones, Z.shiftr_div_pow2 by lia.
  change (2 ^ 4) with 16. lia.
Qed.

Lemma convert_fields t : two_digits t → (if bcd then convert (fields bcd t) else fields bcd t) = t.
Proof.
  intros Ht. destruct t as [a b c d e f]. destruct bcd; [|done]. unfold two_digits in Ht. cbn [second minute hour day month year] in Ht.
  rewrite !Forall_cons in Ht. destruct Ht as (?&?&?&?&?&?&_). unfold convert, fields. cbn [second minute hour day month year].
  by rewrite !CONV_field.
Qed.

(** C35: [cmostime] tells a time the clock showed.  The clock may tick while it is read, so that the fields
    of one reading belong to different dates; what [cmostime] returns is, with its century, a date the
    clock showed during the call, from binary or BCD registers, and it returns once the clock rests for
    two rounds of the loop. *)
Theorem cmostime_tells fuel s n0 :
  rests now n0 → (d_reads s < n0 + 13)%nat → (1 ≤ fuel)%nat → (n0 ≤ d_reads s + fuel)%nat →
  ∃ s' n, cmostime fuel s
      = Ok (mkRtcdate (second (now n)) (minute (now n)) (hour (now n)) (day (now n)) (month (now n)) (2000 + year (now n))) s' ∧
    (d_reads s < n < d_reads s')%nat.
Proof.
  intros Hq Hs Hf Hn. unfold cmostime. destruct (cmos_read_ok CMOS_STATB s) as (s1 & H1 & R1). rewrite (bind_ok _ _ _ _ _ H1).
  rewrite (rtc_mode _ _ Hrtc). destruct (cmos_loop_ok fuel s1 n0 Hq) as (s' & n & H2 & Hb); [lia..|].
  rewrite (bind_ok _ _ _ _ _ H2), convert_fields by apply Hrtc. exists s', n. split; [|lia]. unfold ret. do 2 f_equal. lia.
Qed.
End clock.

(** A clock in BCD mode that ticks from the end of a year to the next one at its tenth read. *)
Definition eve : rtcdate := mkRtcdate 59 59 23 31 12 25.
Definition morn : rtcdate := mkRtcdate 0 0 0 1 1 26.
Definition ticking (n : nat) : rtcdate := if (n <? 10)%nat then eve else morn.
Definition ticking_clock : hardware := {|
  lapic_read := λ _ _, 0;
  cmos := λ n reg,
    let t := fields true (ticking n) in
    if reg =? SECS then second t else if reg =? MINS then minute t else if reg =? HOURS then hour t
    else if reg =? DAY then day t else if reg =? MONTH then month t else if reg =? YEAR then year t
    else if reg =? CMOS_STATA then (if ((3 <=? n) && (n <? 10))%nat then 0xA6 else 0x26) else 0x02
|}.

Lemma ticking_rtc : rtc (H := ticking_clock) true ticking.
Proof.
  split; try done.
  - intros n. unfold ticking. destruct (n <? 10)%nat; repeat constructor; cbn; lia.
  - intros n j Hu Hj. cbn -[Nat.ltb Nat.leb] in Hu. unfold ticking.
    destruct (Nat.leb_spec 3 n), (Nat.ltb_spec n 10), (Nat.ltb_spec (n + j) 10); try done; lia.
Qed.

Lemma ticking_rests : rests (H := ticking_clock) ticking 10.
Proof.
  intros j Hj. assert (Hge : (10 + j <? 10)%nat = false) by (apply Nat.ltb_ge; lia). unfold ticking. split; [by rewrite Hge|].
  change (cmos (10 + j) CMOS_STATA) with (if ((3 <=? 10 + j) && (10 + j <? 10))%nat then 0xA6 else 0x26).
  by rewrite Hge, andb_false_r.
Qed.

Lemma cmostime_tells_witness :
  ∃ s' n, cmostime (H := ticking_clock) 11 sample_devices
      = Ok (mkRtcdate (second (ticking n)) (minute (ticking n)) (hour (ticking n)) (day (ticking n)) (month (ticking n)) (2000 + year (ticking n))) s' ∧
    (0 < n < d_reads s')%nat.
Proof.
  apply (cmostime_tells (H := ticking_clock) true ticking ticking_rtc 11 sample_devices 10 ticking_rests); cbn; lia.
Defined.
