(* ===== verification/SwapSpec.v ===== *)
(** Paging is transparent: [swapToFile] and the page-fault handler keep the
    invariant that ties [pagesDS], the two queues, the page table and the swap
    file together, and they do not change the memory the process sees. *)

From S2P Require Import Prelude Params Bytes State Spinlock Mem Kalloc PageTable Uaccess Procs Sched SchedSpec Bio BioSpec Queue QueueSpec Swap.

(** ** What paging relies on of the file layer *)

Class FileSpec `{FileIO} := {
  (* the file in slot [f] is a regular file that nobody else has open, with these contents *)
  fopen : fsys → nat → Prop;
  fdata : fsys → nat → list Z;
  (* [n] bytes can be written at [off]: within the maximal size, and the disk has the blocks *)
  fits : fsys → nat → Z → Z → Prop;
  fdata_bytes s f : fopen s f → Forall (λ b, 0 ≤ b < 256) (fdata s f);
  fopen_slot s f : fopen s f → is_Some (files s !! f);
  fopen_off s f f' off :
    fopen s f → fopen (set_files (alter (set_f_off off) f' (files s)) s) f;
  fdata_off s f f' off :
    fdata (set_files (alter (set_f_off off) f' (files s)) s) f = fdata s f;
  fits_off s f f' off o n :
    fits s f o n → fits (set_files (alter (set_f_off off) f' (files s)) s) f o n;
  filewrite_ok k f fl buf n bs :
    fs_ready k → fopen (k_fs k) f → files (k_fs k) !! f = Some fl →
    0 ≤ f_off fl ≤ Z.of_nat (length (fdata (k_fs k) f)) → 0 < n →
    fits (k_fs k) f (f_off fl) n → 0 ≤ buf < 2 ^ 32 → vbytes k buf n = Some bs →
    ∃ s, filewrite f buf n k = Ok n (set_k_fs s k) ∧ fopen s f ∧
      fdata s f = splice (fdata (k_fs k) f) (Z.to_nat (f_off fl)) bs ∧
      ∀ f', f' ≠ f → fopen (k_fs k) f' → fopen s f' ∧ fdata s f' = fdata (k_fs k) f';
  fileread_ok k f fl buf n :
    fs_ready k → fopen (k_fs k) f → files (k_fs k) !! f = Some fl →
    0 ≤ f_off fl → 0 < n → f_off fl + n ≤ Z.of_nat (length (fdata (k_fs k) f)) →
    KERNBASE ≤ buf → buf + n ≤ 2 ^ 32 →
    ∃ s, fileread f buf n k
      = Ok n (set_k_fs s (mod_vm (λ v, set_mem (write_bytes (mem v) buf
          (take (Z.to_nat n) (drop (Z.to_nat (f_off fl)) (fdata (k_fs k) f)))) v) k)) ∧
      (∀ f', fopen (k_fs k) f' → fopen s f' ∧ fdata s f' = fdata (k_fs k) f')
}.

(** ** The memory a process sees *)
Section user_memory.
Implicit Types (m : memory) (g : paging) (data : list Z).

(** The allocated entry for the page at [va]. *)
Definition entry_of g (va : Z) : option page :=
  snd <$> list_find (λ d, isAllocated d = 1 ∧ v_address d = va) (pagesDS g).

(** The byte at [va]: in its frame, in the swap file, or nowhere. *)
Definition umem m (pd : Z) g data (va : Z) : option Z :=
  let e := pte m pd va in
  if has_P e then Some (rd8 m (P2V (PTE_ADDR e) + va mod PGSIZE))
  else if has_PG e then
    match entry_of g (va - va mod PGSIZE) with
    | Some d => data !! Z.to_nat (file_offset d + va mod PGSIZE)
    | None => None
    end
  else None.

(** The places of the swap file that hold a page. *)
Definition used g : list Z :=
  omap (λ d, if (isAllocated d =? 1) && (in_RAM d =? 0) then Some (file_offset d) else None) (pagesDS g).

(** A place in the swap file: a page-aligned offset below its end. *)
Definition slot_ok (fend x : Z) : Prop := 0 ≤ x ∧ x mod PGSIZE = 0 ∧ x + PGSIZE ≤ fend.

(** The invariant of a process that pages: [q] are the pages in memory, in queue
    order, [o] the free places of the swap file. *)
Record pg_inv m (pd : Z) g data (q o : list Z) : Prop := mkPgInv {
  pi_len : length (pagesDS g) = 32%nat;
  pi_queue : qrep (inRAMQueue g) q;
  pi_offsets : qrep (availableOffsetQueue g) o;
  pi_nodup : NoDup q;
  pi_flags : ∀ i d, pagesDS g !! i = Some d →
    (isAllocated d = 0 ∨ isAllocated d = 1) ∧ (in_RAM d = 0 ∨ in_RAM d = 1);
  pi_inq : ∀ i d, pagesDS g !! i = Some d → Z.of_nat i ∈ q ↔ isAllocated d = 1 ∧ in_RAM d = 1;
  pi_qin : ∀ x, x ∈ q → x < 32;
  pi_va : ∀ i d, pagesDS g !! i = Some d → isAllocated d = 1 →
    0 ≤ v_address d < KERNBASE ∧ v_address d mod PGSIZE = 0;
  pi_first : ∀ i j d e, pagesDS g !! i = Some d → isAllocated d = 1 → (j < i)%nat →
    pagesDS g !! j = Some e → v_address e ≠ v_address d;
  pi_ram : ∀ i d, pagesDS g !! i = Some d → isAllocated d = 1 → in_RAM d = 1 →
    has_P (pte m pd (v_address d)) = true ∧ has_PG (pte m pd (v_address d)) = false;
  pi_swap : ∀ i d, pagesDS g !! i = Some d → isAllocated d = 1 → in_RAM d = 0 →
    has_P (pte m pd (v_address d)) = false ∧ has_PG (pte m pd (v_address d)) = true;
  pi_slots : NoDup (used g ++ o);
  pi_slot_ok : Forall (slot_ok (fileOffset g)) (used g ++ o);
  pi_file : fileOffset g = PGSIZE * Z.of_nat (length (used g ++ o));
  pi_data : Z.of_nat (length data) = fileOffset g
}.

Lemma pi_distinct m pd g data q o i j d e :
  pg_inv m pd g data q o → pagesDS g !! i = Some d → pagesDS g !! j = Some e →
  isAllocated d = 1 → isAllocated e = 1 → v_address d = v_address e → i = j.
Proof.
  intros Hi Hd He Had Hae Hv. destruct (decide (i < j)%nat).
  { by destruct (pi_first _ _ _ _ _ _ Hi j i e d He Hae). }
  destruct (decide (j < i)%nat); [|lia]. by destruct (pi_first _ _ _ _ _ _ Hi i j d e Hd Had).
Qed.

Lemma entry_of_some m pd g data q o i d :
  pg_inv m pd g data q o → pagesDS g !! i = Some d → isAllocated d = 1 →
  entry_of g (v_address d) = Some d.
Proof.
  intros Hi Hd Ha. unfold entry_of. rewrite (proj2 (list_find_Some _ _ i d)); [done|].
  split_and!; [done..|]. intros j e He Hj [Hae Hv]. by eapply (pi_first _ _ _ _ _ _ Hi i j).
Qed.

Lemma entry_of_inv g va d :
  entry_of g va = Some d → ∃ i, pagesDS g !! i = Some d ∧ isAllocated d = 1 ∧ v_address d = va.
Proof.
  unfold entry_of. intros ([i d'] & Hf & ->)%fmap_Some.
  apply list_find_Some in Hf as (Hd & [Ha Hv] & _). by exists i.
Qed.

Lemma used_elem g x :
  x ∈ used g ↔ ∃ i d, pagesDS g !! i = Some d ∧ isAllocated d = 1 ∧ in_RAM d = 0 ∧ file_offset d = x.
Proof.
  unfold used. rewrite list_elem_of_omap. split.
  - intros (d & Hd & Hx). apply list_elem_of_lookup in Hd as [i Hd]. exists i, d.
    destruct (Z.eqb_spec (isAllocated d) 1), (Z.eqb_spec (in_RAM d) 0); naive_solver.
  - intros (i & d & Hd & Ha & Hr & <-). exists d. split; [by eapply list_elem_of_lookup_2|].
    by rewrite Ha, Hr.
Qed.

(** The queue and the swapped pages fit in [pagesDS]. *)
Lemma fileOffset_bound m pd g data q o : pg_inv m pd g data q o → 0 ≤ fileOffset g ≤ 48 * PGSIZE.
Proof.
  intros Hi. rewrite (pi_file _ _ _ _ _ _ Hi), length_app.
  pose proof (qr_len _ _ (pi_offsets _ _ _ _ _ _ Hi)).
  assert (length (used g) ≤ 32)%nat; [|clia].
  rewrite <- (pi_len _ _ _ _ _ _ Hi). unfold used. clear. induction (pagesDS g) as [|d ds IH]; [done|].
  cbn. destruct ((isAllocated d =? 1) && (in_RAM d =? 0)); cbn; lia.
Qed.
End user_memory.

(** ** The choice of a page *)
Section select.
Context `{link} `{build}.
Implicit Types (k : kernel) (p : nat) (m : memory) (g : paging).

Lemma second_chance_perm acc q x q' cl : second_chance acc q = Some (x, q', cl) → q ≡ₚ x :: q'.
Proof.
  unfold second_chance. destruct (span acc q) as [pre post] eqn:Hs.
  destruct (span_spec _ _ _ _ Hs) as (-> & _ & _). destruct post as [|y post].
  - rewrite app_nil_r. destruct pre; [done|]. by intros [= -> -> _].
  - intros [= -> <- _]. by rewrite Permutation_app_comm.
Qed.

Lemma pi_page m pd g data q o x :
  pg_inv m pd g data q o → x ∈ q →
  ∃ d, pagesDS g !! Z.to_nat x = Some d ∧ aget (pagesDS g) x = Some d ∧ 0 ≤ x ∧
    isAllocated d = 1 ∧ in_RAM d = 1.
Proof.
  intros Hi Hx. pose proof (pi_qin _ _ _ _ _ _ Hi x Hx) as Hlt.
  pose proof (qr_pos _ _ (pi_queue _ _ _ _ _ _ Hi)) as Hp. rewrite Forall_forall in Hp.
  specialize (Hp x Hx). simpl in Hp.
  destruct (lookup_lt_is_Some_2 (pagesDS g) (Z.to_nat x)) as [d Hd].
  { rewrite (pi_len _ _ _ _ _ _ Hi). lia. }
  exists d. destruct (pi_inq _ _ _ _ _ _ Hi _ _ Hd) as [Hin _]. rewrite Z2Nat.id in Hin by done.
  destruct (Hin Hx). split_and!; [done| |done..].
  unfold aget. by rewrite (proj2 (Z.leb_le _ _)).
Qed.

Lemma pi_resident m pd g data q o : pg_inv m pd g data q o → Forall (resident m pd g) q.
Proof.
  intros Hi. apply Forall_forall. intros x Hx.
  destruct (pi_page _ _ _ _ _ _ _ Hi Hx) as (d & Hd & Had & _ & Ha & Hr). exists d.
  destruct (pi_va _ _ _ _ _ _ Hi _ _ Hd Ha). destruct (pi_ram _ _ _ _ _ _ Hi _ _ Hd Ha Hr). done.
Qed.

Lemma pi_vpns m pd g data q o : pg_inv m pd g data q o → NoDup (vpn_of g <$> q).
Proof.
  intros Hi. apply NoDup_fmap_2_strong; [|apply Hi]. intros x y Hx Hy Hv.
  destruct (pi_page _ _ _ _ _ _ _ Hi Hx) as (d & Hd & Hdx & ? & Ha & _).
  destruct (pi_page _ _ _ _ _ _ _ Hi Hy) as (e & He & Hey & ? & Hae & _).
  destruct (pi_va _ _ _ _ _ _ Hi _ _ Hd Ha) as [_ Hd4]. destruct (pi_va _ _ _ _ _ _ Hi _ _ He Hae) as [_ He4].
  unfold vpn_of in Hv. rewrite Hdx, Hey in Hv. cbn in Hv.
  assert (Hxy : Z.to_nat x = Z.to_nat y) by (eapply (pi_distinct _ _ _ _ _ _ _ _ d e); try done; clia). lia.
Qed.

(** Every policy takes one page out of a full queue; all it may do to memory is
    clear accessed bits. *)
Lemma remove_ok k p pr l data q o :
  SELECTION ≠ NONE → runs (k_mach k) p → procs (k_pt k) !! p = Some pr →
  kmem_ok (k_vm k) l → aspace (mem (k_vm k)) (pgdir pr) l →
  pg_inv (mem (k_vm k)) (pgdir pr) (pg pr) data q o → length q = 16%nat →
  ∃ x q' v vs,
    match SELECTION with
    | SCFIFO => removeSCFIFO | NFUA => removeNFUA | LAPA => removeLAPA | AQ => removeAQ
    | NONE => ret 0
    end k = Ok x (upd_proc p (set_pg (set_inRAMQueue (arr q') (pg pr))) (set_k_vm v k)) ∧
    q ≡ₚ x :: q' ∧ pt_step (pgdir pr) (k_vm k) l v l ∧
    A_cleared (pgdir pr) (mem (k_vm k)) (mem v) vs.
Proof.
  intros Hsel Hrun Hp Hk Has Hi Hl. pose proof (pi_queue _ _ _ _ _ _ Hi) as Hq.
  assert (Hages : ∃ ags, queue_ages (pg pr) q ags).
  { apply queue_ages_exist, Forall_forall. intros x Hx.
    destruct (pi_page _ _ _ _ _ _ _ Hi Hx) as (d & _ & Hd & _). by apply aget_Some_range in Hd. }
  destruct Hages as [ags Hages].
  assert (Hdel : ∀ (m : M kerr paging Z) x j, q !! j = Some x →
    m (pg pr) = Ok x (set_inRAMQueue (arr (delete j q)) (pg pr)) →
    ∃ x q' v vs, (p ← curproc; on_pg p m) k
      = Ok x (upd_proc p (set_pg (set_inRAMQueue (arr q') (pg pr))) (set_k_vm v k)) ∧
      q ≡ₚ x :: q' ∧ pt_step (pgdir pr) (k_vm k) l v l ∧ A_cleared (pgdir pr) (mem (k_vm k)) (mem v) vs).
  { intros m x j Hj Hm. exists x, (delete j q), (k_vm k), []. rewrite set_k_vm_id.
    split_and!; [|by apply delete_Permutation|by apply pt_step_refl|by intros va _].
    rewrite (bind_ok _ _ _ _ _ (curproc_runs k p Hrun)). by eapply on_pg_ok. }
  destruct SELECTION eqn:Hs; [| | | |done].
  - destruct (removeSCFIFO_run k p pr l q _ Hrun Hp Hq (pi_vpns _ _ _ _ _ _ Hi) Hk Has
      (pi_resident _ _ _ _ _ _ Hi) eq_refl (or_introl Hl)) as (x & q' & cl & v & Hsc & Hr & Hst & Hc).
    exists x, q', v, (vpn_of (pg pr) <$> cl). split_and!; [done| |done..].
    by eapply second_chance_perm.
  - destruct (removeNFUA_pg_ok (pg pr) q ags Hq Hl Hages) as (j & x & Hj & _ & Hm). by eapply Hdel.
  - destruct (removeLAPA_pg_ok (pg pr) q ags Hq Hl Hages) as (j & x & Hj & _ & Hm). by eapply Hdel.
  - destruct q as [|x q]; [done|]. eapply (Hdel _ x 0%nat); [done|]. by apply removeAQ_pg_ok.
Qed.
End select.

(** ** Clearing accessed bits *)
Section accessed.
Context `{link}.
Implicit Types (m : memory) (g : paging).

Lemma pg_inv_pte m m' pd g data q o :
  (∀ va, 0 ≤ va < KERNBASE → has_P (pte m' pd va) = has_P (pte m pd va) ∧
     has_PG (pte m' pd va) = has_PG (pte m pd va)) →
  pg_inv m pd g data q o → pg_inv m' pd g data q o.
Proof.
  intros Hm Hi. destruct Hi. split; try done.
  - intros i d Hd Ha Hr. destruct (pi_va0 i d Hd Ha) as [Hv _]. destruct (Hm _ Hv) as [-> ->]. by eapply pi_ram0.
  - intros i d Hd Ha Hr. destruct (pi_va0 i d Hd Ha) as [Hv _]. destruct (Hm _ Hv) as [-> ->]. by eapply pi_swap0.
Qed.

Lemma umem_ext m m' pd g data va :
  has_P (pte m' pd va) = has_P (pte m pd va) → has_PG (pte m' pd va) = has_PG (pte m pd va) →
  PTE_ADDR (pte m' pd va) = PTE_ADDR (pte m pd va) →
  (has_P (pte m pd va) = true → agree m m' (P2V (PTE_ADDR (pte m pd va)))) →
  umem m' pd g data va = umem m pd g data va.
Proof.
  intros HP HG HA Hag. unfold umem. rewrite HP, HG, HA.
  destruct (has_P (pte m pd va)); [|done]. f_equal. apply Hag; [done|]. clia.
Qed.

Lemma A_cleared_flags pd m m' vs va :
  A_cleared pd m m' vs → 0 ≤ va < 2 ^ 32 →
  has_P (pte m' pd va) = has_P (pte m pd va) ∧ has_PG (pte m' pd va) = has_PG (pte m pd va) ∧
  PTE_ADDR (pte m' pd va) = PTE_ADDR (pte m pd va).
Proof.
  intros Hc Hva. rewrite (Hc va Hva). case_bool_decide; [|done].
  by destruct (PTE_A_OFF_ok (pte m pd va) (pte_range _ _ _)) as (_ & -> & -> & -> & _).
Qed.

Lemma pg_inv_A m m' pd g data q o vs :
  A_cleared pd m m' vs → pg_inv m pd g data q o → pg_inv m' pd g data q o.
Proof.
  intros Hc. apply pg_inv_pte. intros va Hva.
  destruct (A_cleared_flags pd m m' vs va Hc) as (? & ? & _); [clia|done].
Qed.

Lemma umem_A pd v l v' l' g data vs va :
  aspace (mem v) pd l → kmem_ok v l → pt_step pd v l v' l' → A_cleared pd (mem v) (mem v') vs →
  0 ≤ va < KERNBASE → umem (mem v') pd g data va = umem (mem v) pd g data va.
Proof.
  intros Has Hk Hs Hc Hva.
  destruct (A_cleared_flags pd (mem v) (mem v') vs va Hc) as (HP & HG & HA); [clia|].
  apply umem_ext; [done..|]. intros Hp. eapply (pt_step_user _ _ _ _ _ (va / PGSIZE)); [done..|].
  by apply role_user.
Qed.

(** The bytes of a page that is present, read at its user address. *)
Lemma vbytes_page k pd a :
  page_ok pd → cr3 (k_mach k) = V2P pd → 0 ≤ a < KERNBASE → a mod PGSIZE = 0 →
  has_P (pte (mem (k_vm k)) pd a) = true →
  vbytes k a PGSIZE = Some (read_bytes (mem (k_vm k)) (P2V (PTE_ADDR (pte (mem (k_vm k)) pd a))) 4096).
Proof.
  intros Hpd Hcr Ha Hal HP. unfold vbytes. apply mapM_Some.
  apply Forall2_same_length_lookup. split; [by rewrite length_seqZ, length_read_bytes|].
  intros i x b [Hx Hi]%lookup_seqZ Hb. cbn in Hx. change (Z.of_nat i < 4096) in Hi.
  rewrite lookup_read_bytes in Hb by lia. simplify_eq. rewrite Z.add_0_l.
  rewrite u32_small by clia. unfold vload8, vaddr.
  rewrite (proj2 (Z.leb_gt _ _)) by clia. rewrite Hcr.
  pose proof (page_ok_range pd Hpd). rewrite P2V_V2P by clia. unfold frame_of.
  rewrite role_user; [|clia|].
  - cbn. rewrite (pte_same_page _ _ (a + Z.of_nat i) a) by clia. do 2 f_equal. clia.
  - rewrite (pte_same_page _ _ (a + Z.of_nat i) a) by clia. done.
Qed.
End accessed.

(** ** Moving one page out, on the tables *)
Section swap_out.
Implicit Types (m : memory) (g : paging) (data : list Z).

(** The place of the swap file an entry holds. *)
Definition slot (d : page) : list Z :=
  if (isAllocated d =? 1) && (in_RAM d =? 0) then [file_offset d] else [].

Lemma used_update g (i : nat) d d' l' :
  pagesDS g !! i = Some d → l' = <[i := d']> (pagesDS g) →
  slot d ++ used (set_pagesDS l' g) ≡ₚ slot d' ++ used g.
Proof.
  intros Hd ->. unfold used. cbn. set (f := λ d, _).
  assert (Hs : ∀ d ds, omap f (d :: ds) = slot d ++ omap f ds).
  { intros e ds. cbn. unfold f, slot. by destruct (_ && _). }
  rewrite (insert_take_drop _ _ d') by (by eapply lookup_lt_Some).
  rewrite <- (take_drop_middle _ _ _ Hd) at 3. rewrite !omap_app, !Hs. solve_Permutation.
Qed.

Lemma entry_of_ext g g' va :
  (∀ d, d ∈ pagesDS g → isAllocated d = 0 ∨ v_address d ≠ va) →
  (∀ d, d ∈ pagesDS g' → isAllocated d = 0 ∨ v_address d ≠ va) → entry_of g' va = entry_of g va.
Proof.
  intros H1 H2. unfold entry_of. rewrite !(proj2 (list_find_None _ _)); [done|..];
    apply Forall_forall; intros d Hd [Ha Hv]; [destruct (H1 d Hd)|destruct (H2 d Hd)]; congruence.
Qed.

(** Updating an entry without changing its address or its allocation. *)
Lemma entry_of_update m pd g g' data q o (i : nat) d d' va :
  pg_inv m pd g data q o → pagesDS g !! i = Some d → pagesDS g' = <[i := d']> (pagesDS g) →
  isAllocated d = 1 → isAllocated d' = 1 → v_address d' = v_address d →
  entry_of g' va = if va =? v_address d then Some d' else entry_of g va.
Proof.
  intros Hi Hd Hg Ha Ha' Hv. pose proof (lookup_lt_Some _ _ _ Hd) as Hlt.
  assert (Hfirst : ∀ j e, (j < i)%nat → pagesDS g !! j = Some e → v_address e ≠ v_address d)
    by (intros j e Hj He; by eapply (pi_first _ _ _ _ _ _ Hi i j)).
  unfold entry_of. rewrite Hg. destruct (Z.eqb_spec va (v_address d)) as [->|Hne].
  - rewrite (proj2 (list_find_Some _ _ i d')); [done|].
    rewrite list_lookup_insert_eq by done. split_and!; [done..|].
    intros j e He Hj [_ Hve]. rewrite list_lookup_insert_ne in He by lia. by eapply Hfirst.
  - destruct (list_find (λ d, isAllocated d = 1 ∧ v_address d = va) (pagesDS g)) as [[j e]|] eqn:Hf.
    + apply list_find_Some in Hf as (He & [Hae Hve] & Hbef).
      assert (i ≠ j) by (intros ->; simplify_eq).
      rewrite (proj2 (list_find_Some _ _ j e)); [done|].
      rewrite list_lookup_insert_ne by done. split_and!; [done..|].
      intros j' e' He' Hlt'. destruct (decide (i = j')) as [<-|].
      * rewrite list_lookup_insert_eq in He' by done. simplify_eq. intros [_ ?]. congruence.
      * rewrite list_lookup_insert_ne in He' by done. by eapply Hbef.
    + apply list_find_None in Hf. rewrite (proj2 (list_find_None _ _)); [done|].
      apply Forall_insert; [done|]. intros [_ ?]. congruence.
Qed.

(** What the two flag macros leave of an entry that goes to the file. *)
Definition paged_out (m m' : memory) (pd a : Z) : Prop :=
  ∀ va, 0 ≤ va < KERNBASE →
    if va / PGSIZE =? a / PGSIZE then has_P (pte m' pd va) = false ∧ has_PG (pte m' pd va) = true
    else pte m' pd va = pte m pd va.

Lemma pg_inv_swap_out m m' pd g g' data data' q q' o o' (i : nat) d off :
  pg_inv m pd g data q o → pagesDS g !! i = Some d → q ≡ₚ Z.of_nat i :: q' →
  pagesDS g' = <[i := set_in_RAM 0 (set_file_offset off d)]> (pagesDS g) →
  inRAMQueue g' = arr q' → qrep (availableOffsetQueue g') o' →
  NoDup (off :: used g ++ o') → Forall (slot_ok (fileOffset g')) (off :: used g ++ o') →
  fileOffset g' = PGSIZE * Z.of_nat (length (off :: used g ++ o')) →
  Z.of_nat (length data') = fileOffset g' →
  paged_out m m' pd (v_address d) →
  pg_inv m' pd g' data' q' o'.
Proof.
  intros Hi Hd Hq Hds Hq' Ho' Hnd Hsl Hfo Hdl Hout. pose proof (lookup_lt_Some _ _ _ Hd) as Hlt.
  assert (Hin : Z.of_nat i ∈ q) by (rewrite Hq; set_solver).
  destruct (proj1 (pi_inq _ _ _ _ _ _ Hi i d Hd) Hin) as [Ha Hr].
  set (d' := set_in_RAM 0 (set_file_offset off d)) in *.
  assert (Hlk : ∀ j e, pagesDS g' !! j = Some e → (j = i ∧ e = d') ∨ (j ≠ i ∧ pagesDS g !! j = Some e)).
  { intros j e He. rewrite Hds in He. destruct (decide (i = j)) as [<-|].
    - rewrite list_lookup_insert_eq in He by done. naive_solver.
    - rewrite list_lookup_insert_ne in He by done. naive_solver. }
  assert (Hnd' : NoDup (Z.of_nat i :: q')) by (rewrite <- Hq; apply Hi).
  apply NoDup_cons in Hnd' as [Hnin Hndq].
  assert (Hused : used g' ≡ₚ off :: used g).
  { pose proof (used_update g i d d' (pagesDS g') Hd Hds) as Hu.
    unfold slot in Hu. subst d'. cbn in Hu. rewrite Ha, Hr in Hu. cbn in Hu. exact Hu. }
  assert (Hpte : ∀ j e, pagesDS g !! j = Some e → isAllocated e = 1 → j ≠ i →
    pte m' pd (v_address e) = pte m pd (v_address e)).
  { intros j e He Hae Hji. destruct (pi_va _ _ _ _ _ _ Hi j e He Hae) as [Hv Hv4].
    destruct (pi_va _ _ _ _ _ _ Hi i d Hd Ha) as [Hvd Hvd4]. specialize (Hout _ Hv).
    destruct (Z.eqb_spec (v_address e / PGSIZE) (v_address d / PGSIZE)); [|done].
    exfalso. apply Hji. eapply (pi_distinct _ _ _ _ _ _ j i e d); try done. clia. }
  destruct (pi_va _ _ _ _ _ _ Hi i d Hd Ha) as [Hvd Hvd4].
  split.
  - rewrite Hds, length_insert. apply Hi.
  - rewrite Hq'. apply qrep_arr.
    + pose proof (qr_len _ _ (pi_queue _ _ _ _ _ _ Hi)) as Hl. rewrite Hq in Hl. cbn in Hl. lia.
    + pose proof (qr_pos _ _ (pi_queue _ _ _ _ _ _ Hi)) as Hp. rewrite Hq in Hp. by inversion Hp.
  - done.
  - done.
  - intros j e [[-> ->]|[_ He]]%Hlk; [subst d'; cbn; lia|by eapply (pi_flags _ _ _ _ _ _ Hi)].
  - intros j e [[-> ->]|[Hji He]]%Hlk.
    + subst d'. cbn. split; [done|lia].
    + rewrite <- (pi_inq _ _ _ _ _ _ Hi j e He), Hq, elem_of_cons. split; [by right|intros [?|?]; [lia|done]].
  - intros x Hx. apply (pi_qin _ _ _ _ _ _ Hi). rewrite Hq. set_solver.
  - intros j e [[-> ->]|[_ He]]%Hlk Hae; [done|by eapply (pi_va _ _ _ _ _ _ Hi)].
  - intros j j' e e' [[-> ->]|[Hji He]]%Hlk Hae Hlt' [[-> ->]|[Hji' He']]%Hlk; subst d'; cbn in *; [lia|..];
      by eapply (pi_first _ _ _ _ _ _ Hi).
  - intros j e [[-> ->]|[Hji He]]%Hlk Hae Hre; [subst d'; cbn in *; lia|].
    rewrite (Hpte j e) by done. by eapply (pi_ram _ _ _ _ _ _ Hi).
  - intros j e [[-> ->]|[Hji He]]%Hlk Hae Hre.
    + specialize (Hout _ Hvd). by rewrite Z.eqb_refl in Hout.
    + rewrite (Hpte j e) by done. by eapply (pi_swap _ _ _ _ _ _ Hi).
  - by rewrite Hused.
  - by rewrite Hused.
  - by rewrite Hused.
  - done.
Qed.
(** A page written to the place [off]: what is read at another place is unchanged. *)
Lemma splice_page_in data off f m b :
  0 ≤ off ≤ Z.of_nat (length data) → 0 ≤ b < PGSIZE →
  splice data (Z.to_nat off) (read_bytes m f 4096) !! Z.to_nat (off + b) = Some (rd8 m (f + b)).
Proof.
  intros Hoff Hb. unfold PGSIZE in Hb. rewrite splice_lookup, length_read_bytes by lia.
  rewrite decide_True by lia. rewrite lookup_read_bytes by lia. do 2 f_equal. lia.
Qed.

Lemma splice_page_out data off f m fend x b :
  0 ≤ off ≤ Z.of_nat (length data) → slot_ok fend off → slot_ok fend x → off ≠ x → 0 ≤ b < PGSIZE →
  splice data (Z.to_nat off) (read_bytes m f 4096) !! Z.to_nat (x + b) = data !! Z.to_nat (x + b).
Proof.
  intros Hoff (_ & Ho & _) (Hx & Hx4 & _) Hne Hb. unfold PGSIZE in *.
  rewrite splice_lookup, length_read_bytes by lia. rewrite decide_False by lia. done.
Qed.

Lemma page_base va : (va - va mod PGSIZE) / PGSIZE = va / PGSIZE.
Proof. clia. Qed.

Lemma page_base_eq va a : a mod PGSIZE = 0 → (va - va mod PGSIZE =? a) = (va / PGSIZE =? a / PGSIZE).
Proof. intros Ha. destruct (Z.eqb_spec (va - va mod PGSIZE) a), (Z.eqb_spec (va / PGSIZE) (a / PGSIZE)); clia. Qed.

Lemma swapped_entry m pd g data q o va e :
  pg_inv m pd g data q o → 0 ≤ va < KERNBASE → has_P (pte m pd va) = false →
  entry_of g (va - va mod PGSIZE) = Some e → file_offset e ∈ used g.
Proof.
  intros Hi Hva HP He. apply entry_of_inv in He as (j & Hj & Hae & Hve).
  apply used_elem. exists j, e. split_and!; [done..| |done].
  destruct (pi_flags _ _ _ _ _ _ Hi j e Hj) as [_ [?|Hre]]; [done|].
  destruct (pi_ram _ _ _ _ _ _ Hi j e Hj Hae Hre) as [HPe _].
  rewrite Hve, (pte_same_page m pd (va - va mod PGSIZE) va) in HPe; [congruence|clia|clia|].
  apply page_base.
Qed.

Lemma umem_swap_out m m' pd g g' data q o o' (i : nat) d off fend va :
  pg_inv m pd g data q o → pagesDS g !! i = Some d → isAllocated d = 1 → in_RAM d = 1 →
  pagesDS g' = <[i := set_in_RAM 0 (set_file_offset off d)]> (pagesDS g) →
  NoDup (off :: used g ++ o') → Forall (slot_ok fend) (off :: used g ++ o') →
  off ≤ Z.of_nat (length data) →
  paged_out m m' pd (v_address d) → 0 ≤ va < KERNBASE →
  let f := P2V (PTE_ADDR (pte m pd (v_address d))) in
  (has_P (pte m pd va) = true → va / PGSIZE ≠ v_address d / PGSIZE →
    agree m m' (P2V (PTE_ADDR (pte m pd va)))) →
  umem m' pd g' (splice data (Z.to_nat off) (read_bytes m f 4096)) va = umem m pd g data va.
Proof.
  intros Hi Hd Ha Hr Hds Hnd Hsl Hol Hout Hva f Hag.
  destruct (pi_va _ _ _ _ _ _ Hi i d Hd Ha) as [Hvd Hvd4].
  destruct (pi_ram _ _ _ _ _ _ Hi i d Hd Ha Hr) as [HPd _].
  pose proof (entry_of_update _ _ _ g' _ _ _ i d (set_in_RAM 0 (set_file_offset off d))
    (va - va mod PGSIZE) Hi Hd Hds Ha Ha eq_refl) as Hent.
  rewrite page_base_eq in Hent by done.
  apply Forall_cons in Hsl as [Hso Hsl]. apply NoDup_cons in Hnd as [Hnin _].
  assert (Hoff : 0 ≤ off ≤ Z.of_nat (length data)) by (destruct Hso; lia).
  assert (Hmod : 0 ≤ va mod PGSIZE < PGSIZE) by (apply Z.mod_pos_bound; done).
  assert (Hk : KERNBASE < 2 ^ 32) by done.
  unfold umem. specialize (Hout va Hva).
  destruct (Z.eqb_spec (va / PGSIZE) (v_address d / PGSIZE)) as [Heq|Hne].
  - destruct Hout as [-> ->].
    rewrite (pte_same_page m pd va (v_address d)), HPd; [|lia|lia|done].
    rewrite Hent. cbn [file_offset set_in_RAM set_file_offset]. by apply splice_page_in.
  - rewrite Hout. destruct (has_P (pte m pd va)) eqn:HP; [f_equal; apply Hag; [done..|lia]|].
    destruct (has_PG (pte m pd va)) eqn:HG; [|done]. rewrite Hent.
    destruct (entry_of g (va - va mod PGSIZE)) as [e|] eqn:He; [|done].
    pose proof (swapped_entry _ _ _ _ _ _ _ _ Hi Hva HP He) as Hu.
    rewrite Forall_forall in Hsl. eapply (splice_page_out _ _ _ _ fend); [done|done| | |done].
    + apply Hsl. set_solver.
    + intros ->. apply Hnin. set_solver.
Qed.
End swap_out.

(** ** A place for the page *)
Section place.
Context `{build}.
Implicit Types (m : memory) (g : paging) (data : list Z).

(** The place the next page goes to. *)
Definition next_off g (o : list Z) : Z := default (fileOffset g) (head o).

Lemma getFree_ok m pd g g1 data q o :
  pg_inv m pd g data q o → pagesDS g1 = pagesDS g →
  availableOffsetQueue g1 = availableOffsetQueue g → fileOffset g1 = fileOffset g →
  let off := next_off g o in
  ∃ g2, getFreeFileOffset_pg g1 = Ok off g2 ∧
    pagesDS g2 = pagesDS g ∧ inRAMQueue g2 = inRAMQueue g1 ∧
    qrep (availableOffsetQueue g2) (tail o) ∧
    NoDup (off :: used g ++ tail o) ∧ Forall (slot_ok (fileOffset g2)) (off :: used g ++ tail o) ∧
    fileOffset g2 = PGSIZE * Z.of_nat (length (off :: used g ++ tail o)) ∧
    0 ≤ off ≤ fileOffset g ∧ fileOffset g2 = Z.max (fileOffset g) (off + PGSIZE).
Proof.
  intros Hi Hds Hoq Hfo off. pose proof (fileOffset_bound _ _ _ _ _ _ Hi) as Hb.
  pose proof (pi_slots _ _ _ _ _ _ Hi) as Hnd. pose proof (pi_slot_ok _ _ _ _ _ _ Hi) as Hsl.
  pose proof (pi_file _ _ _ _ _ _ Hi) as Hfile. pose proof (pi_offsets _ _ _ _ _ _ Hi) as Ho.
  rewrite <- Hoq in Ho. destruct o as [|x o].
  - eexists. cbn in off |- *. rewrite app_nil_r in *. split_and!.
    + rewrite getFreeFileOffset_pg_new by done. rewrite Hfo, s32_small by clia. done.
    + done.
    + done.
    + done.
    + apply NoDup_cons. split; [|done]. intros Hin. rewrite Forall_forall in Hsl.
      destruct (Hsl _ Hin) as (_ & _ & ?). unfold off in *. clia.
    + cbn. rewrite ?Hfo, u32_small by clia. constructor.
      * unfold off, slot_ok. rewrite Hfile. clia.
      * eapply Forall_impl; [done|]. unfold slot_ok. intros y (? & ? & ?). clia.
    + cbn. rewrite ?Hfo, u32_small by clia. rewrite Hfile. clia.
    + unfold off. lia.
    + done.
    + cbn. rewrite ?Hfo, u32_small by clia. unfold off. clia.
  - eexists. cbn in off |- *. pose proof Hsl as Hsl'. rewrite <- (Permutation_middle (used g)) in Hsl', Hnd.
    assert (Hx : slot_ok (fileOffset g) x) by (by inversion Hsl'). destruct Hx as (? & ? & ?).
    split_and!.
    + by apply (getFreeFileOffset_pg_reuse g1 o x).
    + done.
    + done.
    + apply qrep_arr; [pose proof (qr_len _ _ Ho) as Hl; cbn in Hl; lia|].
      by pose proof (qr_pos _ _ Ho) as [_ ?]%Forall_cons.
    + done.
    + cbn. by rewrite Hfo.
    + cbn. rewrite Hfo, Hfile, !length_app. cbn. lia.
    + unfold off. done.
    + unfold off. clia.
    + cbn. rewrite Hfo. unfold off. clia.
Qed.
End place.

(** ** States of a run of the handlers

    Memory, the file system and the paging fields of one process change. *)
Definition put (p : nat) (v : vmem) (g : paging) (s : fsys) (k : kernel) : kernel :=
  upd_proc p (set_pg g) (set_k_vm v (set_k_fs s k)).

Section put.
Implicit Types (k : kernel) (p : nat) (pr : proc).

Lemma put_proc p v g s k pr :
  procs (k_pt k) !! p = Some pr → procs (k_pt (put p v g s k)) !! p = Some (set_pg g pr).
Proof. intros Hp. unfold put. by apply upd_proc_lookup. Qed.

Lemma put_id p k pr : procs (k_pt k) !! p = Some pr → put p (k_vm k) (pg pr) (k_fs k) k = k.
Proof.
  intros Hp. unfold put. erewrite upd_proc_same; [by destruct k|done|by destruct pr].
Qed.

Lemma put_put p v g s v' g' s' k : put p v' g' s' (put p v g s k) = put p v' g' s' k.
Proof.
  unfold put, upd_proc, mod_pt, set_k_vm, set_k_fs, set_k_pt. cbn.
  by rewrite list_alter_alter_eq.
Qed.

Lemma put_upd p v g s g' k : upd_proc p (set_pg g') (put p v g s k) = put p v g' s k.
Proof. unfold put. by rewrite upd_proc_compose. Qed.

Lemma on_pg_put {A} (m : M kerr paging A) p v g s k pr a g' :
  procs (k_pt k) !! p = Some pr → m g = Ok a g' → on_pg p m (put p v g s k) = Ok a (put p v g' s k).
Proof.
  intros Hp Hm. rewrite (on_pg_ok m _ p (set_pg g pr) a g'); [by rewrite put_upd|by apply put_proc|done].
Qed.

Lemma fs_ready_put p v g s k : fs_ready k → fs_ready (put p v g s k).
Proof.
  intros [(p' & pr & Hc & Hp & Hs & Hch) Hl Hq]. split; [|done|].
  - exists p'. destruct (decide (p = p')) as [<-|].
    + eexists. split; [done|]. split; [by apply put_proc|done].
    + exists pr. split; [done|]. unfold put. by rewrite upd_proc_ne.
  - intros c Hc' q' [i Hi]%list_elem_of_lookup. unfold put, upd_proc in Hi. cbn in Hi.
    rewrite list_lookup_alter in Hi. destruct (decide (p = i)) as [<-|].
    + destruct (procs (k_pt k) !! p) as [q|] eqn:Hp'; [|done]. injection Hi as <-.
      apply (Hq c Hc' q). by eapply list_elem_of_lookup_2.
    + apply (Hq c Hc'). by eapply list_elem_of_lookup_2.
Qed.
End put.

Section files.
Context `{link} `{build} `{FileIO} `{!FileSpec}.
Implicit Types (k : kernel) (p : nat) (pr : proc) (f : nat).

Lemma vbytes_fs k s va n : vbytes (set_k_fs s k) va n = vbytes k va n.
Proof. done. Qed.

Lemma write_swap k p pr f buf off n bs :
  procs (k_pt k) !! p = Some pr → swapFile pr = Some f → fs_ready k → fopen (k_fs k) f →
  0 ≤ off ≤ Z.of_nat (length (fdata (k_fs k) f)) → 0 < n → fits (k_fs k) f off n →
  0 ≤ buf < 2 ^ 32 → vbytes k buf n = Some bs →
  ∃ s, writeToSwapFile p buf off n k = Ok n (set_k_fs s k) ∧ fopen s f ∧
    fdata s f = splice (fdata (k_fs k) f) (Z.to_nat off) bs ∧
    ∀ f', f' ≠ f → fopen (k_fs k) f' → fopen s f' ∧ fdata s f' = fdata (k_fs k) f'.
Proof.
  intros Hp Hf Hr Ho Hoff Hn Hfit Hbuf Hbs. unfold writeToSwapFile, swap_file.
  rewrite bind_assoc, (bind_ok _ _ _ _ _ (get_proc_ok k p pr Hp)). rewrite Hf.
  rewrite bind_or_ub. unfold set_off. rewrite bind_modify.
  destruct (fopen_slot _ _ Ho) as [fl Hfl].
  set (k1 := mod_fs _ k).
  destruct (filewrite_ok k1 f (set_f_off off fl) buf n bs) as (s & Hw & Ho' & Hd & Hoth).
  - by apply fs_ready_fs.
  - by apply fopen_off.
  - cbn. by rewrite list_lookup_alter_eq, Hfl.
  - cbn. by rewrite fdata_off.
  - done.
  - cbn. by apply fits_off.
  - done.
  - done.
  - exists s. split_and!; [done|done| |].
    + rewrite Hd. cbn. by rewrite fdata_off.
    + intros f' Hne Hf'. destruct (Hoth f' Hne) as [? Hd']; [by apply fopen_off|].
      split; [done|]. rewrite Hd'. cbn. by rewrite fdata_off.
Qed.

Lemma read_swap k p pr f buf off n :
  procs (k_pt k) !! p = Some pr → swapFile pr = Some f → fs_ready k → fopen (k_fs k) f →
  0 ≤ off → 0 < n → off + n ≤ Z.of_nat (length (fdata (k_fs k) f)) →
  KERNBASE ≤ buf → buf + n ≤ 2 ^ 32 →
  ∃ s, readFromSwapFile p buf off n k
    = Ok n (set_k_fs s (mod_vm (λ v, set_mem (write_bytes (mem v) buf
        (take (Z.to_nat n) (drop (Z.to_nat off) (fdata (k_fs k) f)))) v) k)) ∧
    (∀ f', fopen (k_fs k) f' → fopen s f' ∧ fdata s f' = fdata (k_fs k) f').
Proof.
  intros Hp Hf Hr Ho Hoff Hn Hlen Hb Hb'. unfold readFromSwapFile, swap_file.
  rewrite bind_assoc, (bind_ok _ _ _ _ _ (get_proc_ok k p pr Hp)). rewrite Hf.
  rewrite bind_or_ub. unfold set_off. rewrite bind_modify.
  destruct (fopen_slot _ _ Ho) as [fl Hfl].
  set (k1 := mod_fs _ k).
  destruct (fileread_ok k1 f (set_f_off off fl) buf n) as (s & Hw & Hoth).
  - by apply fs_ready_fs.
  - by apply fopen_off.
  - cbn. by rewrite list_lookup_alter_eq, Hfl.
  - done.
  - done.
  - cbn. by rewrite fdata_off.
  - done.
  - done.
  - exists s. split.
    + rewrite Hw. cbn. by rewrite fdata_off.
    + intros f' Hf'. destruct (Hoth f') as [? Hd']; [by apply fopen_off|].
      split; [done|]. rewrite Hd'. cbn. by rewrite fdata_off.
Qed.

Lemma update_pte_ok k pd l va t F :
  aspace (mem (k_vm k)) pd l → table (mem (k_vm k)) pd (PDX va) = Some t →
  update_pte (t + 4 * PTX va) F k
  = Ok tt (set_k_vm (set_mem (wr32 (mem (k_vm k)) (t + 4 * PTX va) (F (pte (mem (k_vm k)) pd va))) (k_vm k)) k).
Proof.
  intros Has Ht. unfold update_pte. by rewrite (bind_ok _ _ _ _ _ (deref_entry k pd l va t Has Ht)).
Qed.
End files.

(** ** [swapToFile] *)
Section swap_to_file.
Context `{link} `{build} `{FileIO} `{!FileSpec}.
Implicit Types (k : kernel) (p : nat) (pr : proc) (f : nat) (l q o : list Z).

(** Process [p] runs, pages to file [f], and its tables are consistent. *)
Record paged k p pr f l q o : Prop := mkPaged {
  pd_runs : runs (k_mach k) p;
  pd_proc : procs (k_pt k) !! p = Some pr;
  pd_cr3 : cr3 (k_mach k) = V2P (pgdir pr);
  pd_ready : kmem_ready k;
  pd_fs : fs_ready k;
  pd_kmem : kmem_ok (k_vm k) l;
  pd_as : aspace (mem (k_vm k)) (pgdir pr) l;
  pd_swap : swapFile pr = Some f;
  pd_open : fopen (k_fs k) f;
  pd_inv : pg_inv (mem (k_vm k)) (pgdir pr) (pg pr) (fdata (k_fs k) f) q o
}.

(** The memory the process sees. *)
Definition view k pr f (va : Z) : option Z :=
  umem (mem (k_vm k)) (pgdir pr) (pg pr) (fdata (k_fs k) f) va.

Lemma selectPage_run k p pr f l q o :
  SELECTION ≠ NONE → paged k p pr f l q o → length q = 16%nat →
  ∃ (i : nat) d q' v vs,
    selectPage k = Ok (v_address d) (put p v (set_inRAMQueue (arr q') (pg pr)) (k_fs k) k) ∧
    pagesDS (pg pr) !! i = Some d ∧ isAllocated d = 1 ∧ in_RAM d = 1 ∧ q ≡ₚ Z.of_nat i :: q' ∧
    pt_step (pgdir pr) (k_vm k) l v l ∧ A_cleared (pgdir pr) (mem (k_vm k)) (mem v) vs.
Proof.
  intros Hsel Hpd Hl. pose proof (pd_inv _ _ _ _ _ _ _ Hpd) as Hi. pose proof (pd_proc _ _ _ _ _ _ _ Hpd) as Hp.
  destruct (remove_ok k p pr l _ q o Hsel (pd_runs _ _ _ _ _ _ _ Hpd) Hp (pd_kmem _ _ _ _ _ _ _ Hpd)
    (pd_as _ _ _ _ _ _ _ Hpd) Hi Hl) as (x & q' & v & vs & Hrm & Hq & Hs & Hc).
  assert (Hx : x ∈ q) by (rewrite Hq; set_solver).
  destruct (pi_page _ _ _ _ _ _ _ Hi Hx) as (d & Hd & Hdx & Hx0 & Ha & Hr).
  exists (Z.to_nat x), d, q', v, vs. rewrite Z2Nat.id by done. split_and!; [|done..].
  assert (Hput : upd_proc p (set_pg (set_inRAMQueue (arr q') (pg pr))) (set_k_vm v k)
    = put p v (set_inRAMQueue (arr q') (pg pr)) (k_fs k) k) by (by destruct k).
  rewrite Hput in Hrm. unfold selectPage. rewrite (bind_ok _ _ _ _ _ Hrm).
  erewrite bind_ok by (apply curproc_runs; exact (pd_runs _ _ _ _ _ _ _ Hpd)).
  erewrite bind_ok; [done|]. eapply on_pg_put; [done|]. by apply get_page_ok.
Qed.

Lemma find_address_ok g (i : nat) d fuel :
  length (pagesDS g) = 32%nat → pagesDS g !! i = Some d →
  (∀ j e, (j < i)%nat → pagesDS g !! j = Some e → v_address e ≠ v_address d) →
  (i < fuel)%nat → find_address fuel 0 (v_address d) g = Ok (Z.of_nat i) g.
Proof.
  intros Hlen Hd Hbef Hf. pose proof (lookup_lt_Some _ _ _ Hd).
  assert (Hgo : ∀ n fuel, (n ≤ i)%nat → (i - n < fuel)%nat →
    find_address fuel (Z.of_nat n) (v_address d) g = Ok (Z.of_nat i) g).
  { clear fuel Hf. intros n fuel. revert n. induction fuel as [|fuel IH]; intros n Hn Hfu; [lia|].
    destruct (lookup_lt_is_Some_2 (pagesDS g) n) as [e He]; [lia|]. cbn [find_address].
    rewrite (bind_ok _ _ _ _ _ (get_page_nat g n e He)).
    destruct (decide (n = i)) as [->|Hne].
    - simplify_eq. by rewrite Z.eqb_refl.
    - rewrite (proj2 (Z.eqb_neq _ _)) by (eapply Hbef; [|done]; lia).
      rewrite (proj2 (Z.ltb_lt _ _)) by clia. cbn [negb andb].
      replace (Z.of_nat n + 1) with (Z.of_nat (S n)) by lia. apply IH; lia. }
  apply (Hgo 0%nat); lia.
Qed.

(** Two updates of the flags of one user entry. *)
Lemma update2_ok k pd l va t F1 F2 :
  kmem_ok (k_vm k) l → aspace (mem (k_vm k)) pd l → 0 ≤ va < KERNBASE →
  table (mem (k_vm k)) pd (PDX va) = Some t →
  let e := pte (mem (k_vm k)) pd va in
  0 ≤ F1 e < 2 ^ 32 → (has_P (F1 e) = true → has_P e = true ∧ PTE_ADDR (F1 e) = PTE_ADDR e) →
  0 ≤ F2 (F1 e) < 2 ^ 32 →
  (has_P (F2 (F1 e)) = true → has_P (F1 e) = true ∧ PTE_ADDR (F2 (F1 e)) = PTE_ADDR (F1 e)) →
  ∃ v, (update_pte (t + 4 * PTX va) F1;; update_pte (t + 4 * PTX va) F2) k = Ok tt (set_k_vm v k) ∧
    table (mem v) pd (PDX va) = Some t ∧ pt_step pd (k_vm k) l v l ∧
    ∀ va', 0 ≤ va' < 2 ^ 32 →
      pte (mem v) pd va' = if va / PGSIZE =? va' / PGSIZE then F2 (F1 e) else pte (mem (k_vm k)) pd va'.
Proof.
  intros Hk Has Hva Ht e Hr1 Hf1 Hr2 Hf2.
  destruct (pt_step_flags pd (k_vm k) l va t (F1 e)) as [Hs1 Hp1]; try done.
  set (v1 := set_mem _ (k_vm k)) in Hs1.
  assert (Ht1 : table (mem v1) pd (PDX va) = Some t)
    by (cbn; rewrite (table_set _ _ l) by (done || apply PDX_range); done).
  assert (He1 : pte (mem v1) pd va = F1 e) by (cbn; rewrite Hp1 by clia; by rewrite Z.eqb_refl).
  destruct (pt_step_flags pd v1 l va t (F2 (F1 e))) as [Hs2 Hp2];
    [apply Hs1|apply Hs1|done|done|done|by rewrite He1|].
  set (v2 := set_mem _ v1) in Hs2.
  assert (Ht2 : table (mem v2) pd (PDX va) = Some t)
    by (cbn; rewrite (table_set (mem v1) _ l) by (apply Hs1 || done || apply PDX_range); done).
  assert (He2 : ∀ va', 0 ≤ va' < 2 ^ 32 → pte (mem v2) pd va'
    = if va / PGSIZE =? va' / PGSIZE then F2 (F1 e) else pte (mem (k_vm k)) pd va').
  { intros va' Hva'. cbn. rewrite Hp2 by done. destruct (_ =? _) eqn:Heq; [done|].
    cbn. rewrite Hp1 by done. by rewrite Heq. }
  exists v2. split_and!; [|done|by eapply pt_step_trans|done].
  rewrite (bind_ok _ _ _ _ _ (update_pte_ok k pd l va t F1 Has Ht)). fold e v1.
  rewrite (update_pte_ok (set_k_vm v1 k) pd l va t F2 (ps_aspace _ _ _ _ _ Hs1) Ht1).
  cbn [k_vm set_k_vm]. by rewrite He1.
Qed.

(** The entry of a page that goes out: [PTE_P] off, then [PTE_PG] on. *)
Lemma page_out_entry k pd l va t :
  kmem_ok (k_vm k) l → aspace (mem (k_vm k)) pd l → 0 ≤ va < KERNBASE →
  table (mem (k_vm k)) pd (PDX va) = Some t →
  ∃ v, (update_pte (t + 4 * PTX va) PTE_P_OFF;; update_pte (t + 4 * PTX va) PTE_PG_ON) k
    = Ok tt (set_k_vm v k) ∧
    table (mem v) pd (PDX va) = Some t ∧ pt_step pd (k_vm k) l v l ∧
    paged_out (mem (k_vm k)) (mem v) pd va ∧ PTE_ADDR (pte (mem v) pd va) = PTE_ADDR (pte (mem (k_vm k)) pd va).
Proof.
  intros Hk Has Hva Ht. set (e := pte (mem (k_vm k)) pd va) in *.
  destruct (PTE_P_OFF_ok e (pte_range _ _ _)) as (Hr1 & Ha1 & HP1 & _).
  destruct (PTE_PG_ON_ok (PTE_P_OFF e) Hr1) as (Hr2 & Ha2 & HP2 & HG2). rewrite HP1 in HP2.
  destruct (update2_ok k pd l va t PTE_P_OFF PTE_PG_ON Hk Has Hva Ht)
    as (v & Hrun & Htv & Hs & Hpte); fold e; try done; try congruence.
  exists v. split_and!; [done..| |].
  - intros va' Hva'. rewrite Hpte by clia. rewrite (Z.eqb_sym (va / PGSIZE)). by destruct (_ =? _).
  - rewrite Hpte by clia. rewrite Z.eqb_refl. fold e. congruence.
Qed.

(** The frame of the page that went out is no longer part of the address space. *)
Lemma frame_freed pd v l v' l' a :
  pt_step pd v l v' l' → aspace (mem v) pd l → paged_out (mem v) (mem v') pd a →
  0 ≤ a < KERNBASE → has_P (pte (mem v) pd a) = true →
  ∀ r, role_page (mem v') pd r ≠ Some (P2V (PTE_ADDR (pte (mem v) pd a))).
Proof.
  intros Hs Has Hout Ha HP r Hr. pose proof (role_user _ _ _ Ha HP) as Hu.
  assert (Htab : ∀ r, (∀ n, r ≠ RUser n) → role_page (mem v') pd r ≠ Some (P2V (PTE_ADDR (pte (mem v) pd a)))).
  { intros r' Hr' Hq. destruct (ps_tabs _ _ _ _ _ Hs (P2V (PTE_ADDR (pte (mem v) pd a)))) as [(r1 & Hn & Hr1)|Hin].
    - by exists r'.
    - by apply (Hn (a / PGSIZE)), (as_inj _ _ _ Has _ _ _ Hr1).
    - by destruct (as_page _ _ _ Has _ _ Hu). }
  destruct r as [|i|n]; [by apply (Htab RDir)|by apply (Htab (RTab i))|].
  pose proof Hr as Hr'. unfold role_page in Hr'.
  destruct (Z.leb_spec 0 n), (Z.ltb_spec n UPAGES); try done. cbn in Hr'.
  assert (Hnr : 0 ≤ n * PGSIZE < KERNBASE) by clia.
  pose proof (Hout (n * PGSIZE) Hnr) as Ho. cbv beta in Ho. rewrite Z_div_mult in Ho by done.
  destruct (Z.eqb_spec n (a / PGSIZE)) as [->|Hne].
  - destruct Ho as [HP' _]. by rewrite HP' in Hr'.
  - rewrite Ho in Hr'. assert (Hn : role_page (mem v) pd (RUser n) = Some (P2V (PTE_ADDR (pte (mem v) pd a)))).
    { unfold role_page. rewrite (proj2 (Z.leb_le _ _)), (proj2 (Z.ltb_lt _ _)) by done. exact Hr'. }
    pose proof (as_inj _ _ _ Has _ _ _ Hn Hu) as [= ?]. done.
Qed.

Lemma lcr3_same k v : cr3 (k_mach k) = v → lcr3 v k = Ok tt k.
Proof. intros <-. unfold lcr3. cbn. by destruct k as [[] ? ? ?]. Qed.

(** The last part of [swapToFile]: the entry is marked and the frame is freed. *)
Lemma page_out_run k p pr l a :
  runs (k_mach k) p → procs (k_pt k) !! p = Some pr → cr3 (k_mach k) = V2P (pgdir pr) → kmem_ready k →
  kmem_ok (k_vm k) l → aspace (mem (k_vm k)) (pgdir pr) l →
  0 ≤ a < KERNBASE → a mod PGSIZE = 0 → has_P (pte (mem (k_vm k)) (pgdir pr) a) = true →
  let pd := pgdir pr in
  let fr := P2V (PTE_ADDR (pte (mem (k_vm k)) pd a)) in
  ∃ v, (pte ← walkpgdir pd a 0;
      update_pte pte PTE_P_OFF;;
      update_pte pte PTE_PG_ON;;
      e ← deref pte;
      let v_address := P2V (PTE_ADDR e) in
      kfree v_address;;
      q ← get_proc p;
      lcr3 (V2P (pgdir q));;
      ret v_address) k = Ok fr (set_k_vm v k) ∧
    kmem_ok v (fr :: l) ∧ aspace (mem v) pd (fr :: l) ∧ use_lock v = use_lock (k_vm k) ∧
    kpgdir v = kpgdir (k_vm k) ∧
    paged_out (mem (k_vm k)) (mem v) pd a ∧
    (∀ va, 0 ≤ va < KERNBASE → has_P (pte (mem (k_vm k)) pd va) = true → va / PGSIZE ≠ a / PGSIZE →
      agree (mem (k_vm k)) (mem v) (P2V (PTE_ADDR (pte (mem (k_vm k)) pd va)))).
Proof.
  intros Hrun Hp Hcr Hrd Hk Has Ha Hal HP pd fr.
  destruct (table_of_pte _ _ _ HP) as [t Ht].
  destruct (page_out_entry k pd l a t Hk Has Ha Ht) as (v & Hupd & Htv & Hs & Hout & Hav).
  pose proof (role_user _ _ _ Ha HP) as Hu. fold pd fr in Hu.
  destruct (as_page _ _ _ Has _ _ Hu) as [Hfr Hfl].
  pose proof (frame_freed pd _ l v l a Hs Has Hout Ha HP) as Hfree. fold fr in Hfree.
  destruct (aspace_kfree v pd l fr (ps_aspace _ _ _ _ _ Hs) Hfr Hfree) as (Has' & Hpte & Hrole).
  exists (kfree_vm fr v). split_and!.
  - rewrite (bind_ok _ _ _ _ _ (walkpgdir_found k pd a 0 t Ht)).
    rewrite (seq2_ok _ _ _ _ _ _ Hupd).
    rewrite (bind_ok _ _ _ _ _ (deref_entry (set_k_vm v k) pd l a t (ps_aspace _ _ _ _ _ Hs) Htv)).
    cbv beta zeta. cbn [k_vm set_k_vm]. rewrite Hav. fold fr.
    erewrite bind_ok by (apply kfree_run; [done|by eapply pt_step_ready]).
    erewrite bind_ok by (by apply get_proc_ok).
    erewrite bind_ok by (by apply lcr3_same). done.
  - apply kfree_vm_ok; [done..|apply Hs].
  - done.
  - cbn. apply Hs.
  - cbn. apply Hs.
  - intros va Hva. specialize (Hout va Hva). by rewrite !Hpte.
  - intros va Hva HPv Hne x Hx. pose proof (role_user _ _ _ Hva HPv) as Huv.
    rewrite rd8_kfree_vm; [|done|].
    + by apply (pt_step_user _ _ _ _ _ _ _ Hs Has Hk Huv).
    + destruct (as_page _ _ _ Has _ _ Huv) as [Hq _].
      destruct (page_ok_disjoint fr _ Hfr Hq); [|by within_cases..].
      intros Heq. rewrite <- Heq in Huv. pose proof (as_inj _ _ _ Has _ _ _ Hu Huv) as [= ?]. done.
Qed.
(** Going to the file does not disturb the rest of the kernel: [paged] after it. *)
Lemma paged_put k p pr f l q o v g s l' q' o' :
  paged k p pr f l q o → use_lock v = use_lock (k_vm k) → kmem_ok v l' → aspace (mem v) (pgdir pr) l' →
  fopen s f → pg_inv (mem v) (pgdir pr) g (fdata s f) q' o' →
  paged (put p v g s k) p (set_pg g pr) f l' q' o'.
Proof.
  intros [] Hu Hk Has Ho Hi. split; try done.
  - by apply put_proc.
  - destruct pd_ready0 as [?|?]; [left; cbn; congruence|by right].
  - by apply fs_ready_put.
Qed.

Lemma swapToFile_run k p pr f l q o :
  SELECTION ≠ NONE → paged k p pr f l q o → length q = 16%nat →
  fits (k_fs k) f (next_off (pg pr) o) PGSIZE →
  ∃ fr v g s x q',
    swapToFile (pgdir pr) k = Ok fr (put p v g s k) ∧ q ≡ₚ x :: q' ∧
    paged (put p v g s k) p (set_pg g pr) f (fr :: l) q' (tail o) ∧
    (∀ f', f' ≠ f → fopen (k_fs k) f' → fopen s f' ∧ fdata s f' = fdata (k_fs k) f') ∧
    (∀ j e, pagesDS (pg pr) !! j = Some e → in_RAM e = 0 → pagesDS g !! j = Some e) ∧
    ∀ va, 0 ≤ va < KERNBASE → view (put p v g s k) (set_pg g pr) f va = view k pr f va.
Proof.
  intros Hsel Hpd Hl Hfit. pose proof Hpd as [Hrun Hp Hcr Hrd Hfs Hk Has Hsw Hop Hi].
  destruct (selectPage_run k p pr f l q o Hsel Hpd Hl)
    as (i & d & q' & v1 & vs & Hselp & Hd & Ha & Hr & Hq & Hs1 & Hc1).
  set (g1 := set_inRAMQueue (arr q') (pg pr)) in *.
  pose proof (pg_inv_A _ _ _ _ _ _ _ _ Hc1 Hi) as Hi1.
  destruct (pi_va _ _ _ _ _ _ Hi1 i d Hd Ha) as [Hvd Hvd4].
  destruct (pi_ram _ _ _ _ _ _ Hi1 i d Hd Ha Hr) as [HPd _].
  destruct (getFree_ok _ _ _ g1 _ _ _ Hi eq_refl eq_refl eq_refl)
    as (g2 & Hget & Hds2 & Hq2 & Ho2 & Hnd & Hsl & Hfo & Hoff & Hmax).
  set (off := next_off (pg pr) o) in *.
  set (k2 := put p v1 g2 (k_fs k) k).
  pose proof (pi_data _ _ _ _ _ _ Hi) as Hdat.
  destruct (write_swap k2 p (set_pg g2 pr) f (v_address d) off PGSIZE
    (read_bytes (mem v1) (P2V (PTE_ADDR (pte (mem v1) (pgdir pr) (v_address d)))) 4096))
    as (s & Hw & Hos & Hdata & Hoth); [by apply put_proc|done|by apply fs_ready_put|done|cbn; lia|done|done|clia| |].
  { eapply (vbytes_page k2); [by eapply aspace_dir|done..]. }
  set (d' := set_in_RAM 0 (set_file_offset off d)).
  set (g3 := set_pagesDS (<[i := d']> (pagesDS g2)) g2).
  set (g4 := set_totalNumberOfPagedOut (totalNumberOfPagedOut g3 + 1) g3).
  set (g5 := set_numberOfPagedOut (u32 (numberOfPagedOut g4 + 1)) g4).
  destruct (page_out_run (put p v1 g5 s k) p (set_pg g5 pr) l (v_address d))
    as (v & Hrest & Hkm & Has' & Hul & Hkp & Hout & Hag);
    [done|by apply put_proc|done| |apply Hs1|apply Hs1|done..|].
  { pose proof (pt_step_ready _ _ _ _ _ Hrd Hs1) as [?|?]; [left|right]; done. }
  set (fr := P2V _) in *.
  assert (Hlend : Z.of_nat (length (fdata s f)) = fileOffset g5).
  { rewrite Hdata, length_splice, length_read_bytes; [|cbn; lia]. cbn. rewrite Hmax. clia. }
  assert (Hi' : pg_inv (mem v) (pgdir pr) g5 (fdata s f) q' (tail o)).
  { eapply (pg_inv_swap_out (mem v1) _ _ (pg pr) g5 _ _ q q' o _ i d off); try done.
    cbn. by rewrite Hds2. }
  exists fr, v, g5, s, (Z.of_nat i), q'. split_and!.
  - unfold swapToFile. rewrite (bind_ok _ _ _ _ _ (curproc_runs k p Hrun)).
    rewrite (bind_ok _ _ _ _ _ Hselp).
    assert (Hgf : getFreeFileOffset (put p v1 g1 (k_fs k) k) = Ok off k2).
    { unfold getFreeFileOffset. erewrite bind_ok by (by apply curproc_runs). by eapply on_pg_put. }
    rewrite (bind_ok _ _ _ _ _ Hgf), (bind_ok _ _ _ _ _ Hw).
    change (set_k_fs s k2) with (put p v1 g2 s k).
    assert (Hlen2 : length (pagesDS g2) = 32%nat) by (rewrite Hds2; apply Hi).
    erewrite bind_ok; cycle 1.
    { eapply on_pg_put; [done|]. apply (find_address_ok g2 i d); [done|by rewrite Hds2| |].
      - intros j e Hj He. rewrite Hds2 in He. by eapply (pi_first _ _ _ _ _ _ Hi i j).
      - apply lookup_lt_Some in Hd. rewrite (pi_len _ _ _ _ _ _ Hi) in Hd. lia. }
    erewrite bind_ok by (eapply on_pg_put; [done|]; apply mod_page_nat; by rewrite Hds2).
    erewrite bind_ok by (by eapply on_pg_put).
    erewrite bind_ok by (by eapply on_pg_put).
    exact Hrest.
  - done.
  - apply (paged_put k p pr f l q o); try done. cbn in Hul. rewrite Hul. apply Hs1.
  - done.
  - intros j e He Hre. cbn. rewrite Hds2, list_lookup_insert_ne; [done|]. intros ->. simplify_eq. lia.
  - intros va Hva. unfold view. cbn [k_vm k_fs put upd_proc mod_pt set_k_pt set_k_vm set_k_fs pg set_pg pgdir].
    rewrite <- (umem_A _ _ _ _ _ _ _ _ _ Has Hk Hs1 Hc1 Hva).
    rewrite Hdata. eapply (umem_swap_out (mem v1)); try done.
    + cbn. by rewrite Hds2.
    + cbn. lia.
    + intros HPv Hne. by apply Hag.
Qed.
End swap_to_file.
