(* ===== verification/FaultSpec.v ===== *)
(** The page-fault handler: after [page_fault] the page is present again, the
    invariant of [SwapSpec.v] holds, and the process sees the memory it saw. *)

From S2P Require Import Prelude Params Bytes State Spinlock Mem Kalloc PageTable Uaccess Procs Sched SchedSpec Bio BioSpec Queue QueueSpec Swap SwapSpec.

(** ** Moving one page in, on the tables *)
Section swap_in.
Implicit Types (m : memory) (g : paging) (data : list Z).

(** The entry of page [a] maps frame [fr], the others are unchanged. *)
Definition paged_in (m m' : memory) (pd a fr : Z) : Prop :=
  ∀ va, 0 ≤ va < KERNBASE →
    if va / PGSIZE =? a / PGSIZE
    then has_P (pte m' pd va) = true ∧ has_PG (pte m' pd va) = false ∧ PTE_ADDR (pte m' pd va) = V2P fr
    else pte m' pd va = pte m pd va.

Lemma pg_inv_swap_in m m' pd g g' data q o (i : nat) d fr :
  pg_inv m pd g data q o → pagesDS g !! i = Some d → isAllocated d = 1 → in_RAM d = 0 →
  (length q < 16)%nat → (length o < 16)%nat →
  pagesDS g' = <[i := set_file_offset (-1) (set_in_RAM 1 d)]> (pagesDS g) →
  inRAMQueue g' = arr (q ++ [Z.of_nat i]) →
  availableOffsetQueue g' = arr (o ++ [file_offset d]) → fileOffset g' = fileOffset g →
  paged_in m m' pd (v_address d) fr →
  pg_inv m' pd g' data (q ++ [Z.of_nat i]) (o ++ [file_offset d]).
Proof.
  intros Hi Hd Ha Hr Hlq Hlo Hds Hq' Ho' Hfo Hin. pose proof (lookup_lt_Some _ _ _ Hd) as Hlt.
  set (d' := set_file_offset (-1) (set_in_RAM 1 d)) in *.
  assert (Hlk : ∀ j e, pagesDS g' !! j = Some e → (j = i ∧ e = d') ∨ (j ≠ i ∧ pagesDS g !! j = Some e)).
  { intros j e He. rewrite Hds in He. destruct (decide (i = j)) as [<-|].
    - rewrite list_lookup_insert_eq in He by done. naive_solver.
    - rewrite list_lookup_insert_ne in He by done. naive_solver. }
  assert (Hnq : Z.of_nat i ∉ q) by (rewrite (pi_inq _ _ _ _ _ _ Hi i d Hd); lia).
  assert (Hused : used g ++ o ≡ₚ used g' ++ (o ++ [file_offset d])).
  { pose proof (used_update g i d d' (pagesDS g') Hd Hds) as Hu.
    unfold slot in Hu. subst d'. cbn in Hu. rewrite Ha, Hr in Hu. cbn in Hu.
    change (used (set_pagesDS (pagesDS g') g)) with (used g') in Hu. rewrite <- Hu. solve_Permutation. }
  assert (Hoff : 0 ≤ file_offset d).
  { pose proof (pi_slot_ok _ _ _ _ _ _ Hi) as Hsl. rewrite Forall_forall in Hsl.
    destruct (Hsl (file_offset d)) as [? _]; [|done]. apply elem_of_app. left. apply used_elem. by exists i, d. }
  destruct (pi_va _ _ _ _ _ _ Hi i d Hd Ha) as [Hvd Hvd4].
  assert (Hpte : ∀ j e, pagesDS g !! j = Some e → isAllocated e = 1 → j ≠ i →
    pte m' pd (v_address e) = pte m pd (v_address e)).
  { intros j e He Hae Hji. destruct (pi_va _ _ _ _ _ _ Hi j e He Hae) as [Hv Hv4].
    pose proof (Hin _ Hv) as Hx. cbv beta in Hx.
    destruct (Z.eqb_spec (v_address e / PGSIZE) (v_address d / PGSIZE)); [|done].
    exfalso. apply Hji. eapply (pi_distinct _ _ _ _ _ _ j i e d); try done. clia. }
  split.
  - rewrite Hds, length_insert. apply Hi.
  - rewrite Hq'. apply qrep_arr; [rewrite length_app; cbn; lia|].
    apply Forall_app. split; [apply Hi|]. constructor; [lia|done].
  - rewrite Ho'. apply qrep_arr; [rewrite length_app; cbn; lia|].
    apply Forall_app. split; [apply Hi|]. by constructor.
  - apply NoDup_app. split_and!; [apply Hi| |apply NoDup_singleton]. set_solver.
  - intros j e [[-> ->]|[_ He]]%Hlk; [subst d'; cbn; lia|by eapply (pi_flags _ _ _ _ _ _ Hi)].
  - intros j e [[-> ->]|[Hji He]]%Hlk.
    + subst d'. cbn. set_solver.
    + rewrite <- (pi_inq _ _ _ _ _ _ Hi j e He), elem_of_app, list_elem_of_singleton.
      split; [intros [?|?]; [done|lia]|by left].
  - intros x [Hx|Hx%list_elem_of_singleton]%elem_of_app; [by apply (pi_qin _ _ _ _ _ _ Hi)|].
    rewrite (pi_len _ _ _ _ _ _ Hi) in Hlt. lia.
  - intros j e [[-> ->]|[_ He]]%Hlk Hae; [done|by eapply (pi_va _ _ _ _ _ _ Hi)].
  - intros j j' e e' [[-> ->]|[Hji He]]%Hlk Hae Hlt' [[-> ->]|[Hji' He']]%Hlk; subst d'; cbn in *; [lia|..];
      by eapply (pi_first _ _ _ _ _ _ Hi).
  - intros j e [[-> ->]|[Hji He]]%Hlk Hae Hre.
    + pose proof (Hin _ Hvd) as Hx. cbv beta in Hx. rewrite Z.eqb_refl in Hx. by destruct Hx as (? & ? & _).
    + rewrite (Hpte j e) by done. by eapply (pi_ram _ _ _ _ _ _ Hi).
  - intros j e [[-> ->]|[Hji He]]%Hlk Hae Hre; [subst d'; cbn in *; lia|].
    rewrite (Hpte j e) by done. by eapply (pi_swap _ _ _ _ _ _ Hi).
  - rewrite <- Hused. apply Hi.
  - rewrite Hfo, <- Hused. apply Hi.
  - rewrite Hfo, <- Hused. apply Hi.
  - rewrite Hfo. apply Hi.
Qed.

Lemma lookup_page (data : list Z) off b :
  0 ≤ off → off + PGSIZE ≤ Z.of_nat (length data) → 0 ≤ b < PGSIZE →
  take (Z.to_nat PGSIZE) (drop (Z.to_nat off) data) !! Z.to_nat b = data !! Z.to_nat (off + b).
Proof.
  intros. rewrite lookup_take_lt, lookup_drop by lia. f_equal. lia.
Qed.

Lemma umem_swap_in m m' pd g g' data q o (i : nat) d fr va :
  pg_inv m pd g data q o → pagesDS g !! i = Some d → isAllocated d = 1 → in_RAM d = 0 →
  pagesDS g' = <[i := set_file_offset (-1) (set_in_RAM 1 d)]> (pagesDS g) →
  paged_in m m' pd (v_address d) fr → P2V (V2P fr) = fr → 0 ≤ va < KERNBASE →
  (∀ b, 0 ≤ b < PGSIZE → data !! Z.to_nat (file_offset d + b) = Some (rd8 m' (fr + b))) →
  (has_P (pte m pd va) = true → agree m m' (P2V (PTE_ADDR (pte m pd va)))) →
  umem m' pd g' data va = umem m pd g data va.
Proof.
  intros Hi Hd Ha Hr Hds Hin Hfr Hva Hby Hag.
  destruct (pi_va _ _ _ _ _ _ Hi i d Hd Ha) as [Hvd Hvd4].
  destruct (pi_swap _ _ _ _ _ _ Hi i d Hd Ha Hr) as [HPd HGd].
  pose proof (entry_of_update _ _ _ g' _ _ _ i d (set_file_offset (-1) (set_in_RAM 1 d))
    (va - va mod PGSIZE) Hi Hd Hds Ha Ha eq_refl) as Hent.
  rewrite page_base_eq in Hent by done.
  assert (Hmod : 0 ≤ va mod PGSIZE < PGSIZE) by (apply Z.mod_pos_bound; done).
  assert (Hk : KERNBASE < 2 ^ 32) by done.
  unfold umem. pose proof (Hin va Hva) as Hx. cbv beta in Hx.
  destruct (Z.eqb_spec (va / PGSIZE) (v_address d / PGSIZE)) as [Heq|Hne].
  - destruct Hx as (-> & _ & ->). rewrite Hfr.
    rewrite (pte_same_page m pd va (v_address d)), HPd, HGd; [|lia|lia|done].
    assert (Hpb : va - va mod PGSIZE = v_address d) by (apply Z.eqb_eq; rewrite page_base_eq by done; by apply Z.eqb_eq).
    rewrite Hpb, (entry_of_some _ _ _ _ _ _ i d Hi Hd Ha). by rewrite Hby.
  - rewrite Hx. destruct (has_P (pte m pd va)) eqn:HP; [f_equal; apply Hag; [done|lia]|].
    by rewrite Hent.
Qed.
End swap_in.

(** ** The pieces of the handler *)
Section pieces.
Context `{link} `{build}.
Implicit Types (k : kernel) (m : memory) (g : paging).

(** Entry [i] is allocated and in memory. *)
Definition in_mem g (i : nat) : bool :=
  match pagesDS g !! i with
  | Some d => (isAllocated d =? 1) && truthy (in_RAM d)
  | None => false
  end.

Lemma count_resident_loop g (n i : nat) c :
  (i + n = length (pagesDS g))%nat →
  count_resident n (Z.of_nat i) c g
  = Ok (c + Z.of_nat (length (filter (λ j, in_mem g j = true) (seq i n)))) g.
Proof.
  revert i c. induction n as [|n IH]; intros i c Hi; cbn [count_resident seq].
  - cbn. by rewrite Z.add_0_r.
  - destruct (lookup_lt_is_Some_2 (pagesDS g) i) as [d Hd]; [lia|].
    rewrite (bind_ok _ _ _ _ _ (get_page_nat g i d Hd)).
    replace (Z.of_nat i + 1) with (Z.of_nat (S i)) by lia. rewrite IH by lia. f_equal.
    rewrite filter_cons. assert (Hin : in_mem g i = (isAllocated d =? 1) && truthy (in_RAM d))
      by (unfold in_mem; by rewrite Hd). rewrite Hin.
    destruct ((isAllocated d =? 1) && truthy (in_RAM d));
      [rewrite decide_True by done|rewrite decide_False by done]; cbn; lia.
Qed.

(** The count is the length of the queue. *)
Lemma count_resident_ok m pd g data q o :
  pg_inv m pd g data q o → count_resident 32 0 0 g = Ok (Z.of_nat (length q)) g.
Proof.
  intros Hi. change 0 with (Z.of_nat 0) at 1. rewrite count_resident_loop by (by rewrite (pi_len _ _ _ _ _ _ Hi)).
  rewrite Z.add_0_l. f_equal. f_equal. rewrite <- (length_fmap Z.of_nat). apply Permutation_length.
  apply NoDup_Permutation.
  - apply NoDup_fmap; [apply _|]. apply NoDup_filter, NoDup_seq.
  - apply Hi.
  - intros x. rewrite list_elem_of_fmap. split.
    + intros (j & -> & [Hj _]%list_elem_of_filter). unfold in_mem in Hj.
      destruct (pagesDS g !! j) as [d|] eqn:Hd; [|done].
      apply andb_prop in Hj as [Ha%Z.eqb_eq Hr%truthy_true].
      apply (pi_inq _ _ _ _ _ _ Hi j d Hd). destruct (pi_flags _ _ _ _ _ _ Hi j d Hd). lia.
    + intros Hx. destruct (pi_page _ _ _ _ _ _ _ Hi Hx) as (d & Hd & _ & Hx0 & Ha & Hr).
      exists (Z.to_nat x). split; [lia|]. apply list_elem_of_filter. split.
      * unfold in_mem. by rewrite Hd, Ha, Hr.
      * apply lookup_lt_Some in Hd. rewrite (pi_len _ _ _ _ _ _ Hi) in Hd. apply elem_of_seq. lia.
Qed.

Lemma find_by_address m pd g data q o (i : nat) d :
  pg_inv m pd g data q o → pagesDS g !! i = Some d → isAllocated d = 1 →
  find_page 32 0 (λ e, v_address e =? v_address d) g = Ok (Some (Z.of_nat i)) g.
Proof.
  intros Hi Hd Ha. rewrite <- (pi_len _ _ _ _ _ _ Hi). eapply find_page_first; [done|apply Z.eqb_refl|].
  intros j e Hj He. apply Z.eqb_neq. by eapply (pi_first _ _ _ _ _ _ Hi i j).
Qed.

(** A frame that is in use nowhere stays so when another page goes out. *)
Lemma fresh_paged_out pd v l v' a p :
  pt_step pd v l v' l → paged_out (mem v) (mem v') pd a → fresh (mem v) pd l p → fresh (mem v') pd l p.
Proof.
  intros Hs Hout (Hp & Hl & Hn). split_and!; [done..|]. intros r Hr.
  assert (Htab : tabs (mem v') pd p ∨ ∃ n, r = RUser n).
  { destruct r as [|i|n]; [left; by exists RDir|left; by exists (RTab i)|right; by exists n]. }
  destruct Htab as [Ht%(ps_tabs _ _ _ _ _ Hs)|[n ->]].
  - destruct Ht as [(r' & _ & Hr')|?]; [by apply (Hn r')|done].
  - apply (Hn (RUser n)). revert Hr. unfold role_page.
    destruct (Z.leb_spec 0 n), (Z.ltb_spec n UPAGES); try done. cbn.
    assert (Hnr : 0 ≤ n * PGSIZE < KERNBASE) by clia.
    pose proof (Hout _ Hnr) as Ho. cbv beta in Ho.
    destruct (_ =? _); [by destruct Ho as [-> _]|]. by rewrite Ho.
Qed.

(** The new entry: it maps [fr], writable and accessible to the user. *)
Lemma new_entry_ok fr :
  page_ok fr →
  let e := Z.lor (Z.lor (V2P fr) (Z.lor PTE_W PTE_U)) PTE_P in
  let e' := PTE_PG_OFF (PTE_P_ON e) in
  0 ≤ e < 2 ^ 32 ∧ P2V (PTE_ADDR e) = fr ∧ has_P e = true ∧
  0 ≤ PTE_P_ON e < 2 ^ 32 ∧ PTE_ADDR (PTE_P_ON e) = PTE_ADDR e ∧ has_P (PTE_P_ON e) = true ∧
  0 ≤ e' < 2 ^ 32 ∧ PTE_ADDR e' = PTE_ADDR (PTE_P_ON e) ∧ has_P e' = true ∧ has_PG e' = false ∧
  PTE_ADDR e = V2P fr.
Proof.
  intros Hp e e'. assert (He : e = Z.lor (V2P fr) 7) by (unfold e; by rewrite <- Z.lor_assoc).
  destruct (entry_page fr 7 Hp) as [Hu Ha]; [lia|]. rewrite <- He in Hu, Ha.
  assert (Hr : 0 ≤ e < 2 ^ 32) by (rewrite <- Hu; apply u32_range).
  destruct (PTE_P_ON_ok e Hr) as (Hr1 & Ha1 & HP1 & _).
  destruct (PTE_PG_OFF_ok _ Hr1) as (Hr2 & Ha2 & HP2 & HG2). rewrite HP1 in HP2.
  destruct (V2P_page fr Hp) as (_ & ? & ?).
  split_and!; try apply Hr; try apply Hr1; try apply Hr2; try done.
  - rewrite He, has_P_lor. apply orb_true_r.
  - by rewrite He, PTE_ADDR_lor_low, PTE_ADDR_aligned.
Qed.

(** The entry of a page that comes back: marked as out once more, mapped to the
    new frame, then [PTE_P] on and [PTE_PG] off. *)
Lemma page_in_entry k pd l a t fr :
  kmem_ok (k_vm k) l → aspace (mem (k_vm k)) pd l → 0 ≤ a < KERNBASE → a mod PGSIZE = 0 →
  table (mem (k_vm k)) pd (PDX a) = Some t → fresh (mem (k_vm k)) pd l fr →
  ∃ v, map_in (t + 4 * PTX a) pd a fr k = Ok tt (set_k_vm v k) ∧
    pt_step pd (k_vm k) l v l ∧ paged_in (mem (k_vm k)) (mem v) pd a fr.
Proof.
  intros Hk Has Ha Hal Ht Hfr.
  destruct (page_out_entry k pd l a t Hk Has Ha Ht) as (v1 & Hup & Ht1 & Hs1 & Hout & _).
  destruct (fresh_paged_out _ _ _ _ _ _ Hs1 Hout Hfr) as (Hpf & Hfl & Hfro).
  destruct (new_entry_ok fr Hpf) as (Her & Hep & HeP & Hr1 & Ha1 & HP1 & Hr2 & Ha2 & HP2 & HG2 & Hea).
  set (e := Z.lor (Z.lor (V2P fr) (Z.lor PTE_W PTE_U)) PTE_P) in *.
  assert (HP0 : has_P (PageTable.pte (mem v1) pd a) = false)
    by (pose proof (Hout a Ha) as Ho; cbv beta in Ho; rewrite Z.eqb_refl in Ho; apply Ho).
  set (v2 := set_mem (wr32 (mem v1) (t + 4 * PTX a) e) v1).
  assert (Hs2 : pt_step pd v1 l v2 l).
  { apply pt_step_set; [apply Hs1|apply Hs1|clia|done|]. rewrite (u32_small e) by done. rewrite Hep.
    intros _ _. split_and!; [done..|]. intros r _. apply Hfro. }
  assert (Hp2 : ∀ va, 0 ≤ va < 2 ^ 32 → PageTable.pte (mem v2) pd va
    = if a / PGSIZE =? va / PGSIZE then e else PageTable.pte (mem v1) pd va).
  { intros va Hva. cbn. rewrite (pte_set _ _ l) by (apply Hs1 || done || clia). by rewrite u32_small. }
  assert (He2 : PageTable.pte (mem v2) pd a = e) by (rewrite Hp2 by clia; by rewrite Z.eqb_refl).
  assert (Ht2 : table (mem v2) pd (PDX a) = Some t)
    by (cbn; rewrite (table_set (mem v1) _ l) by (apply Hs1 || done || apply PDX_range); done).
  destruct (update2_ok (set_k_vm v2 k) pd l a t PTE_P_ON PTE_PG_OFF (ps_kmem _ _ _ _ _ Hs2)
    (ps_aspace _ _ _ _ _ Hs2) Ha Ht2) as (v3 & Hrun & _ & Hs3 & Hp3); cbn [k_vm set_k_vm] in *;
    rewrite ?He2 in *; [done..|].
  exists v3. split_and!.
  - unfold map_in. rewrite (seq2_ok _ _ _ _ _ _ Hup). unfold mappages_global.
    rewrite (bind_ok _ _ _ _ _ (mappages_table (set_k_vm v1 k) pd a fr (Z.lor PTE_W PTE_U) l t
      (ps_aspace _ _ _ _ _ Hs1) Ha Hal Ht1 HP0)). exact Hrun.
  - eapply pt_step_trans; [|done]. by eapply pt_step_trans.
  - intros va Hva. rewrite Hp3 by clia. rewrite (Z.eqb_sym (a / PGSIZE)).
    destruct (va / PGSIZE =? a / PGSIZE) eqn:Heq; [split_and!; [done|done|congruence]|].
    rewrite Hp2 by clia. rewrite (Z.eqb_sym (a / PGSIZE)), Heq.
    pose proof (Hout va Hva) as Ho. cbv beta in Ho. by rewrite Heq in Ho.
Qed.
End pieces.

(** ** The handler *)
Section fault.
Context `{link} `{build} `{FileIO} `{!FileSpec}.
Implicit Types (k : kernel) (p : nat) (pr : proc) (f : nat) (l q o : list Z).

(** Filling a new frame changes that frame only. *)
Lemma fill_frame m fr bs a :
  page_ok fr → length bs = 4096%nat → within fr PGSIZE a = false →
  rd8 (write_bytes (memset m fr 0 PGSIZE) fr bs) a = rd8 m a.
Proof.
  intros Hp Hl. rewrite rd8_write_bytes, Hl, rd8_memset by done.
  change (Z.of_nat 4096) with PGSIZE. by intros ->.
Qed.

Lemma fill_frame_in m fr bs b x :
  length bs = 4096%nat → Forall (λ b, 0 ≤ b < 256) bs → 0 ≤ b < PGSIZE →
  bs !! Z.to_nat b = Some x → rd8 (write_bytes m fr bs) (fr + b) = x.
Proof.
  intros Hl Hby Hb Hx. rewrite rd8_write_bytes, Hl. change (Z.of_nat 4096) with PGSIZE.
  destruct (within_spec fr PGSIZE (fr + b)); [|lia].
  replace (Z.to_nat (fr + b - fr)) with (Z.to_nat b) by lia. rewrite Hx. cbn.
  apply u8_small. by apply (Forall_lookup_1 _ _ _ _ Hby Hx).
Qed.

(** The part of the swap file at the place of entry [d]. *)
Lemma slot_bytes m pd g data q o (i : nat) d :
  pg_inv m pd g data q o → pagesDS g !! i = Some d → isAllocated d = 1 → in_RAM d = 0 →
  slot_ok (fileOffset g) (file_offset d) ∧
  length (take (Z.to_nat PGSIZE) (drop (Z.to_nat (file_offset d)) data)) = 4096%nat.
Proof.
  intros Hi Hd Ha Hr.
  assert (Hsl : slot_ok (fileOffset g) (file_offset d)).
  { pose proof (pi_slot_ok _ _ _ _ _ _ Hi) as Hall. rewrite Forall_forall in Hall. apply Hall.
    apply elem_of_app. left. apply used_elem. by exists i, d. }
  split; [done|]. destruct Hsl as (? & _ & ?). pose proof (pi_data _ _ _ _ _ _ Hi).
  rewrite length_take, length_drop. unfold PGSIZE in *. lia.
Qed.

(** The tables after a page came in. *)
Definition came_in (g : paging) (q o : list Z) (i : nat) (d : page) : paging :=
  set_numberOfPagedOut (u32 (numberOfPagedOut g - 1))
    (set_inRAMQueue (arr (q ++ [Z.of_nat i]))
      (set_pagesDS (<[i := set_file_offset (-1) (set_in_RAM 1 d)]> (pagesDS g))
        (set_availableOffsetQueue (arr (o ++ [file_offset d])) g))).

Lemma came_in_run p v g s k pr q o (i : nat) d :
  runs (k_mach k) p → procs (k_pt k) !! p = Some pr → pagesDS g !! i = Some d →
  qrep (inRAMQueue g) q → qrep (availableOffsetQueue g) o →
  (length q < 16)%nat → (length o < 16)%nat → 0 ≤ file_offset d →
  (on_pg p (mod_page (Z.of_nat i) (set_in_RAM 1));;
   d ← on_pg p (get_page (Z.of_nat i));
   insertOffsetQueue (file_offset d);;
   on_pg p (mod_page (Z.of_nat i) (set_file_offset (-1)));;
   insert (Z.of_nat i);;
   on_pg p (modify (λ g, set_numberOfPagedOut (u32 (numberOfPagedOut g - 1)) g))) (put p v g s k)
  = Ok tt (put p v (came_in g q o i d) s k).
Proof.
  intros Hrun Hp Hd Hq Ho Hlq Hlo Hoff. pose proof (lookup_lt_Some _ _ _ Hd) as Hlt.
  erewrite bind_ok by (eapply on_pg_put; [done|by apply mod_page_nat]).
  erewrite bind_ok by (eapply on_pg_put; [done|apply get_page_nat; cbn; by rewrite list_lookup_insert_eq]).
  unfold insertOffsetQueue, insert.
  erewrite bind_ok; cycle 1.
  { erewrite bind_ok by (by apply curproc_runs).
    eapply on_pg_put; [done|]. by apply (insertOffsetQueue_pg_ok _ o). }
  erewrite bind_ok by (eapply on_pg_put; [done|]; apply mod_page_nat; cbn; by rewrite list_lookup_insert_eq).
  erewrite bind_ok; cycle 1.
  { erewrite bind_ok by (by apply curproc_runs).
    eapply on_pg_put; [done|]. apply (insert_pg_ok _ q); [done|done|lia]. }
  erewrite on_pg_put by done. unfold came_in. cbn. by rewrite list_insert_insert_eq.
Qed.
(** A frame outside the tables and the free list keeps its bytes. *)
Lemma pt_step_fresh pd v l v' l' fr :
  pt_step pd v l v' l' → aspace (mem v) pd l → kmem_ok v l → fresh (mem v) pd l fr →
  agree (mem v) (mem v') fr.
Proof.
  intros Hs Has Hk (Hp & Hl & Hn). eapply agree_outside; [done| |apply Hs].
  intros x [(r & _ & Hr)|Hx].
  - split; [by apply (as_page _ _ _ Has r)|]. intros ->. by apply (Hn r).
  - destruct Hk as [_ _ Hall]. rewrite Forall_forall in Hall. split; [auto|]. by intros ->.
Qed.

(** The page at [va] is in the swap file, in entry [i]. *)
Definition swapped_at (g : paging) (va : Z) (i : nat) (d : page) : Prop :=
  pagesDS g !! i = Some d ∧ isAllocated d = 1 ∧ in_RAM d = 0 ∧ v_address d = PGROUNDDOWN va.

Lemma page_in_run k p pr f fr l q o va (i : nat) d :
  paged k p pr f (fr :: l) q o → (length q < 16)%nat → (length o < 16)%nat →
  0 ≤ va < KERNBASE → swapped_at (pg pr) va i d →
  ∃ v s, let g := came_in (pg pr) q o i d in
    page_in p va (PGROUNDDOWN va) k = Ok tt (put p v g s k) ∧
    paged (put p v g s k) p (set_pg g pr) f l (q ++ [Z.of_nat i]) (o ++ [file_offset d]) ∧
    (∀ f', fopen (k_fs k) f' → fopen s f' ∧ fdata s f' = fdata (k_fs k) f') ∧
    has_P (pte (mem v) (pgdir pr) va) = true ∧
    ∀ a, 0 ≤ a < KERNBASE → view (put p v g s k) (set_pg g pr) f a = view k pr f a.
Proof.
  intros Hpd Hlq Hlo Hva (Hd & Ha & Hr & Hvad).
  pose proof Hpd as [Hrun Hp Hcr Hrd Hfs Hk Has Hsw Hop Hi]. set (pd := pgdir pr) in *.
  destruct (kmem_ok_cons _ _ _ Hk) as (Hfl & Hpf & _ & Hkv & _). pose proof (page_ok_range fr Hpf) as Hfr.
  assert (Hmem : mem (kalloc_vm (k_vm k)) = mem (k_vm k)) by (by rewrite Hkv).
  destruct (slot_bytes _ _ _ _ _ _ i d Hi Hd Ha Hr) as [(Hs0 & _ & Hs1) Hbl].
  pose proof (fileOffset_bound _ _ _ _ _ _ Hi) as Hfb. pose proof (pi_data _ _ _ _ _ _ Hi) as Hdat.
  set (data := fdata (k_fs k) f) in *. set (bs := take _ _) in Hbl.
  set (m1 := memset (mem (k_vm k)) fr 0 PGSIZE). set (m2 := write_bytes m1 fr bs).
  destruct (alloc_page (k_vm k) pd fr l m2 Hk Has) as (Hk2 & Has2 & Hfresh & Hpte2 & Hrol2 & Hag2).
  { intros a Hw. by apply fill_frame. }
  set (v2 := set_mem m2 (kalloc_vm (k_vm k))) in *.
  destruct (read_swap (put p (set_mem m1 (kalloc_vm (k_vm k))) (pg pr) (k_fs k) k) p (set_pg (pg pr) pr) f fr
    (file_offset d) PGSIZE) as (s & Hrdf & Hoth);
    [by apply put_proc|done|by apply fs_ready_put|done|done|done|cbn; fold data; lia|clia|clia|].
  destruct (pi_swap _ _ _ _ _ _ Hi i d Hd Ha Hr) as [HPd HGd].
  destruct (pi_va _ _ _ _ _ _ Hi i d Hd Ha) as [Hvd Hvd4].
  destruct (tabled_table m2 pd (v_address d)) as [t Ht]; [by rewrite Hpte2, HGd, orb_true_r|].
  assert (Hsame : v_address d / PGSIZE = va / PGSIZE) by (rewrite Hvad, PGROUNDDOWN_eq; [apply page_base|clia]).
  destruct (proj2 (same_entry (v_address d) va ltac:(clia) ltac:(clia)) Hsame) as [HD HT].
  destruct (page_in_entry (put p v2 (pg pr) s k) pd l (v_address d) t fr Hk2 Has2 Hvd Hvd4 Ht Hfresh)
    as (v & Hent & Hst & Hin).
  set (g := came_in (pg pr) q o i d).
  assert (Hinv0 : paged_in (mem (k_vm k)) (mem v) pd (v_address d) fr).
  { intros a Hra. pose proof (Hin a Hra) as Hx. cbv beta in Hx. destruct (_ =? _); [done|].
    rewrite Hx. apply Hpte2. }
  destruct (Hoth f Hop) as [Hop' Hdat']. fold data in Hdat'. cbn in Hdat'.
  assert (Hi' : pg_inv (mem v) pd g (fdata s f) (q ++ [Z.of_nat i]) (o ++ [file_offset d])).
  { rewrite Hdat'. by eapply (pg_inv_swap_in (mem (k_vm k)) _ _ (pg pr)). }
  exists v, s. cbv zeta. fold g. split_and!.
  - set (k0 := put p (k_vm k) (pg pr) (k_fs k) k).
    assert (Hk0 : k0 = k) by (by apply put_id).
    rewrite <- Hk0 at 1. unfold page_in.
    erewrite bind_ok by (apply kalloc_run; by rewrite Hk0).
    change (mod_vm kalloc_vm k0) with (put p (kalloc_vm (k_vm k)) (pg pr) (k_fs k) k).
    change (freelist (k_vm k0)) with (freelist (k_vm k)). rewrite Hfl.
    rewrite (proj2 (Z.eqb_neq _ _)) by clia. unfold mod_mem. rewrite bind_modify.
    assert (Hmm : mod_vm (λ v, set_mem (memset (mem v) fr 0 PGSIZE) v) (put p (kalloc_vm (k_vm k)) (pg pr) (k_fs k) k)
      = put p (set_mem m1 (kalloc_vm (k_vm k))) (pg pr) (k_fs k) k) by (unfold m1; by rewrite <- Hmem).
    rewrite Hmm. rewrite <- !Hvad.
    erewrite bind_ok by (eapply on_pg_put; [done|]; by eapply find_by_address).
    cbv beta iota. erewrite bind_ok by (eapply on_pg_put; [done|]; by apply get_page_nat).
    rewrite u32_small by clia. rewrite (bind_ok _ _ _ _ _ Hrdf).
    assert (Hm2 : set_k_fs s (mod_vm (λ v, set_mem (write_bytes (mem v) fr
      (take (Z.to_nat PGSIZE) (drop (Z.to_nat (file_offset d)) (fdata (k_fs (put p (set_mem m1 (kalloc_vm (k_vm k)))
        (pg pr) (k_fs k) k)) f)))) v) (put p (set_mem m1 (kalloc_vm (k_vm k))) (pg pr) (k_fs k) k))
      = put p v2 (pg pr) s k) by done.
    rewrite Hm2. erewrite bind_ok by (apply get_proc_ok; by apply put_proc).
    cbn [pgdir set_pg]. fold pd. unfold walkpgdir_global.
    erewrite bind_ok by (apply walkpgdir_found; rewrite <- HD; exact Ht).
    rewrite <- HT. rewrite (bind_ok _ _ _ _ _ Hent).
    change (set_k_vm v (put p v2 (pg pr) s k)) with (put p v (pg pr) s k).
    apply (came_in_run _ _ _ _ _ pr); try done; apply Hi.
  - apply (paged_put k p pr f (fr :: l) q o); try done; try apply Hst.
    rewrite (ps_lock _ _ _ _ _ Hst). cbn. by rewrite Hkv.
  - done.
  - pose proof (Hinv0 va Hva) as Hx. cbv beta in Hx. rewrite Hsame, Z.eqb_refl in Hx. apply Hx.
  - intros a Hra. unfold view.
    cbn [k_vm k_fs put upd_proc mod_pt set_k_pt set_k_vm set_k_fs pg set_pg pgdir]. rewrite Hdat'.
    fold pd data. eapply (umem_swap_in (mem (k_vm k))); try done.
    + apply P2V_V2P. clia.
    + intros b Hb. rewrite (pt_step_fresh pd v2 l v l fr Hst Has2 Hk2 Hfresh) by lia.
      pose proof (lookup_page data (file_offset d) b ltac:(lia) ltac:(lia) Hb) as Hlk. fold bs in Hlk.
      destruct (lookup_lt_is_Some_2 bs (Z.to_nat b)) as [x Hx]; [rewrite Hbl; clear -Hb; clia|].
      rewrite <- Hlk, Hx. f_equal. symmetry. eapply fill_frame_in; [done| |done|done].
      unfold bs. apply Forall_take, Forall_drop. by apply fdata_bytes.
    + intros HP. pose proof (role_user _ _ _ Hra HP) as Hu. intros x Hx.
      pose proof Hu as Hu2. rewrite <- Hrol2 in Hu2.
      rewrite (pt_step_user pd v2 l v l _ _ Hst Has2 Hk2 Hu2); [by apply (Hag2 _ _ Hu)|done].
Qed.
(** The count of faults is no part of the invariant. *)
Lemma paged_faults k p pr f l q o n :
  paged k p pr f l q o →
  let g := set_numberOfPageFaults n (pg pr) in
  paged (put p (k_vm k) g (k_fs k) k) p (set_pg g pr) f l q o.
Proof.
  intros Hpd g. pose proof Hpd as [Hrun Hp Hcr Hrd Hfs Hk Has Hsw Hop Hi].
  eapply paged_put; try done. by destruct Hi; split.
Qed.

(** What the handler needs: a full queue and room in the swap file for the page
    that has to leave, or a free frame and a free slot for the place that
    becomes available. *)
Definition fault_ready k pr f l q o : Prop :=
  (length q = 16%nat ∧ fits (k_fs k) f (next_off (pg pr) o) PGSIZE) ∨
  ((length q < 16)%nat ∧ (length o < 16)%nat ∧ l ≠ []).

Lemma page_fault_run k p pr f l q o va (i : nat) d :
  SELECTION ≠ NONE → paged k p pr f l q o → cr2 (k_mach k) = va → 0 ≤ va < KERNBASE →
  swapped_at (pg pr) va i d → fault_ready k pr f l q o →
  ∃ v g s l' q' o', page_fault k = Ok tt (put p v g s k) ∧
    paged (put p v g s k) p (set_pg g pr) f l' q' o' ∧
    has_P (pte (mem v) (pgdir pr) va) = true ∧
    (∀ f', f' ≠ f → fopen (k_fs k) f' → fopen s f' ∧ fdata s f' = fdata (k_fs k) f') ∧
    ∀ a, 0 ≤ a < KERNBASE → view (put p v g s k) (set_pg g pr) f a = view k pr f a.
Proof.
  intros Hsel Hpd Hcr2 Hva Hsw Hready.
  pose proof (paged_faults _ _ _ _ _ _ _ (numberOfPageFaults (pg pr) + 1) Hpd) as Hpd0. cbv zeta in Hpd0.
  set (g0 := set_numberOfPageFaults _ _) in *. set (k0 := put p (k_vm k) g0 (k_fs k) k) in *.
  pose proof (pd_proc _ _ _ _ _ _ _ Hpd) as Hp. pose proof (pd_runs _ _ _ _ _ _ _ Hpd) as Hrun.
  assert (Hstart : page_fault k
    = (when (Z.of_nat (length q) =? MAX_PSYC_PAGES) (swapToFile (pgdir pr);; ret tt);;
       page_in p va (PGROUNDDOWN va)) k0).
  { unfold page_fault. rewrite (bind_ok _ _ _ _ _ (curproc_runs k p Hrun)).
    rewrite <- (put_id p k pr Hp) at 1. erewrite bind_ok by (by eapply on_pg_put). fold g0 k0.
    rewrite bind_gets. change (cr2 (k_mach k0)) with (cr2 (k_mach k)). rewrite Hcr2.
    change (Z.to_nat MAX_TOTAL_PAGES) with 32%nat.
    erewrite bind_ok by (eapply on_pg_put; [done|]; eapply count_resident_ok; apply Hpd0).
    erewrite bind_ok by (apply get_proc_ok; apply Hpd0). done. }
  rewrite Hstart. destruct Hready as [[Hlq Hfit]|(Hlq & Hlo & Hl)].
  - destruct (swapToFile_run k0 p (set_pg g0 pr) f l q o Hsel Hpd0 Hlq Hfit)
      as (fr & v & g & s & x & q' & Hrs & Hq & Hpd1 & Hoth & Hds & Hview).
    set (k1 := put p v g s k0) in *.
    assert (Hlq' : length q' = 15%nat) by (rewrite Hq in Hlq; cbn in Hlq; lia).
    assert (Hlo : (length (tail o) < 16)%nat).
    { pose proof (qr_len _ _ (pi_offsets _ _ _ _ _ _ (pd_inv _ _ _ _ _ _ _ Hpd))). destruct o; cbn in *; lia. }
    destruct Hsw as (Hd & Ha & Hr & Hv).
    destruct (page_in_run k1 p _ f fr l q' (tail o) va i d Hpd1) as (v' & s' & Hin & Hpd2 & Hoth' & HP & Hview');
      [lia|done|done|by split_and!; [apply Hds|..]|].
    set (g' := came_in _ _ _ _ _) in *.
    assert (Hput : put p v' g' s' k1 = put p v' g' s' k) by (unfold k1, k0; by rewrite !put_put).
    rewrite Hput in *. eexists v', g', s', l, _, _. split_and!; [|exact Hpd2|done| |].
    + rewrite Hlq, bind_when_true, bind_assoc. rewrite (bind_ok _ _ _ _ _ Hrs). by rewrite bind_ret.
    + intros f' Hne Hf'. destruct (Hoth f' Hne Hf') as [Hf1 Hd1].
      destruct (Hoth' f' Hf1) as [? Hd2]. split; [done|]. by rewrite Hd2.
    + intros a Hra. change (set_pg g' pr) with (set_pg g' (set_pg g (set_pg g0 pr))).
      rewrite Hview', Hview by done. done.
  - destruct l as [|fr l]; [done|].
    destruct (page_in_run k0 p _ f fr l q o va i d Hpd0) as (v' & s' & Hin & Hpd2 & Hoth' & HP & Hview');
      [done..|]. set (g' := came_in _ _ _ _ _) in *.
    assert (Hput : put p v' g' s' k0 = put p v' g' s' k) by (unfold k0; by rewrite !put_put).
    rewrite Hput in *. eexists v', g', s', l, _, _. split_and!; [|exact Hpd2|done| |].
    + rewrite (proj2 (Z.eqb_neq _ _)) by clia. by rewrite bind_when_false.
    + intros f' Hne Hf'. by apply Hoth'.
    + intros a Hra. change (set_pg g' pr) with (set_pg g' (set_pg g0 pr)). by rewrite Hview' by done.
Qed.
End fault.
