(* ===== verification/SwapFile.v ===== *)
(** The swap file is a file of the file system: [filewrite] and [fileread] ([file.c]) are the
    operations that paging assumes, so paging is transparent on the disk as it is. *)

From S2P Require Import Prelude Params Bytes State Spinlock Mem Kalloc PageTable Uaccess Procs Sched SchedSpec Bio BioSpec CacheSpec BlockSpec Log LogSpec CommitSpec CrashSpec Inode BallocSpec DiskSpec BmapSpec DinodeSpec Console Fs WriteSpec ReadSpec File FsSpec Queue QueueSpec Swap SwapSpec FaultSpec.

Section instance.
Context {W : world} {DW : DiskWorld}.
Implicit Types (k : kernel) (s : fsys) (i f : nat) (x : inode) (C D : Z → list Z) (n off : Z).

#[export] Instance file_io : FileIO := {| filewrite := file_write; fileread := file_read |}.

(** The inode number of file [f]. *)
Definition file_inum s f : Z :=
  default 0 (fl ← files s !! f; i ← f_ip fl; i_inum <$> inodes s !! i)%stdpp.

Definition fs_open s f : Prop := ∃ fl i x n, fs_state s (content s) ∧ open_file s f fl i x n.
Definition fs_data s f : list Z := file_data (content s) (nd (content s) (file_inum s f)).
Definition fs_fits s f (off n : Z) : Prop :=
  off + n ≤ MAXFILE * BSIZE ∧
  need (Z.of_nat (length (fs_data s f))) (off + n) ≤ Z.of_nat (length (free_blocks (content s))).

Lemma open_inum s f fl i x n : open_file s f fl i x n → file_inum s f = n.
Proof. intros [Hf _ _ _ Hip Hx _ _ _ Hn _ _ _]. unfold file_inum. rewrite Hf. cbn. rewrite Hip. cbn. by rewrite Hx. Qed.

Lemma file_data_ext C C' d : (∀ n, C' n = C n) → file_data C' d = file_data C d.
Proof.
  intros HC. unfold file_data. apply list_fmap_ext. intros j o _. unfold fbyte, blk. by rewrite !HC.
Qed.
Lemma nd_ext C C' n : (∀ n, C' n = C n) → nd C' n = nd C n.
Proof. intros HC. unfold nd. by rewrite HC. Qed.

Lemma fs_state_ext s C C' : (∀ n, C' n = C n) → fs_state s C → fs_state s C'.
Proof.
  intros HC [[H1 H2 H3 H4 H5 H6] Hl Hi [Hn Hc Hu]]. split; [split| | |split]; try done.
  - by eapply cview_ext; [..|exact H1].
  - by rewrite HC.
  - by apply (fsinv_home C C').
  - intros j y. rewrite (nd_ext C C') by done. apply Hc.
Qed.

Lemma fs_state_content s C : fs_state s C → fs_state s (content s) ∧ ∀ n, content s n = C n.
Proof.
  intros Hfs. assert (HC : ∀ n, content s n = C n) by apply (cv_content _ _ _ _ _ (fi_view _ _ (fst_idle _ _ Hfs))).
  split; [|done]. by eapply fs_state_ext.
Qed.

Lemma fs_data_eq s C f fl i x n :
  (∀ n, content s n = C n) → open_file s f fl i x n → fs_data s f = file_data C (nd C n).
Proof.
  intros HC Hof. unfold fs_data. rewrite (open_inum _ _ _ _ _ _ Hof), (nd_ext C) by done. by apply file_data_ext.
Qed.

Lemma fs_data_size s f fl i x n :
  fs_state s (content s) → open_file s f fl i x n → Z.of_nat (length (fs_data s f)) = i_size x.
Proof.
  intros Hfs Hof. destruct (open_live _ _ _ _ _ _ _ Hfs Hof) as [Hn Hcp].
  unfold fs_data. rewrite (open_inum _ _ _ _ _ _ Hof), <- Hcp.
  assert (0 ≤ d_size (d_of x)) by (rewrite Hcp; apply (fsi_wf _ _ (fst_inv _ _ Hfs) n Hn)).
  rewrite length_file_data. change (i_size x) with (d_size (d_of x)). lia.
Qed.

(** A file other than the one that was written. *)
Lemma touched_other s s' C C' i x x' f fl fl1 n f' off l :
  fs_state s C → open_file s f fl i x n → touched s s' i x' f fl1 → f_ip fl1 = Some i → file_written C C' n off l →
  (∀ n, content s n = C n) → (∀ n, content s' n = C' n) → fs_state s' C' → f' ≠ f → fs_open s f' →
  fs_open s' f' ∧ fs_data s' f' = fs_data s f'.
Proof.
  intros Hfs Hof [T1 T2 T3 T4] Hip1 Hfw HC HC' Hfs' Hne (fl2 & i2 & x2 & n2 & Hfs2 & Hof2).
  assert (Hi2 : i ≠ i2).
  { intros ->. apply (of_alone _ _ _ _ _ _ Hof f' fl2 Hne); apply Hof2. }
  assert (Hn2 : n2 ≠ n).
  { intros ->. apply Hi2. apply (ic_uniq _ _ (fst_icache _ _ Hfs) i i2 x x2); try apply Hof; try apply Hof2.
    - by rewrite (of_dev _ _ _ _ _ _ Hof), (of_dev _ _ _ _ _ _ Hof2).
    - by rewrite (of_inum _ _ _ _ _ _ Hof), (of_inum _ _ _ _ _ _ Hof2). }
  assert (Hof' : open_file s' f' fl2 i2 x2 n2).
  { destruct Hof2 as [O1 O2 O3 O4 O5 O6 O7 O8 O9 O10 O11 O12 O13]. split; try done.
    - by rewrite T3, list_lookup_insert_ne.
    - by rewrite T2, list_lookup_insert_ne.
    - intros f3 fl3 Hne3. rewrite T3. intros [(<- & <- & _)|[? ?]]%list_lookup_insert_Some; [congruence|]. by eapply O13. }
  split.
  - exists fl2, i2, x2, n2. split; [|done]. by eapply fs_state_content.
  - rewrite (fs_data_eq s' C' f' fl2 i2 x2 n2), (fs_data_eq s C f' fl2 i2 x2 n2) by done.
    destruct (open_live _ _ _ _ _ _ _ Hfs Hof2) as [Hl _]. rewrite (fw_nd _ _ _ _ _ Hfw) by (done || apply Hl).
    by apply (fw_others _ _ _ _ _ Hfw).
Qed.

Lemma fs_open_off s f f' off :
  fs_open s f → fs_open (set_files (alter (set_f_off off) f' (files s)) s) f.
Proof.
  intros (fl & i & x & n & Hfs & Hof). set (s' := set_files _ s).
  assert (Hfs' : fs_state s' (content s)).
  { destruct Hfs as [[G1 G2 G3 G4 G5 G6] Hl Hi Hic]. split; try done.
    - split; try done. by apply (cview_frame s).
    - by destruct Hic; split. }
  assert (Hsome : ∀ j y, files s' !! j = Some y → ∃ y0, files s !! j = Some y0 ∧ f_type y = f_type y0 ∧ f_ip y = f_ip y0).
  { intros j y. cbn. rewrite list_lookup_alter. destruct (decide (f' = j)); [|by eauto].
    intros (y0 & Hy & ->)%fmap_Some. exists y0. subst. done. }
  destruct Hof as [O1 O2 O3 O4 O5 O6 O7 O8 O9 O10 O11 O12 O13].
  exists (if decide (f' = f) then set_f_off off fl else fl), i, x, n. split; [done|].
  split; try done; try (by case_decide).
  - cbn. rewrite list_lookup_alter. case_decide; subst; by rewrite O1.
  - intros f2 fl2 Hne (y0 & Hy & -> & ->)%Hsome. by eapply O13.
Qed.

Lemma fs_data_off s f f' off : fs_data (set_files (alter (set_f_off off) f' (files s)) s) f = fs_data s f.
Proof.
  unfold fs_data. f_equal. f_equal. unfold file_inum. cbn. rewrite list_lookup_alter.
  case_decide; [|done]. subst. by destruct (files s !! f).
Qed.

Lemma fs_data_bytes s f : fs_open s f → Forall (λ b, 0 ≤ b < 256) (fs_data s f).
Proof.
  intros (fl & i & x & n & Hfs & Hof). apply file_data_bytes. intros b. eapply cview_block_ok, (fi_view _ _ (fst_idle _ _ Hfs)).
Qed.

Lemma fs_write_ok k f fl buf n bs :
  fs_ready k → fs_open (k_fs k) f → files (k_fs k) !! f = Some fl →
  0 ≤ f_off fl ≤ Z.of_nat (length (fs_data (k_fs k) f)) → 0 < n →
  fs_fits (k_fs k) f (f_off fl) n → 0 ≤ buf < 2 ^ 32 → vbytes k buf n = Some bs →
  ∃ s, file_write f buf n k = Ok n (set_k_fs s k) ∧ fs_open s f ∧
    fs_data s f = splice (fs_data (k_fs k) f) (Z.to_nat (f_off fl)) bs ∧
    ∀ f', f' ≠ f → fs_open (k_fs k) f' → fs_open s f' ∧ fs_data s f' = fs_data (k_fs k) f'.
Proof.
  intros Hr (fl' & i & x & m & Hfs & Hof) Hfl Hoff Hn [Hmax Hroom] Hbuf Hbs.
  rewrite (of_file _ _ _ _ _ _ Hof) in Hfl. injection Hfl as ->.
  assert (Hlen : Z.of_nat (length bs) = n) by (apply vbytes_spec in Hbs as [-> _]; lia).
  rewrite (fs_data_size _ _ _ _ _ _ Hfs Hof) in Hoff, Hroom.
  destruct (file_write_ok k (content (k_fs k)) f fl i x m buf bs) as (s' & C' & Hrun & fl1 & x1 & Hfs1 & Hfw & Hof1 & Htc & _);
    rewrite ?Hlen; try done; [by split; rewrite ?Hlen|].
  destruct (fs_state_content _ _ Hfs1) as [Hfs2 HC']. rewrite Hlen in Hrun.
  exists s'. split_and!; [done|by exists fl1, i, x1, m| |].
  - rewrite (fs_data_eq s' C' f fl1 i x1 m), (fs_data_eq (k_fs k) (content (k_fs k)) f fl i x m) by done.
    apply (fw_data _ _ _ _ _ Hfw).
  - intros f' Hne Ho. eapply (touched_other (k_fs k) s'); try done. apply Hof1.
Qed.

Lemma fs_read_ok k f fl buf n :
  fs_ready k → fs_open (k_fs k) f → files (k_fs k) !! f = Some fl →
  0 ≤ f_off fl → 0 < n → f_off fl + n ≤ Z.of_nat (length (fs_data (k_fs k) f)) →
  KERNBASE ≤ buf → buf + n ≤ 2 ^ 32 →
  ∃ s, file_read f buf n k
    = Ok n (set_k_fs s (mod_vm (λ v, set_mem (write_bytes (mem v) buf
        (take (Z.to_nat n) (drop (Z.to_nat (f_off fl)) (fs_data (k_fs k) f)))) v) k)) ∧
    (∀ f', fs_open (k_fs k) f' → fs_open s f' ∧ fs_data s f' = fs_data (k_fs k) f').
Proof.
  intros Hr (fl' & i & x & m & Hfs & Hof) Hfl Hoff Hn Hend Hb1 Hb2.
  rewrite (of_file _ _ _ _ _ _ Hof) in Hfl. injection Hfl as ->. rewrite (fs_data_size _ _ _ _ _ _ Hfs Hof) in Hend.
  destruct (open_live _ _ _ _ _ _ _ Hfs Hof) as [Hl Hcp].
  assert (Hsz : i_size x ≤ MAXFILE * BSIZE)
    by (change (i_size x) with (d_size (d_of x)); rewrite Hcp; apply (fsi_wf _ _ (fst_inv _ _ Hfs) m Hl)).
  assert (Hmin : Z.min n (i_size x - f_off fl) = n) by lia.
  assert (Hsnk : sink_of mem_sink (λ l, u32 (buf + Z.of_nat (length l))) (stored buf) (Z.min n (i_size x - f_off fl)) k)
    by (rewrite Hmin; by apply mem_sink_of).
  destruct (fileread_to_ok mem_sink _ _ k _ f fl i x m n Hsnk Hr Hfs Hof ltac:(lia) ltac:(clia)) as (s' & x' & Hrun & Hfs1 & Hof1 & Htc).
  rewrite Hmin in *.
  destruct (fs_state_content _ _ Hfs1) as [Hfs2 HC']. cbn [length] in Hrun. rewrite Z.add_0_r, u32_small in Hrun by clia.
  exists s'. split.
  - unfold file_read. rewrite (bind_ok _ _ _ _ _ Hrun). cbn. unfold ret, stored, fs_data, sub.
    by rewrite (open_inum _ _ _ _ _ _ Hof).
  - intros f' Ho. destruct (decide (f' = f)) as [->|Hne].
    + split; [by exists (set_f_off (f_off fl + n) fl), i, x', m|].
      by rewrite (fs_data_eq s' (content (k_fs k)) f (set_f_off (f_off fl + n) fl) i x' m), (fs_data_eq (k_fs k) (content (k_fs k)) f fl i x m).
    + eapply (touched_other (k_fs k) s' _ _ i x x' f fl _ m f' 0 []); try done; [apply Hof|].
      apply file_written_nil. rewrite <- Hcp. change (d_size (d_of x)) with (i_size x). lia.
Qed.

#[export] Instance file_spec : FileSpec.
Proof.
  refine {| fopen := fs_open; fdata := fs_data; fits := fs_fits |}.
  - apply fs_data_bytes.
  - intros s f (fl & i & x & n & _ & Hof). exists fl. apply Hof.
  - apply fs_open_off.
  - apply fs_data_off.
  - intros s f f' off o n [? ?]. split; [done|]. by rewrite fs_data_off.
  - apply fs_write_ok.
  - apply fs_read_ok.
Defined.
End instance.
