(* ===== verification/SamplePaged.v ===== *)
(** A process that pages: sixteen pages in memory, one in the swap file of [SampleFs.v].  The
    theorems on paging are instantiated on it. *)

From S2P Require Import Prelude Params Bytes State Spinlock Mem Kalloc PageTable Uaccess Procs Sched SchedSpec Bio BioSpec CacheSpec BlockSpec Log LogSpec CommitSpec CrashSpec Inode BallocSpec DiskSpec BmapSpec DinodeSpec Console Fs WriteSpec ReadSpec File FsSpec Sample SampleFs Queue QueueSpec Swap SwapSpec FaultSpec SwapFile.

#[global] Instance sample_build : build := {| SELECTION := SCFIFO; VERBOSE_PRINT := false |}.

Definition sample_pd : Z := 0x80400000.
Definition sample_pt : Z := 0x80401000.
Definition sample_free : list Z := [0x80402000].
Definition sample_frame (i : nat) : Z := 0x80500000 + PGSIZE * Z.of_nat i.

(** Page [i] is in frame [i], for the first [n] pages. *)
Fixpoint mapped (n : nat) : memory :=
  match n with
  | O => new_table ∅ sample_pd 0 sample_pt
  | S n => wr32 (mapped n) (sample_pt + 4 * PTX (PGSIZE * Z.of_nat n)) (Z.lor (V2P (sample_frame n)) 7)
  end.
(** Page 16 is out. *)
Definition sample_mem : memory :=
  wr32 (mapped 16) (sample_pt + 4 * PTX (PGSIZE * 16)) 0x206.

Lemma table_zero pd i : table ∅ pd i = None.
Proof. done. Qed.

Lemma aspace_zero pd l : page_ok pd → pd ∉ l → aspace ∅ pd l.
Proof.
  intros Hp Hl. assert (Hr : ∀ r p, role_page ∅ pd r = Some p → r = RDir ∧ p = pd).
  { intros [|i|n] p; cbn; [by intros [= ->]|by rewrite table_zero; destruct (_ && _)|].
    by destruct (_ && _). }
  split; [by intros r p [-> ->]%Hr|]. by intros r r' p [-> _]%Hr [-> _]%Hr.
Qed.

Lemma mapped_ok (n : nat) : (n ≤ 16)%nat →
  aspace (mapped n) sample_pd sample_free ∧ table (mapped n) sample_pd 0 = Some sample_pt ∧
  ∀ r p, role_page (mapped n) sample_pd r = Some p → p < sample_frame n.
Proof.
  induction n as [|n IH]; intros Hn.
  - assert (Has : aspace ∅ sample_pd (sample_pt :: sample_free)) by (apply aspace_zero; compute_done).
    split_and!.
    + cbn [mapped]. apply aspace_new; [done|compute_done..|done].
    + cbn [mapped]. rewrite (table_new _ _ _ _ _ 0 Has); done || compute_done.
    + cbn [mapped]. intros r p. rewrite (role_new _ _ _ _ _ _ Has); [|compute_done|done].
      case_decide; [by intros [= <-]|]. destruct r as [|i|j]; cbn; [by intros [= <-]|by rewrite table_zero; destruct (_ && _)|].
      by destruct (_ && _).
  - destruct IH as (Has & Ht & Hr); [lia|]. cbn [mapped]. set (va := PGSIZE * Z.of_nat n). set (f := sample_frame n) in *.
    assert (Hva : 0 ≤ va < 65536) by (unfold va; clia). assert (HP : PDX va = 0) by (rewrite PDX_eq; clia).
    rewrite <- HP in Ht. assert (Hf : page_ok f) by (unfold f, sample_frame, page_ok, kend, sample_link; clia).
    destruct (entry_page f 7 Hf) as [Hu Ha]; [lia|]. set (e := Z.lor (V2P f) 7) in *.
    split_and!.
    + apply aspace_set; [done|clia|done|]. rewrite Hu, Ha. intros _ _. split_and!; [done| |].
      * unfold sample_free, f, sample_frame. rewrite list_elem_of_singleton. clia.
      * intros r _ Hrf%Hr. lia.
    + by rewrite <- HP, (table_set _ _ _ _ _ _ _ Has Ht) by apply PDX_range.
    + assert (Hvk : 0 ≤ va < KERNBASE) by clia. assert (Hv32 : 0 ≤ va < 2 ^ 32) by clia.
      assert (Hlt : f < sample_frame (S n)) by (unfold f, sample_frame; clia).
      intros r p. destruct (decide (r = RUser (va / PGSIZE))) as [->|Hne].
      * rewrite (role_set_eq _ _ _ _ _ _ Has Hvk Ht), Hu, Ha. destruct (has_P e); [intros [= <-]|]; done.
      * rewrite (role_set_ne _ _ _ _ _ _ _ Has Hv32 Ht Hne). intros Hp%Hr. lia.
Qed.

Lemma sample_aspace : aspace sample_mem sample_pd sample_free.
Proof.
  destruct (mapped_ok 16) as (Has & Ht & _); [lia|]. unfold sample_mem.
  assert (HP : PDX (PGSIZE * 16) = 0) by done. rewrite <- HP in Ht.
  apply aspace_set; [exact Has|clia|exact Ht|]. by intros [=].
Qed.

Definition sample_pages : list page :=
  ((λ i, mkPage (PGSIZE * i) (-1) 1 1 0) <$> seqZ 0 16) ++ [mkPage (PGSIZE * 16) 0 0 1 0]
  ++ replicate 15 (mkPage 0 (-1) 0 0 0).
Definition sample_pg : paging := mkPaging sample_pages PGSIZE 17 1 0 1 (seqZ 0 16) (replicate 16 (-1)).

Lemma all_pages (P : nat → page → Prop) : Forall (λ '(i, d), P i d) (imap pair sample_pages) →
  ∀ i d, pagesDS sample_pg !! i = Some d → P i d.
Proof.
  intros Hall i d Hd. rewrite Forall_forall in Hall. apply (Hall (i, d)). apply list_elem_of_lookup. exists i.
  rewrite list_lookup_imap. cbn in Hd. by rewrite Hd.
Qed.

Lemma sample_inv : pg_inv sample_mem sample_pd sample_pg (file_data img swap_dinode) (seqZ 0 16) [].
Proof.
  split.
  - done.
  - split; [done|done|compute_done].
  - split; [cbn; lia|done|constructor].
  - apply NoDup_seqZ.
  - refine (all_pages _ _). compute_done.
  - refine (all_pages _ _). compute_done.
  - intros x Hx%elem_of_seqZ. lia.
  - refine (all_pages _ _). compute_done.
  - intros i j d e Hd Ha Hlt He.
    assert (Hall : ∀ i d, pagesDS sample_pg !! i = Some d →
      isAllocated d = 1 → Forall (λ e, v_address e ≠ v_address d) (take i sample_pages)) by (refine (all_pages _ _); compute_done).
    pose proof (Hall i d Hd Ha) as Hi. rewrite Forall_lookup in Hi. apply (Hi j e). by rewrite lookup_take_lt.
  - refine (all_pages _ _). compute_done.
  - refine (all_pages _ _). compute_done.
  - compute_done.
  - unfold slot_ok. compute_done.
  - done.
  - done.
Qed.

Definition paging_proc : proc := set_pg sample_pg (set_swapFile (Some 0%nat) (set_pgdir sample_pd sample_proc)).
Definition paged_kernel : kernel :=
  mkKernel (set_cr2 0x10123 (set_cr3 (V2P sample_pd) sample_mach)) (mkVmem sample_mem 0x80402000 0 0)
    (mkPtab (paging_proc :: replicate 63 unused_proc) (Some 0%nat) 4 0 0 0) image (k_cons sample_kernel).

Lemma sample_paged : paged paged_kernel 0 paging_proc 0 sample_free (seqZ 0 16) [].
Proof.
  destruct (fs_state_content _ _ image_state) as [Hfs HC].
  split; try done.
  - exists 0%nat, (mkCpu 0 0 FL_IF (Some 0%nat) 1 0). split; [destruct sample_cpu; by split|done].
  - by left.
  - by apply (sample_ready _ paging_proc 0x10123 (V2P sample_pd)).
  - split; [split; vm_compute; done|compute_done|compute_done].
  - apply sample_aspace.
  - exists swap_file_entry, 0%nat, swap_inode, 2. split; [done|apply image_open].
  - replace (fdata image 0) with (file_data img swap_dinode); [apply sample_inv|]. symmetry.
    change (fdata image 0) with (fs_data image 0). rewrite (fs_data_eq image img 0 _ _ _ _ HC image_open). by rewrite image_nd.
Qed.
