(* ===== verification/PagingThms.v ===== *)
(** The theorems on paging, each with an instance on the process of [SamplePaged.v]. *)

From S2P Require Import Prelude Params Bytes State Spinlock Mem Kalloc PageTable Uaccess Procs Sched SchedSpec Bio BioSpec CacheSpec BlockSpec Log LogSpec CommitSpec CrashSpec Inode BallocSpec DiskSpec BmapSpec DinodeSpec Console Fs WriteSpec ReadSpec File FsSpec Sample SampleFs FsThms Queue QueueSpec Swap SwapSpec FaultSpec SwapFile SamplePaged.

Section paging.
Context {W : world} {DW : DiskWorld} `{link} `{build}.
Implicit Types (k : kernel) (p f : nat) (pr : proc) (l q o : list Z).

(** C1: A page fault on a page that is in the swap file brings the page back, and
    the process does not notice: the tables and the swap file are consistent
    again, the page is present, every byte of the address space reads as before,
    and no other open file has changed.  This holds with the swap file on the
    file system, for every replacement policy, whether or not a page has to
    leave memory first. *)
Theorem page_fault_transparent k p pr f l q o va (i : nat) d :
  SELECTION ≠ NONE → paged k p pr f l q o → cr2 (k_mach k) = va → 0 ≤ va < KERNBASE →
  swapped_at (pg pr) va i d → fault_ready k pr f l q o →
  ∃ v g s l' q' o', page_fault k = Ok tt (put p v g s k) ∧
    paged (put p v g s k) p (set_pg g pr) f l' q' o' ∧
    has_P (pte (mem v) (pgdir pr) va) = true ∧
    (∀ f', f' ≠ f → fopen (k_fs k) f' → fopen s f' ∧ fdata s f' = fdata (k_fs k) f') ∧
    ∀ a, 0 ≤ a < KERNBASE → view (put p v g s k) (set_pg g pr) f a = view k pr f a.
Proof. apply page_fault_run. Qed.

(** C12: [swapToFile] moves one page of a process with sixteen pages in memory to
    its swap file and returns the frame the page was in, which now belongs to
    no page; the process sees the same memory, and no other open file has changed. *)
Theorem swapToFile_transparent k p pr f l q o :
  SELECTION ≠ NONE → paged k p pr f l q o → length q = 16%nat → fits (k_fs k) f (next_off (pg pr) o) PGSIZE →
  ∃ fr v g s x q', swapToFile (pgdir pr) k = Ok fr (put p v g s k) ∧ q ≡ₚ x :: q' ∧
    paged (put p v g s k) p (set_pg g pr) f (fr :: l) q' (tail o) ∧
    (∀ f', f' ≠ f → fopen (k_fs k) f' → fopen s f' ∧ fdata s f' = fdata (k_fs k) f') ∧
    ∀ va, 0 ≤ va < KERNBASE → view (put p v g s k) (set_pg g pr) f va = view k pr f va.
Proof.
  intros Hsel Hpd Hl Hfit.
  destruct (swapToFile_run k p pr f l q o Hsel Hpd Hl Hfit) as (fr & v & g & s & x & q' & ? & ? & ? & ? & _ & ?).
  by exists fr, v, g, s, x, q'.
Qed.

(** C31: What is written to the swap file of a process is read back from the same
    place; the rest of the file and all other open files are unchanged. *)
Theorem swap_file_roundtrip k p pr f buf dst off bs :
  let n := Z.of_nat (length bs) in
  procs (k_pt k) !! p = Some pr → swapFile pr = Some f → fs_ready k → fopen (k_fs k) f → bs ≠ [] →
  0 ≤ off ≤ Z.of_nat (length (fdata (k_fs k) f)) → fits (k_fs k) f off n →
  0 ≤ buf < 2 ^ 32 → vbytes k buf n = Some bs → KERNBASE ≤ dst → dst + n ≤ 2 ^ 32 →
  ∃ s, (writeToSwapFile p buf off n;; readFromSwapFile p dst off n) k = Ok n (set_k_fs s (stored dst bs k)) ∧
    fopen s f ∧ fdata s f = splice (fdata (k_fs k) f) (Z.to_nat off) bs ∧
    ∀ f', f' ≠ f → fopen (k_fs k) f' → fopen s f' ∧ fdata s f' = fdata (k_fs k) f'.
Proof.
  intros n Hp Hf Hr Ho Hnil Hoff Hfit Hb Hv Hd1 Hd2.
  assert (Hn : 0 < n) by (unfold n; destruct bs; [done|cbn; lia]).
  destruct (write_swap k p pr f buf off n bs Hp Hf Hr Ho Hoff Hn Hfit Hb Hv) as (s & Hw & Ho' & Hdata & Hoth).
  assert (Hlen : (Z.to_nat off + length bs ≤ length (fdata s f))%nat).
  { rewrite Hdata, length_splice by lia. lia. }
  destruct (read_swap (set_k_fs s k) p pr f dst off n Hp Hf (fs_ready_fs _ _ Hr) Ho') as (s' & Hrd & Hoth');
    [lia|done|change (k_fs (set_k_fs s k)) with s; unfold n; lia|done|done|].
  assert (Hbs : take (Z.to_nat n) (drop (Z.to_nat off) (fdata s f)) = bs).
  { rewrite Hdata. unfold n. rewrite Nat2Z.id. apply sub_splice_eq. lia. }
  cbn [k_fs set_k_fs] in Hrd. rewrite Hbs in Hrd. exists s'. split_and!.
  - by rewrite (bind_ok _ _ _ _ _ Hw).
  - by apply Hoth'.
  - rewrite <- Hdata. by apply Hoth'.
  - intros f' Hne Hf'. destruct (Hoth f' Hne Hf') as [Hf1 <-]. by apply Hoth'.
Qed.

(** C18: [removeSCFIFO] is the second-chance policy: the pages at the head of the
    queue that were accessed go to the back and lose their accessed bit, and no
    other bit of the page table changes; the first page that was not accessed is
    chosen, or the oldest page when all were. *)
Theorem removeSCFIFO_second_chance k p pr f l q o :
  paged k p pr f l q o → length q = 16%nat →
  ∃ x q' cl v, second_chance (accessed (mem (k_vm k)) (pgdir pr) (pg pr)) q = Some (x, q', cl) ∧
    removeSCFIFO k = Ok x (put p v (set_inRAMQueue (arr q') (pg pr)) (k_fs k) k) ∧ q ≡ₚ x :: q' ∧
    A_cleared (pgdir pr) (mem (k_vm k)) (mem v) (vpn_of (pg pr) <$> cl).
Proof.
  intros [Hrun Hp _ _ _ Hk Has _ _ Hi] Hl.
  destruct (removeSCFIFO_run k p pr l q _ Hrun Hp (pi_queue _ _ _ _ _ _ Hi) (pi_vpns _ _ _ _ _ _ Hi) Hk Has
    (pi_resident _ _ _ _ _ _ Hi) eq_refl (or_introl Hl)) as (x & q' & cl & v & Hsc & Hr & _ & Hc).
  exists x, q', cl, v. split_and!; [done| |by eapply second_chance_perm|done]. rewrite Hr. by destruct k.
Qed.

Lemma paged_ages k p pr f l q o : paged k p pr f l q o → ∃ ags, queue_ages (pg pr) q ags.
Proof.
  intros [_ _ _ _ _ _ _ _ _ Hi]. apply queue_ages_exist, Forall_forall. intros x Hx.
  destruct (pi_page _ _ _ _ _ _ _ Hi Hx) as (d & _ & Hd & _). by apply aget_Some_range in Hd.
Qed.

(** An operation on the paging data of the running process. *)
Lemma curproc_pg {A} (m : M kerr paging A) k p pr f l q o a g :
  paged k p pr f l q o → m (pg pr) = Ok a g → (p ← curproc; on_pg p m) k = Ok a (put p (k_vm k) g (k_fs k) k).
Proof.
  intros [Hrun Hp _ _ _ _ _ _ _ _] Hm. rewrite (bind_ok _ _ _ _ _ (curproc_runs k p Hrun)).
  rewrite (on_pg_ok m k p pr a g Hp Hm). by destruct k.
Qed.

(** C37: [removeNFUA] takes the page with the least age out of the queue, the one
    closest to the head when several have that age. *)
Theorem removeNFUA_least_age k p pr f l q o :
  paged k p pr f l q o → length q = 16%nat →
  ∃ ags j x, queue_ages (pg pr) q ags ∧ first_min Z.lt ags j ∧ q !! j = Some x ∧
    removeNFUA k = Ok x (put p (k_vm k) (set_inRAMQueue (arr (delete j q)) (pg pr)) (k_fs k) k).
Proof.
  intros Hpd Hl. destruct (paged_ages _ _ _ _ _ _ _ Hpd) as [ags Hages].
  destruct (removeNFUA_pg_ok (pg pr) q ags) as (j & x & Hj & Hmin & Hm); [apply Hpd|done..|].
  exists ags, j, x. split_and!; try done. by eapply curproc_pg.
Qed.

(** C38: [removeLAPA] takes the page whose age has the fewest bits set out of the
    queue; among those with as few bits the one with the least age {e read as a
    signed number}, and the one closest to the head when these agree. *)
Theorem removeLAPA_fewest_bits k p pr f l q o :
  paged k p pr f l q o → length q = 16%nat →
  ∃ ags j x, queue_ages (pg pr) q ags ∧ first_min lapa_lt ags j ∧ q !! j = Some x ∧
    removeLAPA k = Ok x (put p (k_vm k) (set_inRAMQueue (arr (delete j q)) (pg pr)) (k_fs k) k).
Proof.
  intros Hpd Hl. destruct (paged_ages _ _ _ _ _ _ _ Hpd) as [ags Hages].
  destruct (removeLAPA_pg_ok (pg pr) q ags) as (j & x & Hj & Hmin & Hm); [apply Hpd|done..|].
  exists ags, j, x. split_and!; try done. by eapply curproc_pg.
Qed.

(** With the queue of resident pages full, [insert] reads past the end of its
    array: its loop has no bound but a free slot. *)
Theorem insert_full_out_of_bounds k p pr f l q o x :
  paged k p pr f l q o → length q = 16%nat → insert x k = Err (UB "array") k.
Proof.
  intros [Hrun Hp _ _ _ _ _ _ _ Hi] Hl. unfold insert. rewrite (bind_ok _ _ _ _ _ (curproc_runs k p Hrun)).
  erewrite on_pg_err; [|done|apply (insert_pg_full _ q); [apply Hi|done]].
  f_equal. eapply upd_proc_same; [done|]. by destruct pr.
Qed.

Lemma alloc_vpns_nodup m pd g data q o : pg_inv m pd g data q o → NoDup (alloc_vpns (pagesDS g)).
Proof.
  intros Hi. assert (Hgo : ∀ ds n, drop n (pagesDS g) = ds → NoDup (alloc_vpns ds)); [|by apply (Hgo _ 0%nat)].
  induction ds as [|d ds IH]; intros n Hds; [constructor|].
  assert (Hd : pagesDS g !! n = Some d) by (rewrite <- (Nat.add_0_r n), <- lookup_drop; by rewrite Hds).
  assert (Hrest : drop (S n) (pagesDS g) = ds) by (rewrite <- Nat.add_1_r, <- drop_drop; by rewrite Hds).
  unfold alloc_vpns. cbn. destruct (Z.eqb_spec (isAllocated d) 1) as [Ha|]; [|by apply (IH (S n))].
  apply NoDup_cons. split; [|by apply (IH (S n))]. intros (e & He & Hev)%list_elem_of_omap.
  destruct (Z.eqb_spec (isAllocated e) 1) as [Hae|]; [|done]. injection Hev as Hev.
  apply list_elem_of_lookup in He as [j Hj]. rewrite <- Hrest, lookup_drop in Hj.
  destruct (pi_va _ _ _ _ _ _ Hi _ _ Hd Ha), (pi_va _ _ _ _ _ _ Hi _ _ Hj Hae).
  assert (n = (S n + j)%nat); [|lia]. eapply (pi_distinct _ _ _ _ _ _ n (S n + j) d e); try done. clia.
Qed.

(** At a clock tick [agePages] shifts the age of every allocated page right and
    puts its accessed bit in front, and clears exactly the accessed bits it has
    read. *)
Theorem agePages_shifts k p pr f l q o :
  paged k p pr f l q o → let m := mem (k_vm k) in
  ∃ v, agePages k = Ok tt (put p v (set_pagesDS (aged m (pgdir pr) <$> pagesDS (pg pr)) (pg pr)) (k_fs k) k) ∧
    A_cleared (pgdir pr) m (mem v) (tick_pages m (pgdir pr) (pagesDS (pg pr))).
Proof.
  intros [Hrun Hp _ _ _ Hk Has _ _ Hi] m.
  destruct (agePages_run k p pr l Hrun Hp Hk Has (pi_len _ _ _ _ _ _ Hi)) as (v & Hr & _ & Hc).
  - apply Forall_forall. intros d [i Hd]%list_elem_of_lookup Ha.
    destruct (pi_va _ _ _ _ _ _ Hi i d Hd Ha) as [Hv _]. split; [done|].
    destruct (pi_flags _ _ _ _ _ _ Hi i d Hd) as [_ [Hr|Hr]].
    + destruct (pi_swap _ _ _ _ _ _ Hi i d Hd Ha Hr) as [_ ->]. apply orb_true_r.
    + by destruct (pi_ram _ _ _ _ _ _ Hi i d Hd Ha Hr) as [-> _].
  - by eapply alloc_vpns_nodup.
  - exists v. split; [|done]. rewrite Hr. by destruct k.
Qed.

(** C39: Deallocating a page frees its entry, and takes the page out of the queue of
    resident pages when it was in memory, or makes its place in the swap file
    available when it was not. *)
Theorem deallocatePage_releases k p pr f l q o (i : nat) d :
  paged k p pr f l q o → pagesDS (pg pr) !! i = Some d → isAllocated d = 1 → (length o < 16)%nat →
  let g := set_pagesDS (<[i := no_page]> (pagesDS (pg pr))) (pg pr) in
  if in_RAM d =? 1 then
    ∃ j, q !! j = Some (Z.of_nat i) ∧
      deallocatePage (v_address d) k = Ok tt (put p (k_vm k) (set_inRAMQueue (arr (delete j q)) g) (k_fs k) k)
  else
    deallocatePage (v_address d) k
    = Ok tt (put p (k_vm k) (set_availableOffsetQueue (arr (o ++ [file_offset d])) g) (k_fs k) k).
Proof.
  intros Hpd Hd Ha Ho g. pose proof (pd_inv _ _ _ _ _ _ _ Hpd) as Hi. pose proof (pi_len _ _ _ _ _ _ Hi) as Hlen.
  assert (He : entry_for (pg pr) (v_address d) i d).
  { split_and!; [done|lia|done|]. intros j e Hj He. right. by eapply (pi_first _ _ _ _ _ _ Hi). }
  pose proof (pi_inq _ _ _ _ _ _ Hi i d Hd) as Hin.
  destruct (pi_flags _ _ _ _ _ _ Hi i d Hd) as [_ [Hr|Hr]]; rewrite Hr; cbn [Z.eqb].
  - destruct (slot_bytes _ _ _ _ _ _ i d Hi Hd Ha Hr) as [[Hs _] _]. eapply curproc_pg; [done|].
    apply (deallocatePage_pg_swapped _ q); try done; [apply Hi| |apply Hi]. rewrite Hin. lia.
  - assert (Hq : Z.of_nat i ∈ q) by (by apply Hin). apply list_elem_of_lookup in Hq as [j Hj]. exists j. split; [done|].
    eapply curproc_pg; [done|]. apply (deallocatePage_pg_ram _ _ _ _ d); try done; [lia|apply Hi..].
Qed.

(** The queue that is meant to advance at a clock tick under the [AQ] policy
    does not: the loop of [advanceQueue] never runs. *)
Theorem advanceQueue_does_nothing k p pr f l q o : paged k p pr f l q o → advanceQueue k = Ok tt k.
Proof. intros Hpd. eapply advanceQueue_noop, Hpd. Qed.
End paging.

(** ** Instances *)

(** The swap file has room for a second page. *)
Lemma sample_fits : fits (k_fs paged_kernel) 0 PGSIZE PGSIZE.
Proof. split; [done|]. apply Z.leb_le. vm_compute. reflexivity. Qed.

Lemma sample_selection : SELECTION ≠ NONE.
Proof. discriminate. Qed.

Lemma sample_va : 0 ≤ 0x10123 < KERNBASE.
Proof. split; [discriminate|reflexivity]. Qed.

Lemma sample_swapped : swapped_at sample_pg 0x10123 16 (mkPage (PGSIZE * 16) 0 0 1 0).
Proof. by split_and!. Qed.

Lemma page_fault_transparent_witness :
  fault_ready paged_kernel paging_proc 0 sample_free (seqZ 0 16) [] ∧
  ∃ v g s, page_fault paged_kernel = Ok tt (put 0 v g s paged_kernel) ∧
    has_P (pte (mem v) sample_pd 0x10123) = true ∧
    view (put 0 v g s paged_kernel) (set_pg g paging_proc) 0 0x10123 = view paged_kernel paging_proc 0 0x10123.
Proof.
  assert (Hf : fault_ready paged_kernel paging_proc 0 sample_free (seqZ 0 16) []).
  { left. split; [reflexivity|apply sample_fits]. }
  split; [exact Hf|].
  destruct (page_fault_transparent paged_kernel 0 paging_proc 0 sample_free (seqZ 0 16) [] 0x10123 16 _
    sample_selection sample_paged eq_refl sample_va sample_swapped Hf)
    as (v & g & s & l' & q' & o' & Hr & _ & HP & _ & Hv).
  exists v, g, s. split; [exact Hr|]. split; [exact HP|]. apply Hv, sample_va.
Defined.

Lemma swapToFile_transparent_witness :
  ∃ fr v g s x q', swapToFile sample_pd paged_kernel = Ok fr (put 0 v g s paged_kernel) ∧ seqZ 0 16 ≡ₚ x :: q' ∧
    paged (put 0 v g s paged_kernel) 0 (set_pg g paging_proc) 0 (fr :: sample_free) q' [].
Proof.
  destruct (swapToFile_transparent paged_kernel 0 paging_proc 0 sample_free (seqZ 0 16) []
    sample_selection sample_paged eq_refl sample_fits) as (fr & v & g & s & x & q' & Hr & Hq & Hp & _).
  exists fr, v, g, s, x, q'. split; [exact Hr|]. split; [exact Hq|exact Hp].
Defined.

Lemma swap_file_roundtrip_witness :
  ∃ s, (writeToSwapFile 0 0x1000 100 5;; readFromSwapFile 0 0x80402000 100 5) paged_kernel
    = Ok 5 (set_k_fs s (stored 0x80402000 (replicate 5 0) paged_kernel)) ∧
    fdata s 0 = splice (fdata (k_fs paged_kernel) 0) 100 (replicate 5 0).
Proof.
  destruct (swap_file_roundtrip paged_kernel 0 paging_proc 0 0x1000 0x80402000 100 (replicate 5 0)) as (s & Hr & _ & Hd & _).
  - reflexivity.
  - reflexivity.
  - apply sample_paged.
  - apply sample_paged.
  - discriminate.
  - apply and_comm. split; [apply Z.leb_le; vm_compute; reflexivity|discriminate].
  - split; [discriminate|]. apply Z.leb_le. vm_compute. reflexivity.
  - split; [discriminate|reflexivity].
  - vm_compute. reflexivity.
  - discriminate.
  - discriminate.
  - exists s. split; [exact Hr|exact Hd].
Defined.

Lemma removeSCFIFO_second_chance_witness :
  ∃ q' v, removeSCFIFO paged_kernel = Ok 0 (put 0 v (set_inRAMQueue (arr q') sample_pg) image paged_kernel).
Proof.
  destruct (removeSCFIFO_second_chance paged_kernel 0 paging_proc 0 sample_free (seqZ 0 16) [] sample_paged eq_refl)
    as (x & q' & cl & v & Hs & Hr & _).
  assert (Hx : x = 0) by (vm_compute in Hs; congruence). subst x. exists q', v. exact Hr.
Defined.

Lemma removeNFUA_least_age_witness :
  ∃ j x, seqZ 0 16 !! j = Some x ∧
    removeNFUA paged_kernel = Ok x (put 0 (k_vm paged_kernel) (set_inRAMQueue (arr (delete j (seqZ 0 16))) sample_pg) image paged_kernel).
Proof.
  destruct (removeNFUA_least_age paged_kernel 0 paging_proc 0 sample_free (seqZ 0 16) [] sample_paged eq_refl)
    as (ags & j & x & _ & _ & Hj & Hr).
  exists j, x. split; [exact Hj|exact Hr].
Defined.

Lemma removeLAPA_fewest_bits_witness :
  ∃ j x, seqZ 0 16 !! j = Some x ∧
    removeLAPA paged_kernel = Ok x (put 0 (k_vm paged_kernel) (set_inRAMQueue (arr (delete j (seqZ 0 16))) sample_pg) image paged_kernel).
Proof.
  destruct (removeLAPA_fewest_bits paged_kernel 0 paging_proc 0 sample_free (seqZ 0 16) [] sample_paged eq_refl)
    as (ags & j & x & _ & _ & Hj & Hr).
  exists j, x. split; [exact Hj|exact Hr].
Defined.

Lemma insert_full_out_of_bounds_witness : insert 16 paged_kernel = Err (UB "array") paged_kernel.
Proof. exact (insert_full_out_of_bounds paged_kernel 0 paging_proc 0 sample_free (seqZ 0 16) [] 16 sample_paged eq_refl). Defined.

Lemma agePages_shifts_witness :
  ∃ v g, agePages paged_kernel = Ok tt (put 0 v g image paged_kernel).
Proof.
  destruct (agePages_shifts paged_kernel 0 paging_proc 0 sample_free (seqZ 0 16) [] sample_paged) as (v & Hr & _).
  eexists v, _. exact Hr.
Defined.

Lemma deallocatePage_releases_witness :
  deallocatePage (PGSIZE * 16) paged_kernel
  = Ok tt (put 0 (k_vm paged_kernel) (set_availableOffsetQueue (arr [0])
      (set_pagesDS (<[16%nat := no_page]> sample_pages) sample_pg)) image paged_kernel).
Proof.
  exact (deallocatePage_releases paged_kernel 0 paging_proc 0 sample_free (seqZ 0 16) [] 16 (mkPage (PGSIZE * 16) 0 0 1 0)
    sample_paged eq_refl eq_refl ltac:(apply Nat.ltb_lt; reflexivity)).
Defined.

Lemma advanceQueue_does_nothing_witness : advanceQueue paged_kernel = Ok tt paged_kernel.
Proof. exact (advanceQueue_does_nothing paged_kernel 0 paging_proc 0 sample_free (seqZ 0 16) [] sample_paged). Defined.

(** The process asks for 5000 bytes of a file of 4096, into its page at 0x1000. *)
Lemma sample_buffer : buffer paged_kernel 0x1000 4096.
Proof.
  right. split; [lia|clia|exists sample_free; exact sample_aspace|]. intros va Hva.
  rewrite (pte_same_page _ _ va 0x1000) by clia. by vm_compute.
Qed.

Lemma fileread_reads_witness :
  ∃ s' m', file_read 0 0x1000 5000 paged_kernel = Ok 4096 (set_k_fs s' (with_mem m' paged_kernel)) ∧
    vbytes (with_mem m' paged_kernel) 0x1000 4096 = Some (sub (file_data img (nd img 2)) 0 4096) ∧ fs_state s' img.
Proof.
  destruct (fileread_reads paged_kernel img 0 swap_file_entry 0 swap_inode 2 0x1000 5000) as (s' & m' & x' & Hr & Hv & _ & Hfs & _).
  - apply sample_paged.
  - exact image_state.
  - exact image_open.
  - exact sample_buffer.
  - split; [discriminate|reflexivity].
  - split; discriminate.
  - split; [discriminate|reflexivity].
  - exists s', m'. split; [exact Hr|]. split; [exact Hv|exact Hfs].
Defined.
