(* ===== verification/VmThms.v ===== *)
(** Instances of the theorems on page tables, on the address space of [SamplePaged.v], and [wait], which
    gives back everything a dead child still holds. *)

From S2P Require Import Prelude Params State Spinlock Mem Kalloc PageTable Procs Sched SchedSpec Sample SampleFs Queue Swap Vm VmSpec Proc SwapFile SamplePaged.

Definition vm_kernel : kernel := mod_vm (λ _, mkVmem sample_mem 0x80402000 0 0) sample_kernel.

Lemma vm_kernel_ready : kmem_ready vm_kernel.
Proof. left. reflexivity. Qed.
Lemma vm_kernel_kmem : kmem_ok (k_vm vm_kernel) sample_free.
Proof. split; [split; vm_compute; reflexivity|compute_done|compute_done]. Qed.

Lemma sample_table : table sample_mem sample_pd 0 = Some sample_pt.
Proof. vm_compute. reflexivity. Qed.

(** Frame 0x80600000 is used for nothing. *)
Lemma sample_fresh : fresh sample_mem sample_pd sample_free 0x80600000.
Proof.
  destruct (mapped_ok 16) as (Has & Ht & Hr); [lia|].
  split_and!; [compute_done|compute_done|]. intros r Hp.
  assert (HP : PDX (PGSIZE * 16) = 0) by reflexivity. rewrite <- HP in Ht.
  assert (Hlt : 0x80600000 < sample_frame 16); [|vm_compute in Hlt; discriminate].
  assert (Hk : 0 ≤ PGSIZE * 16 < KERNBASE) by clia. assert (Hk' : 0 ≤ PGSIZE * 16 < 2 ^ 32) by clia.
  unfold sample_mem in Hp. destruct (decide (r = RUser (PGSIZE * 16 / PGSIZE))) as [->|Hne].
  - rewrite (role_set_eq _ _ _ _ _ _ Has Hk Ht) in Hp. discriminate Hp.
  - rewrite (role_set_ne _ _ _ _ _ _ _ Has Hk' Ht Hne) in Hp. exact (Hr r _ Hp).
Qed.

Lemma mappages_maps_page_witness :
  ∃ r v, mappages sample_pd 0x20000 PGSIZE (V2P 0x80600000) 6 vm_kernel = Ok r (set_k_vm v vm_kernel) ∧
    (r = 0 → pte (mem v) sample_pd 0x20123 = 0x600007).
Proof.
  destruct (mappages_maps_page vm_kernel sample_pd 0x20000 0x80600000 6 sample_free vm_kernel_ready vm_kernel_kmem
    sample_aspace) as (r & v & l' & Hr & _ & _ & Hres).
  - split; [discriminate|reflexivity].
  - reflexivity.
  - split; [discriminate|reflexivity].
  - exact sample_fresh.
  - vm_compute. reflexivity.
  - exists r, v. split; [exact Hr|]. intros ->. destruct Hres as [[_ Hres]|[H0 _]]; [|discriminate H0].
    rewrite Hres; [reflexivity|]. split; [discriminate|reflexivity].
Defined.

Lemma clearpteu_clears_witness :
  ∃ v, clearpteu sample_pd 0x1000 vm_kernel = Ok tt (set_k_vm v vm_kernel) ∧ pte (mem v) sample_pd 0x1fff = 0x501003.
Proof.
  destruct (clearpteu_clears vm_kernel sample_pd 0x1000 sample_free vm_kernel_kmem sample_aspace) as (v & Hr & _ & Hp).
  - split; [discriminate|reflexivity].
  - vm_compute. reflexivity.
  - exists v. split; [exact Hr|]. rewrite Hp by (split; [discriminate|reflexivity]). vm_compute. reflexivity.
Defined.

Lemma uva2ka_translates_witness : uva2ka sample_pd 0x1000 vm_kernel = Ok 0x80501000 vm_kernel.
Proof.
  assert (He : (let e := pte sample_mem sample_pd 0x1000 in if has_P e && has_U e then P2V (PTE_ADDR e) else 0) = 0x80501000)
    by (vm_compute; reflexivity).
  rewrite <- He. exact (uva2ka_translates vm_kernel sample_pd 0x1000 sample_free sample_pt sample_aspace sample_table).
Defined.

Lemma vm_kernel_cur : cur_ok vm_kernel.
Proof. exists 0%nat, sample_proc. split; [exact sample_runs|reflexivity]. Qed.

(** The entries of the sample address space are present, or empty. *)
Lemma mapped_entries (n : nat) va : (n ≤ 16)%nat → 0 ≤ va < 2 ^ 32 → has_P (pte (mapped n) sample_pd va) = true ∨ pte (mapped n) sample_pd va = 0.
Proof.
  intros Hn Hva. induction n as [|n IH].
  - right. cbn [mapped]. rewrite (pte_new _ _ sample_free); [done|apply aspace_zero; compute_done|compute_done|done].
  - destruct (mapped_ok n) as (Has & Ht & _); [lia|]. assert (HP : PDX (PGSIZE * Z.of_nat n) = 0) by (rewrite PDX_eq; clia).
    rewrite <- HP in Ht. cbn [mapped]. rewrite (pte_set _ _ _ _ _ _ _ Has) by (exact Ht || clia).
    destruct (_ =? _); [left|apply IH; lia]. rewrite has_P_bit, u32_bit, Z.lor_spec by lia. apply orb_true_r.
Qed.

Lemma mapped_swapped : swapped_ok (mapped 16) sample_pd 0 UPAGES.
Proof.
  intros va Hva Hr HP HPG. assert (Hva' : 0 ≤ va < 2 ^ 32) by clia.
  destruct (mapped_entries 16 va (Nat.le_refl 16) Hva') as [HP'|Hz]; [rewrite HP' in HP; discriminate HP|]. rewrite Hz in HPG. discriminate HPG.
Qed.

Definition free_kernel : kernel := mod_vm (λ _, mkVmem (mapped 16) 0x80402000 0 0) sample_kernel.

Lemma free_kernel_kmem : kmem_ok (k_vm free_kernel) sample_free.
Proof. split; [split; vm_compute; reflexivity|compute_done|compute_done]. Qed.

Lemma freevm_frees_witness :
  ∃ v' l', freevm sample_pd free_kernel = Ok tt (set_k_vm v' free_kernel) ∧ kmem_ok v' l' ∧
    (∀ q, q ∈ l' ↔ q ∈ sample_free ∨ ∃ r, role_page (mem (k_vm free_kernel)) sample_pd r = Some q) ∧
    (∀ a, (∀ r q, role_page (mem (k_vm free_kernel)) sample_pd r = Some q → within q PGSIZE a = false) →
       rd8 (mem v') a = rd8 (mem (k_vm free_kernel)) a) ∧
    use_lock v' = use_lock (k_vm free_kernel) ∧ kpgdir v' = kpgdir (k_vm free_kernel).
Proof.
  apply (freevm_frees free_kernel sample_pd sample_free).
  - exists 0%nat, sample_proc. split; [exact sample_runs|reflexivity].
  - left. reflexivity.
  - exact free_kernel_kmem.
  - exact (proj1 (mapped_ok 16 (Nat.le_refl 16))).
  - exact mapped_swapped.
Defined.

(** Sixteen pages in memory and one in the swap file. *)
Lemma sample_there : all_there sample_mem sample_pd 17.
Proof.
  assert (Hall : Forall (λ j, has_P (pte sample_mem sample_pd (j * PGSIZE)) || has_PG (pte sample_mem sample_pd (j * PGSIZE)) = true) (seqZ 0 17)) by compute_done.
  intros j Hj. rewrite Forall_forall in Hall. apply orb_true_iff, Hall, elem_of_seqZ. lia.
Qed.

(** The same address space with a hundred more free pages. *)
Definition more_free : list Z := (λ i, 0x80700000 + i * PGSIZE) <$> seqZ 0 100.
Definition copy_kernel : kernel := mod_vm (λ v, foldr kfree_vm v more_free) vm_kernel.

Lemma freed_ok ps : ∀ v l, kmem_ok v l → aspace (mem v) sample_pd l → Forall page_ok ps → NoDup ps → (∀ p, p ∈ ps → p ∉ l) →
  (∀ p r, p ∈ ps → role_page (mem v) sample_pd r ≠ Some p) → let v' := foldr kfree_vm v ps in
  kmem_ok v' (ps ++ l) ∧ aspace (mem v') sample_pd (ps ++ l) ∧ (∀ va, pte (mem v') sample_pd va = pte (mem v) sample_pd va) ∧
  (∀ r, role_page (mem v') sample_pd r = role_page (mem v) sample_pd r) ∧ use_lock v' = use_lock v.
Proof.
  induction ps as [|p ps IH]; intros v l Hk Has Hok Hnd Hl Hr; [done|]. apply Forall_cons in Hok as [Hp Hok]. apply NoDup_cons in Hnd as [Hnp Hnd].
  destruct (IH v l Hk Has Hok Hnd) as (Hk1 & Has1 & Hpte & Hrole & Hul); [set_solver|set_solver|]. cbn [foldr app].
  destruct (aspace_kfree _ _ _ p Has1 Hp) as (Has2 & Hpte2 & Hrole2); [intros r; rewrite Hrole; apply Hr; set_solver|].
  split_and!; [apply kfree_vm_ok; [done|set_solver|done]|done|intros va; by rewrite Hpte2|intros r; by rewrite Hrole2|by rewrite <- Hul].
Qed.

(** The frames in use are below 0x80700000. *)
Lemma sample_low r p : role_page sample_mem sample_pd r = Some p → p < 0x80700000.
Proof.
  destruct (mapped_ok 16) as (Has & Ht & Hr); [lia|]. assert (HP : PDX (PGSIZE * 16) = 0) by reflexivity. rewrite <- HP in Ht.
  assert (Hk : 0 ≤ PGSIZE * 16 < KERNBASE) by clia. assert (Hk' : 0 ≤ PGSIZE * 16 < 2 ^ 32) by clia.
  intros Hp. unfold sample_mem in Hp. destruct (decide (r = RUser (PGSIZE * 16 / PGSIZE))) as [->|Hne].
  - rewrite (role_set_eq _ _ _ _ _ _ Has Hk Ht) in Hp. discriminate Hp.
  - rewrite (role_set_ne _ _ _ _ _ _ _ Has Hk' Ht Hne) in Hp. transitivity (sample_frame 16); [exact (Hr r _ Hp)|vm_compute; reflexivity].
Qed.

Lemma copy_kernel_ok : let v := k_vm copy_kernel in
  kmem_ok v (more_free ++ sample_free) ∧ aspace (mem v) sample_pd (more_free ++ sample_free) ∧
  (∀ va, pte (mem v) sample_pd va = pte sample_mem sample_pd va) ∧ kmem_ready copy_kernel.
Proof.
  assert (Hin : ∀ p, p ∈ more_free → 0x80700000 ≤ p).
  { intros p (i & -> & Hi%elem_of_seqZ)%list_elem_of_fmap. clia. }
  destruct (freed_ok more_free (k_vm vm_kernel) sample_free vm_kernel_kmem sample_aspace) as (H1 & H2 & H3 & _ & H5).
  - compute_done.
  - compute_done.
  - intros p Hp%Hin Hs. apply list_elem_of_singleton in Hs as ->. vm_compute in Hp. by apply Hp.
  - intros p r Hp%Hin Hr%sample_low. lia.
  - split_and!; [exact H1|exact H2|exact H3|]. left. exact H5.
Qed.

Lemma copy_takes : copy_needs (mem (k_vm copy_kernel)) sample_pd 17 = 82%nat.
Proof.
  destruct copy_kernel_ok as (_ & _ & Hpte & _). revert Hpte. generalize (mem (k_vm copy_kernel)). intros m Hpte.
  assert (Hp : present m sample_pd 17 = present sample_mem sample_pd 17).
  { apply list_filter_iff. intros j. by rewrite (Hpte (j * PGSIZE)). }
  unfold copy_needs, user_tables. rewrite Hp. vm_compute. reflexivity.
Qed.

(** There is enough memory for the copy, so it is made. *)
Lemma copyuvm_copies_witness :
  ∃ d v l', copyuvm sample_pd 0x10800 copy_kernel = Ok d (set_k_vm v copy_kernel) ∧ d ≠ 0 ∧
    made d (more_free ++ sample_free) v l' ∧ (∀ j, 0 ≤ j < 17 → copied (mem (k_vm copy_kernel)) sample_pd (mem v) d j) ∧
    (∀ va, 0 ≤ va < KERNBASE → 17 ≤ va / PGSIZE → pte (mem v) d va = 0).
Proof.
  destruct copy_kernel_ok as (Hk & Has & Hpte & Hrd).
  destruct (copyuvm_copies copy_kernel sample_pd (more_free ++ sample_free) 0x10800) as (d & v & l' & Hr & _ & _ & Hres).
  - exact vm_kernel_cur.
  - exact Hrd.
  - exact Hk.
  - exact Has.
  - split; [discriminate|vm_compute; discriminate].
  - intros j Hj. rewrite (Hpte (j * PGSIZE)). exact (sample_there j Hj).
  - exists d, v, l'. split; [exact Hr|]. destruct Hres as [Hres|(_ & Hfew & _)]; [exact Hres|].
    change ((0x10800 + PGSIZE - 1) / PGSIZE) with 17 in Hfew. rewrite copy_takes in Hfew. apply Nat.ltb_lt in Hfew. discriminate Hfew.
Defined.

(** ** [wait] *)
Section waiting.
Context `{link} `{world} `{build}.
Implicit Types (k : kernel) (p cur : nat) (q : proc) (l : list Z).

(** The slot of a child that has been waited for; [pgdir] is left dangling. *)
Definition reaped q : proc :=
  set_state UNUSED (set_killed 0 (set_pname (<[0%nat := 0]> (pname q)) (set_parent None (set_pid 0 (set_kstack 0 q))))).

(** The memory of a dead process: its kernel stack and its address space, none of it free. *)
Record corpse k q l : Prop := {
  co_kmem : kmem_ok (k_vm k) l;
  co_stack : page_ok (kstack q) ∧ kstack q ∉ l;
  co_space : aspace (mem (k_vm k)) (pgdir q) l;
  co_apart : ∀ r, role_page (mem (k_vm k)) (pgdir q) r ≠ Some (kstack q);
  co_swapped : swapped_ok (mem (k_vm k)) (pgdir q) 0 UPAGES
}.

Lemma corpse_mach k q l m : corpse k q l → corpse (set_k_mach m k) q l.
Proof. by intros []. Qed.

Lemma reap_frees k p q l :
  cur_ok k → kmem_ready k → procs (k_pt k) !! p = Some q → corpse k q l →
  ∃ v' l', (∀ (f : K Z),
    (kfree (kstack q);; mod_proc p (set_kstack 0);; freevm (pgdir q) ;; f) k =
      f (set_k_vm v' (upd_proc p (set_kstack 0) k))) ∧ kmem_ok v' l' ∧
    (∀ x, x ∈ l' ↔ x ∈ l ∨ x = kstack q ∨ ∃ r, role_page (mem (k_vm k)) (pgdir q) r = Some x) ∧
    (∀ a, within (kstack q) PGSIZE a = false →
      (∀ r x, role_page (mem (k_vm k)) (pgdir q) r = Some x → within x PGSIZE a = false) →
      rd8 (mem v') a = rd8 (mem (k_vm k)) a).
Proof.
  intros Hcur Hrd Hq [Hk [Hs Hsl] Has Hap Hsw]. pose proof (kfree_vm_ok _ _ _ Hs Hsl Hk) as Hk1.
  destruct (aspace_kfree _ _ _ _ Has Hs Hap) as (Has1 & Hpte & Hrole).
  set (k1 := upd_proc p (set_kstack 0) (mod_vm (kfree_vm (kstack q)) k)).
  destruct (freevm_ok k1 (pgdir q) (kstack q :: l)) as (v' & l' & Hf & Hk' & Hl' & Hm & _).
  - destruct Hcur as (c & qc & Hr & Hc). exists c. destruct (decide (p = c)) as [<-|Hne].
    + eexists. split; [done|]. by apply upd_proc_lookup.
    + exists qc. split; [done|]. unfold k1. by rewrite upd_proc_ne.
  - destruct Hrd as [?|?]; [left|right]; [|done]. cbn. by destruct (k_vm k).
  - exact Hk1.
  - exact Has1.
  - intros va Hva Hr. cbn. rewrite Hpte. by apply Hsw.
  - exists v', l'. split_and!; [|done| |].
    + intros f. rewrite (bind_ok _ _ _ _ _ (kfree_run _ _ Hs Hrd)). unfold mod_proc. rewrite bind_modify.
      fold k1. rewrite (bind_ok _ _ _ _ _ Hf). by destruct k.
    + intros x. rewrite Hl', elem_of_cons. cbn. setoid_rewrite Hrole. tauto.
    + intros a Ha Ha'. rewrite Hm; [by apply rd8_kfree_vm|]. intros r x. cbn. rewrite Hrole. apply Ha'.
Qed.

(** A child of [cur] that has ended: its parent is [cur], and it is a zombie. *)
Definition ended cur q : Prop := parent q = Some cur ∧ state q = ZOMBIE.

Lemma find_zombie_first cur (ps : list proc) p q :
  ps !! p = Some q → ended cur q → (∀ p' q', (p' < p)%nat → ps !! p' = Some q' → ¬ ended cur q') → find_zombie cur ps = Some p.
Proof.
  intros Hp Hq Hfirst. unfold find_zombie. erewrite (proj2 (list_find_Some _ ps p q)); [done|].
  split; [done|]. split; [done|]. intros p' q' Hp' Hlt. by apply (Hfirst p').
Qed.

(** C25: Nothing of a dead child is lost.  When a child of the caller has ended (its parent is the
    caller, its state is ZOMBIE), [wait] returns the pid of the first such child in the table and
    makes its slot free for another process; its kernel stack, page tables and frames, and no other
    page, have become free, each once; all other memory, all other processes and the locks are as
    before. *)
Theorem wait_reaps k cur qc p q l :
  in_proc k cur qc → avail Lptable (k_mach k) → kmem_ready k →
  procs (k_pt k) !! p = Some q → parent q = Some cur → state q = ZOMBIE →
  (∀ p' q', (p' < p)%nat → procs (k_pt k) !! p' = Some q' → ¬ (parent q' = Some cur ∧ state q' = ZOMBIE)) →
  corpse k q l →
  ∃ v' l', wait k = Ok (pid q) (set_k_vm v' (upd_proc p reaped k)) ∧ kmem_ok v' l' ∧
    (∀ x, x ∈ l' ↔ x ∈ l ∨ x = kstack q ∨ ∃ r, role_page (mem (k_vm k)) (pgdir q) r = Some x) ∧
    (∀ a, within (kstack q) PGSIZE a = false →
      (∀ r x, role_page (mem (k_vm k)) (pgdir q) r = Some x → within x PGSIZE a = false) →
      rd8 (mem v') a = rd8 (mem (k_vm k)) a).
Proof.
  intros Hin Ha Hrd Hq Hpar Hst Hfirst Hco. pose proof (in_proc_runs _ _ _ Hin) as Hrun.
  pose proof (find_zombie_first cur _ p q Hq (conj Hpar Hst) Hfirst) as Hz.
  unfold wait. rewrite (bind_ok _ _ _ _ _ (curproc_runs k cur Hrun)), (bind_ok _ _ _ _ _ (acquire_ok _ _ Ha)).
  set (kl := mod_mach (hold Lptable) k).
  destruct (reap_frees kl p q l) as (v' & l' & Hf & Hk' & Hl' & Hm); [| |done|by apply corpse_mach|].
  { destruct Hin as ((i & c & Hc & _ & Hp) & Hcq & _). exists cur, qc. split; [|done].
    exists i, (set_ncli (ncli c + 1) c). split; [by apply cpu_ok_hold|done]. }
  { destruct Hrd as [?|?]; [by left|right]. by apply avail_hold. }
  exists v', l'. split_and!; [|done..].
  destruct patience as [|n]; cbn [wait_loop]; rewrite bind_gets; change (procs (k_pt kl)) with (procs (k_pt k)); rewrite Hz;
    unfold reap; rewrite (bind_ok _ _ _ _ _ (get_proc_ok kl p q Hq)), Hf; unfold mod_proc; rewrite !bind_modify;
    erewrite bind_ok by (apply (release_ok Lptable _ (k_mach k) Ha); reflexivity).
  all: unfold ret; f_equal; unfold upd_proc, mod_pt, set_k_vm, set_k_mach, set_k_pt; cbn; rewrite !list_alter_alter_eq; by destruct k.
Qed.

(** A caller without children, or one that has been killed and none of whose children has ended, gets
    -1 at once, and nothing changes. *)
Theorem wait_refuses k cur qc :
  in_proc k cur qc → avail Lptable (k_mach k) →
  (∀ p q, procs (k_pt k) !! p = Some q → ¬ ended cur q) →
  (∀ p q, procs (k_pt k) !! p = Some q → parent q ≠ Some cur) ∨ killed qc ≠ 0 → wait k = Ok (-1) k.
Proof.
  intros Hin Ha Hnone Hor. unfold wait.
  rewrite (bind_ok _ _ _ _ _ (curproc_runs k cur (in_proc_runs _ _ _ Hin))), (bind_ok _ _ _ _ _ (acquire_ok _ _ Ha)).
  destruct Hin as (_ & Hc & _). assert (Hz : find_zombie cur (procs (k_pt k)) = None).
  { unfold find_zombie. rewrite (proj2 (list_find_None _ _)); [done|]. apply Forall_lookup. intros p q Hp Hq. by apply (Hnone p q). }
  assert (Hb : negb (existsb (λ q, bool_decide (parent q = Some cur)) (procs (k_pt k))) || truthy (killed qc) = true).
  { apply orb_true_iff. destruct Hor as [Hor|Hor]; [left|right; by apply truthy_true]. apply negb_true_iff, not_true_is_false.
    intros (q & Hq & Hpar)%existsb_exists. apply bool_decide_eq_true in Hpar. apply list_elem_of_In, list_elem_of_lookup in Hq as [p Hp]. by apply (Hor p q). }
  destruct patience as [|n]; cbn [wait_loop]; rewrite bind_gets; cbn [k_pt mod_mach set_k_mach]; rewrite Hz;
    rewrite (bind_ok _ _ _ _ _ (get_proc_ok (mod_mach (hold Lptable) k) cur qc Hc)), Hb;
    erewrite bind_ok by (by apply (release_ok Lptable _ (k_mach k) Ha)); by destruct k.
Qed.
End waiting.

(** ** A child of 16 pages *)
Definition dead_child : proc :=
  set_state ZOMBIE (set_parent (Some 0%nat) (set_pid 7 (set_kstack 0x80600000 (set_pgdir sample_pd sample_proc)))).
Definition wait_kernel : kernel := mod_pt (λ t, set_procs (<[3%nat := dead_child]> (procs t)) t) free_kernel.

Lemma dead_child_corpse : corpse wait_kernel dead_child sample_free.
Proof.
  destruct (mapped_ok 16 (Nat.le_refl 16)) as (Has & _ & Hr). split.
  - exact free_kernel_kmem.
  - split; compute_done.
  - exact Has.
  - intros r Hp. assert (Hlt := Hr r _ Hp). vm_compute in Hlt. discriminate.
  - exact mapped_swapped.
Qed.

Lemma wait_reaps_witness :
  ∃ v' l', wait wait_kernel = Ok 7 (set_k_vm v' (upd_proc 3 reaped wait_kernel)) ∧ kmem_ok v' l' ∧ 0x80600000 ∈ l'.
Proof.
  destruct (wait_reaps wait_kernel 0 sample_proc 3 dead_child sample_free) as (v' & l' & Hw & Hk & Hl & _).
  - split; [|split; [reflexivity|split; reflexivity]].
    exists 0%nat, (mkCpu 0 0 FL_IF (Some 0%nat) 1 0). split; [exact sample_cpu|split; reflexivity].
  - apply sample_lock. vm_compute. reflexivity.
  - left. reflexivity.
  - reflexivity.
  - reflexivity.
  - reflexivity.
  - intros [|[|[|p']]] q' Hlt Hq'; [injection Hq' as <-; intros [[=] _]..|]. do 3 apply PeanoNat.lt_S_n in Hlt. inversion Hlt.
  - exact dead_child_corpse.
  - exists v', l'. split; [exact Hw|]. split; [exact Hk|]. apply Hl. right. left. reflexivity.
Defined.
